(* ===== verification/_CoqProject ===== *)
-Q . S2P
Prelude.v
Vocabulary.v
Terms.v
PyDate.v
PyJson.v
PyFloat.v
PyUrl.v
Regex.v
Scoping.v
BusinessDays.v
Recurrence.v
DeadlineRules.v
DeadlineCalculator.v
Escalation.v
DeadlineService.v
Conditions.v
Requirements.v
Explanations.v
Evaluator.v
Stages.v
CaseService.v
EmailState.v
JobQueue.v
CanonJson.v
JsonText.v
Crypto.v
Hashes.v
Roles.v
RecipientPolicy.v
DraftChecks.v
CommStore.v
DraftWork.v
SendApproval.v
GraphDraft.v
OutboundSend.v
SentCopy.v
SendSpec.v
SendSafety.v
SendScenario.v
SendGuarantees.v
SourceMove.v
LicensingLog.v
PacketMatching.v
PacketManifest.v
PacketService.v
PacketSafety.v
PacketGuarantees.v
LicenseInventory.v
InfoRules.v
InfoRegistry.v
InfoSafety.v
InfoGuarantees.v
PortalPolicy.v
PortalStore.v
PortalGovernance.v
PortalRuns.v
PortalSessions.v
SubmissionEvidence.v
PortalEntry.v
PortalAdapters.v
PortalWorker.v
PortalWrites.v
PortalCalls.v
PortalJobs.v
PortalSafety.v
PortalActs.v
PortalScenario.v
PortalGuarantees.v
FormFields.v
FormInspection.v
FormFilling.v
FormService.v
FormSafety.v
FormScenario.v
FormPrefill.v
FormGuarantees.v
RuleGovernance.v
Assessments.v
RequirementSafety.v
RequirementGuarantees.v
