(* ===== verification/Prelude.v ===== *)
(** * Astra licensing automation: a verification development

    The program is a Python service that follows the licences of a company through
    their renewals.  It computes statutory deadlines and internal milestones, judges
    from stored rules what a jurisdiction requires, and moves compliance cases through a
    controlled sequence of stages; it processes a shared mailbox, lets people approve
    and send responses, keeps reusable (and encrypted) information, assembles packets of
    documents, and assists people in filing them on government portals.  This library
    models its decision logic and its services as executable functions and proves what
    makes them correct.

    ** Files and the code they model

    Shared.
    - [Prelude]: Python exceptions as values of [result], [StrEnum] as a class,
      [sorted]/[max], strings; [Vocabulary] and [Terms]: the enumerations, one module
      each ([app/deadlines/enums.py], [app/requirements/taxonomy.py],
      [app/licensing/enums.py], [app/domain/enums.py], [app/portals/enums.py], ...).
    - [PyDate], [PyJson], [PyFloat], [PyUrl], [Regex]: what the code uses of the
      interpreter and the standard library: dates as ordinals, instants in microseconds,
      JSON values with Python equality and truth, binary64, UUID and URL parsing, and the
      regular expressions of the code's own patterns.
    - [CanonJson], [JsonText]: printing and parsing JSON text, each with the theorem that
      the text determines the value; [Crypto] ([app/core/crypto.py]): envelopes, key
      rotation, keyed fingerprints; [Hashes] ([app/communications/hashes.py]).

    Deadlines.
    - [BusinessDays] ([app/deadlines/business_days.py]), [Recurrence]
      ([recurrence.py]), [DeadlineRules] ([rules.py]), [DeadlineCalculator]
      ([calculator.py]), [Escalation] ([escalation.py]) and [DeadlineService]
      ([app/services/deadline_service.py]): the deadline engine, from calendar to
      stored rows.  The service works on a record of tables and returns the next one.

    Requirements.
    - [Conditions] ([app/requirements/conditions.py]), [Requirements] ([rules.py],
      [freshness.py]), [Explanations] ([explanations.py]) and [Evaluator]
      ([evaluator.py]): the requirement engine, a three-valued rule language and the
      advisory answer built on it.  [Scoping] holds the order of precedence the two
      engines share.
    - [RuleGovernance] ([app/services/requirement_source_service.py],
      [app/api/v1/licensing_admin.py]): the sources rules cite, their snapshots and
      review, rule sets and deadline rules; [Assessments]
      ([app/services/requirement_assessment_service.py]): the engine run on the active
      set, its stored answers, their review, overrides and approval.  [RequirementSafety]
      holds their invariants, [RequirementGuarantees] the results and a run.

    Cases, messages, jobs.
    - [Stages] ([app/licensing/stages.py]) and [CaseService]
      ([app/services/compliance_case_service.py]): the stage machine of a case and the
      service that keeps obligations, cases, stage events and information requests.
    - [EmailState] ([app/domain/transitions.py], [app/services/email_state.py]): the
      processing states of a message and the atomic transition service.
    - [JobQueue] ([app/jobs/repository.py], [service.py], [leasing.py],
      [app/graph/retry.py]): enqueueing, claims, leases, retries.

    Communications.
    - [Roles], [RecipientPolicy], [DraftChecks]: who may act, who may receive a message,
      what a draft is checked for; [CommStore]: the tables, revisions and approvals, and
      the communication job queue; [DraftWork], [SendApproval], [GraphDraft]: the
      services that edit, approve and follow a draft; [OutboundSend], [SentCopy]: the
      send in its two halves, and the proof that it arrived.
    - [SendSpec] is the protocol of sending on its own; [SendSafety] shows that the
      services implement it; [SendScenario] and [SendGuarantees] act out runs and state
      what single calls promise.
    - [SourceMove] ([app/services/source_move_service.py],
      [workflow_completion_service.py]): the answered message is moved to its folder, in
      two halves again with what each statement read kept apart from what it writes to,
      and its workflow completed.

    Packets and information.
    - [PacketMatching], [PacketManifest] ([app/packets]), [PacketService]
      ([app/services/document_packet_service.py]), with [LicensingLog]
      ([app/licensing/audit.py]); [PacketSafety] and [PacketGuarantees] say what holds of
      them.
    - [InfoRules] ([app/information_registry]), [InfoRegistry]
      ([app/services/information_registry_service.py]), [InfoSafety], [InfoGuarantees]:
      stored values, the search for a usable one, and the reveal of a sensitive one.
    - [LicenseInventory] ([app/services/license_inventory_service.py], with the bonds of
      [app/api/v1/license_inventory.py]): entities, profiles, licences, their history.

    Forms.
    - [FormFields] ([app/forms/mappings.py], [enums.py]), [FormInspection]
      ([app/forms/inspection.py]), [FormFilling] ([app/forms/filling.py]) and
      [FormService] ([app/services/form_preparation_service.py], with the patch route of
      [app/api/v1/form_preparation.py] and the jobs of [app/workers/licensing_jobs.py]):
      the fields of a template, what a draft holds, and a form from its creation to its
      submission.  [FormSafety] is the invariant and the writes, [FormScenario] a run,
      [FormPrefill] what prefilling does, [FormGuarantees] the results.

    Portals.
    - [PortalPolicy] ([app/portals/policies.py] and its neighbours), [PortalStore]
      ([app/models/portal.py], [app/repositories/portal_jobs.py]), [PortalGovernance],
      [PortalRuns], [PortalSessions], [SubmissionEvidence], [PortalEntry] (the services
      [portal_governance_service.py], [portal_run_service.py],
      [portal_session_service.py], [submission_evidence_service.py],
      [portal_entry_service.py]), [PortalAdapters] ([adapters/generic_assisted.py]) and
      [PortalWorker] ([app/workers/portal_jobs.py]): registration and review of a portal,
      a run from its creation to the evidence of its submission, the human handoffs, and
      the browser worker that fills in forms between them.
    - [PortalWrites] names every write the tables undergo, with the invariant each keeps;
      [PortalCalls] and [PortalJobs] show that every call and every job
      is a sequence of such writes; [PortalActs] what a job may do to a page;
      [PortalSafety] puts requests, workers and schedulers together; [PortalScenario] is
      a run acted out, and [PortalGuarantees] states the results.

    A handler is a function from its arguments, the current instant and the tables to
    a [result]: an exception is an [Err], and the tables of a raised call are those
    before it, since the session rolls back (where a call commits and then raises, or
    changes a loaded row and does not commit, the model says so).  Unique constraints the
    code relies on are checked where it flushes.  Sequences of calls are step relations.

    ** What is proved

    - Dates: the adjustment policies, the business-day walk (what it counts, that it
      ends), the recurrence expansion (ordered, within its horizon), the choice of
      rule, the milestone ladder, the soundness of a plan.
    - Deadlines as rows: what materialization stores, that repeating it or an
      escalation sweep adds nothing, what a refresh does.
    - Rules: the validator accepts exactly the grammar and accepted conditions do not
      raise; answers are monotone in the facts and do not depend on the order of the
      rules; a confident answer is backed by authoritative sources, none of them
      marked stale or missing, and conflicts end with counsel.  Over every history of sources, snapshots, rule sets
      and assessments, a stored answer cites reviewed snapshots only, and an approved
      assessment keeps its answers.
    - Cases: in every reachable database a case agrees with its history, an obligation
      has one open case, and nothing is completed without the renewed evidence; a move
      succeeds exactly when the stage check allows it.
    - Messages: the check is the state machine it describes, a call is atomic, the
      invariant survives every sequence of calls, no message is stuck.
    - Jobs: enqueueing never fails and never doubles, claims follow the order, leases
      are sound, recovery loses nothing, failures are retried with a bounded delay.
    - Sending: no approval is spent twice, whatever the services, workers and lost
      answers do, as long as it is not given while an earlier post is under way; an
      approval is given by a separate person who saw the snapshot, what is posted is what
      was approved, and a send counts as verified only on a sent copy that matches the
      draft's row.  A message is moved at most once as long as no attempt went to review
      and no call acts on a latest attempt that changed since it was read; a workflow is
      completed only on a verified move and, where it needs one, a verified sent copy.
    - Packets: every document included meets the conditions of its item, an approved
      packet is complete and frozen, what is stored as an archive
      is one container of the files its manifest names, with the bytes it recorded.
    - Information: restricted values are stored as envelopes only, a search finds a value
      exactly when one may be used, and what a reveal gives depends on the proposed value
      alone, though for texts and objects it need not be that value.
    - Licences: in every reachable inventory the history of a licence explains its
      status, one live licence holds a place, and history only grows.
    - Forms: rows, mappings and statuses agree, prefilling uses approved mappings only,
      a person's fields stay blank, a typed value is what a draft made from it writes
      (cut at 4000 characters where it is kept in clear), and an approved form is frozen.
    - Portals: the tables stay consistent under every request, worker cycle and expiry; a
      run is submitted only after its final action was handed to a person, with verified
      evidence; records are permanent; the worker stays within its job, on the approved
      host, and never clicks; a snapshot is ready exactly when nothing disagrees.

    Theorems on behaviour that looks unintended stand beside these (for instance
    [Recurrence.expand_expiration_duplicates], [JobQueue.claim_blocked],
    [CaseService.signature_can_be_skipped],
    [SendGuarantees.approved_in_flight_spent_twice],
    [PacketGuarantees.stale_archive_approved], [InfoGuarantees.licence_answer_displaced],
    [PortalGuarantees.submitted_run_reopened], [PortalGuarantees.final_submit_stale],
    [FormGuarantees.patch_never_completes],
    [RequirementGuarantees.override_outlives_validity],
    [LicenseInventory.surrendered_licence_renewed], [SourceMove.move_repeated],
    [SourceMove.raced_twice], [SendScenario.edited_copy_verified],
    [PacketGuarantees.manifest_shadowed], [PacketGuarantees.other_licence_type_included],
    [PacketManifest.long_names_clash]).

    ** Bounds and fuel

    [BusinessDays.add_business_days] walks with fuel: for every calendar it ends, at the
    latest when it leaves the representable dates after [MAXORDINAL] steps;
    [Conditions.evaluate] and the validator recurse on the nesting of the condition;
    [Recurrence.expand] recurs on the code's limit; [Regex] searches with fuel the length
    of the text, each repetition consuming at least a character; the printer and parser
    of [JsonText] recur on the value and on the length of the text.  [FormInspection] looks for an
    unused field key with fuel; [FormInspection.normalise_field_key_ends] says when some
    fuel is enough, and that none is for a name too long to be numbered.  Integers are
    unbounded as in Python; dates raise outside the years 1 to 9999 as the library's do.

    ** What is not modelled

    Text is ASCII.  Log lines, metrics, generated display keys and the wording of
    errors are left out, and so are the clients of external services (mailbox,
    document store, language model, browser), the HTTP layer, settings and
    migrations; where a modelled service calls one, its answer is an argument.  Regular
    expressions of stored rules, SHA-256, HMAC, AES-GCM, the time zone database,
    [random.uniform], name resolution, the pages of a portal and the drawing of
    identifiers are parameters, with the documented behaviour a theorem needs as its
    hypothesis.  The services for classification, document intake and imports are not
    modelled. *)
From Stdlib Require Export ZArith Lia.
From stdpp Require Export sorting.
From stdpp Require Export base option list strings gmap.

(** ** Scope and automation *)

Declare Scope py_scope.
Delimit Scope py_scope with py.

(** Hints the components share. *)
Create HintDb astra discriminated.
Create Rewrite HintDb astra.

(** ** Python exceptions as values *)

(** The exceptions the modelled code raises: the interpreter's own, and those
    of the application (messages and detail payloads are not modelled, except
    the missing-evidence detail of an illegal stage transition). *)
Inductive exn : Type :=
| TypeError | ValueError | KeyError | OverflowError | AttributeError | IntegrityError
| RecurrenceError | DeadlineRuleConfigError | RuleValidationError | SourceFetchNotAllowedError | HTTPStatusError | MappingError | InspectionError | FillingError
| NotFoundError | StateConflictError | GraphApiError | BrowserError | SensitiveAccessDeniedError | SensitiveDataError | DecryptionError | EncryptionUnavailableError
| InvalidStateTransitionError (missing_evidence : list string).

Inductive result (E A : Type) : Type :=
| Ok (a : A)
| Err (e : E).
Arguments Ok {E A} a.
Arguments Err {E A} e.

#[export] Instance result_ret {E} : MRet (result E) := fun A a => Ok a.
#[export] Instance result_bind {E} : MBind (result E) :=
  fun A B f r => match r with Ok a => f a | Err e => Err e end.
#[export] Instance result_fmap {E} : FMap (result E) :=
  fun A B f r => match r with Ok a => Ok (f a) | Err e => Err e end.

#[export] Instance result_eq_dec {E A} `{EqDecision E, EqDecision A} :
  EqDecision (result E A).
Proof. solve_decision. Defined.

Definition is_ok {E A} (r : result E A) : bool :=
  match r with Ok _ => true | Err _ => false end.

(** [raise_unless b e]: the statement [if not b: raise e]. *)
Definition raise_unless {E} (b : bool) (e : E) : result E unit :=
  if b then Ok tt else Err e.

(** A comprehension whose element expression may raise. *)
Fixpoint mapR {E A B} (f : A -> result E B) (l : list A) : result E (list B) :=
  match l with
  | [] => Ok []
  | x :: l => y ← f x; ys ← mapR f l; Ok (y :: ys)
  end.

Lemma bind_Ok_inv {E A B} (r : result E A) (f : A -> result E B) b :
  (r ≫= f) = Ok b -> exists a, r = Ok a /\ f a = Ok b.
Proof. destruct r; simpl; intros; [eauto | discriminate]. Qed.

(** Unlike [injection], leaves the components as they are. *)
Lemma Ok_pair_inj {E A B} (a a' : A) (b b' : B) : @Ok E _ (a, b) = Ok (a', b') -> a = a' /\ b = b'.
Proof. by intros [= -> ->]. Qed.

Lemma raise_unless_Ok {E} b (e : E) u : raise_unless b e = Ok u -> b = true.
Proof. destruct b; [done | discriminate]. Qed.

Lemma mapR_Forall2 {E A B} (f : A -> result E B) l l' :
  mapR f l = Ok l' <-> Forall2 (fun x y => f x = Ok y) l l'.
Proof.
  revert l'. induction l as [|x l IH]; intros l'; simpl.
  - split; [intros [= <-]; constructor | inversion 1; done].
  - split.
    + intros (y & Hy & (ys & Hys & [= <-])%bind_Ok_inv)%bind_Ok_inv.
      constructor; [done | by apply IH].
    + inversion 1 as [|? y ? ys Hy Hys]; subst.
      apply IH in Hys. by rewrite Hy, Hys.
Qed.

(** Split every monadic step of a successful computation. *)
Ltac inv_ok :=
  repeat match goal with
  | H : (_ ≫= _) = Ok _ |- _ =>
      let a := fresh "a" in let H1 := fresh "H" in
      apply bind_Ok_inv in H as (a & H1 & H)
  | H : raise_unless _ _ = Ok _ |- _ => apply raise_unless_Ok in H
  | H : Ok _ = Ok _ |- _ => injection H as H
  | H : Err _ = Ok _ |- _ => discriminate H
  end.

#[export] Instance exn_eq_dec : EqDecision exn.
Proof. solve_decision. Defined.

(** Reduce the monad operations and nothing else. *)
Ltac msimpl := cbn [mbind result_bind mret result_ret fmap result_fmap] in *.

(** ** [StrEnum]: a Python string enumeration *)

Class StrEnum (A : Type) `{EqDecision A} := {
  value : A -> string;
  members : list A;
  members_all : forall a, a ∈ members;
  values_nodup : NoDup (value <$> members)
}.

(** Close the two laws of a [StrEnum] instance by computation. *)
Ltac solve_members := let a := fresh in intros a; apply (bool_decide_unpack _); destruct a; vm_compute; exact I.
Ltac solve_values := apply (bool_decide_unpack _); vm_compute; exact I.

Section StrEnum.
Context `{StrEnum A}.

(** [Enum(s)], and [s in {member.value for member in Enum}]. *)
Definition of_value (s : string) : option A :=
  head (filter (fun a => value a = s) members).

Definition is_value (s : string) : bool := bool_decide (is_Some (of_value s)).

Lemma value_inj a b : value a = value b -> a = b.
Proof.
  intros Hv.
  destruct (list_elem_of_lookup_1 _ _ (members_all a)) as [i Hi].
  destruct (list_elem_of_lookup_1 _ _ (members_all b)) as [j Hj].
  assert (Ei : (value <$> members) !! i = Some (value a)) by (by rewrite list_lookup_fmap, Hi).
  assert (Ej : (value <$> members) !! j = Some (value a)) by (by rewrite list_lookup_fmap, Hj, Hv).
  assert (i = j) as -> by (eapply NoDup_lookup; [apply values_nodup | done..]).
  congruence.
Qed.

Lemma of_value_Some s a : of_value s = Some a <-> s = value a.
Proof.
  unfold of_value. split.
  - intros Hh. assert (a ∈ filter (fun a => value a = s) members) as Hin.
    { destruct (filter _ _); simplify_eq/=. left. }
    by apply list_elem_of_filter in Hin as [<- _].
  - intros ->. destruct (filter _ _) as [|b l] eqn:Hf.
    + assert (a ∈ filter (fun b => value b = value a) members) as Hin.
      { apply list_elem_of_filter. split; [done | apply members_all]. }
      rewrite Hf in Hin. by apply not_elem_of_nil in Hin.
    + simpl. f_equal. apply value_inj.
      assert (b ∈ filter (fun b => value b = value a) members) as Hin by (rewrite Hf; left).
      by apply list_elem_of_filter in Hin as [-> _].
Qed.

Lemma of_value_value a : of_value (value a) = Some a.
Proof. by apply of_value_Some. Qed.

Lemma of_value_None s : of_value s = None <-> forall a, s <> value a.
Proof.
  split.
  - intros Hn a Ha%of_value_Some. congruence.
  - intros Hn. destruct (of_value s) as [a|] eqn:E; [|done].
    apply of_value_Some in E. by destruct (Hn a).
Qed.

Lemma is_value_true s : is_value s = true <-> exists a, s = value a.
Proof.
  unfold is_value. rewrite bool_decide_eq_true. unfold is_Some.
  by setoid_rewrite of_value_Some.
Qed.

Lemma value_eqb a b : bool_decide (value a = value b) = bool_decide (a = b).
Proof. apply bool_decide_ext. split; [apply value_inj | by intros ->]. Qed.
End StrEnum.

#[export] Hint Rewrite @of_value_value @value_eqb : astra.
#[export] Hint Resolve members_all : astra.

(** ** Python's [sorted] and [max] with a key *)

Section Sorting.
Context {A : Type} (leb : A -> A -> bool).

Fixpoint insert_sorted (x : A) (l : list A) : list A :=
  match l with
  | [] => [x]
  | y :: l' => if leb x y then x :: y :: l' else y :: insert_sorted x l'
  end.

(** [sorted(l, key=...)]: stable, [leb x y] is [key x <= key y]. *)
Definition py_sorted (l : list A) : list A := foldr insert_sorted [] l.

Lemma insert_sorted_perm x l : insert_sorted x l ≡ₚ x :: l.
Proof.
  induction l as [|y l IH]; simpl; [done|].
  destruct (leb x y); [done|]. rewrite IH. constructor.
Qed.

Lemma py_sorted_perm l : py_sorted l ≡ₚ l.
Proof. induction l; simpl; [done|]. by rewrite insert_sorted_perm, IHl. Qed.

Lemma elem_of_py_sorted x l : x ∈ py_sorted l <-> x ∈ l.
Proof. by rewrite py_sorted_perm. Qed.

Lemma py_sorted_nil l : py_sorted l = [] <-> l = [].
Proof. split; [|by intros ->]. intros E. apply Permutation_nil_r. by rewrite <-(py_sorted_perm l), E. Qed.

Lemma py_sorted_id l : StronglySorted (fun a b => leb a b = true) l -> py_sorted l = l.
Proof.
  induction 1 as [|x l _ IH Hx]; [done|]. change (insert_sorted x (py_sorted l) = x :: l). rewrite IH. destruct l as [|y l]; [done|]. cbn.
  inversion Hx as [|? ? Hy _]; subst. by rewrite Hy.
Qed.

Context (leb_total : forall x y, leb x y = true \/ leb y x = true).
Context (leb_trans : forall x y z, leb x y = true -> leb y z = true -> leb x z = true).

Lemma insert_sorted_sorted x l :
  StronglySorted (fun a b => leb a b = true) l ->
  StronglySorted (fun a b => leb a b = true) (insert_sorted x l).
Proof.
  induction l as [|y l IH]; simpl; intros Hs; [by repeat constructor|].
  inversion Hs as [|? ? Hs' Hall]; subst.
  destruct (leb x y) eqn:Hxy.
  - constructor; [done|]. constructor; [done|].
    eapply Forall_impl; [exact Hall|]. simpl. eauto.
  - constructor; [auto|]. rewrite insert_sorted_perm. constructor; [|done].
    destruct (leb_total x y); [congruence | done].
Qed.

Lemma py_sorted_sorted l : StronglySorted (fun a b => leb a b = true) (py_sorted l).
Proof. induction l; simpl; [constructor | by apply insert_sorted_sorted]. Qed.

Lemma py_sorted_head_le l x y :
  head (py_sorted l) = Some x -> y ∈ l -> leb x y = true.
Proof.
  intros Hh Hy. pose proof (py_sorted_sorted l) as Hs.
  apply elem_of_py_sorted in Hy.
  destruct (py_sorted l) as [|z l']; simplify_eq/=.
  inversion Hs as [|? ? _ Hall]; subst.
  apply elem_of_cons in Hy as [->|Hy].
  - by destruct (leb_total x x).
  - eapply (proj1 (Forall_forall _ _)) in Hall; done.
Qed.
End Sorting.

(** [max(l, key=rank)]: the first element of greatest rank. *)
Fixpoint py_max_by {A} (rank : A -> Z) (x : A) (l : list A) : A :=
  match l with
  | [] => x
  | y :: l => py_max_by rank (if rank x <? rank y then y else x)%Z l
  end.

Lemma py_max_by_in {A} (rank : A -> Z) x l : py_max_by rank x l ∈ x :: l.
Proof.
  revert x. induction l as [|y l IH]; intros x; simpl; [left|].
  specialize (IH (if (rank x <? rank y)%Z then y else x)) as Hin.
  rewrite elem_of_cons in Hin |- *. rewrite elem_of_cons.
  destruct Hin as [->|]; [case_match; auto | auto].
Qed.

Lemma py_max_by_ge_head {A} (rank : A -> Z) x l : (rank x <= rank (py_max_by rank x l))%Z.
Proof.
  revert x. induction l as [|z l IH]; intros x; simpl; [lia|].
  pose proof (IH (if (rank x <? rank z)%Z then z else x)) as Hge.
  revert Hge. destruct (Z.ltb_spec (rank x) (rank z)); lia.
Qed.

Lemma py_max_by_ge {A} (rank : A -> Z) x l y :
  y ∈ x :: l -> (rank y <= rank (py_max_by rank x l))%Z.
Proof.
  revert x. induction l as [|z l IH]; intros x Hy; simpl.
  - apply list_elem_of_singleton in Hy as ->. lia.
  - rewrite !elem_of_cons in Hy.
    pose proof (py_max_by_ge_head rank (if (rank x <? rank z)%Z then z else x) l) as Hge.
    revert Hge. destruct (Z.ltb_spec (rank x) (rank z)); intros Hge.
    + destruct Hy as [->|[->|Hy]]; [lia | lia | apply IH; by right].
    + destruct Hy as [->|[->|Hy]]; [lia | lia | apply IH; by right].
Qed.

(** ** Record updates *)

(** The constructor of a record applied to its projections. *)
Class Eta (R : Type) := eta : R -> R.

(** [r <| p := v |>]: a copy of [r] with another value for the field [p]; the setter is
    computed from [eta]. *)
Ltac build_update p :=
  lazymatch type of p with
  | ?R -> ?T =>
    lazymatch constr:(_ : Eta R) with
    | ?i =>
      let i := eval red in i in
      lazymatch i with
      | fun x => @?body x =>
          exact (fun (v : T) (x : R) => ltac:(
            let b := eval cbv beta in (body x) in
            let px := constr:(p x) in
            let g := eval pattern px in b in
            lazymatch g with ?h _ => let res := eval cbv beta in (h v) in exact res end))
      end
    end
  end.
Class Setter {R T} (p : R -> T) := set_field : T -> R -> R.
Arguments set_field {R T} p {_} v r /.
#[export] Hint Extern 1 (Setter ?p) => build_update p : typeclass_instances.
Notation "r <| p := v |>" := (set_field p v r)
  (at level 12, left associativity, only parsing, p at level 200, v at level 200).

(** ** Small helpers *)

(** What a flush sends for one column of a loaded object. *)
Definition sent {A} `{EqDecision A} (loaded new row : A) : A := if bool_decide (new = loaded) then row else new.

(** Python truthiness of an optional value whose present values are truthy. *)
Definition truthy_opt {A} (o : option A) : bool := bool_decide (is_Some o).

(** Truthiness of an optional string: [None] and the empty string are false. *)
Definition truthy_str (o : option string) : bool :=
  match o with Some s => negb (bool_decide (s = "")) | None => false end.

(** [value or default], of text. *)
Definition or_text (x : option string) (d : string) : string := if truthy_str x then default d x else d.

(** [s[:n]]. *)
Fixpoint str_take (n : nat) (s : string) : string :=
  match n, s with
  | S n, String c s => String c (str_take n s)
  | _, _ => ""
  end.

Lemma str_take_length n s : String.length (str_take n s) <= n.
Proof. revert s. induction n; intros []; simpl; auto with lia. apply le_n_S, IHn. Qed.

Lemma str_take_id n s : String.length s <= n -> str_take n s = s.
Proof.
  revert s. induction n as [|n IH]; intros [|c s]; simpl; intros H; try done; try lia.
  f_equal. apply IH. lia.
Qed.

(** [s.lower()] on ASCII text. *)
Definition lower_char (c : Ascii.ascii) : Ascii.ascii :=
  let n := Ascii.N_of_ascii c in if ((65 <=? n) && (n <=? 90))%N then Ascii.ascii_of_N (n + 32) else c.
Fixpoint str_lower (s : string) : string :=
  match s with "" => "" | String c s => String (lower_char c) (str_lower s) end.

(** [s.upper()] on ASCII text. *)
Definition upper_char (c : Ascii.ascii) : Ascii.ascii :=
  let n := Ascii.N_of_ascii c in if ((97 <=? n) && (n <=? 122))%N then Ascii.ascii_of_N (n - 32) else c.
Fixpoint str_upper (s : string) : string :=
  match s with "" => "" | String c s => String (upper_char c) (str_upper s) end.

Fixpoint is_prefix (p s : string) : bool :=
  match p, s with
  | "", _ => true
  | String c p, String c' s => bool_decide (c = c') && is_prefix p s
  | _, _ => false
  end.
(** [needle in haystack] on strings. *)
Fixpoint is_infix (p s : string) : bool :=
  is_prefix p s || match s with "" => false | String _ s => is_infix p s end.

Definition str_leb (a b : string) : bool := String.leb a b.

Lemma str_leb_total a b : str_leb a b = true \/ str_leb b a = true.
Proof. apply String.leb_total. Qed.

Lemma str_leb_trans a b c : str_leb a b = true -> str_leb b c = true -> str_leb a c = true.
Proof.
  intros H1 H2. pose proof (transitivity (R := String.le) (x := a) (y := b) (z := c)) as T.
  unfold String.le in T. apply Is_true_true, T; by apply Is_true_true.
Qed.

Lemma str_leb_antisym a b : str_leb a b = true -> str_leb b a = true -> a = b.
Proof. apply String.leb_antisym. Qed.

#[export] Hint Resolve str_leb_total str_leb_trans : astra.

(** ** Joining fields with a separator *)

Fixpoint has_char (c : Ascii.ascii) (s : string) : bool :=
  match s with String c' s => bool_decide (c = c') || has_char c s | "" => false end.

Lemma str_app_assoc a b c : (a +:+ b) +:+ c = a +:+ (b +:+ c).
Proof. induction a as [|x a IH]; [done|]. change (String x ((a +:+ b) +:+ c) = String x (a +:+ (b +:+ c))). by rewrite IH. Qed.

Lemma length_app_str a b : String.length (a +:+ b) = (String.length a + String.length b)%nat.
Proof. induction a as [|c a IH]; [done|]. cbn. by rewrite <-IH. Qed.

Lemma str_app_nil_r a : a +:+ "" = a.
Proof. induction a as [|x a IH]; [done|]. change (String x (a +:+ "") = String x a). by rewrite IH. Qed.

(** The first field of a joined string is determined by it. *)
Lemma split_sep c a a' b b' :
  has_char c a = false -> has_char c a' = false ->
  a +:+ String c b = a' +:+ String c b' -> a = a' /\ b = b'.
Proof.
  revert a'. induction a as [|x a IH]; intros [|y a']; simpl; intros Ha Ha' E.
  - by injection E.
  - change (String c b = String y (a' +:+ String c b')) in E. injection E as <- _.
    rewrite bool_decide_eq_true_2 in Ha' by done. done.
  - change (String x (a +:+ String c b) = String c b') in E. injection E as -> _.
    rewrite bool_decide_eq_true_2 in Ha by done. done.
  - change (String x (a +:+ String c b) = String y (a' +:+ String c b')) in E.
    injection E as -> E. apply orb_false_iff in Ha as [_ Ha], Ha' as [_ Ha'].
    destruct (IH a' Ha Ha' E) as [-> ->]. done.
Qed.

Lemma has_char_joined c a b : has_char c (a +:+ String c b) = true.
Proof.
  induction a as [|x a IH]; simpl; [by rewrite bool_decide_eq_true_2|].
  change (bool_decide (c = x) || has_char c (a +:+ String c b) = true). by rewrite IH, orb_true_r.
Qed.

(** And so is the last. *)
Lemma split_sep_last c a a' b b' :
  has_char c b = false -> has_char c b' = false ->
  a +:+ String c b = a' +:+ String c b' -> a = a' /\ b = b'.
Proof.
  intros Hb Hb'. revert a'. induction a as [|x a IH]; intros [|y a'] E.
  - by injection E.
  - change (String c b = String y (a' +:+ String c b')) in E. injection E as _ ->.
    by rewrite has_char_joined in Hb.
  - change (String x (a +:+ String c b) = String c b') in E. injection E as _ <-.
    by rewrite has_char_joined in Hb'.
  - change (String x (a +:+ String c b) = String y (a' +:+ String c b')) in E. injection E as -> E.
    by destruct (IH a' E) as [-> ->].
Qed.

(** ** Filters *)

Lemma filter_none {A} (P : A -> Prop) `{forall x, Decision (P x)} (l : list A) :
  (forall x, x ∈ l -> ~ P x) -> filter P l = [].
Proof.
  induction l as [|x l IH]; intros Hl; [done|]. rewrite filter_cons_False.
  - apply IH. intros y Hy. apply Hl. by right.
  - apply Hl. left.
Qed.

Lemma head_filter_Some {A} (P : A -> Prop) `{!forall x, Decision (P x)} l x :
  head (filter P l) = Some x -> x ∈ l /\ P x.
Proof.
  intros Hh. assert (x ∈ filter P l) as Hx by (destruct (filter P l); simplify_eq/=; left).
  apply list_elem_of_filter in Hx. tauto.
Qed.

Lemma head_filter_None {A} (P : A -> Prop) `{!forall x, Decision (P x)} l :
  head (filter P l) = None -> forall x, x ∈ l -> ~ P x.
Proof. intros Hn%head_None x Hx HP. by eapply (filter_nil_not_elem_of P l x). Qed.

Lemma filter_all {A} (P : A -> Prop) `{forall x, Decision (P x)} (l : list A) :
  (forall x, x ∈ l -> P x) -> filter P l = l.
Proof.
  induction l as [|x l IH]; intros Hl; [done|]. rewrite filter_cons_True.
  - f_equal. apply IH. intros y Hy. apply Hl. by right.
  - apply Hl. left.
Qed.

Lemma filter_ext_in {A} (P Q : A -> Prop) `{forall x, Decision (P x), forall x, Decision (Q x)} (l : list A) :
  (forall x, x ∈ l -> P x <-> Q x) -> filter P l = filter Q l.
Proof.
  induction l as [|x l IH]; intros Hl; [done|]. rewrite !filter_cons.
  rewrite IH by (intros y Hy; apply Hl; by right).
  apply decide_ext, Hl. left.
Qed.

(** A list whose [f]-values are distinct holds at most one element per value. *)
Lemma NoDup_omap_inj {A B} (f : A -> option B) (l : list A) x y k :
  NoDup (omap f l) -> x ∈ l -> y ∈ l -> f x = Some k -> f y = Some k -> x = y.
Proof.
  induction l as [|z l IH]; intros Hnd Hx Hy Hfx Hfy; [by apply not_elem_of_nil in Hx|].
  assert (forall u, u ∈ l -> f u = Some k -> f z = Some k -> False) as Hz.
  { intros u Hu Hfu Hfz. simpl in Hnd. rewrite Hfz in Hnd. apply NoDup_cons in Hnd as [Hni _].
    apply Hni, list_elem_of_omap. eauto. }
  assert (NoDup (omap f l)) as Hnd'.
  { simpl in Hnd. destruct (f z); [by apply NoDup_cons in Hnd as [_ ?] | done]. }
  apply elem_of_cons in Hx as [->|Hx], Hy as [->|Hy]; [done | exfalso; eauto.. | by apply IH].
Qed.

Lemma fmap_id_in {A} (f : A -> A) (l : list A) : (forall x, x ∈ l -> f x = x) -> f <$> l = l.
Proof.
  intros Hf. induction l as [|x l IH]; [done|]. rewrite fmap_cons, Hf by left. f_equal. apply IH.
  intros y Hy. apply Hf. by right.
Qed.

Lemma NoDup_fmap_key {A B} (f : A -> B) (l : list A) x y :
  NoDup (f <$> l) -> x ∈ l -> y ∈ l -> f x = f y -> x = y.
Proof.
  intros Hnd Hx Hy E. apply list_elem_of_lookup_1 in Hx as [m Hm], Hy as [n Hn].
  assert (m = n) as ->; [|congruence].
  eapply (NoDup_lookup (f <$> l)); [done | |]; rewrite list_lookup_fmap; [by rewrite Hm | by rewrite Hn, E].
Qed.

Lemma StronglySorted_lookup_lt {A} (R : A -> A -> Prop) l i j x y :
  StronglySorted R l -> (i < j)%nat -> l !! i = Some x -> l !! j = Some y -> R x y.
Proof.
  intros Hs. revert i j. induction Hs as [|z l Hs IH Hall]; intros i j Hij Hi Hj; [done|].
  destruct i as [|i], j as [|j]; [lia | | lia |].
  - injection Hi as ->. rewrite Forall_forall in Hall. by eapply Hall, list_elem_of_lookup_2.
  - apply (IH i j); [lia | done..].
Qed.

Lemma StronglySorted_filter {A} (R : relation A) (P : A -> Prop) `{forall x, Decision (P x)} l :
  StronglySorted R l -> StronglySorted R (filter P l).
Proof.
  induction 1 as [|x l Hs IH Hall]; [constructor|]. rewrite filter_cons.
  destruct (decide (P x)); [|done]. constructor; [done|].
  apply Forall_forall. intros y [_ Hy]%list_elem_of_filter. rewrite Forall_forall in Hall. auto.
Qed.

Lemma elem_of_concat {A} (ls : list (list A)) x : x ∈ concat ls <-> exists l, x ∈ l /\ l ∈ ls.
Proof.
  induction ls as [|l ls IH]; simpl.
  - rewrite elem_of_nil. split; [done|]. intros (l & _ & Hl). by apply not_elem_of_nil in Hl.
  - rewrite elem_of_app, IH. split.
    + intros [?|(m & ? & ?)]; [exists l; split; [done | left] | exists m; split; [done | by right]].
    + intros (m & Hx & [->|?]%elem_of_cons); [by left | right; eauto].
Qed.

(** ** Tables *)

(** All rows of a table, keyed by their primary key. *)
Definition rows {A} (t : gmap string A) : list A := snd <$> map_to_list t.

Lemma elem_of_rows {A} (t : gmap string A) v : v ∈ rows t <-> exists i, t !! i = Some v.
Proof.
  unfold rows. rewrite list_elem_of_fmap. split.
  - intros ([i w] & -> & H%elem_of_map_to_list). by exists i.
  - intros [i H]. exists (i, v). by rewrite elem_of_map_to_list.
Qed.

Lemma existsb_rows_false {A} (p : A -> bool) (t : gmap string A) i v :
  existsb p (rows t) = false -> t !! i = Some v -> p v = false.
Proof.
  intros H Hi. destruct (p v) eqn:E; [|done]. exfalso.
  assert (existsb p (rows t) = true) as Ht; [|by rewrite Ht in H].
  apply existsb_exists. exists v. split; [|done]. apply list_elem_of_In, elem_of_rows. by exists i.
Qed.
