(* ===== verification/Vocabulary.v ===== *)
(** * Closed vocabularies

    Every [StrEnum] the modelled components use, one module per enumeration: the
    members in source order, with the string each one is stored as.  The laws of
    the [StrEnum] class (all members listed, distinct strings) are checked by
    computation. *)
From S2P Require Import Prelude.

(** ** [app/deadlines/enums.py] *)

Module RecurrenceType.
Inductive RecurrenceType : Set :=
  | FIXED_ANNUAL_DATE | ISSUE_ANNIVERSARY | EXPIRATION_ANNIVERSARY | REGULATOR_SUPPLIED
  | NMLS_ANNUAL_RENEWAL_WINDOW | BOND_EXPIRATION | ANNUAL_REPORT_DATE | RELATIVE_TO_CASE_EVENT
  | CUSTOM_INTERVAL | MANUAL_DATE.
#[global] Instance eq_dec : EqDecision RecurrenceType.
Proof. solve_decision. Defined.
Definition str (x : RecurrenceType) : string :=
  match x with
  | FIXED_ANNUAL_DATE => "FIXED_ANNUAL_DATE" | ISSUE_ANNIVERSARY => "ISSUE_ANNIVERSARY"
  | EXPIRATION_ANNIVERSARY => "EXPIRATION_ANNIVERSARY"
  | REGULATOR_SUPPLIED => "REGULATOR_SUPPLIED"
  | NMLS_ANNUAL_RENEWAL_WINDOW => "NMLS_ANNUAL_RENEWAL_WINDOW"
  | BOND_EXPIRATION => "BOND_EXPIRATION" | ANNUAL_REPORT_DATE => "ANNUAL_REPORT_DATE"
  | RELATIVE_TO_CASE_EVENT => "RELATIVE_TO_CASE_EVENT" | CUSTOM_INTERVAL => "CUSTOM_INTERVAL"
  | MANUAL_DATE => "MANUAL_DATE"
  end.
Definition all : list RecurrenceType := [FIXED_ANNUAL_DATE; ISSUE_ANNIVERSARY;
  EXPIRATION_ANNIVERSARY; REGULATOR_SUPPLIED; NMLS_ANNUAL_RENEWAL_WINDOW; BOND_EXPIRATION;
  ANNUAL_REPORT_DATE; RELATIVE_TO_CASE_EVENT; CUSTOM_INTERVAL; MANUAL_DATE].
#[global] Instance enum : StrEnum RecurrenceType.
Proof. refine {| value := str; members := all |}; [solve_members | solve_values]. Defined.
End RecurrenceType.

Module AdjustmentPolicy.
Inductive AdjustmentPolicy : Set :=
  | NONE | PREVIOUS_BUSINESS_DAY | NEXT_BUSINESS_DAY | JURISDICTION_SPECIFIC | MANUAL_REVIEW.
#[global] Instance eq_dec : EqDecision AdjustmentPolicy.
Proof. solve_decision. Defined.
Definition str (x : AdjustmentPolicy) : string :=
  match x with
  | NONE => "NONE" | PREVIOUS_BUSINESS_DAY => "PREVIOUS_BUSINESS_DAY"
  | NEXT_BUSINESS_DAY => "NEXT_BUSINESS_DAY"
  | JURISDICTION_SPECIFIC => "JURISDICTION_SPECIFIC" | MANUAL_REVIEW => "MANUAL_REVIEW"
  end.
Definition all : list AdjustmentPolicy := [NONE; PREVIOUS_BUSINESS_DAY; NEXT_BUSINESS_DAY;
  JURISDICTION_SPECIFIC; MANUAL_REVIEW].
#[global] Instance enum : StrEnum AdjustmentPolicy.
Proof. refine {| value := str; members := all |}; [solve_members | solve_values]. Defined.
End AdjustmentPolicy.

Module DeadlineType.
Inductive DeadlineType : Set :=
  | INTERNAL_START | VENDOR_OUTREACH | INFORMATION_DUE | DOCUMENT_PACKET_DUE
  | FORM_COMPLETION_DUE | SIGNATURE_DUE | SUBMISSION_DUE | STATUTORY_DUE | BOND_EXPIRY
  | ANNUAL_REPORT_DUE | DOCUMENT_EXPIRY | FOLLOW_UP.
#[global] Instance eq_dec : EqDecision DeadlineType.
Proof. solve_decision. Defined.
Definition str (x : DeadlineType) : string :=
  match x with
  | INTERNAL_START => "INTERNAL_START" | VENDOR_OUTREACH => "VENDOR_OUTREACH"
  | INFORMATION_DUE => "INFORMATION_DUE" | DOCUMENT_PACKET_DUE => "DOCUMENT_PACKET_DUE"
  | FORM_COMPLETION_DUE => "FORM_COMPLETION_DUE" | SIGNATURE_DUE => "SIGNATURE_DUE"
  | SUBMISSION_DUE => "SUBMISSION_DUE" | STATUTORY_DUE => "STATUTORY_DUE"
  | BOND_EXPIRY => "BOND_EXPIRY" | ANNUAL_REPORT_DUE => "ANNUAL_REPORT_DUE"
  | DOCUMENT_EXPIRY => "DOCUMENT_EXPIRY" | FOLLOW_UP => "FOLLOW_UP"
  end.
Definition all : list DeadlineType := [INTERNAL_START; VENDOR_OUTREACH; INFORMATION_DUE;
  DOCUMENT_PACKET_DUE; FORM_COMPLETION_DUE; SIGNATURE_DUE; SUBMISSION_DUE; STATUTORY_DUE;
  BOND_EXPIRY; ANNUAL_REPORT_DUE; DOCUMENT_EXPIRY; FOLLOW_UP].
#[global] Instance enum : StrEnum DeadlineType.
Proof. refine {| value := str; members := all |}; [solve_members | solve_values]. Defined.
End DeadlineType.

Module DeadlineStatus.
Inductive DeadlineStatus : Set :=
  | SCHEDULED | APPROACHING | DUE_TODAY | OVERDUE | COMPLETED | WAIVED | SUPERSEDED
  | CANCELLED.
#[global] Instance eq_dec : EqDecision DeadlineStatus.
Proof. solve_decision. Defined.
Definition str (x : DeadlineStatus) : string :=
  match x with
  | SCHEDULED => "SCHEDULED" | APPROACHING => "APPROACHING" | DUE_TODAY => "DUE_TODAY"
  | OVERDUE => "OVERDUE" | COMPLETED => "COMPLETED" | WAIVED => "WAIVED"
  | SUPERSEDED => "SUPERSEDED" | CANCELLED => "CANCELLED"
  end.
Definition all : list DeadlineStatus := [SCHEDULED; APPROACHING; DUE_TODAY; OVERDUE;
  COMPLETED; WAIVED; SUPERSEDED; CANCELLED].
#[global] Instance enum : StrEnum DeadlineStatus.
Proof. refine {| value := str; members := all |}; [solve_members | solve_values]. Defined.
End DeadlineStatus.

Module DeadlineSeverity.
Inductive DeadlineSeverity : Set :=
  | INFORMATIONAL | NORMAL | IMPORTANT | CRITICAL | REGULATORY_RISK.
#[global] Instance eq_dec : EqDecision DeadlineSeverity.
Proof. solve_decision. Defined.
Definition str (x : DeadlineSeverity) : string :=
  match x with
  | INFORMATIONAL => "INFORMATIONAL" | NORMAL => "NORMAL" | IMPORTANT => "IMPORTANT"
  | CRITICAL => "CRITICAL" | REGULATORY_RISK => "REGULATORY_RISK"
  end.
Definition all : list DeadlineSeverity := [INFORMATIONAL; NORMAL; IMPORTANT; CRITICAL;
  REGULATORY_RISK].
#[global] Instance enum : StrEnum DeadlineSeverity.
Proof. refine {| value := str; members := all |}; [solve_members | solve_values]. Defined.
End DeadlineSeverity.

Module EscalationLevel.
Inductive EscalationLevel : Set :=
  | OWNER | BACKUP_OWNER | REVIEWER | MANAGER | COUNSEL | EXECUTIVE.
#[global] Instance eq_dec : EqDecision EscalationLevel.
Proof. solve_decision. Defined.
Definition str (x : EscalationLevel) : string :=
  match x with
  | OWNER => "OWNER" | BACKUP_OWNER => "BACKUP_OWNER" | REVIEWER => "REVIEWER"
  | MANAGER => "MANAGER" | COUNSEL => "COUNSEL" | EXECUTIVE => "EXECUTIVE"
  end.
Definition all : list EscalationLevel := [OWNER; BACKUP_OWNER; REVIEWER; MANAGER; COUNSEL;
  EXECUTIVE].
#[global] Instance enum : StrEnum EscalationLevel.
Proof. refine {| value := str; members := all |}; [solve_members | solve_values]. Defined.
End EscalationLevel.

(** ** [app/requirements/taxonomy.py] *)

Module RequirementOutcome.
Inductive RequirementOutcome : Set :=
  | LIKELY_REQUIRED | POSSIBLY_REQUIRED | LIKELY_NOT_REQUIRED | COUNSEL_REVIEW | OUT_OF_SCOPE
  | INSUFFICIENT_INFORMATION.
#[global] Instance eq_dec : EqDecision RequirementOutcome.
Proof. solve_decision. Defined.
Definition str (x : RequirementOutcome) : string :=
  match x with
  | LIKELY_REQUIRED => "LIKELY_REQUIRED" | POSSIBLY_REQUIRED => "POSSIBLY_REQUIRED"
  | LIKELY_NOT_REQUIRED => "LIKELY_NOT_REQUIRED" | COUNSEL_REVIEW => "COUNSEL_REVIEW"
  | OUT_OF_SCOPE => "OUT_OF_SCOPE" | INSUFFICIENT_INFORMATION => "INSUFFICIENT_INFORMATION"
  end.
Definition all : list RequirementOutcome := [LIKELY_REQUIRED; POSSIBLY_REQUIRED;
  LIKELY_NOT_REQUIRED; COUNSEL_REVIEW; OUT_OF_SCOPE; INSUFFICIENT_INFORMATION].
#[global] Instance enum : StrEnum RequirementOutcome.
Proof. refine {| value := str; members := all |}; [solve_members | solve_values]. Defined.
End RequirementOutcome.

Module SourceType.
Inductive SourceType : Set :=
  | NMLS_CHECKLIST | NMLS_RENEWAL_CHECKLIST | REGULATOR_WEBPAGE | REGULATOR_PDF | STATUTE
  | REGULATION | REGULATOR_GUIDANCE | COUNSEL_MEMO | VENDOR_CHECKLIST | INTERNAL_POLICY
  | OTHER.
#[global] Instance eq_dec : EqDecision SourceType.
Proof. solve_decision. Defined.
Definition str (x : SourceType) : string :=
  match x with
  | NMLS_CHECKLIST => "NMLS_CHECKLIST" | NMLS_RENEWAL_CHECKLIST => "NMLS_RENEWAL_CHECKLIST"
  | REGULATOR_WEBPAGE => "REGULATOR_WEBPAGE" | REGULATOR_PDF => "REGULATOR_PDF"
  | STATUTE => "STATUTE" | REGULATION => "REGULATION"
  | REGULATOR_GUIDANCE => "REGULATOR_GUIDANCE" | COUNSEL_MEMO => "COUNSEL_MEMO"
  | VENDOR_CHECKLIST => "VENDOR_CHECKLIST" | INTERNAL_POLICY => "INTERNAL_POLICY"
  | OTHER => "OTHER"
  end.
Definition all : list SourceType := [NMLS_CHECKLIST; NMLS_RENEWAL_CHECKLIST;
  REGULATOR_WEBPAGE; REGULATOR_PDF; STATUTE; REGULATION; REGULATOR_GUIDANCE; COUNSEL_MEMO;
  VENDOR_CHECKLIST; INTERNAL_POLICY; OTHER].
#[global] Instance enum : StrEnum SourceType.
Proof. refine {| value := str; members := all |}; [solve_members | solve_values]. Defined.
End SourceType.

Module AuthorityLevel.
Inductive AuthorityLevel : Set :=
  | OFFICIAL_PRIMARY | OFFICIAL_GUIDANCE | APPROVED_COUNSEL | VENDOR_OPERATIONAL | INTERNAL
  | UNVERIFIED.
#[global] Instance eq_dec : EqDecision AuthorityLevel.
Proof. solve_decision. Defined.
Definition str (x : AuthorityLevel) : string :=
  match x with
  | OFFICIAL_PRIMARY => "OFFICIAL_PRIMARY" | OFFICIAL_GUIDANCE => "OFFICIAL_GUIDANCE"
  | APPROVED_COUNSEL => "APPROVED_COUNSEL" | VENDOR_OPERATIONAL => "VENDOR_OPERATIONAL"
  | INTERNAL => "INTERNAL" | UNVERIFIED => "UNVERIFIED"
  end.
Definition all : list AuthorityLevel := [OFFICIAL_PRIMARY; OFFICIAL_GUIDANCE;
  APPROVED_COUNSEL; VENDOR_OPERATIONAL; INTERNAL; UNVERIFIED].
#[global] Instance enum : StrEnum AuthorityLevel.
Proof. refine {| value := str; members := all |}; [solve_members | solve_values]. Defined.
End AuthorityLevel.

Module SourceFreshnessStatus.
Inductive SourceFreshnessStatus : Set :=
  | FRESH | DUE_FOR_VERIFICATION | STALE | UNKNOWN | NO_SOURCE.
#[global] Instance eq_dec : EqDecision SourceFreshnessStatus.
Proof. solve_decision. Defined.
Definition str (x : SourceFreshnessStatus) : string :=
  match x with
  | FRESH => "FRESH" | DUE_FOR_VERIFICATION => "DUE_FOR_VERIFICATION" | STALE => "STALE"
  | UNKNOWN => "UNKNOWN" | NO_SOURCE => "NO_SOURCE"
  end.
Definition all : list SourceFreshnessStatus := [FRESH; DUE_FOR_VERIFICATION; STALE; UNKNOWN;
  NO_SOURCE].
#[global] Instance enum : StrEnum SourceFreshnessStatus.
Proof. refine {| value := str; members := all |}; [solve_members | solve_values]. Defined.
End SourceFreshnessStatus.

(** ** [app/licensing/enums.py] *)

Module ObligationType.
Inductive ObligationType : Set :=
  | LICENSE_RENEWAL | BOND_RENEWAL | ANNUAL_REPORT | FINANCIAL_DOCUMENT | CERTIFICATE_RENEWAL
  | INITIAL_APPLICATION | AMENDMENT | DEFICIENCY_RESPONSE | INFORMATION_RESPONSE | SURRENDER
  | OTHER.
#[global] Instance eq_dec : EqDecision ObligationType.
Proof. solve_decision. Defined.
Definition str (x : ObligationType) : string :=
  match x with
  | LICENSE_RENEWAL => "LICENSE_RENEWAL" | BOND_RENEWAL => "BOND_RENEWAL"
  | ANNUAL_REPORT => "ANNUAL_REPORT" | FINANCIAL_DOCUMENT => "FINANCIAL_DOCUMENT"
  | CERTIFICATE_RENEWAL => "CERTIFICATE_RENEWAL"
  | INITIAL_APPLICATION => "INITIAL_APPLICATION" | AMENDMENT => "AMENDMENT"
  | DEFICIENCY_RESPONSE => "DEFICIENCY_RESPONSE"
  | INFORMATION_RESPONSE => "INFORMATION_RESPONSE" | SURRENDER => "SURRENDER"
  | OTHER => "OTHER"
  end.
Definition all : list ObligationType := [LICENSE_RENEWAL; BOND_RENEWAL; ANNUAL_REPORT;
  FINANCIAL_DOCUMENT; CERTIFICATE_RENEWAL; INITIAL_APPLICATION; AMENDMENT;
  DEFICIENCY_RESPONSE; INFORMATION_RESPONSE; SURRENDER; OTHER].
#[global] Instance enum : StrEnum ObligationType.
Proof. refine {| value := str; members := all |}; [solve_members | solve_values]. Defined.
End ObligationType.

Module ObligationStatus.
Inductive ObligationStatus : Set :=
  | PLANNED | ACTIVE | IN_CASE | SATISFIED | WAIVED | NOT_APPLICABLE | SUPERSEDED | CANCELLED.
#[global] Instance eq_dec : EqDecision ObligationStatus.
Proof. solve_decision. Defined.
Definition str (x : ObligationStatus) : string :=
  match x with
  | PLANNED => "PLANNED" | ACTIVE => "ACTIVE" | IN_CASE => "IN_CASE"
  | SATISFIED => "SATISFIED" | WAIVED => "WAIVED" | NOT_APPLICABLE => "NOT_APPLICABLE"
  | SUPERSEDED => "SUPERSEDED" | CANCELLED => "CANCELLED"
  end.
Definition all : list ObligationStatus := [PLANNED; ACTIVE; IN_CASE; SATISFIED; WAIVED;
  NOT_APPLICABLE; SUPERSEDED; CANCELLED].
#[global] Instance enum : StrEnum ObligationStatus.
Proof. refine {| value := str; members := all |}; [solve_members | solve_values]. Defined.
End ObligationStatus.

Module CaseType.
Inductive CaseType : Set :=
  | LICENSE_RENEWAL | INITIAL_LICENSE | LICENSE_AMENDMENT | BOND_RENEWAL | BOND_RIDER
  | ANNUAL_REPORT | FINANCIAL_DOCUMENT | DEFICIENCY_RESPONSE | INFORMATION_RESPONSE
  | SURRENDER | OTHER.
#[global] Instance eq_dec : EqDecision CaseType.
Proof. solve_decision. Defined.
Definition str (x : CaseType) : string :=
  match x with
  | LICENSE_RENEWAL => "LICENSE_RENEWAL" | INITIAL_LICENSE => "INITIAL_LICENSE"
  | LICENSE_AMENDMENT => "LICENSE_AMENDMENT" | BOND_RENEWAL => "BOND_RENEWAL"
  | BOND_RIDER => "BOND_RIDER" | ANNUAL_REPORT => "ANNUAL_REPORT"
  | FINANCIAL_DOCUMENT => "FINANCIAL_DOCUMENT" | DEFICIENCY_RESPONSE => "DEFICIENCY_RESPONSE"
  | INFORMATION_RESPONSE => "INFORMATION_RESPONSE" | SURRENDER => "SURRENDER"
  | OTHER => "OTHER"
  end.
Definition all : list CaseType := [LICENSE_RENEWAL; INITIAL_LICENSE; LICENSE_AMENDMENT;
  BOND_RENEWAL; BOND_RIDER; ANNUAL_REPORT; FINANCIAL_DOCUMENT; DEFICIENCY_RESPONSE;
  INFORMATION_RESPONSE; SURRENDER; OTHER].
#[global] Instance enum : StrEnum CaseType.
Proof. refine {| value := str; members := all |}; [solve_members | solve_values]. Defined.
End CaseType.

Module CaseStage.
Inductive CaseStage : Set :=
  | DUE_IDENTIFIED | CASE_PLANNING | VENDOR_OUTREACH_PENDING | VENDOR_OUTREACH_SENT
  | VENDOR_QUESTIONS | INTERNAL_INFORMATION_PENDING | ANSWERS_READY | ANSWERS_SENT
  | DOCUMENT_CHECKLIST_RECEIVED | DOCUMENTS_PENDING | PACKET_BUILDING
  | PACKET_READY_FOR_REVIEW | PACKET_APPROVED | PACKET_SENT | FORM_RECEIVED | FORM_PREPARATION
  | FORM_MISSING_INFORMATION | FORM_READY_FOR_REVIEW | SIGNATURE_PENDING
  | SIGNED_FORM_RECEIVED | SUBMISSION_PENDING | SUBMITTED_TO_VENDOR | SUBMITTED_TO_REGULATOR
  | VENDOR_VALIDATION | REGULATOR_REVIEW | DEFICIENCY_RECEIVED | RENEWED_EVIDENCE_RECEIVED
  | INVENTORY_UPDATE_PENDING | COMPLETED | BLOCKED | CANCELLED.
#[global] Instance eq_dec : EqDecision CaseStage.
Proof. solve_decision. Defined.
Definition str (x : CaseStage) : string :=
  match x with
  | DUE_IDENTIFIED => "DUE_IDENTIFIED" | CASE_PLANNING => "CASE_PLANNING"
  | VENDOR_OUTREACH_PENDING => "VENDOR_OUTREACH_PENDING"
  | VENDOR_OUTREACH_SENT => "VENDOR_OUTREACH_SENT" | VENDOR_QUESTIONS => "VENDOR_QUESTIONS"
  | INTERNAL_INFORMATION_PENDING => "INTERNAL_INFORMATION_PENDING"
  | ANSWERS_READY => "ANSWERS_READY" | ANSWERS_SENT => "ANSWERS_SENT"
  | DOCUMENT_CHECKLIST_RECEIVED => "DOCUMENT_CHECKLIST_RECEIVED"
  | DOCUMENTS_PENDING => "DOCUMENTS_PENDING" | PACKET_BUILDING => "PACKET_BUILDING"
  | PACKET_READY_FOR_REVIEW => "PACKET_READY_FOR_REVIEW"
  | PACKET_APPROVED => "PACKET_APPROVED" | PACKET_SENT => "PACKET_SENT"
  | FORM_RECEIVED => "FORM_RECEIVED" | FORM_PREPARATION => "FORM_PREPARATION"
  | FORM_MISSING_INFORMATION => "FORM_MISSING_INFORMATION"
  | FORM_READY_FOR_REVIEW => "FORM_READY_FOR_REVIEW"
  | SIGNATURE_PENDING => "SIGNATURE_PENDING" | SIGNED_FORM_RECEIVED => "SIGNED_FORM_RECEIVED"
  | SUBMISSION_PENDING => "SUBMISSION_PENDING" | SUBMITTED_TO_VENDOR => "SUBMITTED_TO_VENDOR"
  | SUBMITTED_TO_REGULATOR => "SUBMITTED_TO_REGULATOR"
  | VENDOR_VALIDATION => "VENDOR_VALIDATION" | REGULATOR_REVIEW => "REGULATOR_REVIEW"
  | DEFICIENCY_RECEIVED => "DEFICIENCY_RECEIVED"
  | RENEWED_EVIDENCE_RECEIVED => "RENEWED_EVIDENCE_RECEIVED"
  | INVENTORY_UPDATE_PENDING => "INVENTORY_UPDATE_PENDING" | COMPLETED => "COMPLETED"
  | BLOCKED => "BLOCKED" | CANCELLED => "CANCELLED"
  end.
Definition all : list CaseStage := [DUE_IDENTIFIED; CASE_PLANNING; VENDOR_OUTREACH_PENDING;
  VENDOR_OUTREACH_SENT; VENDOR_QUESTIONS; INTERNAL_INFORMATION_PENDING; ANSWERS_READY;
  ANSWERS_SENT; DOCUMENT_CHECKLIST_RECEIVED; DOCUMENTS_PENDING; PACKET_BUILDING;
  PACKET_READY_FOR_REVIEW; PACKET_APPROVED; PACKET_SENT; FORM_RECEIVED; FORM_PREPARATION;
  FORM_MISSING_INFORMATION; FORM_READY_FOR_REVIEW; SIGNATURE_PENDING; SIGNED_FORM_RECEIVED;
  SUBMISSION_PENDING; SUBMITTED_TO_VENDOR; SUBMITTED_TO_REGULATOR; VENDOR_VALIDATION;
  REGULATOR_REVIEW; DEFICIENCY_RECEIVED; RENEWED_EVIDENCE_RECEIVED; INVENTORY_UPDATE_PENDING;
  COMPLETED; BLOCKED; CANCELLED].
#[global] Instance enum : StrEnum CaseStage.
Proof. refine {| value := str; members := all |}; [solve_members | solve_values]. Defined.
End CaseStage.

Module CaseStatus.
Inductive CaseStatus : Set :=
  | OPEN | IN_PROGRESS | WAITING_INTERNAL | WAITING_VENDOR | WAITING_SIGNATURE
  | WAITING_SUBMISSION | WAITING_REGULATOR | BLOCKED | COMPLETED | CANCELLED | OVERDUE.
#[global] Instance eq_dec : EqDecision CaseStatus.
Proof. solve_decision. Defined.
Definition str (x : CaseStatus) : string :=
  match x with
  | OPEN => "OPEN" | IN_PROGRESS => "IN_PROGRESS" | WAITING_INTERNAL => "WAITING_INTERNAL"
  | WAITING_VENDOR => "WAITING_VENDOR" | WAITING_SIGNATURE => "WAITING_SIGNATURE"
  | WAITING_SUBMISSION => "WAITING_SUBMISSION" | WAITING_REGULATOR => "WAITING_REGULATOR"
  | BLOCKED => "BLOCKED" | COMPLETED => "COMPLETED" | CANCELLED => "CANCELLED"
  | OVERDUE => "OVERDUE"
  end.
Definition all : list CaseStatus := [OPEN; IN_PROGRESS; WAITING_INTERNAL; WAITING_VENDOR;
  WAITING_SIGNATURE; WAITING_SUBMISSION; WAITING_REGULATOR; BLOCKED; COMPLETED; CANCELLED;
  OVERDUE].
#[global] Instance enum : StrEnum CaseStatus.
Proof. refine {| value := str; members := all |}; [solve_members | solve_values]. Defined.
End CaseStatus.

Module CasePriority.
Inductive CasePriority : Set :=
  | LOW | NORMAL | HIGH | CRITICAL.
#[global] Instance eq_dec : EqDecision CasePriority.
Proof. solve_decision. Defined.
Definition str (x : CasePriority) : string :=
  match x with
  | LOW => "LOW" | NORMAL => "NORMAL" | HIGH => "HIGH" | CRITICAL => "CRITICAL"
  end.
Definition all : list CasePriority := [LOW; NORMAL; HIGH; CRITICAL].
#[global] Instance enum : StrEnum CasePriority.
Proof. refine {| value := str; members := all |}; [solve_members | solve_values]. Defined.
End CasePriority.

Module CaseInformationRequestStatus.
Inductive CaseInformationRequestStatus : Set :=
  | OPEN | REQUESTED | ANSWER_PROPOSED | ANSWER_REVIEW | ANSWER_APPROVED | PROVIDED_TO_VENDOR
  | NOT_APPLICABLE | CANCELLED.
#[global] Instance eq_dec : EqDecision CaseInformationRequestStatus.
Proof. solve_decision. Defined.
Definition str (x : CaseInformationRequestStatus) : string :=
  match x with
  | OPEN => "OPEN" | REQUESTED => "REQUESTED" | ANSWER_PROPOSED => "ANSWER_PROPOSED"
  | ANSWER_REVIEW => "ANSWER_REVIEW" | ANSWER_APPROVED => "ANSWER_APPROVED"
  | PROVIDED_TO_VENDOR => "PROVIDED_TO_VENDOR" | NOT_APPLICABLE => "NOT_APPLICABLE"
  | CANCELLED => "CANCELLED"
  end.
Definition all : list CaseInformationRequestStatus := [OPEN; REQUESTED; ANSWER_PROPOSED;
  ANSWER_REVIEW; ANSWER_APPROVED; PROVIDED_TO_VENDOR; NOT_APPLICABLE; CANCELLED].
#[global] Instance enum : StrEnum CaseInformationRequestStatus.
Proof. refine {| value := str; members := all |}; [solve_members | solve_values]. Defined.
End CaseInformationRequestStatus.

(** ** [app/domain/enums.py] *)

Module ProcessingState.
Inductive ProcessingState : Set :=
  | DISCOVERED | FETCHED | ATTACHMENTS_SAVED | CLASSIFIED | TASK_CREATED | MOVED | COMPLETED
  | FAILED_RETRYABLE | FAILED_REVIEW.
#[global] Instance eq_dec : EqDecision ProcessingState.
Proof. solve_decision. Defined.
Definition str (x : ProcessingState) : string :=
  match x with
  | DISCOVERED => "DISCOVERED" | FETCHED => "FETCHED"
  | ATTACHMENTS_SAVED => "ATTACHMENTS_SAVED" | CLASSIFIED => "CLASSIFIED"
  | TASK_CREATED => "TASK_CREATED" | MOVED => "MOVED" | COMPLETED => "COMPLETED"
  | FAILED_RETRYABLE => "FAILED_RETRYABLE" | FAILED_REVIEW => "FAILED_REVIEW"
  end.
Definition all : list ProcessingState := [DISCOVERED; FETCHED; ATTACHMENTS_SAVED; CLASSIFIED;
  TASK_CREATED; MOVED; COMPLETED; FAILED_RETRYABLE; FAILED_REVIEW].
#[global] Instance enum : StrEnum ProcessingState.
Proof. refine {| value := str; members := all |}; [solve_members | solve_values]. Defined.
End ProcessingState.

Module ActorType.
Inductive ActorType : Set :=
  | HUMAN | SYSTEM | IMPORT.
#[global] Instance eq_dec : EqDecision ActorType.
Proof. solve_decision. Defined.
Definition str (x : ActorType) : string :=
  match x with
  | HUMAN => "HUMAN" | SYSTEM => "SYSTEM" | IMPORT => "IMPORT"
  end.
Definition all : list ActorType := [HUMAN; SYSTEM; IMPORT].
#[global] Instance enum : StrEnum ActorType.
Proof. refine {| value := str; members := all |}; [solve_members | solve_values]. Defined.
End ActorType.

(** ** [app/jobs/enums.py] *)

Module JobType.
Inductive JobType : Set :=
  | ENSURE_SUBSCRIPTION | RENEW_SUBSCRIPTION | RECREATE_SUBSCRIPTION | SYNC_FOLDER
  | INGEST_EMAIL | CLASSIFY_EMAIL.
#[global] Instance eq_dec : EqDecision JobType.
Proof. solve_decision. Defined.
Definition str (x : JobType) : string :=
  match x with
  | ENSURE_SUBSCRIPTION => "ENSURE_SUBSCRIPTION" | RENEW_SUBSCRIPTION => "RENEW_SUBSCRIPTION"
  | RECREATE_SUBSCRIPTION => "RECREATE_SUBSCRIPTION" | SYNC_FOLDER => "SYNC_FOLDER"
  | INGEST_EMAIL => "INGEST_EMAIL" | CLASSIFY_EMAIL => "CLASSIFY_EMAIL"
  end.
Definition all : list JobType := [ENSURE_SUBSCRIPTION; RENEW_SUBSCRIPTION;
  RECREATE_SUBSCRIPTION; SYNC_FOLDER; INGEST_EMAIL; CLASSIFY_EMAIL].
#[global] Instance enum : StrEnum JobType.
Proof. refine {| value := str; members := all |}; [solve_members | solve_values]. Defined.
End JobType.

Module JobStatus.
Inductive JobStatus : Set :=
  | PENDING | RUNNING | COMPLETED | FAILED_RETRYABLE | FAILED_REVIEW | CANCELLED.
#[global] Instance eq_dec : EqDecision JobStatus.
Proof. solve_decision. Defined.
Definition str (x : JobStatus) : string :=
  match x with
  | PENDING => "PENDING" | RUNNING => "RUNNING" | COMPLETED => "COMPLETED"
  | FAILED_RETRYABLE => "FAILED_RETRYABLE" | FAILED_REVIEW => "FAILED_REVIEW"
  | CANCELLED => "CANCELLED"
  end.
Definition all : list JobStatus := [PENDING; RUNNING; COMPLETED; FAILED_RETRYABLE;
  FAILED_REVIEW; CANCELLED].
#[global] Instance enum : StrEnum JobStatus.
Proof. refine {| value := str; members := all |}; [solve_members | solve_values]. Defined.
End JobStatus.

(** ** [app/communications/enums.py] *)

Module ResponseType.
Inductive ResponseType : Set :=
  | ACKNOWLEDGEMENT | INFORMATION_RESPONSE | DOCUMENT_RESPONSE | CLARIFICATION_RESPONSE
  | PAYMENT_CONFIRMATION | FILING_CONFIRMATION | REGULATOR_RESPONSE | BOND_RESPONSE
  | INTERNAL_FORWARD | NO_RESPONSE_REQUIRED.
#[global] Instance eq_dec : EqDecision ResponseType.
Proof. solve_decision. Defined.
Definition str (x : ResponseType) : string :=
  match x with
  | ACKNOWLEDGEMENT => "ACKNOWLEDGEMENT" | INFORMATION_RESPONSE => "INFORMATION_RESPONSE"
  | DOCUMENT_RESPONSE => "DOCUMENT_RESPONSE"
  | CLARIFICATION_RESPONSE => "CLARIFICATION_RESPONSE"
  | PAYMENT_CONFIRMATION => "PAYMENT_CONFIRMATION"
  | FILING_CONFIRMATION => "FILING_CONFIRMATION" | REGULATOR_RESPONSE => "REGULATOR_RESPONSE"
  | BOND_RESPONSE => "BOND_RESPONSE" | INTERNAL_FORWARD => "INTERNAL_FORWARD"
  | NO_RESPONSE_REQUIRED => "NO_RESPONSE_REQUIRED"
  end.
Definition all : list ResponseType := [ACKNOWLEDGEMENT; INFORMATION_RESPONSE;
  DOCUMENT_RESPONSE; CLARIFICATION_RESPONSE; PAYMENT_CONFIRMATION; FILING_CONFIRMATION;
  REGULATOR_RESPONSE; BOND_RESPONSE; INTERNAL_FORWARD; NO_RESPONSE_REQUIRED].
#[global] Instance enum : StrEnum ResponseType.
Proof. refine {| value := str; members := all |}; [solve_members | solve_values]. Defined.
End ResponseType.

Module RecipientMode.
Inductive RecipientMode : Set :=
  | REPLY | REPLY_ALL | MANUAL | INTERNAL_FORWARD | NONE.
#[global] Instance eq_dec : EqDecision RecipientMode.
Proof. solve_decision. Defined.
Definition str (x : RecipientMode) : string :=
  match x with
  | REPLY => "REPLY" | REPLY_ALL => "REPLY_ALL" | MANUAL => "MANUAL"
  | INTERNAL_FORWARD => "INTERNAL_FORWARD" | NONE => "NONE"
  end.
Definition all : list RecipientMode := [REPLY; REPLY_ALL; MANUAL; INTERNAL_FORWARD; NONE].
#[global] Instance enum : StrEnum RecipientMode.
Proof. refine {| value := str; members := all |}; [solve_members | solve_values]. Defined.
End RecipientMode.

Module ReadinessStatus.
Inductive ReadinessStatus : Set :=
  | NOT_REQUIRED | NOT_READY | READY_FOR_DRAFT | READY_FOR_APPROVAL | READY_TO_SEND | BLOCKED.
#[global] Instance eq_dec : EqDecision ReadinessStatus.
Proof. solve_decision. Defined.
Definition str (x : ReadinessStatus) : string :=
  match x with
  | NOT_REQUIRED => "NOT_REQUIRED" | NOT_READY => "NOT_READY"
  | READY_FOR_DRAFT => "READY_FOR_DRAFT" | READY_FOR_APPROVAL => "READY_FOR_APPROVAL"
  | READY_TO_SEND => "READY_TO_SEND" | BLOCKED => "BLOCKED"
  end.
Definition all : list ReadinessStatus := [NOT_REQUIRED; NOT_READY; READY_FOR_DRAFT;
  READY_FOR_APPROVAL; READY_TO_SEND; BLOCKED].
#[global] Instance enum : StrEnum ReadinessStatus.
Proof. refine {| value := str; members := all |}; [solve_members | solve_values]. Defined.
End ReadinessStatus.

Module CommunicationDraftStatus.
Inductive CommunicationDraftStatus : Set :=
  | LOCAL_DRAFT | GRAPH_DRAFT_PENDING | GRAPH_DRAFT_CREATED | REVIEW_IN_PROGRESS
  | CHANGES_REQUESTED | PENDING_SEND_APPROVAL | APPROVED_TO_SEND | SEND_QUEUED | SENDING
  | SEND_ACCEPTED | SEND_AMBIGUOUS | SENT_COPY_VERIFIED | SEND_FAILED_RETRYABLE
  | SEND_FAILED_REVIEW | CANCELLED.
#[global] Instance eq_dec : EqDecision CommunicationDraftStatus.
Proof. solve_decision. Defined.
Definition str (x : CommunicationDraftStatus) : string :=
  match x with
  | LOCAL_DRAFT => "LOCAL_DRAFT" | GRAPH_DRAFT_PENDING => "GRAPH_DRAFT_PENDING"
  | GRAPH_DRAFT_CREATED => "GRAPH_DRAFT_CREATED" | REVIEW_IN_PROGRESS => "REVIEW_IN_PROGRESS"
  | CHANGES_REQUESTED => "CHANGES_REQUESTED"
  | PENDING_SEND_APPROVAL => "PENDING_SEND_APPROVAL" | APPROVED_TO_SEND => "APPROVED_TO_SEND"
  | SEND_QUEUED => "SEND_QUEUED" | SENDING => "SENDING" | SEND_ACCEPTED => "SEND_ACCEPTED"
  | SEND_AMBIGUOUS => "SEND_AMBIGUOUS" | SENT_COPY_VERIFIED => "SENT_COPY_VERIFIED"
  | SEND_FAILED_RETRYABLE => "SEND_FAILED_RETRYABLE"
  | SEND_FAILED_REVIEW => "SEND_FAILED_REVIEW" | CANCELLED => "CANCELLED"
  end.
Definition all : list CommunicationDraftStatus := [LOCAL_DRAFT; GRAPH_DRAFT_PENDING;
  GRAPH_DRAFT_CREATED; REVIEW_IN_PROGRESS; CHANGES_REQUESTED; PENDING_SEND_APPROVAL;
  APPROVED_TO_SEND; SEND_QUEUED; SENDING; SEND_ACCEPTED; SEND_AMBIGUOUS; SENT_COPY_VERIFIED;
  SEND_FAILED_RETRYABLE; SEND_FAILED_REVIEW; CANCELLED].
#[global] Instance enum : StrEnum CommunicationDraftStatus.
Proof. refine {| value := str; members := all |}; [solve_members | solve_values]. Defined.
End CommunicationDraftStatus.

Module ApprovalDecision.
Inductive ApprovalDecision : Set :=
  | PENDING_SECOND_APPROVAL | APPROVED | REJECTED | CHANGES_REQUESTED | INVALIDATED.
#[global] Instance eq_dec : EqDecision ApprovalDecision.
Proof. solve_decision. Defined.
Definition str (x : ApprovalDecision) : string :=
  match x with
  | PENDING_SECOND_APPROVAL => "PENDING_SECOND_APPROVAL" | APPROVED => "APPROVED"
  | REJECTED => "REJECTED" | CHANGES_REQUESTED => "CHANGES_REQUESTED"
  | INVALIDATED => "INVALIDATED"
  end.
Definition all : list ApprovalDecision := [PENDING_SECOND_APPROVAL; APPROVED; REJECTED;
  CHANGES_REQUESTED; INVALIDATED].
#[global] Instance enum : StrEnum ApprovalDecision.
Proof. refine {| value := str; members := all |}; [solve_members | solve_values]. Defined.
End ApprovalDecision.

Module SendAttemptStatus.
Inductive SendAttemptStatus : Set :=
  | STARTED | ACCEPTED | AMBIGUOUS | SENT_COPY_VERIFIED | FAILED_RETRYABLE | FAILED_REVIEW
  | CANCELLED.
#[global] Instance eq_dec : EqDecision SendAttemptStatus.
Proof. solve_decision. Defined.
Definition str (x : SendAttemptStatus) : string :=
  match x with
  | STARTED => "STARTED" | ACCEPTED => "ACCEPTED" | AMBIGUOUS => "AMBIGUOUS"
  | SENT_COPY_VERIFIED => "SENT_COPY_VERIFIED" | FAILED_RETRYABLE => "FAILED_RETRYABLE"
  | FAILED_REVIEW => "FAILED_REVIEW" | CANCELLED => "CANCELLED"
  end.
Definition all : list SendAttemptStatus := [STARTED; ACCEPTED; AMBIGUOUS; SENT_COPY_VERIFIED;
  FAILED_RETRYABLE; FAILED_REVIEW; CANCELLED].
#[global] Instance enum : StrEnum SendAttemptStatus.
Proof. refine {| value := str; members := all |}; [solve_members | solve_values]. Defined.
End SendAttemptStatus.

Module CommunicationJobType.
Inductive CommunicationJobType : Set :=
  | CREATE_GRAPH_DRAFT | SYNC_GRAPH_DRAFT | UPLOAD_DRAFT_ATTACHMENTS | SEND_DRAFT
  | RECONCILE_SEND | MOVE_SOURCE_MESSAGE | VERIFY_SOURCE_MOVE | COMPLETE_EMAIL_WORKFLOW
  | RECONCILE_GRAPH_DRAFT.
#[global] Instance eq_dec : EqDecision CommunicationJobType.
Proof. solve_decision. Defined.
Definition str (x : CommunicationJobType) : string :=
  match x with
  | CREATE_GRAPH_DRAFT => "CREATE_GRAPH_DRAFT" | SYNC_GRAPH_DRAFT => "SYNC_GRAPH_DRAFT"
  | UPLOAD_DRAFT_ATTACHMENTS => "UPLOAD_DRAFT_ATTACHMENTS" | SEND_DRAFT => "SEND_DRAFT"
  | RECONCILE_SEND => "RECONCILE_SEND" | MOVE_SOURCE_MESSAGE => "MOVE_SOURCE_MESSAGE"
  | VERIFY_SOURCE_MOVE => "VERIFY_SOURCE_MOVE"
  | COMPLETE_EMAIL_WORKFLOW => "COMPLETE_EMAIL_WORKFLOW"
  | RECONCILE_GRAPH_DRAFT => "RECONCILE_GRAPH_DRAFT"
  end.
Definition all : list CommunicationJobType := [CREATE_GRAPH_DRAFT; SYNC_GRAPH_DRAFT;
  UPLOAD_DRAFT_ATTACHMENTS; SEND_DRAFT; RECONCILE_SEND; MOVE_SOURCE_MESSAGE;
  VERIFY_SOURCE_MOVE; COMPLETE_EMAIL_WORKFLOW; RECONCILE_GRAPH_DRAFT].
#[global] Instance enum : StrEnum CommunicationJobType.
Proof. refine {| value := str; members := all |}; [solve_members | solve_values]. Defined.
End CommunicationJobType.

Module CommunicationJobStatus.
Inductive CommunicationJobStatus : Set :=
  | PENDING | RUNNING | COMPLETED | FAILED_RETRYABLE | FAILED_REVIEW | CANCELLED.
#[global] Instance eq_dec : EqDecision CommunicationJobStatus.
Proof. solve_decision. Defined.
Definition str (x : CommunicationJobStatus) : string :=
  match x with
  | PENDING => "PENDING" | RUNNING => "RUNNING" | COMPLETED => "COMPLETED"
  | FAILED_RETRYABLE => "FAILED_RETRYABLE" | FAILED_REVIEW => "FAILED_REVIEW"
  | CANCELLED => "CANCELLED"
  end.
Definition all : list CommunicationJobStatus := [PENDING; RUNNING; COMPLETED;
  FAILED_RETRYABLE; FAILED_REVIEW; CANCELLED].
#[global] Instance enum : StrEnum CommunicationJobStatus.
Proof. refine {| value := str; members := all |}; [solve_members | solve_values]. Defined.
End CommunicationJobStatus.

(** ** [app/auth/roles.py] *)

Module Role.
Inductive Role : Set :=
  | READER | ANALYST | REVIEWER | SENDER | MANAGER | ADMIN | COUNSEL | INFORMATION_OWNER
  | AUTHORIZED_SIGNATORY | PORTAL_OPERATOR | PAYMENT_APPROVER | FINAL_SUBMITTER.
#[global] Instance eq_dec : EqDecision Role.
Proof. solve_decision. Defined.
Definition str (x : Role) : string :=
  match x with
  | READER => "Licensing.Reader" | ANALYST => "Licensing.Analyst"
  | REVIEWER => "Licensing.Reviewer" | SENDER => "Licensing.Sender"
  | MANAGER => "Licensing.Manager" | ADMIN => "Licensing.Admin"
  | COUNSEL => "Licensing.Counsel" | INFORMATION_OWNER => "Information.Owner"
  | AUTHORIZED_SIGNATORY => "Authorized.Signatory" | PORTAL_OPERATOR => "Portal.Operator"
  | PAYMENT_APPROVER => "Payment.Approver" | FINAL_SUBMITTER => "Portal.FinalSubmitter"
  end.
Definition all : list Role := [READER; ANALYST; REVIEWER; SENDER; MANAGER; ADMIN; COUNSEL;
  INFORMATION_OWNER; AUTHORIZED_SIGNATORY; PORTAL_OPERATOR; PAYMENT_APPROVER; FINAL_SUBMITTER].
#[global] Instance enum : StrEnum Role.
Proof. refine {| value := str; members := all |}; [solve_members | solve_values]. Defined.
End Role.
