(* ===== verification/Terms.v ===== *)
(** * Closed vocabularies, continued

    The enumerations of the components that prepare filings (packets, documents,
    stored information, forms, portals, evidence and their jobs), of governed
    requirements and of the licence inventory. *)
From S2P Require Import Prelude.

(** ** [app/packets/enums.py] *)

Module PacketTemplateStatus.
Inductive PacketTemplateStatus : Set :=
  | DRAFT | ACTIVE | RETIRED.
#[global] Instance eq_dec : EqDecision PacketTemplateStatus.
Proof. solve_decision. Defined.
Definition str (x : PacketTemplateStatus) : string :=
  match x with
  | DRAFT => "DRAFT" | ACTIVE => "ACTIVE" | RETIRED => "RETIRED"
  end.
Definition all : list PacketTemplateStatus := [DRAFT; ACTIVE; RETIRED].
#[global] Instance enum : StrEnum PacketTemplateStatus.
Proof. refine {| value := str; members := all |}; [solve_members | solve_values]. Defined.
End PacketTemplateStatus.

Module PacketStatus.
Inductive PacketStatus : Set :=
  | DRAFT | MISSING_ITEMS | READY_FOR_REVIEW | APPROVED | SUPERSEDED | REJECTED.
#[global] Instance eq_dec : EqDecision PacketStatus.
Proof. solve_decision. Defined.
Definition str (x : PacketStatus) : string :=
  match x with
  | DRAFT => "DRAFT" | MISSING_ITEMS => "MISSING_ITEMS"
  | READY_FOR_REVIEW => "READY_FOR_REVIEW" | APPROVED => "APPROVED"
  | SUPERSEDED => "SUPERSEDED" | REJECTED => "REJECTED"
  end.
Definition all : list PacketStatus := [DRAFT; MISSING_ITEMS; READY_FOR_REVIEW; APPROVED;
  SUPERSEDED; REJECTED].
#[global] Instance enum : StrEnum PacketStatus.
Proof. refine {| value := str; members := all |}; [solve_members | solve_values]. Defined.
End PacketStatus.

Module PacketItemStatus.
Inductive PacketItemStatus : Set :=
  | MATCHED | MISSING | EXPIRED | UNAPPROVED | WRONG_ENTITY | WRONG_JURISDICTION | INCLUDED
  | EXCLUDED.
#[global] Instance eq_dec : EqDecision PacketItemStatus.
Proof. solve_decision. Defined.
Definition str (x : PacketItemStatus) : string :=
  match x with
  | MATCHED => "MATCHED" | MISSING => "MISSING" | EXPIRED => "EXPIRED"
  | UNAPPROVED => "UNAPPROVED" | WRONG_ENTITY => "WRONG_ENTITY"
  | WRONG_JURISDICTION => "WRONG_JURISDICTION" | INCLUDED => "INCLUDED"
  | EXCLUDED => "EXCLUDED"
  end.
Definition all : list PacketItemStatus := [MATCHED; MISSING; EXPIRED; UNAPPROVED;
  WRONG_ENTITY; WRONG_JURISDICTION; INCLUDED; EXCLUDED].
#[global] Instance enum : StrEnum PacketItemStatus.
Proof. refine {| value := str; members := all |}; [solve_members | solve_values]. Defined.
End PacketItemStatus.

Module PacketValidationCode.
Inductive PacketValidationCode : Set :=
  | REQUIRED_ITEM_MISSING | DOCUMENT_EXPIRED | DOCUMENT_NOT_APPROVED | DOCUMENT_WRONG_ENTITY
  | DOCUMENT_WRONG_JURISDICTION | DOCUMENT_SUPERSEDED | DOCUMENT_QUARANTINED
  | DOCUMENT_HASH_MISMATCH | DOCUMENT_NOT_AVAILABLE | DOCUMENT_REUSE_NOT_APPROVED
  | CONFIDENTIALITY_NOT_PERMITTED | PACKET_TOO_MANY_DOCUMENTS | PACKET_TOO_LARGE
  | SOURCE_STORAGE_MISSING.
#[global] Instance eq_dec : EqDecision PacketValidationCode.
Proof. solve_decision. Defined.
Definition str (x : PacketValidationCode) : string :=
  match x with
  | REQUIRED_ITEM_MISSING => "REQUIRED_ITEM_MISSING" | DOCUMENT_EXPIRED => "DOCUMENT_EXPIRED"
  | DOCUMENT_NOT_APPROVED => "DOCUMENT_NOT_APPROVED"
  | DOCUMENT_WRONG_ENTITY => "DOCUMENT_WRONG_ENTITY"
  | DOCUMENT_WRONG_JURISDICTION => "DOCUMENT_WRONG_JURISDICTION"
  | DOCUMENT_SUPERSEDED => "DOCUMENT_SUPERSEDED"
  | DOCUMENT_QUARANTINED => "DOCUMENT_QUARANTINED"
  | DOCUMENT_HASH_MISMATCH => "DOCUMENT_HASH_MISMATCH"
  | DOCUMENT_NOT_AVAILABLE => "DOCUMENT_NOT_AVAILABLE"
  | DOCUMENT_REUSE_NOT_APPROVED => "DOCUMENT_REUSE_NOT_APPROVED"
  | CONFIDENTIALITY_NOT_PERMITTED => "CONFIDENTIALITY_NOT_PERMITTED"
  | PACKET_TOO_MANY_DOCUMENTS => "PACKET_TOO_MANY_DOCUMENTS"
  | PACKET_TOO_LARGE => "PACKET_TOO_LARGE"
  | SOURCE_STORAGE_MISSING => "SOURCE_STORAGE_MISSING"
  end.
Definition all : list PacketValidationCode := [REQUIRED_ITEM_MISSING; DOCUMENT_EXPIRED;
  DOCUMENT_NOT_APPROVED; DOCUMENT_WRONG_ENTITY; DOCUMENT_WRONG_JURISDICTION;
  DOCUMENT_SUPERSEDED; DOCUMENT_QUARANTINED; DOCUMENT_HASH_MISMATCH; DOCUMENT_NOT_AVAILABLE;
  DOCUMENT_REUSE_NOT_APPROVED; CONFIDENTIALITY_NOT_PERMITTED; PACKET_TOO_MANY_DOCUMENTS;
  PACKET_TOO_LARGE; SOURCE_STORAGE_MISSING].
#[global] Instance enum : StrEnum PacketValidationCode.
Proof. refine {| value := str; members := all |}; [solve_members | solve_values]. Defined.
End PacketValidationCode.

Module SelectionStrategy.
Inductive SelectionStrategy : Set :=
  | LATEST_APPROVED | LATEST_EFFECTIVE | LONGEST_VALIDITY | EXPLICIT_DOCUMENT | MANUAL_ONLY.
#[global] Instance eq_dec : EqDecision SelectionStrategy.
Proof. solve_decision. Defined.
Definition str (x : SelectionStrategy) : string :=
  match x with
  | LATEST_APPROVED => "LATEST_APPROVED" | LATEST_EFFECTIVE => "LATEST_EFFECTIVE"
  | LONGEST_VALIDITY => "LONGEST_VALIDITY" | EXPLICIT_DOCUMENT => "EXPLICIT_DOCUMENT"
  | MANUAL_ONLY => "MANUAL_ONLY"
  end.
Definition all : list SelectionStrategy := [LATEST_APPROVED; LATEST_EFFECTIVE;
  LONGEST_VALIDITY; EXPLICIT_DOCUMENT; MANUAL_ONLY].
#[global] Instance enum : StrEnum SelectionStrategy.
Proof. refine {| value := str; members := all |}; [solve_members | solve_values]. Defined.
End SelectionStrategy.

(** ** [app/documents/enums.py] *)

Module ApprovalStatus.
Inductive ApprovalStatus : Set :=
  | UNREVIEWED | PENDING_REVIEW | APPROVED | REJECTED.
#[global] Instance eq_dec : EqDecision ApprovalStatus.
Proof. solve_decision. Defined.
Definition str (x : ApprovalStatus) : string :=
  match x with
  | UNREVIEWED => "UNREVIEWED" | PENDING_REVIEW => "PENDING_REVIEW" | APPROVED => "APPROVED"
  | REJECTED => "REJECTED"
  end.
Definition all : list ApprovalStatus := [UNREVIEWED; PENDING_REVIEW; APPROVED; REJECTED].
#[global] Instance enum : StrEnum ApprovalStatus.
Proof. refine {| value := str; members := all |}; [solve_members | solve_values]. Defined.
End ApprovalStatus.

Module ConfidentialityLevel.
Inductive ConfidentialityLevel : Set :=
  | INTERNAL | CONFIDENTIAL | RESTRICTED.
#[global] Instance eq_dec : EqDecision ConfidentialityLevel.
Proof. solve_decision. Defined.
Definition str (x : ConfidentialityLevel) : string :=
  match x with
  | INTERNAL => "INTERNAL" | CONFIDENTIAL => "CONFIDENTIAL" | RESTRICTED => "RESTRICTED"
  end.
Definition all : list ConfidentialityLevel := [INTERNAL; CONFIDENTIAL; RESTRICTED].
#[global] Instance enum : StrEnum ConfidentialityLevel.
Proof. refine {| value := str; members := all |}; [solve_members | solve_values]. Defined.
End ConfidentialityLevel.

Module LifecycleStatus.
Inductive LifecycleStatus : Set :=
  | ACTIVE | EXPIRED | SUPERSEDED | ARCHIVED | QUARANTINED | MISSING | DELETED_EXTERNALLY.
#[global] Instance eq_dec : EqDecision LifecycleStatus.
Proof. solve_decision. Defined.
Definition str (x : LifecycleStatus) : string :=
  match x with
  | ACTIVE => "ACTIVE" | EXPIRED => "EXPIRED" | SUPERSEDED => "SUPERSEDED"
  | ARCHIVED => "ARCHIVED" | QUARANTINED => "QUARANTINED" | MISSING => "MISSING"
  | DELETED_EXTERNALLY => "DELETED_EXTERNALLY"
  end.
Definition all : list LifecycleStatus := [ACTIVE; EXPIRED; SUPERSEDED; ARCHIVED; QUARANTINED;
  MISSING; DELETED_EXTERNALLY].
#[global] Instance enum : StrEnum LifecycleStatus.
Proof. refine {| value := str; members := all |}; [solve_members | solve_values]. Defined.
End LifecycleStatus.

Module StorageStatus.
Inductive StorageStatus : Set :=
  | UPLOADING | AVAILABLE | FAILED | QUARANTINED | MISSING | DELETED_EXTERNALLY.
#[global] Instance eq_dec : EqDecision StorageStatus.
Proof. solve_decision. Defined.
Definition str (x : StorageStatus) : string :=
  match x with
  | UPLOADING => "UPLOADING" | AVAILABLE => "AVAILABLE" | FAILED => "FAILED"
  | QUARANTINED => "QUARANTINED" | MISSING => "MISSING"
  | DELETED_EXTERNALLY => "DELETED_EXTERNALLY"
  end.
Definition all : list StorageStatus := [UPLOADING; AVAILABLE; FAILED; QUARANTINED; MISSING;
  DELETED_EXTERNALLY].
#[global] Instance enum : StrEnum StorageStatus.
Proof. refine {| value := str; members := all |}; [solve_members | solve_values]. Defined.
End StorageStatus.

(** ** [app/information_registry/enums.py] *)

Module InformationCategory.
Inductive InformationCategory : Set :=
  | CONTACT_INFORMATION | CORPORATE_INFORMATION | OFFICER_INFORMATION | OWNERSHIP_INFORMATION
  | POLICY_INFORMATION | FINANCIAL_INFORMATION | LICENSING_INFORMATION | BOND_INFORMATION
  | OPERATIONAL_INFORMATION | ATTESTATION | SIGNATURE_INFORMATION.
#[global] Instance eq_dec : EqDecision InformationCategory.
Proof. solve_decision. Defined.
Definition str (x : InformationCategory) : string :=
  match x with
  | CONTACT_INFORMATION => "CONTACT_INFORMATION"
  | CORPORATE_INFORMATION => "CORPORATE_INFORMATION"
  | OFFICER_INFORMATION => "OFFICER_INFORMATION"
  | OWNERSHIP_INFORMATION => "OWNERSHIP_INFORMATION"
  | POLICY_INFORMATION => "POLICY_INFORMATION"
  | FINANCIAL_INFORMATION => "FINANCIAL_INFORMATION"
  | LICENSING_INFORMATION => "LICENSING_INFORMATION" | BOND_INFORMATION => "BOND_INFORMATION"
  | OPERATIONAL_INFORMATION => "OPERATIONAL_INFORMATION" | ATTESTATION => "ATTESTATION"
  | SIGNATURE_INFORMATION => "SIGNATURE_INFORMATION"
  end.
Definition all : list InformationCategory := [CONTACT_INFORMATION; CORPORATE_INFORMATION;
  OFFICER_INFORMATION; OWNERSHIP_INFORMATION; POLICY_INFORMATION; FINANCIAL_INFORMATION;
  LICENSING_INFORMATION; BOND_INFORMATION; OPERATIONAL_INFORMATION; ATTESTATION;
  SIGNATURE_INFORMATION].
#[global] Instance enum : StrEnum InformationCategory.
Proof. refine {| value := str; members := all |}; [solve_members | solve_values]. Defined.
End InformationCategory.

Module InformationDataType.
Inductive InformationDataType : Set :=
  | TEXT | LONG_TEXT | INTEGER | DECIMAL | BOOLEAN | DATE | EMAIL | PHONE | URL | ADDRESS
  | CURRENCY | ENUM | JSON | DOCUMENT_REFERENCE.
#[global] Instance eq_dec : EqDecision InformationDataType.
Proof. solve_decision. Defined.
Definition str (x : InformationDataType) : string :=
  match x with
  | TEXT => "TEXT" | LONG_TEXT => "LONG_TEXT" | INTEGER => "INTEGER" | DECIMAL => "DECIMAL"
  | BOOLEAN => "BOOLEAN" | DATE => "DATE" | EMAIL => "EMAIL" | PHONE => "PHONE" | URL => "URL"
  | ADDRESS => "ADDRESS" | CURRENCY => "CURRENCY" | ENUM => "ENUM" | JSON => "JSON"
  | DOCUMENT_REFERENCE => "DOCUMENT_REFERENCE"
  end.
Definition all : list InformationDataType := [TEXT; LONG_TEXT; INTEGER; DECIMAL; BOOLEAN;
  DATE; EMAIL; PHONE; URL; ADDRESS; CURRENCY; ENUM; JSON; DOCUMENT_REFERENCE].
#[global] Instance enum : StrEnum InformationDataType.
Proof. refine {| value := str; members := all |}; [solve_members | solve_values]. Defined.
End InformationDataType.

Module Sensitivity.
Inductive Sensitivity : Set :=
  | INTERNAL | CONFIDENTIAL | RESTRICTED | HIGHLY_RESTRICTED.
#[global] Instance eq_dec : EqDecision Sensitivity.
Proof. solve_decision. Defined.
Definition str (x : Sensitivity) : string :=
  match x with
  | INTERNAL => "INTERNAL" | CONFIDENTIAL => "CONFIDENTIAL" | RESTRICTED => "RESTRICTED"
  | HIGHLY_RESTRICTED => "HIGHLY_RESTRICTED"
  end.
Definition all : list Sensitivity := [INTERNAL; CONFIDENTIAL; RESTRICTED; HIGHLY_RESTRICTED].
#[global] Instance enum : StrEnum Sensitivity.
Proof. refine {| value := str; members := all |}; [solve_members | solve_values]. Defined.
End Sensitivity.

Module ReusablePolicy.
Inductive ReusablePolicy : Set :=
  | ENTITY_ONLY | ENTITY_AND_JURISDICTION | LICENSE_SPECIFIC | VENDOR_SPECIFIC | CASE_SPECIFIC
  | ALL_ENTITIES_APPROVED | NOT_REUSABLE.
#[global] Instance eq_dec : EqDecision ReusablePolicy.
Proof. solve_decision. Defined.
Definition str (x : ReusablePolicy) : string :=
  match x with
  | ENTITY_ONLY => "ENTITY_ONLY" | ENTITY_AND_JURISDICTION => "ENTITY_AND_JURISDICTION"
  | LICENSE_SPECIFIC => "LICENSE_SPECIFIC" | VENDOR_SPECIFIC => "VENDOR_SPECIFIC"
  | CASE_SPECIFIC => "CASE_SPECIFIC" | ALL_ENTITIES_APPROVED => "ALL_ENTITIES_APPROVED"
  | NOT_REUSABLE => "NOT_REUSABLE"
  end.
Definition all : list ReusablePolicy := [ENTITY_ONLY; ENTITY_AND_JURISDICTION;
  LICENSE_SPECIFIC; VENDOR_SPECIFIC; CASE_SPECIFIC; ALL_ENTITIES_APPROVED; NOT_REUSABLE].
#[global] Instance enum : StrEnum ReusablePolicy.
Proof. refine {| value := str; members := all |}; [solve_members | solve_values]. Defined.
End ReusablePolicy.

Module InformationValueStatus.
Inductive InformationValueStatus : Set :=
  | DRAFT | PENDING_APPROVAL | APPROVED | EXPIRED | SUPERSEDED | REJECTED.
#[global] Instance eq_dec : EqDecision InformationValueStatus.
Proof. solve_decision. Defined.
Definition str (x : InformationValueStatus) : string :=
  match x with
  | DRAFT => "DRAFT" | PENDING_APPROVAL => "PENDING_APPROVAL" | APPROVED => "APPROVED"
  | EXPIRED => "EXPIRED" | SUPERSEDED => "SUPERSEDED" | REJECTED => "REJECTED"
  end.
Definition all : list InformationValueStatus := [DRAFT; PENDING_APPROVAL; APPROVED; EXPIRED;
  SUPERSEDED; REJECTED].
#[global] Instance enum : StrEnum InformationValueStatus.
Proof. refine {| value := str; members := all |}; [solve_members | solve_values]. Defined.
End InformationValueStatus.

Module ValueFreshness.
Inductive ValueFreshness : Set :=
  | FRESH | DUE_FOR_REVIEW | STALE | EXPIRED | NOT_TRACKED.
#[global] Instance eq_dec : EqDecision ValueFreshness.
Proof. solve_decision. Defined.
Definition str (x : ValueFreshness) : string :=
  match x with
  | FRESH => "FRESH" | DUE_FOR_REVIEW => "DUE_FOR_REVIEW" | STALE => "STALE"
  | EXPIRED => "EXPIRED" | NOT_TRACKED => "NOT_TRACKED"
  end.
Definition all : list ValueFreshness := [FRESH; DUE_FOR_REVIEW; STALE; EXPIRED; NOT_TRACKED].
#[global] Instance enum : StrEnum ValueFreshness.
Proof. refine {| value := str; members := all |}; [solve_members | solve_values]. Defined.
End ValueFreshness.

Module UsagePurpose.
Inductive UsagePurpose : Set :=
  | FORM_PREFILL | PACKET_ASSEMBLY | VENDOR_ANSWER | CASE_REFERENCE | WORKSHEET_EXPORT
  | MANUAL_LOOKUP.
#[global] Instance eq_dec : EqDecision UsagePurpose.
Proof. solve_decision. Defined.
Definition str (x : UsagePurpose) : string :=
  match x with
  | FORM_PREFILL => "FORM_PREFILL" | PACKET_ASSEMBLY => "PACKET_ASSEMBLY"
  | VENDOR_ANSWER => "VENDOR_ANSWER" | CASE_REFERENCE => "CASE_REFERENCE"
  | WORKSHEET_EXPORT => "WORKSHEET_EXPORT" | MANUAL_LOOKUP => "MANUAL_LOOKUP"
  end.
Definition all : list UsagePurpose := [FORM_PREFILL; PACKET_ASSEMBLY; VENDOR_ANSWER;
  CASE_REFERENCE; WORKSHEET_EXPORT; MANUAL_LOOKUP].
#[global] Instance enum : StrEnum UsagePurpose.
Proof. refine {| value := str; members := all |}; [solve_members | solve_values]. Defined.
End UsagePurpose.

(** ** [app/portals/enums.py] *)

Module PortalRunStatus.
Inductive PortalRunStatus : Set :=
  | PLANNED | READY | WAITING_OPERATOR | SESSION_ACTIVE | WAITING_LOGIN
  | WAITING_TERMS_ACCEPTANCE | WAITING_MFA | WAITING_CAPTCHA | ENTRY_IN_PROGRESS
  | UPLOAD_IN_PROGRESS | VALIDATION_REQUIRED | DISCREPANCIES_FOUND
  | READY_FOR_PRE_SUBMISSION_REVIEW | PRE_SUBMISSION_APPROVED | WAITING_ATTESTATION
  | WAITING_SIGNATURE | WAITING_PAYMENT | WAITING_FINAL_SUBMIT | SUBMISSION_RESULT_PENDING
  | SUBMITTED | SUBMISSION_FAILED | COMPLETED | BLOCKED | CANCELLED | FAILED_REVIEW.
#[global] Instance eq_dec : EqDecision PortalRunStatus.
Proof. solve_decision. Defined.
Definition str (x : PortalRunStatus) : string :=
  match x with
  | PLANNED => "PLANNED" | READY => "READY" | WAITING_OPERATOR => "WAITING_OPERATOR"
  | SESSION_ACTIVE => "SESSION_ACTIVE" | WAITING_LOGIN => "WAITING_LOGIN"
  | WAITING_TERMS_ACCEPTANCE => "WAITING_TERMS_ACCEPTANCE" | WAITING_MFA => "WAITING_MFA"
  | WAITING_CAPTCHA => "WAITING_CAPTCHA" | ENTRY_IN_PROGRESS => "ENTRY_IN_PROGRESS"
  | UPLOAD_IN_PROGRESS => "UPLOAD_IN_PROGRESS" | VALIDATION_REQUIRED => "VALIDATION_REQUIRED"
  | DISCREPANCIES_FOUND => "DISCREPANCIES_FOUND"
  | READY_FOR_PRE_SUBMISSION_REVIEW => "READY_FOR_PRE_SUBMISSION_REVIEW"
  | PRE_SUBMISSION_APPROVED => "PRE_SUBMISSION_APPROVED"
  | WAITING_ATTESTATION => "WAITING_ATTESTATION" | WAITING_SIGNATURE => "WAITING_SIGNATURE"
  | WAITING_PAYMENT => "WAITING_PAYMENT" | WAITING_FINAL_SUBMIT => "WAITING_FINAL_SUBMIT"
  | SUBMISSION_RESULT_PENDING => "SUBMISSION_RESULT_PENDING" | SUBMITTED => "SUBMITTED"
  | SUBMISSION_FAILED => "SUBMISSION_FAILED" | COMPLETED => "COMPLETED" | BLOCKED => "BLOCKED"
  | CANCELLED => "CANCELLED" | FAILED_REVIEW => "FAILED_REVIEW"
  end.
Definition all : list PortalRunStatus := [PLANNED; READY; WAITING_OPERATOR; SESSION_ACTIVE;
  WAITING_LOGIN; WAITING_TERMS_ACCEPTANCE; WAITING_MFA; WAITING_CAPTCHA; ENTRY_IN_PROGRESS;
  UPLOAD_IN_PROGRESS; VALIDATION_REQUIRED; DISCREPANCIES_FOUND;
  READY_FOR_PRE_SUBMISSION_REVIEW; PRE_SUBMISSION_APPROVED; WAITING_ATTESTATION;
  WAITING_SIGNATURE; WAITING_PAYMENT; WAITING_FINAL_SUBMIT; SUBMISSION_RESULT_PENDING;
  SUBMITTED; SUBMISSION_FAILED; COMPLETED; BLOCKED; CANCELLED; FAILED_REVIEW].
#[global] Instance enum : StrEnum PortalRunStatus.
Proof. refine {| value := str; members := all |}; [solve_members | solve_values]. Defined.
End PortalRunStatus.

Module BrowserSessionStatus.
Inductive BrowserSessionStatus : Set :=
  | REQUESTED | STARTING | ACTIVE_AUTOMATION | ACTIVE_HUMAN_CONTROL | PAUSED | EXPIRED
  | CLOSED | FAILED.
#[global] Instance eq_dec : EqDecision BrowserSessionStatus.
Proof. solve_decision. Defined.
Definition str (x : BrowserSessionStatus) : string :=
  match x with
  | REQUESTED => "REQUESTED" | STARTING => "STARTING"
  | ACTIVE_AUTOMATION => "ACTIVE_AUTOMATION" | ACTIVE_HUMAN_CONTROL => "ACTIVE_HUMAN_CONTROL"
  | PAUSED => "PAUSED" | EXPIRED => "EXPIRED" | CLOSED => "CLOSED" | FAILED => "FAILED"
  end.
Definition all : list BrowserSessionStatus := [REQUESTED; STARTING; ACTIVE_AUTOMATION;
  ACTIVE_HUMAN_CONTROL; PAUSED; EXPIRED; CLOSED; FAILED].
#[global] Instance enum : StrEnum BrowserSessionStatus.
Proof. refine {| value := str; members := all |}; [solve_members | solve_values]. Defined.
End BrowserSessionStatus.

Module PortalStepType.
Inductive PortalStepType : Set :=
  | NAVIGATE | LOGIN_HANDOFF | TERMS_HANDOFF | MFA_HANDOFF | CAPTCHA_HANDOFF | FIELD_ENTRY
  | DOCUMENT_UPLOAD | VALIDATION | PRE_SUBMISSION_CAPTURE | ATTESTATION_HANDOFF
  | SIGNATURE_HANDOFF | PAYMENT_HANDOFF | FINAL_SUBMIT_HANDOFF | SUBMISSION_RESULT_CAPTURE.
#[global] Instance eq_dec : EqDecision PortalStepType.
Proof. solve_decision. Defined.
Definition str (x : PortalStepType) : string :=
  match x with
  | NAVIGATE => "NAVIGATE" | LOGIN_HANDOFF => "LOGIN_HANDOFF"
  | TERMS_HANDOFF => "TERMS_HANDOFF" | MFA_HANDOFF => "MFA_HANDOFF"
  | CAPTCHA_HANDOFF => "CAPTCHA_HANDOFF" | FIELD_ENTRY => "FIELD_ENTRY"
  | DOCUMENT_UPLOAD => "DOCUMENT_UPLOAD" | VALIDATION => "VALIDATION"
  | PRE_SUBMISSION_CAPTURE => "PRE_SUBMISSION_CAPTURE"
  | ATTESTATION_HANDOFF => "ATTESTATION_HANDOFF" | SIGNATURE_HANDOFF => "SIGNATURE_HANDOFF"
  | PAYMENT_HANDOFF => "PAYMENT_HANDOFF" | FINAL_SUBMIT_HANDOFF => "FINAL_SUBMIT_HANDOFF"
  | SUBMISSION_RESULT_CAPTURE => "SUBMISSION_RESULT_CAPTURE"
  end.
Definition all : list PortalStepType := [NAVIGATE; LOGIN_HANDOFF; TERMS_HANDOFF; MFA_HANDOFF;
  CAPTCHA_HANDOFF; FIELD_ENTRY; DOCUMENT_UPLOAD; VALIDATION; PRE_SUBMISSION_CAPTURE;
  ATTESTATION_HANDOFF; SIGNATURE_HANDOFF; PAYMENT_HANDOFF; FINAL_SUBMIT_HANDOFF;
  SUBMISSION_RESULT_CAPTURE].
#[global] Instance enum : StrEnum PortalStepType.
Proof. refine {| value := str; members := all |}; [solve_members | solve_values]. Defined.
End PortalStepType.

Module PortalStepStatus.
Inductive PortalStepStatus : Set :=
  | PENDING | RUNNING | WAITING_HUMAN | COMPLETED | FAILED_RETRYABLE | FAILED_REVIEW
  | CANCELLED.
#[global] Instance eq_dec : EqDecision PortalStepStatus.
Proof. solve_decision. Defined.
Definition str (x : PortalStepStatus) : string :=
  match x with
  | PENDING => "PENDING" | RUNNING => "RUNNING" | WAITING_HUMAN => "WAITING_HUMAN"
  | COMPLETED => "COMPLETED" | FAILED_RETRYABLE => "FAILED_RETRYABLE"
  | FAILED_REVIEW => "FAILED_REVIEW" | CANCELLED => "CANCELLED"
  end.
Definition all : list PortalStepStatus := [PENDING; RUNNING; WAITING_HUMAN; COMPLETED;
  FAILED_RETRYABLE; FAILED_REVIEW; CANCELLED].
#[global] Instance enum : StrEnum PortalStepStatus.
Proof. refine {| value := str; members := all |}; [solve_members | solve_values]. Defined.
End PortalStepStatus.

Module AutomationLevel.
Inductive AutomationLevel : Set :=
  | PREPARE_ONLY | NAVIGATION_ASSIST | ASSISTED_ENTRY | UPLOAD_ASSIST | PRE_SUBMISSION_ASSIST
  | API_ASSISTED.
#[global] Instance eq_dec : EqDecision AutomationLevel.
Proof. solve_decision. Defined.
Definition str (x : AutomationLevel) : string :=
  match x with
  | PREPARE_ONLY => "PREPARE_ONLY" | NAVIGATION_ASSIST => "NAVIGATION_ASSIST"
  | ASSISTED_ENTRY => "ASSISTED_ENTRY" | UPLOAD_ASSIST => "UPLOAD_ASSIST"
  | PRE_SUBMISSION_ASSIST => "PRE_SUBMISSION_ASSIST" | API_ASSISTED => "API_ASSISTED"
  end.
Definition all : list AutomationLevel := [PREPARE_ONLY; NAVIGATION_ASSIST; ASSISTED_ENTRY;
  UPLOAD_ASSIST; PRE_SUBMISSION_ASSIST; API_ASSISTED].
#[global] Instance enum : StrEnum AutomationLevel.
Proof. refine {| value := str; members := all |}; [solve_members | solve_values]. Defined.
End AutomationLevel.

Module PortalFieldStatus.
Inductive PortalFieldStatus : Set :=
  | PENDING | AUTO_ENTERED | HUMAN_ENTERED | HUMAN_ONLY | VERIFIED | DISCREPANCY | REJECTED
  | NOT_APPLICABLE | BLOCKED.
#[global] Instance eq_dec : EqDecision PortalFieldStatus.
Proof. solve_decision. Defined.
Definition str (x : PortalFieldStatus) : string :=
  match x with
  | PENDING => "PENDING" | AUTO_ENTERED => "AUTO_ENTERED" | HUMAN_ENTERED => "HUMAN_ENTERED"
  | HUMAN_ONLY => "HUMAN_ONLY" | VERIFIED => "VERIFIED" | DISCREPANCY => "DISCREPANCY"
  | REJECTED => "REJECTED" | NOT_APPLICABLE => "NOT_APPLICABLE" | BLOCKED => "BLOCKED"
  end.
Definition all : list PortalFieldStatus := [PENDING; AUTO_ENTERED; HUMAN_ENTERED; HUMAN_ONLY;
  VERIFIED; DISCREPANCY; REJECTED; NOT_APPLICABLE; BLOCKED].
#[global] Instance enum : StrEnum PortalFieldStatus.
Proof. refine {| value := str; members := all |}; [solve_members | solve_values]. Defined.
End PortalFieldStatus.

Module PortalDocumentStatus.
Inductive PortalDocumentStatus : Set :=
  | SELECTED | VALIDATED | UPLOAD_PENDING | UPLOADING | UPLOADED | VERIFIED | FAILED_RETRYABLE
  | FAILED_REVIEW | REMOVED.
#[global] Instance eq_dec : EqDecision PortalDocumentStatus.
Proof. solve_decision. Defined.
Definition str (x : PortalDocumentStatus) : string :=
  match x with
  | SELECTED => "SELECTED" | VALIDATED => "VALIDATED" | UPLOAD_PENDING => "UPLOAD_PENDING"
  | UPLOADING => "UPLOADING" | UPLOADED => "UPLOADED" | VERIFIED => "VERIFIED"
  | FAILED_RETRYABLE => "FAILED_RETRYABLE" | FAILED_REVIEW => "FAILED_REVIEW"
  | REMOVED => "REMOVED"
  end.
Definition all : list PortalDocumentStatus := [SELECTED; VALIDATED; UPLOAD_PENDING; UPLOADING;
  UPLOADED; VERIFIED; FAILED_RETRYABLE; FAILED_REVIEW; REMOVED].
#[global] Instance enum : StrEnum PortalDocumentStatus.
Proof. refine {| value := str; members := all |}; [solve_members | solve_values]. Defined.
End PortalDocumentStatus.

Module HandoffType.
Inductive HandoffType : Set :=
  | LOGIN | TERMS_ACCEPTANCE | MFA | CAPTCHA | SENSITIVE_FIELD | ATTESTATION | SIGNATURE
  | PAYMENT | FINAL_SUBMIT | UNEXPECTED_PAGE | PORTAL_ERROR.
#[global] Instance eq_dec : EqDecision HandoffType.
Proof. solve_decision. Defined.
Definition str (x : HandoffType) : string :=
  match x with
  | LOGIN => "LOGIN" | TERMS_ACCEPTANCE => "TERMS_ACCEPTANCE" | MFA => "MFA"
  | CAPTCHA => "CAPTCHA" | SENSITIVE_FIELD => "SENSITIVE_FIELD" | ATTESTATION => "ATTESTATION"
  | SIGNATURE => "SIGNATURE" | PAYMENT => "PAYMENT" | FINAL_SUBMIT => "FINAL_SUBMIT"
  | UNEXPECTED_PAGE => "UNEXPECTED_PAGE" | PORTAL_ERROR => "PORTAL_ERROR"
  end.
Definition all : list HandoffType := [LOGIN; TERMS_ACCEPTANCE; MFA; CAPTCHA; SENSITIVE_FIELD;
  ATTESTATION; SIGNATURE; PAYMENT; FINAL_SUBMIT; UNEXPECTED_PAGE; PORTAL_ERROR].
#[global] Instance enum : StrEnum HandoffType.
Proof. refine {| value := str; members := all |}; [solve_members | solve_values]. Defined.
End HandoffType.

Module HandoffStatus.
Inductive HandoffStatus : Set :=
  | REQUESTED | ACCEPTED | ACTIVE | COMPLETED | DECLINED | EXPIRED | FAILED.
#[global] Instance eq_dec : EqDecision HandoffStatus.
Proof. solve_decision. Defined.
Definition str (x : HandoffStatus) : string :=
  match x with
  | REQUESTED => "REQUESTED" | ACCEPTED => "ACCEPTED" | ACTIVE => "ACTIVE"
  | COMPLETED => "COMPLETED" | DECLINED => "DECLINED" | EXPIRED => "EXPIRED"
  | FAILED => "FAILED"
  end.
Definition all : list HandoffStatus := [REQUESTED; ACCEPTED; ACTIVE; COMPLETED; DECLINED;
  EXPIRED; FAILED].
#[global] Instance enum : StrEnum HandoffStatus.
Proof. refine {| value := str; members := all |}; [solve_members | solve_values]. Defined.
End HandoffStatus.

Module SnapshotStatus.
Inductive SnapshotStatus : Set :=
  | DRAFT | DISCREPANCIES_FOUND | READY_FOR_REVIEW | APPROVED | REJECTED | SUPERSEDED.
#[global] Instance eq_dec : EqDecision SnapshotStatus.
Proof. solve_decision. Defined.
Definition str (x : SnapshotStatus) : string :=
  match x with
  | DRAFT => "DRAFT" | DISCREPANCIES_FOUND => "DISCREPANCIES_FOUND"
  | READY_FOR_REVIEW => "READY_FOR_REVIEW" | APPROVED => "APPROVED" | REJECTED => "REJECTED"
  | SUPERSEDED => "SUPERSEDED"
  end.
Definition all : list SnapshotStatus := [DRAFT; DISCREPANCIES_FOUND; READY_FOR_REVIEW;
  APPROVED; REJECTED; SUPERSEDED].
#[global] Instance enum : StrEnum SnapshotStatus.
Proof. refine {| value := str; members := all |}; [solve_members | solve_values]. Defined.
End SnapshotStatus.

Module AttestationStatus.
Inductive AttestationStatus : Set :=
  | NOT_REQUIRED | REQUIRED | WAITING | COMPLETED_BY_HUMAN | DECLINED | FAILED.
#[global] Instance eq_dec : EqDecision AttestationStatus.
Proof. solve_decision. Defined.
Definition str (x : AttestationStatus) : string :=
  match x with
  | NOT_REQUIRED => "NOT_REQUIRED" | REQUIRED => "REQUIRED" | WAITING => "WAITING"
  | COMPLETED_BY_HUMAN => "COMPLETED_BY_HUMAN" | DECLINED => "DECLINED" | FAILED => "FAILED"
  end.
Definition all : list AttestationStatus := [NOT_REQUIRED; REQUIRED; WAITING;
  COMPLETED_BY_HUMAN; DECLINED; FAILED].
#[global] Instance enum : StrEnum AttestationStatus.
Proof. refine {| value := str; members := all |}; [solve_members | solve_values]. Defined.
End AttestationStatus.

Module PaymentStatus.
Inductive PaymentStatus : Set :=
  | NOT_REQUIRED | ESTIMATED | REVIEW_REQUIRED | APPROVED | WAITING_HUMAN_PAYMENT
  | PAID_EXTERNALLY | FAILED | CANCELLED.
#[global] Instance eq_dec : EqDecision PaymentStatus.
Proof. solve_decision. Defined.
Definition str (x : PaymentStatus) : string :=
  match x with
  | NOT_REQUIRED => "NOT_REQUIRED" | ESTIMATED => "ESTIMATED"
  | REVIEW_REQUIRED => "REVIEW_REQUIRED" | APPROVED => "APPROVED"
  | WAITING_HUMAN_PAYMENT => "WAITING_HUMAN_PAYMENT" | PAID_EXTERNALLY => "PAID_EXTERNALLY"
  | FAILED => "FAILED" | CANCELLED => "CANCELLED"
  end.
Definition all : list PaymentStatus := [NOT_REQUIRED; ESTIMATED; REVIEW_REQUIRED; APPROVED;
  WAITING_HUMAN_PAYMENT; PAID_EXTERNALLY; FAILED; CANCELLED].
#[global] Instance enum : StrEnum PaymentStatus.
Proof. refine {| value := str; members := all |}; [solve_members | solve_values]. Defined.
End PaymentStatus.

Module SubmissionEvidenceType.
Inductive SubmissionEvidenceType : Set :=
  | PORTAL_CONFIRMATION | RECEIPT | PAYMENT_RECEIPT | SUBMISSION_PDF | SCREENSHOT
  | CONFIRMATION_EMAIL | MANUAL_CONFIRMATION | VENDOR_CONFIRMATION | REGULATOR_CONFIRMATION.
#[global] Instance eq_dec : EqDecision SubmissionEvidenceType.
Proof. solve_decision. Defined.
Definition str (x : SubmissionEvidenceType) : string :=
  match x with
  | PORTAL_CONFIRMATION => "PORTAL_CONFIRMATION" | RECEIPT => "RECEIPT"
  | PAYMENT_RECEIPT => "PAYMENT_RECEIPT" | SUBMISSION_PDF => "SUBMISSION_PDF"
  | SCREENSHOT => "SCREENSHOT" | CONFIRMATION_EMAIL => "CONFIRMATION_EMAIL"
  | MANUAL_CONFIRMATION => "MANUAL_CONFIRMATION"
  | VENDOR_CONFIRMATION => "VENDOR_CONFIRMATION"
  | REGULATOR_CONFIRMATION => "REGULATOR_CONFIRMATION"
  end.
Definition all : list SubmissionEvidenceType := [PORTAL_CONFIRMATION; RECEIPT;
  PAYMENT_RECEIPT; SUBMISSION_PDF; SCREENSHOT; CONFIRMATION_EMAIL; MANUAL_CONFIRMATION;
  VENDOR_CONFIRMATION; REGULATOR_CONFIRMATION].
#[global] Instance enum : StrEnum SubmissionEvidenceType.
Proof. refine {| value := str; members := all |}; [solve_members | solve_values]. Defined.
End SubmissionEvidenceType.

Module PortalJobType.
Inductive PortalJobType : Set :=
  | START_BROWSER_SESSION | NAVIGATE_PORTAL | ENTER_FIELDS | UPLOAD_DOCUMENTS
  | RUN_PORTAL_VALIDATION | CAPTURE_PRE_SUBMISSION | RECONCILE_SESSION
  | CAPTURE_SUBMISSION_RESULT | CLOSE_BROWSER_SESSION.
#[global] Instance eq_dec : EqDecision PortalJobType.
Proof. solve_decision. Defined.
Definition str (x : PortalJobType) : string :=
  match x with
  | START_BROWSER_SESSION => "START_BROWSER_SESSION" | NAVIGATE_PORTAL => "NAVIGATE_PORTAL"
  | ENTER_FIELDS => "ENTER_FIELDS" | UPLOAD_DOCUMENTS => "UPLOAD_DOCUMENTS"
  | RUN_PORTAL_VALIDATION => "RUN_PORTAL_VALIDATION"
  | CAPTURE_PRE_SUBMISSION => "CAPTURE_PRE_SUBMISSION"
  | RECONCILE_SESSION => "RECONCILE_SESSION"
  | CAPTURE_SUBMISSION_RESULT => "CAPTURE_SUBMISSION_RESULT"
  | CLOSE_BROWSER_SESSION => "CLOSE_BROWSER_SESSION"
  end.
Definition all : list PortalJobType := [START_BROWSER_SESSION; NAVIGATE_PORTAL; ENTER_FIELDS;
  UPLOAD_DOCUMENTS; RUN_PORTAL_VALIDATION; CAPTURE_PRE_SUBMISSION; RECONCILE_SESSION;
  CAPTURE_SUBMISSION_RESULT; CLOSE_BROWSER_SESSION].
#[global] Instance enum : StrEnum PortalJobType.
Proof. refine {| value := str; members := all |}; [solve_members | solve_values]. Defined.
End PortalJobType.

Module PortalJobStatus.
Inductive PortalJobStatus : Set :=
  | PENDING | RUNNING | WAITING_HUMAN | COMPLETED | FAILED_RETRYABLE | FAILED_REVIEW
  | CANCELLED.
#[global] Instance eq_dec : EqDecision PortalJobStatus.
Proof. solve_decision. Defined.
Definition str (x : PortalJobStatus) : string :=
  match x with
  | PENDING => "PENDING" | RUNNING => "RUNNING" | WAITING_HUMAN => "WAITING_HUMAN"
  | COMPLETED => "COMPLETED" | FAILED_RETRYABLE => "FAILED_RETRYABLE"
  | FAILED_REVIEW => "FAILED_REVIEW" | CANCELLED => "CANCELLED"
  end.
Definition all : list PortalJobStatus := [PENDING; RUNNING; WAITING_HUMAN; COMPLETED;
  FAILED_RETRYABLE; FAILED_REVIEW; CANCELLED].
#[global] Instance enum : StrEnum PortalJobStatus.
Proof. refine {| value := str; members := all |}; [solve_members | solve_values]. Defined.
End PortalJobStatus.

Module DiscrepancyCode.
Inductive DiscrepancyCode : Set :=
  | VALUE_MISMATCH | FIELD_MISSING | UNEXPECTED_PORTAL_VALUE | DOCUMENT_MISSING
  | DOCUMENT_EXTRA | DOCUMENT_VERSION_MISMATCH | ENTITY_MISMATCH | FILING_TYPE_MISMATCH
  | DATE_MISMATCH | PORTAL_VALIDATION_ERROR | PORTAL_CHANGED | MANUAL_REVIEW_REQUIRED.
#[global] Instance eq_dec : EqDecision DiscrepancyCode.
Proof. solve_decision. Defined.
Definition str (x : DiscrepancyCode) : string :=
  match x with
  | VALUE_MISMATCH => "VALUE_MISMATCH" | FIELD_MISSING => "FIELD_MISSING"
  | UNEXPECTED_PORTAL_VALUE => "UNEXPECTED_PORTAL_VALUE"
  | DOCUMENT_MISSING => "DOCUMENT_MISSING" | DOCUMENT_EXTRA => "DOCUMENT_EXTRA"
  | DOCUMENT_VERSION_MISMATCH => "DOCUMENT_VERSION_MISMATCH"
  | ENTITY_MISMATCH => "ENTITY_MISMATCH" | FILING_TYPE_MISMATCH => "FILING_TYPE_MISMATCH"
  | DATE_MISMATCH => "DATE_MISMATCH" | PORTAL_VALIDATION_ERROR => "PORTAL_VALIDATION_ERROR"
  | PORTAL_CHANGED => "PORTAL_CHANGED" | MANUAL_REVIEW_REQUIRED => "MANUAL_REVIEW_REQUIRED"
  end.
Definition all : list DiscrepancyCode := [VALUE_MISMATCH; FIELD_MISSING;
  UNEXPECTED_PORTAL_VALUE; DOCUMENT_MISSING; DOCUMENT_EXTRA; DOCUMENT_VERSION_MISMATCH;
  ENTITY_MISMATCH; FILING_TYPE_MISMATCH; DATE_MISMATCH; PORTAL_VALIDATION_ERROR;
  PORTAL_CHANGED; MANUAL_REVIEW_REQUIRED].
#[global] Instance enum : StrEnum DiscrepancyCode.
Proof. refine {| value := str; members := all |}; [solve_members | solve_values]. Defined.
End DiscrepancyCode.

Module PortalApprovalStatus.
Inductive PortalApprovalStatus : Set :=
  | DISCOVERED | REVIEW_PENDING | APPROVED_PREPARE_ONLY | APPROVED_ASSISTED | APPROVED_API
  | AUTOMATION_PROHIBITED | TEMPORARILY_SUSPENDED | EXPIRED | RETIRED.
#[global] Instance eq_dec : EqDecision PortalApprovalStatus.
Proof. solve_decision. Defined.
Definition str (x : PortalApprovalStatus) : string :=
  match x with
  | DISCOVERED => "DISCOVERED" | REVIEW_PENDING => "REVIEW_PENDING"
  | APPROVED_PREPARE_ONLY => "APPROVED_PREPARE_ONLY"
  | APPROVED_ASSISTED => "APPROVED_ASSISTED" | APPROVED_API => "APPROVED_API"
  | AUTOMATION_PROHIBITED => "AUTOMATION_PROHIBITED"
  | TEMPORARILY_SUSPENDED => "TEMPORARILY_SUSPENDED" | EXPIRED => "EXPIRED"
  | RETIRED => "RETIRED"
  end.
Definition all : list PortalApprovalStatus := [DISCOVERED; REVIEW_PENDING;
  APPROVED_PREPARE_ONLY; APPROVED_ASSISTED; APPROVED_API; AUTOMATION_PROHIBITED;
  TEMPORARILY_SUSPENDED; EXPIRED; RETIRED].
#[global] Instance enum : StrEnum PortalApprovalStatus.
Proof. refine {| value := str; members := all |}; [solve_members | solve_values]. Defined.
End PortalApprovalStatus.

Module PortalReviewStatus.
Inductive PortalReviewStatus : Set :=
  | DRAFT | APPROVED | SUSPENDED | EXPIRED | SUPERSEDED | REJECTED.
#[global] Instance eq_dec : EqDecision PortalReviewStatus.
Proof. solve_decision. Defined.
Definition str (x : PortalReviewStatus) : string :=
  match x with
  | DRAFT => "DRAFT" | APPROVED => "APPROVED" | SUSPENDED => "SUSPENDED"
  | EXPIRED => "EXPIRED" | SUPERSEDED => "SUPERSEDED" | REJECTED => "REJECTED"
  end.
Definition all : list PortalReviewStatus := [DRAFT; APPROVED; SUSPENDED; EXPIRED; SUPERSEDED;
  REJECTED].
#[global] Instance enum : StrEnum PortalReviewStatus.
Proof. refine {| value := str; members := all |}; [solve_members | solve_values]. Defined.
End PortalReviewStatus.

Module AuthorizationStatus.
Inductive AuthorizationStatus : Set :=
  | PENDING | ACTIVE | SUSPENDED | EXPIRED | REVOKED.
#[global] Instance eq_dec : EqDecision AuthorizationStatus.
Proof. solve_decision. Defined.
Definition str (x : AuthorizationStatus) : string :=
  match x with
  | PENDING => "PENDING" | ACTIVE => "ACTIVE" | SUSPENDED => "SUSPENDED"
  | EXPIRED => "EXPIRED" | REVOKED => "REVOKED"
  end.
Definition all : list AuthorizationStatus := [PENDING; ACTIVE; SUSPENDED; EXPIRED; REVOKED].
#[global] Instance enum : StrEnum AuthorizationStatus.
Proof. refine {| value := str; members := all |}; [solve_members | solve_values]. Defined.
End AuthorizationStatus.

Module AdapterStatus.
Inductive AdapterStatus : Set :=
  | DRAFT | TESTING | ACTIVE | SUSPENDED | RETIRED.
#[global] Instance eq_dec : EqDecision AdapterStatus.
Proof. solve_decision. Defined.
Definition str (x : AdapterStatus) : string :=
  match x with
  | DRAFT => "DRAFT" | TESTING => "TESTING" | ACTIVE => "ACTIVE" | SUSPENDED => "SUSPENDED"
  | RETIRED => "RETIRED"
  end.
Definition all : list AdapterStatus := [DRAFT; TESTING; ACTIVE; SUSPENDED; RETIRED].
#[global] Instance enum : StrEnum AdapterStatus.
Proof. refine {| value := str; members := all |}; [solve_members | solve_values]. Defined.
End AdapterStatus.

Module PortalFieldSourceType.
Inductive PortalFieldSourceType : Set :=
  | FORM_INSTANCE_FIELD | INFORMATION_REGISTRY | LEGAL_ENTITY | LICENSE_INVENTORY
  | COMPLIANCE_CASE | DOCUMENT_METADATA | MANUAL_OPERATOR_INPUT | CALCULATED | ATTESTATION
  | SIGNATURE | PAYMENT.
#[global] Instance eq_dec : EqDecision PortalFieldSourceType.
Proof. solve_decision. Defined.
Definition str (x : PortalFieldSourceType) : string :=
  match x with
  | FORM_INSTANCE_FIELD => "FORM_INSTANCE_FIELD"
  | INFORMATION_REGISTRY => "INFORMATION_REGISTRY" | LEGAL_ENTITY => "LEGAL_ENTITY"
  | LICENSE_INVENTORY => "LICENSE_INVENTORY" | COMPLIANCE_CASE => "COMPLIANCE_CASE"
  | DOCUMENT_METADATA => "DOCUMENT_METADATA"
  | MANUAL_OPERATOR_INPUT => "MANUAL_OPERATOR_INPUT" | CALCULATED => "CALCULATED"
  | ATTESTATION => "ATTESTATION" | SIGNATURE => "SIGNATURE" | PAYMENT => "PAYMENT"
  end.
Definition all : list PortalFieldSourceType := [FORM_INSTANCE_FIELD; INFORMATION_REGISTRY;
  LEGAL_ENTITY; LICENSE_INVENTORY; COMPLIANCE_CASE; DOCUMENT_METADATA; MANUAL_OPERATOR_INPUT;
  CALCULATED; ATTESTATION; SIGNATURE; PAYMENT].
#[global] Instance enum : StrEnum PortalFieldSourceType.
Proof. refine {| value := str; members := all |}; [solve_members | solve_values]. Defined.
End PortalFieldSourceType.

Module PortalType.
Inductive PortalType : Set :=
  | NMLS | STATE_REGULATOR | LOCAL_REGULATOR | SECRETARY_OF_STATE | BOND_PROVIDER
  | LICENSING_VENDOR | PAYMENT | DOCUMENT_UPLOAD | OTHER.
#[global] Instance eq_dec : EqDecision PortalType.
Proof. solve_decision. Defined.
Definition str (x : PortalType) : string :=
  match x with
  | NMLS => "NMLS" | STATE_REGULATOR => "STATE_REGULATOR"
  | LOCAL_REGULATOR => "LOCAL_REGULATOR" | SECRETARY_OF_STATE => "SECRETARY_OF_STATE"
  | BOND_PROVIDER => "BOND_PROVIDER" | LICENSING_VENDOR => "LICENSING_VENDOR"
  | PAYMENT => "PAYMENT" | DOCUMENT_UPLOAD => "DOCUMENT_UPLOAD" | OTHER => "OTHER"
  end.
Definition all : list PortalType := [NMLS; STATE_REGULATOR; LOCAL_REGULATOR;
  SECRETARY_OF_STATE; BOND_PROVIDER; LICENSING_VENDOR; PAYMENT; DOCUMENT_UPLOAD; OTHER].
#[global] Instance enum : StrEnum PortalType.
Proof. refine {| value := str; members := all |}; [solve_members | solve_values]. Defined.
End PortalType.

Module CredentialModel.
Inductive CredentialModel : Set :=
  | INDIVIDUAL_USER_LOGIN | ORGANIZATION_USER_LOGIN | APPROVED_SERVICE_ACCOUNT
  | OAUTH_DELEGATED | OAUTH_APPLICATION | API_KEY | CERTIFICATE | NO_LOGIN | UNKNOWN.
#[global] Instance eq_dec : EqDecision CredentialModel.
Proof. solve_decision. Defined.
Definition str (x : CredentialModel) : string :=
  match x with
  | INDIVIDUAL_USER_LOGIN => "INDIVIDUAL_USER_LOGIN"
  | ORGANIZATION_USER_LOGIN => "ORGANIZATION_USER_LOGIN"
  | APPROVED_SERVICE_ACCOUNT => "APPROVED_SERVICE_ACCOUNT"
  | OAUTH_DELEGATED => "OAUTH_DELEGATED" | OAUTH_APPLICATION => "OAUTH_APPLICATION"
  | API_KEY => "API_KEY" | CERTIFICATE => "CERTIFICATE" | NO_LOGIN => "NO_LOGIN"
  | UNKNOWN => "UNKNOWN"
  end.
Definition all : list CredentialModel := [INDIVIDUAL_USER_LOGIN; ORGANIZATION_USER_LOGIN;
  APPROVED_SERVICE_ACCOUNT; OAUTH_DELEGATED; OAUTH_APPLICATION; API_KEY; CERTIFICATE;
  NO_LOGIN; UNKNOWN].
#[global] Instance enum : StrEnum CredentialModel.
Proof. refine {| value := str; members := all |}; [solve_members | solve_values]. Defined.
End CredentialModel.

(** ** [app/forms/enums.py] *)

Module FieldSourceType.
Inductive FieldSourceType : Set :=
  | INFORMATION_REGISTRY | LEGAL_ENTITY | LICENSE_INVENTORY | COMPLIANCE_CASE
  | DOCUMENT_METADATA | MANUAL_INPUT | SIGNATURE_REQUIRED | CALCULATED.
#[global] Instance eq_dec : EqDecision FieldSourceType.
Proof. solve_decision. Defined.
Definition str (x : FieldSourceType) : string :=
  match x with
  | INFORMATION_REGISTRY => "INFORMATION_REGISTRY" | LEGAL_ENTITY => "LEGAL_ENTITY"
  | LICENSE_INVENTORY => "LICENSE_INVENTORY" | COMPLIANCE_CASE => "COMPLIANCE_CASE"
  | DOCUMENT_METADATA => "DOCUMENT_METADATA" | MANUAL_INPUT => "MANUAL_INPUT"
  | SIGNATURE_REQUIRED => "SIGNATURE_REQUIRED" | CALCULATED => "CALCULATED"
  end.
Definition all : list FieldSourceType := [INFORMATION_REGISTRY; LEGAL_ENTITY;
  LICENSE_INVENTORY; COMPLIANCE_CASE; DOCUMENT_METADATA; MANUAL_INPUT; SIGNATURE_REQUIRED;
  CALCULATED].
#[global] Instance enum : StrEnum FieldSourceType.
Proof. refine {| value := str; members := all |}; [solve_members | solve_values]. Defined.
End FieldSourceType.

Module MappingStatus.
Inductive MappingStatus : Set :=
  | PROPOSED | APPROVED | REJECTED | RETIRED.
#[global] Instance eq_dec : EqDecision MappingStatus.
Proof. solve_decision. Defined.
Definition str (x : MappingStatus) : string :=
  match x with
  | PROPOSED => "PROPOSED" | APPROVED => "APPROVED" | REJECTED => "REJECTED"
  | RETIRED => "RETIRED"
  end.
Definition all : list MappingStatus := [PROPOSED; APPROVED; REJECTED; RETIRED].
#[global] Instance enum : StrEnum MappingStatus.
Proof. refine {| value := str; members := all |}; [solve_members | solve_values]. Defined.
End MappingStatus.

Module FormInstanceStatus.
Inductive FormInstanceStatus : Set :=
  | DRAFT | PREFILLED | MISSING_INFORMATION | READY_FOR_REVIEW | APPROVED_FOR_SIGNATURE
  | SIGNATURE_PENDING | SIGNED | READY_FOR_SUBMISSION | SUBMITTED_EXTERNALLY | SUPERSEDED
  | REJECTED.
#[global] Instance eq_dec : EqDecision FormInstanceStatus.
Proof. solve_decision. Defined.
Definition str (x : FormInstanceStatus) : string :=
  match x with
  | DRAFT => "DRAFT" | PREFILLED => "PREFILLED" | MISSING_INFORMATION => "MISSING_INFORMATION"
  | READY_FOR_REVIEW => "READY_FOR_REVIEW"
  | APPROVED_FOR_SIGNATURE => "APPROVED_FOR_SIGNATURE"
  | SIGNATURE_PENDING => "SIGNATURE_PENDING" | SIGNED => "SIGNED"
  | READY_FOR_SUBMISSION => "READY_FOR_SUBMISSION"
  | SUBMITTED_EXTERNALLY => "SUBMITTED_EXTERNALLY" | SUPERSEDED => "SUPERSEDED"
  | REJECTED => "REJECTED"
  end.
Definition all : list FormInstanceStatus := [DRAFT; PREFILLED; MISSING_INFORMATION;
  READY_FOR_REVIEW; APPROVED_FOR_SIGNATURE; SIGNATURE_PENDING; SIGNED; READY_FOR_SUBMISSION;
  SUBMITTED_EXTERNALLY; SUPERSEDED; REJECTED].
#[global] Instance enum : StrEnum FormInstanceStatus.
Proof. refine {| value := str; members := all |}; [solve_members | solve_values]. Defined.
End FormInstanceStatus.

Module FormFieldValueStatus.
Inductive FormFieldValueStatus : Set :=
  | AUTO_FILLED | MANUALLY_FILLED | NEEDS_INFORMATION | NEEDS_REVIEW | APPROVED
  | SIGNATURE_REQUIRED | MANUAL_ONLY | NOT_APPLICABLE.
#[global] Instance eq_dec : EqDecision FormFieldValueStatus.
Proof. solve_decision. Defined.
Definition str (x : FormFieldValueStatus) : string :=
  match x with
  | AUTO_FILLED => "AUTO_FILLED" | MANUALLY_FILLED => "MANUALLY_FILLED"
  | NEEDS_INFORMATION => "NEEDS_INFORMATION" | NEEDS_REVIEW => "NEEDS_REVIEW"
  | APPROVED => "APPROVED" | SIGNATURE_REQUIRED => "SIGNATURE_REQUIRED"
  | MANUAL_ONLY => "MANUAL_ONLY" | NOT_APPLICABLE => "NOT_APPLICABLE"
  end.
Definition all : list FormFieldValueStatus := [AUTO_FILLED; MANUALLY_FILLED;
  NEEDS_INFORMATION; NEEDS_REVIEW; APPROVED; SIGNATURE_REQUIRED; MANUAL_ONLY; NOT_APPLICABLE].
#[global] Instance enum : StrEnum FormFieldValueStatus.
Proof. refine {| value := str; members := all |}; [solve_members | solve_values]. Defined.
End FormFieldValueStatus.

Module FormValidationCode.
Inductive FormValidationCode : Set :=
  | REQUIRED_FIELD_EMPTY | VALUE_NOT_IN_ALLOWED_SET | STALE_INFORMATION_VALUE
  | EXPIRED_INFORMATION_VALUE | UNAPPROVED_INFORMATION_VALUE | WRONG_ENTITY_INFORMATION_VALUE
  | MAPPING_NOT_APPROVED | SIGNATURE_FIELD_OUTSTANDING | UNMAPPED_FIELD
  | TEMPLATE_FIELD_MISMATCH | FORMAT_NOT_FILLABLE | SIGNED_HASH_MISMATCH.
#[global] Instance eq_dec : EqDecision FormValidationCode.
Proof. solve_decision. Defined.
Definition str (x : FormValidationCode) : string :=
  match x with
  | REQUIRED_FIELD_EMPTY => "REQUIRED_FIELD_EMPTY"
  | VALUE_NOT_IN_ALLOWED_SET => "VALUE_NOT_IN_ALLOWED_SET"
  | STALE_INFORMATION_VALUE => "STALE_INFORMATION_VALUE"
  | EXPIRED_INFORMATION_VALUE => "EXPIRED_INFORMATION_VALUE"
  | UNAPPROVED_INFORMATION_VALUE => "UNAPPROVED_INFORMATION_VALUE"
  | WRONG_ENTITY_INFORMATION_VALUE => "WRONG_ENTITY_INFORMATION_VALUE"
  | MAPPING_NOT_APPROVED => "MAPPING_NOT_APPROVED"
  | SIGNATURE_FIELD_OUTSTANDING => "SIGNATURE_FIELD_OUTSTANDING"
  | UNMAPPED_FIELD => "UNMAPPED_FIELD" | TEMPLATE_FIELD_MISMATCH => "TEMPLATE_FIELD_MISMATCH"
  | FORMAT_NOT_FILLABLE => "FORMAT_NOT_FILLABLE"
  | SIGNED_HASH_MISMATCH => "SIGNED_HASH_MISMATCH"
  end.
Definition all : list FormValidationCode := [REQUIRED_FIELD_EMPTY; VALUE_NOT_IN_ALLOWED_SET;
  STALE_INFORMATION_VALUE; EXPIRED_INFORMATION_VALUE; UNAPPROVED_INFORMATION_VALUE;
  WRONG_ENTITY_INFORMATION_VALUE; MAPPING_NOT_APPROVED; SIGNATURE_FIELD_OUTSTANDING;
  UNMAPPED_FIELD; TEMPLATE_FIELD_MISMATCH; FORMAT_NOT_FILLABLE; SIGNED_HASH_MISMATCH].
#[global] Instance enum : StrEnum FormValidationCode.
Proof. refine {| value := str; members := all |}; [solve_members | solve_values]. Defined.
End FormValidationCode.

Module SignatureRequirementStatus.
Inductive SignatureRequirementStatus : Set :=
  | NOT_REQUIRED | IDENTIFIED | APPROVED_FOR_SIGNATURE | SENT_FOR_SIGNATURE_EXTERNALLY
  | SIGNED_EVIDENCE_RECORDED | CANCELLED.
#[global] Instance eq_dec : EqDecision SignatureRequirementStatus.
Proof. solve_decision. Defined.
Definition str (x : SignatureRequirementStatus) : string :=
  match x with
  | NOT_REQUIRED => "NOT_REQUIRED" | IDENTIFIED => "IDENTIFIED"
  | APPROVED_FOR_SIGNATURE => "APPROVED_FOR_SIGNATURE"
  | SENT_FOR_SIGNATURE_EXTERNALLY => "SENT_FOR_SIGNATURE_EXTERNALLY"
  | SIGNED_EVIDENCE_RECORDED => "SIGNED_EVIDENCE_RECORDED" | CANCELLED => "CANCELLED"
  end.
Definition all : list SignatureRequirementStatus := [NOT_REQUIRED; IDENTIFIED;
  APPROVED_FOR_SIGNATURE; SENT_FOR_SIGNATURE_EXTERNALLY; SIGNED_EVIDENCE_RECORDED; CANCELLED].
#[global] Instance enum : StrEnum SignatureRequirementStatus.
Proof. refine {| value := str; members := all |}; [solve_members | solve_values]. Defined.
End SignatureRequirementStatus.

Module FormFieldType.
Inductive FormFieldType : Set :=
  | TEXT | MULTILINE_TEXT | NUMBER | CURRENCY | DATE | CHECKBOX | RADIO | CHOICE | SIGNATURE
  | INITIALS | ATTESTATION | COMPUTED | UNKNOWN.
#[global] Instance eq_dec : EqDecision FormFieldType.
Proof. solve_decision. Defined.
Definition str (x : FormFieldType) : string :=
  match x with
  | TEXT => "TEXT" | MULTILINE_TEXT => "MULTILINE_TEXT" | NUMBER => "NUMBER"
  | CURRENCY => "CURRENCY" | DATE => "DATE" | CHECKBOX => "CHECKBOX" | RADIO => "RADIO"
  | CHOICE => "CHOICE" | SIGNATURE => "SIGNATURE" | INITIALS => "INITIALS"
  | ATTESTATION => "ATTESTATION" | COMPUTED => "COMPUTED" | UNKNOWN => "UNKNOWN"
  end.
Definition all : list FormFieldType := [TEXT; MULTILINE_TEXT; NUMBER; CURRENCY; DATE;
  CHECKBOX; RADIO; CHOICE; SIGNATURE; INITIALS; ATTESTATION; COMPUTED; UNKNOWN].
#[global] Instance enum : StrEnum FormFieldType.
Proof. refine {| value := str; members := all |}; [solve_members | solve_values]. Defined.
End FormFieldType.

Module FormFamily.
Inductive FormFamily : Set :=
  | NMLS_MU1 | NMLS_MU2 | NMLS_MU3 | STATE_APPLICATION | STATE_RENEWAL | BOND_FORM |
    ANNUAL_REPORT | VENDOR_FORM | INTERNAL_WORKSHEET | OTHER.
#[global] Instance eq_dec : EqDecision FormFamily.
Proof. solve_decision. Defined.
Definition str (x : FormFamily) : string :=
  match x with
  | NMLS_MU1 => "NMLS_MU1" | NMLS_MU2 => "NMLS_MU2" | NMLS_MU3 => "NMLS_MU3" |
    STATE_APPLICATION => "STATE_APPLICATION" | STATE_RENEWAL => "STATE_RENEWAL" |
    BOND_FORM => "BOND_FORM" | ANNUAL_REPORT => "ANNUAL_REPORT" |
    VENDOR_FORM => "VENDOR_FORM" | INTERNAL_WORKSHEET => "INTERNAL_WORKSHEET" |
    OTHER => "OTHER"
  end.
Definition all : list FormFamily := [NMLS_MU1; NMLS_MU2; NMLS_MU3; STATE_APPLICATION; STATE_RENEWAL; BOND_FORM; ANNUAL_REPORT;
  VENDOR_FORM; INTERNAL_WORKSHEET; OTHER].
#[global] Instance enum : StrEnum FormFamily.
Proof. refine {| value := str; members := all |}; [solve_members | solve_values]. Defined.
End FormFamily.

Module FormFormat.
Inductive FormFormat : Set :=
  | PDF_ACROFORM | FLAT_PDF | DOCX | XLSX | WEB_WORKSHEET | UNKNOWN.
#[global] Instance eq_dec : EqDecision FormFormat.
Proof. solve_decision. Defined.
Definition str (x : FormFormat) : string :=
  match x with
  | PDF_ACROFORM => "PDF_ACROFORM" | FLAT_PDF => "FLAT_PDF" | DOCX => "DOCX" |
    XLSX => "XLSX" | WEB_WORKSHEET => "WEB_WORKSHEET" | UNKNOWN => "UNKNOWN"
  end.
Definition all : list FormFormat := [PDF_ACROFORM; FLAT_PDF; DOCX; XLSX; WEB_WORKSHEET; UNKNOWN].
#[global] Instance enum : StrEnum FormFormat.
Proof. refine {| value := str; members := all |}; [solve_members | solve_values]. Defined.
End FormFormat.

Module FieldDetectionStatus.
Inductive FieldDetectionStatus : Set :=
  | NOT_INSPECTED | INSPECTED | NO_FIELDS_FOUND | MANUAL_MAPPING_REQUIRED |
    INSPECTION_FAILED.
#[global] Instance eq_dec : EqDecision FieldDetectionStatus.
Proof. solve_decision. Defined.
Definition str (x : FieldDetectionStatus) : string :=
  match x with
  | NOT_INSPECTED => "NOT_INSPECTED" | INSPECTED => "INSPECTED" |
    NO_FIELDS_FOUND => "NO_FIELDS_FOUND" |
    MANUAL_MAPPING_REQUIRED => "MANUAL_MAPPING_REQUIRED" |
    INSPECTION_FAILED => "INSPECTION_FAILED"
  end.
Definition all : list FieldDetectionStatus := [NOT_INSPECTED; INSPECTED; NO_FIELDS_FOUND; MANUAL_MAPPING_REQUIRED; INSPECTION_FAILED].
#[global] Instance enum : StrEnum FieldDetectionStatus.
Proof. refine {| value := str; members := all |}; [solve_members | solve_values]. Defined.
End FieldDetectionStatus.

Module FormTemplateStatus.
Inductive FormTemplateStatus : Set :=
  | DRAFT | PENDING_REVIEW | ACTIVE | RETIRED.
#[global] Instance eq_dec : EqDecision FormTemplateStatus.
Proof. solve_decision. Defined.
Definition str (x : FormTemplateStatus) : string :=
  match x with
  | DRAFT => "DRAFT" | PENDING_REVIEW => "PENDING_REVIEW" | ACTIVE => "ACTIVE" |
    RETIRED => "RETIRED"
  end.
Definition all : list FormTemplateStatus := [DRAFT; PENDING_REVIEW; ACTIVE; RETIRED].
#[global] Instance enum : StrEnum FormTemplateStatus.
Proof. refine {| value := str; members := all |}; [solve_members | solve_values]. Defined.
End FormTemplateStatus.

(** ** [app/communications/enums.py] *)

Module MoveAttemptStatus.
Inductive MoveAttemptStatus : Set :=
  | STARTED | MOVED | VERIFIED | AMBIGUOUS | FAILED_RETRYABLE | FAILED_REVIEW.
#[global] Instance eq_dec : EqDecision MoveAttemptStatus.
Proof. solve_decision. Defined.
Definition str (x : MoveAttemptStatus) : string :=
  match x with
  | STARTED => "STARTED" | MOVED => "MOVED" | VERIFIED => "VERIFIED"
  | AMBIGUOUS => "AMBIGUOUS" | FAILED_RETRYABLE => "FAILED_RETRYABLE"
  | FAILED_REVIEW => "FAILED_REVIEW"
  end.
Definition all : list MoveAttemptStatus := [STARTED; MOVED; VERIFIED; AMBIGUOUS;
  FAILED_RETRYABLE; FAILED_REVIEW].
#[global] Instance enum : StrEnum MoveAttemptStatus.
Proof. refine {| value := str; members := all |}; [solve_members | solve_values]. Defined.
End MoveAttemptStatus.

Module WorkflowCompletionType.
Inductive WorkflowCompletionType : Set :=
  | RESPONSE_SENT_AND_ROUTED | NO_RESPONSE_REQUIRED_AND_ROUTED
  | ACKNOWLEDGEMENT_SENT_AND_ROUTED | MANUAL_COMMUNICATION_CONFIRMED_AND_ROUTED.
#[global] Instance eq_dec : EqDecision WorkflowCompletionType.
Proof. solve_decision. Defined.
Definition str (x : WorkflowCompletionType) : string :=
  match x with
  | RESPONSE_SENT_AND_ROUTED => "RESPONSE_SENT_AND_ROUTED"
  | NO_RESPONSE_REQUIRED_AND_ROUTED => "NO_RESPONSE_REQUIRED_AND_ROUTED"
  | ACKNOWLEDGEMENT_SENT_AND_ROUTED => "ACKNOWLEDGEMENT_SENT_AND_ROUTED"
  | MANUAL_COMMUNICATION_CONFIRMED_AND_ROUTED => "MANUAL_COMMUNICATION_CONFIRMED_AND_ROUTED"
  end.
Definition all : list WorkflowCompletionType := [RESPONSE_SENT_AND_ROUTED;
  NO_RESPONSE_REQUIRED_AND_ROUTED; ACKNOWLEDGEMENT_SENT_AND_ROUTED;
  MANUAL_COMMUNICATION_CONFIRMED_AND_ROUTED].
#[global] Instance enum : StrEnum WorkflowCompletionType.
Proof. refine {| value := str; members := all |}; [solve_members | solve_values]. Defined.
End WorkflowCompletionType.

(** ** [app/requirements/taxonomy.py] *)

Module SourceAccessMethod.
Inductive SourceAccessMethod : Set :=
  | MANUAL_URL_REGISTRATION | PUBLIC_PAGE_FETCH | MANUAL_UPLOAD | NMLS_CHECKLIST_EXPORT
  | COUNSEL_DELIVERY | VENDOR_DELIVERY | INTERNAL_AUTHORING.
#[global] Instance eq_dec : EqDecision SourceAccessMethod.
Proof. solve_decision. Defined.
Definition str (x : SourceAccessMethod) : string :=
  match x with
  | MANUAL_URL_REGISTRATION => "MANUAL_URL_REGISTRATION"
  | PUBLIC_PAGE_FETCH => "PUBLIC_PAGE_FETCH" | MANUAL_UPLOAD => "MANUAL_UPLOAD"
  | NMLS_CHECKLIST_EXPORT => "NMLS_CHECKLIST_EXPORT" | COUNSEL_DELIVERY => "COUNSEL_DELIVERY"
  | VENDOR_DELIVERY => "VENDOR_DELIVERY" | INTERNAL_AUTHORING => "INTERNAL_AUTHORING"
  end.
Definition all : list SourceAccessMethod := [MANUAL_URL_REGISTRATION; PUBLIC_PAGE_FETCH;
  MANUAL_UPLOAD; NMLS_CHECKLIST_EXPORT; COUNSEL_DELIVERY; VENDOR_DELIVERY; INTERNAL_AUTHORING].
#[global] Instance enum : StrEnum SourceAccessMethod.
Proof. refine {| value := str; members := all |}; [solve_members | solve_values]. Defined.
End SourceAccessMethod.

Module SourceVerificationStatus.
Inductive SourceVerificationStatus : Set :=
  | UNVERIFIED | VERIFIED | STALE | CHANGED_PENDING_REVIEW | RETIRED.
#[global] Instance eq_dec : EqDecision SourceVerificationStatus.
Proof. solve_decision. Defined.
Definition str (x : SourceVerificationStatus) : string :=
  match x with
  | UNVERIFIED => "UNVERIFIED" | VERIFIED => "VERIFIED" | STALE => "STALE"
  | CHANGED_PENDING_REVIEW => "CHANGED_PENDING_REVIEW" | RETIRED => "RETIRED"
  end.
Definition all : list SourceVerificationStatus := [UNVERIFIED; VERIFIED; STALE;
  CHANGED_PENDING_REVIEW; RETIRED].
#[global] Instance enum : StrEnum SourceVerificationStatus.
Proof. refine {| value := str; members := all |}; [solve_members | solve_values]. Defined.
End SourceVerificationStatus.

Module SnapshotReviewStatus.
Inductive SnapshotReviewStatus : Set :=
  | PENDING_REVIEW | APPROVED | REJECTED | SUPERSEDED.
#[global] Instance eq_dec : EqDecision SnapshotReviewStatus.
Proof. solve_decision. Defined.
Definition str (x : SnapshotReviewStatus) : string :=
  match x with
  | PENDING_REVIEW => "PENDING_REVIEW" | APPROVED => "APPROVED" | REJECTED => "REJECTED"
  | SUPERSEDED => "SUPERSEDED"
  end.
Definition all : list SnapshotReviewStatus := [PENDING_REVIEW; APPROVED; REJECTED; SUPERSEDED].
#[global] Instance enum : StrEnum SnapshotReviewStatus.
Proof. refine {| value := str; members := all |}; [solve_members | solve_values]. Defined.
End SnapshotReviewStatus.

Module RuleSetStatus.
Inductive RuleSetStatus : Set :=
  | DRAFT | ACTIVE | RETIRED.
#[global] Instance eq_dec : EqDecision RuleSetStatus.
Proof. solve_decision. Defined.
Definition str (x : RuleSetStatus) : string :=
  match x with
  | DRAFT => "DRAFT" | ACTIVE => "ACTIVE" | RETIRED => "RETIRED"
  end.
Definition all : list RuleSetStatus := [DRAFT; ACTIVE; RETIRED].
#[global] Instance enum : StrEnum RuleSetStatus.
Proof. refine {| value := str; members := all |}; [solve_members | solve_values]. Defined.
End RuleSetStatus.

Module AssessmentType.
Inductive AssessmentType : Set :=
  | INITIAL_FOOTPRINT | EXPANSION | PERIODIC_REVIEW | ACTIVITY_CHANGE | SINGLE_JURISDICTION.
#[global] Instance eq_dec : EqDecision AssessmentType.
Proof. solve_decision. Defined.
Definition str (x : AssessmentType) : string :=
  match x with
  | INITIAL_FOOTPRINT => "INITIAL_FOOTPRINT" | EXPANSION => "EXPANSION"
  | PERIODIC_REVIEW => "PERIODIC_REVIEW" | ACTIVITY_CHANGE => "ACTIVITY_CHANGE"
  | SINGLE_JURISDICTION => "SINGLE_JURISDICTION"
  end.
Definition all : list AssessmentType := [INITIAL_FOOTPRINT; EXPANSION; PERIODIC_REVIEW;
  ACTIVITY_CHANGE; SINGLE_JURISDICTION].
#[global] Instance enum : StrEnum AssessmentType.
Proof. refine {| value := str; members := all |}; [solve_members | solve_values]. Defined.
End AssessmentType.

Module AssessmentStatus.
Inductive AssessmentStatus : Set :=
  | DRAFT | EVALUATED | PENDING_REVIEW | APPROVED | COUNSEL_REVIEW | REJECTED | SUPERSEDED.
#[global] Instance eq_dec : EqDecision AssessmentStatus.
Proof. solve_decision. Defined.
Definition str (x : AssessmentStatus) : string :=
  match x with
  | DRAFT => "DRAFT" | EVALUATED => "EVALUATED" | PENDING_REVIEW => "PENDING_REVIEW"
  | APPROVED => "APPROVED" | COUNSEL_REVIEW => "COUNSEL_REVIEW" | REJECTED => "REJECTED"
  | SUPERSEDED => "SUPERSEDED"
  end.
Definition all : list AssessmentStatus := [DRAFT; EVALUATED; PENDING_REVIEW; APPROVED;
  COUNSEL_REVIEW; REJECTED; SUPERSEDED].
#[global] Instance enum : StrEnum AssessmentStatus.
Proof. refine {| value := str; members := all |}; [solve_members | solve_values]. Defined.
End AssessmentStatus.

Module OverrideAuthority.
Inductive OverrideAuthority : Set :=
  | COMPLIANCE_MANAGER | INTERNAL_COUNSEL | EXTERNAL_COUNSEL | REGULATOR_WRITTEN_GUIDANCE
  | EXECUTIVE.
#[global] Instance eq_dec : EqDecision OverrideAuthority.
Proof. solve_decision. Defined.
Definition str (x : OverrideAuthority) : string :=
  match x with
  | COMPLIANCE_MANAGER => "COMPLIANCE_MANAGER" | INTERNAL_COUNSEL => "INTERNAL_COUNSEL"
  | EXTERNAL_COUNSEL => "EXTERNAL_COUNSEL"
  | REGULATOR_WRITTEN_GUIDANCE => "REGULATOR_WRITTEN_GUIDANCE" | EXECUTIVE => "EXECUTIVE"
  end.
Definition all : list OverrideAuthority := [COMPLIANCE_MANAGER; INTERNAL_COUNSEL;
  EXTERNAL_COUNSEL; REGULATOR_WRITTEN_GUIDANCE; EXECUTIVE].
#[global] Instance enum : StrEnum OverrideAuthority.
Proof. refine {| value := str; members := all |}; [solve_members | solve_values]. Defined.
End OverrideAuthority.

(** ** [app/licensing/enums.py] *)

Module EntityType.
Inductive EntityType : Set :=
  | CORPORATION | LLC | LP | LLP | PARTNERSHIP | SOLE_PROPRIETORSHIP | TRUST | OTHER.
#[global] Instance eq_dec : EqDecision EntityType.
Proof. solve_decision. Defined.
Definition str (x : EntityType) : string :=
  match x with
  | CORPORATION => "CORPORATION" | LLC => "LLC" | LP => "LP" | LLP => "LLP"
  | PARTNERSHIP => "PARTNERSHIP" | SOLE_PROPRIETORSHIP => "SOLE_PROPRIETORSHIP"
  | TRUST => "TRUST" | OTHER => "OTHER"
  end.
Definition all : list EntityType := [CORPORATION; LLC; LP; LLP; PARTNERSHIP;
  SOLE_PROPRIETORSHIP; TRUST; OTHER].
#[global] Instance enum : StrEnum EntityType.
Proof. refine {| value := str; members := all |}; [solve_members | solve_values]. Defined.
End EntityType.

Module EntityStatus.
Inductive EntityStatus : Set :=
  | ACTIVE | INACTIVE | DISSOLVED | MERGED | PROSPECTIVE.
#[global] Instance eq_dec : EqDecision EntityStatus.
Proof. solve_decision. Defined.
Definition str (x : EntityStatus) : string :=
  match x with
  | ACTIVE => "ACTIVE" | INACTIVE => "INACTIVE" | DISSOLVED => "DISSOLVED"
  | MERGED => "MERGED" | PROSPECTIVE => "PROSPECTIVE"
  end.
Definition all : list EntityStatus := [ACTIVE; INACTIVE; DISSOLVED; MERGED; PROSPECTIVE].
#[global] Instance enum : StrEnum EntityStatus.
Proof. refine {| value := str; members := all |}; [solve_members | solve_values]. Defined.
End EntityStatus.

Module ProfileStatus.
Inductive ProfileStatus : Set :=
  | DRAFT | ACTIVE | RETIRED.
#[global] Instance eq_dec : EqDecision ProfileStatus.
Proof. solve_decision. Defined.
Definition str (x : ProfileStatus) : string :=
  match x with
  | DRAFT => "DRAFT" | ACTIVE => "ACTIVE" | RETIRED => "RETIRED"
  end.
Definition all : list ProfileStatus := [DRAFT; ACTIVE; RETIRED].
#[global] Instance enum : StrEnum ProfileStatus.
Proof. refine {| value := str; members := all |}; [solve_members | solve_values]. Defined.
End ProfileStatus.

Module LicenseStatus.
Inductive LicenseStatus : Set :=
  | NOT_STARTED | APPLICATION_IN_PROGRESS | PENDING_REGULATOR | APPROVED | ACTIVE
  | RENEWAL_IN_PROGRESS | EXPIRED | REINSTATING | SUSPENDED | REVOKED | SURRENDERED
  | NOT_REQUIRED | UNKNOWN.
#[global] Instance eq_dec : EqDecision LicenseStatus.
Proof. solve_decision. Defined.
Definition str (x : LicenseStatus) : string :=
  match x with
  | NOT_STARTED => "NOT_STARTED" | APPLICATION_IN_PROGRESS => "APPLICATION_IN_PROGRESS"
  | PENDING_REGULATOR => "PENDING_REGULATOR" | APPROVED => "APPROVED" | ACTIVE => "ACTIVE"
  | RENEWAL_IN_PROGRESS => "RENEWAL_IN_PROGRESS" | EXPIRED => "EXPIRED"
  | REINSTATING => "REINSTATING" | SUSPENDED => "SUSPENDED" | REVOKED => "REVOKED"
  | SURRENDERED => "SURRENDERED" | NOT_REQUIRED => "NOT_REQUIRED" | UNKNOWN => "UNKNOWN"
  end.
Definition all : list LicenseStatus := [NOT_STARTED; APPLICATION_IN_PROGRESS;
  PENDING_REGULATOR; APPROVED; ACTIVE; RENEWAL_IN_PROGRESS; EXPIRED; REINSTATING; SUSPENDED;
  REVOKED; SURRENDERED; NOT_REQUIRED; UNKNOWN].
#[global] Instance enum : StrEnum LicenseStatus.
Proof. refine {| value := str; members := all |}; [solve_members | solve_values]. Defined.
End LicenseStatus.

Module FilingChannel.
Inductive FilingChannel : Set :=
  | NMLS | STATE_PORTAL | LOCAL_PORTAL | PAPER | EMAIL | VENDOR_MANAGED | MULTIPLE_CHANNELS
  | UNKNOWN.
#[global] Instance eq_dec : EqDecision FilingChannel.
Proof. solve_decision. Defined.
Definition str (x : FilingChannel) : string :=
  match x with
  | NMLS => "NMLS" | STATE_PORTAL => "STATE_PORTAL" | LOCAL_PORTAL => "LOCAL_PORTAL"
  | PAPER => "PAPER" | EMAIL => "EMAIL" | VENDOR_MANAGED => "VENDOR_MANAGED"
  | MULTIPLE_CHANNELS => "MULTIPLE_CHANNELS" | UNKNOWN => "UNKNOWN"
  end.
Definition all : list FilingChannel := [NMLS; STATE_PORTAL; LOCAL_PORTAL; PAPER; EMAIL;
  VENDOR_MANAGED; MULTIPLE_CHANNELS; UNKNOWN].
#[global] Instance enum : StrEnum FilingChannel.
Proof. refine {| value := str; members := all |}; [solve_members | solve_values]. Defined.
End FilingChannel.

Module SourceConfidence.
Inductive SourceConfidence : Set :=
  | VERIFIED_DOCUMENT | REGULATOR_CONFIRMED | VENDOR_REPORTED | TRACKER_IMPORT | MANUAL_ENTRY
  | UNVERIFIED.
#[global] Instance eq_dec : EqDecision SourceConfidence.
Proof. solve_decision. Defined.
Definition str (x : SourceConfidence) : string :=
  match x with
  | VERIFIED_DOCUMENT => "VERIFIED_DOCUMENT" | REGULATOR_CONFIRMED => "REGULATOR_CONFIRMED"
  | VENDOR_REPORTED => "VENDOR_REPORTED" | TRACKER_IMPORT => "TRACKER_IMPORT"
  | MANUAL_ENTRY => "MANUAL_ENTRY" | UNVERIFIED => "UNVERIFIED"
  end.
Definition all : list SourceConfidence := [VERIFIED_DOCUMENT; REGULATOR_CONFIRMED;
  VENDOR_REPORTED; TRACKER_IMPORT; MANUAL_ENTRY; UNVERIFIED].
#[global] Instance enum : StrEnum SourceConfidence.
Proof. refine {| value := str; members := all |}; [solve_members | solve_values]. Defined.
End SourceConfidence.

Module BondStatus.
Inductive BondStatus : Set :=
  | NOT_REQUIRED | PENDING | ACTIVE | CONTINUED | RIDER_PENDING | EXPIRED | CANCELLED
  | UNKNOWN.
#[global] Instance eq_dec : EqDecision BondStatus.
Proof. solve_decision. Defined.
Definition str (x : BondStatus) : string :=
  match x with
  | NOT_REQUIRED => "NOT_REQUIRED" | PENDING => "PENDING" | ACTIVE => "ACTIVE"
  | CONTINUED => "CONTINUED" | RIDER_PENDING => "RIDER_PENDING" | EXPIRED => "EXPIRED"
  | CANCELLED => "CANCELLED" | UNKNOWN => "UNKNOWN"
  end.
Definition all : list BondStatus := [NOT_REQUIRED; PENDING; ACTIVE; CONTINUED; RIDER_PENDING;
  EXPIRED; CANCELLED; UNKNOWN].
#[global] Instance enum : StrEnum BondStatus.
Proof. refine {| value := str; members := all |}; [solve_members | solve_values]. Defined.
End BondStatus.

Module BondChannel.
Inductive BondChannel : Set :=
  | NMLS_ESB | PAPER_ORIGINAL | VENDOR_MANAGED | STATE_SPECIFIC | UNKNOWN.
#[global] Instance eq_dec : EqDecision BondChannel.
Proof. solve_decision. Defined.
Definition str (x : BondChannel) : string :=
  match x with
  | NMLS_ESB => "NMLS_ESB" | PAPER_ORIGINAL => "PAPER_ORIGINAL"
  | VENDOR_MANAGED => "VENDOR_MANAGED" | STATE_SPECIFIC => "STATE_SPECIFIC"
  | UNKNOWN => "UNKNOWN"
  end.
Definition all : list BondChannel := [NMLS_ESB; PAPER_ORIGINAL; VENDOR_MANAGED;
  STATE_SPECIFIC; UNKNOWN].
#[global] Instance enum : StrEnum BondChannel.
Proof. refine {| value := str; members := all |}; [solve_members | solve_values]. Defined.
End BondChannel.

Module LicenseEventSourceType.
Inductive LicenseEventSourceType : Set :=
  | REGULATOR_DOCUMENT | VENDOR_NOTICE | EMAIL_EVIDENCE | TRACKER_IMPORT | MANUAL_UPDATE
  | CASE_COMPLETION | SYSTEM_LIFECYCLE.
#[global] Instance eq_dec : EqDecision LicenseEventSourceType.
Proof. solve_decision. Defined.
Definition str (x : LicenseEventSourceType) : string :=
  match x with
  | REGULATOR_DOCUMENT => "REGULATOR_DOCUMENT" | VENDOR_NOTICE => "VENDOR_NOTICE"
  | EMAIL_EVIDENCE => "EMAIL_EVIDENCE" | TRACKER_IMPORT => "TRACKER_IMPORT"
  | MANUAL_UPDATE => "MANUAL_UPDATE" | CASE_COMPLETION => "CASE_COMPLETION"
  | SYSTEM_LIFECYCLE => "SYSTEM_LIFECYCLE"
  end.
Definition all : list LicenseEventSourceType := [REGULATOR_DOCUMENT; VENDOR_NOTICE;
  EMAIL_EVIDENCE; TRACKER_IMPORT; MANUAL_UPDATE; CASE_COMPLETION; SYSTEM_LIFECYCLE].
#[global] Instance enum : StrEnum LicenseEventSourceType.
Proof. refine {| value := str; members := all |}; [solve_members | solve_values]. Defined.
End LicenseEventSourceType.
