(* ===== verification/PyDate.v ===== *)
(** * Dates and instants

    The part of Python's [datetime] the deadline engine uses.  A [date] is its
    proleptic Gregorian ordinal ([date.toordinal()]: 0001-01-01 is day 1), so
    comparison, subtraction and [timedelta] are those of [Z]; [date(y, m, d)]
    and the attributes [.year], [.month], [.day] are computed from it, with the
    range errors of the interpreter.  An aware [datetime] is the number of
    microseconds since the start of day 0, UTC. *)
From S2P Require Import Prelude.
Open Scope Z_scope.

(** Linear arithmetic with division by constants. *)
Ltac zdiv_lia := Z.to_euclidean_division_equations; lia.

Abbreviation date := Z (only parsing).
Abbreviation instant := Z (only parsing).

(** ** Calendar arithmetic *)

Definition is_leap (y : Z) : bool :=
  (y mod 4 =? 0) && (negb (y mod 100 =? 0) || (y mod 400 =? 0)).

Definition leap_day (y : Z) : Z := if is_leap y then 1 else 0.

(** Days from 0001-01-01 to the first of January of [y]. *)
Definition days_before_year (y : Z) : Z :=
  (y - 1) * 365 + (y - 1) / 4 - (y - 1) / 100 + (y - 1) / 400.

(** [calendar.monthrange(y, m)[1]] for a month in range. *)
Definition days_in_month (y m : Z) : Z :=
  if m =? 2 then 28 + leap_day y
  else if (m =? 4) || (m =? 6) || (m =? 9) || (m =? 11) then 30 else 31.

Definition days_before_month (y m : Z) : Z :=
  let l := leap_day y in
  if m <=? 1 then 0 else if m =? 2 then 31 else if m =? 3 then 59 + l
  else if m =? 4 then 90 + l else if m =? 5 then 120 + l
  else if m =? 6 then 151 + l else if m =? 7 then 181 + l
  else if m =? 8 then 212 + l else if m =? 9 then 243 + l
  else if m =? 10 then 273 + l else if m =? 11 then 304 + l
  else if m =? 12 then 334 + l else 365 + l.

Definition ymd2ord (y m d : Z) : date := days_before_year y + days_before_month y m + d.

Definition year (n : date) : Z :=
  let y0 := 400 * (n - 1) / 146097 + 1 in
  if n - 1 <? days_before_year y0 then y0 - 1
  else if days_before_year (y0 + 1) <=? n - 1 then y0 + 1 else y0.

(** Zero-based day of the year. *)
Definition yday (n : date) : Z := n - 1 - days_before_year (year n).

Definition month (n : date) : Z :=
  let l := leap_day (year n) in
  let d := yday n in
  if d <? 31 then 1 else if d <? 59 + l then 2 else if d <? 90 + l then 3
  else if d <? 120 + l then 4 else if d <? 151 + l then 5 else if d <? 181 + l then 6
  else if d <? 212 + l then 7 else if d <? 243 + l then 8 else if d <? 273 + l then 9
  else if d <? 304 + l then 10 else if d <? 334 + l then 11 else 12.

Definition day (n : date) : Z := yday n - days_before_month (year n) (month n) + 1.

(** [date.weekday()]: Monday is 0; 0001-01-01 was a Monday. *)
Definition weekday (n : date) : Z := (n + 6) mod 7.

Definition MINYEAR : Z := 1.
Definition MAXYEAR : Z := 9999.
Definition MAXORDINAL : Z := 3652059.

(** A value the interpreter can represent. *)
Definition date_ok (n : date) : Prop := 1 <= n <= MAXORDINAL.

(** ** Laws *)

Lemma leap_day_bounds y : 0 <= leap_day y <= 1.
Proof. unfold leap_day. destruct (is_leap y); lia. Qed.

Lemma days_before_year_succ y : days_before_year (y + 1) = days_before_year y + 365 + leap_day y.
Proof.
  unfold days_before_year, leap_day, is_leap.
  destruct (Z.eqb_spec (y mod 4) 0), (Z.eqb_spec (y mod 100) 0), (Z.eqb_spec (y mod 400) 0);
    simpl; zdiv_lia.
Qed.

Lemma days_before_year_mono y y' : y <= y' -> days_before_year y + 365 * (y' - y) <= days_before_year y'.
Proof. unfold days_before_year. intros. zdiv_lia. Qed.

Lemma year_spec n : days_before_year (year n) <= n - 1 < days_before_year (year n + 1).
Proof.
  unfold year. set (y0 := 400 * (n - 1) / 146097 + 1).
  assert (days_before_year (y0 - 1) <= n - 1 < days_before_year (y0 + 2)) as Hb.
  { unfold days_before_year, y0. zdiv_lia. }
  destruct (Z.ltb_spec (n - 1) (days_before_year y0)).
  - replace (y0 - 1 + 1) with y0 by lia. lia.
  - destruct (Z.leb_spec (days_before_year (y0 + 1)) (n - 1)); [|lia].
    replace (y0 + 1 + 1) with (y0 + 2) by lia. lia.
Qed.

Lemma year_unique n y : days_before_year y <= n - 1 < days_before_year (y + 1) -> year n = y.
Proof.
  intros Hy. pose proof (year_spec n) as Hs.
  destruct (Z.lt_trichotomy (year n) y) as [?|[?|?]]; [|done|].
  - pose proof (days_before_year_mono (year n + 1) y). lia.
  - pose proof (days_before_year_mono (y + 1) (year n)). lia.
Qed.

Lemma yday_bounds n : 0 <= yday n < 365 + leap_day (year n).
Proof. unfold yday. pose proof (year_spec n). rewrite days_before_year_succ in *. lia. Qed.

(** Decide every comparison of the goal and of the context. *)
Ltac split_cmp :=
  repeat match goal with
  | |- context [?a <? ?b] => destruct (Z.ltb_spec a b)
  | |- context [?a <=? ?b] => destruct (Z.leb_spec a b)
  | |- context [?a =? ?b] => destruct (Z.eqb_spec a b)
  end.

Lemma days_before_month_succ y m :
  1 <= m <= 12 -> days_before_month y (m + 1) = days_before_month y m + days_in_month y m.
Proof.
  intros Hm. unfold days_before_month, days_in_month.
  pose proof (leap_day_bounds y).
  assert (m = 1 \/ m = 2 \/ m = 3 \/ m = 4 \/ m = 5 \/ m = 6 \/ m = 7 \/ m = 8 \/ m = 9
          \/ m = 10 \/ m = 11 \/ m = 12) as Hc by lia.
  destruct_or! Hc; subst m; simpl; lia.
Qed.

Lemma days_in_month_bounds y m : 28 <= days_in_month y m <= 31.
Proof.
  unfold days_in_month. pose proof (leap_day_bounds y).
  destruct (m =? 2); [lia|]. destruct (_ || _); lia.
Qed.

Lemma days_before_month_mono y m m' :
  1 <= m -> m <= m' <= 13 -> days_before_month y m <= days_before_month y m'.
Proof.
  intros H1 H2. unfold days_before_month. pose proof (leap_day_bounds y).
  split_cmp; lia.
Qed.

Lemma month_bounds n : 1 <= month n <= 12.
Proof. unfold month. cbv zeta. split_cmp; lia. Qed.

Lemma month_spec n :
  days_before_month (year n) (month n) <= yday n < days_before_month (year n) (month n + 1).
Proof.
  pose proof (yday_bounds n). pose proof (leap_day_bounds (year n)).
  unfold month. cbv zeta. split_cmp; unfold days_before_month; simpl; lia.
Qed.

Lemma month_unique n m :
  1 <= m <= 12 ->
  days_before_month (year n) m <= yday n < days_before_month (year n) (m + 1) -> month n = m.
Proof.
  intros Hm Hy. pose proof (month_spec n) as Hs. pose proof (month_bounds n).
  destruct (Z.lt_trichotomy (month n) m) as [?|[?|?]]; [|done|].
  - pose proof (days_before_month_mono (year n) (month n + 1) m). lia.
  - pose proof (days_before_month_mono (year n) (m + 1) (month n)). lia.
Qed.

Lemma day_bounds n : 1 <= day n <= days_in_month (year n) (month n).
Proof.
  unfold day. pose proof (month_spec n).
  rewrite days_before_month_succ in * by apply month_bounds. lia.
Qed.

(** A valid year/month/day triple. *)
Definition ymd_ok (y m d : Z) : Prop := 1 <= m <= 12 /\ 1 <= d <= days_in_month y m.

Lemma ymd_of_date n : ymd2ord (year n) (month n) (day n) = n.
Proof. unfold ymd2ord, day, yday. lia. Qed.

Lemma year_ymd y m d : ymd_ok y m d -> year (ymd2ord y m d) = y.
Proof.
  intros [Hm Hd]. apply year_unique. unfold ymd2ord.
  rewrite days_before_year_succ.
  pose proof (days_before_month_mono y 1 m). pose proof (days_before_month_succ y m).
  pose proof (days_before_month_mono y (m + 1) 13).
  assert (days_before_month y 1 = 0) by done.
  assert (days_before_month y 13 = 365 + leap_day y) by done. lia.
Qed.

Lemma month_ymd y m d : ymd_ok y m d -> month (ymd2ord y m d) = m.
Proof.
  intros Hok. pose proof (year_ymd _ _ _ Hok) as Hy. destruct Hok as [Hm Hd].
  apply month_unique; [done|]. unfold yday. rewrite Hy.
  rewrite days_before_month_succ by done. unfold ymd2ord. lia.
Qed.

Lemma day_ymd y m d : ymd_ok y m d -> day (ymd2ord y m d) = d.
Proof.
  intros Hok. unfold day, yday. rewrite year_ymd, month_ymd by done.
  unfold ymd2ord. lia.
Qed.

#[export] Hint Rewrite year_ymd month_ymd day_ymd using assumption : astra.

Lemma ymd_ok_of_date n : ymd_ok (year n) (month n) (day n).
Proof. split; [apply month_bounds | apply day_bounds]. Qed.

(** Dates compare as their (year, month, day) triples do. *)
Lemma ymd2ord_lt y m d y' m' d' :
  ymd_ok y m d -> ymd_ok y' m' d' ->
  (ymd2ord y m d < ymd2ord y' m' d' <->
   y < y' \/ (y = y' /\ (m < m' \/ (m = m' /\ d < d')))).
Proof.
  intros [Hm Hd] [Hm' Hd']. unfold ymd2ord.
  assert (forall a b c, 1 <= b <= 12 -> 1 <= c <= days_in_month a b ->
            1 <= days_before_month a b + c <= 365 + leap_day a) as Hin.
  { intros a b c Hb Hc. pose proof (days_before_month_mono a 1 b).
    pose proof (days_before_month_succ a b). pose proof (days_before_month_mono a (b + 1) 13).
    assert (days_before_month a 1 = 0) by done.
    assert (days_before_month a 13 = 365 + leap_day a) by done. lia. }
  pose proof (Hin y m d Hm Hd). pose proof (Hin y' m' d' Hm' Hd').
  destruct (Z.lt_trichotomy y y') as [?|[->|?]].
  - pose proof (days_before_year_mono (y + 1) y'). rewrite days_before_year_succ in *. lia.
  - destruct (Z.lt_trichotomy m m') as [?|[->|?]]; [| lia |].
    + pose proof (days_before_month_mono y' (m + 1) m').
      rewrite days_before_month_succ in * by done. lia.
    + pose proof (days_before_month_mono y' (m' + 1) m).
      rewrite days_before_month_succ in * by done. lia.
  - pose proof (days_before_year_mono (y' + 1) y). rewrite days_before_year_succ in *. lia.
Qed.

Lemma year_mono n n' : n <= n' -> year n <= year n'.
Proof.
  intros Hn. destruct (Z.le_gt_cases (year n) (year n')) as [|Hlt]; [done|].
  pose proof (year_spec n). pose proof (year_spec n').
  pose proof (days_before_year_mono (year n' + 1) (year n)). lia.
Qed.

(** ** Constructors with the interpreter's range checks *)

(** [date(y, m, d)]. *)
Definition date_new (y m d : Z) : result exn date :=
  _ ← raise_unless ((MINYEAR <=? y) && (y <=? MAXYEAR)) ValueError;
  _ ← raise_unless ((1 <=? m) && (m <=? 12)) ValueError;
  _ ← raise_unless ((1 <=? d) && (d <=? days_in_month y m)) ValueError;
  Ok (ymd2ord y m d).

(** [calendar.monthrange(y, m)[1]]: only an illegal month raises (the weekday
    it also returns is computed for any year). *)
Definition monthrange_last (y m : Z) : result exn Z :=
  _ ← raise_unless ((1 <=? m) && (m <=? 12)) ValueError;
  Ok (days_in_month y m).

(** [n + timedelta(days=k)]. *)
Definition date_add (n : date) (k : Z) : result exn date :=
  _ ← raise_unless ((1 <=? n + k) && (n + k <=? MAXORDINAL)) OverflowError;
  Ok (n + k).

Lemma date_new_Ok y m d n :
  date_new y m d = Ok n <-> 1 <= y <= 9999 /\ ymd_ok y m d /\ n = ymd2ord y m d.
Proof.
  unfold date_new, ymd_ok, MINYEAR, MAXYEAR, raise_unless. split.
  - intros H. repeat (case_match; simpl in *; try discriminate). injection H as <-. lia.
  - intros (Hy & [Hm Hd] & ->).
    replace ((1 <=? y) && (y <=? 9999)) with true by lia.
    replace ((1 <=? m) && (m <=? 12)) with true by lia.
    replace ((1 <=? d) && (d <=? days_in_month y m)) with true by lia. done.
Qed.

Lemma date_new_ok_range y m d n : date_new y m d = Ok n -> date_ok n.
Proof.
  intros (Hy & [Hm Hd] & ->)%date_new_Ok. unfold date_ok, MAXORDINAL.
  pose proof (days_before_year_mono 1 y). pose proof (days_before_year_mono (y + 1) 10000).
  rewrite days_before_year_succ in *. unfold ymd2ord.
  pose proof (days_before_month_mono y 1 m). pose proof (days_before_month_mono y (m + 1) 13).
  rewrite days_before_month_succ in * by done.
  assert (days_before_month y 1 = 0) by done.
  assert (days_before_month y 13 = 365 + leap_day y) by done.
  assert (days_before_year 1 = 0) by done.
  assert (days_before_year 10000 = 3652059) by done. lia.
Qed.

Lemma date_add_Ok n k r : date_add n k = Ok r <-> date_ok (n + k) /\ r = n + k.
Proof.
  unfold date_add, raise_unless, date_ok. split.
  - case_match; simpl; intros [= <-]. lia.
  - intros [Hr ->]. replace (_ && _) with true by lia. done.
Qed.

(** ** Instants *)

Definition DAY : Z := 86400000000.
Definition HOUR : Z := 3600000000.

(** [dt.date()] of an aware UTC datetime. *)
Definition instant_date (t : instant) : date := t / DAY.

(** [datetime.combine(d, time(hour=h), tzinfo=UTC)]. *)
Definition combine_utc (d : date) (hour : Z) : instant := d * DAY + hour * HOUR.

(** [(a - b).days]: whole days, rounded down. *)
Definition delta_days (a b : instant) : Z := (a - b) / DAY.

Lemma instant_date_combine d h : 0 <= h < 24 -> instant_date (combine_utc d h) = d.
Proof. unfold instant_date, combine_utc, DAY, HOUR. intros. zdiv_lia. Qed.

Lemma instant_date_mono a b : a <= b -> instant_date a <= instant_date b.
Proof. unfold instant_date, DAY. intros. zdiv_lia. Qed.
