(* ===== verification/PyJson.v ===== *)
(** * JSON values as Python sees them

    The values of JSONB columns (rule configurations, rule conditions, fact
    profiles), with Python's equality, truthiness, iteration and conversion on
    them, and [date.fromisoformat] (the CPython parser). *)
From Stdlib Require Import QArith Ascii.
From S2P Require Import Prelude PyDate.
Open Scope Z_scope.

(** A float is the rational number it denotes; a dict keeps its items in
    insertion order, with distinct keys . *)
#[warnings="-register-all"]
Inductive json : Type :=
| JNull
| JBool (b : bool)
| JInt (n : Z)
| JFloat (q : Q)
| JStr (s : string)
| JList (l : list json)
| JDict (d : list (string * json)).

(** Induction through the two nested lists. *)
Section JsonInd.
Context (P : json -> Prop).
Context (Hnull : P JNull) (Hbool : forall b, P (JBool b)) (Hint : forall n, P (JInt n))
  (Hfloat : forall q, P (JFloat q)) (Hstr : forall s, P (JStr s))
  (Hlist : forall l, Forall P l -> P (JList l))
  (Hdict : forall d, Forall (fun kv => P kv.2) d -> P (JDict d)).

Fixpoint json_nested_ind (j : json) : P j :=
  match j with
  | JNull => Hnull | JBool b => Hbool b | JInt n => Hint n | JFloat q => Hfloat q
  | JStr s => Hstr s
  | JList l =>
      Hlist l ((fix go l := match l return Forall P l with
                | [] => Forall_nil_2 P
                | x :: l => Forall_cons_2 P x l (json_nested_ind x) (go l) end) l)
  | JDict d =>
      Hdict d ((fix go d := match d return Forall (fun kv => P kv.2) d with
                | [] => Forall_nil_2 _
                | kv :: d => Forall_cons_2 _ kv d (json_nested_ind kv.2) (go d) end) d)
  end.
End JsonInd.

(** [d.get(k)], [k in d]. *)
Fixpoint dget {A} (k : string) (d : list (string * A)) : option A :=
  match d with
  | [] => None
  | (k', v) :: d => if bool_decide (k = k') then Some v else dget k d
  end.

Definition dhas {A} (k : string) (d : list (string * A)) : bool := truthy_opt (dget k d).

Lemma dget_fmap {A B} (f : A -> B) k (d : list (string * A)) :
  dget k ((fun kv => (kv.1, f kv.2)) <$> d) = f <$> dget k d.
Proof.
  induction d as [|[k' v] d IH]; simpl; [done|]. case_bool_decide; [done|]. apply IH.
Qed.

Lemma dget_in {A} k (d : list (string * A)) v : dget k d = Some v -> (k, v) ∈ d.
Proof.
  induction d as [|[k' w] d IH]; simpl; [done|].
  case_bool_decide as E; [intros [= <-]; subst; left | intros H; right; auto].
Qed.

(** [str(v)]: of a string, itself; [py_str] gives the text of the other values. *)
Definition text_of (py_str : json -> string) (v : json) : string := match v with JStr s => s | _ => py_str v end.

(** The numeric tower: a bool is an int, an int compares with a float exactly. *)
Definition num_of (j : json) : option Q :=
  match j with
  | JBool b => Some (if b then 1 else 0)%Q
  | JInt n => Some (inject_Z n)
  | JFloat q => Some q
  | _ => None
  end.

(** [a == b].  Dicts are equal when they have the same keys with equal values. *)
Fixpoint py_eq (a b : json) {struct a} : bool :=
  match a, b with
  | JNull, JNull => true
  | JStr s, JStr t => bool_decide (s = t)
  | JList l, JList m =>
      (fix go l m := match l, m with
       | [], [] => true
       | x :: l, y :: m => py_eq x y && go l m
       | _, _ => false end) l m
  | JDict d, JDict e =>
      (length d =? length e)%nat &&
      (fix go d := match d with
       | [] => true
       | (k, x) :: d => match dget k e with Some y => py_eq x y | None => false end && go d end) d
  | (JBool _ | JInt _ | JFloat _), (JBool _ | JInt _ | JFloat _) =>
      match num_of a, num_of b with Some p, Some q => Qeq_bool p q | _, _ => false end
  | _, _ => false
  end.

(** [x in items], by [==]. *)
Definition py_in (x : json) (items : list json) : bool := existsb (py_eq x) items.

(** [bool(j)]. *)
Definition truthy (j : json) : bool :=
  match j with
  | JNull => false
  | JBool b => b
  | JInt n => negb (n =? 0)
  | JFloat q => negb (Qeq_bool q 0)
  | JStr s => negb (bool_decide (s = ""))
  | JList l => match l with [] => false | _ => true end
  | JDict d => match d with [] => false | _ => true end
  end.

(** [isinstance(j, int)] and the value it then has: a bool is an int. *)
Definition as_int (j : json) : option Z :=
  match j with JInt n => Some n | JBool b => Some (if b then 1 else 0) | _ => None end.

(** ** [int(...)] *)

Definition digit (c : Ascii.ascii) : option Z := Z.of_nat <$> Ascii.is_nat c.

(** The digits of an integer literal, single underscores allowed between them. *)
Fixpoint parse_nat_go (acc : Z) (s : string) : option Z :=
  match s with
  | "" => Some acc
  | String c s' =>
      match digit c with
      | Some d => parse_nat_go (10 * acc + d) s'
      | None =>
          match c, s' with
          | "_"%char, String c' s'' =>
              match digit c' with Some d => parse_nat_go (10 * acc + d) s'' | None => None end
          | _, _ => None
          end
      end
  end.

Definition parse_nat (s : string) : option Z :=
  match s with
  | String c s => match digit c with Some d => parse_nat_go d s | None => None end
  | "" => None
  end.

(** ASCII white space: also the four separators 28 to 31. *)
Definition is_space (c : Ascii.ascii) : bool :=
  Ascii.is_space c || (let n := N_of_ascii c in (28 <=? n) && (n <=? 31))%N.

Fixpoint lstrip (s : string) : string :=
  match s with
  | String c s' => if is_space c then lstrip s' else s
  | "" => ""
  end.
Definition strip (s : string) : string := String.rev (lstrip (String.rev (lstrip s))).

Definition parse_int (s : string) : option Z :=
  match strip s with
  | String "-"%char s => Z.opp <$> parse_nat s
  | String "+"%char s => parse_nat s
  | s => parse_nat s
  end.

(** [int(j)]: a float is truncated toward zero. *)
Definition py_int (j : json) : result exn Z :=
  match j with
  | JInt n => Ok n
  | JBool b => Ok (if b then 1 else 0)
  | JFloat q => Ok (Z.quot (Qnum q) (Z.pos (Qden q)))
  | JStr s => match parse_int s with Some n => Ok n | None => Err ValueError end
  | JNull | JList _ | JDict _ => Err TypeError
  end.

(** ** [date.fromisoformat] *)

(** Exactly [n] ASCII digits. *)
Fixpoint parse_digits (n : nat) (acc : Z) (s : string) : option (Z * string) :=
  match n, s with
  | O, _ => Some (acc, s)
  | S n, String c s => match digit c with Some d => parse_digits n (10 * acc + d) s | None => None end
  | S _, "" => None
  end.

Definition starts_with (c : Ascii.ascii) (s : string) : option string :=
  match s with String c' s => if bool_decide (c = c') then Some s else None | "" => None end.

Definition iso_week1_monday (y : Z) : date :=
  let first_day := ymd2ord y 1 1 in
  let first_weekday := weekday first_day in
  first_day - first_weekday + (if 3 <? first_weekday then 7 else 0).

Definition iso_to_ymd (y w d : Z) : option date :=
  let first_weekday := weekday (ymd2ord y 1 1) in
  let week_ok := ((0 <? w) && (w <? 53)) ||
    ((w =? 53) && ((first_weekday =? 3) || ((first_weekday =? 2) && is_leap y))) in
  if (MINYEAR <=? y) && (y <=? MAXYEAR) && week_ok && (0 <? d) && (d <? 8) then
    let n := iso_week1_monday y + ((w - 1) * 7 + d - 1) in
    if (1 <=? n) && (n <=? MAXORDINAL) then Some n else None
  else None.

(** A separator is required here exactly when the year was followed by one. *)
Definition skip_sep (has_sep : bool) (s : string) : option string :=
  if has_sep then starts_with "-"%char s else Some s.

Definition parse_isoformat_date (s : string) : option date :=
  '(y, s) ← parse_digits 4 0 s;
  let '(has_sep, s) := match starts_with "-"%char s with Some s => (true, s) | None => (false, s) end in
  match starts_with "W"%char s with
  | Some s =>
      '(w, s) ← parse_digits 2 0 s;
      match s with
      | "" => iso_to_ymd y w 1
      | _ => s ← skip_sep has_sep s; '(d, _) ← parse_digits 1 0 s; iso_to_ymd y w d
      end
  | None =>
      '(m, s) ← parse_digits 2 0 s;
      s ← skip_sep has_sep s;
      '(d, _) ← parse_digits 2 0 s;
      match date_new y m d with Ok n => Some n | Err _ => None end
  end.

Definition fromisoformat (s : string) : result exn date :=
  let n := String.length s in
  if ((n =? 7) || (n =? 8) || (n =? 10))%nat then
    match parse_isoformat_date s with Some d => Ok d | None => Err ValueError end
  else Err ValueError.

(** ** [date.isoformat] *)

Definition digit_char (n : Z) : Ascii.ascii := Ascii.ascii_of_N (Z.to_N (48 + n mod 10)).

(** [n] in [k] digits, most significant first. *)
Fixpoint pad_digits (k : nat) (n : Z) (acc : string) : string :=
  match k with O => acc | S k => pad_digits k (n / 10) (String (digit_char n) acc) end.

Definition isoformat (d : date) : string :=
  pad_digits 4 (year d) "" +:+ "-" +:+ pad_digits 2 (month d) "" +:+ "-" +:+ pad_digits 2 (day d) "".

(** [d.strftime("%m/%d/%Y")]. *)
Definition month_day_year (d : date) : string :=
  pad_digits 2 (month d) ("/" +:+ pad_digits 2 (day d) ("/" +:+ pad_digits 4 (year d) "")).

(** ** [isoformat] and [fromisoformat] are inverse *)

Lemma digit_digit_char n : digit (digit_char n) = Some (n mod 10).
Proof.
  unfold digit_char, digit. pose proof (Z.mod_pos_bound n 10 eq_refl) as Hb.
  remember (n mod 10) as m. clear Heqm.
  assert (m = 0 \/ m = 1 \/ m = 2 \/ m = 3 \/ m = 4 \/ m = 5 \/ m = 6 \/ m = 7 \/ m = 8 \/ m = 9)
    as Hm by lia.
  destruct_or! Hm; subst m; reflexivity.
Qed.

Lemma parse_digits_snoc k a s :
  parse_digits (S k) a s = '(v, r) ← parse_digits k a s; parse_digits 1 v r.
Proof.
  revert a s. induction k as [|k IH]; intros a s; [done|].
  destruct s as [|c s]; [done|].
  change (parse_digits (S (S k)) a (String c s)) with
    (match digit c with Some d => parse_digits (S k) (10 * a + d) s | None => None end).
  change (parse_digits (S k) a (String c s)) with
    (match digit c with Some d => parse_digits k (10 * a + d) s | None => None end).
  destruct (digit c); [apply IH | done].
Qed.

Lemma parse_pad_digits k n a s :
  parse_digits k a (pad_digits k n s) = Some (a * 10 ^ Z.of_nat k + n mod 10 ^ Z.of_nat k, s).
Proof.
  revert n a s. induction k as [|k IH]; intros n a s.
  { simpl. rewrite Z.mod_1_r. do 2 f_equal. lia. }
  rewrite parse_digits_snoc. simpl pad_digits. rewrite IH.
  cbn [mbind option_bind]. cbv beta iota. simpl parse_digits. rewrite digit_digit_char.
  do 2 f_equal. replace (Z.of_nat (S k)) with (Z.of_nat k + 1) by lia.
  rewrite Z.pow_add_r, Z.pow_1_r by lia.
  assert (0 < 10 ^ Z.of_nat k) by (apply Z.pow_pos_nonneg; lia).
  rewrite (Z.mul_comm (10 ^ Z.of_nat k) 10), (Z.rem_mul_r n 10) by lia. lia.
Qed.

Lemma pad_digits_app k n s t : pad_digits k n s +:+ t = pad_digits k n (s +:+ t).
Proof. revert n s. induction k as [|k IH]; intros n s; simpl; [done|]. by rewrite IH. Qed.

Lemma pad_digits_length k n s : String.length (pad_digits k n s) = (k + String.length s)%nat.
Proof. revert n s. induction k as [|k IH]; intros n s; simpl; [done|]. rewrite IH. simpl. lia. Qed.

Lemma date_ok_year d : date_ok d -> 1 <= year d <= 9999.
Proof.
  intros [H1 H2]. pose proof (year_mono 1 d H1). pose proof (year_mono d MAXORDINAL H2).
  assert (year 1 = 1) by done. assert (year MAXORDINAL = 9999) by done. lia.
Qed.

Lemma isoformat_parse d : date_ok d -> fromisoformat (isoformat d) = Ok d.
Proof.
  intros Hd. pose proof (date_ok_year d Hd) as Hy.
  pose proof (ymd_ok_of_date d) as Hok. destruct Hok as [Hm Hdd].
  pose proof (days_in_month_bounds (year d) (month d)) as Hdim.
  assert (isoformat d = pad_digits 4 (year d)
            (String "-" (pad_digits 2 (month d) (String "-" (pad_digits 2 (day d) ""))))) as ->.
  { unfold isoformat. rewrite !pad_digits_app. reflexivity. }
  unfold fromisoformat. change (String.length _) with 10%nat. cbn [Nat.eqb orb].
  unfold parse_isoformat_date. rewrite parse_pad_digits. cbn [mbind option_bind].
  rewrite (Z.mod_small (year d)) by lia. rewrite Z.mul_0_l, Z.add_0_l.
  cbn [starts_with bool_decide]. rewrite bool_decide_eq_true_2 by done.
  assert (starts_with "W" (pad_digits 2 (month d) (String "-" (pad_digits 2 (day d) ""))) = None) as ->.
  { simpl. rewrite bool_decide_eq_false_2; [done|]. intros Ew.
    pose proof (digit_digit_char (month d / 10)) as Hx. rewrite <-Ew in Hx. discriminate. }
  rewrite parse_pad_digits. cbn [mbind option_bind skip_sep starts_with].
  rewrite bool_decide_eq_true_2 by done. cbn [mbind option_bind].
  rewrite parse_pad_digits. cbn [mbind option_bind].
  rewrite !Z.mul_0_l, !Z.add_0_l. rewrite !Z.mod_small by (simpl; lia).
  rewrite (proj2 (date_new_Ok _ _ _ d)); [done|].
  split_and!; [lia | lia | apply ymd_ok_of_date | by rewrite ymd_of_date].
Qed.

(** A date written by [isoformat] is read back by [fromisoformat]. *)
Theorem isoformat_roundtrip d : date_ok d -> fromisoformat (isoformat d) = Ok d.
Proof. apply isoformat_parse. Qed.

Lemma isoformat_roundtrip_witness : fromisoformat (isoformat (ymd2ord 2026 2 28)) = Ok (ymd2ord 2026 2 28).
Proof. apply isoformat_roundtrip. split; vm_compute; discriminate. Defined.

Lemma isoformat_inj d d' : date_ok d -> date_ok d' -> isoformat d = isoformat d' -> d = d'.
Proof.
  intros Hd Hd' E. apply isoformat_parse in Hd, Hd'. rewrite E in Hd. congruence.
Qed.

Lemma digit_char_not_bar n : bool_decide ("|"%char = digit_char n) = false.
Proof.
  apply bool_decide_eq_false_2. intros E. pose proof (digit_digit_char n) as Hd.
  rewrite <-E in Hd. discriminate.
Qed.

Lemma pad_digits_no_bar k n s : has_char "|" (pad_digits k n s) = has_char "|" s.
Proof.
  revert n s. induction k as [|k IH]; intros n s; simpl; [done|].
  rewrite IH. simpl. by rewrite digit_char_not_bar.
Qed.

Lemma isoformat_no_bar d : has_char "|" (isoformat d) = false.
Proof.
  assert (isoformat d = pad_digits 4 (year d)
            (String "-" (pad_digits 2 (month d) (String "-" (pad_digits 2 (day d) ""))))) as ->.
  { unfold isoformat. rewrite !pad_digits_app. reflexivity. }
  rewrite pad_digits_no_bar. cbn [has_char]. rewrite pad_digits_no_bar. cbn [has_char].
  by rewrite pad_digits_no_bar.
Qed.
