(* ===== verification/PyFloat.v ===== *)
(** * Binary64, as the interpreter computes with it

    Python's [float] arithmetic on the Standard Library's [spec_float], and the
    conversions the code applies to it. *)
From Stdlib Require Export SpecFloat.
From S2P Require Import Prelude.
Open Scope Z_scope.

Definition f64_of_Z (n : Z) : spec_float := binary_normalize 53 1024 n 0 false.
Definition f64_mul : spec_float -> spec_float -> spec_float := SFmul 53 1024.
Definition f64_div : spec_float -> spec_float -> spec_float := SFdiv 53 1024.

(** [round(x)] of a finite float: to the nearest integer, ties to even. *)
Definition py_round (x : spec_float) : Z :=
  match x with
  | S754_finite s m e =>
      let r := if 0 <=? e then Z.pos m * 2 ^ e
               else let d := 2 ^ (- e) in
                    let q := Z.pos m / d in let rem := 2 * (Z.pos m mod d) in
                    if rem <? d then q else if d <? rem then q + 1
                    else if Z.even q then q else q + 1 in
      if s then - r else r
  | _ => 0
  end.

(** [int(x)] of a finite float: toward zero. *)
Definition py_trunc (x : spec_float) : Z :=
  match x with
  | S754_finite s m e =>
      let r := if 0 <=? e then Z.pos m * 2 ^ e else Z.pos m / 2 ^ (- e) in
      if s then - r else r
  | _ => 0
  end.

(** The literal [0.8]. *)
Definition f64_0_8 : spec_float := S754_finite false 7205759403792794 (-53).
