(* ===== verification/PyUrl.v ===== *)
(** * [uuid.UUID(text)] and [urllib.parse.urlparse] (CPython 3.12)

    Two parsers of the standard library on ASCII text.  A UUID is kept as its canonical
    text, 36 characters with lower-case digits; of a URL the parts the checks read:
    scheme, host name and the text [geturl] rebuilds.  The check of a bracketed address
    is [ipaddress]'s and a parameter. *)
From Stdlib Require Import Ascii.
From S2P Require Import Prelude PyJson.

(** ** Identifiers *)

Open Scope N_scope.

(** [s.replace(pat, "")] for a pattern that is not empty. *)
Fixpoint remove_all (pat : string) (skip : nat) (s : string) : string :=
  match s with
  | "" => ""
  | String c s' =>
      match skip with
      | S k => remove_all pat k s'
      | O => if String.prefix pat s then remove_all pat (pred (String.length pat)) s' else String c (remove_all pat 0 s')
      end
  end.

(** [s.lstrip(chars)] for the characters that satisfy [p], and [s.strip]. *)
Fixpoint drop_chars (p : ascii -> bool) (s : string) : string :=
  match s with String c s' => if p c then drop_chars p s' else s | "" => "" end.

Definition strip_chars (p : ascii -> bool) (s : string) : string :=
  String.rev (drop_chars p (String.rev (drop_chars p s))).

Definition hex_val (c : ascii) : option N :=
  let n := N_of_ascii c in
  if (48 <=? n) && (n <=? 57) then Some (n - 48)
  else if (97 <=? n) && (n <=? 102) then Some (n - 87)
  else if (65 <=? n) && (n <=? 70) then Some (n - 55)
  else None.

(** Digits with single underscores between them; [after]: the last character was a digit. *)
Fixpoint hex_digits (after : bool) (acc : N) (s : string) : option N :=
  match s with
  | "" => if after then Some acc else None
  | String c s' =>
      match hex_val c with
      | Some d => hex_digits true (16 * acc + d) s'
      | None => if bool_decide (c = "_"%char) && after then hex_digits false acc s' else None
      end
  end.

Definition skip_prefix (s : string) : string :=
  match s with
  | String "0" (String x s') =>
      if bool_decide (x = "x"%char) || bool_decide (x = "X"%char)
      then match s' with String "_" s'' => s'' | _ => s' end else s
  | _ => s
  end.

(** [int(s, 16)], when it is not negative; -0 is 0. *)
Definition int16 (s : string) : option N :=
  match strip s with
  | String "+" s' => hex_digits false 0 (skip_prefix s')
  | String "-" s' => match hex_digits false 0 (skip_prefix s') with Some 0 => Some 0 | _ => None end
  | s' => hex_digits false 0 (skip_prefix s')
  end.

Definition hex_char (n : N) : ascii := ascii_of_N (if n <? 10 then 48 + n else 87 + n).

(** The last [k] hexadecimal digits, then [rest]. *)
Fixpoint hex_text (k : nat) (n : N) (rest : string) : string :=
  match k with O => rest | S k => hex_text k (n / 16) (String (hex_char (n mod 16)) rest) end.

Definition uuid_text (n : N) : string :=
  hex_text 8 (n / 2 ^ 96) ("-" +:+ hex_text 4 (n / 2 ^ 80) ("-" +:+ hex_text 4 (n / 2 ^ 64)
    ("-" +:+ hex_text 4 (n / 2 ^ 48) ("-" +:+ hex_text 12 n "")))).

Definition parse_uuid (s : string) : option string :=
  let h := remove_all "-" 0 (strip_chars (fun c => bool_decide (c = "{"%char) || bool_decide (c = "}"%char))
             (remove_all "uuid:" 0 (remove_all "urn:" 0 s))) in
  if (String.length h =? 32)%nat then uuid_text <$> int16 h else None.

Definition is_uuid (s : string) : Prop := parse_uuid s = Some s.

Example parse_samples :
  parse_uuid "{urn:uuid:12345678-1234-5678-1234-56781234ABCD}" = Some "12345678-1234-5678-1234-56781234abcd" /\
  parse_uuid "+0x_45678123456781234567812345abc" = None /\
  parse_uuid "+0x_45678123456781234567812_34_a" = Some "00000045-6781-2345-6781-23456781234a" /\
  is_uuid "12345678-1234-5678-1234-56781234abcd".
Proof. vm_compute. done. Qed.

(** ** Addresses *)

Open Scope Z_scope.

(** [s.partition(c)]: the text before the first [c] and after it, when there is one. *)
Fixpoint partition (p : ascii -> bool) (s : string) : option (string * string) :=
  match s with
  | "" => None
  | String c s => if p c then Some ("", s) else prod_map (String c) id <$> partition p s
  end.
Definition is_char (c x : ascii) : bool := bool_decide (x = c).

Definition before (c : ascii) (s : string) : string := match partition (is_char c) s with Some (a, _) => a | None => s end.
Definition after (c : ascii) (s : string) : string := match partition (is_char c) s with Some (_, b) => b | None => "" end.

(** [s.rpartition(c)[2]]. *)
Fixpoint after_last_char (c : ascii) (s : string) : string :=
  match partition (is_char c) s with
  | None => s
  | Some _ => match s with String _ t => after_last_char c t | "" => "" end
  end.

(** The text from the first character that satisfies [p] on, and before it. *)
Fixpoint split_at_first (p : ascii -> bool) (s : string) : string * string :=
  match s with
  | "" => ("", "")
  | String c t => if p c then ("", s) else prod_map (String c) id (split_at_first p t)
  end.

Record Url := { scheme : string; netloc : string; path : string; query : string; fragment : string }.

(** C0 control characters and space; tab and newlines, which are removed anywhere. *)
Definition c0_or_space (c : ascii) : bool := (N_of_ascii c <=? 32)%N.
Definition unsafe_byte (c : ascii) : bool := let n := N_of_ascii c in ((n =? 9) || (n =? 10) || (n =? 13))%N.
Fixpoint without (p : ascii -> bool) (s : string) : string :=
  match s with "" => "" | String c s => if p c then without p s else String c (without p s) end.

Definition is_alpha (c : ascii) : bool :=
  let n := N_of_ascii c in ((65 <=? n) && (n <=? 90) || (97 <=? n) && (n <=? 122))%N.
Definition scheme_char (c : ascii) : bool :=
  let n := N_of_ascii c in
  (is_alpha c || (48 <=? n) && (n <=? 57) || (n =? 43) || (n =? 45) || (n =? 46))%N.
Fixpoint all_of (p : ascii -> bool) (s : string) : bool := match s with "" => true | String c s => p c && all_of p s end.

Definition split_scheme (s : string) : string * string :=
  match partition (is_char ":") s with
  | Some (String c t, rest) => if is_alpha c && all_of scheme_char (String c t) then (str_lower (String c t), rest) else ("", s)
  | _ => ("", s)
  end.

(** [urlparse] splits parameters off the last segment of the path of these schemes. *)
Definition uses_params : list string :=
  [""; "ftp"; "hdl"; "prospero"; "http"; "https"; "shttp"; "rtsp"; "rtsps"; "sip"; "sips"; "mms"; "sftp"; "tel"].

(** What [geturl] makes of a path: parameters that are empty lose their semicolon. *)
Definition without_empty_params (s : string) : string :=
  match partition (is_char ";") (after_last_char "/" s) with
  | Some (_, "") => String.substring 0 (pred (String.length s)) s
  | _ => s
  end.

Definition netloc_end (c : ascii) : bool := is_char "/" c || is_char "?" c || is_char "#" c.

Section Parse.
Context (bracketed_ok : string -> bool).

Definition split_netloc (s : string) : result exn (string * string) :=
  match s with
  | String "/" (String "/" rest) =>
      let '(n, s) := split_at_first netloc_end rest in
      _ ← raise_unless (Bool.eqb (has_char "[" n) (has_char "]" n)) ValueError;
      _ ← raise_unless (negb (has_char "[" n) || bracketed_ok n) ValueError;
      Ok (n, s)
  | _ => Ok ("", s)
  end.

Definition urlparse (url : string) : result exn Url :=
  let s := without unsafe_byte (drop_chars c0_or_space url) in
  let '(sc, s) := split_scheme s in
  '(n, s) ← split_netloc s;
  let f := after "#" s in
  let s := before "#" s in
  let q := after "?" s in
  let p := before "?" s in
  Ok {| scheme := sc; netloc := n; path := if bool_decide (sc ∈ uses_params) then without_empty_params p else p;
        query := q; fragment := f |}.
End Parse.

(** [parsed.hostname]; the zone of an address keeps its case. *)
Definition hostname (u : Url) : option string :=
  let info := after_last_char "@" (netloc u) in
  let h := match partition (is_char "[") info with
           | Some (_, bracketed) => before "]" bracketed
           | None => before ":" info
           end in
  if bool_decide (h = "") then None
  else Some (match partition (is_char "%") h with
             | Some (a, zone) => str_lower a +:+ "%" +:+ zone
             | None => str_lower h
             end).

(** [parsed.geturl()] of a URL that has a host. *)
Definition geturl (u : Url) : string :=
  let p := match path u with "" => "" | String "/" _ => path u | _ => "/" +:+ path u end in
  let s := "//" +:+ netloc u +:+ p in
  let s := if bool_decide (scheme u = "") then s else scheme u +:+ ":" +:+ s in
  let s := if bool_decide (query u = "") then s else s +:+ "?" +:+ query u in
  if bool_decide (fragment u = "") then s else s +:+ "#" +:+ fragment u.

(** [s.rstrip(c)]. *)
Definition rstrip_char (c : ascii) (s : string) : string := String.rev (drop_chars (is_char c) (String.rev s)).

Example urlparse_host :
  (fun u => (scheme u, hostname u, geturl u)) <$> urlparse (fun _ => true) " HTTPS://User:pw@Portal.Example.GOV.:8443/a;/b;?x=1#" =
  Ok ("https", Some "portal.example.gov.", "https://User:pw@Portal.Example.GOV.:8443/a;/b?x=1").
Proof. vm_compute. reflexivity. Qed.

(** The host is what follows the last [@], not what looks like it. *)
Example urlparse_userinfo :
  hostname <$> urlparse (fun _ => true) "https://portal.example.gov@evil.example/login" = Ok (Some "evil.example").
Proof. vm_compute. reflexivity. Qed.
