(* ===== verification/Regex.v ===== *)
(** * Regular expressions as the code uses them

    The part of [re] the program's own patterns need: character classes, sequence,
    choice, repetition, the anchors and the word boundary.  A pattern is the relation
    between the places before and after it; [run] enumerates that relation in the order
    a backtracking matcher finds its members, so that the first is the one [re.sub]
    replaces. *)
From Stdlib Require Import Ascii.
From S2P Require Import Prelude PyJson.

(** A place in a text: the character before it and what follows. *)
Definition place : Type := option ascii * string.

Inductive re : Type :=
| Eps
| Cls (p : ascii -> bool)
| Seq (a b : re)
| Alt (a b : re)
| Star (a : re)
| Bol
| Eol
| WordB
| NotAfterWord
| NotBeforeWord.

Definition is_word (c : ascii) : bool :=
  let n := N_of_ascii c in
  ((48 <=? n) && (n <=? 57) || (65 <=? n) && (n <=? 90) || (97 <=? n) && (n <=? 122) || (n =? 95))%N.

Definition word_before (s : place) : bool := match s.1 with Some c => is_word c | None => false end.
Definition word_after (s : place) : bool := match s.2 with String c _ => is_word c | "" => false end.

(** [$] also matches before one final newline. *)
Definition at_end (s : place) : bool :=
  match s.2 with
  | "" => true
  | String c "" => (N_of_ascii c =? 10)%N
  | _ => false
  end.

Definition at_anchor (r : re) (s : place) : bool :=
  match r with
  | Eps => true
  | Bol => negb (truthy_opt s.1)
  | Eol => at_end s
  | WordB => xorb (word_before s) (word_after s)
  | NotAfterWord => negb (word_before s)
  | NotBeforeWord => negb (word_after s)
  | _ => false
  end.

(** ** What a pattern means *)

Inductive Match : re -> place -> place -> Prop :=
| M_anchor r s : at_anchor r s = true -> Match r s s
| M_cls p b c t : p c = true -> Match (Cls p) (b, String c t) (Some c, t)
| M_seq a b s t u : Match a s t -> Match b t u -> Match (Seq a b) s u
| M_left a b s t : Match a s t -> Match (Alt a b) s t
| M_right a b s t : Match b s t -> Match (Alt a b) s t
| M_done a s : Match (Star a) s s
| M_more a s t u : Match a s t -> Match (Star a) t u -> Match (Star a) s u.

(** ** The matcher *)

Definition left_of (s : place) : nat := String.length s.2.

(** Iterate, each round consuming something; the longest iterations come first. *)
Fixpoint rounds (step : place -> list place) (n : nat) (s : place) : list place :=
  match n with
  | O => []
  | S n => filter (fun t => (left_of t < left_of s)%nat) (step s) ≫= rounds step n
  end ++ [s].

Fixpoint run (r : re) (s : place) : list place :=
  match r with
  | Cls p => match s.2 with String c t => if p c then [(Some c, t)] else [] | "" => [] end
  | Seq a b => run a s ≫= run b
  | Alt a b => run a s ++ run b s
  | Star a => rounds (run a) (left_of s) s
  | _ => if at_anchor r s then [s] else []
  end.

Fixpoint search_from (r : re) (before : option ascii) (text : string) : bool :=
  negb (bool_decide (run r (before, text) = [])) ||
  match text with "" => false | String c t => search_from r (Some c) t end.

(** [bool(re.search(r, text))] and [bool(re.fullmatch(r, text))]. *)
Definition search (r : re) (text : string) : bool := search_from r None text.
Definition fullmatch (r : re) (text : string) : bool :=
  existsb (fun s => bool_decide (s.2 = "")) (run r (None, text)).

(** [r.sub(repl, text)] for a pattern that never matches the empty text; [fuel] is more
    than the characters left. *)
Fixpoint sub_from (fuel : nat) (r : re) (repl : string) (before : option ascii) (text : string) : string :=
  match fuel with
  | O => text
  | S fuel =>
      match head (run r (before, text)) with
      | Some (b, rest) => repl +:+ sub_from fuel r repl b rest
      | None => match text with
                | "" => ""
                | String c t => String c (sub_from fuel r repl (Some c) t)
                end
      end
  end.
Definition re_sub (r : re) (repl text : string) : string := sub_from (S (String.length text)) r repl None text.

(** ** The matcher computes the meaning *)

Lemma Match_left r s t : Match r s t -> (left_of t <= left_of s)%nat.
Proof. induction 1; unfold left_of in *; simpl; lia. Qed.

Lemma rounds_sound step a n s t :
  (forall s t, t ∈ step s -> Match a s t) -> t ∈ rounds step n s -> Match (Star a) s t.
Proof.
  intros Hs. revert s. induction n as [|n IH]; intros s; simpl; rewrite ?elem_of_app, list_elem_of_singleton.
  - intros ->. apply M_done.
  - intros [Ht | ->]; [|apply M_done].
    apply list_elem_of_bind in Ht as (u & Hu & [_ Hsu]%list_elem_of_filter). eapply M_more; eauto.
Qed.

(** Rounds that consume nothing can be left out. *)
Lemma Star_step a s t :
  Match (Star a) s t -> s = t \/ exists u, Match a s u /\ (left_of u < left_of s)%nat /\ Match (Star a) u t.
Proof.
  remember (Star a) as r eqn:Er. induction 1 as [r s Ha| | | | | |a' s u t Hsu _ Hut IH]; try discriminate.
  - subst r. discriminate.
  - by left.
  - injection Er as ->. destruct (decide (left_of u < left_of s)%nat) as [?|Hn]; [right; eauto|].
    assert (u = s) as ->; [|by apply IH].
    assert (forall r s t, Match r s t -> left_of t = left_of s -> t = s) as Hsame.
    { clear. intros r s t Hm. induction Hm as [| |a b s t u H1 IH1 H2 IH2| | | |a s t u H1 IH1 H2 IH2];
        intros El; auto.
      - unfold left_of in El. simpl in El. lia.
      - apply Match_left in H1 as L1. apply Match_left in H2 as L2.
        rewrite IH2 by lia. apply IH1. lia.
      - apply Match_left in H1 as L1. apply Match_left in H2 as L2.
        rewrite IH2 by lia. apply IH1. lia. }
    apply (Hsame a); [done|]. apply Match_left in Hsu. lia.
Qed.

Lemma rounds_complete step a n s t :
  (forall s t, Match a s t -> t ∈ step s) -> (left_of s <= n)%nat -> Match (Star a) s t -> t ∈ rounds step n s.
Proof.
  intros Hs. revert s. induction n as [|n IH]; intros s Hn Hm; simpl; rewrite ?elem_of_app, list_elem_of_singleton;
    apply Star_step in Hm as [-> | (u & Hu & Hlt & Hm)]; auto.
  - lia.
  - left. apply list_elem_of_bind. exists u. split; [apply IH; [lia | done]|].
    apply list_elem_of_filter. auto.
Qed.

Lemma run_spec r s t : t ∈ run r s <-> Match r s t.
Proof.
  assert (forall r s t, (forall r', Match r' s t -> r' = r -> at_anchor r s = true /\ t = s) ->
    t ∈ (if at_anchor r s then [s] else []) <-> Match r s t) as Hanchor.
  { clear. intros r s t Hr. destruct (at_anchor r s) eqn:E.
    - rewrite list_elem_of_singleton. split; [intros ->; by constructor | intros Hm; by apply (Hr r)].
    - rewrite elem_of_nil. split; [done | intros Hm; by destruct (Hr r Hm eq_refl)]. }
  revert s t. induction r as [|p|a IHa b IHb|a IHa b IHb|a IHa| | | | |]; intros s t;
    try (apply Hanchor; clear; intros r Hm; destruct Hm; try discriminate; by intros ->).
  - destruct s as [b [|c u]]; simpl.
    + split; [intros H; by apply not_elem_of_nil in H | inversion 1; subst; discriminate].
    + destruct (p c) eqn:E.
      * rewrite list_elem_of_singleton. split; [by intros ->; apply M_cls | inversion 1; subst; done].
      * split; [intros H; by apply not_elem_of_nil in H | inversion 1; subst; [discriminate | congruence]].
  - simpl. rewrite list_elem_of_bind. split.
    + intros (u & Hu%IHb & Hs%IHa). by eapply M_seq.
    + inversion 1 as [? ? Ha| |? ? ? u ? H1 H2| | | |]; subst; [discriminate|]. exists u. by rewrite IHa, IHb.
  - simpl. rewrite elem_of_app, IHa, IHb. split; [intros [?|?]; [by apply M_left | by apply M_right]|].
    inversion 1 as [? ? Ha| | | | | |]; subst; [discriminate | auto..].
  - simpl. split.
    + apply rounds_sound. by intros ? ? ?%IHa.
    + apply rounds_complete; [by intros ? ? ?%IHa | done].
Qed.

Lemma nonempty_elem {A} (l : list A) : l <> [] -> exists x, x ∈ l.
Proof. destruct l as [|x l]; [done|]. exists x. left. Qed.

(** The places of a text. *)
Fixpoint places (before : option ascii) (text : string) : list place :=
  (before, text) :: match text with "" => [] | String c t => places (Some c) t end.

Lemma search_spec r text : search r text = true <-> exists s t, s ∈ places None text /\ Match r s t.
Proof.
  unfold search. generalize (@None ascii). induction text as [|c text IH]; intros b; simpl;
    rewrite orb_true_iff, negb_true_iff, bool_decide_eq_false.
  - split.
    + intros [Hr | Hf]; [|done]. apply nonempty_elem in Hr as [t Ht]. 
      exists (b, ""), t. split; [left | by apply run_spec].
    + intros (s & t & ->%list_elem_of_singleton & Hm%run_spec). left. intros E. rewrite E in Hm.
      by apply not_elem_of_nil in Hm.
  - rewrite IH. split.
    + intros [Hr | (s & t & Hs & Hm)].
      * apply nonempty_elem in Hr as [t Ht]. exists (b, String c text), t. split; [left | by apply run_spec].
      * exists s, t. split; [by right | done].
    + intros (s & t & [-> | Hs]%elem_of_cons & Hm).
      * left. apply run_spec in Hm. intros E. rewrite E in Hm. by apply not_elem_of_nil in Hm.
      * right. eauto.
Qed.

Lemma fullmatch_spec r text : fullmatch r text = true <-> exists b, Match r (None, text) (b, "").
Proof.
  unfold fullmatch. rewrite existsb_exists. setoid_rewrite <-list_elem_of_In. setoid_rewrite run_spec. split.
  - intros ([b t] & Hm & E%bool_decide_eq_true). simpl in E. subst. eauto.
  - intros [b Hm]. exists (b, ""). split; [done|]. by rewrite bool_decide_eq_true.
Qed.

(** ** Abbreviations *)

Definition ch (c : ascii) : re := Cls (fun x => bool_decide (x = c)).
(** Under [re.IGNORECASE]. *)
Definition chi (c : ascii) : re := Cls (fun x => bool_decide (lower_char x = lower_char c)).
Fixpoint lit (s : string) : re := match s with "" => Eps | String c s => Seq (ch c) (lit s) end.
Fixpoint liti (s : string) : re := match s with "" => Eps | String c s => Seq (chi c) (liti s) end.
Definition Plus (a : re) : re := Seq a (Star a).
Definition Opt (a : re) : re := Alt a Eps.
Definition any_char : re := Cls (fun _ => true).
(** [.] without [re.DOTALL]. *)
Definition dot : re := Cls (fun c => negb (N_of_ascii c =? 10)%N).
Definition space : re := Cls is_space.
Fixpoint alts (l : list re) : re :=
  match l with [] => Cls (fun _ => false) | [a] => a | a :: l => Alt a (alts l) end.
Fixpoint seqs (l : list re) : re := match l with [] => Eps | [a] => a | a :: l => Seq a (seqs l) end.

(** Exactly and at most [n] times. *)
Fixpoint times (n : nat) (a : re) : re := match n with O => Eps | S n => Seq a (times n a) end.
Fixpoint upto (n : nat) (a : re) : re := match n with O => Eps | S n => Opt (Seq a (upto n a)) end.

(** ** Runs of a class *)

Fixpoint str_all (p : ascii -> bool) (s : string) : bool :=
  match s with "" => true | String c s => p c && str_all p s end.

Lemma Match_seq_inv a b s u : Match (Seq a b) s u -> exists t, Match a s t /\ Match b t u.
Proof. inversion 1; subst; [discriminate | eauto]. Qed.

Lemma Match_cls_inv p s t : Match (Cls p) s t -> exists c, p c = true /\ s.2 = String c t.2.
Proof. inversion 1; subst; [discriminate | eauto]. Qed.

Lemma Match_star_cls_inv p s t :
  Match (Star (Cls p)) s t -> exists u, str_all p u = true /\ s.2 = u +:+ t.2.
Proof.
  remember (Star (Cls p)) as r eqn:Er. induction 1 as [r s Ha| | | | | |a s u t H1 _ H2 IH]; try discriminate.
  - subst r. discriminate.
  - by exists "".
  - injection Er as ->. destruct (IH eq_refl) as (v & Hv & Ev).
    apply Match_cls_inv in H1 as (c & Hc & Ec). exists (String c v). rewrite Ec, Ev. simpl. by rewrite Hc.
Qed.

Lemma Match_plus_cls_inv p s t :
  Match (Plus (Cls p)) s t -> exists u, u <> "" /\ str_all p u = true /\ s.2 = u +:+ t.2.
Proof.
  intros (v & (c & Hc & Ec)%Match_cls_inv & (u & Hu & Eu)%Match_star_cls_inv)%Match_seq_inv.
  exists (String c u). rewrite Ec, Eu. simpl. by rewrite Hc.
Qed.

Lemma Match_star_cls p b u t : str_all p u = true -> exists b', Match (Star (Cls p)) (b, u +:+ t) (b', t).
Proof.
  revert b. induction u as [|c u IH]; intros b Hu; [exists b; apply M_done|].
  apply andb_true_iff in Hu as [Hc Hu]. destruct (IH (Some c) Hu) as [b' Hm]. exists b'.
  eapply M_more; [by apply M_cls | exact Hm].
Qed.

Lemma Match_plus_cls p b u t :
  u <> "" -> str_all p u = true -> exists b', Match (Plus (Cls p)) (b, u +:+ t) (b', t).
Proof.
  destruct u as [|c u]; [done|]. intros _ [Hc Hu]%andb_true_iff.
  destruct (Match_star_cls p (Some c) u t Hu) as [b' Hm]. exists b'. eapply M_seq; [by apply M_cls | exact Hm].
Qed.

Lemma Match_Bol_inv s t : Match Bol s t -> t = s.
Proof. by inversion 1. Qed.

Lemma Match_Eol_inv s t : Match Eol s t -> at_end s = true /\ t = s.
Proof. by inversion 1. Qed.

Lemma Match_Bol_start s t : Match Bol s t -> t = s /\ s.1 = None.
Proof. inversion 1 as [r s' Ha| | | | | |]; subst. destruct t as [[c|] text]; done. Qed.

Lemma bol_place text s : s.1 = None -> s ∈ places None text -> s = (None, text).
Proof.
  assert (forall b, s ∈ places b text -> s = (b, text) \/ is_Some s.1) as H.
  { induction text as [|c text IH]; intros b; cbn.
    - intros ->%list_elem_of_singleton. by left.
    - intros [->|Hs]%elem_of_cons; [by left|]. right. destruct (IH _ Hs) as [->|?]; [by exists c | done]. }
  intros Hn [?|Hs]%H; [done|]. rewrite Hn in Hs. by destruct Hs.
Qed.

Lemma Match_upto_cls_inv p n s t : Match (upto n (Cls p)) s t -> exists u, str_all p u = true /\ s.2 = u +:+ t.2.
Proof.
  revert s. induction n as [|n IH]; cbn; intros s Hm.
  - inversion Hm; subst. by exists "".
  - inversion Hm as [r s0 Ha| | |a b s0 t0 Hl|a b s0 t0 Hr| |]; subst; [done| |].
    + apply Match_seq_inv in Hl as (v & (c & Hc & Ec)%Match_cls_inv & (u & Hu & Eu)%IH).
      exists (String c u). cbn. rewrite Hc, Ec, Eu. done.
    + inversion Hr; subst. by exists "".
Qed.
