(* ===== verification/Scoping.v ===== *)
(** * Scoped, dated, prioritised rules

    What the deadline rules ([app/deadlines/rules.py]) and the requirement rules
    ([app/requirements/rules.py]) share: an optional jurisdiction and licence
    type, an effective window, and the sort key
    [(-specificity, priority, rule_key)].  [ScopedRule] is the interface through
    which both components use the ordering; the laws are proved once here. *)
From S2P Require Import Prelude PyDate.
Open Scope Z_scope.

(** A UUID is its canonical text. *)
Abbreviation uuid := string (only parsing).

(** [is_effective_on]: bounds inclusive, a missing bound is open. *)
Definition effective_on (from to : option date) (when : date) : bool :=
  match from with Some f => negb (when <? f) | None => true end &&
  negb (match to with Some t => t <? when | None => false end).

(** [(1 if a else 0) + (1 if b else 0)] on optional ids. *)
Definition scope_count (a b : option uuid) : Z :=
  (if truthy_opt a then 1 else 0) + (if truthy_opt b then 1 else 0).

(** [scope is None or scope == wanted]. *)
Definition in_scope (scope wanted : option uuid) : bool :=
  match scope with None => true | Some _ => bool_decide (scope = wanted) end.

(** Tuple order of [(-specificity, priority, rule_key)]. *)
Definition precedence_leb (s1 p1 s2 p2 : Z) (k1 k2 : string) : bool :=
  (s2 <? s1) || ((s1 =? s2) && ((p1 <? p2) || ((p1 =? p2) && str_leb k1 k2))).

Lemma precedence_total s1 p1 k1 s2 p2 k2 :
  precedence_leb s1 p1 s2 p2 k1 k2 = true \/ precedence_leb s2 p2 s1 p1 k2 k1 = true.
Proof. unfold precedence_leb. destruct (str_leb_total k1 k2) as [E|E]; rewrite E; lia. Qed.

Lemma precedence_trans s1 p1 k1 s2 p2 k2 s3 p3 k3 :
  precedence_leb s1 p1 s2 p2 k1 k2 = true -> precedence_leb s2 p2 s3 p3 k2 k3 = true ->
  precedence_leb s1 p1 s3 p3 k1 k3 = true.
Proof.
  unfold precedence_leb. pose proof (str_leb_trans k1 k2 k3).
  destruct (str_leb k1 k2), (str_leb k2 k3), (str_leb k1 k3); simpl in *;
    try (specialize (H eq_refl eq_refl); discriminate); lia.
Qed.

Class ScopedRule (R : Type) := {
  sr_jurisdiction : R -> option uuid;
  sr_license_type : R -> option uuid;
  sr_from : R -> option date;
  sr_to : R -> option date;
  sr_priority : R -> Z;
  sr_key : R -> string
}.

Section ScopedRule.
Context `{ScopedRule R}.

Definition sr_specificity (r : R) : Z := scope_count (sr_jurisdiction r) (sr_license_type r).

Definition sr_effective (r : R) (when : date) : bool := effective_on (sr_from r) (sr_to r) when.

Definition sr_applies (when : date) (jid ltid : option uuid) (r : R) : bool :=
  sr_effective r when && in_scope (sr_jurisdiction r) jid && in_scope (sr_license_type r) ltid.

Definition sr_leb (a b : R) : bool :=
  precedence_leb (sr_specificity a) (sr_priority a) (sr_specificity b) (sr_priority b)
    (sr_key a) (sr_key b).

Lemma sr_leb_total a b : sr_leb a b = true \/ sr_leb b a = true.
Proof. apply precedence_total. Qed.

Lemma sr_leb_trans a b c : sr_leb a b = true -> sr_leb b c = true -> sr_leb a c = true.
Proof. apply precedence_trans. Qed.

(** Nothing in the list outranks a rule that compares below all of it. *)
Definition outranks (a b : R) : Prop :=
  sr_specificity b < sr_specificity a \/
  (sr_specificity a = sr_specificity b /\ sr_priority a < sr_priority b).

Lemma sr_leb_not_outranked a b : sr_leb a b = true -> ~ outranks b a.
Proof. unfold sr_leb, precedence_leb, outranks. destruct (str_leb _ _); lia. Qed.

Lemma sr_sorted_sorted l : StronglySorted (fun a b => sr_leb a b = true) (py_sorted sr_leb l).
Proof. apply py_sorted_sorted; [apply sr_leb_total | apply sr_leb_trans]. Qed.

Lemma sr_sorted_head l r :
  head (py_sorted sr_leb l) = Some r -> r ∈ l /\ forall q, q ∈ l -> ~ outranks q r.
Proof.
  intros Hh. split.
  - rewrite <-(elem_of_py_sorted sr_leb). destruct (py_sorted _ l); simplify_eq/=. left.
  - intros q Hq. apply sr_leb_not_outranked.
    eapply py_sorted_head_le; eauto using sr_leb_total, sr_leb_trans.
Qed.

Lemma in_scope_true scope wanted :
  in_scope scope wanted = true <-> scope = None \/ scope = wanted.
Proof.
  unfold in_scope. destruct scope; [rewrite bool_decide_eq_true|]; intuition congruence.
Qed.

Lemma effective_on_true from to when :
  effective_on from to when = true <->
  (forall f, from = Some f -> f <= when) /\ (forall t, to = Some t -> when <= t).
Proof.
  unfold effective_on. rewrite andb_true_iff, negb_true_iff.
  destruct from, to; rewrite ?negb_true_iff, ?Z.ltb_ge;
    split; intros [H1 H2]; split; intros; simplify_eq; eauto.
Qed.
End ScopedRule.

#[export] Hint Resolve sr_leb_total sr_leb_trans : astra.

(** [d[k] = v] on a dict with distinct keys: the position of an existing key is
    kept, a new key goes last. *)
Fixpoint dset {A} (k : string) (v : A) (d : list (string * A)) : list (string * A) :=
  match d with
  | [] => [(k, v)]
  | (k', w) :: d => if bool_decide (k = k') then (k, v) :: d else (k', w) :: dset k v d
  end.

Lemma dset_in {A} k (v : A) d p w : (p, w) ∈ dset k v d -> (p, w) = (k, v) \/ (p, w) ∈ d.
Proof.
  induction d as [|[k' w'] d IH]; simpl; [intros ->%list_elem_of_singleton; by left|].
  case_bool_decide; rewrite !elem_of_cons; intros [?|Hin]; auto. destruct (IH Hin); auto.
Qed.

Lemma dset_keys {A} k (v : A) d p : p ∈ (dset k v d).*1 <-> p = k \/ p ∈ d.*1.
Proof.
  induction d as [|[k' w'] d IH]; simpl; [by rewrite list_elem_of_singleton, elem_of_nil; tauto|].
  case_bool_decide; simpl; rewrite !elem_of_cons; [subst|rewrite IH]; tauto.
Qed.

