(* ===== verification/BusinessDays.v ===== *)
(** * Business days and holidays ([app/deadlines/business_days.py])

    The federal calendar computed per year, the [BusinessCalendar] queries, and
    the adjustment policies. *)
From S2P Require Import Prelude Vocabulary PyDate.
Open Scope Z_scope.

(** ** Data *)

Definition WEEKEND : list Z := [5; 6].

(** ** The federal calendar *)

(** The constructors below never leave the representable range for a year the
    interpreter accepts ([federal_holidays_ok]). *)
Definition _nth_weekday (y m wd n : Z) : date :=
  let first := ymd2ord y m 1 in
  let offset := (wd - weekday first) mod 7 in
  first + (offset + 7 * (n - 1)).

Definition _last_weekday (y m wd : Z) : date :=
  let next_month := ymd2ord (y + (if m =? 12 then 1 else 0)) (m mod 12 + 1) 1 in
  let last := next_month - 1 in
  last - (weekday last - wd) mod 7.

Definition _observed (d : date) : date :=
  if weekday d =? 5 then d - 1
  else if weekday d =? 6 then d + 1 else d.

Definition us_federal_holidays (y : Z) : list date :=
  let fixed := [ymd2ord y 1 1; ymd2ord y 6 19; ymd2ord y 7 4; ymd2ord y 11 11; ymd2ord y 12 25] in
  let floating := [_nth_weekday y 1 0 3; _nth_weekday y 2 0 3; _last_weekday y 5 0;
                   _nth_weekday y 9 0 1; _nth_weekday y 10 0 2; _nth_weekday y 11 3 4] in
  (_observed <$> fixed) ++ floating.

(** ** [BusinessCalendar] *)

Record BusinessCalendar := {
  extra_holidays : list date;
  observe_federal : bool;
  weekend : list Z
}.

Definition DEFAULT_CALENDAR : BusinessCalendar :=
  {| extra_holidays := []; observe_federal := true; weekend := WEEKEND |}.

Definition mem (x : Z) (l : list Z) : bool := bool_decide (x ∈ l).

Definition is_holiday (c : BusinessCalendar) (d : date) : bool :=
  if mem d (extra_holidays c) then true
  else observe_federal c && mem d (us_federal_holidays (year d)).

Definition is_business_day (c : BusinessCalendar) (d : date) : bool :=
  negb (mem (weekday d) (weekend c)) && negb (is_holiday c d).

(** [for _ in range(n): if business: return candidate; candidate += step]. *)
Fixpoint scan_business (c : BusinessCalendar) (step : Z) (n : nat) (d : date) : result exn date :=
  match n with
  | O => Ok d
  | S n => if is_business_day c d then Ok d
           else d' ← date_add d step; scan_business c step n d'
  end.

Definition next_business_day (c : BusinessCalendar) (d : date) (inclusive : bool) : result exn date :=
  candidate ← (if inclusive then Ok d else date_add d 1);
  scan_business c 1 30 candidate.

Definition previous_business_day (c : BusinessCalendar) (d : date) (inclusive : bool) : result exn date :=
  candidate ← (if inclusive then Ok d else date_add d (-1));
  scan_business c (-1) 30 candidate.

(** The unbounded [while remaining] loop; [None] is out of fuel. *)
Fixpoint add_loop (c : BusinessCalendar) (step : Z) (fuel : nat) (remaining : nat) (d : date)
    : option (result exn date) :=
  match remaining with
  | O => Some (Ok d)
  | S r =>
      match fuel with
      | O => None
      | S fuel =>
          match date_add d step with
          | Err e => Some (Err e)
          | Ok d' => add_loop c step fuel (if is_business_day c d' then r else S r) d'
          end
      end
  end.

Definition add_business_days (c : BusinessCalendar) (fuel : nat) (d : date) (count : Z)
    : option (result exn date) :=
  if count =? 0 then Some (next_business_day c d true)
  else add_loop c (if 0 <? count then 1 else -1) fuel (Z.abs_nat count) d.

Definition apply_adjustment (c : BusinessCalendar) (d : date) (policy : string)
    : result exn (date * option string) :=
  if bool_decide (policy = value AdjustmentPolicy.NONE) || is_business_day c d then Ok (d, None)
  else if bool_decide (policy = value AdjustmentPolicy.NEXT_BUSINESS_DAY) then
    d' ← next_business_day c d false; Ok (d', Some policy)
  else if bool_decide (policy = value AdjustmentPolicy.PREVIOUS_BUSINESS_DAY) then
    d' ← previous_business_day c d false; Ok (d', Some policy)
  else if bool_decide (policy = value AdjustmentPolicy.JURISDICTION_SPECIFIC) then Ok (d, Some policy)
  else if bool_decide (policy = value AdjustmentPolicy.MANUAL_REVIEW) then Ok (d, Some policy)
  else Ok (d, None).

(** ** Weekday arithmetic *)

Lemma weekday_bounds d : 0 <= weekday d < 7.
Proof. unfold weekday. apply Z.mod_pos_bound. lia. Qed.

Lemma weekday_add d k : weekday (d + k) = (weekday d + k) mod 7.
Proof. unfold weekday. rewrite Zplus_mod_idemp_l. f_equal. lia. Qed.

Lemma nth_weekday_spec y m wd n :
  0 <= wd < 7 ->
  weekday (_nth_weekday y m wd n) = wd /\
  ymd2ord y m 1 + 7 * (n - 1) <= _nth_weekday y m wd n < ymd2ord y m 1 + 7 * n.
Proof. unfold _nth_weekday, weekday. intros. zdiv_lia. Qed.

(** A fixed or floating holiday, with the part of the year it can fall in. *)
Lemma observed_near d : d - 1 <= _observed d <= d + 1.
Proof. unfold _observed. split_cmp; lia. Qed.

Lemma observed_weekday d : weekday (_observed d) < 5.
Proof.
  unfold _observed. pose proof (weekday_bounds d).
  destruct (Z.eqb_spec (weekday d) 5); [|destruct (Z.eqb_spec (weekday d) 6); [|lia]].
  - replace (d - 1) with (d + -1) by lia. rewrite weekday_add, e. vm_compute. done.
  - rewrite weekday_add, e. vm_compute. done.
Qed.

(** ** Where the federal holidays fall *)

(** The days of the year each entry of [us_federal_holidays y] can take, in the
    order of the list, relative to the first of January. *)
Definition holiday_ranges (y : Z) : list (Z * Z) :=
  let l := leap_day y in
  [(-1, 1); (150 + l + 18, 150 + l + 20); (180 + l + 3, 180 + l + 5);
   (303 + l + 10, 303 + l + 12); (333 + l + 24, 333 + l + 26);
   (14, 20); (31 + 14, 31 + 20); (119 + l + 25, 119 + l + 31);
   (243 + l, 243 + l + 6); (273 + l + 7, 273 + l + 13); (304 + l + 21, 304 + l + 27)].

Definition in_range (y : Z) (d : date) (r : Z * Z) : Prop :=
  days_before_year y + 1 + r.1 <= d <= days_before_year y + 1 + r.2.

Lemma last_weekday_may y :
  days_before_year y + 1 + (119 + leap_day y + 25) <= _last_weekday y 5 0
    <= days_before_year y + 1 + (119 + leap_day y + 31).
Proof.
  unfold _last_weekday. replace (y + (if 5 =? 12 then 1 else 0)) with y by (simpl; lia).
  change (5 mod 12 + 1) with 6. unfold ymd2ord, days_before_month, weekday. simpl. zdiv_lia.
Qed.

Lemma holidays_in_ranges y : Forall2 (in_range y) (us_federal_holidays y) (holiday_ranges y).
Proof.
  unfold us_federal_holidays, holiday_ranges. pose proof (leap_day_bounds y).
  repeat constructor; unfold in_range; simpl;
    try (match goal with |- context [_observed ?d] => pose proof (observed_near d) end;
         unfold ymd2ord, days_before_month in *; simpl in *; lia);
    try (match goal with |- context [_nth_weekday ?y ?m ?w ?n] =>
           destruct (nth_weekday_spec y m w n ltac:(lia)) end;
         unfold ymd2ord, days_before_month in *; simpl in *; lia).
  all: pose proof (last_weekday_may y); lia.
Qed.

(** Ranges of different holidays are at least ten days apart. *)
Lemma holiday_ranges_apart y i j r r' :
  holiday_ranges y !! i = Some r -> holiday_ranges y !! j = Some r' -> i <> j ->
  r.2 + 10 <= r'.1 \/ r'.2 + 10 <= r.1.
Proof.
  intros Hi Hj Hne. unfold holiday_ranges in *. pose proof (leap_day_bounds y).
  repeat (destruct i as [|i]; [simpl in Hi; injection Hi as <-|simpl in Hi]); try done;
  repeat (destruct j as [|j]; [simpl in Hj; injection Hj as <-|simpl in Hj]); try done; simpl; lia.
Qed.

Lemma holiday_before_year_end y d :
  d ∈ us_federal_holidays y -> d <= days_before_year (y + 1) - 5.
Proof.
  intros [i Hi]%list_elem_of_lookup.
  destruct (Forall2_lookup_l _ _ _ _ _ (holidays_in_ranges y) Hi) as (r & Hr & Hd).
  unfold in_range in Hd. rewrite days_before_year_succ. pose proof (leap_day_bounds y).
  assert (r.2 <= 333 + leap_day y + 26); [|lia].
  unfold holiday_ranges in Hr.
  repeat (destruct i as [|i]; [simpl in Hr; injection Hr as <-; simpl; lia|simpl in Hr]); done.
Qed.

Lemma federal_holidays_spread y d d' :
  d ∈ us_federal_holidays y -> d' ∈ us_federal_holidays y -> d < d' -> d + 10 <= d'.
Proof.
  intros [i Hi]%list_elem_of_lookup [j Hj]%list_elem_of_lookup Hlt.
  destruct (decide (i = j)) as [->|Hne]; [rewrite Hi in Hj; injection Hj as ->; lia|].
  destruct (Forall2_lookup_l _ _ _ _ _ (holidays_in_ranges y) Hi) as (r & Hr & Hd).
  destruct (Forall2_lookup_l _ _ _ _ _ (holidays_in_ranges y) Hj) as (r' & Hr' & Hd').
  unfold in_range in *. destruct (holiday_ranges_apart _ _ _ _ _ Hr Hr' Hne); lia.
Qed.

Lemma default_holiday d :
  is_holiday DEFAULT_CALENDAR d = true <-> d ∈ us_federal_holidays (year d).
Proof. unfold is_holiday, mem; simpl. rewrite bool_decide_eq_true. done. Qed.

(** Two days the default calendar closes for are at least six days apart. *)
Lemma default_holidays_spread d d' :
  is_holiday DEFAULT_CALENDAR d = true -> is_holiday DEFAULT_CALENDAR d' = true ->
  d < d' -> d + 6 <= d'.
Proof.
  rewrite !default_holiday. intros Hd Hd' Hlt.
  destruct (decide (year d = year d')) as [E|Hne].
  - rewrite E in Hd. pose proof (federal_holidays_spread _ _ _ Hd Hd' Hlt). lia.
  - pose proof (year_mono d d' ltac:(lia)). pose proof (holiday_before_year_end _ _ Hd).
    pose proof (year_spec d'). pose proof (days_before_year_mono (year d + 1) (year d')). lia.
Qed.

Lemma default_business_day d :
  is_business_day DEFAULT_CALENDAR d = negb (5 <=? weekday d) && negb (is_holiday DEFAULT_CALENDAR d).
Proof.
  unfold is_business_day. f_equal. f_equal. unfold mem; simpl. unfold WEEKEND.
  pose proof (weekday_bounds d).
  destruct (Z.leb_spec 5 (weekday d)).
  - apply bool_decide_eq_true. rewrite !elem_of_cons. lia.
  - apply bool_decide_eq_false. rewrite !elem_of_cons, elem_of_nil. lia.
Qed.

(** One of any four consecutive days is a business day. *)
Lemma default_business_within d :
  exists k, 0 <= k <= 3 /\ is_business_day DEFAULT_CALENDAR (d + k) = true.
Proof.
  assert (Hh : forall a b, 0 <= a < b -> b <= 3 -> is_holiday DEFAULT_CALENDAR (d + a) = true ->
                 is_holiday DEFAULT_CALENDAR (d + b) = false).
  { intros a b Hab Hb Ha. destruct (is_holiday _ (d + b)) eqn:E; [|done].
    pose proof (default_holidays_spread _ _ Ha E). lia. }
  assert (Hw : forall a, 0 <= a -> weekday (d + a) = (weekday d + a) mod 7) by (intros; apply weekday_add).
  pose proof (weekday_bounds d).
  destruct (is_business_day DEFAULT_CALENDAR (d + 0)) eqn:E0; [exists 0; split; [lia|done]|].
  destruct (is_business_day DEFAULT_CALENDAR (d + 1)) eqn:E1; [exists 1; split; [lia|done]|].
  destruct (is_business_day DEFAULT_CALENDAR (d + 2)) eqn:E2; [exists 2; split; [lia|done]|].
  exists 3. split; [lia|]. rewrite default_business_day in *.
  rewrite Hw in * by lia.
  destruct (is_holiday _ (d + 0)) eqn:F0; [rewrite !(Hh 0) in * by (done || lia)|];
  [|destruct (is_holiday _ (d + 1)) eqn:F1; [rewrite !(Hh 1) in * by (done || lia)|];
    [|destruct (is_holiday _ (d + 2)) eqn:F2; [rewrite !(Hh 2) in * by (done || lia)|]]].
  all: simpl in *; rewrite ?andb_true_r in *; zdiv_lia.
Qed.

(** ** The bounded scans *)

Lemma scan_spec c step n d r :
  step = 1 \/ step = -1 ->
  scan_business c step n d = Ok r ->
  exists k, 0 <= k <= Z.of_nat n /\ r = d + k * step /\
    (forall i, 0 <= i < k -> is_business_day c (d + i * step) = false) /\
    (is_business_day c r = true \/ k = Z.of_nat n).
Proof.
  intros Hs. revert d. induction n as [|n IH]; simpl; intros d.
  - intros [= <-]. exists 0. repeat split; [lia..| |]; [intros; lia | by right].
  - destruct (is_business_day c d) eqn:Hb.
    + intros [= <-]. exists 0. repeat split; [lia..| |]; [intros; lia | by left].
    + intros Hr. apply bind_Ok_inv in Hr as (d' & [_ ->]%date_add_Ok & Hr).
      apply IH in Hr as (k & Hk & -> & Hall & Hend).
      exists (k + 1). repeat split; [lia..| |].
      * intros i Hi. destruct (decide (i = 0)) as [->|]; [by replace (d + 0 * step) with d by lia|].
        replace (d + i * step) with (d + step + (i - 1) * step) by lia. apply Hall. lia.
      * destruct Hend; [by left | right; lia].
Qed.

Lemma scan_total c step n d m :
  step = 1 \/ step = -1 ->
  0 <= m < Z.of_nat n -> is_business_day c (d + m * step) = true ->
  date_ok d -> date_ok (d + m * step) ->
  exists r, scan_business c step n d = Ok r /\ is_business_day c r = true.
Proof.
  intros Hs. revert d m. induction n as [|n IH]; intros d m Hm Hb Hd Hmax; [lia|]. simpl.
  destruct (is_business_day c d) eqn:E; [by exists d|].
  destruct (decide (m = 0)) as [->|]; [rewrite Z.add_0_r in Hb; congruence|].
  unfold date_ok in *.
  assert (date_add d step = Ok (d + step)) as ->.
  { apply date_add_Ok. unfold date_ok. destruct Hs as [-> | ->]; lia. }
  simpl. apply (IH (d + step) (m - 1)); replace (d + step + (m - 1) * step) with (d + m * step) by lia;
    try done; destruct Hs as [-> | ->]; lia.
Qed.

(** Four consecutive days of the default calendar end a scan in either direction. *)
Lemma default_scan step d :
  step = 1 \/ step = -1 -> date_ok d -> date_ok (d + 3 * step) ->
  exists r k, scan_business DEFAULT_CALENDAR step 30 d = Ok r /\ r = d + k * step /\
    0 <= k <= 3 /\ is_business_day DEFAULT_CALENDAR r = true /\
    forall i, 0 <= i < k -> is_business_day DEFAULT_CALENDAR (d + i * step) = false.
Proof.
  intros Hs Hd Hd3.
  assert (exists m, 0 <= m <= 3 /\ is_business_day DEFAULT_CALENDAR (d + m * step) = true)
    as (m & Hm & Hbm).
  { destruct Hs as [-> | ->].
    - destruct (default_business_within d) as (k & Hk & Hb). exists k. by rewrite Z.mul_1_r.
    - destruct (default_business_within (d - 3)) as (k & Hk & Hb). exists (3 - k).
      split; [lia|]. by replace (d + (3 - k) * -1) with (d - 3 + k) by lia. }
  destruct (scan_total DEFAULT_CALENDAR step 30 d m) as (r & Hr & Hb); try done.
  { lia. } { unfold date_ok in *. destruct Hs as [-> | ->]; lia. }
  destruct (scan_spec _ step _ _ _ Hs Hr) as (k & Hk & -> & Hall & _).
  exists (d + k * step), k. split_and!; try done; try lia.
  destruct (Z.le_gt_cases k 3) as [|Hgt]; [done|].
  rewrite (Hall m) in Hbm by lia. done.
Qed.

(** On the federal calendar the forward scan always finds a business day,
    at most three days on, and it is the first one not before the given day: the
    thirty-step bound of the loop is never the answer. *)
Theorem next_business_day_default d :
  1 <= d -> d + 3 <= MAXORDINAL ->
  exists r, next_business_day DEFAULT_CALENDAR d true = Ok r /\
    is_business_day DEFAULT_CALENDAR r = true /\ d <= r <= d + 3 /\
    forall k, d <= k < r -> is_business_day DEFAULT_CALENDAR k = false.
Proof.
  intros Hd Hmax.
  destruct (default_scan 1 d) as (r & k & Hr & -> & Hk & Hb & Hall);
    [auto | unfold date_ok; lia.. |].
  exists (d + k * 1). split_and!; try done; try lia.
  intros i Hi. replace i with (d + (i - d) * 1) by lia. apply Hall. lia.
Qed.

Lemma next_business_day_default_witness :
  exists r, next_business_day DEFAULT_CALENDAR (ymd2ord 2026 7 3) true = Ok r /\
    is_business_day DEFAULT_CALENDAR r = true /\
    ymd2ord 2026 7 3 <= r <= ymd2ord 2026 7 3 + 3 /\
    forall k, ymd2ord 2026 7 3 <= k < r -> is_business_day DEFAULT_CALENDAR k = false.
Proof. apply (next_business_day_default (ymd2ord 2026 7 3)); vm_compute; discriminate. Defined.

(** ** The unbounded walk *)

(** Business days among [lo, lo + n). *)
Definition business_count (c : BusinessCalendar) (lo n : Z) : nat :=
  length (filter (fun k => is_business_day c k = true) (seqZ lo n)).

Lemma business_count_snoc c lo n :
  0 <= n ->
  business_count c lo (n + 1)
    = (business_count c lo n + if is_business_day c (lo + n) then 1 else 0)%nat.
Proof.
  intros Hn. unfold business_count. rewrite seqZ_app by lia.
  rewrite filter_app, length_app. f_equal.
  change (seqZ (lo + n) 1) with [0 + (lo + n)]. rewrite filter_cons, Z.add_0_l.
  destruct (is_business_day c (lo + n)); [by rewrite decide_True | by rewrite decide_False].
Qed.

Lemma business_count_cons c lo n :
  0 <= n ->
  business_count c lo (n + 1)
    = ((if is_business_day c lo then 1 else 0) + business_count c (lo + 1) n)%nat.
Proof.
  intros Hn. unfold business_count. rewrite seqZ_cons by lia.
  rewrite filter_cons. unfold Z.succ, Z.pred. replace (n + 1 + -1) with n by lia.
  destruct (is_business_day c lo); [by rewrite decide_True | by rewrite decide_False].
Qed.

Lemma business_count_0 c lo : business_count c lo 0 = 0%nat.
Proof. reflexivity. Qed.

Lemma add_loop_zero c step fuel d : add_loop c step fuel 0 d = Some (Ok d).
Proof. by destruct fuel. Qed.

Lemma add_loop_forward c fuel rem d r :
  add_loop c 1 fuel rem d = Some (Ok r) ->
  d <= r /\ business_count c (d + 1) (r - d) = rem /\
  (rem <> O -> is_business_day c r = true /\ d < r).
Proof.
  revert rem d. induction fuel as [|fuel IH]; intros rem d Hr.
  { destruct rem; simplify_eq/=. rewrite Z.sub_diag. split_and!; [lia | done | done]. }
  destruct rem as [|rem]; simpl in Hr.
  { simplify_eq/=. rewrite Z.sub_diag. split_and!; [lia | done | done]. }
  destruct (date_add d 1) as [d'|] eqn:Hd; [|done].
  apply date_add_Ok in Hd as [_ ->]. apply IH in Hr as Hr'. destruct Hr' as (Hle & Hc & Hpos).
  replace (r - d) with (r - (d + 1) + 1) by lia. rewrite business_count_cons by lia.
  destruct (is_business_day c (d + 1)) eqn:Hb; rewrite Hc.
  - split_and!; [lia | done |]. intros _. destruct rem as [|rem].
    + rewrite add_loop_zero in Hr. injection Hr as <-. split; [done | lia].
    + destruct Hpos; [done|]. split; [done | lia].
  - split_and!; [lia | done |]. intros _. destruct Hpos; [done|]. split; [done|lia].
Qed.

Lemma add_loop_backward c fuel rem d r :
  add_loop c (-1) fuel rem d = Some (Ok r) ->
  r <= d /\ business_count c r (d - r) = rem /\
  (rem <> O -> is_business_day c r = true /\ r < d).
Proof.
  revert rem d. induction fuel as [|fuel IH]; intros rem d Hr.
  { destruct rem; simplify_eq/=. rewrite Z.sub_diag. split_and!; [lia | done | done]. }
  destruct rem as [|rem]; simpl in Hr.
  { simplify_eq/=. rewrite Z.sub_diag. split_and!; [lia | done | done]. }
  destruct (date_add d (-1)) as [d'|] eqn:Hd; [|done].
  apply date_add_Ok in Hd as [_ ->]. apply IH in Hr as Hr'. destruct Hr' as (Hle & Hc & Hpos).
  replace (d - r) with (d + -1 - r + 1) by lia. rewrite business_count_snoc by lia.
  replace (r + (d + -1 - r)) with (d + -1) by lia.
  destruct (is_business_day c (d + -1)) eqn:Hb; rewrite Hc.
  - split_and!; [lia | lia |]. intros _. destruct rem as [|rem].
    + rewrite add_loop_zero in Hr. injection Hr as <-. split; [done | lia].
    + destruct Hpos; [done|]. split; [done | lia].
  - split_and!; [lia | lia |]. intros _. destruct Hpos; [done|]. split; [done|lia].
Qed.

(** Whatever the calendar, when [add_business_days] returns a date for a
    non-zero count, that date is a business day and exactly [|count|] business
    days were stepped over on the way, the returned one included. *)
Theorem add_business_days_counts c fuel d count r :
  count <> 0 ->
  add_business_days c fuel d count = Some (Ok r) ->
  is_business_day c r = true /\
  (0 < count -> d < r /\ Z.of_nat (business_count c (d + 1) (r - d)) = count) /\
  (count < 0 -> r < d /\ Z.of_nat (business_count c r (d - r)) = - count).
Proof.
  intros Hc. unfold add_business_days. rewrite (proj2 (Z.eqb_neq _ _) Hc).
  destruct (Z.ltb_spec 0 count); intros Hr.
  - apply add_loop_forward in Hr as (_ & -> & Hp). destruct Hp; [lia|]. split_and!; [done|lia..].
  - apply add_loop_backward in Hr as (_ & -> & Hp). destruct Hp; [lia|]. split_and!; [done|lia..].
Qed.

Lemma add_business_days_counts_witness :
  let c := DEFAULT_CALENDAR in
  let d := ymd2ord 2026 7 1 in let r := ymd2ord 2026 7 9 in
  is_business_day c r = true /\
  (0 < 5 -> d < r /\ Z.of_nat (business_count c (d + 1) (r - d)) = 5) /\
  (5 < 0 -> r < d /\ Z.of_nat (business_count c r (d - r)) = - 5).
Proof.
  apply (add_business_days_counts DEFAULT_CALENDAR 20 (ymd2ord 2026 7 1) 5 (ymd2ord 2026 7 9));
    [discriminate | vm_compute; reflexivity].
Defined.

Lemma add_loop_terminates c step fuel rem d :
  step = 1 \/ step = -1 ->
  date_ok d -> (if 0 <? step then MAXORDINAL - d else d) < Z.of_nat fuel ->
  is_Some (add_loop c step fuel rem d).
Proof.
  intros Hs. revert rem d. induction fuel as [|fuel IH]; intros rem d Hd Hf.
  { unfold date_ok in Hd. destruct Hs as [-> | ->]; simpl in Hf; lia. }
  destruct rem as [|rem]; simpl; [done|].
  destruct (date_add d step) as [d'|] eqn:E; [|done].
  apply date_add_Ok in E as [Hok ->]. apply IH; [done|].
  destruct Hs as [-> | ->]; simpl in *; lia.
Qed.

(** The [while remaining] loop of [add_business_days] terminates for every
    calendar, one with no business days included: the walk leaves the
    representable dates (and raises [OverflowError]) after at most [MAXORDINAL]
    steps. *)
Theorem add_business_days_terminates c fuel d count :
  date_ok d -> MAXORDINAL < Z.of_nat fuel ->
  is_Some (add_business_days c fuel d count).
Proof.
  intros Hd Hf. unfold add_business_days. destruct (count =? 0); [done|].
  apply add_loop_terminates; unfold date_ok in *.
  - destruct (0 <? count); auto.
  - done.
  - destruct (0 <? count); simpl; lia.
Qed.

Lemma add_business_days_terminates_witness :
  exists fuel, date_ok (ymd2ord 2026 1 1) /\ MAXORDINAL < Z.of_nat fuel /\
    is_Some (add_business_days {| extra_holidays := []; observe_federal := false;
                                  weekend := [0;1;2;3;4;5;6] |} fuel (ymd2ord 2026 1 1) 1).
Proof.
  exists (Z.to_nat (MAXORDINAL + 1)).
  assert (date_ok (ymd2ord 2026 1 1)) as Hd by (split; vm_compute; discriminate).
  assert (MAXORDINAL < Z.of_nat (Z.to_nat (MAXORDINAL + 1))) as Hf by (unfold MAXORDINAL; lia).
  split_and!; [done | done |]. apply (add_business_days_terminates _ _ _ 1 Hd Hf).
Defined.

(** ** Adjustment policies *)

(** What an adjustment policy promises on the default calendar for a day [d]
    that is not a business day: the adjusted date and the reported policy. *)
Definition adjustment_spec (policy : string) (d d' : date) (applied : option string) : Prop :=
  match of_value policy with
  | Some AdjustmentPolicy.NEXT_BUSINESS_DAY =>
      applied = Some policy /\ d < d' <= d + 4 /\ is_business_day DEFAULT_CALENDAR d' = true /\
      forall k, d < k < d' -> is_business_day DEFAULT_CALENDAR k = false
  | Some AdjustmentPolicy.PREVIOUS_BUSINESS_DAY =>
      applied = Some policy /\ d - 4 <= d' < d /\ is_business_day DEFAULT_CALENDAR d' = true /\
      forall k, d' < k < d -> is_business_day DEFAULT_CALENDAR k = false
  | Some AdjustmentPolicy.JURISDICTION_SPECIFIC | Some AdjustmentPolicy.MANUAL_REVIEW =>
      applied = Some policy /\ d' = d
  | Some AdjustmentPolicy.NONE | None => applied = None /\ d' = d
  end.

(** Every adjustment policy on the default calendar: a business day is never
    moved; [NONE] and an unknown policy never move a date; [NEXT_BUSINESS_DAY] and
    [PREVIOUS_BUSINESS_DAY] move to the nearest business day in their direction;
    the two policies that need a human leave the date and report themselves. *)
Theorem apply_adjustment_spec d policy :
  5 <= d -> d + 4 <= MAXORDINAL ->
  exists d' applied, apply_adjustment DEFAULT_CALENDAR d policy = Ok (d', applied) /\
    if is_business_day DEFAULT_CALENDAR d then d' = d /\ applied = None
    else adjustment_spec policy d d' applied.
Proof.
  intros Hd Hmax. unfold apply_adjustment.
  destruct (is_business_day DEFAULT_CALENDAR d); [rewrite orb_true_r; eauto|].
  rewrite orb_false_r. unfold adjustment_spec.
  destruct (of_value policy) as [[]|] eqn:E; [apply of_value_Some in E as ->..|].
  - eexists _, _. split; [reflexivity | done].
  - unfold previous_business_day.
    rewrite (proj2 (date_add_Ok d (-1) (d + -1))) by (unfold date_ok; lia). msimpl.
    destruct (default_scan (-1) (d + -1)) as (r & k & -> & -> & Hk & Hb & Hall);
      [auto | unfold date_ok; lia.. |].
    eexists _, _. split; [reflexivity|]. split_and!; try done; try lia.
    intros i Hi. replace i with (d + -1 + (d + -1 - i) * -1) by lia. apply Hall. lia.
  - unfold next_business_day.
    rewrite (proj2 (date_add_Ok d 1 (d + 1))) by (unfold date_ok; lia). msimpl.
    destruct (default_scan 1 (d + 1)) as (r & k & -> & -> & Hk & Hb & Hall);
      [auto | unfold date_ok; lia.. |].
    eexists _, _. split; [reflexivity|]. split_and!; try done; try lia.
    intros i Hi. replace i with (d + 1 + (i - d - 1) * 1) by lia. apply Hall. lia.
  - eexists _, _. split; [reflexivity | done].
  - eexists _, _. split; [reflexivity | done].
  - rewrite of_value_None in E.
    rewrite !bool_decide_eq_false_2 by apply E. eauto.
Qed.

Lemma apply_adjustment_spec_witness :
  exists d' applied,
    apply_adjustment DEFAULT_CALENDAR (ymd2ord 2026 7 4) "PREVIOUS_BUSINESS_DAY" = Ok (d', applied) /\
    if is_business_day DEFAULT_CALENDAR (ymd2ord 2026 7 4) then d' = ymd2ord 2026 7 4 /\ applied = None
    else adjustment_spec "PREVIOUS_BUSINESS_DAY" (ymd2ord 2026 7 4) d' applied.
Proof. apply (apply_adjustment_spec (ymd2ord 2026 7 4)); vm_compute; discriminate. Defined.

(** When the first of January of the next year is a Saturday, the holiday is
    observed on 31 December: that date is in [us_federal_holidays] of the new
    year, but [is_holiday] only consults the year of the day asked about, so the
    default calendar treats the observed holiday as a business day. *)
Theorem observed_new_year_is_missed y :
  weekday (ymd2ord (y + 1) 1 1) = 5 ->
  ymd2ord y 12 31 ∈ us_federal_holidays (y + 1) /\
  is_business_day DEFAULT_CALENDAR (ymd2ord y 12 31) = true.
Proof.
  intros Hw.
  assert (ymd2ord y 12 31 = ymd2ord (y + 1) 1 1 - 1) as E.
  { unfold ymd2ord, days_before_month. simpl. rewrite days_before_year_succ. lia. }
  split.
  - unfold us_federal_holidays. rewrite E. simpl. unfold _observed at 1. rewrite Hw. left.
  - assert (weekday (ymd2ord y 12 31) = 4) as Hw'.
    { rewrite E. unfold Z.sub. rewrite (weekday_add (ymd2ord (y + 1) 1 1)), Hw. done. }
    rewrite default_business_day, Hw'. simpl. apply negb_true_iff, not_true_iff_false.
    rewrite default_holiday, year_ymd by (unfold ymd_ok, days_in_month; simpl; lia).
    intros Hin%holiday_before_year_end. rewrite E in Hin.
    unfold ymd2ord, days_before_month in Hin. simpl in Hin. lia.
Qed.

Lemma observed_new_year_is_missed_witness :
  ymd2ord 2021 12 31 ∈ us_federal_holidays 2022 /\
  is_business_day DEFAULT_CALENDAR (ymd2ord 2021 12 31) = true.
Proof. apply (observed_new_year_is_missed 2021). reflexivity. Defined.

Lemma next_business_day_business d r :
  next_business_day DEFAULT_CALENDAR d true = Ok r ->
  is_business_day DEFAULT_CALENDAR r = true /\ d <= r <= d + 3 /\
  forall k, d <= k < r -> is_business_day DEFAULT_CALENDAR k = false.
Proof.
  unfold next_business_day. msimpl. intros Hr.
  destruct (scan_spec _ 1 _ _ _ (or_introl eq_refl) Hr) as (k & Hk & -> & Hall & Hend).
  destruct (default_business_within d) as (m & Hm & Hb).
  assert (k <= m) as Hkm.
  { destruct (Z.le_gt_cases k m) as [|Hgt]; [done|].
    specialize (Hall m ltac:(lia)). rewrite Z.mul_1_r in Hall. congruence. }
  split_and!; try lia; [destruct Hend; [done|lia]|].
  intros i Hi. replace i with (d + (i - d) * 1) by lia. apply Hall. lia.
Qed.
