(* ===== verification/Recurrence.v ===== *)
(** * Recurrence expansion ([app/deadlines/recurrence.py])

    The next occurrence of every recurrence type, errors included, and the
    expansion of a recurrence over a horizon. *)
From S2P Require Import Prelude Vocabulary PyDate PyJson.
Open Scope Z_scope.
Import RecurrenceType.

(** ** Data *)

Record RecurrenceContext := {
  issue_date : option date;
  effective_date : option date;
  expiration_date : option date;
  regulator_supplied_due_date : option date;
  bond_expiration_date : option date;
  annual_report_date : option date;
  last_completed_date : option date;
  case_event_date : option date;
  manual_date : option date
}.

Definition empty_context : RecurrenceContext :=
  {| issue_date := None; effective_date := None; expiration_date := None;
     regulator_supplied_due_date := None; bond_expiration_date := None;
     annual_report_date := None; last_completed_date := None; case_event_date := None;
     manual_date := None |}.

Abbreviation config := (list (string * json)) (only parsing).

(** [a or b] on optional dates (a date is always true). *)
Definition or_else (a b : option date) : option date :=
  match a with Some _ => a | None => b end.

(** ** Operations *)

Definition _safe_date (y m d : Z) : result exn date :=
  last ← monthrange_last y m; date_new y m (Z.min d last).

(** [candidate < after or (candidate == after and not inclusive)]. *)
Definition not_after (candidate after : date) (inclusive : bool) : bool :=
  (candidate <? after) || ((candidate =? after) && negb inclusive).

(** [anchor > after or (anchor == after and inclusive)]. *)
Definition is_after (anchor after : date) (inclusive : bool) : bool :=
  (after <? anchor) || ((anchor =? after) && inclusive).

Definition _next_annual (anchor_month anchor_day : Z) (after : date) (inclusive : bool)
    : result exn date :=
  candidate ← _safe_date (year after) anchor_month anchor_day;
  if not_after candidate after inclusive
  then _safe_date (year after + 1) anchor_month anchor_day
  else Ok candidate.

(** [int(config.get(key, default))]. *)
Definition config_int (cfg : config) (key : string) (default : Z) : result exn Z :=
  match dget key cfg with Some j => py_int j | None => Ok default end.

(** [config.get("month"), config.get("day")] when both are integers. *)
Definition config_month_day (cfg : config) : option (Z * Z) :=
  m ← dget "month" cfg ≫= as_int; d ← dget "day" cfg ≫= as_int; Some (m, d).

(** One turn of the custom-interval loop. *)
Definition custom_step (months days : Z) (candidate : date) : result exn date :=
  candidate ← (if negb (months =? 0) then
      let total := month candidate - 1 + months in
      _safe_date (year candidate + total / 12) (total mod 12 + 1) (day candidate)
    else Ok candidate);
  if negb (days =? 0) then date_add candidate days else Ok candidate.

Fixpoint custom_loop (n : nat) (months days : Z) (after : date) (inclusive : bool)
    (candidate : date) : result exn (option date) :=
  match n with
  | O => Ok None
  | S n =>
      candidate ← custom_step months days candidate;
      if is_after candidate after inclusive then Ok (Some candidate)
      else custom_loop n months days after inclusive candidate
  end.

(** [anchor if anchor is after else None]. *)
Definition after_or_none (anchor : option date) (after : date) (inclusive : bool)
    : result exn (option date) :=
  match anchor with
  | None => Ok None
  | Some a => Ok (if is_after a after inclusive then Some a else None)
  end.

Definition next_occurrence (rtype : string) (cfg : config) (ctx : RecurrenceContext)
    (after : date) (inclusive : bool) : result exn (option date) :=
  match of_value rtype with
  | Some FIXED_ANNUAL_DATE =>
      match config_month_day cfg with
      | Some (m, d) => Some <$> _next_annual m d after inclusive
      | None => Err RecurrenceError
      end
  | Some ISSUE_ANNIVERSARY =>
      match or_else (issue_date ctx) (effective_date ctx) with
      | None => Ok None
      | Some anchor =>
          interval ← config_int cfg "interval_years" 1;
          candidate ← _safe_date (year after) (month anchor) (day anchor);
          if not_after candidate after inclusive
          then Some <$> _safe_date (year after + interval) (month anchor) (day anchor)
          else Ok (Some candidate)
      end
  | Some EXPIRATION_ANNIVERSARY =>
      match expiration_date ctx with
      | None => Ok None
      | Some anchor =>
          if is_after anchor after inclusive then Ok (Some anchor)
          else
            interval ← config_int cfg "interval_years" 1;
            Some <$> _safe_date (year anchor + interval) (month anchor) (day anchor)
      end
  | Some REGULATOR_SUPPLIED => after_or_none (regulator_supplied_due_date ctx) after inclusive
  | Some NMLS_ANNUAL_RENEWAL_WINDOW =>
      end_month ← config_int cfg "window_end_month" 12;
      end_day ← config_int cfg "window_end_day" 31;
      Some <$> _next_annual end_month end_day after inclusive
  | Some BOND_EXPIRATION => after_or_none (bond_expiration_date ctx) after inclusive
  | Some ANNUAL_REPORT_DATE =>
      let anchor := annual_report_date ctx in
      let supplied := match anchor with
                      | Some a => if is_after a after inclusive then Some a else None
                      | None => None end in
      match supplied with
      | Some a => Ok (Some a)
      | None =>
          match config_month_day cfg, anchor with
          | Some (m, d), _ => Some <$> _next_annual m d after inclusive
          | None, None => Ok None
          | None, Some a => Some <$> _safe_date (year after + 1) (month a) (day a)
          end
      end
  | Some RELATIVE_TO_CASE_EVENT =>
      match case_event_date ctx with
      | None => Ok None
      | Some anchor => offset ← config_int cfg "offset_days" 0; Some <$> date_add anchor offset
      end
  | Some CUSTOM_INTERVAL =>
      match or_else (last_completed_date ctx) (or_else (expiration_date ctx)
              (or_else (effective_date ctx) (issue_date ctx))) with
      | None => Ok None
      | Some anchor =>
          months ← config_int cfg "interval_months" 0;
          days ← config_int cfg "interval_days" 0;
          if (months <=? 0) && (days <=? 0) then Err RecurrenceError
          else custom_loop 400 months days after inclusive anchor
      end
  | Some MANUAL_DATE =>
      manual ← (match manual_date ctx with
                | Some d => Ok (Some d)
                | None =>
                    match dget "date" cfg with
                    | Some (JStr s) =>
                        match fromisoformat s with
                        | Ok d => Ok (Some d)
                        | Err _ => Err RecurrenceError
                        end
                    | _ => Ok None
                    end
                end);
      after_or_none manual after inclusive
  | None => Err RecurrenceError
  end.

(** Recurrences that yield at most one occurrence. *)
Definition single_shot (rtype : string) : bool :=
  match of_value rtype with
  | Some (REGULATOR_SUPPLIED | BOND_EXPIRATION | MANUAL_DATE | RELATIVE_TO_CASE_EVENT) => true
  | _ => false
  end.

Fixpoint expand_loop (n : nat) (rtype : string) (cfg : config) (ctx : RecurrenceContext)
    (horizon_end : date) (cursor : date) (inclusive : bool) : result exn (list date) :=
  match n with
  | O => Ok []
  | S n =>
      nxt ← next_occurrence rtype cfg ctx cursor inclusive;
      match nxt with
      | None => Ok []
      | Some d =>
          if horizon_end <? d then Ok []
          else if single_shot rtype then Ok [d]
          else rest ← expand_loop n rtype cfg ctx horizon_end d false; Ok (d :: rest)
      end
  end.

Definition expand (rtype : string) (cfg : config) (ctx : RecurrenceContext)
    (start horizon_end : date) (limit : nat) : result exn (list date) :=
  expand_loop limit rtype cfg ctx horizon_end start true.

(** ** Lemmas *)

Lemma not_after_is_after c a i : not_after c a i = negb (is_after c a i).
Proof. unfold not_after, is_after. destruct i; lia. Qed.

Lemma is_after_ge c a i : is_after c a i = true -> a <= c.
Proof. unfold is_after. destruct i; lia. Qed.

Lemma safe_date_Ok y m d r :
  _safe_date y m d = Ok r ->
  1 <= y <= 9999 /\ year r = y /\ month r = m /\ day r = Z.min d (days_in_month y m) /\
  r = ymd2ord y m (Z.min d (days_in_month y m)).
Proof.
  unfold _safe_date, monthrange_last. intros Hr. inv_ok.
  apply date_new_Ok in Hr as (Hy & Hok & ->). subst.
  split_and!; [lia | lia | by autorewrite with astra..].
Qed.

Lemma year_lt a b : year a < year b -> a < b.
Proof. intros Hy. destruct (Z.lt_ge_cases a b) as [|Hge]; [done|]. apply year_mono in Hge. lia. Qed.

Lemma safe_date_mono y y' m d r r' :
  _safe_date y m d = Ok r -> _safe_date y' m d = Ok r' -> y < y' -> r < r'.
Proof.
  intros (_ & <- & _)%safe_date_Ok (_ & <- & _)%safe_date_Ok Hlt. by apply year_lt.
Qed.

Lemma next_annual_after m d after incl r :
  _next_annual m d after incl = Ok r -> is_after r after incl = true.
Proof.
  unfold _next_annual. intros (c & Hc & Hr)%bind_Ok_inv.
  rewrite not_after_is_after in Hr. destruct (is_after c after incl) eqn:E; simpl in Hr.
  - by injection Hr as <-.
  - apply safe_date_Ok in Hr as (_ & Hy & _). unfold is_after.
    assert (after < r) by (apply year_lt; lia). lia.
Qed.

(** [_next_annual] returns the least anniversary of the anchor month and day,
    clamped to the month's last day in each year, that is after the given date (or
    on it when inclusive). *)
Theorem next_annual_least m d after incl r :
  _next_annual m d after incl = Ok r ->
  is_after r after incl = true /\
  (exists y, _safe_date y m d = Ok r) /\
  forall y r', _safe_date y m d = Ok r' -> is_after r' after incl = true -> r <= r'.
Proof.
  intros Hr. split; [by eapply next_annual_after|].
  unfold _next_annual in Hr. apply bind_Ok_inv in Hr as (c & Hc & Hr).
  rewrite not_after_is_after in Hr.
  assert (forall y r', _safe_date y m d = Ok r' -> is_after r' after incl = true -> year after <= y) as Hmin.
  { intros y r' (_ & <- & _)%safe_date_Ok Ha%is_after_ge. by apply year_mono. }
  destruct (is_after c after incl) eqn:E; simpl in Hr.
  - injection Hr as <-. split; [by eexists|]. intros y r' Hr' Ha.
    pose proof (Hmin _ _ Hr' Ha). destruct (decide (y = year after)) as [->|].
    + rewrite Hc in Hr'. injection Hr' as ->. lia.
    + pose proof (safe_date_mono _ _ _ _ _ _ Hc Hr' ltac:(lia)). lia.
  - split; [by eexists|]. intros y r' Hr' Ha. pose proof (Hmin _ _ Hr' Ha).
    destruct (decide (y = year after)) as [->|].
    { rewrite Hc in Hr'. injection Hr' as ->. congruence. }
    destruct (decide (y = year after + 1)) as [->|].
    + rewrite Hr in Hr'. injection Hr' as ->. lia.
    + pose proof (safe_date_mono _ _ _ _ _ _ Hr Hr' ltac:(lia)). lia.
Qed.

Lemma next_annual_least_witness :
  is_after (ymd2ord 2027 2 28) (ymd2ord 2026 3 1) false = true /\
  (exists y, _safe_date y 2 31 = Ok (ymd2ord 2027 2 28)) /\
  forall y r', _safe_date y 2 31 = Ok r' -> is_after r' (ymd2ord 2026 3 1) false = true ->
    ymd2ord 2027 2 28 <= r'.
Proof. apply (next_annual_least 2 31 (ymd2ord 2026 3 1) false). reflexivity. Defined.

(** Recurrences whose next occurrence is computed from the cursor: all types but
    the expiration anniversary and the case-event offset, the issue anniversary
    with a positive interval. *)
Definition progressing (rtype : string) (cfg : config) : bool :=
  match of_value rtype with
  | Some (EXPIRATION_ANNIVERSARY | RELATIVE_TO_CASE_EVENT) | None => false
  | Some ISSUE_ANNIVERSARY =>
      match config_int cfg "interval_years" 1 with Ok i => 1 <=? i | Err _ => false end
  | Some _ => true
  end.

Lemma custom_loop_after n months days after incl c r :
  custom_loop n months days after incl c = Ok (Some r) -> is_after r after incl = true.
Proof.
  revert c. induction n as [|n IH]; intros c Hr; [discriminate|]. simpl in Hr.
  apply bind_Ok_inv in Hr as (c' & _ & Hr).
  destruct (is_after c' after incl) eqn:E; [by injection Hr as <- | eauto].
Qed.

Lemma after_or_none_after a after incl r :
  after_or_none a after incl = Ok (Some r) -> is_after r after incl = true.
Proof.
  destruct a as [a|]; simpl; [|discriminate].
  destruct (is_after a after incl) eqn:E; [by intros [= <-] | discriminate].
Qed.

Lemma fmap_Some_Ok {A} (x : result exn A) r : (Some <$> x) = Ok (Some r) -> x = Ok r.
Proof. destruct x; simpl; [by intros [= ->] | discriminate]. Qed.

#[local] Hint Resolve next_annual_after custom_loop_after after_or_none_after fmap_Some_Ok : astra.

Lemma next_occurrence_progress rtype cfg ctx after incl r :
  progressing rtype cfg = true ->
  next_occurrence rtype cfg ctx after incl = Ok (Some r) ->
  is_after r after incl = true.
Proof.
  unfold progressing, next_occurrence.
  destruct (of_value rtype) as [[]|]; try discriminate; intros Hp Hr.
  - destruct (config_month_day cfg) as [[m d]|]; [eauto with astra | discriminate].
  - destruct (or_else _ _) as [anchor|]; [|discriminate].
    apply bind_Ok_inv in Hr as (i & Hi & Hr). rewrite Hi in Hp.
    apply bind_Ok_inv in Hr as (c & Hc & Hr). rewrite not_after_is_after in Hr.
    destruct (is_after c after incl) eqn:E; simpl in Hr; [by injection Hr as <-|].
    apply fmap_Some_Ok, safe_date_Ok in Hr as (_ & Hy & _).
    assert (after < r) by (apply year_lt; lia). unfold is_after. lia.
  - eauto with astra.
  - inv_ok. eauto with astra.
  - eauto with astra.
  - destruct (annual_report_date ctx) as [a|]; [destruct (is_after a after incl) eqn:E|];
      [by injection Hr as <-|..]; destruct (config_month_day cfg) as [[m d]|];
      try discriminate; try (eapply next_annual_after, fmap_Some_Ok; done).
    apply fmap_Some_Ok, safe_date_Ok in Hr as (_ & Hy & _).
    assert (after < r) by (apply year_lt; lia). unfold is_after. lia.
  - destruct (or_else _ _) as [anchor|]; [|discriminate]. inv_ok.
    destruct (_ && _); [discriminate | eauto with astra].
  - inv_ok. eauto with astra.
Qed.

(** ** Expansion *)

Lemma expand_loop_sorted n rtype cfg ctx hor cursor incl l :
  progressing rtype cfg = true ->
  expand_loop n rtype cfg ctx hor cursor incl = Ok l ->
  StronglySorted Z.lt l /\ Forall (fun d => is_after d cursor incl = true /\ d <= hor) l /\
  (length l <= n)%nat.
Proof.
  intros Hp. revert cursor incl l. induction n as [|n IH]; intros cursor incl l Hl.
  { injection Hl as <-. repeat constructor. }
  simpl in Hl. apply bind_Ok_inv in Hl as (nxt & Hn & Hl).
  destruct nxt as [d|]; [|injection Hl as <-; repeat constructor; simpl; lia].
  apply next_occurrence_progress in Hn; [|done].
  destruct (Z.ltb_spec hor d); [injection Hl as <-; repeat constructor; simpl; lia|].
  destruct (single_shot rtype).
  { injection Hl as <-. split_and!; [repeat constructor | | simpl; lia]. by apply Forall_singleton. }
  apply bind_Ok_inv in Hl as (rest & Hrest & Hl). injection Hl as <-.
  apply IH in Hrest as (Hs & Hall & Hlen). split_and!; [|constructor; [done|]|simpl; lia].
  - constructor; [done|]. eapply Forall_impl; [exact Hall|]. simpl.
    intros x [Hx _]. unfold is_after in Hx. lia.
  - eapply Forall_impl; [exact Hall|]. simpl. intros x [Hx ?]. split; [|done].
    apply is_after_ge in Hn. unfold is_after in *. destruct incl; lia.
Qed.

(** For every recurrence that computes its next date from the cursor,
    [expand] lists strictly increasing dates, all within the horizon, at most
    [limit] of them. *)
Theorem expand_sorted rtype cfg ctx start hor limit l :
  progressing rtype cfg = true ->
  expand rtype cfg ctx start hor limit = Ok l ->
  StronglySorted Z.lt l /\ Forall (fun d => start <= d <= hor) l /\ (length l <= limit)%nat.
Proof.
  intros Hp (Hs & Hall & Hlen)%expand_loop_sorted; [|done]. split_and!; [done | | done].
  eapply Forall_impl; [exact Hall|]. simpl. intros x [Hx%is_after_ge ?]. lia.
Qed.

Lemma expand_sorted_witness :
  let l := [ymd2ord 2026 12 31; ymd2ord 2027 12 31] in
  StronglySorted Z.lt l /\ Forall (fun d => ymd2ord 2026 2 1 <= d <= ymd2ord 2028 6 1) l /\
  (length l <= 6)%nat.
Proof.
  apply (expand_sorted "NMLS_ANNUAL_RENEWAL_WINDOW" [] empty_context (ymd2ord 2026 2 1)
           (ymd2ord 2028 6 1) 6); reflexivity.
Defined.

(** The recurrence context of a licence that only has an expiration date. *)
Definition expires (e : date) : RecurrenceContext :=
  {| issue_date := None; effective_date := None; expiration_date := Some e;
     regulator_supplied_due_date := None; bond_expiration_date := None;
     annual_report_date := None; last_completed_date := None; case_event_date := None;
     manual_date := None |}.

Lemma expiration_repeats ctx e cfg i hor nxt n cursor incl :
  expiration_date ctx = Some e -> config_int cfg "interval_years" 1 = Ok i ->
  _safe_date (year e + i) (month e) (day e) = Ok nxt ->
  is_after e cursor incl = false -> e <= nxt -> nxt <= hor ->
  expand_loop n "EXPIRATION_ANNIVERSARY" cfg ctx hor cursor incl = Ok (replicate n nxt).
Proof.
  intros He Hi Hn. revert cursor incl.
  induction n as [|n IH]; intros cursor incl Hc Hle Hh; [done|].
  simpl. unfold next_occurrence. simpl. rewrite He, Hc, Hi. msimpl. rewrite Hn.
  cbn [fmap result_fmap mbind result_bind].
  replace (hor <? nxt) with false by lia.
  rewrite IH; [done | | done | done]. unfold is_after. lia.
Qed.

(** The expiration anniversary is not computed from the cursor: once the
    expiration date is behind the cursor, every call answers with the same single
    anniversary, so [expand] fills the rest of its limit with copies of that one
    date, whether or not it is in the past. *)
Theorem expand_expiration_duplicates ctx e cfg i start hor nxt limit :
  expiration_date ctx = Some e -> config_int cfg "interval_years" 1 = Ok i ->
  _safe_date (year e + i) (month e) (day e) = Ok nxt -> e <= nxt -> nxt <= hor ->
  expand "EXPIRATION_ANNIVERSARY" cfg ctx start hor (S limit)
    = Ok (if e <? start then replicate (S limit) nxt else e :: replicate limit nxt).
Proof.
  intros He Hi Hn Hle Hh. unfold expand. destruct (Z.ltb_spec e start).
  - eapply expiration_repeats; try done. unfold is_after. lia.
  - simpl. unfold next_occurrence. simpl. rewrite He.
    replace (is_after e start true) with true by (unfold is_after; lia). msimpl.
    replace (hor <? e) with false by lia.
    erewrite expiration_repeats; try done. unfold is_after. lia.
Qed.

Lemma expand_expiration_duplicates_witness :
  expand "EXPIRATION_ANNIVERSARY" [] (expires (ymd2ord 2026 6 30)) (ymd2ord 2026 1 1)
      (ymd2ord 2027 12 31) 4
    = Ok (if ymd2ord 2026 6 30 <? ymd2ord 2026 1 1
          then replicate 4 (ymd2ord 2027 6 30)
          else ymd2ord 2026 6 30 :: replicate 3 (ymd2ord 2027 6 30)).
Proof.
  apply (expand_expiration_duplicates (expires (ymd2ord 2026 6 30)) (ymd2ord 2026 6 30) [] 1
           (ymd2ord 2026 1 1) (ymd2ord 2027 12 31) (ymd2ord 2027 6 30) 3);
    first [reflexivity | vm_compute; discriminate].
Defined.

(** ** The day interval *)

Lemma custom_loop_days n k after incl c r :
  0 < k ->
  custom_loop n 0 k after incl c = Ok r ->
  match r with
  | Some d => exists j, 1 <= j <= Z.of_nat n /\ d = c + j * k /\ is_after d after incl = true /\
                forall i, 1 <= i < j -> is_after (c + i * k) after incl = false
  | None => forall i, 1 <= i <= Z.of_nat n -> is_after (c + i * k) after incl = false
  end.
Proof.
  intros Hk. revert c. induction n as [|n IH]; intros c Hr.
  { injection Hr as <-. intros i Hi. lia. }
  simpl in Hr. apply bind_Ok_inv in Hr as (c' & Hc & Hr).
  unfold custom_step in Hc. simpl in Hc. replace (k =? 0) with false in Hc by lia. simpl in Hc.
  apply date_add_Ok in Hc as [_ ->].
  destruct (is_after (c + k) after incl) eqn:E.
  - injection Hr as <-. exists 1. split_and!; [lia | lia | lia | done | intros; lia].
  - apply IH in Hr. destruct r as [d|].
    + destruct Hr as (j & Hj & -> & Ha & Hall). exists (j + 1).
      replace (c + (j + 1) * k) with (c + k + j * k) by lia. split_and!; [lia | lia | lia | done |].
      intros i Hi. destruct (decide (i = 1)) as [->|]; [by rewrite Z.mul_1_l|].
      replace (c + i * k) with (c + k + (i - 1) * k) by lia. apply Hall. lia.
    + intros i Hi. destruct (decide (i = 1)) as [->|]; [by rewrite Z.mul_1_l|].
      replace (c + i * k) with (c + k + (i - 1) * k) by lia. apply Hr. lia.
Qed.

(** ** Independence from the annual report date *)

Definition with_annual (ctx : RecurrenceContext) (a : option date) : RecurrenceContext :=
  {| issue_date := issue_date ctx; effective_date := effective_date ctx;
     expiration_date := expiration_date ctx;
     regulator_supplied_due_date := regulator_supplied_due_date ctx;
     bond_expiration_date := bond_expiration_date ctx; annual_report_date := a;
     last_completed_date := last_completed_date ctx; case_event_date := case_event_date ctx;
     manual_date := manual_date ctx |}.

Lemma next_occurrence_annual rtype cfg ctx a after incl :
  rtype <> value ANNUAL_REPORT_DATE ->
  next_occurrence rtype cfg (with_annual ctx a) after incl = next_occurrence rtype cfg ctx after incl.
Proof.
  intros Hne. unfold next_occurrence. destruct (of_value rtype) as [[]|] eqn:E; try done.
  apply of_value_Some in E. done.
Qed.

Lemma expand_annual rtype cfg ctx a start hor n :
  rtype <> value ANNUAL_REPORT_DATE ->
  expand rtype cfg (with_annual ctx a) start hor n = expand rtype cfg ctx start hor n.
Proof.
  intros Hne. unfold expand. generalize true as incl. revert start.
  induction n as [|n IH]; intros start incl; [done|]. simpl.
  rewrite next_occurrence_annual by done. destruct (next_occurrence _ _ _ _ _) as [[d|]|]; simpl; try done.
  destruct (hor <? d); [done|]. destruct (single_shot rtype); [done|]. by rewrite IH.
Qed.
