(* ===== verification/DeadlineRules.v ===== *)
(** * Deadline rules ([app/deadlines/rules.py])

    The policy value object, its milestone offsets (with the floating-point
    scaling of the code), configuration validation and rule resolution. *)
From S2P Require Import Prelude Vocabulary PyDate PyJson PyFloat Scoping Recurrence.
Open Scope Z_scope.

(** ** Data *)

Definition DEFAULT_MILESTONE_OFFSETS : list (string * Z) :=
  [(value DeadlineType.INTERNAL_START, 30); (value DeadlineType.VENDOR_OUTREACH, 28);
   (value DeadlineType.INFORMATION_DUE, 21); (value DeadlineType.DOCUMENT_PACKET_DUE, 16);
   (value DeadlineType.FORM_COMPLETION_DUE, 10); (value DeadlineType.SIGNATURE_DUE, 6);
   (value DeadlineType.SUBMISSION_DUE, 3)].

Definition DEFAULT_ESCALATION_LADDER : list (Z * string) :=
  [(120, value EscalationLevel.OWNER); (90, value EscalationLevel.OWNER);
   (60, value EscalationLevel.OWNER); (30, value EscalationLevel.REVIEWER);
   (14, value EscalationLevel.REVIEWER); (7, value EscalationLevel.MANAGER);
   (3, value EscalationLevel.MANAGER); (0, value EscalationLevel.MANAGER)].

Definition DEFAULT_ALERT_WINDOWS : list Z := [120; 90; 60; 30; 14; 7; 3; 0].

Record DeadlinePolicy := {
  id : option uuid;
  rule_key : string;
  obligation_type : string;
  recurrence_type : string;
  recurrence_config : list (string * json);
  adjustment_policy : string;
  lead_time_days : option Z;
  milestone_offsets : list (string * Z);
  escalation_policy : list (string * json);
  jurisdiction_id : option uuid;
  license_type_id : option uuid;
  effective_from : option date;
  effective_to : option date;
  priority : Z
}.

(** ** Operations *)

Definition is_effective_on (p : DeadlinePolicy) (when : date) : bool :=
  effective_on (effective_from p) (effective_to p) when.

Definition specificity (p : DeadlinePolicy) : Z := scope_count (jurisdiction_id p) (license_type_id p).

Definition lead_days (p : DeadlinePolicy) (default_lead_days : Z) : Z :=
  match lead_time_days p with Some l => l | None => default_lead_days end.

Definition scaled_offset (lead offset : Z) : Z :=
  let scale := f64_div (f64_of_Z lead) (f64_of_Z 30) in
  let v := py_round (f64_mul (f64_of_Z offset) scale) in
  Z.max 1 (Z.min v lead).

Definition offsets (p : DeadlinePolicy) (default_lead_days : Z) : list (string * Z) :=
  match milestone_offsets p with
  | _ :: _ => milestone_offsets p
  | [] =>
      let lead := lead_days p default_lead_days in
      if lead <=? 0 then []
      else if lead =? 30 then DEFAULT_MILESTONE_OFFSETS
      else
        let scaled := (fun kv => (kv.1, scaled_offset lead kv.2)) <$> DEFAULT_MILESTONE_OFFSETS in
        dset (value DeadlineType.INTERNAL_START) lead scaled
  end.

Section Ladder.
(** [str(level)] of a JSON value: the interpreter's text of a value that is not
    a string is not modelled. *)
Context (py_str : json -> string).

(** [{int(days): str(level) for days, level in configured.items()}]. *)
Fixpoint ladder_items (items : list (string * json)) : option (list (Z * string)) :=
  match items with
  | [] => Some []
  | (days, level) :: items =>
      d ← parse_int days; rest ← ladder_items items; Some ((d, py_str level) :: rest)
  end.

(** Later items overwrite earlier ones with the same integer key. *)
Fixpoint ladder_get (k : Z) (l : list (Z * string)) : option string :=
  match l with
  | [] => None
  | (d, v) :: l => match ladder_get k l with Some w => Some w
                   | None => if d =? k then Some v else None end
  end.

Definition escalation_ladder (p : DeadlinePolicy) : result exn (list (Z * string)) :=
  match dget "ladder" (escalation_policy p) with
  | Some (JDict ((_ :: _) as configured)) =>
      match ladder_items configured with
      | Some l => Ok l
      | None => Err DeadlineRuleConfigError
      end
  | _ => Ok DEFAULT_ESCALATION_LADDER
  end.
End Ladder.

Definition alert_windows (p : DeadlinePolicy) : result exn (list Z) :=
  match dget "alert_windows_days" (escalation_policy p) with
  | Some (JList ((_ :: _) as configured)) =>
      ws ← mapR py_int configured;
      Ok (py_sorted (fun a b => b <=? a) (remove_dups ws))
  | _ => Ok DEFAULT_ALERT_WINDOWS
  end.

(** [not isinstance(x, int) or not lo <= x <= hi] raises. *)
Definition require_int_between (j : option json) (lo hi : Z) : result exn unit :=
  match j ≫= as_int with
  | Some n => raise_unless ((lo <=? n) && (n <=? hi)) DeadlineRuleConfigError
  | None => Err DeadlineRuleConfigError
  end.

(** [int(config.get(key, 0) or 0)]. *)
Definition config_int_or_0 (cfg : list (string * json)) (key : string) : result exn Z :=
  match dget key cfg with
  | Some j => if truthy j then py_int j else Ok 0
  | None => Ok 0
  end.

Definition validate_recurrence_config (rtype : string) (cfg : list (string * json)) : result exn unit :=
  match of_value rtype with
  | None => Err DeadlineRuleConfigError
  | Some RecurrenceType.FIXED_ANNUAL_DATE =>
      _ ← require_int_between (dget "month" cfg) 1 12;
      require_int_between (dget "day" cfg) 1 31
  | Some RecurrenceType.CUSTOM_INTERVAL =>
      months ← config_int_or_0 cfg "interval_months";
      days ← config_int_or_0 cfg "interval_days";
      raise_unless (negb ((months <=? 0) && (days <=? 0))) DeadlineRuleConfigError
  | Some RecurrenceType.NMLS_ANNUAL_RENEWAL_WINDOW =>
      require_int_between (Some (default (JInt 12) (dget "window_end_month" cfg))) 1 12
  | Some _ => Ok tt
  end.

Fixpoint validate_milestone_offsets (offs : list (string * json)) : result exn unit :=
  match offs with
  | [] => Ok tt
  | (k, v) :: offs =>
      _ ← raise_unless (bool_decide (is_Some (of_value (A := DeadlineType.DeadlineType) k)))
            DeadlineRuleConfigError;
      _ ← raise_unless (match as_int v with Some n => 0 <=? n | None => false end)
            DeadlineRuleConfigError;
      validate_milestone_offsets offs
  end.

Definition policy_leb (p q : DeadlinePolicy) : bool :=
  precedence_leb (specificity p) (priority p) (specificity q) (priority q) (rule_key p) (rule_key q).

Definition applicable (otype : string) (when : date) (jid ltid : option uuid) (p : DeadlinePolicy) : bool :=
  bool_decide (obligation_type p = otype) && is_effective_on p when &&
  in_scope (jurisdiction_id p) jid && in_scope (license_type_id p) ltid.

Definition resolve_policy (policies : list DeadlinePolicy) (otype : string) (when : date)
    (jid ltid : option uuid) : option DeadlinePolicy :=
  head (py_sorted policy_leb (filter (fun p => applicable otype when jid ltid p = true) policies)).

(** ** Resolution *)

#[export] Instance policy_scoped : ScopedRule DeadlinePolicy :=
  {| sr_jurisdiction := jurisdiction_id; sr_license_type := license_type_id;
     sr_from := effective_from; sr_to := effective_to;
     sr_priority := priority; sr_key := rule_key |}.

Lemma applicable_true otype when jid ltid p :
  applicable otype when jid ltid p = true <->
  obligation_type p = otype /\ sr_applies when jid ltid p = true.
Proof.
  unfold applicable, sr_applies. rewrite !andb_true_iff, bool_decide_eq_true. simpl. tauto.
Qed.

(** [resolve_policy] finds a rule exactly when one applies (same obligation
    type, in force on the date, scope matching or open), and no applicable rule is
    more specific than the one returned, nor equally specific with a lower priority
    number. *)
Theorem resolve_policy_spec policies otype when jid ltid :
  match resolve_policy policies otype when jid ltid with
  | Some p =>
      p ∈ policies /\ applicable otype when jid ltid p = true /\
      forall q, q ∈ policies -> applicable otype when jid ltid q = true -> ~ outranks q p
  | None => forall q, q ∈ policies -> applicable otype when jid ltid q = false
  end.
Proof.
  unfold resolve_policy. change policy_leb with (sr_leb (R := DeadlinePolicy)).
  destruct (head _) as [p|] eqn:Hh.
  - apply sr_sorted_head in Hh as [Hin Hmin]. apply list_elem_of_filter in Hin as [? ?].
    split_and!; [done | done |]. intros q Hq Ha. apply Hmin. by apply list_elem_of_filter.
  - intros q Hq. apply not_true_is_false. intros Ha.
    assert (q ∈ py_sorted sr_leb (filter (fun p => applicable otype when jid ltid p = true) policies))
      as Hs by (apply elem_of_py_sorted, list_elem_of_filter; done).
    destruct (py_sorted sr_leb _); [by apply not_elem_of_nil in Hs | discriminate].
Qed.

(** ** Milestone offsets *)

Lemma scaled_offset_bounds lead offset : 0 < lead -> 1 <= scaled_offset lead offset <= lead.
Proof. unfold scaled_offset. cbv zeta. lia. Qed.

(** Non-increasing day counts. *)
Fixpoint descending (l : list Z) : bool :=
  match l with
  | a :: (b :: _) as t => (b <=? a) && descending t
  | _ => true
  end.

Definition scaled_ladder (lead : Z) : list Z :=
  lead :: (scaled_offset lead <$> [28; 21; 16; 10; 6; 3]).

Lemma offsets_scaled p dl :
  milestone_offsets p = [] -> 0 < lead_days p dl -> lead_days p dl <> 30 ->
  (offsets p dl).*1 = DEFAULT_MILESTONE_OFFSETS.*1 /\
  (offsets p dl).*2 = scaled_ladder (lead_days p dl).
Proof.
  intros Hm Hl Hn. unfold offsets. rewrite Hm.
  replace (lead_days p dl <=? 0) with false by lia.
  replace (lead_days p dl =? 30) with false by lia. done.
Qed.

Lemma scaled_ladder_descending : Forall (fun lead => descending (scaled_ladder lead) = true) (seqZ 1 180).
Proof. apply (bool_decide_unpack _). vm_compute. exact I. Qed.

(** The internal milestone ladder derived from a lead time: the default
    milestones, in order, each at least one day before the statutory date and at
    most the lead time, work starting exactly [lead] days before; and for lead
    times up to 180 days the binary64 scaling and rounding keep the milestones in
    sequence. *)
Theorem offsets_ladder p dl :
  milestone_offsets p = [] -> 0 < lead_days p dl ->
  (offsets p dl).*1 = DEFAULT_MILESTONE_OFFSETS.*1 /\
  Forall (fun o => 1 <= o <= lead_days p dl) (offsets p dl).*2 /\
  dget (value DeadlineType.INTERNAL_START) (offsets p dl) = Some (lead_days p dl) /\
  (lead_days p dl <= 180 -> descending (offsets p dl).*2 = true).
Proof.
  intros Hm Hl. destruct (decide (lead_days p dl = 30)) as [E|Hn].
  - unfold offsets. rewrite Hm, E. simpl. split_and!; [done | | done | done].
    repeat (constructor; [lia|]). constructor.
  - destruct (offsets_scaled p dl Hm Hl Hn) as [H1 H2]. rewrite H1, H2. split_and!; [done | | |].
    + constructor; [lia|]. repeat (constructor; [by apply scaled_offset_bounds|]). constructor.
    + unfold offsets. rewrite Hm. replace (lead_days p dl <=? 0) with false by lia.
      by replace (lead_days p dl =? 30) with false by lia.
    + intros Hmax. pose proof scaled_ladder_descending as Hd.
      rewrite Forall_forall in Hd. apply Hd, elem_of_seqZ. lia.
Qed.

Definition sample_policy : DeadlinePolicy :=
  {| id := Some "r-1"; rule_key := "tx-renewal"; obligation_type := "LICENSE_RENEWAL";
     recurrence_type := "NMLS_ANNUAL_RENEWAL_WINDOW"; recurrence_config := [];
     adjustment_policy := "NONE"; lead_time_days := Some 45; milestone_offsets := [];
     escalation_policy := []; jurisdiction_id := Some "tx"; license_type_id := None;
     effective_from := None; effective_to := None; priority := 100 |}.

Lemma offsets_ladder_witness :
  (offsets sample_policy 30).*1 = DEFAULT_MILESTONE_OFFSETS.*1 /\
  Forall (fun o => 1 <= o <= 45) (offsets sample_policy 30).*2 /\
  dget "INTERNAL_START" (offsets sample_policy 30) = Some 45 /\
  (45 <= 180 -> descending (offsets sample_policy 30).*2 = true).
Proof. apply (offsets_ladder sample_policy 30); [reflexivity | vm_compute; reflexivity]. Defined.

(** ** Configuration validation *)

(** A validated configuration cannot make the recurrence itself raise
    [RecurrenceError]. *)
Lemma validate_fixed_month_day cfg :
  validate_recurrence_config "FIXED_ANNUAL_DATE" cfg = Ok tt ->
  exists m d, config_month_day cfg = Some (m, d) /\ 1 <= m <= 12 /\ 1 <= d <= 31.
Proof.
  unfold validate_recurrence_config, config_month_day. simpl. intros Hv. inv_ok.
  unfold require_int_between in *. 
  destruct (dget "month" cfg ≫= as_int) as [m|] eqn:Em; [|discriminate].
  destruct (dget "day" cfg ≫= as_int) as [d|] eqn:Ed; [|discriminate].
  inv_ok. exists m, d. split_and!; [done | lia..].
Qed.
