(* ===== verification/DeadlineCalculator.v ===== *)
(** * Deadline calculation ([app/deadlines/calculator.py])

    Statutory deadlines from a recurrence, and the internal milestones derived
    from them. *)
From Stdlib Require Import Ascii.
From S2P Require Import Prelude Vocabulary PyDate PyJson Scoping BusinessDays Recurrence DeadlineRules.
Open Scope Z_scope.
Import DeadlineType DeadlineSeverity.

Definition DEFAULT_DUE_HOUR : Z := 17.

Definition INTERNAL_DEADLINE_TYPES : list string :=
  value <$> [INTERNAL_START; VENDOR_OUTREACH; INFORMATION_DUE; DOCUMENT_PACKET_DUE;
             FORM_COMPLETION_DUE; SIGNATURE_DUE; SUBMISSION_DUE; FOLLOW_UP].

Record PlannedDeadline := {
  deadline_type : string;
  due_at : instant;
  due_date : date;
  severity : string;
  internal_target_at : option instant;
  applied_adjustment : option string;
  source_rule_id : option uuid;
  materialization_key : string;
  status : string;
  needs_manual_review : bool;
  notes : list string
}.

Definition _severity_for (dtype : string) (days_until : Z) : string :=
  let statutory := negb (bool_decide (dtype ∈ INTERNAL_DEADLINE_TYPES)) in
  if days_until <? 0 then value (if statutory then REGULATORY_RISK else CRITICAL)
  else if days_until <=? 3 then value (if statutory then CRITICAL else IMPORTANT)
  else if days_until <=? 14 then value (if statutory then IMPORTANT else NORMAL)
  else if days_until <=? 60 then value NORMAL
  else value INFORMATIONAL.

Definition classify_status (due now : instant) (approaching_days : Z) : string :=
  if due <? now then value DeadlineStatus.OVERDUE
  else if instant_date due =? instant_date now then value DeadlineStatus.DUE_TODAY
  else if delta_days due now <=? approaching_days then value DeadlineStatus.APPROACHING
  else value DeadlineStatus.SCHEDULED.

Definition manual_review_note : string :=
  "The statutory date falls on a non-business day and the rule requires manual confirmation of the effective due date.".
Definition jurisdiction_note : string :=
  "Jurisdiction-specific adjustment is configured but no jurisdiction calendar was supplied; the unadjusted date was kept.".

Section Calculator.
(** The time zone database: the UTC instant of a local wall-clock reading in a
    named zone, [None] for a name it does not know. *)
Context (zoneinfo : string -> option (Z -> instant)).
(** [hashlib.sha256(raw.encode()).hexdigest()]. *)
Context (sha256 : string -> string).

Definition _zone (timezone_name : option string) : Z -> instant :=
  match timezone_name with
  | Some name => if bool_decide (name = "") then (fun t => t)
                 else match zoneinfo name with Some z => z | None => fun t => t end
  | None => fun t => t
  end.

Definition to_due_datetime (d : date) (timezone_name : option string) : instant :=
  _zone timezone_name (combine_utc d DEFAULT_DUE_HOUR).

Definition materialization_raw (obligation_id dtype : string) (d : date) (rule_id : option uuid) : string :=
  obligation_id +:+ "|" +:+ dtype +:+ "|" +:+ isoformat d +:+ "|" +:+ default "no-rule" rule_id.

Definition build_materialization_key (obligation_id dtype : string) (d : date) (rule_id : option uuid) : string :=
  sha256 (materialization_raw obligation_id dtype d rule_id).

(** The statutory entry of one occurrence. *)
Definition statutory_deadline (obligation_id : uuid) (policy : DeadlinePolicy) (stype : string)
    (tz : option string) (lead : Z) (reference adjusted : date) (applied : option string)
    : result exn PlannedDeadline :=
  target ← (if 0 <? lead
            then d ← date_add adjusted (- lead); Ok (Some (to_due_datetime d tz))
            else Ok None);
  let manual := bool_decide (applied = Some (value AdjustmentPolicy.MANUAL_REVIEW)) in
  let jspec := bool_decide (applied = Some (value AdjustmentPolicy.JURISDICTION_SPECIFIC)) in
  Ok {| deadline_type := stype;
        due_at := to_due_datetime adjusted tz;
        due_date := adjusted;
        severity := _severity_for stype (adjusted - reference);
        internal_target_at := target;
        applied_adjustment := applied;
        source_rule_id := DeadlineRules.id policy;
        materialization_key := build_materialization_key obligation_id stype adjusted (DeadlineRules.id policy);
        status := value DeadlineStatus.SCHEDULED;
        needs_manual_review := manual || jspec;
        notes := (if manual then [manual_review_note] else []) ++ (if jspec then [jurisdiction_note] else []) |}.

(** One internal milestone; [None] when its target lies beyond the horizon. *)
Definition milestone_deadline (obligation_id : uuid) (policy : DeadlinePolicy) (cal : BusinessCalendar)
    (tz : option string) (horizon_end reference adjusted : date) (item : string * Z)
    : result exn (option PlannedDeadline) :=
  target ← date_add adjusted (- item.2);
  if horizon_end <? target then Ok None
  else
    shifted ← (if negb (is_business_day cal target) then next_business_day cal target true else Ok target);
    Ok (Some
      {| deadline_type := item.1;
         due_at := to_due_datetime shifted tz;
         due_date := shifted;
         severity := _severity_for item.1 (shifted - reference);
         internal_target_at := Some (to_due_datetime shifted tz);
         applied_adjustment := if negb (shifted =? target)
                               then Some (value AdjustmentPolicy.NEXT_BUSINESS_DAY) else None;
         source_rule_id := DeadlineRules.id policy;
         materialization_key := build_materialization_key obligation_id item.1 shifted (DeadlineRules.id policy);
         status := value DeadlineStatus.SCHEDULED;
         needs_manual_review := false;
         notes := [] |}).

(** Everything planned for one occurrence. *)
Definition plan_occurrence (obligation_id : uuid) (policy : DeadlinePolicy) (cal : BusinessCalendar)
    (stype : string) (tz : option string) (lead : Z) (offs : list (string * Z))
    (horizon_end reference : date) (occurrence : date) : result exn (list PlannedDeadline) :=
  '(adjusted, applied) ← apply_adjustment cal occurrence (adjustment_policy policy);
  statutory ← statutory_deadline obligation_id policy stype tz lead reference adjusted applied;
  milestones ← mapR (milestone_deadline obligation_id policy cal tz horizon_end reference adjusted)
                 (py_sorted (fun a b => b.2 <=? a.2) offs);
  Ok (statutory :: omap (fun x => x) milestones).

Definition plan_deadlines (obligation_id : uuid) (policy : option DeadlinePolicy)
    (context : RecurrenceContext) (horizon_start horizon_end : date) (default_lead_days : Z)
    (tz : option string) (cal : BusinessCalendar) (stype : string) (today : date)
    (max_occurrences : nat) : result exn (list PlannedDeadline) :=
  match policy with
  | None => Ok []
  | Some policy =>
      occurrences ← expand (recurrence_type policy) (recurrence_config policy) context
                      horizon_start horizon_end max_occurrences;
      let lead := lead_days policy default_lead_days in
      let offs := offsets policy default_lead_days in
      planned ← mapR (plan_occurrence obligation_id policy cal stype tz lead offs horizon_end today)
                  occurrences;
      Ok (concat planned)
  end.

(** ** Severity *)

Definition severity_rank (s : DeadlineSeverity) : Z :=
  match s with INFORMATIONAL => 0 | NORMAL => 1 | IMPORTANT => 2 | CRITICAL => 3 | REGULATORY_RISK => 4 end.

Definition rank_of (s : string) : Z := from_option severity_rank (-1) (of_value s).
End Calculator.

(** Severity never falls as a date draws nearer, and at every distance a
    statutory date is at least as severe as an internal one, strictly so within
    the last fortnight and once overdue. *)
Theorem severity_monotone dtype dtype' d d' :
  d <= d' ->
  rank_of (_severity_for dtype d') <= rank_of (_severity_for dtype d) /\
  (dtype ∉ INTERNAL_DEADLINE_TYPES -> dtype' ∈ INTERNAL_DEADLINE_TYPES ->
   rank_of (_severity_for dtype' d) <= rank_of (_severity_for dtype d) /\
   (d <= 14 -> rank_of (_severity_for dtype' d) < rank_of (_severity_for dtype d))).
Proof.
  intros Hd. unfold _severity_for. split.
  - destruct (bool_decide (dtype ∈ _)); simpl; split_cmp; try lia; vm_compute; discriminate.
  - intros Hs Hi. rewrite (bool_decide_eq_false_2 (dtype ∈ _)) by done.
    rewrite (bool_decide_eq_true_2 (dtype' ∈ _)) by done. simpl.
    split; [|intros H14]; split_cmp; try lia; vm_compute; try discriminate; reflexivity.
Qed.

Lemma severity_monotone_witness :
  rank_of (_severity_for "STATUTORY_DUE" 40) <= rank_of (_severity_for "STATUTORY_DUE" 2) /\
  ("STATUTORY_DUE" ∉ INTERNAL_DEADLINE_TYPES -> "SIGNATURE_DUE" ∈ INTERNAL_DEADLINE_TYPES ->
   rank_of (_severity_for "SIGNATURE_DUE" 2) <= rank_of (_severity_for "STATUTORY_DUE" 2) /\
   (2 <= 14 -> rank_of (_severity_for "SIGNATURE_DUE" 2) < rank_of (_severity_for "STATUTORY_DUE" 2))).
Proof. apply (severity_monotone "STATUTORY_DUE" "SIGNATURE_DUE" 2 40). lia. Defined.

(** ** Materialization keys *)

Section Keys.
Context (sha256 : string -> string).

(** A key field: no separator in it. *)
Definition key_field (s : string) : Prop := has_char "|" s = false.

Lemma materialization_raw_inj o o' t t' d d' r r' :
  key_field o -> key_field o' -> key_field t -> key_field t' -> date_ok d -> date_ok d' ->
  r <> Some "no-rule" -> r' <> Some "no-rule" ->
  materialization_raw o t d r = materialization_raw o' t' d' r' ->
  o = o' /\ t = t' /\ d = d' /\ r = r'.
Proof.
  unfold materialization_raw, key_field. intros Ho Ho' Ht Ht' Hd Hd' Hr Hr' E.
  apply split_sep in E as [-> E]; [|done..].
  apply split_sep in E as [-> E]; [|done..].
  apply split_sep in E as [E1 E]; [|apply isoformat_no_bar..].
  apply isoformat_inj in E1; [|done..]. split_and!; [done..|].
  destruct r, r'; simpl in E; congruence.
Qed.

(** Materialization keys identify (obligation, type, date, rule): with a
    collision-free digest and identifiers that hold no separator, two keys are
    equal exactly when all four are.  *)
Theorem materialization_key_inj o o' t t' d d' r r' :
  Inj (=) (=) sha256 ->
  key_field o -> key_field o' -> key_field t -> key_field t' -> date_ok d -> date_ok d' ->
  r <> Some "no-rule" -> r' <> Some "no-rule" ->
  build_materialization_key sha256 o t d r = build_materialization_key sha256 o' t' d' r' <->
  o = o' /\ t = t' /\ d = d' /\ r = r'.
Proof.
  intros Hinj Ho Ho' Ht Ht' Hd Hd' Hr Hr'. split.
  - intros E. apply (inj sha256) in E. by apply materialization_raw_inj.
  - by intros (-> & -> & -> & ->).
Qed.
End Keys.

Lemma materialization_key_inj_witness :
  build_materialization_key (fun s => s) "ob-1" "STATUTORY_DUE" (ymd2ord 2026 5 1) (Some "r-1")
    = build_materialization_key (fun s => s) "ob-1" "STATUTORY_DUE" (ymd2ord 2026 5 2) (Some "r-1") <->
  "ob-1" = "ob-1" /\ "STATUTORY_DUE" = "STATUTORY_DUE" /\ ymd2ord 2026 5 1 = ymd2ord 2026 5 2 /\
  Some "r-1" = Some "r-1".
Proof.
  apply materialization_key_inj; try reflexivity; try (split; vm_compute; discriminate);
    first [discriminate | intros x y E; exact E].
Defined.

(** ** The plan *)

Section Plan.
Context (zoneinfo : string -> option (Z -> instant)) (sha256 : string -> string).
Context (obligation_id : uuid) (policy : DeadlinePolicy) (stype : string) (tz : option string).

#[local] Abbreviation plan cal ctx hs he dl today n :=
  (plan_deadlines zoneinfo sha256 obligation_id (Some policy) ctx hs he dl tz cal stype today n).

Lemma milestone_inv cal he today adjusted item p :
  milestone_deadline zoneinfo sha256 obligation_id policy cal tz he today adjusted item = Ok (Some p) ->
  deadline_type p = item.1 /\ adjusted - item.2 <= he /\
  next_business_day cal (adjusted - item.2) true = Ok (due_date p).
Proof.
  unfold milestone_deadline. intros Hp. apply bind_Ok_inv in Hp as (t & Ht & Hp).
  apply date_add_Ok in Ht as [_ ->]. change (adjusted + - item.2) with (adjusted - item.2) in *.
  destruct (Z.ltb_spec he (adjusted - item.2)); [discriminate|].
  apply bind_Ok_inv in Hp as (s & Hs & Hp). injection Hp as <-. simpl.
  split_and!; [done | lia |].
  destruct (is_business_day cal (adjusted - item.2)) eqn:E; simpl in Hs; [|done].
  injection Hs as <-. unfold next_business_day. msimpl.
  change 30%nat with (S 29). cbn [scan_business]. by rewrite E.
Qed.

Lemma statutory_inv lead today adjusted applied p :
  statutory_deadline zoneinfo sha256 obligation_id policy stype tz lead today adjusted applied = Ok p ->
  deadline_type p = stype /\ due_date p = adjusted /\ applied_adjustment p = applied /\
  severity p = _severity_for stype (adjusted - today).
Proof.
  unfold statutory_deadline. intros Hp. apply bind_Ok_inv in Hp as (t & _ & Hp).
  by injection Hp as <-.
Qed.

(** An internal milestone of the adjusted date [a], on the default calendar. *)
Definition milestone_of (offs : list (string * Z)) (a : date) (p : PlannedDeadline) : Prop :=
  exists off, (deadline_type p, off) ∈ offs /\
    is_business_day DEFAULT_CALENDAR (due_date p) = true /\ a - off <= due_date p <= a - off + 3.

Lemma milestones_inv offs he today a ms :
  mapR (milestone_deadline zoneinfo sha256 obligation_id policy DEFAULT_CALENDAR tz he today a)
    (py_sorted (fun x y => y.2 <=? x.2) offs) = Ok ms ->
  Forall (milestone_of offs a) (omap (fun x => x) ms).
Proof.
  intros Hms. apply mapR_Forall2 in Hms. apply Forall_forall. intros p Hp.
  apply list_elem_of_omap in Hp as ([q|] & Hq & [= <-]).
  apply list_elem_of_lookup in Hq as [i Hi].
  destruct (Forall2_lookup_r _ _ _ _ _ Hms Hi) as (item & Hit & Hm).
  apply milestone_inv in Hm as (Ht & _ & Hn).
  apply next_business_day_business in Hn as (Hb & Hle & _).
  exists item.2. rewrite Ht. split_and!; [|done|lia|lia].
  rewrite <-surjective_pairing. apply (elem_of_py_sorted (fun x y => y.2 <=? x.2)).
  by eapply list_elem_of_lookup_2.
Qed.

Lemma plan_occurrence_inv lead offs he today o lp :
  stype ∉ offs.*1 ->
  plan_occurrence zoneinfo sha256 obligation_id policy DEFAULT_CALENDAR stype tz lead offs he today o
    = Ok lp ->
  exists a, apply_adjustment DEFAULT_CALENDAR o (adjustment_policy policy) = Ok a /\
    due_date <$> filter (fun p => deadline_type p = stype) lp = [a.1] /\
    forall p, p ∈ lp -> deadline_type p <> stype -> milestone_of offs a.1 p.
Proof.
  intros Hfresh Hl. unfold plan_occurrence in Hl.
  apply bind_Ok_inv in Hl as ([a ap] & Ha & Hl). apply bind_Ok_inv in Hl as (st & Hst & Hl).
  apply bind_Ok_inv in Hl as (ms & Hms & Hl). injection Hl as <-.
  apply statutory_inv in Hst as (Ht & Hd & _). apply milestones_inv in Hms.
  exists (a, ap). split_and!; [done | |].
  - rewrite filter_cons_True by done. rewrite fmap_cons, Hd. f_equal.
    rewrite filter_none; [done|]. intros p Hp Hpt.
    rewrite Forall_forall in Hms. destruct (Hms p Hp) as (off & Hoff & _).
    apply Hfresh. rewrite <-Hpt. by apply (list_elem_of_fmap_2 fst) in Hoff.
  - intros p [->|Hp]%elem_of_cons Hpt; [done|]. rewrite Forall_forall in Hms. by apply Hms.
Qed.

(** C33. A plan on the default calendar: its statutory due dates are, in order,
    exactly the expanded occurrences, each moved only as the rule's adjustment
    policy says; and every internal milestone falls on a business day, on its
    offset before the adjusted statutory date or up to three days later. *)
Theorem plan_deadlines_sound ctx hs he dl today n l :
  stype ∉ (offsets policy dl).*1 ->
  plan_deadlines zoneinfo sha256 obligation_id (Some policy) ctx hs he dl tz DEFAULT_CALENDAR
    stype today n = Ok l ->
  exists occs adj,
    expand (recurrence_type policy) (recurrence_config policy) ctx hs he n = Ok occs /\
    Forall2 (fun o a => apply_adjustment DEFAULT_CALENDAR o (adjustment_policy policy) = Ok a) occs adj /\
    due_date <$> filter (fun p => deadline_type p = stype) l = adj.*1 /\
    forall p, p ∈ l -> deadline_type p <> stype ->
      exists a, a ∈ adj.*1 /\ milestone_of (offsets policy dl) a p.
Proof.
  intros Hfresh Hl. unfold plan_deadlines in Hl.
  apply bind_Ok_inv in Hl as (occs & Hocc & Hl). apply bind_Ok_inv in Hl as (lps & Hlps & Hl).
  injection Hl as <-. apply mapR_Forall2 in Hlps. exists occs.
  assert (exists adj, Forall2 (fun o a => apply_adjustment DEFAULT_CALENDAR o (adjustment_policy policy) = Ok a) occs adj /\
    due_date <$> filter (fun p => deadline_type p = stype) (concat lps) = adj.*1 /\
    forall p, p ∈ concat lps -> deadline_type p <> stype ->
      exists a, a ∈ adj.*1 /\ milestone_of (offsets policy dl) a p) as (adj & ? & ? & ?);
    [|by exists adj].
  clear Hocc. induction Hlps as [|o lp occs lps Hp _ IH].
  { exists []. split_and!; [constructor | done |]. intros p Hp. by apply not_elem_of_nil in Hp. }
  destruct IH as (adj & Hadj & Hf & Hm).
  apply plan_occurrence_inv in Hp as (a & Ha & Hfa & Hma); [|done].
  exists (a :: adj). split_and!; [by constructor | |].
  - simpl. by rewrite filter_app, fmap_app, Hfa, Hf.
  - simpl. intros p [Hp|Hp]%elem_of_app Hpt.
    + exists a.1. split; [left | by apply Hma].
    + destruct (Hm p Hp Hpt) as (b & Hb & Hmb). exists b. split; [by right | done].
Qed.

(** The shift to a business day can carry an internal milestone past the
    statutory date it is meant to precede: one day before a Sunday deadline that
    the rule does not move, the milestone lands on the Monday after it. *)
Theorem milestone_can_pass_statutory he today adjusted dtype :
  weekday adjusted = 6 -> is_business_day DEFAULT_CALENDAR (adjusted + 1) = true ->
  2 <= adjusted -> adjusted + 1 <= MAXORDINAL -> adjusted - 1 <= he ->
  exists p, milestone_deadline zoneinfo sha256 obligation_id policy DEFAULT_CALENDAR tz he today
              adjusted (dtype, 1) = Ok (Some p) /\ due_date p = adjusted + 1.
Proof.
  intros Hw Hb Hlo Hhi Hhe. unfold milestone_deadline. cbn [fst snd].
  rewrite (proj2 (date_add_Ok adjusted (Z.opp 1) (adjusted - 1))) by (unfold date_ok; lia). msimpl.
  replace (he <? adjusted - 1) with false by lia.
  assert (Hw' : forall k, weekday (adjusted + k) = (6 + k) mod 7).
  { intros k. by rewrite weekday_add, Hw. }
  assert (is_business_day DEFAULT_CALENDAR (adjusted - 1) = false) as E1.
  { rewrite default_business_day. change (adjusted - 1) with (adjusted + -1). by rewrite Hw'. }
  assert (is_business_day DEFAULT_CALENDAR adjusted = false) as E2.
  { rewrite default_business_day. by rewrite Hw. }
  rewrite E1. simpl negb. cbv iota. unfold next_business_day. msimpl.
  change 30%nat with (S (S (S 27))). cbn [scan_business]. rewrite E1.
  rewrite (proj2 (date_add_Ok (adjusted - 1) 1 adjusted)) by (unfold date_ok; lia). msimpl. rewrite E2.
  rewrite (proj2 (date_add_Ok adjusted 1 (adjusted + 1))) by (unfold date_ok; lia). msimpl. rewrite Hb.
  eexists. split; [reflexivity | done].
Qed.
End Plan.

Definition sample_plan : result exn (list PlannedDeadline) :=
  plan_deadlines (fun _ => None) (fun s => s) "ob-1" (Some sample_policy) empty_context
    (ymd2ord 2026 2 1) (ymd2ord 2027 6 1) 30 None DEFAULT_CALENDAR "STATUTORY_DUE"
    (ymd2ord 2026 2 1) 6.

Lemma plan_deadlines_sound_witness :
  is_ok sample_plan = true /\
  let l := match sample_plan with Ok l => l | Err _ => [] end in
  exists occs adj,
    expand "NMLS_ANNUAL_RENEWAL_WINDOW" [] empty_context (ymd2ord 2026 2 1) (ymd2ord 2027 6 1) 6 = Ok occs /\
    Forall2 (fun o a => apply_adjustment DEFAULT_CALENDAR o "NONE" = Ok a) occs adj /\
    due_date <$> filter (fun p => deadline_type p = "STATUTORY_DUE") l = adj.*1 /\
    forall p, p ∈ l -> deadline_type p <> "STATUTORY_DUE" ->
      exists a, a ∈ adj.*1 /\ milestone_of (offsets sample_policy 30) a p.
Proof.
  split; [vm_compute; reflexivity|].
  apply (plan_deadlines_sound (fun _ => None) (fun s => s) "ob-1" sample_policy
      "STATUTORY_DUE" None empty_context (ymd2ord 2026 2 1) (ymd2ord 2027 6 1) 30 (ymd2ord 2026 2 1) 6).
  - apply (bool_decide_unpack _). vm_compute. exact I.
  - vm_compute. reflexivity.
Defined.

Lemma milestone_can_pass_statutory_witness :
  exists p, milestone_deadline (fun _ => None) (fun s => s) "ob-1" sample_policy DEFAULT_CALENDAR None
      (ymd2ord 2027 6 1) (ymd2ord 2026 2 1) (ymd2ord 2027 1 31) ("SUBMISSION_DUE", 1) = Ok (Some p) /\
    due_date p = ymd2ord 2027 1 31 + 1.
Proof.
  apply milestone_can_pass_statutory; first [reflexivity | vm_compute; discriminate].
Defined.
