(* ===== verification/Escalation.v ===== *)
(** * Escalation ladder ([app/deadlines/escalation.py])

    Which window a deadline has entered, whether that is news, and who is told. *)
From S2P Require Import Prelude Vocabulary PyDate Scoping DeadlineRules DeadlineCalculator.
Open Scope Z_scope.
Import EscalationLevel.

Definition DEFAULT_OVERDUE_LADDER : list (Z * string) :=
  [(0, value MANAGER); (3, value MANAGER); (7, value COUNSEL); (14, value EXECUTIVE)].

Definition _LEVEL_ORDER (l : EscalationLevel) : Z :=
  match l with OWNER => 1 | BACKUP_OWNER => 2 | REVIEWER => 3 | MANAGER => 4 | COUNSEL => 5 | EXECUTIVE => 6 end.

Definition level_rank (level : option string) : Z :=
  from_option _LEVEL_ORDER 0 (of_value (default "" level)).

Record EscalationDecision := {
  should_notify : bool;
  level : option string;
  window_days : option Z;
  days_remaining : Z;
  is_overdue : bool;
  decision_severity : string
}.

Definition sorted_keys (l : list (Z * string)) : list Z := py_sorted Z.leb (remove_dups l.*1).

(** A ladder argument: [ladder or DEFAULT]. *)
Definition ladder_or (l : option (list (Z * string))) (d : list (Z * string)) : list (Z * string) :=
  match l with Some ((_ :: _) as l) => l | _ => d end.

Definition upcoming_severity (delta : Z) : string :=
  if delta <=? 3 then value DeadlineSeverity.CRITICAL
  else if delta <=? 14 then value DeadlineSeverity.IMPORTANT
  else value DeadlineSeverity.NORMAL.

Definition evaluate_escalation (due_at : instant) (last_escalation_level : option string)
    (ladder overdue_ladder : option (list (Z * string))) (overdue_enabled : bool) (now : instant)
    : EscalationDecision :=
  let upcoming := ladder_or ladder DEFAULT_ESCALATION_LADDER in
  let overdue := ladder_or overdue_ladder DEFAULT_OVERDUE_LADDER in
  let delta := instant_date due_at - instant_date now in
  if delta <? 0 then
    let quiet := {| should_notify := false; level := None; window_days := None;
                    days_remaining := delta; is_overdue := true;
                    decision_severity := value DeadlineSeverity.REGULATORY_RISK |} in
    if negb overdue_enabled then quiet
    else
      let days_past := Z.abs delta in
      match last (filter (fun t => t <= days_past) (sorted_keys overdue)) with
      | None => quiet
      | Some threshold =>
          let lvl := ladder_get threshold overdue in
          {| should_notify := level_rank last_escalation_level <? level_rank lvl;
             level := lvl; window_days := Some threshold; days_remaining := delta;
             is_overdue := true; decision_severity := value DeadlineSeverity.REGULATORY_RISK |}
      end
  else
    match head (filter (fun w => delta <= w) (sorted_keys upcoming)) with
    | None =>
        {| should_notify := false; level := None; window_days := None; days_remaining := delta;
           is_overdue := false; decision_severity := value DeadlineSeverity.INFORMATIONAL |}
    | Some window =>
        let lvl := ladder_get window upcoming in
        {| should_notify := level_rank last_escalation_level <? level_rank lvl;
           level := lvl; window_days := Some window; days_remaining := delta;
           is_overdue := false; decision_severity := upcoming_severity delta |}
    end.

(** The first truthy candidate of a chain. *)
Fixpoint first_actor (chain : list (option string)) : option string :=
  match chain with
  | [] => None
  | c :: chain => if truthy_str c then c else first_actor chain
  end.

Definition resolve_recipient (lvl : string)
    (owner backup_owner reviewer manager counsel executive : option string) : option string :=
  first_actor
    match of_value lvl with
    | Some OWNER => [owner; backup_owner; manager]
    | Some BACKUP_OWNER => [backup_owner; owner; manager]
    | Some REVIEWER => [reviewer; manager; owner]
    | Some MANAGER => [manager; reviewer; owner]
    | Some COUNSEL => [counsel; manager]
    | Some EXECUTIVE => [executive; manager; counsel]
    | None => [owner]
    end.

(** ** Laws *)

Lemma elem_of_sorted_keys k l : k ∈ sorted_keys l <-> k ∈ l.*1.
Proof. unfold sorted_keys. by rewrite elem_of_py_sorted, elem_of_remove_dups. Qed.

Lemma sorted_keys_sorted l : StronglySorted (fun a b => Z.leb a b = true) (sorted_keys l).
Proof. apply py_sorted_sorted; intros; lia. Qed.

Lemma ladder_get_in k l : k ∈ l.*1 -> exists v, ladder_get k l = Some v /\ (k, v) ∈ l.
Proof.
  induction l as [|[d v] l IH]; simpl; intros Hk; [by apply not_elem_of_nil in Hk|].
  destruct (ladder_get k l) as [w|] eqn:E.
  - exists w. split; [done|]. right. destruct (decide (k ∈ l.*1)) as [Hin|Hni].
    + destruct (IH Hin) as (w' & [= ->] & ?). done.
    + exfalso. clear IH Hk. induction l as [|[d' v'] l IH]; [done|]. simpl in *.
      apply not_elem_of_cons in Hni as [Hne Hni].
      destruct (ladder_get k l) eqn:E'; [by apply IH|]. destruct (Z.eqb_spec d' k); [congruence|done].
  - apply elem_of_cons in Hk as [->|Hk].
    + rewrite Z.eqb_refl. exists v. split; [done | left].
    + destruct (IH Hk) as (w & [=] & _).
Qed.

(** The head of a sorted list is least, its last element greatest. *)
Lemma sorted_head_min (l : list Z) x :
  StronglySorted (fun a b => Z.leb a b = true) l -> head l = Some x ->
  x ∈ l /\ forall y, y ∈ l -> x <= y.
Proof.
  destruct 1 as [|z l Hs Hall]; simpl; intros [= ->]. split; [left|].
  intros y [->|Hy]%elem_of_cons; [lia|]. rewrite Forall_forall in Hall. specialize (Hall _ Hy). simpl in *. lia.
Qed.

Lemma sorted_last_max (l : list Z) x :
  StronglySorted (fun a b => Z.leb a b = true) l -> last l = Some x ->
  x ∈ l /\ forall y, y ∈ l -> y <= x.
Proof.
  intros Hs. revert x. induction Hs as [|z l Hs IH Hall]; intros x Hx; [done|].
  destruct l as [|w l].
  - injection Hx as ->. split; [left|]. intros y Hy%list_elem_of_singleton. lia.
  - rewrite last_cons_cons in Hx. destruct (IH x Hx) as [Hin Hmax]. split; [by right|].
    intros y [->|Hy]%elem_of_cons; [|by apply Hmax].
    rewrite Forall_forall in Hall. specialize (Hall _ Hin). simpl in *. lia.
Qed.

(** What a decision means: the window is the tightest one entered (the widest
    threshold passed, when overdue), its level is the ladder's, and it is notified
    exactly when that level outranks the last one. *)
Definition decision_spec (ladder : list (Z * string)) (entered : Z -> Prop) (tighter : Z -> Z -> Prop)
    (prev : option string) (d : EscalationDecision) : Prop :=
  match window_days d with
  | Some w =>
      w ∈ ladder.*1 /\ entered w /\ (forall w', w' ∈ ladder.*1 -> entered w' -> tighter w w') /\
      level d = ladder_get w ladder /\ is_Some (level d) /\
      (should_notify d = true <-> level_rank prev < level_rank (level d))
  | None => should_notify d = false /\ level d = None /\ forall w, w ∈ ladder.*1 -> ~ entered w
  end.

(** [evaluate_escalation] enters the tightest window of the ladder that the
    remaining (or elapsed) days have reached, reports that rung's level, and asks
    for a notification exactly when the rung outranks the last notified level; with
    overdue escalation disabled an overdue deadline is silent. *)
Theorem evaluate_escalation_spec due prev ladder oladder en now :
  let d := evaluate_escalation due prev ladder oladder en now in
  let delta := instant_date due - instant_date now in
  days_remaining d = delta /\ is_overdue d = (delta <? 0) /\
  if delta <? 0
  then if negb en then should_notify d = false /\ level d = None
       else decision_spec (ladder_or oladder DEFAULT_OVERDUE_LADDER) (fun t => t <= - delta) Z.ge prev d
  else decision_spec (ladder_or ladder DEFAULT_ESCALATION_LADDER) (fun w => delta <= w) Z.le prev d.
Proof.
  cbv zeta. unfold evaluate_escalation, decision_spec. cbv zeta.
  set (delta := instant_date due - instant_date now). destruct (Z.ltb_spec delta 0).
  - destruct en; simpl negb; cbv iota; [|done].
    replace (Z.abs delta) with (- delta) by lia.
    set (l := ladder_or oladder _).
    destruct (last (filter _ (sorted_keys l))) as [t|] eqn:E; simpl; (split; [done|]; split; [done|]).
    + apply sorted_last_max in E as [Hin Hmax]; [|apply StronglySorted_filter, sorted_keys_sorted].
      apply list_elem_of_filter in Hin as [Ht Hin]. rewrite elem_of_sorted_keys in Hin.
      destruct (ladder_get_in _ _ Hin) as (v & Hv & _).
      split_and!; [done | done | | done | by rewrite Hv | apply Z.ltb_lt].
      intros w Hw Hle. apply Z.le_ge, Hmax, list_elem_of_filter. by rewrite elem_of_sorted_keys.
    + split; [done|]. split; [done|]. intros w Hw Hle. apply last_None in E.
      eapply (filter_nil_not_elem_of _ _ w); [exact E | exact Hle | by apply elem_of_sorted_keys].
  - set (l := ladder_or ladder _).
    destruct (head (filter _ (sorted_keys l))) as [t|] eqn:E; simpl; (split; [done|]; split; [done|]).
    + apply sorted_head_min in E as [Hin Hmin]; [|apply StronglySorted_filter, sorted_keys_sorted].
      apply list_elem_of_filter in Hin as [Ht Hin]. rewrite elem_of_sorted_keys in Hin.
      destruct (ladder_get_in _ _ Hin) as (v & Hv & _).
      split_and!; [done | done | | done | by rewrite Hv | apply Z.ltb_lt].
      intros w Hw Hle. apply Hmin, list_elem_of_filter. by rewrite elem_of_sorted_keys.
    + split; [done|]. split; [done|]. intros w Hw Hle. apply head_None in E.
      eapply (filter_nil_not_elem_of _ _ w); [exact E | exact Hle | by apply elem_of_sorted_keys].
Qed.

(** A level that has been notified is never notified again. *)
Lemma escalation_not_repeated due prev ladder oladder en now :
  let d := evaluate_escalation due prev ladder oladder en now in
  should_notify d = true -> level_rank prev < level_rank (level d).
Proof.
  cbv zeta. unfold evaluate_escalation. cbv zeta.
  repeat case_match; simpl; try discriminate; lia.
Qed.

(** Deciding again with the level just reached: the same level, and no news. *)
Lemma evaluate_again due prev ladder oladder en now :
  let d := evaluate_escalation due prev ladder oladder en now in
  let d2 := evaluate_escalation due (level d) ladder oladder en now in
  level d2 = level d /\ should_notify d2 = false.
Proof.
  cbv zeta. unfold evaluate_escalation. cbv zeta.
  repeat (case_match; simpl); split; try done; apply Z.ltb_irrefl.
Qed.
