(* ===== verification/DeadlineService.v ===== *)
(** * Deadline service ([app/services/deadline_service.py], [app/deadlines/alerts.py])

    The tables the service reads and writes, and its operations as functions from
    a database to a result and the next database.  A raised exception leaves no
    database: the caller's session rolls back.  Every [utcnow()] of one call reads
    the same instant; message texts, metrics and logging are not modelled. *)
From stdpp Require Import pretty.
From S2P Require Import Prelude Vocabulary PyDate PyJson Scoping BusinessDays Recurrence.
From S2P Require Import DeadlineRules DeadlineCalculator Escalation.
Open Scope Z_scope.

(** ** Tables *)

Record LicenseInventory := {
  lic_license_type_id : option uuid;
  lic_issue_date : option date;
  lic_effective_date : option date;
  lic_expiration_date : option date
}.

Record ComplianceObligation := {
  ob_id : uuid;
  ob_obligation_type : string;
  ob_status : string;
  ob_license_id : option uuid;
  ob_bond_id : option uuid;
  ob_jurisdiction_id : option uuid;
  ob_responsible_owner : option string;
  ob_statutory_due_date : option date;
  ob_next_due_date : option date;
  ob_internal_start_date : option date
}.

(** A rule row; [milestone_offsets] is JSONB. *)
Record DeadlineRule := {
  rule_policy : DeadlinePolicy;
  rule_milestone_offsets : list (string * json);
  rule_status : string
}.

Record ComplianceDeadline := {
  dl_id : uuid;
  dl_obligation_id : uuid;
  dl_compliance_case_id : option uuid;
  dl_deadline_type : string;
  dl_due_at : instant;
  dl_internal_target_at : option instant;
  dl_status : string;
  dl_severity : string;
  dl_assigned_owner : option string;
  dl_backup_owner : option string;
  dl_source_rule_id : option uuid;
  dl_materialization_key : option string;
  dl_last_escalation_level : option string;
  dl_last_escalated_at : option instant;
  dl_applied_adjustment : option string;
  dl_manually_overridden : bool;
  dl_override_reason : option string;
  dl_completed_at : option instant;
  dl_completed_by_actor : option string
}.

Record DeadlineEvent := {
  ev_deadline_id : uuid;
  ev_event_type : string;
  ev_previous_due_at : option instant;
  ev_new_due_at : option instant;
  ev_actor_id : string;
  ev_occurred_at : instant
}.

Record Notification := {
  nt_type : string;
  nt_severity : string;
  nt_recipient : string;
  nt_level : option string;
  nt_entity_id : string;
  nt_idempotency_key : string
}.

Record Db := {
  obligations : gmap string ComplianceObligation;
  licenses : gmap string LicenseInventory;
  bonds : gmap string (option date);
  jurisdictions : gmap string (option string);
  rules : list DeadlineRule;
  deadlines : list ComplianceDeadline;
  deadline_events : list DeadlineEvent;
  notifications : list Notification;
  audits : list (string * uuid);
  (** the identifiers [uuid4()] will return *)
  next_id : nat
}.

Record Settings := {
  licensing_planning_horizon_days : Z;
  licensing_default_lead_days : Z;
  licensing_default_timezone : option string;
  deadline_overdue_escalation_enabled : bool
}.

Definition OPEN_DEADLINE_STATUSES : list string :=
  value <$> [DeadlineStatus.SCHEDULED; DeadlineStatus.APPROACHING; DeadlineStatus.DUE_TODAY;
             DeadlineStatus.OVERDUE].

Definition is_open (d : ComplianceDeadline) : bool :=
  bool_decide (dl_status d ∈ OPEN_DEADLINE_STATUSES).

(** ** Materialization *)

Section Service.
Context (zoneinfo : string -> option (Z -> instant)) (sha256 : string -> string).
Context (py_str : json -> string).
(** The [n]-th identifier the process generates. *)
Context (uuid4 : nat -> uuid).
Context (settings : Settings).

Definition with_deadlines (db : Db) (ds : list ComplianceDeadline) : Db :=
  {| obligations := obligations db; licenses := licenses db; bonds := bonds db;
     jurisdictions := jurisdictions db; rules := rules db; deadlines := ds;
     deadline_events := deadline_events db; notifications := notifications db;
     audits := audits db; next_id := next_id db |}.

(** [int(v)] on every configured offset. *)
Fixpoint int_items (items : list (string * json)) : result exn (list (string * Z)) :=
  match items with
  | [] => Ok []
  | (k, v) :: items => n ← py_int v; rest ← int_items items; Ok ((k, n) :: rest)
  end.

Definition _to_policy (r : DeadlineRule) : result exn DeadlinePolicy :=
  offs ← int_items (rule_milestone_offsets r);
  let p := rule_policy r in
  Ok {| id := id p; rule_key := rule_key p; obligation_type := obligation_type p;
        recurrence_type := recurrence_type p; recurrence_config := recurrence_config p;
        adjustment_policy := adjustment_policy p; lead_time_days := lead_time_days p;
        milestone_offsets := offs; escalation_policy := escalation_policy p;
        jurisdiction_id := jurisdiction_id p; license_type_id := license_type_id p;
        effective_from := effective_from p; effective_to := effective_to p; priority := priority p |}.

Definition _active_policies (db : Db) : result exn (list DeadlinePolicy) :=
  mapR _to_policy (filter (fun r => rule_status r = "ACTIVE") (rules db)).

Definition obligation_context (ob : ComplianceObligation) (lic : option LicenseInventory)
    (bond : option (option date)) : RecurrenceContext :=
  {| issue_date := lic ≫= lic_issue_date;
     effective_date := lic ≫= lic_effective_date;
     expiration_date := lic ≫= lic_expiration_date;
     regulator_supplied_due_date := ob_statutory_due_date ob;
     bond_expiration_date := bond ≫= (fun x => x);
     annual_report_date := ob_next_due_date ob;
     last_completed_date := None; case_event_date := None; manual_date := None |}.

Definition statutory_type_for (otype : string) : string :=
  if bool_decide (otype = value ObligationType.BOND_RENEWAL) then value DeadlineType.BOND_EXPIRY
  else if bool_decide (otype = value ObligationType.ANNUAL_REPORT) then value DeadlineType.ANNUAL_REPORT_DUE
  else value DeadlineType.STATUTORY_DUE.

(** [a or b] on optional strings. *)
Definition str_or (a b : option string) : option string := if truthy_str a then a else b.

(** The plan of one obligation at [now]; [None] when no rule applies. *)
Definition plan_for (db : Db) (ob : ComplianceObligation) (horizon_days : option Z) (now : instant)
    : result exn (option (DeadlinePolicy * list PlannedDeadline)) :=
  let lic := ob_license_id ob ≫= fun i => licenses db !! i in
  let bond := ob_bond_id ob ≫= fun i => bonds db !! i in
  let jur := ob_jurisdiction_id ob ≫= fun i => jurisdictions db !! i in
  let today := instant_date now in
  let horizon := match horizon_days with
                 | Some h => if h =? 0 then licensing_planning_horizon_days settings else h
                 | None => licensing_planning_horizon_days settings end in
  policies ← _active_policies db;
  match resolve_policy policies (ob_obligation_type ob) today (ob_jurisdiction_id ob)
          (lic ≫= lic_license_type_id) with
  | None => Ok None
  | Some policy =>
      horizon_end ← date_add today horizon;
      planned ← plan_deadlines zoneinfo sha256 (ob_id ob) (Some policy)
        (obligation_context ob lic bond) today horizon_end (licensing_default_lead_days settings)
        (str_or (jur ≫= fun z => z) (licensing_default_timezone settings)) DEFAULT_CALENDAR
        (statutory_type_for (ob_obligation_type ob)) today 6;
      Ok (Some (policy, planned))
  end.

(** The row of a planned deadline. *)
Definition new_deadline (i : uuid) (ob : ComplianceObligation) (now : instant) (p : PlannedDeadline)
    : ComplianceDeadline :=
  {| dl_id := i; dl_obligation_id := ob_id ob; dl_compliance_case_id := None;
     dl_deadline_type := deadline_type p; dl_due_at := due_at p;
     dl_internal_target_at := internal_target_at p;
     dl_status := classify_status (due_at p) now 30; dl_severity := severity p;
     dl_assigned_owner := ob_responsible_owner ob; dl_backup_owner := None;
     dl_source_rule_id := source_rule_id p;
     dl_materialization_key := Some (materialization_key p);
     dl_last_escalation_level := None; dl_last_escalated_at := None;
     dl_applied_adjustment := applied_adjustment p; dl_manually_overridden := false;
     dl_override_reason :=
       if needs_manual_review p && negb (bool_decide (notes p = []))
       then Some (String.concat "; " (notes p)) else None;
     dl_completed_at := None; dl_completed_by_actor := None |}.

Definition key_in_use (k : string) (ds : list ComplianceDeadline) : bool :=
  bool_decide (Some k ∈ dl_materialization_key <$> ds).

(** [session.add(deadline); flush()] and its CREATED event: the unique index on
    the materialization key refuses a second row. *)
Definition insert_deadline (ob : ComplianceObligation) (now : instant) (actor : option string)
    (p : PlannedDeadline) (db : Db) : result exn (ComplianceDeadline * Db) :=
  let row := new_deadline (uuid4 (next_id db)) ob now p in
  _ ← raise_unless (negb (key_in_use (materialization_key p) (deadlines db))) IntegrityError;
  Ok (row,
    {| obligations := obligations db; licenses := licenses db; bonds := bonds db;
       jurisdictions := jurisdictions db; rules := rules db;
       deadlines := deadlines db ++ [row];
       deadline_events := deadline_events db ++
         [{| ev_deadline_id := dl_id row; ev_event_type := "CREATED"; ev_previous_due_at := None;
             ev_new_due_at := Some (dl_due_at row);
             ev_actor_id := default "deadline-worker" actor; ev_occurred_at := now |}];
       notifications := notifications db; audits := audits db; next_id := S (next_id db) |}).

(** The insertion loop: [existing] was read once, before it. *)
Fixpoint insert_plans (ob : ComplianceObligation) (now : instant) (actor : option string)
    (existing : list string) (planned : list PlannedDeadline) (db : Db)
    : result exn (list ComplianceDeadline * Db) :=
  match planned with
  | [] => Ok ([], db)
  | p :: planned =>
      if bool_decide (materialization_key p ∈ existing)
      then insert_plans ob now actor existing planned db
      else
        '(row, db) ← insert_deadline ob now actor p db;
        '(rows, db) ← insert_plans ob now actor existing planned db;
        Ok (row :: rows, db)
  end.

(** [min(statutory, key=due_date)], the first of the earliest. *)
Definition earliest (ps : list PlannedDeadline) : option PlannedDeadline :=
  match ps with
  | [] => None
  | p :: ps => Some (foldl (fun a b => if due_date b <? due_date a then b else a) p ps)
  end.

Definition update_obligation (ob : ComplianceObligation) (e : PlannedDeadline) : ComplianceObligation :=
  {| ob_id := ob_id ob; ob_obligation_type := ob_obligation_type ob;
     ob_status := if bool_decide (ob_status ob = value ObligationStatus.PLANNED)
                  then value ObligationStatus.ACTIVE else ob_status ob;
     ob_license_id := ob_license_id ob; ob_bond_id := ob_bond_id ob;
     ob_jurisdiction_id := ob_jurisdiction_id ob; ob_responsible_owner := ob_responsible_owner ob;
     ob_statutory_due_date := ob_statutory_due_date ob;
     ob_next_due_date := Some (due_date e);
     ob_internal_start_date := match internal_target_at e with
                               | Some t => Some (instant_date t)
                               | None => ob_internal_start_date ob end |}.

Definition with_obligation (db : Db) (ob : ComplianceObligation) : Db :=
  {| obligations := <[ob_id ob := ob]> (obligations db); licenses := licenses db; bonds := bonds db;
     jurisdictions := jurisdictions db; rules := rules db; deadlines := deadlines db;
     deadline_events := deadline_events db; notifications := notifications db;
     audits := audits db; next_id := next_id db |}.

Definition add_audit (db : Db) (action : string) (entity : uuid) : Db :=
  {| obligations := obligations db; licenses := licenses db; bonds := bonds db;
     jurisdictions := jurisdictions db; rules := rules db; deadlines := deadlines db;
     deadline_events := deadline_events db; notifications := notifications db;
     audits := audits db ++ [(action, entity)]; next_id := next_id db |}.

Definition materialize_for_obligation (oid : uuid) (actor : option string) (horizon_days : option Z)
    (now : instant) (db : Db) : result exn (list ComplianceDeadline * Db) :=
  match obligations db !! oid with
  | None => Err NotFoundError
  | Some ob =>
      planned ← plan_for db ob horizon_days now;
      match planned with
      | None | Some (_, []) => Ok ([], db)
      | Some (_, planned) =>
          let keys := materialization_key <$> planned in
          let existing := filter (fun k => key_in_use k (deadlines db) = true) keys in
          '(created, db) ← insert_plans ob now actor existing planned db;
          let statutory := filter (fun p => deadline_type p = statutory_type_for (ob_obligation_type ob)) planned in
          let db := match earliest statutory with
                    | Some e => with_obligation db (update_obligation ob e)
                    | None => db end in
          let db := match created with
                    | [] => db
                    | _ => add_audit db "deadlines_materialized" (ob_id ob) end in
          Ok (created, db)
      end
  end.

(** The sweep over active obligations, in the order the query returns them. *)
Fixpoint materialize_sweep (oids : list uuid) (actor : option string) (now : instant) (db : Db)
    : result exn (nat * Db) :=
  match oids with
  | [] => Ok (0%nat, db)
  | oid :: oids =>
      '(created, db) ← materialize_for_obligation oid actor None now db;
      '(n, db) ← materialize_sweep oids actor now db;
      Ok ((length created + n)%nat, db)
  end.

Definition sweepable (ob : ComplianceObligation) : bool :=
  bool_decide (ob_status ob ∈ value <$> [ObligationStatus.PLANNED; ObligationStatus.ACTIVE]).

Definition materialize_all (actor : option string) (limit : nat) (now : instant) (db : Db)
    : result exn (nat * nat * Db) :=
  let oids := take limit ((filter (fun kv => sweepable kv.2 = true) (map_to_list (obligations db))).*1) in
  '(n, db) ← materialize_sweep oids actor now db;
  Ok (length oids, n, db).

(** ** Status refresh *)

Definition set_status (d : ComplianceDeadline) (s : string) : ComplianceDeadline :=
  {| dl_id := dl_id d; dl_obligation_id := dl_obligation_id d;
     dl_compliance_case_id := dl_compliance_case_id d; dl_deadline_type := dl_deadline_type d;
     dl_due_at := dl_due_at d; dl_internal_target_at := dl_internal_target_at d;
     dl_status := s; dl_severity := dl_severity d; dl_assigned_owner := dl_assigned_owner d;
     dl_backup_owner := dl_backup_owner d; dl_source_rule_id := dl_source_rule_id d;
     dl_materialization_key := dl_materialization_key d;
     dl_last_escalation_level := dl_last_escalation_level d;
     dl_last_escalated_at := dl_last_escalated_at d; dl_applied_adjustment := dl_applied_adjustment d;
     dl_manually_overridden := dl_manually_overridden d; dl_override_reason := dl_override_reason d;
     dl_completed_at := dl_completed_at d; dl_completed_by_actor := dl_completed_by_actor d |}.

Definition refresh_one (now : instant) (d : ComplianceDeadline) : ComplianceDeadline :=
  if is_open d then set_status d (classify_status (dl_due_at d) now 30) else d.

Definition refresh_changes (now : instant) (d : ComplianceDeadline) : bool :=
  is_open d && negb (bool_decide (classify_status (dl_due_at d) now 30 = dl_status d)).

Definition refresh_statuses (now : instant) (db : Db) : nat * Db :=
  (length (filter (fun d => refresh_changes now d = true) (deadlines db)),
   with_deadlines db (refresh_one now <$> deadlines db)).

(** ** Escalation sweep *)

Definition int_text (n : Z) : string := pretty n.

Definition notification_key_suffix (d : EscalationDecision) : string :=
  (if is_overdue d then "overdue-" else "upcoming-") +:+
  match window_days d with Some w => int_text w | None => "None" end.

(** [build_idempotency_key("deadline", id, suffix, level)]. *)
Definition deadline_alert_key (deadline_id suffix : string) (lvl : option string) : string :=
  let part := fun o : option string => if truthy_str o then default "" o else "-" in
  sha256 ("deadline" +:+ "|" +:+ part (Some deadline_id) +:+ "|" +:+ part (Some suffix) +:+ "|" +:+ part lvl).

Definition deadline_alert (d : ComplianceDeadline) (recipient : string) (dec : EscalationDecision)
    : Notification :=
  {| nt_type := if is_overdue dec then "OVERDUE_ESCALATION" else "DEADLINE_WARNING";
     nt_severity := decision_severity dec; nt_recipient := recipient; nt_level := level dec;
     nt_entity_id := dl_id d;
     nt_idempotency_key := deadline_alert_key (dl_id d) (notification_key_suffix dec) (level dec) |}.

(** [record_notification]: refused when the idempotency key is known. *)
Definition record_notification (n : Notification) (ns : list Notification) : option (list Notification) :=
  if bool_decide (nt_idempotency_key n ∈ nt_idempotency_key <$> ns) then None else Some (ns ++ [n]).

Definition set_escalated (d : ComplianceDeadline) (dec : EscalationDecision) (now : instant)
    : ComplianceDeadline :=
  {| dl_id := dl_id d; dl_obligation_id := dl_obligation_id d;
     dl_compliance_case_id := dl_compliance_case_id d; dl_deadline_type := dl_deadline_type d;
     dl_due_at := dl_due_at d; dl_internal_target_at := dl_internal_target_at d;
     dl_status := dl_status d; dl_severity := decision_severity dec;
     dl_assigned_owner := dl_assigned_owner d; dl_backup_owner := dl_backup_owner d;
     dl_source_rule_id := dl_source_rule_id d; dl_materialization_key := dl_materialization_key d;
     dl_last_escalation_level := level dec; dl_last_escalated_at := Some now;
     dl_applied_adjustment := dl_applied_adjustment d;
     dl_manually_overridden := dl_manually_overridden d; dl_override_reason := dl_override_reason d;
     dl_completed_at := dl_completed_at d; dl_completed_by_actor := dl_completed_by_actor d |}.

Definition rule_by_id (db : Db) (i : uuid) : option DeadlineRule :=
  head (filter (fun r => id (rule_policy r) = Some i) (rules db)).

(** The ladder the sweep passes on: the source rule's, or none. *)
Definition deadline_ladder (db : Db) (d : ComplianceDeadline) : result exn (option (list (Z * string))) :=
  match dl_source_rule_id d ≫= rule_by_id db with
  | None => Ok None
  | Some r => p ← _to_policy r; Some <$> escalation_ladder py_str p
  end.

(** One deadline of the sweep: the row afterwards and the notification sent. *)
Definition escalate_one (db : Db) (manager_actor : option string) (now : instant)
    (ns : list Notification) (d : ComplianceDeadline)
    : result exn (ComplianceDeadline * option Notification) :=
  if negb (is_open d) then Ok (d, None)
  else
    ladder ← deadline_ladder db d;
    let dec := evaluate_escalation (dl_due_at d) (dl_last_escalation_level d) ladder None
                 (deadline_overdue_escalation_enabled settings) now in
    match level dec with
    | Some lvl =>
        if negb (should_notify dec) then Ok (d, None)
        else
          let r := resolve_recipient lvl (dl_assigned_owner d) (dl_backup_owner d) None manager_actor None None in
          if negb (truthy_str r) then Ok (d, None)
          else
            let n := deadline_alert d (default "" r) dec in
            match record_notification n ns with
            | None => Ok (d, None)
            | Some _ => Ok (set_escalated d dec now, Some n)
            end
    | None => Ok (d, None)
    end.

Fixpoint escalate_loop (db : Db) (manager_actor : option string) (now : instant)
    (ns : list Notification) (ds : list ComplianceDeadline)
    : result exn (list ComplianceDeadline * list Notification * nat) :=
  match ds with
  | [] => Ok ([], ns, 0%nat)
  | d :: ds =>
      '(d', sent) ← escalate_one db manager_actor now ns d;
      '(ds', ns', k) ← escalate_loop db manager_actor now (ns ++ option_list sent) ds;
      Ok (d' :: ds', ns', (length (option_list sent) + k)%nat)
  end.

Definition run_escalations (manager_actor : option string) (now : instant) (db : Db)
    : result exn (nat * Db) :=
  '(ds, ns, k) ← escalate_loop db manager_actor now (notifications db) (deadlines db);
  Ok (k,
    {| obligations := obligations db; licenses := licenses db; bonds := bonds db;
       jurisdictions := jurisdictions db; rules := rules db; deadlines := ds;
       deadline_events := deadline_events db ++
         ((fun n => {| ev_deadline_id := nt_entity_id n; ev_event_type := "ESCALATED";
                       ev_previous_due_at := None; ev_new_due_at := None;
                       ev_actor_id := "deadline-worker"; ev_occurred_at := now |})
            <$> drop (length (notifications db)) ns);
       notifications := ns; audits := audits db; next_id := next_id db |}).

(** ** Override and completion *)

Definition find_deadline (i : uuid) (db : Db) : option ComplianceDeadline :=
  head (filter (fun d => dl_id d = i) (deadlines db)).

Definition replace_deadline (d : ComplianceDeadline) (ds : list ComplianceDeadline) : list ComplianceDeadline :=
  (fun e => if bool_decide (dl_id e = dl_id d) then d else e) <$> ds.

Definition override_row (d : ComplianceDeadline) (new_due_at : option instant)
    (assigned_owner : option string) (reason : string) (now : instant) : ComplianceDeadline :=
  {| dl_id := dl_id d; dl_obligation_id := dl_obligation_id d;
     dl_compliance_case_id := dl_compliance_case_id d; dl_deadline_type := dl_deadline_type d;
     dl_due_at := default (dl_due_at d) new_due_at;
     dl_internal_target_at := dl_internal_target_at d;
     dl_status := match new_due_at with Some t => classify_status t now 30 | None => dl_status d end;
     dl_severity := dl_severity d;
     dl_assigned_owner := match assigned_owner with Some o => Some o | None => dl_assigned_owner d end;
     dl_backup_owner := dl_backup_owner d; dl_source_rule_id := dl_source_rule_id d;
     dl_materialization_key := match new_due_at with Some _ => None | None => dl_materialization_key d end;
     dl_last_escalation_level := dl_last_escalation_level d;
     dl_last_escalated_at := dl_last_escalated_at d; dl_applied_adjustment := dl_applied_adjustment d;
     dl_manually_overridden := match new_due_at with Some _ => true | None => dl_manually_overridden d end;
     dl_override_reason := Some (str_take 500 (strip reason));
     dl_completed_at := dl_completed_at d; dl_completed_by_actor := dl_completed_by_actor d |}.

Definition add_event (db : Db) (e : DeadlineEvent) : Db :=
  {| obligations := obligations db; licenses := licenses db; bonds := bonds db;
     jurisdictions := jurisdictions db; rules := rules db; deadlines := deadlines db;
     deadline_events := deadline_events db ++ [e]; notifications := notifications db;
     audits := audits db; next_id := next_id db |}.

Definition override_deadline (i : uuid) (actor : string) (new_due_at : option instant)
    (assigned_owner : option string) (reason : string) (now : instant) (db : Db)
    : result exn (ComplianceDeadline * Db) :=
  match find_deadline i db with
  | None => Err NotFoundError
  | Some d =>
      _ ← raise_unless (negb (bool_decide (reason = "")) && (5 <=? Z.of_nat (String.length (strip reason))))
            StateConflictError;
      let d' := override_row d new_due_at assigned_owner reason now in
      let db := with_deadlines db (replace_deadline d' (deadlines db)) in
      let db := add_event db
        {| ev_deadline_id := dl_id d;
           ev_event_type := match new_due_at with Some _ => "MANUALLY_OVERRIDDEN" | None => "OWNER_CHANGED" end;
           ev_previous_due_at := Some (dl_due_at d); ev_new_due_at := Some (dl_due_at d');
           ev_actor_id := actor; ev_occurred_at := now |} in
      Ok (d', add_audit db "deadline_overridden" (dl_id d))
  end.

Definition complete_row (d : ComplianceDeadline) (actor : string) (now : instant) : ComplianceDeadline :=
  {| dl_id := dl_id d; dl_obligation_id := dl_obligation_id d;
     dl_compliance_case_id := dl_compliance_case_id d; dl_deadline_type := dl_deadline_type d;
     dl_due_at := dl_due_at d; dl_internal_target_at := dl_internal_target_at d;
     dl_status := value DeadlineStatus.COMPLETED; dl_severity := dl_severity d;
     dl_assigned_owner := dl_assigned_owner d; dl_backup_owner := dl_backup_owner d;
     dl_source_rule_id := dl_source_rule_id d; dl_materialization_key := dl_materialization_key d;
     dl_last_escalation_level := dl_last_escalation_level d;
     dl_last_escalated_at := dl_last_escalated_at d; dl_applied_adjustment := dl_applied_adjustment d;
     dl_manually_overridden := dl_manually_overridden d; dl_override_reason := dl_override_reason d;
     dl_completed_at := Some now; dl_completed_by_actor := Some actor |}.

Definition complete_deadline (i : uuid) (actor : string) (now : instant) (db : Db)
    : result exn (ComplianceDeadline * Db) :=
  match find_deadline i db with
  | None => Err NotFoundError
  | Some d =>
      if bool_decide (dl_status d = value DeadlineStatus.COMPLETED) then Ok (d, db)
      else
        let d' := complete_row d actor now in
        Ok (d', add_event (with_deadlines db (replace_deadline d' (deadlines db)))
          {| ev_deadline_id := dl_id d; ev_event_type := "COMPLETED"; ev_previous_due_at := None;
             ev_new_due_at := None; ev_actor_id := actor; ev_occurred_at := now |})
  end.

(** ** Laws of materialization *)

Definition db_keys (db : Db) : list string := omap dl_materialization_key (deadlines db).

Lemma key_in_use_true k ds : key_in_use k ds = true <-> k ∈ omap dl_materialization_key ds.
Proof.
  unfold key_in_use. rewrite bool_decide_eq_true, list_elem_of_omap, list_elem_of_fmap.
  split; intros (d & H1 & H2); exists d; split; auto.
Qed.

Lemma insert_deadline_Ok ob now actor p db row db' :
  insert_deadline ob now actor p db = Ok (row, db') ->
  (materialization_key p ∉ db_keys db) /\ db_keys db' = db_keys db ++ [materialization_key p] /\
  obligations db' = obligations db /\ licenses db' = licenses db /\ bonds db' = bonds db /\
  jurisdictions db' = jurisdictions db /\ rules db' = rules db /\
  deadlines db' = deadlines db ++ [row] /\ dl_materialization_key row = Some (materialization_key p).
Proof.
  unfold insert_deadline. intros Hr. inv_ok. simplify_eq. simpl.
  split_and!; try done.
  - intros Hin. apply key_in_use_true in Hin. rewrite Hin in *. discriminate.
  - unfold db_keys. simpl. by rewrite omap_app.
Qed.

Lemma insert_deadline_Err ob now actor p db e : insert_deadline ob now actor p db = Err e -> e = IntegrityError.
Proof. unfold insert_deadline. by destruct (key_in_use _ _); intros; simplify_eq/=. Qed.

(** The tables the loop does not touch, and the keys it adds. *)
Definition same_rules (db db' : Db) : Prop :=
  licenses db' = licenses db /\ bonds db' = bonds db /\
  jurisdictions db' = jurisdictions db /\ rules db' = rules db.

Lemma insert_plans_Ok ob now actor ex ps db rows db' :
  insert_plans ob now actor ex ps db = Ok (rows, db') ->
  same_rules db db' /\ obligations db' = obligations db /\ deadlines db' = deadlines db ++ rows /\
  db_keys db' = db_keys db ++ filter (fun k => k ∉ ex) (materialization_key <$> ps) /\
  (NoDup (db_keys db) -> NoDup (db_keys db')).
Proof.
  revert db rows db'. induction ps as [|p ps IH]; intros db rows db' Hr; simpl in Hr.
  { injection Hr as <- <-. rewrite !app_nil_r. by repeat split. }
  case_bool_decide as Hin.
  - rewrite fmap_cons, filter_cons_False by (intros ?; done). by apply IH.
  - apply bind_Ok_inv in Hr as ([row db1] & H1 & Hr). apply bind_Ok_inv in Hr as ([rows1 db2] & H2 & Hr).
    injection Hr as <- <-. apply insert_deadline_Ok in H1 as (Hni & Hk & E1 & E2 & E3 & E4 & E5 & E6 & _).
    apply IH in H2 as ((F2 & F3 & F4 & F5) & F1 & F6 & F7 & F8).
    unfold same_rules. rewrite fmap_cons, filter_cons_True by done.
    split_and!; try congruence.
    + by rewrite F6, E6, <-app_assoc.
    + by rewrite F7, Hk, <-app_assoc.
    + intros Hnd. apply F8. rewrite Hk. apply NoDup_app. split_and!; [done | | apply NoDup_singleton].
      intros k Hkin ->%list_elem_of_singleton. done.
Qed.

Lemma insert_plans_skip ob now actor ex ps db :
  (forall p, p ∈ ps -> materialization_key p ∈ ex) -> insert_plans ob now actor ex ps db = Ok ([], db).
Proof.
  induction ps as [|p ps IH]; intros Hall; [done|]. simpl.
  rewrite bool_decide_eq_true_2 by (apply Hall; left). apply IH. intros q Hq. apply Hall. by right.
Qed.

(** A key that occurs twice in a plan and is not in the table yet is refused. *)
Lemma insert_plans_in_use ob now actor ex ps db k :
  k ∈ db_keys db -> k ∉ ex -> k ∈ materialization_key <$> ps ->
  insert_plans ob now actor ex ps db = Err IntegrityError.
Proof.
  revert db. induction ps as [|p ps IH]; intros db Hk Hne Hin; [by apply not_elem_of_nil in Hin|].
  simpl. case_bool_decide as He.
  - apply IH; [done..|]. rewrite fmap_cons, elem_of_cons in Hin. destruct Hin as [->|?]; done.
  - destruct (insert_deadline ob now actor p db) as [[row db1]|e] eqn:E.
    + msimpl. apply insert_deadline_Ok in E as (Hni & Hk' & _).
      rewrite (IH db1); [done | rewrite Hk'; apply elem_of_app; by left | done |].
      rewrite fmap_cons, elem_of_cons in Hin. destruct Hin as [->|?]; done.
    + by apply insert_deadline_Err in E as ->.
Qed.

Lemma filter_eq_length (k : string) l : (1 <= length (filter (fun k' => k' = k) l))%nat -> k ∈ l.
Proof.
  induction l as [|x l IH]; [simpl; lia|]. rewrite filter_cons.
  destruct (decide (x = k)) as [->|]; intros; [left | right; auto].
Qed.

Lemma insert_plans_duplicate ob now actor ex ps db k :
  k ∉ ex -> (2 <= length (filter (fun k' => k' = k) (materialization_key <$> ps)))%nat ->
  insert_plans ob now actor ex ps db = Err IntegrityError.
Proof.
  revert db. induction ps as [|p ps IH]; intros db Hne Hlen; [simpl in Hlen; lia|].
  simpl. rewrite fmap_cons, filter_cons in Hlen. case_bool_decide as He.
  - apply IH; [done|]. destruct (decide (materialization_key p = k)); [congruence | done].
  - destruct (insert_deadline ob now actor p db) as [[row db1]|e] eqn:E.
    + msimpl. apply insert_deadline_Ok in E as (_ & Hk' & _).
      destruct (decide (materialization_key p = k)) as [Hk|].
      * cbn [length] in Hlen. apply le_S_n in Hlen. rewrite (insert_plans_in_use _ _ _ _ _ db1 k); [done | rewrite Hk'; set_solver | done |].
        by apply filter_eq_length in Hlen.
      * by rewrite IH.
    + by apply insert_deadline_Err in E as ->.
Qed.

Lemma update_obligation_twice ob e : update_obligation (update_obligation ob e) e = update_obligation ob e.
Proof.
  unfold update_obligation; destruct ob as [i t s]; simpl. f_equal; [|by destruct (internal_target_at e)].
  destruct (bool_decide (s = _)) eqn:E; [done | by rewrite E].
Qed.

(** A plan reads the obligation only through what the writer leaves alone, unless
    the rule is anchored on the annual report date. *)
Lemma plan_for_update db db' ob e h now p pl :
  same_rules db db' -> recurrence_type p <> value RecurrenceType.ANNUAL_REPORT_DATE ->
  plan_for db ob h now = Ok (Some (p, pl)) ->
  plan_for db' (update_obligation ob e) h now = Ok (Some (p, pl)).
Proof.
  intros (E2 & E3 & E4 & E5) Hr Hp. unfold plan_for, _active_policies in *. rewrite E2, E3, E4, E5.
  simpl. apply bind_Ok_inv in Hp as (ps & Hps & Hp). rewrite Hps. msimpl.
  destruct (resolve_policy _ _ _ _ _) as [pol|]; [|done].
  apply bind_Ok_inv in Hp as (he & Hhe & Hp). rewrite Hhe. msimpl.
  apply bind_Ok_inv in Hp as (l & Hl & Hp). injection Hp as -> ->.
  unfold plan_deadlines in *.
  change (obligation_context (update_obligation ob e) ?l ?b) with
    (with_annual (obligation_context ob l b) (Some (due_date e))).
  rewrite expand_annual by done. by rewrite Hl.
Qed.

Lemma plan_for_ext db db' ob h now : same_rules db db' -> plan_for db' ob h now = plan_for db ob h now.
Proof. intros (E2 & E3 & E4 & E5). unfold plan_for, _active_policies. by rewrite E2, E3, E4, E5. Qed.

Lemma with_obligation_id db ob : obligations db !! ob_id ob = Some ob -> with_obligation db ob = db.
Proof. intros Hl. destruct db; unfold with_obligation; simpl in *. by rewrite insert_id. Qed.

Lemma existing_spec k (keys : list string) ds :
  k ∈ filter (fun k => key_in_use k ds = true) keys <-> k ∈ omap dl_materialization_key ds /\ k ∈ keys.
Proof. by rewrite list_elem_of_filter, key_in_use_true. Qed.

(** What a successful run has done. *)
Lemma materialize_inv oid actor h now db rows db' :
  materialize_for_obligation oid actor h now db = Ok (rows, db') ->
  exists ob, obligations db !! oid = Some ob /\
  ((rows = [] /\ db' = db /\
    (plan_for db ob h now = Ok None \/ exists p, plan_for db ob h now = Ok (Some (p, [])))) \/
   exists p pl db1, plan_for db ob h now = Ok (Some (p, pl)) /\ pl <> [] /\
     insert_plans ob now actor
       (filter (fun k => key_in_use k (deadlines db) = true) (materialization_key <$> pl)) pl db
       = Ok (rows, db1) /\
     let db2 := match earliest (filter (fun p => deadline_type p = statutory_type_for (ob_obligation_type ob)) pl) with
                | Some e => with_obligation db1 (update_obligation ob e) | None => db1 end in
     db' = match rows with [] => db2 | _ => add_audit db2 "deadlines_materialized" (ob_id ob) end).
Proof.
  unfold materialize_for_obligation. destruct (obligations db !! oid) as [ob|]; [|discriminate].
  intros Hr. exists ob. split; [done|]. apply bind_Ok_inv in Hr as (r & Hp & Hr).
  destruct r as [[p [|q pl]]|].
  - left. injection Hr as <- <-. eauto 6.
  - right. apply bind_Ok_inv in Hr as ([rows1 db1] & Hi & Hr). injection Hr as <- <-.
    exists p, (q :: pl), db1. split_and!; done.
  - left. injection Hr as <- <-. eauto 6.
Qed.

(** The earliest statutory entry of a plan, which the obligation row records. *)
Definition plan_head (ob : ComplianceObligation) (pl : list PlannedDeadline) : option PlannedDeadline :=
  earliest (filter (fun p => deadline_type p = statutory_type_for (ob_obligation_type ob)) pl).

(** The rows of a run, its keys, and what the obligation row becomes. *)
Lemma materialize_tables oid actor h now db rows db' :
  materialize_for_obligation oid actor h now db = Ok (rows, db') ->
  deadlines db' = deadlines db ++ rows /\ same_rules db db' /\
  (NoDup (db_keys db) -> NoDup (db_keys db')) /\
  exists ob, obligations db !! oid = Some ob /\
  forall p pl, plan_for db ob h now = Ok (Some (p, pl)) ->
    db_keys db' = db_keys db ++ filter (fun k => k ∉ db_keys db) (materialization_key <$> pl) /\
    (pl <> [] -> obligations db' =
       match plan_head ob pl with
       | Some e => <[ob_id ob := update_obligation ob e]> (obligations db)
       | None => obligations db end).
Proof.
  intros (ob & Hob & [(-> & -> & Hp)|(p & pl & db1 & Hp & Hne & Hi & Hdb)])%materialize_inv.
  - rewrite app_nil_r. split_and!; try done. exists ob. split; [done|].
    intros p pl Hp'. destruct Hp as [Hp|[q Hp]]; rewrite Hp in Hp'; simplify_eq. by rewrite app_nil_r.
  - apply insert_plans_Ok in Hi as ((E1 & E2 & E3 & E4) & E5 & E6 & E7 & E8). cbv zeta in Hdb.
    fold (plan_head ob pl) in Hdb.
    assert (deadlines db' = deadlines db1 /\ same_rules db1 db' /\ obligations db' =
       match plan_head ob pl with
       | Some e => <[ob_id ob := update_obligation ob e]> (obligations db1)
       | None => obligations db1 end) as (F1 & (F2 & F3 & F4 & F5) & F6).
    { subst db'. by destruct rows, (plan_head ob pl). }
    unfold db_keys in *. rewrite F1. split_and!; [congruence | split_and!; congruence | by apply E8 |].
    exists ob. split; [done|]. intros p' pl' Hp'. rewrite Hp in Hp'. injection Hp' as <- <-.
    split; [|by rewrite F6, E5]. rewrite E7. f_equal. apply filter_ext_in.
    intros k Hk. rewrite existing_spec. tauto.
Qed.

(** A run that finds every planned key in the table and the obligation up to date
    changes nothing. *)
Lemma materialize_noop oid actor h now db ob pol pl :
  obligations db !! oid = Some ob -> ob_id ob = oid -> plan_for db ob h now = Ok (Some (pol, pl)) ->
  (forall p, p ∈ pl -> materialization_key p ∈ db_keys db) ->
  (forall e, plan_head ob pl = Some e -> update_obligation ob e = ob) ->
  materialize_for_obligation oid actor h now db = Ok ([], db).
Proof.
  intros Hob Hid Hp Hk Hu. unfold materialize_for_obligation. rewrite Hob, Hp. msimpl.
  destruct pl as [|p pl']; [done|]. rewrite insert_plans_skip; msimpl.
  - fold (plan_head ob (p :: pl')). destruct (plan_head _ _) as [e|] eqn:E; [|done].
    rewrite Hu by done. rewrite with_obligation_id; [done | by rewrite Hid].
  - intros q Hq. apply existing_spec. split; [by apply Hk | by apply list_elem_of_fmap_2].
Qed.

Lemma update_obligation_id ob e : ob_id (update_obligation ob e) = ob_id ob.
Proof. done. Qed.

(** Materialization adds rows under fresh keys only: a successful run keeps
    every row it found, leaves the materialization keys of the table pairwise
    distinct, and afterwards the keys are the old ones and those of the plan. *)
Theorem materialize_keys oid actor h now db rows db' :
  NoDup (db_keys db) ->
  materialize_for_obligation oid actor h now db = Ok (rows, db') ->
  deadlines db' = deadlines db ++ rows /\ NoDup (db_keys db') /\
  exists ob, obligations db !! oid = Some ob /\
  forall pol pl, plan_for db ob h now = Ok (Some (pol, pl)) ->
    forall k, k ∈ db_keys db' <-> k ∈ db_keys db \/ k ∈ materialization_key <$> pl.
Proof.
  intros Hnd (Hd & _ & Hk & ob & Hob & Hp)%materialize_tables.
  split_and!; [done | by apply Hk |]. exists ob. split; [done|]. intros pol pl Hpl k.
  destruct (Hp _ _ Hpl) as [-> _]. rewrite elem_of_app, list_elem_of_filter.
  destruct (decide (k ∈ db_keys db)); tauto.
Qed.

(** Running materialization again at the same instant changes nothing: the
    second run creates no deadline and leaves the database as it is, for every
    rule that is not anchored on the annual report date the run itself rewrites. *)
Theorem materialize_idempotent oid actor h now db rows db' ob :
  obligations db !! oid = Some ob -> ob_id ob = oid ->
  (forall pol pl, plan_for db ob h now = Ok (Some (pol, pl)) ->
     recurrence_type pol <> value RecurrenceType.ANNUAL_REPORT_DATE) ->
  materialize_for_obligation oid actor h now db = Ok (rows, db') ->
  materialize_for_obligation oid actor h now db' = Ok ([], db').
Proof.
  intros Hob Hid Hpol Hr. pose proof (materialize_tables _ _ _ _ _ _ _ Hr) as (Hd & Hs & _ & ob' & Hob' & Hk).
  apply materialize_inv in Hr as (ob'' & Hob'' & Hr). simplify_eq.
  destruct Hr as [(-> & -> & Hp)|(p & pl & db1 & Hp & Hne & _)].
  { unfold materialize_for_obligation. rewrite Hob. by destruct Hp as [Hp|[q Hp]]; rewrite Hp. }
  destruct (Hk _ _ Hp) as [Hkeys Hobs]. specialize (Hobs Hne). specialize (Hpol _ _ Hp).
  assert (forall q, q ∈ pl -> materialization_key q ∈ db_keys db') as Hin.
  { intros q Hq. rewrite Hkeys, elem_of_app, list_elem_of_filter.
    destruct (decide (materialization_key q ∈ db_keys db)); [by left | right].
    split; [done | by apply list_elem_of_fmap_2]. }
  destruct (plan_head ob pl) as [e|] eqn:Ee.
  - eapply (materialize_noop _ _ _ _ _ (update_obligation ob e)); [| done | by apply (plan_for_update db) | done |].
    + rewrite Hobs. by rewrite lookup_insert_eq.
    + intros e'. unfold plan_head in *. simpl. rewrite Ee. intros [= <-]. apply update_obligation_twice.
  - eapply (materialize_noop _ _ _ _ _ ob); [by rewrite Hobs | done | by rewrite (plan_for_ext db) | done |].
    intros e'. congruence.
Qed.

(** ** Repeated occurrences *)

Lemma plan_occurrence_head oid pol cal st tz lead offs he ref o lp :
  plan_occurrence zoneinfo sha256 oid pol cal st tz lead offs he ref o = Ok lp -> exists p l, lp = p :: l.
Proof.
  unfold plan_occurrence. intros ([a ap] & _ & (p & _ & (ms & _ & [= <-])%bind_Ok_inv)%bind_Ok_inv)%bind_Ok_inv.
  eauto.
Qed.

(** A plan over an occurrence listed twice holds some key twice. *)
Lemma plan_repeats oid pol ctx hs he dl tz cal st today n o pl :
  expand (recurrence_type pol) (recurrence_config pol) ctx hs he n = Ok (o :: o :: replicate (n - 2) o) ->
  plan_deadlines zoneinfo sha256 oid (Some pol) ctx hs he dl tz cal st today n = Ok pl ->
  exists k, k ∈ materialization_key <$> pl /\
    (2 <= length (filter (fun k' => k' = k) (materialization_key <$> pl)))%nat.
Proof.
  intros He Hp. unfold plan_deadlines in Hp. rewrite He in Hp. msimpl. cbn [mapR] in Hp.
  destruct (plan_occurrence _ _ _ _ _ _ _ _ _ _ _ o) as [lp|] eqn:Ho; [|discriminate].
  apply plan_occurrence_head in Ho as (p & l & ->). msimpl.
  destruct (mapR _ _) as [lps|]; [|discriminate]. msimpl. injection Hp as <-.
  exists (materialization_key p). cbn [concat].
  rewrite fmap_cons, fmap_app, fmap_cons. split; [left|].
  rewrite filter_cons_True, filter_app, filter_cons_True by done. cbn [length]. rewrite length_app. cbn [length]. lia.
Qed.

Lemma plan_for_inv db ob h now pol pl :
  plan_for db ob h now = Ok (Some (pol, pl)) ->
  exists he, plan_deadlines zoneinfo sha256 (ob_id ob) (Some pol)
    (obligation_context ob (ob_license_id ob ≫= fun i => licenses db !! i) (ob_bond_id ob ≫= fun i => bonds db !! i))
    (instant_date now) he (licensing_default_lead_days settings)
    (str_or ((ob_jurisdiction_id ob ≫= fun i => jurisdictions db !! i) ≫= fun z => z) (licensing_default_timezone settings))
    DEFAULT_CALENDAR (statutory_type_for (ob_obligation_type ob)) (instant_date now) 6 = Ok pl /\
    date_add (instant_date now)
      (match h with Some h => if h =? 0 then licensing_planning_horizon_days settings else h
                  | None => licensing_planning_horizon_days settings end) = Ok he.
Proof.
  unfold plan_for. intros (ps & _ & Hp)%bind_Ok_inv. destruct (resolve_policy _ _ _ _ _) as [q|]; [|discriminate].
  apply bind_Ok_inv in Hp as (he & Hhe & Hp). apply bind_Ok_inv in Hp as (l & Hl & Hp).
  injection Hp as -> ->. eauto.
Qed.

(** A licence past its expiration date cannot be planned by an
    expiration-anniversary rule: the expansion repeats the one anniversary, the
    existing keys are read once before the loop, and the second row of the same
    key is refused, so the whole materialization fails. *)
Theorem expired_licence_never_materializes oid actor h now db ob lid lic e cfg i nxt hd pol pl :
  obligations db !! oid = Some ob -> ob_license_id ob = Some lid -> licenses db !! lid = Some lic ->
  lic_expiration_date lic = Some e -> e < instant_date now ->
  plan_for db ob h now = Ok (Some (pol, pl)) ->
  recurrence_type pol = value RecurrenceType.EXPIRATION_ANNIVERSARY -> recurrence_config pol = cfg ->
  config_int cfg "interval_years" 1 = Ok i -> _safe_date (year e + i) (month e) (day e) = Ok nxt ->
  h = Some hd -> 0 < hd -> e <= nxt <= instant_date now + hd ->
  (forall k, k ∈ materialization_key <$> pl -> k ∉ db_keys db) ->
  materialize_for_obligation oid actor h now db = Err IntegrityError.
Proof.
  intros Hob Hl Hlic He Hlt Hp Hrt Hcfg Hi Hn -> Hhd Hle Hfresh.
  pose proof Hp as (he & Hpl & Hhe)%plan_for_inv.
  replace (hd =? 0) with false in Hhe by lia. apply date_add_Ok in Hhe as [_ ->].
  apply plan_repeats with (o := nxt) in Hpl as (k & Hk & Hlen).
  - unfold materialize_for_obligation. rewrite Hob, Hp. msimpl.
    destruct pl as [|q pl']; [by apply not_elem_of_nil in Hk|].
    rewrite (insert_plans_duplicate _ _ _ _ _ _ k); [done | | done].
    intros [Hin _]%existing_spec. by apply (Hfresh k).
  - rewrite Hrt, Hcfg. unfold expand. change (value _) with "EXPIRATION_ANNIVERSARY".
    change (nxt :: nxt :: replicate (6 - 2) nxt) with (replicate 6 nxt).
    eapply (expiration_repeats _ e); try done.
    + simpl. rewrite Hl. simpl. by rewrite Hlic.
    + unfold is_after. lia.
    + lia.
    + lia.
Qed.

(** ** Overrides *)

Lemma find_deadline_in i db d : find_deadline i db = Some d -> d ∈ deadlines db /\ dl_id d = i.
Proof.
  unfold find_deadline. intros Hd. assert (d ∈ filter (fun d => dl_id d = i) (deadlines db)) as Hin.
  { destruct (filter _ _); simplify_eq/=. left. }
  apply list_elem_of_filter in Hin. tauto.
Qed.

Lemma override_Ok i actor due owner reason now db d' db' :
  override_deadline i actor due owner reason now db = Ok (d', db') ->
  exists d, find_deadline i db = Some d /\ d' = override_row d due owner reason now /\
    deadlines db' = replace_deadline d' (deadlines db) /\ same_rules db db' /\
    obligations db' = obligations db.
Proof.
  unfold override_deadline. destruct (find_deadline i db) as [d|]; [|discriminate].
  intros Hr. apply bind_Ok_inv in Hr as ([] & _ & Hr). injection Hr as <- <-. by exists d.
Qed.

(** Replacing the only row of a key by one without a key frees the key. *)
Lemma replace_frees_key d d' ds k :
  NoDup (omap dl_materialization_key ds) -> d ∈ ds ->
  dl_id d' = dl_id d -> dl_materialization_key d = Some k -> dl_materialization_key d' = None ->
  k ∉ omap dl_materialization_key (replace_deadline d' ds).
Proof.
  intros Hnd Hin Hd Hk Hk' (x & Hx & Hxk)%list_elem_of_omap.
  apply list_elem_of_fmap in Hx as (y & -> & Hy). case_bool_decide as Hyd; [congruence|].
  apply Hyd. rewrite Hd. f_equal. by eapply NoDup_omap_inj.
Qed.

(** Moving a due date by hand does not protect it: the override clears the
    row's materialization key, so the next sweep that still plans the original
    date finds the key free and creates the original deadline again. *)
Theorem override_is_recreated i actor due owner reason now db d db1 k oid ob h now2 pol pl p rows db2 actor2 :
  NoDup (db_keys db) -> find_deadline i db = Some d -> dl_materialization_key d = Some k ->
  override_deadline i actor (Some due) owner reason now db
    = Ok (override_row d (Some due) owner reason now, db1) ->
  obligations db !! oid = Some ob -> plan_for db ob h now2 = Ok (Some (pol, pl)) ->
  p ∈ pl -> materialization_key p = k ->
  materialize_for_obligation oid actor2 h now2 db1 = Ok (rows, db2) ->
  exists row, row ∈ rows /\ dl_materialization_key row = Some k /\ row ∈ deadlines db2.
Proof.
  intros Hnd Hf Hk Ho Hob Hp Hin Hpk Hm.
  apply override_Ok in Ho as (d0 & Hf0 & _ & Hds & Hs & Hobs). simplify_eq.
  apply find_deadline_in in Hf as [Hd _].
  assert (materialization_key p ∉ db_keys db1) as Hfree.
  { unfold db_keys. rewrite Hds. by eapply replace_frees_key. }
  apply materialize_tables in Hm as (E & _ & _ & ob' & Hob' & Hkeys).
  rewrite Hobs in Hob'. simplify_eq. rewrite <-(plan_for_ext _ _ _ _ _ Hs) in Hp.
  destruct (Hkeys _ _ Hp) as [Hk2 _]. unfold db_keys in Hk2. rewrite E, omap_app in Hk2.
  apply app_inv_head in Hk2.
  assert (materialization_key p ∈ omap dl_materialization_key rows) as (row & Hrow & Hrk)%list_elem_of_omap.
  { rewrite Hk2. apply list_elem_of_filter. split; [done | by apply list_elem_of_fmap_2]. }
  exists row. split_and!; [done | done |]. rewrite E. apply elem_of_app. by right.
Qed.

(** ** Status refresh *)

Lemma classify_open due now w : classify_status due now w ∈ OPEN_DEADLINE_STATUSES.
Proof.
  unfold classify_status. repeat case_match; apply (bool_decide_unpack _); vm_compute; exact I.
Qed.

Lemma refresh_one_stable now d : refresh_changes now (refresh_one now d) = false.
Proof.
  unfold refresh_one. destruct (is_open d) eqn:E.
  - unfold refresh_changes. simpl. rewrite bool_decide_eq_true_2 by done. apply andb_false_r.
  - unfold refresh_changes. by rewrite E.
Qed.

Lemma refresh_one_idem now d : refresh_one now (refresh_one now d) = refresh_one now d.
Proof.
  unfold refresh_one. destruct (is_open d) eqn:E; [|by rewrite E].
  unfold is_open. rewrite bool_decide_eq_true_2 by apply classify_open. done.
Qed.

(** A status refresh is a projection: a second one at the same instant
    changes no row and reports none; a first one leaves closed rows alone, touches
    nothing but the status of open rows, and leaves every open row open. *)
Theorem refresh_statuses_spec now db :
  let db' := (refresh_statuses now db).2 in
  refresh_statuses now db' = (0%nat, db') /\
  Forall2 (fun d d' => is_open d = is_open d' /\ d' = set_status d (dl_status d') /\
    (is_open d = false -> d' = d) /\
    (is_open d = true -> dl_status d' = classify_status (dl_due_at d) now 30))
    (deadlines db) (deadlines db').
Proof.
  cbv zeta. split.
  - unfold refresh_statuses. simpl. f_equal.
    + rewrite filter_none; [done|]. intros d (e & -> & _)%list_elem_of_fmap. by rewrite refresh_one_stable.
    + unfold with_deadlines. simpl. f_equal. rewrite <-list_fmap_compose. apply list_fmap_ext.
      intros ? ? _. apply refresh_one_idem.
  - simpl. apply Forall2_fmap_r, Forall_Forall2_diag, Forall_forall. intros d _.
    unfold compose, refresh_one. destruct (is_open d) eqn:E.
    + unfold is_open. simpl. rewrite bool_decide_eq_true_2 by apply classify_open. by split_and!.
    + rewrite E. split_and!; [done | by destruct d | done | done].
Qed.

(** ** Escalation sweep *)

Definition known_keys (ns : list Notification) : list string := nt_idempotency_key <$> ns.

(** One deadline after its own escalation stays silent at the same instant, as long
    as the notifications sent so far are still known. *)
Lemma escalate_one_quiet db db' mgr now ns ns' d d' sent :
  rules db' = rules db ->
  escalate_one db mgr now ns d = Ok (d', sent) ->
  known_keys (ns ++ option_list sent) ⊆ known_keys ns' ->
  escalate_one db' mgr now ns' d' = Ok (d', None).
Proof.
  intros Hr He Hsub. unfold escalate_one in He.
  assert (forall e, deadline_ladder db' e = deadline_ladder db e) as Hl.
  { intros e. unfold deadline_ladder, rule_by_id. by rewrite Hr. }
  destruct (is_open d) eqn:Ho; simpl in He.
  2: { injection He as <- <-. unfold escalate_one. by rewrite Ho. }
  apply bind_Ok_inv in He as (lad & Hlad & He).
  set (dec := evaluate_escalation _ _ _ _ _ _) in He.
  assert (escalate_one db' mgr now ns' d =
    match level dec with
    | Some lvl =>
        if negb (should_notify dec) then Ok (d, None)
        else
          let r := resolve_recipient lvl (dl_assigned_owner d) (dl_backup_owner d) None mgr None None in
          if negb (truthy_str r) then Ok (d, None)
          else match record_notification (deadline_alert d (default "" r) dec) ns' with
               | None => Ok (d, None)
               | Some _ => Ok (set_escalated d dec now, Some (deadline_alert d (default "" r) dec)) end
    | None => Ok (d, None) end) as Hd.
  { unfold escalate_one. rewrite Ho, Hl, Hlad. done. }
  destruct (level dec) as [lvl|] eqn:El; [|injection He as <- <-; by rewrite Hd].
  destruct (should_notify dec) eqn:En; simpl in He, Hd; [|injection He as <- <-; by rewrite Hd].
  destruct (truthy_str _) eqn:Et; simpl in He, Hd; [|injection He as <- <-; by rewrite Hd].
  set (n := deadline_alert d _ dec) in He, Hd. unfold record_notification in He, Hd.
  destruct (decide (nt_idempotency_key n ∈ nt_idempotency_key <$> ns)) as [Hk|Hk].
  - rewrite bool_decide_eq_true_2 in He by done. injection He as <- <-.
    rewrite Hd, bool_decide_eq_true_2; [done|]. apply Hsub. unfold known_keys. simpl. by rewrite app_nil_r.
  - rewrite bool_decide_eq_false_2 in He by done. injection He as <- <-. unfold escalate_one.
    change (is_open (set_escalated d dec now)) with (is_open d). rewrite Ho. simpl.
    rewrite Hl. change (deadline_ladder db (set_escalated d dec now)) with (deadline_ladder db d). rewrite Hlad.
    msimpl. simpl. rewrite El.
    set (dec2 := evaluate_escalation _ _ _ _ _ _).
    assert (level dec2 = Some lvl /\ should_notify dec2 = false) as [E1 E2].
    { pose proof (evaluate_again (dl_due_at d) (dl_last_escalation_level d) lad None
        (deadline_overdue_escalation_enabled settings) now) as [E1 E2].
      fold dec in E1, E2. rewrite El in E1, E2. by split. }
    by rewrite E1, E2.
Qed.

Lemma escalate_loop_grows db mgr now ns ds ds' ns' k :
  escalate_loop db mgr now ns ds = Ok (ds', ns', k) -> exists sent, ns' = ns ++ sent /\ length sent = k.
Proof.
  revert ns ds' ns' k. induction ds as [|d ds IH]; intros ns ds' ns' k Hl; simpl in Hl.
  { injection Hl as <- <- <-. exists []. by rewrite app_nil_r. }
  apply bind_Ok_inv in Hl as ([d1 s1] & _ & Hl). apply bind_Ok_inv in Hl as ([[ds1 ns1] k1] & H1 & Hl).
  injection Hl as <- <- <-. apply IH in H1 as (s & -> & <-).
  exists (option_list s1 ++ s). by rewrite <-app_assoc, length_app.
Qed.

Lemma escalate_loop_quiet db db' mgr now ns ds ds' ns' k nsf :
  rules db' = rules db -> escalate_loop db mgr now ns ds = Ok (ds', ns', k) ->
  known_keys ns' ⊆ known_keys nsf ->
  escalate_loop db' mgr now nsf ds' = Ok (ds', nsf, 0%nat).
Proof.
  intros Hr. revert ns ds' ns' k. induction ds as [|d ds IH]; intros ns ds' ns' k Hl Hsub; simpl in Hl.
  { by injection Hl as <- <- <-. }
  apply bind_Ok_inv in Hl as ([d1 s1] & Hd & Hl). apply bind_Ok_inv in Hl as ([[ds1 ns1] k1] & H1 & Hl).
  injection Hl as <- <- <-. simpl.
  rewrite (escalate_one_quiet db db' mgr now ns nsf d d1 s1); [|done|done|].
  - msimpl. simpl. rewrite app_nil_r. by rewrite (IH _ _ _ _ H1 Hsub).
  - apply escalate_loop_grows in H1 as (s & -> & _).
    etrans; [|exact Hsub]. unfold known_keys. rewrite (fmap_app _ (ns ++ _)). intros x. rewrite elem_of_app. by left.
Qed.

(** The escalation sweep does not repeat itself: after a sweep that returned,
    a second one at the same instant returns, notifies nobody and leaves the
    database as the first one did. *)
Theorem run_escalations_idempotent mgr now db n db' :
  run_escalations mgr now db = Ok (n, db') ->
  length (notifications db') = (length (notifications db) + n)%nat /\
  run_escalations mgr now db' = Ok (0%nat, db').
Proof.
  unfold run_escalations. intros Hr. apply bind_Ok_inv in Hr as ([[ds ns] k] & Hl & Hr).
  injection Hr as <- <-. simpl. pose proof (escalate_loop_grows _ _ _ _ _ _ _ _ Hl) as (s & -> & <-).
  rewrite length_app. split; [done|].
  set (db1 := {| obligations := _ |}).
  rewrite (escalate_loop_quiet db db1 mgr now _ _ _ _ _ (notifications db ++ s) eq_refl Hl) by done.
  msimpl. rewrite (drop_ge (notifications db ++ s) (length (notifications db) + length s)) by (rewrite length_app; lia).
  by rewrite fmap_nil, app_nil_r.
Qed.
End Service.

(** ** A concrete service *)

Definition sample_settings : Settings :=
  {| licensing_planning_horizon_days := 400; licensing_default_lead_days := 45;
     licensing_default_timezone := None; deadline_overdue_escalation_enabled := true |}.

Definition sample_rule (rtype : RecurrenceType.RecurrenceType) (cfg : list (string * json)) : DeadlineRule :=
  {| rule_policy :=
       {| id := Some "r-1"; rule_key := "rule"; obligation_type := "LICENSE_RENEWAL";
          recurrence_type := value rtype; recurrence_config := cfg;
          adjustment_policy := "NEXT_BUSINESS_DAY"; lead_time_days := None; milestone_offsets := [];
          escalation_policy := []; jurisdiction_id := None; license_type_id := None;
          effective_from := None; effective_to := None; priority := 100 |};
     rule_milestone_offsets := [("SUBMISSION_DUE", JInt 10)]; rule_status := "ACTIVE" |}.

Definition sample_obligation : ComplianceObligation :=
  {| ob_id := "ob-1"; ob_obligation_type := "LICENSE_RENEWAL"; ob_status := "PLANNED";
     ob_license_id := Some "lic-1"; ob_bond_id := None; ob_jurisdiction_id := None;
     ob_responsible_owner := Some "owner"; ob_statutory_due_date := None;
     ob_next_due_date := Some (ymd2ord 2026 2 28); ob_internal_start_date := None |}.

Definition sample_db (rule : DeadlineRule) (expires : date) : Db :=
  {| obligations := {["ob-1" := sample_obligation]};
     licenses := {["lic-1" := {| lic_license_type_id := None; lic_issue_date := None;
                                 lic_effective_date := None; lic_expiration_date := Some expires |}]};
     bonds := ∅; jurisdictions := ∅; rules := [rule]; deadlines := []; deadline_events := [];
     notifications := []; audits := []; next_id := 0 |}.

#[local] Abbreviation no_zone := (fun _ : string => @None (Z -> instant)).
#[local] Abbreviation same_text := (fun s : string => s).
#[local] Abbreviation no_text := (fun _ : json => "").
#[local] Abbreviation text_id := (fun n : nat => "id-" +:+ pretty n).
#[local] Abbreviation sample_materialize :=
  (materialize_for_obligation no_zone same_text text_id sample_settings "ob-1" None).

Definition sample_now : instant := combine_utc (ymd2ord 2026 2 2) 15.

Definition annual_rule : DeadlineRule :=
  sample_rule RecurrenceType.NMLS_ANNUAL_RENEWAL_WINDOW [].

Definition run_rows {A} (r : result exn (A * Db)) (d : A) : A := match r with Ok x => x.1 | Err _ => d end.
Definition run_db {A} (r : result exn (A * Db)) (d : Db) : Db := match r with Ok x => x.2 | Err _ => d end.

Definition expired_rule : DeadlineRule := sample_rule RecurrenceType.EXPIRATION_ANNIVERSARY [].
Definition annual_db : Db := sample_db annual_rule (ymd2ord 2026 12 31).
Definition expired_db : Db := sample_db expired_rule (ymd2ord 2026 1 15).
Definition annual_run := sample_materialize None sample_now annual_db.

(** Decide a closed statement by computation. *)
Ltac by_compute := apply (bool_decide_unpack _); vm_compute; exact I.

Lemma materialize_keys_witness :
  let db' := run_db annual_run annual_db in
  deadlines db' = deadlines annual_db ++ run_rows annual_run [] /\ NoDup (db_keys db') /\
  exists ob, obligations annual_db !! "ob-1" = Some ob /\
  forall pol pl, plan_for no_zone same_text sample_settings annual_db ob None sample_now = Ok (Some (pol, pl)) ->
    forall k, k ∈ db_keys db' <-> k ∈ db_keys annual_db \/ k ∈ materialization_key <$> pl.
Proof.
  apply (materialize_keys no_zone same_text text_id sample_settings "ob-1" None None sample_now).
  - by_compute.
  - vm_compute. reflexivity.
Defined.

Lemma materialize_idempotent_witness :
  sample_materialize None sample_now (run_db annual_run annual_db) = Ok ([], run_db annual_run annual_db).
Proof.
  apply (materialize_idempotent no_zone same_text text_id sample_settings "ob-1" None None sample_now
    annual_db (run_rows annual_run []) _ sample_obligation).
  - reflexivity.
  - reflexivity.
  - intros pol pl E. vm_compute in E. injection E as <- _. discriminate.
  - vm_compute. reflexivity.
Defined.

Lemma expired_licence_never_materializes_witness :
  sample_materialize (Some 400) sample_now expired_db = Err IntegrityError.
Proof.
  set (r := plan_for no_zone same_text sample_settings expired_db sample_obligation (Some 400) sample_now).
  assert (exists pol pl, r = Ok (Some (pol, pl)) /\ recurrence_type pol = "EXPIRATION_ANNIVERSARY" /\
    recurrence_config pol = []) as (pol & pl & E & E1 & E2).
  { eexists _, _. split_and!; [vm_compute; reflexivity | reflexivity | reflexivity]. }
  apply (expired_licence_never_materializes no_zone same_text text_id sample_settings "ob-1" None (Some 400)
    sample_now expired_db sample_obligation "lic-1"
    {| lic_license_type_id := None; lic_issue_date := None; lic_effective_date := None;
       lic_expiration_date := Some (ymd2ord 2026 1 15) |}
    (ymd2ord 2026 1 15) [] 1 (ymd2ord 2027 1 15) 400 pol pl);
    try first [reflexivity | assumption | split; vm_compute; discriminate].
  intros k _. apply not_elem_of_nil.
Defined.

(** Override the first materialized deadline, then sweep again. *)
Definition overridden :=
  override_deadline "id-0" "admin" (Some (combine_utc (ymd2ord 2027 1 5) 17)) None "regulator extension"
    sample_now (run_db annual_run annual_db).
Definition overridden_db : Db := run_db overridden annual_db.
Definition resweep := sample_materialize None sample_now overridden_db.
Definition first_row : option ComplianceDeadline := find_deadline "id-0" (run_db annual_run annual_db).

Lemma override_is_recreated_witness :
  exists row, row ∈ run_rows resweep [] /\
    dl_materialization_key row = Some "ob-1|STATUTORY_DUE|2026-12-31|r-1" /\
    row ∈ deadlines (run_db resweep annual_db).
Proof.
  set (r := plan_for no_zone same_text sample_settings (run_db annual_run annual_db)
    (default sample_obligation (obligations (run_db annual_run annual_db) !! "ob-1")) None sample_now).
  assert (exists pol p pl, r = Ok (Some (pol, p :: pl)) /\
    materialization_key p = "ob-1|STATUTORY_DUE|2026-12-31|r-1") as (pol & p & pl & E & Hk).
  { eexists _, _, _. split; [vm_compute; reflexivity | reflexivity]. }
  assert (exists d, first_row = Some d) as [d Hd] by (eexists; vm_compute; reflexivity).
  apply (override_is_recreated no_zone same_text text_id sample_settings "id-0" "admin"
    (combine_utc (ymd2ord 2027 1 5) 17) None "regulator extension" sample_now
    (run_db annual_run annual_db) d overridden_db "ob-1|STATUTORY_DUE|2026-12-31|r-1" "ob-1"
    (default sample_obligation (obligations (run_db annual_run annual_db) !! "ob-1"))
    None sample_now pol (p :: pl) p (run_rows resweep []) (run_db resweep annual_db) None);
    try first [exact Hd | exact E | exact Hk | left].
  - by_compute.
  - vm_compute in Hd. injection Hd as <-. reflexivity.
  - vm_compute in Hd. injection Hd as <-. vm_compute. reflexivity.
  - vm_compute. reflexivity.
  - vm_compute. reflexivity.
Defined.

Definition sample_escalations (db : Db) :=
  run_escalations same_text no_text sample_settings (Some "manager")
    (combine_utc (ymd2ord 2026 12 20) 15) db.

Lemma run_escalations_idempotent_witness :
  run_rows (sample_escalations (run_db annual_run annual_db)) 0%nat = 2%nat /\
  let db1 := run_db (sample_escalations (run_db annual_run annual_db)) annual_db in
  length (notifications db1) = 2%nat /\ sample_escalations db1 = Ok (0%nat, db1).
Proof.
  split; [vm_compute; reflexivity|]. cbv zeta.
  apply (run_escalations_idempotent same_text no_text sample_settings (Some "manager")
    (combine_utc (ymd2ord 2026 12 20) 15) (run_db annual_run annual_db) 2). vm_compute. reflexivity.
Defined.

(** An obligation anchored on its annual report date moves its own anchor: the
    adjusted date of one sweep is the anchor of the next, and two sweeps at one
    instant plan two different statutory dates for the following year. *)
Example annual_report_date_drifts :
  let db0 := sample_db (sample_rule RecurrenceType.ANNUAL_REPORT_DATE []) (ymd2ord 2026 12 31) in
  let db1 := run_db (sample_materialize None sample_now db0) db0 in
  let db2 := run_db (sample_materialize None sample_now db1) db1 in
  db_keys db1 = ["ob-1|STATUTORY_DUE|2026-03-02|r-1"; "ob-1|SUBMISSION_DUE|2026-02-20|r-1";
                 "ob-1|STATUTORY_DUE|2027-03-01|r-1"; "ob-1|SUBMISSION_DUE|2027-02-19|r-1"] /\
  db_keys db2 = db_keys db1 ++
                ["ob-1|STATUTORY_DUE|2027-03-02|r-1"; "ob-1|SUBMISSION_DUE|2027-02-22|r-1"].
Proof. split; vm_compute; reflexivity. Qed.
