(* ===== verification/Conditions.v ===== *)
(** * The rule DSL ([app/requirements/conditions.py])

    Conditions are JSON; [validate_conditions] is the gate a rule passes before it
    is stored, [evaluate] the three-valued interpreter.  Text is ASCII, so
    [str.casefold] is the ASCII lower case; the [re] engine and [str()] of a value
    that is not a string are parameters. *)
From Stdlib Require Import QArith Ascii.
From S2P Require Import Prelude PyDate PyJson Scoping.
Open Scope Z_scope.

Definition MAX_DEPTH : nat := 12.
Definition MAX_NODES : nat := 400.

Inductive Truth : Set := TRUE | FALSE | UNKNOWN.
#[export] Instance Truth_eq_dec : EqDecision Truth.
Proof. solve_decision. Defined.

Definition of_bool (b : bool) : Truth := if b then TRUE else FALSE.

Definition LOGICAL_KEYS : list string := ["all"; "any"; "none"; "not"].

(** Operators and whether they need a value. *)
Definition OPERATORS : list (string * bool) :=
  [("eq", true); ("ne", true); ("in", true); ("not_in", true); ("contains", true);
   ("not_contains", true); ("contains_any", true); ("contains_all", true); ("gt", true);
   ("gte", true); ("lt", true); ("lte", true); ("matches", true); ("before", true);
   ("after", true); ("is_true", false); ("is_false", false); ("is_present", false);
   ("is_absent", false); ("is_empty", false); ("is_not_empty", false)].

Record EvaluationTrace := {
  facts_used : list (string * json);
  missing_facts : list string
}.

Definition empty_trace : EvaluationTrace := {| facts_used := []; missing_facts := [] |}.

Definition note_used (path : string) (v : json) (t : EvaluationTrace) : EvaluationTrace :=
  {| facts_used := dset path v (facts_used t); missing_facts := missing_facts t |}.

Definition note_missing (path : string) (t : EvaluationTrace) : EvaluationTrace :=
  if bool_decide (path ∈ missing_facts t) then t
  else {| facts_used := facts_used t; missing_facts := missing_facts t ++ [path] |}.

(** ** Fact paths *)

Definition is_lower (c : ascii) : bool := let n := N_of_ascii c in ((97 <=? n) && (n <=? 122))%N.
Definition is_path_char (c : ascii) : bool :=
  is_lower c || (let n := N_of_ascii c in ((48 <=? n) && (n <=? 57)))%N || bool_decide (c = "_"%char).

(** [_FACT_PATH_PATTERN]: segments of lower-case letters, digits and underscores
    that start with a letter, joined by dots; [start] when a segment begins.  The
    pattern's [$] also matches before one final newline. *)
Fixpoint fact_path_from (start : bool) (s : string) : bool :=
  match s with
  | "" => negb start
  | String c s' =>
      if start then is_lower c && fact_path_from false s'
      else if is_path_char c then fact_path_from false s'
      else if bool_decide (c = "."%char) then fact_path_from true s'
      else bool_decide (c = "010"%char) && bool_decide (s' = "")
  end.
Definition is_fact_path (s : string) : bool := fact_path_from true s.

(** [path.split(".")]. *)
Fixpoint split_dot (acc s : string) : list string :=
  match s with
  | "" => [acc]
  | String c s => if bool_decide (c = "."%char) then acc :: split_dot "" s
                  else split_dot (acc +:+ String c "") s
  end.

Fixpoint resolve_segments (current : json) (segs : list string) : option json :=
  match segs with
  | [] => Some current
  | seg :: segs =>
      match current with
      | JDict d => match dget seg d with Some v => resolve_segments v segs | None => None end
      | _ => None
      end
  end.

Abbreviation fact_set := (list (string * json)) (only parsing).

(** [(found, value)], as an option. *)
Definition resolve_fact (facts : fact_set) (path : string) : option json :=
  resolve_segments (JDict facts) (split_dot "" path).

(** ** Comparison *)

Definition casefold (s : string) : string := str_lower s.

Definition norm (case_sensitive : bool) (v : json) : json :=
  match v with JStr s => if case_sensitive then v else JStr (casefold s) | _ => v end.

Definition norm_seq (case_sensitive : bool) (v : json) : list json :=
  norm case_sensitive <$> match v with JList l => l | _ => [v] end.


(** The value a comparison operator sees: a date, or the JSON value. *)
Inductive comparable := CDate (d : date) | CJson (j : json).

Definition _as_comparable (v : json) : comparable :=
  match v with
  | JStr s => match fromisoformat s with Ok d => CDate d | Err _ => CJson v end
  | _ => CJson v
  end.

(** Python's ordering of two values of one kind; [None] is [TypeError].  Lists
    compare at the first position where they differ. *)
Fixpoint py_compare (a b : json) {struct a} : option comparison :=
  match a, b with
  | JStr s, JStr t => Some (String.compare s t)
  | JList l, JList m =>
      (fix go l m := match l, m with
       | [], [] => Some Eq
       | [], _ => Some Lt
       | _, [] => Some Gt
       | x :: l, y :: m => if py_eq x y then go l m else py_compare x y
       end) l m
  | (JBool _ | JInt _ | JFloat _), (JBool _ | JInt _ | JFloat _) =>
      match num_of a, num_of b with Some p, Some q => Some (p ?= q)%Q | _, _ => None end
  | _, _ => None
  end.

Definition order (a b : comparable) : option comparison :=
  match a, b with
  | CDate d, CDate e => Some (d ?= e)
  | CJson x, CJson y => py_compare x y
  | _, _ => None
  end.

Definition order_op (op : string) (c : comparison) : bool :=
  if bool_decide (op = "gt") then match c with Gt => true | _ => false end
  else if bool_decide (op = "gte") then match c with Lt => false | _ => true end
  else if bool_decide (op = "lt") then match c with Lt => true | _ => false end
  else if bool_decide (op = "lte") then match c with Gt => false | _ => true end
  else if bool_decide (op = "before") then match c with Lt => true | _ => false end
  else match c with Gt => true | _ => false end.

Definition hashable (v : json) : bool := match v with JList _ | JDict _ => false | _ => true end.

(** [set(items)]: raises on an unhashable element. *)
Definition py_set (items : list json) : result exn (list json) :=
  if forallb hashable items then Ok items else Err TypeError.

(** Kleene connectives over the results of the children. *)
Definition has_truth (x : Truth) (rs : list Truth) : bool := bool_decide (x ∈ rs).
Definition kleene_not (x : Truth) : Truth := match x with UNKNOWN => UNKNOWN | TRUE => FALSE | FALSE => TRUE end.
Definition kleene_all (rs : list Truth) : Truth :=
  if has_truth FALSE rs then FALSE else if has_truth UNKNOWN rs then UNKNOWN else TRUE.
Definition kleene_any (rs : list Truth) : Truth :=
  if has_truth TRUE rs then TRUE else if has_truth UNKNOWN rs then UNKNOWN else FALSE.
Definition kleene_none (rs : list Truth) : Truth :=
  if has_truth TRUE rs then FALSE else if has_truth UNKNOWN rs then UNKNOWN else TRUE.
Definition connective (key : string) (rs : list Truth) : Truth :=
  if bool_decide (key = "all") then kleene_all rs
  else if bool_decide (key = "any") then kleene_any rs else kleene_none rs.

(** [r] is known in [r'] when it was known. *)
Definition less_known (r r' : Truth) : Prop := r = UNKNOWN \/ r = r'.

Lemma has_truth_cons x y rs : has_truth x (y :: rs) = bool_decide (x = y) || has_truth x rs.
Proof. unfold has_truth. rewrite <-bool_decide_or. apply bool_decide_ext, elem_of_cons. Qed.

Lemma connective_mono key rs rs' :
  Forall2 less_known rs rs' -> less_known (connective key rs) (connective key rs').
Proof.
  intros Hrs.
  assert (H2 : has_truth UNKNOWN rs = false -> rs' = rs).
  { induction Hrs as [|r r' rs rs' Hr _ IH]; [done|]. rewrite has_truth_cons, orb_false_iff, bool_decide_eq_false.
    intros [Hu Hn]. destruct Hr; subst; [done|]. f_equal. by apply IH. }
  assert (H1 : forall x, x <> UNKNOWN -> has_truth x rs = true -> has_truth x rs' = true).
  { intros x Hx. clear H2. induction Hrs as [|r r' rs rs' Hr _ IH]; [done|].
    rewrite !has_truth_cons, !orb_true_iff, !bool_decide_eq_true. destruct Hr; subst; intuition congruence. }
  unfold connective, kleene_all, kleene_any, kleene_none, less_known.
  destruct (has_truth UNKNOWN rs) eqn:Eu; [|right; rewrite (H2 eq_refl); by rewrite Eu].
  pose proof (H1 TRUE ltac:(done)) as HT. pose proof (H1 FALSE ltac:(done)) as HF.
  destruct (bool_decide (key = "all")); [|destruct (bool_decide (key = "any"))].
  - destruct (has_truth FALSE rs); [rewrite HF by done; by right | by left].
  - destruct (has_truth TRUE rs); [rewrite HT by done; by right | by left].
  - destruct (has_truth TRUE rs); [rewrite HT by done; by right | by left].
Qed.

Lemma bool_decide_or_true (P : Prop) `{Decision P} b : negb (bool_decide P) || b = true <-> (P -> b = true).
Proof. case_bool_decide; destruct b; simpl; intuition congruence. Qed.

Lemma list_keys key : key ∈ ["all"; "any"; "none"] <-> key ∈ LOGICAL_KEYS /\ key <> "not".
Proof. unfold LOGICAL_KEYS. rewrite !elem_of_cons, elem_of_nil. intuition (subst; done). Qed.

(** [value is None] or no value. *)
Definition known (v : option json) : option json := match v with Some JNull => None | _ => v end.

(** What a trace says is true of the facts. *)
Definition trace_ok (facts : fact_set) (t : EvaluationTrace) : Prop :=
  (forall path v, (path, v) ∈ facts_used t -> v = default JNull (resolve_fact facts path)) /\
  (forall path, path ∈ missing_facts t -> known (resolve_fact facts path) = None).

Definition consulted (t : EvaluationTrace) (path : string) : Prop :=
  path ∈ (facts_used t).*1 \/ path ∈ missing_facts t.

Lemma note_used_ok facts path v t :
  trace_ok facts t -> v = default JNull (resolve_fact facts path) ->
  trace_ok facts (note_used path v t) /\
  forall p, consulted (note_used path v t) p <-> consulted t p \/ p = path.
Proof.
  intros [H1 H2] ->. unfold consulted. simpl. split; [split; [|done]|].
  - intros p w [E|Hin]%dset_in; [by simplify_eq | auto].
  - intros p. rewrite dset_keys. tauto.
Qed.

Lemma note_missing_ok facts path t :
  trace_ok facts t -> known (resolve_fact facts path) = None ->
  trace_ok facts (note_missing path t) /\
  forall p, consulted (note_missing path t) p <-> consulted t p \/ p = path.
Proof.
  intros [H1 H2] Hk. unfold consulted, note_missing. case_bool_decide; simpl.
  - split; [done|]. intros p. split; [tauto|]. intros [? | ->]; tauto.
  - split; [split; [done|]|].
    + intros p [? | ->%list_elem_of_singleton]%elem_of_app; auto.
    + intros p. rewrite elem_of_app, list_elem_of_singleton. tauto.
Qed.

(** Induction over condition nodes: a node's child, and the elements of a child
    that is a list. *)
Lemma node_ind (P : json -> Prop) :
  (forall j, (forall d, j <> JDict d) -> P j) ->
  (forall d, (forall key child, dget key d = Some child ->
     P child /\ forall l, child = JList l -> Forall P l) -> P (JDict d)) ->
  forall j, P j.
Proof.
  intros Hother Hd j.
  enough (P j /\ forall l, j = JList l -> Forall P l) by tauto.
  induction j as [| | | | |l IH|d IH] using json_nested_ind;
    try (split; [by apply Hother | by intros ? [=]]).
  - split; [by apply Hother|]. intros m [= <-]. eapply Forall_impl; [exact IH|]. by intros x [? _].
  - split; [|by intros ? [=]]. apply Hd. intros key child Hc%dget_in.
    rewrite Forall_forall in IH. by apply (IH (key, child)).
Qed.

#[local] Set Default Proof Using "Type*".

Section Engine.
(** [re.compile] succeeds; [re.search(pattern, text, flags)], which may raise;
    [str(v)] of a value that is not a string. *)
Context (re_compiles : string -> bool).
Context (re_search : string -> string -> bool -> result exn bool).
Context (py_str : json -> string).

Definition as_text (v : json) : string := match v with JStr s => s | _ => py_str v end.

Definition _compare (op : string) (actual expected : json) (case_sensitive : bool) : result exn Truth :=
  if bool_decide (op = "eq") then Ok (of_bool (py_eq (norm case_sensitive actual) (norm case_sensitive expected)))
  else if bool_decide (op = "ne") then
    Ok (of_bool (negb (py_eq (norm case_sensitive actual) (norm case_sensitive expected))))
  else if bool_decide (op = "in") then
    Ok (of_bool (py_in (norm case_sensitive actual) (norm_seq case_sensitive expected)))
  else if bool_decide (op = "not_in") then
    Ok (of_bool (negb (py_in (norm case_sensitive actual) (norm_seq case_sensitive expected))))
  else if bool_decide (op ∈ ["contains"; "not_contains"]) then
    let needle := norm case_sensitive expected in
    let present := match actual, norm case_sensitive actual, needle with
      | JList _, _, _ => Some (py_in needle (norm_seq case_sensitive actual))
      | _, JStr h, JStr n => Some (is_infix n h)
      | _, _, _ => None end in
    match present with
    | None => Ok UNKNOWN
    | Some p => Ok (of_bool (if bool_decide (op = "contains") then p else negb p))
    end
  else if bool_decide (op ∈ ["contains_any"; "contains_all"]) then
    match actual with
    | JList _ =>
        haystack ← py_set (norm_seq case_sensitive actual);
        wanted ← py_set (norm_seq case_sensitive expected);
        Ok (of_bool (if bool_decide (op = "contains_any")
                     then existsb (fun w => py_in w wanted) haystack
                     else forallb (fun w => py_in w haystack) wanted))
    | _ => Ok UNKNOWN
    end
  else if bool_decide (op ∈ ["gt"; "gte"; "lt"; "lte"; "before"; "after"]) then
    match order (_as_comparable actual) (_as_comparable expected) with
    | Some c => Ok (of_bool (order_op op c))
    | None => Ok UNKNOWN
    end
  else if bool_decide (op = "matches") then
    match actual with
    | JStr s => of_bool <$> re_search (as_text expected) s (negb case_sensitive)
    | _ => Ok UNKNOWN
    end
  else Ok UNKNOWN.

(** [len(v)]. *)
Definition py_len (v : json) : result exn nat :=
  match v with
  | JStr s => Ok (String.length s)
  | JList l => Ok (length l)
  | JDict d => Ok (length d)
  | _ => Err TypeError
  end.

Definition get_required (k : string) (d : list (string * json)) : result exn json :=
  match dget k d with Some v => Ok v | None => Err KeyError end.

(** The comparison node. *)
Definition evaluate_leaf (d : list (string * json)) (facts : fact_set) (t : EvaluationTrace)
    : result exn (Truth * EvaluationTrace) :=
  path ← as_text <$> get_required "fact" d;
  op ← as_text <$> get_required "op" d;
  let found := resolve_fact facts path in
  let case_sensitive := match dget "case_sensitive" d with Some v => truthy v | None => false end in
  if bool_decide (op = "is_present") then
    Ok (of_bool (truthy_opt (known found)), note_used path (default JNull found) t)
  else if bool_decide (op = "is_absent") then
    Ok (of_bool (negb (truthy_opt (known found))), note_used path (default JNull found) t)
  else
    match known found with
    | None => Ok (UNKNOWN, note_missing path t)
    | Some v =>
        let t := note_used path v t in
        if bool_decide (op = "is_true") then
          Ok (of_bool (match v with JBool true => true | _ => false end), t)
        else if bool_decide (op = "is_false") then
          Ok (of_bool (match v with JBool false => true | _ => false end), t)
        else if bool_decide (op = "is_empty") then
          n ← py_len v; Ok (of_bool (n =? 0)%nat, t)
        else if bool_decide (op = "is_not_empty") then
          match py_len v with
          | Err _ => Ok (UNKNOWN, t)
          | Ok n => Ok (of_bool (negb (n =? 0)%nat), t)
          end
        else
          r ← _compare op v (default JNull (dget "value" d)) case_sensitive; Ok (r, t)
    end.

(** [next(iter(LOGICAL_KEYS & node.keys()))]: the only logical key of a node that
    passed validation, the first one otherwise. *)
Definition logical_key (d : list (string * json)) : option string :=
  head (filter (fun k => k ∈ LOGICAL_KEYS) d.*1).

(** The children a list comprehension over [node[key]] visits: a list's elements;
    an empty dict or string has none, and the keys of a dict and the characters of
    a string are not nodes. *)
Fixpoint evaluate (node : json) (facts : fact_set) (t : EvaluationTrace) {struct node}
    : result exn (Truth * EvaluationTrace) :=
  match node with
  | JDict d =>
      match logical_key d with
      | None => evaluate_leaf d facts t
      | Some key =>
          (fix pick items := match items with
           | [] => Err KeyError
           | (k, child) :: items =>
               if bool_decide (key = k) then
                 if bool_decide (key = "not") then
                   '(inner, t) ← evaluate child facts t; Ok (kleene_not inner, t)
                 else
                   '(rs, t) ← match child with
                     | JList l =>
                         (fix go l t := match l with
                          | [] => Ok ([], t)
                          | x :: l => '(r, t) ← evaluate x facts t; '(rs, t) ← go l t; Ok (r :: rs, t)
                          end) l t
                     | JDict [] | JStr "" => Ok ([], t)
                     | JDict _ | JStr _ => Err AttributeError
                     | _ => Err TypeError
                     end;
                   Ok (connective key rs, t)
               else pick items
           end) d
      end
  | _ => Err AttributeError
  end.

(** ** Validation *)

(** The operator, when [op in OPERATORS]; an unhashable operator raises. *)
Definition operator_needs_value (op : option json) : result exn bool :=
  match op with
  | Some (JStr s) => match dget s OPERATORS with Some b => Ok b | None => Err RuleValidationError end
  | Some (JList _ | JDict _) => Err TypeError
  | _ => Err RuleValidationError
  end.

Definition op_name (op : option json) : string := match op with Some (JStr s) => s | _ => "" end.

(** The checks on a comparison node. *)
Definition validate_leaf (d : list (string * json)) : result exn unit :=
  _ ← raise_unless (forallb (fun k => bool_decide (k ∈ ["fact"; "op"; "value"; "case_sensitive"])) d.*1)
        RuleValidationError;
  _ ← raise_unless (match dget "fact" d with Some (JStr s) => is_fact_path s | _ => false end)
        RuleValidationError;
  needs ← operator_needs_value (dget "op" d);
  let op := op_name (dget "op" d) in
  _ ← raise_unless (bool_decide (needs = dhas "value" d)) RuleValidationError;
  _ ← raise_unless (negb (bool_decide (op ∈ ["in"; "not_in"; "contains_any"; "contains_all"]))
        || match dget "value" d with Some (JList _) => true | _ => false end) RuleValidationError;
  raise_unless (negb (bool_decide (op = "matches"))
    || match dget "value" d with
       | Some (JStr p) => (String.length p <=? 200)%nat && re_compiles p
       | _ => false end) RuleValidationError.

(** The node counter is threaded as the source threads its one-element list. *)
Fixpoint validate_conditions (node : json) (depth counter : nat) {struct node} : result exn nat :=
  let counter := S counter in
  _ ← raise_unless (counter <=? MAX_NODES)%nat RuleValidationError;
  _ ← raise_unless (depth <=? MAX_DEPTH)%nat RuleValidationError;
  match node with
  | JDict [] => Err RuleValidationError
  | JDict d =>
      match logical_key d with
      | None => _ ← validate_leaf d; Ok counter
      | Some key =>
          match d with
          | [(_, child)] =>
              if bool_decide (key = "not") then validate_conditions child (S depth) counter
              else match child with
                | JList ((_ :: _) as l) =>
                    (fix go l c := match l with
                     | [] => Ok c
                     | x :: l => c ← validate_conditions x (S depth) c; go l c
                     end) l counter
                | _ => Err RuleValidationError
                end
          | _ => Err RuleValidationError
          end
      end
  | _ => Err RuleValidationError
  end.

(** ** Referenced facts *)

Fixpoint collect_fact_paths (node : json) : list string :=
  match node with
  | JDict d =>
      match logical_key d with
      | Some key =>
          (fix pick items := match items with
           | [] => []
           | (k, child) :: items =>
               if bool_decide (key = k) then
                 if bool_decide (key = "not") then collect_fact_paths child
                 else match child with
                   | JList l => (fix go l := match l with [] => [] | x :: l => collect_fact_paths x ++ go l end) l
                   | _ => []
                   end
               else pick items
           end) d
      | None => match dget "fact" d with Some (JStr f) => [f] | _ => [] end
      end
  | _ => []
  end.

(** ** Unfolding *)

(** Evaluate a list of nodes left to right. *)
Fixpoint evaluate_all (l : list json) (facts : fact_set) (t : EvaluationTrace)
    : result exn (list Truth * EvaluationTrace) :=
  match l with
  | [] => Ok ([], t)
  | x :: l => '(r, t) ← evaluate x facts t; '(rs, t) ← evaluate_all l facts t; Ok (r :: rs, t)
  end.

(** The nodes visited under a logical key. *)
Definition child_nodes (child : json) : result exn (list json) :=
  match child with
  | JList l => Ok l
  | JDict [] | JStr "" => Ok []
  | JDict _ | JStr _ => Err AttributeError
  | _ => Err TypeError
  end.

Lemma evaluate_dict d facts t :
  evaluate (JDict d) facts t =
  match logical_key d with
  | None => evaluate_leaf d facts t
  | Some key =>
      child ← get_required key d;
      if bool_decide (key = "not") then
        '(inner, t) ← evaluate child facts t; Ok (kleene_not inner, t)
      else
        l ← child_nodes child;
        '(rs, t) ← evaluate_all l facts t; Ok (connective key rs, t)
  end.
Proof.
  cbn [evaluate]. destruct (logical_key d) as [key|]; [|done]. generalize d as items.
  unfold get_required. induction items as [|[k child] items IH]; [done|]. cbn [dget].
  destruct (bool_decide (key = k)); [|apply IH]. msimpl. destruct (bool_decide (key = "not")); [done|].
  destruct child as [| | | |[]|l|[]]; try done. simpl child_nodes. msimpl.
  match goal with |- context [?f l t] => assert (f l t = evaluate_all l facts t) as ->; [|done] end.
  clear IH. revert t. induction l as [|x l IHl]; intros t; [done|]. cbn [evaluate_all].
  destruct (evaluate x facts t) as [[r t1]|]; msimpl; [|done]. by rewrite IHl.
Qed.

Fixpoint validate_all (l : list json) (depth c : nat) : result exn nat :=
  match l with
  | [] => Ok c
  | x :: l => c ← validate_conditions x depth c; validate_all l depth c
  end.

Lemma validate_dict d depth c n :
  validate_conditions (JDict d) depth c = Ok n ->
  (S c <= MAX_NODES)%nat /\ (depth <= MAX_DEPTH)%nat /\
  match logical_key d with
  | None => validate_leaf d = Ok tt /\ n = S c
  | Some key => exists child, d = [(key, child)] /\
      if bool_decide (key = "not") then validate_conditions child (S depth) (S c) = Ok n
      else exists x l, child = JList (x :: l) /\ validate_all (x :: l) (S depth) (S c) = Ok n
  end.
Proof.
  cbn [validate_conditions]. intros Hv. inv_ok.
  match goal with H : (S c <=? _)%nat = true |- _ => apply Nat.leb_le in H end.
  match goal with H : (depth <=? _)%nat = true |- _ => apply Nat.leb_le in H end.
  split_and!; [done..|]. destruct d as [|[k child] d]; [discriminate|].
  destruct (logical_key _) as [key|] eqn:Hk.
  - destruct d; [|discriminate]. exists child.
    assert (key = k) as ->.
    { unfold logical_key in Hk. simpl in Hk. rewrite filter_cons in Hk. destruct (decide (k ∈ LOGICAL_KEYS)); by simplify_eq/=. }
    split; [done|]. case_bool_decide; [done|].
    destruct child as [| | | | |[|x l]|]; try discriminate. exists x, l. split; [done|]. rewrite <-Hv.
    generalize (S c). clear. revert x.
    assert (forall m l, validate_all l (S depth) m =
      (fix go l c := match l with [] => Ok c | x :: l => c ← validate_conditions x (S depth) c; go l c end) l m) as E.
    { intros m l0. revert m. induction l0 as [|y l0 IH]; intros m; [done|]. cbn [validate_all].
      destruct (validate_conditions y (S depth) m); msimpl; [apply IH | done]. }
    intros x m. apply E.
  - apply bind_Ok_inv in Hv as ([] & Hl & Hv). by injection Hv as <-.
Qed.

Lemma collect_dict d :
  collect_fact_paths (JDict d) =
  match logical_key d with
  | Some key =>
      match dget key d with
      | Some child =>
          if bool_decide (key = "not") then collect_fact_paths child
          else match child with JList l => concat (collect_fact_paths <$> l) | _ => [] end
      | None => []
      end
  | None => match dget "fact" d with Some (JStr f) => [f] | _ => [] end
  end.
Proof.
  cbn [collect_fact_paths]. destruct (logical_key d) as [key|]; [|done]. generalize d as items.
  induction items as [|[k child] items IH]; [done|]. cbn [dget].
  destruct (bool_decide (key = k)); [|apply IH]. destruct (bool_decide (key = "not")); [done|].
  destruct child as [| | | | |l|]; try done. induction l as [|x l IHl]; [done|].
  simpl. by rewrite IHl.
Qed.

(** The comparison nodes of a condition, left to right. *)
Fixpoint leaf_nodes (node : json) : list (list (string * json)) :=
  match node with
  | JDict d =>
      match logical_key d with
      | Some key =>
          (fix pick items := match items with
           | [] => []
           | (k, child) :: items =>
               if bool_decide (key = k) then
                 if bool_decide (key = "not") then leaf_nodes child
                 else match child with
                   | JList l => (fix go l := match l with [] => [] | x :: l => leaf_nodes x ++ go l end) l
                   | _ => []
                   end
               else pick items
           end) d
      | None => [d]
      end
  | _ => []
  end.

Lemma leaf_nodes_dict d :
  leaf_nodes (JDict d) =
  match logical_key d with
  | Some key =>
      match dget key d with
      | Some child =>
          if bool_decide (key = "not") then leaf_nodes child
          else match child with JList l => concat (leaf_nodes <$> l) | _ => [] end
      | None => []
      end
  | None => [d]
  end.
Proof.
  cbn [leaf_nodes]. destruct (logical_key d) as [key|]; [|done]. generalize d as items.
  induction items as [|[k child] items IH]; [done|]. cbn [dget].
  destruct (bool_decide (key = k)); [|apply IH]. destruct (bool_decide (key = "not")); [done|].
  destruct child as [| | | | |l|]; try done. induction l as [|x l IHl]; [done|].
  simpl. by rewrite IHl.
Qed.

Definition leaf_op (d : list (string * json)) : option string := as_text <$> dget "op" d.

Lemma get_required_Ok k d v : get_required k d = Ok v <-> dget k d = Some v.
Proof. unfold get_required. destruct (dget k d); split; intros; simplify_eq; done. Qed.

Lemma evaluate_all_Forall l facts t rs t' :
  evaluate_all l facts t = Ok (rs, t') ->
  Forall2 (fun x r => exists t1 t2, evaluate x facts t1 = Ok (r, t2)) l rs.
Proof.
  revert t rs. induction l as [|x l IH]; intros t rs Hl; simpl in Hl; [injection Hl as <- _; constructor|].
  apply bind_Ok_inv in Hl as ([r t1] & Hx & Hl). apply bind_Ok_inv in Hl as ([rs' t2] & Hr & Hl).
  injection Hl as <- <-. constructor; eauto.
Qed.

(** ** More facts, fewer unknowns *)

(** [g] knows every fact [f] knows, with the same value. *)
Definition fewer_facts (f g : fact_set) : Prop :=
  forall path v, known (resolve_fact f path) = Some v -> known (resolve_fact g path) = Some v.

(** No presence operator among the comparison nodes. *)
Definition presence_free (node : json) : Prop :=
  Forall (fun d => leaf_op d <> Some "is_present" /\ leaf_op d <> Some "is_absent") (leaf_nodes node).

Lemma evaluate_leaf_mono d f g t u r t' r' u' :
  leaf_op d <> Some "is_present" -> leaf_op d <> Some "is_absent" -> fewer_facts f g ->
  evaluate_leaf d f t = Ok (r, t') -> evaluate_leaf d g u = Ok (r', u') -> less_known r r'.
Proof.
  unfold leaf_op, evaluate_leaf. intros Hp Ha Hfg Hf Hg.
  destruct (get_required "fact" d) as [p|]; [msimpl | discriminate].
  destruct (get_required "op" d) as [o|] eqn:Ho; [msimpl | discriminate].
  apply get_required_Ok in Ho. rewrite Ho in Hp, Ha.
  rewrite bool_decide_eq_false_2 in Hf, Hg by (intros E; by rewrite <-E in Hp).
  rewrite bool_decide_eq_false_2 in Hf, Hg by (intros E; by rewrite <-E in Ha).
  destruct (known (resolve_fact f (as_text p))) as [v|] eqn:Ef.
  - apply Hfg in Ef. rewrite Ef in Hg. right.
    repeat (case_bool_decide; [by simplify_eq|]).
    case_bool_decide; [destruct (py_len v); by simplify_eq/=|].
    case_bool_decide; [destruct (py_len v); by simplify_eq/=|].
    destruct (_compare _ _ _ _); by simplify_eq/=.
  - left. by simplify_eq.
Qed.

(** Learning facts never reverses an answer: when every fact known before is
    still known with its value, a condition without presence operators that was
    TRUE stays TRUE and one that was FALSE stays FALSE; only UNKNOWN can change. *)
Theorem evaluate_monotone node f g t u r t' r' u' :
  presence_free node -> fewer_facts f g ->
  evaluate node f t = Ok (r, t') -> evaluate node g u = Ok (r', u') ->
  r = UNKNOWN \/ r = r'.
Proof.
  intros Hp Hfg. change (evaluate node f t = Ok (r, t') -> evaluate node g u = Ok (r', u') -> less_known r r').
  revert Hp t u r t' r' u'. induction node as [j Hj|d IH] using node_ind; intros Hp t u r t' r' u' Hf Hg.
  { by destruct j as [| | | | | |d]; try discriminate; destruct (Hj d). }
  unfold presence_free in Hp. rewrite leaf_nodes_dict in Hp. rewrite evaluate_dict in Hf, Hg.
  destruct (logical_key d) as [key|].
  2: { apply Forall_singleton in Hp as [??]. by eapply evaluate_leaf_mono. }
  apply bind_Ok_inv in Hf as (child & Hc & Hf). rewrite Hc in Hg. msimpl.
  apply get_required_Ok in Hc. rewrite Hc in Hp. apply IH in Hc as [IHc IHl].
  destruct (bool_decide (key = "not")).
  - apply bind_Ok_inv in Hf as ([r1 t1] & Hf & E), Hg as ([r2 u1] & Hg & E'). injection E as <- <-. injection E' as <- <-.
    destruct (IHc Hp _ _ _ _ _ _ Hf Hg) as [->| ->]; [by left | by right].
  - apply bind_Ok_inv in Hf as (l & Hl & Hf). rewrite Hl in Hg. msimpl.
    apply bind_Ok_inv in Hf as ([rs t1] & Hf & E), Hg as ([rs' u1] & Hg & E'). injection E as <- <-. injection E' as <- <-.
    apply connective_mono. apply evaluate_all_Forall in Hf, Hg.
    assert (l = [] \/ child = JList l) as [->| ->].
    { destruct child as [| | | |[]|?|[]]; try discriminate; injection Hl as <-; auto. }
    { apply Forall2_nil_inv_l in Hf as ->. apply Forall2_nil_inv_l in Hg as ->. constructor. }
    specialize (IHl l eq_refl). clear Hl IHc IH. revert rs rs' Hf Hg.
    induction l as [|x l IHx]; intros rs rs' Hf Hg.
    { apply Forall2_nil_inv_l in Hf as ->. apply Forall2_nil_inv_l in Hg as ->. constructor. }
    apply Forall2_cons_inv_l in Hf as (r1 & rs1 & (?&?&Hf1) & Hf & ->).
    apply Forall2_cons_inv_l in Hg as (r2 & rs2 & (?&?&Hg1) & Hg & ->).
    simpl in Hp. apply Forall_app in Hp as [Hp1 Hp2]. apply Forall_cons in IHl as [IH1 IHl].
    constructor; [by eapply IH1 | by apply IHx].
Qed.

(** ** The trace does not influence the answer *)

Definition answer_of {A} (r : result exn (A * EvaluationTrace)) : result exn A := fst <$> r.

Lemma evaluate_leaf_answer d facts t u : answer_of (evaluate_leaf d facts t) = answer_of (evaluate_leaf d facts u).
Proof.
  unfold evaluate_leaf, answer_of. destruct (get_required "fact" d); [msimpl|done].
  destruct (get_required "op" d); [msimpl|done].
  do 2 (case_bool_decide; [done|]). destruct (known _) as [v|]; [|done].
  do 2 (case_bool_decide; [done|]). case_bool_decide; [by destruct (py_len v)|].
  case_bool_decide; [by destruct (py_len v)|]. by destruct (_compare _ _ _ _).
Qed.

Lemma evaluate_answer node facts t u : answer_of (evaluate node facts t) = answer_of (evaluate node facts u).
Proof.
  revert t u. induction node as [j Hj|d IH] using node_ind; intros t u.
  { by destruct j as [| | | | | |d]; try done; destruct (Hj d). }
  rewrite !evaluate_dict. destruct (logical_key d) as [key|]; [|apply evaluate_leaf_answer].
  unfold get_required. destruct (dget key d) as [child|] eqn:Hc; [|done]. msimpl.
  apply IH in Hc as [IHc IHl]. unfold answer_of in *. destruct (bool_decide (key = "not")).
  - specialize (IHc t u).
    destruct (evaluate child facts t) as [[]|], (evaluate child facts u) as [[]|]; simplify_eq/=; done.
  - assert (forall l, Forall (fun x => forall t u, fst <$> evaluate x facts t = fst <$> evaluate x facts u) l ->
      forall t u, fst <$> evaluate_all l facts t = fst <$> evaluate_all l facts u) as Hall.
    { clear. induction 1 as [|x l Hx _ IH]; intros t u; [done|]. cbn [evaluate_all]. specialize (Hx t u).
      destruct (evaluate x facts t) as [[r t1]|], (evaluate x facts u) as [[r2 u1]|]; simplify_eq/=; try done.
      specialize (IH t1 u1). destruct (evaluate_all l facts t1) as [[]|], (evaluate_all l facts u1) as [[]|];
        simplify_eq/=; done. }
    destruct child as [| | | |[]|l|[]]; try done. simpl child_nodes. msimpl.
    specialize (Hall l (IHl l eq_refl) t u).
    destruct (evaluate_all l facts t) as [[]|], (evaluate_all l facts u) as [[]|]; simplify_eq/=; done.
Qed.

(** ** The grammar *)

(** A comparison node. *)
Definition leaf_grammar (d : list (string * json)) : Prop :=
  (forall k, k ∈ d.*1 -> k ∈ ["fact"; "op"; "value"; "case_sensitive"]) /\
  (exists path, dget "fact" d = Some (JStr path) /\ is_fact_path path = true) /\
  exists op needs, dget "op" d = Some (JStr op) /\ dget op OPERATORS = Some needs /\
    (needs = true <-> is_Some (dget "value" d)) /\
    (op ∈ ["in"; "not_in"; "contains_any"; "contains_all"] -> exists l, dget "value" d = Some (JList l)) /\
    (op = "matches" -> exists p, dget "value" d = Some (JStr p) /\ (String.length p <= 200)%nat /\
       re_compiles p = true).

(** A condition, its number of nodes and its height. *)
Inductive condition : nat -> nat -> json -> Prop :=
| cond_leaf d : logical_key d = None -> leaf_grammar d -> condition 1 0 (JDict d)
| cond_not n h c : condition n h c -> condition (S n) (S h) (JDict [("not", c)])
| cond_list key n h l : key ∈ ["all"; "any"; "none"] -> l <> [] -> conditions n h l ->
    condition (S n) (S h) (JDict [(key, JList l)])
with conditions : nat -> nat -> list json -> Prop :=
| conds_nil : conditions 0 0 []
| conds_cons n h x m k l : condition n h x -> conditions m k l ->
    conditions (n + m) (Nat.max h k) (x :: l).

Scheme condition_mind := Minimality for condition Sort Prop
  with conditions_mind := Minimality for conditions Sort Prop.
Combined Scheme condition_both from condition_mind, conditions_mind.

Lemma validate_leaf_grammar d : validate_leaf d = Ok tt <-> leaf_grammar d.
Proof.
  unfold validate_leaf, leaf_grammar, operator_needs_value, dhas, truthy_opt. split.
  - intros Hv. apply bind_Ok_inv in Hv as ([] & Hk%raise_unless_Ok & Hv).
    apply bind_Ok_inv in Hv as ([] & Hf%raise_unless_Ok & Hv). apply bind_Ok_inv in Hv as (needs & Hn & Hv).
    apply bind_Ok_inv in Hv as ([] & Hd%raise_unless_Ok & Hv). apply bind_Ok_inv in Hv as ([] & Hl%raise_unless_Ok & Hm).
    apply raise_unless_Ok in Hm. rewrite bool_decide_or_true in Hl, Hm. split_and!.
    + intros k Hin. apply list_elem_of_In in Hin. rewrite forallb_forall in Hk. by apply Hk, bool_decide_eq_true in Hin.
    + destruct (dget "fact" d) as [[| | | |path| |]|]; try discriminate. eauto.
    + destruct (dget "op" d) as [[| | | |op| |]|]; try discriminate. cbn [op_name] in *.
      destruct (dget op OPERATORS) as [b|] eqn:Eo; [|discriminate]. injection Hn as <-.
      apply bool_decide_eq_true in Hd. exists op, b. split_and!; [done..| | |].
      * rewrite Hd. apply bool_decide_eq_true.
      * intros Hin%Hl. destruct (dget "value" d) as [[]|]; try discriminate. eauto.
      * intros Hin%Hm. destruct (dget "value" d) as [[]|]; try discriminate.
        apply andb_true_iff in Hin as [?%Nat.leb_le ?]. eauto.
  - intros (Hk & (path & -> & Hp) & op & needs & -> & Ho & Hv & Hl & Hm). rewrite Hp, Ho.
    replace (forallb _ _) with true.
    2: { symmetry. apply forallb_forall. intros k Hin. apply bool_decide_eq_true, Hk, list_elem_of_In, Hin. }
    cbn [raise_unless op_name]. msimpl.
    replace (bool_decide (needs = _)) with true; [|symmetry; apply bool_decide_eq_true_2].
    2: { destruct (decide (is_Some (dget "value" d))) as [Hd|Hd].
         - rewrite bool_decide_eq_true_2 by done. by apply Hv.
         - rewrite bool_decide_eq_false_2 by done. destruct needs; [by destruct Hd; apply Hv | done]. }
    cbn [raise_unless]. msimpl.
    replace (negb (bool_decide (op ∈ _)) || _) with true; [|symmetry; apply bool_decide_or_true].
    2: { intros Hin. by destruct (Hl Hin) as [l ->]. }
    cbn [raise_unless]. msimpl.
    replace (negb (bool_decide (op = _)) || _) with true; [done|symmetry; apply bool_decide_or_true].
    intros Hin. destruct (Hm Hin) as (p & -> & Hlen & ->). by rewrite (proj2 (Nat.leb_le _ _) Hlen).
Qed.

Lemma logical_key_single k child : logical_key [(k, child)] = if bool_decide (k ∈ LOGICAL_KEYS) then Some k else None.
Proof.
  unfold logical_key. simpl. rewrite filter_cons.
  destruct (decide (k ∈ LOGICAL_KEYS)); [by rewrite bool_decide_eq_true_2 | by rewrite bool_decide_eq_false_2].
Qed.

Lemma logical_key_in d key : logical_key d = Some key -> key ∈ LOGICAL_KEYS.
Proof.
  unfold logical_key. intros Hh. assert (key ∈ filter (fun k => k ∈ LOGICAL_KEYS) d.*1) as Hin.
  { destruct (filter _ _); simplify_eq/=. left. }
  by apply list_elem_of_filter in Hin as [? _].
Qed.

(** What acceptance of a node means. *)
Definition accepted (node : json) : Prop :=
  forall depth c m, validate_conditions node depth c = Ok m ->
  exists n h, condition n h node /\ m = (c + n)%nat /\ (m <= MAX_NODES)%nat /\ (depth + h <= MAX_DEPTH)%nat.

Lemma validate_all_sound l depth c m :
  Forall accepted l -> (c <= MAX_NODES)%nat -> validate_all l depth c = Ok m ->
  exists n h, conditions n h l /\ m = (c + n)%nat /\ (m <= MAX_NODES)%nat /\
    (l = [] /\ h = 0%nat \/ (depth + h <= MAX_DEPTH)%nat).
Proof.
  intros Hl. revert c. induction Hl as [|x l Hx Hl IH]; intros c Hc Hv.
  - injection Hv as <-. exists 0%nat, 0%nat. split_and!; [constructor | lia | done | by left].
  - cbn [validate_all] in Hv.
    apply bind_Ok_inv in Hv as (c1 & H1 & Hv). apply Hx in H1 as (n & h & Hn & -> & ? & ?).
    apply IH in Hv as (n' & h' & Hn' & -> & ? & Hh); [|done].
    exists (n + n')%nat, (Nat.max h h'). split_and!; [by constructor | lia | lia | right; lia].
Qed.

Lemma validate_sound node : accepted node.
Proof.
  induction node as [j Hj|d IH] using node_ind; intros depth c m Hv.
  { destruct j as [| | | | | |d]; [..|by destruct (Hj d)]; cbn [validate_conditions] in Hv;
      apply bind_Ok_inv in Hv as (? & _ & Hv); apply bind_Ok_inv in Hv as (? & _ & Hv); discriminate. }
  apply validate_dict in Hv as (Hc & Hd & Hv). destruct (logical_key d) as [key|] eqn:Hk.
  - destruct Hv as (child & -> & Hv). specialize (IH key child). simpl in IH.
    rewrite bool_decide_eq_true_2 in IH by done. destruct (IH eq_refl) as [IHc IHl]. clear IH.
    case_bool_decide as Hn.
    + apply IHc in Hv as (n & h & Hcn & -> & ? & ?). subst key. exists (S n), (S h).
      split_and!; [by constructor | lia | lia | lia].
    + destruct Hv as (x & l & -> & Hv).
      apply validate_all_sound in Hv as (n & h & Hn' & -> & ? & Hh); [|by apply IHl|done].
      exists (S n), (S h). split_and!; [constructor; [|done..] | lia | lia | destruct Hh as [[[=] _]|]; lia].
      apply logical_key_in in Hk. by apply list_keys.
  - destruct Hv as [Hv ->]. exists 1%nat, 0%nat. split_and!; [|lia|done|lia].
    constructor; [done | by apply validate_leaf_grammar].
Qed.

Lemma condition_size :
  (forall n h node, condition n h node -> (1 <= n)%nat) /\
  (forall n h l, conditions n h l -> (length l <= n)%nat).
Proof. apply condition_both; simpl; intros; lia. Qed.

Lemma validate_complete :
  (forall n h node, condition n h node -> forall depth c,
     (c + n <= MAX_NODES)%nat -> (depth + h <= MAX_DEPTH)%nat ->
     validate_conditions node depth c = Ok (c + n)%nat) /\
  (forall n h l, conditions n h l -> forall depth c,
     (c + n <= MAX_NODES)%nat -> (depth + h <= MAX_DEPTH)%nat ->
     validate_all l depth c = Ok (c + n)%nat).
Proof.
  assert (forall d depth c n, (c + S n <= MAX_NODES)%nat -> (depth <= MAX_DEPTH)%nat ->
    validate_conditions (JDict d) depth c =
      match d with
      | [] => Err RuleValidationError
      | _ => match logical_key d with
             | None => _ ← validate_leaf d; Ok (S c)
             | Some key => match d with
                | [(_, child)] => if bool_decide (key = "not") then validate_conditions child (S depth) (S c)
                    else match child with JList (x :: l) => validate_all (x :: l) (S depth) (S c)
                         | _ => Err RuleValidationError end
                | _ => Err RuleValidationError end end end) as Hunf.
  { intros d depth c n Hn Hd. cbn [validate_conditions].
    rewrite (proj2 (Nat.leb_le (S c) MAX_NODES)) by lia. rewrite (proj2 (Nat.leb_le _ _)) by done.
    cbn [raise_unless]. msimpl. destruct d as [|[k child] d]; [done|].
    destruct (logical_key _); [|done]. destruct d; [|done]. destruct (bool_decide _); [done|].
    destruct child as [| | | | |[|x l]|]; try done. generalize (S c) as m. revert x.
    assert (forall m l, (fix go l c := match l with [] => Ok c | x :: l => c ← validate_conditions x (S depth) c; go l c end) l m
      = validate_all l (S depth) m) as E; [|intros x m; exact (E m (x :: l))].
    clear. intros m l. revert m. induction l as [|y l IH]; intros m; [done|]. cbn [validate_all].
    destruct (validate_conditions y (S depth) m); msimpl; [apply IH | done]. }
  apply condition_both.
  - intros d Hk Hg depth c Hn Hd. rewrite (Hunf d depth c 0%nat) by lia. rewrite Hk.
    apply validate_leaf_grammar in Hg. rewrite Hg. destruct d; [discriminate|]. msimpl. f_equal. lia.
  - intros n h x Hx IH depth c Hn Hd. rewrite (Hunf _ depth c n) by lia. rewrite logical_key_single.
    simpl bool_decide. cbv iota. rewrite bool_decide_eq_true_2 by done.
    rewrite IH by lia. f_equal. lia.
  - intros key n h l Hk Hne _ IH depth c Hn Hd. rewrite (Hunf _ depth c n) by lia. rewrite logical_key_single.
    rewrite bool_decide_eq_true_2 by (by apply list_keys).
    rewrite bool_decide_eq_false_2 by (by apply list_keys in Hk as [_ ?]). destruct l; [done|].
    rewrite IH by lia. f_equal. lia.
  - intros depth c Hn Hd. simpl. f_equal. lia.
  - intros n h x m k l _ IHx _ IHl depth c Hn Hd. cbn [validate_all]. rewrite IHx by lia. msimpl.
    rewrite IHl by lia. f_equal. lia.
Qed.

(** C25. [validate_conditions] accepts exactly the grammar within its bounds: a
    node passes iff it is a condition of at most [MAX_NODES] nodes nested at most
    [MAX_DEPTH] levels, and the counter it returns is its number of nodes. *)
Theorem validate_conditions_spec node n :
  validate_conditions node 0 0 = Ok n <->
  exists h, condition n h node /\ (n <= MAX_NODES)%nat /\ (h <= MAX_DEPTH)%nat.
Proof.
  split.
  - intros (n' & h & Hc & -> & Hn & Hh)%validate_sound. eauto.
  - intros (h & Hc & Hn & Hh). by apply (proj1 validate_complete _ _ _ Hc 0%nat 0%nat).
Qed.

(** ** Evaluation of accepted conditions *)

Lemma evaluate_leaf_eq d facts t : logical_key d = None -> evaluate (JDict d) facts t = evaluate_leaf d facts t.
Proof. intros Hk. by rewrite evaluate_dict, Hk. Qed.

Lemma evaluate_not_eq c facts t :
  evaluate (JDict [("not", c)]) facts t = ('(r, t) ← evaluate c facts t; Ok (kleene_not r, t)).
Proof. by rewrite evaluate_dict. Qed.

Lemma evaluate_list_eq key l facts t :
  key ∈ ["all"; "any"; "none"] ->
  evaluate (JDict [(key, JList l)]) facts t = ('(rs, t) ← evaluate_all l facts t; Ok (connective key rs, t)).
Proof.
  intros [Hin Hne]%list_keys. rewrite evaluate_dict, logical_key_single.
  rewrite bool_decide_eq_true_2 by done. unfold get_required. simpl dget.
  rewrite (bool_decide_eq_true_2 (key = key)) by done. msimpl. by rewrite bool_decide_eq_false_2 by done.
Qed.

Lemma leaf_nodes_list key l :
  key ∈ ["all"; "any"; "none"] -> leaf_nodes (JDict [(key, JList l)]) = concat (leaf_nodes <$> l).
Proof.
  intros [Hin Hne]%list_keys. rewrite leaf_nodes_dict, logical_key_single.
  rewrite bool_decide_eq_true_2 by done. simpl dget.
  rewrite (bool_decide_eq_true_2 (key = key)) by done. by rewrite bool_decide_eq_false_2 by done.
Qed.

Lemma collect_list key l :
  key ∈ ["all"; "any"; "none"] ->
  collect_fact_paths (JDict [(key, JList l)]) = concat (collect_fact_paths <$> l).
Proof.
  intros [Hin Hne]%list_keys. rewrite collect_dict, logical_key_single.
  rewrite bool_decide_eq_true_2 by done. simpl dget.
  rewrite (bool_decide_eq_true_2 (key = key)) by done. by rewrite bool_decide_eq_false_2 by done.
Qed.

(** The operators that raise [TypeError] on a fact of the wrong shape. *)
Definition raising_ops : list string := ["is_empty"; "contains_any"; "contains_all"].

Definition raises (ds : list (list (string * json))) : Prop :=
  exists d, d ∈ ds /\ leaf_op d ∈ Some <$> raising_ops.

Section Total.
Context (Hre : forall p s b, re_compiles p = true -> is_ok (re_search p s b) = true).

Lemma compare_total op a e cs :
  (op = "matches" -> exists p, e = JStr p /\ re_compiles p = true) ->
  is_ok (_compare op a e cs) = true \/ _compare op a e cs = Err TypeError /\ op ∈ raising_ops.
Proof.
  intros Hm. unfold _compare.
  do 4 (destruct (bool_decide (op = _)); [by left|]).
  destruct (bool_decide (op ∈ _)); [left; by destruct a, e, cs|].
  destruct (decide (op ∈ ["contains_any"; "contains_all"])) as [Hin|Hin].
  - rewrite (bool_decide_eq_true_2 (op ∈ ["contains_any"; "contains_all"])) by done.
    assert (op ∈ raising_ops) by (unfold raising_ops; by right).
    destruct a as [| | | | |l|]; try by left. unfold py_set.
    destruct (forallb hashable (norm_seq cs (JList l))); [msimpl | by right].
    destruct (forallb _ _); [by left | by right].
  - rewrite (bool_decide_eq_false_2 (op ∈ ["contains_any"; "contains_all"])) by done.
    destruct (bool_decide (op ∈ _)); [left; by destruct (order _ _)|].
    case_bool_decide as E; [|by left]. left. destruct a; try done.
    destruct (Hm E) as (p & -> & Hp). simpl as_text. pose proof (Hre p s (negb cs) Hp) as Hok.
    by destruct (re_search p s (negb cs)).
Qed.

Lemma leaf_total d facts t :
  leaf_grammar d ->
  is_ok (evaluate_leaf d facts t) = true \/ evaluate_leaf d facts t = Err TypeError /\ raises [d].
Proof.
  intros (_ & (path & Hp & _) & op & needs & Ho & _ & _ & _ & Hm).
  assert (op ∈ raising_ops -> raises [d]) as Hr.
  { intros Hin. exists d. split; [left|]. unfold leaf_op. rewrite Ho.
    apply (list_elem_of_fmap_2 Some raising_ops op Hin). }
  unfold evaluate_leaf, get_required. rewrite Hp, Ho. msimpl. cbn [as_text].
  do 2 (case_bool_decide; [by left|]). destruct (known _) as [v|]; [|by left].
  do 2 (case_bool_decide; [by left|]). case_bool_decide as Ee.
  { destruct (py_len v) eqn:El; [by left|]. right. msimpl. split; [|apply Hr; rewrite Ee; left].
    destruct v; by simplify_eq/=. }
  case_bool_decide; [left; by destruct (py_len v)|].
  destruct (compare_total op v (default JNull (dget "value" d))
    match dget "case_sensitive" d with Some v => truthy v | None => false end) as [Hok|[Hc Hin]].
  - intros E. destruct (Hm E) as (p & -> & _ & ?). eauto.
  - left. by destruct (_compare _ _ _ _).
  - right. rewrite Hc. auto.
Qed.

Lemma raises_app ds ds' : raises (ds ++ ds') <-> raises ds \/ raises ds'.
Proof.
  unfold raises. split.
  - intros (d & [?|?]%elem_of_app & ?); eauto.
  - intros [(d & ? & ?)|(d & ? & ?)]; exists d; rewrite elem_of_app; eauto.
Qed.

Definition total_or_raises {A} (r : result exn A) (ds : list (list (string * json))) : Prop :=
  is_ok r = true \/ r = Err TypeError /\ raises ds.

Lemma evaluate_total :
  (forall n h node, condition n h node -> forall facts t, total_or_raises (evaluate node facts t) (leaf_nodes node)) /\
  (forall n h l, conditions n h l -> forall facts t,
     total_or_raises (evaluate_all l facts t) (concat (leaf_nodes <$> l))).
Proof.
  unfold total_or_raises. apply condition_both.
  - intros d Hk Hg facts t. rewrite evaluate_leaf_eq, leaf_nodes_dict, Hk by done. by apply leaf_total.
  - intros n h c _ IH facts t. rewrite evaluate_not_eq.
    change (leaf_nodes (JDict [("not", c)])) with (leaf_nodes c).
    destruct (IH facts t) as [Hok|[-> ?]]; [left | by right]. by destruct (evaluate c facts t) as [[]|].
  - intros key n h l Hk _ _ IH facts t. rewrite evaluate_list_eq, leaf_nodes_list by done.
    destruct (IH facts t) as [Hok|[-> ?]]; [left | by right]. by destruct (evaluate_all l facts t) as [[]|].
  - by left.
  - intros n h x m k l _ IHx _ IHl facts t. cbn [evaluate_all]. rewrite fmap_cons. cbn [concat]. rewrite raises_app.
    destruct (IHx facts t) as [Hok|[-> ?]]; [|right; auto].
    destruct (evaluate x facts t) as [[r t1]|]; [msimpl | discriminate].
    destruct (IHl facts t1) as [Hok'|[-> ?]]; [|right; auto].
    left. by destruct (evaluate_all l facts t1) as [[]|].
Qed.

(** A stored rule cannot crash the evaluator in any other way than by asking
    for the size or the set of a fact of the wrong shape: an accepted condition
    evaluates, on any facts, to a truth value, or raises [TypeError] and then one
    of its comparisons is [is_empty], [contains_any] or [contains_all]. *)
Theorem validated_evaluate node n facts t :
  validate_conditions node 0 0 = Ok n ->
  (exists r t', evaluate node facts t = Ok (r, t')) \/
  evaluate node facts t = Err TypeError /\
  exists d, d ∈ leaf_nodes node /\ leaf_op d ∈ Some <$> ["is_empty"; "contains_any"; "contains_all"].
Proof.
  intros (n' & h & Hc & _)%validate_sound.
  destruct (proj1 evaluate_total _ _ _ Hc facts t) as [Hok|[He Hr]]; [left | by right].
  destruct (evaluate node facts t) as [[r t']|]; [eauto | discriminate].
Qed.
End Total.

(** ** The trace *)

(** An evaluation consults exactly the paths [ps] and records them truthfully. *)
Definition consults {A} (facts : fact_set) (t : EvaluationTrace) (r : result exn (A * EvaluationTrace))
    (ps : list string) : Prop :=
  forall a t', r = Ok (a, t') -> trace_ok facts t ->
  trace_ok facts t' /\ forall p, consulted t' p <-> consulted t p \/ p ∈ ps.

Lemma leaf_consults d facts t :
  leaf_grammar d -> consults facts t (evaluate_leaf d facts t)
    match dget "fact" d with Some (JStr f) => [f] | _ => [] end.
Proof.
  intros (_ & (path & Hp & _) & op & needs & Ho & _) a t' He Ht.
  unfold evaluate_leaf, get_required in He. rewrite Hp, Ho in He. rewrite Hp. msimpl. cbn [as_text] in He.
  setoid_rewrite list_elem_of_singleton.
  do 2 (case_bool_decide; [injection He as _ <-; by apply note_used_ok|]).
  destruct (known (resolve_fact facts path)) as [v|] eqn:Ek.
  2: { injection He as _ <-. by apply note_missing_ok. }
  assert (t' = note_used path v t) as ->.
  { do 2 (case_bool_decide; [by injection He as _ <-|]).
    case_bool_decide; [destruct (py_len v); by simplify_eq/=|].
    case_bool_decide; [destruct (py_len v); by simplify_eq/=|].
    destruct (_compare _ _ _ _); by simplify_eq/=. }
  apply note_used_ok; [done|]. unfold known in Ek. destruct (resolve_fact facts path) as [[]|]; by simplify_eq/=.
Qed.

Lemma evaluate_consults :
  (forall n h node, condition n h node -> forall facts t,
     consults facts t (evaluate node facts t) (collect_fact_paths node)) /\
  (forall n h l, conditions n h l -> forall facts t,
     consults facts t (evaluate_all l facts t) (concat (collect_fact_paths <$> l))).
Proof.
  apply condition_both.
  - intros d Hk Hg facts t. rewrite evaluate_leaf_eq, collect_dict, Hk by done. by apply leaf_consults.
  - intros n h c _ IH facts t a t' He Ht. rewrite evaluate_not_eq in He.
    apply bind_Ok_inv in He as ([r t1] & He & E). injection E as <- <-. by apply (IH facts t r).
  - intros key n h l Hk _ _ IH facts t a t' He Ht. rewrite evaluate_list_eq in He by done.
    rewrite collect_list by done.
    apply bind_Ok_inv in He as ([r t1] & He & E). injection E as <- <-. by apply (IH facts t r).
  - intros facts t a t' He Ht. injection He as <- <-. split; [done|]. intros p. rewrite elem_of_nil. tauto.
  - intros n h x m k l _ IHx _ IHl facts t a t' He Ht. cbn [evaluate_all] in He.
    apply bind_Ok_inv in He as ([r t1] & Hx & He). apply bind_Ok_inv in He as ([rs t2] & Hl & E). injection E as <- <-.
    destruct (IHx facts t r t1 Hx Ht) as [Ht1 H1]. destruct (IHl facts t1 rs t2 Hl Ht1) as [Ht2 H2].
    split; [done|]. intros p. rewrite H2, H1, fmap_cons. cbn [concat]. rewrite elem_of_app. tauto.
Qed.

(** The trace of an evaluation is complete and truthful: the paths recorded as
    used or missing are exactly the paths [collect_fact_paths] lists for the
    condition, every used one carries the value the facts hold, and every missing
    one is absent or null. *)
Theorem evaluate_trace node n facts r t :
  validate_conditions node 0 0 = Ok n -> evaluate node facts empty_trace = Ok (r, t) ->
  (forall path, path ∈ (facts_used t).*1 \/ path ∈ missing_facts t <-> path ∈ collect_fact_paths node) /\
  (forall path v, (path, v) ∈ facts_used t -> v = default JNull (resolve_fact facts path)) /\
  (forall path, path ∈ missing_facts t -> known (resolve_fact facts path) = None).
Proof.
  intros (n' & h & Hc & _)%validate_sound He.
  destruct (proj1 evaluate_consults _ _ _ Hc facts empty_trace r t He) as [[H1 H2] H3].
  { split; intros ? *; simpl; by rewrite elem_of_nil. }
  split_and!; [|done..]. intros path. specialize (H3 path). unfold consulted in H3. simpl in H3.
  rewrite !elem_of_nil in H3. tauto.
Qed.

(** ** De Morgan *)

Definition node_not (c : json) : json := JDict [("not", c)].
Definition node_of (key : string) (l : list json) : json := JDict [(key, JList l)].

Lemma evaluate_all_not l facts t :
  evaluate_all (fmap (M := list) node_not l) facts t =
  ('(rs, t') ← evaluate_all l facts t; Ok (fmap (M := list) kleene_not rs, t')).
Proof.
  revert t. induction l as [|x l IH]; intros t; [done|]. rewrite fmap_cons. cbn [evaluate_all].
  change (node_not x) with (JDict [("not", x)]). rewrite evaluate_not_eq. destruct (evaluate x facts t) as [[r t1]|]; [msimpl | done].
  rewrite IH. by destruct (evaluate_all l facts t1) as [[rs t2]|].
Qed.

Lemma has_truth_not x rs : has_truth x (fmap (M := list) kleene_not rs) = has_truth (kleene_not x) rs.
Proof.
  induction rs as [|r rs IH]; [done|]. rewrite fmap_cons, !has_truth_cons, IH. f_equal.
  by destruct x, r.
Qed.

(** The connectives are the Kleene ones and De Morgan's laws hold for the
    interpreter, trace and exceptions included: [none] is the negation of [any],
    and [all] is the negation of [any] of the negations. *)
Theorem evaluate_de_morgan l facts t :
  evaluate (node_of "none" l) facts t = evaluate (node_not (node_of "any" l)) facts t /\
  evaluate (node_of "all" l) facts t = evaluate (node_not (node_of "any" (fmap (M := list) node_not l))) facts t /\
  evaluate (node_of "none" l) facts t = evaluate (node_of "all" (fmap (M := list) node_not l)) facts t.
Proof.
  assert (forall rs, connective "none" rs = kleene_not (connective "any" rs) /\
    connective "all" rs = kleene_not (connective "any" (fmap (M := list) kleene_not rs)) /\
    connective "none" rs = connective "all" (fmap (M := list) kleene_not rs)) as Hc.
  { intros rs. unfold connective. simpl. unfold kleene_all, kleene_any, kleene_none. rewrite !has_truth_not. simpl.
    by destruct (has_truth TRUE rs), (has_truth FALSE rs), (has_truth UNKNOWN rs). }
  assert (forall c, evaluate (node_not c) facts t = ('(r, t) ← evaluate c facts t; Ok (kleene_not r, t))) as En
    by (intros; apply evaluate_not_eq).
  unfold node_of. rewrite !En, !evaluate_list_eq by (apply (bool_decide_unpack _); vm_compute; exact I).
  rewrite !evaluate_all_not.
  destruct (evaluate_all l facts t) as [[rs t1]|]; msimpl; [|done].
  destruct (Hc rs) as (E1 & E2 & E3). by rewrite <-E3, <-E2, E1.
Qed.
End Engine.

(** ** A concrete rule *)

#[local] Abbreviation any_pattern := (fun _ : string => true).
#[local] Abbreviation no_match := (fun (_ _ : string) (_ : bool) => @Ok exn bool false).
#[local] Abbreviation no_text := (fun _ : json => "").

Definition fact_op (path op : string) : json := JDict [("fact", JStr path); ("op", JStr op)].
Definition fact_value (path op : string) (v : json) : json :=
  JDict [("fact", JStr path); ("op", JStr op); ("value", v)].

(** A collection agency that collects for others, or takes payments directly. *)
Definition sample_condition : json :=
  node_of "any"
    [fact_value "activities" "contains" (JStr "Third_Party");
     node_not (fact_op "payment_direct" "is_false");
     node_of "all" [fact_value "staff" "gte" (JInt 5); fact_op "staff" "is_empty"]].

Definition sample_facts : list (string * json) :=
  [("activities", JList [JStr "own_book"]); ("payment_direct", JNull)].
Definition more_facts : list (string * json) :=
  [("activities", JList [JStr "own_book"]); ("payment_direct", JBool true); ("staff", JList [])].

Definition sample_eval (facts : list (string * json)) : result exn (Truth * EvaluationTrace) :=
  evaluate no_match no_text sample_condition facts empty_trace.
Definition trace_of (r : result exn (Truth * EvaluationTrace)) : EvaluationTrace :=
  match r with Ok x => x.2 | Err _ => empty_trace end.

Lemma split_dot_nonempty acc s : split_dot acc s <> [].
Proof. revert acc. induction s as [|c s IH]; intros acc; simpl; [done|]. by case_bool_decide. Qed.

Lemma lookup_more path v :
  known (resolve_fact sample_facts path) = Some v -> known (resolve_fact more_facts path) = Some v.
Proof.
  unfold resolve_fact. destruct (split_dot "" path) as [|s segs] eqn:Es; simpl.
  { by apply split_dot_nonempty in Es. }
  case_bool_decide; [done|]. case_bool_decide; [|discriminate].
  destruct segs; discriminate.
Qed.

Lemma evaluate_monotone_witness :
  sample_eval sample_facts = Ok (UNKNOWN, trace_of (sample_eval sample_facts)) /\
  (UNKNOWN = UNKNOWN \/ UNKNOWN = TRUE).
Proof.
  split; [vm_compute; reflexivity|].
  apply (evaluate_monotone no_match no_text sample_condition sample_facts more_facts empty_trace empty_trace
           UNKNOWN (trace_of (sample_eval sample_facts)) TRUE (trace_of (sample_eval more_facts))).
  - unfold presence_free. apply (bool_decide_unpack _). vm_compute. exact I.
  - exact lookup_more.
  - vm_compute. reflexivity.
  - vm_compute. reflexivity.
Defined.

Lemma validated_evaluate_witness :
  (exists r t', evaluate no_match no_text sample_condition sample_facts empty_trace = Ok (r, t')) \/
  evaluate no_match no_text sample_condition sample_facts empty_trace = Err TypeError /\
  exists d, d ∈ leaf_nodes sample_condition /\
    leaf_op no_text d ∈ Some <$> ["is_empty"; "contains_any"; "contains_all"].
Proof.
  apply (validated_evaluate any_pattern no_match no_text (fun p s b _ => eq_refl) sample_condition 7).
  vm_compute. reflexivity.
Defined.

Lemma evaluate_trace_witness :
  let t := trace_of (sample_eval sample_facts) in
  (forall path, path ∈ (facts_used t).*1 \/ path ∈ missing_facts t <-> path ∈ collect_fact_paths sample_condition) /\
  (forall path v, (path, v) ∈ facts_used t -> v = default JNull (resolve_fact sample_facts path)) /\
  (forall path, path ∈ missing_facts t -> known (resolve_fact sample_facts path) = None).
Proof.
  apply (evaluate_trace any_pattern no_match no_text sample_condition 7 sample_facts UNKNOWN).
  - vm_compute. reflexivity.
  - vm_compute. reflexivity.
Defined.

(** [is_empty] asks for the length before it asks whether there is one, so the
    UNKNOWN it means to give for a number is never reached. *)
Example is_empty_raises :
  validate_conditions any_pattern (fact_op "staff" "is_empty") 0 0 = Ok 1%nat /\
  evaluate no_match no_text (fact_op "staff" "is_empty") [("staff", JInt 5)] empty_trace = Err TypeError /\
  is_ok (evaluate no_match no_text (fact_op "staff" "is_not_empty") [("staff", JInt 5)] empty_trace) = true.
Proof. vm_compute. done. Qed.

(** A trailing newline passes the fact-path pattern. *)
Example fact_path_newline : is_fact_path (String.append "staff" (String "010"%char "")) = true.
Proof. reflexivity. Qed.
