(* ===== verification/Requirements.v ===== *)
(** * Requirement rules and source freshness

    [app/requirements/rules.py], [freshness.py] and the constants of
    [taxonomy.py]: the rule value object, the rules in force for a scope, and the
    freshness of the sources a rule cites. *)
From S2P Require Import Prelude Vocabulary PyDate PyJson PyFloat Scoping Conditions.
Open Scope Z_scope.

(** ** Taxonomy *)

Definition OUTCOME_CAUTION_RANK : list (string * Z) :=
  [(value RequirementOutcome.OUT_OF_SCOPE, 0); (value RequirementOutcome.LIKELY_NOT_REQUIRED, 1);
   (value RequirementOutcome.INSUFFICIENT_INFORMATION, 2); (value RequirementOutcome.POSSIBLY_REQUIRED, 3);
   (value RequirementOutcome.LIKELY_REQUIRED, 4); (value RequirementOutcome.COUNSEL_REVIEW, 5)].

Definition AUTHORITATIVE_LEVELS : list string :=
  value <$> [AuthorityLevel.OFFICIAL_PRIMARY; AuthorityLevel.OFFICIAL_GUIDANCE; AuthorityLevel.APPROVED_COUNSEL].

(** ** Rules *)

Record SourceCitation := {
  source_id : option uuid;
  snapshot_id : option uuid;
  title : string;
  authority_level : string;
  source_type : string;
  official_url : option string;
  snapshot_version : option Z;
  last_verified_at : option string;
  cited_effective_date : option string;
  citation_detail : option string;
  freshness_status : option string
}.

Record Rule := {
  rule_id : uuid;
  rule_key : string;
  outcome : string;
  explanation_template : string;
  rule_conditions : json;
  priority : Z;
  jurisdiction_id : option uuid;
  license_type_id : option uuid;
  filing_channels : list string;
  required_facts : list string;
  effective_from : option date;
  effective_to : option date;
  requires_counsel_review : bool;
  enabled : bool;
  citations : list SourceCitation
}.

#[export] Instance rule_scoped : ScopedRule Rule :=
  {| sr_jurisdiction := jurisdiction_id; sr_license_type := license_type_id;
     sr_from := effective_from; sr_to := effective_to;
     sr_priority := priority; sr_key := rule_key |}.

Definition is_effective_on (r : Rule) (when : date) : bool :=
  effective_on (effective_from r) (effective_to r) when.

Definition specificity (r : Rule) : Z := scope_count (jurisdiction_id r) (license_type_id r).

(** Union of the declared and the referenced facts, as a list. *)
Definition referenced_facts (r : Rule) : list string :=
  remove_dups (required_facts r ++ collect_fact_paths (rule_conditions r)).

Definition validate (re_compiles : string -> bool) (r : Rule) : result exn unit :=
  _ ← validate_conditions re_compiles (rule_conditions r) 0 0;
  _ ← raise_unless (is_value (A := RequirementOutcome.RequirementOutcome) (outcome r)) RuleValidationError;
  raise_unless (negb (bool_decide (strip (explanation_template r) = ""))) RuleValidationError.

Definition rule_leb (a b : Rule) : bool :=
  precedence_leb (specificity a) (priority a) (specificity b) (priority b) (rule_key a) (rule_key b).

Definition rule_applies (when : date) (jid ltid : option uuid) (r : Rule) : bool :=
  enabled r && is_effective_on r when && in_scope (jurisdiction_id r) jid && in_scope (license_type_id r) ltid.

Definition resolve_effective_rules (rules : list Rule) (when : date) (jid ltid : option uuid) : list Rule :=
  py_sorted rule_leb (filter (fun r => rule_applies when jid ltid r = true) rules).

(** ** Freshness *)

Definition DEFAULT_FRESHNESS_DAYS : list (string * Z) :=
  [(value SourceType.NMLS_CHECKLIST, 365); (value SourceType.NMLS_RENEWAL_CHECKLIST, 180);
   (value SourceType.REGULATOR_WEBPAGE, 180); (value SourceType.REGULATOR_PDF, 365);
   (value SourceType.STATUTE, 730); (value SourceType.REGULATION, 730);
   (value SourceType.REGULATOR_GUIDANCE, 365); (value SourceType.COUNSEL_MEMO, 730);
   (value SourceType.VENDOR_CHECKLIST, 90); (value SourceType.INTERNAL_POLICY, 365);
   (value SourceType.OTHER, 180)].

Record FreshnessAssessment := {
  fa_status : string;
  age_days : option Z;
  window_days : Z;
  forces_counsel_review : bool
}.

Definition is_stale (a : FreshnessAssessment) : bool :=
  bool_decide (fa_status a = value SourceFreshnessStatus.STALE).

Definition positive_days (o : option Z) : option Z :=
  match o with Some n => if 0 <? n then Some n else None | None => None end.

Definition window_for (stype : string) (override_days default_days : option Z) : Z :=
  match positive_days override_days with
  | Some n => n
  | None =>
      match dget stype DEFAULT_FRESHNESS_DAYS with
      | Some n => n
      | None => default 180 (positive_days default_days)
      end
  end.

(** [int(window * _DUE_SOON_RATIO)]. *)
Definition due_soon_age (window : Z) : Z := py_trunc (f64_mul (f64_of_Z window) f64_0_8).

Definition assess_source (stype authority : string) (verified expiry : option instant)
    (override_days default_days : option Z) (moment : instant) : FreshnessAssessment :=
  let window := window_for stype override_days default_days in
  let expired := match expiry with Some e => e <=? moment | None => false end in
  if expired then
    {| fa_status := value SourceFreshnessStatus.STALE; age_days := None; window_days := window;
       forces_counsel_review := true |}
  else
    match verified with
    | None =>
        {| fa_status := value SourceFreshnessStatus.UNKNOWN; age_days := None; window_days := window;
           forces_counsel_review := bool_decide
             (authority ∈ value <$> [AuthorityLevel.VENDOR_OPERATIONAL; AuthorityLevel.UNVERIFIED]) |}
    | Some v =>
        let age := delta_days moment v in
        if window <=? age then
          {| fa_status := value SourceFreshnessStatus.STALE; age_days := Some age; window_days := window;
             forces_counsel_review := true |}
        else if due_soon_age window <=? age then
          {| fa_status := value SourceFreshnessStatus.DUE_FOR_VERIFICATION; age_days := Some age;
             window_days := window; forces_counsel_review := false |}
        else
          {| fa_status := value SourceFreshnessStatus.FRESH; age_days := Some age; window_days := window;
             forces_counsel_review := false |}
    end.

Definition _SEVERITY : list (string * Z) :=
  [(value SourceFreshnessStatus.NO_SOURCE, 4); (value SourceFreshnessStatus.STALE, 3);
   (value SourceFreshnessStatus.UNKNOWN, 2); (value SourceFreshnessStatus.DUE_FOR_VERIFICATION, 1);
   (value SourceFreshnessStatus.FRESH, 0)].

Definition status_severity (s : string) : Z := default 2 (dget s _SEVERITY).

Definition summarize (statuses : list string) : string :=
  match statuses with
  | [] => value SourceFreshnessStatus.NO_SOURCE
  | s :: l => py_max_by status_severity s l
  end.

(** ** Theorems *)

Lemma rule_applies_true when jid ltid r :
  rule_applies when jid ltid r = true <->
  enabled r = true /\ is_effective_on r when = true /\
  (jurisdiction_id r = None \/ jurisdiction_id r = jid) /\ (license_type_id r = None \/ license_type_id r = ltid).
Proof. unfold rule_applies. rewrite !andb_true_iff, !in_scope_true. tauto. Qed.

Lemma elem_of_effective r rules when jid ltid :
  r ∈ resolve_effective_rules rules when jid ltid <-> r ∈ rules /\ rule_applies when jid ltid r = true.
Proof. unfold resolve_effective_rules. rewrite elem_of_py_sorted, list_elem_of_filter. tauto. Qed.

Lemma effective_sorted rules when jid ltid :
  StronglySorted (fun a b => sr_leb a b = true) (resolve_effective_rules rules when jid ltid).
Proof. unfold resolve_effective_rules. change rule_leb with (sr_leb (R := Rule)). apply sr_sorted_sorted. Qed.

(** [resolve_effective_rules] keeps exactly the enabled rules in force on the
    day whose jurisdiction and licence type are the asked ones or open, without
    loss or repetition, and orders them so that no rule is preceded by one it
    outranks: more specific first, then lower priority number. *)
Theorem resolve_effective_rules_spec rules when jid ltid :
  let l := resolve_effective_rules rules when jid ltid in
  l ≡ₚ filter (fun r => rule_applies when jid ltid r = true) rules /\
  (forall r, r ∈ l -> enabled r = true /\
     (forall f, effective_from r = Some f -> f <= when) /\ (forall t, effective_to r = Some t -> when <= t) /\
     (jurisdiction_id r = None \/ jurisdiction_id r = jid) /\
     (license_type_id r = None \/ license_type_id r = ltid)) /\
  (forall i j a b, (i < j)%nat -> l !! i = Some a -> l !! j = Some b -> ~ outranks b a).
Proof.
  cbv zeta. split_and!; [apply py_sorted_perm | |].
  - intros r [_ (H1 & H2%effective_on_true & H3 & H4)%rule_applies_true]%elem_of_effective. tauto.
  - intros i j a b Hij Ha Hb. apply sr_leb_not_outranked.
    pose proof (effective_sorted rules when jid ltid) as Hs.
    exact (StronglySorted_lookup_lt _ _ i j a b Hs Hij Ha Hb).
Qed.

(** Freshness only decays: for one source, the severity of its status never
    falls as time passes, and once it forces a counsel look it keeps forcing it. *)
Theorem assess_source_monotone stype authority verified expiry od dd now now' :
  now <= now' ->
  let a := assess_source stype authority verified expiry od dd now in
  let a' := assess_source stype authority verified expiry od dd now' in
  status_severity (fa_status a) <= status_severity (fa_status a') /\
  (forces_counsel_review a = true -> forces_counsel_review a' = true) /\
  (fa_status a = value SourceFreshnessStatus.STALE -> forces_counsel_review a = true).
Proof.
  intros Hle. cbv zeta. unfold assess_source.
  assert (H : (match expiry with Some e => e <=? now | None => false end) = true ->
              (match expiry with Some e => e <=? now' | None => false end) = true)
    by (destruct expiry; [lia | done]).
  destruct (match expiry with Some e => e <=? now | None => false end); [rewrite H by done; done|].
  destruct (match expiry with Some e => e <=? now' | None => false end).
  - destruct verified; [repeat case_match|]; simpl; split_and!; done.
  - destruct verified as [v|]; [|simpl; done].
    assert (delta_days now v <= delta_days now' v) by (unfold delta_days; apply Z.div_le_mono; [done | lia]).
    destruct (Z.leb_spec (window_for stype od dd) (delta_days now v));
      destruct (Z.leb_spec (window_for stype od dd) (delta_days now' v)); try lia;
      destruct (Z.leb_spec (due_soon_age (window_for stype od dd)) (delta_days now v));
      destruct (Z.leb_spec (due_soon_age (window_for stype od dd)) (delta_days now' v)); try lia;
      vm_compute; split_and!; done.
Qed.

Lemma assess_source_monotone_witness :
  let a := assess_source "STATUTE" "OFFICIAL_PRIMARY" (Some 0) None None None (DAY * 600) in
  let a' := assess_source "STATUTE" "OFFICIAL_PRIMARY" (Some 0) None None None (DAY * 731) in
  status_severity (fa_status a) <= status_severity (fa_status a') /\
  (forces_counsel_review a = true -> forces_counsel_review a' = true) /\
  (fa_status a = value SourceFreshnessStatus.STALE -> forces_counsel_review a = true).
Proof. apply assess_source_monotone. vm_compute. discriminate. Defined.

(** The worst status wins. *)
Lemma summarize_worst statuses s :
  s ∈ statuses -> summarize statuses ∈ statuses /\ status_severity s <= status_severity (summarize statuses).
Proof.
  destruct statuses as [|x l]; [by intros ?%not_elem_of_nil|]. intros Hin.
  split; [apply py_max_by_in | by apply py_max_by_ge].
Qed.

(** The statuses that lower an answer are the two worst. *)
Definition outdated (s : string) : Prop := s ∈ value <$> [SourceFreshnessStatus.STALE; SourceFreshnessStatus.NO_SOURCE].
Lemma outdated_severity s : outdated s <-> 2 < status_severity s.
Proof.
  unfold outdated. rewrite !fmap_cons, fmap_nil, !elem_of_cons, elem_of_nil. split; [intros [->|[->|[]]]; by vm_compute|].
  destruct (decide (s = value SourceFreshnessStatus.STALE)) as [->|H1]; [naive_solver|].
  destruct (decide (s = value SourceFreshnessStatus.NO_SOURCE)) as [->|H2]; [naive_solver|].
  destruct (decide (s = value SourceFreshnessStatus.UNKNOWN)) as [->|H3]; [by vm_compute|].
  destruct (decide (s = value SourceFreshnessStatus.DUE_FOR_VERIFICATION)) as [->|H4]; [by vm_compute|].
  destruct (decide (s = value SourceFreshnessStatus.FRESH)) as [->|H5]; [by vm_compute|].
  unfold status_severity, _SEVERITY. cbn [dget]. by rewrite !bool_decide_eq_false_2.
Qed.

(** Where the summary is not outdated, nothing summarized is. *)
Lemma summarize_current statuses s : s ∈ statuses -> ~ outdated (summarize statuses) -> ~ outdated s.
Proof. intros [_ Hle]%summarize_worst. rewrite !outdated_severity. lia. Qed.
