(* ===== verification/Explanations.v ===== *)
(** * Explanations ([app/requirements/explanations.py])

    The renderer of rule templates and the text stored on a result. *)
From Stdlib Require Import Ascii.
From S2P Require Import Prelude Vocabulary PyDate PyJson Scoping Conditions Requirements.
Open Scope Z_scope.

Definition ADVISORY_BANNER : string :=
  "Advisory analysis for internal compliance planning. This is not legal advice and is not a determination that a licence is or is not required.".

Definition OUTCOME_SUMMARY : list (string * string) :=
  [(value RequirementOutcome.LIKELY_REQUIRED,
    "A licence or authorisation is likely required in this jurisdiction.");
   (value RequirementOutcome.POSSIBLY_REQUIRED,
    "A licence may be required. The available facts point toward a requirement but at least one material fact is unresolved.");
   (value RequirementOutcome.LIKELY_NOT_REQUIRED,
    "A licence appears not to be required on the facts recorded.");
   (value RequirementOutcome.COUNSEL_REVIEW,
    "This jurisdiction needs legal review before any conclusion is drawn.");
   (value RequirementOutcome.OUT_OF_SCOPE,
    "This jurisdiction is outside the assessed operating footprint.");
   (value RequirementOutcome.INSUFFICIENT_INFORMATION,
    "There is not enough information to form even a provisional view.")].

Definition OUTCOME_NEXT_ACTION : list (string * string) :=
  [(value RequirementOutcome.LIKELY_REQUIRED,
    "Compliance review, then open an initial-licence obligation if confirmed.");
   (value RequirementOutcome.POSSIBLY_REQUIRED,
    "Resolve the missing facts, then re-evaluate. Counsel review if the facts confirm a triggering activity.");
   (value RequirementOutcome.LIKELY_NOT_REQUIRED,
    "Compliance review and, per policy, counsel confirmation before recording a no-action decision with a review date.");
   (value RequirementOutcome.COUNSEL_REVIEW, "Route to counsel for legal applicability review.");
   (value RequirementOutcome.OUT_OF_SCOPE,
    "No action while the jurisdiction remains outside the operating footprint.");
   (value RequirementOutcome.INSUFFICIENT_INFORMATION,
    "Raise internal information requests for the missing facts.")].

(** [s.replace(c, by)] for a one-character [c]. *)
Fixpoint str_replace (c : ascii) (by_ s : string) : string :=
  match s with
  | "" => ""
  | String c' s => if bool_decide (c' = c) then by_ +:+ str_replace c by_ s else String c' (str_replace c by_ s)
  end.

Definition _humanize_path (path : string) : string := str_replace "." " - " (str_replace "_" " " path).

Section Text.
(** [str()] of a value that is not a string. *)
Context (py_str : json -> string).
#[local] Abbreviation text := (as_text py_str).

Definition _format_value (v : json) : string :=
  match v with
  | JBool b => if b then "yes" else "no"
  | JList [] => "none recorded"
  | JList l => String.concat ", " ((fun i => str_replace "_" " " (text i)) <$> l)
  | JNull => "not recorded"
  | _ => text v
  end.

(** The replacement of one placeholder. *)
Definition placeholder_value (facts : fact_set) (path : string) : string :=
  match dget path facts with
  | Some v => _format_value v
  | None => match resolve_fact facts path with Some v => _format_value v | None => "[not recorded]" end
  end.

Definition name_char (first : bool) (c : ascii) : bool :=
  if first then is_lower c else is_path_char c || bool_decide (c = "."%char).

(** [_PLACEHOLDER.sub]: [pending] holds the name read since an opening brace. *)
Fixpoint render_from (facts : fact_set) (pending : option string) (s : string) : string :=
  match s with
  | "" => match pending with Some acc => String "{" acc | None => "" end
  | String c s =>
      match pending with
      | None => if bool_decide (c = "{"%char) then render_from facts (Some "") s
                else String c (render_from facts None s)
      | Some acc =>
          if bool_decide (c = "}"%char) && negb (bool_decide (acc = ""))
          then placeholder_value facts acc +:+ render_from facts None s
          else if name_char (bool_decide (acc = "")) c then render_from facts (Some (acc +:+ String c "")) s
          else if bool_decide (c = "{"%char) then String "{" acc +:+ render_from facts (Some "") s
          else String "{" acc +:+ String c (render_from facts None s)
      end
  end.

Definition render_template (template : string) (facts : fact_set) : string :=
  render_from facts None template.

Definition newline : string := String "010" "".

(** One line of the source list; a citation carries the status it was given. *)
Definition source_line (c : SourceCitation) : string :=
  "- " +:+ title c +:+ " [" +:+ authority_level c +:+ "], verified " +:+
  (if truthy_str (last_verified_at c) then default "" (last_verified_at c) else "never verified") +:+
  (if truthy_str (citation_detail c) then " — " +:+ default "" (citation_detail c) else "").

Definition explanation_lines (outcome jurisdiction_name : string) (rule_statements : list string)
    (facts_used : fact_set) (missing_facts filing_channels : list string) (cites : list SourceCitation)
    (freshness : string) (conflict_note counsel_reason : option string) : list string :=
  [ADVISORY_BANNER; ""; "Jurisdiction: " +:+ jurisdiction_name; "Outcome: " +:+ outcome; "";
   default "No summary available for this outcome." (dget outcome OUTCOME_SUMMARY)] ++
  match rule_statements with [] => [] | _ => ["" ; "Why:"] ++ ((fun s => "- " +:+ s) <$> rule_statements) end ++
  match facts_used with
  | [] => []
  | _ => [""; "Facts used:"] ++
         ((fun kv : string * json => "- " +:+ _humanize_path kv.1 +:+ ": " +:+ _format_value kv.2)
            <$> py_sorted (fun a b => str_leb a.1 b.1) facts_used)
  end ++
  match missing_facts with
  | [] => [] | _ => [""; "Missing facts:"] ++ ((fun p => "- " +:+ _humanize_path p) <$> missing_facts) end ++
  [""; "Filing channel:"] ++
  match filing_channels with
  | [] => ["- UNKNOWN (channel not established by the matched rules)"]
  | _ => (fun c => "- " +:+ c) <$> filing_channels end ++
  [""; "Sources:"] ++
  match cites with
  | [] => ["- No source is cited. This result cannot support a decision."]
  | _ => source_line <$> cites end ++
  [""; "Source freshness: " +:+ freshness] ++
  match conflict_note with
  | Some n => if truthy_str (Some n) then [""; "Conflict: " +:+ n] else [] | None => [] end ++
  match counsel_reason with
  | Some n => if truthy_str (Some n) then [""; "Counsel review: " +:+ n] else [] | None => [] end ++
  [""; "Next action:"; "- " +:+ default "Compliance review." (dget outcome OUTCOME_NEXT_ACTION)].

Definition build_explanation (outcome jurisdiction_name : string) (rule_statements : list string)
    (facts_used : fact_set) (missing_facts filing_channels : list string) (cites : list SourceCitation)
    (freshness : string) (conflict_note counsel_reason : option string) : string :=
  String.concat newline (explanation_lines outcome jurisdiction_name rule_statements facts_used
    missing_facts filing_channels cites freshness conflict_note counsel_reason).

(** ** Laws *)

(** Text without an opening brace is left as it is. *)
Lemma render_plain facts s : has_char "{" s = false -> render_template s facts = s.
Proof.
  unfold render_template. induction s as [|c s IH]; simpl; intros Hs; [done|].
  apply orb_false_iff in Hs as [Hc Hs]. apply bool_decide_eq_false in Hc.
  rewrite bool_decide_eq_false_2 by congruence. by rewrite IH.
Qed.

Lemma render_text_then facts s t :
  has_char "{" s = false -> render_from facts None (s +:+ t) = s +:+ render_from facts None t.
Proof.
  induction s as [|c s IH]; intros Hs; [done|]. simpl in Hs. apply orb_false_iff in Hs as [Hc Hs].
  apply bool_decide_eq_false in Hc.
  change (String c s +:+ t) with (String c (s +:+ t)). simpl.
  rewrite bool_decide_eq_false_2 by congruence. rewrite IH by done. done.
Qed.

(** A placeholder name: a lower-case letter, then name characters. *)
Fixpoint name_tail (s : string) : bool :=
  match s with "" => true | String c s => name_char false c && name_tail s end.
Definition is_placeholder (s : string) : bool :=
  match s with String c s => is_lower c && name_tail s | "" => false end.

Lemma render_name_from facts acc s t :
  acc <> "" -> name_tail s = true ->
  render_from facts (Some acc) (s +:+ String "}" t) =
  placeholder_value facts (acc +:+ s) +:+ render_from facts None t.
Proof.
  revert acc. induction s as [|c s IH]; intros acc Ha Hs.
  - change ("" +:+ String "}" t) with (String "}" t). simpl.
    rewrite (bool_decide_eq_false_2 (acc = "")) by done. by rewrite str_app_nil_r.
  - simpl in Hs. apply andb_true_iff in Hs as [Hc Hs].
    change (String c s +:+ String "}" t) with (String c (s +:+ String "}" t)). cbn [render_from].
    assert (c <> "}"%char) as Hne by (intros ->; discriminate Hc).
    rewrite (bool_decide_eq_false_2 (c = _)) by done. cbn [andb].
    rewrite (bool_decide_eq_false_2 (acc = "")) by done. cbn [name_char] in *. rewrite Hc.
    rewrite IH by (done || (destruct acc; done)). by rewrite str_app_assoc.
Qed.

(** Rendering substitutes exactly the placeholders: text up to a placeholder
    is kept, a placeholder becomes the value of its fact (its literal key first,
    then its dotted path, or the not-recorded mark), and the rest is rendered the
    same way. *)
Theorem render_placeholder facts pre name post :
  has_char "{" pre = false -> is_placeholder name = true ->
  render_template (pre +:+ String "{" (name +:+ String "}" post)) facts =
  pre +:+ placeholder_value facts name +:+ render_template post facts.
Proof.
  intros Hpre Hn. unfold render_template. rewrite render_text_then by done. f_equal.
  destruct name as [|c name]; [discriminate|]. simpl in Hn. apply andb_true_iff in Hn as [Hc Hn].
  change (String c name +:+ String "}" post) with (String c (name +:+ String "}" post)).
  cbn [render_from]. rewrite (bool_decide_eq_true_2 ("{"%char = "{"%char)) by done.
  assert (c <> "}"%char) as Hne by (intros ->; discriminate Hc).
  rewrite (bool_decide_eq_false_2 (c = _)) by done. cbn [andb]. cbv iota.
  rewrite (bool_decide_eq_true_2 ("" = "")) by done. cbn [name_char]. rewrite Hc.
  rewrite render_name_from by done. done.
Qed.
End Text.

Lemma render_placeholder_witness :
  render_template (fun _ => "5") ("You employ " +:+ String "{" ("staff" +:+ String "}" " people."))
      [("staff", JInt 5)] =
  "You employ " +:+ placeholder_value (fun _ => "5") [("staff", JInt 5)] "staff" +:+
  render_template (fun _ => "5") " people." [("staff", JInt 5)].
Proof. apply render_placeholder; reflexivity. Defined.

Example render_sample :
  render_template (fun _ => "5") "Staff {staff}, {unknown}, {x {staff}" [("staff", JInt 5)]
  = "Staff 5, [not recorded], {x 5".
Proof. reflexivity. Qed.
