(* ===== verification/Evaluator.v ===== *)
(** * The requirement evaluator ([app/requirements/evaluator.py])

    One advisory result per jurisdiction and licence type: the rules in force are
    evaluated in order of precedence, reconciled, and the answer is lowered when
    its sources cannot carry it. *)
From S2P Require Import Prelude Vocabulary PyDate PyJson Scoping Conditions Requirements Explanations.
Open Scope Z_scope.
Import RequirementOutcome.

Record EvaluationSettings := {
  require_human_review : bool;
  require_counsel_for_not_required : bool;
  escalate_non_authoritative_sources : bool
}.

Definition default_settings : EvaluationSettings :=
  {| require_human_review := true; require_counsel_for_not_required := true;
     escalate_non_authoritative_sources := true |}.

(** A rule that was evaluated and its rendered statement. *)
Record RuleMatch := { match_rule : Rule; match_truth : Truth; match_statement : string }.

Record JurisdictionResult := {
  res_jurisdiction_id : uuid;
  res_license_type_id : option uuid;
  res_outcome : string;
  res_filing_channels : list string;
  res_explanation : string;
  res_facts_used : list (string * json);
  res_missing_facts : list string;
  matched_rule_ids : list uuid;
  conflicting_rule_ids : list uuid;
  source_citations : list SourceCitation;
  source_freshness_status : string;
  requires_human_review : bool;
  res_requires_counsel_review : bool;
  notes : list string
}.

Definition caution (o : string) : Z := default 0 (dget o OUTCOME_CAUTION_RANK).

Definition _more_cautious (left right : string) : string :=
  if caution right <=? caution left then left else right.

(** [if x not in seen: seen.append(x)] over a list. *)
Definition add_new (seen : list string) (x : string) : list string :=
  if bool_decide (x ∈ seen) then seen else seen ++ [x].
Definition union_in_order (l : list string) : list string := foldl add_new [] l.

Definition cite_key (c : SourceCitation) : option uuid * option uuid := (source_id c, snapshot_id c).

Fixpoint dedup_citations (seen : list (option uuid * option uuid)) (l : list SourceCitation)
    : list SourceCitation :=
  match l with
  | [] => []
  | c :: l => if bool_decide (cite_key c ∈ seen) then dedup_citations seen l
              else c :: dedup_citations (cite_key c :: seen) l
  end.

Definition with_status (c : SourceCitation) (s : string) : SourceCitation :=
  {| source_id := source_id c; snapshot_id := snapshot_id c; title := title c;
     authority_level := authority_level c; source_type := source_type c; official_url := official_url c;
     snapshot_version := snapshot_version c; last_verified_at := last_verified_at c;
     cited_effective_date := cited_effective_date c; citation_detail := citation_detail c;
     freshness_status := Some s |}.

Lemma union_in_order_spec l : NoDup (union_in_order l) /\ forall x, x ∈ union_in_order l <-> x ∈ l.
Proof.
  unfold union_in_order.
  assert (forall seen, NoDup seen -> NoDup (foldl add_new seen l) /\
    forall x, x ∈ foldl add_new seen l <-> x ∈ seen \/ x ∈ l) as H.
  { induction l as [|y l IH]; intros seen Hs; [split; [done|]; intros; rewrite elem_of_nil; simpl; tauto|].
    simpl. assert (NoDup (add_new seen y) /\ forall x, x ∈ add_new seen y <-> x ∈ seen \/ x = y) as [H1 H2].
    { unfold add_new. case_bool_decide.
      - split; [done|]. intros x. split; [tauto|]. intros [? | ->]; done.
      - split; [|intros x; rewrite elem_of_app, list_elem_of_singleton; done].
        apply NoDup_app. split_and!; [done | by intros x Hx ->%list_elem_of_singleton | apply NoDup_singleton]. }
    destruct (IH _ H1) as [H3 H4]. split; [done|]. intros x. rewrite H4, H2, elem_of_cons. tauto. }
  destruct (H [] (NoDup_nil_2)) as [H1 H2]. split; [done|]. intros x. rewrite H2, elem_of_nil. tauto.
Qed.

Lemma dedup_citations_spec seen l :
  NoDup (cite_key <$> dedup_citations seen l) /\
  (forall c, c ∈ dedup_citations seen l -> c ∈ l /\ cite_key c ∉ seen) /\
  (forall c, c ∈ l -> cite_key c ∈ seen \/ cite_key c ∈ cite_key <$> dedup_citations seen l).
Proof.
  revert seen. induction l as [|c l IH]; intros seen; simpl.
  { split_and!; [constructor | intros c Hc; by apply not_elem_of_nil in Hc..]. }
  case_bool_decide as Hin.
  - destruct (IH seen) as (H1 & H2 & H3). split_and!; [done | |].
    + intros d Hd. destruct (H2 d Hd). split; [by right | done].
    + intros d [->|Hd]%elem_of_cons; [by left | auto].
  - destruct (IH (cite_key c :: seen)) as (H1 & H2 & H3). split_and!.
    + rewrite fmap_cons. constructor; [|done]. intros (d & Ed & Hd)%list_elem_of_fmap.
      apply H2 in Hd as [_ Hd]. apply Hd. rewrite <-Ed. left.
    + intros d [->|Hd]%elem_of_cons; [split; [left | done]|].
      destruct (H2 d Hd) as [? Hns]. split; [by right|]. intros ?. apply Hns. by right.
    + intros d [->|Hd]%elem_of_cons; rewrite fmap_cons; [right; left|].
      destruct (H3 d Hd) as [[->|?]%elem_of_cons|?]; [right; left | by left | right; by right].
Qed.

#[local] Set Default Proof Using "Type*".

Section Evaluator.
Context (re_search : string -> string -> bool -> result exn bool) (py_str : json -> string).

(** The loop over the effective rules: matches, unresolved ones, and the trace. *)
Fixpoint evaluate_rules (facts : fact_set) (rules : list Rule) (t : EvaluationTrace)
    : result exn (list RuleMatch * list RuleMatch * EvaluationTrace) :=
  match rules with
  | [] => Ok ([], [], t)
  | r :: rules =>
      '(truth, t) ← evaluate re_search py_str (rule_conditions r) facts t;
      let m := {| match_rule := r; match_truth := truth;
                  match_statement := render_template py_str (explanation_template r) facts |} in
      '(ms, us, t) ← evaluate_rules facts rules t;
      Ok (match truth with TRUE => m :: ms | _ => ms end,
          match truth with UNKNOWN => m :: us | _ => us end, t)
  end.

Definition unresolved_statement (m : RuleMatch) : string :=
  match_statement m +:+ " (unresolved: depends on facts not yet recorded)".

(** Peers of the primary rule: equal precedence, another outcome. *)
Definition peers_of (primary : RuleMatch) (matches : list RuleMatch) : list RuleMatch :=
  filter (fun m => specificity (match_rule m) = specificity (match_rule primary) /\
                   priority (match_rule m) = priority (match_rule primary) /\
                   outcome (match_rule m) <> outcome (match_rule primary)) matches.

Record Reconciled := {
  rc_outcome : string;
  rc_chosen : list RuleMatch;
  rc_statements : list string;
  rc_conflicts : list uuid;
  rc_notes : list string
}.

Definition reconcile (effective : list Rule) (matches unknown : list RuleMatch) : Reconciled :=
  match effective, matches, unknown with
  | [], _, _ =>
      {| rc_outcome := value INSUFFICIENT_INFORMATION; rc_chosen := [];
         rc_statements := ["No requirement rule covers this jurisdiction in the active rule set."];
         rc_conflicts := []; rc_notes := ["no_rules_in_scope"] |}
  | _, primary :: _, _ =>
      let peers := peers_of primary matches in
      let base := outcome (match_rule primary) in
      let '(out, conflicts, notes1) :=
        match peers with
        | [] => (base, [], [])
        | _ => (_more_cautious (foldl (fun o m => _more_cautious o (outcome (match_rule m))) base peers)
                  (value COUNSEL_REVIEW),
                rule_id (match_rule primary) :: ((fun m => rule_id (match_rule m)) <$> peers),
                ["conflicting_rules_equal_precedence"])
        end in
      let downgraded := match unknown with
        | [] => false | _ => bool_decide (out = value LIKELY_NOT_REQUIRED) end in
      {| rc_outcome := if downgraded then value POSSIBLY_REQUIRED else out;
         rc_chosen := matches;
         rc_statements := (match_statement <$> matches) ++ (unresolved_statement <$> unknown);
         rc_conflicts := conflicts;
         rc_notes := notes1 ++ if downgraded then ["downgraded_by_unresolved_rule"] else [] |}
  | _, [], _ :: _ =>
      {| rc_outcome := value INSUFFICIENT_INFORMATION; rc_chosen := unknown;
         rc_statements := unresolved_statement <$> unknown; rc_conflicts := [];
         rc_notes := ["all_candidate_rules_unresolved"] |}
  | _, [], [] =>
      {| rc_outcome := value LIKELY_NOT_REQUIRED; rc_chosen := [];
         rc_statements := ["No rule in the active rule set is triggered by the recorded facts."];
         rc_conflicts := []; rc_notes := [] |}
  end.

Definition str_or (a b : option string) : option string := if truthy_str a then a else b.

(** The status a citation is given. *)
Definition citation_status (freshness_map : gmap string string) (c : SourceCitation) : string :=
  default (value SourceFreshnessStatus.UNKNOWN)
    (str_or (str_or (snapshot_id c ≫= fun s => freshness_map !! s) (freshness_status c))
       (Some (value SourceFreshnessStatus.UNKNOWN))).

Definition confident (o : string) : bool :=
  bool_decide (o ∈ value <$> [LIKELY_REQUIRED; LIKELY_NOT_REQUIRED]).

(** The answer while it is being lowered: outcome, counsel flag and reason, notes. *)
Record Answer := {
  an_outcome : string;
  an_counsel : bool;
  an_reason : option string;
  an_notes : list string
}.

Definition reason_or (a : option string) (b : string) : option string := if truthy_str a then a else Some b.

(** A matched rule or the outcome itself asks for counsel. *)
Definition counsel_step (chosen : list RuleMatch) (rc : Reconciled) : Answer :=
  let req := existsb (fun m => requires_counsel_review (match_rule m)) chosen in
  let reason := if req then Some "A matched rule is marked as requiring counsel review." else None in
  if bool_decide (rc_outcome rc = value COUNSEL_REVIEW)
  then {| an_outcome := rc_outcome rc; an_counsel := true;
          an_reason := reason_or reason "Rules of equal precedence disagree."; an_notes := rc_notes rc |}
  else {| an_outcome := rc_outcome rc; an_counsel := req; an_reason := reason; an_notes := rc_notes rc |}.

(** Stale or absent sources. *)
Definition freshness_step (freshness : string) (a : Answer) : Answer :=
  if bool_decide (freshness ∈ value <$> [SourceFreshnessStatus.STALE; SourceFreshnessStatus.NO_SOURCE]) &&
     confident (an_outcome a)
  then {| an_outcome := if bool_decide (an_outcome a = value LIKELY_REQUIRED)
                        then value POSSIBLY_REQUIRED else value COUNSEL_REVIEW;
          an_counsel := true; an_reason := Some "The cited sources are stale or absent.";
          an_notes := an_notes a ++ ["downgraded_by_source_freshness"] |}
  else a.

(** Vendor-only or internal-only backing. *)
Definition authority_step (policy : EvaluationSettings) (chosen : list RuleMatch)
    (cites : list SourceCitation) (has_authoritative : bool) (a : Answer) : Answer :=
  if escalate_non_authoritative_sources policy && negb (bool_decide (chosen = [])) &&
     negb (bool_decide (cites = [])) && negb has_authoritative && confident (an_outcome a)
  then {| an_outcome := value POSSIBLY_REQUIRED; an_counsel := true;
          an_reason := Some
            "Only vendor or internal sources back this result; no official source is cited.";
          an_notes := an_notes a ++ ["no_authoritative_source"] |}
  else a.

(** Declaring "not required". *)
Definition not_required_step (policy : EvaluationSettings) (a : Answer) : Answer :=
  if require_counsel_for_not_required policy && bool_decide (an_outcome a = value LIKELY_NOT_REQUIRED)
  then {| an_outcome := an_outcome a; an_counsel := true;
          an_reason := reason_or (an_reason a)
            "Policy requires counsel confirmation before recording 'not required'.";
          an_notes := an_notes a |}
  else a.

Definition conflict_text : string :=
  "Rules of equal specificity and priority produced different outcomes; the more cautious outcome was recorded and counsel review was flagged.".

Definition declared_missing (effective : list Rule) (t : EvaluationTrace) : list string :=
  filter (fun p => p ∉ (facts_used t).*1) (concat (required_facts <$> effective)).

Definition out_of_scope_result (jid : uuid) (jname : string) (ltid : option uuid)
    (policy : EvaluationSettings) : JurisdictionResult :=
  {| res_jurisdiction_id := jid; res_license_type_id := ltid; res_outcome := value OUT_OF_SCOPE;
     res_filing_channels := [];
     res_explanation := build_explanation py_str (value OUT_OF_SCOPE) jname
       ["The jurisdiction is outside the assessed footprint."] [] [] [] []
       (value SourceFreshnessStatus.NO_SOURCE) None None;
     res_facts_used := []; res_missing_facts := []; matched_rule_ids := []; conflicting_rule_ids := [];
     source_citations := []; source_freshness_status := value SourceFreshnessStatus.NO_SOURCE;
     requires_human_review := require_human_review policy; res_requires_counsel_review := false;
     notes := [] |}.

(** Everything after the rules have been evaluated. *)
Definition conclude (jid : uuid) (jname : string) (ltid : option uuid) (freshness_map : gmap string string)
    (policy : EvaluationSettings) (effective : list Rule) (matches unknown : list RuleMatch)
    (t : EvaluationTrace) : JurisdictionResult :=
  let missing := py_sorted str_leb (remove_dups (missing_facts t ++ declared_missing effective t)) in
  let rc := reconcile effective matches unknown in
  let chosen := rc_chosen rc in
  let channels := union_in_order (concat ((fun m => filing_channels (match_rule m)) <$> chosen)) in
  let cited := dedup_citations [] (concat ((fun m => citations (match_rule m)) <$> chosen)) in
  let cites := (fun c => with_status c (citation_status freshness_map c)) <$> cited in
  let freshness := summarize (citation_status freshness_map <$> cited) in
  let has_auth := existsb (fun c => bool_decide (authority_level c ∈ AUTHORITATIVE_LEVELS)) cited in
  let a := not_required_step policy
    (authority_step policy chosen cites has_auth
       (freshness_step freshness (counsel_step chosen rc))) in
  {| res_jurisdiction_id := jid; res_license_type_id := ltid; res_outcome := an_outcome a;
     res_filing_channels := channels;
     res_explanation := build_explanation py_str (an_outcome a) jname (rc_statements rc) (facts_used t)
       missing channels cites freshness
       (match rc_conflicts rc with [] => None | _ => Some conflict_text end) (an_reason a);
     res_facts_used := facts_used t; res_missing_facts := missing;
     matched_rule_ids := (fun m => rule_id (match_rule m)) <$> chosen;
     conflicting_rule_ids := rc_conflicts rc; source_citations := cites;
     source_freshness_status := freshness;
     requires_human_review := require_human_review policy || an_counsel a;
     res_requires_counsel_review := an_counsel a; notes := an_notes a |}.

Definition evaluate_jurisdiction (jid : uuid) (jname : string) (ltid : option uuid) (facts : fact_set)
    (rules : list Rule) (when : date) (freshness_map : gmap string string)
    (policy : EvaluationSettings) (in_scope : bool) : result exn JurisdictionResult :=
  if negb in_scope then Ok (out_of_scope_result jid jname ltid policy)
  else
    let effective := resolve_effective_rules rules when (Some jid) ltid in
    '(matches, unknown, t) ← evaluate_rules facts effective empty_trace;
    Ok (conclude jid jname ltid freshness_map policy effective matches unknown t).

(** ** Reconciliation *)

Lemma caution_top o : caution o <= 5 /\ (5 <= caution o -> o = value COUNSEL_REVIEW).
Proof.
  unfold caution, OUTCOME_CAUTION_RANK. cbn [dget].
  repeat (case_bool_decide; [subst; simpl; split; [lia | intros; first [done | lia]]|]). simpl. split; lia.
Qed.

Lemma more_cautious_counsel o : _more_cautious o (value COUNSEL_REVIEW) = value COUNSEL_REVIEW.
Proof.
  unfold _more_cautious. change (caution (value COUNSEL_REVIEW)) with 5.
  destruct (Z.leb_spec 5 (caution o)); [by apply caution_top | done].
Qed.

(** The answer of one rule on the facts. *)
Definition truth_of (facts : fact_set) (r : Rule) : result exn Truth :=
  answer_of (evaluate re_search py_str (rule_conditions r) facts empty_trace).

Lemma evaluate_rules_split facts rules t ms us t' :
  evaluate_rules facts rules t = Ok (ms, us, t') ->
  match_rule <$> ms = filter (fun r => truth_of facts r = Ok TRUE) rules /\
  match_rule <$> us = filter (fun r => truth_of facts r = Ok UNKNOWN) rules /\
  forall r, r ∈ rules -> is_ok (truth_of facts r) = true.
Proof.
  revert t ms us t'. induction rules as [|r rules IH]; intros t ms us t' He; simpl in He.
  { injection He as <- <- <-. split_and!; [done..|]. intros r Hr. by apply not_elem_of_nil in Hr. }
  apply bind_Ok_inv in He as ([truth t1] & Hr & He).
  apply bind_Ok_inv in He as ([[ms1 us1] t2] & Hl & He). injection He as <- <- <-.
  apply IH in Hl as (E1 & E2 & E3).
  assert (truth_of facts r = Ok truth) as Et.
  { unfold truth_of. rewrite (evaluate_answer re_search py_str _ facts empty_trace t). by rewrite Hr. }
  rewrite !filter_cons, Et. split_and!.
  - destruct truth; first [rewrite decide_True by done | rewrite decide_False by done]; rewrite ?fmap_cons; by f_equal.
  - destruct truth; first [rewrite decide_True by done | rewrite decide_False by done]; rewrite ?fmap_cons; by f_equal.
  - intros q [->|Hq]%elem_of_cons; [by rewrite Et | auto].
Qed.

Lemma reconcile_confident effective ms us :
  confident (rc_outcome (reconcile effective ms us)) = true ->
  rc_conflicts (reconcile effective ms us) = [] /\
  (rc_chosen (reconcile effective ms us) = [] \/
   exists primary ms', ms = primary :: ms' /\ rc_chosen (reconcile effective ms us) = ms /\
     rc_outcome (reconcile effective ms us) = outcome (match_rule primary) /\
     (us <> [] -> outcome (match_rule primary) <> value LIKELY_NOT_REQUIRED)).
Proof.
  unfold reconcile. destruct effective as [|r effective]; [discriminate|].
  destruct ms as [|primary ms]; [destruct us; [by auto | discriminate]|].
  destruct (peers_of primary (primary :: ms)) as [|p ps].
  - simpl. destruct us as [|u us]; simpl.
    + intros _. split; [done|]. right. exists primary, ms. done.
    + case_bool_decide; [discriminate|]. intros _. split; [done|]. right. by exists primary, ms.
  - rewrite more_cautious_counsel. simpl. by destruct us.
Qed.

Lemma reconcile_conflict effective ms us :
  effective <> [] ->
  rc_conflicts (reconcile effective ms us) <> [] <->
  exists primary ms', ms = primary :: ms' /\ peers_of primary ms <> [].
Proof.
  intros He. unfold reconcile. destruct effective as [|r effective]; [done|].
  destruct ms as [|primary ms]; [destruct us; split; [done | by intros (?&?&?&_) | done | by intros (?&?&?&_)]|].
  destruct (peers_of primary (primary :: ms)) as [|p ps] eqn:E; simpl.
  - split; [done|]. intros (? & ? & Hx & Hp). injection Hx as <- <-. by rewrite E in Hp.
  - split; [|done]. intros _. exists primary, ms. by rewrite E.
Qed.

Lemma reconcile_conflict_outcome effective ms us :
  rc_conflicts (reconcile effective ms us) <> [] ->
  rc_outcome (reconcile effective ms us) = value COUNSEL_REVIEW.
Proof.
  unfold reconcile. destruct effective as [|r effective]; [done|].
  destruct ms as [|primary ms]; [by destruct us|].
  destruct (peers_of primary (primary :: ms)) as [|p ps]; [done|].
  rewrite more_cautious_counsel. simpl. by destruct us.
Qed.

(** ** Lowering the answer *)

Lemma not_required_outcome policy a : an_outcome (not_required_step policy a) = an_outcome a.
Proof. unfold not_required_step. by destruct (_ && _). Qed.

Lemma authority_confident policy chosen cites ha a :
  confident (an_outcome (authority_step policy chosen cites ha a)) = true ->
  authority_step policy chosen cites ha a = a /\
  (escalate_non_authoritative_sources policy = true -> chosen <> [] -> cites <> [] -> ha = true).
Proof.
  unfold authority_step. destruct (confident (an_outcome a)) eqn:Ec; [|rewrite andb_false_r; congruence].
  destruct (escalate_non_authoritative_sources policy), ha; rewrite ?andb_false_r, ?andb_true_r; simpl; try done.
  case_bool_decide; [done|]. case_bool_decide; [done|]. discriminate.
Qed.

Lemma freshness_confident fr a :
  confident (an_outcome (freshness_step fr a)) = true ->
  freshness_step fr a = a /\ (fr ∉ value <$> [SourceFreshnessStatus.STALE; SourceFreshnessStatus.NO_SOURCE]).
Proof.
  unfold freshness_step. destruct (confident (an_outcome a)) eqn:Ec; [|rewrite andb_false_r; congruence].
  case_bool_decide; [|done]. simpl. by case_bool_decide.
Qed.

Lemma counsel_outcome chosen rc : an_outcome (counsel_step chosen rc) = rc_outcome rc.
Proof. unfold counsel_step. by destruct (bool_decide _). Qed.

(** Lowering never touches the outcome COUNSEL_REVIEW and never clears the flag. *)
Lemma lowered_counsel policy chosen cites ha fr rc :
  rc_outcome rc = value COUNSEL_REVIEW ->
  let a := not_required_step policy (authority_step policy chosen cites ha (freshness_step fr (counsel_step chosen rc))) in
  an_outcome a = value COUNSEL_REVIEW /\ an_counsel a = true.
Proof.
  intros E. cbv zeta. unfold counsel_step. rewrite E, bool_decide_eq_true_2 by done.
  unfold freshness_step. cbn [an_outcome]. change (confident (value COUNSEL_REVIEW)) with false.
  rewrite andb_false_r. unfold authority_step. cbn [an_outcome].
  change (confident (value COUNSEL_REVIEW)) with false. rewrite andb_false_r.
  unfold not_required_step. cbn [an_outcome]. by rewrite andb_false_r.
Qed.

Lemma evaluate_jurisdiction_inv jid jname ltid facts rules when fm policy r :
  evaluate_jurisdiction jid jname ltid facts rules when fm policy true = Ok r ->
  exists ms us t, evaluate_rules facts (resolve_effective_rules rules when (Some jid) ltid) empty_trace = Ok (ms, us, t) /\
  r = conclude jid jname ltid fm policy (resolve_effective_rules rules when (Some jid) ltid) ms us t.
Proof.
  unfold evaluate_jurisdiction. simpl. intros Hr. apply bind_Ok_inv in Hr as ([[ms us] t] & He & Hr).
  injection Hr as <-. eauto.
Qed.

Lemma match_in facts rules ms us t m :
  evaluate_rules facts rules empty_trace = Ok (ms, us, t) -> m ∈ ms ->
  match_rule m ∈ rules /\ truth_of facts (match_rule m) = Ok TRUE.
Proof.
  intros (E & _)%evaluate_rules_split Hm. apply (list_elem_of_fmap_2 match_rule) in Hm.
  rewrite E in Hm. apply list_elem_of_filter in Hm. tauto.
Qed.

(** A confident answer has sources, none of them stale or absent, and one of them is
    authoritative. *)
Lemma confident_sources jid jname ltid facts rules when fm policy r :
  evaluate_jurisdiction jid jname ltid facts rules when fm policy true = Ok r -> confident (res_outcome r) = true ->
  source_citations r <> [] /\
  (source_freshness_status r ∉ value <$> [SourceFreshnessStatus.STALE; SourceFreshnessStatus.NO_SOURCE]) /\
  (escalate_non_authoritative_sources policy = true -> exists c, c ∈ source_citations r /\ authority_level c ∈ AUTHORITATIVE_LEVELS) /\
  (forall c, c ∈ source_citations r -> exists s, freshness_status c = Some s /\ ~ outdated s).
Proof.
  intros (ms & us & t & He & ->)%evaluate_jurisdiction_inv. unfold conclude. cbn [res_outcome source_citations source_freshness_status].
  set (eff := resolve_effective_rules rules when (Some jid) ltid) in *. set (rc := reconcile eff ms us).
  set (cited := dedup_citations [] _). set (cites := (fun c => with_status c _) <$> cited).
  set (ha := existsb _ cited). set (fr := summarize _). intros Hc. rewrite not_required_outcome in Hc.
  apply authority_confident in Hc as Ha. destruct Ha as [Ea Ha]. rewrite Ea in Hc.
  apply freshness_confident in Hc as [_ Hf].
  assert (cited <> []) as Hcited.
  { intros E. apply Hf. unfold fr. rewrite E. simpl. right. left. }
  assert (cites <> []) as Hcites by (unfold cites; intros E; by apply fmap_nil_inv in E).
  split_and!; [done|done| |].
  2: { intros c (c0 & -> & Hin)%list_elem_of_fmap. exists (citation_status fm c0). split; [done|].
       apply (summarize_current (citation_status fm <$> cited)); [by apply list_elem_of_fmap_2 | exact Hf]. }
  intros Hesc. assert (ha = true) as Hha.
  { apply Ha; [done | | done]. intros E. apply Hcited. unfold cited. by rewrite E. }
  unfold ha in Hha. apply existsb_exists in Hha as (c & Hin & Hl%bool_decide_eq_true).
  exists (with_status c (citation_status fm c)). split; [|done].
  apply (list_elem_of_fmap_2 (fun c => with_status c (citation_status fm c))). by apply list_elem_of_In.
Qed.

Lemma reconcile_chosen effective ms us :
  rc_chosen (reconcile effective ms us) = [] \/ rc_chosen (reconcile effective ms us) = ms \/ rc_chosen (reconcile effective ms us) = us.
Proof. unfold reconcile. destruct effective; [auto|]. destruct ms as [|p ms]; [destruct us; auto|]. destruct (peers_of _ _); simpl; auto. Qed.

Lemma unknown_in facts rules ms us t m :
  evaluate_rules facts rules empty_trace = Ok (ms, us, t) -> m ∈ us ->
  match_rule m ∈ rules /\ truth_of facts (match_rule m) = Ok UNKNOWN.
Proof.
  intros (_ & E & _)%evaluate_rules_split Hm. apply (list_elem_of_fmap_2 match_rule) in Hm.
  rewrite E in Hm. apply list_elem_of_filter in Hm. tauto.
Qed.

(** What an answer cites, its rules cite. *)
Lemma cited_of_rules jid jname ltid facts rules when fm policy in_scope r c :
  evaluate_jurisdiction jid jname ltid facts rules when fm policy in_scope = Ok r -> c ∈ source_citations r ->
  exists q c0, q ∈ rules /\ c0 ∈ citations q /\ c = with_status c0 (citation_status fm c0).
Proof.
  destruct in_scope; [|by intros [= <-] ?%not_elem_of_nil].
  intros (ms & us & t & He & ->)%evaluate_jurisdiction_inv. unfold conclude. cbn [source_citations].
  set (eff := resolve_effective_rules rules when (Some jid) ltid) in *. set (rc := reconcile eff ms us).
  intros (c0 & -> & Hc)%list_elem_of_fmap. apply dedup_citations_spec in Hc as [Hc _].
  apply elem_of_concat in Hc as (l & Hc & (m & -> & Hm)%list_elem_of_fmap). exists (match_rule m), c0.
  split; [|done]. pose proof (reconcile_chosen eff ms us) as Hch. fold rc in Hch.
  assert (m ∈ ms \/ m ∈ us) as [H|H] by (destruct Hch as [E|[E|E]]; rewrite E in Hm; [by apply not_elem_of_nil in Hm | auto | auto]).
  - apply (match_in _ _ _ _ _ _ He) in H as [H _]. by apply elem_of_effective in H as [H _].
  - apply (unknown_in _ _ _ _ _ _ He) in H as [H _]. by apply elem_of_effective in H as [H _].
Qed.

(** C20. A confident answer is backed: when the evaluator says likely required or
    likely not required, a rule in force whose condition is TRUE says so, no rule
    of equal precedence disagrees, there are cited sources and each of them carries the
    status the freshness map or its citation gives it, which is neither STALE nor
    NO_SOURCE, as is the worst of them, one is authoritative (when that policy is on),
    and a likely-not-required answer has no unresolved rule and carries the counsel flag
    (when that policy is on).  A source of UNKNOWN status, such as one never verified, is
    let through ([unverified_source_stays_confident]). *)
Theorem confident_answer_backed jid jname ltid facts rules when fm policy r :
  evaluate_jurisdiction jid jname ltid facts rules when fm policy true = Ok r ->
  confident (res_outcome r) = true ->
  (exists q, q ∈ rules /\ rule_applies when (Some jid) ltid q = true /\ truth_of facts q = Ok TRUE /\
     outcome q = res_outcome r /\ rule_id q ∈ matched_rule_ids r) /\
  conflicting_rule_ids r = [] /\ source_citations r <> [] /\
  (source_freshness_status r ∉ value <$> [SourceFreshnessStatus.STALE; SourceFreshnessStatus.NO_SOURCE]) /\
  (forall c, c ∈ source_citations r -> exists q c0, q ∈ rules /\ c0 ∈ citations q /\ c = with_status c0 (citation_status fm c0) /\
     (citation_status fm c0 ∉ value <$> [SourceFreshnessStatus.STALE; SourceFreshnessStatus.NO_SOURCE])) /\
  (escalate_non_authoritative_sources policy = true ->
     exists c, c ∈ source_citations r /\ authority_level c ∈ AUTHORITATIVE_LEVELS) /\
  (res_outcome r = value LIKELY_NOT_REQUIRED ->
     (require_counsel_for_not_required policy = true -> res_requires_counsel_review r = true) /\
     forall q, q ∈ rules -> rule_applies when (Some jid) ltid q = true -> truth_of facts q <> Ok UNKNOWN).
Proof.
  intros Hr Hc0. pose proof (confident_sources _ _ _ _ _ _ _ _ _ Hr Hc0) as (Hs1 & Hs2 & Hs3 & Hs4).
  assert (forall c, c ∈ source_citations r -> exists q c0, q ∈ rules /\ c0 ∈ citations q /\ c = with_status c0 (citation_status fm c0) /\
     ~ outdated (citation_status fm c0)) as Hs5.
  { intros c Hc. destruct (cited_of_rules _ _ _ _ _ _ _ _ _ _ _ Hr Hc) as (q & c0 & Hq & Hc0' & ->). exists q, c0.
    destruct (Hs4 _ Hc) as (s & [= <-] & Hs). by split_and!. }
  clear Hs4. revert Hr Hc0 Hs1 Hs2 Hs3 Hs5.
  intros (ms & us & t & He & ->)%evaluate_jurisdiction_inv. unfold conclude. cbn [res_outcome].
  set (eff := resolve_effective_rules rules when (Some jid) ltid) in *. set (rc := reconcile eff ms us).
  set (cited := dedup_citations [] _). set (cites := (fun c => with_status c _) <$> cited).
  set (ha := existsb _ cited). set (fr := summarize _). intros Hc Hs1 Hs2 Hs3 Hs5.
  rewrite not_required_outcome in Hc |- *.
  apply authority_confident in Hc as Ha. destruct Ha as [Ea _]. rewrite Ea in Hc |- *.
  apply freshness_confident in Hc as Hf. destruct Hf as [Ef _]. rewrite Ef in Hc |- *.
  rewrite counsel_outcome in Hc |- *. pose proof (reconcile_confident eff ms us Hc) as [Hcf Hch].
  destruct Hch as [Hch|(primary & ms' & -> & Hch & Hout & Hun)].
  { exfalso. apply Hs1. cbn [source_citations]. unfold cites, cited. fold rc in Hch. by rewrite Hch. }
  fold rc in Hout, Hch, Hcf. rewrite Hout. split_and!; [|done..|].
  - assert (primary ∈ primary :: ms') as Hin by left. apply (match_in _ _ _ _ _ _ He) in Hin as [Hin Ht].
    apply elem_of_effective in Hin as [Hin Hap]. exists (match_rule primary). split_and!; try done.
    simpl. rewrite Hch. left.
  - intros Hlnr. split.
    + intros Hp. simpl. unfold not_required_step.
      rewrite Hp, counsel_outcome, Hout, Hlnr. rewrite bool_decide_eq_true_2 by done. done.
    + intros q Hq Hap Hu. apply Hun; [|done]. apply evaluate_rules_split in He as (_ & E & _).
      intros ->. symmetry in E. eapply (filter_nil_not_elem_of _ _ q); [exact E | exact Hu |].
      by apply elem_of_effective.
Qed.

(** ** Conflicts *)

Lemma sorted_matches facts rules when jid ltid ms us t :
  evaluate_rules facts (resolve_effective_rules rules when jid ltid) empty_trace = Ok (ms, us, t) ->
  StronglySorted (fun a b => sr_leb (match_rule a) (match_rule b) = true) ms.
Proof.
  intros (E & _)%evaluate_rules_split.
  assert (StronglySorted (fun a b => sr_leb a b = true) (match_rule <$> ms)) as Hs.
  { rewrite E. apply StronglySorted_filter, effective_sorted. }
  clear E. induction ms as [|m ms IH]; [constructor|]. rewrite fmap_cons in Hs.
  inversion Hs as [|? ? Hs' Hall]; subst. constructor; [by apply IH|]. by apply Forall_fmap in Hall.
Qed.

(** A genuine disagreement is never arbitrated: when two rules in force are
    TRUE on the facts, have equal specificity and priority, say different things,
    and no TRUE rule in force outranks them, the answer is COUNSEL_REVIEW with the
    counsel and human flags set and the conflict recorded. *)
Theorem conflict_goes_to_counsel jid jname ltid facts rules when fm policy r a b :
  evaluate_jurisdiction jid jname ltid facts rules when fm policy true = Ok r ->
  a ∈ rules -> b ∈ rules ->
  rule_applies when (Some jid) ltid a = true -> rule_applies when (Some jid) ltid b = true ->
  truth_of facts a = Ok TRUE -> truth_of facts b = Ok TRUE ->
  specificity a = specificity b -> priority a = priority b -> outcome a <> outcome b ->
  (forall q, q ∈ rules -> rule_applies when (Some jid) ltid q = true -> truth_of facts q = Ok TRUE -> ~ outranks q a) ->
  res_outcome r = value COUNSEL_REVIEW /\ res_requires_counsel_review r = true /\
  requires_human_review r = true /\ conflicting_rule_ids r <> [].
Proof.
  intros (ms & us & t & He & ->)%evaluate_jurisdiction_inv Ha Hb Haa Hab Hta Htb Hsp Hpr Hne Htop.
  set (eff := resolve_effective_rules rules when (Some jid) ltid) in *.
  assert (a ∈ eff /\ b ∈ eff) as [Hea Heb] by (split; by apply elem_of_effective).
  pose proof (evaluate_rules_split _ _ _ _ _ _ He) as (Ems & _ & _).
  assert (forall q, q ∈ eff -> truth_of facts q = Ok TRUE -> exists m, m ∈ ms /\ match_rule m = q) as Hin.
  { intros q Hq Ht. assert (q ∈ match_rule <$> ms) as (m & -> & Hm)%list_elem_of_fmap.
    { rewrite Ems. by apply list_elem_of_filter. } by exists m. }
  destruct (Hin a Hea Hta) as (ma & Hma & Ea), (Hin b Heb Htb) as (mb & Hmb & Eb).
  destruct ms as [|p ms]; [by apply not_elem_of_nil in Hma|].
  assert (specificity (match_rule p) = specificity a /\ priority (match_rule p) = priority a) as [Hps Hpp].
  { pose proof (sorted_matches _ _ _ _ _ _ _ _ He) as Hs.
    assert (match_rule p ∈ eff /\ truth_of facts (match_rule p) = Ok TRUE) as [Hpe Hpt]
      by (eapply match_in; [exact He | left]).
    apply elem_of_effective in Hpe as [Hpr' Hpa]. pose proof (Htop _ Hpr' Hpa Hpt) as Hno.
    assert (sr_leb (match_rule p) a = true) as Hle.
    { apply elem_of_cons in Hma as [<-|Hma]; [rewrite Ea; by destruct (sr_leb_total a a)|].
      inversion Hs as [|? ? _ Hall]; subst. rewrite Forall_forall in Hall. by apply Hall. }
    unfold outranks, sr_leb, precedence_leb in *. unfold specificity.
    change (sr_specificity (match_rule p)) with (specificity (match_rule p)) in *.
    change (sr_specificity a) with (specificity a) in *. change (sr_priority (match_rule p)) with (priority (match_rule p)) in *.
    change (sr_priority a) with (priority a) in *. unfold specificity in *. lia. }
  set (rc := reconcile eff (p :: ms) us).
  assert (rc_conflicts rc <> []) as Hcf.
  { apply reconcile_conflict; [by intros E; rewrite E in Hea; apply not_elem_of_nil in Hea|].
    exists p, ms. split; [done|]. intros Hnil.
    assert (forall m, m ∈ p :: ms -> specificity (match_rule m) = specificity a -> priority (match_rule m) = priority a ->
      outcome (match_rule m) = outcome (match_rule p)) as Hsame.
    { intros m Hm H1 H2. destruct (decide (outcome (match_rule m) = outcome (match_rule p))); [done|].
      exfalso. refine (filter_nil_not_elem_of _ _ m Hnil _ Hm).
      refine (conj _ (conj _ _)); [by rewrite H1 | by rewrite H2 | done]. }
    apply Hne. rewrite <-Ea, <-Eb. rewrite (Hsame ma), (Hsame mb); congruence. }
  pose proof (reconcile_conflict_outcome eff (p :: ms) us Hcf) as Hco.
  unfold conclude. cbn [res_outcome res_requires_counsel_review requires_human_review conflicting_rule_ids].
  fold rc. fold rc in Hco. edestruct lowered_counsel as [-> ->]; [exact Hco|].
  split_and!; [done | done | apply orb_true_r | done].
Qed.

(** ** The order of the rules is irrelevant *)

(** The answer does not depend on the order in which the rules are loaded,
    when rule keys are distinct. *)
Theorem evaluate_order_irrelevant jid jname ltid facts rules rules' when fm policy scope :
  NoDup (rule_key <$> rules) -> rules ≡ₚ rules' ->
  evaluate_jurisdiction jid jname ltid facts rules when fm policy scope =
  evaluate_jurisdiction jid jname ltid facts rules' when fm policy scope.
Proof.
  intros Hnd Hp. unfold evaluate_jurisdiction.
  assert (resolve_effective_rules rules when (Some jid) ltid = resolve_effective_rules rules' when (Some jid) ltid)
    as ->; [|done].
  eapply (StronglySorted_unique_strong (fun a b => sr_leb a b = true)); try apply effective_sorted.
  - intros x y [Hx _]%elem_of_effective [Hy _]%elem_of_effective H1 H2. rewrite <-Hp in Hy.
    assert (rule_key x = rule_key y) as Ek.
    { unfold sr_leb, precedence_leb in H1, H2. cbn [sr_key rule_scoped] in H1, H2.
      destruct (str_leb (rule_key x) (rule_key y)) eqn:Exy, (str_leb (rule_key y) (rule_key x)) eqn:Eyx;
        [by apply str_leb_antisym | exfalso; lia..]. }
    apply list_elem_of_lookup in Hx as [i Hi], Hy as [j Hj].
    assert (i = j) as ->; [|congruence].
    eapply (NoDup_lookup _ _ _ (rule_key x)); [exact Hnd | |]; rewrite list_lookup_fmap.
    + by rewrite Hi.
    + rewrite Hj. by rewrite Ek.
  - unfold resolve_effective_rules. rewrite !py_sorted_perm. by rewrite Hp.
Qed.

(** ** The shape of a result *)

(** Every result is well formed: its channels are exactly the channels of the
    rules it lists, its citations exactly one per (source, snapshot) those rules
    cite, its missing facts are sorted, without repetition, and include every
    declared fact that was not consulted; and a counsel flag always carries the
    human-review flag. *)
Theorem result_well_formed jid jname ltid facts rules when fm policy r :
  evaluate_jurisdiction jid jname ltid facts rules when fm policy true = Ok r ->
  exists chosen : list Rule,
    matched_rule_ids r = rule_id <$> chosen /\
    (forall q, q ∈ chosen -> q ∈ rules /\ rule_applies when (Some jid) ltid q = true /\
       (truth_of facts q = Ok TRUE \/ truth_of facts q = Ok UNKNOWN)) /\
    NoDup (res_filing_channels r) /\
    (forall ch, ch ∈ res_filing_channels r <-> exists q, q ∈ chosen /\ ch ∈ filing_channels q) /\
    NoDup (cite_key <$> source_citations r) /\
    (forall k, k ∈ cite_key <$> source_citations r <-> exists q c, q ∈ chosen /\ c ∈ citations q /\ cite_key c = k) /\
    NoDup (res_missing_facts r) /\ StronglySorted (fun a b => str_leb a b = true) (res_missing_facts r) /\
    (forall q p, q ∈ rules -> rule_applies when (Some jid) ltid q = true -> p ∈ required_facts q ->
       p ∈ (res_facts_used r).*1 \/ p ∈ res_missing_facts r) /\
    (res_requires_counsel_review r = true -> requires_human_review r = true).
Proof.
  intros (ms & us & t & He & ->)%evaluate_jurisdiction_inv.
  set (eff := resolve_effective_rules rules when (Some jid) ltid) in *.
  unfold conclude. set (rc := reconcile eff ms us).
  pose proof (reconcile_chosen eff ms us) as Hch. fold rc in Hch.
  pose proof (evaluate_rules_split _ _ _ _ _ _ He) as (E1 & E2 & _).
  exists (match_rule <$> rc_chosen rc).
  cbn [matched_rule_ids res_filing_channels source_citations res_missing_facts res_facts_used
       res_requires_counsel_review requires_human_review].
  destruct (union_in_order_spec (concat ((fun m => filing_channels (match_rule m)) <$> rc_chosen rc))) as [Hu1 Hu2].
  destruct (dedup_citations_spec [] (concat ((fun m => citations (match_rule m)) <$> rc_chosen rc))) as (Hd1 & Hd2 & Hd3).
  set (cited := dedup_citations [] _) in *.
  assert (cite_key <$> ((fun c => with_status c (citation_status fm c)) <$> cited) = cite_key <$> cited) as Ek
    by (rewrite <-list_fmap_compose; by apply list_fmap_ext).
  assert (forall B (f : Rule -> list B) x, x ∈ concat ((fun m => f (match_rule m)) <$> rc_chosen rc) <->
    exists q, q ∈ match_rule <$> rc_chosen rc /\ x ∈ f q) as Hcat.
  { intros B f x. rewrite elem_of_concat. split.
    - intros (l & Hx & (m & -> & Hm)%list_elem_of_fmap). exists (match_rule m). split; [by apply list_elem_of_fmap_2 | done].
    - intros (q & (m & -> & Hm)%list_elem_of_fmap & Hx). exists (f (match_rule m)). split; [done|].
      by apply (list_elem_of_fmap_2 (fun m => f (match_rule m))). }
  split_and!.
  - by rewrite <-list_fmap_compose.
  - intros q Hq. assert (q ∈ eff /\ (truth_of facts q = Ok TRUE \/ truth_of facts q = Ok UNKNOWN)) as [Hqe Hqt].
    { destruct Hch as [E|[E|E]]; rewrite E in Hq.
      - by apply not_elem_of_nil in Hq.
      - rewrite E1 in Hq. apply list_elem_of_filter in Hq. tauto.
      - rewrite E2 in Hq. apply list_elem_of_filter in Hq. tauto. }
    apply elem_of_effective in Hqe. tauto.
  - done.
  - intros ch. rewrite Hu2. apply Hcat.
  - by rewrite Ek.
  - intros k. rewrite Ek. split.
    + intros (c & -> & Hc)%list_elem_of_fmap. apply Hd2 in Hc as [Hc _].
      apply (Hcat _ citations) in Hc as (q & Hq & Hc). eauto.
    + intros (q & c & Hq & Hc & <-).
      destruct (Hd3 c) as [Hn|?]; [apply (Hcat _ citations); eauto | by apply not_elem_of_nil in Hn | done].
  - rewrite py_sorted_perm. apply NoDup_remove_dups.
  - apply py_sorted_sorted; [apply str_leb_total | apply str_leb_trans].
  - intros q p Hq Hap Hp. rewrite elem_of_py_sorted, elem_of_remove_dups, elem_of_app.
    destruct (decide (p ∈ (facts_used t).*1)); [by left | right; right].
    unfold declared_missing. apply list_elem_of_filter. split; [done|].
    apply elem_of_concat. exists (required_facts q). split; [done|].
    apply list_elem_of_fmap_2, elem_of_effective. done.
  - intros ->. apply orb_true_r.
Qed.

(** When no rule in force is triggered the answer is COUNSEL_REVIEW: the branch
    that means to say likely-not-required cites no source, and an uncited answer is
    lowered. *)
Lemma nothing_triggered_is_counsel jid jname ltid facts rules when fm policy r :
  evaluate_jurisdiction jid jname ltid facts rules when fm policy true = Ok r ->
  resolve_effective_rules rules when (Some jid) ltid <> [] ->
  (forall q, q ∈ rules -> rule_applies when (Some jid) ltid q = true -> truth_of facts q = Ok FALSE) ->
  res_outcome r = value COUNSEL_REVIEW.
Proof.
  intros (ms & us & t & He & ->)%evaluate_jurisdiction_inv Hne Hall.
  pose proof (evaluate_rules_split _ _ _ _ _ _ He) as (E1 & E2 & _).
  rewrite filter_none in E1, E2.
  - apply fmap_nil_inv in E1, E2. subst. unfold conclude, reconcile.
    destruct (resolve_effective_rules _ _ _ _); [done|]. cbn [res_outcome].
    destruct policy as [[] [] []]; reflexivity.
  - intros q [Hq Hap]%elem_of_effective. by rewrite Hall.
  - intros q [Hq Hap]%elem_of_effective. by rewrite Hall.
Qed.
End Evaluator.

(** ** A concrete rule set *)

#[local] Abbreviation no_match := (fun (_ _ : string) (_ : bool) => @Ok exn bool false).
#[local] Abbreviation no_text := (fun _ : json => "").

Definition sample_citation (status : string) : SourceCitation :=
  {| source_id := Some "src-1"; snapshot_id := Some "snap-1"; title := "Statute";
     authority_level := value AuthorityLevel.OFFICIAL_PRIMARY; source_type := "STATUTE";
     official_url := None; snapshot_version := Some 1; last_verified_at := None;
     cited_effective_date := None; citation_detail := None; freshness_status := Some status |}.

Definition sample_rule (i key out status : string) : Rule :=
  {| rule_id := i; rule_key := key; outcome := out; explanation_template := "Collects for others.";
     rule_conditions := fact_op "collects" "is_true"; priority := 100; jurisdiction_id := Some "TX";
     license_type_id := None; filing_channels := ["NMLS"]; required_facts := ["collects"; "staff"];
     effective_from := None; effective_to := None; requires_counsel_review := false; enabled := true;
     citations := [sample_citation status] |}.

Definition rule_required : Rule := sample_rule "r-1" "required" (value LIKELY_REQUIRED) "FRESH".
Definition rule_not_required : Rule := sample_rule "r-2" "not-required" (value LIKELY_NOT_REQUIRED) "FRESH".
Definition rule_unverified : Rule := sample_rule "r-3" "unverified" (value LIKELY_REQUIRED) "UNKNOWN".

Definition sample_result (rules : list Rule) : result exn JurisdictionResult :=
  evaluate_jurisdiction no_match no_text "TX" "Texas" None [("collects", JBool true)] rules
    (ymd2ord 2026 2 2) ∅ default_settings true.

(** The result of a run that returns. *)
Definition the_result (r : result exn JurisdictionResult) : JurisdictionResult :=
  match r with Ok x => x | Err _ => out_of_scope_result no_text "" "" None default_settings end.
Definition backed : JurisdictionResult := the_result (sample_result [rule_required]).
Definition conflicted : JurisdictionResult := the_result (sample_result [rule_required; rule_not_required]).

Lemma confident_answer_backed_witness :
  res_outcome backed = "LIKELY_REQUIRED" /\
  ((exists q, q ∈ [rule_required] /\ rule_applies (ymd2ord 2026 2 2) (Some "TX") None q = true /\
      truth_of no_match no_text [("collects", JBool true)] q = Ok TRUE /\
      outcome q = res_outcome backed /\ rule_id q ∈ matched_rule_ids backed) /\
   conflicting_rule_ids backed = [] /\ source_citations backed <> [] /\
   (source_freshness_status backed ∉ value <$> [SourceFreshnessStatus.STALE; SourceFreshnessStatus.NO_SOURCE]) /\
   (forall c, c ∈ source_citations backed -> exists q c0, q ∈ [rule_required] /\ c0 ∈ citations q /\ c = with_status c0 (citation_status ∅ c0) /\
      (citation_status ∅ c0 ∉ value <$> [SourceFreshnessStatus.STALE; SourceFreshnessStatus.NO_SOURCE])) /\
   (escalate_non_authoritative_sources default_settings = true ->
      exists c, c ∈ source_citations backed /\ authority_level c ∈ AUTHORITATIVE_LEVELS) /\
   (res_outcome backed = value LIKELY_NOT_REQUIRED ->
      (require_counsel_for_not_required default_settings = true -> res_requires_counsel_review backed = true) /\
      forall q, q ∈ [rule_required] -> rule_applies (ymd2ord 2026 2 2) (Some "TX") None q = true ->
        truth_of no_match no_text [("collects", JBool true)] q <> Ok UNKNOWN)).
Proof.
  split; [vm_compute; reflexivity|].
  apply (confident_answer_backed no_match no_text "TX" "Texas" None [("collects", JBool true)] [rule_required]
           (ymd2ord 2026 2 2) ∅ default_settings); vm_compute; reflexivity.
Defined.

Lemma conflict_goes_to_counsel_witness :
  res_outcome conflicted = value COUNSEL_REVIEW /\ res_requires_counsel_review conflicted = true /\
  requires_human_review conflicted = true /\ conflicting_rule_ids conflicted <> [].
Proof.
  apply (conflict_goes_to_counsel no_match no_text "TX" "Texas" None [("collects", JBool true)]
           [rule_required; rule_not_required] (ymd2ord 2026 2 2) ∅ default_settings conflicted
           rule_required rule_not_required).
  - vm_compute. reflexivity.
  - left.
  - right. left.
  - reflexivity.
  - reflexivity.
  - vm_compute. reflexivity.
  - vm_compute. reflexivity.
  - reflexivity.
  - reflexivity.
  - discriminate.
  - intros q Hq _ _. unfold outranks.
    apply elem_of_cons in Hq as [->|Hq]; [vm_compute; intros [?|[_ ?]]; discriminate|].
    apply list_elem_of_singleton in Hq as ->. vm_compute. intros [?|[_ ?]]; discriminate.
Defined.

Lemma evaluate_order_irrelevant_witness :
  sample_result [rule_required; rule_not_required] = sample_result [rule_not_required; rule_required].
Proof.
  apply evaluate_order_irrelevant.
  - apply (bool_decide_unpack _). vm_compute. exact I.
  - constructor.
Defined.

Lemma result_well_formed_witness :
  exists chosen : list Rule,
    matched_rule_ids conflicted = rule_id <$> chosen /\
    (forall q, q ∈ chosen -> q ∈ [rule_required; rule_not_required] /\
       rule_applies (ymd2ord 2026 2 2) (Some "TX") None q = true /\
       (truth_of no_match no_text [("collects", JBool true)] q = Ok TRUE \/
        truth_of no_match no_text [("collects", JBool true)] q = Ok UNKNOWN)) /\
    NoDup (res_filing_channels conflicted) /\
    (forall ch, ch ∈ res_filing_channels conflicted <-> exists q, q ∈ chosen /\ ch ∈ filing_channels q) /\
    NoDup (cite_key <$> source_citations conflicted) /\
    (forall k, k ∈ cite_key <$> source_citations conflicted <->
       exists q c, q ∈ chosen /\ c ∈ citations q /\ cite_key c = k) /\
    NoDup (res_missing_facts conflicted) /\
    StronglySorted (fun a b => str_leb a b = true) (res_missing_facts conflicted) /\
    (forall q p, q ∈ [rule_required; rule_not_required] ->
       rule_applies (ymd2ord 2026 2 2) (Some "TX") None q = true -> p ∈ required_facts q ->
       p ∈ (res_facts_used conflicted).*1 \/ p ∈ res_missing_facts conflicted) /\
    (res_requires_counsel_review conflicted = true -> requires_human_review conflicted = true).
Proof.
  apply (result_well_formed no_match no_text "TX" "Texas" None [("collects", JBool true)]
           [rule_required; rule_not_required] (ymd2ord 2026 2 2) ∅ default_settings).
  vm_compute. reflexivity.
Defined.

(** A rule whose only source has never been verified still gives a confident
    answer: the downgrade looks for stale and absent sources only. *)
Example unverified_source_stays_confident :
  let r := the_result (sample_result [rule_unverified]) in
  source_freshness_status r = value SourceFreshnessStatus.UNKNOWN /\
  res_outcome r = value LIKELY_REQUIRED /\ res_requires_counsel_review r = false.
Proof. vm_compute. done. Qed.
