(* ===== verification/Stages.v ===== *)
(** * The compliance-case stage machine ([app/licensing/stages.py])

    The transition matrix, the evidence a stage asks for, and the validation of a
    proposed move.  Stages are the strings the rows carry. *)
From S2P Require Import Prelude Vocabulary PyJson.
Import CaseStage.

Definition ALLOWED_TRANSITIONS : list (string * list string) :=
  [(value DUE_IDENTIFIED, value <$> [CASE_PLANNING; BLOCKED; CANCELLED]);
   (value CASE_PLANNING, value <$> [VENDOR_OUTREACH_PENDING; DOCUMENT_CHECKLIST_RECEIVED;
     DOCUMENTS_PENDING; INTERNAL_INFORMATION_PENDING; FORM_RECEIVED; BLOCKED; CANCELLED]);
   (value VENDOR_OUTREACH_PENDING, value <$> [VENDOR_OUTREACH_SENT; BLOCKED; CANCELLED]);
   (value VENDOR_OUTREACH_SENT, value <$> [VENDOR_QUESTIONS; DOCUMENT_CHECKLIST_RECEIVED;
     FORM_RECEIVED; BLOCKED; CANCELLED]);
   (value VENDOR_QUESTIONS, value <$> [INTERNAL_INFORMATION_PENDING; ANSWERS_READY;
     BLOCKED; CANCELLED]);
   (value INTERNAL_INFORMATION_PENDING, value <$> [ANSWERS_READY; VENDOR_QUESTIONS;
     BLOCKED; CANCELLED]);
   (value ANSWERS_READY, value <$> [ANSWERS_SENT; INTERNAL_INFORMATION_PENDING; BLOCKED;
     CANCELLED]);
   (value ANSWERS_SENT, value <$> [DOCUMENT_CHECKLIST_RECEIVED; VENDOR_QUESTIONS;
     FORM_RECEIVED; BLOCKED; CANCELLED]);
   (value DOCUMENT_CHECKLIST_RECEIVED, value <$> [DOCUMENTS_PENDING; PACKET_BUILDING;
     BLOCKED; CANCELLED]);
   (value DOCUMENTS_PENDING, value <$> [PACKET_BUILDING; BLOCKED; CANCELLED]);
   (value PACKET_BUILDING, value <$> [PACKET_READY_FOR_REVIEW; DOCUMENTS_PENDING; BLOCKED;
     CANCELLED]);
   (value PACKET_READY_FOR_REVIEW, value <$> [PACKET_APPROVED; PACKET_BUILDING; BLOCKED;
     CANCELLED]);
   (value PACKET_APPROVED, value <$> [PACKET_SENT; PACKET_BUILDING; BLOCKED; CANCELLED]);
   (value PACKET_SENT, value <$> [FORM_RECEIVED; VENDOR_QUESTIONS; VENDOR_VALIDATION;
     SUBMISSION_PENDING; BLOCKED; CANCELLED]);
   (value FORM_RECEIVED, value <$> [FORM_PREPARATION; BLOCKED; CANCELLED]);
   (value FORM_PREPARATION, value <$> [FORM_MISSING_INFORMATION; FORM_READY_FOR_REVIEW;
     BLOCKED; CANCELLED]);
   (value FORM_MISSING_INFORMATION, value <$> [FORM_PREPARATION;
     INTERNAL_INFORMATION_PENDING; FORM_READY_FOR_REVIEW; BLOCKED; CANCELLED]);
   (value FORM_READY_FOR_REVIEW, value <$> [SIGNATURE_PENDING; SUBMISSION_PENDING;
     FORM_PREPARATION; BLOCKED; CANCELLED]);
   (value SIGNATURE_PENDING, value <$> [SIGNED_FORM_RECEIVED; FORM_PREPARATION; BLOCKED;
     CANCELLED]);
   (value SIGNED_FORM_RECEIVED, value <$> [SUBMISSION_PENDING; BLOCKED; CANCELLED]);
   (value SUBMISSION_PENDING, value <$> [SUBMITTED_TO_VENDOR; SUBMITTED_TO_REGULATOR;
     BLOCKED; CANCELLED]);
   (value SUBMITTED_TO_VENDOR, value <$> [VENDOR_VALIDATION; SUBMITTED_TO_REGULATOR;
     DEFICIENCY_RECEIVED; BLOCKED; CANCELLED]);
   (value SUBMITTED_TO_REGULATOR, value <$> [REGULATOR_REVIEW; DEFICIENCY_RECEIVED;
     RENEWED_EVIDENCE_RECEIVED; BLOCKED; CANCELLED]);
   (value VENDOR_VALIDATION, value <$> [SUBMITTED_TO_REGULATOR; REGULATOR_REVIEW;
     DEFICIENCY_RECEIVED; FORM_PREPARATION; BLOCKED; CANCELLED]);
   (value REGULATOR_REVIEW, value <$> [DEFICIENCY_RECEIVED; RENEWED_EVIDENCE_RECEIVED;
     BLOCKED; CANCELLED]);
   (value DEFICIENCY_RECEIVED, value <$> [INTERNAL_INFORMATION_PENDING; DOCUMENTS_PENDING;
     FORM_PREPARATION; PACKET_BUILDING; BLOCKED; CANCELLED]);
   (value RENEWED_EVIDENCE_RECEIVED, value <$> [INVENTORY_UPDATE_PENDING; BLOCKED;
     CANCELLED]);
   (value INVENTORY_UPDATE_PENDING, value <$> [COMPLETED; BLOCKED; CANCELLED]);
   (value BLOCKED, value <$> [CASE_PLANNING; VENDOR_OUTREACH_PENDING; VENDOR_QUESTIONS;
     INTERNAL_INFORMATION_PENDING; DOCUMENTS_PENDING; PACKET_BUILDING; FORM_PREPARATION;
     SIGNATURE_PENDING; SUBMISSION_PENDING; REGULATOR_REVIEW; CANCELLED]);
   (value COMPLETED, []);
   (value CANCELLED, [])].

Definition STAGE_EVIDENCE_REQUIREMENTS : list (string * list string) :=
  [(value VENDOR_OUTREACH_SENT, ["outreach_reference"]);
   (value ANSWERS_SENT, ["answer_reference"]);
   (value PACKET_APPROVED, ["document_packet_id"]);
   (value PACKET_SENT, ["document_packet_id"]);
   (value SIGNED_FORM_RECEIVED, ["signed_document_id"]);
   (value SUBMITTED_TO_VENDOR, ["submission_reference"]);
   (value SUBMITTED_TO_REGULATOR, ["submission_reference"]);
   (value RENEWED_EVIDENCE_RECEIVED, ["renewed_evidence_document_id"])].

Definition STAGE_STATUS : list (string * string) :=
  [(value DUE_IDENTIFIED, value CaseStatus.OPEN);
   (value CASE_PLANNING, value CaseStatus.IN_PROGRESS);
   (value VENDOR_OUTREACH_PENDING, value CaseStatus.IN_PROGRESS);
   (value VENDOR_OUTREACH_SENT, value CaseStatus.WAITING_VENDOR);
   (value VENDOR_QUESTIONS, value CaseStatus.WAITING_INTERNAL);
   (value INTERNAL_INFORMATION_PENDING, value CaseStatus.WAITING_INTERNAL);
   (value ANSWERS_READY, value CaseStatus.IN_PROGRESS);
   (value ANSWERS_SENT, value CaseStatus.WAITING_VENDOR);
   (value DOCUMENT_CHECKLIST_RECEIVED, value CaseStatus.IN_PROGRESS);
   (value DOCUMENTS_PENDING, value CaseStatus.WAITING_INTERNAL);
   (value PACKET_BUILDING, value CaseStatus.IN_PROGRESS);
   (value PACKET_READY_FOR_REVIEW, value CaseStatus.IN_PROGRESS);
   (value PACKET_APPROVED, value CaseStatus.IN_PROGRESS);
   (value PACKET_SENT, value CaseStatus.WAITING_VENDOR);
   (value FORM_RECEIVED, value CaseStatus.IN_PROGRESS);
   (value FORM_PREPARATION, value CaseStatus.IN_PROGRESS);
   (value FORM_MISSING_INFORMATION, value CaseStatus.WAITING_INTERNAL);
   (value FORM_READY_FOR_REVIEW, value CaseStatus.IN_PROGRESS);
   (value SIGNATURE_PENDING, value CaseStatus.WAITING_SIGNATURE);
   (value SIGNED_FORM_RECEIVED, value CaseStatus.IN_PROGRESS);
   (value SUBMISSION_PENDING, value CaseStatus.WAITING_SUBMISSION);
   (value SUBMITTED_TO_VENDOR, value CaseStatus.WAITING_VENDOR);
   (value SUBMITTED_TO_REGULATOR, value CaseStatus.WAITING_REGULATOR);
   (value VENDOR_VALIDATION, value CaseStatus.WAITING_VENDOR);
   (value REGULATOR_REVIEW, value CaseStatus.WAITING_REGULATOR);
   (value DEFICIENCY_RECEIVED, value CaseStatus.IN_PROGRESS);
   (value RENEWED_EVIDENCE_RECEIVED, value CaseStatus.IN_PROGRESS);
   (value INVENTORY_UPDATE_PENDING, value CaseStatus.IN_PROGRESS);
   (value COMPLETED, value CaseStatus.COMPLETED);
   (value BLOCKED, value CaseStatus.BLOCKED);
   (value CANCELLED, value CaseStatus.CANCELLED)].

Definition _POST_SIGNATURE_STAGES : list string :=
  value <$> [SUBMISSION_PENDING; SUBMITTED_TO_VENDOR; SUBMITTED_TO_REGULATOR].

Definition TERMINAL_STAGES : list string := value <$> [COMPLETED; CANCELLED].

(** Why a move is refused; the message text is not modelled. *)
Inductive refusal : Set :=
| AlreadyThere | Terminal | UnknownStage | NotAllowed | EvidenceMissing | Unsigned | NothingRenewed.

Record TransitionCheck := {
  allowed : bool;
  reason : option refusal;
  missing_evidence : list string;
  resulting_status : option string
}.

Definition refuse (r : refusal) (missing : list string) : TransitionCheck :=
  {| allowed := false; reason := Some r; missing_evidence := missing; resulting_status := None |}.

(** [ALLOWED_TRANSITIONS.get(stage, frozenset())]. *)
Definition targets (stage : string) : list string := default [] (dget stage ALLOWED_TRANSITIONS).

Definition evidence_keys (stage : string) : list string := default [] (dget stage STAGE_EVIDENCE_REQUIREMENTS).

(** [payload.get(key)] is true. *)
Definition has_evidence (payload : list (string * json)) (key : string) : bool :=
  match dget key payload with Some v => truthy v | None => false end.

Definition missing_keys (payload : list (string * json)) (to_stage : string) : list string :=
  filter (fun k => has_evidence payload k = false) (evidence_keys to_stage).

Definition validate_transition (from_stage to_stage : string) (payload : list (string * json))
    (signature_required signature_recorded has_renewed_evidence : bool) (close_reason : option string)
    : TransitionCheck :=
  if bool_decide (from_stage = to_stage) then refuse AlreadyThere []
  else if bool_decide (from_stage ∈ TERMINAL_STAGES) then refuse Terminal []
  else if negb (dhas to_stage ALLOWED_TRANSITIONS) then refuse UnknownStage []
  else if bool_decide (to_stage ∉ targets from_stage) then refuse NotAllowed []
  else
    match missing_keys payload to_stage with
    | _ :: _ => refuse EvidenceMissing (missing_keys payload to_stage)
    | [] =>
        if signature_required && negb signature_recorded &&
           bool_decide (to_stage ∈ _POST_SIGNATURE_STAGES) then refuse Unsigned []
        else if bool_decide (to_stage = value COMPLETED) && negb has_renewed_evidence &&
                negb (truthy_str close_reason) then refuse NothingRenewed []
        else {| allowed := true; reason := None; missing_evidence := [];
                resulting_status := dget to_stage STAGE_STATUS |}
    end.

Definition next_stages (from_stage : string) : list string := py_sorted str_leb (targets from_stage).

Definition initial_stage : string := value DUE_IDENTIFIED.

(** ** The matrix *)

Lemma truthy_str_Some o : truthy_str o = true <-> exists s, o = Some s /\ s <> "".
Proof.
  destruct o as [s|]; simpl; [rewrite negb_true_iff, bool_decide_eq_false|];
    split; [eauto | by intros (? & [= <-] & ?) | done | by intros (? & ? & _)].
Qed.

(** The matrix is closed: a row per stage, every target a stage, no self-loop. *)
Lemma matrix_closed :
  Forall (fun c => value c ∈ ALLOWED_TRANSITIONS.*1) (members (A := CaseStage)) /\
  Forall (fun s => s ∈ value <$> members (A := CaseStage)) (ALLOWED_TRANSITIONS.*1) /\
  Forall (fun row => Forall (fun t => t ∈ ALLOWED_TRANSITIONS.*1 /\ t <> row.1) row.2) ALLOWED_TRANSITIONS.
Proof. apply (bool_decide_unpack _). vm_compute. exact I. Qed.

Lemma dget_Some_in {A} k (d : list (string * A)) : k ∈ d.*1 <-> is_Some (dget k d).
Proof.
  induction d as [|[k' v] d IH]; simpl; [rewrite elem_of_nil; split; [done | by intros [? ?]]|].
  rewrite elem_of_cons. case_bool_decide as E; [split; [by eexists | by left]|]. rewrite <-IH. tauto.
Qed.

Lemma targets_in from to : to ∈ targets from -> from ∈ ALLOWED_TRANSITIONS.*1 /\ to ∈ ALLOWED_TRANSITIONS.*1 /\ to <> from.
Proof.
  unfold targets. destruct (dget from ALLOWED_TRANSITIONS) as [ts|] eqn:E; [|by intros ?%not_elem_of_nil].
  intros Hto. apply dget_in in E. pose proof (proj2 (proj2 matrix_closed)) as H. rewrite Forall_forall in H.
  specialize (H _ E). rewrite Forall_forall in H. split; [by apply (list_elem_of_fmap_2 fst) in E | by apply H].
Qed.

Lemma terminal_targets s : s ∈ TERMINAL_STAGES -> targets s = [].
Proof.
  unfold TERMINAL_STAGES. simpl. rewrite !elem_of_cons, elem_of_nil.
  by intros [->|[->|[]]].
Qed.

Lemma status_defined s : s ∈ ALLOWED_TRANSITIONS.*1 -> is_Some (dget s STAGE_STATUS).
Proof.
  intros Hs. apply dget_Some_in. revert Hs. revert s. apply Forall_forall, (bool_decide_unpack _). vm_compute. exact I.
Qed.

(** A check that refuses. *)
Lemma refuse_spec r ks (P : Prop) st :
  ~ P ->
  let c := refuse r ks in
  (allowed c = true <-> P) /\
  (allowed c = true -> resulting_status c = st /\ is_Some (resulting_status c)) /\
  (allowed c = false -> resulting_status c = None /\ is_Some (reason c)).
Proof.
  intros HP. cbv zeta. cbn [refuse allowed resulting_status reason].
  split; [split; [discriminate | intros H; by destruct HP]|]. split; [discriminate|]. intros _. split; [done | by eexists].
Qed.

Lemma check_facts from to payload sreq srec renewed close :
  let c := validate_transition from to payload sreq srec renewed close in
  (allowed c = true <->
     to ∈ targets from /\
     (forall k, k ∈ evidence_keys to -> has_evidence payload k = true) /\
     (sreq = true -> to ∈ _POST_SIGNATURE_STAGES -> srec = true) /\
     (to = value COMPLETED -> renewed = true \/ truthy_str close = true)) /\
  (allowed c = true -> resulting_status c = dget to STAGE_STATUS /\ is_Some (resulting_status c)) /\
  (allowed c = false -> resulting_status c = None /\ is_Some (reason c)).
Proof.
  cbv zeta. unfold validate_transition.
  case_bool_decide as Hsame.
  { apply refuse_spec. intros (Hin & _). by apply targets_in in Hin as (_ & _ & ?). }
  case_bool_decide as Hterm.
  { apply refuse_spec. intros (Hin & _). rewrite terminal_targets in Hin by done. by apply not_elem_of_nil in Hin. }
  destruct (dhas to ALLOWED_TRANSITIONS) eqn:Hd; cbn [negb].
  2: { apply refuse_spec. intros (Hin & _). apply targets_in in Hin as (_ & Hin & _).
       apply dget_Some_in in Hin. unfold dhas, truthy_opt in Hd. by rewrite bool_decide_eq_true_2 in Hd. }
  destruct (decide (to ∈ targets from)) as [Hin|Hin].
  2: { rewrite bool_decide_eq_true_2 by done. apply refuse_spec. by intros (? & _). }
  rewrite bool_decide_eq_false_2 by auto. destruct (missing_keys payload to) as [|k ks] eqn:Hm.
  2: { apply refuse_spec. intros (_ & Hev & _).
       assert (k ∈ missing_keys payload to) as Hk by (rewrite Hm; left).
       apply list_elem_of_filter in Hk as [Hk Hin']. by rewrite Hev in Hk. }
  assert (forall k, k ∈ evidence_keys to -> has_evidence payload k = true) as Hev.
  { intros k Hk. destruct (has_evidence payload k) eqn:E; [done|].
    by destruct (filter_nil_not_elem_of _ _ k Hm E). }
  pose proof (targets_in _ _ Hin) as (_ & Hst & _). apply status_defined in Hst.
  destruct (sreq && negb srec && bool_decide (to ∈ _POST_SIGNATURE_STAGES)) eqn:Es.
  { rewrite !andb_true_iff, negb_true_iff, bool_decide_eq_true in Es. destruct Es as [[-> ->] Hp].
    apply refuse_spec. intros (_ & _ & H & _). discriminate (H eq_refl Hp). }
  destruct (bool_decide (to = value COMPLETED) && negb renewed && negb (truthy_str close)) eqn:Ec.
  { rewrite !andb_true_iff, !negb_true_iff, bool_decide_eq_true in Ec. destruct Ec as [[-> ->] Hc].
    apply refuse_spec. intros (_ & _ & _ & H). destruct (H eq_refl); congruence. }
  cbn [allowed resulting_status reason].
  split; [split; [intros _ | intros _; reflexivity] | split; [intros _; split; [reflexivity | exact Hst] | discriminate]].
  split_and!; [exact Hin | exact Hev | |].
  - intros -> Hp. rewrite bool_decide_eq_true_2 in Es by done. by destruct srec.
  - intros ->. destruct renewed; [by left|]. right. by destruct (truthy_str close).
Qed.

(** A move is allowed exactly when the matrix has it, every piece of evidence
    the target asks for is present, a required signature is recorded before a
    submission stage, and completion has renewed evidence or a close reason; an
    allowed move always yields the target's case status. *)
Theorem validate_transition_spec from to payload sreq srec renewed close :
  let c := validate_transition from to payload sreq srec renewed close in
  (allowed c = true <->
     to ∈ targets from /\
     (forall k, k ∈ evidence_keys to -> has_evidence payload k = true) /\
     (sreq = true -> to ∈ _POST_SIGNATURE_STAGES -> srec = true) /\
     (to = value COMPLETED -> renewed = true \/ truthy_str close = true)) /\
  (allowed c = true -> resulting_status c = dget to STAGE_STATUS /\ is_Some (resulting_status c)) /\
  (allowed c = false -> resulting_status c = None /\ is_Some (reason c)).
Proof. apply check_facts. Qed.

(** ** Paths through the matrix *)

Definition move (a b : string) : Prop := b ∈ targets a.

(** A way to completion from every stage. *)
Definition next_hop (s : CaseStage) : CaseStage :=
  match s with
  | DUE_IDENTIFIED => CASE_PLANNING | CASE_PLANNING => DOCUMENTS_PENDING
  | VENDOR_OUTREACH_PENDING => VENDOR_OUTREACH_SENT | VENDOR_OUTREACH_SENT => DOCUMENT_CHECKLIST_RECEIVED
  | VENDOR_QUESTIONS => ANSWERS_READY | INTERNAL_INFORMATION_PENDING => ANSWERS_READY
  | ANSWERS_READY => ANSWERS_SENT | ANSWERS_SENT => DOCUMENT_CHECKLIST_RECEIVED
  | DOCUMENT_CHECKLIST_RECEIVED => PACKET_BUILDING | DOCUMENTS_PENDING => PACKET_BUILDING
  | PACKET_BUILDING => PACKET_READY_FOR_REVIEW | PACKET_READY_FOR_REVIEW => PACKET_APPROVED
  | PACKET_APPROVED => PACKET_SENT | PACKET_SENT => SUBMISSION_PENDING
  | FORM_RECEIVED => FORM_PREPARATION | FORM_PREPARATION => FORM_READY_FOR_REVIEW
  | FORM_MISSING_INFORMATION => FORM_PREPARATION | FORM_READY_FOR_REVIEW => SIGNATURE_PENDING
  | SIGNATURE_PENDING => SIGNED_FORM_RECEIVED | SIGNED_FORM_RECEIVED => SUBMISSION_PENDING
  | SUBMISSION_PENDING => SUBMITTED_TO_REGULATOR | SUBMITTED_TO_VENDOR => SUBMITTED_TO_REGULATOR
  | SUBMITTED_TO_REGULATOR => RENEWED_EVIDENCE_RECEIVED | VENDOR_VALIDATION => SUBMITTED_TO_REGULATOR
  | REGULATOR_REVIEW => RENEWED_EVIDENCE_RECEIVED | DEFICIENCY_RECEIVED => DOCUMENTS_PENDING
  | RENEWED_EVIDENCE_RECEIVED => INVENTORY_UPDATE_PENDING | INVENTORY_UPDATE_PENDING => COMPLETED
  | BLOCKED => REGULATOR_REVIEW | COMPLETED => COMPLETED | CANCELLED => CANCELLED
  end.

Lemma next_hop_move s : value s ∉ TERMINAL_STAGES -> move (value s) (value (next_hop s)) /\ move (value s) (value CANCELLED).
Proof.
  intros Hs. unfold move. destruct s; first [apply (bool_decide_unpack _); vm_compute; exact I
    | exfalso; apply Hs; apply (bool_decide_unpack _); vm_compute; exact I].
Qed.

Lemma follow_hops n s : rtc move (value s) (value (Nat.iter n next_hop s)).
Proof.
  induction n as [|n IH]; [apply rtc_refl|]. simpl.
  destruct (decide (value (Nat.iter n next_hop s) ∈ TERMINAL_STAGES)) as [Ht|Ht].
  - assert (next_hop (Nat.iter n next_hop s) = Nat.iter n next_hop s) as ->; [|done].
    destruct (Nat.iter n next_hop s); try done; exfalso; revert Ht;
      apply (bool_decide_unpack _); vm_compute; exact I.
  - eapply rtc_r; [exact IH | by apply next_hop_move].
Qed.

(** One round of exploration that never enters [x]. *)
Definition grow (x : string) (R : list string) : list string :=
  R ++ remove_dups (filter (fun b => b <> x /\ b ∉ R) (concat (targets <$> R))).

(** A sequence of stages, each a target of the one before. *)
Fixpoint is_path (l : list string) : Prop :=
  match l with
  | a :: ((b :: _) as l) => move a b /\ is_path l
  | _ => True
  end.

(** A set closed under the moves that do not enter [x]. *)
Definition closed_without (x : string) (R : list string) : Prop :=
  Forall (fun a => Forall (fun b => b = x \/ b ∈ R) (targets a)) R.

Lemma path_stays x R l :
  closed_without x R -> is_path l -> (forall a, head l = Some a -> a ∈ R) -> x ∉ l -> Forall (fun a => a ∈ R) l.
Proof.
  intros HR. induction l as [|a l IH]; intros Hp Ha Hx; [constructor|].
  assert (a ∈ R) as HaR by by apply Ha.
  constructor; [done|]. apply not_elem_of_cons in Hx as [_ Hx].
  destruct l as [|b l]; [constructor|]. destruct Hp as [Hab Hp]. apply IH; [done | | done].
  intros b' [= <-]. unfold closed_without in HR. rewrite Forall_forall in HR. specialize (HR _ HaR).
  rewrite Forall_forall in HR. destruct (HR b Hab) as [->|?]; [|done]. destruct Hx. left.
Qed.

(** The stages reached from the start while avoiding one. *)
Definition before (x : string) : list string := Nat.iter 14 (grow x) [initial_stage].

(** That set is closed, holds the start and not completion. *)
Definition separates (x : string) (R : list string) : bool :=
  forallb (fun a => forallb (fun b => bool_decide (b = x) || bool_decide (b ∈ R)) (targets a)) R &&
  bool_decide (initial_stage ∈ R) && negb (bool_decide (value COMPLETED ∈ R)).

Lemma separates_true x R :
  separates x R = true -> closed_without x R /\ initial_stage ∈ R /\ value COMPLETED ∉ R.
Proof.
  unfold separates, closed_without. rewrite !andb_true_iff, negb_true_iff, bool_decide_eq_true, bool_decide_eq_false.
  intros [[H1 H2] H3]. split_and!; [|done|done]. rewrite forallb_forall in H1. apply Forall_forall.
  intros a Ha%list_elem_of_In. specialize (H1 a Ha). rewrite forallb_forall in H1. apply Forall_forall.
  intros b Hb%list_elem_of_In. specialize (H1 b Hb). by rewrite orb_true_iff, !bool_decide_eq_true in H1.
Qed.

Lemma control_point x l :
  x ∈ value <$> [RENEWED_EVIDENCE_RECEIVED; INVENTORY_UPDATE_PENDING] ->
  is_path l -> head l = Some initial_stage -> value COMPLETED ∈ l -> x ∈ l.
Proof.
  intros Hx Hp Hh Hc. destruct (decide (x ∈ l)) as [|Hn]; [done|]. exfalso.
  assert (separates x (before x) = true) as (H1 & H2 & H3)%separates_true.
  { simpl in Hx. rewrite !elem_of_cons, elem_of_nil in Hx.
    destruct Hx as [->|[->|[]]]; vm_compute; reflexivity. }
  pose proof (path_stays x (before x) l H1 Hp) as Hall.
  rewrite Forall_forall in Hall. apply H3, Hall; [|done|done]. rewrite Hh. by intros ? [= <-].
Qed.

(** The matrix has no way round the closing control points and no dead end:
    every path of moves from the opening stage to completion passes through the
    renewed-evidence and the inventory-update stages; and from every stage that is
    not terminal both completion and cancellation can be reached, while a terminal
    stage has no exit. *)
Theorem matrix_control_points :
  (forall l, is_path l -> head l = Some initial_stage -> value COMPLETED ∈ l ->
     value RENEWED_EVIDENCE_RECEIVED ∈ l /\ value INVENTORY_UPDATE_PENDING ∈ l) /\
  (forall s : CaseStage, value s ∉ TERMINAL_STAGES ->
     rtc move (value s) (value COMPLETED) /\ rtc move (value s) (value CANCELLED)) /\
  (forall s, s ∈ TERMINAL_STAGES -> targets s = []).
Proof.
  split_and!.
  - intros l Hp Hh Hc. split; eapply control_point; try done; [left | right; left].
  - intros s Hs.
    split; [|by eapply rtc_once, next_hop_move].
    assert (Nat.iter 13 next_hop s = COMPLETED) as <-; [|apply follow_hops].
    destruct s; try reflexivity. exfalso. apply Hs, (bool_decide_unpack _). vm_compute. exact I.
  - apply terminal_targets.
Qed.
