(* ===== verification/CaseService.v ===== *)
(** * Compliance cases ([app/services/compliance_case_service.py])

    Obligations, cases, stage moves and information requests as functions from a
    database to a result and the next database.  A raised exception leaves the
    database as it was (the session rolls back).  The generated display keys, the
    metrics and the notification text are not modelled; every [utcnow()] of one
    call reads the same instant. *)
From stdpp Require Import pretty.
From S2P Require Import Prelude Vocabulary PyDate PyJson Scoping Stages.
Open Scope Z_scope.

(** ** Tables *)

Record Obligation := {
  ob_id : uuid;
  ob_legal_entity_id : uuid;
  ob_license_id : option uuid;
  ob_bond_id : option uuid;
  ob_jurisdiction_id : option uuid;
  ob_type : string;
  ob_title : string;
  ob_status : string;
  ob_recurrence_rule : option (list (string * json));
  ob_statutory_due_date : option date;
  ob_next_due_date : option date;
  ob_internal_start_date : option date;
  ob_responsible_owner : option string;
  ob_vendor_organization_id : option uuid;
  ob_regulator_organization_id : option uuid;
  ob_requirement_source_ids : list uuid;
  ob_predecessor_obligation_id : option uuid;
  ob_notes : option string
}.

Record ComplianceCase := {
  case_id : uuid;
  case_obligation_id : uuid;
  case_legal_entity_id : uuid;
  case_license_id : option uuid;
  case_bond_id : option uuid;
  case_type : string;
  current_stage : string;
  case_status : string;
  case_priority : string;
  case_statutory_due_date : option date;
  internal_target_date : option date;
  case_assigned_owner : option string;
  case_vendor_organization_id : option uuid;
  case_regulator_organization_id : option uuid;
  primary_conversation_id : option string;
  case_close_reason : option string;
  blocked_reason : option string;
  stage_entered_at : option instant;
  case_created_at : instant;
  case_completed_at : option instant
}.

Record StageEvent := {
  se_case_id : uuid;
  se_from_stage : option string;
  se_to_stage : string;
  se_actor_id : string;
  se_reason : option string;
  se_evidence : list (string * json);
  se_seconds_in_previous_stage : option Z;
  se_occurred_at : instant
}.

Record FormRow := {
  fi_case_id : uuid;
  fi_signature_required : bool;
  fi_signed_document_id : option uuid
}.

Record PacketRow := { pk_id : uuid; pk_case_id : uuid; pk_version : Z; pk_status : string }.

Record InformationRequest := {
  ir_id : uuid;
  ir_case_id : uuid;
  ir_definition_id : option uuid;
  ir_question_text : string;
  ir_requested_from : option string;
  ir_status : string;
  ir_due_at : option instant;
  ir_response_value_id : option uuid;
  ir_source_email_id : option uuid;
  ir_source_vendor_question : option string;
  ir_provided_to_vendor_at : option instant;
  ir_resolution_note : option string
}.

Record LicenseRow := { lr_entity : uuid; lr_jurisdiction : uuid }.
Record BondRow := { br_entity : uuid; br_license : option uuid; br_jurisdiction : option uuid }.

Record CaseDb := {
  legal_entities : gset string;
  licenses : gmap string LicenseRow;
  bonds : gmap string BondRow;
  jurisdictions : gset string;
  organizations : gset string;
  obligations : gmap string Obligation;
  cases : list ComplianceCase;
  case_events : list StageEvent;
  forms : list FormRow;
  packets : list PacketRow;
  requests : gmap string InformationRequest;
  notified : list (string * uuid);
  audits : list (string * uuid);
  next_id : nat
}.

Definition _CASE_TYPE_FOR_OBLIGATION : list (string * string) :=
  [(value ObligationType.LICENSE_RENEWAL, value CaseType.LICENSE_RENEWAL);
   (value ObligationType.BOND_RENEWAL, value CaseType.BOND_RENEWAL);
   (value ObligationType.ANNUAL_REPORT, value CaseType.ANNUAL_REPORT);
   (value ObligationType.FINANCIAL_DOCUMENT, value CaseType.FINANCIAL_DOCUMENT);
   (value ObligationType.CERTIFICATE_RENEWAL, value CaseType.OTHER);
   (value ObligationType.INITIAL_APPLICATION, value CaseType.INITIAL_LICENSE);
   (value ObligationType.AMENDMENT, value CaseType.LICENSE_AMENDMENT);
   (value ObligationType.DEFICIENCY_RESPONSE, value CaseType.DEFICIENCY_RESPONSE);
   (value ObligationType.INFORMATION_RESPONSE, value CaseType.INFORMATION_RESPONSE);
   (value ObligationType.SURRENDER, value CaseType.SURRENDER);
   (value ObligationType.OTHER, value CaseType.OTHER)].

Definition CLOSED_STATUSES : list string := value <$> [CaseStatus.COMPLETED; CaseStatus.CANCELLED].
Definition case_open (c : ComplianceCase) : bool := bool_decide (case_status c ∉ CLOSED_STATUSES).

Definition str_or (a b : option string) : option string := if truthy_str a then a else b.

(** Field updates. *)
Definition db_audit (a : string * uuid) (db : CaseDb) : CaseDb :=
  {| legal_entities := legal_entities db; licenses := licenses db; bonds := bonds db;
     jurisdictions := jurisdictions db; organizations := organizations db;
     obligations := obligations db; cases := cases db; case_events := case_events db;
     forms := forms db; packets := packets db; requests := requests db; notified := notified db;
     audits := audits db ++ [a]; next_id := next_id db |}.

Definition db_obligation (ob : Obligation) (db : CaseDb) : CaseDb :=
  {| legal_entities := legal_entities db; licenses := licenses db; bonds := bonds db;
     jurisdictions := jurisdictions db; organizations := organizations db;
     obligations := <[ob_id ob := ob]> (obligations db); cases := cases db; case_events := case_events db;
     forms := forms db; packets := packets db; requests := requests db; notified := notified db;
     audits := audits db; next_id := next_id db |}.

Definition db_cases (cs : list ComplianceCase) (es : list StageEvent) (n : nat) (db : CaseDb) : CaseDb :=
  {| legal_entities := legal_entities db; licenses := licenses db; bonds := bonds db;
     jurisdictions := jurisdictions db; organizations := organizations db;
     obligations := obligations db; cases := cs; case_events := es;
     forms := forms db; packets := packets db; requests := requests db; notified := notified db;
     audits := audits db; next_id := n |}.

Definition db_request (r : InformationRequest) (db : CaseDb) : CaseDb :=
  {| legal_entities := legal_entities db; licenses := licenses db; bonds := bonds db;
     jurisdictions := jurisdictions db; organizations := organizations db;
     obligations := obligations db; cases := cases db; case_events := case_events db;
     forms := forms db; packets := packets db; requests := <[ir_id r := r]> (requests db);
     notified := notified db; audits := audits db; next_id := next_id db |}.

Definition db_fresh (db : CaseDb) : CaseDb :=
  {| legal_entities := legal_entities db; licenses := licenses db; bonds := bonds db;
     jurisdictions := jurisdictions db; organizations := organizations db;
     obligations := obligations db; cases := cases db; case_events := case_events db;
     forms := forms db; packets := packets db; requests := requests db;
     notified := notified db; audits := audits db; next_id := S (next_id db) |}.

Definition db_notify (n : string * uuid) (db : CaseDb) : CaseDb :=
  {| legal_entities := legal_entities db; licenses := licenses db; bonds := bonds db;
     jurisdictions := jurisdictions db; organizations := organizations db;
     obligations := obligations db; cases := cases db; case_events := case_events db;
     forms := forms db; packets := packets db; requests := requests db;
     notified := notified db ++ [n]; audits := audits db; next_id := next_id db |}.

(** Other services write forms and packets. *)
Definition db_evidence (fs : list FormRow) (ps : list PacketRow) (db : CaseDb) : CaseDb :=
  {| legal_entities := legal_entities db; licenses := licenses db; bonds := bonds db;
     jurisdictions := jurisdictions db; organizations := organizations db;
     obligations := obligations db; cases := cases db; case_events := case_events db;
     forms := fs; packets := ps; requests := requests db;
     notified := notified db; audits := audits db; next_id := next_id db |}.

Section Cases.
Context (uuid4 : nat -> uuid).

(** ** Obligations *)

(** The keyword arguments of [create_obligation]. *)
Record ObligationFields := {
  of_legal_entity_id : uuid;
  of_license_id : option uuid;
  of_bond_id : option uuid;
  of_jurisdiction_id : option uuid;
  of_type : string;
  of_title : string;
  of_status : option string;
  of_recurrence_rule : option (list (string * json));
  of_statutory_due_date : option date;
  of_next_due_date : option date;
  of_internal_start_date : option date;
  of_responsible_owner : option string;
  of_vendor_organization_id : option uuid;
  of_regulator_organization_id : option uuid;
  of_requirement_source_ids : list uuid;
  of_predecessor_obligation_id : option uuid;
  of_notes : option string
}.

(** [if x and get(x) is None: raise NotFoundError]. *)
Definition exists_or_raise (known : gset string) (o : option uuid) : result exn unit :=
  match o with Some i => raise_unless (bool_decide (i ∈ known)) NotFoundError | None => Ok tt end.

Definition _validate_obligation_links (f : ObligationFields) (db : CaseDb) : result exn unit :=
  _ ← raise_unless (bool_decide (of_legal_entity_id f ∈ legal_entities db)) NotFoundError;
  let license := of_license_id f ≫= fun i => licenses db !! i in
  let bond := of_bond_id f ≫= fun i => bonds db !! i in
  _ ← raise_unless (negb (truthy_opt (of_license_id f)) || truthy_opt license) NotFoundError;
  _ ← raise_unless (match license with
        | Some l => bool_decide (lr_entity l = of_legal_entity_id f) | None => true end) StateConflictError;
  _ ← raise_unless (negb (truthy_opt (of_bond_id f)) || truthy_opt bond) NotFoundError;
  _ ← raise_unless (match bond with
        | Some b => bool_decide (br_entity b = of_legal_entity_id f) | None => true end) StateConflictError;
  _ ← raise_unless (match bond, of_license_id f with
        | Some b, Some l => match br_license b with Some bl => bool_decide (bl = l) | None => true end
        | _, _ => true end) StateConflictError;
  _ ← exists_or_raise (jurisdictions db) (of_jurisdiction_id f);
  _ ← raise_unless (match license, of_jurisdiction_id f with
        | Some l, Some j => bool_decide (lr_jurisdiction l = j) | _, _ => true end) StateConflictError;
  _ ← raise_unless (match bond, of_jurisdiction_id f with
        | Some b, Some j => match br_jurisdiction b with Some bj => bool_decide (bj = j) | None => true end
        | _, _ => true end) StateConflictError;
  _ ← exists_or_raise (organizations db) (of_vendor_organization_id f);
  exists_or_raise (organizations db) (of_regulator_organization_id f).

Definition create_obligation (f : ObligationFields) (db : CaseDb) : result exn (Obligation * CaseDb) :=
  _ ← _validate_obligation_links f db;
  _ ← raise_unless (is_value (A := ObligationType.ObligationType) (of_type f)) StateConflictError;
  let status := default (value ObligationStatus.PLANNED) (str_or (of_status f) (Some (value ObligationStatus.PLANNED))) in
  _ ← raise_unless (is_value (A := ObligationStatus.ObligationStatus) status) StateConflictError;
  let ob := {| ob_id := uuid4 (next_id db); ob_legal_entity_id := of_legal_entity_id f;
     ob_license_id := of_license_id f; ob_bond_id := of_bond_id f;
     ob_jurisdiction_id := of_jurisdiction_id f; ob_type := of_type f; ob_title := of_title f;
     ob_status := status; ob_recurrence_rule := of_recurrence_rule f;
     ob_statutory_due_date := of_statutory_due_date f; ob_next_due_date := of_next_due_date f;
     ob_internal_start_date := of_internal_start_date f; ob_responsible_owner := of_responsible_owner f;
     ob_vendor_organization_id := of_vendor_organization_id f;
     ob_regulator_organization_id := of_regulator_organization_id f;
     ob_requirement_source_ids := of_requirement_source_ids f;
     ob_predecessor_obligation_id := of_predecessor_obligation_id f; ob_notes := of_notes f |} in
  Ok (ob, db_audit ("obligation_created", ob_id ob) (db_obligation ob (db_fresh db))).

Definition set_obligation_status (s : string) (ob : Obligation) : Obligation :=
  {| ob_id := ob_id ob; ob_legal_entity_id := ob_legal_entity_id ob; ob_license_id := ob_license_id ob;
     ob_bond_id := ob_bond_id ob; ob_jurisdiction_id := ob_jurisdiction_id ob; ob_type := ob_type ob;
     ob_title := ob_title ob; ob_status := s; ob_recurrence_rule := ob_recurrence_rule ob;
     ob_statutory_due_date := ob_statutory_due_date ob; ob_next_due_date := ob_next_due_date ob;
     ob_internal_start_date := ob_internal_start_date ob; ob_responsible_owner := ob_responsible_owner ob;
     ob_vendor_organization_id := ob_vendor_organization_id ob;
     ob_regulator_organization_id := ob_regulator_organization_id ob;
     ob_requirement_source_ids := ob_requirement_source_ids ob;
     ob_predecessor_obligation_id := ob_predecessor_obligation_id ob; ob_notes := ob_notes ob |}.

(** [date.replace(year=year + 1)], or 365 days later when that date does not exist. *)
Definition next_cycle (d : date) : result exn date :=
  match date_new (year d + 1) (month d) (day d) with
  | Ok n => Ok n
  | Err _ => date_add d 365
  end.

Definition create_next_obligation (oid : uuid) (next_due_date : option date) (db : CaseDb)
    : result exn (option Obligation * CaseDb) :=
  match obligations db !! oid with
  | None => Err NotFoundError
  | Some previous =>
      match ob_recurrence_rule previous with
      | None | Some [] => Ok (None, db)
      | Some _ =>
          if bool_decide (map_Exists (fun _ ob => ob_predecessor_obligation_id ob = Some oid) (obligations db))
          then Ok (None, db)
          else
            due ← match next_due_date, ob_next_due_date previous with
                  | Some d, _ => Ok (Some d)
                  | None, Some d => Some <$> next_cycle d
                  | None, None => Ok None
                  end;
            '(ob, db) ← create_obligation
              {| of_legal_entity_id := ob_legal_entity_id previous; of_license_id := ob_license_id previous;
                 of_bond_id := ob_bond_id previous; of_jurisdiction_id := ob_jurisdiction_id previous;
                 of_type := ob_type previous; of_title := ob_title previous;
                 of_status := Some (value ObligationStatus.PLANNED);
                 of_recurrence_rule := ob_recurrence_rule previous; of_statutory_due_date := None;
                 of_next_due_date := due; of_internal_start_date := None;
                 of_responsible_owner := ob_responsible_owner previous;
                 of_vendor_organization_id := ob_vendor_organization_id previous;
                 of_regulator_organization_id := ob_regulator_organization_id previous;
                 of_requirement_source_ids := ob_requirement_source_ids previous;
                 of_predecessor_obligation_id := Some oid; of_notes := None |} db;
            Ok (Some ob, db)
      end
  end.

(** The changes of an update: a field left out, or given (perhaps as null). *)
Record ObligationChanges := {
  oc_title : option (option string);
  oc_status : option (option string);
  oc_next_due_date : option (option date);
  oc_internal_start_date : option (option date);
  oc_responsible_owner : option (option string);
  oc_recurrence_rule : option (option (list (string * json)));
  oc_notes : option (option string)
}.

Definition update_obligation (oid : uuid) (ch : ObligationChanges) (db : CaseDb)
    : result exn (Obligation * CaseDb) :=
  match obligations db !! oid with
  | None => Err NotFoundError
  | Some ob =>
      _ ← raise_unless (match oc_status ch with
            | Some (Some s) => is_value (A := ObligationStatus.ObligationStatus) s
            | Some None => false | None => true end) StateConflictError;
      _ ← raise_unless (match oc_title ch with Some None => false | _ => true end) IntegrityError;
      let ob' := {| ob_id := ob_id ob; ob_legal_entity_id := ob_legal_entity_id ob;
         ob_license_id := ob_license_id ob; ob_bond_id := ob_bond_id ob;
         ob_jurisdiction_id := ob_jurisdiction_id ob; ob_type := ob_type ob;
         ob_title := default (ob_title ob) (oc_title ch ≫= fun x => x);
         ob_status := default (ob_status ob) (oc_status ch ≫= fun x => x);
         ob_recurrence_rule := default (ob_recurrence_rule ob) (oc_recurrence_rule ch);
         ob_statutory_due_date := ob_statutory_due_date ob;
         ob_next_due_date := default (ob_next_due_date ob) (oc_next_due_date ch);
         ob_internal_start_date := default (ob_internal_start_date ob) (oc_internal_start_date ch);
         ob_responsible_owner := default (ob_responsible_owner ob) (oc_responsible_owner ch);
         ob_vendor_organization_id := ob_vendor_organization_id ob;
         ob_regulator_organization_id := ob_regulator_organization_id ob;
         ob_requirement_source_ids := ob_requirement_source_ids ob;
         ob_predecessor_obligation_id := ob_predecessor_obligation_id ob;
         ob_notes := default (ob_notes ob) (oc_notes ch) |} in
      Ok (ob', db_audit ("obligation_updated", ob_id ob') (db_obligation ob' db))
  end.

(** ** Cases *)

Definition find_case (i : uuid) (db : CaseDb) : option ComplianceCase :=
  head (filter (fun c => case_id c = i) (cases db)).

Definition open_case_of (oid : uuid) (db : CaseDb) : option ComplianceCase :=
  head (filter (fun c => case_obligation_id c = oid /\ case_open c = true) (cases db)).

Definition or_date (a b : option date) : option date := match a with Some _ => a | None => b end.

Definition open_case (oid : uuid) (actor : option string) (assigned_owner priority : option string)
    (now : instant) (db : CaseDb) : result exn (ComplianceCase * CaseDb) :=
  match obligations db !! oid with
  | None => Err NotFoundError
  | Some ob =>
      match open_case_of oid db with
      | Some c => Ok (c, db)
      | None =>
          let prio := default (value CasePriority.NORMAL) (str_or priority (Some (value CasePriority.NORMAL))) in
          (* the check constraint on the priority column *)
          _ ← raise_unless (is_value (A := CasePriority.CasePriority) prio) IntegrityError;
          let c := {| case_id := uuid4 (next_id db); case_obligation_id := oid;
             case_legal_entity_id := ob_legal_entity_id ob; case_license_id := ob_license_id ob;
             case_bond_id := ob_bond_id ob;
             case_type := default (value CaseType.OTHER) (dget (ob_type ob) _CASE_TYPE_FOR_OBLIGATION);
             current_stage := initial_stage; case_status := value CaseStatus.OPEN; case_priority := prio;
             case_statutory_due_date := or_date (ob_statutory_due_date ob) (ob_next_due_date ob);
             internal_target_date := ob_internal_start_date ob;
             case_assigned_owner := str_or assigned_owner (ob_responsible_owner ob);
             case_vendor_organization_id := ob_vendor_organization_id ob;
             case_regulator_organization_id := ob_regulator_organization_id ob;
             primary_conversation_id := None; case_close_reason := None; blocked_reason := None;
             stage_entered_at := Some now; case_created_at := now; case_completed_at := None |} in
          let ev := {| se_case_id := case_id c; se_from_stage := None; se_to_stage := initial_stage;
             se_actor_id := default "licensing-worker" actor; se_reason := Some "Case opened.";
             se_evidence := [("obligation_id", JStr oid)]; se_seconds_in_previous_stage := None;
             se_occurred_at := now |} in
          let db := db_cases (cases db ++ [c]) (case_events db ++ [ev]) (S (next_id db)) db in
          let db := db_obligation (set_obligation_status (value ObligationStatus.IN_CASE) ob) db in
          Ok (c, db_audit ("case_opened", case_id c) db)
      end
  end.

Record CaseChanges := {
  cc_assigned_owner : option (option string);
  cc_priority : option (option string);
  cc_internal_target_date : option (option date);
  cc_vendor_organization_id : option (option uuid);
  cc_regulator_organization_id : option (option uuid);
  cc_primary_conversation_id : option (option string)
}.

Definition replace_case (c : ComplianceCase) (cs : list ComplianceCase) : list ComplianceCase :=
  (fun d => if bool_decide (case_id d = case_id c) then c else d) <$> cs.

Definition changed_case (c : ComplianceCase) (ch : CaseChanges) : ComplianceCase :=
  {| case_id := case_id c; case_obligation_id := case_obligation_id c;
     case_legal_entity_id := case_legal_entity_id c; case_license_id := case_license_id c;
     case_bond_id := case_bond_id c; case_type := case_type c; current_stage := current_stage c;
     case_status := case_status c;
     case_priority := default (case_priority c) (cc_priority ch ≫= fun x => x);
     case_statutory_due_date := case_statutory_due_date c;
     internal_target_date := default (internal_target_date c) (cc_internal_target_date ch);
     case_assigned_owner := default (case_assigned_owner c) (cc_assigned_owner ch);
     case_vendor_organization_id := default (case_vendor_organization_id c) (cc_vendor_organization_id ch);
     case_regulator_organization_id :=
       default (case_regulator_organization_id c) (cc_regulator_organization_id ch);
     primary_conversation_id := default (primary_conversation_id c) (cc_primary_conversation_id ch);
     case_close_reason := case_close_reason c; blocked_reason := blocked_reason c;
     stage_entered_at := stage_entered_at c; case_created_at := case_created_at c;
     case_completed_at := case_completed_at c |}.

Definition update_case (i : uuid) (ch : CaseChanges) (db : CaseDb) : result exn (ComplianceCase * CaseDb) :=
  match find_case i db with
  | None => Err NotFoundError
  | Some c =>
      _ ← raise_unless (match cc_priority ch with
            | Some (Some p) => is_value (A := CasePriority.CasePriority) p | _ => true end) StateConflictError;
      _ ← exists_or_raise (organizations db) (cc_vendor_organization_id ch ≫= fun x => x);
      _ ← exists_or_raise (organizations db) (cc_regulator_organization_id ch ≫= fun x => x);
      (* the priority column is not nullable *)
      _ ← raise_unless (match cc_priority ch with Some None => false | _ => true end) IntegrityError;
      let c' := changed_case c ch in
      Ok (c', db_audit ("case_updated", case_id c')
                (db_cases (replace_case c' (cases db)) (case_events db) (next_id db) db))
  end.

(** ** Stage moves *)

Definition case_forms (i : uuid) (db : CaseDb) : list FormRow := filter (fun f => fi_case_id f = i) (forms db).

Definition signature_required_of (fs : list FormRow) : bool := existsb fi_signature_required fs.
Definition signature_recorded_of (fs : list FormRow) : bool :=
  existsb (fun f => fi_signature_required f && truthy_opt (fi_signed_document_id f)) fs.

(** The approved packet of greatest version. *)
Definition approved_packet (i : uuid) (db : CaseDb) : option uuid :=
  match filter (fun p => pk_case_id p = i /\ pk_status p = "APPROVED") (packets db) with
  | [] => None
  | p :: ps => Some (pk_id (py_max_by pk_version p ps))
  end.

Definition renewed_recorded (i : uuid) (db : CaseDb) : bool :=
  existsb (fun e => bool_decide (se_case_id e = i) &&
                    bool_decide (se_to_stage e = value CaseStage.RENEWED_EVIDENCE_RECEIVED)) (case_events db).

(** The evidence the service adds from live data. *)
Definition packet_evidence (i : uuid) (to_stage : string) (db : CaseDb) (payload : list (string * json))
    : list (string * json) :=
  if bool_decide (to_stage ∈ value <$> [CaseStage.PACKET_APPROVED; CaseStage.PACKET_SENT]) &&
     negb (has_evidence payload "document_packet_id")
  then match approved_packet i db with
       | Some p => dset "document_packet_id" (JStr p) payload | None => payload end
  else payload.

Definition signed_evidence (to_stage : string) (fs : list FormRow) (payload : list (string * json))
    : list (string * json) :=
  if bool_decide (to_stage = value CaseStage.SIGNED_FORM_RECEIVED) &&
     negb (has_evidence payload "signed_document_id")
  then match head (omap fi_signed_document_id fs) with
       | Some d => dset "signed_document_id" (JStr d) payload | None => payload end
  else payload.

Definition moved_case (c : ComplianceCase) (to_stage : string) (status : option string)
    (reason close_reason : option string) (now : instant) : ComplianceCase :=
  {| case_id := case_id c; case_obligation_id := case_obligation_id c;
     case_legal_entity_id := case_legal_entity_id c; case_license_id := case_license_id c;
     case_bond_id := case_bond_id c; case_type := case_type c; current_stage := to_stage;
     case_status := default (case_status c) (str_or status (Some (case_status c)));
     case_priority := case_priority c; case_statutory_due_date := case_statutory_due_date c;
     internal_target_date := internal_target_date c; case_assigned_owner := case_assigned_owner c;
     case_vendor_organization_id := case_vendor_organization_id c;
     case_regulator_organization_id := case_regulator_organization_id c;
     primary_conversation_id := primary_conversation_id c;
     case_close_reason := if truthy_str close_reason then str_take 500 <$> close_reason else case_close_reason c;
     blocked_reason :=
       if bool_decide (to_stage = value CaseStage.BLOCKED)
       then Some (str_take 500 (default "Blocked" (str_or reason (Some "Blocked"))))
       else if bool_decide (current_stage c = value CaseStage.BLOCKED) then None else blocked_reason c;
     stage_entered_at := Some now; case_created_at := case_created_at c;
     case_completed_at := if bool_decide (to_stage = value CaseStage.COMPLETED) then Some now
                          else case_completed_at c |}.

(** [int((now - entered).total_seconds())]. *)
Definition seconds_between (now entered : instant) : Z := Z.quot (now - entered) 1000000.

Definition moved_event (c : ComplianceCase) (to_stage actor : string) (reason : option string)
    (payload : list (string * json)) (now : instant) : StageEvent :=
  {| se_case_id := case_id c; se_from_stage := Some (current_stage c); se_to_stage := to_stage;
     se_actor_id := actor; se_reason := reason; se_evidence := payload;
     se_seconds_in_previous_stage :=
       Some (seconds_between now (default (case_created_at c) (stage_entered_at c)));
     se_occurred_at := now |}.

Definition transition (i : uuid) (to_stage actor : string) (reason : option string)
    (evidence : list (string * json)) (close_reason : option string) (now : instant) (db : CaseDb)
    : result exn (ComplianceCase * CaseDb) :=
  match find_case i db with
  | None => Err NotFoundError
  | Some c =>
      let fs := case_forms i db in
      let has_renewed := has_evidence evidence "renewed_evidence_document_id" || renewed_recorded i db in
      let payload := signed_evidence to_stage fs (packet_evidence i to_stage db evidence) in
      let check := validate_transition (current_stage c) to_stage payload (signature_required_of fs)
                     (signature_recorded_of fs) has_renewed (str_or close_reason (case_close_reason c)) in
      _ ← raise_unless (allowed check) (InvalidStateTransitionError (missing_evidence check));
      let c' := moved_case c to_stage (resulting_status check) reason close_reason now in
      let ev := moved_event c to_stage actor reason payload now in
      let db := db_cases (replace_case c' (cases db)) (case_events db ++ [ev]) (next_id db) db in
      let db := if bool_decide (to_stage = value CaseStage.COMPLETED) then
                  match obligations db !! case_obligation_id c with
                  | Some ob => db_obligation (set_obligation_status (value ObligationStatus.SATISFIED) ob) db
                  | None => db end
                else db in
      Ok (c', db_audit ("case_stage_changed", i) db)
  end.

Definition available_transitions (i : uuid) (db : CaseDb) : result exn (list string) :=
  match find_case i db with Some c => Ok (next_stages (current_stage c)) | None => Err NotFoundError end.

(** ** Information requests *)

Definition create_information_request (i : uuid) (question : string) (definition : option uuid)
    (requested_from : option string) (due_at : option instant) (source_email : option uuid)
    (vendor_question : option string) (db : CaseDb) : result exn (InformationRequest * CaseDb) :=
  match find_case i db with
  | None => Err NotFoundError
  | Some c =>
      let r := {| ir_id := uuid4 (next_id db); ir_case_id := i; ir_definition_id := definition;
         ir_question_text := str_take 4000 question; ir_requested_from := requested_from;
         ir_status := if truthy_str requested_from
                      then value CaseInformationRequestStatus.REQUESTED
                      else value CaseInformationRequestStatus.OPEN;
         ir_due_at := due_at; ir_response_value_id := None; ir_source_email_id := source_email;
         ir_source_vendor_question := if truthy_str vendor_question then vendor_question else None;
         ir_provided_to_vendor_at := None; ir_resolution_note := None |} in
      let db := db_request r (db_fresh db) in
      let db := match requested_from with
                | Some a => if truthy_str requested_from then db_notify (a, ir_id r) db else db
                | None => db end in
      Ok (r, db_audit ("information_request_created", ir_id r) db)
  end.

Definition update_information_request (rid : uuid) (status requested_from : option string)
    (response_value : option uuid) (note : option string) (now : instant) (db : CaseDb)
    : result exn (InformationRequest * CaseDb) :=
  match requests db !! rid with
  | None => Err NotFoundError
  | Some r =>
      _ ← raise_unless (match status with
            | Some s => is_value (A := CaseInformationRequestStatus.CaseInformationRequestStatus) s
            | None => true end) StateConflictError;
      _ ← raise_unless (negb (bool_decide (status = Some (value CaseInformationRequestStatus.ANSWER_APPROVED)))
            || truthy_opt response_value || truthy_opt (ir_response_value_id r)) StateConflictError;
      let r' := {| ir_id := ir_id r; ir_case_id := ir_case_id r; ir_definition_id := ir_definition_id r;
         ir_question_text := ir_question_text r;
         ir_requested_from := match requested_from with Some _ => requested_from | None => ir_requested_from r end;
         ir_status := default (ir_status r) status; ir_due_at := ir_due_at r;
         ir_response_value_id := match response_value with Some _ => response_value
                                 | None => ir_response_value_id r end;
         ir_source_email_id := ir_source_email_id r;
         ir_source_vendor_question := ir_source_vendor_question r;
         ir_provided_to_vendor_at :=
           if bool_decide (status = Some (value CaseInformationRequestStatus.PROVIDED_TO_VENDOR))
           then Some now else ir_provided_to_vendor_at r;
         ir_resolution_note := match note with Some n => Some (str_take 2000 n)
                               | None => ir_resolution_note r end |} in
      Ok (r', db_audit ("information_request_updated", rid) (db_request r' db))
  end.


(** ** Reachable databases *)

Inductive step : CaseDb -> CaseDb -> Prop :=
| step_open oid actor owner prio now db c db' : open_case oid actor owner prio now db = Ok (c, db') -> step db db'
| step_transition i to actor reason ev close now db c db' :
    transition i to actor reason ev close now db = Ok (c, db') -> step db db'
| step_update_case i ch db c db' : update_case i ch db = Ok (c, db') -> step db db'
| step_create_obligation f db ob db' : create_obligation f db = Ok (ob, db') -> step db db'
| step_update_obligation oid ch db ob db' : update_obligation oid ch db = Ok (ob, db') -> step db db'
| step_next_obligation oid d db o db' : create_next_obligation oid d db = Ok (o, db') -> step db db'
| step_create_request i q def from due mail vq db r db' :
    create_information_request i q def from due mail vq db = Ok (r, db') -> step db db'
| step_update_request rid st from v n now db r db' :
    update_information_request rid st from v n now db = Ok (r, db') -> step db db'
| step_evidence fs ps db : step db (db_evidence fs ps db).

(** The events of one case, in order, and the stages it went through. *)
Definition history (i : uuid) (es : list StageEvent) : list StageEvent := filter (fun e => se_case_id e = i) es.
Definition stages_of (i : uuid) (es : list StageEvent) : list string := se_to_stage <$> history i es.

(** What holds of a case and its history. *)
Record case_ok (es : list StageEvent) (c : ComplianceCase) : Prop := {
  ok_start : head (stages_of (case_id c) es) = Some initial_stage;
  ok_path : is_path (stages_of (case_id c) es);
  ok_last : last (stages_of (case_id c) es) = Some (current_stage c);
  ok_status : dget (current_stage c) STAGE_STATUS = Some (case_status c);
  ok_evidence : forall e k, e ∈ history (case_id c) es -> k ∈ evidence_keys (se_to_stage e) ->
                  has_evidence (se_evidence e) k = true;
  ok_completed : is_Some (case_completed_at c) <-> current_stage c = value CaseStage.COMPLETED;
  ok_blocked : is_Some (blocked_reason c) <-> current_stage c = value CaseStage.BLOCKED
}.

Record db_inv (db : CaseDb) : Prop := {
  inv_ids : NoDup (case_id <$> cases db);
  inv_old : forall i, i ∈ case_id <$> cases db \/ i ∈ se_case_id <$> case_events db ->
              exists n, (n < next_id db)%nat /\ i = uuid4 n;
  inv_cases : forall c, c ∈ cases db -> case_ok (case_events db) c;
  inv_one_open : forall c d, c ∈ cases db -> d ∈ cases db -> case_open c = true -> case_open d = true ->
                   case_obligation_id c = case_obligation_id d -> c = d
}.

Lemma find_case_in i db c : find_case i db = Some c -> c ∈ cases db /\ case_id c = i.
Proof.
  unfold find_case. intros Hd. assert (c ∈ filter (fun c => case_id c = i) (cases db)) as Hin.
  { destruct (filter _ _); simplify_eq/=. left. }
  apply list_elem_of_filter in Hin. tauto.
Qed.

Lemma elem_of_replace c c' cs d :
  NoDup (case_id <$> cs) -> c ∈ cs -> case_id c' = case_id c ->
  d ∈ replace_case c' cs <-> d = c' \/ (d ∈ cs /\ case_id d <> case_id c).
Proof.
  intros Hnd Hc Hid. unfold replace_case. rewrite list_elem_of_fmap. split.
  - intros (x & -> & Hx). case_bool_decide as E; [by left | right; split; [done | congruence]].
  - intros [->|[Hd Hne]].
    + exists c. rewrite bool_decide_eq_true_2 by done. done.
    + exists d. rewrite bool_decide_eq_false_2 by congruence. done.
Qed.

Lemma replace_ids c' cs : case_id <$> replace_case c' cs = case_id <$> cs.
Proof.
  unfold replace_case. rewrite <-list_fmap_compose. apply list_fmap_ext. intros ? x _. simpl.
  by case_bool_decide.
Qed.

Lemma ids_inj cs c d : NoDup (case_id <$> cs) -> c ∈ cs -> d ∈ cs -> case_id c = case_id d -> c = d.
Proof.
  intros Hnd Hc Hd E. apply list_elem_of_lookup in Hc as [i Hi], Hd as [j Hj].
  assert (i = j) as ->; [|congruence].
  eapply (NoDup_lookup (case_id <$> cs) i j (case_id c)); [done | |]; rewrite list_lookup_fmap.
  - by rewrite Hi.
  - rewrite Hj. by rewrite E.
Qed.

Lemma is_path_snoc l b : is_path l -> (forall a, last l = Some a -> move a b) -> is_path (l ++ [b]).
Proof.
  induction l as [|a l IH]; intros Hp Hl; [done|].
  destruct l as [|a' l]; simpl in *; [split; [by apply Hl | done]|].
  destruct Hp as [Hm Hp]. split; [done|]. by apply IH.
Qed.

Lemma history_snoc i es e :
  history i (es ++ [e]) = history i es ++ if bool_decide (se_case_id e = i) then [e] else [].
Proof.
  unfold history. rewrite filter_app. f_equal. rewrite filter_cons, filter_nil.
  case_bool_decide; [by rewrite decide_True | by rewrite decide_False].
Qed.

(** A case whose events are untouched and whose stage fields are kept stays ok. *)
Lemma case_ok_other es e c : se_case_id e <> case_id c -> case_ok es c -> case_ok (es ++ [e]) c.
Proof.
  intros Hne [H1 H2 H3 H4 H5 H6 H7].
  assert (history (case_id c) (es ++ [e]) = history (case_id c) es) as E.
  { rewrite history_snoc, bool_decide_eq_false_2 by done. apply app_nil_r. }
  unfold stages_of in *. split; unfold stages_of; by rewrite ?E.
Qed.

(** Closed statuses belong to terminal stages. *)
Lemma closed_terminal s st :
  dget s STAGE_STATUS = Some st -> st ∈ CLOSED_STATUSES -> s ∈ TERMINAL_STAGES.
Proof.
  intros Hs%dget_in. revert Hs.
  assert (Forall (fun p : string * string => p.2 ∈ CLOSED_STATUSES -> p.1 ∈ TERMINAL_STAGES) STAGE_STATUS) as H.
  { apply (bool_decide_unpack _). vm_compute. exact I. }
  rewrite Forall_forall in H. intros Hs. exact (H (s, st) Hs).
Qed.

Lemma allowed_move from to payload sreq srec renewed close :
  allowed (validate_transition from to payload sreq srec renewed close) = true ->
  move from to /\ (forall k, k ∈ evidence_keys to -> has_evidence payload k = true) /\
  (sreq = true -> to ∈ _POST_SIGNATURE_STAGES -> srec = true) /\
  resulting_status (validate_transition from to payload sreq srec renewed close) = dget to STAGE_STATUS /\
  exists st, dget to STAGE_STATUS = Some st /\ st <> "".
Proof.
  intros Ha. destruct (check_facts from to payload sreq srec renewed close) as (H1 & H2 & _).
  apply H1 in Ha as H. destruct H as (Hm & He & Hs & _). destruct (H2 Ha) as [Hr [st Hst]].
  split_and!; [done..|]. exists st. rewrite Hr in Hst. split; [done|]. apply dget_in in Hst.
  assert (Forall (fun p : string * string => p.2 <> "") STAGE_STATUS) as Hf
    by (apply (bool_decide_unpack _); vm_compute; exact I).
  rewrite Forall_forall in Hf. exact (Hf _ Hst).
Qed.

(** ** Preservation *)

(** Steps that leave cases and events alone. *)
Lemma inv_same db db' :
  cases db' = cases db -> case_events db' = case_events db -> (next_id db <= next_id db')%nat ->
  db_inv db -> db_inv db'.
Proof.
  intros E1 E2 Hn [H1 H2 H3 H4]. split; rewrite ?E1, ?E2; try done.
  intros i Hi. destruct (H2 i Hi) as (n & ? & ?). exists n. split; [lia | done].
Qed.

Context `{!Inj (=) (=) uuid4}.

Lemma open_case_inv oid actor owner prio now db c db' :
  db_inv db -> open_case oid actor owner prio now db = Ok (c, db') -> db_inv db'.
Proof.
  intros Hinv. unfold open_case. destruct (obligations db !! oid) as [ob|]; [|discriminate].
  destruct (open_case_of oid db) as [c0|] eqn:Eo; [by intros [= <- <-]|].
  intros Hr. apply bind_Ok_inv in Hr as ([] & _ & Hr). injection Hr as <- <-.
  destruct Hinv as [H1 H2 H3 H4].
  assert (forall i, i ∈ case_id <$> cases db \/ i ∈ se_case_id <$> case_events db -> i <> uuid4 (next_id db)) as Hfresh.
  { intros i Hi ->. destruct (H2 _ Hi) as (n & Hlt & E). apply (inj uuid4) in E. lia. }
  set (c := {| case_id := uuid4 (next_id db) |}). set (ev := {| se_case_id := _ |}).
  split; cbn [db_audit db_obligation db_cases cases case_events next_id].
  - rewrite fmap_app. apply NoDup_app. split_and!; [done | | apply NoDup_singleton].
    intros i Hi ->%list_elem_of_singleton. eapply Hfresh; [by left | done].
  - intros i. rewrite !fmap_app, !elem_of_app. intros Hi.
    assert ((i ∈ case_id <$> cases db \/ i ∈ se_case_id <$> case_events db) \/ i = uuid4 (next_id db)) as [Hi' | ->].
    { destruct Hi as [[?|Hi]|[?|Hi]]; auto; apply list_elem_of_singleton in Hi; auto. }
    + destruct (H2 i Hi') as (n & ? & ?). exists n. split; [lia | done].
    + exists (next_id db). split; [lia | done].
  - intros d [Hd | ->%list_elem_of_singleton]%elem_of_app.
    + apply case_ok_other; [|by apply H3]. simpl. intros E.
      eapply Hfresh; [left; by apply list_elem_of_fmap_2 | by symmetry].
    + assert (history (uuid4 (next_id db)) (case_events db) = []) as Eh.
      { apply filter_none. intros e He Ee. eapply Hfresh; [right; by apply list_elem_of_fmap_2 | done]. }
      assert (history (uuid4 (next_id db)) (case_events db ++ [ev]) = [ev]) as Eh2.
      { rewrite history_snoc, Eh, bool_decide_eq_true_2 by done. done. }
      split; unfold stages_of; cbn [case_id c]; rewrite ?Eh2; try done.
      * intros e k ->%list_elem_of_singleton Hk. by apply not_elem_of_nil in Hk.
      * split; [by intros [? ?] | done].
      * split; [by intros [? ?] | done].
  - assert (forall d, d ∈ cases db -> case_open d = true -> case_obligation_id d = oid -> False) as Hno.
    { intros d Hd Hopen Ho. unfold open_case_of in Eo. apply head_None in Eo.
      by eapply (filter_nil_not_elem_of _ _ d Eo). }
    intros d e [Hd | ->%list_elem_of_singleton]%elem_of_app [He | ->%list_elem_of_singleton]%elem_of_app Hod Hoe Ho.
    + by apply H4.
    + exfalso. by eapply (Hno d).
    + exfalso. by eapply (Hno e).
    + done.
Qed.

(** Replacing a case by one with the same identity and stage fields. *)
Lemma update_case_inv i ch db c db' : db_inv db -> update_case i ch db = Ok (c, db') -> db_inv db'.
Proof.
  intros [H1 H2 H3 H4]. unfold update_case. destruct (find_case i db) as [c0|] eqn:Ef; [|discriminate].
  intros Hr. do 4 (apply bind_Ok_inv in Hr as ([] & _ & Hr)). injection Hr as <- <-.
  apply find_case_in in Ef as [Hc0 <-].
  assert (forall d, d ∈ replace_case (changed_case c0 ch) (cases db) <->
            d = changed_case c0 ch \/ (d ∈ cases db /\ case_id d <> case_id c0)) as Hrep
    by (intros; by apply elem_of_replace).
  split; cbn [db_audit db_cases cases case_events next_id].
  - by rewrite replace_ids.
  - intros j. rewrite replace_ids. apply H2.
  - intros d [->|[Hd _]]%Hrep; [|by apply H3]. destruct (H3 c0 Hc0). by split.
  - intros d e [->|[Hd Hdn]]%Hrep [->|[He Hen]]%Hrep Hod Hoe Ho; [done | | |by apply H4].
    + exfalso. apply Hen. f_equal. symmetry. by apply H4.
    + exfalso. apply Hdn. f_equal. by apply H4.
Qed.

(** The status a move gives and what it does to the case. *)
Lemma moved_facts c to st reason close now :
  dget to STAGE_STATUS = Some st -> st <> "" ->
  let c' := moved_case c to (dget to STAGE_STATUS) reason close now in
  case_id c' = case_id c /\ case_obligation_id c' = case_obligation_id c /\
  current_stage c' = to /\ case_status c' = st.
Proof.
  intros -> Hne. cbv zeta. split_and!; try done. unfold moved_case. cbn [case_status].
  unfold str_or, truthy_str. by rewrite bool_decide_eq_false_2.
Qed.

Lemma transition_Ok i to actor reason ev close now db c' db' :
  transition i to actor reason ev close now db = Ok (c', db') ->
  exists c e, c ∈ cases db /\ case_id c = i /\ se_case_id e = i /\ se_to_stage e = to /\
    se_from_stage e = Some (current_stage c) /\ move (current_stage c) to /\
    (forall k, k ∈ evidence_keys to -> has_evidence (se_evidence e) k = true) /\
    (signature_required_of (case_forms i db) = true -> to ∈ _POST_SIGNATURE_STAGES ->
       signature_recorded_of (case_forms i db) = true) /\
    c' = moved_case c to (dget to STAGE_STATUS) reason close now /\
    (exists st, dget to STAGE_STATUS = Some st /\ st <> "") /\
    cases db' = replace_case c' (cases db) /\ case_events db' = case_events db ++ [e] /\ next_id db' = next_id db /\
    obligations db' =
      if bool_decide (to = value CaseStage.COMPLETED) then
        match obligations db !! case_obligation_id c with
        | Some ob => <[ob_id ob := set_obligation_status (value ObligationStatus.SATISFIED) ob]> (obligations db)
        | None => obligations db end
      else obligations db.
Proof.
  unfold transition. destruct (find_case i db) as [c|] eqn:Ef; [|discriminate].
  apply find_case_in in Ef as [Hc Hi]. intros Hr. apply bind_Ok_inv in Hr as ([] & Ha%raise_unless_Ok & Hr).
  apply allowed_move in Ha as (Hm & He & Hs & Hst & Hst2). rewrite Hst in Hr. apply Ok_pair_inj in Hr as [<- <-].
  eexists c, (moved_event c to actor reason _ now). split; [exact Hc|]. split; [exact Hi|]. split; [exact Hi|]. split; [reflexivity|].
  split; [reflexivity|]. split; [exact Hm|]. split; [exact He|]. split; [exact Hs|]. split; [reflexivity|].
  split; [exact Hst2|].
  cbn [db_cases obligations].
  destruct (bool_decide (to = value CaseStage.COMPLETED)); [destruct (obligations db !! case_obligation_id c)|];
    (split; [reflexivity|]; split; [reflexivity|]; split; reflexivity).
Qed.

Lemma transition_inv i to actor reason ev close now db c' db' :
  db_inv db -> transition i to actor reason ev close now db = Ok (c', db') -> db_inv db'.
Proof.
  intros [H1 H2 H3 H4] (c & e & Hc & <- & Hei & Het & _ & Hm & Hev & _ & -> & (st & Hst & Hne) & Ecs & Ees & En & _)%transition_Ok.
  pose proof (moved_facts c to st reason close now Hst Hne) as (Hid & Hob & Hcs & Hstat).
  set (c' := moved_case c to (dget to STAGE_STATUS) reason close now) in *.
  assert (forall d, d ∈ cases db' <-> d = c' \/ (d ∈ cases db /\ case_id d <> case_id c)) as Hrep
    by (intros; rewrite Ecs; by apply elem_of_replace).
  destruct (H3 c Hc) as [K1 K2 K3 K4 K5 K6 K7].
  assert (history (case_id c) (case_events db') = history (case_id c) (case_events db) ++ [e]) as Eh.
  { rewrite Ees, history_snoc. by rewrite bool_decide_eq_true_2. }
  split.
  - by rewrite Ecs, replace_ids.
  - intros j. rewrite Ecs, replace_ids, Ees, fmap_app, elem_of_app, En. intros [Hj|[Hj|Hj]]; [by apply H2; left | by apply H2; right |].
    apply list_elem_of_singleton in Hj as ->. rewrite Hei. apply H2. left. by apply list_elem_of_fmap_2.
  - intros d [->|[Hd Hdn]]%Hrep.
    2: { rewrite Ees. apply case_ok_other; [by rewrite Hei | by apply H3]. }
    unfold stages_of in *. split; unfold stages_of; rewrite ?Hid, ?Eh, ?fmap_app, ?Hcs, ?Hstat.
    + destruct (se_to_stage <$> history (case_id c) (case_events db)); simplify_eq/=; done.
    + apply is_path_snoc; [done|]. intros a Ha. rewrite K3 in Ha. injection Ha as <-. by rewrite Het.
    + simpl. rewrite last_snoc. by rewrite Het.
    + done.
    + intros x k [Hx | ->%list_elem_of_singleton]%elem_of_app Hk; [by apply (K5 x) | rewrite Het in Hk; by apply Hev].
    + unfold c', moved_case. cbn [case_completed_at]. case_bool_decide as Ec; [split; [done | by eexists]|].
      rewrite K6. split; [|done]. intros Ecur. exfalso. unfold move in Hm. rewrite terminal_targets in Hm.
      * by apply not_elem_of_nil in Hm.
      * rewrite Ecur. left.
    + unfold c', moved_case. cbn [blocked_reason]. case_bool_decide as Eb; [split; [done | by eexists]|].
      case_bool_decide as Eb2; [split; [by intros [? ?] | done]|]. rewrite K7. split; done.
  - assert (case_open c = true) as Hopen.
    { unfold case_open. apply bool_decide_eq_true. intros Hcl. pose proof (closed_terminal _ _ K4 Hcl) as Ht.
      unfold move in Hm. rewrite terminal_targets in Hm by done. by apply not_elem_of_nil in Hm. }
    intros d x [->|[Hd Hdn]]%Hrep [->|[Hx Hxn]]%Hrep Hod Hox Ho; [done | | |by apply H4].
    + exfalso. apply Hxn. f_equal. symmetry. apply H4; first [done | by rewrite <-Hob].
    + exfalso. apply Hdn. f_equal. apply H4; first [done | by rewrite <-Hob].
Qed.

Lemma create_obligation_same f db ob db' :
  create_obligation f db = Ok (ob, db') ->
  cases db' = cases db /\ case_events db' = case_events db /\ (next_id db <= next_id db')%nat.
Proof.
  unfold create_obligation. intros Hr. do 3 (apply bind_Ok_inv in Hr as ([] & _ & Hr)). injection Hr as <- <-.
  simpl. split_and!; [done | done | lia].
Qed.

Lemma step_same db db' :
  step db db' ->
  (exists oid actor owner prio now c, open_case oid actor owner prio now db = Ok (c, db')) \/
  (exists i to actor reason ev close now c, transition i to actor reason ev close now db = Ok (c, db')) \/
  (exists i ch c, update_case i ch db = Ok (c, db')) \/
  (cases db' = cases db /\ case_events db' = case_events db /\ (next_id db <= next_id db')%nat).
Proof.
  destruct 1 as [oid actor owner prio now db c db' Hs|i to actor reason ev close now db c db' Hs|i ch db c db' Hs
    |f db ob db' Hs|oid ch db ob db' Hs|oid d db o db' Hs|i q def from due mail vq db r db' Hs
    |rid st from v n now db r db' Hs|fs ps db].
  - left. by do 6 eexists.
  - right; left. by do 8 eexists.
  - right; right; left. by do 3 eexists.
  - right; right; right. by eapply create_obligation_same.
  - right; right; right. unfold update_obligation in Hs. destruct (obligations db !! oid); [|discriminate].
    do 2 (apply bind_Ok_inv in Hs as ([] & _ & Hs)). apply Ok_pair_inj in Hs as [<- <-]. by split_and!.
  - right; right; right. unfold create_next_obligation in Hs.
    destruct (obligations db !! oid) as [ob|]; [|discriminate].
    destruct (ob_recurrence_rule ob) as [[|? ?]|];
      [by apply Ok_pair_inj in Hs as [<- <-]| |by apply Ok_pair_inj in Hs as [<- <-]].
    case_bool_decide; [by apply Ok_pair_inj in Hs as [<- <-]|]. apply bind_Ok_inv in Hs as (due & _ & Hs).
    apply bind_Ok_inv in Hs as ([ob2 db2] & Hc & Hs). apply Ok_pair_inj in Hs as [<- <-].
    by eapply create_obligation_same.
  - right; right; right. unfold create_information_request in Hs. destruct (find_case i db); [|discriminate].
    apply Ok_pair_inj in Hs as [<- <-].
    destruct from as [a|]; try (destruct (truthy_str (Some a))); simpl; split_and!; done || lia.
  - right; right; right. unfold update_information_request in Hs. destruct (requests db !! rid); [|discriminate].
    do 2 (apply bind_Ok_inv in Hs as ([] & _ & Hs)). apply Ok_pair_inj in Hs as [<- <-]. by split_and!.
  - right; right; right. by split_and!.
Qed.

Lemma step_inv db db' : step db db' -> db_inv db -> db_inv db'.
Proof.
  intros Hs Hinv. destruct (step_same db db' Hs) as [(?&?&?&?&?&?&?)|[(?&?&?&?&?&?&?&?&?)|[(?&?&?&?)|(?&?&?)]]].
  - by eapply open_case_inv.
  - by eapply transition_inv.
  - by eapply update_case_inv.
  - by eapply inv_same.
Qed.

Lemma rtc_inv db db' : rtc step db db' -> db_inv db -> db_inv db'.
Proof. induction 1; [done|]. eauto using step_inv. Qed.

Lemma no_cases_inv db : cases db = [] -> case_events db = [] -> db_inv db.
Proof.
  intros Ec Ee. split; rewrite ?Ec, ?Ee; [apply NoDup_nil_2 | | |]; set_solver.
Qed.

(** ** What the reachable databases satisfy *)

(** C18. Whatever sequence of service calls is made from a database without cases,
    case identifiers are unique, an obligation has at most one open case, and every
    case agrees with its own history: the history starts at the opening stage, moves
    only along the matrix, ends at the case's stage; the status is the stage's; every
    recorded event carries the evidence its stage asks for; the completion time and
    the blocked reason are set exactly at their stages. *)
Theorem reachable_cases_well_formed db0 db :
  cases db0 = [] -> case_events db0 = [] -> rtc step db0 db ->
  NoDup (case_id <$> cases db) /\
  (forall c d, c ∈ cases db -> d ∈ cases db -> case_open c = true -> case_open d = true ->
     case_obligation_id c = case_obligation_id d -> c = d) /\
  (forall c, c ∈ cases db -> case_ok (case_events db) c).
Proof. intros Hc He Hr. by destruct (rtc_inv db0 db Hr (no_cases_inv db0 Hc He)). Qed.

(** C1. A case is never completed without the renewed evidence on record: in every
    reachable database a completed case has status COMPLETED, a completion time, and
    a recorded move of its own into RENEWED_EVIDENCE_RECEIVED whose evidence names
    the renewed document.  No close reason stands in for it. *)
Theorem completed_case_has_renewed_evidence db0 db c :
  cases db0 = [] -> case_events db0 = [] -> rtc step db0 db ->
  c ∈ cases db -> current_stage c = value CaseStage.COMPLETED ->
  case_status c = value CaseStatus.COMPLETED /\ is_Some (case_completed_at c) /\
  exists e, e ∈ case_events db /\ se_case_id e = case_id c /\
    se_to_stage e = value CaseStage.RENEWED_EVIDENCE_RECEIVED /\
    has_evidence (se_evidence e) "renewed_evidence_document_id" = true.
Proof.
  intros Hc0 He0 Hr Hc Hst. destruct (rtc_inv db0 db Hr (no_cases_inv db0 Hc0 He0)) as [_ _ Hok _].
  destruct (Hok c Hc) as [K1 K2 K3 K4 K5 K6 _]. split; [|split].
  - rewrite Hst in K4. change (Some (value CaseStatus.COMPLETED) = Some (case_status c)) in K4. congruence.
  - by apply K6.
  - assert (value CaseStage.RENEWED_EVIDENCE_RECEIVED ∈ stages_of (case_id c) (case_events db)) as Hin.
    { apply (control_point _ _ ltac:(left) K2 K1). rewrite <-Hst. apply last_Some_elem_of, K3. }
    apply list_elem_of_fmap in Hin as (e & Het & He). exists e. pose proof He as [Hid Hin]%list_elem_of_filter.
    split_and!; [done..|]. apply K5; [done|]. rewrite <-Het. left.
Qed.

(** A move is a refinement of the stage check. *)

(** C19. A stage move succeeds exactly when the case exists and the matrix, the
    evidence (given by the caller or added from the live packet and form rows), the
    recorded signatures and the completion rule allow it.  When it does, the case
    alone is replaced, one event is appended that links the old stage to the new one,
    and the obligation becomes SATISFIED if the case is now completed and is left
    alone otherwise; when it does not, the case is missing or the move is refused
    with the missing evidence. *)
Theorem transition_spec i to actor reason ev close now db :
  match find_case i db with
  | None => transition i to actor reason ev close now db = Err NotFoundError
  | Some c =>
      let fs := case_forms i db in
      let payload := signed_evidence to fs (packet_evidence i to db ev) in
      let ok := to ∈ targets (current_stage c) /\
        (forall k, k ∈ evidence_keys to -> has_evidence payload k = true) /\
        (signature_required_of fs = true -> to ∈ _POST_SIGNATURE_STAGES -> signature_recorded_of fs = true) /\
        (to = value CaseStage.COMPLETED ->
           has_evidence ev "renewed_evidence_document_id" || renewed_recorded i db = true \/
           truthy_str (str_or close (case_close_reason c)) = true) in
      (ok -> exists c' db',
         transition i to actor reason ev close now db = Ok (c', db') /\
         case_id c' = i /\ current_stage c' = to /\ dget to STAGE_STATUS = Some (case_status c') /\
         cases db' = replace_case c' (cases db) /\
         (exists e, case_events db' = case_events db ++ [e] /\ se_case_id e = i /\
            se_from_stage e = Some (current_stage c) /\ se_to_stage e = to /\ se_evidence e = payload) /\
         obligations db' =
           if bool_decide (to = value CaseStage.COMPLETED) then
             match obligations db !! case_obligation_id c with
             | Some ob => <[ob_id ob := set_obligation_status (value ObligationStatus.SATISFIED) ob]> (obligations db)
             | None => obligations db end
           else obligations db) /\
      (~ ok -> exists missing, transition i to actor reason ev close now db = Err (InvalidStateTransitionError missing))
  end.
Proof.
  unfold transition. destruct (find_case i db) as [c|] eqn:Ef; [|done].
  apply find_case_in in Ef as [_ Hid]. cbv zeta.
  match goal with |- context [raise_unless (allowed ?k)] => set (chk := k) end.
  destruct (check_facts (current_stage c) to
    (signed_evidence to (case_forms i db) (packet_evidence i to db ev))
    (signature_required_of (case_forms i db)) (signature_recorded_of (case_forms i db))
    (has_evidence ev "renewed_evidence_document_id" || renewed_recorded i db)
    (str_or close (case_close_reason c))) as (H1 & H2 & _). fold chk in H1, H2.
  destruct (allowed chk) eqn:Ea; [|].
  - split; [|intros Hn; by destruct Hn; apply H1]. intros _. destruct (H2 eq_refl) as [Hr [st Hst]].
    rewrite Hr in *. assert (st <> "") as Hne.
    { apply dget_in in Hst.
      assert (Forall (fun p : string * string => p.2 <> "") STAGE_STATUS) as Hf
        by (apply (bool_decide_unpack _); vm_compute; exact I).
      rewrite Forall_forall in Hf. exact (Hf _ Hst). }
    pose proof (moved_facts c to st reason close now Hst Hne) as (Hi & _ & Hc & Hs).
    eexists _, _. split; [reflexivity|]. rewrite Hi, Hc, Hs. split; [done|]. split; [done|]. split; [done|].
    cbn [db_audit db_cases cases case_events obligations].
    destruct (bool_decide (to = value CaseStage.COMPLETED)); [destruct (obligations db !! case_obligation_id c)|];
      (split; [reflexivity|]; split; [eexists; split; [reflexivity|]; split_and!; done | reflexivity]).
  - split; [intros Hok; exfalso; apply H1 in Hok; done|]. intros _. eexists. reflexivity.
Qed.

(** ** Repeated calls *)

(** Opening a case is idempotent: once it has succeeded, opening a case for the
    same obligation again, by anyone and at any time, returns that same open case and
    changes nothing. *)
Theorem open_case_idempotent oid actor owner prio now db c db' :
  open_case oid actor owner prio now db = Ok (c, db') ->
  case_open c = true /\ case_obligation_id c = oid /\
  forall actor2 owner2 prio2 now2, open_case oid actor2 owner2 prio2 now2 db' = Ok (c, db').
Proof.
  unfold open_case at 1. destruct (obligations db !! oid) as [ob|] eqn:Eob; [|discriminate].
  destruct (open_case_of oid db) as [c0|] eqn:Eo.
  - intros [<- <-]%Ok_pair_inj.
    assert (c0 ∈ filter (fun c => case_obligation_id c = oid /\ case_open c = true) (cases db)) as Hin.
    { unfold open_case_of in Eo. destruct (filter _ _); simplify_eq/=. left. }
    apply list_elem_of_filter in Hin as [[? ?] _]. split_and!; [done..|].
    intros. unfold open_case. by rewrite Eob, Eo.
  - intros Hr. apply bind_Ok_inv in Hr as ([] & _ & Hr). apply Ok_pair_inj in Hr as [<- <-].
    set (nc := {| case_id := uuid4 (next_id db) |}).
    assert (case_obligation_id nc = oid /\ case_open nc = true) as Hnc by done. clearbody nc.
    split_and!; [apply Hnc | apply Hnc|]. intros. unfold open_case.
    cbn [db_audit db_obligation db_cases obligations].
    match goal with |- context [open_case_of oid ?d] => set (db2 := d) end.
    assert (is_Some (<[ob_id (set_obligation_status (value ObligationStatus.IN_CASE) ob) :=
              set_obligation_status (value ObligationStatus.IN_CASE) ob]> (obligations db) !! oid)) as [ob2 E2].
    { rewrite lookup_insert_is_Some'. right. by eexists. }
    rewrite E2. assert (open_case_of oid db2 = Some nc) as ->; [|done].
    unfold open_case_of in Eo |- *. apply head_None in Eo. subst db2. cbn [db_audit db_obligation db_cases cases].
    by rewrite filter_app, Eo, filter_cons, filter_nil, decide_True.
Qed.

(** [date.replace(year=year + 1)] is the same day next year, and 28 February after a
    29 February. *)
Lemma next_cycle_spec d n :
  date_ok d -> next_cycle d = Ok n ->
  year n = year d + 1 /\ month n = month d /\
  (day n = day d \/ (day d = 29 /\ month d = 2 /\ day n = 28)).
Proof.
  intros Hd. unfold next_cycle. pose proof (ymd_ok_of_date d) as Hok.
  destruct (date_new (year d + 1) (month d) (day d)) as [n'|] eqn:En.
  - intros [= <-]. apply date_new_Ok in En as (Hy & Hymd & ->).
    rewrite year_ymd, month_ymd, day_ymd by done. auto.
  - intros (Hr & ->)%date_add_Ok. pose proof (ymd_of_date d) as Ed.
    pose proof (days_before_year_succ (year d)) as Hs. pose proof (leap_day_bounds (year d)) as Hl.
    assert (1 <= year d <= 9998) as Hy.
    { pose proof (year_mono 1 d (proj1 Hd)) as Hy1. change (year 1) with 1 in Hy1. split; [done|].
      pose proof (year_spec d) as Hy2.
      destruct (Z_le_gt_dec (year d) 9998); [done|]. exfalso.
      pose proof (days_before_year_mono 9999 (year d)) as Hm.
      change (days_before_year 9999) with 3651694 in Hm. destruct Hr. unfold MAXORDINAL in *. lia. }
    assert (month d = 2 /\ day d = 29 /\ leap_day (year d) = 1) as (Em & Edd & El).
    { destruct Hok as [Hm [Hd1 Hd2]].
      assert (~ day d <= days_in_month (year d + 1) (month d)) as Hno.
      { intros Hle. enough (date_new (year d + 1) (month d) (day d) = Ok (ymd2ord (year d + 1) (month d) (day d)))
          by congruence. apply date_new_Ok. unfold ymd_ok. split_and!; lia || done. }
      unfold days_in_month in Hd2, Hno. pose proof (leap_day_bounds (year d + 1)).
      destruct (Z.eqb_spec (month d) 2); [lia|]. destruct ((_ =? 4) || _ || _ || _); lia. }
    assert (ymd_ok (year d + 1) 2 28) as Hn.
    { unfold ymd_ok, days_in_month. pose proof (leap_day_bounds (year d + 1)). split; [lia|]. simpl. lia. }
    assert (d + 365 = ymd2ord (year d + 1) 2 28) as ->.
    { unfold ymd2ord in *. rewrite Em, Edd in Ed. change (days_before_month ?y 2) with 31 in *. lia. }
    rewrite year_ymd, month_ymd, day_ymd by done. split_and!; [lia..|]. right. by split_and!.
Qed.

(** A recurring obligation is rolled forward at most once: when a successor is
    created it is PLANNED, points to its predecessor, keeps its links and rule, and
    is due on the given date or else on the same day one year later (28 February
    after a 29 February); asking again then creates nothing and changes nothing. *)
Theorem next_obligation_once oid due db nob db' :
  (forall i ob, obligations db !! i = Some ob -> ob_id ob = i) ->
  (forall i, is_Some (obligations db !! i) -> i <> uuid4 (next_id db)) ->
  create_next_obligation oid due db = Ok (Some nob, db') ->
  exists ob, obligations db !! oid = Some ob /\ obligations db !! ob_id nob = None /\
    obligations db' = <[ob_id nob := nob]> (obligations db) /\
    ob_status nob = value ObligationStatus.PLANNED /\ ob_predecessor_obligation_id nob = Some oid /\
    ob_legal_entity_id nob = ob_legal_entity_id ob /\ ob_license_id nob = ob_license_id ob /\
    ob_type nob = ob_type ob /\ ob_recurrence_rule nob = ob_recurrence_rule ob /\
    (due = None -> forall d, ob_next_due_date ob = Some d -> date_ok d ->
       exists n, ob_next_due_date nob = Some n /\ year n = year d + 1 /\ month n = month d /\
         (day n = day d \/ (day d = 29 /\ month d = 2 /\ day n = 28))) /\
    (is_Some due -> ob_next_due_date nob = due) /\
    forall due2, create_next_obligation oid due2 db' = Ok (None, db').
Proof.
  intros Hkeys Hfresh. unfold create_next_obligation at 1.
  destruct (obligations db !! oid) as [ob|] eqn:Eob; [|discriminate].
  destruct (ob_recurrence_rule ob) as [[|r rs]|] eqn:Er; [by intros [=] | | by intros [=]].
  destruct (bool_decide _); [by intros [=]|]. intros Hr.
  apply bind_Ok_inv in Hr as (nd & Hnd & Hr). apply bind_Ok_inv in Hr as ([ob2 db2] & Hc & Hr).
  apply Ok_pair_inj in Hr as [Hob <-]. injection Hob as ->. unfold create_obligation in Hc.
  do 3 (apply bind_Ok_inv in Hc as ([] & _ & Hc)). apply Ok_pair_inj in Hc as [<- <-].
  set (nob := {| ob_id := uuid4 (next_id db) |}).
  assert (obligations db !! uuid4 (next_id db) = None) as Hnone.
  { apply eq_None_not_Some. intros H. by apply (Hfresh _ H). }
  assert (oid <> uuid4 (next_id db)) as Hne by (apply Hfresh; by eexists).
  exists ob. cbn [db_audit db_obligation db_fresh obligations].
  split_and!; try done.
  - intros ->. intros d Hd Hok. rewrite Hd in Hnd. destruct (next_cycle d) as [n|] eqn:Hn; [|discriminate].
    injection Hnd as <-. exists n. split; [done|]. by apply next_cycle_spec.
  - intros [x ->]. by injection Hnd as <-.
  - intros due2. unfold create_next_obligation. cbn [db_audit db_obligation db_fresh obligations].
    rewrite lookup_insert_ne, Eob, Er by (simpl; congruence).
    rewrite bool_decide_eq_true_2; [done|]. exists (ob_id nob), nob. by rewrite lookup_insert_eq.
Qed.

(** An approved answer refers to a value. *)
Definition answers_backed (db : CaseDb) : Prop :=
  forall i r, requests db !! i = Some r ->
    ir_status r = value CaseInformationRequestStatus.ANSWER_APPROVED -> is_Some (ir_response_value_id r).

(** Steps that leave the requests alone. *)
Lemma step_requests db db' :
  step db db' ->
  requests db' = requests db \/
  (exists i q def from due mail vq r, create_information_request i q def from due mail vq db = Ok (r, db')) \/
  (exists rid st from v n now r, update_information_request rid st from v n now db = Ok (r, db')).
Proof.
  assert (forall f (db : CaseDb) ob db', create_obligation f db = Ok (ob, db') -> requests db' = requests db) as Hcr.
  { intros f d ob d' Hr. unfold create_obligation in Hr. do 3 (apply bind_Ok_inv in Hr as ([] & _ & Hr)).
    by apply Ok_pair_inj in Hr as [<- <-]. }
  destruct 1 as [oid actor owner prio now db c db' Hs|i to actor reason ev close now db c db' Hs|i ch db c db' Hs
    |f db ob db' Hs|oid ch db ob db' Hs|oid d db o db' Hs|i q def from due mail vq db r db' Hs
    |rid st from v n now db r db' Hs|fs ps db]; [left..| |right;right|by left].
  - unfold open_case in Hs. destruct (obligations db !! oid); [|discriminate].
    destruct (open_case_of oid db); [by apply Ok_pair_inj in Hs as [<- <-]|].
    apply bind_Ok_inv in Hs as ([] & _ & Hs). by apply Ok_pair_inj in Hs as [<- <-].
  - unfold transition in Hs. destruct (find_case i db) as [c0|]; [|discriminate].
    apply bind_Ok_inv in Hs as ([] & _ & Hs). apply Ok_pair_inj in Hs as [<- <-].
    destruct (bool_decide (to = _)); [|done].
    by match goal with |- context [match ?x with Some _ => _ | None => _ end] => destruct x end.
  - unfold update_case in Hs. destruct (find_case i db); [|discriminate].
    do 4 (apply bind_Ok_inv in Hs as ([] & _ & Hs)). by apply Ok_pair_inj in Hs as [<- <-].
  - by eapply Hcr.
  - unfold update_obligation in Hs. destruct (obligations db !! oid); [|discriminate].
    do 2 (apply bind_Ok_inv in Hs as ([] & _ & Hs)). by apply Ok_pair_inj in Hs as [<- <-].
  - unfold create_next_obligation in Hs. destruct (obligations db !! oid) as [ob|]; [|discriminate].
    destruct (ob_recurrence_rule ob) as [[|? ?]|];
      [by apply Ok_pair_inj in Hs as [<- <-]| |by apply Ok_pair_inj in Hs as [<- <-]].
    case_bool_decide; [by apply Ok_pair_inj in Hs as [<- <-]|]. apply bind_Ok_inv in Hs as (due & _ & Hs).
    apply bind_Ok_inv in Hs as ([ob2 db2] & Hc & Hs). apply Ok_pair_inj in Hs as [<- <-]. by eapply Hcr.
  - right; left. by do 8 eexists.
  - by do 7 eexists.
Qed.

(** An answer is never marked approved without a value: if every approved
    information request refers to a response value, that stays so after any call. *)
Theorem approved_answer_has_value db db' :
  answers_backed db -> rtc step db db' -> answers_backed db'.
Proof.
  intros Hb Hr. induction Hr as [|db db1 db2 Hs _ IH]; [done|]. apply IH. clear IH.
  apply step_requests in Hs as [E|[(i&q&def&from&due&mail&vq&r&Hs)|(rid&st&from&v&n&now&r&Hs)]].
  - unfold answers_backed in *. by rewrite E.
  - unfold create_information_request in Hs. destruct (find_case i db); [|discriminate].
    apply Ok_pair_inj in Hs as [Er Ed].
    assert (requests db1 = <[ir_id r := r]> (requests db)) as E
      by (rewrite <-Ed, <-Er; destruct from as [a|]; [destruct (truthy_str (Some a))|]; reflexivity).
    assert (ir_status r <> value CaseInformationRequestStatus.ANSWER_APPROVED) as Hst
      by (rewrite <-Er; cbn [ir_status]; by destruct (truthy_str from)).
    intros j x. rewrite E. by intros [[<- <-]|[_ Hx%Hb]]%lookup_insert_Some.
  - unfold update_information_request in Hs. destruct (requests db !! rid) as [r0|] eqn:E0; [|discriminate].
    apply bind_Ok_inv in Hs as ([] & _ & Hs). apply bind_Ok_inv in Hs as ([] & Hv%raise_unless_Ok & Hs).
    apply Ok_pair_inj in Hs as [<- <-]. intros j x. cbn [db_audit db_request requests].
    intros [[<- <-]|[_ Hx]]%lookup_insert_Some; [|by apply Hb in Hx]. cbn [ir_status ir_response_value_id].
    destruct st as [s|]; [intros Es; change (s = value CaseInformationRequestStatus.ANSWER_APPROVED) in Es; subst s
      | intros Hs; apply (Hb _ _ E0) in Hs; by destruct v].
    rewrite bool_decide_eq_true_2 in Hv by done. destruct v; [by eexists|].
    unfold truthy_opt in Hv. simpl in Hv. by apply bool_decide_eq_true in Hv.
Qed.
End Cases.

(** ** A concrete run *)

Definition demo_uuid (n : nat) : uuid := "id-" +:+ pretty n.

Instance demo_uuid_inj : Inj (=) (=) demo_uuid.
Proof. intros a b E. apply (inj (String.append "id-")) in E. by apply (inj pretty) in E. Qed.

Definition demo_obligation : Obligation := {| ob_id := "ob"; ob_legal_entity_id := "le"; ob_license_id := None;
  ob_bond_id := None; ob_jurisdiction_id := None; ob_type := value ObligationType.LICENSE_RENEWAL;
  ob_title := "Renewal"; ob_status := value ObligationStatus.PLANNED;
  ob_recurrence_rule := Some [("frequency", JStr "ANNUAL")]; ob_statutory_due_date := None;
  ob_next_due_date := Some (ymd2ord 2028 2 29); ob_internal_start_date := None;
  ob_responsible_owner := Some "amy"; ob_vendor_organization_id := None;
  ob_regulator_organization_id := None; ob_requirement_source_ids := [];
  ob_predecessor_obligation_id := None; ob_notes := None |}.

Definition demo_db (fs : list FormRow) : CaseDb := {| legal_entities := {["le"]}; licenses := ∅; bonds := ∅;
  jurisdictions := ∅; organizations := ∅; obligations := {["ob" := demo_obligation]}; cases := [];
  case_events := []; forms := fs; packets := []; requests := ∅; notified := []; audits := []; next_id := 0 |}.

(** Moves of one case, in order. *)
Fixpoint walk (i : uuid) (moves : list (string * list (string * json))) (db : CaseDb) : option CaseDb :=
  match moves with
  | [] => Some db
  | (to, ev) :: moves =>
      match transition i to "amy" None ev None 0 db with
      | Ok (_, db) => walk i moves db
      | Err _ => None
      end
  end.

Lemma walk_steps uuid4 i moves db db' : walk i moves db = Some db' -> rtc (step uuid4) db db'.
Proof.
  revert db. induction moves as [|[to ev] moves IH]; intros db; [by intros [= ->]|]. cbn [walk].
  destruct (transition _ _ _ _ _ _ _ _) as [[c d]|] eqn:E; [|discriminate]. intros H%IH.
  eapply rtc_l; [by eapply step_transition | done].
Qed.

Definition opened (db : CaseDb) : CaseDb :=
  match open_case demo_uuid "ob" (Some "amy") None None 0 db with Ok (_, d) => d | Err _ => db end.

Definition to_completion : list (string * list (string * json)) :=
  [(value CaseStage.CASE_PLANNING, []); (value CaseStage.DOCUMENTS_PENDING, []);
   (value CaseStage.PACKET_BUILDING, []); (value CaseStage.PACKET_READY_FOR_REVIEW, []);
   (value CaseStage.PACKET_APPROVED, [("document_packet_id", JStr "p")]);
   (value CaseStage.PACKET_SENT, [("document_packet_id", JStr "p")]);
   (value CaseStage.VENDOR_VALIDATION, []); (value CaseStage.REGULATOR_REVIEW, []);
   (value CaseStage.RENEWED_EVIDENCE_RECEIVED, [("renewed_evidence_document_id", JStr "d")]);
   (value CaseStage.INVENTORY_UPDATE_PENDING, []); (value CaseStage.COMPLETED, [])].

Definition completed_db (fs : list FormRow) : CaseDb :=
  default (opened (demo_db fs)) (walk (demo_uuid 0) to_completion (opened (demo_db fs))).

Lemma completed_db_reachable : rtc (step demo_uuid) (demo_db []) (completed_db []).
Proof.
  eapply rtc_l; [eapply (step_open _ "ob" (Some "amy") None None 0); vm_compute; reflexivity|].
  apply (walk_steps _ (demo_uuid 0) to_completion). vm_compute. reflexivity.
Qed.

(** A form that needs a signature and has none does not stop a case that goes from
    the sent packet through vendor validation: the submission stages, where the
    signature is checked, are skipped. *)
Example signature_can_be_skipped :
  let fs := [{| fi_case_id := demo_uuid 0; fi_signature_required := true; fi_signed_document_id := None |}] in
  signature_required_of (case_forms (demo_uuid 0) (completed_db fs)) = true /\
  signature_recorded_of (case_forms (demo_uuid 0) (completed_db fs)) = false /\
  current_stage <$> head (cases (completed_db fs)) = Some (value CaseStage.COMPLETED).
Proof. vm_compute. split_and!; reflexivity. Qed.

(** One signed form is taken for all. *)
Example one_signature_is_enough :
  let fs := [{| fi_case_id := "c"; fi_signature_required := true; fi_signed_document_id := Some "d" |};
             {| fi_case_id := "c"; fi_signature_required := true; fi_signed_document_id := None |}] in
  signature_recorded_of fs = true.
Proof. reflexivity. Qed.

Lemma reachable_cases_well_formed_witness :
  NoDup (case_id <$> cases (completed_db [])) /\
  (forall c d, c ∈ cases (completed_db []) -> d ∈ cases (completed_db []) -> case_open c = true ->
     case_open d = true -> case_obligation_id c = case_obligation_id d -> c = d) /\
  (forall c, c ∈ cases (completed_db []) -> case_ok (case_events (completed_db [])) c).
Proof.
  apply (reachable_cases_well_formed demo_uuid (demo_db [])); [reflexivity | reflexivity | exact completed_db_reachable].
Defined.

Lemma completed_case_has_renewed_evidence_witness :
  exists c, c ∈ cases (completed_db []) /\ case_status c = value CaseStatus.COMPLETED.
Proof.
  destruct (head (cases (completed_db []))) as [c|] eqn:E; [|vm_compute in E; discriminate].
  assert (c ∈ cases (completed_db [])) as Hc.
  { destruct (cases (completed_db [])); [discriminate|]. injection E as ->. left. }
  exists c. split; [exact Hc|].
  apply (completed_case_has_renewed_evidence demo_uuid (demo_db []) (completed_db []) c);
    [reflexivity | reflexivity | exact completed_db_reachable | exact Hc|].
  vm_compute in E. injection E as <-. reflexivity.
Defined.

Lemma open_case_idempotent_witness :
  exists c, open_case demo_uuid "ob" None (Some "bob") (Some (value CasePriority.HIGH)) 5 (opened (demo_db [])) =
            Ok (c, opened (demo_db [])).
Proof.
  destruct (open_case demo_uuid "ob" (Some "amy") None None 0 (demo_db [])) as [[c d]|] eqn:E;
    [|vm_compute in E; discriminate].
  exists c. replace (opened (demo_db [])) with d by (unfold opened; rewrite E; reflexivity).
  apply (open_case_idempotent demo_uuid "ob" (Some "amy") None None 0 (demo_db []) c d E).
Defined.

Lemma next_obligation_once_witness :
  exists nob db', create_next_obligation demo_uuid "ob" None (demo_db []) = Ok (Some nob, db') /\
    create_next_obligation demo_uuid "ob" None db' = Ok (None, db').
Proof.
  destruct (create_next_obligation demo_uuid "ob" None (demo_db [])) as [[[nob|] d]|] eqn:E;
    try (vm_compute in E; discriminate).
  exists nob, d. split; [reflexivity|].
  apply (next_obligation_once demo_uuid) in E as (ob & _ & _ & _ & _ & _ & _ & _ & _ & _ & _ & _ & H).
  - apply H.
  - intros i ob. cbn [demo_db obligations]. intros [<- <-]%lookup_singleton_Some. reflexivity.
  - intros i [ob Hi]. cbn [demo_db obligations] in Hi. apply lookup_singleton_Some in Hi as [<- _]. discriminate.
Defined.

Lemma approved_answer_has_value_witness : answers_backed (completed_db []).
Proof.
  apply (approved_answer_has_value demo_uuid (demo_db [])); [|exact completed_db_reachable].
  intros i r Hi. cbn [demo_db requests] in Hi. rewrite lookup_empty in Hi. discriminate.
Defined.
