(* ===== verification/EmailState.v ===== *)
(** * Email processing states ([app/domain/transitions.py], [app/services/email_state.py])

    The transition rules and the service that performs a transition: one call
    updates the e-mail and appends an event, an audit row and, for a significant
    target, an outbox row; a raised exception leaves the database as it was.  Only
    the columns the service reads or writes are kept. *)
From Stdlib Require Import Ascii.
From S2P Require Import Prelude Vocabulary PyDate PyJson Scoping.
Open Scope Z_scope.
Import ProcessingState.

(** ** Transition rules *)

Definition _PIPELINE_FAILURES : list ProcessingState := [FAILED_RETRYABLE; FAILED_REVIEW].

Definition ALLOWED_TRANSITIONS (s : ProcessingState) : option (list ProcessingState) :=
  match s with
  | DISCOVERED => Some ([FETCHED] ++ _PIPELINE_FAILURES)
  | FETCHED => Some ([ATTACHMENTS_SAVED] ++ _PIPELINE_FAILURES)
  | ATTACHMENTS_SAVED => Some ([CLASSIFIED] ++ _PIPELINE_FAILURES)
  | CLASSIFIED => Some ([CLASSIFIED; TASK_CREATED] ++ _PIPELINE_FAILURES)
  | TASK_CREATED => Some ([MOVED] ++ _PIPELINE_FAILURES)
  | MOVED => Some ([COMPLETED] ++ _PIPELINE_FAILURES)
  | COMPLETED => Some []
  | FAILED_RETRYABLE | FAILED_REVIEW => None
  end.

Definition MANUAL_RESET_TARGETS : list ProcessingState :=
  [DISCOVERED; FETCHED; ATTACHMENTS_SAVED; CLASSIFIED; TASK_CREATED; MOVED].

Definition SIGNIFICANT_STATES : list ProcessingState := [CLASSIFIED; TASK_CREATED; COMPLETED; FAILED_REVIEW].

Definition illegal : result exn unit := Err (InvalidStateTransitionError []).

Definition validate_transition (current target : ProcessingState) (resume_state : option ProcessingState)
    (manual_reset : bool) : result exn unit :=
  if bool_decide (current = COMPLETED) then illegal
  else if bool_decide (current = FAILED_RETRYABLE) then
    if bool_decide (target = FAILED_REVIEW) then Ok tt
    else if bool_decide (Some target = resume_state) then Ok tt
    else illegal
  else if bool_decide (current = FAILED_REVIEW) then
    if manual_reset && bool_decide (target ∈ MANUAL_RESET_TARGETS) then Ok tt else illegal
  else
    match ALLOWED_TRANSITIONS current with
    | None => Err KeyError
    | Some allowed => if bool_decide (target ∈ allowed) then Ok tt else illegal
    end.

Definition is_significant (target : ProcessingState) : bool := bool_decide (target ∈ SIGNIFICANT_STATES).

(** What the rules mean.  The pipeline runs from discovery to completion; a stage of
    it can fail, and a classified message can be classified again; a retryable
    failure resumes where it stopped or is given up; a message under review restarts
    anywhere in the pipeline, by hand. *)
Definition next_stage (s : ProcessingState) : option ProcessingState :=
  match s with
  | DISCOVERED => Some FETCHED | FETCHED => Some ATTACHMENTS_SAVED | ATTACHMENTS_SAVED => Some CLASSIFIED
  | CLASSIFIED => Some TASK_CREATED | TASK_CREATED => Some MOVED | MOVED => Some COMPLETED
  | _ => None
  end.

Definition in_pipeline (s : ProcessingState) : Prop := is_Some (next_stage s).
Definition failed (s : ProcessingState) : Prop := s = FAILED_RETRYABLE \/ s = FAILED_REVIEW.

Inductive can_move (resume : option ProcessingState) (manual : bool) : ProcessingState -> ProcessingState -> Prop :=
| move_forward s t : next_stage s = Some t -> can_move resume manual s t
| move_again : can_move resume manual CLASSIFIED CLASSIFIED
| move_fail s t : in_pipeline s -> failed t -> can_move resume manual s t
| move_resume t : resume = Some t -> can_move resume manual FAILED_RETRYABLE t
| move_give_up : can_move resume manual FAILED_RETRYABLE FAILED_REVIEW
| move_reset t : manual = true -> in_pipeline t -> can_move resume manual FAILED_REVIEW t.

Lemma validate_can_move current target resume manual :
  validate_transition current target resume manual = Ok tt <-> can_move resume manual current target.
Proof.
  split.
  - unfold validate_transition, illegal. intros H.
    destruct current; simpl in H;
      try (destruct target; simpl in H; try discriminate H;
           first [by apply move_again | by apply move_forward
                 | apply move_fail; [by eexists | first [by left | by right]]]).
    + case_bool_decide; subst; [apply move_give_up|]. case_bool_decide; [by apply move_resume | discriminate H].
    + destruct manual; [|discriminate H].
      destruct target; simpl in H; try discriminate H; (apply move_reset; [done | by eexists]).
  - unfold validate_transition.
    destruct 1 as [s t Hn| |s t [x Hs] Ht|t Hr| |t Hm Ht].
    + by destruct s; simplify_eq/=.
    + done.
    + destruct Ht as [-> | ->]; by destruct s.
    + simpl. case_bool_decide; [done|]. by rewrite bool_decide_eq_true_2.
    + done.
    + subst. destruct Ht as [x Ht]. by destruct t.
Qed.

Lemma validate_transition_error current target resume manual :
  ~ can_move resume manual current target ->
  validate_transition current target resume manual = Err (InvalidStateTransitionError []).
Proof.
  rewrite <-validate_can_move. unfold validate_transition, illegal.
  destruct current; simpl; repeat case_match; solve [done | intros H; by destruct H].
Qed.

(** The transition check is the state machine it describes: it accepts a pair of
    states exactly when the pipeline steps forward, a classified message is
    classified again, a pipeline stage fails, a retryable failure resumes at its
    recorded stage or is given up, or a manual reset restarts a reviewed message in
    the pipeline; it otherwise raises the illegal-transition error and nothing else. *)
Theorem validate_transition_refines current target resume manual :
  (validate_transition current target resume manual = Ok tt <-> can_move resume manual current target) /\
  (~ can_move resume manual current target ->
     validate_transition current target resume manual = Err (InvalidStateTransitionError [])).
Proof. split; [apply validate_can_move | apply validate_transition_error]. Qed.

(** ** Tables *)

Record Email := {
  em_id : uuid;
  em_mailbox_id : uuid;
  processing_state : string;
  resume_state : option string;
  retry_count : Z;
  next_retry_at : option instant;
  last_error_code : option string;
  last_error_message : option string;
  fetched_at : option instant;
  completed_at : option instant
}.

Record EmailProcessingEvent := {
  ev_id : uuid;
  ev_email_id : uuid;
  from_state : option string;
  to_state : string;
  ev_event_type : string;
  ev_note : option string;
  ev_error_code : option string;
  ev_error_message : option string;
  ev_metadata : list (string * json);
  ev_correlation_id : option uuid;
  ev_occurred_at : instant
}.

Record AuditEvent := {
  au_actor_type : string;
  au_actor_id : string;
  au_entity_type : string;
  au_entity_id : string;
  au_action : string;
  au_before : option (list (string * json));
  au_after : option (list (string * json));
  au_metadata : list (string * json);
  au_correlation_id : option uuid;
  au_occurred_at : instant
}.

Record OutboxEvent := {
  ob_aggregate_type : string;
  ob_aggregate_id : string;
  ob_event_type : string;
  ob_payload : list (string * json);
  ob_idempotency_key : string;
  ob_status : string;
  ob_available_at : instant
}.

Record EmailDb := {
  emails : gmap string Email;
  events : list EmailProcessingEvent;
  audits : list AuditEvent;
  outbox : list OutboxEvent;
  next_id : nat
}.

(** [datetime.isoformat()] of an aware UTC instant. *)
Definition isoformat_utc (t : instant) : string :=
  let us := t mod DAY in
  isoformat (instant_date t) +:+ "T" +:+ pad_digits 2 (us / HOUR) "" +:+ ":" +:+
  pad_digits 2 (us / 60000000 mod 60) "" +:+ ":" +:+ pad_digits 2 (us / 1000000 mod 60) "" +:+
  (if bool_decide (us mod 1000000 = 0) then "" else "." +:+ pad_digits 6 (us mod 1000000) "") +:+ "+00:00".

(** ** The service *)

Record Actor := { actor_type : ActorType.ActorType; actor_id : string }.

(** The optional arguments of a call. *)
Record CallOptions := {
  note : option string;
  error_code : option string;
  error_message : option string;
  metadata : option (list (string * json));
  expected_current_state : option ProcessingState;
  manual_reset : bool;
  event_type : string
}.

(** The e-mail after the move. *)
Definition moved_email (e : Email) (current target : ProcessingState) (o : CallOptions) (now : instant) : Email :=
  let failing := bool_decide (target ∈ _PIPELINE_FAILURES) in
  {| em_id := em_id e; em_mailbox_id := em_mailbox_id e; processing_state := value target;
     resume_state := if failing then
                       if bool_decide (current ∉ _PIPELINE_FAILURES) then Some (value current) else resume_state e
                     else None;
     retry_count := if bool_decide (target = FAILED_RETRYABLE) then retry_count e + 1 else retry_count e;
     next_retry_at := if failing then next_retry_at e else None;
     last_error_code := if failing then error_code o else None;
     last_error_message := if failing then error_message o else None;
     fetched_at := if bool_decide (target = FETCHED) then
                     match fetched_at e with Some t => Some t | None => Some now end
                   else fetched_at e;
     completed_at := if bool_decide (target = COMPLETED) then Some now else completed_at e |}.

Definition outbox_key (email event : uuid) : string := "email-state:" +:+ email +:+ ":" +:+ event.

Section Service.
Context (uuid4 : nat -> uuid).
(** [_current_correlation_uuid()]. *)
Context (correlation : option uuid).

Definition transition_event (e : Email) (current target : ProcessingState) (o : CallOptions) (i : uuid)
    (now : instant) : EmailProcessingEvent :=
  {| ev_id := i; ev_email_id := em_id e; from_state := Some (value current); to_state := value target;
     ev_event_type := event_type o; ev_note := note o; ev_error_code := error_code o;
     ev_error_message := error_message o; ev_metadata := default [] (metadata o);
     ev_correlation_id := correlation; ev_occurred_at := now |}.

Definition transition_audit (e : Email) (current target : ProcessingState) (a : Actor) (o : CallOptions)
    (now : instant) : AuditEvent :=
  {| au_actor_type := value (actor_type a); au_actor_id := actor_id a; au_entity_type := "email";
     au_entity_id := em_id e; au_action := "state_transition:" +:+ value target;
     au_before := Some [("processing_state", JStr (value current))];
     au_after := Some [("processing_state", JStr (value target))];
     au_metadata := default [] (metadata o); au_correlation_id := correlation; au_occurred_at := now |}.

Definition transition_outbox (e : Email) (current target : ProcessingState) (i : uuid) (now : instant)
    : OutboxEvent :=
  {| ob_aggregate_type := "email"; ob_aggregate_id := em_id e;
     ob_event_type := "email." +:+ str_lower (value target);
     ob_payload := [("email_id", JStr (em_id e)); ("mailbox_id", JStr (em_mailbox_id e));
                    ("from_state", JStr (value current)); ("to_state", JStr (value target));
                    ("occurred_at", JStr (isoformat_utc now))];
     ob_idempotency_key := outbox_key (em_id e) i; ob_status := "PENDING"; ob_available_at := now |}.

(** [uq_outbox_events_idempotency_key]. *)
Definition insert_outbox (x : OutboxEvent) (l : list OutboxEvent) : result exn (list OutboxEvent) :=
  _ ← raise_unless (bool_decide (ob_idempotency_key x ∉ ob_idempotency_key <$> l)) IntegrityError;
  Ok (l ++ [x]).

(** [ProcessingState(s)]. *)
Definition state_of (s : string) : result exn ProcessingState :=
  match of_value s with Some x => Ok x | None => Err ValueError end.

Definition _transition_locked (i : uuid) (target : ProcessingState) (a : Actor) (o : CallOptions)
    (now : instant) (db : EmailDb) : result exn (EmailProcessingEvent * EmailDb) :=
  match emails db !! i with
  | None => Err NotFoundError
  | Some e =>
      current ← state_of (processing_state e);
      _ ← raise_unless (match expected_current_state o with
            | Some x => bool_decide (current = x) | None => true end) StateConflictError;
      resume ← (if truthy_str (resume_state e) then Some <$> state_of (default "" (resume_state e)) else Ok None);
      _ ← validate_transition current target resume (manual_reset o);
      let ev := transition_event e current target o (uuid4 (next_id db)) now in
      out ← (if is_significant target
             then insert_outbox (transition_outbox e current target (ev_id ev) now) (outbox db)
             else Ok (outbox db));
      Ok (ev, {| emails := <[i := moved_email e current target o now]> (emails db);
                 events := events db ++ [ev];
                 audits := audits db ++ [transition_audit e current target a o now];
                 outbox := out; next_id := S (next_id db) |})
  end.

(** Commit, or roll back and raise. *)
Definition transition_email_state (i : uuid) (target : ProcessingState) (a : Actor) (o : CallOptions)
    (now : instant) (db : EmailDb) : result exn EmailProcessingEvent * EmailDb :=
  match _transition_locked i target a o now db with
  | Ok (ev, db') => (Ok ev, db')
  | Err e => (Err e, db)
  end.

(** ** The invariant *)

(** What holds of an e-mail: its state is a value of the enumeration; a stage to
    resume from is recorded exactly while it is failed, and is a pipeline stage; the
    completion time is set exactly when it is completed; outside the failures no
    error or retry time is left behind. *)
Record email_ok (i : uuid) (e : Email) (s : ProcessingState) : Prop := {
  ok_id : em_id e = i;
  ok_state : processing_state e = value s;
  ok_resume : match resume_state e with
              | Some r => failed s /\ exists p, r = value p /\ in_pipeline p
              | None => ~ failed s end;
  ok_completed : is_Some (completed_at e) <-> s = COMPLETED;
  ok_clear : ~ failed s -> last_error_code e = None /\ last_error_message e = None /\ next_retry_at e = None
}.

(** The e-mails are ok, the outbox keys are distinct, and each belongs to an event
    drawn before. *)
Record db_ok (db : EmailDb) : Prop := {
  inv_emails : forall i e, emails db !! i = Some e -> exists s, email_ok i e s;
  inv_keys : NoDup (ob_idempotency_key <$> outbox db);
  inv_old : forall k, k ∈ ob_idempotency_key <$> outbox db ->
    exists e n, k = outbox_key e (uuid4 n) /\ (n < next_id db)%nat
}.

Lemma failed_in s : s ∈ _PIPELINE_FAILURES <-> failed s.
Proof. unfold _PIPELINE_FAILURES, failed. rewrite !elem_of_cons, elem_of_nil. tauto. Qed.

Lemma state_of_value s : state_of (value s) = Ok s.
Proof. unfold state_of. by rewrite of_value_value. Qed.

Lemma truthy_value (p : ProcessingState) : truthy_str (Some (value p)) = true.
Proof. by destruct p. Qed.

(** The recorded stage, decoded. *)
Definition resume_of (e : Email) : option ProcessingState := resume_state e ≫= of_value.

Lemma resume_read i e s :
  email_ok i e s ->
  (if truthy_str (resume_state e) then Some <$> state_of (default "" (resume_state e)) else Ok None) =
    Ok (resume_of e).
Proof.
  intros [_ _ Hr _ _]. unfold resume_of. destruct (resume_state e) as [r|]; [|done].
  destruct Hr as (_ & p & -> & _). rewrite truthy_value. change (default "" (Some (value p))) with (value p).
  rewrite state_of_value. cbn [fmap result_fmap mbind option_bind]. by rewrite of_value_value.
Qed.

(** A pipeline stage is neither failed nor completed. *)
Lemma pipeline_not_failed s : in_pipeline s -> ~ failed s /\ s <> COMPLETED.
Proof. intros [t Ht]. unfold failed. split; [intros [-> | ->] | intros ->]; discriminate. Qed.

Lemma pipeline_or s : in_pipeline s \/ failed s \/ s = COMPLETED.
Proof. unfold in_pipeline, failed. destruct s; simpl; eauto. Qed.

Lemma moved_ok i e s t o now :
  email_ok i e s -> can_move (resume_of e) (manual_reset o) s t -> email_ok i (moved_email e s t o now) t.
Proof.
  intros [H1 H2 H3 H4 H5] Hm.
  assert (s <> COMPLETED) as Hs.
  { intros ->. inversion Hm as [? ? E| |? ? [? E]| | |]; subst; discriminate. }
  split; cbn [moved_email em_id processing_state resume_state completed_at last_error_code
    last_error_message next_retry_at]; [done | done | | |].
  - destruct (decide (failed t)) as [Ht|Ht].
    + rewrite (bool_decide_eq_true_2 (t ∈ _)) by by apply failed_in.
      case_bool_decide as Hf; rewrite failed_in in Hf.
      * split; [done|]. exists s. split; [done|]. destruct (pipeline_or s) as [?|[?|?]]; [done | by destruct Hf | done].
      * destruct (resume_state e); [by destruct H3|]. destruct H3. tauto.
    + by rewrite (bool_decide_eq_false_2 (t ∈ _)) by by rewrite failed_in.
  - case_bool_decide as Hc; [split; [done | by eexists]|]. rewrite H4. split; done.
  - intros Ht. by rewrite !(bool_decide_eq_false_2 (t ∈ _)) by by rewrite failed_in.
Qed.

(** Identifiers are fresh, and their text has no colon. *)
Context `{!Inj (=) (=) uuid4} (uuid_text : forall n, has_char ":"%char (uuid4 n) = false).


(** The database after a successful move. *)
Definition moved_db (i : uuid) (e : Email) (s t : ProcessingState) (a : Actor) (o : CallOptions) (now : instant)
    (db : EmailDb) : EmailDb :=
  let ev := transition_event e s t o (uuid4 (next_id db)) now in
  {| emails := <[i := moved_email e s t o now]> (emails db); events := events db ++ [ev];
     audits := audits db ++ [transition_audit e s t a o now];
     outbox := outbox db ++ if is_significant t then [transition_outbox e s t (ev_id ev) now] else [];
     next_id := S (next_id db) |}.

Lemma key_fresh db e : db_ok db -> outbox_key e (uuid4 (next_id db)) ∉ ob_idempotency_key <$> outbox db.
Proof.
  intros [_ _ Hold] Hin. destruct (Hold _ Hin) as (e' & n & E & Hn).
  enough (uuid4 (next_id db) = uuid4 n) as Hu by (apply (inj uuid4) in Hu; lia).
  apply (inj (String.append "email-state:")) in E. by apply split_sep_last in E as [_ ?].
Qed.

(** The expected state, when given, is the current one. *)
Definition as_expected (o : CallOptions) (s : ProcessingState) : Prop :=
  match expected_current_state o with Some x => s = x | None => True end.

#[local] Instance as_expected_dec o s : Decision (as_expected o s).
Proof. unfold as_expected. destruct (expected_current_state o); apply _. Defined.

(** The outcome of a call on a good database, by cases. *)
Lemma locked_spec i t a o now db :
  db_ok db ->
  match emails db !! i with
  | None => _transition_locked i t a o now db = Err NotFoundError
  | Some e => exists s, email_ok i e s /\
      (~ as_expected o s -> _transition_locked i t a o now db = Err StateConflictError) /\
      (as_expected o s ->
       (can_move (resume_of e) (manual_reset o) s t ->
          _transition_locked i t a o now db =
            Ok (transition_event e s t o (uuid4 (next_id db)) now, moved_db i e s t a o now db)) /\
       (~ can_move (resume_of e) (manual_reset o) s t ->
          _transition_locked i t a o now db = Err (InvalidStateTransitionError [])))
  end.
Proof.
  intros Hok. unfold _transition_locked. destruct (emails db !! i) as [e|] eqn:Ee; [|done].
  destruct (inv_emails _ Hok i e Ee) as [s He]. exists s. split; [done|].
  rewrite (ok_state _ _ _ He), state_of_value, (resume_read _ _ _ He). msimpl. split.
  - unfold as_expected. destruct (expected_current_state o) as [x|]; [|tauto].
    intros Hne. by rewrite bool_decide_eq_false_2.
  - intros Hexp.
    assert (match expected_current_state o with Some x => bool_decide (s = x) | None => true end = true) as ->.
    { unfold as_expected in Hexp. destruct (expected_current_state o); [by apply bool_decide_eq_true | done]. }
    cbn [raise_unless]. split.
    + intros Hm%validate_can_move. rewrite Hm. unfold moved_db. destruct (is_significant t).
      * unfold insert_outbox. cbn [transition_event ev_id].
        rewrite bool_decide_eq_true_2; [reflexivity|]. by apply key_fresh.
      * by rewrite app_nil_r.
    + intros Hm%validate_transition_error. by rewrite Hm.
Qed.

(** C17. A state change is atomic and complete.  On a good database a call either
    succeeds, which it does exactly when the e-mail exists, is in the expected state
    and may make the move; then that e-mail alone changes, one event and one audit row
    record the move from the old state to the new, and one outbox row is queued
    exactly when the target is significant; or it raises and the database is
    untouched. *)
Theorem transition_atomic i t a o now db :
  db_ok db ->
  let '(r, db') := transition_email_state i t a o now db in
  (is_ok r = true <->
     exists e s, emails db !! i = Some e /\ processing_state e = value s /\
       (forall x, expected_current_state o = Some x -> x = s) /\ can_move (resume_of e) (manual_reset o) s t) /\
  match r with
  | Err _ => db' = db
  | Ok ev => exists e s, emails db !! i = Some e /\ processing_state e = value s /\
      emails db' = <[i := moved_email e s t o now]> (emails db) /\
      events db' = events db ++ [ev] /\ ev_email_id ev = i /\
      from_state ev = Some (value s) /\ to_state ev = value t /\
      audits db' = audits db ++ [transition_audit e s t a o now] /\
      exists new, outbox db' = outbox db ++ new /\ length new = (if is_significant t then 1 else 0)%nat
  end.
Proof.
  intros Hok. pose proof (locked_spec i t a o now db Hok) as H. unfold transition_email_state.
  destruct (emails db !! i) as [e|] eqn:Ee.
  2: { rewrite H. split; [|done]. split; [done|]. by intros (? & ? & ? & _). }
  destruct H as (s & He & Hne & Hgo).
  assert (forall Q : Prop, (exists e' s', Some e = Some e' /\ processing_state e' = value s' /\
            (forall x, expected_current_state o = Some x -> x = s') /\
            can_move (resume_of e') (manual_reset o) s' t) -> 
          (as_expected o s ->
           can_move (resume_of e) (manual_reset o) s t -> Q) -> Q) as Hback.
  { intros Q (e' & s' & [= <-] & Hs' & Hx & Hm) HQ.
    rewrite (ok_state _ _ _ He) in Hs'. apply value_inj in Hs' as <-. apply HQ; [|done].
    unfold as_expected. destruct (expected_current_state o); [by symmetry; apply Hx | done]. }
  destruct (decide (as_expected o s)) as [Hx|Hx].
  2: { rewrite (Hne Hx). split; [|done].
       split; [done|]. intros H. by apply (Hback _ H). }
  destruct (Hgo Hx) as [Hyes Hno].
  assert (can_move (resume_of e) (manual_reset o) s t \/ ~ can_move (resume_of e) (manual_reset o) s t) as [Hm|Hm].
  { rewrite <-validate_can_move. destruct (validate_transition _ _ _ _) as [[]|]; [by left | by right]. }
  - rewrite (Hyes Hm). split.
    + split; [|done]. intros _. exists e, s. split; [done|]. split; [by apply He|]. split; [|done].
      intros x Ex. unfold as_expected in Hx. by rewrite Ex in Hx.
    + exists e, s. split; [done|]. split; [by apply He|]. cbn [moved_db emails events audits outbox].
      do 2 (split; [done|]). split; [by apply He|]. split_and!; try done.
      eexists. split; [done|]. by destruct (is_significant t).
  - rewrite (Hno Hm). split; [|done]. split; [done|]. intros H. by apply (Hback _ H).
Qed.

(** ** Sequences of calls *)

Record Call := { call_id : uuid; call_target : ProcessingState; call_actor : Actor; call_options : CallOptions;
                 call_now : instant }.

Definition call (c : Call) (db : EmailDb) : result exn EmailProcessingEvent * EmailDb :=
  transition_email_state (call_id c) (call_target c) (call_actor c) (call_options c)
    (call_now c) db.

(** Calls one after the other, each of which may raise. *)
Definition calls (cs : list Call) (db : EmailDb) : EmailDb := fold_left (fun db c => (call c db).2) cs db.

Lemma moved_db_ok i e s t a o now db :
  db_ok db -> emails db !! i = Some e -> email_ok i e s -> can_move (resume_of e) (manual_reset o) s t ->
  db_ok (moved_db i e s t a o now db).
Proof.
  intros Hok Ee He Hm. pose proof (key_fresh db (em_id e) Hok) as Hk. destruct Hok as [H1 H2 H3].
  split; cbn [moved_db emails outbox next_id].
  - intros j x [[<- <-]|[_ Hx]]%lookup_insert_Some; [|by apply H1].
    exists t. by apply (moved_ok _ _ s).
  - rewrite fmap_app. apply NoDup_app. split_and!; [done | | by destruct (is_significant t); repeat constructor; set_solver].
    intros k Hin Hnew. destruct (is_significant t); [|by apply not_elem_of_nil in Hnew].
    apply list_elem_of_singleton in Hnew as ->. by apply Hk.
  - intros k. rewrite fmap_app, elem_of_app. intros [Hk'|Hk'].
    + destruct (H3 k Hk') as (x & n & ? & ?). exists x, n. split; [done | lia].
    + destruct (is_significant t); [|by apply not_elem_of_nil in Hk'].
      apply list_elem_of_singleton in Hk' as ->. exists (em_id e), (next_id db). split; [done | lia].
Qed.

(** What one call does to a good database. *)
Lemma call_cases c db :
  db_ok db ->
  (call c db).2 = db \/
  exists e s, emails db !! call_id c = Some e /\ email_ok (call_id c) e s /\
    can_move (resume_of e) (manual_reset (call_options c)) s (call_target c) /\
    (call c db).2 = moved_db (call_id c) e s (call_target c) (call_actor c) (call_options c) (call_now c) db.
Proof.
  destruct c as [i t a o now]. intros Hok. unfold call. cbn [call_id call_target call_actor call_options call_now].
  pose proof (locked_spec i t a o now db Hok) as H. unfold transition_email_state.
  destruct (emails db !! i) as [e|] eqn:Ee; [|left; by rewrite H].
  destruct H as (s & He & Hne & Hgo).
  destruct (decide (as_expected o s)) as [Hx|Hx].
  2: { left. by rewrite (Hne Hx). }
  destruct (Hgo Hx) as [Hyes Hno]. destruct (validate_transition s t (resume_of e) (manual_reset o)) as [[]|] eqn:Ev.
  - right. apply validate_can_move in Ev. exists e, s. rewrite (Hyes Ev). done.
  - left. rewrite Hno; [done|]. rewrite <-validate_can_move, Ev. discriminate.
Qed.

Lemma calls_ok cs db : db_ok db -> db_ok (calls cs db).
Proof.
  revert db. induction cs as [|c cs IH]; intros db Hok; [done|]. apply IH.
  destruct (call_cases c db Hok) as [-> |(e & s & Ee & He & Hm & ->)]; [done | by apply moved_db_ok].
Qed.

(** Whatever sequence of calls is made from a good database, it stays good: every
    e-mail has a state of the enumeration, records a stage to resume from exactly
    while it is failed (and that stage is a pipeline stage), has a completion time
    exactly when completed and carries no error otherwise; no outbox key is repeated.
    A completed e-mail is never touched again. *)
Theorem calls_preserve cs db :
  db_ok db ->
  db_ok (calls cs db) /\
  forall i e, emails db !! i = Some e -> processing_state e = value COMPLETED -> emails (calls cs db) !! i = Some e.
Proof.
  intros Hok. split; [by apply calls_ok|]. revert db Hok. induction cs as [|c cs IH]; intros db Hok i e Ee Hc; [done|].
  cbn [calls fold_left]. destruct (call_cases c db Hok) as [-> |(e' & s & Ee' & He & Hm & ->)]; [by apply IH|].
  apply IH; [by apply moved_db_ok | | done]. cbn [moved_db emails].
  destruct (decide (i = call_id c)) as [->|]; [|by rewrite lookup_insert_ne].
  exfalso. simplify_eq. rewrite (ok_state _ _ _ He) in Hc. apply value_inj in Hc as ->.
  inversion Hm as [? ? E| |? ? [? E]| | |]; discriminate.
Qed.

(** One call without options. *)
Definition plain (manual : bool) : CallOptions :=
  {| note := None; error_code := None; error_message := None; metadata := None; expected_current_state := None;
     manual_reset := manual; event_type := "state_transition" |}.

Definition plain_call (i : uuid) (manual : bool) (t : ProcessingState) : Call :=
  {| call_id := i; call_target := t; call_actor := {| actor_type := ActorType.SYSTEM; actor_id := "worker" |};
     call_options := plain manual; call_now := 0 |}.

Lemma call_plain i manual t e s db :
  db_ok db -> emails db !! i = Some e -> email_ok i e s -> can_move (resume_of e) manual s t ->
  is_ok (call (plain_call i manual t) db).1 = true /\
  exists e', emails (call (plain_call i manual t) db).2 !! i = Some e' /\ email_ok i e' t /\
    db_ok (call (plain_call i manual t) db).2.
Proof.
  intros Hok Ee He Hm.
  pose proof (locked_spec i t {| actor_type := ActorType.SYSTEM; actor_id := "worker" |} (plain manual) 0 db Hok) as H.
  rewrite Ee in H. destruct H as (s' & He' & _ & Hgo).
  assert (s' = s) as -> by (apply value_inj; by rewrite <-(ok_state _ _ _ He'), <-(ok_state _ _ _ He)).
  unfold call, plain_call, transition_email_state. cbn [call_id call_target call_actor call_options call_now].
  rewrite (proj1 (Hgo I) Hm). split; [done|]. eexists. cbn [snd moved_db emails]. rewrite lookup_insert_eq.
  split; [done|]. split; [by apply (moved_ok _ _ s) | by apply moved_db_ok].
Qed.

(** Steps left to completion. *)
Definition remaining (s : ProcessingState) : nat :=
  match s with
  | DISCOVERED => 6 | FETCHED => 5 | ATTACHMENTS_SAVED => 4 | CLASSIFIED => 3 | TASK_CREATED => 2 | MOVED => 1
  | COMPLETED => 0 | FAILED_RETRYABLE | FAILED_REVIEW => 7
  end.

Lemma remaining_move s e i :
  email_ok i e s -> s <> COMPLETED ->
  exists manual t, can_move (resume_of e) manual s t /\ (remaining t < remaining s)%nat.
Proof.
  intros He Hs. destruct (pipeline_or s) as [[t Ht]|[[-> | ->]|?]]; [| | |done].
  - exists false, t. split; [by apply move_forward|]. destruct s; simplify_eq/=; lia.
  - destruct He as [_ _ Hr _ _]. unfold resume_of. destruct (resume_state e) as [r|]; [|by destruct Hr; left].
    destruct Hr as (_ & p & -> & [q Hq]). exists false, p. cbn [mbind option_bind]. rewrite of_value_value.
    split; [by apply move_resume|]. destruct p; simplify_eq/=; lia.
  - exists true, DISCOVERED. split; [by apply move_reset; [|eexists]|]. simpl. lia.
Qed.

(** C26. No message is ever stuck: from a good database an e-mail that is not completed
    reaches completion by at most seven successful calls: the stages ahead of it, or a
    resumption from the recorded stage, or a manual reset. *)
Theorem completion_reachable i e db :
  db_ok db -> emails db !! i = Some e ->
  exists cs, (length cs <= 7)%nat /\
    (forall k c, cs !! k = Some c -> is_ok (call c (calls (take k cs) db)).1 = true) /\
    exists e', emails (calls cs db) !! i = Some e' /\ processing_state e' = value COMPLETED.
Proof.
  intros Hok Ee. destruct (inv_emails _ Hok i e Ee) as [s He].
  enough (forall n, (remaining s <= n)%nat ->
    exists cs, (length cs <= n)%nat /\
      (forall k c, cs !! k = Some c -> is_ok (call c (calls (take k cs) db)).1 = true) /\
      exists e', emails (calls cs db) !! i = Some e' /\ processing_state e' = value COMPLETED) as H.
  { apply H. by destruct s; simpl; lia. }
  intros n. revert e s db Hok Ee He. induction n as [|n IH]; intros e s db Hok Ee He Hn.
  all: destruct (decide (s = COMPLETED)) as [->|Hs];
    [exists []; split; [simpl; lia|]; split; [done|]; exists e; split; [done | by apply He]|].
  - exfalso. destruct s; simpl in Hn; solve [lia | done].
  - destruct (remaining_move s e i He Hs) as (manual & t & Hm & Hlt).
    destruct (call_plain i manual t e s db Hok Ee He Hm) as (Hr & e' & Ee' & He' & Hok').
    destruct (IH e' t _ Hok' Ee' He') as (cs & Hl & Hcs & Hend); [lia|].
    exists (plain_call i manual t :: cs). split; [simpl; lia|]. split; [|done].
    intros [|k] c Hk; simpl in Hk; [by injection Hk as <- | by apply Hcs].
Qed.
End Service.

(** ** A concrete run *)

Fixpoint sample_uuid (n : nat) : uuid := match n with O => "id" | S n => String "x"%char (sample_uuid n) end.

Instance sample_uuid_inj : Inj (=) (=) sample_uuid.
Proof.
  intros a b. revert b. induction a as [|a IH]; intros [|b] E; simpl in E; try discriminate; [done|].
  injection E as E. by rewrite (IH b E).
Qed.

Lemma sample_uuid_text n : has_char ":"%char (sample_uuid n) = false.
Proof. induction n as [|n IH]; [done | exact IH]. Qed.

Definition sample_email (s : ProcessingState) (resume : option ProcessingState) : Email :=
  {| em_id := "m1"; em_mailbox_id := "box"; processing_state := value s; resume_state := value <$> resume;
     retry_count := 0; next_retry_at := None; last_error_code := None; last_error_message := None;
     fetched_at := None; completed_at := None |}.

Definition sample_db (s : ProcessingState) (resume : option ProcessingState) : EmailDb :=
  {| emails := {["m1" := sample_email s resume]}; events := []; audits := []; outbox := []; next_id := 0 |}.

Lemma sample_db_ok : db_ok sample_uuid (sample_db FAILED_RETRYABLE (Some CLASSIFIED)).
Proof.
  split.
  - intros i e. cbn [sample_db emails]. intros [<- <-]%lookup_singleton_Some. exists FAILED_RETRYABLE.
    split; cbn; [done | done | | |].
    + split; [by left|]. exists CLASSIFIED. split; [done | by eexists].
    + split; [by intros [? ?] | done].
    + done.
  - apply NoDup_nil_2.
  - intros k Hk. by apply not_elem_of_nil in Hk.
Qed.

Definition sample_actor : Actor := {| actor_type := ActorType.HUMAN; actor_id := "amy" |}.

(** A resumption is one event, one audit row and one outbox row. *)
Lemma transition_atomic_witness :
  let '(r, db') := transition_email_state sample_uuid None "m1" CLASSIFIED sample_actor (plain false) 0
                     (sample_db FAILED_RETRYABLE (Some CLASSIFIED)) in
  is_ok r = true /\ length (outbox db') = 1%nat.
Proof.
  pose proof (transition_atomic sample_uuid None sample_uuid_text "m1" CLASSIFIED sample_actor (plain false) 0
    (sample_db FAILED_RETRYABLE (Some CLASSIFIED)) sample_db_ok) as H.
  destruct (transition_email_state _ _ _ _ _ _ _ _) as [[ev|e] db'] eqn:E; [|vm_compute in E; discriminate].
  destruct H as [_ (e & s & _ & _ & _ & _ & _ & _ & _ & _ & new & -> & Hl)]. split; [reflexivity|].
  rewrite length_app, Hl. reflexivity.
Defined.

Lemma calls_preserve_witness :
  let db := calls sample_uuid None [plain_call "m1" false CLASSIFIED; plain_call "m1" false TASK_CREATED;
              plain_call "m1" false MOVED; plain_call "m1" false COMPLETED; plain_call "m1" true DISCOVERED]
              (sample_db FAILED_RETRYABLE (Some CLASSIFIED)) in
  db_ok sample_uuid db /\ length (events db) = 4%nat.
Proof.
  cbv zeta. split; [|vm_compute; reflexivity].
  apply (calls_preserve sample_uuid None sample_uuid_text _ _ sample_db_ok).
Defined.

Lemma completion_reachable_witness :
  exists cs, (length cs <= 7)%nat /\
    exists e', emails (calls sample_uuid None cs (sample_db FAILED_RETRYABLE (Some CLASSIFIED))) !! "m1" = Some e' /\
      processing_state e' = value COMPLETED.
Proof.
  destruct (completion_reachable sample_uuid None sample_uuid_text "m1"
    (sample_email FAILED_RETRYABLE (Some CLASSIFIED)) _ sample_db_ok) as (cs & Hl & _ & H); [reflexivity|].
  exists cs. split; assumption.
Defined.
