(* ===== verification/JobQueue.v ===== *)
(** * The durable job queue ([app/jobs], [app/graph/retry.py])

    The table of jobs with its unique indexes, the repository's operations on it, the
    retry policy, and the lease on a folder's synchronization.  A worker writes
    through the row object it loaded: a column is sent only when its new value differs
    from the loaded one, and the row may have changed meanwhile.  Rows locked by other
    transactions are an argument of the claim.  Correlation identifiers and log lines
    are not modelled. *)
From Stdlib Require Import QArith Qround.
From S2P Require Import Prelude Vocabulary PyDate PyJson Scoping.
Open Scope Z_scope.

(** ** The table *)

Record GraphJob := {
  job_id : uuid;
  job_type : string;
  mailbox_id : option uuid;
  folder_id : option uuid;
  email_id : option uuid;
  reason : option string;
  payload : list (string * json);
  status : string;
  priority : Z;
  idempotency_key : string;
  attempts : Z;
  max_attempts : Z;
  available_at : instant;
  lease_owner : option string;
  lease_expires_at : option instant;
  started_at : option instant;
  completed_at : option instant;
  last_error_code : option string;
  last_error_message : option string;
  created_at : instant
}.

Definition ACTIVE_JOB_STATUSES : list string := value <$> [JobStatus.PENDING; JobStatus.RUNNING].

Definition job_active (j : GraphJob) : bool := bool_decide (status j ∈ ACTIVE_JOB_STATUSES).

(** The entry of a job in the three partial unique indexes of the table. *)
Definition index_key (j : GraphJob) : option (string * uuid) :=
  if job_active j then
    if bool_decide (job_type j = value JobType.SYNC_FOLDER) then (fun f => (job_type j, f)) <$> folder_id j
    else if bool_decide (job_type j ∈ value <$> [JobType.INGEST_EMAIL; JobType.CLASSIFY_EMAIL])
    then (fun e => (job_type j, e)) <$> email_id j
    else None
  else None.

(** The constraints of the table. *)
Definition table_ok (jobs : list GraphJob) : Prop :=
  NoDup (idempotency_key <$> jobs) /\ NoDup (omap index_key jobs).

Instance table_ok_dec jobs : Decision (table_ok jobs).
Proof. unfold table_ok. apply _. Defined.

(** A statement that leaves the table in a state the constraints exclude raises. *)
Definition commit (jobs : list GraphJob) : result exn (list GraphJob) :=
  _ ← raise_unless (bool_decide (table_ok jobs)) IntegrityError; Ok jobs.

(** [UPDATE ... WHERE id = i]. *)
Definition update_row (i : uuid) (f : GraphJob -> GraphJob) (jobs : list GraphJob) : list GraphJob :=
  (fun j => if bool_decide (job_id j = i) then f j else j) <$> jobs.

(** The columns a worker moves. *)
Record Progress := {
  p_status : string;
  p_attempts : Z;
  p_available_at : instant;
  p_lease_owner : option string;
  p_lease_expires_at : option instant;
  p_started_at : option instant;
  p_completed_at : option instant;
  p_error_code : option string;
  p_error_message : option string
}.

Definition progress (j : GraphJob) : Progress :=
  {| p_status := status j; p_attempts := attempts j; p_available_at := available_at j;
     p_lease_owner := lease_owner j; p_lease_expires_at := lease_expires_at j; p_started_at := started_at j;
     p_completed_at := completed_at j; p_error_code := last_error_code j; p_error_message := last_error_message j |}.

Definition set_progress (p : Progress) (j : GraphJob) : GraphJob :=
  {| job_id := job_id j; job_type := job_type j; mailbox_id := mailbox_id j; folder_id := folder_id j;
     email_id := email_id j; reason := reason j; payload := payload j; status := p_status p;
     priority := priority j; idempotency_key := idempotency_key j; attempts := p_attempts p;
     max_attempts := max_attempts j; available_at := p_available_at p; lease_owner := p_lease_owner p;
     lease_expires_at := p_lease_expires_at p; started_at := p_started_at p; completed_at := p_completed_at p;
     last_error_code := p_error_code p; last_error_message := p_error_message p; created_at := created_at j |}.

Definition set_coalesced (r : option string) (n : Z) (j : GraphJob) : GraphJob :=
  {| job_id := job_id j; job_type := job_type j; mailbox_id := mailbox_id j; folder_id := folder_id j;
     email_id := email_id j; reason := r; payload := payload j; status := status j;
     priority := n; idempotency_key := idempotency_key j; attempts := attempts j;
     max_attempts := max_attempts j; available_at := available_at j; lease_owner := lease_owner j;
     lease_expires_at := lease_expires_at j; started_at := started_at j; completed_at := completed_at j;
     last_error_code := last_error_code j; last_error_message := last_error_message j; created_at := created_at j |}.

Definition send_progress (loaded new : Progress) (row : GraphJob) : GraphJob :=
  set_progress
    {| p_status := sent (p_status loaded) (p_status new) (status row);
       p_attempts := sent (p_attempts loaded) (p_attempts new) (attempts row);
       p_available_at := sent (p_available_at loaded) (p_available_at new) (available_at row);
       p_lease_owner := sent (p_lease_owner loaded) (p_lease_owner new) (lease_owner row);
       p_lease_expires_at := sent (p_lease_expires_at loaded) (p_lease_expires_at new) (lease_expires_at row);
       p_started_at := sent (p_started_at loaded) (p_started_at new) (started_at row);
       p_completed_at := sent (p_completed_at loaded) (p_completed_at new) (completed_at row);
       p_error_code := sent (p_error_code loaded) (p_error_code new) (last_error_code row);
       p_error_message := sent (p_error_message loaded) (p_error_message new) (last_error_message row) |} row.

(** ** Time *)

Definition SECOND : Z := 1000000.

(** [timedelta(seconds=q)] in microseconds, a tie going to the even one. *)
Definition seconds_us (q : Q) : Z :=
  let x := (q * inject_Z SECOND)%Q in
  let n := Qfloor x in
  let r := (x - inject_Z n)%Q in
  match Qcompare r (1 # 2) with
  | Lt => n
  | Gt => n + 1
  | Eq => if Z.even n then n else n + 1
  end.

(** The delay before a retry; [uniform] is [random.uniform(0, _)]. *)
Definition backoff_delay (uniform : Q -> Q) (attempt : Z) (base_seconds max_seconds : Q) (retry_after : option Q) : Q :=
  match retry_after with
  | Some r => if Qle_bool r max_seconds then r else max_seconds
  | None =>
      let scaled := (base_seconds * inject_Z (2 ^ Z.max (attempt - 1) 0))%Q in
      uniform (if Qle_bool scaled max_seconds then scaled else max_seconds)
  end.

(** ** Enqueueing *)

Definition COALESCED_BY_FOLDER : list JobType.JobType :=
  [JobType.SYNC_FOLDER; JobType.ENSURE_SUBSCRIPTION; JobType.RENEW_SUBSCRIPTION; JobType.RECREATE_SUBSCRIPTION].

(** The keyword arguments of [enqueue]. *)
Record Request := {
  rq_type : JobType.JobType;
  rq_key : string;
  rq_max_attempts : Z;
  rq_mailbox : option uuid;
  rq_folder : option uuid;
  rq_email : option uuid;
  rq_reason : option string;
  rq_payload : option (list (string * json));
  rq_priority : Z;
  rq_delay : Q
}.

Definition find_key (k : string) (jobs : list GraphJob) : option GraphJob :=
  head (filter (fun j => idempotency_key j = k) jobs).

(** The jobs [_find_active_for_target] selects. *)
Definition active_for (t : JobType.JobType) (folder email : option uuid) (j : GraphJob) : bool :=
  bool_decide (job_type j = value t) && job_active j &&
  if bool_decide (t ∈ [JobType.INGEST_EMAIL; JobType.CLASSIFY_EMAIL]) then
    match email with None => false | Some e => bool_decide (email_id j = Some e) end
  else if bool_decide (t ∈ COALESCED_BY_FOLDER) then
    match folder with None => false | Some f => bool_decide (folder_id j = Some f) end
  else false.

Definition _find_active_for_target (t : JobType.JobType) (folder email : option uuid) (jobs : list GraphJob)
    : option GraphJob :=
  head (filter (fun j => active_for t folder email j = true) jobs).

Definition _coalesce_into (job : GraphJob) (reason_ : option string) (priority_ : Z) : GraphJob :=
  let r :=
    match reason_ with
    | Some x =>
        if truthy_str reason_ && negb (is_infix x (default "" (reason job)))
        then Some (str_take 500 (if truthy_str (reason job)
                                 then default "" (reason job) +:+ "; " +:+ x else x))
        else reason job
    | None => reason job
    end in
  set_coalesced r (if priority_ <? priority job then priority_ else priority job) job.

(** The columns coalescing writes, on the row as it is. *)
Definition coalesce_row (job : GraphJob) (reason_ : option string) (priority_ : Z) (jobs : list GraphJob)
    : list GraphJob :=
  let new := _coalesce_into job reason_ priority_ in
  update_row (job_id job) (fun row =>
    set_coalesced (sent (reason job) (reason new) (reason row)) (sent (priority job) (priority new) (priority row)) row)
    jobs.

Definition new_job (i : uuid) (q : Request) (now : instant) : GraphJob :=
  {| job_id := i; job_type := value (rq_type q); mailbox_id := rq_mailbox q; folder_id := rq_folder q;
     email_id := rq_email q; reason := rq_reason q; payload := default [] (rq_payload q);
     status := value JobStatus.PENDING; priority := rq_priority q; idempotency_key := rq_key q; attempts := 0;
     max_attempts := rq_max_attempts q; available_at := now + seconds_us (rq_delay q); lease_owner := None;
     lease_expires_at := None; started_at := None; completed_at := None; last_error_code := None;
     last_error_message := None; created_at := now |}.

Record EnqueueResult := { er_job : GraphJob; er_created : bool; er_coalesced : bool }.

(** [seen] is the table the first look-ups read, [jobs] the table when the insert
    runs: other transactions may have committed in between. *)
Definition enqueue (i : uuid) (q : Request) (now : instant) (seen jobs : list GraphJob)
    : result exn (EnqueueResult * list GraphJob) :=
  let coalesce job := 
    Ok ({| er_job := _coalesce_into job (rq_reason q) (rq_priority q); er_created := false; er_coalesced := true |},
        coalesce_row job (rq_reason q) (rq_priority q) jobs) in
  match find_key (rq_key q) seen with
  | Some j => Ok ({| er_job := j; er_created := false; er_coalesced := false |}, jobs)
  | None =>
      match _find_active_for_target (rq_type q) (rq_folder q) (rq_email q) seen with
      | Some job => coalesce job
      | None =>
          let job := new_job i q now in
          match commit (jobs ++ [job]) with
          | Ok jobs' => Ok ({| er_job := job; er_created := true; er_coalesced := false |}, jobs')
          | Err IntegrityError =>
              match find_key (rq_key q) jobs with
              | Some j => Ok ({| er_job := j; er_created := false; er_coalesced := false |}, jobs)
              | None =>
                  match _find_active_for_target (rq_type q) (rq_folder q) (rq_email q) jobs with
                  | Some job => coalesce job
                  | None => Err IntegrityError
                  end
              end
          | Err e => Err e
          end
      end
  end.

(** ** Claiming *)

Definition claimable (types : option (list JobType.JobType)) (locked : gset uuid) (now : instant) (j : GraphJob) : bool :=
  bool_decide (status j ∈ value <$> [JobStatus.PENDING; JobStatus.FAILED_RETRYABLE]) &&
  (available_at j <=? now) &&
  match types with
  | None | Some [] => true
  | Some ts => bool_decide (job_type j ∈ value <$> ts)
  end &&
  bool_decide (job_id j ∉ locked).

(** [ORDER BY priority, available_at, created_at]. *)
Definition claim_leb (a b : GraphJob) : bool :=
  if priority a <? priority b then true
  else if priority b <? priority a then false
  else if available_at a <? available_at b then true
  else if available_at b <? available_at a then false
  else created_at a <=? created_at b.

Definition claimed (worker : string) (lease_seconds : Z) (now : instant) (j : GraphJob) : GraphJob :=
  set_progress
    {| p_status := value JobStatus.RUNNING; p_attempts := attempts j + 1; p_available_at := available_at j;
       p_lease_owner := Some worker; p_lease_expires_at := Some (now + lease_seconds * SECOND);
       p_started_at := match started_at j with None => Some now | s => s end;
       p_completed_at := completed_at j; p_error_code := last_error_code j;
       p_error_message := last_error_message j |} j.

Definition claim_next (worker : string) (lease_seconds : Z) (types : option (list JobType.JobType))
    (locked : gset uuid) (now : instant) (jobs : list GraphJob) : result exn (option GraphJob * list GraphJob) :=
  match py_sorted claim_leb (filter (fun j => claimable types locked now j = true) jobs) with
  | [] => Ok (None, jobs)
  | j :: _ =>
      let j' := claimed worker lease_seconds now j in
      jobs' ← commit (update_row (job_id j) (fun _ => j') jobs);
      Ok (Some j', jobs')
  end.

Definition extend_lease (i : uuid) (worker : string) (lease_seconds : Z) (now : instant) (jobs : list GraphJob)
    : bool * list GraphJob :=
  let mine j := bool_decide (job_id j = i) && bool_decide (lease_owner j = Some worker) &&
                bool_decide (status j = value JobStatus.RUNNING) in
  (existsb mine jobs,
   (fun j => if mine j then
      set_progress {| p_status := status j; p_attempts := attempts j; p_available_at := available_at j;
        p_lease_owner := lease_owner j; p_lease_expires_at := Some (now + lease_seconds * SECOND);
        p_started_at := started_at j; p_completed_at := completed_at j; p_error_code := last_error_code j;
        p_error_message := last_error_message j |} j else j) <$> jobs).

(** ** Outcomes, written through the loaded row *)

Definition write_progress (job : GraphJob) (p : Progress) (jobs : list GraphJob) : result exn (list GraphJob) :=
  commit (update_row (job_id job) (send_progress (progress job) p) jobs).

Definition mark_completed (job : GraphJob) (now : instant) (jobs : list GraphJob) : result exn (list GraphJob) :=
  write_progress job
    {| p_status := value JobStatus.COMPLETED; p_attempts := attempts job; p_available_at := available_at job;
       p_lease_owner := None; p_lease_expires_at := None; p_started_at := started_at job;
       p_completed_at := Some now; p_error_code := None; p_error_message := None |} jobs.

Definition mark_retryable_failure (uniform : Q -> Q) (job : GraphJob) (code message : string)
    (base_seconds max_seconds : Q) (now : instant) (jobs : list GraphJob) : result exn (list GraphJob) :=
  let delay := backoff_delay uniform (attempts job) base_seconds max_seconds None in
  write_progress job
    {| p_status := value JobStatus.FAILED_RETRYABLE; p_attempts := attempts job;
       p_available_at := now + seconds_us delay; p_lease_owner := None; p_lease_expires_at := None;
       p_started_at := started_at job; p_completed_at := completed_at job;
       p_error_code := Some (str_take 100 code); p_error_message := Some (str_take 500 message) |} jobs.

Definition mark_review_failure (job : GraphJob) (code message : string) (now : instant) (jobs : list GraphJob)
    : result exn (list GraphJob) :=
  write_progress job
    {| p_status := value JobStatus.FAILED_REVIEW; p_attempts := attempts job; p_available_at := available_at job;
       p_lease_owner := None; p_lease_expires_at := None; p_started_at := started_at job;
       p_completed_at := Some now; p_error_code := Some (str_take 100 code);
       p_error_message := Some (str_take 500 message) |} jobs.

(** ** Maintenance *)

Definition lease_expired (now : instant) (j : GraphJob) : bool :=
  bool_decide (status j = value JobStatus.RUNNING) &&
  match lease_expires_at j with Some t => t <? now | None => false end.

Definition recovered (j : GraphJob) : GraphJob :=
  set_progress
    {| p_status := value JobStatus.PENDING; p_attempts := attempts j; p_available_at := available_at j;
       p_lease_owner := None; p_lease_expires_at := None; p_started_at := started_at j;
       p_completed_at := completed_at j; p_error_code := Some "lease_expired";
       p_error_message := Some "Worker lease expired; job returned to the queue." |} j.

Definition recover_expired_leases (now : instant) (jobs : list GraphJob) : result exn (nat * list GraphJob) :=
  jobs' ← commit ((fun j => if lease_expired now j then recovered j else j) <$> jobs);
  Ok (length (filter (fun j => lease_expired now j = true) jobs), jobs').

(** ** The service: what a failure becomes *)

(** The audit and outbox rows of a job given up, with their identifying columns. *)
Record ReviewAudit := { ra_actor : string; ra_job : uuid; ra_type : string; ra_attempts : Z; ra_code : string;
                        ra_reason : option string }.
Record ReviewOutbox := { ro_job : uuid; ro_type : string; ro_code : string; ro_attempts : Z; ro_key : string }.

Record QueueDb := { jobs_of : list GraphJob; audits_of : list ReviewAudit; outbox_of : list ReviewOutbox }.

Section Failure.
(** [str(n)] of an integer, and [random.uniform(0, _)]. *)
Context (int_text : Z -> string) (uniform : Q -> Q).

Definition record_failure (base_seconds max_seconds : Q) (job : GraphJob) (code message : string) (retryable : bool)
    (now : instant) (db : QueueDb) : result exn QueueDb :=
  if retryable && (attempts job <? max_attempts job) then
    jobs' ← mark_retryable_failure uniform job code message base_seconds max_seconds now (jobs_of db);
    Ok {| jobs_of := jobs'; audits_of := audits_of db; outbox_of := outbox_of db |}
  else
    let final_code := if retryable then "max_attempts_exhausted" else code in
    let key := "graph-job-review:" +:+ job_id job +:+ ":" +:+ int_text (attempts job) in
    _ ← raise_unless (bool_decide (key ∉ ro_key <$> outbox_of db)) IntegrityError;
    jobs' ← mark_review_failure job final_code message now (jobs_of db);
    Ok {| jobs_of := jobs';
          audits_of := audits_of db ++ [{| ra_actor := if truthy_str (lease_owner job)
                                                        then default "" (lease_owner job) else "graph-worker";
            ra_job := job_id job; ra_type := job_type job; ra_attempts := attempts job; ra_code := final_code;
            ra_reason := reason job |}];
          outbox_of := outbox_of db ++ [{| ro_job := job_id job; ro_type := job_type job; ro_code := final_code;
            ro_attempts := attempts job; ro_key := key |}] |}.
End Failure.

(** The enqueueing helpers of the service; [fresh] is the identifier drawn for a key. *)
Definition enqueue_sync_folder (max_attempts_ : Z) (mailbox folder : uuid) (why : string) (key : option string)
    (prio : Z) (delay : Q) (fresh : uuid) : Request :=
  {| rq_type := JobType.SYNC_FOLDER;
     rq_key := if truthy_str key then default "" key else "sync:" +:+ folder +:+ ":" +:+ fresh;
     rq_max_attempts := max_attempts_; rq_mailbox := Some mailbox; rq_folder := Some folder; rq_email := None;
     rq_reason := Some why; rq_payload := None; rq_priority := prio; rq_delay := delay |}.

Definition enqueue_ingest_email (max_attempts_ : Z) (mailbox email : uuid) (why : string) (key : option string)
    (prio : Z) (fresh : uuid) : Request :=
  {| rq_type := JobType.INGEST_EMAIL;
     rq_key := if truthy_str key then default "" key else "ingest:" +:+ email +:+ ":" +:+ fresh;
     rq_max_attempts := max_attempts_; rq_mailbox := Some mailbox; rq_folder := None; rq_email := Some email;
     rq_reason := Some why; rq_payload := None; rq_priority := prio; rq_delay := 0 |}.

Definition enqueue_classify_email (max_attempts_ : Z) (mailbox email : uuid) (why : string)
    (reclassification : bool) (fresh : uuid) : Request :=
  {| rq_type := JobType.CLASSIFY_EMAIL;
     rq_key := "classify:" +:+ email +:+ ":" +:+ (if reclassification then "reclass" else "initial") +:+ ":" +:+ fresh;
     rq_max_attempts := max_attempts_; rq_mailbox := Some mailbox; rq_folder := None; rq_email := Some email;
     rq_reason := Some why; rq_payload := Some [("reclassification", JBool reclassification)]; rq_priority := 80;
     rq_delay := 0 |}.

Definition enqueue_subscription_maintenance (t : JobType.JobType) (max_attempts_ : Z) (mailbox folder : uuid)
    (why : string) (key : option string) (prio : Z) (fresh : uuid) : result exn Request :=
  if bool_decide (t ∉ [JobType.ENSURE_SUBSCRIPTION; JobType.RENEW_SUBSCRIPTION; JobType.RECREATE_SUBSCRIPTION])
  then Err ValueError
  else Ok {| rq_type := t;
     rq_key := if truthy_str key then default "" key else str_lower (value t) +:+ ":" +:+ folder +:+ ":" +:+ fresh;
     rq_max_attempts := max_attempts_; rq_mailbox := Some mailbox; rq_folder := Some folder; rq_email := None;
     rq_reason := Some why; rq_payload := None; rq_priority := prio; rq_delay := 0 |}.

(** ** The lease on a folder's synchronization ([app/jobs/leasing.py]) *)

Record SyncLease := { sl_owner : option string; sl_expires : option instant }.

Definition acquire_sync_lease (owner : string) (lease_seconds : Z) (now : instant) (l : SyncLease)
    : bool * SyncLease :=
  if bool_decide (sl_owner l = None) || match sl_expires l with Some t => t <? now | None => false end ||
     bool_decide (sl_owner l = Some owner)
  then (true, {| sl_owner := Some owner; sl_expires := Some (now + lease_seconds * SECOND) |})
  else (false, l).

Definition release_sync_lease (owner : string) (l : SyncLease) : SyncLease :=
  if bool_decide (sl_owner l = Some owner) then {| sl_owner := None; sl_expires := None |} else l.

(** ** The constraints *)

Lemma omap_weaker {A B} (g h : A -> option B) (l : list A) :
  (forall x, x ∈ l -> g x = h x \/ g x = None) -> omap g l `sublist_of` omap h l.
Proof.
  induction l as [|x l IH]; intros H; [done|]. simpl.
  assert (omap g l `sublist_of` omap h l) as Hl by (apply IH; intros y Hy; apply H; by right).
  destruct (H x) as [-> | ->]; [left | |]; destruct (h x); try done; by constructor.
Qed.

Lemma omap_fmap {A B C} (f : B -> option C) (g : A -> B) (l : list A) : omap f (g <$> l) = omap (fun x => f (g x)) l.
Proof. induction l as [|x l IH]; [done|]. csimpl. by rewrite IH. Qed.

(** A map over the rows that keeps the keys and keeps or drops the index entries. *)
Lemma table_ok_map (f : GraphJob -> GraphJob) jobs :
  (forall j, j ∈ jobs -> idempotency_key (f j) = idempotency_key j) ->
  (forall j, j ∈ jobs -> index_key (f j) = index_key j \/ index_key (f j) = None) ->
  table_ok jobs -> table_ok (f <$> jobs).
Proof.
  intros Hk Hi [H1 H2]. split.
  - rewrite <-list_fmap_compose. erewrite list_fmap_ext; [exact H1|]. intros i x Hx. simpl. apply Hk.
    by eapply list_elem_of_lookup_2.
  - rewrite omap_fmap. eapply sublist_NoDup; [exact H2|]. by apply omap_weaker.
Qed.

Lemma table_ok_update i f jobs :
  (forall j, j ∈ jobs -> job_id j = i -> idempotency_key (f j) = idempotency_key j) ->
  (forall j, j ∈ jobs -> job_id j = i -> index_key (f j) = index_key j \/ index_key (f j) = None) ->
  table_ok jobs -> table_ok (update_row i f jobs).
Proof.
  intros Hk Hi. apply table_ok_map; intros j Hj; case_bool_decide; auto.
Qed.

Lemma commit_ok jobs : table_ok jobs -> commit jobs = Ok jobs.
Proof. intros H. unfold commit. by rewrite bool_decide_eq_true_2. Qed.

Lemma commit_Ok jobs jobs' : commit jobs = Ok jobs' -> jobs' = jobs /\ table_ok jobs.
Proof. unfold commit. case_bool_decide; [intros [= <-]; done | discriminate]. Qed.

Lemma commit_Err jobs e : commit jobs = Err e -> e = IntegrityError /\ ~ table_ok jobs.
Proof. unfold commit. case_bool_decide; [discriminate | intros [= <-]; done]. Qed.

(** The entry depends on four columns only. *)
Lemma index_key_ext j j' :
  status j = status j' -> job_type j = job_type j' -> folder_id j = folder_id j' -> email_id j = email_id j' ->
  index_key j = index_key j'.
Proof. intros E1 E2 E3 E4. unfold index_key, job_active. by rewrite E1, E2, E3, E4. Qed.

Lemma index_key_inactive j : job_active j = false -> index_key j = None.
Proof. intros E. unfold index_key. by rewrite E. Qed.

Lemma index_key_update (j : GraphJob) (p : Progress) :
  (p_status p ∈ ACTIVE_JOB_STATUSES -> status j ∈ ACTIVE_JOB_STATUSES) ->
  index_key (set_progress p j) = index_key j \/ index_key (set_progress p j) = None.
Proof.
  intros H. unfold index_key, job_active. cbn [set_progress status job_type folder_id email_id].
  destruct (bool_decide (p_status p ∈ _)) eqn:E; [|by right]. apply bool_decide_eq_true in E.
  rewrite (bool_decide_eq_true_2 (status j ∈ _)) by by apply H. by left.
Qed.

(** ** Enqueueing finds or makes a job *)

(** What an index entry says. *)
Lemma index_key_Some j t x :
  index_key j = Some (t, x) ->
  job_active j = true /\ job_type j = t /\
  ((t = value JobType.SYNC_FOLDER /\ folder_id j = Some x) \/
   (t ∈ value <$> [JobType.INGEST_EMAIL; JobType.CLASSIFY_EMAIL] /\ email_id j = Some x)).
Proof.
  unfold index_key. destruct (job_active j); [|discriminate].
  destruct (decide (job_type j = value JobType.SYNC_FOLDER)) as [E1|E1].
  - rewrite bool_decide_eq_true_2 by done. destruct (folder_id j) as [f|] eqn:Ef; [|discriminate].
    intros [= <- <-]. split; [done|]. split; [done|]. by left.
  - rewrite bool_decide_eq_false_2 by done.
    destruct (bool_decide (job_type j ∈ _)) eqn:E2; [|discriminate]. apply bool_decide_eq_true in E2.
    destruct (email_id j) as [e|] eqn:Ee; [|discriminate].
    intros [= <- <-]. split; [done|]. split; [done|]. by right.
Qed.

(** Jobs that share an index entry are active for the same request. *)
Lemma index_active i q now j k :
  index_key (new_job i q now) = Some k -> index_key j = Some k ->
  active_for (rq_type q) (rq_folder q) (rq_email q) j = true.
Proof.
  destruct k as [t x]. intros (_ & Ht & Hq)%index_key_Some (Ha & Hj & Hx)%index_key_Some.
  cbn [new_job job_type folder_id email_id] in Ht, Hq. unfold active_for.
  rewrite Ha, Hj, Ht, bool_decide_eq_true_2 by done. cbn [andb]. subst t.
  assert (value JobType.SYNC_FOLDER ∉ value <$> [JobType.INGEST_EMAIL; JobType.CLASSIFY_EMAIL]) as Hno
    by (apply (bool_decide_unpack _); vm_compute; exact I).
  destruct Hq as [[Et Eq]|[Et Eq]], Hx as [[Et' Ex]|[Et' Ex]];
    try (exfalso; apply Hno; congruence); rewrite Eq, Ex.
  - apply value_inj in Et as ->. rewrite bool_decide_eq_false_2 by (apply (bool_decide_unpack _); vm_compute; exact I).
    rewrite bool_decide_eq_true_2 by left. by rewrite bool_decide_eq_true_2.
  - apply list_elem_of_fmap in Et as (u & Eu%value_inj & Hu). subst u.
    rewrite bool_decide_eq_true_2 by done. by rewrite bool_decide_eq_true_2.
Qed.

(** Coalescing touches a reason and a priority. *)
Lemma coalesce_same job r n jobs :
  (fun j => (job_id j, idempotency_key j, index_key j, progress j)) <$> coalesce_row job r n jobs =
  (fun j => (job_id j, idempotency_key j, index_key j, progress j)) <$> jobs.
Proof.
  unfold coalesce_row, update_row. rewrite <-list_fmap_compose. apply list_fmap_ext. intros i x _. simpl.
  by case_bool_decide.
Qed.

Lemma coalesce_table_ok job r n jobs : table_ok jobs -> table_ok (coalesce_row job r n jobs).
Proof. apply table_ok_update; [done|]. intros j _ _. by left. Qed.

(** An enqueued request always gets a job and never an error, even when another
    transaction wins the race between the look-ups and the insert: the job either has
    the request's key or is active for its target.  A created job is pending and is
    the only change to the table; otherwise no job's progress changes.  The table's
    constraints are kept, and enqueueing the same key again returns the created job
    and changes nothing. *)
Theorem enqueue_spec i q now seen jobs :
  table_ok jobs ->
  exists r jobs', enqueue i q now seen jobs = Ok (r, jobs') /\ table_ok jobs' /\
    (idempotency_key (er_job r) = rq_key q \/ active_for (rq_type q) (rq_folder q) (rq_email q) (er_job r) = true) /\
    if er_created r then
      er_job r = new_job i q now /\ status (er_job r) = value JobStatus.PENDING /\ jobs' = jobs ++ [er_job r] /\
      forall i2 q2 now2, rq_key q2 = rq_key q ->
        enqueue i2 q2 now2 jobs' jobs' =
          Ok ({| er_job := er_job r; er_created := false; er_coalesced := false |}, jobs')
    else
      (fun j => (job_id j, idempotency_key j, index_key j, progress j)) <$> jobs' =
      (fun j => (job_id j, idempotency_key j, index_key j, progress j)) <$> jobs.
Proof.
  intros Hok. unfold enqueue at 1.
  assert (forall s job, _find_active_for_target (rq_type q) (rq_folder q) (rq_email q) s = Some job ->
    exists r jobs', Ok ({| er_job := _coalesce_into job (rq_reason q) (rq_priority q); er_created := false;
                           er_coalesced := true |}, coalesce_row job (rq_reason q) (rq_priority q) jobs) = 
                    @Ok exn _ (r, jobs') /\ table_ok jobs' /\
      (idempotency_key (er_job r) = rq_key q \/ active_for (rq_type q) (rq_folder q) (rq_email q) (er_job r) = true) /\
      er_created r = false /\
      (fun j => (job_id j, idempotency_key j, index_key j, progress j)) <$> jobs' =
      (fun j => (job_id j, idempotency_key j, index_key j, progress j)) <$> jobs) as Hcoal.
  { intros s job [_ Hj]%head_filter_Some. eexists _, _. split; [done|]. cbn [er_job er_created].
    split; [by apply coalesce_table_ok|]. split; [right; exact Hj|]. split; [done | apply coalesce_same]. }
  destruct (find_key (rq_key q) seen) as [j|] eqn:Ek.
  { apply head_filter_Some in Ek as [_ Ek]. eexists _, _. split; [done|]. cbn [er_job er_created].
    split; [done|]. split; [by left | done]. }
  destruct (_find_active_for_target _ _ _ seen) as [job|] eqn:Ea.
  { destruct (Hcoal _ _ Ea) as (r & jobs' & -> & H1 & H2 & H3 & H4). exists r, jobs'. by rewrite H3. }
  destruct (commit (jobs ++ [new_job i q now])) as [jobs'|e] eqn:Ec.
  - apply commit_Ok in Ec as [-> Hok']. eexists _, _. split; [done|]. cbn [er_job er_created].
    split; [done|]. split; [by left|]. split_and!; [done | done | done|].
    intros i2 q2 now2 Eq. unfold enqueue, find_key. rewrite Eq, filter_app.
    assert (filter (fun j => idempotency_key j = rq_key q) jobs = []) as ->.
    { apply filter_none. intros x Hx Ex. destruct Hok' as [Hnd _]. rewrite fmap_app in Hnd.
      apply NoDup_app in Hnd as (_ & Hnd & _). apply (Hnd (idempotency_key x)); [by apply list_elem_of_fmap_2|].
      rewrite Ex. left. }
    rewrite filter_cons, filter_nil, decide_True; done.
  - apply commit_Err in Ec as [-> Hbad].
    destruct (find_key (rq_key q) jobs) as [j|] eqn:Ek2.
    { apply head_filter_Some in Ek2 as [_ Ek2]. eexists _, _. split; [done|]. cbn [er_job er_created].
      split; [done|]. split; [by left | done]. }
    destruct (_find_active_for_target _ _ _ jobs) as [job|] eqn:Ea2.
    { destruct (Hcoal _ _ Ea2) as (r & jobs' & -> & H1 & H2 & H3 & H4). exists r, jobs'. by rewrite H3. }
    exfalso. apply Hbad. destruct Hok as [H1 H2]. split.
    + rewrite fmap_app. apply NoDup_app. split_and!; [done | | apply NoDup_singleton].
      intros k (x & -> & Hx)%list_elem_of_fmap Hk%list_elem_of_singleton.
      by apply (head_filter_None _ _ Ek2 x).
    + rewrite omap_app. apply NoDup_app. split_and!; [done | |].
      * intros k (x & Hx & Hkx)%list_elem_of_omap. simpl. destruct (index_key (new_job i q now)) as [k'|] eqn:E;
          [|apply not_elem_of_nil].
        intros ->%list_elem_of_singleton. apply (head_filter_None _ _ Ea2 x Hx). by eapply index_active.
      * simpl. destruct (index_key (new_job i q now)); [apply NoDup_singleton | apply NoDup_nil_2].
Qed.

(** ** Claiming *)

Lemma claim_leb_total a b : claim_leb a b = true \/ claim_leb b a = true.
Proof.
  unfold claim_leb. destruct (Z.ltb_spec (priority a) (priority b)); [by left|].
  destruct (Z.ltb_spec (priority b) (priority a)); [by right|].
  destruct (Z.ltb_spec (available_at a) (available_at b)); [by left|].
  destruct (Z.ltb_spec (available_at b) (available_at a)); [by right|]. lia.
Qed.

(** The order as a relation on the three columns. *)
Lemma claim_leb_true a b :
  claim_leb a b = true <->
  priority a < priority b \/ (priority a = priority b /\
    (available_at a < available_at b \/ (available_at a = available_at b /\ created_at a <= created_at b))).
Proof.
  unfold claim_leb. destruct (Z.ltb_spec (priority a) (priority b)); [split; [by left | done]|].
  destruct (Z.ltb_spec (priority b) (priority a)); [split; [done | lia]|].
  destruct (Z.ltb_spec (available_at a) (available_at b)); [split; [lia | done]|].
  destruct (Z.ltb_spec (available_at b) (available_at a)); [split; [done | lia]|]. lia.
Qed.

Lemma claim_leb_trans a b c : claim_leb a b = true -> claim_leb b c = true -> claim_leb a c = true.
Proof. rewrite !claim_leb_true. lia. Qed.

(** A claim changes the index entry only of a job that was waiting for a retry. *)
Lemma claimed_index worker secs now j :
  status j = value JobStatus.PENDING -> index_key (claimed worker secs now j) = index_key j.
Proof. intros E. unfold index_key, job_active. cbn [claimed set_progress status]. by rewrite E. Qed.

Lemma claimable_status types locked now j :
  claimable types locked now j = true ->
  (status j = value JobStatus.PENDING \/ status j = value JobStatus.FAILED_RETRYABLE) /\ available_at j <= now /\
  job_id j ∉ locked.
Proof.
  unfold claimable. rewrite !andb_true_iff, !bool_decide_eq_true. intros [[[Hs Ha] _] Hl].
  change (status j ∈ [value JobStatus.PENDING; value JobStatus.FAILED_RETRYABLE]) in Hs.
  rewrite !elem_of_cons, elem_of_nil in Hs. split; [tauto|]. split; [lia | done].
Qed.

(** Another job is active for what the index keeps one of. *)
Definition target_busy (j : GraphJob) (jobs : list GraphJob) : Prop :=
  exists k x, k ∈ jobs /\ job_id k <> job_id j /\ job_active k = true /\ index_key k = Some x /\
    index_key (set_progress {| p_status := value JobStatus.RUNNING; p_attempts := attempts j;
      p_available_at := available_at j; p_lease_owner := None; p_lease_expires_at := None; p_started_at := None;
      p_completed_at := None; p_error_code := None; p_error_message := None |} j) = Some x.

Lemma update_row_ids i f jobs :
  (forall j, job_id (f j) = job_id j) -> job_id <$> update_row i f jobs = job_id <$> jobs.
Proof.
  intros Hf. unfold update_row. rewrite <-list_fmap_compose. apply list_fmap_ext. intros ? x _. simpl.
  by case_bool_decide.
Qed.

(** Updating a row by its identifier replaces it in place. *)
Lemma update_row_split i f jobs j :
  NoDup (job_id <$> jobs) -> j ∈ jobs -> job_id j = i ->
  exists l1 l2, jobs = l1 ++ j :: l2 /\ update_row i f jobs = l1 ++ f j :: l2 /\
    forall k, k ∈ l1 ++ l2 -> job_id k <> i.
Proof.
  intros Hnd (l1 & l2 & ->)%list_elem_of_split <-. exists l1, l2. split; [done|].
  rewrite fmap_app, fmap_cons in Hnd. apply NoDup_app in Hnd as (_ & H1 & [H2 _]%NoDup_cons).
  assert (forall k, k ∈ l1 ++ l2 -> job_id k <> job_id j) as Hne.
  { intros k [Hk|Hk]%elem_of_app E.
    - apply (H1 (job_id k)); [by apply list_elem_of_fmap_2 | rewrite E; left].
    - apply H2. rewrite <-E. by apply list_elem_of_fmap_2. }
  split; [|exact Hne]. unfold update_row. rewrite fmap_app, fmap_cons, bool_decide_eq_true_2 by done.
  f_equal; [|f_equal]; apply fmap_id_in; intros k Hk; rewrite bool_decide_eq_false_2; try done;
    apply Hne, elem_of_app; auto.
Qed.

(** Replacing one row of a good table by a row with the same key. *)
Lemma update_conflict i j' jobs j :
  NoDup (job_id <$> jobs) -> j ∈ jobs -> job_id j = i -> idempotency_key j' = idempotency_key j ->
  table_ok jobs -> ~ table_ok (update_row i (fun _ => j') jobs) ->
  exists k x, k ∈ jobs /\ job_id k <> i /\ index_key k = Some x /\ index_key j' = Some x.
Proof.
  intros Hids Hj Hi Hkey Hok Hbad.
  destruct (update_row_split i (fun _ => j') jobs j Hids Hj Hi) as (l1 & l2 & -> & Hu & Hne).
  rewrite Hu in Hbad. clear Hu. destruct Hok as [H1 H2].
  destruct (index_key j') as [x|] eqn:Ex; [destruct (decide (x ∈ omap index_key (l1 ++ l2))) as [Hx|Hx]|].
  1: { apply list_elem_of_omap in Hx as (k & Hk & Ek). exists k, x. split_and!; [|by apply Hne | done | done].
       rewrite elem_of_app, elem_of_cons. apply elem_of_app in Hk. tauto. }
  all: exfalso; apply Hbad; split;
    [rewrite fmap_app, fmap_cons in H1 |- *; by rewrite Hkey|].
  all: assert (NoDup (omap index_key (l1 ++ l2))) as Hrest
    by (eapply sublist_NoDup; [exact H2|]; rewrite !omap_app; csimpl; destruct (index_key j); [|done];
        apply sublist_app; [done | by constructor]).
  all: rewrite omap_app; csimpl; rewrite Ex.
  - assert (omap index_key l1 ++ x :: omap index_key l2 ≡ₚ x :: omap index_key (l1 ++ l2)) as ->
      by (rewrite omap_app; symmetry; apply Permutation_middle).
    by constructor.
  - by rewrite <-omap_app.
Qed.

(** A claim takes the due job that comes first by priority, then by due time, then
    by age: it is never running, nor locked by another worker.  The job becomes
    RUNNING for this worker, its lease ends after the lease time and its attempts grow
    by one; no other row changes.  Nothing is claimed exactly when nothing is due.  A
    claim raises only for a job waiting for a retry while another job is active for
    the same target. *)
Theorem claim_next_spec worker secs types locked now jobs :
  table_ok jobs -> NoDup (job_id <$> jobs) ->
  match claim_next worker secs types locked now jobs with
  | Ok (None, jobs') => jobs' = jobs /\ forall j, j ∈ jobs -> claimable types locked now j = false
  | Ok (Some j', jobs') => exists l1 j l2, jobs = l1 ++ j :: l2 /\ jobs' = l1 ++ j' :: l2 /\ table_ok jobs' /\
      claimable types locked now j = true /\
      (forall k, k ∈ jobs -> claimable types locked now k = true -> claim_leb j k = true) /\
      job_id j' = job_id j /\ status j' = value JobStatus.RUNNING /\ lease_owner j' = Some worker /\
      lease_expires_at j' = Some (now + secs * SECOND) /\ attempts j' = attempts j + 1
  | Err e => e = IntegrityError /\ exists j, j ∈ jobs /\ status j = value JobStatus.FAILED_RETRYABLE /\
      claimable types locked now j = true /\ target_busy j jobs
  end.
Proof.
  intros Hok Hids. unfold claim_next.
  destruct (py_sorted claim_leb (filter (fun j => claimable types locked now j = true) jobs)) as [|j l] eqn:E.
  { split; [done|]. intros j Hj. destruct (claimable types locked now j) eqn:Ec; [|done]. exfalso.
    assert (j ∈ py_sorted claim_leb (filter (fun j => claimable types locked now j = true) jobs)) as Hin
      by (apply elem_of_py_sorted, list_elem_of_filter; done).
    rewrite E in Hin. by apply not_elem_of_nil in Hin. }
  assert (j ∈ filter (fun j => claimable types locked now j = true) jobs) as [Hc Hj]%list_elem_of_filter
    by (apply (elem_of_py_sorted claim_leb); rewrite E; left).
  assert (forall k, k ∈ jobs -> claimable types locked now k = true -> claim_leb j k = true) as Hmin.
  { intros k Hk Hck. eapply (py_sorted_head_le claim_leb claim_leb_total claim_leb_trans); [by rewrite E|].
    by apply list_elem_of_filter. }
  set (j' := claimed worker secs now j).
  destruct (update_row_split (job_id j) (fun _ => j') jobs j Hids Hj eq_refl) as (l1 & l2 & Ej & Eu & _).
  destruct (commit (update_row (job_id j) (fun _ => j') jobs)) as [jobs'|e] eqn:Ec; msimpl.
  - apply commit_Ok in Ec as [-> Hok']. exists l1, j, l2. by split_and!.
  - apply commit_Err in Ec as [-> Hbad]. split; [done|]. exists j.
    destruct (update_conflict _ j' _ _ Hids Hj eq_refl eq_refl Hok Hbad) as (k & x & Hk & Hki & Ek & Ej').
    apply claimable_status in Hc as Hs. destruct Hs as ([Hs|Hs] & _).
    + exfalso. unfold j' in Ej'. rewrite claimed_index in Ej' by done.
      by destruct (NoDup_omap_inj index_key jobs k j x (proj2 Hok) Hk Hj Ek Ej').
    + split_and!; [done..|]. exists k, x. split_and!; [done | done | | done | exact Ej'].
      destruct (job_active k) eqn:Ea; [done|]. by rewrite index_key_inactive in Ek.
Qed.

(** ** Leases *)

(** A job is running exactly while it has an owner, and then its lease has an end. *)
Definition lease_ok (j : GraphJob) : Prop :=
  (status j = value JobStatus.RUNNING <-> is_Some (lease_owner j)) /\
  (is_Some (lease_owner j) <-> is_Some (lease_expires_at j)).

(** What a claim returned. *)
Definition is_claim (j : GraphJob) : Prop :=
  status j = value JobStatus.RUNNING /\ is_Some (lease_owner j) /\ is_Some (lease_expires_at j).

(** What the outcomes write: a status that is not running, and no lease. *)
Definition ends_claim (p : Progress) : Prop :=
  p_status p ∈ value <$> [JobStatus.COMPLETED; JobStatus.FAILED_RETRYABLE; JobStatus.FAILED_REVIEW] /\
  p_lease_owner p = None /\ p_lease_expires_at p = None.

Lemma sent_ne {A} `{EqDecision A} (loaded new row : A) : new <> loaded -> sent loaded new row = new.
Proof. intros H. unfold sent. by rewrite bool_decide_eq_false_2. Qed.

Lemma sent_fresh {A} `{EqDecision A} (new row : A) : sent row new row = new.
Proof. unfold sent. by case_bool_decide. Qed.

Lemma not_running s :
  s ∈ value <$> [JobStatus.COMPLETED; JobStatus.FAILED_RETRYABLE; JobStatus.FAILED_REVIEW] ->
  s <> value JobStatus.RUNNING /\ s ∉ ACTIVE_JOB_STATUSES.
Proof.
  intros Hs. assert (Forall (fun s => s <> value JobStatus.RUNNING /\ s ∉ ACTIVE_JOB_STATUSES)
    (value <$> [JobStatus.COMPLETED; JobStatus.FAILED_RETRYABLE; JobStatus.FAILED_REVIEW])) as H
    by (apply (bool_decide_unpack _); vm_compute; exact I).
  rewrite Forall_forall in H. by apply H.
Qed.

(** An outcome written through a claim always reaches the row. *)
Lemma send_ends job p row :
  is_claim job -> ends_claim p ->
  let row' := send_progress (progress job) p row in
  status row' = p_status p /\ lease_owner row' = None /\ lease_expires_at row' = None /\
  job_active row' = false /\ lease_ok row'.
Proof.
  intros (Hs & [o Ho] & [t Ht]) (Hp & Ho' & Ht'). apply not_running in Hp as [Hp Ha]. cbv zeta.
  assert (sent (status job) (p_status p) (status row) = p_status p) as E1 by (apply sent_ne; congruence).
  assert (sent (lease_owner job) (p_lease_owner p) (lease_owner row) = None) as E2
    by (rewrite Ho', Ho; by apply sent_ne).
  assert (sent (lease_expires_at job) (p_lease_expires_at p) (lease_expires_at row) = None) as E3
    by (rewrite Ht', Ht; by apply sent_ne).
  unfold lease_ok, job_active. unfold send_progress.
  cbn [progress set_progress status lease_owner lease_expires_at p_status p_lease_owner p_lease_expires_at].
  rewrite E1, E2, E3. do 3 (split; [reflexivity|]). split; [by rewrite bool_decide_eq_false_2|].
  split; [split; [done | by intros [? ?]] | done].
Qed.

Lemma write_ends job p jobs :
  is_claim job -> ends_claim p -> table_ok jobs ->
  write_progress job p jobs = Ok (update_row (job_id job) (send_progress (progress job) p) jobs) /\
  table_ok (update_row (job_id job) (send_progress (progress job) p) jobs).
Proof.
  intros Hc Hp Hok.
  assert (table_ok (update_row (job_id job) (send_progress (progress job) p) jobs)) as H.
  { apply table_ok_update; [done | | done]. intros j _ _. right. apply index_key_inactive. by apply send_ends. }
  split; [|done]. unfold write_progress. by apply commit_ok.
Qed.

(** The table and the claims workers hold; a claim may be used long after its lease. *)
Record World := { w_jobs : list GraphJob; w_held : list GraphJob }.

Inductive step : World -> World -> Prop :=
| step_enqueue i q now seen jobs held r jobs' :
    i ∉ job_id <$> jobs -> enqueue i q now seen jobs = Ok (r, jobs') -> step (Build_World jobs held) (Build_World jobs' held)
| step_claim worker secs types locked now jobs held j jobs' :
    claim_next worker secs types locked now jobs = Ok (Some j, jobs') ->
    step (Build_World jobs held) (Build_World jobs' (j :: held))
| step_extend i worker secs now jobs held :
    step (Build_World jobs held) (Build_World (extend_lease i worker secs now jobs).2 held)
| step_recover now jobs held n jobs' :
    recover_expired_leases now jobs = Ok (n, jobs') -> step (Build_World jobs held) (Build_World jobs' held)
| step_completed job now jobs held jobs' :
    job ∈ held -> mark_completed job now jobs = Ok jobs' -> step (Build_World jobs held) (Build_World jobs' held)
| step_retryable uniform job code message base max now jobs held jobs' :
    job ∈ held -> mark_retryable_failure uniform job code message base max now jobs = Ok jobs' ->
    step (Build_World jobs held) (Build_World jobs' held)
| step_review job code message now jobs held jobs' :
    job ∈ held -> mark_review_failure job code message now jobs = Ok jobs' ->
    step (Build_World jobs held) (Build_World jobs' held).

Record world_ok (w : World) : Prop := {
  ok_table : table_ok (w_jobs w);
  ok_ids : NoDup (job_id <$> w_jobs w);
  ok_leases : Forall lease_ok (w_jobs w);
  ok_held : Forall is_claim (w_held w)
}.

Lemma recover_table_ok now jobs :
  table_ok jobs -> table_ok ((fun j => if lease_expired now j then recovered j else j) <$> jobs).
Proof.
  apply table_ok_map; intros j _; [by destruct (lease_expired now j)|]. left.
  destruct (lease_expired now j) eqn:E; [|done]. unfold lease_expired in E. apply andb_true_iff in E as [E _].
  apply bool_decide_eq_true in E. unfold index_key, job_active. cbn [recovered set_progress status]. by rewrite E.
Qed.

Lemma world_write jobs held job p jobs' :
  world_ok (Build_World jobs held) -> job ∈ held -> ends_claim p -> write_progress job p jobs = Ok jobs' ->
  world_ok (Build_World jobs' held).
Proof.
  intros [H1 H2 H3 H4] Hj Hp Hw. cbn [w_jobs w_held] in *. rewrite Forall_forall in H4. specialize (H4 job Hj) as Hc.
  destruct (write_ends job p jobs Hc Hp H1) as [E Hok]. rewrite E in Hw. injection Hw as <-.
  split; cbn [w_jobs w_held]; [done | by rewrite update_row_ids | | by apply Forall_forall].
  apply Forall_fmap, (Forall_impl _ _ _ H3). intros j Hl. simpl. case_bool_decide; [by apply send_ends | done].
Qed.

Lemma step_ok w w' : world_ok w -> step w w' -> world_ok w'.
Proof.
  intros Hw. destruct 1 as [i q now seen jobs held r jobs' Hi He|worker secs types locked now jobs held j jobs' Hc
    |i worker secs now jobs held|now jobs held n jobs' Hr|job now jobs held jobs' Hj Hm
    |uniform job code message base max now jobs held jobs' Hj Hm|job code message now jobs held jobs' Hj Hm];
    [| | | |by eapply world_write; [| | |exact Hm]; try done; split_and!; apply (bool_decide_unpack _); vm_compute; exact I..].
  all: destruct Hw as [H1 H2 H3 H4]; cbn [w_jobs w_held] in *.
  - destruct (enqueue_spec i q now seen jobs H1) as (r' & jobs2 & He' & Hok & _ & Hr).
    rewrite He in He'. injection He' as <- <-. destruct (er_created r).
    + destruct Hr as (Er & _ & -> & _). rewrite Er in *. split; cbn [w_jobs w_held]; [done | | | done].
      * rewrite fmap_app. apply NoDup_app. split_and!; [done | | apply NoDup_singleton].
        intros x Hx ->%list_elem_of_singleton. done.
      * apply Forall_app. split; [done|]. apply Forall_singleton.
        split; split; first [discriminate | by intros [? ?]].
    + split; cbn [w_jobs w_held]; [done | | | done].
      * assert (job_id <$> jobs' = job_id <$> jobs) as ->; [|done].
        apply (f_equal (fmap (fun t => t.1.1.1))) in Hr. by rewrite <-!list_fmap_compose in Hr.
      * assert (progress <$> jobs' = progress <$> jobs) as E.
        { apply (f_equal (fmap (fun t => t.2))) in Hr. by rewrite <-!list_fmap_compose in Hr. }
        set (P := fun p => (p_status p = value JobStatus.RUNNING <-> is_Some (p_lease_owner p)) /\
                  (is_Some (p_lease_owner p) <-> is_Some (p_lease_expires_at p))).
        change (Forall (P ∘ progress) jobs'). rewrite <-Forall_fmap, E. by apply Forall_fmap.
  - pose proof (claim_next_spec worker secs types locked now jobs H1 H2) as Hs. rewrite Hc in Hs.
    destruct Hs as (l1 & k & l2 & -> & -> & Hok & _ & _ & Eid & Est & Eow & Eex & _).
    split; cbn [w_jobs w_held]; [done | | |].
    + rewrite fmap_app, fmap_cons in H2 |- *. by rewrite Eid.
    + apply Forall_app in H3 as [F1 [_ F2]%Forall_cons]. apply Forall_app. split; [done|]. apply Forall_cons.
      split; [|done]. unfold lease_ok. rewrite Est, Eow, Eex. split; split; intros _; done || by eexists.
    + apply Forall_cons. split; [|done]. split_and!; [done | by rewrite Eow; eexists | by rewrite Eex; eexists].
  - split; cbn [w_jobs w_held extend_lease snd]; [| | | done].
    + apply table_ok_map; [| |done]; intros j _; destruct (_ && _); auto.
    + rewrite <-list_fmap_compose. erewrite list_fmap_ext; [exact H2|]. intros a x _. simpl. by destruct (_ && _).
    + apply Forall_fmap, (Forall_impl _ _ _ H3). intros j [Hl1 Hl2]. simpl. destruct (_ && _) eqn:E; [|by split].
      rewrite !andb_true_iff, !bool_decide_eq_true in E. destruct E as [[_ Eo] _].
      split; [exact Hl1|]. cbn [set_progress lease_owner lease_expires_at]. rewrite Eo. split; intros _; by eexists.
  - apply bind_Ok_inv in Hr as (jobs2 & [-> Hok]%commit_Ok & [<- <-]%Ok_pair_inj).
    split; cbn [w_jobs w_held]; [done | | | done].
    + rewrite <-list_fmap_compose. erewrite list_fmap_ext; [exact H2|]. intros a x _. simpl. by destruct (lease_expired now x).
    + apply Forall_fmap, (Forall_impl _ _ _ H3). intros j Hl. simpl. destruct (lease_expired now j); [|done].
      split; split; first [discriminate | by intros [? ?]].
Qed.

(** C2. Leases are sound in every reachable queue, even when workers report outcomes
    long after their lease was lost: the table's constraints hold, identifiers are
    unique, and a job is RUNNING exactly while it has an owner and a lease end.  So no
    job is lost to a dead worker: a recovery never raises, and returns every RUNNING
    job whose lease has ended to the queue, from which it can be claimed at once. *)
Theorem leases_sound w w' :
  world_ok w -> rtc step w w' ->
  world_ok w' /\
  forall now, exists n jobs', recover_expired_leases now (w_jobs w') = Ok (n, jobs') /\
    forall j t, j ∈ w_jobs w' -> status j = value JobStatus.RUNNING -> lease_expires_at j = Some t -> t < now ->
      recovered j ∈ jobs' /\ (available_at j <= now -> claimable None ∅ now (recovered j) = true).
Proof.
  intros Hw Hr. assert (world_ok w') as Hw' by (induction Hr; eauto using step_ok).
  split; [done|]. intros now. destruct Hw' as [H1 H2 H3 _]. unfold recover_expired_leases.
  rewrite commit_ok by by apply recover_table_ok. eexists _, _. split; [reflexivity|].
  intros j t Hj Hs Ht Hlt. split.
  - apply list_elem_of_fmap. exists j. split; [|done]. unfold lease_expired. rewrite Hs, Ht.
    rewrite bool_decide_eq_true_2 by done. by rewrite (proj2 (Z.ltb_lt t now) Hlt).
  - intros Ha. unfold claimable. cbn [recovered set_progress status available_at job_type job_id p_status p_available_at].
    rewrite bool_decide_eq_true_2 by (left). rewrite (proj2 (Z.leb_le _ _) Ha). 
    by rewrite bool_decide_eq_true_2 by apply not_elem_of_empty.
Qed.

(** ** The retry policy *)

Lemma seconds_us_near q :
  Qfloor (q * inject_Z SECOND) <= seconds_us q <= Qfloor (q * inject_Z SECOND) + 1.
Proof. unfold seconds_us. destruct (Qcompare _ _); [|lia|lia]. destruct (Z.even _); lia. Qed.

Lemma seconds_us_mono a b : (a <= b)%Q -> seconds_us a <= seconds_us b.
Proof.
  intros Hab. assert (a * inject_Z SECOND <= b * inject_Z SECOND)%Q as Hx by (by apply Qmult_le_compat_r).
  pose proof (Qfloor_resp_le _ _ Hx) as Hn. pose proof (seconds_us_near a). pose proof (seconds_us_near b).
  destruct (Z.eq_dec (Qfloor (a * inject_Z SECOND)) (Qfloor (b * inject_Z SECOND))) as [E|]; [|lia].
  unfold seconds_us in *. rewrite E in *. set (n := Qfloor (b * inject_Z SECOND)) in *.
  assert (a * inject_Z SECOND - inject_Z n <= b * inject_Z SECOND - inject_Z n)%Q as Hr
    by (apply Qplus_le_compat; [done | apply Qle_refl]).
  destruct (Qcompare_spec (a * inject_Z SECOND - inject_Z n) (1 # 2)) as [E1|L1|G1];
    destruct (Qcompare_spec (b * inject_Z SECOND - inject_Z n) (1 # 2)) as [E2|L2|G2];
    try (destruct (Z.even n); lia); exfalso.
  - rewrite E1 in Hr. by apply (Qle_not_lt _ _ Hr).
  - rewrite <-E2 in G1. by apply (Qle_not_lt _ _ Hr).
  - apply (Qle_not_lt _ _ Hr). by eapply Qlt_trans.
Qed.

(** [random.uniform(0, e)] lies between its bounds. *)
Definition uniform_ok (uniform : Q -> Q) : Prop := forall e, (0 <= e -> 0 <= uniform e <= e)%Q.

Lemma backoff_bounds uniform n base max :
  uniform_ok uniform -> (0 <= base)%Q -> (0 <= max)%Q ->
  (0 <= backoff_delay uniform n base max None <= max)%Q.
Proof.
  intros Hu Hb Hm. unfold backoff_delay. set (x := (base * _)%Q).
  assert (0 <= x)%Q as Hx.
  { apply Qmult_le_0_compat; [done|]. change 0%Q with (inject_Z 0). rewrite <-Zle_Qle. by apply Z.pow_nonneg. }
  destruct (Qle_bool x max) eqn:E.
  - apply Qle_bool_iff in E. destruct (Hu x Hx). split; [done|]. by eapply Qle_trans.
  - by apply Hu.
Qed.

Lemma write_fresh job p jobs :
  NoDup (job_id <$> jobs) -> job ∈ jobs -> is_claim job -> ends_claim p -> table_ok jobs ->
  exists l1 l2, jobs = l1 ++ job :: l2 /\ write_progress job p jobs = Ok (l1 ++ set_progress p job :: l2).
Proof.
  intros Hids Hj Hc Hp Hok.
  destruct (update_row_split (job_id job) (send_progress (progress job) p) jobs job Hids Hj eq_refl)
    as (l1 & l2 & E & Eu & _).
  exists l1, l2. split; [done|]. destruct (write_ends job p jobs Hc Hp Hok) as [-> _]. rewrite Eu.
  unfold send_progress. cbn [progress p_status p_attempts p_available_at p_lease_owner p_lease_expires_at
    p_started_at p_completed_at p_error_code p_error_message]. rewrite !sent_fresh. by destruct p.
Qed.

(** A failed attempt is retried exactly while it is retryable and attempts remain:
    the job then waits, without a lease, for a delay between nothing and the maximum,
    and nobody is told; otherwise it goes to review with one audit row and one outbox
    row, whose code says that attempts ran out when the failure was retryable.  Only
    that job changes, and no update raises while the outbox key is new. *)
Theorem record_failure_spec int_text uniform base max job code message retryable now db :
  uniform_ok uniform -> (0 <= base)%Q -> (0 <= max)%Q ->
  table_ok (jobs_of db) -> NoDup (job_id <$> jobs_of db) -> job ∈ jobs_of db -> is_claim job ->
  "graph-job-review:" +:+ job_id job +:+ ":" +:+ int_text (attempts job) ∉ ro_key <$> outbox_of db ->
  exists db' l1 l2 job', record_failure int_text uniform base max job code message retryable now db = Ok db' /\
    jobs_of db = l1 ++ job :: l2 /\ jobs_of db' = l1 ++ job' :: l2 /\
    lease_owner job' = None /\ lease_expires_at job' = None /\ attempts job' = attempts job /\
    if retryable && (attempts job <? max_attempts job) then
      status job' = value JobStatus.FAILED_RETRYABLE /\ now <= available_at job' <= now + seconds_us max /\
      audits_of db' = audits_of db /\ outbox_of db' = outbox_of db
    else
      status job' = value JobStatus.FAILED_REVIEW /\ completed_at job' = Some now /\
      exists a o, audits_of db' = audits_of db ++ [a] /\ outbox_of db' = outbox_of db ++ [o] /\
        ra_job a = job_id job /\ ro_job o = job_id job /\ ra_code a = ro_code o /\
        ro_code o = if retryable then "max_attempts_exhausted" else code.
Proof.
  intros Hu Hb Hm Hok Hids Hj Hc Hkey. unfold record_failure.
  destruct (retryable && (attempts job <? max_attempts job)).
  - unfold mark_retryable_failure. set (p := Build_Progress _ _ _ _ _ _ _ _ _).
    assert (ends_claim p) as Hp by (split_and!; [apply (bool_decide_unpack _); vm_compute; exact I | done | done]).
    destruct (write_fresh job p _ Hids Hj Hc Hp Hok) as (l1 & l2 & E & ->). msimpl.
    eexists _, l1, l2, _. split; [reflexivity|]. split; [done|]. split; [reflexivity|]. split_and!; try done.
    + change (now <= now + seconds_us (backoff_delay uniform (attempts job) base max None)).
      pose proof (backoff_bounds uniform (attempts job) base max Hu Hb Hm) as [H0 _].
      apply seconds_us_mono in H0. change (seconds_us 0) with 0 in H0. lia.
    + change (now + seconds_us (backoff_delay uniform (attempts job) base max None) <= now + seconds_us max).
      pose proof (backoff_bounds uniform (attempts job) base max Hu Hb Hm) as [_ H1].
      apply seconds_us_mono in H1. lia.
  - rewrite bool_decide_eq_true_2 by done. cbn [raise_unless]. msimpl. unfold mark_review_failure.
    set (p := Build_Progress _ _ _ _ _ _ _ _ _).
    assert (ends_claim p) as Hp by (split_and!; [apply (bool_decide_unpack _); vm_compute; exact I | done | done]).
    destruct (write_fresh job p _ Hids Hj Hc Hp Hok) as (l1 & l2 & E & ->). msimpl.
    eexists _, l1, l2, _. split; [reflexivity|]. split; [done|]. split; [reflexivity|]. split_and!; try done.
    eexists _, _. split; [reflexivity|]. split; [reflexivity|]. by split_and!.
Qed.

(** The folder lease excludes: once a worker has acquired it, no other worker
    acquires or releases it until the lease time has passed, while the owner can renew
    it; after that, or after the owner's release, any worker acquires it. *)
Theorem sync_lease_exclusive owner other secs now later l :
  (acquire_sync_lease owner secs now l).1 = true -> owner <> other ->
  let l1 := (acquire_sync_lease owner secs now l).2 in
  (later <= now + secs * SECOND -> forall s, acquire_sync_lease other s later l1 = (false, l1)) /\
  release_sync_lease other l1 = l1 /\
  (forall s, (acquire_sync_lease owner s later l1).1 = true) /\
  (now + secs * SECOND < later -> forall s, (acquire_sync_lease other s later l1).1 = true) /\
  forall s, (acquire_sync_lease other s later (release_sync_lease owner l1)).1 = true.
Proof.
  intros Ha Hne. assert ((acquire_sync_lease owner secs now l).2 =
    {| sl_owner := Some owner; sl_expires := Some (now + secs * SECOND) |}) as ->.
  { unfold acquire_sync_lease in *. destruct (_ || _); [done | discriminate]. }
  cbv zeta. unfold acquire_sync_lease, release_sync_lease. cbn [sl_owner sl_expires].
  rewrite (bool_decide_eq_false_2 (Some owner = None)) by done.
  rewrite (bool_decide_eq_true_2 (Some owner = Some owner)) by done.
  rewrite (bool_decide_eq_false_2 (Some owner = Some other)) by congruence. cbn [orb sl_owner sl_expires].
  rewrite orb_true_r. split_and!; try done.
  - intros Hl s. by replace (now + secs * SECOND <? later) with false by lia.
  - intros Hl s. by replace (now + secs * SECOND <? later) with true by lia.
Qed.

(** ** Concrete queues *)

Definition ok_or {A} (d : A) (r : result exn A) : A := match r with Ok a => a | Err _ => d end.

Definition sync_request (key folder : string) : Request :=
  enqueue_sync_folder 1 "box" folder "poll" (Some key) 100 0 "".

Definition enqueued (i : uuid) (q : Request) (now : instant) (jobs : list GraphJob) : list GraphJob :=
  match enqueue i q now jobs jobs with Ok (_, jobs') => jobs' | Err _ => jobs end.

Definition claim_at (worker : string) (now : instant) (jobs : list GraphJob) : option GraphJob * list GraphJob :=
  ok_or (None, jobs) (claim_next worker 60 None ∅ now jobs).

(** One job of folder [f], claimed at instant 10 and failed, due again at 110. *)
Definition one_job : list GraphJob := enqueued "j1" (sync_request "k1" "f") 0 [].
Definition first_claim : option GraphJob * list GraphJob := claim_at "w1" 10 one_job.
Definition waiting : list GraphJob :=
  match first_claim with
  | (Some j, jobs) => ok_or jobs (mark_retryable_failure (fun _ => 1 # 10000) j "http_503" "busy" 1 60 10 jobs)
  | (None, jobs) => jobs
  end.

(** While it waits, the folder is enqueued anew (the waiting job is not active) and
    that job is claimed; once the first is due again, claiming raises, although the
    job of another folder is due as well. *)
Example claim_blocked :
  let jobs := enqueued "j3" (sync_request "k3" "g") 500 (claim_at "w2" 25 (enqueued "j2" (sync_request "k2" "f") 20 waiting)).2 in
  claim_next "w3" 60 None ∅ 1000 jobs = Err IntegrityError /\
  exists j, j ∈ jobs /\ folder_id j = Some "g" /\ claimable None ∅ 1000 j = true.
Proof.
  split; [vm_compute; reflexivity|].
  match goal with |- exists j, j ∈ ?l /\ _ => destruct (l !! 2%nat) as [j|] eqn:E; [|vm_compute in E; discriminate E] end.
  exists j. split; [by eapply list_elem_of_lookup_2|]. vm_compute in E. injection E as <-. vm_compute. done.
Qed.

(** A job whose worker dies is claimed again beyond its last attempt. *)
Example attempts_exceed_max :
  match claim_at "w2" 100000000 (ok_or (0%nat, []) (recover_expired_leases 100000000 first_claim.2)).2 with
  | (Some j, _) => max_attempts j = 1 /\ attempts j = 2
  | (None, _) => False
  end.
Proof. vm_compute. done. Qed.

(** A completion reported after the lease was lost ends the job of the next owner. *)
Example late_completion :
  match first_claim with
  | (Some stale, jobs) =>
      let jobs := (claim_at "w2" 100000000 (ok_or (0%nat, []) (recover_expired_leases 100000000 jobs)).2).2 in
      lease_owner <$> head jobs = Some (Some "w2") /\
      status <$> head (ok_or [] (mark_completed stale 100000001 jobs)) = Some (value JobStatus.COMPLETED)
  | (None, _) => False
  end.
Proof. vm_compute. done. Qed.

Lemma one_job_ok : table_ok one_job /\ NoDup (job_id <$> one_job).
Proof. apply (bool_decide_unpack _). vm_compute. exact I. Qed.

Lemma enqueue_spec_witness :
  exists r jobs', enqueue "j2" (sync_request "k2" "f") 5 [] one_job = Ok (r, jobs') /\ table_ok jobs' /\
    er_created r = false /\ er_coalesced r = true.
Proof.
  destruct (enqueue_spec "j2" (sync_request "k2" "f") 5 [] one_job (proj1 one_job_ok)) as (r & jobs' & E & Hok & _).
  exists r, jobs'. split; [exact E|]. split; [exact Hok|]. vm_compute in E. injection E as <- _. split; reflexivity.
Defined.

Lemma claim_next_spec_witness :
  exists l1 j l2, one_job = l1 ++ j :: l2 /\ claimable None ∅ 10 j = true /\ is_Some first_claim.1.
Proof.
  pose proof (claim_next_spec "w1" 60 None ∅ 10 one_job (proj1 one_job_ok) (proj2 one_job_ok)) as H.
  destruct (claim_next "w1" 60 None ∅ 10 one_job) as [[[j'|] jobs']|e] eqn:E; try (vm_compute in E; discriminate).
  destruct H as (l1 & j & l2 & H1 & _ & _ & H2 & _). exists l1, j, l2. split; [exact H1|]. split; [exact H2|].
  vm_compute. by eexists.
Defined.

Definition claimed_world : World :=
  {| w_jobs := first_claim.2; w_held := match first_claim.1 with Some j => [j] | None => [] end |}.

Lemma claimed_world_reachable : rtc step {| w_jobs := []; w_held := [] |} claimed_world.
Proof.
  eapply rtc_l; [eapply (step_enqueue "j1" (sync_request "k1" "f") 0 [] []); [apply not_elem_of_nil | vm_compute; reflexivity]|].
  apply rtc_once. eapply (step_claim "w1" 60 None ∅ 10 one_job). vm_compute. reflexivity.
Qed.

Lemma leases_sound_witness :
  world_ok claimed_world /\ exists n jobs', recover_expired_leases 100000000 (w_jobs claimed_world) = Ok (n, jobs').
Proof.
  destruct (leases_sound {| w_jobs := []; w_held := [] |} claimed_world) as [H1 H2].
  - split; cbn [w_jobs w_held]; [split; apply NoDup_nil_2 | apply NoDup_nil_2 | constructor | constructor].
  - exact claimed_world_reachable.
  - split; [exact H1|]. destruct (H2 100000000) as (n & jobs' & E & _). exists n, jobs'. exact E.
Defined.

Lemma record_failure_spec_witness :
  exists j db', first_claim.1 = Some j /\
    record_failure (fun _ => "1") (fun e => e) 1 60 j "http_503" "busy" true 50
      {| jobs_of := first_claim.2; audits_of := []; outbox_of := [] |} = Ok db' /\ length (outbox_of db') = 1%nat.
Proof.
  destruct first_claim.1 as [j|] eqn:E; [|vm_compute in E; discriminate].
  destruct (record_failure_spec (fun _ => "1") (fun e => e) 1 60 j "http_503" "busy" true 50
    {| jobs_of := first_claim.2; audits_of := []; outbox_of := [] |}) as (db' & l1 & l2 & job' & Hr & _ & _ & _ & _ & _ & H).
  - intros e He. split; [exact He | apply Qle_refl].
  - discriminate.
  - discriminate.
  - apply (bool_decide_unpack _). vm_compute. exact I.
  - apply (bool_decide_unpack _). vm_compute. exact I.
  - cbn [jobs_of]. destruct (first_claim.2 !! 0%nat) as [k|] eqn:Ek; [|vm_compute in Ek; discriminate].
    assert (j = k) as -> by (vm_compute in E, Ek; congruence). by eapply list_elem_of_lookup_2.
  - vm_compute in E. injection E as <-. split_and!; [reflexivity | by eexists | by eexists].
  - apply not_elem_of_nil.
  - exists j, db'. split; [reflexivity|]. split; [exact Hr|]. cbn [audits_of outbox_of] in H.
    assert (true && (attempts j <? max_attempts j) = false) as Ef by (vm_compute in E; injection E as <-; reflexivity).
    rewrite Ef in H. destruct H as (_ & _ & a & o & _ & -> & _). reflexivity.
Defined.

Lemma sync_lease_exclusive_witness :
  let l1 := (acquire_sync_lease "a" 60 0 {| sl_owner := None; sl_expires := None |}).2 in
  acquire_sync_lease "b" 60 5 l1 = (false, l1) /\ release_sync_lease "b" l1 = l1.
Proof.
  cbv zeta. destruct (sync_lease_exclusive "a" "b" 60 0 5 {| sl_owner := None; sl_expires := None |}) as (H1 & H2 & _).
  - reflexivity.
  - discriminate.
  - split; [apply H1; vm_compute; discriminate | exact H2].
Defined.
