(* ===== verification/CanonJson.v ===== *)
(** * Canonical JSON text

    [json.dumps(v, sort_keys=True, separators=(",", ":"))] of the values the code
    hashes, for ASCII text, and that the text determines the value: what is hashed with
    SHA-256 is bound by the hash, unless two texts with one hash are at hand. *)
From Stdlib Require Import Ascii.
From stdpp Require Import pretty.
From S2P Require Import Prelude.
Open Scope Z_scope.

(** ** Canonical text *)

(** The values the code passes to [canonical_sha256]; a dict's items are in the order
    of its keys, as [sort_keys] writes them. *)
#[warnings="-register-all"]
Inductive canon : Type :=
| CNull
| CBool (b : bool)
| CInt (n : Z)
| CStr (s : string)
| CList (l : list canon)
| CDict (d : list (string * canon)).

Definition quote_char : ascii := ascii_of_nat 34.

Definition hex_digit (n : N) : ascii := ascii_of_N (if (n <? 10)%N then 48 + n else 87 + n).

(** One character of a JSON string, [ensure_ascii] off. *)
Definition esc_char (c : ascii) (rest : string) : string :=
  let n := N_of_ascii c in
  if bool_decide (c = quote_char) || bool_decide (c = "\"%char) then String "\" (String c rest)
  else if (n =? 8)%N then String "\" (String "b" rest)
  else if (n =? 9)%N then String "\" (String "t" rest)
  else if (n =? 10)%N then String "\" (String "n" rest)
  else if (n =? 12)%N then String "\" (String "f" rest)
  else if (n =? 13)%N then String "\" (String "r" rest)
  else if (n <? 32)%N then
    String "\" (String "u" (String "0" (String "0"
      (String (hex_digit (n / 16)) (String (hex_digit (n mod 16)) rest)))))
  else String c rest.

(** The characters of a string, its closing quote, and what follows. *)
Fixpoint esc (s rest : string) : string :=
  match s with
  | "" => String quote_char rest
  | String c s => esc_char c (esc s rest)
  end.

Definition str_text (s rest : string) : string := String quote_char (esc s rest).

(** [json.dumps(v, sort_keys=True, separators=(",", ":"), ensure_ascii=False)],
    followed by [rest]. *)
Fixpoint dumps (v : canon) (rest : string) : string :=
  match v with
  | CNull => "null" +:+ rest
  | CBool b => (if b then "true" else "false") +:+ rest
  | CInt n => pretty n +:+ rest
  | CStr s => str_text s rest
  | CList [] => String "[" (String "]" rest)
  | CList (x :: l) =>
      String "[" (dumps x ((fix more l := match l with
        | [] => String "]" rest
        | y :: l => String "," (dumps y (more l)) end) l))
  | CDict [] => String "{" (String "}" rest)
  | CDict ((k, x) :: d) =>
      String "{" (str_text k (String ":" (dumps x ((fix more d := match d with
        | [] => String "}" rest
        | (k, y) :: d => String "," (str_text k (String ":" (dumps y (more d)))) end) d))))
  end.

(** ** The text determines the value *)

Definition hex_value (c : ascii) : N :=
  let n := N_of_ascii c in if (n <? 58)%N then (n - 48)%N else (n - 87)%N.

Definition plain_of (e : ascii) : ascii :=
  if bool_decide (e = "b"%char) then ascii_of_nat 8 else if bool_decide (e = "t"%char) then ascii_of_nat 9
  else if bool_decide (e = "n"%char) then ascii_of_nat 10 else if bool_decide (e = "f"%char) then ascii_of_nat 12
  else if bool_decide (e = "r"%char) then ascii_of_nat 13 else e.

(** Read back a string up to its closing quote. *)
Fixpoint unesc (s : string) : option (string * string) :=
  match s with
  | "" => None
  | String c s1 =>
      if bool_decide (c = quote_char) then Some ("", s1)
      else if bool_decide (c = "\"%char) then
        match s1 with
        | String e s2 =>
            if bool_decide (e = "u"%char) then
              match s2 with
              | String _ (String _ (String a (String b s3))) =>
                  prod_map (String (ascii_of_N (16 * hex_value a + hex_value b))) id <$> unesc s3
              | _ => None
              end
            else prod_map (String (plain_of e)) id <$> unesc s2
        | "" => None
        end
      else prod_map (String c) id <$> unesc s1
  end.

Lemma unesc_char c t : unesc (esc_char c t) = prod_map (String c) id <$> unesc t.
Proof. destruct c as [[] [] [] [] [] [] [] []]; reflexivity. Qed.

Lemma unesc_esc s rest : unesc (esc s rest) = Some (s, rest).
Proof. induction s as [|c s IH]; [reflexivity|]. cbn [esc]. by rewrite unesc_char, IH. Qed.

Lemma esc_inj s s' r r' : esc s r = esc s' r' -> s = s' /\ r = r'.
Proof.
  intros E. assert (unesc (esc s r) = unesc (esc s' r')) as E' by by rewrite E.
  rewrite !unesc_esc in E'. by injection E'.
Qed.

(** Numbers. *)
Definition num_char (c : ascii) : bool :=
  bool_decide (c = "-"%char) || (let n := N_of_ascii c in (48 <=? n) && (n <=? 57))%N.

Fixpoint all_num (s : string) : bool := match s with "" => true | String c s => num_char c && all_num s end.

(** What follows a value does not continue a number. *)
Definition ends_num (r : string) : Prop := match r with "" => True | String c _ => num_char c = false end.

Lemma num_split a b r r' :
  all_num a = true -> all_num b = true -> ends_num r -> ends_num r' -> a +:+ r = b +:+ r' -> a = b /\ r = r'.
Proof.
  revert b. induction a as [|c a IH]; intros [|d b] Ha Hb Hr Hr' E.
  - done.
  - change (r = String d (b +:+ r')) in E. subst r. simpl in Hr, Hb. by rewrite Hr in Hb.
  - change (String c (a +:+ r) = r') in E. subst r'. simpl in Hr', Ha. by rewrite Hr' in Ha.
  - change (String c (a +:+ r) = String d (b +:+ r')) in E. injection E as <- E.
    simpl in Ha, Hb. apply andb_true_iff in Ha as [_ Ha], Hb as [_ Hb]. by destruct (IH b Ha Hb Hr Hr' E) as [-> ->].
Qed.

Lemma pretty_N_char_num n : (n < 10)%N -> num_char (pretty_N_char n) = true.
Proof.
  intros H. assert (n ∈ [0;1;2;3;4;5;6;7;8;9]%N) as Hin by (rewrite !elem_of_cons; lia).
  assert (Forall (fun n => num_char (pretty_N_char n) = true) [0;1;2;3;4;5;6;7;8;9]%N) as HF
    by (repeat constructor).
  rewrite Forall_forall in HF. by apply HF.
Qed.

Lemma pretty_N_go_num n s : all_num s = true -> all_num (pretty_N_go n s) = true.
Proof.
  revert s. induction (N.lt_wf_0 n) as [n _ IH]. intros s Hs.
  destruct (decide (n = 0)%N) as [->|Hn]; [by rewrite pretty_N_go_0|].
  rewrite pretty_N_go_step by lia. apply IH; [apply N.div_lt; lia|]. simpl. rewrite Hs, andb_true_r.
  apply pretty_N_char_num, N.mod_lt. lia.
Qed.

Lemma pretty_N_num (n : N) : all_num (pretty n) = true.
Proof. unfold pretty, pretty_N. case_decide; [done|]. by apply pretty_N_go_num. Qed.

Lemma pretty_Z_num (n : Z) : all_num (pretty n) = true.
Proof.
  destruct n as [|p|p]; [done | apply (pretty_N_num (Npos p)) | ].
  change (all_num ("-" +:+ pretty (Npos p)) = true). simpl. apply (pretty_N_num (Npos p)).
Qed.

Lemma pretty_Z_nonempty (n : Z) : exists c s, (pretty n : string) = String c s /\ num_char c = true.
Proof.
  pose proof (pretty_Z_num n) as H. destruct (pretty n : string) as [|c s] eqn:E.
  - exfalso. destruct n as [|p|p]; [discriminate | | discriminate].
    assert (pretty (Z.pos p) = pretty 0 -> False) as Hne by (intros ?%(inj pretty); done).
    change (pretty (Npos p) = "") in E. unfold pretty, pretty_N in E. rewrite decide_False in E by done.
    assert (pretty_N_go (Npos p) "" <> "") as Hg; [|done].
    clear. rewrite pretty_N_go_step by done. generalize (Npos p `div` 10)%N, (pretty_N_char (Npos p `mod` 10)).
    intros n c E. assert (forall n s, (String.length s <= String.length (pretty_N_go n s))%nat) as Hlen.
    { clear. intros n. induction (N.lt_wf_0 n) as [n _ IH]. intros s.
      destruct (decide (n = 0)%N) as [->|Hn]; [by rewrite pretty_N_go_0|]. rewrite pretty_N_go_step by lia.
      etrans; [|apply IH, N.div_lt; lia]. simpl. lia. }
    specialize (Hlen n (String c "")). rewrite E in Hlen. simpl in Hlen. lia.
  - exists c, s. split; [done|]. simpl in H. by apply andb_true_iff in H as [H _].
Qed.

(** Induction through the two nested lists. *)
Section CanonInd.
Context (P : canon -> Prop).
Context (Hnull : P CNull) (Hbool : forall b, P (CBool b)) (Hint : forall n, P (CInt n)) (Hstr : forall s, P (CStr s))
  (Hlist : forall l, Forall P l -> P (CList l)) (Hdict : forall d, Forall (fun kv => P kv.2) d -> P (CDict d)).

Fixpoint canon_nested_ind (v : canon) : P v :=
  match v with
  | CNull => Hnull | CBool b => Hbool b | CInt n => Hint n | CStr s => Hstr s
  | CList l => Hlist l ((fix go l := match l return Forall P l with
      | [] => Forall_nil_2 P | x :: l => Forall_cons_2 P x l (canon_nested_ind x) (go l) end) l)
  | CDict d => Hdict d ((fix go d := match d return Forall (fun kv => P kv.2) d with
      | [] => Forall_nil_2 _ | kv :: d => Forall_cons_2 _ kv d (canon_nested_ind kv.2) (go d) end) d)
  end.
End CanonInd.

(** The elements after the first, and the closing bracket. *)
Fixpoint more_list (l : list canon) (r : string) : string :=
  match l with [] => String "]" r | y :: l => String "," (dumps y (more_list l r)) end.
Fixpoint more_dict (d : list (string * canon)) (r : string) : string :=
  match d with
  | [] => String "}" r
  | (k, y) :: d => String "," (str_text k (String ":" (dumps y (more_dict d r))))
  end.

Lemma dumps_list x l r : dumps (CList (x :: l)) r = String "[" (dumps x (more_list l r)).
Proof.
  cbn [dumps]. do 2 f_equal. induction l as [|y l IH]; [done|]. cbn [more_list]. do 2 f_equal. exact IH.
Qed.

Lemma dumps_dict k x d r :
  dumps (CDict ((k, x) :: d)) r = String "{" (str_text k (String ":" (dumps x (more_dict d r)))).
Proof.
  cbn [dumps]. do 4 f_equal. induction d as [|[k' y] d IH]; [done|]. cbn [more_dict]. do 4 f_equal. exact IH.
Qed.

(** How the text of a value starts. *)
Inductive kind : Set := KNull | KTrue | KFalse | KInt | KStr | KList | KDict.
Definition kind_of (v : canon) : kind :=
  match v with CNull => KNull | CBool b => if b then KTrue else KFalse | CInt _ => KInt | CStr _ => KStr | CList _ => KList | CDict _ => KDict end.
Definition kind_of_char (c : ascii) : kind :=
  if bool_decide (c = "n"%char) then KNull else if bool_decide (c = "t"%char) then KTrue
  else if bool_decide (c = "f"%char) then KFalse else if bool_decide (c = quote_char) then KStr
  else if bool_decide (c = "["%char) then KList else if bool_decide (c = "{"%char) then KDict else KInt.

Lemma num_char_kind c : num_char c = true -> kind_of_char c = KInt /\ c <> "]"%char /\ c <> "}"%char.
Proof. destruct c as [[] [] [] [] [] [] [] []]; intros E; try discriminate E; by split_and!. Qed.

Lemma dumps_start v r :
  exists c s, dumps v r = String c s /\ kind_of_char c = kind_of v /\ c <> "]"%char /\ c <> "}"%char.
Proof.
  destruct v as [|[]|n|s|[|x l]|[|[k x] d]].
  - by eexists _, _.
  - by eexists _, _.
  - by eexists _, _.
  - destruct (pretty_Z_nonempty n) as (c & s & E & Hc). exists c, (s +:+ r).
    split; [change (pretty n +:+ r = String c (s +:+ r)); by rewrite E|]. by apply num_char_kind.
  - by eexists _, _.
  - by eexists _, _.
  - rewrite dumps_list. by eexists _, _.
  - by eexists _, _.
  - rewrite dumps_dict. by eexists _, _.
Qed.

(** The text of a value, followed by something that does not continue a number,
    determines both. *)
Definition reads_back (a : canon) : Prop :=
  forall b r r', ends_num r -> ends_num r' -> dumps a r = dumps b r' -> a = b /\ r = r'.

Lemma more_list_end l r : ends_num (more_list l r).
Proof. by destruct l. Qed.
Lemma more_dict_end d r : ends_num (more_dict d r).
Proof. by destruct d as [|[k x] d]. Qed.

Lemma more_list_inj l l' r r' :
  Forall reads_back l -> more_list l r = more_list l' r' -> l = l' /\ r = r'.
Proof.
  intros Hl. revert l'. induction Hl as [|x l Hx Hl IH]; intros [|y l'] E; cbn [more_list] in E.
  - by injection E as ->.
  - discriminate.
  - discriminate.
  - injection E as E. apply Hx in E as [<- E]; [|apply more_list_end..]. by destruct (IH l' E) as [-> ->].
Qed.

Lemma more_dict_inj d d' r r' :
  Forall (fun kv => reads_back kv.2) d -> more_dict d r = more_dict d' r' -> d = d' /\ r = r'.
Proof.
  intros Hd. revert d'. induction Hd as [|[k x] d Hx Hd IH]; intros [|[k' y] d'] E; cbn [more_dict] in E.
  - by injection E as ->.
  - discriminate.
  - discriminate.
  - injection E as E. apply esc_inj in E as [<- E]. injection E as E.
    apply Hx in E as [<- E]; [|apply more_dict_end..]. by destruct (IH d' E) as [-> ->].
Qed.

Lemma same_kind a b r r' : dumps a r = dumps b r' -> kind_of a = kind_of b.
Proof.
  destruct (dumps_start a r) as (c & s & -> & <- & _), (dumps_start b r') as (c' & s' & -> & <- & _).
  by intros [= <- _].
Qed.

Lemma dumps_reads_back a : reads_back a.
Proof.
  induction a as [|bv|n|s|l Hl|d Hd] using canon_nested_ind; intros b r r' Hr Hr' E;
    pose proof (same_kind _ _ _ _ E) as Hk;
    destruct b as [|bv'|n'|s'|l'|d']; try (destruct bv; discriminate Hk); try (destruct bv'; discriminate Hk); try discriminate Hk.
  - split; [done|]. by injection E.
  - destruct bv, bv'; try discriminate Hk; (split; [done|]; by injection E).
  - apply num_split in E as [E ->]; [|apply pretty_Z_num..|done|done]. by apply (inj pretty) in E as ->.
  - injection E as E. by apply esc_inj in E as [-> ->].
  - destruct Hl as [|x l Hx Hl], l' as [|x' l']; rewrite ?dumps_list in E.
    + by injection E as ->.
    + destruct (dumps_start x' (more_list l' r')) as (c & t & Et & _ & Hc & _). rewrite Et in E. by injection E.
    + destruct (dumps_start x (more_list l r)) as (c & t & Et & _ & Hc & _). rewrite Et in E. injection E as E _. by destruct Hc.
    + injection E as E. apply Hx in E as [<- E]; [|apply more_list_end..].
      by apply more_list_inj in E as [-> ->].
  - destruct Hd as [|[k x] d Hx Hd], d' as [|[k' x'] d']; rewrite ?dumps_dict in E.
    + by injection E as ->.
    + discriminate.
    + discriminate.
    + injection E as E. apply esc_inj in E as [<- E]. injection E as E.
      apply Hx in E as [<- E]; [|apply more_dict_end..]. by apply more_dict_inj in E as [-> ->].
Qed.

Lemma dumps_inj a b : dumps a "" = dumps b "" -> a = b.
Proof. intros E. by apply dumps_reads_back in E as [-> _]. Qed.

(** ** What a hash binds *)

(** The hash of a canonical text. *)
Definition canonical_sha256 (sha256 : string -> string) (v : canon) : string := sha256 (dumps v "").

(** Two texts with one hash. *)
Definition collision (sha256 : string -> string) : Prop := exists a b, a <> b /\ sha256 a = sha256 b.

Lemma canonical_inj sha256 a b : canonical_sha256 sha256 a = canonical_sha256 sha256 b -> a = b \/ collision sha256.
Proof.
  intros E. destruct (decide (dumps a "" = dumps b "")) as [Ed|Ed]; [left; by apply dumps_inj|].
  right. by exists (dumps a ""), (dumps b "").
Qed.
