(* ===== verification/JsonText.v ===== *)
(** * Reading JSON and float literals

    [float(text)] and [json.loads] of the standard library on ASCII text, and that
    [json.loads] reads back what [json.dumps] wrote.  The JSON type has no value for the
    three floats that are not finite; what the constants [NaN], [Infinity] and
    [-Infinity] (and a literal too large for a float) become is an argument. *)
From Stdlib Require Import Ascii QArith.
From stdpp Require Import pretty.
From S2P Require Import Prelude PyDate PyJson PyFloat Scoping CanonJson.
Open Scope Z_scope.

(** ** Float literals *)

(** The binary64 nearest to m * 10^e, ties to even. *)
Definition f64_of_decimal (neg : bool) (m e : Z) : spec_float :=
  match m with
  | Z.pos p =>
      if 0 <=? e then
        match m * 10 ^ e with Z.pos p => binary_round 53 1024 neg p 0 | _ => S754_zero neg end
      else
        let '(q, e', l) := SFdiv_core_binary 53 1024 m 0 (10 ^ (- e)) 0 in
        match q with
        | Z.pos _ => binary_round_aux 53 1024 neg q e' l
        | _ => binary_round_aux 53 1024 neg 0 e' l
        end
  | _ => S754_zero neg
  end.

(** The rational a finite float denotes. *)
Definition q_of_f64 (x : spec_float) : option Q :=
  match x with
  | S754_zero _ => Some 0%Q
  | S754_finite s m e =>
      let n := if s then Z.neg m else Z.pos m in
      Some (if 0 <=? e then inject_Z (n * 2 ^ e) else Qred (n # Z.to_pos (2 ^ (- e))))
  | _ => None
  end.

(** A run of digits: its value after [acc], how many there were, and the rest.
    [float] allows single underscores between digits, JSON does not. *)
Fixpoint read_digits (underscores : bool) (acc : Z) (n : nat) (s : string) : Z * nat * string :=
  match s with
  | String c s' =>
      match digit c with
      | Some d => read_digits underscores (10 * acc + d) (S n) s'
      | None =>
          match s' with
          | String c' s'' =>
              match digit c' with
              | Some d => if underscores && (0 <? n)%nat && bool_decide (c = "_"%char)
                          then read_digits underscores (10 * acc + d) (S n) s'' else (acc, n, s)
              | None => (acc, n, s)
              end
          | "" => (acc, n, s)
          end
      end
  | "" => (acc, n, s)
  end.

Definition is_exp (c : ascii) : bool := bool_decide (c = "e"%char) || bool_decide (c = "E"%char).

Definition take_sign (s : string) : bool * string :=
  match s with
  | String "-" r => (true, r) | String "+" r => (false, r) | _ => (false, s)
  end.

(** An exponent at the front, or nothing. *)
Definition read_exponent (underscores : bool) (s : string) : option (Z * string) :=
  match s with
  | String c r =>
      if is_exp c then
        let '(neg, r) := take_sign r in
        let '(e, n, r') := read_digits underscores 0 0 r in
        if (n =? 0)%nat then None else Some (if neg : bool then - e else e, r')
      else None
  | "" => None
  end.

(** [float(s)] of a text; [None] where it raises ValueError. *)
Definition py_float_text (s : string) : option spec_float :=
  let '(neg, r) := take_sign (strip s) in
  if bool_decide (str_lower r ∈ ["inf"; "infinity"]) then Some (S754_infinity neg)
  else if bool_decide (str_lower r = "nan") then Some S754_nan
  else
    let '(i, n, r1) := read_digits true 0 0 r in
    let '(f, k, r2) := match r1 with String "." r1' => read_digits true 0 0 r1' | _ => (0, O, r1) end in
    if (n + k =? 0)%nat then None
    else
      let m := i * 10 ^ Z.of_nat k + f in
      match r2 with
      | "" => Some (f64_of_decimal neg m (- Z.of_nat k))
      | _ =>
          match read_exponent true r2 with
          | Some (e, "") => Some (f64_of_decimal neg m (e - Z.of_nat k))
          | _ => None
          end
      end.

Example float_texts :
  (py_float_text " 1_000.5e-1 ", py_float_text ".5", py_float_text "1_", py_float_text "0.1") =
  (Some (f64_of_decimal false 10005 (-2)), Some (f64_of_decimal false 5 (-1)), None,
   Some (S754_finite false 7205759403792794 (-56))).
Proof. vm_compute. reflexivity. Qed.

(** ** [json.loads] *)

Definition json_space (c : ascii) : bool :=
  bool_decide (c = " "%char) || (let n := N_of_ascii c in (n =? 9) || (n =? 10) || (n =? 13))%N.

Fixpoint skip_ws (s : string) : string :=
  match s with String c r => if json_space c then skip_ws r else s | "" => "" end.

Definition hex_of (c : ascii) : option N :=
  let n := N_of_ascii c in
  if ((48 <=? n) && (n <=? 57))%N then Some (n - 48)%N
  else if ((97 <=? n) && (n <=? 102))%N then Some (n - 87)%N
  else if ((65 <=? n) && (n <=? 70))%N then Some (n - 55)%N
  else None.

(** The character of an escape that is not a [\u]. *)
Definition escaped (c : ascii) : option ascii :=
  if bool_decide (c = quote_char) || bool_decide (c = "\"%char) || bool_decide (c = "/"%char) then Some c
  else if bool_decide (c = "b"%char) then Some (ascii_of_nat 8)
  else if bool_decide (c = "f"%char) then Some (ascii_of_nat 12)
  else if bool_decide (c = "n"%char) then Some (ascii_of_nat 10)
  else if bool_decide (c = "r"%char) then Some (ascii_of_nat 13)
  else if bool_decide (c = "t"%char) then Some (ascii_of_nat 9)
  else None.

(** The characters up to the closing quote.  Control characters must be escaped; an
    escape that is not ASCII is outside the text modelled. *)
Fixpoint read_string (s : string) : option (string * string) :=
  match s with
  | "" => None
  | String c s1 =>
      if bool_decide (c = quote_char) then Some ("", s1)
      else if (N_of_ascii c <? 32)%N then None
      else if bool_decide (c = "\"%char) then
        match s1 with
        | String e s2 =>
            if bool_decide (e = "u"%char) then
              match s2 with
              | String "0" (String "0" (String a (String b s3))) =>
                  x ← hex_of a; y ← hex_of b;
                  prod_map (String (ascii_of_N (16 * x + y))) id <$> read_string s3
              | _ => None
              end
            else x ← escaped e; prod_map (String x) id <$> read_string s2
        | "" => None
        end
      else prod_map (String c) id <$> read_string s1
  end.

(** An integer part: a lone zero, or digits that do not start with zero. *)
Definition read_int (s : string) : option (Z * string) :=
  match s with
  | String c r =>
      if bool_decide (c = "0"%char) then Some (0, r)
      else if digit c then let '(i, _, r') := read_digits false 0 0 s in Some (i, r') else None
  | "" => None
  end.

Section Loads.
Context (not_finite : spec_float -> json).

Definition float_value (x : spec_float) : json :=
  match q_of_f64 x with Some q => JFloat q | None => not_finite x end.

(** A number: an integer unless a fraction or an exponent follows. *)
Definition read_number (s : string) : option (json * string) :=
  let '(neg, r) := match s with String "-" r => (true, r) | _ => (false, s) end in
  match read_int r with
  | None => None
  | Some (i, r1) =>
      let '(f, k, r2) := match r1 with
        | String "." r1' => let '(f, k, r2) := read_digits false 0 0 r1' in if (k =? 0)%nat then (0, O, r1) else (f, k, r2)
        | _ => (0, O, r1) end in
      match read_exponent false r2 with
      | Some (e, r3) => Some (float_value (f64_of_decimal neg (i * 10 ^ Z.of_nat k + f) (e - Z.of_nat k)), r3)
      | None =>
          if (k =? 0)%nat then Some (JInt (if neg : bool then - i else i), r2)
          else Some (float_value (f64_of_decimal neg (i * 10 ^ Z.of_nat k + f) (- Z.of_nat k)), r2)
      end
  end.

Definition constants : list (string * json) :=
  [("null", JNull); ("true", JBool true); ("false", JBool false); ("NaN", not_finite S754_nan);
   ("Infinity", not_finite (S754_infinity false)); ("-Infinity", not_finite (S754_infinity true))].

Fixpoint drop_prefix (p s : string) : option string :=
  match p, s with
  | "", _ => Some s
  | String a p, String b s => if bool_decide (a = b) then drop_prefix p s else None
  | String _ _, "" => None
  end.

Definition read_constant (s : string) : option (json * string) :=
  head (omap (fun kv => (fun r => (kv.2, r)) <$> drop_prefix kv.1 s) constants).

(** [scan_once]; the fuel bounds the characters read. *)
Fixpoint read_value (fuel : nat) (s : string) : option (json * string) :=
  match fuel, s with
  | S fuel, String c r =>
      if bool_decide (c = quote_char) then prod_map JStr id <$> read_string r
      else if bool_decide (c = "{"%char) then
        match skip_ws r with
        | String "}" r' => Some (JDict [], r')
        | r' => prod_map (fun d => JDict (foldl (fun d kv => dset kv.1 kv.2 d) [] d)) id <$> read_members fuel r'
        end
      else if bool_decide (c = "["%char) then
        match skip_ws r with
        | String "]" r' => Some (JList [], r')
        | r' => prod_map JList id <$> read_items fuel r'
        end
      else match read_constant s with Some x => Some x | None => read_number s end
  | _, _ => None
  end
with read_items (fuel : nat) (s : string) : option (list json * string) :=
  match fuel with
  | O => None
  | S fuel =>
      '(v, r) ← read_value fuel s;
      match skip_ws r with
      | String "]" r' => Some ([v], r')
      | String "," r' => prod_map (cons v) id <$> read_items fuel (skip_ws r')
      | _ => None
      end
  end
with read_members (fuel : nat) (s : string) : option (list (string * json) * string) :=
  match fuel, s with
  | S fuel, String c r =>
      if bool_decide (c = quote_char) then
        '(k, r) ← read_string r;
        match skip_ws r with
        | String ":" r =>
            '(v, r) ← read_value fuel (skip_ws r);
            match skip_ws r with
            | String "}" r' => Some ([(k, v)], r')
            | String "," r' => prod_map (cons (k, v)) id <$> read_members fuel (skip_ws r')
            | _ => None
            end
        | _ => None
        end
      else None
  | _, _ => None
  end.

(** [None]: JSONDecodeError. *)
Definition loads (s : string) : option json :=
  match read_value (S (String.length s)) (skip_ws s) with
  | Some (v, r) => if bool_decide (skip_ws r = "") then Some v else None
  | None => None
  end.
End Loads.

(** ** What was written is read back *)

Lemma digit_lt c d : digit c = Some d -> 0 <= d < 10.
Proof. destruct c as [[] [] [] [] [] [] [] []]; intros [= <-]; cbn; lia. Qed.

Lemma digit_pretty n : (n < 10)%N -> digit (pretty_N_char n) = Some (Z.of_N n).
Proof.
  intros H. assert (n ∈ [0;1;2;3;4;5;6;7;8;9]%N) as Hin by (rewrite !elem_of_cons; lia).
  assert (Forall (fun n => digit (pretty_N_char n) = Some (Z.of_N n)) [0;1;2;3;4;5;6;7;8;9]%N) as HF by (repeat constructor).
  rewrite Forall_forall in HF. by apply HF.
Qed.

Lemma pretty_N_char_0 n : (n < 10)%N -> pretty_N_char n = "0"%char -> n = 0%N.
Proof. intros H E. apply (f_equal digit) in E. rewrite (digit_pretty _ H) in E. injection E. lia. Qed.

(** Reading the digits of [n] leaves [n] in the accumulator. *)
Lemma read_digits_go us n s : exists k, read_digits us 0 0 (pretty_N_go n s) = read_digits us (Z.of_N n) k s /\ (0 < k \/ n = 0%N)%nat.
Proof.
  revert s. induction (N.lt_wf_0 n) as [n _ IH]. intros s.
  destruct (decide (n = 0)%N) as [->|Hn]; [rewrite pretty_N_go_0; exists O; by auto|].
  rewrite pretty_N_go_step by lia.
  destruct (IH (n / 10)%N ltac:(apply N.div_lt; lia) (String (pretty_N_char (n mod 10)) s)) as (k & -> & _).
  exists (S k). split; [|left; lia]. cbn [read_digits]. rewrite digit_pretty by (apply N.mod_lt; lia). f_equal.
  pose proof (N.div_mod n 10). lia.
Qed.

Lemma pretty_N_go_head n s : n <> 0%N -> exists c t, pretty_N_go n s = String c t /\ c <> "0"%char /\ is_Some (digit c).
Proof.
  revert s. induction (N.lt_wf_0 n) as [n _ IH]. intros s Hn. rewrite pretty_N_go_step by lia.
  destruct (decide (n / 10 = 0)%N) as [Hz|Hz].
  - rewrite Hz, pretty_N_go_0. eexists _, _. split; [done|].
    assert (n mod 10 < 10)%N as Hlt by (apply N.mod_lt; lia). split; [|by rewrite digit_pretty].
    intros E%pretty_N_char_0; [|done]. apply Hn. pose proof (N.div_mod n 10). lia.
  - apply IH; [apply N.div_lt; lia | done].
Qed.

(** What may follow a value. *)
Definition ends_value (r : string) : Prop := match r with "" => True | String c _ => c ∈ [","%char; "]"%char; "}"%char] end.

Lemma ends_value_digits r us acc n : ends_value r -> read_digits us acc n r = (acc, n, r).
Proof.
  destruct r as [|c r]; [done|]. intros Hc. cbn in Hc. rewrite !elem_of_cons, elem_of_nil in Hc.
  destruct_or! Hc; subst; try done; cbn; destruct r as [|c' r]; try done; destruct (digit c'); try done;
    by rewrite andb_false_r.
Qed.

Lemma pretty_N_go_app n s t : pretty_N_go n s +:+ t = pretty_N_go n (s +:+ t).
Proof.
  revert s. induction (N.lt_wf_0 n) as [n _ IH]. intros s.
  destruct (decide (n = 0)%N) as [->|Hn]; [by rewrite !pretty_N_go_0|].
  rewrite !(pretty_N_go_step n) by lia. apply IH, N.div_lt; lia.
Qed.

Lemma read_int_pretty p r : ends_value r -> read_int (pretty (N.pos p) +:+ r) = Some (Z.pos p, r).
Proof.
  intros Hr. unfold pretty, pretty_N. rewrite decide_False by done. rewrite pretty_N_go_app. change ("" +:+ r) with r.
  destruct (pretty_N_go_head (N.pos p) r) as (c & t & E & Hc & [d Hd]); [done|]. rewrite E. unfold read_int.
  rewrite bool_decide_eq_false_2, Hd, <-E by done.
  destruct (read_digits_go false (N.pos p) r) as (k & -> & _). by rewrite ends_value_digits.
Qed.

Section RoundTrip.
Context (not_finite : spec_float -> json).
Notation read_number := (read_number not_finite).
Notation read_value := (read_value not_finite).
Notation read_items := (read_items not_finite).
Notation read_members := (read_members not_finite).

Lemma no_exponent r us : ends_value r -> read_exponent us r = None.
Proof.
  destruct r as [|c r]; [done|]. intros Hc. cbn in Hc. rewrite !elem_of_cons, elem_of_nil in Hc.
  destruct_or! Hc; by subst.
Qed.

Lemma read_number_tail (neg : bool) i s r :
  ends_value r -> read_int s = Some (i, r) ->
  (match s with String "-" _ => false | _ => true end) = true ->
  read_number ((if neg then "-" else "") +:+ s) = Some (JInt (if neg then - i else i), r).
Proof.
  intros Hr Hs Hm.
  assert (match r with
          | String "." r1' => let '(f, k, r2) := read_digits false 0 0 r1' in if (k =? 0)%nat then (0, O, r) else (f, k, r2)
          | _ => (0, O, r) end = (0, O, r)) as Hfrac.
  { destruct r as [|c r]; [done|]. cbn in Hr. rewrite !elem_of_cons, elem_of_nil in Hr. destruct_or! Hr; by subst. }
  unfold JsonText.read_number. destruct neg.
  - change ("-" +:+ s) with (String "-" s). cbn -[read_int read_digits read_exponent]. by rewrite Hs, Hfrac, no_exponent.
  - change ("" +:+ s) with s.
    assert (match s with String "-" r => (true, r) | _ => (false, s) end = (false, s)) as ->.
    { destruct s as [|c s]; [done|]. destruct c as [[] [] [] [] [] [] [] []]; done. }
    by rewrite Hs, Hfrac, no_exponent.
Qed.

Lemma pretty_N_no_minus p r : (match pretty (N.pos p) +:+ r with String "-" _ => false | _ => true end) = true.
Proof.
  unfold pretty, pretty_N. rewrite decide_False by done. rewrite pretty_N_go_app. change ("" +:+ r) with r.
  destruct (pretty_N_go_head (N.pos p) r) as (c & t & E & Hc & [d Hd]); [done|]. rewrite E.
  destruct c as [[] [] [] [] [] [] [] []]; done.
Qed.

Lemma read_number_pretty (n : Z) r : ends_value r -> read_number (pretty n +:+ r) = Some (JInt n, r).
Proof.
  intros Hr. destruct n as [|p|p].
  - by apply (read_number_tail false 0).
  - apply (read_number_tail false (Z.pos p)); [done | by apply read_int_pretty | apply pretty_N_no_minus].
  - change (pretty (Z.neg p) +:+ r) with ("-" +:+ (pretty (N.pos p) +:+ r)).
    rewrite (read_number_tail true (Z.pos p)) with (r := r); [done | done | by apply read_int_pretty | apply pretty_N_no_minus].
Qed.

(** A number starts with a digit, or with a sign and a digit. *)
Lemma number_head (n : Z) : exists c t, pretty n = String c t /\
  (is_Some (digit c) \/ c = "-"%char /\ exists c' t', t = String c' t' /\ is_Some (digit c')).
Proof.
  assert (forall p, exists c t, pretty (N.pos p) = String c t /\ is_Some (digit c)) as HN.
  { intros p. unfold pretty, pretty_N. rewrite decide_False by done.
    destruct (pretty_N_go_head (N.pos p) "") as (c & t & E & _ & Hd); [done|]. by exists c, t. }
  destruct n as [|p|p].
  - exists "0"%char, "". split; [done|]. left. by exists 0.
  - destruct (HN p) as (c & t & E & Hd). exists c, t. by split; [|left].
  - destruct (HN p) as (c & t & E & Hd). exists "-"%char, (String c t). split; [by rewrite <-E|]. right. split; [done|].
    by exists c, t.
Qed.

Lemma read_constant_number (n : Z) r : read_constant not_finite (pretty n +:+ r) = None.
Proof.
  destruct (number_head n) as (c & t & -> & [[d Hd]|[-> (c' & t' & -> & [d Hd])]]); unfold read_constant.
  - change (String c t +:+ r) with (String c (t +:+ r)). cbn.
    destruct c as [[] [] [] [] [] [] [] []]; try done.
  - change (String "-" (String c' t') +:+ r) with (String "-" (String c' (t' +:+ r))). cbn.
    destruct c' as [[] [] [] [] [] [] [] []]; try done.
Qed.

Lemma read_string_esc s r : read_string (esc s r) = Some (s, r).
Proof.
  assert (forall c t, read_string (esc_char c t) = prod_map (String c) id <$> read_string t) as Hc.
  { intros c t. destruct c as [[] [] [] [] [] [] [] []]; reflexivity. }
  induction s as [|c s IH]; [reflexivity|]. cbn [esc]. by rewrite Hc, IH.
Qed.

Fixpoint json_of (v : canon) : json :=
  match v with
  | CNull => JNull
  | CBool b => JBool b
  | CInt n => JInt n
  | CStr s => JStr s
  | CList l => JList ((fix go l := match l with [] => [] | x :: l => json_of x :: go l end) l)
  | CDict d => JDict ((fix go d := match d with [] => [] | (k, x) :: d => (k, json_of x) :: go d end) d)
  end.

Lemma json_of_list l : json_of (CList l) = JList (json_of <$> l).
Proof. cbn [json_of]. apply (f_equal JList). induction l as [|x l IH]; [done|]. rewrite fmap_cons. by f_equal. Qed.

Lemma json_of_dict d : json_of (CDict d) = JDict ((fun kv => (kv.1, json_of kv.2)) <$> d).
Proof. cbn [json_of]. apply (f_equal JDict). induction d as [|[k x] d IH]; [done|]. rewrite fmap_cons. by f_equal. Qed.

Lemma dumps_head v r : exists c s, dumps v r = String c s /\ json_space c = false /\ c <> "]"%char /\ c <> "}"%char.
Proof.
  destruct v as [|[]|n|s|[|x l]|[|[k x] d]]; try (eexists _, _; split_and!; [reflexivity | done..]).
  destruct (number_head n) as (c & s & E & Hc). exists c, (s +:+ r). split.
  - change (pretty n +:+ r = String c (s +:+ r)). by rewrite E.
  - destruct Hc as [[d Hd]|[-> _]]; [|done]. destruct c as [[] [] [] [] [] [] [] []]; done.
Qed.

Lemma skip_dumps v r : skip_ws (dumps v r) = dumps v r.
Proof. destruct (dumps_head v r) as (c & s & -> & Hc & _). cbn. by rewrite Hc. Qed.

Lemma esc_length s r : (String.length r < String.length (esc s r))%nat.
Proof.
  assert (forall c t, (String.length t < String.length (esc_char c t))%nat) as Hc
    by (intros c t; unfold esc_char; cbv zeta; repeat (match goal with |- context [if ?b then _ else _] => destruct b end); cbn [String.length]; lia).
  induction s as [|c s IH]; [cbn; lia|]. cbn [esc]. specialize (Hc c (esc s r)). lia.
Qed.

Lemma dumps_length v : forall r, (String.length r < String.length (dumps v r))%nat.
Proof.
  induction v as [|b|n|s|l IHl|d IHd] using canon_nested_ind; intros r.
  - change (dumps CNull r) with ("null" +:+ r). rewrite length_app_str. cbn. lia.
  - destruct b; [change (dumps _ r) with ("true" +:+ r) | change (dumps _ r) with ("false" +:+ r)];
      rewrite length_app_str; cbn; lia.
  - destruct (number_head n) as (c & s & E & _). change (dumps (CInt n) r) with (pretty n +:+ r).
    rewrite E, length_app_str. cbn. lia.
  - change (String.length r < S (String.length (esc s r)))%nat. pose proof (esc_length s r). lia.
  - destruct l as [|x l]; [cbn; lia|]. rewrite dumps_list. cbn [String.length].
    apply Forall_cons in IHl as [Hx Hl]. specialize (Hx (more_list l r)).
    assert (String.length r < String.length (more_list l r))%nat; [|lia].
    clear Hx. induction Hl as [|y l Hy _ IH]; cbn; [lia|]. specialize (Hy (more_list l r)). lia.
  - destruct d as [|[k x] d]; [cbn; lia|]. rewrite dumps_dict. cbn [String.length].
    apply Forall_cons in IHd as [Hx Hd]. cbn [snd] in Hx. specialize (Hx (more_dict d r)).
    unfold str_text. cbn [String.length].
    pose proof (esc_length k (String ":" (dumps x (more_dict d r)))) as He. cbn [String.length] in He.
    assert (String.length r < String.length (more_dict d r))%nat; [|lia].
    clear Hx He. induction Hd as [|[k' y] d Hy _ IH]; cbn; [lia|]. cbn [snd] in Hy. specialize (Hy (more_dict d r)).
    pose proof (esc_length k' (String ":" (dumps y (more_dict d r)))) as He. cbn [String.length] in He. lia.
Qed.

(** Dicts are written with distinct keys. *)
Fixpoint distinct_keys (v : canon) : Prop :=
  match v with
  | CList l => (fix go l := match l with [] => True | x :: l => distinct_keys x /\ go l end) l
  | CDict d => NoDup d.*1 /\ (fix go d := match d with [] => True | (_, x) :: d => distinct_keys x /\ go d end) d
  | _ => True
  end.

Lemma distinct_list l : distinct_keys (CList l) -> Forall distinct_keys l.
Proof. cbn. induction l as [|x l IH]; [constructor|]. intros [? ?]. constructor; auto. Qed.

Lemma distinct_dict d : distinct_keys (CDict d) -> NoDup d.*1 /\ Forall (fun kv => distinct_keys kv.2) d.
Proof.
  cbn. intros [Hn Hd]. split; [done|]. clear Hn. induction d as [|[k x] d IH]; [constructor|]. destruct Hd. constructor; auto.
Qed.

Lemma dset_new {A} k (v : A) d : k ∉ d.*1 -> dset k v d = d ++ [(k, v)].
Proof.
  induction d as [|[k' w] d IH]; [done|]. intros [Hne Hk]%not_elem_of_cons. cbn. rewrite bool_decide_eq_false_2 by done.
  by rewrite IH.
Qed.

Lemma rebuild_dict {A} (d : list (string * A)) : NoDup d.*1 -> foldl (fun d kv => dset kv.1 kv.2 d) [] d = d.
Proof.
  assert (forall acc, NoDup (acc ++ d).*1 -> foldl (fun d kv => dset kv.1 kv.2 d) acc d = acc ++ d) as H; [|apply (H [])].
  induction d as [|[k v] d IH]; intros acc Hn; cbn; [by rewrite app_nil_r|].
  assert (k ∉ acc.*1) as Hk.
  { rewrite fmap_app in Hn. apply NoDup_app in Hn as (_ & H & _). intros Hk. apply (H k Hk). cbn. left. }
  rewrite dset_new by done. rewrite IH; [by rewrite <-app_assoc|]. by rewrite <-app_assoc.
Qed.

Definition reads (v : canon) : Prop := forall fuel r,
  distinct_keys v -> ends_value r -> (String.length (dumps v r) <= fuel + String.length r)%nat ->
  read_value fuel (dumps v r) = Some (json_of v, r).

Lemma ends_more_list l r : ends_value (more_list l r).
Proof. destruct l; cbn; set_solver. Qed.
Lemma ends_more_dict d r : ends_value (more_dict d r).
Proof. destruct d as [|[k x] d]; cbn; set_solver. Qed.

Lemma more_list_length l r : (String.length r < String.length (more_list l r))%nat.
Proof. induction l as [|x l IH]; cbn; [lia|]. pose proof (dumps_length x (more_list l r)). lia. Qed.

Lemma more_dict_length d r : (String.length r < String.length (more_dict d r))%nat.
Proof.
  induction d as [|[k x] d IH]; cbn; [lia|]. pose proof (dumps_length x (more_dict d r)).
  pose proof (esc_length k (String ":" (dumps x (more_dict d r)))) as He. cbn [String.length] in He. lia.
Qed.

(** There is fuel for one more step, and one unit less is enough for the element. *)
Lemma some_fuel x R r fuel :
  (String.length r < String.length R)%nat -> (String.length (dumps x R) <= fuel + String.length r)%nat ->
  exists f, fuel = S f /\ (String.length (dumps x R) <= f + String.length R)%nat /\ (String.length R <= S f + String.length r)%nat.
Proof. pose proof (dumps_length x R). intros. exists (pred fuel). lia. Qed.

Lemma read_items_spec l : forall x fuel r,
  Forall reads (x :: l) -> Forall distinct_keys (x :: l) ->
  (String.length (dumps x (more_list l r)) <= fuel + String.length r)%nat ->
  read_items fuel (dumps x (more_list l r)) = Some (json_of <$> x :: l, r).
Proof.
  induction l as [|y l IH]; intros x fuel r [Hx Hl]%Forall_cons [Dx Dl]%Forall_cons Hlen;
    apply some_fuel in Hlen as (f & -> & Hlen & Hrest); try apply more_list_length; cbn [JsonText.read_items].
  - by rewrite (Hx f _ Dx (ends_more_list [] r) Hlen).
  - rewrite (Hx f _ Dx (ends_more_list (y :: l) r) Hlen). cbn [more_list] in *. cbn [mbind option_bind].
    change (skip_ws (String "," ?s)) with (String "," s); cbv beta match.
    rewrite skip_dumps, IH; [done | done | done | cbn [String.length] in *; lia].
Qed.

Lemma skip_str_text k r : skip_ws (str_text k r) = str_text k r.
Proof. done. Qed.

Lemma read_members_spec d : forall k x fuel r,
  Forall (fun kv => reads kv.2) ((k, x) :: d) -> Forall (fun kv => distinct_keys kv.2) ((k, x) :: d) ->
  (String.length (str_text k (String ":" (dumps x (more_dict d r)))) <= fuel + String.length r)%nat ->
  read_members fuel (str_text k (String ":" (dumps x (more_dict d r)))) =
    Some ((fun kv => (kv.1, json_of kv.2)) <$> (k, x) :: d, r).
Proof.
  induction d as [|[k' y] d IH]; intros k x fuel r [Hx Hd]%Forall_cons [Dx Dd]%Forall_cons Hlen; cbn [snd] in Hx, Dx;
    unfold str_text in Hlen; cbn [String.length] in Hlen.
  - pose proof (esc_length k (String ":" (dumps x (more_dict [] r)))) as He. cbn [String.length] in He. assert (String.length (dumps x (more_dict [] r)) <= fuel + String.length r)%nat as Hl by (revert He Hlen; cbn [more_dict]; lia).
    apply some_fuel in Hl as (f & -> & Hl & Hrest); [|apply more_dict_length].
    unfold str_text. cbn [JsonText.read_members]. rewrite bool_decide_eq_true_2, read_string_esc by done.
    cbn [mbind option_bind]. change (skip_ws (String ":" ?s)) with (String ":" s); cbv beta match.
    by rewrite skip_dumps, (Hx f _ Dx (ends_more_dict [] r) Hl).
  - pose proof (esc_length k (String ":" (dumps x (more_dict ((k', y) :: d) r)))) as He. cbn [String.length] in He.
    assert (String.length (dumps x (more_dict ((k', y) :: d) r)) <= fuel + String.length r)%nat as Hl by lia.
    apply some_fuel in Hl as (f & -> & Hl & Hrest); [|apply more_dict_length].
    unfold str_text at 1. cbn [JsonText.read_members]. rewrite bool_decide_eq_true_2, read_string_esc by done.
    cbn [mbind option_bind]. change (skip_ws (String ":" ?s)) with (String ":" s); cbv beta match.
    rewrite skip_dumps, (Hx f _ Dx (ends_more_dict ((k', y) :: d) r) Hl). cbn [mbind option_bind more_dict].
    change (skip_ws (String "," ?s)) with (String "," s); cbv beta match. rewrite skip_str_text, IH; [done | done | done |].
    cbn [more_dict String.length] in Hrest. unfold str_text in *. cbn [String.length] in *. lia.
Qed.

Lemma read_value_spec v : reads v.
Proof.
  induction v as [|b|n|s|l IHl|d IHd] using canon_nested_ind; intros fuel r Dv Hr Hlen;
    (destruct fuel as [|fuel]; [pose proof (dumps_length) as Hd; exfalso;
       match type of Hlen with (String.length (dumps ?v r) <= _)%nat => specialize (Hd v r) end; lia|]).
  - done.
  - by destruct b.
  - change (dumps (CInt n) r) with (pretty n +:+ r). destruct (number_head n) as (c & t & E & Hc).
    pose proof (read_constant_number n r) as Hk. pose proof (read_number_pretty n r Hr) as Hn. rewrite E in Hk, Hn |- *.
    change (String c t +:+ r) with (String c (t +:+ r)) in *. cbn [JsonText.read_value]. rewrite Hk, Hn.
    rewrite !bool_decide_eq_false_2; [done|..]; intros ->; destruct Hc as [[d Hd]|[Hc _]]; done.
  - cbn [dumps]. unfold str_text. cbn [JsonText.read_value]. rewrite bool_decide_eq_true_2 by done. by rewrite read_string_esc.
  - destruct l as [|x l]; [done|]. rewrite dumps_list in *. cbn [JsonText.read_value].
    rewrite (bool_decide_eq_false_2 ("["%char = quote_char)), (bool_decide_eq_false_2 ("["%char = "{"%char)) by done.
    rewrite bool_decide_eq_true_2, skip_dumps by done. apply distinct_list in Dv.
    rewrite json_of_list.
    assert (read_items fuel (dumps x (more_list l r)) = Some (json_of <$> x :: l, r)) as Hi
      by (apply read_items_spec; [done | done | cbn [String.length] in Hlen; lia]).
    destruct (dumps_head x (more_list l r)) as (c & t & E & _ & Hc & _). rewrite E in Hi |- *.
    destruct c as [[] [] [] [] [] [] [] []]; try done; cbv beta match; by rewrite Hi.
  - destruct d as [|[k x] d]; [done|]. rewrite dumps_dict in *. cbn [JsonText.read_value].
    rewrite (bool_decide_eq_false_2 ("{"%char = quote_char)), bool_decide_eq_true_2, skip_str_text by done.
    apply distinct_dict in Dv as [Hn Dd]. rewrite json_of_dict.
    change (prod_map (fun d => JDict (foldl (fun d kv => dset kv.1 kv.2 d) [] d)) id <$>
      read_members fuel (str_text k (String ":" (dumps x (more_dict d r)))) = Some (JDict ((fun kv => (kv.1, json_of kv.2)) <$> (k, x) :: d), r)).
    rewrite read_members_spec; [|done | done | cbn [String.length] in Hlen; lia].
    cbn [fmap option_fmap option_map prod_map fst snd id]. rewrite rebuild_dict; [done|].
    by rewrite <-list_fmap_compose.
Qed.

(** [json.loads(json.dumps(v))]. *)
Lemma loads_dumps v : distinct_keys v -> loads not_finite (dumps v "") = Some (json_of v).
Proof.
  intros Dv. unfold loads. rewrite skip_dumps, read_value_spec; [done | done | done |]. cbn. lia.
Qed.
End RoundTrip.

(** ** [json.dumps] with sorted keys *)

Definition key_leb (a b : string * canon) : bool := str_leb a.1 b.1.

(** What [sort_keys] writes; [None] for a value with a float in it, whose text is not
    modelled. *)
Fixpoint canon_of (v : json) : option canon :=
  match v with
  | JNull => Some CNull
  | JBool b => Some (CBool b)
  | JInt n => Some (CInt n)
  | JFloat _ => None
  | JStr s => Some (CStr s)
  | JList l =>
      CList <$> (fix go l := match l with [] => Some [] | x :: l => y ← canon_of x; m ← go l; Some (y :: m) end) l
  | JDict d =>
      (fun e => CDict (py_sorted key_leb e)) <$>
        (fix go d := match d with [] => Some [] | (k, x) :: d => y ← canon_of x; e ← go d; Some ((k, y) :: e) end) d
  end.

Fixpoint well_keyed (v : json) : Prop :=
  match v with
  | JList l => (fix go l := match l with [] => True | x :: l => well_keyed x /\ go l end) l
  | JDict d => NoDup d.*1 /\ (fix go d := match d with [] => True | (_, x) :: d => well_keyed x /\ go d end) d
  | _ => True
  end.

Lemma dget_NoDup {A} k (v : A) d : NoDup d.*1 -> (k, v) ∈ d -> dget k d = Some v.
Proof.
  induction d as [|[k' w] d IH]; [by intros _ ?%elem_of_nil|]. intros [Hn Hd]%NoDup_cons [[= -> ->]|H]%elem_of_cons; cbn.
  - by rewrite bool_decide_eq_true_2.
  - rewrite bool_decide_eq_false_2; [by apply IH|]. intros ->. apply Hn. apply list_elem_of_fmap. by exists (k', v).
Qed.

Lemma py_eq_items l m : Forall2 (fun x y => py_eq x y = true) l m -> py_eq (JList l) (JList m) = true.
Proof. induction 1 as [|x y l m H _ IH]; [done|]. cbn in IH |- *. by rewrite H, IH. Qed.

Lemma py_eq_members d e :
  length d = length e -> (forall k x, (k, x) ∈ d -> exists y, dget k e = Some y /\ py_eq x y = true) ->
  py_eq (JDict d) (JDict e) = true.
Proof.
  intros Hl Hd. cbn [py_eq]. rewrite Hl, Nat.eqb_refl. cbn [andb]. clear Hl.
  induction d as [|[k x] d IH]; [done|]. destruct (Hd k x) as (y & -> & ->); [left|]. cbn [andb]. apply IH.
  intros k' x' H. apply Hd. by right.
Qed.

Lemma canon_of_sound v : forall c, well_keyed v -> canon_of v = Some c -> distinct_keys c /\ py_eq v (json_of c) = true.
Proof.
  induction v as [|b|n|q|s|l IHl|d IHd] using json_nested_ind; intros c Hk Hc; cbn in Hc.
  - by injection Hc as <-.
  - injection Hc as <-. split; [done|]. by destruct b.
  - injection Hc as <-. split; [done|]. cbn. apply Qeq_bool_refl.
  - done.
  - injection Hc as <-. split; [done|]. cbn. by apply bool_decide_eq_true_2.
  - apply fmap_Some in Hc as (m & Hm & ->). cbn in Hk.
    assert (Forall2 (fun x y => distinct_keys y /\ py_eq x (json_of y) = true) l m) as HF.
    { revert m Hm Hk. induction IHl as [|x l Hx _ IH]; intros m Hm Hk; [injection Hm as <-; constructor|].
      destruct (canon_of x) as [y|] eqn:Ey; [|done]. cbn [mbind option_bind] in Hm. apply bind_Some in Hm as (m' & Hm' & [= <-]).
      destruct Hk as [Hkx Hkl]. constructor; [by apply Hx | by apply IH]. }
    split.
    + cbn. clear -HF. induction HF as [|x y l m [H _] _ IH]; done.
    + rewrite json_of_list. apply py_eq_items, Forall2_fmap_r. eapply Forall2_impl; [exact HF|]. by intros x y [_ ?].
  - apply fmap_Some in Hc as (e & He & ->). cbn in Hk. destruct Hk as [Hn Hk].
    assert (Forall2 (fun x y => x.1 = y.1 /\ distinct_keys y.2 /\ py_eq x.2 (json_of y.2) = true) d e) as HF.
    { clear Hn. revert e He Hk. induction IHd as [|[k x] d Hx _ IH]; intros e He Hk; [injection He as <-; constructor|].
      destruct (canon_of x) as [y|] eqn:Ey; [|done]. cbn [mbind option_bind] in He. apply bind_Some in He as (e' & He' & [= <-]).
      destruct Hk as [Hkx Hkl]. constructor; [split; [done | by apply Hx] | by apply IH]. }
    assert (d.*1 = e.*1) as Hkeys.
    { clear -HF. induction HF as [|x y l m [H _] _ IH]; [done|]. cbn. by rewrite H, IH. }
    assert (py_sorted key_leb e ≡ₚ e) as Hperm by apply py_sorted_perm.
    assert (NoDup (py_sorted key_leb e).*1) as Hns by (rewrite Hperm, <-Hkeys; done).
    split.
    + cbn. split; [done|].
      assert (Forall (fun kv => distinct_keys kv.2) (py_sorted key_leb e)) as Hall.
      { rewrite Hperm. clear -HF. induction HF as [|x y l m (_ & H & _) _ IH]; by constructor. }
      clear -Hall. induction Hall as [|[k x] l Hx _ IH]; done.
    + rewrite json_of_dict. apply py_eq_members.
      * rewrite length_fmap, Hperm. by apply Forall2_length in HF.
      * intros k x Hin. apply list_elem_of_lookup_1 in Hin as [i Hi].
        destruct (Forall2_lookup_l _ _ _ _ _ HF Hi) as ([k' y] & Hy & Hkk & _ & Heq). cbn in Hkk, Heq. subst k'.
        exists (json_of y). split; [|done]. rewrite dget_fmap, (dget_NoDup k y); [done | done |].
        rewrite Hperm. by eapply list_elem_of_lookup_2.
Qed.

(** The keys of a dict and of what is written for it. *)
Lemma py_eq_member d e k v : py_eq (JDict d) (JDict e) = true -> dget k d = Some v -> exists y, dget k e = Some y /\ py_eq v y = true.
Proof.
  cbn [py_eq]. intros [_ H]%andb_true_iff Hk. revert H Hk. induction d as [|[k' x] d IH]; [done|].
  intros [Hx H]%andb_true_iff. cbn [dget]. case_bool_decide as E; [|by apply IH]. subst. intros [= <-].
  destruct (dget k' e) as [y|]; [by exists y | done].
Qed.

Lemma canon_keys d c : canon_of (JDict d) = Some c -> exists e, c = CDict e /\ forall k, k ∈ e.*1 <-> k ∈ d.*1.
Proof.
  cbn [canon_of]. intros (e & He & ->)%fmap_Some. exists (py_sorted key_leb e). split; [done|]. intros k.
  assert (e.*1 = d.*1) as <-.
  { revert e He. induction d as [|[k' x] d IH]; intros e He; [by injection He as <-|].
    destruct (canon_of x) as [y|]; [|done]. cbn [mbind option_bind] in He. apply bind_Some in He as (e' & He' & [= <-]).
    cbn. by rewrite (IH _ He'). }
  by rewrite (py_sorted_perm key_leb e).
Qed.
