(* ===== verification/Crypto.v ===== *)
(** * Envelopes of sensitive values ([app/core/crypto.py])

    What is stored of a sensitive value: an envelope that names its key, bound to the row
    that owns it.  AES-GCM is a third-party library and is an argument, as are SHA-256
    and HMAC; base64 and the envelope are modelled.  Bytes are text with one character
    per byte.  The text of a value with a float in it, and the spaced JSON text that
    [redact] measures, are arguments. *)
From Stdlib Require Import Ascii.
From S2P Require Import Prelude PyJson PyFloat Regex CanonJson JsonText.
Open Scope Z_scope.

(** ** base64 *)

Definition byte_of (n : Z) : ascii := ascii_of_N (Z.to_N n).
Definition of_byte (c : ascii) : Z := Z.of_N (N_of_ascii c).

Definition b64_char (v : Z) : ascii :=
  byte_of (if v <? 26 then 65 + v else if v <? 52 then 71 + v else if v <? 62 then v - 4 else if v =? 62 then 45 else 95).

(** The value of a character after [-_] became [+/]; the originals still count. *)
Definition b64_value (c : ascii) : option Z :=
  let n := of_byte c in
  if (65 <=? n) && (n <=? 90) then Some (n - 65)
  else if (97 <=? n) && (n <=? 122) then Some (n - 71)
  else if (48 <=? n) && (n <=? 57) then Some (n + 4)
  else if (n =? 43) || (n =? 45) then Some 62
  else if (n =? 47) || (n =? 95) then Some 63
  else None.

(** [base64.urlsafe_b64encode(raw).rstrip("=")]. *)
Fixpoint _b64e (s : string) : string :=
  match s with
  | "" => ""
  | String a "" => let x := of_byte a in String (b64_char (x / 4)) (String (b64_char (x mod 4 * 16)) "")
  | String a (String b "") =>
      let x := of_byte a in let y := of_byte b in
      String (b64_char (x / 4)) (String (b64_char (x mod 4 * 16 + y / 16)) (String (b64_char (y mod 16 * 4)) ""))
  | String a (String b (String c s)) =>
      let x := of_byte a in let y := of_byte b in let z := of_byte c in
      String (b64_char (x / 4)) (String (b64_char (x mod 4 * 16 + y / 16))
        (String (b64_char (y mod 16 * 4 + z / 64)) (String (b64_char (z mod 64)) (_b64e s))))
  end.

(** The decoder of the interpreter: characters outside the alphabet are skipped, and
    padding that completes a group ends the text. *)
Fixpoint a2b (pos left pads : Z) (s : string) : option string :=
  match s with
  | "" => if pos =? 0 then Some "" else None
  | String c s =>
      if bool_decide (c = "="%char) then
        if 2 <=? pos then if 4 <=? pos + (pads + 1) then Some "" else a2b pos left (pads + 1) s
        else a2b pos left pads s
      else
        match b64_value c with
        | None => a2b pos left pads s
        | Some v =>
            if pos =? 0 then a2b 1 v 0 s
            else if pos =? 1 then String (byte_of (left * 4 + v / 16)) <$> a2b 2 (v mod 16) 0 s
            else if pos =? 2 then String (byte_of (left * 16 + v / 4)) <$> a2b 3 (v mod 4) 0 s
            else String (byte_of (left * 64 + v)) <$> a2b 0 0 0 s
        end
  end.

Fixpoint str_repeat (n : nat) (s : string) : string := match n with O => "" | S n => s +:+ str_repeat n s end.

Definition padding (s : string) : string := str_repeat (Z.to_nat ((- Z.of_nat (String.length s)) mod 4)) "=".

(** [None]: ValueError. *)
Definition _b64d (s : string) : option string := a2b 0 0 0 (s +:+ padding s).

Example b64_samples :
  (_b64e "", _b64e "f", _b64e "fo", _b64e "foo", _b64d "Zm9v", _b64d "Zm8", _b64d "Zg", _b64d "Z") =
  ("", "Zg", "Zm8", "Zm9v", Some "foo", Some "fo", Some "f", None).
Proof. vm_compute. reflexivity. Qed.

(** ** Keys *)

Definition CIPHER_VERSION : string := "v1".
Definition _KEY_BYTES : nat := 32.

Definition key_id_char (c : ascii) : bool :=
  let n := N_of_ascii c in
  ((48 <=? n) && (n <=? 57) || (65 <=? n) && (n <=? 90) || (97 <=? n) && (n <=? 122) || (n =? 46) || (n =? 95) || (n =? 45))%N.

(** [$] lets a final newline through. *)
Definition _KEY_ID_PATTERN : re := seqs [Bol; Cls key_id_char; upto 63 (Cls key_id_char); Eol].

Record Keyring := { kr_keys : list (string * string); active_key_id : string }.

(** [__post_init__]. *)
Definition keyring_ok (k : Keyring) : bool :=
  negb (bool_decide (kr_keys k = [])) && dhas (active_key_id k) (kr_keys k) &&
  forallb (fun kv => search _KEY_ID_PATTERN kv.1 && (String.length kv.2 =? _KEY_BYTES)%nat) (kr_keys k).

(** ** Values as bytes *)

Section Cipher.
Context (float_text : json -> string) (spaced : json -> string).
Context (sha256 : string -> string) (hmac : string -> string -> string).
Context (aes_encrypt : string -> string -> string -> string -> string)
  (aes_decrypt : string -> string -> string -> string -> option string).

Definition canonical_bytes (v : json) : string :=
  match v with
  | JStr s => s
  | _ => match canon_of v with Some c => dumps c "" | None => float_text v end
  end.

Definition content_sha256 (v : json) : string := sha256 (canonical_bytes v).

Definition _aad (entity_type entity_id : string) : string := entity_type +:+ ":" +:+ entity_id.

Definition key (k : Keyring) (i : string) : result exn string :=
  match dget i (kr_keys k) with Some m => Ok m | None => Err DecryptionError end.

(** The nonce is drawn at random. *)
Definition encrypt (k : Keyring) (nonce : string) (v : json) (entity_type entity_id : string) : result exn string :=
  _ ← raise_unless (negb (bool_decide (entity_type = "")) && negb (bool_decide (entity_id = ""))) SensitiveDataError;
  m ← key k (active_key_id k);
  Ok (CIPHER_VERSION +:+ ":" +:+ active_key_id k +:+ ":" +:+ _b64e nonce +:+ ":" +:+
      _b64e (aes_encrypt m nonce (canonical_bytes v) (_aad entity_type entity_id))).

(** [s.split(":")]. *)
Fixpoint split_colon (s : string) : list string :=
  match s with
  | "" => [""]
  | String c s =>
      match split_colon s with
      | w :: l => if bool_decide (c = ":"%char) then "" :: w :: l else String c w :: l
      | [] => []
      end
  end.

Definition decrypt (k : Keyring) (ciphertext entity_type entity_id : string) : result exn string :=
  match split_colon ciphertext with
  | [v; i; n; p] =>
      _ ← raise_unless (bool_decide (v = CIPHER_VERSION)) DecryptionError;
      match _b64d n, _b64d p with
      | Some nonce, Some payload =>
          m ← key k i;
          match aes_decrypt m nonce payload (_aad entity_type entity_id) with
          | Some t => Ok t
          | None => Err DecryptionError
          end
      | _, _ => Err DecryptionError
      end
  | _ => Err DecryptionError
  end.

(** The decrypted text as JSON where it is JSON, and as it is otherwise. *)
Definition decrypt_json (not_finite : spec_float -> json) (k : Keyring) (ciphertext entity_type entity_id : string) : result exn json :=
  raw ← decrypt k ciphertext entity_type entity_id;
  Ok (match loads not_finite raw with Some v => v | None => JStr raw end).

Definition fingerprint (k : Keyring) (v : json) : result exn string :=
  m ← key k (active_key_id k);
  Ok (hmac (sha256 ("astra-fingerprint-v1:" +:+ m)) (canonical_bytes v)).

(** The last [n] characters, [s[-n:]] for a positive [n]. *)
Definition last_chars (n : Z) (s : string) : string :=
  String.substring (String.length s - Z.to_nat n) (Z.to_nat n) s.

Definition redact (v : json) (keep_last : Z) : string :=
  let text := match v with JStr s => s | _ => spaced v end in
  let len := Z.of_nat (String.length text) in
  if bool_decide (text = "") then ""
  else if (0 <? keep_last) && (keep_last <? len) then "****" +:+ last_chars keep_last text
  else str_repeat (if len <=? 8 then 4 else if len <=? 32 then 8 else 12) "*".

End Cipher.

(** ** What is read back *)

Lemma b64_value_char v : 0 <= v < 64 -> b64_value (b64_char v) = Some v /\ b64_char v <> "="%char /\ b64_char v <> ":"%char.
Proof.
  intros Hv. assert (v ∈ seqZ 0 64) as Hin by (apply elem_of_seqZ; lia). clear Hv.
  assert (Forall (fun v => b64_value (b64_char v) = Some v /\ b64_char v <> "="%char /\ b64_char v <> ":"%char) (seqZ 0 64)) as HF.
  { apply (bool_decide_unpack _). vm_compute. exact I. }
  rewrite Forall_forall in HF. by apply HF.
Qed.

Lemma of_byte_bounds c : 0 <= of_byte c < 256.
Proof. unfold of_byte. pose proof (N_ascii_bounded c). lia. Qed.

Lemma byte_of_of c n : n = of_byte c -> byte_of n = c.
Proof. intros ->. unfold byte_of, of_byte. by rewrite N2Z.id, ascii_N_embedding. Qed.

Lemma a2b_step pos left pads v s :
  0 <= v < 64 ->
  a2b pos left pads (String (b64_char v) s) =
    if pos =? 0 then a2b 1 v 0 s
    else if pos =? 1 then String (byte_of (left * 4 + v / 16)) <$> a2b 2 (v mod 16) 0 s
    else if pos =? 2 then String (byte_of (left * 16 + v / 4)) <$> a2b 3 (v mod 4) 0 s
    else String (byte_of (left * 64 + v)) <$> a2b 0 0 0 s.
Proof. intros Hv. destruct (b64_value_char v Hv) as (E & Hne & _). cbn [a2b]. by rewrite (bool_decide_eq_false_2 _ Hne), E. Qed.

Lemma three_ind (P : string -> Prop) :
  P "" -> (forall a, P (String a "")) -> (forall a b, P (String a (String b ""))) ->
  (forall a b c s, P s -> P (String a (String b (String c s)))) -> forall s, P s.
Proof.
  intros H0 H1 H2 H3. fix IH 1. intros [|a [|b [|c s]]]; [done | apply H1 | apply H2 | apply H3, IH].
Qed.

Lemma b64e_length s : Z.of_nat (String.length (_b64e s)) mod 4 =
  (if Z.of_nat (String.length s) mod 3 =? 0 then 0 else Z.of_nat (String.length s) mod 3 + 1).
Proof.
  induction s as [|a|a b|a b c s IH] using three_ind; try done.
  change (String.length (_b64e (String a (String b (String c s))))) with (4 + String.length (_b64e s))%nat.
  change (String.length (String a (String b (String c s)))) with (3 + String.length s)%nat.
  rewrite !Nat2Z.inj_add, (Z.add_comm (Z.of_nat 4)), (Z.add_comm (Z.of_nat 3)).
  change (Z.of_nat 4) with (1 * 4). change (Z.of_nat 3) with (1 * 3). by rewrite !Z.mod_add by lia.
Qed.

(** [_b64d(_b64e(raw)) == raw]; what follows a whole number of groups is decoded after it. *)
Lemma a2b_b64e s : a2b 0 0 0 (_b64e s +:+ padding (_b64e s)) = Some s.
Proof.
  unfold padding.
  assert ((- Z.of_nat (String.length (_b64e s))) mod 4 =
    (if Z.of_nat (String.length s) mod 3 =? 0 then 0 else 3 - Z.of_nat (String.length s) mod 3)) as Hpad.
  { pose proof (b64e_length s) as H. revert H. destruct (Z.eqb_spec (Z.of_nat (String.length s) mod 3) 0).
    - intros H. apply Z.mod_opp_l_z; lia.
    - intros H. pose proof (Z.mod_pos_bound (Z.of_nat (String.length s)) 3). rewrite Z.mod_opp_l_nz; lia. }
  rewrite Hpad. clear Hpad.
  induction s as [|a|a b|a b c s IH] using three_ind.
  - done.
  - pose proof (of_byte_bounds a). cbn [_b64e]. cbv zeta.
    change (String ?x (String ?y "") +:+ ?p) with (String x (String y p)).
    rewrite !a2b_step by (zify; Z.to_euclidean_division_equations; lia). cbn [Z.eqb Pos.eqb].
    rewrite (byte_of_of a) by (Z.to_euclidean_division_equations; lia). reflexivity.
  - pose proof (of_byte_bounds a). pose proof (of_byte_bounds b). cbn [_b64e]. cbv zeta.
    change (String ?x (String ?y (String ?z "")) +:+ ?p) with (String x (String y (String z p))).
    rewrite !a2b_step by (Z.to_euclidean_division_equations; lia). cbn [Z.eqb Pos.eqb].
    rewrite (byte_of_of a), (byte_of_of b) by (Z.to_euclidean_division_equations; lia). reflexivity.
  - pose proof (of_byte_bounds a). pose proof (of_byte_bounds b). pose proof (of_byte_bounds c). cbn [_b64e]. cbv zeta.
    change (String ?x (String ?y (String ?z (String ?w ?t))) +:+ ?p) with (String x (String y (String z (String w (t +:+ p))))).
    rewrite !a2b_step by (Z.to_euclidean_division_equations; lia). cbn [Z.eqb Pos.eqb].
    rewrite (byte_of_of a), (byte_of_of b), (byte_of_of c) by (Z.to_euclidean_division_equations; lia).
    change (String.length (String a (String b (String c s)))) with (3 + String.length s)%nat.
    rewrite Nat2Z.inj_add, (Z.add_comm (Z.of_nat 3)). change (Z.of_nat 3) with (1 * 3). rewrite Z.mod_add by lia.
    by rewrite IH.
Qed.

Lemma b64e_no_colon s : has_char ":" (_b64e s) = false.
Proof.
  assert (forall v t, 0 <= v < 64 -> has_char ":" (String (b64_char v) t) = has_char ":" t) as Hc.
  { intros v t Hv. destruct (b64_value_char v Hv) as (_ & _ & Hne). cbn. by rewrite bool_decide_eq_false_2 by done. }
  induction s as [|a|a b|a b c s IH] using three_ind; [done|..]; cbn [_b64e]; cbv zeta; pose proof (of_byte_bounds a);
    try pose proof (of_byte_bounds b); try pose proof (of_byte_bounds c);
    rewrite !Hc by (Z.to_euclidean_division_equations; lia); done.
Qed.

Lemma split_colon_nonempty s : split_colon s <> [].
Proof. induction s as [|c s IH]; [done|]. cbn. destruct (split_colon s); [done|]. by case_bool_decide. Qed.

Lemma split_colon_plain s : has_char ":" s = false -> split_colon s = [s].
Proof.
  induction s as [|c s IH]; [done|]. cbn. intros [Hc Hs]%orb_false_iff. rewrite IH by done.
  apply bool_decide_eq_false in Hc. by rewrite bool_decide_eq_false_2 by congruence.
Qed.

Lemma split_colon_cons a b : has_char ":" a = false -> split_colon (a +:+ String ":" b) = a :: split_colon b.
Proof.
  induction a as [|c a IH].
  - intros _. change ("" +:+ String ":" b) with (String ":" b). cbn. destruct (split_colon b) eqn:E; [|done].
    by apply split_colon_nonempty in E.
  - cbn [has_char]. intros [Hc Ha]%orb_false_iff. change (String c a +:+ String ":" b) with (String c (a +:+ String ":" b)).
    cbn. rewrite IH by done. apply bool_decide_eq_false in Hc. by rewrite bool_decide_eq_false_2 by congruence.
Qed.

Lemma key_id_plain i : search _KEY_ID_PATTERN i = true -> has_char ":" i = false.
Proof.
  intros (s & t & Hs & Hm)%search_spec. unfold _KEY_ID_PATTERN in Hm. cbn [seqs] in Hm.
  apply Match_seq_inv in Hm as (s1 & Hb & Hm). apply Match_seq_inv in Hm as (s2 & H1 & Hm).
  apply Match_seq_inv in Hm as (s3 & H2 & H3). apply Match_Bol_start in Hb as [-> Hb].
  apply (bol_place i) in Hb as ->; [|done]. apply Match_cls_inv in H1 as (c & Hc & E1). cbn in E1.
  apply Match_upto_cls_inv in H2 as (u & Hu & E2). apply Match_Eol_inv in H3 as [H3 _].
  rewrite E1, E2. change (String c (u +:+ s3.2)) with (String c u +:+ s3.2).
  assert (str_all key_id_char (String c u) = true) as Hall by (cbn; by rewrite Hc).
  assert (has_char ":" s3.2 = false) as Hend.
  { unfold at_end in H3. destruct s3.2 as [|x [|y z]]; [done| |done]. cbn. apply orb_false_iff. split; [|done].
    apply bool_decide_eq_false_2. intros <-. done. }
  clear -Hall Hend. revert Hall. generalize (String c u). intros v. induction v as [|x v IH]; intros Hall; [done|].
  cbn in Hall. apply andb_true_iff in Hall as [Hx Hv]. change (String x v +:+ s3.2) with (String x (v +:+ s3.2)).
  cbn. rewrite IH by done. apply orb_false_iff. split; [|done]. apply bool_decide_eq_false_2. intros <-. done.
Qed.

Section RoundTrip.
Context (float_text : json -> string).
Context (aes_encrypt : string -> string -> string -> string -> string)
  (aes_decrypt : string -> string -> string -> string -> option string).
Notation encrypt := (encrypt float_text aes_encrypt).
Notation decrypt := (decrypt aes_decrypt).
Notation canonical_bytes := (canonical_bytes float_text).
Context (aes_law : forall m n p a, aes_decrypt m n (aes_encrypt m n p a) a = Some p).

(** A keyring still holds the material another one encrypts with. *)
Definition keeps (old new : Keyring) : Prop := dget (active_key_id old) (kr_keys new) = dget (active_key_id old) (kr_keys old).

(** An envelope opens for the row it was made for, with any keyring that still holds
    its key. *)
Lemma decrypt_encrypt old new nonce v t i ct :
  keyring_ok old = true -> keeps old new -> encrypt old nonce v t i = Ok ct ->
  decrypt new ct t i = Ok (canonical_bytes v).
Proof.
  intros Hk Hkeep. unfold Crypto.encrypt. intros (u & _ & H)%bind_Ok_inv. apply bind_Ok_inv in H as (m & Hm & [= <-]).
  assert (has_char ":" (active_key_id old) = false) as Hid.
  { unfold keyring_ok in Hk. apply andb_true_iff in Hk as [_ Hk]. rewrite forallb_forall in Hk.
    unfold key in Hm. destruct (dget (active_key_id old) (kr_keys old)) as [m'|] eqn:Ed; [|done].
    apply dget_in, list_elem_of_In, Hk, andb_true_iff in Ed as [Hs _]. by apply key_id_plain. }
  unfold Crypto.decrypt.
  change (CIPHER_VERSION +:+ ":" +:+ ?x) with (CIPHER_VERSION +:+ String ":" x). rewrite split_colon_cons by done.
  change (active_key_id old +:+ ":" +:+ ?x) with (active_key_id old +:+ String ":" x). rewrite split_colon_cons by done.
  change (_b64e nonce +:+ ":" +:+ ?x) with (_b64e nonce +:+ String ":" x). rewrite split_colon_cons by apply b64e_no_colon.
  rewrite split_colon_plain by apply b64e_no_colon. rewrite bool_decide_eq_true_2 by done. msimpl. cbn [raise_unless].
  unfold _b64d. rewrite !a2b_b64e. unfold key in Hm |- *. rewrite Hkeep.
  destruct (dget (active_key_id old) (kr_keys old)) as [m'|]; [|done]. injection Hm as ->. msimpl. by rewrite aes_law.
Qed.
End RoundTrip.
