(* ===== verification/Hashes.v ===== *)
(** * Hashes that bind an approval to what was reviewed ([app/communications/hashes.py])

    The recipient, attachment and approval hashes, built on canonical JSON text.  SHA-256 is a parameter: equality of hashes gives equality of what was hashed
    or a collision.  [str()] of a value that is not a string is a parameter too. *)
From Stdlib Require Import Ascii.
From stdpp Require Import pretty.
From S2P Require Import Prelude PyJson CanonJson.
Open Scope Z_scope.

(** ** Normal forms *)

(** [re.sub(r"\r\n?", "\n", s)]. *)
Fixpoint unix_newlines (s : string) : string :=
  match s with
  | "" => ""
  | String c s' =>
      if (N_of_ascii c =? 13)%N then
        String (ascii_of_nat 10)
          match s' with
          | String c2 s2 => if (N_of_ascii c2 =? 10)%N then unix_newlines s2 else unix_newlines s'
          | "" => ""
          end
      else String c (unix_newlines s')
  end.

Section Hashes.
Context (sha256 : string -> string) (py_str : json -> string).

Definition sha256_text (value : option string) : string := sha256 (strip (unix_newlines (default "" value))).

(** A recipient is a dict; what is read of it. *)
Definition recipient := list (string * json).

(** [str(d.get(k) or "")]. *)
Definition text_or_empty (d : recipient) (k : string) : string :=
  match dget k d with
  | Some v => if truthy v then match v with JStr s => s | _ => py_str v end else ""
  | None => ""
  end.

Definition address_of (r : recipient) : string := str_lower (strip (text_or_empty r "address")).
Definition name_of (r : recipient) : string := strip (text_or_empty r "name").

(** The order of [(address, name)]. *)
Definition pair_leb (a b : string * string) : bool :=
  if bool_decide (a.1 = b.1) then str_leb a.2 b.2 else str_leb a.1 b.1.

Definition normalize_recipients (rs : list recipient) : list (string * string) :=
  py_sorted pair_leb ((fun r => (address_of r, name_of r)) <$> rs).

Definition recipient_canon (p : string * string) : canon := CDict [("address", CStr p.1); ("name", CStr p.2)].

Definition recipient_set_hash (to cc bcc : list recipient) : string :=
  canonical_sha256 sha256 (CDict [("bcc", CList (recipient_canon <$> normalize_recipients bcc));
    ("cc", CList (recipient_canon <$> normalize_recipients cc));
    ("to", CList (recipient_canon <$> normalize_recipients to))]).

(** What a manifest row is reduced to. *)
Record ManifestItem := { document_version_id : string; filename : string; size_bytes : Z; content_sha256 : string }.

Definition manifest_leb (a b : ManifestItem) : bool :=
  pair_leb (filename a, content_sha256 a) (filename b, content_sha256 b).

Definition manifest_canon (i : ManifestItem) : canon :=
  CDict [("content_sha256", CStr (content_sha256 i)); ("document_version_id", CStr (document_version_id i));
         ("filename", CStr (filename i)); ("size_bytes", CInt (size_bytes i))].

Definition attachment_set_hash (manifest : list ManifestItem) : string :=
  canonical_sha256 sha256 (CList (manifest_canon <$> py_sorted manifest_leb manifest)).

(** The keyword arguments of [approval_snapshot_hash]. *)
Record Snapshot := {
  sn_subject : string;
  sn_body : string;
  sn_recipients : string;
  sn_attachments : string;
  sn_revision : Z;
  sn_graph_id : string;
  sn_change_key : option string;
  sn_etag : option string;
  sn_plan : string;
  sn_template : option string
}.

Definition opt_canon (o : option string) : canon := match o with Some s => CStr s | None => CNull end.

Definition snapshot_canon (s : Snapshot) : canon :=
  CDict [("attachment_set_sha256", CStr (sn_attachments s)); ("body_sha256", CStr (sn_body s));
         ("graph_change_key", opt_canon (sn_change_key s)); ("graph_draft_message_id", CStr (sn_graph_id s));
         ("graph_etag", opt_canon (sn_etag s)); ("recipient_set_sha256", CStr (sn_recipients s));
         ("response_plan_id", CStr (sn_plan s)); ("revision", CInt (sn_revision s));
         ("subject", CStr (strip (sn_subject s))); ("template_version_id", opt_canon (sn_template s))].

Definition approval_snapshot_hash (s : Snapshot) : string := canonical_sha256 sha256 (snapshot_canon s).
End Hashes.

(** ** What the hashes bind *)

Lemma opt_canon_inj a b : opt_canon a = opt_canon b -> a = b.
Proof. destruct a, b; simpl; congruence. Qed.

(** An approval binds everything it was given: two snapshots with the same hash
    have the same subject up to surrounding blanks, the same content, recipient and
    attachment hashes, the same revision, and the same draft, change key, entity tag,
    plan and template, unless a collision of SHA-256 is at hand. *)
Theorem approval_hash_binds sha256 a b :
  approval_snapshot_hash sha256 a = approval_snapshot_hash sha256 b ->
  (strip (sn_subject a) = strip (sn_subject b) /\ sn_body a = sn_body b /\ sn_recipients a = sn_recipients b /\
   sn_attachments a = sn_attachments b /\ sn_revision a = sn_revision b /\ sn_graph_id a = sn_graph_id b /\
   sn_change_key a = sn_change_key b /\ sn_etag a = sn_etag b /\ sn_plan a = sn_plan b /\
   sn_template a = sn_template b) \/ collision sha256.
Proof.
  intros [E|?]%canonical_inj; [left | by right]. unfold snapshot_canon in E.
  injection E as E1 E2 E3%opt_canon_inj E4 E5%opt_canon_inj E6 E7 E8 E9 E10%opt_canon_inj. by split_and!.
Qed.

Lemma pair_leb_total a b : pair_leb a b = true \/ pair_leb b a = true.
Proof.
  unfold pair_leb. destruct (decide (a.1 = b.1)) as [E|E].
  - rewrite !bool_decide_eq_true_2 by done. apply str_leb_total.
  - rewrite !bool_decide_eq_false_2 by done. apply str_leb_total.
Qed.

Lemma pair_leb_trans a b c : pair_leb a b = true -> pair_leb b c = true -> pair_leb a c = true.
Proof.
  unfold pair_leb. destruct a as [a1 a2], b as [b1 b2], c as [c1 c2]; simpl.
  destruct (decide (a1 = b1)) as [->|E1].
  - rewrite (bool_decide_eq_true_2 (b1 = b1)) by done. case_bool_decide; [apply str_leb_trans | done].
  - rewrite (bool_decide_eq_false_2 (a1 = b1)) by done. intros H1. case_bool_decide as E2; subst.
    + intros _. by rewrite bool_decide_eq_false_2.
    + intros H2. case_bool_decide as E3; subst; [|by eapply str_leb_trans].
      destruct E1. by apply str_leb_antisym.
Qed.

Lemma pair_leb_antisym a b : pair_leb a b = true -> pair_leb b a = true -> a = b.
Proof.
  unfold pair_leb. destruct a as [a1 a2], b as [b1 b2]; simpl. destruct (decide (a1 = b1)) as [->|E].
  - rewrite bool_decide_eq_true_2 by done. intros H1 H2. f_equal. by apply str_leb_antisym.
  - rewrite !bool_decide_eq_false_2 by done. intros H1 H2. destruct E. by apply str_leb_antisym.
Qed.

(** The normal form is the multiset of normalized recipients. *)
Lemma normalize_perm py_str rs rs' :
  normalize_recipients py_str rs = normalize_recipients py_str rs' <->
  (fun r => (address_of py_str r, name_of py_str r)) <$> rs ≡ₚ (fun r => (address_of py_str r, name_of py_str r)) <$> rs'.
Proof.
  unfold normalize_recipients. split.
  - intros E. rewrite <-(py_sorted_perm pair_leb), E. apply py_sorted_perm.
  - intros Hp. apply (StronglySorted_unique_strong (fun a b => pair_leb a b = true)).
    + intros x y _ _. apply pair_leb_antisym.
    + apply py_sorted_sorted; [apply pair_leb_total | apply pair_leb_trans].
    + apply py_sorted_sorted; [apply pair_leb_total | apply pair_leb_trans].
    + by rewrite !py_sorted_perm.
Qed.

Instance recipient_canon_inj : Inj (=) (=) recipient_canon.
Proof. intros [a n] [a' n'] [= -> ->]. done. Qed.

(** C32. The recipient hash is the hash of who receives: it does not depend on the
    order of the recipients within a field, on the case of an address or on blanks
    around it; and two sets with the same hash have in each of the three fields the
    same addresses and names, unless a collision of SHA-256 is at hand. *)
Theorem recipient_hash_binds sha256 py_str to cc bcc to2 cc2 bcc2 :
  let norm rs := (fun r => (address_of py_str r, name_of py_str r)) <$> rs in
  (norm to ≡ₚ norm to2 -> norm cc ≡ₚ norm cc2 -> norm bcc ≡ₚ norm bcc2 ->
   recipient_set_hash sha256 py_str to cc bcc = recipient_set_hash sha256 py_str to2 cc2 bcc2) /\
  (recipient_set_hash sha256 py_str to cc bcc = recipient_set_hash sha256 py_str to2 cc2 bcc2 ->
   (norm to ≡ₚ norm to2 /\ norm cc ≡ₚ norm cc2 /\ norm bcc ≡ₚ norm bcc2) \/ collision sha256).
Proof.
  cbv zeta. rewrite <-!normalize_perm. split.
  - intros E1 E2 E3. unfold recipient_set_hash. by rewrite E1, E2, E3.
  - intros [E|?]%canonical_inj; [left | by right]. injection E as E1 E2 E3.
    apply (inj (fmap recipient_canon)) in E1, E2, E3. by split_and!.
Qed.

(** Line ends and surrounding blanks do not change a text's hash. *)
Example newline_hash sha256 :
  let nl := String (ascii_of_nat 10) in let cr := String (ascii_of_nat 13) in
  sha256_text sha256 (Some ("a" +:+ cr (nl ("b" +:+ cr "c  ")))) = sha256_text sha256 (Some ("a" +:+ nl ("b" +:+ nl "c"))).
Proof. reflexivity. Qed.

Definition sample_snapshot : Snapshot :=
  {| sn_subject := "Renewal"; sn_body := "b"; sn_recipients := "r"; sn_attachments := "a"; sn_revision := 3;
     sn_graph_id := "g"; sn_change_key := Some "k"; sn_etag := None; sn_plan := "p"; sn_template := None |}.

Example snapshot_text :
  dumps (CDict [("n", CInt (-3)); ("t", CList [CStr "a\b"; CNull])]) "" =
  String "{" (str_text "n" (":-3," +:+ str_text "t" (":[" +:+ str_text "a\b" ",null]}"))).
Proof. vm_compute. reflexivity. Qed.

Lemma approval_hash_binds_witness :
  let padded := {| sn_subject := " Renewal "; sn_body := "b"; sn_recipients := "r"; sn_attachments := "a";
    sn_revision := 3; sn_graph_id := "g"; sn_change_key := Some "k"; sn_etag := None; sn_plan := "p";
    sn_template := None |} in
  strip (sn_subject padded) = strip (sn_subject sample_snapshot) \/ collision (fun s => s).
Proof.
  cbv zeta. destruct (approval_hash_binds (fun s => s)
    {| sn_subject := " Renewal "; sn_body := "b"; sn_recipients := "r"; sn_attachments := "a";
       sn_revision := 3; sn_graph_id := "g"; sn_change_key := Some "k"; sn_etag := None; sn_plan := "p";
       sn_template := None |} sample_snapshot) as [(H & _)|H]; [vm_compute; reflexivity | left; exact H | right; exact H].
Defined.
