(* ===== verification/Roles.v ===== *)
(** * Roles and their inheritance ([app/auth/roles.py]) *)
From S2P Require Import Prelude Vocabulary.
Open Scope Z_scope.

Definition _LEVEL (r : Role.Role) : Z :=
  match r with
  | Role.READER => 1 | Role.ANALYST => 2 | Role.REVIEWER => 3 | Role.MANAGER => 4 | Role.ADMIN => 5
  | _ => 0
  end.

Definition _STANDALONE_ROLES : list Role.Role :=
  [Role.SENDER; Role.COUNSEL; Role.INFORMATION_OWNER; Role.AUTHORIZED_SIGNATORY; Role.PORTAL_OPERATOR;
   Role.PAYMENT_APPROVER; Role.FINAL_SUBMITTER].

(** Who acts ([app/auth/actors.py]). *)
Record CurrentActor := { actor_id : string; roles : list string }.

Definition has_role (actual : list string) (required : Role.Role) : bool :=
  if bool_decide (required = Role.SENDER)
  then bool_decide (value Role.SENDER ∈ actual) || bool_decide (value Role.MANAGER ∈ actual)
  else if bool_decide (required ∈ _STANDALONE_ROLES) then bool_decide (value required ∈ actual)
  else existsb (fun s => match of_value s with Some r => _LEVEL required <=? _LEVEL r | None => false end) actual.

Definition has_any_role (actual : list string) (required : list Role.Role) : bool :=
  existsb (has_role actual) required.

(** Who holds a role: the five seniority roles are held by whoever has that role or
    a more senior one; sending by Sender and Manager only; every other authority only by
    an explicit grant, whatever the seniority. *)
Theorem has_role_spec actual required :
  has_role actual required = true <->
  (required = Role.SENDER /\ (value Role.SENDER ∈ actual \/ value Role.MANAGER ∈ actual)) \/
  (required <> Role.SENDER /\ required ∈ _STANDALONE_ROLES /\ value required ∈ actual) \/
  ((required ∉ _STANDALONE_ROLES) /\ exists r, value r ∈ actual /\ _LEVEL required <= _LEVEL r).
Proof.
  unfold has_role. case_bool_decide as Hs.
  { subst required. rewrite orb_true_iff, !bool_decide_eq_true. split; [by left; tauto|].
    intros [[_ ?]|[[? _]|[H _]]]; [done..|]. destruct H. left. }
  case_bool_decide as Hd.
  { rewrite bool_decide_eq_true. split; [tauto|]. intros [[? _]|[(_ & _ & ?)|[? _]]]; done. }
  rewrite existsb_exists. split.
  - intros (s & Hin & Hlv). right; right. split; [done|]. destruct (of_value s) as [r|] eqn:E; [|done].
    apply of_value_Some in E as ->. exists r. by rewrite list_elem_of_In, <-Z.leb_le.
  - intros [[? _]|[(_ & ? & _)|(_ & r & Hin & Hlv)]]; [done..|].
    exists (value r). rewrite <-list_elem_of_In, of_value_value, Z.leb_le. done.
Qed.

(** Nobody acts as counsel, signs or submits by seniority. *)
Example admin_authority :
  ((fun r => has_role [value Role.ADMIN] r) <$> [Role.READER; Role.MANAGER; Role.SENDER; Role.COUNSEL; Role.FINAL_SUBMITTER]) =
  ([true; true; false; false; false] : list bool).
Proof. reflexivity. Qed.
