(* ===== verification/RecipientPolicy.v ===== *)
(** * Who may receive a message ([app/communications/recipients.py])

    The settings of the communication services and the recipient policy.  [str()] of a
    value that is not a string is a parameter. *)
From Stdlib Require Import Ascii.
From S2P Require Import Prelude Vocabulary PyDate PyJson Regex Evaluator Hashes.
Open Scope Z_scope.

(** The communication settings of [app/core/config.py]. *)
Record Settings := {
  communications_enabled : bool;
  graph_send_enabled : bool;
  communication_require_separate_send_approver : bool;
  communication_require_two_person_approval : bool;
  communication_allow_self_approval : bool;
  communication_reply_all_enabled : bool;
  communication_bcc_enabled : bool;
  communication_max_to_recipients : Z;
  communication_max_cc_recipients : Z;
  communication_max_total_recipients : Z;
  communication_external_recipient_requires_manager : bool;
  communication_max_body_chars : Z;
  communication_attachments_enabled : bool;
  communication_simple_attachment_max_bytes : Z;
  communication_large_attachments_enabled : bool;
  communication_large_attachment_max_bytes : Z;
  communication_total_attachment_max_bytes : Z;
  communication_shared_mailbox_large_attachment_accepted : bool;
  communication_send_job_max_attempts : Z;
  communication_send_reconciliation_initial_delay_seconds : Z;
  communication_send_reconciliation_max_seconds : Z;
  communication_send_reconciliation_max_attempts : Z;
  communication_move_policy : string;
  communication_completed_folder_name : string;
  communication_move_job_max_attempts : Z;
  communication_move_reconciliation_max_attempts : Z;
  graph_message_move_enabled : bool;
  graph_expected_mailbox_address : option string
}.

(** ** Addresses *)

Definition plain : re := Cls (fun c => negb (is_space c) && negb (bool_decide (c = "@"%char))).

(** [^[^\s@]+@[^\s@]+\.[^\s@]+$]. *)
Definition EMAIL : re := seqs [Bol; Plus plain; ch "@"; Plus plain; ch "."; Plus plain; Eol].

(** [s.rsplit("@", 1)[-1]]. *)
Fixpoint after_last_at (s : string) : string :=
  match s with
  | "" => ""
  | String c s' => if has_char "@" s then (if bool_decide (c = "@"%char) && negb (has_char "@" s') then s' else after_last_at s')
                   else s
  end.

(** ** Rules *)

Record RecipientPolicyRule := {
  rule_key : string;
  rule_type : string;
  rule_priority : Z;
  conditions : json;
  action : string;
  enabled : bool
}.

Record RecipientPolicyResult := { allowed : bool; blockers : list string; warnings : list string }.

(** The keyword arguments of [evaluate]. *)
Record PolicyInput := {
  pi_mode : string;
  pi_to : list recipient;
  pi_cc : list recipient;
  pi_bcc : list recipient;
  pi_reply_all_reviewed : bool;
  pi_bcc_authorized : bool;
  pi_blocked_domains : option (list string);
  pi_internal_domains : option (list string);
  pi_rules : list RecipientPolicyRule;
  pi_manager_approved : bool;
  pi_enforce_manager_rules : bool
}.

Section Policy.
Context (py_str : json -> string) (settings : Settings).

Definition str_of (v : json) : string := match v with JStr s => s | _ => py_str v end.

Definition conditions_of (r : RecipientPolicyRule) : list (string * json) :=
  match conditions r with JDict d => d | _ => [] end.

(** The normalized values a rule lists. *)
Definition rule_values (r : RecipientPolicyRule) : gset string :=
  let configured :=
    match dget "values" (conditions_of r) with
    | Some v => v
    | None => default (JList []) (dget "domains" (conditions_of r))
    end in
  match configured with
  | JList l => list_to_set (filter (fun s => s <> "") ((fun v => str_lower (strip (str_of v))) <$> l))
  | _ => ∅
  end.

(** [int(conditions.get("maximum", conditions.get("max", 0)) or 0)], 0 when it fails. *)
Definition rule_maximum (r : RecipientPolicyRule) : Z :=
  let v := match dget "maximum" (conditions_of r) with
           | Some v => v
           | None => default (JInt 0) (dget "max" (conditions_of r))
           end in
  if truthy v then match py_int v with Ok n => n | Err _ => 0 end else 0.

Definition all_recipients (i : PolicyInput) : list recipient := pi_to i ++ pi_cc i ++ pi_bcc i.
Definition addresses (i : PolicyInput) : list string := address_of py_str <$> all_recipients i.
Definition domains (i : PolicyInput) : gset string :=
  list_to_set (after_last_at <$> filter (fun a => has_char "@" a = true) (addresses i)).
Definition lowered (o : option (list string)) : gset string := list_to_set (str_lower <$> default [] o).
Definition external (i : PolicyInput) : gset string :=
  match pi_internal_domains i with Some _ => domains i ∖ lowered (pi_internal_domains i) | None => ∅ end.

Definition nonempty (s : gset string) : bool := negb (bool_decide (s = ∅)).

Definition rule_matches (i : PolicyInput) (r : RecipientPolicyRule) : bool :=
  let values := rule_values r in
  let t := rule_type r in
  if bool_decide (t = "BLOCKED_DOMAIN") then nonempty (domains i ∩ values)
  else if bool_decide (t = "BLOCKED_ADDRESS") then nonempty (list_to_set (addresses i) ∩ values)
  else if bool_decide (t = "ALLOWED_DOMAIN") && nonempty values then nonempty (domains i ∖ values)
  else if bool_decide (t = "ALLOWED_ADDRESS") && nonempty values then nonempty (list_to_set (addresses i) ∖ values)
  else if bool_decide (t = "INTERNAL_ONLY") then
    nonempty (domains i ∖ (if nonempty values then values else lowered (pi_internal_domains i)))
  else if bool_decide (t = "EXTERNAL_REQUIRES_MANAGER") then
    nonempty (external i) && pi_enforce_manager_rules i && negb (pi_manager_approved i)
  else if bool_decide (t = "MAX_RECIPIENTS") then
    (0 <? rule_maximum r) && (rule_maximum r <? Z.of_nat (length (all_recipients i)))
  else if bool_decide (t = "BCC_DISABLED") then negb (bool_decide (pi_bcc i = []))
  else if bool_decide (t = "REPLY_ALL_REQUIRES_APPROVAL") then
    bool_decide (pi_mode i = value RecipientMode.REPLY_ALL) && negb (pi_reply_all_reviewed i)
  else false.

Definition only_warns (r : RecipientPolicyRule) : bool := bool_decide (str_upper (action r) ∈ ["WARN"; "FLAG"]).

(** [cond * blocker]: what one of the fixed checks appends. *)
Definition block_if (b : bool) (reason : string) : list string := if b then [reason] else [].

Definition fixed_blockers (i : PolicyInput) : list string :=
  block_if (bool_decide (pi_to i = [])) "RECIPIENT_MISSING" ++
  block_if (existsb (fun a => negb (fullmatch EMAIL a)) (addresses i)) "RECIPIENT_POLICY_BLOCK" ++
  block_if (communication_max_to_recipients settings <? Z.of_nat (length (pi_to i))) "RECIPIENT_POLICY_BLOCK" ++
  block_if (communication_max_cc_recipients settings <? Z.of_nat (length (pi_cc i))) "RECIPIENT_POLICY_BLOCK" ++
  block_if (communication_max_total_recipients settings <? Z.of_nat (length (all_recipients i))) "RECIPIENT_POLICY_BLOCK" ++
  block_if (nonempty (domains i ∩ lowered (pi_blocked_domains i))) "RECIPIENT_POLICY_BLOCK" ++
  block_if (bool_decide (pi_mode i = value RecipientMode.REPLY_ALL) &&
            (negb (communication_reply_all_enabled settings) || negb (pi_reply_all_reviewed i))) "REPLY_ALL_NOT_APPROVED" ++
  block_if (negb (bool_decide (pi_bcc i = [])) &&
            (negb (communication_bcc_enabled settings) || negb (pi_bcc_authorized i))) "BCC_NOT_AUTHORIZED".

(** The rules that are looked at, in their order. *)
Definition live_rules (i : PolicyInput) : list RecipientPolicyRule :=
  py_sorted (fun a b => rule_priority a <=? rule_priority b) (filter (fun r => enabled r = true) (pi_rules i)).

Definition evaluate (i : PolicyInput) : RecipientPolicyResult :=
  let hits := filter (fun r => rule_matches i r = true) (live_rules i) in
  let bs := fixed_blockers i ++
            ((fun _ => "RECIPIENT_POLICY_BLOCK") <$> filter (fun r => only_warns r = false) hits) in
  let ws := block_if (nonempty (external i)) "EXTERNAL_RECIPIENT" ++
            (rule_key <$> filter (fun r => only_warns r = true) hits) in
  {| allowed := bool_decide (bs = []); blockers := union_in_order bs; warnings := ws |}.
End Policy.

(** ** The policy *)

Definition plain_char (c : ascii) : bool := negb (is_space c) && negb (bool_decide (c = "@"%char)).

(** local@host.domain, no blank and no other at-sign. *)
Definition is_address (a : string) : Prop :=
  exists local host tld, a = local +:+ "@" +:+ host +:+ "." +:+ tld /\
    Forall (fun s => s <> "" /\ str_all plain_char s = true) [local; host; tld].

Lemma EMAIL_spec a : fullmatch EMAIL a = true <-> is_address a.
Proof.
  rewrite fullmatch_spec. unfold EMAIL, is_address. cbn [seqs]. split.
  - intros (b & (s1 & E1%Match_Bol_inv & (s2 & H1 & (s3 & H2 & (s4 & H3 & (s5 & H4 & (s6 & H5 &
      [_ E2]%Match_Eol_inv)%Match_seq_inv)%Match_seq_inv)%Match_seq_inv)%Match_seq_inv)%Match_seq_inv)%Match_seq_inv).
    apply Match_plus_cls_inv in H1 as (l & Hl0 & Hl & El), H3 as (h & Hh0 & Hh & Eh), H5 as (t & Ht0 & Ht & Et).
    apply Match_cls_inv in H2 as (c & Hc & Ec), H4 as (c' & Hc' & Ec'). subst s1 s6.
    apply bool_decide_eq_true in Hc, Hc'. subst c c'. exists l, h, t. split; [|by repeat constructor].
    simpl in El, Et. rewrite El, Ec, Eh, Ec', Et. by rewrite str_app_nil_r.
  - intros (l & h & t & -> & [[Hl0 Hl] [[Hh0 Hh] [[Ht0 Ht] _]%Forall_cons]%Forall_cons]%Forall_cons).
    edestruct (Match_plus_cls plain_char None l) as [b1 M1]; [done..|].
    edestruct (Match_plus_cls plain_char (Some "@"%char) h) as [b2 M2]; [done..|].
    edestruct (Match_plus_cls plain_char (Some "."%char) t "") as [b3 M3]; [done..|].
    exists b3. eapply M_seq; [by apply M_anchor|]. eapply M_seq; [exact M1|]. eapply M_seq; [by apply M_cls|].
    eapply M_seq; [exact M2|]. eapply M_seq; [by apply M_cls|]. rewrite str_app_nil_r in M3.
    eapply M_seq; [exact M3 | by apply M_anchor].
Qed.

Lemma block_if_nil b s : block_if b s = [] <-> b = false.
Proof. by destruct b. Qed.

Lemma nonempty_false s : nonempty s = false <-> s = ∅.
Proof. unfold nonempty. by rewrite negb_false_iff, bool_decide_eq_true. Qed.

Lemma fixed_blockers_nil py_str settings i :
  fixed_blockers py_str settings i = [] <->
  pi_to i <> [] /\ (forall a, a ∈ addresses py_str i -> is_address a) /\
  Z.of_nat (length (pi_to i)) <= communication_max_to_recipients settings /\
  Z.of_nat (length (pi_cc i)) <= communication_max_cc_recipients settings /\
  Z.of_nat (length (all_recipients i)) <= communication_max_total_recipients settings /\
  domains py_str i ## lowered (pi_blocked_domains i) /\
  (pi_mode i = value RecipientMode.REPLY_ALL ->
   communication_reply_all_enabled settings = true /\ pi_reply_all_reviewed i = true) /\
  (pi_bcc i <> [] -> communication_bcc_enabled settings = true /\ pi_bcc_authorized i = true).
Proof.
  unfold fixed_blockers. rewrite !app_nil, !block_if_nil, nonempty_false, !Z.ltb_ge, <-disjoint_intersection_L.
  rewrite !andb_false_iff, !orb_false_iff, !negb_false_iff, !bool_decide_eq_false, bool_decide_eq_true.
  assert (existsb (fun a => negb (fullmatch EMAIL a)) (addresses py_str i) = false <->
    forall a, a ∈ addresses py_str i -> is_address a) as ->.
  { rewrite <-not_true_iff_false, existsb_exists. split.
    - intros Hn a Ha. apply EMAIL_spec. destruct (fullmatch EMAIL a) eqn:E; [done|].
      destruct Hn. exists a. by rewrite <-list_elem_of_In, E.
    - intros Hall (a & Ha%list_elem_of_In & E). apply Hall, EMAIL_spec in Ha. by rewrite Ha in E. }
  destruct (decide (pi_mode i = value RecipientMode.REPLY_ALL)), (decide (pi_bcc i = [])); naive_solver.
Qed.

Lemma fmap_nil_iff {A B} (f : A -> B) l : f <$> l = [] <-> l = [].
Proof. destruct l; [done|]. by split. Qed.

Lemma union_nil l : union_in_order l = [] <-> l = [].
Proof.
  destruct (union_in_order_spec l) as [_ Hu]. split; [|by intros ->].
  destruct l as [|x l]; [done|]. intros E. specialize (Hu x). rewrite E, elem_of_nil in Hu.
  destruct Hu as [_ []]. left.
Qed.

(** A message may go out exactly when it has a recipient, every address is
    well formed, the three limits hold, no domain is blocked, reply-all is enabled
    and reviewed, blind copies are enabled and authorized, and every enabled rule that
    matches only warns.  Neither the order of the rules nor their priorities matter,
    and a refusal always names a reason. *)
Theorem evaluate_spec py_str settings i :
  (allowed (evaluate py_str settings i) = true <->
   (pi_to i <> [] /\ (forall a, a ∈ addresses py_str i -> is_address a) /\
    Z.of_nat (length (pi_to i)) <= communication_max_to_recipients settings /\
    Z.of_nat (length (pi_cc i)) <= communication_max_cc_recipients settings /\
    Z.of_nat (length (all_recipients i)) <= communication_max_total_recipients settings /\
    domains py_str i ## lowered (pi_blocked_domains i) /\
    (pi_mode i = value RecipientMode.REPLY_ALL ->
     communication_reply_all_enabled settings = true /\ pi_reply_all_reviewed i = true) /\
    (pi_bcc i <> [] -> communication_bcc_enabled settings = true /\ pi_bcc_authorized i = true)) /\
   forall r, r ∈ pi_rules i -> enabled r = true -> rule_matches py_str i r = true -> only_warns r = true) /\
  (allowed (evaluate py_str settings i) = true <-> blockers (evaluate py_str settings i) = []).
Proof.
  unfold evaluate. cbn [allowed blockers]. rewrite union_nil, bool_decide_eq_true. split; [|done].
  rewrite app_nil, fixed_blockers_nil, fmap_nil_iff. apply and_iff_compat_l. unfold live_rules. split.
  - intros Hf r Hr He Hm. destruct (only_warns r) eqn:Ew; [done|].
    assert (r ∈ ([] : list RecipientPolicyRule)) as Hn; [|by apply not_elem_of_nil in Hn].
    rewrite <-Hf, !list_elem_of_filter, elem_of_py_sorted, list_elem_of_filter. done.
  - intros Hall. apply filter_none. intros r [Hm Hr]%list_elem_of_filter.
    rewrite elem_of_py_sorted, list_elem_of_filter in Hr. destruct Hr as [He Hr]. by rewrite Hall.
Qed.
