(* ===== verification/DraftChecks.v ===== *)
(** * Checks on a response before it is approved

    [app/communications/validation.py] (the content), [readiness.py] (the plan) and the
    documents part of [attachments.py].  [date.today()] is an argument. *)
From Stdlib Require Import Ascii.
From S2P Require Import Prelude Vocabulary PyDate PyJson Regex Evaluator.
Open Scope Z_scope.

(** ** Content *)

Definition lt_char : ascii := "<"%char.
Definition words (l : list string) : re := alts (liti <$> l).
Definition spaces : re := Star space.
Definition word_char : re := Cls is_word.

(** [({{.*?}}|{%.*?%}|\[TODO\]|<insert\s+value>)], any case, dot matching all. *)
Definition PLACEHOLDER : re :=
  alts [seqs [lit "{{"; Star any_char; lit "}}"]; seqs [lit "{%"; Star any_char; lit "%}"];
        liti "[TODO]"; seqs [liti "<insert"; Plus space; liti "value>"]].

Definition single_quote : ascii := ascii_of_nat 39.
Definition double_quote : ascii := ascii_of_nat 34.
Definition letter_i : re := Cls (fun c => let n := N_of_ascii (lower_char c) in ((97 <=? n) && (n <=? 122))%N).

Definition UNSAFE_HTML : re :=
  alts [
    seqs [lit "<"; spaces; words ["script"; "iframe"; "object"; "embed"; "form"; "input"; "style"; "link"; "meta"]; WordB];
    seqs [WordB; Alt (Seq (liti "on") (Plus letter_i)) (liti "style"); spaces; lit "="];
    seqs [WordB; words ["href"; "src"; "action"; "formaction"]; spaces; lit "="; spaces;
          Opt (Alt (ch single_quote) (ch double_quote)); spaces; words ["javascript"; "data"]; spaces; lit ":"]].

Definition SAYS_ATTACHED : re := seqs [WordB; words ["attached"; "attachment"; "enclosed"]; WordB].

Definition newline : string := String (ascii_of_nat 10) "".

Definition text_or (o : option string) : string := default "" o.

Definition validate_draft_content (subject : string) (body_text body_html : option string) (attachment_count : Z)
    : list string :=
  let combined := subject +:+ newline +:+ text_or body_text +:+ newline +:+ text_or body_html in
  (if bool_decide (strip subject = "") || negb (truthy_str body_text || truthy_str body_html)
   then ["DRAFT_CONTENT_MISSING"] else []) ++
  (if search PLACEHOLDER combined then ["UNRESOLVED_PLACEHOLDER"] else []) ++
  (if truthy_str body_html && search UNSAFE_HTML (text_or body_html) then ["UNSAFE_HTML"] else []) ++
  (if search SAYS_ATTACHED combined && (attachment_count =? 0)
   then ["ATTACHMENT_REFERENCE_WITHOUT_ATTACHMENT"] else []).

(** The classic ways to smuggle a script in. *)
Example unsafe_samples :
  Forall (fun s => search UNSAFE_HTML s = true)
    ["<ScRiPt>x"; "< iframe src=x>"; "<a ONclick =x>"; "<a href= javascript:x>"; "<p style=x>"] /\
  Forall (fun s => search UNSAFE_HTML s = false) ["<p>script</p>"; "<b>on time = 3</b>"; "<a href=https://x>"].
Proof. split; repeat constructor. Qed.

(** ** Readiness *)

Record ReadinessResult := { ready_status : string; ready_blockers : list string }.

(** The keyword arguments of [evaluate]. *)
Record ReadinessInput := {
  ri_response_type : string;
  ri_item_statuses : list string;
  ri_recipient_count : Z;
  ri_draft_reviewed : bool;
  ri_send_approved : bool;
  ri_graph_draft_exists : bool;
  ri_document_blockers : list string;
  ri_unresolved_placeholders : bool;
  ri_task_status : option string;
  ri_task_owner : option string;
  ri_destination_folder_id : option string;
  ri_response_deadline : option date;
  ri_check_task_context : bool
}.

Definition needs_items (response_type : string) : bool :=
  bool_decide (response_type ∈ value <$> [ResponseType.INFORMATION_RESPONSE; ResponseType.DOCUMENT_RESPONSE;
                                          ResponseType.REGULATOR_RESPONSE; ResponseType.BOND_RESPONSE]).

Definition no_response (i : ReadinessInput) : bool :=
  bool_decide (ri_response_type i = value ResponseType.NO_RESPONSE_REQUIRED).

Definition when (b : bool) (s : string) : list string := if b then [s] else [].

Definition context_blockers (today : date) (i : ReadinessInput) : list string :=
  if ri_check_task_context i then
    when (bool_decide (ri_task_status i ∈ [Some "CANCELLED"; Some "COMPLETED"])) "TASK_NOT_ACTIONABLE" ++
    when (negb (truthy_str (ri_destination_folder_id i))) "DESTINATION_FOLDER_MISSING" ++
    when (negb (no_response i) && negb (truthy_str (ri_task_owner i))) "TASK_OWNER_MISSING" ++
    when (negb (no_response i) && match ri_response_deadline i with Some d => d <? today | None => false end)
      "RESPONSE_DEADLINE_PASSED"
  else [].

Definition content_blockers (i : ReadinessInput) : list string :=
  when (ri_recipient_count i =? 0) "RECIPIENT_MISSING" ++
  when (ri_unresolved_placeholders i) "UNRESOLVED_PLACEHOLDER" ++
  when (needs_items (ri_response_type i) &&
        existsb (fun v => bool_decide (v ∉ ["VERIFIED"; "NOT_APPLICABLE"])) (ri_item_statuses i))
    "REQUESTED_ITEM_NOT_VERIFIED".

Definition readiness (today : date) (i : ReadinessInput) : ReadinessResult :=
  let bs := ri_document_blockers i ++ context_blockers today i in
  if no_response i then
    {| ready_status := value (match bs with [] => ReadinessStatus.NOT_REQUIRED | _ => ReadinessStatus.BLOCKED end);
       ready_blockers := union_in_order bs |}
  else
    match bs ++ content_blockers i with
    | ((_ :: _) as all) => {| ready_status := value ReadinessStatus.NOT_READY; ready_blockers := union_in_order all |}
    | [] =>
        if negb (ri_graph_draft_exists i)
        then {| ready_status := value ReadinessStatus.READY_FOR_DRAFT; ready_blockers := [] |}
        else if negb (ri_draft_reviewed i)
        then {| ready_status := value ReadinessStatus.READY_FOR_APPROVAL; ready_blockers := ["DRAFT_NOT_REVIEWED"] |}
        else if negb (ri_send_approved i)
        then {| ready_status := value ReadinessStatus.READY_FOR_APPROVAL; ready_blockers := ["SEND_APPROVAL_MISSING"] |}
        else {| ready_status := value ReadinessStatus.READY_TO_SEND; ready_blockers := [] |}
    end.
