(* ===== verification/CommStore.v ===== *)
(** * The tables of the communication services

    [app/models/communication.py], [draft.py] and the parts of the document, mailbox
    and task tables they read; [app/communications/snapshots.py] (revisions and the
    invalidation of approvals), the database part of [attachments.py], and the
    idempotent queue of [app/repositories/communication_jobs.py].

    A service is a function from its arguments and the tables to a [result] and the
    tables it leaves.  The session does not flush on its own ([autoflush=False]): a
    query sees the rows as they are stored, an attribute the object as it was set.
    Identifiers of new rows are arguments, and an identifier drawn twice violates the
    primary key.  Metrics and the wording of errors are not modelled. *)
From S2P Require Import Prelude Vocabulary PyDate PyJson Evaluator CanonJson Hashes Roles RecipientPolicy.
Open Scope Z_scope.

Notation uuid := string.

(** ** Rows *)

Record OutboundDraft := {
  dr_id : uuid;
  response_plan_id : option uuid;
  dr_task_id : uuid;
  dr_email_id : option uuid;
  dr_mailbox_id : uuid;
  current_version_id : option uuid;
  graph_draft_message_id : option string;
  graph_change_key : option string;
  graph_etag : option string;
  subject : string;
  body_text : option string;
  body_html : option string;
  to_recipients : list recipient;
  cc_recipients : list recipient;
  bcc_recipients : list recipient;
  draft_status : string;
  local_revision : Z;
  body_sha256 : string;
  recipient_set_sha256 : string;
  attachment_set_sha256 : string;
  dr_approval_snapshot : option string;
  created_by_actor : option string;
  last_edited_by_actor : option string;
  submitted_for_approval_at : option instant;
  graph_last_synced_at : option instant;
  dr_approved_at : option instant;
  send_queued_at : option instant;
  sent_at : option instant;
  delivery_status : string
}.
Instance eta_draft : Eta OutboundDraft := fun d =>
  {| dr_id := dr_id d; response_plan_id := response_plan_id d; dr_task_id := dr_task_id d;
     dr_email_id := dr_email_id d; dr_mailbox_id := dr_mailbox_id d; current_version_id := current_version_id d;
     graph_draft_message_id := graph_draft_message_id d; graph_change_key := graph_change_key d;
     graph_etag := graph_etag d; subject := subject d; body_text := body_text d; body_html := body_html d;
     to_recipients := to_recipients d; cc_recipients := cc_recipients d; bcc_recipients := bcc_recipients d;
     draft_status := draft_status d; local_revision := local_revision d; body_sha256 := body_sha256 d;
     recipient_set_sha256 := recipient_set_sha256 d; attachment_set_sha256 := attachment_set_sha256 d;
     dr_approval_snapshot := dr_approval_snapshot d; created_by_actor := created_by_actor d;
     last_edited_by_actor := last_edited_by_actor d; submitted_for_approval_at := submitted_for_approval_at d;
     graph_last_synced_at := graph_last_synced_at d; dr_approved_at := dr_approved_at d;
     send_queued_at := send_queued_at d; sent_at := sent_at d; delivery_status := delivery_status d |}.

(** An entry of an attachment manifest. *)
Record ManifestEntry := {
  me_id : uuid;
  me_document_id : option uuid;
  me_document_version_id : option uuid;
  me_filename : string;
  me_size_bytes : Z;
  me_content_sha256 : string;
  me_graph_attachment_id : option string;
  me_status : string
}.

Record OutboundDraftVersion := {
  dv_id : uuid;
  dv_draft_id : uuid;
  dv_revision : Z;
  dv_subject : string;
  dv_body_text : option string;
  dv_body_html : option string;
  dv_to : list recipient;
  dv_cc : list recipient;
  dv_bcc : list recipient;
  dv_manifest : list ManifestEntry;
  dv_body_sha256 : string;
  dv_recipient_set_sha256 : string;
  dv_attachment_set_sha256 : string;
  dv_snapshot_sha256 : string;
  dv_change_reason : option string;
  dv_created_by : string
}.

Record SendApproval := {
  ap_id : uuid;
  ap_draft_id : uuid;
  ap_version_id : uuid;
  decision : string;
  approver_actor : string;
  ap_snapshot : string;
  ap_body_sha256 : string;
  ap_recipient_set_sha256 : string;
  ap_attachment_set_sha256 : string;
  ap_graph_draft_message_id : string;
  ap_graph_change_key : option string;
  ap_graph_etag : option string;
  approval_notes : option string;
  ap_approved_at : option instant;
  ap_rejected_at : option instant;
  invalidated_at : option instant;
  invalidation_reason : option string
}.
Instance eta_approval : Eta SendApproval := fun a =>
  {| ap_id := ap_id a; ap_draft_id := ap_draft_id a; ap_version_id := ap_version_id a; decision := decision a;
     approver_actor := approver_actor a; ap_snapshot := ap_snapshot a; ap_body_sha256 := ap_body_sha256 a;
     ap_recipient_set_sha256 := ap_recipient_set_sha256 a; ap_attachment_set_sha256 := ap_attachment_set_sha256 a;
     ap_graph_draft_message_id := ap_graph_draft_message_id a; ap_graph_change_key := ap_graph_change_key a;
     ap_graph_etag := ap_graph_etag a; approval_notes := approval_notes a; ap_approved_at := ap_approved_at a;
     ap_rejected_at := ap_rejected_at a; invalidated_at := invalidated_at a;
     invalidation_reason := invalidation_reason a |}.

Record OutboundSendAttempt := {
  at_id : uuid;
  at_draft_id : uuid;
  at_approval_id : uuid;
  at_job_id : option uuid;
  attempt_number : Z;
  at_idempotency_key : string;
  pre_send_snapshot_sha256 : string;
  at_graph_draft_message_id : string;
  at_status : string;
  http_status : option Z;
  graph_request_id : option string;
  graph_client_request_id : option string;
  at_started_at : instant;
  accepted_at : option instant;
  reconciled_at : option instant;
  sent_copy_verified_at : option instant;
  sent_graph_message_id : option string;
  sent_internet_message_id : option string;
  sent_parent_folder_id : option string;
  sent_body_sha256 : option string;
  sent_recipient_set_sha256 : option string;
  sent_attachment_set_sha256 : option string;
  error_code : option string;
  error_message : option string
}.
Instance eta_attempt : Eta OutboundSendAttempt := fun t =>
  {| at_id := at_id t; at_draft_id := at_draft_id t; at_approval_id := at_approval_id t; at_job_id := at_job_id t;
     attempt_number := attempt_number t; at_idempotency_key := at_idempotency_key t;
     pre_send_snapshot_sha256 := pre_send_snapshot_sha256 t; at_graph_draft_message_id := at_graph_draft_message_id t;
     at_status := at_status t; http_status := http_status t; graph_request_id := graph_request_id t;
     graph_client_request_id := graph_client_request_id t; at_started_at := at_started_at t;
     accepted_at := accepted_at t; reconciled_at := reconciled_at t; sent_copy_verified_at := sent_copy_verified_at t;
     sent_graph_message_id := sent_graph_message_id t; sent_internet_message_id := sent_internet_message_id t;
     sent_parent_folder_id := sent_parent_folder_id t; sent_body_sha256 := sent_body_sha256 t;
     sent_recipient_set_sha256 := sent_recipient_set_sha256 t; sent_attachment_set_sha256 := sent_attachment_set_sha256 t;
     error_code := error_code t; error_message := error_message t |}.

Record CommunicationJob := {
  cj_id : uuid;
  cj_type : string;
  cj_draft_id : option uuid;
  cj_email_id : option uuid;
  cj_task_id : option uuid;
  cj_status : string;
  cj_priority : Z;
  cj_key : string;
  cj_attempts : Z;
  cj_max_attempts : Z;
  cj_available_at : instant;
  cj_lease_owner : option string;
  cj_lease_expires_at : option instant;
  cj_started_at : option instant;
  cj_completed_at : option instant;
  cj_error_code : option string;
  cj_created_at : instant
}.
Instance eta_job : Eta CommunicationJob := fun j =>
  {| cj_id := cj_id j; cj_type := cj_type j; cj_draft_id := cj_draft_id j; cj_email_id := cj_email_id j;
     cj_task_id := cj_task_id j; cj_status := cj_status j; cj_priority := cj_priority j; cj_key := cj_key j;
     cj_attempts := cj_attempts j; cj_max_attempts := cj_max_attempts j; cj_available_at := cj_available_at j;
     cj_lease_owner := cj_lease_owner j; cj_lease_expires_at := cj_lease_expires_at j;
     cj_started_at := cj_started_at j; cj_completed_at := cj_completed_at j; cj_error_code := cj_error_code j;
     cj_created_at := cj_created_at j |}.

Record ResponsePlan := {
  pl_id : uuid;
  pl_email_id : uuid;
  response_type : string;
  selected_template_version_id : option uuid;
  proposed_recipient_mode : string;
  reply_all_reviewed : bool;
  bcc_authorized : bool;
  readiness_status : string;
  readiness_blockers : list string
}.
Instance eta_plan : Eta ResponsePlan := fun p =>
  {| pl_id := pl_id p; pl_email_id := pl_email_id p; response_type := response_type p;
     selected_template_version_id := selected_template_version_id p;
     proposed_recipient_mode := proposed_recipient_mode p; reply_all_reviewed := reply_all_reviewed p;
     bcc_authorized := bcc_authorized p; readiness_status := readiness_status p;
     readiness_blockers := readiness_blockers p |}.

Record OutboundDraftAttachment := {
  oa_id : uuid;
  oa_draft_id : uuid;
  oa_document_id : option uuid;
  oa_document_version_id : option uuid;
  oa_graph_attachment_id : option string;
  oa_filename : string;
  oa_size_bytes : Z;
  oa_content_sha256 : string;
  oa_status : string;
  oa_upload_method : option string;
  oa_added_by : option string;
  oa_removed_at : option instant
}.
Instance eta_attachment : Eta OutboundDraftAttachment := fun a =>
  {| oa_id := oa_id a; oa_draft_id := oa_draft_id a; oa_document_id := oa_document_id a;
     oa_document_version_id := oa_document_version_id a; oa_graph_attachment_id := oa_graph_attachment_id a;
     oa_filename := oa_filename a; oa_size_bytes := oa_size_bytes a; oa_content_sha256 := oa_content_sha256 a;
     oa_status := oa_status a; oa_upload_method := oa_upload_method a; oa_added_by := oa_added_by a;
     oa_removed_at := oa_removed_at a |}.

Record Mailbox := { mb_address : string; graph_user_id : option string; sent_items_folder : option string }.

Record Document := {
  doc_id : uuid;
  lifecycle_status : string;
  approval_status : string;
  approved_for_reuse : bool;
  expiry_date : option date;
  doc_current_version_id : option uuid;
  doc_content_sha256 : string;
  doc_size_bytes : Z;
  confidentiality_level : string
}.

Record DocumentVersion := {
  ver_id : uuid;
  ver_document_id : uuid;
  storage_status : string;
  ver_content_sha256 : string;
  ver_size_bytes : Z;
  ver_filename : string
}.

Record TaskRow := {
  task_status : string;
  assigned_to : option string;
  destination_folder_id : option string;
  destination_folder_name : option string;
  task_due_date : option date;
  communication_status : string
}.
Instance eta_task : Eta TaskRow := fun t =>
  {| task_status := task_status t; assigned_to := assigned_to t; destination_folder_id := destination_folder_id t;
     destination_folder_name := destination_folder_name t; task_due_date := task_due_date t;
     communication_status := communication_status t |}.

(** What an audit or task event says: about which row, what happened, by whom. *)
Record EventRow := { ev_entity : string; ev_entity_id : uuid; ev_action : string; ev_actor : string }.

Record CommDb := {
  drafts : gmap uuid OutboundDraft;
  versions : list OutboundDraftVersion;
  approvals : list SendApproval;
  attempts : list OutboundSendAttempt;
  cjobs : list CommunicationJob;
  plans : gmap uuid ResponsePlan;
  mailboxes : gmap uuid Mailbox;
  policy_rules : list RecipientPolicyRule;
  attachments : list OutboundDraftAttachment;
  documents : gmap uuid Document;
  document_versions : gmap uuid DocumentVersion;
  tasks : gmap uuid TaskRow;
  requested_items : list (uuid * string);
  events : list EventRow
}.
Instance eta_db : Eta CommDb := fun db =>
  {| drafts := drafts db; versions := versions db; approvals := approvals db; attempts := attempts db;
     cjobs := cjobs db; plans := plans db; mailboxes := mailboxes db; policy_rules := policy_rules db;
     attachments := attachments db; documents := documents db; document_versions := document_versions db;
     tasks := tasks db; requested_items := requested_items db; events := events db |}.

(** ** Elementary statements *)

Definition put_draft (d : OutboundDraft) (db : CommDb) : CommDb :=
  db <| drafts := <[dr_id d := d]> (drafts db) |>.

Definition add_event (entity : string) (i : uuid) (act : string) (who : string) (db : CommDb) : CommDb :=
  db <| events := events db ++ [{| ev_entity := entity; ev_entity_id := i; ev_action := act; ev_actor := who |}] |>.

(** [uq_send_approvals_valid]: the approvals a draft can be sent under. *)
Definition valid_approval (a : SendApproval) : bool :=
  bool_decide (decision a = value ApprovalDecision.APPROVED) && bool_decide (invalidated_at a = None).

Definition valid_key (a : SendApproval) : option uuid := if valid_approval a then Some (ap_draft_id a) else None.

Definition insert_approval (a : SendApproval) (db : CommDb) : result exn CommDb :=
  _ ← raise_unless (bool_decide (ap_id a ∉ ap_id <$> approvals db)) IntegrityError;
  _ ← raise_unless (negb (valid_approval a) || bool_decide (ap_draft_id a ∉ omap valid_key (approvals db))) IntegrityError;
  Ok (db <| approvals := approvals db ++ [a] |>).

(** [uq_send_attempt_number] and [uq_send_attempt_idempotency]. *)
Definition insert_attempt (t : OutboundSendAttempt) (db : CommDb) : result exn CommDb :=
  _ ← raise_unless (bool_decide (at_id t ∉ at_id <$> attempts db)) IntegrityError;
  _ ← raise_unless (bool_decide ((at_draft_id t, attempt_number t) ∉
                                 (fun t => (at_draft_id t, attempt_number t)) <$> attempts db)) IntegrityError;
  _ ← raise_unless (bool_decide (at_idempotency_key t ∉ at_idempotency_key <$> attempts db)) IntegrityError;
  Ok (db <| attempts := attempts db ++ [t] |>).

Definition live_attachments (draft_id : uuid) (db : CommDb) : list OutboundDraftAttachment :=
  filter (fun a => oa_draft_id a = draft_id /\ oa_removed_at a = None) (attachments db).

Definition approved_of (draft_id : uuid) (db : CommDb) : option SendApproval :=
  head (filter (fun a => ap_draft_id a = draft_id /\ valid_approval a = true) (approvals db)).

(** ** Revisions and approvals ([snapshots.py]) *)

Definition manifest_entry (a : OutboundDraftAttachment) : ManifestEntry :=
  {| me_id := oa_id a; me_document_id := oa_document_id a; me_document_version_id := oa_document_version_id a;
     me_filename := oa_filename a; me_size_bytes := oa_size_bytes a; me_content_sha256 := oa_content_sha256 a;
     me_graph_attachment_id := oa_graph_attachment_id a; me_status := oa_status a |}.

(** Objects the session has changed and not flushed: the query finds the stored rows,
    the loaded objects are what is read. *)
Definition attachment_manifest (pending : uuid -> option OutboundDraftAttachment) (draft_id : uuid) (db : CommDb)
    : list ManifestEntry :=
  (fun a => manifest_entry (default a (pending (oa_id a)))) <$> live_attachments draft_id db.

(** The part of an entry the attachment hash covers; [str(None or "")] is empty. *)
Definition hashed_entry (e : ManifestEntry) : ManifestItem :=
  {| document_version_id := default "" (me_document_version_id e); filename := me_filename e;
     size_bytes := me_size_bytes e; content_sha256 := me_content_sha256 e |}.

Section Snapshots.
Context (sha256 : string -> string) (py_str : json -> string).

Definition newline : string := String (Ascii.ascii_of_nat 10) "".

(** The text whose hash stands for the content. *)
Definition content_text (s : string) (text html : option string) : string :=
  s +:+ newline +:+ default "" text +:+ newline +:+ default "" html.

Definition content_hash (s : string) (text html : option string) : string :=
  sha256_text sha256 (Some (content_text s text html)).

Definition version_snapshot (d : OutboundDraft) : string :=
  canonical_sha256 sha256
    (CDict [("attachments", CStr (attachment_set_sha256 d)); ("body", CStr (body_sha256 d));
            ("recipients", CStr (recipient_set_sha256 d)); ("revision", CInt (local_revision d));
            ("subject", CStr (subject d))]).

Definition insert_version (v : OutboundDraftVersion) (db : CommDb) : result exn CommDb :=
  _ ← raise_unless (bool_decide (dv_id v ∉ dv_id <$> versions db)) IntegrityError;
  _ ← raise_unless (bool_decide ((dv_draft_id v, dv_revision v) ∉ (fun v => (dv_draft_id v, dv_revision v)) <$> versions db))
        IntegrityError;
  _ ← raise_unless (bool_decide ((dv_draft_id v, dv_snapshot_sha256 v) ∉
                                 (fun v => (dv_draft_id v, dv_snapshot_sha256 v)) <$> versions db)) IntegrityError;
  Ok (db <| versions := versions db ++ [v] |>).

(** The draft object is updated and stored with the flush of the new version. *)
Definition create_version (pending : uuid -> option OutboundDraftAttachment) (i : uuid) (d : OutboundDraft) (who : string)
    (reason : option string) (increment : bool) (db : CommDb) : result exn (OutboundDraft * CommDb) :=
  let manifest := attachment_manifest pending (dr_id d) db in
  let d1 := if increment then d <| local_revision := local_revision d + 1 |> else d in
  let d2 := d1 <| body_sha256 := content_hash (subject d1) (body_text d1) (body_html d1) |>
               <| recipient_set_sha256 :=
                    recipient_set_hash sha256 py_str (to_recipients d1) (cc_recipients d1) (bcc_recipients d1) |>
               <| attachment_set_sha256 := attachment_set_hash sha256 (hashed_entry <$> manifest) |> in
  db' ← insert_version
    {| dv_id := i; dv_draft_id := dr_id d2; dv_revision := local_revision d2; dv_subject := subject d2;
       dv_body_text := body_text d2; dv_body_html := body_html d2; dv_to := to_recipients d2;
       dv_cc := cc_recipients d2; dv_bcc := bcc_recipients d2; dv_manifest := manifest;
       dv_body_sha256 := body_sha256 d2; dv_recipient_set_sha256 := recipient_set_sha256 d2;
       dv_attachment_set_sha256 := attachment_set_sha256 d2; dv_snapshot_sha256 := version_snapshot d2;
       dv_change_reason := reason; dv_created_by := who |} db;
  let d3 := d2 <| current_version_id := Some i |> <| last_edited_by_actor := Some who |> in
  Ok (d3, put_draft d3 db').
End Snapshots.

(** Approvals that are withdrawn: given ones and first ones of two. *)
Definition withdrawable (draft_id : uuid) (a : SendApproval) : bool :=
  bool_decide (ap_draft_id a = draft_id) &&
  bool_decide (decision a ∈ value <$> [ApprovalDecision.APPROVED; ApprovalDecision.PENDING_SECOND_APPROVAL]) &&
  bool_decide (invalidated_at a = None).

Definition withdrawn (reason : string) (now : instant) (a : SendApproval) : SendApproval :=
  a <| decision := value ApprovalDecision.INVALIDATED |> <| invalidated_at := Some now |>
    <| invalidation_reason := Some reason |>.

(** Returns the draft object, which the caller stores. *)
Definition invalidate_approval (d : OutboundDraft) (reason : string) (now : instant) (db : CommDb)
    : OutboundDraft * CommDb :=
  (d <| dr_approval_snapshot := None |> <| dr_approved_at := None |>,
   db <| approvals := (fun a => if withdrawable (dr_id d) a then withdrawn reason now a else a) <$> approvals db |>).

(** ** Attachments at transmission time ([attachments.py]) *)

Definition transmission_blockers (d : Document) (v : DocumentVersion) (today : date) : list string :=
  let when (b : bool) (s : string) : list string := if b then [s] else [] in
  union_in_order
    (when (negb (bool_decide (lifecycle_status d = "ACTIVE"))) "DOCUMENT_NOT_ACTIVE" ++
     when (negb (bool_decide (approval_status d = "APPROVED")) || negb (approved_for_reuse d)) "DOCUMENT_NOT_APPROVED" ++
     when (negb (bool_decide (storage_status v = "AVAILABLE"))) "DOCUMENT_QUARANTINED" ++
     when (match expiry_date d with Some e => e <? today | None => false end) "DOCUMENT_EXPIRED" ++
     when (negb (bool_decide (doc_current_version_id d = Some (ver_id v)))) "DOCUMENT_SUPERSEDED" ++
     when (negb (bool_decide (ver_document_id v = doc_id d)) ||
           negb (bool_decide (ver_content_sha256 v = doc_content_sha256 d)) ||
           negb (ver_size_bytes v =? doc_size_bytes d)) "DOCUMENT_HASH_INVALID" ++
     when (bool_decide (confidentiality_level d = "RESTRICTED")) "DOCUMENT_TRANSMISSION_BLOCKED").

Definition attachment_blockers (db : CommDb) (today : date) (require_uploaded : bool) (a : OutboundDraftAttachment)
    : list string :=
  match oa_document_id a, oa_document_version_id a with
  | Some di, Some vi =>
      match documents db !! di, document_versions db !! vi with
      | Some d, Some v =>
          transmission_blockers d v today ++
          (if bool_decide (oa_content_sha256 a = ver_content_sha256 v) && (oa_size_bytes a =? ver_size_bytes v) &&
              bool_decide (oa_filename a = ver_filename v) then [] else ["DOCUMENT_HASH_INVALID"]) ++
          (if require_uploaded && (negb (bool_decide (oa_status a = "GRAPH_UPLOADED")) ||
                                   negb (truthy_str (oa_graph_attachment_id a)))
           then ["GRAPH_ATTACHMENT_MISSING"] else [])
      | _, _ => ["DOCUMENT_NOT_FOUND"]
      end
  | _, _ => ["UNCONTROLLED_ATTACHMENT"]
  end.

Definition validate_draft_attachments (draft_id : uuid) (require_uploaded : bool) (today : date) (db : CommDb)
    : list string :=
  union_in_order (live_attachments draft_id db ≫= attachment_blockers db today require_uploaded).

(** ** The queue ([communication_jobs.py]) *)

Definition SECOND : Z := 1000000.

(** The keyword arguments of [enqueue]. *)
Record JobRequest := {
  jr_type : CommunicationJobType.CommunicationJobType;
  jr_key : string;
  jr_draft : option uuid;
  jr_email : option uuid;
  jr_task : option uuid;
  jr_priority : Z;
  jr_max_attempts : Z;
  jr_delay_seconds : Z
}.

Definition find_job (key : string) (db : CommDb) : option CommunicationJob :=
  head (filter (fun j => cj_key j = key) (cjobs db)).

Definition new_job (i : uuid) (q : JobRequest) (now : instant) : CommunicationJob :=
  {| cj_id := i; cj_type := value (jr_type q); cj_draft_id := jr_draft q; cj_email_id := jr_email q;
     cj_task_id := jr_task q; cj_status := value CommunicationJobStatus.PENDING; cj_priority := jr_priority q;
     cj_key := jr_key q; cj_attempts := 0; cj_max_attempts := jr_max_attempts q;
     cj_available_at := now + Z.max 0 (jr_delay_seconds q) * SECOND; cj_lease_owner := None;
     cj_lease_expires_at := None; cj_started_at := None; cj_completed_at := None; cj_error_code := None;
     cj_created_at := now |}.

Definition enqueue (i : uuid) (q : JobRequest) (now : instant) (db : CommDb)
    : result exn (CommunicationJob * bool * CommDb) :=
  match find_job (jr_key q) db with
  | Some j => Ok (j, false, db)
  | None =>
      _ ← raise_unless (bool_decide (i ∉ cj_id <$> cjobs db)) IntegrityError;
      let j := new_job i q now in Ok (j, true, db <| cjobs := cjobs db ++ [j] |>)
  end.

Definition cj_claimable (locked : gset uuid) (now : instant) (j : CommunicationJob) : bool :=
  (bool_decide (cj_status j ∈ value <$> [CommunicationJobStatus.PENDING; CommunicationJobStatus.FAILED_RETRYABLE]) &&
   (cj_available_at j <=? now) ||
   bool_decide (cj_status j = value CommunicationJobStatus.RUNNING) &&
   match cj_lease_expires_at j with Some t => t <=? now | None => false end) &&
  (cj_attempts j <? cj_max_attempts j) && bool_decide (cj_id j ∉ locked).

Definition cj_leb (a b : CommunicationJob) : bool :=
  if cj_priority a <? cj_priority b then true
  else if cj_priority b <? cj_priority a then false else cj_created_at a <=? cj_created_at b.

Definition put_job (j : CommunicationJob) (db : CommDb) : CommDb :=
  db <| cjobs := (fun k => if bool_decide (cj_id k = cj_id j) then j else k) <$> cjobs db |>.

Definition cj_claimed (worker : string) (lease_seconds : Z) (now : instant) (j : CommunicationJob) : CommunicationJob :=
  j <| cj_status := value CommunicationJobStatus.RUNNING |> <| cj_lease_owner := Some worker |>
    <| cj_lease_expires_at := Some (now + lease_seconds * SECOND) |> <| cj_started_at := Some now |>
    <| cj_attempts := cj_attempts j + 1 |>.

Definition claim (worker : string) (lease_seconds : Z) (locked : gset uuid) (now : instant) (db : CommDb)
    : option CommunicationJob * CommDb :=
  match py_sorted cj_leb (filter (fun j => cj_claimable locked now j = true) (cjobs db)) with
  | [] => (None, db)
  | j :: _ => let j' := cj_claimed worker lease_seconds now j in (Some j', put_job j' db)
  end.

Definition extend_lease (i : uuid) (worker : string) (lease_seconds : Z) (now : instant) (db : CommDb) : bool * CommDb :=
  let mine j := bool_decide (cj_id j = i) && bool_decide (cj_status j = value CommunicationJobStatus.RUNNING) &&
                bool_decide (cj_lease_owner j = Some worker) in
  (existsb mine (cjobs db),
   db <| cjobs := (fun j => if mine j then j <| cj_lease_expires_at := Some (now + lease_seconds * SECOND) |> else j)
                    <$> cjobs db |>).
