(* ===== verification/DraftWork.v ===== *)
(** * Work on a draft before it is sent

    [DraftGenerationService.edit], [DraftAttachmentService] and [DraftReviewService]
    ([app/services/draft_generation_service.py], [draft_attachment_service.py],
    [draft_review_service.py]).  Generating the first revision from a template is not
    modelled. *)
From S2P Require Import Prelude Vocabulary PyDate PyJson Hashes Roles RecipientPolicy DraftChecks CommStore.
Open Scope Z_scope.

(** What a caller last saw of a draft. *)
Record Seen := { seen_revision : Z; seen_change_key : option string; seen_etag : option string }.

Definition same_graph (s : Seen) (d : OutboundDraft) : bool :=
  bool_decide (graph_change_key d = seen_change_key s) && bool_decide (graph_etag d = seen_etag s).

(** The two variants of [_assert_expected]: before review Graph is compared only once
    the draft is there. *)
Definition seen_before_review (s : Seen) (d : OutboundDraft) : bool :=
  (local_revision d =? seen_revision s) &&
  (negb (truthy_str (graph_draft_message_id d)) || same_graph s d).

Definition seen_at_approval (s : Seen) (d : OutboundDraft) : bool :=
  (local_revision d =? seen_revision s) && same_graph s d.

Definition status_in (l : list CommunicationDraftStatus.CommunicationDraftStatus) (d : OutboundDraft) : bool :=
  bool_decide (draft_status d ∈ value <$> l).

(** Statuses in which the content is out of the editors' hands. *)
Definition IN_FLIGHT : list CommunicationDraftStatus.CommunicationDraftStatus :=
  [CommunicationDraftStatus.SEND_QUEUED; CommunicationDraftStatus.SENDING; CommunicationDraftStatus.SEND_ACCEPTED;
   CommunicationDraftStatus.SEND_AMBIGUOUS; CommunicationDraftStatus.SENT_COPY_VERIFIED].

Definition find_draft (i : uuid) (db : CommDb) : result exn OutboundDraft :=
  match drafts db !! i with Some d => Ok d | None => Err NotFoundError end.

Definition set_status (s : CommunicationDraftStatus.CommunicationDraftStatus) (d : OutboundDraft) : OutboundDraft :=
  d <| draft_status := value s |>.

(** No object of the session differs from its row. *)
Definition no_pending : uuid -> option OutboundDraftAttachment := fun _ => None.

Section DraftWork.
Context (sha256 : string -> string) (py_str : json -> string) (settings : Settings).

(** The content of an edit. *)
Record Content := {
  c_subject : string;
  c_text : option string;
  c_html : option string;
  c_to : list recipient;
  c_cc : list recipient;
  c_bcc : list recipient
}.

Definition with_content (c : Content) (d : OutboundDraft) : OutboundDraft :=
  d <| subject := c_subject c |> <| body_text := c_text c |> <| body_html := c_html c |>
    <| to_recipients := c_to c |> <| cc_recipients := c_cc c |> <| bcc_recipients := c_bcc c |>.

Definition attachment_count (draft_id : uuid) (db : CommDb) : Z := Z.of_nat (length (live_attachments draft_id db)).

(** A new revision of a changed draft, its approvals withdrawn. *)
Definition revise (pending : uuid -> option OutboundDraftAttachment) (version_id : uuid) (d : OutboundDraft) (who : string)
    (why : string) (change_reason : string) (status : CommunicationDraftStatus.CommunicationDraftStatus) (now : instant)
    (db : CommDb) : result exn (OutboundDraft * CommDb) :=
  let '(d1, db1) := invalidate_approval d why now db in
  '(d2, db2) ← create_version sha256 py_str pending version_id d1 who (Some change_reason) true db1;
  let d3 := set_status status d2 in Ok (d3, put_draft d3 db2).

Definition edit (draft_id : uuid) (s : Seen) (c : Content) (reason : string) (actor : CurrentActor) (version_id : uuid)
    (now : instant) (db : CommDb) : result exn (OutboundDraft * CommDb) :=
  d ← find_draft draft_id db;
  _ ← raise_unless (seen_before_review s d) StateConflictError;
  _ ← raise_unless (negb (status_in IN_FLIGHT d)) StateConflictError;
  let findings := validate_draft_content (c_subject c) (c_text c) (c_html c) (attachment_count draft_id db) in
  _ ← raise_unless (bool_decide (findings = [])) StateConflictError;
  '(d', db') ← revise no_pending version_id (with_content c d) (actor_id actor)
                 "draft content or recipients changed" reason CommunicationDraftStatus.REVIEW_IN_PROGRESS now db;
  Ok (d', add_event "outbound_draft" draft_id "draft_revision_created" (actor_id actor) db').

(** ** Attachments *)

Definition mutable (d : OutboundDraft) : bool :=
  negb (status_in (IN_FLIGHT ++ [CommunicationDraftStatus.CANCELLED]) d).

Definition total_size (l : list OutboundDraftAttachment) : Z := foldr Z.add 0 (oa_size_bytes <$> l).

Definition size_allowed (existing size : Z) : bool :=
  (existing + size <=? communication_total_attachment_max_bytes settings) &&
  (size <=? communication_large_attachment_max_bytes settings) &&
  ((size <=? communication_simple_attachment_max_bytes settings) ||
   communication_large_attachments_enabled settings &&
   communication_shared_mailbox_large_attachment_accepted settings).

Definition selected_row (i : uuid) (draft_id : uuid) (doc : Document) (v : DocumentVersion) (actor : CurrentActor)
    : OutboundDraftAttachment :=
  {| oa_id := i; oa_draft_id := draft_id; oa_document_id := Some (doc_id doc); oa_document_version_id := Some (ver_id v);
     oa_graph_attachment_id := None; oa_filename := ver_filename v; oa_size_bytes := ver_size_bytes v;
     oa_content_sha256 := ver_content_sha256 v; oa_status := "VALIDATED";
     oa_upload_method := Some (if ver_size_bytes v <=? communication_simple_attachment_max_bytes settings
                               then "SIMPLE" else "UPLOAD_SESSION");
     oa_added_by := Some (actor_id actor); oa_removed_at := None |}.

Definition select (draft_id document_id version_id : uuid) (s : Seen) (actor : CurrentActor) (row_id new_version : uuid)
    (now : instant) (db : CommDb) : result exn (OutboundDraftAttachment * CommDb) :=
  _ ← raise_unless (communication_attachments_enabled settings) StateConflictError;
  match drafts db !! draft_id, documents db !! document_id, document_versions db !! version_id with
  | Some d, Some doc, Some v =>
      _ ← raise_unless (bool_decide (ver_document_id v = doc_id doc)) NotFoundError;
      _ ← raise_unless (seen_before_review s d) StateConflictError;
      _ ← raise_unless (mutable d) StateConflictError;
      let live := live_attachments draft_id db in
      _ ← raise_unless (negb (existsb (fun a => bool_decide (oa_document_version_id a = Some (ver_id v))) live)) StateConflictError;
      _ ← raise_unless (bool_decide (transmission_blockers doc v (instant_date now) = [])) StateConflictError;
      _ ← raise_unless (size_allowed (total_size live) (ver_size_bytes v)) StateConflictError;
      _ ← raise_unless (bool_decide (row_id ∉ oa_id <$> attachments db)) IntegrityError;
      let row := selected_row row_id draft_id doc v actor in
      '(_, db') ← revise no_pending new_version d (actor_id actor) "attachment set changed" "attachment selected"
                    CommunicationDraftStatus.REVIEW_IN_PROGRESS now (db <| attachments := attachments db ++ [row] |>);
      Ok (row, add_event "outbound_draft_attachment" row_id "controlled_attachment_selected" (actor_id actor) db')
  | _, _, _ => Err NotFoundError
  end.

Definition removed_row (now : instant) (a : OutboundDraftAttachment) : OutboundDraftAttachment :=
  a <| oa_status := "REMOVED" |> <| oa_removed_at := Some now |>.

(** The removed row is flushed with the new revision, after its manifest was read. *)
Definition remove (draft_id attachment_id : uuid) (s : Seen) (actor : CurrentActor) (new_version : uuid) (now : instant)
    (db : CommDb) : result exn (OutboundDraft * CommDb) :=
  match drafts db !! draft_id, head (filter (fun a => oa_id a = attachment_id) (attachments db)) with
  | Some d, Some row =>
      _ ← raise_unless (bool_decide (oa_draft_id row = draft_id)) NotFoundError;
      _ ← raise_unless (seen_before_review s d) StateConflictError;
      _ ← raise_unless (mutable d) StateConflictError;
      let row' := removed_row now row in
      '(d', db') ← revise (fun i => if bool_decide (i = attachment_id) then Some row' else None) new_version d
                     (actor_id actor) "attachment removed" "attachment removed"
                     CommunicationDraftStatus.REVIEW_IN_PROGRESS now db;
      Ok (d', add_event "outbound_draft_attachment" attachment_id "draft_attachment_removed" (actor_id actor)
                (db' <| attachments := (fun a => if bool_decide (oa_id a = attachment_id) then row' else a)
                                         <$> attachments db' |>))
  | _, _ => Err NotFoundError
  end.

(** ** Review *)

Definition policy_input (d : OutboundDraft) (p : ResponsePlan) (internal : option (list string)) (manager enforce : bool)
    (db : CommDb) : PolicyInput :=
  {| pi_mode := proposed_recipient_mode p; pi_to := to_recipients d; pi_cc := cc_recipients d; pi_bcc := bcc_recipients d;
     pi_reply_all_reviewed := reply_all_reviewed p; pi_bcc_authorized := bcc_authorized p; pi_blocked_domains := None;
     pi_internal_domains := internal; pi_rules := policy_rules db; pi_manager_approved := manager;
     pi_enforce_manager_rules := enforce |}.

Definition put_plan (p : ResponsePlan) (db : CommDb) : CommDb := db <| plans := <[pl_id p := p]> (plans db) |>.

Definition draft_findings (d : OutboundDraft) (db : CommDb) : list string :=
  validate_draft_content (subject d) (body_text d) (body_html d) (attachment_count (dr_id d) db) ++
  (if communication_max_body_chars settings <?
      Z.of_nat (String.length (default "" (body_text d) +:+ default "" (body_html d)))
   then ["BODY_TOO_LARGE"] else []).

Definition submit_readiness (d : OutboundDraft) (p : ResponsePlan) (t : TaskRow) (today : date) (db : CommDb)
    : ReadinessResult :=
  let docs := validate_draft_attachments (dr_id d) true today db ++
              (if bool_decide (response_type p = value ResponseType.DOCUMENT_RESPONSE) && (attachment_count (dr_id d) db =? 0)
               then ["REQUIRED_DOCUMENT_MISSING"] else []) in
  readiness today
    {| ri_response_type := response_type p;
       ri_item_statuses := snd <$> filter (fun it => it.1 = dr_task_id d) (requested_items db);
       ri_recipient_count := Z.of_nat (length (to_recipients d)); ri_draft_reviewed := true; ri_send_approved := false;
       ri_graph_draft_exists := true; ri_document_blockers := docs; ri_unresolved_placeholders := false;
       ri_task_status := Some (task_status t); ri_task_owner := assigned_to t;
       ri_destination_folder_id := destination_folder_id t; ri_response_deadline := task_due_date t;
       ri_check_task_context := true |}.

(** A refusal leaves the blockers on the plan. *)
Definition submit (draft_id : uuid) (s : Seen) (actor : CurrentActor) (now : instant) (db : CommDb)
    : result exn OutboundDraft * CommDb :=
  match drafts db !! draft_id with
  | None => (Err NotFoundError, db)
  | Some d =>
      match response_plan_id d with
      | None => (Err NotFoundError, db)
      | Some plan_id =>
          if negb (seen_before_review s d) then (Err StateConflictError, db) else
          match plans db !! plan_id with
          | None => (Err StateConflictError, db)
          | Some p =>
              if negb (truthy_str (graph_draft_message_id d)) then (Err StateConflictError, db) else
              match tasks db !! dr_task_id d with
              | None => (Err NotFoundError, db)
              | Some t =>
                  let findings := draft_findings d db in
                  let policy := RecipientPolicy.evaluate py_str settings (policy_input d p None false false db) in
                  if negb (bool_decide (findings = [])) || negb (allowed policy) then
                    (Err StateConflictError,
                     put_plan (p <| readiness_status := value ReadinessStatus.BLOCKED |>
                                 <| readiness_blockers := findings ++ blockers policy |>) db)
                  else
                    let r := submit_readiness d p t (instant_date now) db in
                    let p' := p <| readiness_status := ready_status r |> <| readiness_blockers := ready_blockers r |> in
                    let unexpected := filter (fun b => b <> "SEND_APPROVAL_MISSING") (ready_blockers r) in
                    if bool_decide (ready_status r ∈ value <$> [ReadinessStatus.NOT_READY; ReadinessStatus.BLOCKED]) ||
                       negb (bool_decide (unexpected = []))
                    then (Err StateConflictError, put_plan p' db)
                    else
                      let d' := set_status CommunicationDraftStatus.PENDING_SEND_APPROVAL d
                                  <| submitted_for_approval_at := Some now |>
                                  <| last_edited_by_actor := Some (actor_id actor) |> in
                      (Ok d', add_event "outbound_draft" draft_id "draft_submitted_for_send_approval" (actor_id actor)
                                (put_draft d' (put_plan p' db)))
              end
          end
      end
  end.

Definition request_changes (draft_id : uuid) (reason : string) (s : Seen) (actor : CurrentActor) (now : instant) (db : CommDb)
    : result exn (OutboundDraft * CommDb) :=
  _ ← raise_unless (negb (bool_decide (strip reason = ""))) ValueError;
  d ← find_draft draft_id db;
  _ ← raise_unless (seen_before_review s d) StateConflictError;
  let '(d1, db1) := invalidate_approval d reason now db in
  let d2 := set_status CommunicationDraftStatus.CHANGES_REQUESTED d1 in
  Ok (d2, add_event "outbound_draft" draft_id "draft_changes_requested" (actor_id actor) (put_draft d2 db1)).

(** Two commits: the changes are requested, then the draft is cancelled. *)
Definition reject (draft_id : uuid) (reason : string) (s : Seen) (actor : CurrentActor) (now : instant) (db : CommDb)
    : result exn (OutboundDraft * CommDb) :=
  '(d, db1) ← request_changes draft_id reason s actor now db;
  let d' := set_status CommunicationDraftStatus.CANCELLED d in Ok (d', put_draft d' db1).
End DraftWork.
