(* ===== verification/SendApproval.v ===== *)
(** * Approving and queueing a send

    [SendApprovalService] and [CommunicationEnqueueService]
    ([app/services/send_approval_service.py], [communication_enqueue_service.py]). *)
From S2P Require Import Prelude Vocabulary PyDate PyJson Hashes Roles RecipientPolicy CommStore DraftWork.
Open Scope Z_scope.

Definition draft_snapshot (d : OutboundDraft) (p : ResponsePlan) : Snapshot :=
  {| sn_subject := subject d; sn_body := body_sha256 d; sn_recipients := recipient_set_sha256 d;
     sn_attachments := attachment_set_sha256 d; sn_revision := local_revision d;
     sn_graph_id := default "" (graph_draft_message_id d); sn_change_key := graph_change_key d;
     sn_etag := graph_etag d; sn_plan := pl_id p; sn_template := selected_template_version_id p |}.

(** [SendApprovalService._row]. *)
Definition approval_row (i : uuid) (d : OutboundDraft) (version_id : uuid) (actor : CurrentActor) (snapshot : string)
    (notes : option string) (dec : ApprovalDecision.ApprovalDecision) : SendApproval :=
  {| ap_id := i; ap_draft_id := dr_id d; ap_version_id := version_id; decision := value dec;
     approver_actor := actor_id actor; ap_snapshot := snapshot; ap_body_sha256 := body_sha256 d;
     ap_recipient_set_sha256 := recipient_set_sha256 d; ap_attachment_set_sha256 := attachment_set_sha256 d;
     ap_graph_draft_message_id := default "" (graph_draft_message_id d); ap_graph_change_key := graph_change_key d;
     ap_graph_etag := graph_etag d; approval_notes := notes; ap_approved_at := None; ap_rejected_at := None;
     invalidated_at := None; invalidation_reason := None |}.

(** What the approver reviewed. *)
Record Reviewed := {
  rv_seen : Seen;
  rv_snapshot : string;
  rv_graph_draft_id : string
}.

Definition version_exists (i : uuid) (db : CommDb) : bool := bool_decide (i ∈ dv_id <$> versions db).

Section SendApproval.
Context (sha256 : string -> string) (py_str : json -> string) (settings : Settings).

Definition snapshot_of (d : OutboundDraft) (p : ResponsePlan) : string :=
  approval_snapshot_hash sha256 (draft_snapshot d p).

Definition must_be_separate : bool :=
  communication_require_separate_send_approver settings || negb (communication_allow_self_approval settings).

(** The first of the two approvals that is still open. *)
Definition first_of_two (draft_id : uuid) (db : CommDb) : option SendApproval :=
  head (filter (fun a => ap_draft_id a = draft_id /\
                         decision a = value ApprovalDecision.PENDING_SECOND_APPROVAL /\ invalidated_at a = None)
               (approvals db)).

Definition approver_policy (d : OutboundDraft) (p : ResponsePlan) (m : Mailbox) (actor : CurrentActor) (db : CommDb)
    : RecipientPolicyResult :=
  RecipientPolicy.evaluate py_str settings
    (policy_input d p (Some [str_lower (after_last_at (mb_address m))]) (has_role (roles actor) Role.MANAGER) true db).

(** The checks of [approve], in their order, up to the snapshot. *)
Definition approve_checks (d : OutboundDraft) (r : Reviewed) (actor : CurrentActor) (now : instant) (db : CommDb)
    : result exn (uuid * ResponsePlan) :=
  match response_plan_id d, current_version_id d with
  | Some plan_id, Some version_id =>
      _ ← raise_unless (status_in [CommunicationDraftStatus.PENDING_SEND_APPROVAL] d) StateConflictError;
      _ ← raise_unless (local_revision d =? seen_revision (rv_seen r)) StateConflictError;
      _ ← raise_unless (bool_decide (graph_draft_message_id d = Some (rv_graph_draft_id r))) StateConflictError;
      _ ← raise_unless (same_graph (rv_seen r) d) StateConflictError;
      _ ← raise_unless (negb (must_be_separate &&
              bool_decide (Some (actor_id actor) ∈ [created_by_actor d; last_edited_by_actor d]))) StateConflictError;
      _ ← raise_unless (has_role (roles actor) Role.SENDER) StateConflictError;
      match plans db !! plan_id, mailboxes db !! dr_mailbox_id d with
      | Some p, Some m =>
          _ ← raise_unless (version_exists version_id db) NotFoundError;
          let policy := approver_policy d p m actor db in
          _ ← raise_unless (allowed policy) StateConflictError;
          _ ← raise_unless (negb (communication_external_recipient_requires_manager settings &&
                  bool_decide ("EXTERNAL_RECIPIENT" ∈ warnings policy) && negb (has_role (roles actor) Role.MANAGER)))
                StateConflictError;
          _ ← raise_unless (bool_decide (validate_draft_attachments (dr_id d) true (instant_date now) db = []))
                StateConflictError;
          _ ← raise_unless (bool_decide (snapshot_of d p = rv_snapshot r)) StateConflictError;
          Ok (version_id, p)
      | _, _ => Err NotFoundError
      end
  | _, _ => Err NotFoundError
  end.

Definition grant (i : uuid) (d : OutboundDraft) (version_id : uuid) (actor : CurrentActor) (computed : string)
    (notes : option string) (now : instant) (db : CommDb) : result exn (SendApproval * CommDb) :=
  let a := approval_row i d version_id actor computed notes ApprovalDecision.APPROVED <| ap_approved_at := Some now |> in
  let d' := set_status CommunicationDraftStatus.APPROVED_TO_SEND
              (d <| dr_approval_snapshot := Some computed |> <| dr_approved_at := Some now |>) in
  db' ← insert_approval a db;
  Ok (a, add_event "send_approval" i "exact_snapshot_send_approved" (actor_id actor)
           (add_event "licensing_task" (dr_task_id d) "SEND_APPROVED" (actor_id actor) (put_draft d' db'))).

Definition approve (draft_id : uuid) (r : Reviewed) (notes : option string) (actor : CurrentActor) (i : uuid) (now : instant)
    (db : CommDb) : result exn (SendApproval * CommDb) :=
  d ← find_draft draft_id db;
  '(version_id, p) ← approve_checks d r actor now db;
  let computed := snapshot_of d p in
  if communication_require_two_person_approval settings then
    let record_first db :=
      let a := approval_row i d version_id actor computed notes ApprovalDecision.PENDING_SECOND_APPROVAL in
      db' ← insert_approval a db;
      Ok (a, add_event "send_approval" i "first_send_approval_recorded" (actor_id actor) db') in
    match first_of_two draft_id db with
    | None => record_first db
    | Some first =>
        if bool_decide (ap_snapshot first = computed) && bool_decide (ap_version_id first = version_id) then
          _ ← raise_unless (negb (bool_decide (approver_actor first = actor_id actor))) StateConflictError;
          grant i d version_id actor computed notes now db
        else
          record_first (db <| approvals := (fun a => if bool_decide (ap_id a = ap_id first)
                                                      then withdrawn "draft changed before second approval" now a else a)
                                             <$> approvals db |>)
    end
  else grant i d version_id actor computed notes now db.

Definition invalidate (draft_id : uuid) (reason : string) (now : instant) (db : CommDb) : result exn (OutboundDraft * CommDb) :=
  d ← find_draft draft_id db;
  let '(d1, db1) := invalidate_approval d reason now db in
  let d2 := set_status CommunicationDraftStatus.CHANGES_REQUESTED d1 in Ok (d2, put_draft d2 db1).

Definition decline (draft_id : uuid) (dec : ApprovalDecision.ApprovalDecision) (reason : string) (s : Seen) (actor : CurrentActor)
    (i : uuid) (now : instant) (db : CommDb) : result exn (OutboundDraft * CommDb) :=
  _ ← raise_unless (bool_decide (dec ∈ [ApprovalDecision.REJECTED; ApprovalDecision.CHANGES_REQUESTED])) ValueError;
  _ ← raise_unless (has_role (roles actor) Role.SENDER) StateConflictError;
  d ← find_draft draft_id db;
  match response_plan_id d, current_version_id d with
  | Some plan_id, Some version_id =>
      _ ← raise_unless (truthy_str (graph_draft_message_id d)) NotFoundError;
      _ ← raise_unless (seen_at_approval s d) StateConflictError;
      _ ← raise_unless (status_in [CommunicationDraftStatus.PENDING_SEND_APPROVAL; CommunicationDraftStatus.APPROVED_TO_SEND] d)
            StateConflictError;
      match plans db !! plan_id with
      | None => Err NotFoundError
      | Some p =>
          _ ← raise_unless (version_exists version_id db) NotFoundError;
          let '(d1, db1) := invalidate_approval d reason now db in
          let a := approval_row i d version_id actor (snapshot_of d p) (Some reason) dec <| ap_rejected_at := Some now |> in
          db2 ← insert_approval a db1;
          let d2 := set_status (if bool_decide (dec = ApprovalDecision.REJECTED)
                                then CommunicationDraftStatus.CANCELLED else CommunicationDraftStatus.CHANGES_REQUESTED) d1 in
          Ok (d2, add_event "send_approval" i "send_approval_declined" (actor_id actor)
                    (add_event "licensing_task" (dr_task_id d) ("SEND_APPROVAL_" +:+ value dec) (actor_id actor)
                       (put_draft d2 db2)))
      end
  | _, _ => Err NotFoundError
  end.

(** The send jobs of a draft that have not ended. *)
Definition open_send_job (draft_id : uuid) (j : CommunicationJob) : bool :=
  bool_decide (cj_draft_id j = Some draft_id) && bool_decide (cj_type j = "SEND_DRAFT") &&
  bool_decide (cj_status j ∈ ["PENDING"; "FAILED_RETRYABLE"; "RUNNING"]).

Definition cancel_unsent (draft_id : uuid) (reason : string) (s : Seen) (actor : CurrentActor) (now : instant) (db : CommDb)
    : result exn (OutboundDraft * CommDb) :=
  _ ← raise_unless (has_role (roles actor) Role.SENDER) StateConflictError;
  d ← find_draft draft_id db;
  _ ← raise_unless (seen_at_approval s d) StateConflictError;
  _ ← raise_unless (status_in [CommunicationDraftStatus.APPROVED_TO_SEND; CommunicationDraftStatus.SEND_QUEUED] d)
        StateConflictError;
  _ ← raise_unless (negb (existsb (fun j => open_send_job draft_id j && bool_decide (cj_status j = "RUNNING")) (cjobs db)))
        StateConflictError;
  let db1 := db <| cjobs := (fun j => if open_send_job draft_id j
      then j <| cj_status := "CANCELLED" |> <| cj_lease_owner := None |> <| cj_lease_expires_at := None |> else j)
      <$> cjobs db |> in
  let '(d1, db2) := invalidate_approval d reason now db1 in
  let d2 := set_status CommunicationDraftStatus.CANCELLED d1 in
  Ok (d2, add_event "outbound_draft" draft_id "approved_unsent_draft_cancelled" (actor_id actor) (put_draft d2 db2)).

(** ** Queueing *)

Definition send_key (draft_id : uuid) (snapshot : string) : string := "send:" +:+ draft_id +:+ ":" +:+ snapshot.

Definition send_request (d : OutboundDraft) (a : SendApproval) : JobRequest :=
  {| jr_type := CommunicationJobType.SEND_DRAFT; jr_key := send_key (dr_id d) (ap_snapshot a); jr_draft := Some (dr_id d);
     jr_email := dr_email_id d; jr_task := Some (dr_task_id d); jr_priority := 10;
     jr_max_attempts := communication_send_job_max_attempts settings; jr_delay_seconds := 0 |}.

Definition send (draft_id : uuid) (idempotency_key : string) (explicit_confirmation : bool) (actor : CurrentActor) (i : uuid)
    (now : instant) (db : CommDb) : result exn (uuid * bool * CommDb) :=
  _ ← raise_unless explicit_confirmation ValueError;
  _ ← raise_unless (negb (bool_decide (strip idempotency_key = ""))) ValueError;
  _ ← raise_unless (has_role (roles actor) Role.SENDER) StateConflictError;
  _ ← raise_unless (communications_enabled settings && graph_send_enabled settings) StateConflictError;
  match drafts db !! draft_id with
  | None => Err StateConflictError
  | Some d =>
      _ ← raise_unless (status_in [CommunicationDraftStatus.APPROVED_TO_SEND; CommunicationDraftStatus.SEND_QUEUED] d)
            StateConflictError;
      match approved_of draft_id db with
      | None => Err StateConflictError
      | Some a =>
          _ ← raise_unless (bool_decide (Some (ap_snapshot a) = dr_approval_snapshot d)) StateConflictError;
          '(j, created, db1) ← enqueue i (send_request d a) now db;
          if (created : bool) then
            let d' := set_status CommunicationDraftStatus.SEND_QUEUED d <| send_queued_at := Some now |> in
            Ok (cj_id j, true, add_event "outbound_draft" draft_id "approved_send_queued" (actor_id actor) (put_draft d' db1))
          else Ok (cj_id j, false, db1)
      end
  end.

Definition reconcile_send (draft_id : uuid) (i : uuid) (now : instant) (db : CommDb) : result exn (uuid * bool * CommDb) :=
  d ← find_draft draft_id db;
  '(j, created, db1) ← enqueue i
    {| jr_type := CommunicationJobType.RECONCILE_SEND;
       jr_key := "reconcile-send:" +:+ draft_id +:+ ":" +:+ pretty.pretty (local_revision d);
       jr_draft := Some draft_id; jr_email := dr_email_id d; jr_task := Some (dr_task_id d); jr_priority := 20;
       jr_max_attempts := communication_send_reconciliation_max_attempts settings; jr_delay_seconds := 0 |} now db;
  Ok (cj_id j, created, db1).
End SendApproval.
