(* ===== verification/GraphDraft.v ===== *)
(** * Reading and following the Graph draft ([app/services/graph_draft_service.py])

    What the service reads from a message payload, the comparison of attachments, and
    the import of an Outlook edit ([GraphDraftService.sync]).  The answers of Microsoft
    Graph are arguments.  Creating the reply draft and pushing a local revision to it
    are sequences of external calls and are not modelled. *)
From S2P Require Import Prelude Vocabulary PyDate PyJson Hashes Roles RecipientPolicy CommStore DraftWork.
Open Scope Z_scope.

Abbreviation payload := (list (string * json)).

(** An answer to a read: the body, "not found", or another failure. *)
Inductive Reply (A : Type) : Type := Found (a : A) | NotFound404 | Failed.
Arguments Found {A} a.
Arguments NotFound404 {A}.
Arguments Failed {A}.

Section Payload.
Context (py_str : json -> string).

(** [str(d.get(k) or "")], and [... or None]. *)
Definition get_text (d : payload) (k : string) : string := text_or_empty py_str d k.
Definition get_opt (d : payload) (k : string) : option string :=
  let s := get_text d k in if bool_decide (s = "") then None else Some s.

Definition as_dict (j : json) : payload := match j with JDict d => d | _ => [] end.

Definition is_draft (m : payload) : bool :=
  match dget "isDraft" m with Some (JBool true) => true | _ => false end.

Definition has_attachments (m : payload) : bool :=
  match dget "hasAttachments" m with Some (JBool true) => true | _ => false end.

Definition recipient_of (item : json) : option recipient :=
  let email := as_dict (default (JDict []) (dget "emailAddress" (as_dict item))) in
  match dget "address" email with
  | Some a =>
      if truthy a then
        Some [("address", JStr (str_lower (get_text email "address"))); ("name", JStr (get_text email "name"))]
      else None
  | None => None
  end.

Definition _recipients (v : option json) : list recipient :=
  match v with Some (JList l) => omap recipient_of l | _ => [] end.

Definition _body (m : payload) : option string * option string :=
  match dget "body" m with
  | Some (JDict b) =>
      let content := get_text b "content" in
      if bool_decide (str_lower (get_text b "contentType") = "html") then (None, Some content) else (Some content, None)
  | _ => (None, None)
  end.

(** ** Attachments *)

Definition Identity : Type := string * string * Z.

Definition identity_leb (a b : Identity) : bool :=
  if bool_decide (a.1 = b.1) then a.2 <=? b.2 else pair_leb a.1 b.1.

Definition identity_of (row : payload) : result exn Identity :=
  n ← (match dget "size" row with Some v => if truthy v then py_int v else Ok 0 | None => Ok 0 end);
  Ok (get_text row "id", get_text row "name", n).

Definition inline (row : payload) : bool := match dget "isInline" row with Some v => truthy v | None => false end.

Definition _attachment_identities (rows : list payload) : result exn (list Identity) :=
  py_sorted identity_leb <$> mapR identity_of (filter (fun r => inline r = false) rows).

Definition expected_identities (local : list OutboundDraftAttachment) : list Identity :=
  py_sorted identity_leb
    ((fun a => (default "" (oa_graph_attachment_id a), oa_filename a, oa_size_bytes a)) <$>
     filter (fun a => oa_status a = "GRAPH_UPLOADED") local).

(** Graph is asked for the attachments only when there may be one. *)
Definition graph_attachments_match (draft_id : uuid) (has : bool) (listed : Reply (list payload)) (db : CommDb)
    : result exn bool :=
  let local := live_attachments draft_id db in
  if negb has && bool_decide (length local = 0%nat) then Ok true else
  match listed with
  | Found rows =>
      actual ← _attachment_identities rows;
      let expected := expected_identities local in
      Ok (bool_decide (length expected = length local) && bool_decide (actual = expected))
  | _ => Err GraphApiError
  end.

(** ** Following Outlook *)

Context (sha256 : string -> string) (settings : Settings).

Definition graph_content_hash (m : payload) : string :=
  let '(text, html) := _body m in content_hash sha256 (get_text m "subject") text html.

Definition graph_recipient_hash (m : payload) : string :=
  recipient_set_hash sha256 py_str (_recipients (dget "toRecipients" m)) (_recipients (dget "ccRecipients" m))
    (_recipients (dget "bccRecipients" m)).

Definition reconcile_request (d : OutboundDraft) (key : string) (priority : Z) (delayed : bool) : JobRequest :=
  {| jr_type := CommunicationJobType.RECONCILE_SEND; jr_key := key; jr_draft := Some (dr_id d);
     jr_email := dr_email_id d; jr_task := Some (dr_task_id d); jr_priority := priority;
     jr_max_attempts := communication_send_reconciliation_max_attempts settings;
     jr_delay_seconds := if delayed then communication_send_reconciliation_initial_delay_seconds settings else 0 |}.

Definition _mark_no_longer_draft (d : OutboundDraft) (job_id : uuid) (now : instant) (db : CommDb)
    : result exn (OutboundDraft * CommDb) :=
  let d' := set_status CommunicationDraftStatus.SEND_AMBIGUOUS d in
  '(_, _, db') ← enqueue job_id (reconcile_request d
     ("graph-draft-no-longer-draft:" +:+ dr_id d +:+ ":" +:+ pretty.pretty (local_revision d)) 1 true) now db;
  Ok (d', put_draft d' db').

(** Subject, content, recipients or attachments differ from the stored revision. *)
Definition material_change (d : OutboundDraft) (m : payload) (attachments_match : bool) : bool :=
  negb (bool_decide (get_text m "subject" = subject d)) ||
  negb (bool_decide (graph_content_hash m = body_sha256 d)) ||
  negb (bool_decide (graph_recipient_hash m = recipient_set_sha256 d)) ||
  negb attachments_match.

Definition identity_changed (d : OutboundDraft) (m : payload) : bool :=
  negb (bool_decide (get_opt m "changeKey" = graph_change_key d)) ||
  negb (bool_decide (get_opt m "@odata.etag" = graph_etag d)).

Definition imported (m : payload) (d : OutboundDraft) : OutboundDraft :=
  let '(text, html) := _body m in
  d <| subject := get_text m "subject" |> <| body_text := text |> <| body_html := html |>
    <| to_recipients := _recipients (dget "toRecipients" m) |>
    <| cc_recipients := _recipients (dget "ccRecipients" m) |>
    <| bcc_recipients := _recipients (dget "bccRecipients" m) |>.

(** The context of [_context] is plan, e-mail and mailbox; the e-mail is not read
    further here. *)
Definition sync (draft_id : uuid) (actor : CurrentActor) (allow_transport_change : bool) (got : Reply payload)
    (listed : Reply (list payload)) (job_id version_id : uuid) (now : instant) (db : CommDb)
    : result exn (OutboundDraft * bool) * CommDb :=
  let done (r : result exn (OutboundDraft * bool * CommDb)) : result exn (OutboundDraft * bool) * CommDb :=
    match r with Ok (d, b, db') => (Ok (d, b), db') | Err e => (Err e, db) end in
  match drafts db !! draft_id with
  | None => (Err NotFoundError, db)
  | Some d =>
      if negb (truthy_opt (response_plan_id d ≫= fun i => plans db !! i) && truthy_opt (dr_email_id d) &&
               truthy_opt (mailboxes db !! dr_mailbox_id d)) then (Err NotFoundError, db)
      else if negb (truthy_str (graph_draft_message_id d)) then (Err StateConflictError, db) else
      match got with
      | Failed => (Err GraphApiError, db)
      | NotFound404 =>
          let '(d1, db1) := invalidate_approval d "Graph draft is missing" now db in
          (Err StateConflictError, put_draft (set_status CommunicationDraftStatus.SEND_FAILED_REVIEW d1) db1)
      | Found m =>
          done (
            if negb (is_draft m) then
              '(d', db') ← _mark_no_longer_draft d job_id now db; Ok (d', true, db')
            else
              ok ← graph_attachments_match draft_id (has_attachments m) listed db;
              let changed := material_change d m ok || identity_changed d m && negb allow_transport_change in
              let d1 := d <| graph_change_key := get_opt m "changeKey" |> <| graph_etag := get_opt m "@odata.etag" |>
                          <| graph_last_synced_at := Some now |> in
              if changed then
                '(d2, db2) ← revise sha256 py_str no_pending version_id (imported m d1) (actor_id actor)
                               "external Outlook draft edit" "EXTERNAL_DRAFT_EDIT"
                               CommunicationDraftStatus.CHANGES_REQUESTED now db;
                Ok (d2, true, add_event "outbound_draft" draft_id "external_graph_draft_edit_detected" (actor_id actor) db2)
              else Ok (d1, false, put_draft d1 db))
      end
  end.
End Payload.
