(* ===== verification/OutboundSend.v ===== *)
(** * Sending an approved draft, and finding the sent copy

    [OutboundSendService] and [SentReconciliationService]
    ([app/services/outbound_send_service.py], [sent_reconciliation_service.py]).

    The service commits its intent before it posts, so a send is two steps with other
    transactions in between: [execute_begin] checks everything and stores the attempt,
    [execute_finish] stores what the post said.  The second step writes only the
    columns it sets, on the rows as they are by then. *)
From S2P Require Import Prelude Vocabulary PyDate PyJson Hashes Roles RecipientPolicy CommStore DraftWork SendApproval GraphDraft.
Open Scope Z_scope.

(** What a call of [send_existing_draft] can end with. *)
Inductive PostReply :=
| Accepted (request_id : option string) (client_request_id : string)
| HttpError (status : Z) (graph_code request_id client_request_id : option string)
| AuthFailed (code : option string)
| ConnectFailed
| Lost (exception_name : string)
| OtherException.

(** What a call of [execute] comes to before the post. *)
Inductive Begun :=
| Settled (t : OutboundSendAttempt)
| Posting (t : OutboundSendAttempt).

Definition attempts_of (draft_id : uuid) (db : CommDb) : list OutboundSendAttempt :=
  filter (fun t => at_draft_id t = draft_id) (attempts db).

(** [ORDER BY attempt_number DESC], the first. *)
Definition latest_attempt (draft_id : uuid) (db : CommDb) : option OutboundSendAttempt :=
  head (py_sorted (fun a b => attempt_number b <=? attempt_number a) (attempts_of draft_id db)).

Definition SENT_STATUSES : list CommunicationDraftStatus.CommunicationDraftStatus :=
  [CommunicationDraftStatus.SEND_ACCEPTED; CommunicationDraftStatus.SEND_AMBIGUOUS;
   CommunicationDraftStatus.SENT_COPY_VERIFIED].

Definition SENDABLE : list CommunicationDraftStatus.CommunicationDraftStatus :=
  [CommunicationDraftStatus.SEND_QUEUED; CommunicationDraftStatus.APPROVED_TO_SEND;
   CommunicationDraftStatus.SEND_FAILED_RETRYABLE].

Definition system_event (entity : string) (i : uuid) (act : string) : CommDb -> CommDb :=
  add_event entity i act "communications-worker".

(** An update of the attempt's row and of the draft's row. *)
Definition on_attempt (i : uuid) (f : OutboundSendAttempt -> OutboundSendAttempt) (db : CommDb) : CommDb :=
  db <| attempts := (fun t => if bool_decide (at_id t = i) then f t else t) <$> attempts db |>.

Definition on_draft (i : uuid) (f : OutboundDraft -> OutboundDraft) (db : CommDb) : CommDb :=
  db <| drafts := alter f i (drafts db) |>.

Section OutboundSend.
Context (sha256 : string -> string) (py_str : json -> string) (settings : Settings).

Definition _preflight_failed {A} (d : OutboundDraft) (db : CommDb) : result exn A * CommDb :=
  (Err StateConflictError,
   system_event "outbound_draft" (dr_id d) "send_preflight_failed_review"
     (put_draft (set_status CommunicationDraftStatus.SEND_FAILED_REVIEW d) db)).

Definition expected_mailbox : string := str_lower (strip (default "" (graph_expected_mailbox_address settings))).

Definition send_policy (d : OutboundDraft) (p : ResponsePlan) (m : Mailbox) (db : CommDb) : RecipientPolicyResult :=
  RecipientPolicy.evaluate py_str settings
    (policy_input d p (Some [str_lower (after_last_at (mb_address m))]) false false db).

(** Everything that is checked before Graph is asked. *)
Definition preflight_ok (d : OutboundDraft) (a : SendApproval) (p : ResponsePlan) (m : Mailbox) (today : date) (db : CommDb)
    : bool :=
  negb (bool_decide (expected_mailbox = "")) && bool_decide (str_lower (strip (mb_address m)) = expected_mailbox) &&
  allowed (send_policy d p m db) && bool_decide (snapshot_of sha256 d p = ap_snapshot a) &&
  bool_decide (validate_draft_attachments (dr_id d) true today db = []).

(** The draft in Graph is the approved one. *)
Definition graph_is_approved (a : SendApproval) (msg : payload) (attachments_match : bool) : bool :=
  bool_decide (graph_content_hash py_str sha256 msg = ap_body_sha256 a) &&
  bool_decide (graph_recipient_hash py_str sha256 msg = ap_recipient_set_sha256 a) && attachments_match &&
  bool_decide (get_opt py_str msg "changeKey" = ap_graph_change_key a) &&
  bool_decide (get_opt py_str msg "@odata.etag" = ap_graph_etag a).

Definition attempt_key (draft_id : uuid) (snapshot : string) (n : Z) : string :=
  "send-attempt:" +:+ draft_id +:+ ":" +:+ snapshot +:+ ":" +:+ pretty.pretty n.

Definition new_attempt (i : uuid) (d : OutboundDraft) (a : SendApproval) (job : option uuid) (n : Z) (persisted : string)
    (now : instant) : OutboundSendAttempt :=
  {| at_id := i; at_draft_id := dr_id d; at_approval_id := ap_id a; at_job_id := job; attempt_number := n;
     at_idempotency_key := attempt_key (dr_id d) (ap_snapshot a) n; pre_send_snapshot_sha256 := persisted;
     at_graph_draft_message_id := default "" (graph_draft_message_id d);
     at_status := value SendAttemptStatus.STARTED; http_status := None; graph_request_id := None;
     graph_client_request_id := None; at_started_at := now; accepted_at := None; reconciled_at := None;
     sent_copy_verified_at := None; sent_graph_message_id := None; sent_internet_message_id := None;
     sent_parent_folder_id := None; sent_body_sha256 := None; sent_recipient_set_sha256 := None;
     sent_attachment_set_sha256 := None; error_code := None; error_message := None |}.

(** The intent is stored. *)
Definition persist_intent (i : uuid) (d : OutboundDraft) (a : SendApproval) (p : ResponsePlan) (job : option uuid)
    (now : instant) (db : CommDb) : result exn Begun * CommDb :=
  let n := Z.of_nat (length (attempts_of (dr_id d) db)) + 1 in
  let t := new_attempt i d a job n (snapshot_of sha256 d p) now in
  match insert_attempt t db with
  | Err e => (Err e, db)
  | Ok db1 => (Ok (Posting t), system_event "outbound_send_attempt" i "send_intent_persisted"
                 (put_draft (set_status CommunicationDraftStatus.SENDING d) db1))
  end.

(** The checks against Graph. *)
Definition against_graph (i job_id : uuid) (d : OutboundDraft) (a : SendApproval) (p : ResponsePlan) (job : option uuid)
    (got : Reply payload) (listed : Reply (list payload)) (now : instant) (db : CommDb) : result exn Begun * CommDb :=
  match got with
  | NotFound404 => _preflight_failed d db
  | Failed => (Err GraphApiError, db)
  | Found msg =>
      if negb (is_draft msg) then
        match enqueue job_id (reconcile_request settings d
                ("preflight-no-longer-draft:" +:+ dr_id d +:+ ":" +:+ pretty.pretty (local_revision d)) 1 true) now db with
        | Err e => (Err e, db)
        | Ok (_, _, db1) => (Err StateConflictError, put_draft (set_status CommunicationDraftStatus.SEND_AMBIGUOUS d) db1)
        end
      else
        match graph_attachments_match py_str (dr_id d) (has_attachments msg) listed db with
        | Err e => (Err e, db)
        | Ok ok =>
            if graph_is_approved a msg ok then persist_intent i d a p job now db
            else let '(d1, db1) := invalidate_approval d "Graph draft changed after send approval" now db in
                 _preflight_failed d1 db1
        end
  end.

(** A worker that died between its intent and the answer. *)
Definition stale_send (d : OutboundDraft) (t : OutboundSendAttempt) (job_id : uuid) (now : instant) (db : CommDb)
    : result exn Begun * CommDb :=
  let stale t := t <| at_status := value SendAttemptStatus.AMBIGUOUS |> <| error_code := Some "STALE_SEND_LEASE" |>
              <| error_message :=
                   Some "The send worker stopped after persisting intent; reconciliation is required." |> in
  match enqueue job_id (reconcile_request settings d ("stale-send-reconcile:" +:+ at_id t) 1 true) now db with
  | Err e => (Err e, db)
  | Ok (_, _, db1) =>
      (Ok (Settled (stale t)),
       on_attempt (at_id t) stale (put_draft (set_status CommunicationDraftStatus.SEND_AMBIGUOUS d) db1))
  end.

(** The path of a draft that is neither sent nor being sent. *)
Definition checked_send (d : OutboundDraft) (plan_id : uuid) (job : option uuid) (got : Reply payload)
    (listed : Reply (list payload)) (i job_id : uuid) (now : instant) (db : CommDb) : result exn Begun * CommDb :=
  if negb (status_in SENDABLE d) then (Err StateConflictError, db) else
  match approved_of (dr_id d) db, plans db !! plan_id, mailboxes db !! dr_mailbox_id d with
  | Some a, Some p, Some m =>
      if preflight_ok d a p m (instant_date now) db
      then against_graph i job_id d a p job got listed now db else _preflight_failed d db
  | _, _, _ => _preflight_failed d db
  end.

Definition execute_begin (draft_id : uuid) (job : option uuid) (got : Reply payload) (listed : Reply (list payload))
    (i job_id : uuid) (now : instant) (db : CommDb) : result exn Begun * CommDb :=
  match drafts db !! draft_id with
  | None => (Err NotFoundError, db)
  | Some d =>
      match response_plan_id d with
      | None => (Err NotFoundError, db)
      | Some plan_id =>
          if negb (truthy_str (graph_draft_message_id d)) then (Err NotFoundError, db) else
          let go := checked_send d plan_id job got listed i job_id now db in
          match latest_attempt draft_id db with
          | Some t =>
              if status_in SENT_STATUSES d then (Ok (Settled t), db)
              else if bool_decide (draft_status d = value CommunicationDraftStatus.SENDING) &&
                      bool_decide (at_status t = value SendAttemptStatus.STARTED)
              then stale_send d t job_id now db else go
          | None => go
          end
      end
  end.

(** ** The answer of the post *)

(** A column that was null when the object was loaded is sent only with a value. *)
Definition or_keep {A} (new old : option A) : option A := match new with Some _ => new | None => old end.

Definition outcome_row (status : SendAttemptStatus.SendAttemptStatus) (code message : option string)
    (t : OutboundSendAttempt) : OutboundSendAttempt :=
  t <| at_status := value status |> <| error_code := or_keep code (error_code t) |>
    <| error_message := or_keep message (error_message t) |>.

Definition http_row (status : Z) (req cli : option string) (t : OutboundSendAttempt) : OutboundSendAttempt :=
  t <| http_status := Some status |> <| graph_request_id := or_keep req (graph_request_id t) |>
    <| graph_client_request_id := or_keep cli (graph_client_request_id t) |>.

Definition AMBIGUOUS_MESSAGE : string := "Send outcome is ambiguous; automatic resend is forbidden.".

Definition enqueue_reconcile (d : OutboundDraft) (key : string) (priority : Z) (job_id : uuid) (now : instant) (db : CommDb)
    : result exn CommDb :=
  '(_, _, db') ← enqueue job_id (reconcile_request settings d key priority true) now db; Ok db'.

Definition _safe_retry (t : OutboundSendAttempt) (d : OutboundDraft) (code message : option string)
    (row : OutboundSendAttempt -> OutboundSendAttempt) (job_id : uuid) (now : instant) (db : CommDb) : result exn CommDb :=
  if communication_send_job_max_attempts settings <=? attempt_number t then
    Ok (system_event "outbound_send_attempt" (at_id t) "send_safe_retry_exhausted"
          (on_draft (dr_id d) (set_status CommunicationDraftStatus.SEND_FAILED_REVIEW)
             (on_attempt (at_id t) (fun u => outcome_row SendAttemptStatus.FAILED_REVIEW code message (row u)) db)))
  else
    '(_, _, db1) ← enqueue job_id
       {| jr_type := CommunicationJobType.SEND_DRAFT; jr_key := "safe-send-retry:" +:+ at_id t; jr_draft := Some (dr_id d);
          jr_email := dr_email_id d; jr_task := Some (dr_task_id d); jr_priority := 10; jr_max_attempts := 1;
          jr_delay_seconds := 0 |} now db;
    Ok (system_event "outbound_send_attempt" (at_id t) "send_safe_retry_queued"
          (on_draft (dr_id d) (set_status CommunicationDraftStatus.SEND_FAILED_RETRYABLE)
             (on_attempt (at_id t) (fun u => outcome_row SendAttemptStatus.FAILED_RETRYABLE code message (row u)) db1))).

Definition ambiguous (t : OutboundSendAttempt) (d : OutboundDraft) (code : option string) (key act : string)
    (row : OutboundSendAttempt -> OutboundSendAttempt) (job_id : uuid) (now : instant) (db : CommDb) : result exn CommDb :=
  db1 ← enqueue_reconcile d key 1 job_id now db;
  Ok (system_event "outbound_send_attempt" (at_id t) act
        (on_draft (dr_id d) (set_status CommunicationDraftStatus.SEND_AMBIGUOUS)
           (on_attempt (at_id t) (fun u => outcome_row SendAttemptStatus.AMBIGUOUS code (Some AMBIGUOUS_MESSAGE) (row u)) db1))).

Definition AMBIGUOUS_STATUSES : list Z := [408; 500; 502; 503; 504].

Definition _failed (t : OutboundSendAttempt) (d : OutboundDraft) (status : Z) (code req cli : option string)
    (job_id : uuid) (now : instant) (db : CommDb) : result exn CommDb :=
  let http := "HTTP_" +:+ pretty.pretty status in
  let c := Some (match code with Some s => if bool_decide (s = "") then http else s | None => http end) in
  let msg := Some ("Microsoft Graph returned HTTP " +:+ pretty.pretty status +:+ ".") in
  let row := http_row status req cli in
  if bool_decide (status ∈ AMBIGUOUS_STATUSES) then
    ambiguous t d c ("ambiguous-http-reconcile:" +:+ at_id t) "send_http_outcome_marked_ambiguous" row job_id now db
  else if status =? 429 then _safe_retry t d c msg row job_id now db
  else
    Ok (system_event "outbound_send_attempt" (at_id t) "send_failed_review"
          (on_draft (dr_id d) (set_status CommunicationDraftStatus.SEND_FAILED_REVIEW)
             (on_attempt (at_id t) (fun u => outcome_row SendAttemptStatus.FAILED_REVIEW c msg (row u)) db))).

Definition accepted (t : OutboundSendAttempt) (d : OutboundDraft) (req : option string) (cli : string) (job_id : uuid)
    (now : instant) (db : CommDb) : result exn CommDb :=
  db1 ← enqueue_reconcile d ("accepted-reconcile:" +:+ at_id t) 20 job_id now db;
  Ok (system_event "outbound_send_attempt" (at_id t) "graph_send_accepted"
        (on_draft (dr_id d) (fun d => set_status CommunicationDraftStatus.SEND_ACCEPTED d <| delivery_status := "UNKNOWN" |>)
           (on_attempt (at_id t) (fun u => http_row 202 req (Some cli) u <| at_status := value SendAttemptStatus.ACCEPTED |>
                                             <| accepted_at := Some now |>) db1))).

(** [t] and [d] are the objects the worker holds; the second reply is that of the
    retry with a fresh token. *)
Definition execute_finish (t : OutboundSendAttempt) (d : OutboundDraft) (first second : PostReply) (job_id : uuid)
    (now : instant) (db : CommDb) : result exn CommDb :=
  match first with
  | Accepted req cli => accepted t d req cli job_id now db
  | HttpError 401 _ _ _ =>
      match second with
      | Accepted req cli => accepted t d req cli job_id now db
      | HttpError s code req cli => _failed t d s code req cli job_id now db
      | _ => Err GraphApiError
      end
  | HttpError s code req cli => _failed t d s code req cli job_id now db
  | AuthFailed code =>
      _safe_retry t d code (Some "Token acquisition failed before the send request.") (fun u => u) job_id now db
  | ConnectFailed =>
      _safe_retry t d (Some "ConnectError") (Some "Connection failed before the send request was transmitted.")
        (fun u => u) job_id now db
  | Lost name =>
      ambiguous t d (Some name) ("ambiguous-reconcile:" +:+ at_id t) "send_outcome_marked_ambiguous" (fun u => u) job_id now db
  | OtherException => Err GraphApiError
  end.
End OutboundSend.
