(* ===== verification/SentCopy.v ===== *)
(** * The sent copy, and the worker's bookkeeping

    [SentReconciliationService] ([app/services/sent_reconciliation_service.py]) and what
    [app/workers/communication_jobs.py] does with a job that ended.  Reconciliation
    holds no lock: it decides on the rows it loaded ([seen]) and its flush sends the
    columns it changed to the rows as they are by then ([db]). *)
From S2P Require Import Prelude Vocabulary PyDate PyJson Hashes Roles RecipientPolicy CommStore DraftWork GraphDraft OutboundSend.
Open Scope Z_scope.

Section SentCopy.
Context (sha256 : string -> string) (py_str : json -> string) (settings : Settings).

(** The columns of an attempt reconciliation writes. *)
Definition flush_attempt (loaded new : OutboundSendAttempt) (row : OutboundSendAttempt) : OutboundSendAttempt :=
  row <| at_status := sent (at_status loaded) (at_status new) (at_status row) |>
      <| reconciled_at := sent (reconciled_at loaded) (reconciled_at new) (reconciled_at row) |>
      <| sent_copy_verified_at :=
           sent (sent_copy_verified_at loaded) (sent_copy_verified_at new) (sent_copy_verified_at row) |>
      <| sent_graph_message_id :=
           sent (sent_graph_message_id loaded) (sent_graph_message_id new) (sent_graph_message_id row) |>
      <| sent_internet_message_id :=
           sent (sent_internet_message_id loaded) (sent_internet_message_id new) (sent_internet_message_id row) |>
      <| sent_parent_folder_id :=
           sent (sent_parent_folder_id loaded) (sent_parent_folder_id new) (sent_parent_folder_id row) |>
      <| sent_body_sha256 := sent (sent_body_sha256 loaded) (sent_body_sha256 new) (sent_body_sha256 row) |>
      <| sent_recipient_set_sha256 :=
           sent (sent_recipient_set_sha256 loaded) (sent_recipient_set_sha256 new) (sent_recipient_set_sha256 row) |>
      <| sent_attachment_set_sha256 :=
           sent (sent_attachment_set_sha256 loaded) (sent_attachment_set_sha256 new) (sent_attachment_set_sha256 row) |>
      <| error_code := sent (error_code loaded) (error_code new) (error_code row) |>
      <| error_message := sent (error_message loaded) (error_message new) (error_message row) |>.

Definition flush_status (loaded new : OutboundDraft) (row : OutboundDraft) : OutboundDraft :=
  row <| draft_status := sent (draft_status loaded) (draft_status new) (draft_status row) |>
      <| delivery_status := sent (delivery_status loaded) (delivery_status new) (delivery_status row) |>
      <| sent_at := sent (sent_at loaded) (sent_at new) (sent_at row) |>.

Definition flush_both (t t' : OutboundSendAttempt) (d d' : OutboundDraft) (db : CommDb) : CommDb :=
  on_draft (dr_id d) (flush_status d d') (on_attempt (at_id t) (flush_attempt t t') db).

Definition exhausted (t : OutboundSendAttempt) : OutboundSendAttempt :=
  t <| at_status := value SendAttemptStatus.FAILED_REVIEW |> <| error_code := Some "SEND_RECONCILIATION_EXHAUSTED" |>
    <| error_message := Some "Send outcome requires explicit operator review." |>.

(** The columns a verified copy fills. *)
Definition verified (d : OutboundDraft) (msg : payload) (attachments_match : bool) (now : instant) (t : OutboundSendAttempt)
    : OutboundSendAttempt :=
  t <| at_status := value SendAttemptStatus.SENT_COPY_VERIFIED |> <| reconciled_at := Some now |>
    <| sent_copy_verified_at := Some now |>
    <| sent_graph_message_id :=
         Some (default (default "" (graph_draft_message_id d)) (get_opt py_str msg "id")) |>
    <| sent_internet_message_id := get_opt py_str msg "internetMessageId" |>
    <| sent_parent_folder_id := Some (get_text py_str msg "parentFolderId") |>
    <| sent_body_sha256 := Some (graph_content_hash py_str sha256 msg) |>
    <| sent_recipient_set_sha256 := Some (graph_recipient_hash py_str sha256 msg) |>
    <| sent_attachment_set_sha256 := if attachments_match then Some (attachment_set_sha256 d) else None |>.

Definition copy_matches (d : OutboundDraft) (msg : payload) (attachments_match : bool) : bool :=
  bool_decide (graph_content_hash py_str sha256 msg = body_sha256 d) &&
  bool_decide (graph_recipient_hash py_str sha256 msg = recipient_set_sha256 d) && attachments_match.

Definition mismatched (t : OutboundSendAttempt) : OutboundSendAttempt :=
  t <| at_status := value SendAttemptStatus.FAILED_REVIEW |> <| error_code := Some "SENT_COPY_SNAPSHOT_MISMATCH" |>
    <| error_message := Some "Sent copy does not match the approved snapshot." |>.

(** A message found in Sent Items. *)
Definition found_copy (t : OutboundSendAttempt) (d : OutboundDraft) (msg : payload) (listed : Reply (list payload))
    (job_id : uuid) (now : instant) (seen db : CommDb) : result exn CommDb :=
  ok ← graph_attachments_match py_str (dr_id d) (has_attachments msg) listed seen;
  let t1 := verified d msg ok now t in
  if copy_matches d msg ok then
    let d1 := set_status CommunicationDraftStatus.SENT_COPY_VERIFIED d <| delivery_status := "UNKNOWN" |>
                <| sent_at := Some now |> in
    '(_, _, db1) ← enqueue job_id
       {| jr_type := CommunicationJobType.MOVE_SOURCE_MESSAGE; jr_key := "move-after-send:" +:+ at_id t;
          jr_draft := Some (dr_id d); jr_email := dr_email_id d; jr_task := Some (dr_task_id d); jr_priority := 30;
          jr_max_attempts := communication_move_job_max_attempts settings; jr_delay_seconds := 0 |} now db;
    Ok (system_event "outbound_send_attempt" (at_id t) "sent_copy_verified" (flush_both t t1 d d1 db1))
  else
    let d1 := set_status CommunicationDraftStatus.SEND_FAILED_REVIEW d in
    Ok (system_event "outbound_send_attempt" (at_id t) "sent_copy_snapshot_mismatch" (flush_both t (mismatched t1) d d1 db)).

(** A raised call may have committed: the second component says what. *)
Definition reconcile (draft_id : uuid) (got : Reply payload) (listed : Reply (list payload)) (job_id : uuid) (now : instant)
    (seen db : CommDb) : result exn unit * CommDb :=
  let done (r : result exn CommDb) : result exn unit * CommDb :=
    match r with Ok db' => (Ok tt, db') | Err e => (Err e, db) end in
  match drafts seen !! draft_id with
  | None => (Err NotFoundError, db)
  | Some d =>
      if negb (truthy_str (graph_draft_message_id d)) then (Err NotFoundError, db) else
      match latest_attempt draft_id seen, mailboxes seen !! dr_mailbox_id d ≫= sent_items_folder with
      | Some t, Some folder =>
          if communication_send_reconciliation_max_seconds settings * SECOND <? Z.max 0 (now - at_started_at t) then
            done (Ok (system_event "outbound_send_attempt" (at_id t) "send_reconciliation_window_exhausted"
                        (flush_both t (exhausted t) d (set_status CommunicationDraftStatus.SEND_FAILED_REVIEW d) db)))
          else
          match got with
          | Found msg =>
              if is_draft msg then
                if bool_decide (at_status t = value SendAttemptStatus.AMBIGUOUS) then
                  (Err StateConflictError,
                   flush_both t (t <| reconciled_at := Some now |>) d
                     (set_status CommunicationDraftStatus.SEND_AMBIGUOUS d) db)
                else (Err StateConflictError, db)
              else if negb (bool_decide (get_text py_str msg "parentFolderId" = folder)) then (Err StateConflictError, db)
              else if negb (match dget "sentDateTime" msg with Some v => truthy v | None => false end)
              then (Err StateConflictError, db)
              else done (found_copy t d msg listed job_id now seen db)
          | _ => (Err GraphApiError, db)
          end
      | _, _ => (Err StateConflictError, db)
      end
  end.

(** ** Jobs that ended *)

Definition job_completed (i : uuid) (now : instant) (db : CommDb) : CommDb :=
  db <| cjobs := (fun j => if bool_decide (cj_id j = i) then
      j <| cj_status := value CommunicationJobStatus.COMPLETED |> <| cj_completed_at := Some now |>
        <| cj_lease_owner := None |> <| cj_lease_expires_at := None |> else j) <$> cjobs db |>.

Definition retry_delay (attempts : Z) : Z := Z.min 300 (2 ^ Z.min attempts 8).

(** The job's row after a failure. *)
Definition failed_job (code : string) (now : instant) (j : CommunicationJob) : CommunicationJob :=
  let retry := cj_attempts j <? cj_max_attempts j in
  j <| cj_status := value (if retry then CommunicationJobStatus.FAILED_RETRYABLE else CommunicationJobStatus.FAILED_REVIEW) |>
    <| cj_error_code := Some code |> <| cj_lease_owner := None |> <| cj_lease_expires_at := None |>
    <| cj_available_at := if retry then now + retry_delay (cj_attempts j) * SECOND else cj_available_at j |>.

(** When its last attempt failed, the draft a job was about goes to review. *)
Definition goes_to_review (j : CommunicationJob) (d : OutboundDraft) : OutboundDraft :=
  let review := set_status CommunicationDraftStatus.SEND_FAILED_REVIEW d in
  if bool_decide (cj_type j = value CommunicationJobType.RECONCILE_SEND) &&
     status_in [CommunicationDraftStatus.SEND_ACCEPTED; CommunicationDraftStatus.SEND_AMBIGUOUS] d then review
  else if bool_decide (cj_type j = value CommunicationJobType.RECONCILE_GRAPH_DRAFT) &&
          status_in [CommunicationDraftStatus.GRAPH_DRAFT_PENDING] d then review
  else d.

(** The move attempts of [VERIFY_SOURCE_MOVE] are the business of [SourceMove]. *)
Definition job_failed (i : uuid) (code : string) (now : instant) (db : CommDb) : CommDb :=
  match head (filter (fun j => cj_id j = i) (cjobs db)) with
  | None => db
  | Some j =>
      let db1 := put_job (failed_job code now j) db in
      if cj_attempts j <? cj_max_attempts j then db1 else
      match cj_draft_id j with
      | Some di => on_draft di (goes_to_review j) db1
      | None => db1
      end
  end.
End SentCopy.
