(* ===== verification/SendSpec.v ===== *)
(** * What the send protocol promises

    An abstract account of sending: approvals that are in force, drafts that may be
    sent, attempts and the approval each was made under, posts that are under way, and
    what became of them.  A post may have reached its recipients unless its answer
    proves that the request was never accepted.  The one thing that matters is stated
    and proved here: no approval is spent twice.  [SendSafety] shows that the services
    are an implementation. *)
From S2P Require Import Prelude.

Notation uuid := string.

(** A post under way: attempt, approval, draft. *)
Record Post := { po_attempt : uuid; po_approval : uuid; po_draft : uuid }.

Record Abs := {
  a_attempts : list (uuid * uuid);
  a_known : uuid -> Prop;
  a_valid : uuid -> uuid -> Prop;
  a_sendable : uuid -> Prop;
  a_posts : list Post;
  (** Ended posts; [true] when the request was certainly not accepted. *)
  a_ended : gmap uuid bool
}.

Definition undelivered (s : Abs) (t : uuid) : Prop := a_ended s !! t = Some true.

(** Nothing new is approved, nothing becomes sendable. *)
Record shrinks (s s' : Abs) : Prop := {
  sh_known : forall x, a_known s x -> a_known s' x;
  sh_valid : forall x i, a_valid s' x i -> a_valid s x i;
  sh_sendable : forall i, a_sendable s' i -> a_sendable s i
}.

(** [calm]: an approval is given only when no post of its draft is under way. *)
Inductive abs_step (calm : bool) (s s' : Abs) : Prop :=
| abs_quiet :
    shrinks s s' -> a_attempts s' = a_attempts s -> a_posts s' = a_posts s -> a_ended s' = a_ended s ->
    abs_step calm s s'
| abs_grant x i :
    (calm = true -> forall p, p ∈ a_posts s -> po_draft p <> i) ->
    ~ a_known s x -> (forall y, ~ a_valid s y i) ->
    (forall y, a_known s y \/ y = x -> a_known s' y) ->
    (forall y j, a_valid s' y j -> a_valid s y j \/ y = x /\ j = i) ->
    (forall j, a_sendable s' j -> a_sendable s j \/ j = i) ->
    a_attempts s' = a_attempts s -> a_posts s' = a_posts s -> a_ended s' = a_ended s ->
    abs_step calm s s'
| abs_begin p :
    po_attempt p ∉ (a_attempts s).*1 -> a_valid s (po_approval p) (po_draft p) -> a_sendable s (po_draft p) ->
    shrinks s s' -> ~ a_sendable s' (po_draft p) ->
    a_attempts s' = a_attempts s ++ [(po_attempt p, po_approval p)] -> a_posts s' = p :: a_posts s ->
    a_ended s' = a_ended s ->
    abs_step calm s s'
| abs_end l1 p l2 (refused : bool) :
    a_posts s = l1 ++ p :: l2 -> a_posts s' = l1 ++ l2 -> a_attempts s' = a_attempts s ->
    (forall x, a_known s x -> a_known s' x) -> (forall x i, a_valid s' x i -> a_valid s x i) ->
    (forall i, a_sendable s' i -> a_sendable s i \/ i = po_draft p /\ refused = true) ->
    a_ended s' = <[po_attempt p := refused]> (a_ended s) ->
    abs_step calm s s'
| abs_die l1 p l2 :
    a_posts s = l1 ++ p :: l2 -> a_posts s' = l1 ++ l2 -> a_attempts s' = a_attempts s -> shrinks s s' ->
    a_ended s' = a_ended s ->
    abs_step calm s s'.

(** ** The invariant *)

Record abs_inv (s : Abs) : Prop := {
  (** Attempts are distinct, under approvals that were given. *)
  i_attempts : NoDup (a_attempts s).*1;
  i_known : forall t x, (t, x) ∈ a_attempts s -> a_known s x;
  i_valid_known : forall x i, a_valid s x i -> a_known s x;
  i_valid_one : forall x y i, a_valid s x i -> a_valid s y i -> x = y;
  i_valid_draft : forall x i j, a_valid s x i -> a_valid s x j -> i = j;
  (** Only attempts end, and a post has not ended. *)
  i_ended : forall t, is_Some (a_ended s !! t) -> t ∈ (a_attempts s).*1;
  i_posts : forall p, p ∈ a_posts s -> (po_attempt p, po_approval p) ∈ a_attempts s /\ a_ended s !! po_attempt p = None;
  i_posts_distinct : NoDup (po_attempt <$> a_posts s);
  (** The other attempts under the approval of a post did not deliver, and no other
      approval of its draft is in force. *)
  i_alone : forall p t, p ∈ a_posts s -> (t, po_approval p) ∈ a_attempts s -> t <> po_attempt p -> undelivered s t;
  i_current : forall p x, p ∈ a_posts s -> a_valid s x (po_draft p) -> x = po_approval p;
  (** A draft that may be sent has not been sent under its approval. *)
  i_fresh : forall i x t, a_sendable s i -> a_valid s x i -> (t, x) ∈ a_attempts s -> undelivered s t;
  (** No approval is spent twice. *)
  i_once : forall x t u, (t, x) ∈ a_attempts s -> (u, x) ∈ a_attempts s ->
    ~ undelivered s t -> ~ undelivered s u -> t = u
}.

Lemma mid_in {A} (l1 l2 : list A) x y : x ∈ l1 ++ l2 -> x ∈ l1 ++ y :: l2.
Proof. rewrite !elem_of_app, elem_of_cons. tauto. Qed.

Lemma inv_quiet s s' :
  abs_inv s -> shrinks s s' -> a_attempts s' = a_attempts s -> a_posts s' = a_posts s -> a_ended s' = a_ended s ->
  (forall x i, a_valid s' x i -> a_known s' x) -> abs_inv s'.
Proof.
  intros [] [] Ea Ep Ee Hk. unfold undelivered in *.
  constructor; unfold undelivered; rewrite ?Ea, ?Ep, ?Ee; eauto.
Qed.

Lemma inv_end s s' l1 p l2 :
  abs_inv s -> a_posts s = l1 ++ p :: l2 ->
  NoDup (po_attempt <$> l1 ++ l2) /\ (forall q, q ∈ l1 ++ l2 -> po_attempt q <> po_attempt p) /\
  (a_posts s' = l1 ++ l2 -> forall q, q ∈ a_posts s' -> q ∈ a_posts s).
Proof.
  intros [] Ep. rewrite Ep in i_posts_distinct0.
  rewrite fmap_app, fmap_cons in i_posts_distinct0. apply NoDup_app in i_posts_distinct0 as (H1 & H2 & [H3 H4]%NoDup_cons).
  split_and!.
  - rewrite fmap_app. apply NoDup_app. split_and!; [done | | done]. intros x Hx Hx2. apply (H2 x Hx). by right.
  - intros q Hq E. rewrite elem_of_app in Hq. destruct Hq as [Hq|Hq].
    + apply (H2 (po_attempt q)); [by apply list_elem_of_fmap_2 | rewrite E; left].
    + apply H3. rewrite <-E. by apply list_elem_of_fmap_2.
  - intros Ep' q Hq. rewrite Ep' in Hq. rewrite Ep. by apply mid_in.
Qed.

Lemma inv_grant s s' x i :
  abs_inv s -> (forall p, p ∈ a_posts s -> po_draft p <> i) -> ~ a_known s x -> (forall y, ~ a_valid s y i) ->
  (forall y, a_known s y \/ y = x -> a_known s' y) ->
  (forall y j, a_valid s' y j -> a_valid s y j \/ y = x /\ j = i) ->
  (forall j, a_sendable s' j -> a_sendable s j \/ j = i) ->
  a_attempts s' = a_attempts s -> a_posts s' = a_posts s -> a_ended s' = a_ended s -> abs_inv s'.
Proof.
  intros [] Hcalm Hnew Hnone Hk Hv Hs Ea Ep Ee. unfold undelivered in *.
  constructor; unfold undelivered; rewrite ?Ea, ?Ep, ?Ee; eauto.
  - intros y j [?|[-> ->]]%Hv; eauto.
  - intros y z j [?|[-> ->]]%Hv [?|[? ?]]%Hv; subst; naive_solver.
  - intros y j k [?|[-> ->]]%Hv [?|[? ?]]%Hv; subst; naive_solver.
  - intros p y Hp [?|[-> Hi]]%Hv; [eauto|]. by destruct (Hcalm p Hp).
  - intros j y t Hj [Hy|[-> ->]]%Hv Ht.
    + apply Hs in Hj as [Hj| ->]; [eauto|]. by destruct (Hnone y).
    + destruct Hnew. eauto.
Qed.

Lemma inv_begin s s' p :
  abs_inv s -> po_attempt p ∉ (a_attempts s).*1 -> a_valid s (po_approval p) (po_draft p) -> a_sendable s (po_draft p) ->
  shrinks s s' -> ~ a_sendable s' (po_draft p) ->
  a_attempts s' = a_attempts s ++ [(po_attempt p, po_approval p)] -> a_posts s' = p :: a_posts s ->
  a_ended s' = a_ended s -> abs_inv s'.
Proof.
  intros Hinv Hnew Hv Hs [] Hns Ea Ep Ee. pose proof Hinv as [].
  assert (forall t, (t, po_approval p) ∈ a_attempts s -> undelivered s t) as Hothers by eauto.
  assert (forall t x, (t, x) ∈ a_attempts s -> t <> po_attempt p) as Hne.
  { intros t x Ht ->. apply Hnew. by apply (list_elem_of_fmap_2 fst) in Ht. }
  assert (forall t x, (t, x) ∈ a_attempts s' <-> (t, x) ∈ a_attempts s \/ t = po_attempt p /\ x = po_approval p) as Hatt.
  { intros t x. rewrite Ea, elem_of_app, list_elem_of_singleton. naive_solver. }
  unfold undelivered in *. constructor; unfold undelivered; rewrite ?Ep, ?Ee.
  - rewrite Ea, fmap_app. apply NoDup_app. split_and!; [done | | apply NoDup_singleton].
    intros t Ht ->%list_elem_of_singleton. done.
  - intros t x [?|[-> ->]]%Hatt; eauto.
  - eauto.
  - eauto.
  - eauto.
  - intros t Ht. rewrite Ea, fmap_app, elem_of_app. eauto.
  - intros q [->|Hq]%elem_of_cons.
    + split; [apply Hatt; by right|]. destruct (a_ended s !! po_attempt p) eqn:E; [|done].
      destruct Hnew. apply i_ended0. by eexists.
    + destruct (i_posts0 q Hq) as [? ?]. split; [apply Hatt; by left | done].
  - rewrite fmap_cons. apply NoDup_cons. split; [|done]. intros (q & E & Hq)%list_elem_of_fmap.
    destruct (i_posts0 q Hq) as [Hin _]. rewrite <-E in Hin. by apply Hne in Hin.
  - intros q t [->|Hq]%elem_of_cons [Ht|[-> Ex]]%Hatt Hdiff; eauto; [done|].
    (* another post under the same approval cannot be under way *)
    destruct (i_posts0 q Hq) as [Hin Hnone]. rewrite Ex in Hin. apply Hothers in Hin. congruence.
  - intros q x [->|Hq]%elem_of_cons Hx; eauto.
  - intros i x t Hi Hx [Ht|[-> ->]]%Hatt; [eauto|].
    assert (i = po_draft p) as -> by eauto. done.
  - intros x t u [Ht|[-> Ex]]%Hatt [Hu|[-> Eu]]%Hatt Hnt Hnu; subst; eauto.
    + by destruct Hnt; apply Hothers.
    + by destruct Hnu; apply Hothers.
Qed.

Lemma inv_ended s s' l1 p l2 refused :
  abs_inv s -> a_posts s = l1 ++ p :: l2 -> a_posts s' = l1 ++ l2 -> a_attempts s' = a_attempts s ->
  (forall x, a_known s x -> a_known s' x) -> (forall x i, a_valid s' x i -> a_valid s x i) ->
  (forall i, a_sendable s' i -> a_sendable s i \/ i = po_draft p /\ refused = true) ->
  a_ended s' = <[po_attempt p := refused]> (a_ended s) -> abs_inv s'.
Proof.
  intros Hinv Ep Ep' Ea Hk Hv Hs Ee. destruct (inv_end s s' l1 p l2 Hinv Ep) as (Hnd & Hne & Hsub).
  specialize (Hsub Ep'). pose proof Hinv as [].
  assert (p ∈ a_posts s) as Hp by (rewrite Ep, elem_of_app; right; left).
  destruct (i_posts0 p Hp) as [Hpin Hpnone].
  assert (forall t, t <> po_attempt p -> a_ended s' !! t = a_ended s !! t) as Hother.
  { intros t Ht. by rewrite Ee, lookup_insert_ne. }
  assert (forall t, undelivered s t -> undelivered s' t) as Hund.
  { intros t Ht. unfold undelivered in *. destruct (decide (t = po_attempt p)) as [->|]; [congruence | by rewrite Hother]. }
  assert (forall t, ~ undelivered s' t -> ~ undelivered s t) as Hund' by auto.
  constructor; rewrite ?Ea; eauto.
  - intros t [b Ht]. destruct (decide (t = po_attempt p)) as [->|Hd].
    + by apply (list_elem_of_fmap_2 fst) in Hpin.
    + rewrite Hother in Ht by done. apply i_ended0. by eexists.
  - intros q Hq. destruct (i_posts0 q (Hsub q Hq)) as [? ?]. split; [done|]. rewrite Hother; [done|].
    apply Hne. by rewrite <-Ep'.
  - by rewrite Ep'.
  - intros i x t Hi Hx Ht. apply Hv in Hx. apply Hs in Hi as [Hi|[-> ->]]; [eauto|].
    destruct (decide (t = po_attempt p)) as [->|Hd].
    + unfold undelivered. by rewrite Ee, lookup_insert_eq.
    + apply Hund. apply (i_alone0 p); [done | | done]. by rewrite <-(i_current0 p x).
Qed.

Lemma inv_died s s' l1 p l2 :
  abs_inv s -> a_posts s = l1 ++ p :: l2 -> a_posts s' = l1 ++ l2 -> a_attempts s' = a_attempts s -> shrinks s s' ->
  a_ended s' = a_ended s -> (forall x i, a_valid s' x i -> a_known s' x) -> abs_inv s'.
Proof.
  intros Hinv Ep Ep' Ea [] Ee Hk. destruct (inv_end s s' l1 p l2 Hinv Ep) as (Hnd & Hne & Hsub).
  specialize (Hsub Ep'). destruct Hinv. unfold undelivered in *.
  constructor; unfold undelivered; rewrite ?Ea, ?Ee; eauto. by rewrite Ep'.
Qed.

(** The invariant holds along every calm run. *)
Lemma abs_step_inv s s' : abs_inv s -> abs_step true s s' -> abs_inv s'.
Proof.
  intros Hinv Hstep. destruct Hstep as [Hsh Ea Ep Ee|x i Hcalm Hnew Hnone Hk Hv Hs Ea Ep Ee
    |p Hnew Hv Hs Hsh Hns Ea Ep Ee|l1 p l2 b Ep Ep' Ea Hk Hv Hs Ee|l1 p l2 Ep Ep' Ea Hsh Ee].
  - eapply inv_quiet; eauto. intros x i Hx. apply (sh_known _ _ Hsh). eapply i_valid_known; [done|].
    by apply (sh_valid _ _ Hsh) in Hx.
  - eapply inv_grant; eauto.
  - eapply inv_begin; eauto.
  - eapply inv_ended; eauto.
  - eapply inv_died; eauto. intros x i Hx. apply (sh_known _ _ Hsh). eapply i_valid_known; [done|].
    by apply (sh_valid _ _ Hsh) in Hx.
Qed.

Lemma abs_run_inv s s' : abs_inv s -> rtc (abs_step true) s s' -> abs_inv s'.
Proof. intros Hinv Hrun. induction Hrun; eauto using abs_step_inv. Qed.
