(* ===== verification/SendSafety.v ===== *)
(** * The send services implement the send protocol

    Every call of the modelled services, and the two halves of a send with anything in
    between, as steps of a world: the tables, the posts under way, the answers so far.
    Each is a step of the protocol of [SendSpec]; so no approval is spent twice, as
    long as none is given while an earlier post of its draft is still under way. *)
From S2P Require Import Prelude Vocabulary PyDate PyJson Hashes Roles RecipientPolicy CommStore DraftWork SendApproval GraphDraft OutboundSend SentCopy SendSpec.
Open Scope Z_scope.

(** ** What a table change means to the protocol *)

Definition keyed (db : CommDb) : Prop := forall i d, drafts db !! i = Some d -> dr_id d = i.

Definition att_keys (db : CommDb) : list (uuid * uuid) := (fun t => (at_id t, at_approval_id t)) <$> attempts db.

Definition valid_in (db : CommDb) (x i : uuid) : Prop :=
  exists a, a ∈ approvals db /\ ap_id a = x /\ ap_draft_id a = i /\ valid_approval a = true.

Definition sendable_in (db : CommDb) (i : uuid) : Prop :=
  exists d, drafts db !! i = Some d /\ status_in SENDABLE d = true.

Record calm_effect (db db' : CommDb) : Prop := {
  e_keyed : keyed db';
  e_att : att_keys db' = att_keys db;
  e_valid : forall x i, valid_in db' x i -> valid_in db x i;
  e_known : forall x, x ∈ ap_id <$> approvals db -> x ∈ ap_id <$> approvals db';
  e_send : forall i, sendable_in db' i -> sendable_in db i
}.

Definition quiet (db db' : CommDb) : Prop := keyed db -> calm_effect db db'.

Instance quiet_preorder : PreOrder quiet.
Proof.
  split; [intros db Hk; by split|]. intros a b c Hab Hbc Hk. destruct (Hab Hk) as [Hk2 ? ? ? ?], (Hbc Hk2).
  split; [done | congruence | eauto..].
Qed.

Lemma quiet_keyed db db' : (keyed db -> quiet db db') -> quiet db db'.
Proof. intros Hq Hk. by apply Hq. Qed.

(** Follow a call that returned. *)
Ltac go_ok := repeat (inv_ok; match goal with
  | H : (let '(_, _) := ?p in _) = Ok _ |- _ => is_var p; destruct p
  | H : match ?x with Some _ => _ | None => Err _ end = Ok _ |- _ => destruct x eqn:?; [|discriminate H]
  end); inv_ok.

(** ** Elementary changes *)

Lemma quiet_same db db' :
  drafts db' = drafts db -> approvals db' = approvals db -> attempts db' = attempts db -> quiet db db'.
Proof.
  intros Ed Eap Eat Hk. split; unfold keyed, att_keys, valid_in, sendable_in; rewrite ?Ed, ?Eap, ?Eat; auto.
Qed.

Lemma quiet_put_draft db d :
  (status_in SENDABLE d = true -> sendable_in db (dr_id d)) -> quiet db (put_draft d db).
Proof.
  intros Hs Hk. split; auto.
  - intros i e. simpl. rewrite lookup_insert_Some. intros [[<- <-]|[_ He]]; [done | by apply Hk].
  - intros i (e & He & Hst). simpl in He. rewrite lookup_insert_Some in He.
    destruct He as [[<- <-]|[_ He]]; [auto | by exists e].
Qed.

Lemma quiet_on_draft db i f :
  (forall d, dr_id (f d) = dr_id d) -> (forall d, status_in SENDABLE (f d) = true -> status_in SENDABLE d = true) ->
  quiet db (on_draft i f db).
Proof.
  intros Hid Hs Hk. split; auto.
  - intros j e. simpl. rewrite lookup_alter_Some. intros [(<- & d & Hd & ->)|[_ He]]; [rewrite Hid; by apply Hk | by apply Hk].
  - intros j (e & He & Hst). simpl in He. rewrite lookup_alter_Some in He.
    destruct He as [(<- & d & Hd & ->)|[_ He]]; [exists d; auto | by exists e].
Qed.

Lemma quiet_map_attempts db (f : OutboundSendAttempt -> OutboundSendAttempt) :
  (forall t, t ∈ attempts db -> at_id (f t) = at_id t /\ at_approval_id (f t) = at_approval_id t) ->
  quiet db (db <| attempts := f <$> attempts db |>).
Proof.
  intros Hf Hk. split; auto. unfold att_keys. simpl. rewrite <-list_fmap_compose. apply list_fmap_ext.
  intros j t Ht. simpl. apply list_elem_of_lookup_2 in Ht. by destruct (Hf t Ht) as [-> ->].
Qed.

Lemma quiet_on_attempt db i f :
  (forall t, at_id (f t) = at_id t /\ at_approval_id (f t) = at_approval_id t) -> quiet db (on_attempt i f db).
Proof. intros Hf. apply quiet_map_attempts. intros t _. by case_bool_decide. Qed.

(** Approvals can be withdrawn. *)
Lemma quiet_map_approvals db (f : SendApproval -> SendApproval) :
  (forall a, f a = a \/ ap_id (f a) = ap_id a /\ valid_approval (f a) = false) ->
  quiet db (db <| approvals := f <$> approvals db |>).
Proof.
  intros Hf Hk. split; auto.
  - intros x i (a & (b & -> & Hb)%list_elem_of_fmap & Hx & Hi & Hv). destruct (Hf b) as [E|[_ E]]; [|congruence].
    rewrite E in *. exists b. auto.
  - intros x (a & -> & Ha)%list_elem_of_fmap. simpl. rewrite <-list_fmap_compose.
    apply list_elem_of_fmap. exists a. split; [|done]. simpl. by destruct (Hf a) as [->|[-> _]].
Qed.

Lemma withdrawn_invalid reason now a : valid_approval (withdrawn reason now a) = false.
Proof. reflexivity. Qed.

Lemma quiet_invalidate d reason now db : quiet db (invalidate_approval d reason now db).2.
Proof.
  apply (quiet_map_approvals db (fun a => if withdrawable (dr_id d) a then withdrawn reason now a else a)).
  intros a. destruct (withdrawable (dr_id d) a); auto.
Qed.

Lemma quiet_insert_approval a db db' : valid_approval a = false -> insert_approval a db = Ok db' -> quiet db db'.
Proof.
  unfold insert_approval. intros Hv H. inv_ok. subst db'. intros Hk. split; auto; simpl.
  - intros x i (b & [Hb| ->%list_elem_of_singleton]%elem_of_app & ? & ? & ?); [by exists b | congruence].
  - intros x Hx. rewrite fmap_app, elem_of_app. by left.
Qed.

Lemma quiet_enqueue i q now db j b db' : enqueue i q now db = Ok (j, b, db') -> quiet db db'.
Proof.
  unfold enqueue. destruct (find_job (jr_key q) db) as [k|]; intros H; inv_ok; subst; [done | by apply quiet_same].
Qed.

Lemma enqueue_drafts i q now db j b db' : enqueue i q now db = Ok (j, b, db') -> drafts db' = drafts db.
Proof. unfold enqueue. destruct (find_job (jr_key q) db) as [k|]; intros H; inv_ok; by subst. Qed.

Lemma quiet_event e i a w db : quiet db (add_event e i a w db).
Proof. by apply quiet_same. Qed.

Lemma sendable_here db i d d' :
  drafts db !! i = Some d -> dr_id d = i -> dr_id d' = dr_id d -> draft_status d' = draft_status d ->
  status_in SENDABLE d' = true -> sendable_in db (dr_id d').
Proof. intros Hd Hi Hid Hs Hst. exists d. rewrite Hid, Hi. split; [done|]. unfold status_in in *. by rewrite <-Hs. Qed.

Lemma status_in_set l s d : status_in l (set_status s d) = bool_decide (value s ∈ value <$> l).
Proof. reflexivity. Qed.

(** The draft a call loaded. *)
Lemma find_draft_Ok i db d : find_draft i db = Ok d -> drafts db !! i = Some d.
Proof. unfold find_draft. destruct (drafts db !! i); congruence. Qed.

#[export] Hint Resolve quiet_invalidate quiet_event : astra.

(** Withdrawing the approvals of a draft that leaves the sendable statuses. *)
Lemma quiet_withdraw d d' reason now db :
  status_in SENDABLE d' = false -> quiet db (put_draft d' (invalidate_approval d reason now db).2).
Proof. intros Hs. etrans; [apply quiet_invalidate | apply quiet_put_draft; congruence]. Qed.

Section Calls.
Context (sha256 : string -> string) (py_str : json -> string) (settings : Settings).

Lemma create_version_quiet pending v d0 d who reason inc db d' db' :
  drafts db !! dr_id d0 = Some d0 -> dr_id d = dr_id d0 -> draft_status d = draft_status d0 ->
  create_version sha256 py_str pending v d who reason inc db = Ok (d', db') ->
  quiet db db' /\ dr_id d' = dr_id d /\ draft_status d' = draft_status d.
Proof.
  intros Hd Hi Hs H. unfold create_version in H. apply bind_Ok_inv in H as (db1 & H1 & H).
  apply Ok_pair_inj in H as [<- <-]. unfold insert_version in H1. inv_ok. subst db1.
  split; [|by destruct inc]. 
  transitivity (db <| versions := versions db |>); [by apply quiet_same|].
  etrans; [|apply quiet_put_draft].
  - by apply quiet_same.
  - intros Hst. eapply (sendable_here _ (dr_id d0) d0); [done.. | by destruct inc | by destruct inc | exact Hst].
Qed.

Lemma revise_quiet pending v d0 d who why reason status now db d' db' :
  drafts db !! dr_id d0 = Some d0 -> dr_id d = dr_id d0 -> draft_status d = draft_status d0 ->
  bool_decide (value status ∈ value <$> SENDABLE) = false ->
  revise sha256 py_str pending v d who why reason status now db = Ok (d', db') -> quiet db db'.
Proof.
  intros Hd Hi Hs Hst H. unfold revise in H.
  pose proof (quiet_invalidate d why now db) as Hq.
  destruct (invalidate_approval d why now db) as [d1 db1] eqn:E. unfold invalidate_approval in E.
  injection E as <- <-. apply bind_Ok_inv in H as ([d2 db2] & H1 & H). apply Ok_pair_inj in H as [<- <-].
  eapply create_version_quiet in H1 as (Hq2 & _ & _); [|exact Hd|done|done].
  etrans; [exact Hq|]. etrans; [exact Hq2|]. apply quiet_put_draft. by rewrite status_in_set, Hst.
Qed.

(** ** The services that prepare a draft *)

Ltac by_revise Hi :=
  match goal with H : revise _ _ _ _ _ _ _ _ _ _ _ = Ok _ |- _ =>
    eapply revise_quiet in H; [exact H | rewrite Hi; try eassumption | done.. ] end.

Lemma edit_quiet i s c reason actor v now db d' db' :
  edit sha256 py_str i s c reason actor v now db = Ok (d', db') -> quiet db db'.
Proof.
  intros H. apply quiet_keyed. intros Hk. unfold edit in H. go_ok. subst.
  apply find_draft_Ok in H0. pose proof (Hk _ _ H0) as Hi.
  etrans; [|apply quiet_event]. by_revise Hi.
Qed.

Lemma select_quiet i di vi s actor r v now db row db' :
  select sha256 py_str settings i di vi s actor r v now db = Ok (row, db') -> quiet db db'.
Proof.
  intros H. apply quiet_keyed. intros Hk. unfold select in H. go_ok. subst.
  match goal with Hd : drafts db !! i = Some ?d |- _ => pose proof (Hk _ _ Hd) as Hi end.
  etrans; [|apply quiet_event].
  transitivity (db <| attachments := attachments db ++ [selected_row settings r i d d0 actor] |>); [by apply quiet_same|].
  by_revise Hi.
Qed.

Lemma remove_quiet i ai s actor v now db d' db' :
  remove sha256 py_str i ai s actor v now db = Ok (d', db') -> quiet db db'.
Proof.
  intros H. apply quiet_keyed. intros Hk. unfold remove in H. go_ok. subst.
  match goal with Hd : drafts db !! i = Some ?d |- _ => pose proof (Hk _ _ Hd) as Hi end.
  etrans; [|apply quiet_event]. etrans; [by_revise Hi | by apply quiet_same].
Qed.

(** What a submission does to the tables, refused or not. *)
Lemma submit_quiet i s actor now db : quiet db (submit py_str settings i s actor now db).2.
Proof.
  apply quiet_keyed. intros Hk. unfold submit. repeat case_match; simpl; try reflexivity; try by apply quiet_same.
  etrans; [|apply quiet_event]. etrans; [|apply quiet_put_draft; intros Hst; by vm_compute in Hst].
  by apply quiet_same.
Qed.

Lemma request_changes_quiet i reason s actor now db d' db' :
  request_changes i reason s actor now db = Ok (d', db') -> quiet db db' /\ status_in SENDABLE d' = false.
Proof.
  intros H. unfold request_changes in H. go_ok.
  destruct (invalidate_approval _ _ _ _) as [d1 db1] eqn:E. inv_ok. subst. split; [|by rewrite status_in_set].
  etrans; [|apply quiet_event].
  apply (f_equal snd) in E. cbn [snd] in E. subst db1. by apply quiet_withdraw.
Qed.

Lemma reject_quiet i reason s actor now db d' db' :
  reject i reason s actor now db = Ok (d', db') -> quiet db db'.
Proof.
  intros H. unfold reject in H. go_ok. subst. etrans; [by eapply request_changes_quiet|].
  apply quiet_put_draft. by rewrite status_in_set.
Qed.

(** ** Approvals withdrawn, jobs queued *)

Lemma invalidate_quiet i reason now db d' db' : invalidate i reason now db = Ok (d', db') -> quiet db db'.
Proof.
  intros H. unfold invalidate in H. go_ok.
  destruct (invalidate_approval _ _ _ _) as [d1 db1] eqn:E. inv_ok. subst.
  apply (f_equal snd) in E. cbn [snd] in E. subst db1. by apply quiet_withdraw.
Qed.

Lemma decline_quiet i dec reason s actor j now db d' db' :
  decline sha256 i dec reason s actor j now db = Ok (d', db') -> quiet db db'.
Proof.
  intros H. unfold decline in H. go_ok.
  destruct (invalidate_approval _ _ _ _) as [d1 db1] eqn:E. inv_ok. subst.
  apply (f_equal snd) in E. cbn [snd] in E. subst db1.
  match goal with Hd : bool_decide (dec ∈ _) = true |- _ => apply bool_decide_eq_true in Hd; rename Hd into Hdec end.
  rewrite !elem_of_cons, elem_of_nil in Hdec.
  etrans; [|apply quiet_event]. etrans; [|apply quiet_event]. etrans; [apply quiet_invalidate|].
  etrans; [eapply quiet_insert_approval; [|eassumption]; by destruct Hdec as [-> | [-> | []]]|].
  apply quiet_put_draft. rewrite status_in_set. by destruct Hdec as [-> | [-> | []]].
Qed.

Lemma cancel_unsent_quiet i reason s actor now db d' db' :
  cancel_unsent i reason s actor now db = Ok (d', db') -> quiet db db'.
Proof.
  intros H. unfold cancel_unsent in H. go_ok.
  destruct (invalidate_approval _ _ _ _) as [d1 db1] eqn:E. inv_ok. subst.
  apply (f_equal snd) in E. etrans; [|apply quiet_event]. cbn [snd] in E. subst db1.
  etrans; [|by apply quiet_withdraw]. by apply quiet_same.
Qed.

Lemma send_quiet i key ok actor j now db r db' :
  send settings i key ok actor j now db = Ok (r, db') -> quiet db db'.
Proof.
  intros H. apply quiet_keyed. intros Hk. unfold send in H. go_ok.
  match goal with Hd : drafts db !! i = Some ?d |- _ => pose proof (Hk _ _ Hd) as Hi; rename Hd into Hdraft end.
  match goal with He : enqueue _ _ _ _ = Ok _ |- _ =>
    apply quiet_enqueue in He as Hq; apply enqueue_drafts in He as Ed end.
  case_match; inv_ok; subst; [|exact Hq]. etrans; [exact Hq|]. etrans; [|apply quiet_event].
  apply quiet_put_draft. intros _. exists o. cbn. rewrite Ed. split; [done|].
  unfold status_in in *. rewrite bool_decide_eq_true in H4 |- *. revert H4. clear. set_solver.
Qed.

Lemma reconcile_send_quiet i j now db r db' : reconcile_send settings i j now db = Ok (r, db') -> quiet db db'.
Proof. intros H. unfold reconcile_send in H. go_ok. subst. by eapply quiet_enqueue. Qed.

(** ** Outlook and the queue *)

Lemma no_longer_draft_quiet d j now db d' db' :
  _mark_no_longer_draft settings d j now db = Ok (d', db') -> quiet db db'.
Proof.
  intros H. unfold _mark_no_longer_draft in H. go_ok. subst.
  etrans; [by eapply quiet_enqueue | apply quiet_put_draft; by rewrite status_in_set].
Qed.

Lemma sync_quiet i actor b got listed j v now db : quiet db (sync py_str sha256 settings i actor b got listed j v now db).2.
Proof.
  apply quiet_keyed. intros Hk. unfold sync.
  destruct (drafts db !! i) as [d|] eqn:Hd; [|reflexivity]. pose proof (Hk _ _ Hd) as Hi.
  case_match; [reflexivity|]. case_match; [reflexivity|].
  destruct got as [m| |]; [|by apply quiet_withdraw|reflexivity].
  match goal with |- quiet db (match ?r with _ => _ end).2 => destruct r as [[[d' c] db']|e] eqn:E; [cbn [snd]|reflexivity] end.
  destruct (is_draft m); cbn [negb] in E.
  - go_ok. case_match; go_ok; subst.
    + etrans; [|apply quiet_event].
      match goal with H : revise _ _ _ _ _ _ _ _ _ _ _ = Ok _ |- _ => eapply revise_quiet in H; [exact H | | | | done] end;
        [exact Hd | by unfold imported; destruct (_body _ _)..].
    + apply quiet_put_draft. intros Hst. by eapply (sendable_here _ (dr_id d) d).
  - go_ok. subst. by eapply no_longer_draft_quiet.
Qed.

Lemma flush_quiet t t' d d' db :
  (status_in SENDABLE d' = true -> draft_status d' = draft_status d) -> quiet db (flush_both t t' d d' db).
Proof.
  intros Hs. unfold flush_both. etrans; [by apply (quiet_on_attempt db (at_id t) (flush_attempt t t'))|].
  apply quiet_on_draft; [done|]. intros e. unfold status_in, flush_status, sent. cbn.
  destruct (bool_decide (draft_status d' = draft_status d)) eqn:E; [done|]. intros Hst.
  apply bool_decide_eq_false in E. by destruct E; apply Hs.
Qed.

Lemma found_copy_quiet t d m listed j now seen db db' :
  found_copy sha256 py_str settings t d m listed j now seen db = Ok db' -> quiet db db'.
Proof.
  intros H. unfold found_copy in H. go_ok. case_match; go_ok; subst; (etrans; [|apply quiet_event]).
  - etrans; [by eapply quiet_enqueue|]. apply flush_quiet. intros Hst. by vm_compute in Hst.
  - apply flush_quiet. intros Hst. by vm_compute in Hst.
Qed.

Lemma reconcile_quiet i got listed j now seen db : quiet db (reconcile sha256 py_str settings i got listed j now seen db).2.
Proof.
  unfold reconcile. repeat case_match; try reflexivity; simplify_eq/=; try reflexivity.
  - etrans; [|apply quiet_event]. apply flush_quiet. intros Hst. by vm_compute in Hst.
  - apply flush_quiet. intros Hst. by vm_compute in Hst.
  - by eapply found_copy_quiet.
Qed.

Lemma claim_quiet w n l now db : quiet db (claim w n l now db).2.
Proof. unfold claim. case_match; [reflexivity | by apply quiet_same]. Qed.

Lemma extend_lease_quiet i w n now db : quiet db (extend_lease i w n now db).2.
Proof. by apply quiet_same. Qed.

Lemma job_completed_quiet i now db : quiet db (job_completed i now db).
Proof. by apply quiet_same. Qed.

Lemma job_failed_quiet i code now db : quiet db (job_failed i code now db).
Proof.
  unfold job_failed. repeat case_match; try reflexivity; try by apply quiet_same.
  etrans; [|apply quiet_on_draft].
  - by apply quiet_same.
  - intros d. unfold goes_to_review. by repeat case_match.
  - intros d. unfold goes_to_review. repeat case_match; [rewrite status_in_set; by intros Hst; vm_compute in Hst.. | done].
Qed.

(** ** Sending *)

(** Quiet but for one draft. *)
Record near_effect (i : uuid) (db db' : CommDb) : Prop := {
  n_keyed : keyed db';
  n_att : att_keys db' = att_keys db;
  n_valid : forall x j, valid_in db' x j -> valid_in db x j;
  n_known : forall x, x ∈ ap_id <$> approvals db -> x ∈ ap_id <$> approvals db';
  n_send : forall j, sendable_in db' j -> sendable_in db j \/ j = i
}.

Lemma quiet_near db db' i : quiet db db' -> keyed db -> near_effect i db db'.
Proof. intros Hq Hk. destruct (Hq Hk). split; auto. Qed.

Lemma near_quiet db db' db'' i : near_effect i db db' -> quiet db' db'' -> near_effect i db db''.
Proof. intros [] Hq. destruct (Hq n_keyed0). split; auto; congruence. Qed.

Lemma near_on_draft db i f : (forall d, dr_id (f d) = dr_id d) -> keyed db -> near_effect i db (on_draft i f db).
Proof.
  intros Hid Hk. split; auto.
  - intros j e. simpl. rewrite lookup_alter_Some. intros [(<- & d & Hd & ->)|[_ He]]; [rewrite Hid; by apply Hk | by apply Hk].
  - intros j (e & He & Hst). simpl in He. rewrite lookup_alter_Some in He.
    destruct He as [(<- & _)|[_ He]]; [by right | left; by exists e].
Qed.

(** The answer proves that the request was not accepted. *)
Definition refused (first second : PostReply) : bool :=
  match first with
  | AuthFailed _ | ConnectFailed => true
  | HttpError s _ _ _ =>
      (s =? 429) || (s =? 401) && match second with HttpError s2 _ _ _ => s2 =? 429 | _ => false end
  | _ => false
  end.

Lemma outcome_quiet t d st row ds db :
  (forall u, at_id (row u) = at_id u /\ at_approval_id (row u) = at_approval_id u) ->
  bool_decide (value ds ∈ value <$> SENDABLE) = false ->
  quiet db (on_draft (dr_id d) (set_status ds) (on_attempt (at_id t) (fun u => outcome_row st.1.1 st.1.2 st.2 (row u)) db)).
Proof.
  intros Hrow Hds. etrans; [by apply (quiet_on_attempt db (at_id t) (fun u => outcome_row st.1.1 st.1.2 st.2 (row u)))|].
  apply quiet_on_draft; [done|]. intros e. by rewrite status_in_set, Hds.
Qed.

Definition row_ok (row : OutboundSendAttempt -> OutboundSendAttempt) : Prop :=
  forall u, at_id (row u) = at_id u /\ at_approval_id (row u) = at_approval_id u.

Lemma ambiguous_quiet t d code key act row j now db db' :
  row_ok row -> ambiguous settings t d code key act row j now db = Ok db' -> quiet db db'.
Proof.
  intros Hrow H. unfold ambiguous, enqueue_reconcile in H. go_ok. subst.
  etrans; [by eapply quiet_enqueue|]. etrans; [|apply quiet_event].
  by apply (outcome_quiet t d (SendAttemptStatus.AMBIGUOUS, code, Some AMBIGUOUS_MESSAGE)).
Qed.

Lemma accepted_quiet t d req cli j now db db' : accepted settings t d req cli j now db = Ok db' -> quiet db db'.
Proof.
  intros H. unfold accepted, enqueue_reconcile in H. go_ok. subst.
  etrans; [by eapply quiet_enqueue|]. etrans; [|apply quiet_event].
  match goal with |- quiet _ (on_draft _ _ (on_attempt ?i ?f ?d1)) =>
    transitivity (on_attempt i f d1); [by apply (quiet_on_attempt d1 i f)|] end.
  apply quiet_on_draft; [done|]. intros e Hst. by vm_compute in Hst.
Qed.

Lemma safe_retry_near t d code message row j now db db' :
  row_ok row -> _safe_retry settings t d code message row j now db = Ok db' -> keyed db -> near_effect (dr_id d) db db'.
Proof.
  intros Hrow H Hk. unfold _safe_retry in H. case_match; go_ok; subst.
  - apply quiet_near; [|done]. etrans; [|apply quiet_event].
    by apply (outcome_quiet t d (SendAttemptStatus.FAILED_REVIEW, code, message)).
  - eapply near_quiet; [|apply quiet_event].
    match goal with H : enqueue _ _ _ _ = Ok _ |- _ => apply quiet_enqueue in H as Hq end.
    match goal with |- near_effect _ _ (on_draft _ _ (on_attempt ?i ?f ?d1)) =>
      assert (quiet db (on_attempt i f d1)) as Hq2 by
        (etrans; [exact Hq | by apply (quiet_on_attempt d1 i f)]) end.
    pose proof (Hq2 Hk) as [Hk2 Ha Hv Hkn Hs].
    destruct (near_on_draft _ (dr_id d) (set_status CommunicationDraftStatus.SEND_FAILED_RETRYABLE)
                (fun _ => eq_refl) Hk2) as [Hk3 Ha3 Hv3 Hkn3 Hs3].
    split; [done | congruence | eauto | eauto |]. intros k [?|?]%Hs3; eauto.
Qed.

Lemma failed_near t d s code req cli j now db db' :
  _failed settings t d s code req cli j now db = Ok db' -> keyed db ->
  if s =? 429 then near_effect (dr_id d) db db' else calm_effect db db'.
Proof.
  intros H Hk. unfold _failed in H.
  assert (row_ok (http_row s req cli)) as Hrow by done.
  case_match eqn:Eamb.
  - assert (s =? 429 = false) as ->.
    { apply bool_decide_eq_true in Eamb. apply Z.eqb_neq. intros ->. vm_compute in Eamb.
      repeat (apply elem_of_cons in Eamb as [Eamb|Eamb]; [discriminate|]). by apply not_elem_of_nil in Eamb. }
    by apply (ambiguous_quiet _ _ _ _ _ _ _ _ _ _ Hrow H).
  - destruct (s =? 429); [by apply (safe_retry_near _ _ _ _ _ _ _ _ _ Hrow H)|]. go_ok. subst.
    assert (quiet db (on_draft (dr_id d) (set_status CommunicationDraftStatus.SEND_FAILED_REVIEW)
      (on_attempt (at_id t) (fun u => outcome_row SendAttemptStatus.FAILED_REVIEW
         (Some (match code with Some s0 => if bool_decide (s0 = "") then "HTTP_" +:+ pretty.pretty s else s0
                | None => "HTTP_" +:+ pretty.pretty s end))
         (Some ("Microsoft Graph returned HTTP " +:+ pretty.pretty s +:+ ".")) (http_row s req cli u)) db))) as Hq.
    { apply (outcome_quiet t d (SendAttemptStatus.FAILED_REVIEW, _, _)); done. }
    destruct (Hq Hk). by split.
Qed.

Lemma finish_effect t d first second j now db db' :
  execute_finish settings t d first second j now db = Ok db' -> keyed db ->
  if refused first second then near_effect (dr_id d) db db' else calm_effect db db'.
Proof.
  intros H Hk. unfold execute_finish in H.
  assert (row_ok (fun u => u)) as Hid by done.
  destruct first as [req cli|s code req cli|code| |name|]; cbn [refused].
  - by apply (accepted_quiet _ _ _ _ _ _ _ _ H).
  - destruct (decide (s = 401)) as [->|H401].
    + destruct second as [req2 cli2|s2 code2 req2 cli2|code2| |name2|]; cbn; try discriminate H.
      * by apply (accepted_quiet _ _ _ _ _ _ _ _ H).
      * by apply failed_near in H.
    + assert (_failed settings t d s code req cli j now db = Ok db') as Hf.
      { revert H. repeat case_match; done. }
      apply Z.eqb_neq in H401. rewrite H401, andb_false_l, orb_false_r. by apply failed_near in Hf.
  - by apply (safe_retry_near _ _ _ _ _ _ _ _ _ Hid H).
  - by apply (safe_retry_near _ _ _ _ _ _ _ _ _ Hid H).
  - by apply (ambiguous_quiet _ _ _ _ _ _ _ _ _ _ Hid H).
  - discriminate.
Qed.

(** What had to hold for an intent to be stored, and what was stored. *)
Lemma begin_posting i job got listed ai j now db t db' :
  execute_begin sha256 py_str settings i job got listed ai j now db = (Ok (Posting t), db') ->
  exists d a p m msg,
    drafts db !! i = Some d /\ status_in SENDABLE d = true /\ approved_of (dr_id d) db = Some a /\
    response_plan_id d ≫= (fun k => plans db !! k) = Some p /\ mailboxes db !! dr_mailbox_id d = Some m /\
    preflight_ok sha256 py_str settings d a p m (instant_date now) db = true /\
    got = Found msg /\ is_draft msg = true /\
    (exists ok, graph_attachments_match py_str (dr_id d) (has_attachments msg) listed db = Ok ok /\
                graph_is_approved sha256 py_str a msg ok = true) /\
    t = new_attempt ai d a job (Z.of_nat (length (attempts_of (dr_id d) db)) + 1) (snapshot_of sha256 d p) now /\
    ai ∉ at_id <$> attempts db /\
    db' = system_event "outbound_send_attempt" ai "send_intent_persisted"
            (put_draft (set_status CommunicationDraftStatus.SENDING d) (db <| attempts := attempts db ++ [t] |>)).
Proof.
  unfold execute_begin. intros H.
  destruct (drafts db !! i) as [d|] eqn:Hd; [|discriminate].
  destruct (response_plan_id d) as [k|] eqn:Hk; [|discriminate].
  destruct (negb (truthy_str (graph_draft_message_id d))); [discriminate|].
  assert (checked_send sha256 py_str settings d k job got listed ai j now db = (Ok (Posting t), db')) as Hgo.
  { revert H. unfold stale_send. repeat case_match; congruence. }
  clear H. unfold checked_send in Hgo. destruct (status_in SENDABLE d) eqn:Hs; [|discriminate]. cbn [negb] in Hgo.
  destruct (approved_of (dr_id d) db) as [a|] eqn:Ha; [|discriminate].
  destruct (plans db !! k) as [p|] eqn:Hp; [|discriminate].
  destruct (mailboxes db !! dr_mailbox_id d) as [m|] eqn:Hm; [|discriminate].
  destruct (preflight_ok _ _ _ d a p m _ db) eqn:Hpre; [|discriminate].
  unfold against_graph in Hgo. destruct got as [msg| |]; [|discriminate..].
  destruct (is_draft msg) eqn:Hdr; [|cbn [negb] in Hgo; repeat case_match; discriminate]. cbn [negb] in Hgo.
  destruct (graph_attachments_match _ _ _ _ db) as [ok|e] eqn:Hat; [|discriminate].
  destruct (graph_is_approved _ _ a msg ok) eqn:Hg; [|discriminate]. unfold persist_intent in Hgo.
  destruct (insert_attempt _ db) as [db1|e] eqn:Hins; [|discriminate]. unfold insert_attempt in Hins.
  inv_ok. injection Hgo as <- <-. apply bool_decide_eq_true in H.
  exists d, a, p, m, msg. split_and!; try done; try eauto; [by rewrite Hk | by subst db1].
Qed.

Lemma begin_quiet i job got listed ai j now db r db' :
  execute_begin sha256 py_str settings i job got listed ai j now db = (r, db') -> (forall t, r <> Ok (Posting t)) -> quiet db db'.
Proof.
  intros H Hr. apply quiet_keyed. intros Hk. unfold execute_begin in H.
  destruct (drafts db !! i) as [d|] eqn:Hd; [|by injection H as _ <-]. pose proof (Hk _ _ Hd) as Hi.
  destruct (response_plan_id d) as [k|]; [|by injection H as _ <-].
  destruct (negb (truthy_str (graph_draft_message_id d))); [by injection H as _ <-|].
  assert (forall A (r0 : result exn A) d0 db0 db1, _preflight_failed d0 db0 = (r0, db1) -> quiet db0 db1) as Hpre.
  { intros A r0 d0 db0 db1 [= _ <-]. etrans; [|apply quiet_event]. apply quiet_put_draft. by rewrite status_in_set. }
  assert (checked_send sha256 py_str settings d k job got listed ai j now db = (r, db') -> quiet db db') as Hgo.
  { clear H. intros H. unfold checked_send in H. destruct (negb (status_in SENDABLE d)); [by injection H as _ <-|].
    destruct (approved_of (dr_id d) db) as [a|]; [|by eapply Hpre]. destruct (plans db !! k) as [p|]; [|by eapply Hpre].
    destruct (mailboxes db !! dr_mailbox_id d) as [m|]; [|by eapply Hpre].
    destruct (preflight_ok _ _ _ d a p m _ db); [|by eapply Hpre]. unfold against_graph in H.
    destruct got as [msg| |]; [|by eapply Hpre|by injection H as _ <-].
    destruct (negb (is_draft msg)).
    - destruct (enqueue _ _ _ _) as [[[j1 b1] db1]|e] eqn:E; [|by injection H as _ <-]. injection H as _ <-.
      etrans; [by eapply quiet_enqueue | apply quiet_put_draft; by rewrite status_in_set].
    - destruct (graph_attachments_match _ _ _ _ _); [|by injection H as _ <-].
      destruct (graph_is_approved _ _ _ _ _).
      + unfold persist_intent in H. destruct (insert_attempt _ _); [|by injection H as _ <-].
        injection H as <- _. by destruct (Hr (new_attempt ai d a job (Z.of_nat (length (attempts_of (dr_id d) db)) + 1)
          (snapshot_of sha256 d p) now)).
      + destruct (invalidate_approval d _ now db) as [d1 db1] eqn:E. etrans; [|by eapply Hpre].
        apply (f_equal snd) in E. cbn [snd] in E. subst db1. apply quiet_invalidate. }
  assert (forall t, stale_send settings d t j now db = (r, db') -> quiet db db') as Hstale.
  { intros t. unfold stale_send. destruct (enqueue _ _ _ _) as [[[j1 b1] db1]|e] eqn:E; intros H'; [|by injection H' as _ <-].
    injection H' as _ <-. etrans; [by eapply quiet_enqueue|].
    etrans; [apply (quiet_put_draft _ (set_status CommunicationDraftStatus.SEND_AMBIGUOUS d)); by rewrite status_in_set|].
    match goal with |- quiet _ (on_attempt ?i ?f ?d1) => by apply (quiet_on_attempt d1 i f) end. }
  destruct (latest_attempt i db) as [t|]; [|by apply Hgo].
  destruct (status_in SENT_STATUSES d); [by injection H as _ <-|].
  destruct (_ && _); [by eapply Hstale | by apply Hgo].
Qed.

(** The effect of an intent. *)
Lemma begin_effect i job got listed ai j now db t db' :
  keyed db -> execute_begin sha256 py_str settings i job got listed ai j now db = (Ok (Posting t), db') ->
  keyed db' /\ at_id t = ai /\ ai ∉ (att_keys db).*1 /\ valid_in db (at_approval_id t) i /\ sendable_in db i /\
  att_keys db' = att_keys db ++ [(ai, at_approval_id t)] /\ approvals db' = approvals db /\
  (forall k, sendable_in db' k -> sendable_in db k /\ k <> i).
Proof.
  intros Hk H. apply begin_posting in H as (d & a & p & m & msg & Hd & Hs & Ha & _ & _ & _ & _ & _ & _ & Ht & Hnew & ->).
  pose proof (Hk _ _ Hd) as Hi.
  assert (a ∈ approvals db /\ ap_draft_id a = dr_id d /\ valid_approval a = true) as (Hin & Hdr & Hv).
  { unfold approved_of in Ha. destruct (filter _ (approvals db)) as [|b l] eqn:E; [discriminate|]. injection Ha as ->.
    assert (a ∈ filter (fun a => ap_draft_id a = dr_id d /\ valid_approval a = true) (approvals db)) as Hin by (rewrite E; left).
    by apply list_elem_of_filter in Hin as [[? ?] ?]. }
  subst t. split_and!; try done.
  - intros k e. cbn. rewrite lookup_insert_Some. intros [[<- <-]|[_ He]]; [done | by apply Hk].
  - unfold att_keys. rewrite <-list_fmap_compose. exact Hnew.
  - exists a. by rewrite <-Hi.
  - by exists d.
  - unfold att_keys. cbn. by rewrite fmap_app.
  - intros k (e & He & Hst). cbn in He. rewrite lookup_insert_Some in He. destruct He as [[<- <-]|[Hne He]].
    + by vm_compute in Hst.
    + split; [by exists e | congruence].
Qed.

(** ** Approving *)

Lemma grant_effect d v actor c notes j now db a db' :
  grant j d v actor c notes now db = Ok (a, db') -> keyed db ->
  keyed db' /\ att_keys db' = att_keys db /\ ap_id a = j /\ valid_approval a = true /\ ap_draft_id a = dr_id d /\
  j ∉ ap_id <$> approvals db /\ (forall y, ~ valid_in db y (dr_id d)) /\ approvals db' = approvals db ++ [a] /\
  (forall k, sendable_in db' k -> sendable_in db k \/ k = dr_id d).
Proof.
  intros H Hk. unfold grant in H. go_ok. subst. unfold insert_approval in *. go_ok. subst.
  match goal with H : bool_decide (_ ∉ _) = true |- _ => apply bool_decide_eq_true in H; rename H into Hnew end.
  match goal with H : negb _ || _ = true |- _ => rename H into Hone end. cbn in Hone. apply bool_decide_eq_true in Hone.
  split_and!; try done.
  - intros k e. cbn. rewrite lookup_insert_Some. intros [[<- <-]|[_ He]]; [done | by apply Hk].
  - intros y (b & Hb & _ & Hdr & Hv). apply Hone, list_elem_of_omap. exists b. unfold valid_key. by rewrite Hv, Hdr.
  - intros k (e & He & Hst). cbn in He. rewrite lookup_insert_Some in He. destruct He as [[<- <-]|[_ He]]; [by right | left; by exists e].
Qed.

Lemma approve_cases i r notes actor j now db a db' :
  keyed db -> approve sha256 py_str settings i r notes actor j now db = Ok (a, db') ->
  calm_effect db db' \/
  exists d v p, drafts db !! i = Some d /\ approve_checks sha256 py_str settings d r actor now db = Ok (v, p) /\
    (communication_require_two_person_approval settings = true ->
     exists b, first_of_two i db = Some b /\ ap_snapshot b = snapshot_of sha256 d p /\ ap_version_id b = v /\
               approver_actor b <> actor_id actor) /\
    grant j d v actor (snapshot_of sha256 d p) notes now db = Ok (a, db').
Proof.
  intros Hk H. unfold approve in H. apply bind_Ok_inv in H as (d & Hd%find_draft_Ok & H).
  apply bind_Ok_inv in H as ([v p] & Hc & H). pose proof (Hk _ _ Hd) as Hi.
  set (row := approval_row j d v actor (snapshot_of sha256 d p) notes ApprovalDecision.PENDING_SECOND_APPROVAL) in H.
  assert (forall db0, (x ← insert_approval row db0;
      Ok (row, add_event "send_approval" j "first_send_approval_recorded" (actor_id actor) x)) = Ok (a, db') ->
    quiet db0 db') as Hrec.
  { intros db0 H0. apply bind_Ok_inv in H0 as (x & Hx & H0). apply Ok_pair_inj in H0 as [_ <-].
    etrans; [by apply (quiet_insert_approval row db0 x) | apply quiet_event]. }
  destruct (communication_require_two_person_approval settings) eqn:E2.
  - destruct (first_of_two i db) as [b|] eqn:Eb; [|left; by apply (Hrec db)].
    destruct (bool_decide (ap_snapshot b = snapshot_of sha256 d p) && bool_decide (ap_version_id b = v)) eqn:E.
    + right. apply andb_true_iff in E as [E1%bool_decide_eq_true E3%bool_decide_eq_true].
      apply bind_Ok_inv in H as (u & Hne%raise_unless_Ok & H). apply negb_true_iff, bool_decide_eq_false in Hne.
      exists d, v, p. split_and!; try done. intros _. by exists b.
    + left. revert Hk. match goal with |- keyed db -> _ => change (quiet db db') end.
      etrans; [|by apply Hrec].
      apply (quiet_map_approvals db (fun a => if bool_decide (ap_id a = ap_id b)
        then withdrawn "draft changed before second approval" now a else a)).
      intros a0. destruct (bool_decide (ap_id a0 = ap_id b)); [right; by split | by left].
  - right. exists d, v, p. by split_and!.
Qed.

(** ** The world *)

(** The calls that neither approve nor send. *)
Inductive other_call (db db' : CommDb) : Prop :=
| call_edit i s c reason actor v now d : edit sha256 py_str i s c reason actor v now db = Ok (d, db') -> other_call db db'
| call_select i di vi s actor r v now row :
    select sha256 py_str settings i di vi s actor r v now db = Ok (row, db') -> other_call db db'
| call_remove i ai s actor v now d : remove sha256 py_str i ai s actor v now db = Ok (d, db') -> other_call db db'
| call_submit i s actor now r : submit py_str settings i s actor now db = (r, db') -> other_call db db'
| call_request_changes i reason s actor now d : request_changes i reason s actor now db = Ok (d, db') -> other_call db db'
| call_reject i reason s actor now d : reject i reason s actor now db = Ok (d, db') -> other_call db db'
| call_invalidate i reason now d : invalidate i reason now db = Ok (d, db') -> other_call db db'
| call_decline i dec reason s actor j now d : decline sha256 i dec reason s actor j now db = Ok (d, db') -> other_call db db'
| call_cancel i reason s actor now d : cancel_unsent i reason s actor now db = Ok (d, db') -> other_call db db'
| call_send i key ok actor j now r : send settings i key ok actor j now db = Ok (r, db') -> other_call db db'
| call_reconcile_send i j now r : reconcile_send settings i j now db = Ok (r, db') -> other_call db db'
| call_sync i actor b got listed j v now r : sync py_str sha256 settings i actor b got listed j v now db = (r, db') -> other_call db db'
| call_reconcile i got listed j now seen r :
    reconcile sha256 py_str settings i got listed j now seen db = (r, db') -> other_call db db'
| call_claim w n l now r : claim w n l now db = (r, db') -> other_call db db'
| call_extend i w n now r : extend_lease i w n now db = (r, db') -> other_call db db'
| call_completed i now : db' = job_completed i now db -> other_call db db'
| call_failed i code now : db' = job_failed i code now db -> other_call db db'.

Lemma other_quiet db db' : other_call db db' -> quiet db db'.
Proof.
  destruct 1; subst;
    try match goal with H : _ = (_, db') |- _ => apply (f_equal snd) in H; cbn [snd] in H; subst db' end;
    eauto using edit_quiet, select_quiet, remove_quiet, submit_quiet, reject_quiet, invalidate_quiet, decline_quiet,
      cancel_unsent_quiet, send_quiet, reconcile_send_quiet, sync_quiet, reconcile_quiet, claim_quiet, extend_lease_quiet,
      job_completed_quiet, job_failed_quiet.
  by eapply request_changes_quiet.
Qed.

(** A worker between its intent and the answer: the objects it holds. *)
Record Flight := { fl_attempt : OutboundSendAttempt; fl_draft : OutboundDraft }.

Record World := {
  w_db : CommDb;
  w_flight : list Flight;
  w_replies : gmap uuid (PostReply * PostReply)
}.

(** [calm]: a send approval is given only while no post of that draft is under way. *)
Inductive step (calm : bool) (w w' : World) : Prop :=
| step_other :
    other_call (w_db w) (w_db w') -> w_flight w' = w_flight w -> w_replies w' = w_replies w -> step calm w w'
| step_approve i r notes actor j now a :
    approve sha256 py_str settings i r notes actor j now (w_db w) = Ok (a, w_db w') ->
    (calm = true -> forall f, f ∈ w_flight w -> dr_id (fl_draft f) <> i) ->
    w_flight w' = w_flight w -> w_replies w' = w_replies w -> step calm w w'
| step_begin i job got listed ai j now t d :
    execute_begin sha256 py_str settings i job got listed ai j now (w_db w) = (Ok (Posting t), w_db w') ->
    drafts (w_db w') !! i = Some d ->
    w_flight w' = {| fl_attempt := t; fl_draft := d |} :: w_flight w -> w_replies w' = w_replies w -> step calm w w'
| step_no_post i job got listed ai j now r :
    execute_begin sha256 py_str settings i job got listed ai j now (w_db w) = (r, w_db w') ->
    (forall t, r <> Ok (Posting t)) -> w_flight w' = w_flight w -> w_replies w' = w_replies w -> step calm w w'
| step_finish l1 f l2 first second j now :
    w_flight w = l1 ++ f :: l2 ->
    execute_finish settings (fl_attempt f) (fl_draft f) first second j now (w_db w) = Ok (w_db w') ->
    w_flight w' = l1 ++ l2 -> w_replies w' = <[at_id (fl_attempt f) := (first, second)]> (w_replies w) -> step calm w w'
| step_die l1 f l2 :
    (* the process dies, or the exception is none the service handles *)
    w_flight w = l1 ++ f :: l2 -> w_flight w' = l1 ++ l2 -> w_db w' = w_db w -> w_replies w' = w_replies w -> step calm w w'.

(** Tables that meet their constraints, before anything was sent. *)
Record start (w : World) : Prop := {
  st_keyed : keyed (w_db w);
  st_attempts : attempts (w_db w) = [];
  st_ids : NoDup (ap_id <$> approvals (w_db w));
  st_valid : NoDup (omap valid_key (approvals (w_db w)));
  st_flight : w_flight w = [];
  st_replies : w_replies w = ∅
}.

(** ** The simulation *)

Definition post_of (f : Flight) : Post :=
  {| po_attempt := at_id (fl_attempt f); po_approval := at_approval_id (fl_attempt f); po_draft := dr_id (fl_draft f) |}.

Definition view (w : World) : Abs :=
  {| a_attempts := att_keys (w_db w); a_known := fun x => x ∈ ap_id <$> approvals (w_db w);
     a_valid := valid_in (w_db w); a_sendable := sendable_in (w_db w); a_posts := post_of <$> w_flight w;
     a_ended := (fun r => refused r.1 r.2) <$> w_replies w |}.

Lemma start_inv w : start w -> abs_inv (view w).
Proof.
  intros [_ Eat Hids Hval Ef Er]. unfold view, att_keys. rewrite Eat, Ef, Er. constructor; simpl.
  - constructor.
  - intros t x H. by apply not_elem_of_nil in H.
  - intros x i (a & Ha & <- & _). by apply list_elem_of_fmap_2.
  - intros x y i (a & Ha & <- & Hai & Hav) (b & Hb & <- & Hbi & Hbv). f_equal.
    apply (NoDup_omap_inj valid_key (approvals (w_db w)) a b i); try done; unfold valid_key; by rewrite ?Hav, ?Hbv, ?Hai, ?Hbi.
  - intros x i j (a & Ha & <- & <- & _) (b & Hb & E & <- & _).
    by rewrite (NoDup_fmap_key ap_id _ _ _ Hids Ha Hb (eq_sym E)).
  - intros t. rewrite fmap_empty, lookup_empty. by intros [].
  - intros p H. by apply not_elem_of_nil in H.
  - constructor.
  - intros p t H. by apply not_elem_of_nil in H.
  - intros p x H. by apply not_elem_of_nil in H.
  - intros i x t _ _ H. by apply not_elem_of_nil in H.
  - intros x t u H. by apply not_elem_of_nil in H.
Qed.

Lemma calm_shrinks w w' : calm_effect (w_db w) (w_db w') -> shrinks (view w) (view w').
Proof. intros []. by split. Qed.

Lemma quiet_step calm w w' :
  calm_effect (w_db w) (w_db w') -> w_flight w' = w_flight w -> w_replies w' = w_replies w ->
  keyed (w_db w') /\ abs_step calm (view w) (view w').
Proof.
  intros He Ef Er. split; [apply He|]. apply abs_quiet; [by apply calm_shrinks | apply He | |]; unfold view; cbn;
    by rewrite ?Ef, ?Er.
Qed.

(** Every step of the services is a step of the protocol. *)
Lemma step_sim calm w w' :
  keyed (w_db w) -> step calm w w' -> keyed (w_db w') /\ abs_step calm (view w) (view w').
Proof.
  intros Hk Hstep. destruct Hstep as [Hc Ef Er|i r notes actor j now a Ha Hcalm Ef Er|i job got listed ai j now t d Hb Hd Ef Er
    |i job got listed ai j now r Hb Hr Ef Er|l1 f l2 first second j now Ef Hfin Ef' Er|l1 f l2 Ef Ef' Edb Er].
  - apply quiet_step; [|done..]. by apply (other_quiet _ _ Hc).
  - apply approve_cases in Ha as [Hq|(d & v & p & Hd & _ & _ & Hg)]; [by apply quiet_step | | done].
    pose proof (Hk _ _ Hd) as Hi. apply grant_effect in Hg as (Hk' & Eat & Ej & Hv & Hdr & Hnew & Hnone & Eap & Hs); [|done].
    split; [done|]. apply (abs_grant _ _ _ j i); cbn; rewrite ?Eap, ?Ef, ?Er; try done.
    + intros C q (f & -> & Hf)%list_elem_of_fmap. by apply Hcalm.
    + by rewrite <-Hi.
    + intros y [Hy| ->]; rewrite fmap_app, elem_of_app; [by left|]. right.
      apply list_elem_of_fmap. exists a. split; [done | left].
    + intros y k (b & Hb & Hy & Hbk & Hbv). rewrite Eap, elem_of_app, list_elem_of_singleton in Hb.
      destruct Hb as [Hb | ->]; [left; by exists b | right]. by rewrite <-Hy, <-Hbk, Ej, Hdr, Hi.
    + intros k [?|?]%Hs; [by left | right; congruence].
  - apply begin_effect in Hb as (Hk' & Et & Hnew & Hval & Hse & Eat & Eap & Hs); [|done]. split; [done|].
    apply (abs_begin _ _ _ (post_of {| fl_attempt := t; fl_draft := d |})); cbn; rewrite ?Ef, ?Er, ?Et, ?(Hk' _ _ Hd); try done.
    + split; cbn; [by rewrite Eap | | by intros k [? ?]%Hs].
      intros x k (b & Hb & ?). exists b. by rewrite <-Eap.
    + by intros [_ ?]%Hs.
  - apply quiet_step; [|done..]. by apply (begin_quiet _ _ _ _ _ _ _ _ _ _ Hb Hr).
  - apply finish_effect in Hfin; [|done].
    assert (near_effect (dr_id (fl_draft f)) (w_db w) (w_db w') /\
      forall k, sendable_in (w_db w') k -> sendable_in (w_db w) k \/ k = dr_id (fl_draft f) /\ refused first second = true) as [Hn Hs].
    { destruct (refused first second).
      - split; [done|]. intros k [?|?]%(n_send _ _ _ Hfin); auto.
      - destruct Hfin. split; [split; auto|]. auto. }
    destruct Hn. split; [done|].
    apply (abs_end _ _ _ (post_of <$> l1) (post_of f) (post_of <$> l2) (refused first second)); cbn; try done.
    + by rewrite Ef, fmap_app.
    + by rewrite Ef', fmap_app.
    + by rewrite Er, fmap_insert.
  - split; [by rewrite Edb|]. apply (abs_die _ _ _ (post_of <$> l1) (post_of f) (post_of <$> l2)); cbn; rewrite ?Edb; try done.
    + by rewrite Ef, fmap_app.
    + by rewrite Ef', fmap_app.
    + split; cbn; by rewrite ?Edb.
    + by rewrite Er.
Qed.

Lemma run_sim w w' : keyed (w_db w) -> rtc (step true) w w' -> rtc (abs_step true) (view w) (view w').
Proof.
  intros Hk Hrun. induction Hrun as [|a b c Hab _ IH]; [done|].
  destruct (step_sim true a b Hk Hab) as [Hk' Hs]. eapply rtc_l; [exact Hs | by apply IH].
Qed.

(** An attempt whose message may have gone out: there is no answer, or one that does
    not prove the request was refused. *)
Definition may_have_sent (w : World) (t : OutboundSendAttempt) : Prop :=
  forall r, w_replies w !! at_id t = Some r -> refused r.1 r.2 = false.

(** C8. An approval is spent at most once.  However the services, the workers and
    their failures interleave, two attempts under one approval that may both have sent
    the message are the same attempt; the only condition is that no approval is given
    while an earlier post of the same draft is still under way. *)
Theorem approval_spent_once w0 w t u :
  start w0 -> rtc (step true) w0 w ->
  t ∈ attempts (w_db w) -> u ∈ attempts (w_db w) -> at_approval_id t = at_approval_id u ->
  may_have_sent w t -> may_have_sent w u -> at_id t = at_id u.
Proof.
  intros Hs Hrun Ht Hu Ea Hmt Hmu.
  pose proof (abs_run_inv _ _ (start_inv _ Hs) (run_sim _ _ (st_keyed _ Hs) Hrun)) as Hinv.
  assert (forall t, t ∈ attempts (w_db w) -> may_have_sent w t -> ~ undelivered (view w) (at_id t)) as Hund.
  { intros v _ Hm Hv. unfold undelivered, view in Hv. cbn in Hv. rewrite lookup_fmap in Hv.
    destruct (w_replies w !! at_id v) as [r|] eqn:E; [|done]. injection Hv as Hv. by rewrite (Hm r E) in Hv. }
  assert (forall v, v ∈ attempts (w_db w) -> (at_id v, at_approval_id v) ∈ att_keys (w_db w)) as Hin.
  { intros v Hv. unfold att_keys. by apply (list_elem_of_fmap_2 (fun t => (at_id t, at_approval_id t))). }
  apply (i_once _ Hinv (at_approval_id t)); [by apply Hin | rewrite Ea; by apply Hin | by apply Hund | by apply Hund].
Qed.
End Calls.
