(* ===== verification/SendScenario.v ===== *)
(** * Sends acted out

    Concrete tables, and runs of the services on them: a retried send that keeps the
    promise of [SendSafety.approval_spent_once], and the run that breaks it when a
    draft is reopened and approved again while its post is under way.  Texts stand for
    their own hashes here. *)
From S2P Require Import Prelude Vocabulary PyDate PyJson Hashes Roles RecipientPolicy CommStore DraftWork SendApproval GraphDraft OutboundSend SentCopy SendSpec SendSafety.
Open Scope Z_scope.

Definition id_hash : string -> string := fun s => s.
Definition no_str : json -> string := fun _ => "".

Definition sample_settings : Settings :=
  {| communications_enabled := true; graph_send_enabled := true; communication_require_separate_send_approver := true;
     communication_require_two_person_approval := false; communication_allow_self_approval := false;
     communication_reply_all_enabled := false; communication_bcc_enabled := false; communication_max_to_recipients := 5;
     communication_max_cc_recipients := 5; communication_max_total_recipients := 8;
     communication_external_recipient_requires_manager := false; communication_max_body_chars := 50000;
     communication_attachments_enabled := true; communication_simple_attachment_max_bytes := 3000000;
     communication_large_attachments_enabled := false; communication_large_attachment_max_bytes := 10000000;
     communication_total_attachment_max_bytes := 20000000;
     communication_shared_mailbox_large_attachment_accepted := false; communication_send_job_max_attempts := 4;
     communication_send_reconciliation_initial_delay_seconds := 5;
     communication_send_reconciliation_max_seconds := 900; communication_send_reconciliation_max_attempts := 8;
     communication_move_policy := "TASK_DESTINATION"; communication_completed_folder_name := "Completed";
     communication_move_job_max_attempts := 4; communication_move_reconciliation_max_attempts := 8;
     graph_message_move_enabled := true; graph_expected_mailbox_address := Some "licensing@astra.com" |}.

Definition regulator : recipient := [("address", JStr "desk@dfpi.ca.gov"); ("name", JStr "Desk")].

Definition sample_draft (status : CommunicationDraftStatus.CommunicationDraftStatus) : OutboundDraft :=
  {| dr_id := "d"; response_plan_id := Some "p"; dr_task_id := "t"; dr_email_id := Some "e"; dr_mailbox_id := "m";
     current_version_id := Some "v1"; graph_draft_message_id := Some "g"; graph_change_key := Some "k";
     graph_etag := Some "w"; subject := "Renewal"; body_text := Some "Please find our answer."; body_html := None;
     to_recipients := [regulator]; cc_recipients := []; bcc_recipients := []; draft_status := value status;
     local_revision := 1; body_sha256 := content_hash id_hash "Renewal" (Some "Please find our answer.") None;
     recipient_set_sha256 := recipient_set_hash id_hash no_str [regulator] [] [];
     attachment_set_sha256 := attachment_set_hash id_hash []; dr_approval_snapshot := None; created_by_actor := Some "ann";
     last_edited_by_actor := Some "ann"; submitted_for_approval_at := None; graph_last_synced_at := None;
     dr_approved_at := None; send_queued_at := None; sent_at := None; delivery_status := "NOT_APPLICABLE" |}.

Definition sample_plan : ResponsePlan :=
  {| pl_id := "p"; pl_email_id := "e"; response_type := "ACKNOWLEDGEMENT"; selected_template_version_id := None;
     proposed_recipient_mode := "REPLY"; reply_all_reviewed := false; bcc_authorized := false;
     readiness_status := "READY_FOR_APPROVAL"; readiness_blockers := [] |}.

Definition sam : CurrentActor := {| actor_id := "sam"; roles := ["Licensing.Sender"] |}.
Definition ann : CurrentActor := {| actor_id := "ann"; roles := ["Licensing.Reviewer"] |}.

Definition sample_version : OutboundDraftVersion :=
  let d := sample_draft CommunicationDraftStatus.SEND_QUEUED in
  {| dv_id := "v1"; dv_draft_id := "d"; dv_revision := 1; dv_subject := subject d; dv_body_text := body_text d;
     dv_body_html := None; dv_to := to_recipients d; dv_cc := []; dv_bcc := []; dv_manifest := [];
     dv_body_sha256 := body_sha256 d; dv_recipient_set_sha256 := recipient_set_sha256 d;
     dv_attachment_set_sha256 := attachment_set_sha256 d; dv_snapshot_sha256 := version_snapshot id_hash d;
     dv_change_reason := None; dv_created_by := "ann" |}.

Definition sample_snapshot : string := snapshot_of id_hash (sample_draft CommunicationDraftStatus.SEND_QUEUED) sample_plan.

Definition first_approval : SendApproval :=
  approval_row "x" (sample_draft CommunicationDraftStatus.SEND_QUEUED) "v1" sam sample_snapshot None ApprovalDecision.APPROVED.

Definition sample_db : CommDb :=
  {| drafts := {["d" := sample_draft CommunicationDraftStatus.SEND_QUEUED <| dr_approval_snapshot := Some sample_snapshot |>]};
     versions := [sample_version]; approvals := [first_approval]; attempts := []; cjobs := [];
     plans := {["p" := sample_plan]};
     mailboxes := {["m" := {| mb_address := "licensing@astra.com"; graph_user_id := None; sent_items_folder := Some "sent" |}]};
     policy_rules := []; attachments := []; documents := ∅; document_versions := ∅;
     tasks := {["t" := {| task_status := "IN_PROGRESS"; assigned_to := Some "ann"; destination_folder_id := Some "f";
                          destination_folder_name := Some "Done"; task_due_date := None;
                          communication_status := "LOCAL_DRAFT" |}]};
     requested_items := []; events := [] |}.

(** The draft as Graph shows it, before and after an edit in Outlook. *)
Definition graph_message (text key : string) : payload :=
  [("id", JStr "g"); ("isDraft", JBool true); ("subject", JStr "Renewal");
   ("body", JDict [("contentType", JStr "text"); ("content", JStr text)]);
   ("toRecipients", JList [JDict [("emailAddress", JDict [("address", JStr "Desk@DFPI.ca.gov"); ("name", JStr "Desk")])]]);
   ("ccRecipients", JList []); ("bccRecipients", JList []); ("hasAttachments", JBool false);
   ("changeKey", JStr key); ("@odata.etag", JStr "w")].

Definition original : payload := graph_message "Please find our answer." "k".
Definition edited : payload := graph_message "Please find our new answer." "k2".

(** ** Acting *)

Definition w0 : World := {| w_db := sample_db; w_flight := []; w_replies := ∅ |}.

Definition act (w : World) (db : CommDb) : World :=
  {| w_db := db; w_flight := w_flight w; w_replies := w_replies w |}.

Definition ok_db {A} (r : result exn (A * CommDb)) (w : World) : World :=
  match r with Ok (_, db) => act w db | Err _ => w end.

Definition begin (msg : payload) (attempt job : uuid) (now : instant) (w : World) : World :=
  match execute_begin id_hash no_str sample_settings "d" None (Found msg) (Found []) attempt job now (w_db w) with
  | (Ok (Posting t), db) =>
      match drafts db !! "d" with
      | Some d => {| w_db := db; w_flight := {| fl_attempt := t; fl_draft := d |} :: w_flight w; w_replies := w_replies w |}
      | None => w
      end
  | _ => w
  end.

Definition finish (n : nat) (reply : PostReply) (job : uuid) (now : instant) (w : World) : World :=
  match w_flight w !! n with
  | Some f =>
      match execute_finish sample_settings (fl_attempt f) (fl_draft f) reply OtherException job now (w_db w) with
      | Ok db => {| w_db := db; w_flight := take n (w_flight w) ++ drop (S n) (w_flight w);
                    w_replies := <[at_id (fl_attempt f) := (reply, OtherException)]> (w_replies w) |}
      | Err _ => w
      end
  | None => w
  end.

Definition calls (calm : bool) : relation World := rtc (step id_hash no_str sample_settings calm).

Lemma begin_calls calm msg attempt job now w w' : begin msg attempt job now w = w' -> calls calm w w'.
Proof.
  intros <-. unfold begin. destruct (execute_begin _ _ _ _ _ _ _ _ _ _ _) as [[[t|t]|e] db] eqn:E; try reflexivity.
  destruct (drafts db !! "d") as [d|] eqn:Ed; [|reflexivity]. apply rtc_once.
  by eapply (step_begin _ _ _ _ _ _ "d"); [exact E | exact Ed | ..].
Qed.

Lemma finish_calls calm n reply job now w w' : finish n reply job now w = w' -> calls calm w w'.
Proof.
  intros <-. unfold finish. destruct (w_flight w !! n) as [f|] eqn:Ef; [|reflexivity].
  destruct (execute_finish _ _ _ _ _ _ _ _) as [db|e] eqn:E; [|reflexivity]. apply rtc_once.
  eapply (step_finish _ _ _ _ _ _ (take n (w_flight w)) f (drop (S n) (w_flight w)));
    [by rewrite take_drop_middle | exact E | done..].
Qed.

Lemma start_sample : start w0.
Proof.
  split; cbn [w0 w_db w_flight w_replies]; try done.
  - intros i d H. unfold sample_db in H. cbn [drafts] in H. by apply lookup_singleton_Some in H as [<- <-].
  - apply (bool_decide_unpack _). vm_compute. exact I.
  - apply (bool_decide_unpack _). vm_compute. exact I.
Qed.

(** ** A connection fails, the retry is under way *)

Definition retry (w : World) : World :=
  begin original "t2" "j2" 3000 (finish 0 ConnectFailed "j1" 2000 (begin original "t1" "j0" 1000 w)).

Definition retried : World := retry w0.

Lemma retry_calls w : calls true w (retry w).
Proof. unfold retry. do 3 (etrans; [|first [by eapply begin_calls | by eapply finish_calls]]). reflexivity. Qed.

Example retried_attempts :
  (fun t => (at_id t, at_approval_id t, at_status t)) <$> attempts (w_db retried) =
  [("t1", "x", "FAILED_RETRYABLE"); ("t2", "x", "STARTED")].
Proof. vm_compute. reflexivity. Qed.

Lemma retried_unanswered : w_replies retried !! "t2" = None.
Proof. vm_compute. reflexivity. Qed.

(** ** Approved again while a post is under way

    A worker posts under the first approval and stalls.  The draft is edited in
    Outlook, imported, submitted and approved again; a second worker sends it.  Then
    the first worker learns that its own request was refused, and marks the draft for a
    safe retry; Graph has not filed the accepted message yet, so the retry posts it
    once more under the second approval. *)
Definition import (msg : payload) (version : uuid) (now : instant) (w : World) : World :=
  act w (sync no_str id_hash sample_settings "d" ann false (Found msg) (Found []) "j1" version now (w_db w)).2.
Definition resubmit (seen : Seen) (now : instant) (w : World) : World :=
  act w (submit no_str sample_settings "d" seen ann now (w_db w)).2.
Definition approve_it (seen : Seen) (approval : uuid) (now : instant) (w : World) : World :=
  let snapshot := match drafts (w_db w) !! "d" with Some d => snapshot_of id_hash d sample_plan | None => "" end in
  ok_db (approve id_hash no_str sample_settings "d"
           {| rv_seen := seen; rv_snapshot := snapshot; rv_graph_draft_id := "g" |} None sam approval now (w_db w)) w.
Definition queue (job : uuid) (now : instant) (w : World) : World :=
  ok_db (send sample_settings "d" "key" true sam job now (w_db w)) w.

Lemma ok_db_calls {A} calm (r : result exn (A * CommDb)) w :
  (forall a db, r = Ok (a, db) -> step id_hash no_str sample_settings calm w (act w db)) -> calls calm w (ok_db r w).
Proof. intros H. destruct r as [[a db]|e]; [apply rtc_once; by eapply H | reflexivity]. Qed.

Lemma other_calls calm w db :
  other_call id_hash no_str sample_settings (w_db w) db -> calls calm w (act w db).
Proof. intros H. apply rtc_once. by apply step_other. Qed.

Lemma import_calls calm msg version now w : calls calm w (import msg version now w).
Proof. apply other_calls. eapply call_sync, surjective_pairing. Qed.

Lemma resubmit_calls calm seen now w : calls calm w (resubmit seen now w).
Proof. apply other_calls. eapply call_submit, surjective_pairing. Qed.

Lemma approve_calls seen approval now w : calls false w (approve_it seen approval now w).
Proof. apply ok_db_calls. intros a db H. by eapply step_approve. Qed.

Lemma queue_calls calm job now w : calls calm w (queue job now w).
Proof. apply ok_db_calls. intros a db H. apply step_other; [by eapply call_send | done..]. Qed.

Definition seen2 : Seen := {| seen_revision := 2; seen_change_key := Some "k2"; seen_etag := Some "w" |}.

(** The calls in order. *)
Definition twice (w : World) : World :=
  begin edited "t3" "j6" 9000 (finish 0 (HttpError 429 None None None) "j5" 8000
    (finish 0 (Accepted None "c") "j3" 7000 (begin edited "t2" "j4" 6000 (queue "j2" 5000
      (approve_it seen2 "y" 4000 (resubmit seen2 3000 (import edited "v2" 2000 (begin original "t1" "j0" 1000 w)))))))).

Definition sent_twice : World := twice w0.

Lemma twice_calls w : calls false w (twice w).
Proof.
  unfold twice.
  do 9 (etrans; [|first [by eapply begin_calls | by eapply finish_calls | apply queue_calls | apply approve_calls
    | apply resubmit_calls | apply import_calls]]).
  reflexivity.
Qed.

Example sent_twice_attempts :
  (fun t => (at_id t, at_approval_id t, at_status t)) <$> attempts (w_db sent_twice) =
  [("t1", "x", "FAILED_RETRYABLE"); ("t2", "y", "ACCEPTED"); ("t3", "y", "STARTED")].
Proof. vm_compute. reflexivity. Qed.

Lemma sent_twice_replies :
  w_replies sent_twice !! "t2" = Some (Accepted None "c", OtherException) /\ w_replies sent_twice !! "t3" = None.
Proof. vm_compute. split; reflexivity. Qed.

(** ** A draft submitted for approval, approved and queued *)

Definition submitted : CommDb := w_db (resubmit seen2 3000 (import edited "v2" 2000 w0)).

Definition review : Reviewed :=
  {| rv_seen := seen2;
     rv_snapshot := match drafts submitted !! "d" with Some d => snapshot_of id_hash d sample_plan | None => "" end;
     rv_graph_draft_id := "g" |}.

Definition approval_of : result exn (SendApproval * CommDb) :=
  approve id_hash no_str sample_settings "d" review None sam "y" 4000 submitted.

Definition posted_under (db : CommDb) : result exn Begun * CommDb :=
  execute_begin id_hash no_str sample_settings "d" None (Found edited) (Found []) "t2" "j4" 6000 db.

Lemma approval_given :
  match approval_of with
  | Ok (a, db) => valid_approval a = true /\ NoDup (ap_id <$> approvals db) /\ last (approvals db) = Some a /\
      match (posted_under db).1 with Ok (Posting t) => at_approval_id t = ap_id a | _ => False end
  | Err _ => False
  end.
Proof. vm_compute. split; [done|]. split; [|done]. apply (bool_decide_unpack _). vm_compute. exact I. Qed.

Lemma submitted_keyed : keyed submitted.
Proof.
  assert (map_Forall (fun i d => bool_decide (dr_id d = i) = true) (drafts submitted)) as H.
  { apply (bool_decide_unpack _). vm_compute. exact I. }
  intros i d Hd. apply H in Hd. by eapply bool_decide_eq_true_1.
Qed.

(** ** Cancelled, submitted and approved again *)

Definition seen1 : Seen := {| seen_revision := 1; seen_change_key := Some "k"; seen_etag := Some "w" |}.

Definition then_ {A B} (r : result exn (A * CommDb)) (f : CommDb -> result exn (B * CommDb)) : result exn (B * CommDb) :=
  '(_, db) ← r; f db.

(** A send is queued, cancelled, and the same revision is submitted and approved once more. *)
Definition approved_after_cancel : result exn (SendApproval * CommDb) :=
  then_ (send sample_settings "d" "key" true sam "j1" 1000 sample_db) (fun db =>
  then_ (cancel_unsent "d" "wait" seen1 sam 2000 db) (fun db =>
  then_ (let '(r, db') := submit no_str sample_settings "d" seen1 ann 3000 db in d ← r; Ok (d, db')) (fun db =>
  approve id_hash no_str sample_settings "d"
    {| rv_seen := seen1; rv_snapshot := sample_snapshot; rv_graph_draft_id := "g" |} None sam "y" 4000 db))).

Definition db_of {A} (r : result exn (A * CommDb)) : CommDb := match r with Ok (_, db) => db | Err _ => sample_db end.

Lemma approved_after_cancel_state :
  match approved_after_cancel with
  | Ok (a, db) =>
      (draft_status <$> drafts db !! "d") = Some "APPROVED_TO_SEND" /\
      (fun j => (cj_id j, cj_status j)) <$> cjobs db = [("j1", "CANCELLED")] /\
      send sample_settings "d" "key2" true sam "j2" 5000 db = Ok ("j1", false, db)
  | Err _ => False
  end.
Proof. vm_compute. done. Qed.

(** ** The last attempt of a job is lost *)

Definition waiting : CommDb :=
  match enqueue "j1" {| jr_type := CommunicationJobType.SEND_DRAFT; jr_key := "safe-send-retry:t1"; jr_draft := Some "d";
                        jr_email := None; jr_task := None; jr_priority := 10; jr_max_attempts := 1; jr_delay_seconds := 0 |}
          1000 sample_db with
  | Ok (_, _, db) => db
  | Err _ => sample_db
  end.

Definition one_try : CommDb := (claim "worker-1" 60 ∅ 2000 waiting).2.

(** ** An attachment is removed *)

Definition sample_attachment : OutboundDraftAttachment :=
  {| oa_id := "at1"; oa_draft_id := "d"; oa_document_id := Some "doc"; oa_document_version_id := Some "ver";
     oa_graph_attachment_id := None; oa_filename := "bond.pdf"; oa_size_bytes := 10; oa_content_sha256 := "h";
     oa_status := "VALIDATED"; oa_upload_method := None; oa_added_by := None; oa_removed_at := None |}.

Definition with_attachment : CommDb :=
  put_draft (sample_draft CommunicationDraftStatus.REVIEW_IN_PROGRESS)
    (sample_db <| attachments := [sample_attachment] |>).

(** ** A send that is accepted and found *)

Definition accepted_db : CommDb :=
  w_db (finish 0 (Accepted None "c") "j1" 2000 (begin original "t1" "j0" 1000 w0)).

Definition copy_of (text : string) : payload :=
  [("id", JStr "s"); ("isDraft", JBool false); ("parentFolderId", JStr "sent"); ("sentDateTime", JStr "2026-01-05T10:00:00Z");
   ("subject", JStr "Renewal"); ("body", JDict [("contentType", JStr "text"); ("content", JStr text)]);
   ("toRecipients", JList [JDict [("emailAddress", JDict [("address", JStr "desk@dfpi.ca.gov"); ("name", JStr "Desk")])]]);
   ("hasAttachments", JBool false)].
Definition sent_message : payload := copy_of "Please find our answer.".

Definition found_sent : result exn unit * CommDb :=
  reconcile id_hash no_str sample_settings "d" (Found sent_message) (Found []) "j2" 3000 accepted_db accepted_db.

Example found_sent_state :
  (fun t => (at_id t, at_status t)) <$> attempts found_sent.2 = [("t1", "SENT_COPY_VERIFIED")] /\
  (fun t => (at_id t, at_status t)) <$> attempts accepted_db = [("t1", "ACCEPTED")].
Proof. vm_compute. split; reflexivity. Qed.

(** ** An edit imported while the post is under way

    The approved text is posted; an edit is imported before Graph answers.  The sent
    copy is then compared with the edited draft: a copy of the text nobody approved is
    verified, the copy of the approved one goes to review. *)
Definition edited_while_sent : CommDb :=
  w_db (finish 0 (Accepted None "c") "j1" 3000 (import edited "v2" 2000 (begin original "t1" "j0" 1000 w0))).

Definition found_after_edit (text : string) : CommDb :=
  (reconcile id_hash no_str sample_settings "d" (Found (copy_of text)) (Found []) "j2" 4000 edited_while_sent edited_while_sent).2.

Example edited_copy_verified :
  (fun t => (at_id t, bool_decide (pre_send_snapshot_sha256 t = sample_snapshot), at_status t)) <$> attempts (found_after_edit "Please find our new answer.")
    = [("t1", true, "SENT_COPY_VERIFIED")] /\
  (fun t => (at_id t, at_status t)) <$> attempts (found_after_edit "Please find our answer.") = [("t1", "FAILED_REVIEW")].
Proof. vm_compute. split; reflexivity. Qed.
