(* ===== verification/SendGuarantees.v ===== *)
(** * What approvals, posts and the communication queue guarantee

    Properties of single calls, proved from the effects of [SendSafety]: who may
    approve, what a post needs and what it is, what the sent copy proves, and the
    bounds of the queue. *)
From S2P Require Import Prelude Vocabulary PyDate PyJson CanonJson Hashes Roles RecipientPolicy CommStore DraftWork SendApproval GraphDraft OutboundSend SentCopy SendSafety SendScenario.
Open Scope Z_scope.

Ltac split_raises := repeat match goal with
  | H : (_ ← raise_unless _ _; _) = Ok _ |- _ => apply bind_Ok_inv in H as ([] & ?%raise_unless_Ok & H)
  end.

Lemma first_of_two_spec i db b :
  first_of_two i db = Some b ->
  b ∈ approvals db /\ ap_draft_id b = i /\ decision b = value ApprovalDecision.PENDING_SECOND_APPROVAL /\ invalidated_at b = None.
Proof.
  unfold first_of_two. intros H. apply head_Some_elem_of, list_elem_of_filter in H. naive_solver.
Qed.

Lemma approved_of_spec i db a :
  approved_of i db = Some a -> a ∈ approvals db /\ ap_draft_id a = i /\ valid_approval a = true.
Proof. unfold approved_of. intros H. apply head_Some_elem_of, list_elem_of_filter in H. naive_solver. Qed.

Lemma same_approval db a b :
  NoDup (ap_id <$> approvals db) -> a ∈ approvals db -> b ∈ approvals db -> ap_id a = ap_id b -> a = b.
Proof. apply (NoDup_fmap_key ap_id). Qed.

Section Guarantees.
Context (sha256 : string -> string) (py_str : json -> string) (settings : Settings).

(** ** Approving *)

(** What the checks of [approve] come to. *)
Record approvable (d : OutboundDraft) (r : Reviewed) (actor : CurrentActor) (now : instant) (db : CommDb) (v : uuid)
    (p : ResponsePlan) (m : Mailbox) : Prop := {
  av_plan : response_plan_id d ≫= (fun k => plans db !! k) = Some p;
  av_mailbox : mailboxes db !! dr_mailbox_id d = Some m;
  av_version : current_version_id d = Some v;
  av_pending : status_in [CommunicationDraftStatus.PENDING_SEND_APPROVAL] d = true;
  av_sender : has_role (roles actor) Role.SENDER = true;
  av_separate : communication_require_separate_send_approver settings = true \/
    communication_allow_self_approval settings = false ->
    created_by_actor d <> Some (actor_id actor) /\ last_edited_by_actor d <> Some (actor_id actor);
  av_policy : allowed (approver_policy py_str settings d p m actor db) = true;
  av_manager : communication_external_recipient_requires_manager settings = true ->
    "EXTERNAL_RECIPIENT" ∈ warnings (approver_policy py_str settings d p m actor db) ->
    has_role (roles actor) Role.MANAGER = true;
  av_documents : validate_draft_attachments (dr_id d) true (instant_date now) db = [];
  av_reviewed : local_revision d = seen_revision (rv_seen r) /\ rv_snapshot r = snapshot_of sha256 d p
}.

Lemma approve_checks_Ok d r actor now db v p :
  approve_checks sha256 py_str settings d r actor now db = Ok (v, p) -> exists m, approvable d r actor now db v p m.
Proof.
  intros H. unfold approve_checks in H.
  destruct (response_plan_id d) as [k|] eqn:Hk; [|discriminate].
  destruct (current_version_id d) as [v0|] eqn:Hv; [|discriminate]. split_raises.
  destruct (plans db !! k) as [p0|] eqn:Hp; [|discriminate].
  destruct (mailboxes db !! dr_mailbox_id d) as [m|] eqn:Hm; [|discriminate]. split_raises. injection H as <- <-.
  exists m. split; try done.
  - by rewrite Hk.
  - intros Hs. match goal with H : negb (must_be_separate _ && _) = true |- _ => rename H into Hne end.
    assert (must_be_separate settings = true) as Hsep.
    { unfold must_be_separate. destruct Hs as [-> | ->]; [done | by rewrite orb_true_r]. }
    rewrite Hsep in Hne. cbn in Hne. apply negb_true_iff, bool_decide_eq_false in Hne.
    rewrite !elem_of_cons in Hne. split; intros E; apply Hne; auto.
  - intros Hx Hw. match goal with H : negb (communication_external_recipient_requires_manager _ && _ && _) = true |- _ =>
      rename H into Hne end.
    rewrite Hx, (bool_decide_eq_true_2 _ Hw) in Hne. cbn in Hne. by destruct (has_role (roles actor) Role.MANAGER).
  - by eapply bool_decide_eq_true_1.
  - split; [by apply Z.eqb_eq | symmetry; by eapply bool_decide_eq_true_1].
Qed.

(** C10. Who can approve, and what it gives.  An approval that counts is given only to
    a draft waiting for it, by a holder of the Sender role who neither wrote nor last
    edited it (where that is required), who saw this revision and this snapshot, with
    the recipient policy satisfied and every attachment cleared and uploaded; with two
    persons required, another person approved the same snapshot and revision before.
    The row carries the hashes of the draft, is the only one that counts, and the draft
    can be sent from then on.  Every other successful call records the first of two. *)
Theorem approval_duties i r notes actor j now db a db' :
  keyed db -> approve sha256 py_str settings i r notes actor j now db = Ok (a, db') ->
  exists d v p m, drafts db !! i = Some d /\ approvable d r actor now db v p m /\
    ap_draft_id a = i /\ ap_version_id a = v /\ ap_snapshot a = snapshot_of sha256 d p /\
    approver_actor a = actor_id actor /\ ap_body_sha256 a = body_sha256 d /\
    if valid_approval a then
      (communication_require_two_person_approval settings = true ->
       exists b, b ∈ approvals db /\ ap_draft_id b = i /\ decision b = value ApprovalDecision.PENDING_SECOND_APPROVAL /\
         invalidated_at b = None /\ ap_snapshot b = ap_snapshot a /\ ap_version_id b = v /\
         approver_actor b <> actor_id actor) /\
      (forall b, b ∈ approvals db' -> ap_draft_id b = i -> valid_approval b = true -> b = a) /\
      (draft_status <$> drafts db' !! i) = Some (value CommunicationDraftStatus.APPROVED_TO_SEND)
    else communication_require_two_person_approval settings = true /\
         decision a = value ApprovalDecision.PENDING_SECOND_APPROVAL /\ drafts db' = drafts db.
Proof.
  intros Hk H. pose proof H as H0. unfold approve in H. apply bind_Ok_inv in H as (d & Hd%find_draft_Ok & H).
  apply bind_Ok_inv in H as ([v p] & Hc & H). pose proof (Hk _ _ Hd) as Hi.
  apply approve_checks_Ok in Hc as [m Hav]. exists d, v, p, m.
  assert (forall db0, drafts db0 = drafts db -> (x ← insert_approval
      (approval_row j d v actor (snapshot_of sha256 d p) notes ApprovalDecision.PENDING_SECOND_APPROVAL) db0;
      Ok (approval_row j d v actor (snapshot_of sha256 d p) notes ApprovalDecision.PENDING_SECOND_APPROVAL,
          add_event "send_approval" j "first_send_approval_recorded" (actor_id actor) x)) = Ok (a, db') ->
      a = approval_row j d v actor (snapshot_of sha256 d p) notes ApprovalDecision.PENDING_SECOND_APPROVAL /\
      drafts db' = drafts db) as Hrec.
  { intros db0 E H1. apply bind_Ok_inv in H1 as (x & Hx & H1). apply Ok_pair_inj in H1 as [<- <-].
    unfold insert_approval in Hx. split_raises. injection Hx as <-. done. }
  assert (grant j d v actor (snapshot_of sha256 d p) notes now db = Ok (a, db') ->
    a = approval_row j d v actor (snapshot_of sha256 d p) notes ApprovalDecision.APPROVED <| ap_approved_at := Some now |> /\
    (forall b, b ∈ approvals db' -> ap_draft_id b = i -> valid_approval b = true -> b = a) /\
    (draft_status <$> drafts db' !! i) = Some (value CommunicationDraftStatus.APPROVED_TO_SEND)) as Hgr.
  { intros H1. pose proof (grant_effect _ _ _ _ _ _ _ _ _ _ H1 Hk) as (_ & _ & _ & _ & _ & _ & Hnone & Eap & _).
    unfold grant in H1. apply bind_Ok_inv in H1 as (x & Hx & H1). apply Ok_pair_inj in H1 as [<- <-]. split; [done|]. split.
    - intros b Hb Hbi Hbv. rewrite Eap, elem_of_app, list_elem_of_singleton in Hb. destruct Hb as [Hb| ->]; [|done].
      destruct (Hnone (ap_id b)). exists b. by rewrite Hi.
    - unfold insert_approval in Hx. split_raises. injection Hx as <-. cbn. by rewrite Hi, lookup_insert_eq. }
  destruct (communication_require_two_person_approval settings) eqn:E2.
  - destruct (first_of_two i db) as [b|] eqn:Eb.
    + destruct (bool_decide (ap_snapshot b = snapshot_of sha256 d p) && bool_decide (ap_version_id b = v)) eqn:E.
      * apply andb_true_iff in E as [E1%bool_decide_eq_true E3%bool_decide_eq_true]. split_raises.
        match goal with H : negb (bool_decide (approver_actor b = _)) = true |- _ => apply negb_true_iff, bool_decide_eq_false in H end.
        apply Hgr in H as (-> & Hone & Hst). apply first_of_two_spec in Eb as (? & ? & ? & ?).
        split_and!; try done. cbn [valid_approval]. split_and!; try done. intros _. by exists b.
      * apply Hrec in H as [-> ?]; [by split_and! | done].
    + apply Hrec in H as [-> ?]; [by split_and! | done].
  - apply Hgr in H as (-> & Hone & Hst). by split_and!.
Qed.

(** ** Posting *)

(** C9. What is posted is what was approved.  Whatever happened in between, a worker
    that stores a send intent under an approval does so for a draft with the approved
    content, recipients, attachments, revision, Graph identity, plan and template (or
    two texts with one SHA-256 are at hand); the approval still counts; the message
    Graph showed is a draft with the approved content and recipients, change key and
    entity tag, and the local attachments; mailbox, recipient policy and documents
    pass again; and the draft is marked as being sent before the post. *)
Theorem post_is_approved i r notes actor j now db a db1 i2 job got listed ai j2 now2 db2 t db3 :
  keyed db -> approve sha256 py_str settings i r notes actor j now db = Ok (a, db1) -> valid_approval a = true ->
  NoDup (ap_id <$> approvals db2) -> a ∈ approvals db2 ->
  execute_begin sha256 py_str settings i2 job got listed ai j2 now2 db2 = (Ok (Posting t), db3) ->
  at_approval_id t = ap_id a ->
  exists d0 p0 d p m msg, drafts db !! i = Some d0 /\ drafts db2 !! i2 = Some d /\ got = Found msg /\
    ap_draft_id a = dr_id d /\
    ((strip (subject d) = strip (subject d0) /\ body_sha256 d = body_sha256 d0 /\
      recipient_set_sha256 d = recipient_set_sha256 d0 /\ attachment_set_sha256 d = attachment_set_sha256 d0 /\
      local_revision d = local_revision d0 /\ pl_id p = pl_id p0 /\
      selected_template_version_id p = selected_template_version_id p0) \/ collision sha256) /\
    is_draft msg = true /\ graph_content_hash py_str sha256 msg = body_sha256 d0 /\
    graph_recipient_hash py_str sha256 msg = recipient_set_sha256 d0 /\
    get_opt py_str msg "changeKey" = graph_change_key d0 /\ get_opt py_str msg "@odata.etag" = graph_etag d0 /\
    graph_attachments_match py_str (dr_id d) (has_attachments msg) listed db2 = Ok true /\
    allowed (send_policy py_str settings d p m db2) = true /\
    validate_draft_attachments (dr_id d) true (instant_date now2) db2 = [] /\
    (draft_status <$> drafts db3 !! dr_id d) = Some (value CommunicationDraftStatus.SENDING).
Proof.
  intros Hk Happ Hva Hnd Hin Hb Et.
  apply approve_cases in Happ as Hcases; [|done].
  assert (exists d0 p0, drafts db !! i = Some d0 /\ ap_snapshot a = snapshot_of sha256 d0 p0 /\
    ap_body_sha256 a = body_sha256 d0 /\ ap_recipient_set_sha256 a = recipient_set_sha256 d0 /\
    ap_graph_change_key a = graph_change_key d0 /\ ap_graph_etag a = graph_etag d0) as
    (d0 & p0 & Hd0 & Esn & Ebo & Ere & Eck & Eet).
  { unfold approve in Happ. apply bind_Ok_inv in Happ as (d & Hd%find_draft_Ok & H).
    apply bind_Ok_inv in H as ([v p] & Hc & H). exists d, p. split; [done|].
    unfold grant in H. repeat case_match; split_raises;
      apply bind_Ok_inv in H as (x & _ & H); apply Ok_pair_inj in H as [<- _]; done. }
  apply begin_posting in Hb as (d & b & p & m & msg & Hd & _ & Hap & _ & _ & Hpre & -> & Hdr & (ok & Hat & Hg) & -> & _ & ->).
  apply approved_of_spec in Hap as (Hbin & Hbd & _). cbn in Et.
  assert (a = b) as <- by (by eapply same_approval).
  unfold preflight_ok in Hpre. unfold graph_is_approved in Hg. rewrite !andb_true_iff in Hpre, Hg.
  destruct Hpre as [[[[_ _] Hpol] Hsn%bool_decide_eq_true] Hdoc%bool_decide_eq_true].
  destruct Hg as [[[[Hg1%bool_decide_eq_true Hg2%bool_decide_eq_true] ->] Hg3%bool_decide_eq_true] Hg4%bool_decide_eq_true].
  exists d0, p0, d, p, m, msg. split_and!; try congruence.
  - rewrite Esn in Hsn. unfold snapshot_of, approval_snapshot_hash in Hsn. apply canonical_inj in Hsn as [Hsn|?]; [left | by right].
    unfold snapshot_canon, draft_snapshot in Hsn.
    injection Hsn as E1 E2 E3%opt_canon_inj E4 E5%opt_canon_inj E6 E7 E8 E9 E10%opt_canon_inj. by split_and!.
  - cbn. by rewrite lookup_insert_eq.
Qed.
(** ** Queueing a send *)

(** Queueing a send.  A confirmed request by a Sender for an approved draft queues
    one job for the approved snapshot and marks the draft as queued; but when a job for
    that snapshot was ever queued, even one that was cancelled or has failed, the call
    returns the old job and changes nothing, so an unchanged revision that is approved
    again is never sent. *)
Theorem send_spec i key ok actor j now db k created db' :
  send settings i key ok actor j now db = Ok (k, created, db') ->
  ok = true /\ has_role (roles actor) Role.SENDER = true /\
  communications_enabled settings = true /\ graph_send_enabled settings = true /\
  exists d a, drafts db !! i = Some d /\ a ∈ approvals db /\ ap_draft_id a = i /\ valid_approval a = true /\
    dr_approval_snapshot d = Some (ap_snapshot a) /\
    status_in [CommunicationDraftStatus.APPROVED_TO_SEND; CommunicationDraftStatus.SEND_QUEUED] d = true /\
    match find_job (send_key (dr_id d) (ap_snapshot a)) db with
    | Some old => k = cj_id old /\ created = false /\ db' = db
    | None => k = j /\ created = true /\ j ∉ cj_id <$> cjobs db /\
        cjobs db' = cjobs db ++ [new_job j (send_request settings d a) now] /\
        drafts db' = <[dr_id d := set_status CommunicationDraftStatus.SEND_QUEUED d <| send_queued_at := Some now |>]> (drafts db) /\
        approvals db' = approvals db /\ attempts db' = attempts db
    end.
Proof.
  unfold send. intros H. split_raises. destruct (drafts db !! i) as [d|] eqn:Hd; [|discriminate]. split_raises.
  destruct (approved_of i db) as [a|] eqn:Ha; [|discriminate]. split_raises.
  apply approved_of_spec in Ha as (Hin & Hai & Hv).
  match goal with H : bool_decide (Some _ = _) = true |- _ => apply bool_decide_eq_true_1 in H; rename H into Hsn end.
  match goal with H : (_ && _) = true |- _ => apply andb_true_iff in H as [He Hg] end.
  split_and!; try done. exists d, a. split_and!; try done.
  unfold enqueue in H. cbn [jr_key send_request] in H.
  destruct (find_job (send_key (dr_id d) (ap_snapshot a)) db) as [old|].
  - cbn in H. by injection H as <- <- <-.
  - apply bind_Ok_inv in H as ([[j0 c0] db0] & Hq & H). split_raises.
    injection Hq as <- <- <-. injection H as <- <- <-.
    split_and!; try done; by eapply bool_decide_eq_true_1.
Qed.

(** ** Attachments taken away *)

Lemma revise_version pending v d who why reason status now db d' db' :
  revise sha256 py_str pending v d who why reason status now db = Ok (d', db') ->
  exists ver, versions db' = versions db ++ [ver] /\ dv_id ver = v /\ dv_draft_id ver = dr_id d /\
    dv_manifest ver = attachment_manifest pending (dr_id d) db /\ attachments db' = attachments db /\
    attachment_set_sha256 d' = attachment_set_hash sha256 (hashed_entry <$> attachment_manifest pending (dr_id d) db).
Proof.
  intros H. unfold revise in H. cbn [invalidate_approval] in H. apply bind_Ok_inv in H as ([d2 db2] & Hc & Hr).
  apply Ok_pair_inj in Hr as [<- <-]. unfold create_version in Hc. apply bind_Ok_inv in Hc as (db3 & Hv & Hc).
  apply Ok_pair_inj in Hc as [<- <-]. unfold insert_version in Hv. split_raises. injection Hv as <-.
  eexists. split; [reflexivity|]. by split_and!.
Qed.

(** The row is replaced by one that is not live. *)
Lemma live_without i ai r (l : list OutboundDraftAttachment) :
  oa_removed_at r <> None -> (forall a, a ∈ l -> oa_id a = ai -> oa_draft_id a = i) ->
  filter (fun a => oa_draft_id a = i /\ oa_removed_at a = None) ((fun a => if bool_decide (oa_id a = ai) then r else a) <$> l) =
  filter (fun a => oa_id a <> ai) (filter (fun a => oa_draft_id a = i /\ oa_removed_at a = None) l).
Proof.
  intros Hr. induction l as [|a l IH]; intros Hl; [done|]. rewrite fmap_cons.
  specialize (IH (fun b Hb => Hl b (list_elem_of_further _ _ _ Hb))).
  case_bool_decide as Ea; rewrite !filter_cons; [rewrite decide_False by tauto | ]; repeat case_decide;
    rewrite ?filter_cons; repeat case_decide; try done; by rewrite IH.
Qed.

(** Removing an attachment.  The row is marked as removed and leaves the set that
    is compared with Outlook and transmitted; but the new revision's manifest still
    lists it, and the draft's attachment hash, which the approval will bind, is still
    that of the set with it: the manifest is read before the removal is flushed. *)
Theorem removed_attachment_stays i ai s actor v now db d' db' :
  keyed db -> NoDup (oa_id <$> attachments db) ->
  remove sha256 py_str i ai s actor v now db = Ok (d', db') ->
  exists row ver, row ∈ attachments db /\ oa_id row = ai /\ oa_draft_id row = i /\
    ver ∈ versions db' /\ dv_id ver = v /\ dv_draft_id ver = i /\
    live_attachments i db' = filter (fun a => oa_id a <> ai) (live_attachments i db) /\
    attachment_set_sha256 d' = attachment_set_hash sha256 ((fun a => hashed_entry (manifest_entry a)) <$> live_attachments i db) /\
    (oa_removed_at row = None -> manifest_entry (removed_row now row) ∈ dv_manifest ver).
Proof.
  intros Hk Hnd H. unfold remove in H. destruct (drafts db !! i) as [d|] eqn:Hd; [|discriminate].
  destruct (head (filter _ (attachments db))) as [row|] eqn:Hrow; [|discriminate]. split_raises.
  apply head_Some_elem_of, list_elem_of_filter in Hrow as [Hid Hin].
  match goal with H : bool_decide (oa_draft_id row = i) = true |- _ => apply bool_decide_eq_true_1 in H; rename H into Hdr end.
  apply bind_Ok_inv in H as ([d1 db1] & Hr & H). apply Ok_pair_inj in H as [<- <-].
  apply revise_version in Hr as (ver & Ev & Hv & Hvd & Hm & Eat & Hset). rewrite (Hk _ _ Hd) in Hvd, Hm, Hset.
  assert (forall a, a ∈ attachments db -> oa_id a = ai -> a = row) as Huniq.
  { intros a Ha Ea. eapply (NoDup_fmap_key oa_id (attachments db)); [exact Hnd | done..| congruence]. }
  exists row, ver. split_and!; try done.
  - cbn. rewrite Ev. apply elem_of_app. right. by left.
  - unfold live_attachments. cbn. rewrite Eat. apply live_without; [done|].
    intros a Ha Ea. by rewrite (Huniq a Ha Ea).
  - rewrite Hset. f_equal. unfold attachment_manifest. rewrite <-list_fmap_compose.
    apply list_fmap_ext. intros n a Ha. apply list_elem_of_lookup_2, list_elem_of_filter in Ha as [_ Ha]. cbn.
    case_bool_decide as Ea; [|done]. cbn. by rewrite (Huniq a Ha Ea).
  - intros Hlive. rewrite Hm. apply list_elem_of_fmap. exists row.
    split; [by rewrite bool_decide_eq_true_2|]. apply list_elem_of_filter. by split_and!.
Qed.
(** ** The queue *)

Lemma cj_leb_total a b : cj_leb a b = true \/ cj_leb b a = true.
Proof. unfold cj_leb. repeat case_match; rewrite ?Z.ltb_lt, ?Z.ltb_ge, ?Z.leb_le in *; lia. Qed.

Lemma cj_leb_trans a b c : cj_leb a b = true -> cj_leb b c = true -> cj_leb a c = true.
Proof. unfold cj_leb. repeat case_match; rewrite ?Z.ltb_lt, ?Z.ltb_ge, ?Z.leb_le in *; try done; lia. Qed.

Lemma put_job_split j j' l1 l2 :
  NoDup (cj_id <$> (l1 ++ j :: l2)) -> cj_id j' = cj_id j ->
  (fun k => if bool_decide (cj_id k = cj_id j') then j' else k) <$> (l1 ++ j :: l2) = l1 ++ j' :: l2.
Proof.
  intros Hnd E. rewrite fmap_app, fmap_cons in Hnd. apply NoDup_app in Hnd as (_ & Hx & [Hj _]%NoDup_cons).
  assert (forall l : list CommunicationJob, cj_id j ∉ cj_id <$> l ->
    (fun k => if bool_decide (cj_id k = cj_id j') then j' else k) <$> l = l) as Hid.
  { intros l Hl. apply fmap_id_in. intros k Hk. case_bool_decide as Ek; [|done].
    destruct Hl. rewrite <-E, <-Ek. by apply list_elem_of_fmap_2. }
  rewrite fmap_app, fmap_cons, bool_decide_eq_true_2 by done. rewrite !Hid; [done | done |].
  intros Hin. apply (Hx _ Hin). left.
Qed.

(** A claim takes, of the jobs that wait and are due and of the running ones whose
    lease has ended, as long as attempts are left and no other worker has the row
    locked, one that comes first by priority and age.  It becomes RUNNING for this
    worker until its lease ends, one attempt more is counted and never more than the
    maximum; no other job and no other table changes.  Nothing is claimed exactly when
    there is none. *)
Theorem comm_claim_spec w n locked now db :
  NoDup (cj_id <$> cjobs db) ->
  match claim w n locked now db with
  | (None, db') => db' = db /\ forall j, j ∈ cjobs db -> cj_claimable locked now j = false
  | (Some j', db') => exists l1 j l2, cjobs db = l1 ++ j :: l2 /\ db' = db <| cjobs := l1 ++ j' :: l2 |> /\
      cj_claimable locked now j = true /\
      (forall k, k ∈ cjobs db -> cj_claimable locked now k = true -> cj_leb j k = true) /\
      cj_id j' = cj_id j /\ cj_status j' = value CommunicationJobStatus.RUNNING /\ cj_lease_owner j' = Some w /\
      cj_lease_expires_at j' = Some (now + n * SECOND) /\ cj_attempts j' = cj_attempts j + 1 /\
      cj_attempts j' <= cj_max_attempts j'
  end.
Proof.
  intros Hids. unfold claim.
  destruct (py_sorted cj_leb (filter (fun j => cj_claimable locked now j = true) (cjobs db))) as [|j l] eqn:E.
  - split; [done|]. intros j Hj. destruct (cj_claimable locked now j) eqn:Ec; [|done]. exfalso.
    assert (j ∈ py_sorted cj_leb (filter (fun j => cj_claimable locked now j = true) (cjobs db))) as Hin
      by (apply elem_of_py_sorted, list_elem_of_filter; done).
    rewrite E in Hin. by apply not_elem_of_nil in Hin.
  - assert (j ∈ filter (fun j => cj_claimable locked now j = true) (cjobs db)) as [Hc Hj]%list_elem_of_filter
      by (apply (elem_of_py_sorted cj_leb); rewrite E; left).
    pose proof Hj as (l1 & l2 & Ej)%list_elem_of_split. exists l1, j, l2. split_and!; try done.
    + rewrite Ej in Hids. unfold put_job. rewrite Ej, put_job_split; done.
    + intros k Hk Hck. eapply (py_sorted_head_le cj_leb cj_leb_total cj_leb_trans); [by rewrite E|].
      by apply list_elem_of_filter.
    + unfold cj_claimable in Hc. rewrite !andb_true_iff, Z.ltb_lt in Hc. cbn. lia.
Qed.

(** A worker asks for a job. *)
Definition claim_step (db db' : CommDb) : Prop := exists w n locked now, db' = (claim w n locked now db).2.

Lemma claim_keeps_spent j db db' :
  NoDup (cj_id <$> cjobs db) -> j ∈ cjobs db -> cj_max_attempts j <= cj_attempts j -> claim_step db db' ->
  NoDup (cj_id <$> cjobs db') /\ j ∈ cjobs db'.
Proof.
  intros Hnd Hj Hmax (w & n & locked & now & ->). unfold claim.
  destruct (py_sorted cj_leb _) as [|k l] eqn:E; [done|]. cbn.
  assert (k ∈ filter (fun j => cj_claimable locked now j = true) (cjobs db)) as [Hc Hk]%list_elem_of_filter
    by (apply (elem_of_py_sorted cj_leb); rewrite E; left).
  split.
  - rewrite <-list_fmap_compose. erewrite list_fmap_ext; [exact Hnd|]. intros i x _. cbn. by case_bool_decide.
  - apply list_elem_of_fmap. exists j. split; [|done]. case_bool_decide as Ek; [|done]. exfalso.
    rewrite (NoDup_fmap_key cj_id _ _ _ Hnd Hj Hk Ek) in Hmax. unfold cj_claimable in Hc.
    rewrite !andb_true_iff, Z.ltb_lt in Hc. lia.
Qed.

(** A lost last attempt is never recovered.  A job whose attempts are spent, say a
    RUNNING one whose worker died during the last attempt, stays as it is however long
    the workers keep claiming; and a request for the same work finds the dead job
    under its key and queues nothing.  The retry of a refused send is such a job: it is
    given one attempt. *)
Theorem lost_last_attempt db db' j :
  NoDup (cj_id <$> cjobs db) -> NoDup (cj_key <$> cjobs db) -> j ∈ cjobs db -> cj_max_attempts j <= cj_attempts j ->
  rtc claim_step db db' ->
  j ∈ cjobs db' /\ forall i q now, jr_key q = cj_key j -> enqueue i q now db = Ok (j, false, db).
Proof.
  intros Hnd Hkeys Hj Hmax Hrun. split.
  - revert Hnd Hj. clear Hkeys. induction Hrun as [|a b c Hab _ IH]; [done|]. intros Hnd Hj.
    destruct (claim_keeps_spent j a b Hnd Hj Hmax Hab) as [Hnd' Hj']. by apply IH.
  - intros i q now E. unfold enqueue, find_job.
    destruct (head (filter (fun j => cj_key j = jr_key q) (cjobs db))) as [k|] eqn:Ek.
    + apply head_Some_elem_of, list_elem_of_filter in Ek as [Ek Hk].
      by rewrite (NoDup_fmap_key cj_key _ k j Hkeys Hk Hj) by congruence.
    + exfalso. assert (j ∈ filter (fun j => cj_key j = jr_key q) (cjobs db)) as Hin by by apply list_elem_of_filter.
      destruct (filter _ (cjobs db)); [by apply not_elem_of_nil in Hin | done].
Qed.

(** ** The sent copy *)

Lemma flush_attempt_status t0 t1 d d1 db t t' :
  NoDup (at_id <$> attempts db) -> t ∈ attempts db -> t' ∈ attempts (flush_both t0 t1 d d1 db) -> at_id t' = at_id t ->
  at_status t' = at_status t \/ at_status t' = at_status t1 /\ at_id t = at_id t0.
Proof.
  intros Hnd Ht Ht' E. unfold flush_both in Ht'. cbn in Ht'. apply list_elem_of_fmap in Ht' as (u & -> & Hu).
  assert (u = t) as ->.
  { apply (NoDup_fmap_key at_id (attempts db)); [done..|]. rewrite <-E. by case_bool_decide. }
  case_bool_decide; [|by left]. cbn. unfold sent. case_bool_decide; [by left | by right].
Qed.

(** C11. A send is called verified only on proof.  When reconciliation turns an attempt
    into SENT_COPY_VERIFIED, it is the latest attempt of its draft; Graph showed a message
    that is no draft any more, lies in the mailbox's Sent Items, has a sent date, and has
    the content, recipients and attachments the draft's row has as reconciliation loaded
    it; and the move of the source message is queued under a key of this attempt.  In
    every other case the attempt's status stays, or becomes FAILED_REVIEW.  The row may
    have changed since the approval: the message is not compared with the snapshot that
    was approved ([SendScenario.edited_copy_verified]). *)
Theorem verified_on_proof i got listed j now seen db r db' t t' :
  NoDup (at_id <$> attempts db) -> t ∈ attempts db -> t' ∈ attempts db' -> at_id t' = at_id t ->
  reconcile sha256 py_str settings i got listed j now seen db = (r, db') ->
  at_status t <> value SendAttemptStatus.SENT_COPY_VERIFIED ->
  if bool_decide (at_status t' = value SendAttemptStatus.SENT_COPY_VERIFIED) then
    r = Ok tt /\ exists d m folder msg, drafts seen !! i = Some d /\ got = Found msg /\
      at_id <$> latest_attempt i seen = Some (at_id t) /\
      mailboxes seen !! dr_mailbox_id d = Some m /\ sent_items_folder m = Some folder /\
      is_draft msg = false /\ get_text py_str msg "parentFolderId" = folder /\
      (exists v, dget "sentDateTime" msg = Some v /\ truthy v = true) /\
      graph_content_hash py_str sha256 msg = body_sha256 d /\
      graph_recipient_hash py_str sha256 msg = recipient_set_sha256 d /\
      graph_attachments_match py_str (dr_id d) (has_attachments msg) listed seen = Ok true /\
      (exists k, k ∈ cjobs db' /\ cj_key k = "move-after-send:" +:+ at_id t)
  else at_status t' = at_status t \/ at_status t' = value SendAttemptStatus.FAILED_REVIEW.
Proof.
  intros Hnd Ht Ht' E H Hne.
  assert (db' = db -> at_status t' = at_status t) as Hsame.
  { intros ->. by rewrite (NoDup_fmap_key at_id _ _ _ Hnd Ht' Ht E). }
  match goal with |- if _ then ?P else ?Q => cut (Q \/ at_status t' = value SendAttemptStatus.SENT_COPY_VERIFIED /\ P) end.
  { intros [Hq|[Ev Hp]]; [|by rewrite (bool_decide_eq_true_2 _ Ev)]. rewrite bool_decide_eq_false_2; [done|].
    intros Ev. destruct Hq as [Hq|Hq]; rewrite Ev in Hq; [congruence | done]. }
  unfold reconcile in H. destruct (drafts seen !! i) as [d|] eqn:Hd; [|injection H as _ <-; auto].
  destruct (negb (truthy_str _)); [injection H as _ <-; auto|].
  destruct (latest_attempt i seen) as [t0|] eqn:Ht0; [|injection H as _ <-; auto].
  destruct (mailboxes seen !! dr_mailbox_id d) as [m|] eqn:Hm; cbn [mbind option_bind] in H; [|injection H as _ <-; auto].
  destruct (sent_items_folder m) as [folder|] eqn:Hf; [|injection H as _ <-; auto].
  case_match.
  { injection H as _ <-. left. apply flush_attempt_status with (t := t) in Ht' as [?|[? _]]; auto. }
  destruct got as [msg| |]; [|injection H as _ <-; auto..].
  destruct (is_draft msg) eqn:Hdr.
  { case_match eqn:Ea; injection H as _ <-; [|auto]. apply bool_decide_eq_true in Ea. left.
    unfold flush_both in Ht'. cbn in Ht'. apply list_elem_of_fmap in Ht' as (u & -> & Hu). left.
    rewrite (NoDup_fmap_key at_id _ t u Hnd Ht Hu); [|rewrite <-E; by case_bool_decide].
    case_bool_decide; [|done]. cbn. unfold sent. by rewrite bool_decide_eq_true_2. }
  case_match eqn:Hfo; [injection H as _ <-; auto|]. apply negb_false_iff, bool_decide_eq_true in Hfo.
  case_match eqn:Hsd; [injection H as _ <-; auto|]. apply negb_false_iff in Hsd.
  destruct (found_copy _ _ _ _ _ _ _ _ _ _ _) as [db0|e] eqn:Hfc; injection H as <- <-; [|auto].
  unfold found_copy in Hfc. apply bind_Ok_inv in Hfc as (ok & Hat & Hfc).
  destruct (copy_matches _ _ _ _ _) eqn:Hcm.
  - apply bind_Ok_inv in Hfc as ([[jb cr] db1] & Hen & Hfc). injection Hfc as <-.
    assert (attempts db1 = attempts db) as Eat by (unfold enqueue in Hen; case_match; go_ok; by subst).
    apply flush_attempt_status with (t := t) in Ht'; cbn; rewrite ?Eat; try done.
    destruct Ht' as [?|[Ev Ei]]; [auto|]. right. split; [exact Ev|]. split; [done|]. exists d, m, folder, msg.
    unfold copy_matches in Hcm. rewrite !andb_true_iff, !bool_decide_eq_true in Hcm. destruct Hcm as [[? ?] ->].
    split_and!; try done.
    + by rewrite Ei.
    + destruct (dget "sentDateTime" msg) as [v|]; [by exists v | done].
    + exists jb. rewrite Ei. unfold enqueue in Hen. cbn [jr_key] in Hen. case_match eqn:Ej.
      * injection Hen as <- _ <-. unfold find_job in Ej. apply head_Some_elem_of, list_elem_of_filter in Ej as [? ?]. by split.
      * split_raises. injection Hen as <- _ <-. split; [|done]. cbn. apply elem_of_app. right. by left.
  - injection Hfc as <-. apply flush_attempt_status with (t := t) in Ht' as [?|[? _]]; auto.
Qed.
End Guarantees.

(** ** At work *)

Lemma approval_duties_witness :
  match approval_of with
  | Ok (a, db) => approver_actor a = "sam" /\ forall b, b ∈ approvals db -> ap_draft_id b = "d" -> valid_approval b = true -> b = a
  | Err _ => False
  end.
Proof.
  pose proof approval_given as H. destruct approval_of as [[a db]|e] eqn:E; [|exact H]. destruct H as (Hv & _).
  destruct (approval_duties id_hash no_str sample_settings "d" review None sam "y" 4000 submitted a db submitted_keyed E)
    as (d & v & p & m & _ & _ & _ & _ & _ & Ha & _ & H). rewrite Hv in H. split; [exact Ha | apply H].
Defined.

Lemma post_is_approved_witness :
  match approval_of with
  | Ok (a, db) => exists d0, drafts submitted !! "d" = Some d0 /\ graph_content_hash no_str id_hash edited = body_sha256 d0
  | Err _ => False
  end.
Proof.
  pose proof approval_given as H. destruct approval_of as [[a db]|e] eqn:E; [|exact H].
  destruct H as (Hv & Hnd & Hin & H). destruct (posted_under db) as [[[t|t]|e] db3] eqn:E2; try (exfalso; exact H).
  destruct (post_is_approved id_hash no_str sample_settings "d" review None sam "y" 4000 submitted a db "d" None
    (Found edited) (Found []) "t2" "j4" 6000 db t db3 submitted_keyed E Hv Hnd) as (d0 & _ & _ & _ & _ & msg & H0 & _ & Hm & _ & _ & _ & Hc & _);
    [exact (last_Some_elem_of _ _ Hin) | exact E2 | exact H |]. injection Hm as <-.
  exists d0. split; [exact H0 | exact Hc].
Defined.

Lemma approval_spent_once_witness :
  Forall (fun t => at_approval_id t = "x" -> may_have_sent retried t -> at_id t = "t2") (attempts (w_db retried)).
Proof.
  apply Forall_forall. intros t Ht Ea Hm.
  assert (exists u, u ∈ attempts (w_db retried) /\ at_id u = "t2" /\ at_approval_id u = "x" /\ may_have_sent retried u) as
    (u & Hu & <- & Eu & Hmu).
  { pose proof retried_attempts as R. destruct (attempts (w_db retried)) as [|u0 [|u1 l]]; [discriminate R..|].
    injection R as _ _ _ R1 R2 _ _. exists u1. split; [right; left|]. split; [exact R1|]. split; [exact R2|].
    intros r Hr. rewrite R1, retried_unanswered in Hr. discriminate Hr. }
  apply (approval_spent_once id_hash no_str sample_settings w0 retried t u start_sample (retry_calls w0) Ht Hu); [congruence | assumption..].
Defined.

Lemma send_spec_witness :
  match approved_after_cancel with
  | Ok (a, db) => send sample_settings "d" "key2" true sam "j2" 5000 db = Ok ("j1", false, db) /\
      exists d b old, drafts db !! "d" = Some d /\ find_job (send_key (dr_id d) (ap_snapshot b)) db = Some old /\ cj_id old = "j1"
  | Err _ => False
  end.
Proof.
  pose proof approved_after_cancel_state as H. destruct approved_after_cancel as [[a db]|e]; [|exact H].
  destruct H as (_ & _ & H). split; [exact H|].
  destruct (send_spec sample_settings "d" "key2" true sam "j2" 5000 db "j1" false db H)
    as (_ & _ & _ & _ & d & b & Hd & _ & _ & _ & _ & _ & Hj).
  destruct (find_job (send_key (dr_id d) (ap_snapshot b)) db) as [old|] eqn:E; destruct Hj as [Hk Hc].
  - exists d, b, old. split; [exact Hd|]. split; [exact E | symmetry; exact Hk].
  - destruct Hc as [Hc _]. discriminate Hc.
Defined.

Definition removal : result exn (OutboundDraft * CommDb) :=
  remove id_hash no_str "d" "at1" seen1 ann "v2" 2000 with_attachment.

Lemma removed_attachment_stays_witness :
  match removal with
  | Ok (d, db) => live_attachments "d" db = [] /\
      attachment_set_sha256 d = attachment_set_hash id_hash [hashed_entry (manifest_entry sample_attachment)]
  | Err _ => False
  end.
Proof.
  assert (exists d db, removal = Ok (d, db)) as (d & db & E).
  { destruct removal as [[d db]|e] eqn:E; [by exists d, db | exfalso; vm_compute in E; discriminate E]. }
  rewrite E. unfold removal in E.
  destruct (removed_attachment_stays id_hash no_str "d" "at1" seen1 ann "v2" 2000 with_attachment d db)
    as (row & ver & _ & _ & _ & _ & _ & _ & Hlive & Hset & _).
  - intros i d0 H. unfold with_attachment, put_draft, sample_db in H. cbn in H. rewrite lookup_insert_Some in H.
    destruct H as [[<- <-]|[_ H]]; [reflexivity | by apply lookup_singleton_Some in H as [<- <-]].
  - apply (bool_decide_unpack _). vm_compute. exact I.
  - exact E.
  - split; [rewrite Hlive; vm_compute; reflexivity | exact Hset].
Defined.

Lemma comm_claim_spec_witness :
  exists j', (claim "worker-1" 60 ∅ 2000 waiting).1 = Some j' /\ cj_lease_owner j' = Some "worker-1" /\
    cj_attempts j' <= cj_max_attempts j'.
Proof.
  pose proof (comm_claim_spec "worker-1" 60 ∅ 2000 waiting) as H.
  destruct (claim "worker-1" 60 ∅ 2000 waiting) as [[j'|] db'] eqn:E; [|exfalso; vm_compute in E; discriminate E].
  exists j'. split; [reflexivity|]. destruct H as (l1 & j & l2 & _ & _ & _ & _ & _ & _ & Ho & _ & _ & Hm);
    [apply (bool_decide_unpack _); vm_compute; exact I | split; assumption].
Defined.

Lemma lost_last_attempt_witness :
  let db := (claim "worker-3" 60 ∅ (10 ^ 15) (claim "worker-2" 60 ∅ (10 ^ 14) one_try).2).2 in
  exists j, j ∈ cjobs db /\ cj_id j = "j1" /\ cj_status j = "RUNNING".
Proof.
  intros db. assert (rtc claim_step one_try db) as Hrun.
  { eapply rtc_l; [by eexists _, _, _, _|]. apply rtc_once. by eexists _, _, _, _. }
  destruct (cjobs one_try) as [|j l] eqn:E; [exfalso; vm_compute in E; discriminate E|].
  assert (cj_id j = "j1" /\ cj_status j = "RUNNING" /\ cj_max_attempts j <= cj_attempts j) as (Hi & Hs & Hm).
  { vm_compute in E. injection E as <- _. split; [reflexivity|]. split; [reflexivity | by vm_compute]. }
  exists j. split; [|by split]. apply (lost_last_attempt one_try db j);
    [apply (bool_decide_unpack _); vm_compute; exact I.. | rewrite E; left | exact Hm | exact Hrun].
Defined.

Lemma verified_on_proof_witness :
  Forall (fun t => Forall (fun t' => at_id t' = at_id t -> found_sent.1 = Ok tt) (attempts found_sent.2))
    (attempts accepted_db).
Proof.
  apply Forall_forall. intros t Ht. apply Forall_forall. intros t' Ht' E. pose proof found_sent_state as [H1 H2].
  assert (at_status t' = value SendAttemptStatus.SENT_COPY_VERIFIED) as Ev.
  { apply (list_elem_of_fmap_2 (fun t => (at_id t, at_status t))) in Ht'. rewrite H1 in Ht'.
    apply list_elem_of_singleton in Ht'. injection Ht' as _ Ev. exact Ev. }
  assert (at_status t <> value SendAttemptStatus.SENT_COPY_VERIFIED) as Hne.
  { apply (list_elem_of_fmap_2 (fun t => (at_id t, at_status t))) in Ht. rewrite H2 in Ht.
    apply list_elem_of_singleton in Ht. injection Ht as _ Ea. rewrite Ea. by vm_compute. }
  assert (NoDup (at_id <$> attempts accepted_db)) as Hnd by (apply (bool_decide_unpack _); vm_compute; exact I).
  pose proof (verified_on_proof id_hash no_str sample_settings "d" (Found sent_message) (Found []) "j2" 3000 accepted_db
    accepted_db found_sent.1 found_sent.2 t t' Hnd Ht Ht' E (surjective_pairing _) Hne) as H.
  rewrite (bool_decide_eq_true_2 _ Ev) in H. apply H.
Defined.

(** The condition is needed: nothing in the services stops an approval while a
    post of the draft is under way.  In the run acted out in [SendScenario] a first
    worker stalls in its post, the draft is edited in Outlook, imported, submitted and
    approved again, a second worker sends it and Graph accepts; then the first worker
    learns that its own request was refused and marks the draft for a safe retry, which
    posts the accepted message once more under the same approval. *)
Theorem approved_in_flight_spent_twice :
  start w0 /\ rtc (step id_hash no_str sample_settings false) w0 sent_twice /\
  exists t u, t ∈ attempts (w_db sent_twice) /\ u ∈ attempts (w_db sent_twice) /\
    at_approval_id t = at_approval_id u /\ at_id t <> at_id u /\ at_status t = value SendAttemptStatus.ACCEPTED /\
    may_have_sent sent_twice t /\ may_have_sent sent_twice u.
Proof.
  split; [exact start_sample|]. split; [exact (twice_calls w0)|].
  pose proof sent_twice_attempts as H. destruct (attempts (w_db sent_twice)) as [|t1 [|t [|u l]]]; [discriminate H..|].
  injection H as _ _ _ Ti Ta Ts Ui Ua _ _. exists t, u. split; [right; left|]. split; [right; right; left|].
  split; [congruence|]. split; [rewrite Ti, Ui; discriminate|]. split; [exact Ts|].
  destruct sent_twice_replies as [R2 R3].
  split; intros r Hr; [rewrite Ti, R2 in Hr; by injection Hr as <- | rewrite Ui, R3 in Hr; discriminate Hr].
Qed.
