(* ===== verification/SourceMove.v ===== *)
(** * Moving the source message, and completing its workflow

    [SourceMoveService] ([app/services/source_move_service.py], with the check of
    [app/graph/moves.py]), [WorkflowCompletionService]
    ([app/services/workflow_completion_service.py]) and what the worker does with a move
    whose checks are exhausted ([app/workers/communication_jobs.py]).

    The service commits its intent before it asks Graph for the move, so a move is two
    steps, [execute_begin] and [execute_finish], with other transactions in between.
    Nor does it lock what it reads: [execute_begin] is given the tables as its statements
    found them one after the other (the e-mail with its task and plan, the latest attempt,
    the draft with the folder and the number of attempts) and the tables it writes to.
    [reconcile] and [check_exhausted] read the latest attempt at one moment and write at
    another.  [complete] locks every row it reads and is one step.  Identifiers of new
    rows are arguments. *)
From Stdlib Require Import Relations.
From S2P Require Import SendScenario Prelude Vocabulary Terms PyDate PyJson Hashes RecipientPolicy CommStore GraphDraft OutboundSend EmailState.
Open Scope Z_scope.

(** ** Tables *)

Record MessageMoveAttempt := {
  mv_id : string;
  mv_email : string;
  mv_task : string;
  mv_source : string;
  mv_folder : string;
  mv_folder_name : string;
  mv_number : Z;
  mv_status : string;
  mv_returned_id : option string;
  mv_returned_folder : option string;
  mv_http_status : option Z;
  mv_request : option string;
  mv_client_request : option string;
  mv_started : instant;
  mv_moved : option instant;
  mv_verified : option instant;
  mv_error : option string
}.
Instance eta_move : Eta MessageMoveAttempt := fun m =>
  {| mv_id := mv_id m; mv_email := mv_email m; mv_task := mv_task m; mv_source := mv_source m; mv_folder := mv_folder m;
     mv_folder_name := mv_folder_name m; mv_number := mv_number m; mv_status := mv_status m; mv_returned_id := mv_returned_id m;
     mv_returned_folder := mv_returned_folder m; mv_http_status := mv_http_status m; mv_request := mv_request m;
     mv_client_request := mv_client_request m; mv_started := mv_started m; mv_moved := mv_moved m; mv_verified := mv_verified m;
     mv_error := mv_error m |}.

Record WorkflowCompletionRecord := {
  wc_id : string;
  wc_email : string;
  wc_task : string;
  wc_plan : string;
  wc_draft : option string;
  wc_send : option string;
  wc_move : string;
  wc_type : string;
  wc_folder : string;
  wc_folder_name : string;
  wc_message : string;
  wc_status : string;
  wc_task_status : string;
  wc_actor : string;
  wc_at : instant;
  wc_delivery : string
}.

(** The columns of an e-mail the processing state does not need. *)
Record Routed := { rt_mailbox : string; rt_message : string; rt_folder : option string }.
Record MailboxFolder := { mf_mailbox : string; mf_name : string; mf_folder : string }.

Record RoutingDb := {
  comm : CommDb;
  mail : EmailDb;
  routed : gmap string Routed;
  folders : list MailboxFolder;
  moves : list MessageMoveAttempt;
  completions : list WorkflowCompletionRecord;
  task_of : gmap string string
}.
Instance eta_routing : Eta RoutingDb := fun db =>
  {| comm := comm db; mail := mail db; routed := routed db; folders := folders db; moves := moves db; completions := completions db;
     task_of := task_of db |}.

Definition moves_of (email : string) (db : RoutingDb) : list MessageMoveAttempt := filter (fun m => mv_email m = email) (moves db).
Definition latest_move (email : string) (db : RoutingDb) : option MessageMoveAttempt :=
  head (py_sorted (fun a b => mv_number b <=? mv_number a) (moves_of email db)).
Definition plan_of (email : string) (db : RoutingDb) : option ResponsePlan :=
  head (filter (fun p => pl_email_id p = email) (rows (plans (comm db)))).
Definition draft_of (plan : string) (db : RoutingDb) : option OutboundDraft :=
  head (filter (fun d => response_plan_id d = Some plan) (rows (drafts (comm db)))).
Definition task_row (email : string) (db : RoutingDb) : option (string * TaskRow) :=
  t ← task_of db !! email; r ← tasks (comm db) !! t; Some (t, r).

Definition has_status (s : MoveAttemptStatus.MoveAttemptStatus) (m : MessageMoveAttempt) : bool := bool_decide (mv_status m = value s).
Definition set_move (s : MoveAttemptStatus.MoveAttemptStatus) (m : MessageMoveAttempt) : MessageMoveAttempt := m <| mv_status := value s |>.
Definition on_move (i : string) (f : MessageMoveAttempt -> MessageMoveAttempt) (db : RoutingDb) : RoutingDb :=
  db <| moves := (fun m => if bool_decide (mv_id m = i) then f m else m) <$> moves db |>.
Definition noted (i act : string) (db : RoutingDb) : RoutingDb := db <| comm := system_event "message_move_attempt" i act (comm db) |>.

(** What a flush sends of an attempt whose row was loaded as [m] and changed to [m']. *)
Definition flush_move (m m' row : MessageMoveAttempt) : MessageMoveAttempt :=
  row <| mv_status := sent (mv_status m) (mv_status m') (mv_status row) |>
      <| mv_returned_id := sent (mv_returned_id m) (mv_returned_id m') (mv_returned_id row) |>
      <| mv_returned_folder := sent (mv_returned_folder m) (mv_returned_folder m') (mv_returned_folder row) |>
      <| mv_verified := sent (mv_verified m) (mv_verified m') (mv_verified row) |>
      <| mv_error := sent (mv_error m) (mv_error m') (mv_error row) |>.

(** [uq_move_attempt_number]. *)
Definition insert_move (m : MessageMoveAttempt) (db : RoutingDb) : result exn RoutingDb :=
  _ ← raise_unless (bool_decide (mv_id m ∉ mv_id <$> moves db)) IntegrityError;
  _ ← raise_unless (bool_decide ((mv_email m, mv_number m) ∉ (fun m => (mv_email m, mv_number m)) <$> moves db)) IntegrityError;
  Ok (db <| moves := moves db ++ [m] |>).

Definition queue (job : string) (q : JobRequest) (now : instant) (db : RoutingDb) : result exn RoutingDb :=
  '(_, _, c) ← enqueue job q now (comm db);
  Ok (db <| comm := c |>).

(** ** The move *)

Section Moves.
Context (settings : Settings).

Definition check_request (m : MessageMoveAttempt) : JobRequest :=
  {| jr_type := CommunicationJobType.VERIFY_SOURCE_MOVE; jr_key := "verify-ambiguous-move:" +:+ mv_id m; jr_draft := None;
     jr_email := Some (mv_email m); jr_task := Some (mv_task m); jr_priority := 5;
     jr_max_attempts := communication_move_reconciliation_max_attempts settings; jr_delay_seconds := 0 |}.
Definition retry_request (prefix : string) (m : MessageMoveAttempt) : JobRequest :=
  {| jr_type := CommunicationJobType.MOVE_SOURCE_MESSAGE; jr_key := prefix +:+ mv_id m; jr_draft := None; jr_email := Some (mv_email m);
     jr_task := Some (mv_task m); jr_priority := 30; jr_max_attempts := 1; jr_delay_seconds := 0 |}.
Definition complete_request (m : MessageMoveAttempt) : JobRequest :=
  {| jr_type := CommunicationJobType.COMPLETE_EMAIL_WORKFLOW; jr_key := "complete-after-move:" +:+ mv_id m; jr_draft := None;
     jr_email := Some (mv_email m); jr_task := Some (mv_task m); jr_priority := 40; jr_max_attempts := 1; jr_delay_seconds := 0 |}.

Definition _enqueue_reconciliation (m : MessageMoveAttempt) (job : string) (now : instant) (db : RoutingDb) : result exn RoutingDb :=
  queue job (check_request m) now db.

(** What a call comes to before the request. *)
Inductive MoveBegun :=
| Kept (m : MessageMoveAttempt)
| Moving (m : MessageMoveAttempt).

Definition response_sent (p : ResponsePlan) (db : RoutingDb) : bool :=
  bool_decide (response_type p = value ResponseType.NO_RESPONSE_REQUIRED) ||
  match draft_of (pl_id p) db with
  | Some d => bool_decide (draft_status d = value CommunicationDraftStatus.SENT_COPY_VERIFIED)
  | None => false
  end.

Definition destination (mailbox : string) (t : TaskRow) (db : RoutingDb) : option (string * string) :=
  let folder :=
    if bool_decide (communication_move_policy settings = "COMPLETED_FOLDER")
    then head (filter (fun f => mf_mailbox f = mailbox /\ mf_name f = communication_completed_folder_name settings) (folders db))
    else None in
  let '(i, n) := match folder with
                 | Some f => (Some (mf_folder f), Some (mf_name f))
                 | None => (destination_folder_id t, destination_folder_name t)
                 end in
  if truthy_str i && truthy_str n then Some (default "" i, default "" n) else None.

Definition new_move (i email task message : string) (where_ : string * string) (n : Z) (now : instant) : MessageMoveAttempt :=
  {| mv_id := i; mv_email := email; mv_task := task; mv_source := message; mv_folder := where_.1; mv_folder_name := where_.2; mv_number := n;
     mv_status := value MoveAttemptStatus.STARTED; mv_returned_id := None; mv_returned_folder := None; mv_http_status := None;
     mv_request := None; mv_client_request := None; mv_started := now; mv_moved := None; mv_verified := None; mv_error := None |}.

Definition stale (m : MessageMoveAttempt) : MessageMoveAttempt := set_move MoveAttemptStatus.AMBIGUOUS m <| mv_error := Some "STALE_MOVE_LEASE" |>.

(** An earlier attempt that may have moved the message is kept. *)
Definition earlier_move (m : MessageMoveAttempt) (job : string) (now : instant) (db : RoutingDb) : option (result exn (MoveBegun * RoutingDb)) :=
  if has_status MoveAttemptStatus.VERIFIED m then Some (Ok (Kept m, db))
  else if has_status MoveAttemptStatus.STARTED m then
    Some (db' ← _enqueue_reconciliation m job now db;
          Ok (Kept (stale m), noted (mv_id m) "stale_source_move_marked_ambiguous" (on_move (mv_id m) (flush_move m (stale m)) db')))
  else if has_status MoveAttemptStatus.AMBIGUOUS m then
    Some (db' ← _enqueue_reconciliation m job now db; Ok (Kept m, db'))
  else None.

(** [later] is what the statements after the reading of the latest attempt found. *)
Definition start_move (i email : string) (e : Routed) (t : string * TaskRow) (p : ResponsePlan) (now : instant) (later db : RoutingDb)
    : result exn (MoveBegun * RoutingDb) :=
  _ ← raise_unless (response_sent p later) StateConflictError;
  match destination (rt_mailbox e) t.2 later with
  | None => Err StateConflictError
  | Some where_ =>
      let m := new_move i email t.1 (rt_message e) where_ (Z.of_nat (length (moves_of email later)) + 1) now in
      db' ← insert_move m db;
      Ok (Moving m, noted i "source_move_intent_persisted" db')
  end.

(** [context], [seen] and [later] are the tables as the statements that read the e-mail,
    its latest attempt, and the rest found them; [db] are those written to.  A raised call
    may have committed its intent: the second component says what. *)
Definition execute_begin (i job email : string) (now : instant) (context seen later db : RoutingDb) : result exn MoveBegun * RoutingDb :=
  if negb (graph_message_move_enabled settings) then (Err StateConflictError, db) else
  match routed context !! email, task_row email context, plan_of email context with
  | Some e, Some t, Some p =>
      let begun := match latest_move email seen ≫= fun m => earlier_move m job now db with
                   | Some r => r
                   | None => start_move i email e t p now later db
                   end in
      match begun with
      | Err x => (Err x, db)
      | Ok (Kept m, db') => (Ok (Kept m), db')
      | Ok (Moving m, db') => match mailboxes (comm db') !! rt_mailbox e with
                              | Some _ => (Ok (Moving m), db')
                              | None => (Err NotFoundError, db')
                              end
      end
  | _, _, _ => (Err NotFoundError, db)
  end.

(** What a call of [GraphMoveClient.move] can end with; an answer has a status, the
    identifier and the folder of the message, and those of the request. *)
Inductive MoveReply :=
| Answer (status : Z) (message folder : string) (request : option string) (client : string)
| MoveHttpError (status : Z) (graph_code request : option string) (client : string)
| MoveAuthFailed (code : option string)
| MoveConnectFailed
| MoveLost (exception_name : string)
| MoveOther.

Definition answer_ok (m : MessageMoveAttempt) (status : Z) (message folder : string) : bool :=
  (status =? 201) && negb (bool_decide (message = "")) && bool_decide (folder = mv_folder m).

Definition out_of_attempts (m : MessageMoveAttempt) : bool := communication_move_job_max_attempts settings <=? mv_number m.

(** Not carried out: retried while the budget lasts. *)
Definition retried (prefix job : string) (m : MessageMoveAttempt) (note : MessageMoveAttempt -> MessageMoveAttempt) (now : instant)
    (db : RoutingDb) : result exn RoutingDb :=
  if out_of_attempts m then Ok (on_move (mv_id m) (fun r => set_move MoveAttemptStatus.FAILED_REVIEW (note r)) db)
  else queue job (retry_request prefix m) now (on_move (mv_id m) (fun r => set_move MoveAttemptStatus.FAILED_RETRYABLE (note r)) db).

(** Perhaps carried out. *)
Definition ambiguous (act job : string) (m : MessageMoveAttempt) (note : MessageMoveAttempt -> MessageMoveAttempt) (now : instant)
    (db : RoutingDb) : result exn RoutingDb :=
  db' ← _enqueue_reconciliation m job now (on_move (mv_id m) (fun r => set_move MoveAttemptStatus.AMBIGUOUS (note r)) db);
  Ok (noted (mv_id m) act db').

Definition with_error (code : string) (m : MessageMoveAttempt) : MessageMoveAttempt := m <| mv_error := Some code |>.
Definition http_note (status : Z) (graph_code request : option string) (client : string) (m : MessageMoveAttempt) : MessageMoveAttempt :=
  m <| mv_http_status := Some status |> <| mv_request := request |> <| mv_client_request := Some client |>
    <| mv_error := Some (or_text graph_code ("HTTP_" +:+ pretty.pretty status)) |>.
Definition moved_note (message folder : string) (request : option string) (client : string) (now : instant) (m : MessageMoveAttempt)
    : MessageMoveAttempt :=
  set_move MoveAttemptStatus.VERIFIED m <| mv_http_status := Some 201 |> <| mv_returned_id := Some message |> <| mv_returned_folder := Some folder |>
    <| mv_request := request |> <| mv_client_request := Some client |> <| mv_moved := Some now |> <| mv_verified := Some now |>.

Definition LOST_STATUSES : list Z := [408; 500; 502; 503; 504].

Definition execute_finish (m : MessageMoveAttempt) (reply : MoveReply) (job : string) (now : instant) (db : RoutingDb) : result exn RoutingDb :=
  match reply with
  | MoveAuthFailed code => retried "move-pretransmission-retry:" job m (with_error (or_text code "GraphAuthError")) now db
  | MoveConnectFailed => retried "move-pretransmission-retry:" job m (with_error "ConnectError") now db
  | MoveLost name => ambiguous "source_move_outcome_marked_ambiguous" job m (with_error name) now db
  | MoveHttpError status code request client =>
      let note := http_note status code request client in
      if bool_decide (status ∈ LOST_STATUSES) then ambiguous "source_move_http_outcome_marked_ambiguous" job m note now db
      else if status =? 429 then retried "move-safe-retry:" job m note now db
      else Ok (on_move (mv_id m) (fun r => set_move MoveAttemptStatus.FAILED_REVIEW (note r)) db)
  | Answer status message folder request client =>
      if answer_ok m status message folder then
        db' ← queue job (complete_request m) now (on_move (mv_id m) (moved_note message folder request client now) db);
        Ok (noted (mv_id m) "source_move_verified" db')
      else Ok (on_move (mv_id m) (fun r => set_move MoveAttemptStatus.FAILED_REVIEW (with_error "ValueError" r)) db)
  | MoveOther => Err GraphApiError
  end.

Definition found_moved (message : string) (now : instant) (m : MessageMoveAttempt) : MessageMoveAttempt :=
  set_move MoveAttemptStatus.VERIFIED m <| mv_returned_id := Some (or_text (Some message) (mv_source m)) |>
    <| mv_returned_folder := Some (mv_folder m) |> <| mv_verified := Some now |>.
Definition still_pending (m : MessageMoveAttempt) : MessageMoveAttempt :=
  set_move MoveAttemptStatus.AMBIGUOUS (with_error "MOVE_RECONCILIATION_PENDING" m).

(** The message as Graph shows it under its source identifier: folder and identifier.
    The attempt is read in [seen], before Graph is asked. *)
Definition reconcile (email : string) (got : Reply (string * string)) (job : string) (now : instant) (seen db : RoutingDb)
    : result exn unit * RoutingDb :=
  match latest_move email seen with
  | None => (Err NotFoundError, db)
  | Some m =>
      if has_status MoveAttemptStatus.VERIFIED m then (Ok tt, db) else
      match routed seen !! email ≫= fun e => mailboxes (comm seen) !! rt_mailbox e with
      | None => (Err NotFoundError, db)
      | Some _ =>
          match got with
          | Found (folder, message) =>
              if bool_decide (folder = mv_folder m) then
                match queue job (complete_request m) now (on_move (mv_id m) (flush_move m (found_moved message now m)) db) with
                | Ok db' => (Ok tt, db')
                | Err x => (Err x, db)
                end
              else (Err StateConflictError, on_move (mv_id m) (flush_move m (still_pending m)) db)
          | _ => (Err GraphApiError, db)
          end
      end
  end.

(** The last check of a move failed. *)
Definition unresolved (m : MessageMoveAttempt) : MessageMoveAttempt :=
  set_move MoveAttemptStatus.FAILED_REVIEW (with_error "MOVE_RECONCILIATION_EXHAUSTED" m).
Definition check_exhausted (email : string) (seen db : RoutingDb) : RoutingDb :=
  match latest_move email seen with
  | Some m => if has_status MoveAttemptStatus.AMBIGUOUS m then on_move (mv_id m) (flush_move m (unresolved m)) db else db
  | None => db
  end.
End Moves.

(** ** Completion *)

Section Completion.
Context (uuid4 : nat -> string) (correlation : option string).

Definition transition_options (now_at : ProcessingState.ProcessingState) (text : string) (m : MessageMoveAttempt) : CallOptions :=
  {| note := Some text; EmailState.error_code := None; EmailState.error_message := None; metadata := Some [("move_attempt_id", JStr (mv_id m))];
     expected_current_state := Some now_at; manual_reset := false; event_type := "communication_workflow_completion" |}.

Definition completion_type (p : ResponsePlan) : string :=
  if bool_decide (response_type p = value ResponseType.NO_RESPONSE_REQUIRED) then value WorkflowCompletionType.NO_RESPONSE_REQUIRED_AND_ROUTED
  else if bool_decide (response_type p = value ResponseType.ACKNOWLEDGEMENT) then value WorkflowCompletionType.ACKNOWLEDGEMENT_SENT_AND_ROUTED
  else value WorkflowCompletionType.RESPONSE_SENT_AND_ROUTED.

Definition completion_of (email : string) (db : RoutingDb) : option WorkflowCompletionRecord :=
  head (filter (fun c => wc_email c = email) (completions db)).

Definition verified_move (email : string) (db : RoutingDb) : option MessageMoveAttempt :=
  head (py_sorted (fun a b => mv_number b <=? mv_number a) (filter (fun m => has_status MoveAttemptStatus.VERIFIED m = true) (moves_of email db))).

(** The verified send of a plan that needs one. *)
Definition sent_for (p : ResponsePlan) (d : option OutboundDraft) (db : RoutingDb) : result exn (option OutboundSendAttempt) :=
  if bool_decide (response_type p = value ResponseType.NO_RESPONSE_REQUIRED) then Ok None
  else match d with
       | None => Err StateConflictError
       | Some d => match latest_attempt (dr_id d) (comm db) with
                   | Some t => if bool_decide (at_status t = "SENT_COPY_VERIFIED") then Ok (Some t) else Err StateConflictError
                   | None => Err StateConflictError
                   end
       end.

Definition new_completion (i email : string) (t : string * TaskRow) (p : ResponsePlan) (d : option OutboundDraft) (s : option OutboundSendAttempt)
    (m : MessageMoveAttempt) (message : string) (a : Actor) (now : instant) : WorkflowCompletionRecord :=
  {| wc_id := i; wc_email := email; wc_task := t.1; wc_plan := pl_id p; wc_draft := dr_id <$> d; wc_send := at_id <$> s; wc_move := mv_id m;
     wc_type := completion_type p; wc_folder := mv_folder m; wc_folder_name := mv_folder_name m; wc_message := message; wc_status := "COMPLETED";
     wc_task_status := task_status t.2; wc_actor := actor_id a; wc_at := now; wc_delivery := from_option delivery_status "NOT_APPLICABLE" d |}.

(** The record has no identifier yet when its audit row is made. *)
Definition completion_audit (t : TaskRow) (m : MessageMoveAttempt) (a : Actor) (now : instant) : AuditEvent :=
  {| au_actor_type := value (actor_type a); au_actor_id := actor_id a; au_entity_type := "workflow_completion"; au_entity_id := "None";
     au_action := "email_workflow_completed"; au_before := Some [("email_state", JStr "TASK_CREATED"); ("task_status", JStr (task_status t))];
     au_after := Some [("email_state", JStr "COMPLETED"); ("task_status", JStr (task_status t))];
     au_metadata := [("move_attempt_id", JStr (mv_id m))]; au_correlation_id := None; au_occurred_at := now |}.

Definition completion_outbox (email task : string) (now : instant) : OutboxEvent :=
  {| ob_aggregate_type := "email"; ob_aggregate_id := email; ob_event_type := "email.communication_completed";
     ob_payload := [("email_id", JStr email); ("task_id", JStr task)]; ob_idempotency_key := "communication-complete:" +:+ email;
     ob_status := "PENDING"; ob_available_at := now |}.

(** [uq_emails_graph_message]. *)
Definition message_free (email : string) (r : Routed) (db : RoutingDb) : bool :=
  bool_decide (map_Forall (fun k x => k = email \/ rt_mailbox x <> rt_mailbox r \/ rt_message x <> rt_message r) (routed db)).

Definition on_task (i : string) (f : TaskRow -> TaskRow) (db : CommDb) : CommDb := db <| tasks := alter f i (tasks db) |>.

Definition complete (email i : string) (a : Actor) (now : instant) (db : RoutingDb) : result exn (WorkflowCompletionRecord * RoutingDb) :=
  match completion_of email db with
  | Some c => Ok (c, db)
  | None =>
      match routed db !! email, emails (mail db) !! email, task_row email db, plan_of email db, verified_move email db with
      | Some r, Some e, Some t, Some p, Some m =>
          _ ← raise_unless (bool_decide (processing_state e = value ProcessingState.TASK_CREATED)) StateConflictError;
          let d := draft_of (pl_id p) db in
          s ← sent_for p d db;
          '(_, mail1) ← _transition_locked uuid4 correlation email ProcessingState.MOVED a
             (transition_options ProcessingState.TASK_CREATED "Source message move verified." m) now (mail db);
          let message := or_text (mv_returned_id m) (rt_message r) in
          let r := {| rt_mailbox := rt_mailbox r; rt_message := message; rt_folder := Some (mv_folder m) |} in
          _ ← raise_unless (message_free email r db) IntegrityError;
          '(_, mail2) ← _transition_locked uuid4 correlation email ProcessingState.COMPLETED a
             (transition_options ProcessingState.MOVED "Email intake and routing workflow completed." m) now mail1;
          out ← insert_outbox (completion_outbox email t.1 now) (outbox mail2);
          _ ← raise_unless (bool_decide (i ∉ wc_id <$> completions db)) IntegrityError;
          let c := new_completion i email t p d s m message a now in
          Ok (c, db <| mail := {| emails := emails mail2; events := events mail2; audits := audits mail2 ++ [completion_audit t.2 m a now];
                                  outbox := out; next_id := next_id mail2 |} |>
                    <| routed := <[email := r]> (routed db) |> <| completions := completions db ++ [c] |>
                    <| comm := on_task t.1 (fun r => r <| communication_status := "COMPLETED" |>) (comm db) |>)
      | _, _, _, _, _ => Err NotFoundError
      end
  end.
End Completion.

(** ** No move is repeated *)

Definition known_status (m : MessageMoveAttempt) : Prop :=
  mv_status m ∈ value <$> [MoveAttemptStatus.STARTED; MoveAttemptStatus.VERIFIED; MoveAttemptStatus.AMBIGUOUS; MoveAttemptStatus.FAILED_RETRYABLE].
(** An attempt that may have moved the message. *)
Definition perhaps_moved (m : MessageMoveAttempt) : Prop := mv_status m <> value MoveAttemptStatus.FAILED_RETRYABLE.
Definition in_review (m : MessageMoveAttempt) : Prop := mv_status m = value MoveAttemptStatus.FAILED_REVIEW.

Definition key (m : MessageMoveAttempt) : string * string * Z := (mv_id m, mv_email m, mv_number m).
Definition keeps (f : MessageMoveAttempt -> MessageMoveAttempt) : Prop := forall m, key (f m) = key m.
Definition update (i : string) (f : MessageMoveAttempt -> MessageMoveAttempt) (l : list MessageMoveAttempt) : list MessageMoveAttempt :=
  (fun m => if bool_decide (mv_id m = i) then f m else m) <$> l.
Definition count (e : string) (l : list MessageMoveAttempt) : nat := length (filter (fun m => mv_email m = e) l).

Record moves_ok (e : string) (l fl : list MessageMoveAttempt) : Prop := {
  mo_ids : NoDup (mv_id <$> l);
  mo_numbers : forall m, m ∈ l -> 1 <= mv_number m <= Z.of_nat (count (mv_email m) l);
  mo_unique : forall m n, m ∈ l -> n ∈ l -> mv_email m = mv_email n -> mv_number m = mv_number n -> m = n;
  mo_status : forall m, m ∈ l -> mv_email m = e -> known_status m;
  mo_last : forall m n, m ∈ l -> n ∈ l -> mv_email m = e -> mv_email n = e -> perhaps_moved m -> mv_number n <= mv_number m;
  mo_posting : NoDup (mv_id <$> fl);
  mo_known : forall m, m ∈ fl -> exists r, r ∈ l /\ mv_id r = mv_id m /\ mv_email r = mv_email m /\ (mv_email m = e -> perhaps_moved r)
}.

Lemma update_elem i f l m : keeps f -> m ∈ update i f l <-> exists r, r ∈ l /\ key m = key r /\ m = (if bool_decide (mv_id r = i) then f r else r).
Proof.
  intros Hf. unfold update. rewrite list_elem_of_fmap. split.
  - intros (r & -> & Hr). exists r. split; [done|]. split; [|done]. by case_bool_decide.
  - intros (r & Hr & _ & ->). by exists r.
Qed.

Lemma update_ids i f l : keeps f -> mv_id <$> update i f l = mv_id <$> l.
Proof.
  intros Hf. unfold update. rewrite <-list_fmap_compose. apply list_fmap_ext. intros k m _. cbn. case_bool_decide; [|done].
  specialize (Hf m). by injection Hf.
Qed.

Lemma update_count e i f l : keeps f -> count e (update i f l) = count e l.
Proof.
  intros Hf. unfold count, update. induction l as [|m l IH]; [done|]. rewrite fmap_cons.
  assert (mv_email (if bool_decide (mv_id m = i) then f m else m) = mv_email m) as E by (case_bool_decide; [specialize (Hf m); by injection Hf | done]).
  destruct (decide (mv_email m = e)) as [He|He]; [rewrite !filter_cons_True | rewrite !filter_cons_False]; rewrite ?E; try done. cbn. by rewrite IH.
Qed.

(** A row with an identifier is the only one. *)
Lemma same_row l m n : NoDup (mv_id <$> l) -> m ∈ l -> n ∈ l -> mv_id m = mv_id n -> m = n.
Proof.
  intros Hd [i Hi]%list_elem_of_lookup [j Hj]%list_elem_of_lookup E.
  assert (i = j) as -> by (eapply (NoDup_lookup _ i j (mv_id m) Hd); rewrite list_lookup_fmap; [by rewrite Hi | by rewrite Hj, E]). congruence.
Qed.

Lemma known_not_review m : known_status m -> ~ in_review m.
Proof. unfold known_status, in_review. intros H E. rewrite E in H. revert H. apply (bool_decide_unpack _). vm_compute. exact I. Qed.

(** A row is updated: the latest of its e-mail, or that of a request that ends. *)
Lemma moves_ok_update e l fl fl' i f r0 :
  moves_ok e l fl -> keeps f -> r0 ∈ l -> mv_id r0 = i ->
  (mv_email r0 = e -> known_status (f r0) /\ (perhaps_moved (f r0) -> perhaps_moved r0 \/ forall n, n ∈ l -> mv_email n = e -> mv_number n <= mv_number r0)) ->
  NoDup (mv_id <$> fl') -> (forall m, m ∈ fl' -> m ∈ fl) -> (mv_email r0 = e -> forall m, m ∈ fl' -> mv_id m = i -> perhaps_moved (f r0)) ->
  moves_ok e (update i f l) fl'.
Proof.
  intros [H1 H2 H3 H4 H5 H6 H7] Hf Hr0 Hi Hst Hnd Hsub Hfl. split.
  - by rewrite update_ids.
  - intros m (r & Hr & [= E1 E2 E3] & _)%update_elem; [|done]. rewrite update_count by done. rewrite E2, E3. by apply H2.
  - intros m n (r & Hr & [= E1 E2 E3] & ->)%update_elem (s & Hs & [= F1 F2 F3] & ->)%update_elem Ee En; [|done..].
    assert (r = s) as -> by (apply H3; [done..|congruence|congruence]). done.
  - intros m (r & Hr & [= E1 E2 E3] & ->)%update_elem Ee; [|done]. case_bool_decide as Ei; [|by apply H4].
    assert (r = r0) as -> by (apply (same_row l); [exact H1 | exact Hr | exact Hr0 | congruence]). apply Hst. congruence.
  - intros m n (r & Hr & [= E1 E2 E3] & Em)%update_elem (s & Hs & [= F1 F2 F3] & _)%update_elem Ee En Hp; [|done..].
    rewrite E3, F3. rewrite E2 in Ee. rewrite F2 in En. rewrite Em in Hp. case_bool_decide as Ei; [|by apply H5].
    assert (r = r0) as -> by (apply (same_row l); [exact H1 | exact Hr | exact Hr0 | congruence]). destruct (Hst Ee) as [_ Hl]. destruct (Hl Hp) as [Hp0|Hmax]; [by apply H5 | by apply Hmax].
  - done.
  - intros m Hm. destruct (H7 m (Hsub m Hm)) as (r & Hr & Eid & Eem & Hp). exists (if bool_decide (mv_id r = i) then f r else r).
    pose proof (Hf r) as [= K1 K2 K3]. split; [apply update_elem; [done|]; exists r; split; [done|]; split; [by case_bool_decide | done]|].
    split; [by case_bool_decide; congruence|]. split; [by case_bool_decide; congruence|]. intros Ee. case_bool_decide as Ei; [|by apply Hp].
    assert (r = r0) as -> by (apply (same_row l); [exact H1 | exact Hr | exact Hr0 | congruence]). apply (Hfl ltac:(congruence) m); [done | congruence].
Qed.

(** A new attempt starts when every earlier one was not carried out. *)
Lemma moves_ok_insert e l fl fl' m :
  moves_ok e l fl -> mv_id m ∉ mv_id <$> l -> mv_number m = Z.of_nat (count (mv_email m) l) + 1 -> mv_status m = value MoveAttemptStatus.STARTED ->
  (mv_email m = e -> forall n, n ∈ l -> mv_email n = e -> ~ perhaps_moved n) ->
  (fl' = fl \/ fl' = m :: fl) -> moves_ok e (l ++ [m]) fl'.
Proof.
  intros [H1 H2 H3 H4 H5 H6 H7] Hid Hnum Hst Hno Hfl.
  assert (forall x, (count x l <= count x (l ++ [m]))%nat) as Hle by (intros x; unfold count; rewrite filter_app, length_app; lia).
  assert (count (mv_email m) (l ++ [m]) = S (count (mv_email m) l)) as Hc.
  { unfold count. rewrite filter_app, length_app. rewrite (filter_cons_True _ m) by done. cbn. lia. }
  assert (forall n, n ∈ l -> mv_email n = mv_email m -> mv_number n < mv_number m) as Hless.
  { intros n Hn E. rewrite Hnum, <-E. pose proof (H2 n Hn). lia. }
  split.
  - rewrite fmap_app. apply NoDup_app. split_and!; [done | | apply NoDup_singleton]. by intros x Hx ->%list_elem_of_singleton.
  - intros n [Hn| ->%list_elem_of_singleton]%elem_of_app; [pose proof (H2 n Hn); specialize (Hle (mv_email n)); lia | rewrite Hc, Hnum; lia].
  - intros a b [Ha| ->%list_elem_of_singleton]%elem_of_app [Hb| ->%list_elem_of_singleton]%elem_of_app E1 E2; [by apply H3| | |done].
    + specialize (Hless a Ha E1). lia.
    + specialize (Hless b Hb (eq_sym E1)). lia.
  - intros n [Hn| ->%list_elem_of_singleton]%elem_of_app Ee; [by apply H4|]. unfold known_status. rewrite Hst. left.
  - intros a b [Ha| ->%list_elem_of_singleton]%elem_of_app [Hb| ->%list_elem_of_singleton]%elem_of_app E1 E2 Hp; [by apply H5| | |done].
    + exfalso. by eapply (Hno E2 a).
    + rewrite <-E2 in E1. specialize (Hless b Hb (eq_sym E1)). lia.
  - destruct Hfl as [->| ->]; [done|]. rewrite fmap_cons. apply NoDup_cons. split; [|done].
    intros (n & E & Hn)%list_elem_of_fmap. destruct (H7 n Hn) as (r & Hr & Er & _). apply Hid. rewrite E, <-Er. by apply list_elem_of_fmap_2.
  - assert (forall n, n ∈ fl -> exists r, r ∈ l ++ [m] /\ mv_id r = mv_id n /\ mv_email r = mv_email n /\ (mv_email n = e -> perhaps_moved r)) as Hold.
    { intros n Hn. destruct (H7 n Hn) as (r & Hr & ?). exists r. split; [apply elem_of_app; by left | done]. }
    destruct Hfl as [->| ->]; [exact Hold|]. intros n [->|Hn]%elem_of_cons; [|by apply Hold]. exists m.
    split; [apply elem_of_app; right; left|]. split_and!; [done..|]. intros _. unfold perhaps_moved. by rewrite Hst.
Qed.

(** The first of the attempts, the highest number first. *)
Lemma newest_spec l m : head (py_sorted (fun a b => mv_number b <=? mv_number a) l) = Some m -> m ∈ l /\ forall n, n ∈ l -> mv_number n <= mv_number m.
Proof.
  intros H. split.
  - apply (elem_of_py_sorted (fun a b => mv_number b <=? mv_number a)). destruct (py_sorted _ _); [done|]. injection H as ->. left.
  - intros n Hn. apply Z.leb_le. change ((fun a b => mv_number b <=? mv_number a) m n = true). eapply py_sorted_head_le; [intros; cbn; lia.. | exact H|done].
Qed.

Lemma latest_spec e db m : latest_move e db = Some m -> m ∈ moves db /\ mv_email m = e /\ forall n, n ∈ moves db -> mv_email n = e -> mv_number n <= mv_number m.
Proof.
  intros [[He Hm]%list_elem_of_filter Hmax]%newest_spec. split_and!; [done..|]. intros n Hn En. apply Hmax. by apply list_elem_of_filter.
Qed.

Lemma latest_none e db n : latest_move e db = None -> n ∈ moves db -> mv_email n <> e.
Proof.
  intros H Hn E. assert (n ∈ moves_of e db) as Hin by (by apply list_elem_of_filter). apply (elem_of_py_sorted (fun a b => mv_number b <=? mv_number a)) in Hin.
  unfold latest_move in H. destruct (py_sorted _ _); [by apply not_elem_of_nil in Hin | done].
Qed.

(** The numbers of an e-mail's attempts are 1 to their count, so the next one that is
    not in use, and not beyond the next, is the next. *)
Lemma next_number e l fl x n : moves_ok e l fl -> (x, n) ∉ (fun m => (mv_email m, mv_number m)) <$> l ->
  1 <= n <= Z.of_nat (count x l) + 1 -> n = Z.of_nat (count x l) + 1.
Proof.
  intros Hok Hfree Hn. destruct (decide (n = Z.of_nat (count x l) + 1)) as [|Hne]; [done|]. exfalso.
  set (own := filter (fun m => mv_email m = x) l).
  assert (NoDup (mv_number <$> own)) as Hnd.
  { apply NoDup_fmap_2_strong; [|apply NoDup_filter, (NoDup_fmap_1 mv_id), Hok].
    intros a b [Ea Ha]%list_elem_of_filter [Eb Hb]%list_elem_of_filter E. apply (mo_unique _ _ _ Hok); [done | done | congruence | done]. }
  assert (mv_number <$> own ⊆+ seqZ 1 (Z.of_nat (count x l))) as Hsub.
  { apply NoDup_submseteq; [exact Hnd|]. intros z (m & -> & [E Hm]%list_elem_of_filter)%list_elem_of_fmap. apply elem_of_seqZ.
    pose proof (mo_numbers _ _ _ Hok m Hm) as Hr. rewrite E in Hr. lia. }
  assert (mv_number <$> own ≡ₚ seqZ 1 (Z.of_nat (count x l))) as Hp.
  { apply submseteq_length_Permutation; [exact Hsub|]. rewrite length_seqZ, length_fmap. unfold own, count. lia. }
  assert (n ∈ mv_number <$> own) as (m & -> & [E Hm]%list_elem_of_filter)%list_elem_of_fmap by (rewrite Hp; apply elem_of_seqZ; lia).
  apply Hfree. apply list_elem_of_fmap. exists m. by rewrite E.
Qed.

Lemma queue_moves job q now db db' : queue job q now db = Ok db' -> moves db' = moves db.
Proof. unfold queue. intros H. inv_ok. repeat (case_match; inv_ok). by subst. Qed.

Lemma keeps_status s : keeps (set_move s).
Proof. by intros m. Qed.
Lemma keeps_error c : keeps (with_error c).
Proof. by intros m. Qed.
Lemma keeps_http s c r cl : keeps (http_note s c r cl).
Proof. by intros m. Qed.
Lemma keeps_moved m f r cl now : keeps (moved_note m f r cl now).
Proof. by intros x. Qed.
Lemma keeps_compose f g : keeps f -> keeps g -> keeps (fun m => f (g m)).
Proof. intros Hf Hg m. by rewrite Hf, Hg. Qed.

Section Steps.
Context (settings : Settings) (uuid4 : nat -> string) (correlation : option string).

(** The tables, the attempts whose request is under way, and what calls that have not
    ended yet may have read: every state of the tables so far. *)
Record MoveState := { tables : RoutingDb; posting : list MessageMoveAttempt; looks : list RoutingDb }.
Definition with_tables (db : RoutingDb) (fl : list MessageMoveAttempt) (s : MoveState) : MoveState :=
  {| tables := db; posting := fl; looks := tables s :: looks s |}.
Definition readable (s : MoveState) : list RoutingDb := tables s :: looks s.

(** A step names the e-mail whose latest attempt it acts on, and where it read it. *)
Definition Acting : Type := option (string * RoutingDb).

(** The request of a call whose intent was committed. *)
Definition request_of (r : result exn MoveBegun) : list MessageMoveAttempt := match r with Ok (Moving m) => [m] | _ => [] end.

Inductive move_step (s : MoveState) : Acting -> MoveState -> Prop :=
| k_begin i job e now context seen later r db' :
    context ∈ readable s -> seen ∈ readable s -> later ∈ readable s ->
    execute_begin settings i job e now context seen later (tables s) = (r, db') ->
    move_step s (Some (e, seen)) (with_tables db' (request_of r ++ posting s) s)
| k_finish m reply job now db' l1 l2 :
    posting s = l1 ++ m :: l2 -> execute_finish settings m reply job now (tables s) = Ok db' -> move_step s None (with_tables db' (l1 ++ l2) s)
| k_lost m l1 l2 : posting s = l1 ++ m :: l2 -> move_step s None (with_tables (tables s) (l1 ++ l2) s)
| k_reconcile e got job now seen r db' :
    seen ∈ readable s -> reconcile e got job now seen (tables s) = (r, db') -> move_step s (Some (e, seen)) (with_tables db' (posting s) s)
| k_exhausted e seen : seen ∈ readable s -> move_step s (Some (e, seen)) (with_tables (check_exhausted e seen (tables s)) (posting s) s)
| k_complete e i a now c db' :
    complete uuid4 correlation e i a now (tables s) = Ok (c, db') -> move_step s None (with_tables db' (posting s) s)
| k_elsewhere db' : moves db' = moves (tables s) -> move_step s None (with_tables db' (posting s) s).

(** No attempt of the e-mail has gone to review, and a call that acts on the latest
    attempt of the e-mail finds it as it read it. *)
Definition quiet (e : string) (s : MoveState) : Prop := forall m, m ∈ moves (tables s) -> mv_email m = e -> ~ in_review m.
Definition up_to_date (e : string) (s : MoveState) (a : Acting) : Prop :=
  forall seen, a = Some (e, seen) -> latest_move e seen = latest_move e (tables s).
Definition quiet_step (e : string) (s t : MoveState) : Prop := exists a, move_step s a t /\ up_to_date e s a /\ quiet e t.

(** What a step does to the attempts, of which those of [e] matter. *)
Inductive effect (e : string) (l fl : list MessageMoveAttempt) : list MessageMoveAttempt -> list MessageMoveAttempt -> Prop :=
| e_same fl' : fl' `sublist_of` fl -> effect e l fl l fl'
| e_elsewhere i f : keeps f -> (forall r, r ∈ l -> mv_id r = i -> mv_email r <> e) -> effect e l fl (update i f l) fl
| e_latest m f s : m ∈ l -> (forall n, n ∈ l -> mv_email n = mv_email m -> mv_number n <= mv_number m) -> keeps f ->
    mv_status (f m) = value s -> s ∈ [MoveAttemptStatus.VERIFIED; MoveAttemptStatus.AMBIGUOUS; MoveAttemptStatus.FAILED_REVIEW] ->
    effect e l fl (update (mv_id m) f l) fl
| e_ended m f s l1 l2 : fl = l1 ++ m :: l2 -> keeps f -> (forall r, mv_status (f r) = value s) ->
    s ∈ [MoveAttemptStatus.VERIFIED; MoveAttemptStatus.AMBIGUOUS; MoveAttemptStatus.FAILED_RETRYABLE; MoveAttemptStatus.FAILED_REVIEW] ->
    effect e l fl (update (mv_id m) f l) (l1 ++ l2)
| e_start m fl' : mv_id m ∉ mv_id <$> l -> mv_number m = Z.of_nat (count (mv_email m) l) + 1 -> mv_status m = value MoveAttemptStatus.STARTED ->
    (mv_email m = e -> forall n, n ∈ l -> mv_email n = e -> exists t, t ∈ l /\ mv_email t = e /\ mv_number n <= mv_number t /\
       mv_status t ∉ value <$> [MoveAttemptStatus.VERIFIED; MoveAttemptStatus.STARTED; MoveAttemptStatus.AMBIGUOUS]) ->
    (fl' = fl \/ fl' = m :: fl) -> effect e l fl (l ++ [m]) fl'.

(** Rows are never deleted and keep their keys, so what was read once is still there. *)
Definition earlier (seen db : RoutingDb) : Prop := key <$> moves seen `prefix_of` key <$> moves db.

Lemma earlier_row seen db m : earlier seen db -> m ∈ moves seen -> exists r, r ∈ moves db /\ key r = key m.
Proof.
  intros [k Hk] Hm. apply (list_elem_of_fmap_2 key) in Hm. assert (key m ∈ key <$> moves db) as Hin by (rewrite Hk; apply elem_of_app; by left).
  apply list_elem_of_fmap in Hin as (r & ? & ?). by exists r.
Qed.

Lemma count_keys e l : count e l = length (filter (fun k => k.1.2 = e) (key <$> l)).
Proof.
  unfold count. induction l as [|m l IH]; [done|]. rewrite fmap_cons.
  destruct (decide (mv_email m = e)); [rewrite !filter_cons_True by done; cbn; by rewrite IH | rewrite !filter_cons_False by done; exact IH].
Qed.

Lemma earlier_count e seen db : earlier seen db -> (count e (moves seen) <= count e (moves db))%nat.
Proof. intros [k Hk]. rewrite !count_keys, Hk, filter_app, length_app. lia. Qed.

Lemma moves_of_count e db : length (moves_of e db) = count e (moves db).
Proof. done. Qed.

(** A write to the attempt that was read: of another e-mail, or the latest of [e]. *)
Lemma seen_effect e x seen db m g s fl :
  moves_ok e (moves db) fl -> earlier seen db -> latest_move x seen = Some m -> (x = e -> latest_move e seen = latest_move e db) -> keeps g ->
  s ∈ [MoveAttemptStatus.VERIFIED; MoveAttemptStatus.AMBIGUOUS; MoveAttemptStatus.FAILED_REVIEW] ->
  mv_status (g m) = value s -> effect e (moves db) fl (update (mv_id m) g (moves db)) fl.
Proof.
  intros Hok He Hl Hup Hg Hs Hst. destruct (latest_spec _ _ _ Hl) as (Hm & Ex & _). destruct (decide (x = e)) as [Exe|Hne].
  - rewrite Exe in Hl. rewrite Hup in Hl by done. destruct (latest_spec _ _ _ Hl) as (Hin & Eme & Hmax).
    apply (e_latest _ _ _ m g s); [exact Hin | by rewrite Eme | done..].
  - apply e_elsewhere; [done|]. intros r Hr Ei Er. destruct (earlier_row _ _ _ He Hm) as (r' & Hr' & [= K1 K2 K3]).
    assert (r = r') as -> by (apply (same_row (moves db)); [apply Hok | done | done | congruence]). congruence.
Qed.

Lemma start_effect e i x r t p now later db b db' fl :
  moves_ok e (moves db) fl -> earlier later db ->
  (x = e -> forall n, latest_move e db = Some n -> mv_status n ∉ value <$> [MoveAttemptStatus.VERIFIED; MoveAttemptStatus.STARTED; MoveAttemptStatus.AMBIGUOUS]) ->
  start_move settings i x r t p now later db = Ok (b, db') -> exists y, b = Moving y /\ forall fl', fl' = fl \/ fl' = y :: fl -> effect e (moves db) fl (moves db') fl'.
Proof.
  intros Hok Hea Hlast H. unfold start_move in H. inv_ok. destruct (destination _ _ _ _) as [w|]; [|done]. unfold insert_move in H. inv_ok. subst.
  eexists. split; [reflexivity|]. intros fl' Hfl.
  repeat match goal with H : bool_decide (_ ∉ _) = true |- _ => apply bool_decide_eq_true in H end.
  pose proof (earlier_count x _ _ Hea) as Hc. rewrite <-(moves_of_count x later) in Hc.
  apply e_start; [done| |done| |exact Hfl].
  - eapply next_number; [exact Hok | done | cbn; lia].
  - intros Ex n Hn En. destruct (latest_move e db) as [y|] eqn:Ey; [|exfalso; by eapply latest_none]. destruct (latest_spec _ _ _ Ey) as (Hy & Eye & Hmax).
    exists y. split_and!; [done|done|by apply Hmax|by apply Hlast].
Qed.

Lemma flush_keeps m m' : keeps (flush_move m m').
Proof. by intros r. Qed.
Lemma flush_status m m' r (s : MoveAttemptStatus.MoveAttemptStatus) : mv_status r = mv_status m -> mv_status m' = value s -> mv_status (flush_move m m' r) = value s.
Proof. intros E Es. unfold flush_move. cbn [mv_status set_field]. rewrite <-Es. cbn. unfold sent. case_bool_decide; congruence. Qed.

Lemma move_begin_effect e i job x now context seen later r db db' fl :
  moves_ok e (moves db) fl -> earlier seen db -> earlier later db -> (x = e -> latest_move e seen = latest_move e db) ->
  execute_begin settings i job x now context seen later db = (r, db') -> effect e (moves db) fl (moves db') (request_of r ++ fl).
Proof.
  intros Hok Hs Hla Hup. assert (effect e (moves db) fl (moves db) fl) as Hsame by (by apply e_same).
  unfold execute_begin. destruct (negb _); [by intros [= <- <-]|]. destruct (routed context !! x) as [y|]; [|by intros [= <- <-]].
  destruct (task_row x context) as [t|]; [|by intros [= <- <-]]. destruct (plan_of x context) as [p|]; [|by intros [= <- <-]].
  assert (forall b db1, match latest_move x seen ≫= fun m => earlier_move settings m job now db with Some r => r | None => start_move settings i x y t p now later db end = Ok (b, db1) ->
    match b with Kept _ => effect e (moves db) fl (moves db1) fl
    | Moving z => forall fl', fl' = fl \/ fl' = z :: fl -> effect e (moves db) fl (moves db1) fl' end) as Hb.
  { intros b db1 H. destruct (latest_move x seen) as [m|] eqn:El.
    - cbn [mbind option_bind] in H. unfold earlier_move in H.
      destruct (has_status MoveAttemptStatus.VERIFIED m) eqn:H1; [injection H as <- <-; exact Hsame|].
      destruct (has_status MoveAttemptStatus.STARTED m) eqn:H2.
      { inv_ok. subst. apply queue_moves in H0. cbn. rewrite H0. apply (seen_effect e x seen db m _ MoveAttemptStatus.AMBIGUOUS);
          [done | done | done | exact Hup | apply flush_keeps | right; left | by apply flush_status]. }
      destruct (has_status MoveAttemptStatus.AMBIGUOUS m) eqn:H3.
      { inv_ok. subst. apply queue_moves in H0. by rewrite H0. }
      apply (start_effect e _ _ _ _ _ _ _ _ _ _ fl Hok Hla) in H as (z & -> & H); [exact H|]. intros -> n Hn. rewrite <-Hup, El in Hn by done. injection Hn as <-.
      apply bool_decide_eq_false in H1, H2, H3. rewrite !fmap_cons, fmap_nil, !not_elem_of_cons. split_and!; [done..|apply not_elem_of_nil].
    - apply (start_effect e _ _ _ _ _ _ _ _ _ _ fl Hok Hla) in H as (z & -> & H); [exact H|]. intros -> n Hn. by rewrite <-Hup, El in Hn by done. }
  destruct (match latest_move x seen ≫= _ with Some r => r | None => _ end) as [[[m|m] db1]|x1] eqn:E; [| |by intros [= <- <-]].
  - specialize (Hb _ _ eq_refl). by intros [= <- <-].
  - specialize (Hb _ _ eq_refl). destruct (mailboxes (comm db1) !! rt_mailbox y); intros [= <- <-]; apply Hb; [by right | by left].
Qed.

(** What a request that ends makes of its row. *)
Definition row_ended (m : MessageMoveAttempt) (l l' : list MessageMoveAttempt) : Prop :=
  exists f s, l' = update (mv_id m) f l /\ keeps f /\ (forall r, mv_status (f r) = value s) /\
    s ∈ [MoveAttemptStatus.VERIFIED; MoveAttemptStatus.AMBIGUOUS; MoveAttemptStatus.FAILED_RETRYABLE; MoveAttemptStatus.FAILED_REVIEW].

Lemma set_ended m s g l : keeps g ->
  s ∈ [MoveAttemptStatus.VERIFIED; MoveAttemptStatus.AMBIGUOUS; MoveAttemptStatus.FAILED_RETRYABLE; MoveAttemptStatus.FAILED_REVIEW] ->
  row_ended m l (update (mv_id m) (fun r => set_move s (g r)) l).
Proof. intros Hg Hs. exists (fun r => set_move s (g r)), s. split_and!; [done | by apply keeps_compose | done | done]. Qed.

Lemma retried_ended prefix job m g now db db' : keeps g -> retried settings prefix job m g now db = Ok db' -> row_ended m (moves db) (moves db').
Proof.
  intros Hg. unfold retried. destruct (out_of_attempts _ _).
  - intros [= <-]. apply (set_ended m _ g); [done|]. do 3 right. left.
  - intros ->%queue_moves. apply (set_ended m _ g); [done|]. do 2 right. left.
Qed.

Lemma ambiguous_ended act job m g now db db' : keeps g -> ambiguous settings act job m g now db = Ok db' -> row_ended m (moves db) (moves db').
Proof.
  intros Hg H. unfold ambiguous in H. inv_ok. subst. apply queue_moves in H0. cbn. rewrite H0. apply (set_ended m _ g); [done|]. right. left.
Qed.

Lemma finish_ended m reply job now db db' : execute_finish settings m reply job now db = Ok db' -> row_ended m (moves db) (moves db').
Proof.
  unfold execute_finish. destruct reply as [st x f rq cl|st code rq cl|code| |name|].
  - destruct (answer_ok _ _ _ _); intros H; inv_ok; subst.
    + apply queue_moves in H0. cbn. rewrite H0. exists (moved_note x f rq cl now), MoveAttemptStatus.VERIFIED.
      split_and!; [done | apply keeps_moved | done | left].
    + apply (set_ended m _ (with_error "ValueError")); [apply keeps_error|]. do 3 right. left.
  - case_bool_decide; [apply ambiguous_ended, keeps_http|]. destruct (_ =? 429); [apply retried_ended, keeps_http|].
    intros [= <-]. apply (set_ended m _ (http_note st code rq cl)); [apply keeps_http|]. do 3 right. left.
  - apply retried_ended, keeps_error.
  - apply retried_ended, keeps_error.
  - apply ambiguous_ended, keeps_error.
  - done.
Qed.

Lemma reconcile_effect e x got job now seen r db db' fl :
  moves_ok e (moves db) fl -> earlier seen db -> (x = e -> latest_move e seen = latest_move e db) ->
  reconcile x got job now seen db = (r, db') -> effect e (moves db) fl (moves db') fl.
Proof.
  intros Hok Hs Hup. assert (effect e (moves db) fl (moves db) fl) as Hsame by (by apply e_same).
  unfold reconcile. destruct (latest_move x seen) as [m|] eqn:El; [|by intros [= <- <-]].
  destruct (has_status _ m); [by intros [= <- <-]|]. destruct (routed seen !! x ≫= _) as [y|]; [|by intros [= <- <-]].
  destruct got as [[folder message]| |]; [|by intros [= <- <-]..]. case_bool_decide.
  - destruct (queue _ _ _ _) as [db1|x1] eqn:Eq; intros [= <- <-]; [|done]. apply queue_moves in Eq. rewrite Eq.
    apply (seen_effect e x seen db m _ MoveAttemptStatus.VERIFIED); [done | done | done | done | apply flush_keeps | left | by apply flush_status].
  - intros [= <- <-].
    apply (seen_effect e x seen db m _ MoveAttemptStatus.AMBIGUOUS); [done | done | done | done | apply flush_keeps | right; left | by apply flush_status].
Qed.

Lemma exhausted_effect e x seen db fl :
  moves_ok e (moves db) fl -> earlier seen db -> (x = e -> latest_move e seen = latest_move e db) ->
  effect e (moves db) fl (moves (check_exhausted x seen db)) fl.
Proof.
  intros Hok Hs Hup. unfold check_exhausted. destruct (latest_move x seen) as [m|] eqn:El; [|by apply e_same]. destruct (has_status _ m); [|by apply e_same].
  apply (seen_effect e x seen db m _ MoveAttemptStatus.FAILED_REVIEW); [done | done | done | done | apply flush_keeps | do 2 right; left | by apply flush_status].
Qed.

Lemma complete_moves e i a now c db db' : complete uuid4 correlation e i a now db = Ok (c, db') -> moves db' = moves db.
Proof.
  unfold complete. destruct (completion_of e db); [by intros [= <- <-]|].
  destruct (routed db !! e), (emails (mail db) !! e), (task_row e db), (plan_of e db), (verified_move e db); try done.
  intros H. inv_ok. repeat (case_match; inv_ok). by subst.
Qed.

Definition looks_ok (s : MoveState) : Prop := forall d, d ∈ readable s -> earlier d (tables s).

Lemma step_effect e s a t : moves_ok e (moves (tables s)) (posting s) -> looks_ok s -> move_step s a t -> up_to_date e s a ->
  effect e (moves (tables s)) (posting s) (moves (tables t)) (posting t).
Proof.
  intros Hok Hl [i job x now context seen later r db' Hcx Hse Hla H|m reply job now db' l1 l2 Hp H|m l1 l2 Hp|x got job now seen r db' Hse H
    |x seen Hse|x i ac now c db' H|db' H] Hup; cbn.
  - apply (move_begin_effect e i job x now context seen later r (tables s) db' (posting s)); [done | by apply Hl | by apply Hl | | done].
    intros ->. by apply Hup.
  - apply finish_ended in H as (f & w & -> & Hf & Hst & Hs). by apply (e_ended _ _ _ m f w l1 l2).
  - apply e_same. rewrite Hp. apply sublist_app; [done | by apply sublist_cons].
  - eapply reconcile_effect; [done | by apply Hl | | exact H]. intros ->. by apply Hup.
  - apply exhausted_effect; [done | by apply Hl |]. intros ->. by apply Hup.
  - apply complete_moves in H as ->. by apply e_same.
  - rewrite H. by apply e_same.
Qed.

Lemma update_keys i f l : keeps f -> key <$> update i f l = key <$> l.
Proof.
  intros Hf. unfold update. rewrite <-list_fmap_compose. apply list_fmap_ext. intros k m _. cbn. by case_bool_decide.
Qed.

Lemma effect_keys e l fl l' fl' : effect e l fl l' fl' -> key <$> l `prefix_of` key <$> l'.
Proof.
  intros [fl1 _|i f Hf _|m f w _ _ Hf _ _|m f w l1 l2 _ Hf _ _|m fl1 _ _ _ _ _]; rewrite ?update_keys by done; try done.
  rewrite fmap_app. by apply prefix_app_r.
Qed.

Lemma step_looks e s a t : looks_ok s -> move_step s a t -> effect e (moves (tables s)) (posting s) (moves (tables t)) (posting t) -> looks_ok t.
Proof.
  intros Hl Hs He. apply effect_keys in He.
  assert (looks t = tables s :: looks s) as El by (by destruct Hs).
  intros d Hd. unfold readable in Hd. rewrite El in Hd. apply elem_of_cons in Hd as [->|Hd]; [by unfold earlier|].
  unfold earlier. etrans; [by apply Hl | exact He].
Qed.

Lemma unreviewed_status e (l : list MessageMoveAttempt) m (w : MoveAttemptStatus.MoveAttemptStatus) : (forall r, r ∈ l -> mv_email r = e -> ~ in_review r) -> m ∈ l -> mv_email m = e -> mv_status m = value w ->
  w ∈ [MoveAttemptStatus.VERIFIED; MoveAttemptStatus.AMBIGUOUS; MoveAttemptStatus.FAILED_RETRYABLE; MoveAttemptStatus.FAILED_REVIEW] -> known_status m.
Proof.
  intros Hq Hm Ee Hs Hw. specialize (Hq m Hm Ee). unfold in_review in Hq. unfold known_status. rewrite Hs in *.
  repeat (apply elem_of_cons in Hw as [->|Hw]); [by apply (bool_decide_unpack _); vm_compute.. | done | by apply not_elem_of_nil in Hw].
Qed.

Lemma effect_ok e l fl l' fl' : moves_ok e l fl -> (forall r, r ∈ l' -> mv_email r = e -> ~ in_review r) -> effect e l fl l' fl' -> moves_ok e l' fl'.
Proof.
  intros Hok Hq He. destruct He as [fl' Hs|i f Hf Hne|m f w Hm Hmax Hf Hst Hw|m f w l1 l2 -> Hf Hst Hw|m fl' Hid Hn Hst Hlast Hfl].
  - destruct Hok as [H1 H2 H3 H4 H5 H6 H7]. split; [done..| |].
    + eapply sublist_NoDup; [exact H6|]. by apply fmap_sublist.
    + intros m Hm. apply H7. by eapply elem_of_sublist.
  - destruct (decide (i ∈ mv_id <$> l)) as [(r0 & -> & Hr0)%list_elem_of_fmap|Hno].
    + specialize (Hne r0 Hr0 eq_refl). by eapply (moves_ok_update e l fl fl (mv_id r0) f r0); [done | done | done | done | | apply Hok | done | ].
    + replace (update i f l) with l; [done|]. unfold update. rewrite <-(list_fmap_id l) at 1. apply list_fmap_ext. intros k r Hr. cbn.
      rewrite bool_decide_eq_false_2; [done|]. intros <-. apply Hno, list_elem_of_fmap_2. by eapply list_elem_of_lookup_2.
  - assert (In : f m ∈ update (mv_id m) f l).
    { apply update_elem; [done|]. exists m. split_and!; [done | by rewrite Hf | by rewrite bool_decide_true]. }
    eapply (moves_ok_update e l fl fl (mv_id m) f m); [done | done | done | done | | apply Hok | done | ].
    + intros Ee. split.
      * eapply (unreviewed_status e); [exact Hq | exact In | | exact Hst|]; [pose proof (Hf m) as [= ??]; congruence|].
        revert Hw. rewrite !elem_of_cons. naive_solver.
      * intros _. right. intros n Hn En. apply Hmax; [done | congruence].
    + intros _ n _ _. unfold perhaps_moved. rewrite Hst. revert Hw. rewrite !elem_of_cons, elem_of_nil. intros [->|[->|[->|[]]]]; done.
  - destruct (mo_known _ _ _ Hok m) as (r & Hr & Eid & Eem & Hp); [apply elem_of_app; right; left|].
    assert (In : f r ∈ update (mv_id m) f l).
    { apply update_elem; [done|]. exists r. split_and!; [done | by rewrite Hf | by rewrite bool_decide_true]. }
    eapply (moves_ok_update e l _ (l1 ++ l2) (mv_id m) f r); [exact Hok | done | done | done | | | |].
    + intros Ee. split; [|intros _; left; apply Hp; congruence].
      eapply (unreviewed_status e); [exact Hq | exact In | | apply Hst | exact Hw]. pose proof (Hf r) as [= ??]; congruence.
    + pose proof (mo_posting _ _ _ Hok) as Hnd. rewrite fmap_app, fmap_cons in Hnd. rewrite fmap_app.
      eapply sublist_NoDup; [exact Hnd|]. apply sublist_app; [done | by apply sublist_cons].
    + intros n [Hn|Hn]%elem_of_app; apply elem_of_app; [by left | right; by right].
    + intros _ n Hn En. exfalso. pose proof (mo_posting _ _ _ Hok) as Hnd. rewrite fmap_app, fmap_cons in Hnd.
      apply NoDup_app in Hnd as (_ & Hd & Hc). apply NoDup_cons in Hc as [Hc _]. apply elem_of_app in Hn as [Hn|Hn].
      * apply (Hd (mv_id n)); [by apply list_elem_of_fmap_2 | rewrite En; left].
      * apply Hc. rewrite <-En. by apply list_elem_of_fmap_2.
  - eapply (moves_ok_insert e l fl fl' m); [done..| |done]. intros Eme n Hin En Hp.
    destruct (Hlast Eme n Hin En) as (y & Hy & Ey & Hle & Hys).
    assert (perhaps_moved y -> False) as Hno.
    { intros Hpy. apply Hys. pose proof (mo_status _ _ _ Hok y Hy Ey) as Hk. unfold known_status in Hk. unfold perhaps_moved in Hpy. revert Hk Hpy. set_solver. }
    assert (n = y) as ->; [|by apply Hno]. pose proof (mo_last _ _ _ Hok n y Hin Hy En Ey Hp).
    apply (mo_unique _ _ _ Hok); [done | done | congruence | lia].
Qed.
End Steps.

Lemma quiet_ok settings uuid4 correlation e s : moves (tables s) = [] -> posting s = [] -> looks s = [] ->
  forall t, rtc (quiet_step settings uuid4 correlation e) s t -> moves_ok e (moves (tables t)) (posting t).
Proof.
  intros Hm Hfl Hlk t Hr. assert (moves_ok e (moves (tables s)) (posting s)) as H0.
  { rewrite Hm, Hfl. split; try apply NoDup_nil_2; try (by intros ? ?%not_elem_of_nil); by intros ? ? ?%not_elem_of_nil. }
  assert (looks_ok s) as H1.
  { intros d Hd. unfold readable in Hd. rewrite Hlk in Hd. apply list_elem_of_singleton in Hd as ->. by unfold earlier. }
  clear Hm Hfl Hlk. induction Hr as [|s t u (a & Hs & Hup & Hq) _ IH]; [done|].
  pose proof (step_effect _ _ _ e s a t H0 H1 Hs Hup) as He. apply IH; [by eapply effect_ok | by eapply step_looks].
Qed.

Definition unmoved (db : RoutingDb) : MoveState := {| tables := db; posting := []; looks := [] |}.

(** C12. An e-mail is moved at most once, if nothing comes between the reading of its
    latest attempt and the writing.  Start without attempts and let calls of the service,
    answers of Graph, failures, lost workers, reconciliations, exhausted checks and
    completions, of this and of other e-mails, follow each other in any order; the
    statements of a call may have read any state of the tables so far.  As long as no
    attempt of the e-mail has gone to review and every call that acts on the e-mail's
    latest attempt finds it, when it writes, as it read it, at most one of its attempts
    may have moved the message (any other was not transmitted, or throttled), and at most
    one of its requests is under way, however late the answers arrive.  Both conditions
    are needed: [move_repeated] shows an attempt that went to review followed by another
    move, [raced_twice] two workers that read before either wrote. *)
Theorem move_not_repeated settings uuid4 correlation e db0 s :
  moves db0 = [] -> rtc (quiet_step settings uuid4 correlation e) (unmoved db0) s ->
  (forall m n, m ∈ moves (tables s) -> n ∈ moves (tables s) -> mv_email m = e -> mv_email n = e -> perhaps_moved m -> perhaps_moved n -> m = n) /\
  (forall m n, m ∈ posting s -> n ∈ posting s -> mv_email m = e -> mv_email n = e -> m = n).
Proof.
  intros H0 Hr. pose proof (quiet_ok settings uuid4 correlation e (unmoved db0) H0 eq_refl eq_refl _ Hr) as [H1 H2 H3 H4 H5 H6 H7].
  assert (forall m n, m ∈ moves (tables s) -> n ∈ moves (tables s) -> mv_email m = e -> mv_email n = e -> perhaps_moved m -> perhaps_moved n -> m = n) as Hone.
  { intros m n Hm Hn Em En Pm Pn. apply H3; [done | done | congruence|]. pose proof (H5 m n Hm Hn Em En Pm). pose proof (H5 n m Hn Hm En Em Pn). lia. }
  split; [exact Hone|]. intros m n Hm Hn Em En.
  destruct (H7 m Hm) as (r & Hr1 & Er & Eem & Hp). destruct (H7 n Hn) as (r' & Hr' & Er' & Een & Hp').
  apply (same_row (posting s)); [done..|]. rewrite <-Er, <-Er'. f_equal. apply Hone; [done | done | congruence | congruence | by apply Hp | by apply Hp'].
Qed.

(** ** What a completion rests on *)

Section Completing.
Context (uuid4 : nat -> string) (correlation : option string).

(** A state change that succeeds was from the state it expected. *)
Lemma locked_ok i t s a o now db ev db' :
  expected_current_state o = Some s -> _transition_locked uuid4 correlation i t a o now db = Ok (ev, db') ->
  exists x, emails db !! i = Some x /\ processing_state x = value s /\ db' = moved_db uuid4 correlation i x s t a o now db.
Proof.
  intros Ho H. unfold _transition_locked in H. destruct (emails db !! i) as [x|]; [|done]. inv_ok. rewrite Ho in H1. apply bool_decide_eq_true in H1 as ->.
  exists x. split; [done|]. split.
  - unfold state_of in H0. destruct (of_value (processing_state x)) as [y|] eqn:E; [|done]. injection H0 as ->. by apply of_value_Some in E.
  - unfold moved_db. destruct (is_significant t).
    + unfold insert_outbox in H4. inv_ok. by subst.
    + inv_ok. subst. by rewrite app_nil_r.
Qed.

Lemma sent_for_spec p d db s : sent_for p d db = Ok s ->
  response_type p = value ResponseType.NO_RESPONSE_REQUIRED /\ s = None \/
  exists x t, d = Some x /\ s = Some t /\ t ∈ attempts (comm db) /\ at_draft_id t = dr_id x /\ at_status t = "SENT_COPY_VERIFIED".
Proof.
  unfold sent_for. case_bool_decide as Hp; [intros [= <-]; by left|]. destruct d as [x|]; [|done].
  destruct (latest_attempt (dr_id x) (comm db)) as [t|] eqn:Ht; [|done]. case_bool_decide as Hs; [|done]. intros [= <-]. right. exists x, t.
  unfold latest_attempt in Ht. destruct (py_sorted _ _) as [|y ys] eqn:E; [done|]. injection Ht as ->.
  assert (t ∈ t :: ys) as Hin by left. rewrite <-E, elem_of_py_sorted in Hin. by apply list_elem_of_filter in Hin as [Hd Hin].
Qed.

Lemma on_task_row f t (c : CommDb) : tasks c !! t.1 = Some t.2 -> on_task t.1 f c = c <| tasks := <[t.1 := f t.2]> (tasks c) |>.
Proof.
  intros H. unfold on_task. f_equal. apply map_eq. intros i. destruct (decide (i = t.1)) as [->|Hi].
  - by rewrite lookup_alter_eq, lookup_insert_eq, H.
  - by rewrite lookup_alter_ne, lookup_insert_ne.
Qed.

Lemma task_row_spec e db t : task_row e db = Some t -> task_of db !! e = Some t.1 /\ tasks (comm db) !! t.1 = Some t.2.
Proof.
  unfold task_row. destruct (task_of db !! e) as [i|]; [|done]. cbn. destruct (tasks (comm db) !! i) as [r|] eqn:E; [|done]. cbn. by intros [= <-].
Qed.

Lemma completed_again e c db db' i a now : completion_of e db = None -> completions db' = completions db ++ [c] -> wc_email c = e ->
  complete uuid4 correlation e i a now db' = Ok (c, db').
Proof.
  unfold complete, completion_of. intros Hn -> Ee. rewrite filter_app. destruct (filter _ (completions db)); [|done]. cbn [app].
  by rewrite (filter_cons_True _ c) by done.
Qed.

(** C13. A completion is earned.  The first completion of an e-mail rests on its verified
    move with the highest number and on its response plan, and unless the plan needs no
    response on an attempt of the plan's draft whose sent copy was verified; the record
    names them.  The e-mail was at TASK_CREATED and is completed now, by two recorded
    moves of its state, and lies in the folder of the move.  Of the task nothing changes but
    its communication status, which is COMPLETED now: its status is as it was, and so are
    all other tasks, drafts, attempts and jobs.  Completing the e-mail again returns the
    same record and changes nothing. *)
Theorem completion_proved e i a now c db db' :
  complete uuid4 correlation e i a now db = Ok (c, db') -> completion_of e db = None ->
  exists m p t x,
    (m ∈ moves db /\ mv_email m = e /\ mv_status m = value MoveAttemptStatus.VERIFIED /\
     forall n, n ∈ moves db -> mv_email n = e -> mv_status n = value MoveAttemptStatus.VERIFIED -> mv_number n <= mv_number m) /\
    plan_of e db = Some p /\
    (response_type p = value ResponseType.NO_RESPONSE_REQUIRED /\ wc_send c = None \/
     exists d s, draft_of (pl_id p) db = Some d /\ s ∈ attempts (comm db) /\ at_draft_id s = dr_id d /\ at_status s = "SENT_COPY_VERIFIED" /\
                 wc_draft c = Some (dr_id d) /\ wc_send c = Some (at_id s)) /\
    task_row e db = Some t /\
    (wc_email c = e /\ wc_task c = t.1 /\ wc_plan c = pl_id p /\ wc_move c = mv_id m /\ wc_folder c = mv_folder m /\ wc_task_status c = task_status t.2) /\
    emails (mail db) !! e = Some x /\ processing_state x = value ProcessingState.TASK_CREATED /\
    (exists y, emails (mail db') = <[e := y]> (emails (mail db)) /\ processing_state y = value ProcessingState.COMPLETED /\ completed_at y = Some now) /\
    (fun v => (from_state v, to_state v)) <$> events (mail db') =
      ((fun v => (from_state v, to_state v)) <$> events (mail db)) ++
      [(Some (value ProcessingState.TASK_CREATED), value ProcessingState.MOVED); (Some (value ProcessingState.MOVED), value ProcessingState.COMPLETED)] /\
    (exists r, routed db' = <[e := r]> (routed db) /\ rt_folder r = Some (mv_folder m)) /\
    comm db' = comm db <| tasks := <[t.1 := t.2 <| communication_status := "COMPLETED" |>]> (tasks (comm db)) |> /\ moves db' = moves db /\ completions db' = completions db ++ [c] /\
    (forall i' a' now', complete uuid4 correlation e i' a' now' db' = Ok (c, db')).
Proof.
  intros H Hnone. unfold complete in H. rewrite Hnone in H.
  destruct (routed db !! e) as [r|]; [|done]. destruct (emails (mail db) !! e) as [x|] eqn:Ex; [|done].
  destruct (task_row e db) as [t|] eqn:Et; [|done]. destruct (plan_of e db) as [p|] eqn:Ep; [|done]. destruct (verified_move e db) as [m|] eqn:Em; [|done].
  apply newest_spec in Em as [[Hv [He Hm]%list_elem_of_filter]%list_elem_of_filter Hmax].
  apply bind_Ok_inv in H as (u & _ & H). apply bind_Ok_inv in H as (s & Hs & H). apply sent_for_spec in Hs.
  apply bind_Ok_inv in H as ([ev1 mail1] & Ht1 & H).
  apply bind_Ok_inv in H as (u' & _ & H). apply bind_Ok_inv in H as ([ev2 mail2] & Ht2 & H).
  apply (locked_ok _ _ ProcessingState.TASK_CREATED) in Ht1 as (x1 & Ex1 & Hst1 & ->); [|reflexivity].
  apply (locked_ok _ _ ProcessingState.MOVED) in Ht2 as (x2 & Ex2 & Hst2 & ->); [|reflexivity].
  apply task_row_spec in Et as Htask. destruct Htask as [_ Htask].
  inv_ok. subst. exists m, p, t, x. rewrite Ex1 in Ex. injection Ex as ->. apply bool_decide_eq_true in Hv.
  split_and!; try done.
  - intros n Hn En Hvn. apply Hmax, list_elem_of_filter. split; [by apply bool_decide_eq_true_2 | by apply list_elem_of_filter].
  - cbn. destruct Hs as [[Hp ->]|(d & y & -> & -> & ? & ? & ?)]; [by left|]. right. exists d, y. by split_and!.
  - eexists. cbn. rewrite insert_insert_eq. split; [reflexivity|]. by cbn.
  - cbn. by rewrite <-app_assoc, fmap_app.
  - eexists. split; [reflexivity|]. done.
  - cbn. by apply on_task_row.
  - intros i' a' now'. by apply (completed_again _ _ db).
Qed.
End Completing.

(** ** Acted out *)

(** The draft of [SendScenario], its sent copy verified, and the e-mail it answers. *)
Definition sample_routing : RoutingDb :=
  {| comm := SendScenario.found_sent.2;
     mail := {| emails := {["e" := {| em_id := "e"; em_mailbox_id := "m"; processing_state := value ProcessingState.TASK_CREATED; resume_state := None;
                                      retry_count := 0; next_retry_at := None; last_error_code := None; last_error_message := None;
                                      fetched_at := None; completed_at := None |}]};
                events := []; audits := []; outbox := []; next_id := 0 |};
     routed := {["e" := {| rt_mailbox := "m"; rt_message := "src"; rt_folder := None |}]}; folders := []; moves := []; completions := [];
     task_of := {["e" := "t"]} |}.

Definition system : Actor := {| EmailState.actor_type := ActorType.SYSTEM; EmailState.actor_id := "worker" |}.

(** Calls that are not disturbed: everything is read from the tables written to. *)
Definition begin_at (i job : string) (now : instant) (db : RoutingDb) : result exn MoveBegun * RoutingDb :=
  execute_begin SendScenario.sample_settings i job "e" now db db db db.
Definition post_at (i job : string) (now : instant) (s : MoveState) : MoveState :=
  let '(r, db) := begin_at i job now (tables s) in with_tables db (request_of r ++ posting s) s.
Definition finish_at (reply : MoveReply) (job : string) (now : instant) (s : MoveState) : MoveState :=
  match posting s with
  | m :: fl => match execute_finish SendScenario.sample_settings m reply job now (tables s) with Ok db => with_tables db fl s | Err _ => s end
  | [] => s
  end.

Notation moves_quietly := (rtc (quiet_step SendScenario.sample_settings sample_uuid None "e")).
Definition review_free (l : list MessageMoveAttempt) : bool :=
  forallb (fun m => negb (bool_decide (mv_email m = "e")) || negb (bool_decide (mv_status m = value MoveAttemptStatus.FAILED_REVIEW))) l.

Lemma review_free_quiet s : review_free (moves (tables s)) = true -> quiet "e" s.
Proof.
  unfold review_free. intros H m Hm Ee Hr. rewrite forallb_forall in H. specialize (H m). rewrite <-list_elem_of_In in H. specialize (H Hm).
  unfold in_review in Hr. by rewrite !bool_decide_eq_true_2 in H.
Qed.

Lemma post_step i job now s : review_free (moves (tables (post_at i job now s))) = true ->
  moves_quietly s (post_at i job now s).
Proof.
  intros Hq. apply rtc_once. exists (Some ("e", tables s)). split; [|split; [|by apply review_free_quiet]].
  - unfold post_at. destruct (begin_at i job now (tables s)) as [r db'] eqn:E.
    eapply (k_begin _ _ _ s i job "e" now (tables s) (tables s) (tables s) r db'); [left..|exact E].
  - by intros seen [= <-].
Qed.

Lemma finish_step reply job now s : review_free (moves (tables (finish_at reply job now s))) = true -> moves_quietly s (finish_at reply job now s).
Proof.
  intros Hq. unfold finish_at in *. destruct (posting s) as [|m fl] eqn:Ep; [reflexivity|].
  destruct (execute_finish _ _ _ _ _ _) as [db'|] eqn:E; [|reflexivity]. apply rtc_once. exists None. split; [|split; [done | by apply review_free_quiet]].
  by apply (k_finish _ _ _ s m reply job now db' [] fl).
Qed.

(** A request that is not transmitted, a second whose answer is lost, and a third call. *)
Definition lost_once : MoveState := finish_at MoveConnectFailed "k1" 2000 (post_at "mv1" "k0" 1000 (unmoved sample_routing)).
Definition lost_twice : MoveState := post_at "mv3" "k4" 5000 (finish_at (MoveLost "ReadTimeout") "k3" 4000 (post_at "mv2" "k2" 3000 lost_once)).

Lemma lost_twice_run : moves_quietly (unmoved sample_routing) lost_twice.
Proof.
  unfold lost_twice, lost_once. etrans; [apply (post_step "mv1" "k0" 1000); vm_compute; reflexivity|].
  etrans; [apply (finish_step MoveConnectFailed "k1" 2000); vm_compute; reflexivity|].
  etrans; [apply (post_step "mv2" "k2" 3000); vm_compute; reflexivity|].
  etrans; [apply (finish_step (MoveLost "ReadTimeout") "k3" 4000); vm_compute; reflexivity|].
  apply (post_step "mv3" "k4" 5000); vm_compute; reflexivity.
Qed.

Lemma move_not_repeated_witness :
  (fun m => (mv_id m, mv_status m)) <$> moves (tables lost_twice) = [("mv1", "FAILED_RETRYABLE"); ("mv2", "AMBIGUOUS")] /\
  forall m n, m ∈ moves (tables lost_twice) -> n ∈ moves (tables lost_twice) -> mv_email m = "e" -> mv_email n = "e" -> perhaps_moved m -> perhaps_moved n -> m = n.
Proof.
  split; [vm_compute; reflexivity|].
  apply (move_not_repeated SendScenario.sample_settings sample_uuid None "e" sample_routing lost_twice eq_refl lost_twice_run).
Defined.

(** When the checks of the lost move are exhausted it goes to review; a later job moves
    the message again. *)
Definition repeated : RoutingDb := (begin_at "mv3" "k6" 9000 (check_exhausted "e" (tables lost_twice) (tables lost_twice))).2.

Example move_repeated :
  (fun m => (mv_id m, mv_status m)) <$> moves repeated = [("mv1", "FAILED_RETRYABLE"); ("mv2", "FAILED_REVIEW"); ("mv3", "STARTED")].
Proof. vm_compute. reflexivity. Qed.

(** Two workers read that there is no attempt; the first inserts its own and asks Graph,
    the second counts one, inserts the next and asks Graph too. *)
Definition first_worker : MoveState := post_at "mv1" "k0" 1000 (unmoved sample_routing).
Definition second_worker : result exn MoveBegun * RoutingDb :=
  execute_begin SendScenario.sample_settings "mv2" "k1" "e" 1001 sample_routing sample_routing (tables first_worker) (tables first_worker).
Definition both_moving : MoveState := with_tables second_worker.2 (request_of second_worker.1 ++ posting first_worker) first_worker.

Lemma both_moving_step : move_step SendScenario.sample_settings sample_uuid None first_worker (Some ("e", sample_routing)) both_moving.
Proof.
  apply (k_begin _ _ _ first_worker "mv2" "k1" "e" 1001 sample_routing sample_routing (tables first_worker));
    [vm_compute; right; left | vm_compute; right; left | left | apply surjective_pairing].
Qed.

Example raced_twice :
  (fun m => (mv_id m, mv_number m, mv_status m)) <$> moves (tables both_moving) = [("mv1", 1, "STARTED"); ("mv2", 2, "STARTED")] /\
  mv_id <$> posting both_moving = ["mv2"; "mv1"].
Proof. vm_compute. split; reflexivity. Qed.

(** The move is answered, and the workflow completed. *)
Definition moved_state : MoveState :=
  finish_at (Answer 201 "src2" "f" None "c") "k1" 2000 (post_at "mv1" "k0" 1000 (unmoved sample_routing)).
Definition completed_sample : result exn (WorkflowCompletionRecord * RoutingDb) := complete sample_uuid None "e" "w" system 3000 (tables moved_state).

Lemma completion_proved_witness :
  exists c db', completed_sample = Ok (c, db') /\ (wc_send c, wc_folder c, wc_task_status c) = (Some "t1", "f", "IN_PROGRESS") /\
    (fun t => (task_status t, communication_status t)) <$> tasks (comm db') !! "t" = Some ("IN_PROGRESS", "COMPLETED") /\ completions db' = [c].
Proof.
  destruct completed_sample as [[c db']|x] eqn:E; [|vm_compute in E; discriminate].
  exists c, db'. split; [done|]. split; [vm_compute in E; injection E as <- _; vm_compute; reflexivity|].
  destruct (completion_proved sample_uuid None "e" "w" system 3000 c (tables moved_state) db' E ltac:(vm_compute; reflexivity))
    as (m & p & t & x & _ & _ & _ & Ht & _ & _ & _ & _ & _ & _ & Hc & _ & Hl & _).
  split; [|rewrite Hl; vm_compute (completions _); reflexivity].
  rewrite Hc. vm_compute in Ht. injection Ht as <-. vm_compute. reflexivity.
Defined.

(** A slow worker's answer changes an attempt that was verified meanwhile. *)
Definition slow : MoveState :=
  let s := post_at "mv2" "k1" 2000 (post_at "mv1" "k0" 1000 (unmoved sample_routing)) in
  with_tables (reconcile "e" (Found ("f", "src")) "k2" 3000 (tables s) (tables s)).2 (posting s) s.

Example verified_overwritten :
  (fun m => (mv_id m, mv_status m)) <$> moves (tables slow) = [("mv1", "VERIFIED")] /\
  (fun m => (mv_id m, mv_status m)) <$> moves (tables (finish_at (MoveLost "ReadTimeout") "k3" 4000 slow)) = [("mv1", "AMBIGUOUS")].
Proof. vm_compute. split; reflexivity. Qed.
