(* ===== verification/LicensingLog.v ===== *)
(** * Audit rows and notifications of the licensing services ([app/licensing/audit.py])

    What the services append beside their own rows.  An audit row is kept as entity,
    action and actor; a notification is refused when its key is known, and its outbox
    row is written with it. *)
From S2P Require Import Prelude.

Record AuditRow := { au_entity : string; au_entity_id : string; au_action : string; au_actor : string }.

(** A [NotificationDraft]; titles, bodies and payloads are left out. *)
Record Notice := {
  no_type : string;
  no_severity : string;
  no_recipient : string;
  no_entity : string;
  no_entity_id : string;
  no_key : string
}.

Record Log := { audits : list AuditRow; notices : list Notice }.
Instance eta_log : Eta Log := fun l => {| audits := audits l; notices := notices l |}.

(** [add_licensing_audit]; without an actor the system acts. *)
Definition add_audit (entity i act : string) (who : option string) (l : Log) : Log :=
  l <| audits := audits l ++ [{| au_entity := entity; au_entity_id := i; au_action := act;
                                 au_actor := default "licensing-worker" who |}] |>.

Definition record_notification (n : Notice) (l : Log) : bool * Log :=
  if bool_decide (no_key n ∈ no_key <$> notices l) then (false, l) else (true, l <| notices := notices l ++ [n] |>).

(** [build_idempotency_key]. *)
Definition build_idempotency_key (sha256 : string -> string) (parts : list (option string)) : string :=
  sha256 (String.concat "|" ((fun p => if truthy_str p then default "" p else "-") <$> parts)).

Lemma record_notification_keys n l :
  NoDup (no_key <$> notices l) -> NoDup (no_key <$> notices (record_notification n l).2).
Proof.
  intros H. unfold record_notification. case_bool_decide as E; [done|]. cbn. rewrite fmap_app. apply NoDup_app.
  split_and!; [done | | apply NoDup_singleton]. intros x Hx ->%list_elem_of_singleton. done.
Qed.
