(* ===== verification/PacketMatching.v ===== *)
(** * Documents for a checklist ([app/packets/matching.py])

    Which documents may satisfy an item of a packet's checklist, and which one is
    chosen.  The selection policy of an item is the JSON object the template stores.
    The licence type of documents and cases is carried along as the code does, which
    compares it nowhere ([license_type_ignored]); the title, the issue date and the flag
    reusable of a candidate, which nothing reads either, are left out. *)
From stdpp Require Import pretty.
From S2P Require Import Prelude Terms PyDate PyJson PyUrl.
Open Scope Z_scope.

Record CandidateDocument := {
  cd_document_id : string;
  cd_version_id : option string;
  cd_type : string;
  cd_filename : string;
  cd_content_sha256 : option string;
  cd_version_sha256 : option string;
  cd_lifecycle : string;
  cd_approval : string;
  cd_confidentiality : string;
  cd_storage : string;
  cd_legal_entity : option string;
  cd_jurisdiction : option string;
  cd_license_type : option string;
  cd_effective_date : option date;
  cd_expiry_date : option date;
  cd_approved_at : option instant;
  cd_approved_for_reuse : bool;
  cd_is_current : bool;
  cd_size_bytes : Z;
  cd_storage_uri : option string
}.
Instance eta_candidate : Eta CandidateDocument := fun c =>
  {| cd_document_id := cd_document_id c; cd_version_id := cd_version_id c; cd_type := cd_type c; cd_filename := cd_filename c;
     cd_content_sha256 := cd_content_sha256 c; cd_version_sha256 := cd_version_sha256 c; cd_lifecycle := cd_lifecycle c;
     cd_approval := cd_approval c; cd_confidentiality := cd_confidentiality c; cd_storage := cd_storage c;
     cd_legal_entity := cd_legal_entity c; cd_jurisdiction := cd_jurisdiction c; cd_license_type := cd_license_type c;
     cd_effective_date := cd_effective_date c; cd_expiry_date := cd_expiry_date c; cd_approved_at := cd_approved_at c;
     cd_approved_for_reuse := cd_approved_for_reuse c; cd_is_current := cd_is_current c; cd_size_bytes := cd_size_bytes c;
     cd_storage_uri := cd_storage_uri c |}.

Record ItemRequirement := {
  item_key : string;
  rq_type : string;
  required : bool;
  selection_policy : list (string * json);
  sort_order : Z
}.

Record MatchContext := {
  entity_key : string;
  entity_name : option string;
  jurisdiction_key : option string;
  jurisdiction_name : option string;
  license_type_key : option string;
  license_type_name : option string;
  today : option date
}.
Instance eta_context : Eta MatchContext := fun x =>
  {| entity_key := entity_key x; entity_name := entity_name x; jurisdiction_key := jurisdiction_key x;
     jurisdiction_name := jurisdiction_name x; license_type_key := license_type_key x; license_type_name := license_type_name x;
     today := today x |}.

Record Rejection := { rj_code : string; rj_detail : string; rj_status : string }.

Record MatchResult := {
  mr_item_key : string;
  mr_type : string;
  mr_required : bool;
  mr_sort_order : Z;
  mr_status : string;
  mr_document : option CandidateDocument;
  mr_reason : option string;
  mr_rejections : list Rejection;
  mr_considered : Z
}.

Definition is_included (r : MatchResult) : bool :=
  bool_decide (mr_status r ∈ value <$> [PacketItemStatus.MATCHED; PacketItemStatus.INCLUDED]).

Definition _CONFIDENTIALITY_ORDER : list (string * Z) :=
  [(value ConfidentialityLevel.INTERNAL, 1); (value ConfidentialityLevel.CONFIDENTIAL, 2);
   (value ConfidentialityLevel.RESTRICTED, 3)].

(** A key that is [None] or empty is not compared. *)
Definition _matches_scope (v : option string) (keys : list (option string)) : bool :=
  match v with
  | Some s =>
      if bool_decide (strip s = "") then false
      else existsb (fun k => match k with
        | Some k => negb (bool_decide (k = "")) && bool_decide (str_lower (strip s) = str_lower (strip k))
        | None => false end) keys
  | None => false
  end.

Section Matching.
Context (py_str : json -> string) (clock : date).

Definition strategy (r : ItemRequirement) : string :=
  match dget "strategy" (selection_policy r) with
  | Some v => text_of py_str v | None => value SelectionStrategy.LATEST_APPROVED end.

Definition max_age_days (r : ItemRequirement) : result exn (option Z) :=
  match dget "max_age_days" (selection_policy r) with
  | Some v => if truthy v then Some <$> py_int v else Ok None
  | None => Ok None
  end.

Definition require_reuse_approval (r : ItemRequirement) : bool :=
  match dget "require_reuse_approval" (selection_policy r) with Some v => truthy v | None => false end.

Definition max_confidentiality (r : ItemRequirement) : string :=
  match dget "max_confidentiality" (selection_policy r) with
  | Some v => text_of py_str v | None => value ConfidentialityLevel.RESTRICTED end.

Definition explicit_document_id (r : ItemRequirement) : option string :=
  match dget "document_id" (selection_policy r) with
  | Some v => if truthy v then parse_uuid (text_of py_str v) else None
  | None => None
  end.

Definition problem (b : bool) (code : PacketValidationCode.PacketValidationCode) (detail : string)
    (st : PacketItemStatus.PacketItemStatus) : list Rejection :=
  if b then [{| rj_code := value code; rj_detail := detail; rj_status := value st |}] else [].

Definition reference (ctx : MatchContext) : date := default clock (today ctx).

Definition wrong_type (c : CandidateDocument) (r : ItemRequirement) : bool := negb (bool_decide (cd_type c = rq_type r)).
Definition wrong_entity (c : CandidateDocument) (ctx : MatchContext) : bool :=
  negb (_matches_scope (cd_legal_entity c) [Some (entity_key ctx); entity_name ctx]).
Definition wrong_jurisdiction (c : CandidateDocument) (ctx : MatchContext) : bool :=
  truthy_str (cd_jurisdiction c) && truthy_str (jurisdiction_key ctx) &&
  negb (_matches_scope (cd_jurisdiction c) [jurisdiction_key ctx; jurisdiction_name ctx]).

Definition lifecycle_problems (s : string) : list Rejection :=
  if bool_decide (s = value LifecycleStatus.EXPIRED) then
    problem true PacketValidationCode.DOCUMENT_EXPIRED "The document lifecycle status is EXPIRED." PacketItemStatus.EXPIRED
  else if bool_decide (s = value LifecycleStatus.SUPERSEDED) then
    problem true PacketValidationCode.DOCUMENT_SUPERSEDED "A newer version supersedes this document." PacketItemStatus.EXPIRED
  else if bool_decide (s = value LifecycleStatus.QUARANTINED) then
    problem true PacketValidationCode.DOCUMENT_QUARANTINED "The document is quarantined." PacketItemStatus.UNAPPROVED
  else
    problem (negb (bool_decide (s = value LifecycleStatus.ACTIVE))) PacketValidationCode.DOCUMENT_NOT_AVAILABLE
      ("Lifecycle status " +:+ s +:+ " is not includable.") PacketItemStatus.UNAPPROVED.

Definition expired (c : CandidateDocument) (ctx : MatchContext) : bool :=
  match cd_expiry_date c with Some e => e <? reference ctx | None => false end.

Definition age_problems (limit : option Z) (c : CandidateDocument) (ctx : MatchContext) : list Rejection :=
  match limit, cd_effective_date c with
  | Some n, Some e =>
      problem (negb (n =? 0) && (n <? reference ctx - e)) PacketValidationCode.DOCUMENT_EXPIRED
        ("The document is " +:+ pretty (reference ctx - e) +:+ " days old, beyond the " +:+ pretty n +:+
         "-day limit for this item.") PacketItemStatus.EXPIRED
  | _, _ => []
  end.

Definition too_confidential (c : CandidateDocument) (r : ItemRequirement) : bool :=
  default 3 (dget (max_confidentiality r) _CONFIDENTIALITY_ORDER) <?
  default 3 (dget (cd_confidentiality c) _CONFIDENTIALITY_ORDER).

Definition hashes_differ (c : CandidateDocument) : bool :=
  truthy_str (cd_content_sha256 c) && truthy_str (cd_version_sha256 c) &&
  negb (bool_decide (cd_content_sha256 c = cd_version_sha256 c)).

Definition evaluate_candidate (c : CandidateDocument) (r : ItemRequirement) (ctx : MatchContext)
    : result exn (list Rejection) :=
  limit ← max_age_days r;
  Ok (problem (wrong_type c r) PacketValidationCode.REQUIRED_ITEM_MISSING
        ("Document type " +:+ cd_type c +:+ " does not satisfy " +:+ rq_type r +:+ ".") PacketItemStatus.MISSING ++
      problem (wrong_entity c ctx) PacketValidationCode.DOCUMENT_WRONG_ENTITY
        "The document is not scoped to this legal entity." PacketItemStatus.WRONG_ENTITY ++
      problem (wrong_jurisdiction c ctx) PacketValidationCode.DOCUMENT_WRONG_JURISDICTION
        "The document belongs to a different jurisdiction." PacketItemStatus.WRONG_JURISDICTION ++
      problem (negb (bool_decide (cd_approval c = value ApprovalStatus.APPROVED))) PacketValidationCode.DOCUMENT_NOT_APPROVED
        ("Approval status is " +:+ cd_approval c +:+ ".") PacketItemStatus.UNAPPROVED ++
      lifecycle_problems (cd_lifecycle c) ++
      problem (expired c ctx) PacketValidationCode.DOCUMENT_EXPIRED
        ("The document expired on " +:+ default "" (isoformat <$> cd_expiry_date c) +:+ ".") PacketItemStatus.EXPIRED ++
      age_problems limit c ctx ++
      problem (negb (bool_decide (cd_storage c = value StorageStatus.AVAILABLE))) PacketValidationCode.DOCUMENT_NOT_AVAILABLE
        ("Storage status is " +:+ cd_storage c +:+ ".") PacketItemStatus.MISSING ++
      problem (negb (cd_is_current c)) PacketValidationCode.DOCUMENT_SUPERSEDED
        "Only the current version of a document may be packaged." PacketItemStatus.EXPIRED ++
      problem (require_reuse_approval r && negb (cd_approved_for_reuse c)) PacketValidationCode.DOCUMENT_REUSE_NOT_APPROVED
        "This item requires a document explicitly approved for reuse." PacketItemStatus.UNAPPROVED ++
      problem (too_confidential c r) PacketValidationCode.CONFIDENTIALITY_NOT_PERMITTED
        ("Confidentiality " +:+ cd_confidentiality c +:+ " exceeds what this item permits.") PacketItemStatus.EXCLUDED ++
      problem (hashes_differ c) PacketValidationCode.DOCUMENT_HASH_MISMATCH
        "The catalogue hash does not match the stored version hash." PacketItemStatus.EXCLUDED ++
      problem (negb (truthy_str (cd_content_sha256 c)) && negb (truthy_str (cd_version_sha256 c)))
        PacketValidationCode.DOCUMENT_HASH_MISMATCH "The document has no recorded content hash." PacketItemStatus.EXCLUDED ++
      problem (negb (truthy_opt (cd_version_id c)) || negb (truthy_str (cd_storage_uri c)))
        PacketValidationCode.SOURCE_STORAGE_MISSING "No retrievable stored version is linked to this document."
        PacketItemStatus.MISSING).

(** ** Choosing *)

(** A sort key: one date, or an approval time and a date.  [date.min] stands in for a
    missing value; a [date] and a [datetime] do not compare. *)
Definition by_date (s : string) (c : CandidateDocument) : option date :=
  if bool_decide (s = value SelectionStrategy.LONGEST_VALIDITY) then Some (default MAXORDINAL (cd_expiry_date c))
  else if bool_decide (s = value SelectionStrategy.LATEST_EFFECTIVE) then Some (default 1 (cd_effective_date c))
  else None.

Definition effective_or_min (c : CandidateDocument) : date := default 1 (cd_effective_date c).

(** [_sort_key(s, a) < _sort_key(s, b)]. *)
Definition key_ltb (s : string) (a b : CandidateDocument) : result exn bool :=
  match by_date s a, by_date s b with
  | Some x, Some y => Ok (x <? y)
  | _, _ =>
      match cd_approved_at a, cd_approved_at b with
      | Some x, Some y => Ok (if x =? y then effective_or_min a <? effective_or_min b else x <? y)
      | None, None => Ok (effective_or_min a <? effective_or_min b)
      | _, _ => Err TypeError
      end
  end.

(** [sorted(l, key, reverse=True)[0]]: the first of the greatest.  Every sort compares
    enough pairs to connect all elements, so a pair that does not compare raises. *)
Fixpoint first_greatest (s : string) (x : CandidateDocument) (l : list CandidateDocument) : result exn CandidateDocument :=
  match l with
  | [] => Ok x
  | y :: l => less ← key_ltb s x y; first_greatest s (if (less : bool) then y else x) l
  end.

Definition priority : list PacketItemStatus.PacketItemStatus :=
  [PacketItemStatus.WRONG_ENTITY; PacketItemStatus.WRONG_JURISDICTION; PacketItemStatus.EXPIRED;
   PacketItemStatus.UNAPPROVED; PacketItemStatus.EXCLUDED; PacketItemStatus.MISSING].

Definition informative_status (l : list Rejection) : string :=
  default (value PacketItemStatus.MISSING)
    (head (filter (fun s => s ∈ rj_status <$> l) (value <$> priority))).

Definition match_result (r : ItemRequirement) (status : string) (doc : option CandidateDocument) (reason : string)
    (rejections : list Rejection) (considered : list CandidateDocument) : MatchResult :=
  {| mr_item_key := item_key r; mr_type := rq_type r; mr_required := required r; mr_sort_order := sort_order r;
     mr_status := status; mr_document := doc; mr_reason := Some reason; mr_rejections := rejections;
     mr_considered := Z.of_nat (length considered) |}.

(** The candidates with their problems. *)
Definition judged (r : ItemRequirement) (ctx : MatchContext) (l : list CandidateDocument)
    : result exn (list (CandidateDocument * list Rejection)) :=
  mapR (fun c => ps ← evaluate_candidate c r ctx; Ok (c, ps)) l.

Definition relevant (r : ItemRequirement) (l : list CandidateDocument) : list CandidateDocument :=
  let l := filter (fun c => cd_type c = rq_type r) l in
  match explicit_document_id r with Some i => filter (fun c => cd_document_id c = i) l | None => l end.

Definition match_item (r : ItemRequirement) (candidates : list CandidateDocument) (ctx : MatchContext)
    : result exn MatchResult :=
  if bool_decide (strategy r = value SelectionStrategy.MANUAL_ONLY) then
    Ok (match_result r (value PacketItemStatus.MISSING) None "This item is configured for manual selection only." []
          (filter (fun c => cd_type c = rq_type r) candidates))
  else
    let l := relevant r candidates in
    js ← judged r ctx l;
    let eligible := fst <$> filter (fun j => j.2 = []) js in
    let rejections := js ≫= snd in
    match eligible with
    | c :: cs =>
        chosen ← first_greatest (strategy r) c cs;
        Ok (match_result r (value PacketItemStatus.MATCHED) (Some chosen)
              ("Selected by " +:+ strategy r +:+ " from " +:+ pretty (Z.of_nat (length eligible)) +:+
               " eligible document(s) of " +:+ pretty (Z.of_nat (length l)) +:+ " considered.") [] l)
    | [] =>
        Ok (match_result r (informative_status rejections) None
              (match rejections with p :: _ => rj_detail p | [] => "No document of this type exists for this entity." end)
              rejections l)
    end.

Definition requirement_leb (a b : ItemRequirement) : bool :=
  if sort_order a =? sort_order b then str_leb (item_key a) (item_key b) else sort_order a <? sort_order b.

Definition match_all (rs : list ItemRequirement) (candidates : list CandidateDocument) (ctx : MatchContext)
    : result exn (list MatchResult) :=
  mapR (fun r => match_item r candidates ctx) (py_sorted requirement_leb rs).
(** ** What is eligible *)

Lemma Ok_inj {E A} (a b : A) : @Ok E A a = Ok b <-> a = b.
Proof. split; [by intros [= ->] | by intros ->]. Qed.

Lemma problem_nil b code d st : problem b code d st = [] <-> b = false.
Proof. by destruct b. Qed.

Lemma lifecycle_nil s : lifecycle_problems s = [] <-> s = value LifecycleStatus.ACTIVE.
Proof.
  unfold lifecycle_problems.
  do 3 (case_bool_decide; [split; [discriminate | by intros ->] |]).
  rewrite problem_nil, negb_false_iff, bool_decide_eq_true. done.
Qed.

(** Neither the licence type of the document nor that of the case matters. *)
Lemma license_type_ignored c r ctx t k n :
  evaluate_candidate (c <| cd_license_type := t |>) r (ctx <| license_type_key := k |> <| license_type_name := n |>) = evaluate_candidate c r ctx.
Proof. done. Qed.

(** The limit on the age of an item's document is kept. *)
Definition young_enough (limit : option Z) (c : CandidateDocument) (ctx : MatchContext) : Prop :=
  forall n e, limit = Some n -> n <> 0 -> cd_effective_date c = Some e -> reference ctx - e <= n.

Lemma age_nil limit c ctx : age_problems limit c ctx = [] <-> young_enough limit c ctx.
Proof.
  unfold age_problems, young_enough. destruct limit as [n|], (cd_effective_date c) as [e|]; try (split; [naive_solver | done]).
  rewrite problem_nil. destruct (Z.eqb_spec n 0); cbn; [naive_solver lia|]. rewrite Z.ltb_ge. naive_solver.
Qed.

(** A document that may go into the packet. *)
Record eligible (c : CandidateDocument) (r : ItemRequirement) (ctx : MatchContext) (limit : option Z) : Prop := {
  el_type : cd_type c = rq_type r;
  el_entity : _matches_scope (cd_legal_entity c) [Some (entity_key ctx); entity_name ctx] = true;
  el_jurisdiction : wrong_jurisdiction c ctx = false;
  el_approved : cd_approval c = value ApprovalStatus.APPROVED;
  el_active : cd_lifecycle c = value LifecycleStatus.ACTIVE;
  el_in_date : forall e, cd_expiry_date c = Some e -> reference ctx <= e;
  el_age : young_enough limit c ctx;
  el_stored : cd_storage c = value StorageStatus.AVAILABLE;
  el_current : cd_is_current c = true;
  el_reuse : require_reuse_approval r = true -> cd_approved_for_reuse c = true;
  el_confidentiality : too_confidential c r = false;
  el_hash : hashes_differ c = false /\ (truthy_str (cd_content_sha256 c) || truthy_str (cd_version_sha256 c)) = true;
  el_source : is_Some (cd_version_id c) /\ truthy_str (cd_storage_uri c) = true
}.

Lemma evaluate_candidate_nil c r ctx :
  evaluate_candidate c r ctx = Ok [] <-> exists limit, max_age_days r = Ok limit /\ eligible c r ctx limit.
Proof.
  unfold evaluate_candidate. destruct (max_age_days r) as [limit|e]; msimpl; [|split; [done | by intros (? & ? & _)]].
  transitivity (eligible c r ctx limit); [|split; [by exists limit | by intros (? & [= <-] & ?)]].
  rewrite Ok_inj, !app_nil, !problem_nil, lifecycle_nil, age_nil.
  unfold wrong_type, wrong_entity, expired. rewrite !negb_false_iff, !bool_decide_eq_true, !orb_false_iff, !negb_false_iff.
  assert (truthy_opt (cd_version_id c) = true <-> is_Some (cd_version_id c)) as -> by apply bool_decide_eq_true.
  split.
  - intros (? & ? & ? & ? & ? & He & ? & ? & ? & Hr & ? & ? & Hh & ? & ?). split; try done.
    + intros e Ee. rewrite Ee in He. lia.
    + intros E. rewrite E in Hr. by destruct (cd_approved_for_reuse c).
    + split; [done|]. by destruct (truthy_str _), (truthy_str _).
  - intros [? ? ? ? ? He ? ? ? Hr ? [? Hh] [? ?]]. split_and!; try done.
    + destruct (cd_expiry_date c) as [e|]; [|done]. specialize (He e eq_refl). lia.
    + destruct (require_reuse_approval r); [by rewrite Hr | done].
    + by destruct (truthy_str _), (truthy_str _).
Qed.

(** ** The choice *)

Lemma key_ltb_refl s a : key_ltb s a a = Ok false.
Proof.
  unfold key_ltb. destruct (by_date s a); [by rewrite Z.ltb_irrefl|].
  destruct (cd_approved_at a); [|by rewrite Z.ltb_irrefl]. by rewrite Z.eqb_refl, Z.ltb_irrefl.
Qed.

Lemma by_date_None s a b : by_date s a = None -> by_date s b = None.
Proof. unfold by_date. by repeat case_match. Qed.

Lemma key_ltb_asym s a b : key_ltb s a b = Ok true -> key_ltb s b a = Ok false.
Proof.
  unfold key_ltb. destruct (by_date s a) as [x|] eqn:Ea; [|rewrite (by_date_None s a b Ea)].
  - destruct (by_date s b) as [y|] eqn:Eb; [|by rewrite (by_date_None s b a Eb) in Ea]. intros [= H]. f_equal. lia.
  - destruct (cd_approved_at a) as [x|], (cd_approved_at b) as [y|]; try done; intros [= H]; f_equal; [|lia].
    revert H. destruct (Z.eqb_spec x y), (Z.eqb_spec y x); lia.
Qed.

Lemma key_ltb_trans s a b c : key_ltb s a b = Ok false -> key_ltb s b c = Ok false -> key_ltb s a c = Ok false.
Proof.
  unfold key_ltb. destruct (by_date s a) as [x|] eqn:Ea.
  - destruct (by_date s b) as [y|] eqn:Eb; [|by rewrite (by_date_None s b a Eb) in Ea].
    destruct (by_date s c) as [z|] eqn:Ec; [|by rewrite (by_date_None s c a Ec) in Ea]. intros [= ?] [= ?]. f_equal. lia.
  - rewrite (by_date_None s a b Ea). rewrite ?(by_date_None s a c Ea).
    destruct (cd_approved_at a) as [x|], (cd_approved_at b) as [y|], (cd_approved_at c) as [z|]; try done;
      intros [= H1] [= H2]; f_equal; [|lia].
    revert H1 H2. destruct (Z.eqb_spec x y), (Z.eqb_spec y z), (Z.eqb_spec x z); lia.
Qed.

Lemma first_greatest_spec s x l m :
  first_greatest s x l = Ok m -> m ∈ x :: l /\ forall y, y ∈ x :: l -> key_ltb s m y = Ok false.
Proof.
  revert x. induction l as [|y l IH]; intros x H; cbn in H.
  - injection H as <-. split; [left|]. intros y ->%list_elem_of_singleton. apply key_ltb_refl.
  - apply bind_Ok_inv in H as (less & Hl & H). apply IH in H as [Hm Hmax].
    assert (key_ltb s (if less then y else x) x = Ok false /\ key_ltb s (if less then y else x) y = Ok false) as [Hx Hy].
    { destruct less; split; auto using key_ltb_refl, key_ltb_asym. }
    assert (key_ltb s m (if less then y else x) = Ok false) as Hw by (apply Hmax; left).
    split.
    + apply elem_of_cons in Hm as [-> | Hm]; [destruct less; [right; left | left] | by do 2 right].
    + intros z. rewrite !elem_of_cons. intros [-> | [-> | Hz]].
      * by eapply key_ltb_trans.
      * by eapply key_ltb_trans.
      * apply Hmax. by right.
Qed.

Lemma judged_in r ctx l js c ps :
  judged r ctx l = Ok js -> (c, ps) ∈ js <-> c ∈ l /\ evaluate_candidate c r ctx = Ok ps.
Proof.
  unfold judged. rewrite mapR_Forall2. induction 1 as [|c0 j l js H _ IH]; [by rewrite !elem_of_nil; tauto|].
  apply bind_Ok_inv in H as (ps0 & He & [= <-]). rewrite !elem_of_cons, IH. split.
  - intros [[= -> ->]|[? ?]]; auto.
  - intros [[-> | ?] H']; [left; congruence | auto].
Qed.

Lemma informative_not_included l : informative_status l ∉ value <$> [PacketItemStatus.MATCHED; PacketItemStatus.INCLUDED].
Proof.
  unfold informative_status. destruct (head (filter _ (value <$> priority))) as [s|] eqn:Eh.
  - apply head_Some_elem_of, list_elem_of_filter in Eh as [_ Hin]. cbn in Hin |- *.
    rewrite !elem_of_cons, elem_of_nil in Hin. apply (bool_decide_unpack _).
    destruct_or! Hin; subst; by vm_compute.
  - apply (bool_decide_unpack _). by vm_compute.
Qed.

Lemma match_keeps_key r candidates ctx res : match_item r candidates ctx = Ok res -> mr_item_key res = item_key r.
Proof.
  unfold match_item. case_bool_decide as Es; [by intros [= <-]|]. intros (js & _ & H)%bind_Ok_inv. cbv zeta in H.
  destruct (fst <$> _) as [|c cs]; [by injection H as <-|]. by apply bind_Ok_inv in H as (m & _ & [= <-]).
Qed.

(** What an item of the checklist gets.  A matched document is one of the stored
    ones, of the item's type, the one the policy names if it names one, and meets every
    condition of eligibility; no other eligible document precedes it in the order of
    the strategy.  Without a match no candidate is eligible, and the status says the
    most specific thing that stood against one of them.  An item for manual selection
    is never matched. *)
Lemma match_item_sound r candidates ctx res :
  match_item r candidates ctx = Ok res ->
  mr_item_key res = item_key r /\ mr_required res = required r /\ mr_sort_order res = sort_order r /\
  match mr_document res with
  | Some c =>
      mr_status res = value PacketItemStatus.MATCHED /\ c ∈ candidates /\
      strategy r <> value SelectionStrategy.MANUAL_ONLY /\
      (forall i, explicit_document_id r = Some i -> cd_document_id c = i) /\
      (exists limit, max_age_days r = Ok limit /\ eligible c r ctx limit) /\
      forall c', c' ∈ relevant r candidates -> evaluate_candidate c' r ctx = Ok [] -> key_ltb (strategy r) c c' = Ok false
  | None =>
      is_included res = false /\
      (strategy r = value SelectionStrategy.MANUAL_ONLY \/
       (forall c, c ∈ relevant r candidates -> evaluate_candidate c r ctx <> Ok []) /\
       mr_status res = informative_status (mr_rejections res) /\
       forall p, p ∈ mr_rejections res <-> exists c ps, c ∈ relevant r candidates /\
                                             evaluate_candidate c r ctx = Ok ps /\ p ∈ ps)
  end.
Proof.
  unfold match_item. intros H. case_bool_decide as Es.
  { injection H as <-. split_and!; try done. cbn. split; [by vm_compute | by left]. }
  apply bind_Ok_inv in H as (js & Hj & H). cbv zeta in H.
  destruct (fst <$> filter (fun j => j.2 = []) js) as [|c cs] eqn:Ee.
  - injection H as <-. split_and!; try done. cbn [match_result mr_document mr_status mr_rejections].
    split; [|right; split_and!; [| done |]].
    + apply bool_decide_eq_false, informative_not_included.
    + intros c Hc He. assert ((c, []) ∈ js) as Hin by by apply (judged_in _ _ _ _ _ _ Hj).
      assert (c ∈ fst <$> filter (fun j => j.2 = []) js) as Hf.
      { apply list_elem_of_fmap. exists (c, []). split; [done|]. by apply list_elem_of_filter. }
      rewrite Ee in Hf. by apply not_elem_of_nil in Hf.
    + intros p. rewrite list_elem_of_bind. split.
      * intros ([c ps] & Hp & Hin). apply (judged_in _ _ _ _ _ _ Hj) in Hin as [? ?]. by exists c, ps.
      * intros (c & ps & Hc & He & Hp). exists (c, ps). split; [done|]. by apply (judged_in _ _ _ _ _ _ Hj).
  - apply bind_Ok_inv in H as (m & Hm & [= <-]). split_and!; try done. cbn [match_result mr_document mr_status].
    apply first_greatest_spec in Hm as [Hin Hmax]. rewrite <-Ee in Hin.
    assert (forall c', c' ∈ fst <$> filter (fun j => j.2 = []) js <->
                       c' ∈ relevant r candidates /\ evaluate_candidate c' r ctx = Ok []) as Hel.
    { intros c'. rewrite list_elem_of_fmap. split.
      - intros ([c0 ps] & -> & [Hps Hc0]%list_elem_of_filter). cbn in Hps |- *. subst ps.
        by apply (judged_in _ _ _ _ _ _ Hj).
      - intros Hc'. exists (c', []). split; [done|]. apply list_elem_of_filter. split; [done|].
        by apply (judged_in _ _ _ _ _ _ Hj). }
    apply Hel in Hin as [Hr He]. apply evaluate_candidate_nil in He as (limit & Hlim & Hok).
    unfold relevant in Hr. split_and!; try done.
    + destruct (explicit_document_id r); rewrite ?list_elem_of_filter in Hr; tauto.
    + intros i Ei. rewrite Ei, list_elem_of_filter in Hr. tauto.
    + by exists limit.
    + intros c' Hc' He'. apply Hmax. rewrite <-Ee. by apply Hel.
Qed.

(** The order of the results. *)
Lemma requirement_leb_total a b : requirement_leb a b = true \/ requirement_leb b a = true.
Proof.
  unfold requirement_leb. destruct (Z.eqb_spec (sort_order a) (sort_order b)), (Z.eqb_spec (sort_order b) (sort_order a));
    try lia. apply str_leb_total.
Qed.

Lemma match_all_keys rs candidates ctx results :
  match_all rs candidates ctx = Ok results -> mr_item_key <$> results ≡ₚ item_key <$> rs.
Proof.
  unfold match_all. intros H. rewrite <-(py_sorted_perm requirement_leb rs).
  apply mapR_Forall2 in H. induction H as [|r res l l' H _ IH]; [done|]. cbn.
  apply match_keeps_key in H as ->. by rewrite IH.
Qed.
End Matching.
