(* ===== verification/PacketManifest.v ===== *)
(** * Names and manifests of a packet ([app/packets/manifests.py])

    File names inside an archive, the manifest that identifies a packet, its hash, the
    cover sheet, and the files an archive is made of.  Text is ASCII, so Unicode
    normalization is the identity.  The ZIP container is the standard library's. *)
From Stdlib Require Import Ascii.
From stdpp Require Import pretty.
From S2P Require Import Prelude PyDate PyJson PyUrl CanonJson.
Open Scope Z_scope.

(** ** Names *)

Definition MAX_FILENAME_LENGTH : nat := 120.

Definition numbered (s : string) : list string := (fun n => s +:+ pretty n) <$> seqZ 1 9.

Definition _RESERVED_NAMES : list string := ["CON"; "PRN"; "AUX"; "NUL"] ++ numbered "COM" ++ numbered "LPT".

Definition unsafe (c : ascii) : bool :=
  (N_of_ascii c <? 32)%N ||
  bool_decide (c ∈ ["<"; ">"; ":"; ascii_of_nat 34; "/"; "\"; "|"; "?"; "*"]%char).

Fixpoint str_filter (p : ascii -> bool) (s : string) : string :=
  match s with
  | "" => ""
  | String c s => if p c then String c (str_filter p s) else str_filter p s
  end.

(** The part after the last separator. *)
Fixpoint after_last (p : ascii -> bool) (s : string) : option string :=
  match s with
  | "" => None
  | String c s =>
      match after_last p s with
      | Some t => Some t
      | None => if p c then Some s else None
      end
  end.

Definition basename (s : string) : string :=
  default s (after_last (fun c => bool_decide (c = "/"%char) || bool_decide (c = "\"%char)) s).

(** [re.sub(r"[\s_]+", " ", s)]; [inside] a run. *)
Fixpoint collapse (inside : bool) (s : string) : string :=
  match s with
  | "" => ""
  | String c s =>
      if is_space c || bool_decide (c = "_"%char)
      then if inside then collapse true s else String " " (collapse true s)
      else String c (collapse false s)
  end.

Definition is_dot (c : ascii) : bool := bool_decide (c = "."%char).

(** [s.rpartition(".")]: the stem and the extension, if there is a dot. *)
Fixpoint rpartition (s : string) : option (string * string) :=
  match s with
  | "" => None
  | String c s' =>
      match rpartition s' with
      | Some (stem, ext) => Some (String c stem, ext)
      | None => if is_dot c then Some ("", s') else None
      end
  end.

Definition alnum_char (c : ascii) : bool :=
  let n := N_of_ascii c in
  ((48 <=? n) && (n <=? 57) || (65 <=? n) && (n <=? 90) || (97 <=? n) && (n <=? 122))%N.

Fixpoint all_chars (p : ascii -> bool) (s : string) : bool :=
  match s with "" => true | String c s => p c && all_chars p s end.

Definition cleaned_name (name : string) : string :=
  strip (collapse false (strip_chars is_dot (strip (str_filter (fun c => negb (unsafe c)) (basename name))))).

(** Base and suffix of a cleaned name. *)
Definition split_name (s : string) : string * string :=
  match rpartition s with
  | Some (stem, ext) =>
      if (1 <=? String.length ext)%nat && (String.length ext <=? 8)%nat && all_chars alnum_char ext
      then (stem, "." +:+ str_lower ext) else (s, "")
  | None => (s, "")
  end.

Definition or_else (s fallback : string) : string := if bool_decide (s = "") then fallback else s.

(** [extension] is [None] or empty where the code passes none. *)
Definition safe_filename (name fallback extension : string) : string :=
  let '(stem, suffix0) := split_name (cleaned_name name) in
  let suffix := if bool_decide (extension = "") then suffix0
                else match extension with String "." _ => extension | _ => "." +:+ extension end in
  let base := or_else stem fallback in
  let base := if bool_decide (str_upper base ∈ _RESERVED_NAMES) then base +:+ "-file" else base in
  or_else (strip (str_take (MAX_FILENAME_LENGTH - String.length suffix) base)) fallback +:+ suffix.

(** Names that clash get a number; the set of names taken grows. *)
Definition split_taken (name : string) : string * string :=
  match rpartition name with Some (stem, ext) => (stem, "." +:+ ext) | None => (name, "") end.

Definition numbered_name (name : string) (i : Z) : string :=
  let '(base, suffix) := split_taken name in base +:+ " (" +:+ pretty i +:+ ")" +:+ suffix.

Definition unique_filename (name : string) (taken : gset string) : string * gset string :=
  let chosen :=
    if bool_decide (name ∉ taken) then name else
    match filter (fun i => numbered_name name i ∉ taken) (seqZ 2 998) with
    | i :: _ => numbered_name name i
    | [] => let '(base, suffix) := split_taken name in base +:+ "-" +:+ pretty (Z.of_nat (size taken)) +:+ suffix
    end in
  (chosen, {[chosen]} ∪ taken).

(** ** The manifest *)

Record ManifestEntry := {
  me_item_key : string;
  me_type : string;
  me_document_id : string;
  me_document_version_id : option string;
  me_filename_in_archive : string;
  me_source_filename : string;
  me_sha256 : option string;
  me_size_bytes : Z;
  me_effective_date : option string;
  me_expiry_date : option string;
  me_sort_order : Z
}.

Record OmittedEntry := {
  om_item_key : string;
  om_type : string;
  om_required : bool;
  om_status : string;
  om_reason : string
}.

Definition opt_text (o : option string) : canon := match o with Some s => CStr s | None => CNull end.

(** [to_payload], with the keys in the order the hash writes them. *)
Definition entry_payload (e : ManifestEntry) : canon :=
  CDict [("document_id", CStr (me_document_id e)); ("document_type", CStr (me_type e));
         ("document_version_id", opt_text (me_document_version_id e));
         ("effective_date", opt_text (me_effective_date e)); ("expiry_date", opt_text (me_expiry_date e));
         ("filename_in_archive", CStr (me_filename_in_archive e)); ("item_key", CStr (me_item_key e));
         ("sha256", opt_text (me_sha256 e)); ("size_bytes", CInt (me_size_bytes e));
         ("sort_order", CInt (me_sort_order e)); ("source_filename", CStr (me_source_filename e))].

Definition omitted_payload (e : OmittedEntry) : canon :=
  CDict [("document_type", CStr (om_type e)); ("item_key", CStr (om_item_key e)); ("reason", CStr (om_reason e));
         ("required", CBool (om_required e)); ("status", CStr (om_status e))].

(** The stored payload. *)
Record Manifest := {
  mf_packet_key : string;
  mf_version : Z;
  mf_case_key : string;
  mf_legal_entity : string;
  mf_jurisdiction : option string;
  mf_license_type : option string;
  mf_template_key : option string;
  mf_included : list ManifestEntry;
  mf_omitted : list OmittedEntry;
  mf_missing : list OmittedEntry;
  mf_created_by : option string;
  mf_generated_at : string
}.

Definition entry_leb (a b : ManifestEntry) : bool :=
  if me_sort_order a =? me_sort_order b then str_leb (me_item_key a) (me_item_key b)
  else me_sort_order a <? me_sort_order b.

Definition omitted_leb (a b : OmittedEntry) : bool := str_leb (om_item_key a) (om_item_key b).

Definition count {A} (l : list A) : canon := CInt (Z.of_nat (length l)).

(** The lists of a manifest are in canonical order. *)
Definition build_manifest (packet_key : string) (version : Z) (case_key legal_entity : string)
    (jurisdiction license_type template_key : option string) (included : list ManifestEntry) (omitted missing : list OmittedEntry)
    (created_by : option string) (generated_at : string) : Manifest :=
  {| mf_packet_key := packet_key; mf_version := version; mf_case_key := case_key; mf_legal_entity := legal_entity;
     mf_jurisdiction := jurisdiction; mf_license_type := license_type; mf_template_key := template_key;
     mf_included := py_sorted entry_leb included; mf_omitted := py_sorted omitted_leb omitted;
     mf_missing := py_sorted omitted_leb missing; mf_created_by := created_by; mf_generated_at := generated_at |}.

(** The payload, by key; [generated_at] stands between the two parts. *)
Definition first_fields (m : Manifest) : list (string * canon) :=
  [("case_key", CStr (mf_case_key m)); ("created_by_actor", opt_text (mf_created_by m))].
Definition last_fields (m : Manifest) : list (string * canon) :=
  [("included", CList (entry_payload <$> mf_included m)); ("included_count", count (mf_included m));
   ("jurisdiction", opt_text (mf_jurisdiction m)); ("legal_entity", CStr (mf_legal_entity m));
   ("license_type", opt_text (mf_license_type m)); ("manifest_version", CInt 1);
   ("missing", CList (omitted_payload <$> mf_missing m)); ("missing_count", count (mf_missing m));
   ("omitted", CList (omitted_payload <$> mf_omitted m)); ("omitted_count", count (mf_omitted m));
   ("packet_key", CStr (mf_packet_key m)); ("packet_template_key", opt_text (mf_template_key m));
   ("packet_version", CInt (mf_version m))].

(** The fields that are hashed: all but [generated_at]. *)
Definition stable_fields (m : Manifest) : list (string * canon) := first_fields m ++ last_fields m.
Definition all_fields (m : Manifest) : list (string * canon) :=
  first_fields m ++ ("generated_at", CStr (mf_generated_at m)) :: last_fields m.

Definition manifest_sha256 (sha256 : string -> string) (m : Manifest) : string :=
  canonical_sha256 sha256 (CDict (stable_fields m)).

(** Retrieved bytes against the recorded hash. *)
Definition verify_entry_hash (sha256 : string -> string) (content : string) (expected : option string) : bool :=
  truthy_str expected && bool_decide (sha256 content = str_lower (default "" expected)).

(** ** Cover sheet and archive *)

Definition newline : string := String (ascii_of_nat 10) "".
Fixpoint repeated (n : nat) (s : string) : string := match n with O => "" | S n => s +:+ repeated n s end.
Definition line_break (level : nat) : string := newline +:+ repeated (2 * level) " ".

(** [json.dumps(v, indent=2, sort_keys=True)] at some depth. *)
Fixpoint dumps_indented (level : nat) (v : canon) : string :=
  match v with
  | CList (x :: l) =>
      "[" +:+ line_break (S level) +:+ dumps_indented (S level) x +:+
      (fix more l := match l with
       | [] => line_break level +:+ "]"
       | y :: l => "," +:+ line_break (S level) +:+ dumps_indented (S level) y +:+ more l end) l
  | CDict ((k, x) :: d) =>
      "{" +:+ line_break (S level) +:+ str_text k (": " +:+ dumps_indented (S level) x) +:+
      (fix more d := match d with
       | [] => line_break level +:+ "}"
       | (k, y) :: d => "," +:+ line_break (S level) +:+ str_text k (": " +:+ dumps_indented (S level) y) +:+ more d end) d
  | _ => dumps v ""
  end.

Definition or_text (o : option string) (alternative : string) : string := if truthy_str o then default "" o else alternative.
Definition text_or_none (o : option string) : string := default "None" o.
Definition pad_left (n : nat) (s : string) : string := repeated (n - String.length s) " " +:+ s.
Definition rule (c : string) : string := repeated 60 c.
Definition total {A} (l : list A) : string := pretty (Z.of_nat (length l)).

Definition cover_entry (e : ManifestEntry) : list string :=
  [pad_left 4 (pretty (me_sort_order e)) +:+ ". " +:+ me_filename_in_archive e;
   "      type:    " +:+ me_type e;
   "      sha256:  " +:+ text_or_none (me_sha256 e)] ++
  (if truthy_str (me_effective_date e) || truthy_str (me_expiry_date e)
   then ["      valid:   " +:+ or_text (me_effective_date e) "n/a" +:+ " to " +:+ or_text (me_expiry_date e) "no expiry"] else []).
Definition cover_missing (e : OmittedEntry) : list string :=
  ["  - [" +:+ (if om_required e then "REQUIRED" else "optional") +:+ "] " +:+ om_type e +:+ " (" +:+ om_item_key e +:+ ")";
   "      reason: " +:+ om_reason e].
Definition cover_omitted (e : OmittedEntry) : string := "  - " +:+ om_type e +:+ " (" +:+ om_item_key e +:+ "): " +:+ om_reason e.

(** A part of the sheet that is there only when it has lines. *)
Definition cover_part {A} (l : list A) (heading : string) (lines : list string) : list string :=
  match l with [] => [] | _ => [""; heading +:+ " (" +:+ total l +:+ ")"; rule "-"] ++ lines end.

Definition render_cover_sheet (m : Manifest) (instructions : option string) : string :=
  String.concat newline
    (["DOCUMENT PACKET COVER SHEET"; rule "=";
      "Packet:         " +:+ mf_packet_key m +:+ " (version " +:+ pretty (mf_version m) +:+ ")";
      "Case:           " +:+ mf_case_key m;
      "Legal entity:   " +:+ mf_legal_entity m;
      "Jurisdiction:   " +:+ or_text (mf_jurisdiction m) "Not jurisdiction-specific";
      "Licence type:   " +:+ or_text (mf_license_type m) "Not licence-specific";
      "Template:       " +:+ or_text (mf_template_key m) "Ad hoc";
      "Generated:      " +:+ mf_generated_at m;
      "Prepared by:    " +:+ or_text (mf_created_by m) "system"; "";
      "This packet was assembled from approved, in-date documents belonging to the";
      "legal entity named above. Approval of this packet confirms readiness for the";
      "next operational step only; it does not transmit or submit anything."; "";
      "INCLUDED DOCUMENTS (" +:+ total (mf_included m) +:+ ")"; rule "-"] ++
     (mf_included m ≫= cover_entry) ++
     cover_part (mf_missing m) "MISSING ITEMS" (mf_missing m ≫= cover_missing) ++
     cover_part (mf_omitted m) "DELIBERATELY OMITTED" (cover_omitted <$> mf_omitted m) ++
     (if truthy_str instructions then [""; "INSTRUCTIONS"; rule "-"; default "" instructions] else []) ++
     [""; rule "="; "End of cover sheet."]).

(** The files of an archive, in the order they are written. *)
Definition build_archive (m : Manifest) (files : gmap string string) (cover_sheet : option string) : list (string * string) :=
  match cover_sheet with Some c => [("00-cover-sheet.txt", c)] | None => [] end ++
  ("00-manifest.json", dumps_indented 0 (CDict (all_fields m))) ::
  py_sorted (fun a b => str_leb a.1 b.1) (map_to_list files).

(** ** Safe names *)

Lemma all_chars_app p a b : all_chars p (a +:+ b) = all_chars p a && all_chars p b.
Proof.
  induction a as [|c a IH]; [done|]. change (p c && all_chars p (a +:+ b) = p c && all_chars p a && all_chars p b).
  by rewrite IH, andb_assoc.
Qed.

Lemma rev_app_spec a b : String.rev_app a b = String.rev_app a "" +:+ b.
Proof.
  revert b. induction a as [|c a IH]; intros b; [done|]. cbn. rewrite IH, (IH (String c "")).
  by rewrite str_app_assoc.
Qed.

Lemma rev_cons c s : String.rev (String c s) = String.rev s +:+ String c "".
Proof. apply (rev_app_spec s (String c "")). Qed.

Section Chars.
Context (p : ascii -> bool).
Notation ok := (fun s => all_chars p s = true).

Lemma chars_rev s : ok s -> ok (String.rev s).
Proof.
  induction s as [|c s IH]; [done|]. cbn [all_chars]. intros [Hc Hs]%andb_true_iff.
  rewrite rev_cons, all_chars_app. cbn. by rewrite IH, Hc.
Qed.

Lemma chars_drop q s : ok s -> ok (drop_chars q s).
Proof. induction s as [|c s IH]; [done|]. intros H. cbn. destruct (q c); [|done]. apply IH. by apply andb_true_iff in H as [_ H]. Qed.

Lemma chars_strip_chars q s : ok s -> ok (strip_chars q s).
Proof. intros. by apply chars_rev, chars_drop, chars_rev, chars_drop. Qed.

Lemma chars_lstrip s : ok s -> ok (lstrip s).
Proof. induction s as [|c s IH]; [done|]. intros H. cbn. destruct (is_space c); [|done]. apply IH. by apply andb_true_iff in H as [_ H]. Qed.

Lemma chars_strip s : ok s -> ok (strip s).
Proof. intros. by apply chars_rev, chars_lstrip, chars_rev, chars_lstrip. Qed.

Lemma chars_take n s : ok s -> ok (str_take n s).
Proof.
  revert s. induction n as [|n IH]; intros [|c s] H; try done. cbn in *. apply andb_true_iff in H as [-> H]. by apply IH.
Qed.

Lemma chars_filter s : ok (str_filter p s).
Proof. induction s as [|c s IH]; [done|]. cbn. destruct (p c) eqn:E; [cbn; by rewrite E | done]. Qed.

Lemma chars_collapse b s : p " "%char = true -> ok s -> ok (collapse b s).
Proof.
  intros Hsp. revert b. induction s as [|c s IH]; intros b; [done|]. cbn [all_chars collapse]. intros [Hc Hs]%andb_true_iff.
  destruct (is_space c || _); [destruct b|]; cbn [all_chars]; rewrite ?Hsp, ?Hc; by apply IH.
Qed.

Lemma chars_rpartition s stem ext : ok s -> rpartition s = Some (stem, ext) -> ok stem.
Proof.
  revert stem. induction s as [|c s IH]; intros stem; [done|]. cbn [all_chars rpartition]. intros [Hc Hs]%andb_true_iff.
  destruct (rpartition s) as [[st e]|] eqn:E.
  - intros [= <- <-]. cbn. rewrite Hc. by apply IH.
  - destruct (is_dot c); [|done]. by intros [= <- _].
Qed.
End Chars.

Definition safe (c : ascii) : bool := negb (unsafe c).

Lemma lower_safe c : alnum_char c = true -> safe (lower_char c) = true.
Proof. destruct c as [[] [] [] [] [] [] [] []]; vm_compute; done. Qed.

Lemma lower_ext_safe s : all_chars alnum_char s = true -> all_chars safe (str_lower s) = true.
Proof.
  induction s as [|c s IH]; [done|]. cbn. intros [Hc Hs]%andb_true_iff. by rewrite lower_safe, IH.
Qed.

Lemma lower_length s : String.length (str_lower s) = String.length s.
Proof. induction s as [|c s IH]; [done|]. cbn. by rewrite IH. Qed.

Lemma lstrip_length s : (String.length (lstrip s) <= String.length s)%nat.
Proof. induction s as [|c s IH]; [done|]. cbn. destruct (is_space c); cbn; lia. Qed.

Lemma rev_length s : String.length (String.rev s) = String.length s.
Proof. induction s as [|c s IH]; [done|]. rewrite rev_cons, length_app_str, IH. cbn. lia. Qed.

Lemma strip_length s : (String.length (strip s) <= String.length s)%nat.
Proof.
  unfold strip. rewrite rev_length. etrans; [apply lstrip_length|]. rewrite rev_length. apply lstrip_length.
Qed.

Lemma split_name_safe s base suffix :
  all_chars safe s = true -> split_name s = (base, suffix) ->
  all_chars safe base = true /\ all_chars safe suffix = true /\ (String.length suffix <= 9)%nat.
Proof.
  intros Hs. unfold split_name. destruct (rpartition s) as [[stem ext]|] eqn:E; [|intros [= <- <-]; split_and!; cbn; lia || done].
  destruct (_ && _ && _) eqn:Ee; intros [= <- <-]; [|split_and!; cbn; lia || done].
  rewrite !andb_true_iff, !Nat.leb_le in Ee. destruct Ee as [[_ Hl] Ha]. split_and!.
  - by eapply chars_rpartition.
  - rewrite all_chars_app. cbn. by apply lower_ext_safe.
  - rewrite length_app_str, lower_length. cbn. lia.
Qed.

(** A cleaned name is safe and has 1 to 120 characters. *)
Lemma safe_filename_safe name :
  let f := safe_filename name "document" "" in
  all_chars safe f = true /\ (1 <= String.length f <= MAX_FILENAME_LENGTH)%nat.
Proof.
  cbv zeta. unfold safe_filename. destruct (split_name (cleaned_name name)) as [base suffix] eqn:E.
  cbn [bool_decide decide_rel]. rewrite bool_decide_eq_true_2 by done.
  assert (all_chars safe (cleaned_name name) = true) as Hc.
  { unfold cleaned_name. apply chars_strip, chars_collapse; [done|]. apply chars_strip_chars, chars_strip, chars_filter. }
  destruct (split_name_safe _ _ _ Hc E) as (Hb & Hs & Hl).
  set (b := if bool_decide _ then _ else _).
  assert (all_chars safe b = true) as Hbs.
  { unfold b, or_else. repeat case_bool_decide; rewrite ?all_chars_app, ?Hb; done. }
  pose proof (strip_length (str_take (MAX_FILENAME_LENGTH - String.length suffix) b)) as Hlen.
  pose proof (str_take_length (MAX_FILENAME_LENGTH - String.length suffix) b) as Htake.
  unfold MAX_FILENAME_LENGTH in *.
  rewrite all_chars_app, length_app_str, Hs, andb_true_r. unfold or_else. case_bool_decide as Ee.
  - split; [done|]. cbn. lia.
  - split; [by apply chars_strip, chars_take|].
    destruct (strip _) as [|c t]; [done|]. cbn in Hlen |- *. lia.
Qed.

(** Two dots can remain: they are hidden behind underscores until the last step. *)
Example dots_survive : safe_filename "_.._" "document" "" = "..".
Proof. reflexivity. Qed.

(** ** Names that do not clash *)

Lemma str_app_inj a b c : a +:+ b = a +:+ c -> b = c.
Proof. induction a as [|x a IH]; [done|]. intros E. injection E as E. by apply IH. Qed.

#[export] Instance numbered_name_inj name : Inj (=) (=) (numbered_name name).
Proof.
  intros i j. unfold numbered_name. destruct (split_taken name) as [base suffix]. intros E%str_app_inj%str_app_inj.
  apply num_split in E as [E _]; [by apply (inj pretty) in E | apply pretty_Z_num..| done | done].
Qed.

Lemma rpartition_join s stem ext : rpartition s = Some (stem, ext) -> s = stem +:+ "." +:+ ext.
Proof.
  revert stem. induction s as [|c s IH]; intros stem; [done|]. cbn [rpartition].
  destruct (rpartition s) as [[st e]|] eqn:E.
  - intros [= <- <-]. specialize (IH st eq_refl). by rewrite IH at 1.
  - destruct (is_dot c) eqn:Ed; [|done]. intros [= <- <-]. by apply bool_decide_eq_true in Ed as ->.
Qed.

Lemma numbered_name_new name i : numbered_name name i <> name.
Proof.
  intros E. unfold numbered_name, split_taken in E. destruct (rpartition name) as [[stem ext]|] eqn:Er.
  - apply rpartition_join in Er. rewrite Er in E. apply str_app_inj in E.
    apply (f_equal String.length) in E. rewrite !length_app_str in E. cbn in E. lia.
  - apply (f_equal String.length) in E. rewrite !length_app_str in E. cbn in E. lia.
Qed.

(** Fewer than 999 names leave a number free for one that is taken. *)
Lemma number_free name (taken : gset string) : (size taken < 999)%nat -> name ∈ taken ->
  filter (fun i => numbered_name name i ∉ taken) (seqZ 2 998) <> [].
Proof.
  intros Hsize Hn E.
  assert (forall i, i ∈ seqZ 2 998 -> numbered_name name i ∈ taken) as Hall.
  { intros i Hi. destruct (decide (numbered_name name i ∈ taken)) as [|Hni]; [done|].
    assert (i ∈ filter (fun i => numbered_name name i ∉ taken) (seqZ 2 998)) as Hin by by apply list_elem_of_filter.
    rewrite E in Hin. by apply not_elem_of_nil in Hin. }
  assert (list_to_set (numbered_name name <$> seqZ 2 998) ⊆ taken ∖ {[name]}) as Hsub.
  { intros x Hx. apply elem_of_list_to_set, list_elem_of_fmap in Hx as (i & -> & Hi).
    apply elem_of_difference. split; [by apply Hall|]. rewrite elem_of_singleton. apply numbered_name_new. }
  apply subseteq_size in Hsub. rewrite size_list_to_set in Hsub; [|apply (NoDup_fmap_2 _), NoDup_seqZ].
  rewrite length_fmap, length_seqZ, size_difference, size_singleton in Hsub by set_solver. lia.
Qed.

(** Names in one archive are distinct: a name that is taken gets a number, and as
    long as fewer than 999 names are taken the chosen one is not among them. *)
Lemma unique_filename_new name taken :
  (size taken < 999)%nat ->
  (unique_filename name taken).1 ∉ taken.
Proof.
  intros Hsize. unfold unique_filename. cbn [fst]. case_bool_decide as Hn; [done|].
  destruct (filter (fun i => numbered_name name i ∉ taken) (seqZ 2 998)) as [|i l] eqn:E.
  - exfalso. apply (number_free name taken); done.
  - assert (i ∈ filter (fun i => numbered_name name i ∉ taken) (seqZ 2 998)) as Hin by (rewrite E; left).
    by apply list_elem_of_filter in Hin as [? _].
Qed.

Lemma digits_safe s : all_num s = true -> all_chars safe s = true.
Proof.
  induction s as [|c s IH]; [done|]. cbn. intros [Hc Hs]%andb_true_iff. rewrite IH by done.
  assert (safe c = true) as ->; [|done]. revert Hc. destruct c as [[] [] [] [] [] [] [] []]; vm_compute; done.
Qed.

Lemma split_taken_join name : (split_taken name).1 +:+ (split_taken name).2 = name.
Proof.
  unfold split_taken. destruct (rpartition name) as [[stem ext]|] eqn:E; cbn; [|apply str_app_nil_r].
  apply rpartition_join in E. by rewrite E.
Qed.

(** A name with something put before its extension. *)
Lemma inserted_safe name t : all_chars safe name = true -> all_chars safe t = true ->
  all_chars safe ((split_taken name).1 +:+ t +:+ (split_taken name).2) = true.
Proof. rewrite <-(split_taken_join name) at 1. rewrite !all_chars_app, !andb_true_iff. tauto. Qed.
Lemma inserted_length name t :
  String.length ((split_taken name).1 +:+ t +:+ (split_taken name).2) = (String.length name + String.length t)%nat.
Proof. rewrite <-(split_taken_join name) at 3. rewrite !length_app_str. lia. Qed.

Lemma numbered_name_inserted name i : numbered_name name i = (split_taken name).1 +:+ (" (" +:+ pretty i +:+ ")") +:+ (split_taken name).2.
Proof. unfold numbered_name. destruct (split_taken name) as [base suffix]. cbn [fst snd]. by rewrite !str_app_assoc. Qed.

Lemma number_length i : i ∈ seqZ 2 998 -> (String.length (pretty i) <= 3)%nat.
Proof.
  assert (Forall (fun i => (String.length (pretty i) <= 3)%nat) (seqZ 2 998)) as H.
  { apply (bool_decide_unpack _). vm_compute. exact I. }
  intros Hi; revert Hi; by apply (proj1 (Forall_forall _ _) H).
Qed.

(** What [unique_filename] returns: the name, the name with a number, or, when all numbers
    are taken, with the count of the names. *)
Lemma unique_filename_cases name taken :
  let g := (unique_filename name taken).1 in
  g = name /\ name ∉ taken \/
  exists t, g = (split_taken name).1 +:+ t +:+ (split_taken name).2 /\ all_chars safe t = true /\
    ((size taken < 999)%nat -> (String.length t <= 6)%nat).
Proof.
  cbv zeta. unfold unique_filename. cbn [fst]. case_bool_decide as Hn; [by left|]. right.
  destruct (filter (fun i => numbered_name name i ∉ taken) (seqZ 2 998)) as [|i l] eqn:E.
  - exists ("-" +:+ pretty (Z.of_nat (size taken))). destruct (split_taken name) as [base suffix] eqn:Es. cbn [fst snd]. split_and!.
    + by rewrite str_app_assoc.
    + rewrite all_chars_app. cbn. apply digits_safe, pretty_Z_num.
    + intros Hs. exfalso. apply (number_free name taken); done.
  - assert (i ∈ filter (fun i => numbered_name name i ∉ taken) (seqZ 2 998)) as Hin by (rewrite E; left).
    apply list_elem_of_filter in Hin as [_ Hi]. exists (" (" +:+ pretty i +:+ ")"). split_and!.
    + apply numbered_name_inserted.
    + rewrite !all_chars_app. by rewrite (digits_safe (pretty i)) by apply pretty_Z_num.
    + intros _. rewrite !length_app_str. pose proof (number_length i Hi). cbn. lia.
Qed.

(** C31. Names inside an archive are safe.  Whatever a document is called and whatever
    names are taken, its name in the archive has no path separator, no control character
    and none of the characters that are special to a file system.  It is the cleaned name,
    of 1 to 120 characters, where that is not taken; and as long as fewer than 999 names
    are taken it is always a new one, of at most 126 characters.  The number in brackets
    that tells clashing names apart is put on after the cut to 120
    ([long_names_clash]). *)
Theorem archive_name_safe name taken :
  let f := safe_filename name "document" "" in
  let g := (unique_filename f taken).1 in
  all_chars safe g = true /\ (1 <= String.length f <= MAX_FILENAME_LENGTH)%nat /\ (f ∉ taken -> g = f) /\
  (String.length f <= String.length g)%nat /\
  ((size taken < 999)%nat -> g ∉ taken /\ (String.length g <= MAX_FILENAME_LENGTH + 6)%nat).
Proof.
  cbv zeta. destruct (safe_filename_safe name) as [Hs Hl]. set (f := safe_filename name "document" "") in *.
  destruct (unique_filename_cases f taken) as [[E Hf]|(t & E & Ht & Hlen)].
  - rewrite E. split_and!; try done; [lia..|]. intros _. split; [done | lia].
  - pose proof (unique_filename_new f taken) as Hnew. rewrite E in Hnew |- *. split_and!; try lia.
    + by apply inserted_safe.
    + intros Hf. rewrite <-E. unfold unique_filename. by rewrite bool_decide_eq_true_2.
    + rewrite inserted_length. lia.
    + intros Hsize. split; [by apply Hnew|]. rewrite inserted_length. specialize (Hlen Hsize). lia.
Qed.

(** What stands before a slash is dropped, the number of the item included: two documents
    with the same long name in two folders clash, and the second gets 124 characters. *)
Definition long_tail : string := repeated 116 "x" +:+ ".pdf".
Example long_names_clash :
  let f := safe_filename ("01-a/" +:+ long_tail) "document" "" in
  let g := safe_filename ("02-b/" +:+ long_tail) "document" "" in
  f = long_tail /\ g = f /\ String.length f = 120%nat /\ String.length (unique_filename g {[f]}).1 = 124%nat.
Proof. vm_compute. split_and!; reflexivity. Qed.

(** ** What the manifest hash binds *)

Lemma opt_text_inj a b : opt_text a = opt_text b -> a = b.
Proof. destruct a, b; cbn; congruence. Qed.

#[export] Instance entry_payload_inj : Inj (=) (=) entry_payload.
Proof.
  intros [] [] E. injection E as -> -> H1%opt_text_inj H2%opt_text_inj H3%opt_text_inj -> -> H4%opt_text_inj -> -> ->.
  by subst.
Qed.

#[export] Instance omitted_payload_inj : Inj (=) (=) omitted_payload.
Proof. intros [] [] [= -> -> -> -> ->]. done. Qed.

(** A packet's hash is its identity: two manifests with the same hash are of the
    same packet, version and case, made by the same person, and include the same
    documents, in the same versions, with the same hashes and under the same names,
    and leave out the same items for the same reasons; only the time of the build may
    differ; or two texts with one SHA-256 are at hand. *)
Theorem manifest_hash_binds sha256 a b :
  manifest_sha256 sha256 a = manifest_sha256 sha256 b ->
  (mf_included a = mf_included b /\ mf_missing a = mf_missing b /\ mf_omitted a = mf_omitted b /\
   mf_packet_key a = mf_packet_key b /\ mf_version a = mf_version b /\ mf_case_key a = mf_case_key b /\
   mf_legal_entity a = mf_legal_entity b /\ mf_jurisdiction a = mf_jurisdiction b /\
   mf_license_type a = mf_license_type b /\ mf_template_key a = mf_template_key b /\
   mf_created_by a = mf_created_by b) \/ collision sha256.
Proof.
  intros [E|?]%canonical_inj; [left | by right]. unfold stable_fields, first_fields, last_fields in E. cbn [app] in E.
  injection E as -> E1%opt_text_inj E2 _ E3%opt_text_inj -> E4%opt_text_inj E5 _ E6 _ -> E7%opt_text_inj ->.
  apply (inj (fmap entry_payload)) in E2. apply (inj (fmap omitted_payload)) in E5, E6.
  by split_and!.
Qed.
