(* ===== verification/PacketService.v ===== *)
(** * Packets of documents ([app/services/document_packet_service.py])

    A packet is built for a case from the checklist of its template: each item is
    matched with the stored documents, the rows and the manifest are written, the
    archive is generated by a worker, and an approval freezes the packet.  The rows of
    other services (cases, entities, templates, documents) are tables of the same
    database; the download of a document, the ZIP container and the evidence store are
    arguments. *)
From stdpp Require Import pretty.
From S2P Require Import Prelude Terms PyDate PyJson PyUrl CanonJson Scoping LicensingLog PacketMatching PacketManifest.
Open Scope Z_scope.

Notation uuid := string.

(** ** Tables *)

(** A finding of a build. *)
Record Finding := { fi_item_key : option string; fi_code : string; fi_detail : string }.

Record DocumentPacket := {
  pk_id : uuid;
  pk_key : string;
  pk_case_id : uuid;
  pk_template_id : option uuid;
  pk_version : Z;
  pk_status : string;
  pk_manifest : option Manifest;
  pk_manifest_sha256 : option string;
  archive_storage_uri : option string;
  archive_sha256 : option string;
  archive_size_bytes : option Z;
  missing_items : list OmittedEntry;
  validation_results : list Finding;
  pk_created_by : option string;
  reviewed_by_actor : option string;
  approved_at : option instant;
  built_at : option instant;
  superseded_by : option uuid;
  rejection_reason : option string
}.
Instance eta_packet : Eta DocumentPacket := fun p =>
  {| pk_id := pk_id p; pk_key := pk_key p; pk_case_id := pk_case_id p; pk_template_id := pk_template_id p;
     pk_version := pk_version p; pk_status := pk_status p; pk_manifest := pk_manifest p;
     pk_manifest_sha256 := pk_manifest_sha256 p; archive_storage_uri := archive_storage_uri p;
     archive_sha256 := archive_sha256 p; archive_size_bytes := archive_size_bytes p;
     missing_items := missing_items p; validation_results := validation_results p; pk_created_by := pk_created_by p;
     reviewed_by_actor := reviewed_by_actor p; approved_at := approved_at p; built_at := built_at p;
     superseded_by := superseded_by p; rejection_reason := rejection_reason p |}.

Record PacketItem := {
  pi_id : uuid;
  pi_packet_id : uuid;
  pi_key : string;
  pi_type : string;
  pi_document_id : option uuid;
  pi_version_id : option uuid;
  pi_status : string;
  pi_reason : option string;
  pi_sha256 : option string;
  pi_filename : option string;
  pi_required : bool;
  pi_override_by : option string;
  pi_sort_order : Z
}.
Instance eta_item : Eta PacketItem := fun i =>
  {| pi_id := pi_id i; pi_packet_id := pi_packet_id i; pi_key := pi_key i; pi_type := pi_type i;
     pi_document_id := pi_document_id i; pi_version_id := pi_version_id i; pi_status := pi_status i;
     pi_reason := pi_reason i; pi_sha256 := pi_sha256 i; pi_filename := pi_filename i; pi_required := pi_required i;
     pi_override_by := pi_override_by i; pi_sort_order := pi_sort_order i |}.

Record CaseRow := { cs_key : string; cs_entity_id : uuid; cs_license_id : option uuid; cs_type : string; cs_owner : option string }.
Record EntityRow := { en_key : string; en_name : string }.
Record LicenceRow := { lc_jurisdiction_id : uuid; lc_type_id : uuid }.
Record JurisdictionRow := { ju_key : string; ju_name : string }.
Record LicenceTypeRow := { lt_key : string; lt_name : string }.
Record TemplateRow := {
  te_key : string;
  te_status : string;
  te_jurisdiction_id : option uuid;
  te_type_id : option uuid;
  te_case_type : option string
}.
Record TemplateItemRow := {
  ti_template_id : uuid;
  ti_key : string;
  ti_type : string;
  ti_required : bool;
  ti_policy : list (string * json);
  ti_sort_order : Z
}.
Record DocRow := {
  do_id : uuid;
  do_type : string;
  do_filename : string;
  do_sha256 : string;
  do_lifecycle : string;
  do_approval : string;
  do_confidentiality : string;
  do_entity : option string;
  do_jurisdiction : option string;
  do_license_type : option string;
  do_effective_date : option date;
  do_expiry_date : option date;
  do_approved_at : option instant;
  do_reuse : bool;
  do_size_bytes : Z;
  do_current_version : option uuid
}.
Record DocVersionRow := {
  dv_id : uuid;
  dv_document_id : uuid;
  dv_sha256 : string;
  dv_storage : string;
  dv_drive : string;
  dv_item : string
}.

Record PacketDb := {
  packets : gmap uuid DocumentPacket;
  items : list PacketItem;
  cases : gmap uuid CaseRow;
  entities : gmap uuid EntityRow;
  licences : gmap uuid LicenceRow;
  jurisdictions : gmap uuid JurisdictionRow;
  licence_types : gmap uuid LicenceTypeRow;
  templates : gmap uuid TemplateRow;
  template_items : list TemplateItemRow;
  docs : list DocRow;
  doc_versions : gmap uuid DocVersionRow;
  log : Log
}.
Instance eta_db : Eta PacketDb := fun db =>
  {| packets := packets db; items := items db; cases := cases db; entities := entities db; licences := licences db;
     jurisdictions := jurisdictions db; licence_types := licence_types db; templates := templates db;
     template_items := template_items db; docs := docs db; doc_versions := doc_versions db; log := log db |}.

Record PacketSettings := {
  packet_generation_enabled : bool;
  packet_max_documents : Z;
  packet_max_total_bytes : Z;
  packet_include_cover_sheet : bool;
  packet_archive_format : string
}.

Definition IMMUTABLE_PACKET_STATUSES : list string := value <$> [PacketStatus.APPROVED; PacketStatus.SUPERSEDED].

Definition immutable (p : DocumentPacket) : bool := bool_decide (pk_status p ∈ IMMUTABLE_PACKET_STATUSES).

Definition put_packet (p : DocumentPacket) (db : PacketDb) : PacketDb := db <| packets := <[pk_id p := p]> (packets db) |>.

Definition packets_of (case_id : uuid) (db : PacketDb) : list DocumentPacket :=
  filter (fun p => pk_case_id p = case_id) (snd <$> map_to_list (packets db)).

Definition items_of (packet_id : uuid) (db : PacketDb) : list PacketItem :=
  filter (fun i => pi_packet_id i = packet_id) (items db).

(** Primary key, [packet_key] and [uq_document_packets_version]. *)
Definition insert_packet (p : DocumentPacket) (db : PacketDb) : result exn PacketDb :=
  _ ← raise_unless (bool_decide (packets db !! pk_id p = None)) IntegrityError;
  _ ← raise_unless (bool_decide (pk_key p ∉ pk_key <$> (snd <$> map_to_list (packets db)))) IntegrityError;
  _ ← raise_unless (bool_decide (pk_version p ∉ pk_version <$> packets_of (pk_case_id p) db)) IntegrityError;
  Ok (put_packet p db).

(** Primary key and [uq_document_packet_items_key]. *)
Definition insert_items (l : list PacketItem) (db : PacketDb) : result exn PacketDb :=
  let all := items db ++ l in
  _ ← raise_unless (bool_decide (NoDup (pi_id <$> all))) IntegrityError;
  _ ← raise_unless (bool_decide (NoDup ((fun i => (pi_packet_id i, pi_key i)) <$> all))) IntegrityError;
  Ok (db <| items := all |>).

Section Packets.
Context (sha256 : string -> string) (py_str : json -> string) (settings : PacketSettings).

Definition audit (i : uuid) (act : string) (who : string) (db : PacketDb) : PacketDb :=
  db <| log := add_audit "document_packet" i act (Some who) (log db) |>.

(** ** Creating *)

(** [await session.get(T, i) if i else None]. *)
Definition get_opt {A} (i : option uuid) (t : gmap uuid A) : option A := i ≫= fun i => t !! i.

Definition other_scope (scope : option uuid) (i : uuid) : bool :=
  match scope with Some s => negb (bool_decide (s = i)) | None => false end.

(** The template and the licence of the case do not fit. *)
Definition template_misfit (t : TemplateRow) (c : CaseRow) (db : PacketDb) : bool :=
  match get_opt (cs_license_id c) (licences db) with
  | Some l => other_scope (te_jurisdiction_id t) (lc_jurisdiction_id l) || other_scope (te_type_id t) (lc_type_id l)
  | None => false
  end || (truthy_str (te_case_type t) && negb (bool_decide (te_case_type t = Some (cs_type c)))).

Definition highest_version (case_id : uuid) (db : PacketDb) : Z :=
  foldr Z.max 0 (pk_version <$> packets_of case_id db).

Definition new_packet (i case_id : uuid) (c : CaseRow) (template : option uuid) (v : Z) (actor : string) : DocumentPacket :=
  {| pk_id := i; pk_key := cs_key c +:+ "-packet-" +:+ pretty v; pk_case_id := case_id; pk_template_id := template;
     pk_version := v; pk_status := value PacketStatus.DRAFT; pk_manifest := None; pk_manifest_sha256 := None;
     archive_storage_uri := None; archive_sha256 := None; archive_size_bytes := None; missing_items := [];
     validation_results := []; pk_created_by := Some actor; reviewed_by_actor := None; approved_at := None;
     built_at := None; superseded_by := None; rejection_reason := None |}.

Definition create_packet (case_id : uuid) (template : option uuid) (actor : string) (i : uuid) (db : PacketDb)
    : result exn (DocumentPacket * PacketDb) :=
  match cases db !! case_id with
  | None => Err NotFoundError
  | Some c =>
      _ ← raise_unless (packet_generation_enabled settings) StateConflictError;
      _ ← (match template with
           | None => Ok tt
           | Some ti =>
               match templates db !! ti with
               | None => Err NotFoundError
               | Some t =>
                   _ ← raise_unless (bool_decide (te_status t = "ACTIVE")) StateConflictError;
                   raise_unless (negb (template_misfit t c db)) StateConflictError
               end
           end);
      let p := new_packet i case_id c template (highest_version case_id db + 1) actor in
      db' ← insert_packet p db;
      Ok (p, audit i "packet_created" actor db')
  end.

(** ** Building *)

Definition candidate (db : PacketDb) (d : DocRow) : CandidateDocument :=
  let v := get_opt (do_current_version d) (doc_versions db) in
  {| cd_document_id := do_id d; cd_version_id := dv_id <$> v; cd_type := do_type d; cd_filename := do_filename d;
     cd_content_sha256 := Some (do_sha256 d); cd_version_sha256 := dv_sha256 <$> v; cd_lifecycle := do_lifecycle d;
     cd_approval := do_approval d; cd_confidentiality := do_confidentiality d;
     cd_storage := default "MISSING" (dv_storage <$> v); cd_legal_entity := do_entity d;
     cd_jurisdiction := do_jurisdiction d; cd_license_type := do_license_type d; cd_effective_date := do_effective_date d; cd_expiry_date := do_expiry_date d;
     cd_approved_at := do_approved_at d; cd_approved_for_reuse := do_reuse d; cd_is_current := truthy_opt v;
     cd_size_bytes := do_size_bytes d;
     cd_storage_uri := (fun v => "graph://" +:+ dv_drive v +:+ "/" +:+ dv_item v) <$> v |}.

Definition _candidates (db : PacketDb) : list CandidateDocument := candidate db <$> docs db.

(** [{**policy, "document_id": str(override)}] for an item that is overridden. *)
Definition requirement_of (overrides : gmap string uuid) (t : TemplateItemRow) : ItemRequirement :=
  {| item_key := ti_key t; rq_type := ti_type t; required := ti_required t;
     selection_policy := match overrides !! ti_key t with
                         | Some i => dset "document_id" (JStr i) (ti_policy t) | None => ti_policy t end;
     sort_order := ti_sort_order t |}.

Definition template_items_of (template : option uuid) (db : PacketDb) : list TemplateItemRow :=
  match template with
  | Some t => py_sorted (fun a b => ti_sort_order a <=? ti_sort_order b) (filter (fun i => ti_template_id i = t) (template_items db))
  | None => []
  end.

Definition pad2 (n : Z) : string := if n <? 10 then "0" +:+ pretty n else pretty n.

(** What a build has put together so far. *)
Record Assembly := {
  as_included : list ManifestEntry;
  as_missing : list OmittedEntry;
  as_omitted : list OmittedEntry;
  as_findings : list Finding;
  as_items : list PacketItem;
  as_taken : gset string;
  as_bytes : Z
}.
Instance eta_assembly : Eta Assembly := fun a =>
  {| as_included := as_included a; as_missing := as_missing a; as_omitted := as_omitted a; as_findings := as_findings a;
     as_items := as_items a; as_taken := as_taken a; as_bytes := as_bytes a |}.

Definition manifest_entry (r : MatchResult) (d : CandidateDocument) (filename : string) : ManifestEntry :=
  {| me_item_key := mr_item_key r; me_type := mr_type r; me_document_id := cd_document_id d;
     me_document_version_id := cd_version_id d; me_filename_in_archive := filename; me_source_filename := cd_filename d;
     me_sha256 := cd_content_sha256 d; me_size_bytes := cd_size_bytes d;
     me_effective_date := isoformat <$> cd_effective_date d; me_expiry_date := isoformat <$> cd_expiry_date d;
     me_sort_order := mr_sort_order r |}.

Definition omitted_entry (r : MatchResult) : OmittedEntry :=
  {| om_item_key := mr_item_key r; om_type := mr_type r; om_required := mr_required r; om_status := mr_status r;
     om_reason := if truthy_str (mr_reason r) then default "" (mr_reason r) else "No eligible document." |}.

(** The document an item gets into the packet. *)
Definition included_document (r : MatchResult) : option CandidateDocument :=
  if is_included r then mr_document r else None.

Definition item_row (i packet_id : uuid) (r : MatchResult) (filename : option string) (override : option string) : PacketItem :=
  let d := included_document r in
  {| pi_id := i; pi_packet_id := packet_id; pi_key := mr_item_key r; pi_type := mr_type r;
     pi_document_id := cd_document_id <$> d; pi_version_id := d ≫= cd_version_id;
     pi_status := if is_included r then value PacketItemStatus.MATCHED else mr_status r; pi_reason := mr_reason r;
     pi_sha256 := d ≫= cd_content_sha256; pi_filename := filename; pi_required := mr_required r;
     pi_override_by := override; pi_sort_order := mr_sort_order r |}.

Definition assemble_one (packet_id : uuid) (overrides : gmap string uuid) (actor : string) (index : Z) (i : uuid)
    (r : MatchResult) (a : Assembly) : Assembly :=
  let override := if bool_decide (is_Some (overrides !! mr_item_key r)) then Some actor else None in
  match included_document r with
  | Some d =>
      let '(name, taken) := unique_filename (safe_filename (pad2 index +:+ "-" +:+ cd_filename d) "document" "") (as_taken a) in
      a <| as_taken := taken |> <| as_bytes := as_bytes a + cd_size_bytes d |>
        <| as_included := as_included a ++ [manifest_entry r d name] |>
        <| as_items := as_items a ++ [item_row i packet_id r (Some name) override] |>
  | None =>
      let e := omitted_entry r in
      let a := if mr_required r then a <| as_missing := as_missing a ++ [e] |>
               else a <| as_omitted := as_omitted a ++ [e] |> in
      a <| as_findings := as_findings a ++
             ((fun j => {| fi_item_key := Some (mr_item_key r); fi_code := rj_code j; fi_detail := rj_detail j |})
                <$> mr_rejections r) |>
        <| as_items := as_items a ++ [item_row i packet_id r None override] |>
  end.

Fixpoint assemble (packet_id : uuid) (overrides : gmap string uuid) (actor : string) (index : Z) (ids : Z -> uuid)
    (results : list MatchResult) (a : Assembly) : Assembly :=
  match results with
  | [] => a
  | r :: results =>
      assemble packet_id overrides actor (index + 1) ids results
        (assemble_one packet_id overrides actor index (ids index) r a)
  end.

Definition no_assembly : Assembly :=
  {| as_included := []; as_missing := []; as_omitted := []; as_findings := []; as_items := []; as_taken := ∅; as_bytes := 0 |}.

Definition size_findings (a : Assembly) : list Finding :=
  (if packet_max_documents settings <? Z.of_nat (length (as_included a))
   then [{| fi_item_key := None; fi_code := value PacketValidationCode.PACKET_TOO_MANY_DOCUMENTS;
            fi_detail := pretty (Z.of_nat (length (as_included a))) +:+ " documents exceeds the configured maximum." |}]
   else []) ++
  (if packet_max_total_bytes settings <? as_bytes a
   then [{| fi_item_key := None; fi_code := value PacketValidationCode.PACKET_TOO_LARGE;
            fi_detail := pretty (as_bytes a) +:+ " bytes exceeds the configured maximum." |}]
   else []).

Definition missing_document_alert (p : DocumentPacket) (recipient : string) (count : Z) : Notice :=
  {| no_type := "MISSING_DOCUMENT"; no_severity := "IMPORTANT"; no_recipient := recipient; no_entity := "document_packet";
     no_entity_id := pk_id p;
     no_key := build_idempotency_key sha256 [Some "packet-missing"; Some (pk_id p); Some (pretty count)] |}.

(** The licence of a case, and its type. *)
Definition licence_of (c : CaseRow) (db : PacketDb) : option LicenceRow := get_opt (cs_license_id c) (licences db).
Definition licence_type_of (c : CaseRow) (db : PacketDb) : option LicenceTypeRow :=
  l ← licence_of c db; licence_types db !! lc_type_id l.
Definition jurisdiction_of (c : CaseRow) (db : PacketDb) : option JurisdictionRow :=
  l ← licence_of c db; jurisdictions db !! lc_jurisdiction_id l.

(** The context of a case: its entity and, with a licence, where it is and of what type. *)
Definition match_context (c : CaseRow) (e : EntityRow) (today : date) (db : PacketDb) : MatchContext :=
  let j := jurisdiction_of c db in
  let t := licence_type_of c db in
  {| entity_key := en_key e; entity_name := Some (en_name e); jurisdiction_key := ju_key <$> j; jurisdiction_name := ju_name <$> j;
     license_type_key := lt_key <$> t; license_type_name := lt_name <$> t; today := Some today |}.

Definition manifest_of (p : DocumentPacket) (c : CaseRow) (e : EntityRow) (a : Assembly) (actor generated_at : string)
    (db : PacketDb) : Manifest :=
  build_manifest (pk_key p) (pk_version p) (cs_key c) (en_name e) (ju_name <$> jurisdiction_of c db) (lt_name <$> licence_type_of c db)
    (te_key <$> get_opt (pk_template_id p) (templates db)) (as_included a) (as_omitted a) (as_missing a) (Some actor) generated_at.

(** The manifest's lists are sorted; the packet keeps its missing items as they came. *)
Definition built_packet (p : DocumentPacket) (m : Manifest) (missing : list OmittedEntry) (findings : list Finding) (now : instant)
    : DocumentPacket :=
  p <| pk_manifest := Some m |> <| pk_manifest_sha256 := Some (manifest_sha256 sha256 m) |>
    <| missing_items := missing |> <| validation_results := findings |> <| built_at := Some now |>
    <| pk_status := value (if negb (bool_decide (missing = [])) || existsb (fun f => String.prefix "PACKET_" (fi_code f)) findings
                           then PacketStatus.MISSING_ITEMS else PacketStatus.READY_FOR_REVIEW) |>.

Definition notify_owner (p : DocumentPacket) (c : CaseRow) (count : Z) (db : PacketDb) : PacketDb :=
  match cs_owner c with
  | Some o =>
      if (0 <? count) && negb (bool_decide (o = ""))
      then db <| log := (record_notification (missing_document_alert p o count) (log db)).2 |> else db
  | None => db
  end.

Definition build (packet_id : uuid) (overrides : gmap string uuid) (actor : string) (ids : Z -> uuid)
    (generated_at : string) (now : instant) (db : PacketDb) : result exn (DocumentPacket * PacketDb) :=
  match packets db !! packet_id with
  | None => Err NotFoundError
  | Some p =>
      _ ← raise_unless (negb (immutable p)) StateConflictError;
      match cases db !! pk_case_id p with
      | None => Err NotFoundError
      | Some c =>
          match entities db !! cs_entity_id c with
          | None => Err NotFoundError
          | Some e =>
              let checklist := template_items_of (pk_template_id p) db in
              _ ← raise_unless (negb (bool_decide (checklist = []))) StateConflictError;
              results ← match_all py_str (instant_date now) (requirement_of overrides <$> checklist) (_candidates db)
                          (match_context c e (instant_date now) db);
              let a := assemble packet_id overrides actor 1 ids results no_assembly in
              let m := manifest_of p c e a actor generated_at db in
              let p' := built_packet p m (as_missing a) (as_findings a ++ size_findings a) now in
              db1 ← insert_items (as_items a) (db <| items := filter (fun i => pi_packet_id i <> packet_id) (items db) |>);
              Ok (p', audit packet_id "packet_built" actor
                        (notify_owner p c (Z.of_nat (length (as_missing a))) (put_packet p' db1)))
          end
      end
  end.

(** ** Approving *)

Definition blocking_codes : list string :=
  value <$> [PacketValidationCode.PACKET_TOO_LARGE; PacketValidationCode.PACKET_TOO_MANY_DOCUMENTS;
             PacketValidationCode.DOCUMENT_HASH_MISMATCH].

Definition approved_packet (actor : string) (now : instant) (p : DocumentPacket) : DocumentPacket :=
  p <| pk_status := value PacketStatus.APPROVED |> <| reviewed_by_actor := Some actor |> <| approved_at := Some now |>.

(** Other approved packets of the case are superseded. *)
Definition supersede (by_packet : DocumentPacket) (p : DocumentPacket) : DocumentPacket :=
  if bool_decide (pk_case_id p = pk_case_id by_packet) && negb (bool_decide (pk_id p = pk_id by_packet)) &&
     bool_decide (pk_status p = value PacketStatus.APPROVED)
  then p <| pk_status := value PacketStatus.SUPERSEDED |> <| superseded_by := Some (pk_id by_packet) |> else p.

Definition include_item (packet_id : uuid) (i : PacketItem) : PacketItem :=
  if bool_decide (pi_packet_id i = packet_id) && bool_decide (pi_status i = value PacketItemStatus.MATCHED)
  then i <| pi_status := value PacketItemStatus.INCLUDED |> else i.

Definition approve (packet_id : uuid) (actor : string) (now : instant) (db : PacketDb)
    : result exn (DocumentPacket * PacketDb) :=
  match packets db !! packet_id with
  | None => Err NotFoundError
  | Some p =>
      _ ← raise_unless (negb (immutable p)) StateConflictError;
      _ ← raise_unless (negb (bool_decide (pk_status p = value PacketStatus.DRAFT))) StateConflictError;
      _ ← raise_unless (bool_decide (missing_items p = [])) StateConflictError;
      _ ← raise_unless (negb (bool_decide (packet_archive_format settings = "ZIP") &&
              (negb (truthy_str (archive_storage_uri p)) || negb (truthy_str (archive_sha256 p))))) StateConflictError;
      _ ← raise_unless (negb (existsb (fun f => bool_decide (fi_code f ∈ blocking_codes)) (validation_results p)))
            StateConflictError;
      let p' := approved_packet actor now p in
      Ok (p', audit packet_id "packet_approved" actor
                (db <| packets := <[packet_id := p']> (supersede p <$> packets db) |>
                    <| items := include_item packet_id <$> items db |>))
  end.

Definition reject (packet_id : uuid) (actor reason : string) (db : PacketDb) : result exn (DocumentPacket * PacketDb) :=
  match packets db !! packet_id with
  | None => Err NotFoundError
  | Some p =>
      _ ← raise_unless (negb (immutable p)) StateConflictError;
      let p' := p <| pk_status := value PacketStatus.REJECTED |> <| rejection_reason := Some (str_take 1000 reason) |>
                  <| reviewed_by_actor := Some actor |> in
      Ok (p', put_packet p' db)
  end.

(** ** The archive *)

(** [zip] makes a container of named files, in their order. *)
Context (download : string -> string -> option string) (zip : list (string * string) -> string)
  (put : string -> string -> result exn string).

Definition archive_items (packet_id : uuid) (db : PacketDb) : list PacketItem :=
  py_sorted (fun a b => pi_sort_order a <=? pi_sort_order b)
    (filter (fun i => pi_packet_id i = packet_id /\
                      pi_status i ∈ value <$> [PacketItemStatus.MATCHED; PacketItemStatus.INCLUDED]) (items db)).

Definition governed (d : DocRow) (v : DocVersionRow) : bool :=
  bool_decide (dv_document_id v = do_id d) && bool_decide (do_lifecycle d = "ACTIVE") &&
  bool_decide (do_approval d = "APPROVED") && bool_decide (dv_storage v = "AVAILABLE").

Definition find_doc (i : uuid) (db : PacketDb) : option DocRow := head (filter (fun d => do_id d = i) (docs db)).

(** The bytes of one item, rechecked. *)
Definition archive_file (db : PacketDb) (i : PacketItem) : result exn (string * string) :=
  match pi_document_id i, pi_version_id i with
  | Some di, Some vi =>
      match find_doc di db, doc_versions db !! vi with
      | Some d, Some v =>
          _ ← raise_unless (governed d v) StateConflictError;
          match download (dv_drive v) (dv_item v) with
          | None => Err GraphApiError
          | Some content =>
              let digest := sha256 content in
              let expected := str_lower (default "" (pi_sha256 i)) in
              _ ← raise_unless (negb (bool_decide (expected = "")) && bool_decide (digest = expected) &&
                                bool_decide (digest = str_lower (dv_sha256 v))) StateConflictError;
              match pi_filename i with
              | Some f => _ ← raise_unless (negb (bool_decide (f = ""))) StateConflictError; Ok (f, content)
              | None => Err StateConflictError
              end
          end
      | _, _ => Err StateConflictError
      end
  | _, _ => Err StateConflictError
  end.

Definition generate_archive (packet_id : uuid) (actor : string) (db : PacketDb) : result exn (DocumentPacket * PacketDb) :=
  match packets db !! packet_id with
  | None => Err NotFoundError
  | Some p =>
      match pk_manifest p with
      | None => Err StateConflictError
      | Some m =>
          _ ← raise_unless (truthy_str (pk_manifest_sha256 p)) StateConflictError;
          _ ← raise_unless (bool_decide (pk_status p ∈ value <$> [PacketStatus.READY_FOR_REVIEW; PacketStatus.APPROVED]))
                StateConflictError;
          let l := archive_items packet_id db in
          _ ← raise_unless (negb (bool_decide (l = []))) StateConflictError;
          files ← mapR (archive_file db) l;
          let archive := zip (build_archive m (foldl (fun t kv => <[kv.1 := kv.2]> t) ∅ files)
                                (if packet_include_cover_sheet settings then Some (render_cover_sheet m None) else None)) in
          _ ← raise_unless (Z.of_nat (String.length archive) <=? packet_max_total_bytes settings) StateConflictError;
          uri ← put ("licensing/packets/" +:+ pk_key p +:+ "/" +:+ default "" (pk_manifest_sha256 p) +:+ ".zip") archive;
          let p' := p <| archive_storage_uri := Some uri |> <| archive_sha256 := Some (sha256 archive) |>
                      <| archive_size_bytes := Some (Z.of_nat (String.length archive)) |> in
          Ok (p', audit packet_id "packet_archive_generated" actor (put_packet p' db))
      end
  end.
End Packets.
