(* ===== verification/PacketSafety.v ===== *)
(** * What holds of packets

    The calls of [PacketService] as steps of the database, with everything the other
    services may do to their own tables in between; what a build selects, what an
    approval freezes, and what every reachable packet agrees with. *)
From S2P Require Import Prelude Terms PyDate PyJson PyUrl CanonJson Scoping LicensingLog PacketMatching PacketManifest PacketService.
Open Scope Z_scope.

(** ** A dict filled item by item *)

Lemma dict_dom_from (l : list (string * string)) (m : gmap string string) x :
  x ∈ dom (foldl (fun t kv => <[kv.1 := kv.2]> t) m l) <-> x ∈ dom m \/ x ∈ l.*1.
Proof.
  revert m. induction l as [|[k v] l IH]; intros m; cbn [foldl fmap list_fmap fst].
  - rewrite elem_of_nil. tauto.
  - rewrite IH, dom_insert, elem_of_union, elem_of_singleton, elem_of_cons. tauto.
Qed.
Lemma dict_dom (l : list (string * string)) x : x ∈ dom (foldl (fun t kv => <[kv.1 := kv.2]> t) (∅ : gmap string string) l) <-> x ∈ l.*1.
Proof. rewrite dict_dom_from, dom_empty, elem_of_empty. tauto. Qed.

Lemma list_elem_of_Some {A} (l : list A) x : Some x ∈ Some <$> l <-> x ∈ l.
Proof. rewrite list_elem_of_fmap. split; [intros (y & [= ->] & Hy); exact Hy | intros H; by exists x]. Qed.

Lemma eq_perm {A} (l m : list A) : l = m -> l ≡ₚ m.
Proof. by intros ->. Qed.

Section Safety.
Context (sha256 : string -> string) (py_str : json -> string) (settings : PacketSettings).

(** ** What a build selects *)

Lemma dget_dset_ne {A} k k' (v : A) d : k <> k' -> dget k (dset k' v d) = dget k d.
Proof.
  intros Hne. induction d as [|[k0 w] d IH]; cbn; [by rewrite bool_decide_eq_false_2|].
  case_bool_decide as E; cbn; [subst; by rewrite !bool_decide_eq_false_2 by done|]. by rewrite IH.
Qed.

Lemma dget_dset_eq {A} k (v : A) d : dget k (dset k v d) = Some v.
Proof.
  induction d as [|[k0 w] d IH]; cbn; [by rewrite bool_decide_eq_true_2|].
  case_bool_decide as E; cbn; [by rewrite bool_decide_eq_true_2|]. by rewrite bool_decide_eq_false_2.
Qed.

(** An override names the document and nothing else. *)
Lemma overridden_strategy o t : strategy py_str (requirement_of o t) = strategy py_str (requirement_of ∅ t).
Proof.
  unfold strategy, requirement_of. cbn [selection_policy]. rewrite lookup_empty.
  destruct (o !! ti_key t); [|done]. by rewrite dget_dset_ne.
Qed.

Lemma overridden_document o t i :
  o !! ti_key t = Some i -> is_uuid i -> explicit_document_id py_str (requirement_of o t) = Some i.
Proof.
  intros Ho Hi. unfold explicit_document_id, requirement_of. cbn [selection_policy]. rewrite Ho, dget_dset_eq.
  assert (truthy (JStr i) = true) as ->; [|done].
  cbn. case_bool_decide as E; [|done]. by rewrite E in Hi.
Qed.

(** Rows and manifest entries side by side. *)
Definition row_view (i : PacketItem) : string * option uuid * option uuid * option string * option string :=
  (pi_key i, pi_document_id i, pi_version_id i, pi_sha256 i, pi_filename i).
Definition entry_view (e : ManifestEntry) : string * option uuid * option uuid * option string * option string :=
  (me_item_key e, Some (me_document_id e), me_document_version_id e, me_sha256 e, Some (me_filename_in_archive e)).

Definition row_included (i : PacketItem) : Prop :=
  pi_status i ∈ value <$> [PacketItemStatus.MATCHED; PacketItemStatus.INCLUDED].

#[export] Instance row_included_dec i : Decision (row_included i).
Proof. unfold row_included. apply _. Defined.

(** A matched result has its document, any other none. *)
Definition result_ok (r : MatchResult) : Prop := is_included r = truthy_opt (mr_document r).

Lemma match_item_ok clock r cs ctx res : match_item py_str clock r cs ctx = Ok res -> result_ok res.
Proof.
  intros H. apply match_item_sound in H as (_ & _ & _ & H). unfold result_ok.
  destruct (mr_document res); [|by destruct H as [-> _]]. destruct H as [Hs _]. unfold is_included. rewrite Hs. by vm_compute.
Qed.

Record assembly_ok (packet_id : uuid) (a : Assembly) : Prop := {
  ao_rows : row_view <$> filter row_included (as_items a) = entry_view <$> as_included a;
  ao_packet : Forall (fun i => pi_packet_id i = packet_id) (as_items a)
}.

Lemma assemble_one_ok packet_id o actor n i r a :
  result_ok r -> assembly_ok packet_id a -> assembly_ok packet_id (assemble_one packet_id o actor n i r a).
Proof.
  intros Hr [Hrows Hp]. unfold assemble_one. destruct (included_document r) as [d|] eqn:Ed.
  - assert (is_included r = true) as Hi by (unfold included_document in Ed; by destruct (is_included r)).
    destruct (unique_filename _ _) as [name taken]. split; cbn.
    + rewrite filter_app, !fmap_app, Hrows. f_equal. rewrite filter_cons, decide_True.
      * cbn. unfold row_view, entry_view, item_row. cbn. by rewrite Ed.
      * unfold row_included, item_row. cbn [pi_status]. rewrite Hi. apply (bool_decide_unpack _). by vm_compute.
    + apply Forall_app. split; [done|]. by constructor.
  - assert (is_included r = false) as Hi.
    { unfold included_document in Ed. unfold result_ok in Hr. destruct (is_included r); [|done]. rewrite Ed in Hr. done. }
    assert (filter row_included [item_row i packet_id r None
      (if bool_decide (is_Some (o !! mr_item_key r)) then Some actor else None)] = []) as Hf.
    { rewrite filter_cons, decide_False; [done|]. unfold row_included, item_row. cbn [pi_status]. rewrite Hi.
      by apply bool_decide_eq_false in Hi. }
    split.
    + destruct (mr_required r); cbn; rewrite filter_app, fmap_app, Hf, app_nil_r; exact Hrows.
    + destruct (mr_required r); cbn; apply Forall_app; (split; [done|]; by constructor).
Qed.

Lemma assemble_ok packet_id o actor n ids l a :
  Forall result_ok l -> assembly_ok packet_id a -> assembly_ok packet_id (assemble packet_id o actor n ids l a).
Proof.
  intros Hl. revert n a. induction Hl as [|r l Hr Hl IH]; intros n a Ha; [done|]. cbn. by apply IH, assemble_one_ok.
Qed.

(** The names taken are those of the entries; up to 999 of them are distinct. *)
Record names_ok (a : Assembly) : Prop := {
  na_taken : as_taken a = list_to_set (me_filename_in_archive <$> as_included a);
  na_distinct : (length (as_included a) <= 999)%nat -> NoDup (me_filename_in_archive <$> as_included a)
}.

Lemma assemble_one_names packet_id o actor n i r a : names_ok a -> names_ok (assemble_one packet_id o actor n i r a).
Proof.
  intros [Ht Hd]. unfold assemble_one. destruct (included_document r) as [d|].
  - set (s := safe_filename _ _ _). destruct (unique_filename s (as_taken a)) as [name taken] eqn:Eu.
    assert (taken = {[name]} ∪ as_taken a) as -> by (unfold unique_filename in Eu; by injection Eu as <- <-).
    split; cbn; rewrite fmap_app; cbn.
    + rewrite list_to_set_app_L, Ht. cbn. set_solver.
    + rewrite length_app. cbn. intros Hlen. apply NoDup_app. split_and!; [apply Hd; lia | | apply NoDup_singleton].
      intros x Hx ->%list_elem_of_singleton.
      assert (size (as_taken a) < 999)%nat as Hsize.
      { rewrite Ht, size_list_to_set by (apply Hd; lia). rewrite length_fmap. lia. }
      apply (unique_filename_new s) in Hsize. rewrite Eu in Hsize. apply Hsize. cbn. rewrite Ht. by apply elem_of_list_to_set.
  - destruct (mr_required r); by split.
Qed.

Lemma assemble_names packet_id o actor n ids l a : names_ok a -> names_ok (assemble packet_id o actor n ids l a).
Proof.
  revert n a. induction l as [|r l IH]; intros n a Ha; [done|]. cbn. by apply IH, assemble_one_names.
Qed.

Lemma no_assembly_ok packet_id : assembly_ok packet_id no_assembly.
Proof. by split. Qed.

(** Where the entries come from, and what they cover. *)
Definition left_out (r : MatchResult) : bool := mr_required r && negb (truthy_opt (included_document r)).

Lemma assemble_one_entries packet_id o actor n i r a :
  let b := assemble_one packet_id o actor n i r a in
  (forall e, e ∈ as_included b ->
     e ∈ as_included a \/ exists d name, included_document r = Some d /\ e = manifest_entry r d name) /\
  me_item_key <$> as_included b =
    (me_item_key <$> as_included a) ++ (if truthy_opt (included_document r) then [mr_item_key r] else []) /\
  as_missing b = as_missing a ++ (if left_out r then [omitted_entry r] else []).
Proof.
  cbv zeta. unfold assemble_one, left_out. destruct (included_document r) as [d|] eqn:Ed.
  - destruct (unique_filename _ _) as [name taken]. cbn. rewrite andb_false_r, app_nil_r, fmap_app. split_and!; try done.
    intros e [?|He%list_elem_of_singleton]%elem_of_app; [by left|]. right. by exists d, name.
  - destruct (mr_required r); cbn; rewrite ?app_nil_r; split_and!; auto.
Qed.

Lemma assemble_entries packet_id o actor n ids l a :
  let b := assemble packet_id o actor n ids l a in
  (forall e, e ∈ as_included b ->
     e ∈ as_included a \/ exists r d name, r ∈ l /\ included_document r = Some d /\ e = manifest_entry r d name) /\
  me_item_key <$> as_included b =
    (me_item_key <$> as_included a) ++ (mr_item_key <$> filter (fun r => truthy_opt (included_document r) = true) l) /\
  as_missing b = as_missing a ++ (omitted_entry <$> filter (fun r => left_out r = true) l).
Proof.
  cbv zeta. revert n a. induction l as [|r l IH]; intros n a; cbn [assemble]; [split_and!; [auto | by rewrite app_nil_r..]|].
  destruct (IH (n + 1) (assemble_one packet_id o actor n (ids n) r a)) as (He & -> & ->).
  destruct (assemble_one_entries packet_id o actor n (ids n) r a) as (He1 & -> & ->). split_and!.
  - intros e [H|(r0 & d & name & Hr & H)]%He.
    + apply He1 in H as [?|(d & name & ? & ?)]; [by left | right]. exists r, d, name. split; [left | done].
    + right. exists r0, d, name. split; [by right | done].
  - rewrite filter_cons, <-app_assoc. f_equal. by destruct (truthy_opt _).
  - rewrite filter_cons, <-app_assoc. f_equal. by destruct (left_out r).
Qed.

(** The entries come in the order of the checklist, which is that of the manifest. *)
Definition entry_key (e : ManifestEntry) : Z * string := (me_sort_order e, me_item_key e).
Definition result_key (r : MatchResult) : Z * string := (mr_sort_order r, mr_item_key r).
Definition key_leb (a b : Z * string) : bool := if a.1 =? b.1 then str_leb a.2 b.2 else a.1 <? b.1.

Lemma key_leb_total a b : key_leb a b = true \/ key_leb b a = true.
Proof.
  unfold key_leb. destruct (Z.eqb_spec a.1 b.1), (Z.eqb_spec b.1 a.1); try lia; try (left; lia); try (right; lia). apply str_leb_total.
Qed.
Lemma key_leb_trans a b c : key_leb a b = true -> key_leb b c = true -> key_leb a c = true.
Proof.
  unfold key_leb. destruct (Z.eqb_spec a.1 b.1), (Z.eqb_spec b.1 c.1), (Z.eqb_spec a.1 c.1); try lia. apply str_leb_trans.
Qed.

Lemma assemble_one_keys packet_id o actor n i r a :
  entry_key <$> as_included (assemble_one packet_id o actor n i r a) =
  (entry_key <$> as_included a) ++ (if truthy_opt (included_document r) then [result_key r] else []).
Proof.
  unfold assemble_one. destruct (included_document r) as [d|].
  - destruct (unique_filename _ _) as [name taken]. cbn. by rewrite fmap_app.
  - destruct (mr_required r); cbn; by rewrite app_nil_r.
Qed.

Lemma assemble_keys packet_id o actor n ids l a :
  entry_key <$> as_included (assemble packet_id o actor n ids l a) =
  (entry_key <$> as_included a) ++ (result_key <$> filter (fun r => truthy_opt (included_document r) = true) l).
Proof.
  revert n a. induction l as [|r l IH]; intros n a; cbn [assemble]; [by rewrite app_nil_r|].
  rewrite IH, assemble_one_keys, filter_cons, <-app_assoc. f_equal. by destruct (truthy_opt _).
Qed.

Lemma sorted_by_key {A B} (R : relation B) (f : A -> B) l : StronglySorted R (f <$> l) <-> StronglySorted (fun a b => R (f a) (f b)) l.
Proof.
  induction l as [|x l IH]; [by split; constructor|]. rewrite fmap_cons. split; intros H; inversion H as [|? ? Hl Hx]; subst.
  - constructor; [by apply IH|]. by rewrite Forall_fmap in Hx.
  - constructor; [by apply IH|]. apply Forall_fmap; exact Hx.
Qed.

Lemma match_item_key clock r cs ctx res : match_item py_str clock r cs ctx = Ok res -> result_key res = (sort_order r, item_key r).
Proof.
  unfold match_item. case_bool_decide; [by intros [= <-]|]. intros (js & _ & Hj)%bind_Ok_inv. cbv zeta in Hj.
  destruct (fst <$> _) as [|c cs']; [by injection Hj as <-|]. by apply bind_Ok_inv in Hj as (x & _ & [= <-]).
Qed.

Lemma results_sorted clock rs cs ctx results :
  match_all py_str clock rs cs ctx = Ok results -> StronglySorted (fun a b => key_leb (result_key a) (result_key b) = true) results.
Proof.
  unfold match_all. intros H%mapR_Forall2. rewrite <-(sorted_by_key (fun a b => key_leb a b = true) result_key).
  assert (result_key <$> results = (fun r => (sort_order r, item_key r)) <$> py_sorted requirement_leb rs) as ->.
  { clear -H. induction H as [|r x l m Hr _ IH]; [done|]. rewrite !fmap_cons, IH. f_equal. by eapply match_item_key. }
  apply sorted_by_key. apply (py_sorted_sorted requirement_leb); intros; [apply (key_leb_total (_, _) (_, _)) | by eapply (key_leb_trans (_, _) (_, _) (_, _))].
Qed.

Lemma included_sorted packet_id o actor n ids clock rs cs ctx results :
  match_all py_str clock rs cs ctx = Ok results ->
  py_sorted entry_leb (as_included (assemble packet_id o actor n ids results no_assembly)) =
  as_included (assemble packet_id o actor n ids results no_assembly).
Proof.
  intros H%results_sorted. apply py_sorted_id. change entry_leb with (fun a b => key_leb (entry_key a) (entry_key b)).
  rewrite <-(sorted_by_key (fun a b => key_leb a b = true) entry_key), assemble_keys. cbn [as_included no_assembly fmap list_fmap app].
  apply sorted_by_key. by apply StronglySorted_filter.
Qed.

Lemma build_inv i o actor ids gen now db p' db' :
  build sha256 py_str settings i o actor ids gen now db = Ok (p', db') ->
  exists p c e results a,
    packets db !! i = Some p /\ immutable p = false /\ cases db !! pk_case_id p = Some c /\
    entities db !! cs_entity_id c = Some e /\
    match_all py_str (instant_date now) (requirement_of o <$> template_items_of (pk_template_id p) db) (_candidates db)
      (match_context c e (instant_date now) db) = Ok results /\
    a = assemble i o actor 1 ids results no_assembly /\ assembly_ok i a /\ names_ok a /\
    py_sorted entry_leb (as_included a) = as_included a /\
    p' = built_packet sha256 p (manifest_of p c e a actor gen db) (as_missing a) (as_findings a ++ size_findings settings a) now /\
    packets db' = <[pk_id p := p']> (packets db) /\
    items db' = filter (fun x => pi_packet_id x <> i) (items db) ++ as_items a /\
    NoDup (pi_id <$> items db') /\ NoDup ((fun x => (pi_packet_id x, pi_key x)) <$> items db').
Proof.
  unfold build. destruct (packets db !! i) as [p|] eqn:Hp; [|done]. intros (u & Hi%raise_unless_Ok & H)%bind_Ok_inv.
  destruct (cases db !! pk_case_id p) as [c|] eqn:Hc; [|done]. destruct (entities db !! cs_entity_id c) as [e|] eqn:He; [|done].
  apply bind_Ok_inv in H as (u2 & _ & H). apply bind_Ok_inv in H as (results & Hm & H). cbv zeta in H.
  set (a := assemble i o actor 1 ids results no_assembly) in *.
  apply bind_Ok_inv in H as (db1 & Hins & H). apply Ok_pair_inj in H as [<- <-].
  unfold insert_items in Hins. apply bind_Ok_inv in Hins as (u3 & Hn1%raise_unless_Ok%bool_decide_eq_true_1 & Hins).
  apply bind_Ok_inv in Hins as (u4 & Hn2%raise_unless_Ok%bool_decide_eq_true_1 & [= <-]).
  exists p, c, e, results, a. apply negb_true_iff in Hi.
  assert (assembly_ok i a) as Ha.
  { apply assemble_ok, no_assembly_ok. unfold match_all in Hm. apply mapR_Forall2 in Hm.
    clear -Hm. induction Hm; constructor; eauto using match_item_ok. }
  assert (names_ok a) as Hna.
  { apply assemble_names. split; [done | intros; apply NoDup_nil_2]. }
  assert (forall q n d, packets (notify_owner sha256 q c n d) = packets d /\ items (notify_owner sha256 q c n d) = items d) as Hno.
  { intros q n d. unfold notify_owner. by repeat case_match. }
  split_and!; try done; [by eapply included_sorted|..]; cbn; rewrite ?(proj1 (Hno _ _ _)), ?(proj2 (Hno _ _ _)); done.
Qed.

(** The requirements a build works with come from its checklist. *)
Lemma result_of_item clock o checklist cs ctx results t :
  match_all py_str clock (requirement_of o <$> checklist) cs ctx = Ok results -> t ∈ checklist ->
  exists r, r ∈ results /\ match_item py_str clock (requirement_of o t) cs ctx = Ok r.
Proof.
  unfold match_all. intros H%mapR_Forall2 Ht.
  assert (requirement_of o t ∈ py_sorted requirement_leb (requirement_of o <$> checklist)) as Hin.
  { by apply elem_of_py_sorted, list_elem_of_fmap_2. }
  apply list_elem_of_lookup_1 in Hin as [n Hn]. destruct (Forall2_lookup_l _ _ _ _ _ H Hn) as (r & Hr & Hm).
  exists r. split; [by eapply list_elem_of_lookup_2 | done].
Qed.

Lemma item_of_result clock o checklist cs ctx results r :
  match_all py_str clock (requirement_of o <$> checklist) cs ctx = Ok results -> r ∈ results ->
  exists t, t ∈ checklist /\ match_item py_str clock (requirement_of o t) cs ctx = Ok r.
Proof.
  unfold match_all. intros H%mapR_Forall2 Hr. apply list_elem_of_lookup_1 in Hr as [n Hn].
  destruct (Forall2_lookup_r _ _ _ _ _ H Hn) as (q & Hq & Hm). apply list_elem_of_lookup_2, elem_of_py_sorted in Hq.
  apply list_elem_of_fmap in Hq as (t & -> & Ht). by exists t.
Qed.

(** ** Sequences of calls *)

Context (download : string -> string -> option string) (zip : list (string * string) -> string)
  (put : string -> string -> result exn string).

(** One call of the service; or anything another service does to its own tables. *)
Inductive step (db db' : PacketDb) : Prop :=
| step_create case_id t actor i p : create_packet settings case_id t actor i db = Ok (p, db') -> step db db'
| step_build i o actor ids gen now p : build sha256 py_str settings i o actor ids gen now db = Ok (p, db') -> step db db'
| step_approve i actor now p : approve settings i actor now db = Ok (p, db') -> step db db'
| step_reject i actor reason p : reject i actor reason db = Ok (p, db') -> step db db'
| step_archive i actor p : generate_archive sha256 settings download zip put i actor db = Ok (p, db') -> step db db'
| step_others : packets db' = packets db -> items db' = items db -> step db db'.

(** Rows of the packet, and its manifest, agree. *)
Definition packet_ok (db : PacketDb) (p : DocumentPacket) : Prop :=
  match pk_manifest p with
  | Some m =>
      pk_manifest_sha256 p = Some (manifest_sha256 sha256 m) /\ mf_missing m = py_sorted omitted_leb (missing_items p) /\
      row_view <$> filter row_included (items_of (pk_id p) db) = entry_view <$> mf_included m /\
      ((length (mf_included m) <= 999)%nat -> NoDup (me_filename_in_archive <$> mf_included m))
  | None => missing_items p = []
  end.

Record packets_ok (db : PacketDb) : Prop := {
  po_keyed : forall i p, packets db !! i = Some p -> pk_id p = i;
  po_ok : forall i p, packets db !! i = Some p -> packet_ok db p;
  po_complete : forall i p, packets db !! i = Some p -> immutable p = true -> missing_items p = [];
  po_one : forall i j p q, packets db !! i = Some p -> packets db !! j = Some q -> pk_case_id p = pk_case_id q ->
    pk_status p = value PacketStatus.APPROVED -> pk_status q = value PacketStatus.APPROVED -> i = j
}.

(** What a step leaves of a packet that is approved or superseded. *)
Definition frozen (db db' : PacketDb) (p p' : DocumentPacket) : Prop :=
  immutable p' = true /\ pk_case_id p' = pk_case_id p /\ pk_version p' = pk_version p /\ pk_manifest p' = pk_manifest p /\
  pk_manifest_sha256 p' = pk_manifest_sha256 p /\ missing_items p' = missing_items p /\
  validation_results p' = validation_results p /\ approved_at p' = approved_at p /\
  reviewed_by_actor p' = reviewed_by_actor p /\ items_of (pk_id p) db' = items_of (pk_id p) db.

Lemma frozen_refl db db' p : immutable p = true -> items_of (pk_id p) db' = items_of (pk_id p) db -> frozen db db' p p.
Proof. done. Qed.

Lemma immutable_status p s : pk_status p = value s -> immutable p = bool_decide (s ∈ [PacketStatus.APPROVED; PacketStatus.SUPERSEDED]).
Proof. unfold immutable. intros ->. by destruct s. Qed.

(** *** Rows of one packet *)

Lemma items_of_build i (l l' : list PacketItem) j :
  j <> i -> Forall (fun x => pi_packet_id x = i) l' ->
  filter (fun x => pi_packet_id x = j) (filter (fun x => pi_packet_id x <> i) l ++ l') = filter (fun x => pi_packet_id x = j) l.
Proof.
  intros Hne Hl'. rewrite filter_app. rewrite (filter_none _ l'), app_nil_r.
  - induction l as [|x l IH]; [done|]. rewrite !filter_cons. case_decide; [|rewrite decide_False; [done | congruence]].
    rewrite filter_cons. case_decide; by rewrite IH.
  - intros x Hx Hj. rewrite Forall_forall in Hl'. specialize (Hl' x Hx). congruence.
Qed.

Lemma items_of_built i (l l' : list PacketItem) :
  Forall (fun x => pi_packet_id x = i) l' ->
  filter (fun x => pi_packet_id x = i) (filter (fun x => pi_packet_id x <> i) l ++ l') = l'.
Proof.
  intros Hl'. rewrite filter_app, filter_none, app_nil_l; [|by intros x [Hx _]%list_elem_of_filter].
  apply filter_all. intros x Hx. rewrite Forall_forall in Hl'. by apply Hl'.
Qed.

Lemma include_other i j db (l : list PacketItem) : i <> j -> items db = include_item i <$> l ->
  items_of j db = filter (fun x => pi_packet_id x = j) l.
Proof.
  intros Hne Hit. unfold items_of. rewrite Hit. clear Hit. induction l as [|x l IH]; [done|]. rewrite fmap_cons, !filter_cons, IH.
  unfold include_item. case_bool_decide as Ex; [|done]. cbn. destruct (bool_decide _); cbn; [|done].
  by rewrite !decide_False by congruence.
Qed.

Lemma include_view i (l : list PacketItem) :
  row_view <$> filter row_included (filter (fun x => pi_packet_id x = i) (include_item i <$> l)) =
  row_view <$> filter row_included (filter (fun x => pi_packet_id x = i) l).
Proof.
  induction l as [|x l IH]; [done|]. rewrite fmap_cons, !filter_cons.
  assert (pi_packet_id (include_item i x) = pi_packet_id x) as -> by (unfold include_item; by destruct (_ && _)).
  case_decide; [|done]. rewrite !filter_cons.
  assert (row_included (include_item i x) <-> row_included x) as Hr.
  { unfold include_item. destruct (_ && _) eqn:E; [|done]. apply andb_true_iff in E as [_ E%bool_decide_eq_true].
    unfold row_included. cbn [pi_status set_field]. rewrite E. cbn. set_solver. }
  rewrite (decide_ext _ _ _ _ Hr). case_decide; cbn; rewrite IH; [|done]. f_equal.
  unfold include_item. by destruct (_ && _).
Qed.

(** *** One packet is written *)

(** The other packets keep their rows, and the new one is in order. *)
Record written (db db' : PacketDb) (i : uuid) (p' : DocumentPacket) : Prop := {
  wr_packets : packets db' = <[i := p']> (packets db);
  wr_id : pk_id p' = i;
  wr_ok : packet_ok db' p';
  wr_items : forall j, j <> i -> items_of j db' = items_of j db;
  wr_old : forall p, packets db !! i = Some p -> immutable p = true -> frozen db db' p p';
  wr_new : immutable p' = true -> exists p, packets db !! i = Some p /\ immutable p = true /\ pk_status p' = pk_status p
}.

Lemma packet_ok_items db db' p : items_of (pk_id p) db' = items_of (pk_id p) db -> packet_ok db p -> packet_ok db' p.
Proof. intros E. unfold packet_ok. by rewrite E. Qed.

Definition all_frozen (db db' : PacketDb) : Prop :=
  forall i p, packets db !! i = Some p -> immutable p = true -> exists p', packets db' !! i = Some p' /\ frozen db db' p p'.

Lemma written_ok db db' i p' : packets_ok db -> written db db' i p' -> packets_ok db' /\ all_frozen db db'.
Proof.
  intros [Hk Hok Hc Hone] [Hp Hid Hpok Hit Hold Hnew]. split; [split|].
  - intros j q. rewrite Hp, lookup_insert_Some. intros [[<- <-]|[_ Hq]]; [done | by apply Hk].
  - intros j q. rewrite Hp, lookup_insert_Some. intros [[<- <-]|[Hne Hq]]; [done|].
    apply (packet_ok_items db); [|by eapply Hok]. apply Hit. rewrite (Hk _ _ Hq). congruence.
  - intros j q. rewrite Hp, lookup_insert_Some. intros [[<- <-]|[Hne Hq]]; [|by eapply Hc]. intros Hi.
    destruct (Hnew Hi) as (p & Hpp & Hpi & _). destruct (Hold p Hpp Hpi) as (_ & _ & _ & _ & _ & -> & _). by eapply Hc.
  - assert (forall j q, packets db' !! j = Some q -> pk_status q = value PacketStatus.APPROVED ->
      exists q0, packets db !! j = Some q0 /\ pk_case_id q0 = pk_case_id q /\ pk_status q0 = value PacketStatus.APPROVED) as Hback.
    { intros j q. rewrite Hp, lookup_insert_Some. intros [[<- <-]|[Hne Hq]] Hs; [|by exists q].
      assert (immutable p' = true) as Hi by (rewrite (immutable_status _ _ Hs); by vm_compute).
      destruct (Hnew Hi) as (p & Hpp & Hpi & Es). exists p. split; [done|].
      destruct (Hold p Hpp Hpi) as (_ & <- & _). by rewrite <-Es. }
    intros j k q q' Hq Hq' Ec Es Es'.
    destruct (Hback j q Hq Es) as (q0 & Hq0 & Ec0 & Es0), (Hback k q' Hq' Es') as (q1 & Hq1 & Ec1 & Es1).
    eapply Hone; [exact Hq0 | exact Hq1 | congruence | done | done].
  - intros j q Hq Hi. destruct (decide (j = i)) as [->|Hne].
    + exists p'. split; [by rewrite Hp, lookup_insert_eq | by apply Hold].
    + exists q. split; [by rewrite Hp, lookup_insert_ne|]. apply frozen_refl; [done|]. apply Hit. by rewrite (Hk _ _ Hq).
Qed.

Lemma create_written case_id t actor i db p db' :
  create_packet settings case_id t actor i db = Ok (p, db') -> written db db' i p.
Proof.
  unfold create_packet. destruct (cases db !! case_id) as [c|]; [|done]. intros H.
  apply bind_Ok_inv in H as (u & _ & H). apply bind_Ok_inv in H as (u2 & _ & H).
  apply bind_Ok_inv in H as (db1 & Hins & H). apply Ok_pair_inj in H as [<- <-]. unfold insert_packet in Hins.
  apply bind_Ok_inv in Hins as (u3 & Hnew%raise_unless_Ok%bool_decide_eq_true_1 & Hins). cbn in Hnew.
  apply bind_Ok_inv in Hins as (u4 & _ & Hins). apply bind_Ok_inv in Hins as (u5 & _ & [= <-]). split; try done.
  - intros p. by rewrite Hnew.
Qed.

Lemma build_written i o actor ids gen now db p db' :
  packets_ok db -> build sha256 py_str settings i o actor ids gen now db = Ok (p, db') -> written db db' i p.
Proof.
  intros [Hk _ _ _] H. apply build_inv in H as (q & c & e & results & a & Hq & Him & _ & _ & _ & _ & [Hrows Hpk] & Hna & Hsort & -> & Hp & Hi & _ & _).
  pose proof (Hk _ _ Hq) as Hid.
  assert (immutable (built_packet sha256 q (manifest_of q c e a actor gen db) (as_missing a) (as_findings a ++ size_findings settings a) now) = false) as Hmut.
  { unfold immutable. cbn. destruct (_ || _); by vm_compute. }
  split; try done.
  - by rewrite Hp, Hid.
  - unfold packet_ok. cbn [pk_manifest built_packet set_field]. unfold manifest_of, build_manifest. cbn [mf_included mf_missing].
    rewrite Hsort. split_and!; try done; [|by apply na_distinct].
    unfold items_of. change (pk_id _) with (pk_id q). rewrite Hid, Hi, (items_of_built i); [exact Hrows | done].
  - intros j Hj. unfold items_of. rewrite Hi. by apply items_of_build.
  - intros q0 Hq0 Him0. congruence.
  - intros Him0. by rewrite Hmut in Him0.
Qed.

Lemma reject_written i actor reason db p db' :
  packets_ok db -> reject i actor reason db = Ok (p, db') -> written db db' i p.
Proof.
  intros [Hk Hok _ _]. unfold reject. destruct (packets db !! i) as [q|] eqn:Hq; [|done].
  intros (u & Him%raise_unless_Ok%negb_true_iff & H)%bind_Ok_inv. apply Ok_pair_inj in H as [<- <-].
  pose proof (Hk _ _ Hq) as Hid. split; try done.
  - cbn. by rewrite Hid.
  - specialize (Hok _ _ Hq). unfold packet_ok in *. cbn [pk_manifest set_field pk_status missing_items pk_manifest_sha256 pk_id].
    by destruct (pk_manifest q).
  - intros q0 Hq0 Him0. congruence.
Qed.

Lemma archive_written i actor db p db' :
  packets_ok db -> generate_archive sha256 settings download zip put i actor db = Ok (p, db') -> written db db' i p.
Proof.
  intros [Hk Hok _ _]. unfold generate_archive. destruct (packets db !! i) as [q|] eqn:Hq; [|done].
  destruct (pk_manifest q) as [m|] eqn:Em; [|done]. intros H. pose proof (Hk _ _ Hq) as Hid. specialize (Hok _ _ Hq).
  do 3 (apply bind_Ok_inv in H as (? & _ & H)). apply bind_Ok_inv in H as (files & _ & H).
  apply bind_Ok_inv in H as (? & _ & H). apply bind_Ok_inv in H as (uri & _ & H). apply Ok_pair_inj in H as [<- <-].
  split; try done.
  - cbn. by rewrite Hid.
  - intros q0 Hq0 Him. rewrite Hq in Hq0. injection Hq0 as <-. by split_and!.
  - intros Him. by exists q.
Qed.

(** An approval writes its packet and supersedes the others of the case. *)
Lemma approve_ok i actor now db p db' :
  packets_ok db -> approve settings i actor now db = Ok (p, db') -> packets_ok db' /\ all_frozen db db'.
Proof.
  intros [Hk Hok Hc Hone]. unfold approve. destruct (packets db !! i) as [q|] eqn:Hq; [|done].
  intros (u & Him%raise_unless_Ok%negb_true_iff & H)%bind_Ok_inv. pose proof (Hk _ _ Hq) as Hid.
  apply bind_Ok_inv in H as (u1 & Hdraft%raise_unless_Ok%negb_true_iff%bool_decide_eq_false & H).
  apply bind_Ok_inv in H as (u2 & Hmiss%raise_unless_Ok%bool_decide_eq_true_1 & H).
  do 2 (apply bind_Ok_inv in H as (? & _ & H)). apply Ok_pair_inj in H as [_ <-].
  set (db' := audit _ _ _ _).
  assert (forall j r, packets db' !! j = Some r -> j = i /\ r = approved_packet actor now q \/
    j <> i /\ exists r0, packets db !! j = Some r0 /\ r = supersede q r0) as Hlook.
  { intros j r. unfold db'. cbn. rewrite lookup_insert_Some. intros [[<- <-]|[Hne Hr]]; [by left | right].
    rewrite lookup_fmap, fmap_Some in Hr. destruct Hr as (r0 & Hr0 & ->). split; [done|]. by exists r0. }
  assert (forall r0, pk_id (supersede q r0) = pk_id r0 /\ pk_case_id (supersede q r0) = pk_case_id r0) as Hsup
    by (intros r0; unfold supersede; by destruct (_ && _)).
  assert (forall j, j <> i -> items_of j db' = items_of j db) as Hit
    by (intros j Hj; by apply (include_other i j db' (items db))).
  split; [split|].
  - intros j r [[-> ->]|[_ (r0 & Hr0 & ->)]]%Hlook; [done|]. rewrite (proj1 (Hsup r0)). by apply Hk.
  - intros j r [[-> ->]|[Hne (r0 & Hr0 & ->)]]%Hlook.
    + specialize (Hok _ _ Hq). unfold packet_ok in *.
      cbn [pk_manifest approved_packet set_field pk_status missing_items pk_manifest_sha256 pk_id].
      destruct (pk_manifest q) as [m|]; [|done].
      destruct Hok as (? & ? & Hrows & ?). split_and!; try done. rewrite <-Hrows, Hid. apply include_view.
    + apply (packet_ok_items db).
      * rewrite (proj1 (Hsup r0)), (Hk _ _ Hr0). by apply Hit.
      * specialize (Hok _ _ Hr0). unfold supersede. destruct (_ && _); [|done]. exact Hok.
  - intros j r [[-> ->]|[Hne (r0 & Hr0 & ->)]]%Hlook Hi; [done|].
    replace (missing_items (supersede q r0)) with (missing_items r0) by (unfold supersede; by destruct (_ && _)).
    apply (Hc _ _ Hr0). revert Hi. unfold supersede. destruct (_ && _) eqn:E; [|done]. intros _.
    apply andb_true_iff in E as [_ E%bool_decide_eq_true]. rewrite (immutable_status _ _ E). by vm_compute.
  - assert (forall j r, packets db' !! j = Some r -> pk_case_id r = pk_case_id q ->
      pk_status r = value PacketStatus.APPROVED -> j = i) as Hother.
    { intros j r [[-> ->]|[Hne (r0 & Hr0 & ->)]]%Hlook Ec Es; [done|]. exfalso. revert Ec Es. unfold supersede.
      destruct (_ && _) eqn:E; [by intros _ Es; vm_compute in Es|]. intros Ec Es. apply andb_false_iff in E as [E|E].
      - apply andb_false_iff in E as [E%bool_decide_eq_false|E]; [done|].
        apply negb_false_iff, bool_decide_eq_true in E. apply Hne. by rewrite <-(Hk _ _ Hr0), E.
      - by apply bool_decide_eq_false in E. }
    intros j k r r' Hr Hr' Ec Es Es'. destruct (decide (pk_case_id r = pk_case_id q)) as [Eq|Eq].
    + rewrite (Hother _ _ Hr Eq Es). symmetry. apply (Hother _ _ Hr'); [congruence | done].
    + apply Hlook in Hr as [[-> ->]|[_ (r0 & Hr0 & ->)]]; [done|].
      apply Hlook in Hr' as [[-> ->]|[_ (r1 & Hr1 & ->)]]; [done|].
      assert (forall y, pk_case_id y <> pk_case_id q -> supersede q y = y) as Hsame
        by (intros y Hy; unfold supersede; by rewrite (bool_decide_eq_false_2 _ Hy)).
      rewrite (proj2 (Hsup r0)) in Ec, Eq. rewrite (proj2 (Hsup r1)) in Ec.
      rewrite Hsame in Es, Es' by congruence. by eapply Hone.
  - intros j r Hr Hi. destruct (decide (j = i)) as [->|Hne]; [congruence|].
    exists (supersede q r). split.
    + unfold db'. cbn. by rewrite lookup_insert_ne, lookup_fmap, Hr.
    + assert (items_of (pk_id r) db' = items_of (pk_id r) db) as Hrows by (rewrite (Hk _ _ Hr); by apply Hit).
      unfold supersede. destruct (_ && _); [|by apply frozen_refl]. by split_and!.
Qed.
Lemma others_ok db db' : packets_ok db -> packets db' = packets db -> items db' = items db -> packets_ok db' /\ all_frozen db db'.
Proof.
  intros [Hk Hok Hc Hone] Hp Hi.
  assert (forall j, items_of j db' = items_of j db) as Hrows by (intros j; unfold items_of; by rewrite Hi).
  split; [split; rewrite ?Hp; try done|].
  - intros j p Hj. apply (packet_ok_items db); [done | by eapply Hok].
  - intros j p Hj Him. exists p. rewrite Hp. split; [done|]. by apply frozen_refl.
Qed.

(** Every step keeps the packets in order, and leaves the frozen ones alone. *)
Lemma packet_step_ok db db' : packets_ok db -> step db db' -> packets_ok db' /\ all_frozen db db'.
Proof.
  intros Hdb [case_id t actor i p H|i o actor ids gen now p H|i actor now p H|i actor reason p H|i actor p H|Hp Hi].
  - eapply written_ok; [done | by eapply create_written].
  - eapply written_ok; [done | by eapply build_written].
  - by eapply approve_ok.
  - eapply written_ok; [done | by eapply reject_written].
  - eapply written_ok; [done | by eapply archive_written].
  - by apply others_ok.
Qed.

Lemma frozen_trans db db1 db2 p p1 p2 :
  pk_id p1 = pk_id p -> frozen db db1 p p1 -> frozen db1 db2 p1 p2 -> frozen db db2 p p2.
Proof.
  intros Hid (? & ? & ? & ? & ? & ? & ? & ? & ? & Hi) (? & ? & ? & ? & ? & ? & ? & ? & ? & Hi').
  rewrite Hid in Hi'. unfold frozen. split_and!; congruence.
Qed.

Lemma steps_ok db db' : packets_ok db -> rtc step db db' -> packets_ok db' /\ all_frozen db db'.
Proof.
  intros Hdb H. induction H as [db|db db1 db2 H _ IH].
  - split; [done|]. intros i p Hp Him. exists p. split; [done|]. by apply frozen_refl.
  - destruct (packet_step_ok _ _ Hdb H) as [Hdb1 Hf1]. destruct (IH Hdb1) as [Hdb2 Hf2]. split; [done|].
    intros i p Hp Him. destruct (Hf1 i p Hp Him) as (p1 & Hp1 & Hfr).
    destruct (Hf2 i p1 Hp1 (proj1 Hfr)) as (p2 & Hp2 & Hfr2). exists p2. split; [done|].
    apply (frozen_trans db db1 db2 p p1 p2); [|done..].
    by rewrite (po_keyed _ Hdb1 _ _ Hp1), (po_keyed _ Hdb _ _ Hp).
Qed.

(** What the calls can make of a database without packets. *)
Definition reachable (db : PacketDb) : Prop := exists db0, packets db0 = ∅ /\ rtc step db0 db.

Lemma reachable_ok db : reachable db -> packets_ok db.
Proof.
  intros (db0 & H0 & Hr). refine (proj1 (steps_ok db0 db _ Hr)). split; rewrite H0; intros *; by rewrite lookup_empty.
Qed.

(** *** The files of an archive *)

Lemma archive_file_spec db i f :
  archive_file sha256 download db i = Ok f ->
  pi_filename i = Some f.1 /\ sha256 f.2 = str_lower (default "" (pi_sha256 i)) /\
  exists d v, d ∈ docs db /\ pi_document_id i = Some (do_id d) /\ pi_version_id i ≫= (doc_versions db !!.) = Some v /\
    governed d v = true /\ download (dv_drive v) (dv_item v) = Some f.2.
Proof.
  unfold archive_file. destruct (pi_document_id i) as [di|]; [|done]. destruct (pi_version_id i) as [vi|]; [|done].
  destruct (find_doc di db) as [d|] eqn:Ed; [|done]. destruct (doc_versions db !! vi) as [v|] eqn:Ev; [|done].
  intros (u & Hg%raise_unless_Ok & H)%bind_Ok_inv. destruct (download _ _) as [content|] eqn:Edown; [|done].
  apply bind_Ok_inv in H as (u1 & Hd%raise_unless_Ok & H).
  destruct (pi_filename i) as [g|]; [|done]. apply bind_Ok_inv in H as (u2 & _ & [= <-]).
  rewrite !andb_true_iff in Hd. destruct Hd as [[_ Hd%bool_decide_eq_true] _].
  unfold find_doc in Ed. apply head_Some_elem_of, list_elem_of_filter in Ed as [<- Hin].
  split_and!; [done..|]. exists d, v. by split_and!.
Qed.

Lemma dict_lookup (l : list (string * string)) (m : gmap string string) k v :
  NoDup l.*1 -> (k, v) ∈ l -> foldl (fun t kv => <[kv.1 := kv.2]> t) m l !! k = Some v.
Proof.
  revert m. induction l as [|[k' v'] l IH]; intros m; [by intros _ H%elem_of_nil|].
  intros [Hn Hl]%NoDup_cons [[= -> ->]|H]%elem_of_cons; [|by apply IH]. cbn in *. clear IH.
  assert (forall m : gmap string string, m !! k' = Some v' -> foldl (fun t kv => <[kv.1 := kv.2]> t) m l !! k' = Some v') as Hkeep.
  { clear Hl. induction l as [|[k v] l IH]; intros m' Hm; [done|]. cbn in *. apply not_elem_of_cons in Hn as [Hne Hn].
    apply IH; [done|]. by rewrite lookup_insert_ne. }
  apply Hkeep. by rewrite lookup_insert_eq.
Qed.

Lemma archive_items_perm i db : archive_items i db ≡ₚ filter row_included (items_of i db).
Proof.
  unfold archive_items. rewrite py_sorted_perm. unfold items_of. rewrite list_filter_filter. erewrite list_filter_iff; [done|].
  intros x. split; intros [? ?]; by split.
Qed.
End Safety.
