(* ===== verification/PacketGuarantees.v ===== *)
(** * What the packet service guarantees

    The properties of packets, each with a run on a small database: what a build
    selects, what every reachable packet agrees with, that an approved packet is
    frozen, what its archive holds, and two consequences of the way the calls fit
    together that the code does not intend. *)
From S2P Require Import Prelude Terms PyDate PyJson PyUrl CanonJson Scoping LicensingLog PacketMatching PacketManifest PacketService PacketSafety.
Open Scope Z_scope.

Lemma approve_missing settings i p who later db :
  packets db !! i = Some p -> missing_items p <> [] -> approve settings i who later db = Err StateConflictError.
Proof.
  intros Hp Hm. unfold approve. rewrite Hp. destruct (immutable p); [done|].
  destruct (bool_decide (pk_status p = _)); [done|]. by rewrite (bool_decide_eq_false_2 _ Hm).
Qed.

Section Guarantees.
Context (sha256 : string -> string) (py_str : json -> string) (settings : PacketSettings).
Context (download : string -> string -> option string) (zip : list (string * string) -> string)
  (put : string -> string -> result exn string).

Notation step := (step sha256 py_str settings download zip put).
Notation reachable := (reachable sha256 py_str settings download zip put).

(** C27. What a build puts into a packet.  Every included entry is a stored document
    that answers an item of the packet's checklist: of the item's type and the case's
    legal entity, for no other jurisdiction, approved, active, in date, not too old,
    stored, current, approved for reuse where the item asks for that, of a permitted
    confidentiality and with its recorded hash; and where an override names a document, it
    is that document.  These are all the conditions: the licence type is not one
    ([PacketMatching.license_type_ignored], [other_licence_type_included]).  Every required
    item is answered by an entry or listed as missing, and the packet is ready for review
    exactly when nothing is missing and no limit is passed. *)
Theorem build_sound i o actor ids gen now db p' db' :
  build sha256 py_str settings i o actor ids gen now db = Ok (p', db') ->
  exists p c e m, packets db !! i = Some p /\ cases db !! pk_case_id p = Some c /\ entities db !! cs_entity_id c = Some e /\
  pk_manifest p' = Some m /\ pk_manifest_sha256 p' = Some (manifest_sha256 sha256 m) /\ mf_missing m = py_sorted omitted_leb (missing_items p') /\
  (forall en, en ∈ mf_included m -> exists t d limit,
     t ∈ template_items_of (pk_template_id p) db /\ ti_key t = me_item_key en /\
     d ∈ docs db /\ do_id d = me_document_id en /\ me_sha256 en = Some (do_sha256 d) /\
     max_age_days (requirement_of o t) = Ok limit /\
     eligible py_str (instant_date now) (candidate db d) (requirement_of o t) (match_context c e (instant_date now) db) limit /\
     (forall di, o !! ti_key t = Some di -> is_uuid di -> do_id d = di)) /\
  (forall t, t ∈ template_items_of (pk_template_id p) db -> ti_required t = true ->
     ti_key t ∈ me_item_key <$> mf_included m \/ ti_key t ∈ om_item_key <$> mf_missing m) /\
  (pk_status p' = value PacketStatus.READY_FOR_REVIEW <->
   mf_missing m = [] /\ forall f, f ∈ validation_results p' -> String.prefix "PACKET_" (fi_code f) = false).
Proof.
  intros H. apply build_inv in H as (p & c & e & results & a & Hp & _ & Hc & He & Hm & Ha & _ & _ & Hsort & -> & _).
  exists p, c, e, (manifest_of p c e a actor gen db). split_and!; try done.
  - intros en Hen. unfold manifest_of, build_manifest in Hen. cbn [mf_included] in Hen. rewrite Hsort, Ha in Hen.
    apply (assemble_entries i o actor 1 ids results no_assembly) in Hen as [Hen|(r & d & name & Hr & Hd & ->)];
      [by apply not_elem_of_nil in Hen|].
    destruct (item_of_result _ _ _ _ _ _ _ _ Hm Hr) as (t & Ht & Hmi).
    apply match_item_sound in Hmi as (Hk & _ & _ & Hres).
    assert (mr_document r = Some d) as Hdoc by (unfold included_document in Hd; by destruct (is_included r)).
    rewrite Hdoc in Hres. destruct Hres as (_ & Hin & _ & Hex & (limit & Hlim & Hel) & _).
    apply list_elem_of_fmap in Hin as (row & -> & Hrow).
    exists t, row, limit. split_and!; try done. intros di Hdi Hu. symmetry. symmetry. apply Hex. by apply overridden_document.
  - intros t Ht Hreq. destruct (result_of_item _ _ _ _ _ _ _ _ Hm Ht) as (r & Hr & Hmi).
    apply match_item_sound in Hmi as (Hk & Hrq & _ & _). cbn in Hk, Hrq. unfold manifest_of, build_manifest. cbn [mf_included mf_missing].
    rewrite Hsort, (py_sorted_perm omitted_leb).
    destruct (assemble_entries i o actor 1 ids results no_assembly) as (_ & Hkeys & Hmiss).
    rewrite Ha, Hkeys, Hmiss. destruct (truthy_opt (included_document r)) eqn:E; [left | right].
    + apply elem_of_app. right. rewrite <-Hk. apply list_elem_of_fmap_2. by apply list_elem_of_filter.
    + rewrite fmap_app, <-list_fmap_compose. apply elem_of_app. right. apply list_elem_of_fmap. exists r. split; [done|]. apply list_elem_of_filter.
      unfold left_out. by rewrite Hrq, Hreq, E.
  - unfold manifest_of, build_manifest. cbn [mf_missing]. rewrite py_sorted_nil. cbn. set (m := as_missing a). set (fs := as_findings a ++ size_findings settings a).
    destruct (bool_decide (m = [])) eqn:Em; cbn.
    + apply bool_decide_eq_true in Em. destruct (existsb _ fs) eqn:Ef.
      * split; [by intros Hs; vm_compute in Hs|]. intros [_ Hno]. apply existsb_exists in Ef as (f & Hf & Hpre).
        apply list_elem_of_In in Hf. by rewrite (Hno f Hf) in Hpre.
      * split; [|done]. intros _. split; [done|]. intros f Hf%list_elem_of_In.
        destruct (String.prefix "PACKET_" (fi_code f)) eqn:Epre; [|done]. exfalso.
        assert (existsb (fun f => String.prefix "PACKET_" (fi_code f)) fs = true) as Et by (apply existsb_exists; by exists f).
        by rewrite Ef in Et.
    + apply bool_decide_eq_false in Em. split; [by intros Hs; vm_compute in Hs | by intros [? _]].
Qed.

(** C28. Packets stay in order.  In every database that calls of the service, in any
    order and with anything the other services do in between, can make of one without
    packets: the stored hash and the list of missing items are those of the stored
    manifest, the rows of a packet that count as included are the manifest's entries,
    the names of up to 999 files are distinct, an approved packet lacks no
    required item, and a case has at most one approved packet. *)
Theorem packets_consistent db :
  reachable db ->
  (forall i p m, packets db !! i = Some p -> pk_manifest p = Some m ->
     pk_manifest_sha256 p = Some (manifest_sha256 sha256 m) /\ mf_missing m = py_sorted omitted_leb (missing_items p) /\
     row_view <$> filter row_included (items_of i db) = entry_view <$> mf_included m /\
     ((length (mf_included m) <= 999)%nat -> NoDup (me_filename_in_archive <$> mf_included m))) /\
  (forall i p, packets db !! i = Some p -> immutable p = true -> missing_items p = []) /\
  (forall i j p q, packets db !! i = Some p -> packets db !! j = Some q -> pk_case_id p = pk_case_id q ->
     pk_status p = value PacketStatus.APPROVED -> pk_status q = value PacketStatus.APPROVED -> i = j).
Proof.
  intros [Hk Hok Hc Hone]%reachable_ok. split_and!; [|done..]. intros i p m Hp Hm. specialize (Hok i p Hp).
  unfold packet_ok in Hok. by rewrite Hm, (Hk _ _ Hp) in Hok.
Qed.

(** C29. An approved packet is a frozen snapshot.  Whatever calls follow an approval,
    its manifest and hash, its rows, its findings, who approved it and when stay as
    they are; its status can only become superseded.  Only the archive of the packet
    can be generated again. *)
Theorem approved_packet_frozen db db' i p :
  reachable db -> packets db !! i = Some p -> immutable p = true -> rtc step db db' ->
  exists p', packets db' !! i = Some p' /\ frozen db db' p p'.
Proof. intros Hr%reachable_ok Hp Hi H. by apply (steps_ok _ _ _ _ _ _ _ _ Hr H). Qed.

(** C30. What an archive holds.  An archive is generated only when every document of the
    packet is still approved, active and available, and its retrieved bytes have the hash
    the manifest recorded.  What is stored, hashed and measured is one container: the
    cover sheet where the settings ask for it, the manifest, and files whose names are
    those of the manifest's entries and no others; and as long as the manifest has no more
    than 999 entries, every name is that of one entry and holds exactly its bytes. *)
Theorem archive_sound db i actor p' db' :
  reachable db -> generate_archive sha256 settings download zip put i actor db = Ok (p', db') ->
  exists p m files, packets db !! i = Some p /\ pk_manifest p = Some m /\
  (let archive := zip (build_archive m files (if packet_include_cover_sheet settings then Some (render_cover_sheet m None) else None)) in
   archive_sha256 p' = Some (sha256 archive) /\ archive_size_bytes p' = Some (Z.of_nat (String.length archive)) /\
   exists uri, archive_storage_uri p' = Some uri /\
     put ("licensing/packets/" +:+ pk_key p +:+ "/" +:+ default "" (pk_manifest_sha256 p) +:+ ".zip") archive = Ok uri) /\
  dom files = list_to_set (me_filename_in_archive <$> mf_included m) /\
  ((length (mf_included m) <= 999)%nat -> NoDup (me_filename_in_archive <$> mf_included m)) /\
  forall e, e ∈ mf_included m ->
  exists d v content,
    d ∈ docs db /\ do_id d = me_document_id e /\ me_document_version_id e ≫= (doc_versions db !!.) = Some v /\
    governed d v = true /\ download (dv_drive v) (dv_item v) = Some content /\
    sha256 content = str_lower (default "" (me_sha256 e)) /\
    ((length (mf_included m) <= 999)%nat -> files !! me_filename_in_archive e = Some content).
Proof.
  intros [Hk Hok _ _]%reachable_ok. unfold generate_archive. destruct (packets db !! i) as [p|] eqn:Hp; [|done].
  destruct (pk_manifest p) as [m|] eqn:Em; [|done]. intros H.
  do 3 (apply bind_Ok_inv in H as (? & _ & H)). apply bind_Ok_inv in H as (files & Hf%mapR_Forall2 & H).
  apply bind_Ok_inv in H as (? & _ & H). apply bind_Ok_inv in H as (uri & Huri & H). apply Ok_pair_inj in H as [<- _].
  specialize (Hok i p Hp). unfold packet_ok in Hok. rewrite Em, (Hk _ _ Hp) in Hok. destruct Hok as (_ & _ & Hrows & Hnames).
  assert (Some <$> files.*1 = pi_filename <$> archive_items i db) as Hfn.
  { clear -Hf. induction Hf as [|a f l fs Ha _ IH]; [done|]. cbn. rewrite IH. f_equal. by apply archive_file_spec in Ha as [-> _]. }
  assert (Some <$> files.*1 ≡ₚ Some <$> (me_filename_in_archive <$> mf_included m)) as Hperm.
  { rewrite Hfn, archive_items_perm. apply (f_equal (fmap (fun v => v.2))) in Hrows. rewrite <-!list_fmap_compose in Hrows.
    rewrite <-list_fmap_compose. apply eq_perm. exact Hrows. }
  exists p, m, (foldl (fun t kv => <[kv.1 := kv.2]> t) ∅ files). split; [done|]. split; [done|]. split_and!; try done.
  - by exists uri.
  - apply set_eq. intros f. rewrite dict_dom, elem_of_list_to_set, <-(list_elem_of_Some files.*1), Hperm. apply list_elem_of_Some.
  - intros e He.
    assert (entry_view e ∈ row_view <$> filter row_included (items_of i db)) as Hrow by (rewrite Hrows; by apply list_elem_of_fmap_2).
    apply list_elem_of_fmap in Hrow as (row & Hx & Hin). rewrite <-archive_items_perm in Hin.
    injection Hx as _ Hxd Hxv Hxs Hxf. symmetry in Hxf.
    apply list_elem_of_lookup_1 in Hin as [n Hn]. destruct (Forall2_lookup_l _ _ _ _ _ Hf Hn) as ([g content] & Hg & Hfile).
    apply archive_file_spec in Hfile as (Hname & Hsha & d & v & Hd & Hdi & Hv & Hgov & Hdown). cbn in Hname, Hsha, Hdown.
    exists d, v, content. split_and!; try done; try congruence.
    intros Hlen. apply dict_lookup; [|by apply list_elem_of_lookup_2 with n; rewrite Hg; congruence].
    apply (NoDup_fmap_1 Some). rewrite Hperm. apply (NoDup_fmap_2 Some). by apply Hnames.
Qed.

(** A required item for manual selection blocks its packet.  Such an item is never
    matched, not even when an override names a document for it, so each build of the
    packet leaves it missing and every approval after it is refused. *)
Theorem manual_item_never_supplied db i o actor ids gen now t p p' db' :
  reachable db -> packets db !! i = Some p -> t ∈ template_items_of (pk_template_id p) db -> ti_required t = true ->
  strategy py_str (requirement_of ∅ t) = value SelectionStrategy.MANUAL_ONLY ->
  build sha256 py_str settings i o actor ids gen now db = Ok (p', db') ->
  ti_key t ∈ om_item_key <$> missing_items p' /\
  forall who later, approve settings i who later db' = Err StateConflictError.
Proof.
  intros Hr%reachable_ok Hp Ht Hreq Hman H.
  apply build_inv in H as (q & c & e & results & a & Hq & _ & _ & _ & Hm & Ha & _ & _ & _ & -> & Hpk & _).
  rewrite Hp in Hq. injection Hq as <-.
  assert (ti_key t ∈ om_item_key <$> as_missing a) as Hin.
  { destruct (result_of_item _ _ _ _ _ _ _ _ Hm Ht) as (r & Hres & Hmi). apply match_item_sound in Hmi as (Hkey & Hrq & _ & Hdoc).
    destruct (mr_document r) as [d|] eqn:Ed.
    { exfalso. destruct Hdoc as (_ & _ & Hs & _). apply Hs. by rewrite overridden_strategy. }
    destruct (assemble_entries i o actor 1 ids results no_assembly) as (_ & _ & Hmiss). rewrite Ha, Hmiss, fmap_app.
    apply elem_of_app. right. rewrite <-list_fmap_compose. apply list_elem_of_fmap. exists r. split; [done|].
    apply list_elem_of_filter. split; [|done]. unfold left_out, included_document. rewrite Hrq, Ed. cbn. rewrite Hreq.
    by destruct (is_included r). }
  split; [exact Hin|]. intros who later. eapply approve_missing.
  - by rewrite Hpk, (po_keyed _ _ Hr _ _ Hp), lookup_insert_eq.
  - intros E. cbn in E. rewrite E in Hin. by apply elem_of_nil in Hin.
Qed.
End Guarantees.

(** ** A small database *)

Definition id_hash (s : string) : string := "h" +:+ s.
Definition text (v : json) : string := match v with JStr s => s | _ => "" end.
Definition sample_settings : PacketSettings :=
  {| packet_generation_enabled := true; packet_max_documents := 50; packet_max_total_bytes := 10000;
     packet_include_cover_sheet := false; packet_archive_format := "ZIP" |}.
Definition stored (drive item : string) : option string := Some item.
(** A container that only keeps the documents. *)
Definition sample_zip (files : list (string * string)) : string :=
  String.concat "," ((fun f => f.1 +:+ "=" +:+ f.2) <$> filter (fun f => negb (String.prefix "00-" f.1) = true) files).
Definition keep (k content : string) : result exn string := Ok ("store://" +:+ k).

Definition certificate (i content : string) (approved : instant) : DocRow :=
  {| do_id := i; do_type := "CERTIFICATE"; do_filename := content +:+ ".pdf"; do_sha256 := id_hash content;
     do_lifecycle := "ACTIVE"; do_approval := "APPROVED"; do_confidentiality := "INTERNAL"; do_entity := Some "acme";
     do_jurisdiction := None; do_license_type := None; do_effective_date := None; do_expiry_date := None; do_approved_at := Some approved;
     do_reuse := true; do_size_bytes := 10; do_current_version := Some ("v-" +:+ content) |}.
Definition version (i content : string) : DocVersionRow :=
  {| dv_id := "v-" +:+ content; dv_document_id := i; dv_sha256 := id_hash content; dv_storage := "AVAILABLE";
     dv_drive := "drive"; dv_item := content |}.

Definition checklist_item (policy : list (string * json)) : TemplateItemRow :=
  {| ti_template_id := "t"; ti_key := "certificate"; ti_type := "CERTIFICATE"; ti_required := true; ti_policy := policy;
     ti_sort_order := 1 |}.
Definition sample_db (policy : list (string * json)) : PacketDb :=
  {| packets := ∅; items := [];
     cases := {[ "c" := {| cs_key := "case-1"; cs_entity_id := "e"; cs_license_id := None; cs_type := "RENEWAL"; cs_owner := Some "olga" |} ]};
     entities := {[ "e" := {| en_key := "acme"; en_name := "Acme LLC" |} ]}; licences := ∅; jurisdictions := ∅; licence_types := ∅;
     templates := {[ "t" := {| te_key := "renewal"; te_status := "ACTIVE"; te_jurisdiction_id := None; te_type_id := None; te_case_type := None |} ]};
     template_items := [checklist_item policy]; docs := [certificate "d1" "old" 100]; doc_versions := {[ "v-old" := version "d1" "old" ]};
     log := {| audits := []; notices := [] |} |}.

(** A newer certificate arrives. *)
Definition renewed (db : PacketDb) : PacketDb :=
  db <| docs := docs db ++ [certificate "d2" "new" 200] |> <| doc_versions := <["v-new" := version "d2" "new"]> (doc_versions db) |>.

Definition or_same {A} (r : result exn (A * PacketDb)) (db : PacketDb) : PacketDb := match r with Ok (_, db') => db' | Err _ => db end.

Definition run_create (db : PacketDb) : PacketDb := or_same (create_packet sample_settings "c" (Some "t") "ana" "p" db) db.
Definition build_ids (tag : string) (n : Z) : string := tag +:+ "-" +:+ (if n =? 1 then "1" else "2").
Definition call_build (tag : string) (db : PacketDb) :=
  build id_hash text sample_settings "p" ∅ "ana" (build_ids tag) "2026-01-01" 86400000000 db.
Definition call_archive (db : PacketDb) := generate_archive id_hash sample_settings stored sample_zip keep "p" "worker" db.
Definition call_approve (db : PacketDb) := approve sample_settings "p" "rob" 5000 db.

Definition created (policy : list (string * json)) : PacketDb := run_create (sample_db policy).
Definition built : PacketDb := or_same (call_build "b" (created [])) (created []).
Definition archived : PacketDb := or_same (call_archive built) built.
Definition approved : PacketDb := or_same (call_approve archived) archived.
Definition rebuilt : PacketDb := or_same (call_build "r" (renewed archived)) (renewed archived).
Definition approved_later : PacketDb := or_same (call_approve rebuilt) rebuilt.

Definition ok {A} (r : result exn A) : bool := match r with Ok _ => true | Err _ => false end.

Lemma or_same_ok {A} (r : result exn (A * PacketDb)) db : ok r = true -> exists x, r = Ok (x, or_same r db).
Proof. destruct r as [[x db']|]; [|done]. by exists x. Qed.

Notation sample_step := (step id_hash text sample_settings stored sample_zip keep).

Definition manual : list (string * json) := [("strategy", JStr "MANUAL_ONLY")].

Lemma created_step policy :
  ok (create_packet sample_settings "c" (Some "t") "ana" "p" (sample_db policy)) = true -> sample_step (sample_db policy) (created policy).
Proof. intros H. destruct (or_same_ok _ (sample_db policy) H) as [p Hp]. by eapply step_create. Qed.

Lemma built_step tag db : ok (call_build tag db) = true -> sample_step db (or_same (call_build tag db) db).
Proof. intros H. destruct (or_same_ok _ db H) as [p Hp]. by eapply step_build. Qed.

Lemma archived_step db : ok (call_archive db) = true -> sample_step db (or_same (call_archive db) db).
Proof. intros H. destruct (or_same_ok _ db H) as [p Hp]. by eapply step_archive. Qed.

Lemma approved_step db : ok (call_approve db) = true -> sample_step db (or_same (call_approve db) db).
Proof. intros H. destruct (or_same_ok _ db H) as [p Hp]. by eapply step_approve. Qed.

Notation sample_reachable := (reachable id_hash text sample_settings stored sample_zip keep).

Lemma created_reach policy :
  ok (create_packet sample_settings "c" (Some "t") "ana" "p" (sample_db policy)) = true -> sample_reachable (created policy).
Proof. intros H. exists (sample_db policy). split; [done|]. by apply rtc_once, created_step. Qed.

Lemma reach_step db db' : sample_reachable db -> sample_step db db' -> sample_reachable db'.
Proof. intros (db0 & H0 & H) Hs. exists db0. split; [done|]. by eapply rtc_r. Qed.

Lemma built_reach : sample_reachable built.
Proof.
  refine (reach_step (created []) built (created_reach [] _) (built_step "b" (created []) _)); vm_compute; reflexivity.
Qed.

Lemma archived_reach : sample_reachable archived.
Proof. refine (reach_step built archived built_reach (archived_step built _)). vm_compute. reflexivity. Qed.

Lemma approved_reach : sample_reachable approved.
Proof. refine (reach_step archived approved archived_reach (approved_step archived _)). vm_compute. reflexivity. Qed.

Lemma renewed_step db : sample_step db (renewed db).
Proof. by apply step_others. Qed.

Lemma approved_later_reach : sample_reachable approved_later.
Proof.
  refine (reach_step rebuilt approved_later (reach_step (renewed archived) rebuilt
    (reach_step archived (renewed archived) archived_reach (renewed_step archived))
    (built_step "r" (renewed archived) _)) (approved_step rebuilt _)); vm_compute; reflexivity.
Qed.

(** What is of interest in the sample packet: its status, the documents of its manifest
    and the hash of its archive. *)
Definition summary (db : PacketDb) : option (string * list string * option string) :=
  (fun p => (pk_status p, match pk_manifest p with Some m => me_document_id <$> mf_included m | None => [] end, archive_sha256 p))
    <$> packets db !! "p".

(** An approval can take the archive of an older manifest.  A build leaves the
    archive fields of the packet as they are: a packet is built, its archive generated,
    a newer document arrives, the packet is built again and approved.  The approved
    packet names the new document and carries the archive of the old one. *)
Theorem stale_archive_approved :
  exists db, sample_reachable db /\ summary db = Some (value PacketStatus.APPROVED, ["d2"], Some (id_hash "01-old.pdf=old")).
Proof. exists approved_later. split; [apply approved_later_reach | by vm_compute]. Qed.

(** ** The properties on the sample *)

Lemma build_sound_witness :
  match call_build "b" (created []) with
  | Ok (p', _) => exists m e, pk_manifest p' = Some m /\ me_sha256 e = Some (id_hash "old") /\ e ∈ mf_included m /\
      pk_manifest_sha256 p' = Some (manifest_sha256 id_hash m)
  | Err _ => False
  end.
Proof.
  destruct (call_build "b" (created [])) as [[p' db']|err] eqn:E; [|by vm_compute in E].
  assert (exists m e, pk_manifest p' = Some m /\ mf_included m = [e] /\ me_sha256 e = Some (id_hash "old")) as (m & e & Hm & Hin & He).
  { assert (match call_build "b" (created []) with Ok (q, _) => exists m e, pk_manifest q = Some m /\ mf_included m = [e] /\ me_sha256 e = Some (id_hash "old") | Err _ => False end) as H
      by (vm_compute; eexists _, _; split_and!; reflexivity). by rewrite E in H. }
  destruct (build_sound id_hash text sample_settings _ _ _ _ _ _ _ _ _ E) as (p & c & en & m' & _ & _ & _ & Hm' & Hh & _).
  rewrite Hm in Hm'. injection Hm' as <-. exists m, e. split_and!; try assumption. rewrite Hin. left.
Defined.

Lemma packets_consistent_witness :
  match packets approved_later !! "p" with
  | Some p => missing_items p = [] /\ immutable p = true
  | None => False
  end.
Proof.
  destruct (packets approved_later !! "p") as [p|] eqn:E; [|by vm_compute in E].
  assert (immutable p = true) as Hi.
  { assert (match packets approved_later !! "p" with Some q => immutable q | None => false end = true) as H by (vm_compute; reflexivity).
    by rewrite E in H. }
  destruct (packets_consistent id_hash text sample_settings stored sample_zip keep approved_later approved_later_reach) as (_ & H & _).
  split; [exact (H "p" p E Hi) | exact Hi].
Defined.

Lemma approved_packet_frozen_witness :
  match packets approved !! "p" with
  | Some p => exists p', packets (renewed approved) !! "p" = Some p' /\ frozen approved (renewed approved) p p'
  | None => False
  end.
Proof.
  destruct (packets approved !! "p") as [p|] eqn:E; [|by vm_compute in E].
  assert (immutable p = true) as Hi.
  { assert (match packets approved !! "p" with Some q => immutable q | None => false end = true) as H by (vm_compute; reflexivity).
    by rewrite E in H. }
  apply (approved_packet_frozen id_hash text sample_settings stored sample_zip keep approved (renewed approved) "p" p approved_reach E Hi).
  exact (rtc_once _ _ (renewed_step approved)).
Defined.

Lemma archive_sound_witness :
  match call_archive built with
  | Ok (p', _) => exists m files, archive_sha256 p' = Some (id_hash (sample_zip (build_archive m files None))) /\ dom files = {["01-old.pdf"]}
  | Err _ => False
  end.
Proof.
  destruct (call_archive built) as [[p' db']|err] eqn:E; [|by vm_compute in E].
  destruct (archive_sound id_hash text sample_settings stored sample_zip keep built "p" "worker" p' db' built_reach E)
    as (p & m & files & Hp & Hm & [H _] & Hd & _). exists m, files. split; [exact H|]. rewrite Hd.
  assert (packets built !! "p" ≫= pk_manifest = Some m) as E' by (rewrite Hp; exact Hm).
  assert (me_filename_in_archive <$> mf_included m = ["01-old.pdf"]) as ->.
  { vm_compute in E'. injection E' as <-. reflexivity. }
  by rewrite list_to_set_cons, list_to_set_nil, union_empty_r_L.
Defined.

(** A licence type is compared nowhere: a certificate of a lender goes into the packet of a
    case about the licence of a broker. *)
Definition of_a_lender : PacketDb :=
  let db := created [] in
  db <| cases := (fun c => {| cs_key := cs_key c; cs_entity_id := cs_entity_id c; cs_license_id := Some "l"; cs_type := cs_type c;
                              cs_owner := cs_owner c |}) <$> cases db |>
     <| licences := {[ "l" := {| lc_jurisdiction_id := "tx"; lc_type_id := "broker" |} ]} |>
     <| licence_types := {[ "broker" := {| lt_key := "BROKER"; lt_name := "Broker" |} ]} |>
     <| docs := (fun d => {| do_id := do_id d; do_type := do_type d; do_filename := do_filename d; do_sha256 := do_sha256 d;
          do_lifecycle := do_lifecycle d; do_approval := do_approval d; do_confidentiality := do_confidentiality d;
          do_entity := do_entity d; do_jurisdiction := do_jurisdiction d; do_license_type := Some "LENDER";
          do_effective_date := do_effective_date d; do_expiry_date := do_expiry_date d; do_approved_at := do_approved_at d;
          do_reuse := do_reuse d; do_size_bytes := do_size_bytes d; do_current_version := do_current_version d |}) <$> docs db |>.

Example other_licence_type_included :
  match call_build "b" of_a_lender with
  | Ok (p', _) => (pk_status p', (fun m => (mf_license_type m, me_document_id <$> mf_included m)) <$> pk_manifest p') =
                  (value PacketStatus.READY_FOR_REVIEW, Some (Some "Broker", ["d1"]))
  | Err _ => False
  end.
Proof. vm_compute. reflexivity. Qed.

Lemma manual_item_never_supplied_witness :
  match build id_hash text sample_settings "p" {[ "certificate" := "00000000-0000-4000-8000-000000000001" ]} "ana" (build_ids "b")
          "2026-01-01" 86400000000 (created manual) with
  | Ok (_, db') => approve sample_settings "p" "rob" 5000 db' = Err StateConflictError
  | Err _ => False
  end.
Proof.
  destruct (build _ _ _ _ _ _ _ _ _ _) as [[p' db']|err] eqn:E; [|by vm_compute in E].
  destruct (packets (created manual) !! "p") as [p|] eqn:Ep; [|by vm_compute in Ep].
  assert (pk_template_id p = Some "t") as Ht.
  { assert (pk_template_id <$> packets (created manual) !! "p" = Some (Some "t")) as H by (vm_compute; reflexivity).
    rewrite Ep in H. by injection H. }
  assert (sample_reachable (created manual)) as Hr by (apply created_reach; by vm_compute).
  assert (checklist_item manual ∈ template_items_of (pk_template_id p) (created manual)) as Hin by (rewrite Ht; vm_compute; left).
  eapply (manual_item_never_supplied id_hash text sample_settings stored sample_zip keep (created manual) "p" _ "ana" _ _ _
    (checklist_item manual) p p' db' Hr Ep Hin); [reflexivity | reflexivity | exact E].
Defined.

Definition sample_manifest (generated : string) : Manifest :=
  {| mf_packet_key := "case-1-packet-1"; mf_version := 1; mf_case_key := "case-1"; mf_legal_entity := "Acme LLC";
     mf_jurisdiction := None; mf_license_type := None; mf_template_key := None; mf_included := []; mf_omitted := [];
     mf_missing := []; mf_created_by := None; mf_generated_at := generated |}.

Lemma manifest_hash_binds_witness :
  (mf_case_key (sample_manifest "a") = mf_case_key (sample_manifest "b")) \/ collision id_hash.
Proof.
  destruct (manifest_hash_binds id_hash (sample_manifest "a") (sample_manifest "b")) as [H|H]; [vm_compute; reflexivity | left; apply H | by right].
Defined.

(** The first item's document, called 00-manifest.json in a folder, gets that name in the
    archive, where the manifest has it already. *)
Example manifest_shadowed :
  let f := safe_filename "01-scans/00-manifest.json" "document" "" in
  fst <$> build_archive (sample_manifest "a") {[f := "text"]} (Some "cover") = ["00-cover-sheet.txt"; "00-manifest.json"; "00-manifest.json"].
Proof. vm_compute. reflexivity. Qed.

(** The text of a small manifest as the archive holds it. *)
Example manifest_text :
  dumps_indented 0 (CDict [("included", CList []); ("items", CList [CInt 1; CDict [("k", CStr "v")]])]) =
  "{" +:+ line_break 1 +:+ str_text "included" ": []," +:+ line_break 1 +:+ str_text "items" ": [" +:+ line_break 2 +:+ "1," +:+
  line_break 2 +:+ "{" +:+ line_break 3 +:+ str_text "k" (": " +:+ str_text "v" "") +:+ line_break 2 +:+ "}" +:+ line_break 1 +:+ "]" +:+
  line_break 0 +:+ "}".
Proof. vm_compute. reflexivity. Qed.
