(* ===== verification/LicenseInventory.v ===== *)
(** * The licence inventory

    Legal entities, operating profiles and licences with their history
    ([app/services/license_inventory_service.py]), and bonds
    ([app/api/v1/license_inventory.py]).  The random end of a bond's key is an argument.
    Addresses, amounts, organizations and notes are left out; a field of a change is
    [None] where the request has none. *)
From Stdlib Require Import Ascii Relations.
From stdpp Require Import pretty.
From S2P Require Import Prelude Vocabulary Terms PyDate PyJson PyUrl Regex Roles LicensingLog Scoping.
Open Scope Z_scope.

(** ** Tables *)

Record LegalEntity := {
  en_id : uuid;
  en_key : string;
  en_name : string;
  en_display : option string;
  en_type : string;
  en_nmls : option string;
  en_status : string;
  en_in_scope : bool;
  en_reason : option string
}.
Instance eta_entity : Eta LegalEntity := fun e =>
  {| en_id := en_id e; en_key := en_key e; en_name := en_name e; en_display := en_display e; en_type := en_type e;
     en_nmls := en_nmls e; en_status := en_status e; en_in_scope := en_in_scope e; en_reason := en_reason e |}.

Record OperatingProfile := {
  pf_id : uuid;
  pf_entity : uuid;
  pf_name : string;
  pf_version : Z;
  pf_status : string;
  pf_from : option date;
  pf_to : option date;
  pf_facts : list (string * json);
  pf_approved_by : option string;
  pf_approved_at : option instant
}.
Instance eta_profile : Eta OperatingProfile := fun p =>
  {| pf_id := pf_id p; pf_entity := pf_entity p; pf_name := pf_name p; pf_version := pf_version p; pf_status := pf_status p;
     pf_from := pf_from p; pf_to := pf_to p; pf_facts := pf_facts p; pf_approved_by := pf_approved_by p;
     pf_approved_at := pf_approved_at p |}.

Record LicenseInventory := {
  li_id : uuid;
  li_key : string;
  li_entity : uuid;
  li_jurisdiction : uuid;
  li_type : uuid;
  li_number : option string;
  li_nmls : option string;
  li_channel : string;
  li_status : string;
  li_additional : bool;
  li_label : option string;
  li_issue : option date;
  li_effective : option date;
  li_expiration : option date;
  li_due : option date;
  li_start : option date;
  li_surrender : option date;
  li_review : option date;
  li_owner : option string;
  li_document : option uuid;
  li_confidence : string;
  li_verified : option instant
}.
Instance eta_licence : Eta LicenseInventory := fun l =>
  {| li_id := li_id l; li_key := li_key l; li_entity := li_entity l; li_jurisdiction := li_jurisdiction l; li_type := li_type l;
     li_number := li_number l; li_nmls := li_nmls l; li_channel := li_channel l; li_status := li_status l; li_additional := li_additional l;
     li_label := li_label l; li_issue := li_issue l; li_effective := li_effective l; li_expiration := li_expiration l; li_due := li_due l;
     li_start := li_start l; li_surrender := li_surrender l; li_review := li_review l; li_owner := li_owner l;
     li_document := li_document l; li_confidence := li_confidence l; li_verified := li_verified l |}.

Record LicenseStatusEvent := {
  lv_license : uuid;
  lv_from : option string;
  lv_to : string;
  lv_effective : instant;
  lv_actor : string;
  lv_source : string;
  lv_reference : option string;
  lv_occurred : instant
}.

Record LicenseBond := {
  bn_id : uuid;
  bn_key : string;
  bn_entity : uuid;
  bn_license : uuid;
  bn_number : option string;
  bn_status : string;
  bn_channel : string;
  bn_effective : option date;
  bn_expiration : option date;
  bn_continuous : bool;
  bn_verified : option instant
}.
Instance eta_bond : Eta LicenseBond := fun b =>
  {| bn_id := bn_id b; bn_key := bn_key b; bn_entity := bn_entity b; bn_license := bn_license b; bn_number := bn_number b;
     bn_status := bn_status b; bn_channel := bn_channel b; bn_effective := bn_effective b; bn_expiration := bn_expiration b;
     bn_continuous := bn_continuous b; bn_verified := bn_verified b |}.

Record InventoryDb := {
  entities : gmap uuid LegalEntity;
  profiles : gmap uuid OperatingProfile;
  jurisdiction_keys : gmap uuid string;
  license_type_keys : gmap uuid string;
  licences : gmap uuid LicenseInventory;
  status_events : list LicenseStatusEvent;
  bonds : gmap uuid LicenseBond;
  log : Log;
  next_id : nat
}.
Instance eta_inventory : Eta InventoryDb := fun db =>
  {| entities := entities db; profiles := profiles db; jurisdiction_keys := jurisdiction_keys db; license_type_keys := license_type_keys db;
     licences := licences db; status_events := status_events db; bonds := bonds db; log := log db; next_id := next_id db |}.

Definition drawn (db : InventoryDb) : InventoryDb := db <| next_id := S (next_id db) |>.
Definition put_entity (e : LegalEntity) (db : InventoryDb) : InventoryDb := db <| entities := <[en_id e := e]> (entities db) |>.
Definition put_profile (p : OperatingProfile) (db : InventoryDb) : InventoryDb := db <| profiles := <[pf_id p := p]> (profiles db) |>.
Definition put_licence (l : LicenseInventory) (db : InventoryDb) : InventoryDb := db <| licences := <[li_id l := l]> (licences db) |>.
Definition put_bond (b : LicenseBond) (db : InventoryDb) : InventoryDb := db <| bonds := <[bn_id b := b]> (bonds db) |>.
Definition add_event (e : LicenseStatusEvent) (db : InventoryDb) : InventoryDb := db <| status_events := status_events db ++ [e] |>.
Definition audited (entity i act : string) (who : CurrentActor) (db : InventoryDb) : InventoryDb :=
  db <| log := add_audit entity i act (Some (actor_id who)) (log db) |>.
Definition find {A} (t : gmap uuid A) (i : uuid) : result exn A := match t !! i with Some x => Ok x | None => Err NotFoundError end.


(** A change of a request: [None] leaves the column as it is. *)
Definition kept_or {A} (new : option A) (old : A) : A := default old new.
Definition kept_or_some {A} (new old : option A) : option A := match new with Some x => Some x | None => old end.

Definition LIVE_LICENSE_STATUSES : list string :=
  value <$> [LicenseStatus.APPLICATION_IN_PROGRESS; LicenseStatus.PENDING_REGULATOR; LicenseStatus.APPROVED; LicenseStatus.ACTIVE;
             LicenseStatus.RENEWAL_IN_PROGRESS; LicenseStatus.REINSTATING; LicenseStatus.SUSPENDED].
Definition TERMINAL_LICENSE_STATUSES : list string := value <$> [LicenseStatus.REVOKED; LicenseStatus.SURRENDERED; LicenseStatus.NOT_REQUIRED].
Definition live (status : string) : bool := bool_decide (status ∈ LIVE_LICENSE_STATUSES).
Definition terminal (status : string) : bool := bool_decide (status ∈ TERMINAL_LICENSE_STATUSES).

Definition key_safe (c : ascii) : bool :=
  let n := Ascii.N_of_ascii c in ((97 <=? n) && (n <=? 122) || (48 <=? n) && (n <=? 57))%N.
Definition slugify (value fallback : string) : string :=
  let cleaned := rstrip_char "-" (drop_chars (is_char "-") (re_sub (Plus (Cls (fun c => negb (key_safe c)))) "-" (str_lower value))) in
  str_take 80 (if bool_decide (cleaned = "") then fallback else cleaned).

Section Inventory.
Context (uuid4 : nat -> uuid).

(** ** Legal entities *)

Record NewEntity := {
  ne_key : option string;
  ne_name : string;
  ne_display : option string;
  ne_type : string;
  ne_nmls : option string;
  ne_status : option string;
  ne_in_scope : bool;
  ne_reason : option string
}.

Definition new_entity (i : uuid) (n : NewEntity) : LegalEntity :=
  {| en_id := i; en_key := or_text (ne_key n) (slugify (ne_name n) "entity"); en_name := ne_name n; en_display := ne_display n;
     en_type := ne_type n; en_nmls := ne_nmls n; en_status := or_text (ne_status n) (value EntityStatus.ACTIVE);
     en_in_scope := ne_in_scope n; en_reason := ne_reason n |}.

Definition entity_row_ok (e : LegalEntity) : bool :=
  is_value (A := EntityType.EntityType) (en_type e) && is_value (A := EntityStatus.EntityStatus) (en_status e).

Definition create_legal_entity (n : NewEntity) (who : CurrentActor) (db : InventoryDb) : result exn (LegalEntity * InventoryDb) :=
  let e := new_entity (uuid4 (next_id db)) n in
  _ ← raise_unless (negb (existsb (fun x => bool_decide (en_key x = en_key e)) (rows (entities db)))) StateConflictError;
  _ ← raise_unless (entity_row_ok e) IntegrityError;
  Ok (e, audited "legal_entity" (en_id e) "legal_entity_created" who (put_entity e (drawn db))).

Record EntityChanges := {
  ec_name : option string;
  ec_display : option string;
  ec_type : option string;
  ec_nmls : option string;
  ec_status : option string;
  ec_in_scope : option bool;
  ec_reason : option string
}.

Definition changed_entity (c : EntityChanges) (e : LegalEntity) : LegalEntity :=
  {| en_id := en_id e; en_key := en_key e; en_name := kept_or (ec_name c) (en_name e); en_display := kept_or_some (ec_display c) (en_display e);
     en_type := kept_or (ec_type c) (en_type e); en_nmls := kept_or_some (ec_nmls c) (en_nmls e); en_status := kept_or (ec_status c) (en_status e);
     en_in_scope := kept_or (ec_in_scope c) (en_in_scope e); en_reason := kept_or_some (ec_reason c) (en_reason e) |}.

Definition update_legal_entity (i : uuid) (c : EntityChanges) (who : CurrentActor) (db : InventoryDb) : result exn (LegalEntity * InventoryDb) :=
  e ← find (entities db) i;
  let e := changed_entity c e in
  _ ← raise_unless (en_in_scope e || truthy_str (en_reason e)) StateConflictError;
  _ ← raise_unless (entity_row_ok e) IntegrityError;
  Ok (e, audited "legal_entity" i "legal_entity_updated" who (put_entity e db)).

(** ** Operating profiles *)

Definition versions_of (entity : uuid) (name : string) (db : InventoryDb) : list OperatingProfile :=
  filter (fun p => pf_entity p = entity /\ pf_name p = name) (rows (profiles db)).
Definition highest_version (entity : uuid) (name : string) (db : InventoryDb) : Z :=
  foldr Z.max 0 (pf_version <$> versions_of entity name db).

Definition create_operating_profile (entity : uuid) (name : string) (facts : list (string * json)) (from : option date) (who : CurrentActor)
    (db : InventoryDb) : result exn (OperatingProfile * InventoryDb) :=
  _ ← find (entities db) entity;
  let p := {| pf_id := uuid4 (next_id db); pf_entity := entity; pf_name := name; pf_version := highest_version entity name db + 1;
              pf_status := value ProfileStatus.DRAFT; pf_from := from; pf_to := None; pf_facts := facts; pf_approved_by := None;
              pf_approved_at := None |} in
  Ok (p, audited "operating_profile" (pf_id p) "operating_profile_created" who (put_profile p (drawn db))).

Definition active_profile (p : OperatingProfile) : bool := bool_decide (pf_status p = value ProfileStatus.ACTIVE).

Definition retired (today : date) (p : OperatingProfile) : OperatingProfile :=
  p <| pf_status := value ProfileStatus.RETIRED |> <| pf_to := Some today |>.
Definition profile_row_ok (p : OperatingProfile) : bool := match pf_from p, pf_to p with Some f, Some t => f <=? t | _, _ => true end.

Definition retire_current (current : option OperatingProfile) (today : date) (db : InventoryDb) : result exn InventoryDb :=
  match current with
  | Some c =>
      let c := retired today c in
      _ ← raise_unless (profile_row_ok c) IntegrityError;
      Ok (put_profile c db)
  | None => Ok db
  end.

Definition approve_operating_profile (i : uuid) (who : CurrentActor) (now : instant) (db : InventoryDb)
    : result exn (OperatingProfile * InventoryDb) :=
  p ← find (profiles db) i;
  _ ← raise_unless (bool_decide (pf_status p = value ProfileStatus.DRAFT)) StateConflictError;
  let current := head (filter (fun x => active_profile x = true) (versions_of (pf_entity p) (pf_name p) db)) in
  db ← retire_current current (instant_date now) db;
  let p := p <| pf_status := value ProfileStatus.ACTIVE |> <| pf_approved_by := Some (actor_id who) |> <| pf_approved_at := Some now |> in
  Ok (p, audited "operating_profile" i "operating_profile_approved" who (put_profile p db)).

(** ** Licences *)

Definition scope (l : LicenseInventory) : uuid * uuid * uuid := (li_entity l, li_jurisdiction l, li_type l).
(** A licence that occupies the place of its entity, jurisdiction and type. *)
Definition occupies (l : LicenseInventory) : bool := negb (li_additional l) && live (li_status l).
Definition clash (l : LicenseInventory) (db : InventoryDb) : bool :=
  existsb (fun x => bool_decide (scope x = scope l) && occupies x && negb (bool_decide (li_id x = li_id l))) (rows (licences db)).

Definition dates_in_order (l : LicenseInventory) : bool := match li_issue l, li_expiration l with Some i, Some e => i <=? e | _, _ => true end.

Definition columns_ok (l : LicenseInventory) : bool :=
  is_value (A := LicenseStatus.LicenseStatus) (li_status l) && is_value (A := FilingChannel.FilingChannel) (li_channel l) &&
  is_value (A := SourceConfidence.SourceConfidence) (li_confidence l) && dates_in_order l.

Definition license_row_ok (l : LicenseInventory) (db : InventoryDb) : bool :=
  columns_ok l && negb (existsb (fun x => bool_decide (li_key x = li_key l) && negb (bool_decide (li_id x = li_id l))) (rows (licences db))) &&
  negb (occupies l && clash l db).

Record NewLicense := {
  nl_entity : uuid;
  nl_jurisdiction : uuid;
  nl_type : uuid;
  nl_number : option string;
  nl_nmls : option string;
  nl_channel : option string;
  nl_status : option string;
  nl_additional : bool;
  nl_label : option string;
  nl_issue : option date;
  nl_effective : option date;
  nl_expiration : option date;
  nl_due : option date;
  nl_owner : option string;
  nl_document : option uuid;
  nl_confidence : option string;
  nl_event_source : option string;
  nl_event_reference : option string
}.

Definition license_key (entity jurisdiction type : string) (number : option string) : string :=
  str_take 120 (String.concat "-" [entity; jurisdiction; type; slugify (or_text number "primary") "item"]).

Definition new_license (i : uuid) (key : string) (n : NewLicense) : LicenseInventory :=
  {| li_id := i; li_key := key; li_entity := nl_entity n; li_jurisdiction := nl_jurisdiction n; li_type := nl_type n; li_number := nl_number n;
     li_nmls := nl_nmls n; li_channel := or_text (nl_channel n) (value FilingChannel.UNKNOWN);
     li_status := or_text (nl_status n) (value LicenseStatus.NOT_STARTED); li_additional := nl_additional n; li_label := nl_label n;
     li_issue := nl_issue n; li_effective := nl_effective n; li_expiration := nl_expiration n; li_due := nl_due n; li_start := None;
     li_surrender := None; li_review := None; li_owner := nl_owner n; li_document := nl_document n;
     li_confidence := or_text (nl_confidence n) (value SourceConfidence.MANUAL_ENTRY); li_verified := None |}.

Definition status_event (l : LicenseInventory) (from : option string) (source reference : option string) (effective : option instant)
    (who : CurrentActor) (now : instant) : LicenseStatusEvent :=
  {| lv_license := li_id l; lv_from := from; lv_to := li_status l; lv_effective := default now effective; lv_actor := actor_id who;
     lv_source := or_text source (value LicenseEventSourceType.MANUAL_UPDATE); lv_reference := reference; lv_occurred := now |}.

Definition create_license (n : NewLicense) (who : CurrentActor) (now : instant) (db : InventoryDb) : result exn (LicenseInventory * InventoryDb) :=
  match entities db !! nl_entity n, jurisdiction_keys db !! nl_jurisdiction n, license_type_keys db !! nl_type n with
  | Some e, Some j, Some t =>
      let l := new_license (uuid4 (next_id db)) (license_key (en_key e) j t (nl_number n)) n in
      _ ← raise_unless (negb (occupies l && existsb (fun x => bool_decide (scope x = scope l) && occupies x) (rows (licences db)))) StateConflictError;
      _ ← raise_unless (license_row_ok l db) IntegrityError;
      Ok (l, audited "license_inventory" (li_id l) "license_created" who
               (add_event (status_event l None (nl_event_source n) (nl_event_reference n) None who now) (put_licence l (drawn db))))
  | _, _, _ => Err NotFoundError
  end.

Record StatusChange := {
  sc_to : string;
  sc_source : option string;
  sc_reference : option string;
  sc_effective : option instant
}.

Definition moved (to : string) (now : instant) (l : LicenseInventory) : LicenseInventory :=
  l <| li_status := to |>
    <| li_surrender := if bool_decide (to = value LicenseStatus.SURRENDERED) && bool_decide (li_surrender l = None) then Some (instant_date now)
                       else li_surrender l |>.

Definition transition_status (i : uuid) (c : StatusChange) (who : CurrentActor) (now : instant) (db : InventoryDb)
    : result exn (LicenseInventory * InventoryDb) :=
  l ← find (licences db) i;
  let to := sc_to c in
  _ ← raise_unless (is_value (A := LicenseStatus.LicenseStatus) to) StateConflictError;
  _ ← raise_unless (negb (terminal (li_status l) &&
                          negb (bool_decide (to ∈ value <$> [LicenseStatus.REINSTATING; LicenseStatus.APPLICATION_IN_PROGRESS]))))
        StateConflictError;
  _ ← raise_unless (negb (live to && negb (live (li_status l)) && negb (li_additional l) && clash l db)) StateConflictError;
  let m := moved to now l in
  _ ← raise_unless (license_row_ok m db) IntegrityError;
  Ok (m, audited "license_inventory" i "license_status_changed" who
           (add_event (status_event m (Some (li_status l)) (sc_source c) (sc_reference c) (sc_effective c) who now) (put_licence m db))).

Record LicenseChanges := {
  lc_number : option string;
  lc_nmls : option string;
  lc_channel : option string;
  lc_label : option string;
  lc_issue : option date;
  lc_effective : option date;
  lc_expiration : option date;
  lc_due : option date;
  lc_start : option date;
  lc_review : option date;
  lc_owner : option string;
  lc_document : option uuid;
  lc_confidence : option string
}.

Definition changed_license (c : LicenseChanges) (l : LicenseInventory) : LicenseInventory :=
  l <| li_number := kept_or_some (lc_number c) (li_number l) |> <| li_nmls := kept_or_some (lc_nmls c) (li_nmls l) |>
    <| li_channel := kept_or (lc_channel c) (li_channel l) |> <| li_label := kept_or_some (lc_label c) (li_label l) |>
    <| li_issue := kept_or_some (lc_issue c) (li_issue l) |> <| li_effective := kept_or_some (lc_effective c) (li_effective l) |>
    <| li_expiration := kept_or_some (lc_expiration c) (li_expiration l) |> <| li_due := kept_or_some (lc_due c) (li_due l) |>
    <| li_start := kept_or_some (lc_start c) (li_start l) |> <| li_review := kept_or_some (lc_review c) (li_review l) |>
    <| li_owner := kept_or_some (lc_owner c) (li_owner l) |> <| li_document := kept_or_some (lc_document c) (li_document l) |>
    <| li_confidence := kept_or (lc_confidence c) (li_confidence l) |>.

Definition update_license (i : uuid) (c : LicenseChanges) (who : CurrentActor) (db : InventoryDb) : result exn (LicenseInventory * InventoryDb) :=
  l ← find (licences db) i;
  let l := changed_license c l in
  _ ← raise_unless (dates_in_order l) StateConflictError;
  _ ← raise_unless (license_row_ok l db) IntegrityError;
  Ok (l, audited "license_inventory" i "license_updated" who (put_licence l db)).

Record RenewedEvidence := {
  rv_expiration : date;
  rv_issue : option date;
  rv_number : option string;
  rv_document : option uuid
}.

Definition renewed (v : RenewedEvidence) (now : instant) (l : LicenseInventory) : LicenseInventory :=
  l <| li_expiration := Some (rv_expiration v) |> <| li_due := Some (rv_expiration v) |> <| li_issue := kept_or_some (rv_issue v) (li_issue l) |>
    <| li_number := if truthy_str (rv_number v) then rv_number v else li_number l |> <| li_document := kept_or_some (rv_document v) (li_document l) |>
    <| li_confidence := value SourceConfidence.VERIFIED_DOCUMENT |> <| li_verified := Some now |> <| li_status := value LicenseStatus.ACTIVE |>.

Definition record_renewed_evidence (i : uuid) (v : RenewedEvidence) (who : CurrentActor) (now : instant) (db : InventoryDb)
    : result exn (LicenseInventory * InventoryDb) :=
  l ← find (licences db) i;
  let m := renewed v now l in
  _ ← raise_unless (license_row_ok m db) IntegrityError;
  Ok (m, audited "license_inventory" i "license_renewed" who
           (add_event (status_event m (Some (li_status l)) (Some (value LicenseEventSourceType.CASE_COMPLETION)) (rv_document v) None who now)
              (put_licence m db))).

(** ** Bonds *)

Record NewBond := {
  nb_entity : uuid;
  nb_number : option string;
  nb_status : option string;
  nb_channel : option string;
  nb_effective : option date;
  nb_expiration : option date;
  nb_continuous : bool
}.

Definition bond_row_ok (b : LicenseBond) (db : InventoryDb) : bool :=
  is_value (A := BondStatus.BondStatus) (bn_status b) && is_value (A := BondChannel.BondChannel) (bn_channel b) &&
  match bn_effective b, bn_expiration b with Some f, Some e => f <=? e | _, _ => true end &&
  negb (existsb (fun x => bool_decide (bn_key x = bn_key b) && negb (bool_decide (bn_id x = bn_id b))) (rows (bonds db))).

Definition create_license_bond (license : uuid) (n : NewBond) (suffix : string) (who : CurrentActor) (db : InventoryDb)
    : result exn (LicenseBond * InventoryDb) :=
  match licences db !! license, entities db !! nb_entity n with
  | Some l, Some _ =>
      _ ← raise_unless (bool_decide (li_entity l = nb_entity n)) StateConflictError;
      let b := {| bn_id := uuid4 (next_id db); bn_key := li_key l +:+ "-bond-" +:+ suffix; bn_entity := nb_entity n; bn_license := license;
                  bn_number := nb_number n; bn_status := default (value BondStatus.PENDING) (nb_status n);
                  bn_channel := default (value BondChannel.UNKNOWN) (nb_channel n); bn_effective := nb_effective n;
                  bn_expiration := nb_expiration n; bn_continuous := nb_continuous n; bn_verified := None |} in
      _ ← raise_unless (bond_row_ok b db) IntegrityError;
      Ok (b, audited "license_bond" (bn_id b) "bond_created" who (put_bond b (drawn db)))
  | _, _ => Err NotFoundError
  end.

(** The fields a request sets, null included. *)
Record BondChanges := {
  bc_number : option (option string);
  bc_status : option (option string);
  bc_channel : option (option string);
  bc_effective : option (option date);
  bc_expiration : option (option date);
  bc_continuous : option (option bool)
}.

(** A column that must not be null. *)
Definition not_null {A} (new : option (option A)) (old : A) : result exn A :=
  match new with None => Ok old | Some (Some x) => Ok x | Some None => Err IntegrityError end.

Definition update_bond (i : uuid) (c : BondChanges) (who : CurrentActor) (now : instant) (db : InventoryDb) : result exn (LicenseBond * InventoryDb) :=
  b ← find (bonds db) i;
  status ← not_null (bc_status c) (bn_status b);
  channel ← not_null (bc_channel c) (bn_channel b);
  continuous ← not_null (bc_continuous c) (bn_continuous b);
  let b := b <| bn_number := default (bn_number b) (bc_number c) |> <| bn_status := status |> <| bn_channel := channel |>
             <| bn_effective := default (bn_effective b) (bc_effective c) |> <| bn_expiration := default (bn_expiration b) (bc_expiration c) |>
             <| bn_continuous := continuous |> <| bn_verified := Some now |> in
  _ ← raise_unless (bond_row_ok b db) IntegrityError;
  Ok (b, audited "license_bond" i "bond_updated" who (put_bond b db)).
End Inventory.

Example slugs : (slugify "  ACME & Sons, LLC. " "entity", slugify "***" "entity") = ("acme-sons-llc", "entity").
Proof. vm_compute. reflexivity. Qed.

(** ** What holds of the inventory *)

(** The history of a licence leads from a status to another. *)
Definition history (i : uuid) (db : InventoryDb) : list LicenseStatusEvent := filter (fun e => lv_license e = i) (status_events db).
Fixpoint leads (from : option string) (l : list LicenseStatusEvent) : option (option string) :=
  match l with
  | [] => Some from
  | e :: l => if bool_decide (lv_from e = from) then leads (Some (lv_to e)) l else None
  end.

Lemma leads_app from l m : leads from (l ++ m) = leads from l ≫= fun s => leads s m.
Proof. revert from. induction l as [|e l IH]; intros from; cbn; [done|]. by case_bool_decide. Qed.

Lemma history_app i db es : filter (fun e => lv_license e = i) (status_events db ++ es) = history i db ++ filter (fun e => lv_license e = i) es.
Proof. apply filter_app. Qed.

Lemma license_row_spec l db :
  license_row_ok l db = true ->
  columns_ok l = true /\
  (forall k x, licences db !! k = Some x -> li_key x = li_key l -> li_id x = li_id l) /\
  (occupies l = true -> forall k x, licences db !! k = Some x -> scope x = scope l -> occupies x = true -> li_id x = li_id l).
Proof.
  unfold license_row_ok, clash. rewrite !andb_true_iff, !negb_true_iff, andb_false_iff. intros ((H1 & H3) & H4).
  split_and!; [done| |].
  - intros k x Hx E. apply (existsb_rows_false _ _ _ _ H3) in Hx. rewrite (bool_decide_eq_true_2 _ E) in Hx.
    by apply negb_false_iff, bool_decide_eq_true in Hx.
  - intros Ho k x Hx E Hox. destruct H4 as [H4|H4]; [congruence|]. apply (existsb_rows_false _ _ _ _ H4) in Hx.
    rewrite (bool_decide_eq_true_2 _ E), Hox in Hx. by apply negb_false_iff, bool_decide_eq_true in Hx.
Qed.

Definition approved_profile (p : OperatingProfile) : Prop := pf_status p <> value ProfileStatus.DRAFT.

(** Events are only added; a licence keeps its key and its scope, a profile its version
    and its facts, and the name of who approved it. *)
Record grown (db db' : InventoryDb) : Prop := {
  gr_events : exists es, status_events db' = status_events db ++ es;
  gr_licences : forall k l, licences db !! k = Some l -> exists l', licences db' !! k = Some l' /\
    li_key l' = li_key l /\ scope l' = scope l /\ li_additional l' = li_additional l;
  gr_profiles : forall k p, profiles db !! k = Some p -> exists p', profiles db' !! k = Some p' /\
    (pf_entity p', pf_name p', pf_version p', pf_facts p') = (pf_entity p, pf_name p, pf_version p, pf_facts p) /\
    (approved_profile p -> approved_profile p' /\ pf_approved_by p' = pf_approved_by p)
}.

#[global] Instance grown_refl : Reflexive grown.
Proof. intros db. split; [exists []; by rewrite app_nil_r | intros k l H; by exists l | intros k p H; by exists p]. Qed.
#[global] Instance grown_trans : Transitive grown.
Proof.
  intros a b c [[e1 E1] L1 P1] [[e2 E2] L2 P2]. split.
  - exists (e1 ++ e2). by rewrite E2, E1, app_assoc.
  - intros k l H. destruct (L1 k l H) as (m & Hm & A1 & A2 & A3). destruct (L2 k m Hm) as (n & Hn & B1 & B2 & B3). exists n. split; [done|].
    split_and!; congruence.
  - intros k p H. destruct (P1 k p H) as (q & Hq & A1 & A2). destruct (P2 k q Hq) as (r & Hr & B1 & B2). exists r. split; [done|].
    split; [congruence|]. intros Hp. destruct (A2 Hp) as [Hq1 <-]. by apply B2.
Qed.

Section Invariant.
Context (uuid4 : nat -> uuid).

Record inventory_ok (db : InventoryDb) : Prop := {
  io_fresh : forall n, (next_id db <= n)%nat -> entities db !! uuid4 n = None /\ profiles db !! uuid4 n = None /\ licences db !! uuid4 n = None /\
    history (uuid4 n) db = [];
  io_entities : forall k e, entities db !! k = Some e -> en_id e = k;
  io_entity_keys : forall k l e f, entities db !! k = Some e -> entities db !! l = Some f -> en_key e = en_key f -> k = l;
  io_profiles : forall k p, profiles db !! k = Some p -> pf_id p = k /\ (approved_profile p -> is_Some (pf_approved_by p));
  io_versions : forall k l p q, profiles db !! k = Some p -> profiles db !! l = Some q -> pf_entity p = pf_entity q -> pf_name p = pf_name q ->
    (pf_version p = pf_version q \/ active_profile p = true /\ active_profile q = true) -> k = l;
  io_licences : forall k l, licences db !! k = Some l -> li_id l = k /\ columns_ok l = true /\ leads None (history k db) = Some (Some (li_status l));
  io_keys : forall k l x y, licences db !! k = Some x -> licences db !! l = Some y -> li_key x = li_key y -> k = l;
  io_live : forall k l x y, licences db !! k = Some x -> licences db !! l = Some y -> scope x = scope y -> occupies x = true ->
    occupies y = true -> k = l
}.

Definition sound (db db' : InventoryDb) : Prop := inventory_ok db' /\ grown db db'.

Lemma inventory_refl db : inventory_ok db -> sound db db.
Proof. intros H. split; [exact H | reflexivity]. Qed.
Lemma inventory_trans a b c : sound a b -> (inventory_ok b -> sound b c) -> sound a c.
Proof. intros [Hb Hk] H. destruct (H Hb) as [Hc Hk']. split; [done | by etrans]. Qed.

Lemma sound_audited e i act who db : inventory_ok db -> sound db (audited e i act who db).
Proof. intros [H1 H2 H3 H4 H5 H6 H7 H8]. split; [split; done | split; [exists []; by rewrite app_nil_r | intros k l H; by exists l | intros k p H; by exists p]]. Qed.

Context `{!Inj (=) (=) uuid4}.

Lemma drawn_later n m : (S n <= m)%nat -> uuid4 n <> uuid4 m.
Proof. intros H E%(inj uuid4). lia. Qed.

(** *** Licences *)

(** A licence is written together with the events that lead to its status. *)
Lemma sound_licence old l es next db :
  inventory_ok db -> license_row_ok l db = true -> licences db !! li_id l = old ->
  match old with
  | Some l0 => li_key l = li_key l0 /\ scope l = scope l0 /\ li_additional l = li_additional l0 /\ next = next_id db
  | None => li_id l = uuid4 (next_id db) /\ next = S (next_id db)
  end ->
  (forall e, e ∈ es -> lv_license e = li_id l) -> leads (li_status <$> old) es = Some (Some (li_status l)) ->
  sound db (put_licence l db <| status_events := status_events db ++ es |> <| next_id := next |>).
Proof.
  intros [Hf He Hek Hp Hv Hl Hk Hlive] Hrow Hold Hcase Hes Hleads. apply license_row_spec in Hrow as (Hcol & Hkey & Hocc).
  assert (forall n, (next <= n)%nat -> (next_id db <= n)%nat /\ li_id l <> uuid4 n) as Hnext.
  { intros n Hn. destruct old as [l0|].
    - destruct Hcase as (_ & _ & _ & ->). split; [done|]. intros E. rewrite E in Hold. by rewrite (proj1 (proj2 (proj2 (Hf n Hn)))) in Hold.
    - destruct Hcase as [-> ->]. split; [lia | by apply drawn_later]. }
  assert (forall k, k <> li_id l -> filter (fun e => lv_license e = k) es = []) as Hother.
  { intros k Hne. apply filter_none. intros e Hin E. apply Hne. by rewrite <-E, Hes. }
  assert (filter (fun e => lv_license e = li_id l) es = es) as Hown.
  { clear - Hes. induction es as [|e es IH]; [done|]. rewrite filter_cons_True by (apply Hes; left). f_equal. apply IH. intros x Hx. apply Hes. by right. }
  assert (leads None (history (li_id l) db) = Some (li_status <$> old)) as Hpast.
  { destruct old as [l0|]; [by apply Hl | destruct Hcase as [-> _]]. destruct (Hf _ (le_n _)) as (_ & _ & _ & ->). done. }
  split.
  - split; cbn; try done.
    + intros n Hn. destruct (Hnext n Hn) as [Hn1 Hne]. destruct (Hf n Hn1) as (F1 & F2 & F3 & F4). unfold history. cbn.
      rewrite history_app, F4, Hother by done. rewrite lookup_insert_ne by done. by split_and!.
    + intros k x. rewrite lookup_insert_Some. unfold history. cbn. rewrite history_app. intros [[<- <-]|[Hne H]].
      * split_and!; [done..|]. by rewrite leads_app, Hpast, Hown.
      * rewrite Hother, app_nil_r by done. by apply Hl.
    + intros k m x y. rewrite !lookup_insert_Some. intros [[<- <-]|[_ Hx]] [[<- <-]|[_ Hy]] E; [done| | |by eapply Hk].
      * rewrite <-(proj1 (Hl _ _ Hy)). symmetry. by eapply Hkey.
      * rewrite <-(proj1 (Hl _ _ Hx)). by eapply Hkey.
    + intros k m x y. rewrite !lookup_insert_Some. intros [[<- <-]|[_ Hx]] [[<- <-]|[_ Hy]] E Hox Hoy; [done| | |by eapply Hlive].
      * rewrite <-(proj1 (Hl _ _ Hy)). symmetry. by eapply Hocc.
      * rewrite <-(proj1 (Hl _ _ Hx)). by eapply Hocc.
  - split; cbn; [by exists es | | intros k p H; by exists p].
    intros k x Hx. destruct (decide (li_id l = k)) as [<-|Hne]; [|exists x; by rewrite lookup_insert_ne].
    exists l. rewrite lookup_insert_eq. split; [done|]. assert (old = Some x) as Eo by congruence. rewrite Eo in Hcase. by destruct Hcase as (? & ? & ? & _).
Qed.

Lemma find_found {A} (t : gmap uuid A) i x : find t i = Ok x -> t !! i = Some x.
Proof. unfold find. destruct (t !! i); [by intros [= ->] | done]. Qed.

Lemma one_event i e : lv_license e = i -> forall x, x ∈ [e] -> lv_license x = i.
Proof. by intros H x ->%list_elem_of_singleton. Qed.

Lemma create_license_sound n who now db l db' : inventory_ok db -> create_license uuid4 n who now db = Ok (l, db') -> sound db db'.
Proof.
  intros Hok H. unfold create_license in H. repeat (case_match; [|done]). inv_ok. subst. eapply inventory_trans; [|intros; by apply sound_audited].
  match goal with |- sound _ (add_event ?e (put_licence ?l _)) => apply (sound_licence None l [e] (S (next_id db)) db) end; try done.
  - apply (io_fresh _ Hok _ (le_n _)).
  - by apply one_event.
Qed.

(** A licence that exists moves with an event from the status it had. *)
Lemma sound_moved i l m ev src who now eff db :
  inventory_ok db -> licences db !! i = Some l -> li_id m = li_id l -> li_key m = li_key l -> scope m = scope l ->
  li_additional m = li_additional l -> license_row_ok m db = true ->
  sound db (add_event (status_event m (Some (li_status l)) ev src eff who now) (put_licence m db)).
Proof.
  intros Hok Hl Ei Ek Es Ea Hrow. destruct (io_licences _ Hok _ _ Hl) as [Eid _].
  apply (sound_licence (Some l) m [_] (next_id db) db); try done; [by rewrite Ei, Eid | by apply one_event|].
  cbn. by rewrite bool_decide_eq_true_2.
Qed.

Lemma transition_sound i c who now db l db' : inventory_ok db -> transition_status i c who now db = Ok (l, db') -> sound db db'.
Proof.
  intros Hok H. unfold transition_status in H. inv_ok. subst. apply find_found in H0. eapply inventory_trans; [|intros; by apply sound_audited].
  by eapply sound_moved.
Qed.

Lemma renewed_sound i v who now db l db' : inventory_ok db -> record_renewed_evidence i v who now db = Ok (l, db') -> sound db db'.
Proof.
  intros Hok H. unfold record_renewed_evidence in H. inv_ok. subst. apply find_found in H0. eapply inventory_trans; [|intros; by apply sound_audited].
  by eapply sound_moved.
Qed.

Lemma update_license_sound i c who db l db' : inventory_ok db -> update_license i c who db = Ok (l, db') -> sound db db'.
Proof.
  intros Hok H. unfold update_license in H. inv_ok. subst. apply find_found in H0. destruct (io_licences _ Hok _ _ H0) as [Eid _].
  eapply inventory_trans; [|intros; by apply sound_audited].
  assert (put_licence (changed_license c a) db =
    put_licence (changed_license c a) db <| status_events := status_events db ++ [] |> <| next_id := next_id db |>) as -> by (cbn; by rewrite app_nil_r).
  apply (sound_licence (Some a) _ [] (next_id db) db); try done; [by cbn; rewrite Eid | by intros e ?%not_elem_of_nil].
Qed.

(** *** Entities and profiles *)

Lemma sound_entity e next db :
  inventory_ok db -> (forall k x, entities db !! k = Some x -> en_key x = en_key e -> k = en_id e) ->
  (match entities db !! en_id e with Some _ => next = next_id db | None => en_id e = uuid4 (next_id db) /\ next = S (next_id db) end) ->
  sound db (put_entity e db <| next_id := next |>).
Proof.
  intros [Hf He Hek Hp Hv Hl Hk Hlive] Hkey Hcase. split; [|split; [exists []; by rewrite app_nil_r | intros k l H; by exists l | intros k p H; by exists p]].
  split; cbn; try done.
  - intros n Hn. assert ((next_id db <= n)%nat /\ en_id e <> uuid4 n) as [Hn1 Hne].
    { destruct (entities db !! en_id e) as [x|] eqn:Ex; [subst next|].
      - split; [done|]. intros E. rewrite E in Ex. by rewrite (proj1 (Hf n Hn)) in Ex.
      - destruct Hcase as [-> ->]. split; [lia | by apply drawn_later]. }
    destruct (Hf n Hn1) as (F1 & F2). split; [by rewrite lookup_insert_ne | exact F2].
  - intros k x. rewrite lookup_insert_Some. intros [[<- <-]|[_ H]]; [done | by apply He].
  - intros k m x y. rewrite !lookup_insert_Some. intros [[<- <-]|[_ Hx]] [[<- <-]|[_ Hy]] E; [done| | |by eapply Hek].
    + symmetry. by eapply Hkey.
    + by eapply Hkey.
Qed.

Lemma create_entity_sound n who db e db' : inventory_ok db -> create_legal_entity uuid4 n who db = Ok (e, db') -> sound db db'.
Proof.
  intros Hok H. unfold create_legal_entity in H. inv_ok. subst. eapply inventory_trans; [|intros; by apply sound_audited].
  apply (sound_entity _ (S (next_id db)) db); [done| |].
  - intros k x Hx E. apply negb_true_iff in H0. apply (existsb_rows_false _ _ _ _ H0) in Hx. by apply bool_decide_eq_false in Hx.
  - cbn. by rewrite (proj1 (io_fresh _ Hok _ (le_n _))).
Qed.

Lemma update_entity_sound i c who db e db' : inventory_ok db -> update_legal_entity i c who db = Ok (e, db') -> sound db db'.
Proof.
  intros Hok H. unfold update_legal_entity in H. inv_ok. subst. apply find_found in H0. pose proof (io_entities _ Hok _ _ H0) as Ei.
  eapply inventory_trans; [|intros; by apply sound_audited]. apply (sound_entity _ (next_id db) db); [done| |].
  - intros k x Hx E. cbn. rewrite Ei. by eapply (io_entity_keys _ Hok).
  - cbn. by rewrite Ei, H0.
Qed.

(** A profile is written: a new version, or a draft that is approved, or an active one
    that is retired. *)
Lemma sound_profile old p next db :
  inventory_ok db -> profiles db !! pf_id p = old -> (approved_profile p -> is_Some (pf_approved_by p)) ->
  match old with
  | Some q => next = next_id db /\ (pf_entity p, pf_name p, pf_version p, pf_facts p) = (pf_entity q, pf_name q, pf_version q, pf_facts q) /\
      (approved_profile q -> approved_profile p /\ pf_approved_by p = pf_approved_by q)
  | None => pf_id p = uuid4 (next_id db) /\ next = S (next_id db) /\
      forall k q, profiles db !! k = Some q -> pf_entity q = pf_entity p -> pf_name q = pf_name p -> pf_version q <> pf_version p
  end ->
  (active_profile p = true -> forall k q, profiles db !! k = Some q -> pf_entity q = pf_entity p -> pf_name q = pf_name p ->
     active_profile q = true -> k = pf_id p) ->
  sound db (put_profile p db <| next_id := next |>).
Proof.
  intros [Hf He Hek Hp Hv Hl Hk Hlive] Hold Hap Hcase Hact.
  assert (forall k q, profiles db !! k = Some q -> pf_entity q = pf_entity p -> pf_name q = pf_name p -> pf_version q = pf_version p -> k = pf_id p) as Hver.
  { intros k q Hq E1 E2 E3. destruct old as [q0|].
    - destruct Hcase as (_ & [= A1 A2 A3 _] & _). eapply Hv; [exact Hq | exact Hold | congruence | congruence | left; congruence].
    - destruct Hcase as (_ & _ & Hnew). by apply Hnew in Hq. }
  split.
  - split; cbn; try done.
    + intros n Hn. assert ((next_id db <= n)%nat /\ pf_id p <> uuid4 n) as [Hn1 Hne].
      { destruct old as [q|].
        - destruct Hcase as [-> _]. split; [done|]. intros E. destruct (Hf n Hn) as (_ & F2 & _). congruence.
        - destruct Hcase as (-> & -> & _). split; [lia | by apply drawn_later]. }
      destruct (Hf n Hn1) as (F1 & F2 & F3). split; [done|]. split; [by rewrite lookup_insert_ne | exact F3].
    + intros k x. rewrite lookup_insert_Some. intros [[<- <-]|[_ H]]; [done | by apply Hp].
    + intros k m x y. rewrite !lookup_insert_Some. intros [[<- <-]|[_ Hx]] [[<- <-]|[_ Hy]] E1 E2 E3; [done| | |by eapply Hv].
      * symmetry. destruct E3 as [E3|[Hx Hay]]; [by eapply Hver | by eapply Hact].
      * destruct E3 as [E3|[Hax Hay]]; [by eapply Hver | by eapply Hact].
  - split; cbn; [exists []; by rewrite app_nil_r | intros k l H; by exists l|]. intros k q Hq.
    destruct (decide (pf_id p = k)) as [<-|Hne]; [|exists q; by rewrite lookup_insert_ne]. exists p. rewrite lookup_insert_eq. split; [done|].
    assert (old = Some q) as Eo by congruence. rewrite Eo in Hcase. by destruct Hcase as (_ & ? & ?).
Qed.

Lemma highest_version_ge db k p : profiles db !! k = Some p -> pf_version p <= highest_version (pf_entity p) (pf_name p) db.
Proof.
  intros Hp. unfold highest_version. assert (p ∈ versions_of (pf_entity p) (pf_name p) db) as Hin.
  { apply list_elem_of_filter. split; [done|]. apply elem_of_rows. by exists k. }
  revert Hin. induction (versions_of _ _ db) as [|q l IH]; [by intros ?%not_elem_of_nil|]. cbn. intros [->|H]%elem_of_cons; [lia|]. apply IH in H. lia.
Qed.

Lemma create_profile_sound e name facts from who db p db' :
  inventory_ok db -> create_operating_profile uuid4 e name facts from who db = Ok (p, db') -> sound db db'.
Proof.
  intros Hok H. unfold create_operating_profile in H. inv_ok. subst. eapply inventory_trans; [|intros; by apply sound_audited].
  match goal with |- sound _ (put_profile ?p _) => apply (sound_profile None p (S (next_id db)) db) end; try done.
  - by destruct (io_fresh _ Hok _ (le_n _)) as (_ & ? & _).
  - split_and!; [done..|]. intros k q Hq E1 E2. cbn in *. pose proof (highest_version_ge _ _ _ Hq) as Hge. rewrite E1, E2 in Hge. lia.
Qed.

(** The active version of a profile, if any, is retired. *)
Lemma current_profile_spec e name db c :
  inventory_ok db -> head (filter (fun x => active_profile x = true) (versions_of e name db)) = Some c ->
  active_profile c = true /\ pf_entity c = e /\ pf_name c = name /\ profiles db !! pf_id c = Some c.
Proof.
  intros Hok [Hin Hact]%head_filter_Some. apply list_elem_of_filter in Hin as [[He Hn] [k Hk]%elem_of_rows].
  destruct (io_profiles _ Hok _ _ Hk) as [<- _]. done.
Qed.

Lemma retire_sound e name today db db1 :
  inventory_ok db -> retire_current (head (filter (fun x => active_profile x = true) (versions_of e name db))) today db = Ok db1 -> sound db db1.
Proof.
  intros Hok H. destruct (head _) as [c|] eqn:Eh; cbn in H; inv_ok; subst; [|by apply inventory_refl].
  destruct (current_profile_spec _ _ _ _ Hok Eh) as (Hact & _ & _ & Hc). apply bool_decide_eq_true in Hact. destruct (io_profiles _ Hok _ _ Hc) as [_ Hap].
  assert (approved_profile c) as Hap0 by (unfold approved_profile; by rewrite Hact).
  apply (sound_profile (Some c) (retired today c) (next_id db) db); try done. intros _. by apply Hap.
Qed.

Lemma retired_spec p0 i today db db1 :
  inventory_ok db -> profiles db !! i = Some p0 -> pf_status p0 = value ProfileStatus.DRAFT ->
  retire_current (head (filter (fun x => active_profile x = true) (versions_of (pf_entity p0) (pf_name p0) db))) today db = Ok db1 ->
  profiles db1 !! i = Some p0 /\ next_id db1 = next_id db /\
  forall k q, profiles db1 !! k = Some q -> pf_entity q = pf_entity p0 -> pf_name q = pf_name p0 -> active_profile q = false.
Proof.
  intros Hok H0 Hd H. destruct (head _) as [c|] eqn:Eh; cbn in H; inv_ok; subst.
  - destruct (current_profile_spec _ _ _ _ Hok Eh) as (Hact & Ee & En & Hc). cbn. split; [|split; [done|]].
    + rewrite lookup_insert_ne; [done|]. intros E. rewrite E, H0 in Hc. injection Hc as <-. unfold active_profile in Hact. by rewrite Hd in Hact.
    + intros k q. rewrite lookup_insert_Some. intros [[<- <-]|[Hne Hq]] E1 E2; [done|]. destruct (active_profile q) eqn:Hq1; [|done].
      exfalso. apply Hne. eapply (io_versions _ Hok); [exact Hc | exact Hq | congruence | congruence | by right].
  - split; [done|]. split; [done|]. intros k q Hq E1 E2. destruct (active_profile q) eqn:Hq1; [|done]. exfalso.
    eapply (head_filter_None _ _ Eh q); [|done]. apply list_elem_of_filter. split; [done|]. apply elem_of_rows. by exists k.
Qed.

Lemma approve_profile_sound i who now db p db' : inventory_ok db -> approve_operating_profile i who now db = Ok (p, db') -> sound db db'.
Proof.
  intros Hok H. unfold approve_operating_profile in H. inv_ok. subst. rename a into p0. apply find_found in H0. apply bool_decide_eq_true in H1.
  destruct (io_profiles _ Hok _ _ H0) as [Ei _]. eapply inventory_trans; [|intros; by apply sound_audited].
  apply (inventory_trans _ a1); [by eapply retire_sound|]. intros Hok1. destruct (retired_spec _ _ _ _ _ Hok H0 H1 H2) as (H0' & Eid & Hno).
  apply (sound_profile (Some p0) _ (next_id a1) a1); [exact Hok1 | cbn; by rewrite Ei | by eexists | by split_and!|].
  intros _ k q Hq E1 E2 Hact. by rewrite (Hno _ _ Hq E1 E2) in Hact.
Qed.

(** *** Bonds and the rest *)

Lemma inventory_elsewhere db db' :
  inventory_ok db -> entities db' = entities db -> profiles db' = profiles db -> licences db' = licences db ->
  status_events db' = status_events db -> (next_id db <= next_id db')%nat -> sound db db'.
Proof.
  intros [Hf He Hek Hp Hv Hl Hk Hlive] E1 E2 E3 E4 Hle.
  assert (forall k, history k db' = history k db) as Eh by (intros k; unfold history; by rewrite E4).
  split; [split; rewrite ?E1, ?E2, ?E3; try done|].
  - intros n Hn. rewrite Eh. apply Hf. lia.
  - intros k l H. rewrite Eh. by apply Hl.
  - split; rewrite ?E1, ?E2, ?E3, ?E4; [exists []; by rewrite app_nil_r | intros k l H; by exists l | intros k p H; by exists p].
Qed.

Lemma create_bond_sound i n suffix who db b db' : inventory_ok db -> create_license_bond uuid4 i n suffix who db = Ok (b, db') -> sound db db'.
Proof.
  intros Hok H. unfold create_license_bond in H. repeat (case_match; [|done]). inv_ok. subst. apply inventory_elsewhere; try done. cbn. lia.
Qed.

Lemma update_bond_sound i c who now db b db' : inventory_ok db -> update_bond i c who now db = Ok (b, db') -> sound db db'.
Proof. intros Hok H. unfold update_bond in H. inv_ok. subst. by apply inventory_elsewhere. Qed.

(** ** Histories *)

Inductive inventory_step (db : InventoryDb) : InventoryDb -> Prop :=
| i_create_entity n who e db' : create_legal_entity uuid4 n who db = Ok (e, db') -> inventory_step db db'
| i_update_entity i c who e db' : update_legal_entity i c who db = Ok (e, db') -> inventory_step db db'
| i_create_profile e name facts from who p db' : create_operating_profile uuid4 e name facts from who db = Ok (p, db') -> inventory_step db db'
| i_approve_profile i who now p db' : approve_operating_profile i who now db = Ok (p, db') -> inventory_step db db'
| i_create n who now l db' : create_license uuid4 n who now db = Ok (l, db') -> inventory_step db db'
| i_transition i c who now l db' : transition_status i c who now db = Ok (l, db') -> inventory_step db db'
| i_update i c who l db' : update_license i c who db = Ok (l, db') -> inventory_step db db'
| i_renewed i v who now l db' : record_renewed_evidence i v who now db = Ok (l, db') -> inventory_step db db'
| i_create_bond i n suffix who b db' : create_license_bond uuid4 i n suffix who db = Ok (b, db') -> inventory_step db db'
| i_update_bond i c who now b db' : update_bond i c who now db = Ok (b, db') -> inventory_step db db'
| i_elsewhere js ts : inventory_step db (db <| jurisdiction_keys := js |> <| license_type_keys := ts |>).

Definition inventory_steps : InventoryDb -> InventoryDb -> Prop := rtc inventory_step.

Definition empty_inventory (db : InventoryDb) : Prop := entities db = ∅ /\ profiles db = ∅ /\ licences db = ∅ /\ status_events db = [].

Lemma empty_ok db : empty_inventory db -> inventory_ok db.
Proof. intros (E1 & E2 & E3 & E4). split; unfold history; rewrite ?E1, ?E2, ?E3, ?E4; by intros. Qed.

Lemma inventory_step_sound db db' : inventory_step db db' -> inventory_ok db -> sound db db'.
Proof.
  intros [] Hok; [by eapply create_entity_sound | by eapply update_entity_sound | by eapply create_profile_sound | by eapply approve_profile_sound
    | by eapply create_license_sound | by eapply transition_sound | by eapply update_license_sound | by eapply renewed_sound
    | by eapply create_bond_sound | by eapply update_bond_sound | by apply inventory_elsewhere].
Qed.

Lemma inventory_steps_sound db db' : inventory_steps db db' -> inventory_ok db -> sound db db'.
Proof. induction 1 as [db|db b c H _ IH]; intros Hok; [by apply inventory_refl|]. eapply inventory_trans; [by apply inventory_step_sound | exact IH]. Qed.

(** C24. The inventory explains itself.  In every state the calls can make, in any order:
    the events of a licence lead, each from the status the one before gave, to the status
    the licence has; an entity holds at most one live licence of a type in a jurisdiction,
    unless one is marked as an additional authority; keys are unique and a licence does
    not expire before it was issued; and a profile has one active version, with the name
    of who approved it.  Later calls only add events, and a licence keeps its key and
    scope, a profile its version and its facts. *)
Theorem inventory_explained db0 db db' :
  empty_inventory db0 -> inventory_steps db0 db -> inventory_steps db db' ->
  (forall k l, licences db !! k = Some l -> leads None (history k db) = Some (Some (li_status l)) /\ dates_in_order l = true) /\
  (forall k l x y, licences db !! k = Some x -> licences db !! l = Some y -> scope x = scope y -> occupies x = true -> occupies y = true -> k = l) /\
  (forall k l x y, licences db !! k = Some x -> licences db !! l = Some y -> li_key x = li_key y -> k = l) /\
  (forall k l p q, profiles db !! k = Some p -> profiles db !! l = Some q -> pf_entity p = pf_entity q -> pf_name p = pf_name q ->
     active_profile p = true -> active_profile q = true -> k = l) /\
  (forall k p, profiles db !! k = Some p -> active_profile p = true -> is_Some (pf_approved_by p)) /\
  (exists es, status_events db' = status_events db ++ es) /\
  (forall k l, licences db !! k = Some l -> exists l', licences db' !! k = Some l' /\ li_key l' = li_key l /\ scope l' = scope l) /\
  (forall k p, profiles db !! k = Some p -> exists p', profiles db' !! k = Some p' /\ pf_version p' = pf_version p /\ pf_facts p' = pf_facts p).
Proof.
  intros H0 Hs Hs'. destruct (inventory_steps_sound _ _ Hs (empty_ok _ H0)) as [Hok _]. destruct (inventory_steps_sound _ _ Hs' Hok) as [_ [Ge Gl Gp]].
  destruct Hok as [Hf He Hek Hp Hv Hl Hk Hlive]. split_and!; [|exact Hlive | exact Hk | | | exact Ge | |].
  - intros k l Hkl. destruct (Hl _ _ Hkl) as (_ & Hc & Hlead). by apply andb_true_iff in Hc as [_ Hc].
  - intros k l p q Hkp Hlq E1 E2 Ha Hb. eapply Hv; [exact Hkp | exact Hlq | done | done | by right].
  - intros k p Hkp Ha. destruct (Hp _ _ Hkp) as [_ Hap]. apply Hap. unfold approved_profile. apply bool_decide_eq_true in Ha. by rewrite Ha.
  - intros k l Hkl. destruct (Gl _ _ Hkl) as (l' & ? & ? & ? & _). by exists l'.
  - intros k p Hkp. destruct (Gp _ _ Hkp) as (p' & ? & [= _ _ E3 E4] & _). by exists p'.
Qed.

(** A move is never refused by the tables: what the call checks is enough. *)
Lemma transition_never_breaks i c who now db : inventory_ok db -> transition_status i c who now db <> Err IntegrityError.
Proof.
  intros Hok H. unfold transition_status, find, raise_unless in H. destruct (licences db !! i) as [l|] eqn:El; msimpl; [|done].
  destruct (io_licences _ Hok _ _ El) as (Eid & Hcol & _). destruct (is_value (sc_to c)) eqn:Hv; msimpl; [|done].
  destruct (negb (terminal _ && _)); msimpl; [|done].
  destruct (negb (_ && clash l db)) eqn:Hcl; msimpl; [|done].
  set (m := moved (sc_to c) now l) in *.
  enough (license_row_ok m db = true) as Hrow by (by rewrite Hrow in H).
  unfold license_row_ok. rewrite !andb_true_iff, !negb_true_iff. split_and!.
  - unfold columns_ok in *. cbn. rewrite !andb_true_iff in *. tauto.
  - apply not_true_iff_false. intros (x & [k Hk]%list_elem_of_In%elem_of_rows & [E1 E2]%andb_true_iff)%existsb_exists.
    apply bool_decide_eq_true in E1. apply negb_true_iff, bool_decide_eq_false in E2. apply E2. cbn.
    rewrite (proj1 (io_licences _ Hok _ _ Hk)), Eid. by eapply (io_keys _ Hok).
  - apply not_true_iff_false. intros [Ho Hc]%andb_true_iff. change (clash m db) with (clash l db) in Hc.
    apply andb_true_iff in Ho as [Ha Hlive]. cbn in Ha, Hlive. rewrite Hlive, Ha, Hc, andb_true_r in Hcl. cbn in Hcl.
    assert (occupies l = true) as Hol by (unfold occupies; rewrite Ha; by destruct (live (li_status l))).
    apply existsb_exists in Hc as (x & [k Hk]%list_elem_of_In%elem_of_rows & [[E1 E2]%andb_true_iff E3]%andb_true_iff).
    apply bool_decide_eq_true in E1. apply negb_true_iff, bool_decide_eq_false in E3. apply E3.
    rewrite (proj1 (io_licences _ Hok _ _ Hk)), Eid. by eapply (io_live _ Hok).
Qed.
End Invariant.

(** ** A run *)

Definition inv_ids (n : nat) : uuid := "inv-" +:+ pretty.pretty n.
Instance inv_ids_inj : Inj (=) (=) inv_ids.
Proof. intros a b E. apply (inj (String.append "inv-")) in E. by apply (inj pretty.pretty) in E. Qed.

Definition nora : CurrentActor := {| actor_id := "nora"; roles := [] |}.
Definition on_day (d : Z) : instant := combine_utc (ymd2ord 2026 3 d) 9.

Definition no_licences : InventoryDb :=
  {| entities := ∅; profiles := ∅; jurisdiction_keys := {["TX" := "tx"]}; license_type_keys := {["CA" := "collection"]}; licences := ∅;
     status_events := []; bonds := ∅; log := {| audits := []; notices := [] |}; next_id := 0 |}.

Definition acme (in_scope : bool) : NewEntity :=
  {| ne_key := None; ne_name := "Acme & Sons"; ne_display := None; ne_type := value EntityType.LLC; ne_nmls := None; ne_status := None;
     ne_in_scope := in_scope; ne_reason := None |}.
Definition collection_in_texas : NewLicense :=
  {| nl_entity := inv_ids 0; nl_jurisdiction := "TX"; nl_type := "CA"; nl_number := None; nl_nmls := None; nl_channel := None;
     nl_status := Some (value LicenseStatus.ACTIVE); nl_additional := false; nl_label := None; nl_issue := Some (ymd2ord 2025 1 1); nl_effective := None;
     nl_expiration := Some (ymd2ord 2026 12 31); nl_due := None; nl_owner := None; nl_document := None; nl_confidence := None;
     nl_event_source := None; nl_event_reference := None |}.
Definition another_number : NewLicense :=
  {| nl_entity := inv_ids 0; nl_jurisdiction := "TX"; nl_type := "CA"; nl_number := Some "77"; nl_nmls := None; nl_channel := None;
     nl_status := Some (value LicenseStatus.ACTIVE); nl_additional := false; nl_label := None; nl_issue := None; nl_effective := None;
     nl_expiration := None; nl_due := None; nl_owner := None; nl_document := None; nl_confidence := None;
     nl_event_source := None; nl_event_reference := None |}.
Definition to (s : LicenseStatus.LicenseStatus) : StatusChange := {| sc_to := value s; sc_source := None; sc_reference := None; sc_effective := None |}.
Definition next_year : RenewedEvidence := {| rv_expiration := ymd2ord 2027 12 31; rv_issue := None; rv_number := None; rv_document := Some "doc" |}.

Definition after_call {A} (r : result exn (A * InventoryDb)) (db : InventoryDb) : InventoryDb := match r with Ok (_, db') => db' | Err _ => db end.
Definition ok_result {A} (r : result exn (A * InventoryDb)) : bool := match r with Ok _ => true | Err _ => false end.
Definition outcome {A} (r : result exn (A * InventoryDb)) : option exn := match r with Ok _ => None | Err e => Some e end.
Lemma after_Ok {A} (r : result exn (A * InventoryDb)) db : ok_result r = true -> exists x, r = Ok (x, after_call r db).
Proof. destruct r as [[x d]|]; [by exists x | done]. Qed.

Definition v1 := after_call (create_legal_entity inv_ids (acme true) nora no_licences) no_licences.
Definition v2 := after_call (create_operating_profile inv_ids (inv_ids 0) "main" [("collects", JBool true)] (Some (ymd2ord 2026 6 1)) nora v1) v1.
Definition v3 := after_call (approve_operating_profile (inv_ids 1) nora (on_day 2) v2) v2.
Definition v4 := after_call (create_license inv_ids collection_in_texas nora (on_day 3) v3) v3.
Definition v5 := after_call (transition_status (inv_ids 2) (to LicenseStatus.SURRENDERED) nora (on_day 4) v4) v4.
Definition v6 := after_call (record_renewed_evidence (inv_ids 2) next_year nora (on_day 5) v5) v5.

Lemma first_calls : inventory_steps inv_ids no_licences v4.
Proof.
  apply (rtc_l _ _ v1). { destruct (after_Ok (create_legal_entity inv_ids (acme true) nora no_licences) no_licences) as [x H]; [vm_compute; reflexivity|]. exact (i_create_entity _ _ _ _ _ _ H). }
  apply (rtc_l _ _ v2). { destruct (after_Ok (create_operating_profile inv_ids (inv_ids 0) "main" [("collects", JBool true)] (Some (ymd2ord 2026 6 1)) nora v1) v1) as [x H]; [vm_compute; reflexivity|]. exact (i_create_profile _ _ _ _ _ _ _ _ _ H). }
  apply (rtc_l _ _ v3). { destruct (after_Ok (approve_operating_profile (inv_ids 1) nora (on_day 2) v2) v2) as [x H]; [vm_compute; reflexivity|]. exact (i_approve_profile _ _ _ _ _ _ _ H). }
  apply rtc_once. destruct (after_Ok (create_license inv_ids collection_in_texas nora (on_day 3) v3) v3) as [x H]; [vm_compute; reflexivity|]. exact (i_create _ _ _ _ _ _ _ H).
Qed.

Lemma later_calls : inventory_steps inv_ids v4 v6.
Proof.
  apply (rtc_l _ _ v5). { destruct (after_Ok (transition_status (inv_ids 2) (to LicenseStatus.SURRENDERED) nora (on_day 4) v4) v4) as [x H]; [vm_compute; reflexivity|]. exact (i_transition _ _ _ _ _ _ _ _ H). }
  apply rtc_once. destruct (after_Ok (record_renewed_evidence (inv_ids 2) next_year nora (on_day 5) v5) v5) as [x H]; [vm_compute; reflexivity|]. exact (i_renewed _ _ _ _ _ _ _ _ H).
Qed.

Lemma inventory_explained_witness :
  (forall k l, licences v4 !! k = Some l -> leads None (history k v4) = Some (Some (li_status l)) /\ dates_in_order l = true) /\
  (exists es, status_events v6 = status_events v4 ++ es).
Proof.
  pose proof (inventory_explained inv_ids no_licences v4 v6 ltac:(by split_and!) first_calls later_calls) as (H1 & _ & _ & _ & _ & H2 & _).
  exact (conj H1 H2).
Defined.

(** A surrendered licence is renewed, though only reinstatement or a new application may
    follow its status; the date of the surrender stays. *)
Example surrendered_licence_renewed :
  outcome (transition_status (inv_ids 2) (to LicenseStatus.ACTIVE) nora (on_day 5) v5) = Some StateConflictError /\
  ((fun l => (li_status l, li_surrender l)) <$> licences v6 !! inv_ids 2) = Some (value LicenseStatus.ACTIVE, Some (ymd2ord 2026 3 4)).
Proof. vm_compute. done. Qed.

(** With another licence in its place, the renewal breaks the unique index. *)
Example renewal_breaks_index :
  let db := after_call (create_license inv_ids another_number nora (on_day 5) v5) v5 in
  (ok_result (create_license inv_ids another_number nora (on_day 5) v5), outcome (record_renewed_evidence (inv_ids 2) next_year nora (on_day 6) db)) =
    (true, Some IntegrityError).
Proof. vm_compute. reflexivity. Qed.

(** After a surrender, a new record without a number takes the key of the old one. *)
Example fresh_application_blocked : outcome (create_license inv_ids collection_in_texas nora (on_day 5) v5) = Some IntegrityError.
Proof. vm_compute. reflexivity. Qed.

(** A profile that takes effect later cannot be replaced before that day. *)
Example future_profile_not_replaced :
  let db := after_call (create_operating_profile inv_ids (inv_ids 0) "main" [] None nora v3) v3 in
  outcome (approve_operating_profile (inv_ids 2) nora (on_day 4) db) = Some IntegrityError.
Proof. vm_compute. reflexivity. Qed.

(** An entity out of scope is created without a reason, and then no change of it is
    accepted that gives none. *)
Example out_of_scope_without_reason :
  let db := after_call (create_legal_entity inv_ids (acme false) nora no_licences) no_licences in
  (en_reason <$> entities db !! inv_ids 0) = Some None /\
  outcome (update_legal_entity (inv_ids 0) {| ec_name := Some "Acme"; ec_display := None; ec_type := None; ec_nmls := None; ec_status := None;
                                              ec_in_scope := None; ec_reason := None |} nora db) = Some StateConflictError.
Proof. vm_compute. done. Qed.
