(* ===== verification/InfoRules.v ===== *)
(** * Values worth storing, and where they may be used

    [app/information_registry/validation.py] and [scoping.py]: the declarative checks
    of a proposed value, how fresh a stored one is, and whether it may be used in a
    context.  The messages of the issues are left out.  Patterns that a definition
    declares are matched by [re.search], and a value that is not text is printed by
    [str]; both are arguments. *)
From Stdlib Require Import Ascii QArith.
From S2P Require Import Prelude Terms PyDate PyJson PyFloat Regex JsonText.
Open Scope Z_scope.

Abbreviation uuid := string (only parsing).

(** ** Validation *)

Definition one_of (l : list ascii) (c : ascii) : bool := bool_decide (c ∈ l).
Definition letter (c : ascii) : bool :=
  let n := N_of_ascii c in ((65 <=? n) && (n <=? 90) || (97 <=? n) && (n <=? 122))%N.

Definition plain (c : ascii) : bool := negb (bool_decide (c = "@"%char) || is_space c).
Definition _EMAIL : re :=
  seqs [Bol; Plus (Cls plain); ch "@"; Plus (Cls plain); ch "."; times 2 (Cls letter); Star (Cls letter); Eol].

Definition phone_char (c : ascii) : bool :=
  truthy_opt (digit c) || is_space c || one_of ["("; ")"; "."; "+"; "x"; "/"; "-"]%char c.
Definition _PHONE : re := seqs [Bol; times 7 (Cls phone_char); upto 25 (Cls phone_char); Eol].

Definition _URL : re := seqs [Bol; lit "http"; Opt (ch "s"); lit "://"; Plus (Cls (fun c => negb (is_space c))); Eol].

Definition MAX_TEXT_LENGTH : Z := 4000.

Inductive ValidationCode : Set :=
| REQUIRED | WRONG_TYPE | TOO_SHORT | TOO_LONG | OUT_OF_RANGE | PATTERN_MISMATCH | NOT_IN_ALLOWED_VALUES | INVALID_DATE
| INVALID_EMAIL | INVALID_PHONE | INVALID_URL | MISSING_ADDRESS_FIELD | UNSUPPORTED_RULE.
#[export] Instance code_eq_dec : EqDecision ValidationCode.
Proof. solve_decision. Defined.

Record ValidationIssue := { issue_code : ValidationCode; issue_field : option json }.
Definition issue (c : ValidationCode) : list ValidationIssue := [{| issue_code := c; issue_field := None |}].
Definition issue_if (b : bool) (c : ValidationCode) : list ValidationIssue := if b then issue c else [].

Definition _SUPPORTED_RULES : list string :=
  ["required"; "min_length"; "max_length"; "minimum"; "maximum"; "pattern"; "allowed_values"; "required_address_fields";
   "max_decimal_places"].

Definition _ADDRESS_DEFAULT_FIELDS : list json := JStr <$> ["line1"; "city"; "region"; "postal_code"; "country"].

(** [float(n)] of an integer. *)
Definition float_of_int (n : Z) : result exn spec_float :=
  match f64_of_Z n with S754_infinity _ => Err OverflowError | x => Ok x end.

(** The float that denotes [q]. *)
Definition float_of_q (q : Q) : spec_float :=
  match Qnum q with
  | 0 => S754_zero false
  | n =>
      let '(m, e, l) := SFdiv_core_binary 53 1024 (Z.abs n) 0 (Z.pos (Qden q)) 0 in
      binary_round_aux 53 1024 (n <? 0) m e l
  end.

Definition without (c : ascii) (s : string) : string :=
  (fix go s := match s with "" => "" | String x s => if bool_decide (x = c) then go s else String x (go s) end) s.

Definition _coerce_number (v : json) : result exn (option spec_float) :=
  match v with
  | JInt n => Some <$> float_of_int n
  | JFloat q => Ok (Some (float_of_q q))
  | JStr s => Ok (py_float_text (strip (without "$" (without "," s))))
  | _ => Ok None
  end.

(** [float(v)]. *)
Definition py_float (v : json) : result exn spec_float :=
  match v with
  | JBool b => float_of_int (if b then 1 else 0)
  | JInt n => float_of_int n
  | JFloat q => Ok (float_of_q q)
  | JStr s => match py_float_text s with Some x => Ok x | None => Err ValueError end
  | _ => Err TypeError
  end.

(** [number != int(number)]. *)
Definition fractional (x : spec_float) : result exn bool :=
  match x with
  | S754_nan => Err ValueError
  | S754_infinity _ => Err OverflowError
  | _ => match q_of_f64 x with Some q => Ok (negb (Qeq_bool q (inject_Z (py_trunc x)))) | None => Ok false end
  end.

Definition blank (v : json) : bool :=
  match v with JNull => true | JStr s => bool_decide (strip s = "") | _ => false end.

Definition chars (s : string) : list json := (fun c => JStr (String c "")) <$> String.list_ascii_of_string s.

(** [for x in v]. *)
Definition iterate (v : json) : result exn (list json) :=
  match v with
  | JList l => Ok l
  | JStr s => Ok (chars s)
  | JDict d => Ok (JStr <$> d.*1)
  | _ => Err TypeError
  end.

(** [x in v]. *)
Definition contained (x v : json) : result exn bool :=
  match v with
  | JList l => Ok (py_in x l)
  | JStr s => match x with JStr t => Ok (search (lit t) s) | _ => Err TypeError end
  | JDict d =>
      match x with
      | JStr k => Ok (dhas k d)
      | JList _ | JDict _ => Err TypeError
      | _ => Ok false
      end
  | _ => Err TypeError
  end.

(** [str(address.get(part, ...)).strip()] is empty: only for text, and a part that is
    not there. *)
Definition part_missing (d : list (string * json)) (part : json) : result exn bool :=
  match part with
  | JStr k => Ok (match dget k d with None => true | Some (JStr s) => bool_decide (strip s = "") | Some _ => false end)
  | JList _ | JDict _ => Err TypeError
  | _ => Ok true
  end.

Section Validation.
Context (py_str : json -> string) (re_search : string -> string -> option bool).
Context (config : list (string * json)).

Definition rule (k : string) : option json := dget k config.

Definition text_issues (v : json) : result exn (list ValidationIssue) :=
  match v with
  | JStr s =>
      limit ← match rule "max_length" with Some l => py_int l | None => Ok MAX_TEXT_LENGTH end;
      short ← match rule "min_length" with
              | Some l => (fun n => Z.of_nat (String.length s) <? n) <$> py_int l | None => Ok false end;
      Ok (issue_if (limit <? Z.of_nat (String.length s)) TOO_LONG ++ issue_if short TOO_SHORT)
  | _ => Ok (issue WRONG_TYPE)
  end.

Definition number_issues (whole : bool) (v : json) : result exn (list ValidationIssue) :=
  number ← _coerce_number v;
  match number with
  | None => Ok (issue WRONG_TYPE)
  | Some x =>
      frac ← if whole then fractional x else Ok false;
      low ← match rule "minimum" with Some m => (fun m => SFltb x m) <$> py_float m | None => Ok false end;
      high ← match rule "maximum" with Some m => (fun m => SFltb m x) <$> py_float m | None => Ok false end;
      Ok (issue_if frac WRONG_TYPE ++ issue_if low OUT_OF_RANGE ++ issue_if high OUT_OF_RANGE)
  end.

Definition shape_issues (p : re) (c : ValidationCode) (v : json) : list ValidationIssue :=
  match v with JStr s => issue_if (negb (search p (strip s))) c | _ => issue c end.

Definition address_issues (v : json) : result exn (list ValidationIssue) :=
  match v with
  | JDict d =>
      parts ← match rule "required_address_fields" with
              | Some l => if truthy l then iterate l else Ok _ADDRESS_DEFAULT_FIELDS | None => Ok _ADDRESS_DEFAULT_FIELDS end;
      missing ← mapR (fun p => b ← part_missing d p;
                        Ok (if (b : bool) then [{| issue_code := MISSING_ADDRESS_FIELD; issue_field := Some p |}] else [])) parts;
      Ok (concat missing)
  | _ => Ok (issue WRONG_TYPE)
  end.

(** [value not in allowed], when there are allowed values. *)
Definition not_allowed (v : json) : result exn (list ValidationIssue) :=
  match rule "allowed_values" with
  | Some l => if truthy l then (fun b => issue_if (negb b) NOT_IN_ALLOWED_VALUES) <$> contained v l else Ok []
  | None => Ok []
  end.

Definition date_issues (v : json) : list ValidationIssue :=
  match v with JStr s => issue_if (negb (is_ok (fromisoformat s))) INVALID_DATE | _ => issue INVALID_DATE end.

Definition type_issues (data_type : string) (v : json) : result exn (list ValidationIssue) :=
  match of_value (A := InformationDataType.InformationDataType) data_type with
  | Some (InformationDataType.TEXT | InformationDataType.LONG_TEXT) => text_issues v
  | Some InformationDataType.INTEGER => number_issues true v
  | Some (InformationDataType.DECIMAL | InformationDataType.CURRENCY) => number_issues false v
  | Some InformationDataType.BOOLEAN => Ok (match v with JBool _ => [] | _ => issue WRONG_TYPE end)
  | Some InformationDataType.DATE => Ok (date_issues v)
  | Some InformationDataType.EMAIL => Ok (shape_issues _EMAIL INVALID_EMAIL v)
  | Some InformationDataType.PHONE => Ok (shape_issues _PHONE INVALID_PHONE v)
  | Some InformationDataType.URL => Ok (shape_issues _URL INVALID_URL v)
  | Some InformationDataType.ADDRESS => address_issues v
  | Some InformationDataType.ENUM => not_allowed v
  | _ => Ok []
  end.

Definition pattern_text (v : json) : string := match v with JStr s => s | _ => py_str v end.

Definition pattern_issues (v : json) : list ValidationIssue :=
  match rule "pattern", v with
  | Some p, JStr s =>
      match re_search (pattern_text p) s with
      | Some b => issue_if (negb b) PATTERN_MISMATCH
      | None => issue UNSUPPORTED_RULE
      end
  | _, _ => []
  end.

Definition validate_value (v : json) (data_type : string) : result exn (list ValidationIssue) :=
  let unsupported := concat ((fun kv => issue_if (negb (bool_decide (kv.1 ∈ _SUPPORTED_RULES))) UNSUPPORTED_RULE) <$> config) in
  if match rule "required" with Some r => truthy r | None => false end && blank v then Ok (unsupported ++ issue REQUIRED)
  else if blank v then Ok unsupported
  else
    typed ← type_issues data_type v;
    allowed ← if bool_decide (data_type = value InformationDataType.ENUM) then Ok [] else not_allowed v;
    Ok (unsupported ++ typed ++ pattern_issues v ++ allowed).
End Validation.

(** A part that is null counts as given: [str(None)] is not empty. *)
Example null_part_accepted :
  address_issues [] (JDict ((fun k => (k, JNull)) <$> ["line1"; "city"; "region"; "postal_code"; "country"])) = Ok [].
Proof. reflexivity. Qed.

Example shapes :
  (search _EMAIL "ann@example.com", search _EMAIL "ann@example.c", search _PHONE "(555) 010-2000 x12", search _PHONE "555-01",
   search _URL "https://example.com/a", search _URL "ftp://example.com") = (true, false, true, false, true, false).
Proof. vm_compute. reflexivity. Qed.

(** ** Scope and freshness *)

Inductive ReuseRejection : Set :=
| NOT_APPROVED | WRONG_ENTITY | WRONG_JURISDICTION | WRONG_LICENSE | WRONG_VENDOR | WRONG_CASE | NOT_REUSABLE
| CROSS_ENTITY_NOT_APPROVED | NOT_YET_VALID | EXPIRED | STALE | NO_OWNER | SENSITIVITY_NOT_PERMITTED.
#[export] Instance rejection_eq_dec : EqDecision ReuseRejection.
Proof. solve_decision. Defined.

Record ValueScope := {
  vs_entity : option uuid;
  vs_jurisdiction : option uuid;
  vs_license : option uuid;
  vs_vendor : option uuid;
  vs_case : option uuid
}.

Record UsageContext := {
  uc_entity : uuid;
  uc_jurisdiction : option uuid;
  uc_license : option uuid;
  uc_vendor : option uuid;
  uc_case : option uuid;
  max_sensitivity : string
}.

Record ReuseDecision := { usable : bool; reasons : list ReuseRejection; freshness : string }.

Definition _SENSITIVITY_ORDER : list (string * Z) :=
  [(value Sensitivity.INTERNAL, 1); (value Sensitivity.CONFIDENTIAL, 2); (value Sensitivity.RESTRICTED, 3);
   (value Sensitivity.HIGHLY_RESTRICTED, 4)].

Definition sensitivity_rank (s : string) : Z := default 4 (dget s _SENSITIVITY_ORDER).

(** [int(days * 0.8)]. *)
Definition review_age (days : Z) : Z := py_trunc (f64_mul (f64_of_Z days) f64_0_8).

Definition assess_freshness (approved_at : option instant) (valid_to : option date) (freshness_days : option Z)
    (today : date) (now : instant) : string :=
  if match valid_to with Some t => t <? today | None => false end then value ValueFreshness.EXPIRED
  else
    match freshness_days with
    | Some days =>
        if days <=? 0 then value ValueFreshness.NOT_TRACKED
        else
          match approved_at with
          | None => value ValueFreshness.STALE
          | Some a =>
              let age := delta_days now a in
              if days <=? age then value ValueFreshness.STALE
              else if review_age days <=? age then value ValueFreshness.DUE_FOR_REVIEW
              else value ValueFreshness.FRESH
          end
    | None => value ValueFreshness.NOT_TRACKED
    end.

(** What is known of a stored value and its definition when its use is decided. *)
Record ReuseInput := {
  ru_status : string;
  ru_policy : string;
  ru_sensitivity : string;
  ru_scope : ValueScope;
  ru_owner : option string;
  ru_approved_at : option instant;
  ru_valid_from : option date;
  ru_valid_to : option date;
  ru_freshness_days : option Z;
  ru_cross_entity_approved : bool
}.

Definition reason_if (b : bool) (r : ReuseRejection) : list ReuseRejection := if b then [r] else [].

(** A scope that is set and differs. *)
Definition outside (scope used : option uuid) : bool := truthy_opt scope && negb (bool_decide (scope = used)).

(** [dict.fromkeys]: the first of each. *)
Fixpoint distinct {A} `{EqDecision A} (l : list A) : list A :=
  match l with [] => [] | x :: l => x :: filter (fun y => y <> x) (distinct l) end.

Definition all_reasons (i : ReuseInput) (c : UsageContext) (fresh : string) (today : date) (allow_stale : bool) : list ReuseRejection :=
  let s := ru_scope i in
  let org_wide := bool_decide (ru_policy i = value ReusablePolicy.ALL_ENTITIES_APPROVED) in
  reason_if (negb (bool_decide (ru_status i = value InformationValueStatus.APPROVED))) NOT_APPROVED ++
  reason_if (negb (truthy_str (ru_owner i))) NO_OWNER ++
  reason_if (bool_decide (ru_policy i = value ReusablePolicy.NOT_REUSABLE)) NOT_REUSABLE ++
  match vs_entity s with
  | None => reason_if (negb org_wide || negb (ru_cross_entity_approved i)) CROSS_ENTITY_NOT_APPROVED
  | Some e => if bool_decide (e = uc_entity c) then [] else [if org_wide then CROSS_ENTITY_NOT_APPROVED else WRONG_ENTITY]
  end ++
  reason_if (outside (vs_jurisdiction s) (uc_jurisdiction c)) WRONG_JURISDICTION ++
  reason_if (outside (vs_license s) (uc_license c)) WRONG_LICENSE ++
  reason_if (outside (vs_vendor s) (uc_vendor c)) WRONG_VENDOR ++
  reason_if ((bool_decide (ru_policy i = value ReusablePolicy.CASE_SPECIFIC) || truthy_opt (vs_case s)) &&
             negb (bool_decide (vs_case s = uc_case c))) WRONG_CASE ++
  reason_if (bool_decide (ru_policy i = value ReusablePolicy.ENTITY_AND_JURISDICTION) && negb (truthy_opt (uc_jurisdiction c)))
    WRONG_JURISDICTION ++
  reason_if (match ru_valid_from i with Some f => today <? f | None => false end) NOT_YET_VALID ++
  (if bool_decide (fresh = value ValueFreshness.EXPIRED) then [EXPIRED]
   else reason_if (bool_decide (fresh = value ValueFreshness.STALE) && negb allow_stale) STALE) ++
  reason_if (sensitivity_rank (max_sensitivity c) <? sensitivity_rank (ru_sensitivity i)) SENSITIVITY_NOT_PERMITTED.

Definition evaluate_reuse (i : ReuseInput) (c : UsageContext) (today : date) (now : instant) (allow_stale : bool) : ReuseDecision :=
  let fresh := assess_freshness (ru_approved_at i) (ru_valid_to i) (ru_freshness_days i) today now in
  let l := distinct (all_reasons i c fresh today allow_stale) in
  {| usable := bool_decide (l = []); reasons := l; freshness := fresh |}.

Definition requires_encryption (sensitivity : string) : bool :=
  sensitivity_rank (value Sensitivity.RESTRICTED) <=? sensitivity_rank sensitivity.

Definition permitted_for_ai (sensitivity : string) : bool := bool_decide (sensitivity = value Sensitivity.INTERNAL).

(** ** When a value is usable *)

Lemma distinct_in {A} `{EqDecision A} (l : list A) x : x ∈ distinct l <-> x ∈ l.
Proof.
  induction l as [|y l IH]; [done|]. cbn. rewrite !elem_of_cons, list_elem_of_filter, IH.
  destruct (decide (x = y)); naive_solver.
Qed.

Lemma distinct_nil {A} `{EqDecision A} (l : list A) : distinct l = [] <-> l = [].
Proof. by destruct l. Qed.

Lemma distinct_NoDup {A} `{EqDecision A} (l : list A) : NoDup (distinct l).
Proof.
  induction l as [|y l IH]; [constructor|]. cbn. constructor; [by intros [? _]%list_elem_of_filter|]. by apply NoDup_filter.
Qed.

Lemma reason_if_nil b r : reason_if b r = [] <-> b = false.
Proof. by destruct b. Qed.

Lemma outside_false scope used : outside scope used = false <-> forall s, scope = Some s -> used = Some s.
Proof.
  unfold outside. destruct scope as [s|]; cbn; [|naive_solver]. rewrite negb_false_iff, bool_decide_eq_true. naive_solver.
Qed.

(** The conditions under which a stored value may be used in a context. *)
Record may_use (i : ReuseInput) (c : UsageContext) (today : date) (now : instant) (allow_stale : bool) : Prop := {
  mu_approved : ru_status i = value InformationValueStatus.APPROVED;
  mu_owner : truthy_str (ru_owner i) = true;
  mu_reusable : ru_policy i <> value ReusablePolicy.NOT_REUSABLE;
  mu_entity : vs_entity (ru_scope i) = Some (uc_entity c) \/
              vs_entity (ru_scope i) = None /\ ru_policy i = value ReusablePolicy.ALL_ENTITIES_APPROVED /\
              ru_cross_entity_approved i = true;
  mu_jurisdiction : forall s, vs_jurisdiction (ru_scope i) = Some s -> uc_jurisdiction c = Some s;
  mu_license : forall s, vs_license (ru_scope i) = Some s -> uc_license c = Some s;
  mu_vendor : forall s, vs_vendor (ru_scope i) = Some s -> uc_vendor c = Some s;
  mu_case : ru_policy i = value ReusablePolicy.CASE_SPECIFIC \/ is_Some (vs_case (ru_scope i)) ->
            vs_case (ru_scope i) = uc_case c;
  mu_known_jurisdiction : ru_policy i = value ReusablePolicy.ENTITY_AND_JURISDICTION -> is_Some (uc_jurisdiction c);
  mu_started : forall f, ru_valid_from i = Some f -> f <= today;
  mu_in_date : forall t, ru_valid_to i = Some t -> today <= t;
  mu_fresh : allow_stale = true \/ forall days, ru_freshness_days i = Some days -> 0 < days ->
             exists a, ru_approved_at i = Some a /\ delta_days now a < days;
  mu_sensitivity : sensitivity_rank (ru_sensitivity i) <= sensitivity_rank (max_sensitivity c)
}.

Lemma freshness_expired a v d today now :
  assess_freshness a v d today now = value ValueFreshness.EXPIRED <-> exists t, v = Some t /\ t < today.
Proof.
  unfold assess_freshness. destruct v as [t|].
  - destruct (Z.ltb_spec t today); [split; eauto; intros; done|].
    split; [|intros (? & [= <-] & ?); lia]. destruct d as [days|]; [|done]. destruct (days <=? 0); [done|].
    destruct a; [|done]. cbv zeta. destruct (days <=? _); [done|]. by destruct (review_age _ <=? _).
  - split; [|by intros (? & ? & _)]. destruct d as [days|]; [|done]. destruct (days <=? 0); [done|].
    destruct a; [|done]. cbv zeta. destruct (days <=? _); [done|]. by destruct (review_age _ <=? _).
Qed.

Lemma freshness_stale a v d today now :
  assess_freshness a v d today now <> value ValueFreshness.EXPIRED ->
  assess_freshness a v d today now <> value ValueFreshness.STALE <->
  forall days, d = Some days -> 0 < days -> exists x, a = Some x /\ delta_days now x < days.
Proof.
  unfold assess_freshness. destruct (match v with Some t => t <? today | None => false end); [done|]. intros _.
  destruct d as [days|]; [|split; [done | intros _; by intros E]]. destruct (Z.leb_spec days 0).
  { split; [intros _ ? [= <-]; lia | intros _; by intros E]. }
  destruct a as [x|]; [|split; [by intros []|]; intros Hf; by destruct (Hf days) as (? & ? & _)].
  cbv zeta. destruct (Z.leb_spec days (delta_days now x)).
  - split; [by intros []|]. intros Hf. destruct (Hf days) as (? & [= <-] & ?); [done | lia..].
  - split; [intros _ ? [= <-] _; by exists x|]. intros _. destruct (review_age _ <=? _); done.
Qed.

Lemma evaluate_reuse_spec i c today now allow_stale :
  usable (evaluate_reuse i c today now allow_stale) = true <-> may_use i c today now allow_stale.
Proof.
  unfold evaluate_reuse. cbn [usable]. rewrite bool_decide_eq_true, distinct_nil. unfold all_reasons. cbv zeta.
  set (fr := assess_freshness _ _ _ _ _).
  assert ((if bool_decide (fr = value ValueFreshness.EXPIRED) then [EXPIRED]
           else reason_if (bool_decide (fr = value ValueFreshness.STALE) && negb allow_stale) STALE) = [] <->
          (forall t, ru_valid_to i = Some t -> today <= t) /\
          (allow_stale = true \/ forall days, ru_freshness_days i = Some days -> 0 < days ->
             exists a, ru_approved_at i = Some a /\ delta_days now a < days)) as Hfr.
  { pose proof (freshness_expired (ru_approved_at i) (ru_valid_to i) (ru_freshness_days i) today now) as He. fold fr in He.
    case_bool_decide as Ee.
    - split; [done|]. intros [Ht _]. apply He in Ee as (t & Hv & Hlt). specialize (Ht t Hv). lia.
    - pose proof (freshness_stale (ru_approved_at i) (ru_valid_to i) (ru_freshness_days i) today now Ee) as Hs. fold fr in Hs.
      rewrite reason_if_nil, andb_false_iff, bool_decide_eq_false, negb_false_iff, Hs.
      assert (forall t, ru_valid_to i = Some t -> today <= t) as Ht.
      { intros t Hv. destruct (Z.le_gt_cases today t); [done|]. exfalso. apply Ee, He. exists t. split; [done | lia]. }
      tauto. }
  rewrite !app_nil, Hfr, !reason_if_nil, !negb_false_iff, !outside_false, !andb_false_iff, !orb_false_iff, !negb_false_iff,
    !bool_decide_eq_true, !bool_decide_eq_false, Z.ltb_ge.
  assert (match vs_entity (ru_scope i) with
          | None => reason_if (negb (bool_decide (ru_policy i = value ReusablePolicy.ALL_ENTITIES_APPROVED)) ||
                               negb (ru_cross_entity_approved i)) CROSS_ENTITY_NOT_APPROVED
          | Some e => if bool_decide (e = uc_entity c) then []
              else [if bool_decide (ru_policy i = value ReusablePolicy.ALL_ENTITIES_APPROVED) then CROSS_ENTITY_NOT_APPROVED else WRONG_ENTITY]
          end = [] <->
          (vs_entity (ru_scope i) = Some (uc_entity c) \/
           vs_entity (ru_scope i) = None /\ ru_policy i = value ReusablePolicy.ALL_ENTITIES_APPROVED /\
           ru_cross_entity_approved i = true)) as ->.
  { destruct (vs_entity (ru_scope i)) as [e|].
    - destruct (decide (e = uc_entity c)) as [->|Hne];
        [rewrite bool_decide_eq_true_2 by done; split; [by left | done]
        | rewrite (bool_decide_eq_false_2 _ Hne); split; [done | by intros [[= ->]|[? _]]]].
    - rewrite reason_if_nil, orb_false_iff, !negb_false_iff, bool_decide_eq_true. naive_solver. }
  assert (match ru_valid_from i with Some f => today <? f | None => false end = false <->
          forall f, ru_valid_from i = Some f -> f <= today) as ->.
  { destruct (ru_valid_from i) as [f|]; [rewrite Z.ltb_ge; naive_solver | naive_solver]. }
  assert (truthy_opt (vs_case (ru_scope i)) = false <-> ~ is_Some (vs_case (ru_scope i))) as -> by apply bool_decide_eq_false.
  assert (truthy_opt (uc_jurisdiction c) = true <-> is_Some (uc_jurisdiction c)) as -> by apply bool_decide_eq_true.
  split.
  - intros (? & ? & ? & ? & ? & ? & ? & Hc & Hj & ? & [? ?] & ?). split; try done.
    + intros Hor. destruct Hc as [[? ?]|?]; [exfalso; tauto | done].
    + intros Hp. destruct Hj; [done|]. done.
  - intros [? ? ? ? ? ? ? Hc Hj ? ? ? ?]. split_and!; try done.
    + destruct (decide (vs_case (ru_scope i) = uc_case c)); [by right|]. left. split; intros ?; apply n, Hc; auto.
    + destruct (decide (ru_policy i = value ReusablePolicy.ENTITY_AND_JURISDICTION)); [right; by apply Hj | by left].
Qed.
