(* ===== verification/InfoRegistry.v ===== *)
(** * The registry of reusable information ([app/services/information_registry_service.py])

    Definitions, versioned values with their approval, the search for a usable value,
    the reveal of a sensitive one and the sweep of expired ones, on the tables of
    [app/models/information.py].  Approvals keep at most one approved value per
    definition, legal entity and jurisdiction: the unique index compares missing ids as
    one null id.  A new value's row gets its id and the nonce of its envelope from
    outside. *)
From S2P Require Import Prelude Vocabulary Terms PyDate PyJson PyFloat JsonText Crypto Roles LicensingLog InfoRules.
Open Scope Z_scope.

Abbreviation uuid := string (only parsing).

(** ** Tables *)

Record InformationDefinition := {
  df_id : uuid;
  df_key : string;
  df_category : string;
  df_data_type : string;
  df_sensitivity : string;
  df_rules : list (string * json);
  df_policy : string;
  df_freshness_days : option Z;
  df_keep_last : Z
}.

Record InformationValue := {
  iv_id : uuid;
  iv_definition : uuid;
  iv_scope : ValueScope;
  iv_version : Z;
  iv_encrypted : option string;
  iv_plain : option json;
  iv_fingerprint : string;
  iv_display : option string;
  iv_status : string;
  iv_valid_from : option date;
  iv_valid_to : option date;
  iv_owner : option string;
  iv_created_by : option string;
  iv_approved_by : option string;
  iv_approved_at : option instant;
  iv_cross_by : option string;
  iv_cross_at : option instant;
  iv_superseded_by : option uuid;
  iv_rejection : option string;
  iv_last_used : option instant
}.
Instance eta_value : Eta InformationValue := fun r =>
  {| iv_id := iv_id r; iv_definition := iv_definition r; iv_scope := iv_scope r; iv_version := iv_version r;
     iv_encrypted := iv_encrypted r; iv_plain := iv_plain r; iv_fingerprint := iv_fingerprint r; iv_display := iv_display r;
     iv_status := iv_status r; iv_valid_from := iv_valid_from r; iv_valid_to := iv_valid_to r; iv_owner := iv_owner r;
     iv_created_by := iv_created_by r; iv_approved_by := iv_approved_by r; iv_approved_at := iv_approved_at r;
     iv_cross_by := iv_cross_by r; iv_cross_at := iv_cross_at r; iv_superseded_by := iv_superseded_by r;
     iv_rejection := iv_rejection r; iv_last_used := iv_last_used r |}.

Record InformationValueUsage := {
  us_value : uuid;
  us_case : option uuid;
  us_form : option uuid;
  us_packet : option uuid;
  us_actor : string;
  us_purpose : string;
  us_version : Z;
  us_at : instant
}.

Record InformationOwnerAssignment := {
  ow_definition : uuid;
  ow_entity : option uuid;
  ow_actor : string;
  ow_primary : bool;
  ow_active : bool;
  ow_assigned_by : option string
}.
Instance eta_owner : Eta InformationOwnerAssignment := fun o =>
  {| ow_definition := ow_definition o; ow_entity := ow_entity o; ow_actor := ow_actor o; ow_primary := ow_primary o;
     ow_active := ow_active o; ow_assigned_by := ow_assigned_by o |}.

Record InfoDb := {
  definitions : gmap uuid InformationDefinition;
  values : gmap uuid InformationValue;
  usages : list InformationValueUsage;
  owners : list InformationOwnerAssignment;
  log : Log
}.
Instance eta_info : Eta InfoDb := fun db =>
  {| definitions := definitions db; values := values db; usages := usages db; owners := owners db; log := log db |}.

Record InfoSettings := {
  information_default_freshness_days : Z;
  information_highly_restricted_enabled : bool
}.

Definition put_value (v : InformationValue) (db : InfoDb) : InfoDb := db <| values := <[iv_id v := v]> (values db) |>.

Definition null_uuid : uuid := "00000000-0000-0000-0000-000000000000".

(** The columns both unique indexes of the table share. *)
Definition index_key (v : InformationValue) : uuid * uuid * uuid :=
  (iv_definition v, default null_uuid (vs_entity (iv_scope v)), default null_uuid (vs_jurisdiction (iv_scope v))).

(** The scope as [==] of the statements compares it: a missing id is only itself. *)
Definition same_scope (a b : InformationValue) : bool :=
  bool_decide (iv_definition a = iv_definition b) && bool_decide (vs_entity (iv_scope a) = vs_entity (iv_scope b)) &&
  bool_decide (vs_jurisdiction (iv_scope a) = vs_jurisdiction (iv_scope b)).

Definition is_approved (v : InformationValue) : bool := bool_decide (iv_status v = value InformationValueStatus.APPROVED).

(** [uq_information_values_approved], when [v] is written. *)
Definition approved_free (v : InformationValue) (db : InfoDb) : bool :=
  negb (is_approved v && existsb (fun w => negb (bool_decide (iv_id w = iv_id v)) && is_approved w &&
                                           bool_decide (index_key w = index_key v)) (rows (values db))).

(** [uq_information_values_version] and the checks of the table, when [v] is new. *)
Definition value_row_ok (v : InformationValue) (db : InfoDb) : bool :=
  negb (truthy_opt (values db !! iv_id v)) &&
  negb (existsb (fun w => bool_decide (index_key w = index_key v) && (iv_version w =? iv_version v)) (rows (values db))) &&
  (1 <=? iv_version v) &&
  match iv_valid_from v, iv_valid_to v with Some f, Some t => f <=? t | _, _ => true end.

Definition definition_row_ok (d : InformationDefinition) (db : InfoDb) : bool :=
  negb (truthy_opt (definitions db !! df_id d)) &&
  negb (existsb (fun e => bool_decide (df_key e = df_key d)) (rows (definitions db))) &&
  match df_freshness_days d with Some n => 0 <? n | None => true end &&
  is_value (A := InformationCategory.InformationCategory) (df_category d) &&
  is_value (A := InformationDataType.InformationDataType) (df_data_type d) &&
  is_value (A := Sensitivity.Sensitivity) (df_sensitivity d) && is_value (A := ReusablePolicy.ReusablePolicy) (df_policy d).

Section Registry.
Context (py_str : json -> string) (re_search : string -> string -> option bool).
Context (float_text : json -> string) (spaced : json -> string) (not_finite : spec_float -> json).
Context (sha256 : string -> string) (hmac : string -> string -> string).
Context (aes_encrypt : string -> string -> string -> string -> string)
  (aes_decrypt : string -> string -> string -> string -> option string).
(** The keyring of the environment, when there is one. *)
Context (settings : InfoSettings) (keyring : option Keyring).

Definition audit (entity i act : string) (who : CurrentActor) (db : InfoDb) : InfoDb :=
  db <| log := add_audit entity i act (Some (actor_id who)) (log db) |>.

(** ** Definitions *)

Record NewDefinition := {
  nd_key : string;
  nd_category : string;
  nd_data_type : string;
  nd_sensitivity : option string;
  nd_rules : list (string * json);
  nd_policy : option string;
  nd_freshness_days : option Z;
  nd_keep_last : option Z
}.

(** [x or default]. *)
Definition or_text (x : option string) (d : string) : string := if truthy_str x then default d x else d.
Definition or_int (x : option Z) (d : Z) : Z := match x with Some n => if n =? 0 then d else n | None => d end.

Definition definition_of (i : uuid) (n : NewDefinition) : InformationDefinition :=
  {| df_id := i; df_key := nd_key n; df_category := nd_category n; df_data_type := nd_data_type n;
     df_sensitivity := or_text (nd_sensitivity n) (value Sensitivity.INTERNAL); df_rules := nd_rules n;
     df_policy := or_text (nd_policy n) (value ReusablePolicy.ENTITY_ONLY);
     df_freshness_days := Some (or_int (nd_freshness_days n) (information_default_freshness_days settings));
     df_keep_last := or_int (nd_keep_last n) 0 |}.

Definition create_definition (who : CurrentActor) (i : uuid) (n : NewDefinition) (db : InfoDb)
    : result exn (InformationDefinition * InfoDb) :=
  _ ← raise_unless (negb (existsb (fun e => bool_decide (df_key e = nd_key n)) (rows (definitions db)))) StateConflictError;
  let d := definition_of i n in
  _ ← raise_unless (negb (bool_decide (df_sensitivity d = value Sensitivity.HIGHLY_RESTRICTED) &&
                          negb (information_highly_restricted_enabled settings))) StateConflictError;
  _ ← raise_unless (definition_row_ok d db) IntegrityError;
  Ok (d, audit "information_definition" i "information_definition_created" who
           (db <| definitions := <[i := d]> (definitions db) |>)).

Definition same_owner (definition : uuid) (entity : option uuid) (owner : string) (o : InformationOwnerAssignment) : bool :=
  bool_decide (ow_definition o = definition) && bool_decide (ow_entity o = entity) && bool_decide (ow_actor o = owner).

(** The first assignment that fits is updated. *)
Fixpoint update_first {A} (p : A -> bool) (f : A -> A) (l : list A) : list A :=
  match l with [] => [] | x :: l => if p x then f x :: l else x :: update_first p f l end.

Definition assign_owner (definition : uuid) (who : CurrentActor) (owner : string) (entity : option uuid) (primary : bool)
    (db : InfoDb) : result exn InfoDb :=
  match definitions db !! definition with
  | None => Err NotFoundError
  | Some _ =>
      let fits := same_owner definition entity owner in
      if existsb fits (owners db)
      then Ok (db <| owners := update_first fits (fun o => o <| ow_active := true |> <| ow_primary := primary |>) (owners db) |>)
      else Ok (db <| owners := owners db ++ [{| ow_definition := definition; ow_entity := entity; ow_actor := owner;
                                               ow_primary := primary; ow_active := true;
                                               ow_assigned_by := Some (actor_id who) |}] |>)
  end.

(** ** Values *)

Record Proposal := {
  pr_value : json;
  pr_scope : ValueScope;
  pr_valid_from : option date;
  pr_valid_to : option date;
  pr_owner : option string
}.

Definition get_cipher : result exn Keyring :=
  match keyring with Some k => Ok k | None => Err StateConflictError end.

(** The greatest version in the scope of [v], or zero. *)
Definition highest_version (v : InformationValue) (db : InfoDb) : Z :=
  foldr Z.max 0 (iv_version <$> filter (fun w => same_scope w v = true) (rows (values db))).

Definition display_of (d : InformationDefinition) (v : json) : string :=
  if bool_decide (df_sensitivity d = value Sensitivity.INTERNAL)
  then str_take 200 (match v with JStr s => s | _ => py_str v end)
  else redact spaced v (df_keep_last d).

Definition draft_value (i : uuid) (d : InformationDefinition) (p : Proposal) (who : CurrentActor) : InformationValue :=
  {| iv_id := i; iv_definition := df_id d; iv_scope := pr_scope p; iv_version := 0; iv_encrypted := None; iv_plain := None;
     iv_fingerprint := ""; iv_display := Some (display_of d (pr_value p)); iv_status := value InformationValueStatus.DRAFT;
     iv_valid_from := pr_valid_from p; iv_valid_to := pr_valid_to p; iv_owner := Some (or_text (pr_owner p) (actor_id who));
     iv_created_by := Some (actor_id who); iv_approved_by := None; iv_approved_at := None; iv_cross_by := None;
     iv_cross_at := None; iv_superseded_by := None; iv_rejection := None; iv_last_used := None |}.

Definition _ENTITY_TYPE : string := "information_value".

(** What is stored of the value: an envelope where its sensitivity asks for one. *)
Definition protect (d : InformationDefinition) (nonce : string) (v : json) (r : InformationValue) : result exn InformationValue :=
  if requires_encryption (df_sensitivity d) then
    k ← get_cipher;
    ct ← encrypt float_text aes_encrypt k nonce v _ENTITY_TYPE (iv_id r);
    fp ← fingerprint float_text sha256 hmac k v;
    Ok (r <| iv_encrypted := Some ct |> <| iv_fingerprint := fp |>)
  else Ok (r <| iv_plain := Some (JDict [("value", v)]) |> <| iv_fingerprint := content_sha256 float_text sha256 v |>).

Definition propose_value (who : CurrentActor) (definition : uuid) (p : Proposal) (i : uuid) (nonce : string) (db : InfoDb)
    : result exn (InformationValue * InfoDb) :=
  match definitions db !! definition with
  | None => Err NotFoundError
  | Some d =>
      issues ← validate_value py_str re_search (df_rules d) (pr_value p) (df_data_type d);
      _ ← raise_unless (bool_decide (issues = [])) StateConflictError;
      _ ← raise_unless (truthy_opt (vs_entity (pr_scope p)) ||
                        bool_decide (df_policy d = value ReusablePolicy.ALL_ENTITIES_APPROVED)) StateConflictError;
      let r := draft_value i d p who in
      r ← protect d nonce (pr_value p) (r <| iv_version := highest_version r db + 1 |>);
      _ ← raise_unless (value_row_ok r db) IntegrityError;
      Ok (r, audit "information_value" i "information_value_proposed" who (put_value r db))
  end.

Definition submit_for_approval (i : uuid) (db : InfoDb) : result exn InfoDb :=
  match values db !! i with
  | None => Err NotFoundError
  | Some r =>
      _ ← raise_unless (bool_decide (iv_status r = value InformationValueStatus.DRAFT)) StateConflictError;
      Ok (put_value (r <| iv_status := value InformationValueStatus.PENDING_APPROVAL |>) db)
  end.

Definition APPROVABLE : list string := value <$> [InformationValueStatus.DRAFT; InformationValueStatus.PENDING_APPROVAL].

(** The approved value of the scope, other than [r]. *)
Definition current_approved (r : InformationValue) (db : InfoDb) : option InformationValue :=
  head (filter (fun w => (negb (bool_decide (iv_id w = iv_id r)) && same_scope w r && is_approved w) = true) (rows (values db))).

Definition superseded_by (r w : InformationValue) : InformationValue :=
  w <| iv_status := value InformationValueStatus.SUPERSEDED |> <| iv_superseded_by := Some (iv_id r) |>.

Definition cross_approved (who : CurrentActor) (now : instant) (r : InformationValue) : InformationValue :=
  r <| iv_cross_by := Some (actor_id who) |> <| iv_cross_at := Some now |>.

Definition approved_value (who : CurrentActor) (now : instant) (r : InformationValue) : InformationValue :=
  r <| iv_status := value InformationValueStatus.APPROVED |> <| iv_approved_by := Some (actor_id who) |>
    <| iv_approved_at := Some now |>.

Definition approve_value (i : uuid) (who : CurrentActor) (cross_entity : bool) (now : instant) (db : InfoDb)
    : result exn (InformationValue * InfoDb) :=
  match values db !! i with
  | None => Err NotFoundError
  | Some r =>
      _ ← raise_unless (bool_decide (iv_status r ∈ APPROVABLE)) StateConflictError;
      match definitions db !! iv_definition r with
      | None => Err NotFoundError
      | Some d =>
          _ ← raise_unless (truthy_str (iv_owner r)) StateConflictError;
          r ← (if cross_entity then
                 _ ← raise_unless (has_role (roles who) Role.MANAGER) SensitiveAccessDeniedError;
                 _ ← raise_unless (bool_decide (df_policy d = value ReusablePolicy.ALL_ENTITIES_APPROVED)) StateConflictError;
                 Ok (cross_approved who now r)
               else Ok r);
          let db1 := match current_approved r db with Some w => put_value (superseded_by r w) db | None => db end in
          let r' := approved_value who now r in
          _ ← raise_unless (approved_free r' db1) IntegrityError;
          Ok (r', audit "information_value" i "information_value_approved" who (put_value r' db1))
      end
  end.

Definition reject_value (i : uuid) (reason : string) (db : InfoDb) : result exn InfoDb :=
  match values db !! i with
  | None => Err NotFoundError
  | Some r => Ok (put_value (r <| iv_status := value InformationValueStatus.REJECTED |>
                               <| iv_rejection := Some (str_take 1000 reason) |>) db)
  end.

Definition supersede_value (i : uuid) (who : CurrentActor) (db : InfoDb) : result exn InfoDb :=
  match values db !! i with
  | None => Err NotFoundError
  | Some r => Ok (audit "information_value" i "information_value_superseded" who
                    (put_value (r <| iv_status := value InformationValueStatus.SUPERSEDED |>) db))
  end.

(** ** Use *)

Definition find_definition (k : string) (db : InfoDb) : option InformationDefinition :=
  head (filter (fun d => df_key d = k) (rows (definitions db))).

(** The approved values of a definition, the latest version first. *)
Definition candidates (d : InformationDefinition) (db : InfoDb) : list InformationValue :=
  py_sorted (fun a b => iv_version b <=? iv_version a)
    (filter (fun v => iv_definition v = df_id d /\ iv_status v = value InformationValueStatus.APPROVED) (rows (values db))).

Definition reuse_input (d : InformationDefinition) (v : InformationValue) : ReuseInput :=
  {| ru_status := iv_status v; ru_policy := df_policy d; ru_sensitivity := df_sensitivity d; ru_scope := iv_scope v;
     ru_owner := iv_owner v; ru_approved_at := iv_approved_at v; ru_valid_from := iv_valid_from v; ru_valid_to := iv_valid_to v;
     ru_freshness_days := df_freshness_days d; ru_cross_entity_approved := truthy_opt (iv_cross_by v) |}.

Inductive Resolution :=
| Found (v : InformationValue) (fresh : string)
| NoDefinition
| NoApprovedValue
| Rejected (first : ReuseRejection) (all : list ReuseRejection).

(** The first candidate that may be used; otherwise every reason against them. *)
Fixpoint first_usable (d : InformationDefinition) (c : UsageContext) (allow_stale : bool) (today : date) (now : instant)
    (l : list InformationValue) (seen : list ReuseRejection) : Resolution :=
  match l with
  | [] => match seen with [] => NoApprovedValue | x :: _ => Rejected x seen end
  | v :: l =>
      let r := evaluate_reuse (reuse_input d v) c today now allow_stale in
      if usable r then Found v (freshness r) else first_usable d c allow_stale today now l (seen ++ reasons r)
  end.

Definition resolve_for_use (k : string) (c : UsageContext) (allow_stale : bool) (today : date) (now : instant) (db : InfoDb)
    : Resolution :=
  match find_definition k db with
  | None => NoDefinition
  | Some d => first_usable d c allow_stale today now (candidates d db) []
  end.

(** [plaintext.get("value") if isinstance(plaintext, dict) else plaintext]. *)
Definition unwrap (v : json) : json := match v with JDict d => default JNull (dget "value" d) | _ => v end.

Definition reveal_value (i : uuid) (who : CurrentActor) (db : InfoDb) : result exn (json * InfoDb) :=
  match values db !! i with
  | None => Err NotFoundError
  | Some r =>
      match definitions db !! iv_definition r with
      | None => Err NotFoundError
      | Some d =>
          _ ← raise_unless (negb (requires_encryption (df_sensitivity d)) || has_role (roles who) Role.MANAGER ||
                            bool_decide (iv_owner r = Some (actor_id who))) SensitiveAccessDeniedError;
          _ ← raise_unless (negb (bool_decide (df_sensitivity d = value Sensitivity.HIGHLY_RESTRICTED)) ||
                            information_highly_restricted_enabled settings) SensitiveAccessDeniedError;
          plaintext ← (if truthy_str (iv_encrypted r) then
                         k ← get_cipher;
                         decrypt_json aes_decrypt not_finite k (default "" (iv_encrypted r)) _ENTITY_TYPE (iv_id r)
                       else
                         match iv_plain r with
                         | Some v => if negb (requires_encryption (df_sensitivity d)) && truthy v then Ok v else Err StateConflictError
                         | None => Err StateConflictError
                         end);
          Ok (unwrap plaintext, audit "information_value" i "information_value_revealed" who db)
      end
  end.

Definition record_usage (i : uuid) (purpose : string) (who : option CurrentActor) (case form packet : option uuid) (now : instant)
    (db : InfoDb) : result exn InfoDb :=
  match values db !! i with
  | None => Err NotFoundError
  | Some r =>
      _ ← raise_unless (is_value (A := UsagePurpose.UsagePurpose) purpose) IntegrityError;
      Ok (put_value (r <| iv_last_used := Some now |>)
            (db <| usages := usages db ++ [{| us_value := i; us_case := case; us_form := form; us_packet := packet;
                                             us_actor := match who with Some a => actor_id a | None => "licensing-worker" end;
                                             us_purpose := purpose; us_version := iv_version r; us_at := now |}] |>))
  end.

(** ** The sweep *)

Definition past (today : date) (v : InformationValue) : bool :=
  is_approved v && match iv_valid_to v with Some t => t <? today | None => false end.

Definition expire (today : date) (v : InformationValue) : InformationValue :=
  if past today v then v <| iv_status := value InformationValueStatus.EXPIRED |> else v.

(** The rows that expired and the approved ones that are no longer fresh. *)
Definition expire_stale_values (now : instant) (db : InfoDb) : Z * Z * InfoDb :=
  let today := instant_date now in
  let db' := db <| values := expire today <$> values db |> in
  let stale v :=
    is_approved v &&
    match definitions db !! iv_definition v with
    | Some d => bool_decide (assess_freshness (iv_approved_at v) (iv_valid_to v) (df_freshness_days d) today now
                             ∈ value <$> [ValueFreshness.STALE; ValueFreshness.EXPIRED])
    | None => false
    end in
  (Z.of_nat (length (filter (fun v => past today v = true) (rows (values db)))),
   Z.of_nat (length (filter (fun v => stale v = true) (rows (values db')))), db').
End Registry.
