(* ===== verification/InfoSafety.v ===== *)
(** * What holds of stored information

    The calls of [InfoRegistry] as steps of the database; what every reachable registry
    agrees with, and what no call changes. *)
From S2P Require Import Prelude Vocabulary Terms PyDate PyJson PyFloat CanonJson JsonText Crypto Roles LicensingLog InfoRules InfoRegistry.
Open Scope Z_scope.

(** What a call never changes of a stored value. *)
Definition content (v : InformationValue) : uuid * uuid * ValueScope * Z * option string * option json * option string :=
  (iv_id v, iv_definition v, iv_scope v, iv_version v, iv_encrypted v, iv_plain v, iv_owner v).

Lemma content_index v w : content v = content w -> index_key v = index_key w.
Proof. unfold content, index_key. by intros [= _ -> -> _ _ _ _]. Qed.

Lemma content_id v w : content v = content w -> iv_id v = iv_id w.
Proof. unfold content. congruence. Qed.

(** A value is stored the way the sensitivity of its definition asks for. *)
Definition value_ok (db : InfoDb) (v : InformationValue) : Prop :=
  exists d, definitions db !! iv_definition v = Some d /\
    (if requires_encryption (df_sensitivity d) then iv_plain v = None /\ is_Some (iv_encrypted v)
     else iv_encrypted v = None /\ is_Some (iv_plain v)) /\
    (vs_entity (iv_scope v) = None \/ is_Some (iv_cross_by v) -> df_policy d = value ReusablePolicy.ALL_ENTITIES_APPROVED) /\
    (is_approved v = true -> truthy_str (iv_owner v) = true /\ is_Some (iv_approved_at v)).

Record registry_ok (db : InfoDb) : Prop := {
  ro_keyed : forall i v, values db !! i = Some v -> iv_id v = i;
  ro_definitions : forall i d, definitions db !! i = Some d -> df_id d = i;
  ro_value : forall i v, values db !! i = Some v -> value_ok db v;
  ro_approved : forall i j v w, values db !! i = Some v -> values db !! j = Some w -> is_approved v = true ->
    is_approved w = true -> index_key v = index_key w -> i = j;
  ro_versions : forall i j v w, values db !! i = Some v -> values db !! j = Some w -> index_key v = index_key w ->
    iv_version v = iv_version w -> i = j
}.

(** Definitions stay, and the content of values does. *)
Definition preserved (db db' : InfoDb) : Prop :=
  (forall i d, definitions db !! i = Some d -> definitions db' !! i = Some d) /\
  (forall i v, values db !! i = Some v -> exists w, values db' !! i = Some w /\ content w = content v).

#[export] Instance preserved_refl : Reflexive preserved.
Proof. intros db. split; [done|]. intros i v H. by exists v. Qed.

#[export] Instance preserved_trans : Transitive preserved.
Proof.
  intros a b c [Hd Hv] [Hd' Hv']. split; [auto|]. intros i v H. destruct (Hv i v H) as (w & Hw & Ew).
  destruct (Hv' i w Hw) as (x & Hx & Ex). exists x. split; [done | congruence].
Qed.

Lemma value_ok_definitions db db' v :
  (forall i d, definitions db !! i = Some d -> definitions db' !! i = Some d) -> value_ok db v -> value_ok db' v.
Proof. intros Hd (d & H & Hrest). exists d. split; [by apply Hd | done]. Qed.

(** One stored value is written again. *)
Lemma put_ok db v v' :
  registry_ok db -> values db !! iv_id v = Some v -> content v' = content v -> value_ok db v' ->
  (is_approved v' = true -> forall j w, values db !! j = Some w -> j <> iv_id v' -> is_approved w = true ->
     index_key w <> index_key v') ->
  registry_ok (put_value v' db) /\ preserved db (put_value v' db).
Proof.
  intros [Hk Hd Hv Ha Hn] Hin Hc Hok Hfree.
  assert (iv_id v' = iv_id v) as Hid by (unfold content in Hc; by injection Hc).
  assert (iv_version v' = iv_version v) as Hver by (unfold content in Hc; by injection Hc).
  apply content_index in Hc as Hi.
  assert (forall j w, values (put_value v' db) !! j = Some w -> j = iv_id v' /\ w = v' \/ j <> iv_id v' /\ values db !! j = Some w) as Hl.
  { intros j w. cbn. rewrite lookup_insert_Some. intros [[<- <-]|[? ?]]; [by left | by right]. }
  split; [split|].
  - intros j w [[-> ->]|[_ H]]%Hl; [done | by apply Hk].
  - done.
  - intros j w [[-> ->]|[_ H]]%Hl; [done | by eapply Hv].
  - intros j k w x [[-> ->]|[Hj Hw]]%Hl [[-> ->]|[Hk' Hx]]%Hl Aw Ax E; try done.
    + exfalso. by eapply Hfree.
    + exfalso. by eapply Hfree.
    + by eapply Ha.
  - intros j k w x [[-> ->]|[Hj Hw]]%Hl [[-> ->]|[Hk' Hx]]%Hl E Ev; try done.
    + rewrite Hid. eapply Hn; [exact Hin | exact Hx | congruence | congruence].
    + rewrite Hid. eapply Hn; [exact Hw | exact Hin | congruence | congruence].
    + by eapply Hn.
  - split; [done|]. intros j w Hw. cbn. destruct (decide (j = iv_id v')) as [->|Hne].
    + exists v'. rewrite lookup_insert_eq. split; [done|]. rewrite Hid, Hin in Hw. by injection Hw as <-.
    + exists w. by rewrite lookup_insert_ne.
Qed.

(** A write that does not approve. *)
Lemma demote_ok db v v' :
  registry_ok db -> values db !! iv_id v = Some v -> content v' = content v -> iv_cross_by v' = iv_cross_by v ->
  is_approved v' = false -> registry_ok (put_value v' db) /\ preserved db (put_value v' db).
Proof.
  intros Hdb Hin Hc Hx Hna. apply (put_ok db v); [done | done | done | | by rewrite Hna].
  destruct (ro_value _ Hdb _ _ Hin) as (d & Hd & Henc & Hcross & _). unfold content in Hc. injection Hc as E1 E2 E3 E4 E5 E6 E7.
  exists d. rewrite E2, E3, E5, E6, Hx, Hna. by split_and!.
Qed.

Lemma audit_ok db e i act who : registry_ok db -> registry_ok (audit e i act who db).
Proof. intros []. by split. Qed.

Section Steps.
Context (py_str : json -> string) (re_search : string -> string -> option bool).
Context (float_text : json -> string) (spaced : json -> string) (not_finite : spec_float -> json).
Context (sha256 : string -> string) (hmac : string -> string -> string).
Context (aes_encrypt : string -> string -> string -> string -> string)
  (aes_decrypt : string -> string -> string -> string -> option string).
Context (settings : InfoSettings).

(** One call, with the keyring the environment has at that time. *)
Inductive step (db db' : InfoDb) : Prop :=
| step_definition who i n d : create_definition settings who i n db = Ok (d, db') -> step db db'
| step_owner i who o e p : assign_owner i who o e p db = Ok db' -> step db db'
| step_propose k who d p i nonce v :
    propose_value py_str re_search float_text spaced sha256 hmac aes_encrypt k who d p i nonce db = Ok (v, db') -> step db db'
| step_submit i : submit_for_approval i db = Ok db' -> step db db'
| step_approve i who x now v : approve_value i who x now db = Ok (v, db') -> step db db'
| step_reject i reason : reject_value i reason db = Ok db' -> step db db'
| step_supersede i who : supersede_value i who db = Ok db' -> step db db'
| step_reveal k i who v :
    reveal_value not_finite aes_decrypt settings k i who db = Ok (v, db') -> step db db'
| step_usage i purpose who c f p now : record_usage i purpose who c f p now db = Ok db' -> step db db'
| step_sweep now : (expire_stale_values now db).2 = db' -> step db db'.

Lemma create_ok who i n d db db' :
  registry_ok db -> create_definition settings who i n db = Ok (d, db') -> registry_ok db' /\ preserved db db'.
Proof.
  intros [Hk Hd Hv Ha Hn]. unfold create_definition. intros (u & _ & H)%bind_Ok_inv. apply bind_Ok_inv in H as (u1 & _ & H).
  apply bind_Ok_inv in H as (u2 & Hrow%raise_unless_Ok & H). apply Ok_pair_inj in H as [_ <-].
  unfold definition_row_ok in Hrow. rewrite !andb_true_iff in Hrow.
  destruct Hrow as [[[[[[Hnew%negb_true_iff _] _] _] _] _] _]. unfold truthy_opt in Hnew. apply bool_decide_eq_false in Hnew.
  rewrite <-eq_None_not_Some in Hnew. cbn in Hnew.
  assert (forall j e, definitions db !! j = Some e -> <[i := definition_of settings i n]> (definitions db) !! j = Some e) as Hkeep.
  { intros j e He. rewrite lookup_insert_ne; [done|]. intros ->. by rewrite Hnew in He. }
  split; [split|].
  - done.
  - intros j e. cbn. rewrite lookup_insert_Some. intros [[<- <-]|[_ He]]; [done | by apply Hd].
  - intros j v Hj. apply (value_ok_definitions db); [exact Hkeep | by eapply Hv].
  - done.
  - done.
  - split; [exact Hkeep|]. intros j v Hj. by exists v.
Qed.

Lemma protect_spec k d nonce v r r' :
  protect float_text sha256 hmac aes_encrypt k d nonce v r = Ok r' ->
  (if requires_encryption (df_sensitivity d) then
     iv_plain r' = iv_plain r /\ exists kr ct, k = Some kr /\ iv_encrypted r' = Some ct /\
       encrypt float_text aes_encrypt kr nonce v _ENTITY_TYPE (iv_id r) = Ok ct
   else iv_encrypted r' = iv_encrypted r /\ iv_plain r' = Some (JDict [("value", v)])) /\
  iv_id r' = iv_id r /\ iv_definition r' = iv_definition r /\ iv_scope r' = iv_scope r /\ iv_version r' = iv_version r /\
  iv_status r' = iv_status r /\ iv_cross_by r' = iv_cross_by r /\ iv_owner r' = iv_owner r.
Proof.
  unfold protect. destruct (requires_encryption (df_sensitivity d)).
  - unfold get_cipher. destruct k as [kr|]; [|done]. msimpl. intros (ct & Hct & H)%bind_Ok_inv.
    apply bind_Ok_inv in H as (fp & _ & [= <-]). split_and!; try done. by exists kr, ct.
  - intros [= <-]. by split_and!.
Qed.

Lemma propose_inv k who i p j nonce r db db' :
  propose_value py_str re_search float_text spaced sha256 hmac aes_encrypt k who i p j nonce db = Ok (r, db') ->
  exists d r0, definitions db !! i = Some d /\
    validate_value py_str re_search (df_rules d) (pr_value p) (df_data_type d) = Ok [] /\
    (vs_entity (pr_scope p) = None -> df_policy d = value ReusablePolicy.ALL_ENTITIES_APPROVED) /\
    r0 = draft_value py_str spaced j d p who <| iv_version := highest_version (draft_value py_str spaced j d p who) db + 1 |> /\
    protect float_text sha256 hmac aes_encrypt k d nonce (pr_value p) r0 = Ok r /\
    value_row_ok r db = true /\ db' = audit "information_value" j "information_value_proposed" who (put_value r db).
Proof.
  unfold propose_value. destruct (definitions db !! i) as [d|] eqn:Hd; [|done].
  intros (issues & Hi & H)%bind_Ok_inv. apply bind_Ok_inv in H as (u & ->%raise_unless_Ok%bool_decide_eq_true_1 & H).
  apply bind_Ok_inv in H as (u1 & He%raise_unless_Ok & H). cbv zeta in H.
  apply bind_Ok_inv in H as (r' & Hr & H). apply bind_Ok_inv in H as (u2 & Hrow%raise_unless_Ok & H).
  apply Ok_pair_inj in H as [-> <-]. eexists d, _. split_and!; try done.
  intros En. rewrite En in He. cbn in He. by apply bool_decide_eq_true in He.
Qed.

Lemma propose_ok k who i p j nonce r db db' :
  registry_ok db ->
  propose_value py_str re_search float_text spaced sha256 hmac aes_encrypt k who i p j nonce db = Ok (r, db') ->
  registry_ok db' /\ preserved db db' /\ values db !! j = None /\ values db' !! j = Some r.
Proof.
  intros [Hk Hd Hv Ha Hn] (d & r0 & Hdef & _ & Hent & -> & Hp & Hrow & ->)%propose_inv.
  apply protect_spec in Hp as (Henc & Hid & Hdf & Hsc & Hver & Hst & Hcr & Hown). cbn in Hid, Hdf, Hsc, Hst, Hcr, Hown.
  unfold value_row_ok in Hrow. rewrite !andb_true_iff, !negb_true_iff in Hrow. destruct Hrow as [[[Hnew Hvers] _] _].
  unfold truthy_opt in Hnew. apply bool_decide_eq_false in Hnew. rewrite <-eq_None_not_Some in Hnew.
  assert (iv_id r = j) as Hj by done. rewrite Hj in Hnew.
  assert (forall a w, values db !! a = Some w -> index_key w = index_key r -> iv_version w = iv_version r -> False) as Hfresh.
  { intros a w Hw Ei Ev. apply (existsb_rows_false _ _ _ _ Hvers) in Hw. rewrite Ei, Ev, Z.eqb_refl, bool_decide_eq_true_2 in Hw; done. }
  assert (is_approved r = false) as Hna by (unfold is_approved; by rewrite Hst).
  assert (forall a w, values (put_value r db) !! a = Some w -> a = j /\ w = r \/ a <> j /\ values db !! a = Some w) as Hl.
  { intros a w. cbn. rewrite Hj, lookup_insert_Some. intros [[<- <-]|[? ?]]; [by left | by right]. }
  split_and!; [apply audit_ok; split | | done | cbn; by rewrite Hj, lookup_insert_eq].
  - intros a w [[-> ->]|[_ Hw]]%Hl; [done | by apply Hk].
  - done.
  - intros a w [[-> ->]|[_ Hw]]%Hl; [|by eapply Hv]. exists d. rewrite Hdf, Hsc, Hcr, Hna.
    rewrite (Hd _ _ Hdef). split_and!; [done| | | done].
    + cbn in Henc. destruct (requires_encryption (df_sensitivity d)).
      * destruct Henc as (? & kr & ct & _ & ? & _). split; [done | by exists ct].
      * destruct Henc as [? ?]. split; [done | by eexists].
    + intros [En|[? ?]]; [by apply Hent | done].
  - intros a b w x [[-> ->]|[? Hw]]%Hl [[-> ->]|[? Hx]]%Hl Aw Ax E; try done; [by rewrite Hna in Aw | by rewrite Hna in Ax | by eapply Ha].
  - intros a b w x [[-> ->]|[? Hw]]%Hl [[-> ->]|[? Hx]]%Hl E Ev; try done; [exfalso; by eapply Hfresh | exfalso; by eapply Hfresh | by eapply Hn].
  - split; [done|]. intros a w Hw. exists w. cbn. rewrite lookup_insert_ne; [done|]. rewrite Hj. intros <-. by rewrite Hnew in Hw.
Qed.

(** The row found as the current one is another approved row of the same scope. *)
Lemma current_spec r w db :
  registry_ok db -> current_approved r db = Some w ->
  values db !! iv_id w = Some w /\ iv_id w <> iv_id r /\ same_scope w r = true /\ is_approved w = true.
Proof.
  intros Hdb. unfold current_approved. intros H%head_Some_elem_of. apply list_elem_of_filter in H as [Hp Hin].
  apply andb_true_iff in Hp as [[Hne%negb_true_iff%bool_decide_eq_false Hs]%andb_true_iff Ha].
  apply elem_of_rows in Hin as [i Hi]. pose proof (ro_keyed _ Hdb _ _ Hi) as E. subst i. by split_and!.
Qed.

Lemma approve_inv i who x now r db db' :
  approve_value i who x now db = Ok (r, db') ->
  exists r0 d r1 db1, values db !! i = Some r0 /\ iv_status r0 ∈ APPROVABLE /\ definitions db !! iv_definition r0 = Some d /\
    truthy_str (iv_owner r0) = true /\
    (if x then has_role (roles who) Role.MANAGER = true /\ df_policy d = value ReusablePolicy.ALL_ENTITIES_APPROVED /\
       r1 = cross_approved who now r0 else r1 = r0) /\
    db1 = match current_approved r1 db with Some w => put_value (superseded_by r1 w) db | None => db end /\
    r = approved_value who now r1 /\ approved_free r db1 = true /\
    db' = audit "information_value" i "information_value_approved" who (put_value r db1).
Proof.
  unfold approve_value. destruct (values db !! i) as [r0|] eqn:Hr; [|done].
  intros (u & Hs%raise_unless_Ok%bool_decide_eq_true_1 & H)%bind_Ok_inv.
  destruct (definitions db !! iv_definition r0) as [d|] eqn:Hd; [|done].
  apply bind_Ok_inv in H as (u1 & Ho%raise_unless_Ok & H). apply bind_Ok_inv in H as (r1 & Hx & H). cbv zeta in H.
  apply bind_Ok_inv in H as (u2 & Hf%raise_unless_Ok & H). apply Ok_pair_inj in H as [<- <-].
  eexists r0, d, r1, _. split_and!; try done. destruct x; [|by injection Hx as <-].
  apply bind_Ok_inv in Hx as (u3 & Hm%raise_unless_Ok & Hx).
  by apply bind_Ok_inv in Hx as (u4 & Hp%raise_unless_Ok%bool_decide_eq_true_1 & [= <-]).
Qed.

Lemma approve_value_ok i who x now r db db' :
  registry_ok db -> approve_value i who x now db = Ok (r, db') -> registry_ok db' /\ preserved db db'.
Proof.
  intros Hdb (r0 & d & r1 & db1 & Hr & Hs & Hd & Ho & Hx & Hdb1 & -> & Hf & ->)%approve_inv.
  assert (content r1 = content r0) as Hc1 by (destruct x; [by destruct Hx as (_ & _ & ->) | by subst r1]).
  assert (iv_id r1 = i /\ iv_id r0 = i) as [Hid Hid0].
  { pose proof (ro_keyed _ Hdb _ _ Hr). split; [rewrite (content_id _ _ Hc1)|]; done. }
  assert (registry_ok db1 /\ preserved db db1 /\ values db1 !! i = Some r0) as (Hdb1' & Hpre & Hr1).
  { subst db1. destruct (current_approved r1 db) as [w|] eqn:Ew; [|by split_and!].
    apply current_spec in Ew as (Hw & Hne & _ & _); [|done].
    destruct (demote_ok db w (superseded_by r1 w)) as [? ?]; try done. split_and!; try done.
    cbn. rewrite lookup_insert_ne; [done|]. congruence. }
  destruct (put_ok db1 r0 (approved_value who now r1)) as [Hok Hpre2].
  - done.
  - by rewrite Hid0.
  - exact Hc1.
  - destruct (ro_value _ Hdb1' _ _ Hr1) as (e & He & Henc & Hcross & _).
    unfold content in Hc1. injection Hc1 as E1 E2 E3 E4 E5 E6 E7.
    exists e. cbn. rewrite E2, E3, E5, E6, E7. split; [done|]. split; [exact Henc|]. split; [|by intros _; split; [|eexists]].
    intros [?|[? Hcr]]; [apply Hcross; by left|]. destruct x; [|subst r1; apply Hcross; right; by eexists].
    destruct Hx as (_ & Hp & _). apply (proj1 Hpre) in Hd. rewrite He in Hd. by injection Hd as ->.
  - intros _ j w Hw Hne Ha E. unfold approved_free in Hf. apply negb_true_iff, andb_false_iff in Hf as [Hf|Hf]; [by vm_compute in Hf|].
    apply (existsb_rows_false _ _ _ _ Hf) in Hw as Hc. rewrite (ro_keyed _ Hdb1' _ _ Hw), Ha, E in Hc.
    rewrite (bool_decide_eq_false_2 _ Hne), bool_decide_eq_true_2 in Hc; done.
  - split; [by apply audit_ok|]. etrans; [exact Hpre | exact Hpre2].
Qed.

Lemma expire_content today v : content (expire today v) = content v.
Proof. unfold expire. by destruct (past today v). Qed.

Lemma expire_approved today v : is_approved (expire today v) = true -> expire today v = v /\ past today v = false.
Proof. unfold expire. destruct (past today v) eqn:E; [by intros H; vm_compute in H | done]. Qed.

Lemma sweep_ok now db : registry_ok db -> registry_ok (expire_stale_values now db).2 /\ preserved db (expire_stale_values now db).2.
Proof.
  intros [Hk Hd Hv Ha Hn]. set (t := instant_date now).
  assert (forall i w, values (expire_stale_values now db).2 !! i = Some w -> exists v, values db !! i = Some v /\ w = expire t v) as Hl.
  { intros i w. cbn. rewrite lookup_fmap, fmap_Some. intros (v & ? & ->). by exists v. }
  split; [split|].
  - intros i w (v & Hi & ->)%Hl. rewrite (content_id _ _ (expire_content t v)). by apply Hk.
  - done.
  - intros i w (v & Hi & ->)%Hl. destruct (Hv i v Hi) as (d & Hdf & Henc & Hc & Hap).
    exists d. unfold expire. destruct (past t v); [|by split_and!]. split_and!; try done.
  - intros i j w x (v & Hi & ->)%Hl (v' & Hj & ->)%Hl Aw Ax E.
    apply expire_approved in Aw as Ew. apply expire_approved in Ax as Ex. destruct Ew as [Ew _], Ex as [Ex _].
    rewrite Ew in Aw, E. rewrite Ex in Ax, E. by eapply Ha.
  - intros i j w x (v & Hi & ->)%Hl (v' & Hj & ->)%Hl E Ev.
    rewrite (content_index _ _ (expire_content t v)), (content_index _ _ (expire_content t v')) in E.
    pose proof (expire_content t v) as E1. pose proof (expire_content t v') as E2. unfold content in E1, E2.
    injection E1 as _ _ _ E1 _ _ _. injection E2 as _ _ _ E2 _ _ _. eapply Hn; [done | done | done | congruence].
  - split; [done|]. intros i v Hi. exists (expire t v). cbn. rewrite lookup_fmap, Hi. split; [done | apply expire_content].
Qed.

Lemma step_ok_registry db db' : registry_ok db -> step db db' -> registry_ok db' /\ preserved db db'.
Proof.
  intros Hdb [who i n d H|i who o e p H|k who d p i nonce v H|i H|i who x now v H|i reason H|i who H|k i who v H|i purpose who c f p now H|now <-].
  - by eapply create_ok.
  - unfold assign_owner in H. destruct (definitions db !! i); [|done].
    assert (definitions db' = definitions db /\ values db' = values db) as [Ed Ev] by (cbv zeta in H; destruct (existsb _ _); by injection H as <-).
    destruct Hdb. split; [split; unfold value_ok; rewrite ?Ed, ?Ev; done|]. split; rewrite ?Ed, ?Ev; [done|]. intros j w Hj. by exists w.
  - by apply propose_ok in H as (? & ? & _).
  - unfold submit_for_approval in H. destruct (values db !! i) as [r|] eqn:Hr; [|done]. apply bind_Ok_inv in H as (u & _ & [= <-]).
    apply (demote_ok db r); try done. by rewrite (ro_keyed _ Hdb _ _ Hr).
  - by eapply approve_value_ok.
  - unfold reject_value in H. destruct (values db !! i) as [r|] eqn:Hr; [|done]. injection H as <-.
    apply (demote_ok db r); try done. by rewrite (ro_keyed _ Hdb _ _ Hr).
  - unfold supersede_value in H. destruct (values db !! i) as [r|] eqn:Hr; [|done]. injection H as <-.
    destruct (demote_ok db r (r <| iv_status := value InformationValueStatus.SUPERSEDED |>)) as [? ?]; try done.
    { by rewrite (ro_keyed _ Hdb _ _ Hr). } split; [by apply audit_ok | done].
  - unfold reveal_value in H. destruct (values db !! i) as [r|]; [|done]. destruct (definitions db !! iv_definition r); [|done].
    do 3 (apply bind_Ok_inv in H as (? & _ & H)). apply Ok_pair_inj in H as [_ <-]. split; [by apply audit_ok | exact (preserved_refl db)].
  - unfold record_usage in H. destruct (values db !! i) as [r|] eqn:Hr; [|done]. apply bind_Ok_inv in H as (u & _ & [= <-]).
    assert (values db !! iv_id r = Some r) as Hr' by by rewrite (ro_keyed _ Hdb _ _ Hr).
    destruct (put_ok db r (r <| iv_last_used := Some now |>)) as [[]?]; try done.
    + apply (ro_value _ Hdb _ _ Hr).
    + intros Ha j w Hw Hne Aw E. apply Hne. apply (ro_approved _ Hdb _ _ _ _ Hw Hr' Aw Ha). done.
  - by apply sweep_ok.
Qed.

Lemma steps_ok_registry db db' : registry_ok db -> rtc step db db' -> registry_ok db' /\ preserved db db'.
Proof.
  intros Hdb H. induction H as [db|db db1 db2 H _ IH]; [done|]. destruct (step_ok_registry _ _ Hdb H) as [H1 Hp].
  destruct (IH H1) as [H2 Hp2]. split; [done | by etrans].
Qed.

(** What the calls can make of empty tables. *)
Definition reachable (db : InfoDb) : Prop := exists db0, values db0 = ∅ /\ definitions db0 = ∅ /\ rtc step db0 db.

Lemma reachable_registry_ok db : reachable db -> registry_ok db.
Proof.
  intros (db0 & Hv & Hd & Hr). refine (proj1 (steps_ok_registry db0 db _ Hr)).
  split; rewrite ?Hv, ?Hd; intros *; by rewrite lookup_empty.
Qed.
End Steps.
