(* ===== verification/InfoGuarantees.v ===== *)
(** * What the registry of information guarantees

    The properties of stored information, each with a run on a small registry: what
    every reachable registry agrees with, which value a search finds, that a revealed
    value is the one that was proposed, where that fails, and what an approval for one
    licence does to the answer of another. *)
From S2P Require Import Prelude Vocabulary Terms PyDate PyJson PyFloat CanonJson JsonText Crypto Roles LicensingLog InfoRules InfoRegistry InfoSafety.
Open Scope Z_scope.

Section Guarantees.
Context (py_str : json -> string) (re_search : string -> string -> option bool).
Context (float_text : json -> string) (spaced : json -> string) (not_finite : spec_float -> json).
Context (sha256 : string -> string) (hmac : string -> string -> string).
Context (aes_encrypt : string -> string -> string -> string -> string)
  (aes_decrypt : string -> string -> string -> string -> option string).
Context (settings : InfoSettings).

Notation step := (step py_str re_search float_text spaced not_finite sha256 hmac aes_encrypt aes_decrypt settings).
Notation reachable := (reachable py_str re_search float_text spaced not_finite sha256 hmac aes_encrypt aes_decrypt settings).

(** C14. Stored information stays in order.  In every registry the calls can make, in any
    order: each value belongs to a definition; a value that is restricted is stored as an
    envelope only and any other one in clear only; a value without a legal entity, or
    approved across entities, has a definition for all entities; an approved value has an
    accountable owner; and a definition has at most one approved value, and one value of
    each version, for a legal entity and a jurisdiction. *)
Theorem registry_consistent db :
  reachable db ->
  (forall i v, values db !! i = Some v ->
     exists d, definitions db !! iv_definition v = Some d /\
       (if requires_encryption (df_sensitivity d) then iv_plain v = None /\ is_Some (iv_encrypted v)
        else iv_encrypted v = None /\ is_Some (iv_plain v)) /\
       (vs_entity (iv_scope v) = None \/ is_Some (iv_cross_by v) -> df_policy d = value ReusablePolicy.ALL_ENTITIES_APPROVED) /\
       (is_approved v = true -> truthy_str (iv_owner v) = true)) /\
  (forall i j v w, values db !! i = Some v -> values db !! j = Some w -> index_key v = index_key w ->
     is_approved v = true /\ is_approved w = true \/ iv_version v = iv_version w -> i = j).
Proof.
  intros [Hk Hd Hv Ha Hn]%reachable_registry_ok. split.
  - intros i v Hi. destruct (Hv i v Hi) as (d & Hdf & Henc & Hc & Hap). exists d. split_and!; try done. by intros [? _]%Hap.
  - intros i j v w Hi Hj E [[? ?]|?]; [by eapply Ha | by eapply Hn].
Qed.

Lemma first_usable_found d c s today now l seen v fr :
  first_usable d c s today now l seen = Found v fr ->
  v ∈ l /\ usable (evaluate_reuse (reuse_input d v) c today now s) = true.
Proof.
  revert seen. induction l as [|w l IH]; intros seen; cbn [first_usable]; cbv zeta; [by destruct seen|].
  destruct (usable (evaluate_reuse (reuse_input d w) c today now s)) eqn:E.
  - intros [= -> _]. split; [left | done].
  - intros [? ?]%IH. split; [by right | done].
Qed.

Lemma first_usable_complete d c s today now l seen v :
  v ∈ l -> usable (evaluate_reuse (reuse_input d v) c today now s) = true ->
  exists w fr, first_usable d c s today now l seen = Found w fr.
Proof.
  intros Hv Hu. revert seen. induction l as [|w l IH]; intros seen; [by apply elem_of_nil in Hv|]. cbn [first_usable]. cbv zeta.
  destruct (usable (evaluate_reuse (reuse_input d w) c today now s)) eqn:E; [by eexists _, _|].
  apply IH. apply elem_of_cons in Hv as [->|?]; [by rewrite Hu in E | done].
Qed.

Lemma candidates_spec d db v :
  v ∈ candidates d db <-> (exists i, values db !! i = Some v) /\ iv_definition v = df_id d /\ iv_status v = value InformationValueStatus.APPROVED.
Proof. unfold candidates. rewrite elem_of_py_sorted, list_elem_of_filter, elem_of_rows. tauto. Qed.

(** C15. What a search finds.  A value is found exactly when the definition has one that
    may be used in the context, and the one found is such a value: approved, owned,
    reusable, of the context's legal entity (or of all of them by a recorded approval),
    of no other jurisdiction, licence, vendor or case, within its dates, fresh unless
    stale ones are asked for, and no more sensitive than the destination permits. *)
Theorem resolve_spec db k d c s today now :
  find_definition k db = Some d ->
  (forall v fr, resolve_for_use k c s today now db = Found v fr ->
     (exists i, values db !! i = Some v) /\ iv_definition v = df_id d /\ may_use (reuse_input d v) c today now s) /\
  ((exists i v, values db !! i = Some v /\ iv_definition v = df_id d /\ may_use (reuse_input d v) c today now s) ->
   exists v fr, resolve_for_use k c s today now db = Found v fr).
Proof.
  intros Hd. unfold resolve_for_use. rewrite Hd. split.
  - intros v fr [Hv Hu]%first_usable_found. apply candidates_spec in Hv as (? & ? & _).
    apply evaluate_reuse_spec in Hu. by split_and!.
  - intros (i & v & Hi & Hdf & Hm). apply (first_usable_complete d c s today now (candidates d db) [] v).
    + apply candidates_spec. split_and!; [by exists i | done | by apply mu_approved in Hm].
    + by apply evaluate_reuse_spec.
Qed.

(** The text of a restricted value is read back as JSON where it is JSON. *)
Definition as_read (s : string) : json := unwrap (match loads not_finite s with Some v => v | None => JStr s end).

Lemma dget_None {A} k (l : list (string * A)) : dget k l = None <-> k ∉ l.*1.
Proof.
  induction l as [|[k' v] l IH]; cbn; [split; [intros _; apply not_elem_of_nil | done]|].
  rewrite not_elem_of_cons. case_bool_decide; [subst; naive_solver|]. rewrite IH. tauto.
Qed.

(** C16. What a reveal makes of a proposed value.  Whatever calls come in between, and
    with any later keyring that still holds the key of the proposal, a manager who reveals
    a value gets an answer that depends on the proposed value alone.  A value that is not
    restricted comes back as it is.  Of the restricted ones, a null, boolean, integer or
    list without floats comes back up to the equality of Python; a text comes back as the
    JSON it may happen to be, which need not be a text; of an object without floats only
    its member called value comes back, and null if it has none.  [restricted_answers_change]
    shows a text and an object that are not what was proposed. *)
Theorem reveal_roundtrip k k' db who i p j nonce r db1 db2 d reader :
  (forall m n t a, aes_decrypt m n (aes_encrypt m n t a) a = Some t) ->
  reachable db -> definitions db !! i = Some d -> keyring_ok k = true -> keeps k k' ->
  propose_value py_str re_search float_text spaced sha256 hmac aes_encrypt (Some k) who i p j nonce db = Ok (r, db1) ->
  rtc step db1 db2 -> has_role (roles reader) Role.MANAGER = true ->
  (df_sensitivity d = value Sensitivity.HIGHLY_RESTRICTED -> information_highly_restricted_enabled settings = true) ->
  exists w db3, reveal_value not_finite aes_decrypt settings (Some k') j reader db2 = Ok (w, db3) /\
  (requires_encryption (df_sensitivity d) = false -> w = pr_value p) /\
  (requires_encryption (df_sensitivity d) = true -> well_keyed (pr_value p) ->
   match pr_value p with
   | JStr s => w = as_read s
   | JDict fields => is_Some (canon_of (JDict fields)) ->
                     match dget "value" fields with Some v => py_eq v w = true | None => w = JNull end
   | v => is_Some (canon_of v) -> py_eq v w = true
   end).
Proof.
  intros Haes Hr%reachable_registry_ok Hdef Hk Hkeep Hprop Hsteps Hmgr Hhigh.
  destruct (propose_ok _ _ _ _ _ _ _ _ _ _ _ _ _ _ _ _ Hr Hprop) as (Hdb1 & [Hd1 _] & _ & Hj).
  destruct (steps_ok_registry _ _ _ _ _ _ _ _ _ _ _ _ Hdb1 Hsteps) as [Hdb2 [Hd2 Hv2]].
  destruct (Hv2 j r Hj) as (x & Hx & Hcont). pose proof (Hd2 _ _ (Hd1 _ _ Hdef)) as Hdef2.
  apply propose_inv in Hprop as (d' & r0 & Hdef' & _ & _ & -> & Hp & _ & ->). rewrite Hdef in Hdef'. injection Hdef' as <-.
  apply protect_spec in Hp as (Henc & Hid & Hdf & _).
  assert (df_id d = i) as Hdi by apply (ro_definitions _ Hr _ _ Hdef).
  unfold content in Hcont. injection Hcont as E1 E2 E3 E4 E5 E6 E7.
  unfold reveal_value. rewrite Hx, E2, Hdf. cbn [iv_definition draft_value set_field]. rewrite Hdi, Hdef2, Hmgr, orb_true_r. cbn [orb].
  assert (negb (bool_decide (df_sensitivity d = value Sensitivity.HIGHLY_RESTRICTED)) ||
          information_highly_restricted_enabled settings = true) as ->.
  { case_bool_decide as Eh; [by rewrite (Hhigh Eh) | done]. }
  cbn [raise_unless]. msimpl.
  destruct (requires_encryption (df_sensitivity d)) eqn:Er.
  - destruct Henc as (_ & kr & ct & [= <-] & Hct & Hce). rewrite E5, Hct. change (default "" (Some ct)) with ct.
    assert (truthy_str (Some ct) = true) as ->.
    { unfold encrypt in Hce. apply bind_Ok_inv in Hce as (u & _ & Hce). by apply bind_Ok_inv in Hce as (m & _ & [= <-]). }
    pose proof (decrypt_encrypt float_text aes_encrypt aes_decrypt Haes k k' nonce (pr_value p) _ _ ct Hk Hkeep Hce) as Hdec.
    rewrite <-Hid in Hdec. cbn [get_cipher]. msimpl. rewrite E1. unfold decrypt_json. rewrite Hdec. msimpl.
    eexists _, _. split; [done|]. split; [done|]. intros _ Hwk.
    assert (forall c, canon_of (pr_value p) = Some c -> loads not_finite (dumps c "") = Some (json_of c) /\ py_eq (pr_value p) (json_of c) = true) as Hcan.
    { intros c Hc. destruct (canon_of_sound _ _ Hwk Hc) as [Hdk Heq]. split; [by apply loads_dumps | done]. }
    destruct (pr_value p) as [|b|n|q|s|l|fields] eqn:Ev; cbn [canonical_bytes].
    + intros [c Hc]. rewrite Hc. destruct (Hcan c Hc) as [-> Heq]. by injection Hc as <-.
    + intros [c Hc]. rewrite Hc. destruct (Hcan c Hc) as [-> Heq]. by injection Hc as <-.
    + intros [c Hc]. rewrite Hc. destruct (Hcan c Hc) as [-> Heq]. by injection Hc as <-.
    + by intros [c Hc].
    + done.
    + intros [c Hc]. rewrite Hc. destruct (Hcan c Hc) as [-> Heq]. cbn [canon_of] in Hc.
      apply fmap_Some in Hc as (m & _ & ->). rewrite json_of_list in Heq |- *. exact Heq.
    + intros [c Hc]. rewrite Hc. destruct (Hcan c Hc) as [-> Heq].
      pose proof (canon_keys fields c Hc) as (e & -> & Hkeys). rewrite json_of_dict in Heq |- *. cbn [unwrap].
      destruct (dget "value" fields) as [v|] eqn:Hnone; [by destruct (py_eq_member _ _ _ _ Heq Hnone) as (y & -> & Hy)|].
      rewrite dget_fmap. apply dget_None in Hnone. rewrite <-Hkeys in Hnone. apply dget_None in Hnone. by rewrite Hnone.
  - destruct Henc as [Hne Hpl]. rewrite E5, Hne, E6, Hpl. cbn [iv_encrypted draft_value set_field truthy_str negb andb truthy]. msimpl.
    eexists _, _. split; [done|]. split; [|done]. intros _. done.
Qed.
End Guarantees.

(** ** A small registry *)

Definition text (v : json) : string := match v with JStr s => s | _ => "" end.
Definition no_search (p s : string) : option bool := None.
Definition no_float (x : spec_float) : json := JNull.
Definition id_hash (s : string) : string := "h" +:+ s.
Definition id_hmac (k s : string) : string := k +:+ s.
Definition seal (m n t a : string) : string := t.
Definition unseal (m n t a : string) : option string := Some t.
Definition sample_settings : InfoSettings :=
  {| information_default_freshness_days := 365; information_highly_restricted_enabled := false |}.
Definition sample_keys : Keyring := {| kr_keys := [("k1", str_repeat 32 "x")]; active_key_id := "k1" |}.
(** A later keyring encrypts with another key and still holds the first. *)
Definition rotated_keys : Keyring := {| kr_keys := [("k2", str_repeat 32 "y"); ("k1", str_repeat 32 "x")]; active_key_id := "k2" |}.

Definition mia : CurrentActor := {| actor_id := "mia"; roles := [value Role.MANAGER] |}.
Definition empty_registry : InfoDb :=
  {| definitions := ∅; values := ∅; usages := []; owners := []; log := {| audits := []; notices := [] |} |}.

Definition new_definition (k category type sensitivity policy : string) : NewDefinition :=
  {| nd_key := k; nd_category := category; nd_data_type := type; nd_sensitivity := Some sensitivity; nd_rules := [];
     nd_policy := Some policy; nd_freshness_days := None; nd_keep_last := None |}.
Definition tax_id : NewDefinition := new_definition "tax_id" "CORPORATE_INFORMATION" "TEXT" "RESTRICTED" "ENTITY_ONLY".
Definition address : NewDefinition := new_definition "address" "CONTACT_INFORMATION" "ADDRESS" "RESTRICTED" "ENTITY_ONLY".
Definition bond_number : NewDefinition := new_definition "bond_number" "BOND_INFORMATION" "TEXT" "CONFIDENTIAL" "LICENSE_SPECIFIC".
Definition shares : NewDefinition := new_definition "shares" "OWNERSHIP_INFORMATION" "JSON" "RESTRICTED" "ENTITY_ONLY".

Definition after {A} (r : result exn (A * InfoDb)) (db : InfoDb) : InfoDb := match r with Ok (_, db') => db' | Err _ => db end.
Definition defined (i : uuid) (n : NewDefinition) (db : InfoDb) : InfoDb := after (create_definition sample_settings mia i n db) db.
Definition sample_definitions : InfoDb :=
  defined "d4" shares (defined "d3" bond_number (defined "d2" address (defined "d1" tax_id empty_registry))).

Definition for_licence (l : option uuid) : ValueScope :=
  {| vs_entity := Some "e"; vs_jurisdiction := Some "ca"; vs_license := l; vs_vendor := None; vs_case := None |}.
Definition answer (v : json) (l : option uuid) : Proposal :=
  {| pr_value := v; pr_scope := for_licence l; pr_valid_from := None; pr_valid_to := None; pr_owner := None |}.

Definition call_propose (d : uuid) (p : Proposal) (i : uuid) (db : InfoDb) :=
  propose_value text no_search text text id_hash id_hmac seal (Some sample_keys) mia d p i "nonce" db.
Definition call_reveal (i : uuid) (db : InfoDb) := reveal_value no_float unseal sample_settings (Some rotated_keys) i mia db.
Definition proposed (d : uuid) (p : Proposal) (i : uuid) (db : InfoDb) : InfoDb := after (call_propose d p i db) db.
Definition approved (i : uuid) (db : InfoDb) : InfoDb := after (approve_value i mia false 0 db) db.
Definition revealed (r : result exn (json * InfoDb)) : result exn json := fst <$> r.

Notation sample_step := (step text no_search text text no_float id_hash id_hmac seal unseal sample_settings).
Notation sample_reachable := (reachable text no_search text text no_float id_hash id_hmac seal unseal sample_settings).

Lemma after_ok {A} (r : result exn (A * InfoDb)) db : is_ok r = true -> exists x, r = Ok (x, after r db).
Proof. destruct r as [[x db']|]; [|done]. by exists x. Qed.

Lemma registry_reach_step db db' : sample_reachable db -> sample_step db db' -> sample_reachable db'.
Proof. intros (db0 & Hv & Hd & H) Hs. exists db0. split_and!; [done..|]. by eapply rtc_r. Qed.

Lemma reach_defined i n db :
  is_ok (create_definition sample_settings mia i n db) = true -> sample_reachable db -> sample_reachable (defined i n db).
Proof. intros H Hr. destruct (after_ok _ db H) as [x Hx]. eapply registry_reach_step; [exact Hr|]. by eapply step_definition. Qed.

Lemma reach_proposed d p i db : is_ok (call_propose d p i db) = true -> sample_reachable db -> sample_reachable (proposed d p i db).
Proof. intros H Hr. destruct (after_ok _ db H) as [x Hx]. eapply registry_reach_step; [exact Hr|]. by eapply step_propose. Qed.

Lemma reach_approved i db : is_ok (approve_value i mia false 0 db) = true -> sample_reachable db -> sample_reachable (approved i db).
Proof. intros H Hr. destruct (after_ok _ db H) as [x Hx]. eapply registry_reach_step; [exact Hr|]. by eapply step_approve. Qed.

Lemma definitions_reach : sample_reachable sample_definitions.
Proof.
  unfold sample_definitions. do 4 (apply reach_defined; [vm_compute; reflexivity|]).
  exists empty_registry. by split_and!.
Qed.

Definition sample_address : json :=
  JDict [("line1", JStr "1 Main St"); ("city", JStr "Reno"); ("region", JStr "NV"); ("postal_code", JStr "89501"); ("country", JStr "US")].
Definition answered : InfoDb :=
  proposed "d2" (answer sample_address None) "v2" (proposed "d1" (answer (JStr "123456789") None) "v1" sample_definitions).

Lemma answered_reach : sample_reachable answered.
Proof.
  unfold answered. do 2 (apply reach_proposed; [vm_compute; reflexivity|]). apply definitions_reach.
Qed.

(** Restricted answers do not always come back.  The envelope holds the text itself,
    and what is opened is read as JSON: a restricted tax number proposed as text is
    revealed as an integer, and a restricted address, an object without a member called
    value, is revealed as null. *)
Theorem restricted_answers_change :
  sample_reachable answered /\
  revealed (call_reveal "v1" answered) = Ok (JInt 123456789) /\ revealed (call_reveal "v2" answered) = Ok JNull.
Proof. split; [exact answered_reach | by vm_compute]. Qed.

(** Two licences of one entity in one jurisdiction. *)
Definition two_licences : InfoDb :=
  proposed "d3" (answer (JStr "B-2") (Some "l2")) "w2" (proposed "d3" (answer (JStr "B-1") (Some "l1")) "w1" sample_definitions).
Definition use_for (l : uuid) : UsageContext :=
  {| uc_entity := "e"; uc_jurisdiction := Some "ca"; uc_license := Some l; uc_vendor := None; uc_case := None;
     max_sensitivity := "HIGHLY_RESTRICTED" |}.
Definition found_for (l : uuid) (db : InfoDb) : option uuid + list ReuseRejection :=
  match resolve_for_use "bond_number" (use_for l) false 1 0 db with
  | Found v _ => inl (Some (iv_id v)) | Rejected _ all => inr all | _ => inl None end.

(** An approval for one licence displaces the answer of another.  A definition whose
    values are licence-specific keeps one approved value for a legal entity and a
    jurisdiction: approving the value of a second licence supersedes that of the first,
    which is then not found any more. *)
Theorem licence_answer_displaced :
  sample_reachable (approved "w2" (approved "w1" two_licences)) /\
  found_for "l1" (approved "w1" two_licences) = inl (Some "w1") /\
  found_for "l1" (approved "w2" (approved "w1" two_licences)) = inr [WRONG_LICENSE].
Proof.
  split; [|by vm_compute]. do 2 (apply reach_approved; [vm_compute; reflexivity|]).
  unfold two_licences. do 2 (apply reach_proposed; [vm_compute; reflexivity|]). apply definitions_reach.
Qed.

(** ** The properties on the sample *)

Lemma registry_consistent_witness :
  match values answered !! "v1" with
  | Some v => iv_plain v = None
  | None => False
  end.
Proof.
  destruct (values answered !! "v1") as [v|] eqn:E; [|by vm_compute in E].
  destruct (registry_consistent text no_search text text no_float id_hash id_hmac seal unseal sample_settings answered answered_reach) as [H _].
  destruct (H "v1" v E) as (d & Hd & Henc & _).
  assert (option_map df_sensitivity (definitions answered !! default "" (iv_definition <$> values answered !! "v1")) = Some "RESTRICTED") as Hs
    by (vm_compute; reflexivity).
  rewrite E in Hs. change (option_map df_sensitivity (definitions answered !! iv_definition v) = Some "RESTRICTED") in Hs.
  rewrite Hd in Hs. injection Hs as Hs. rewrite Hs in Henc. by destruct Henc.
Defined.

Lemma resolve_spec_witness :
  exists d, find_definition "bond_number" (approved "w1" two_licences) = Some d /\
  exists v, resolve_for_use "bond_number" (use_for "l1") false 1 0 (approved "w1" two_licences) = Found v "FRESH" /\
    may_use (reuse_input d v) (use_for "l1") 1 0 false.
Proof.
  destruct (find_definition "bond_number" (approved "w1" two_licences)) as [d|] eqn:Ed; [|by vm_compute in Ed].
  destruct (resolve_for_use "bond_number" (use_for "l1") false 1 0 (approved "w1" two_licences)) as [v fr| | |] eqn:Er;
    [|by vm_compute in Er..].
  exists d. split; [reflexivity|]. exists v.
  assert (match resolve_for_use "bond_number" (use_for "l1") false 1 0 (approved "w1" two_licences) with Found _ f => f | _ => "" end = "FRESH") as Hf
    by (vm_compute; reflexivity).
  rewrite Er in Hf. subst fr. split; [reflexivity|].
  by destruct (proj1 (resolve_spec _ _ _ _ _ _ _ Ed) v "FRESH" Er) as (_ & _ & H).
Defined.

Definition holdings : json := JList [JInt 60; JInt 40].

Lemma reveal_roundtrip_witness :
  match call_propose "d4" (answer holdings None) "v4" sample_definitions with
  | Ok (_, db) => exists w db3, call_reveal "v4" db = Ok (w, db3) /\ py_eq holdings w = true
  | Err _ => False
  end.
Proof.
  destruct (call_propose "d4" (answer holdings None) "v4" sample_definitions) as [[r db1]|e] eqn:E; [|by vm_compute in E].
  destruct (definitions sample_definitions !! "d4") as [d|] eqn:Ed; [|by vm_compute in Ed].
  assert (option_map df_sensitivity (definitions sample_definitions !! "d4") = Some "RESTRICTED") as Hs by (vm_compute; reflexivity).
  rewrite Ed in Hs. injection Hs as Hs.
  destruct (reveal_roundtrip text no_search text text no_float id_hash id_hmac seal unseal sample_settings sample_keys rotated_keys
    sample_definitions mia "d4" (answer holdings None) "v4" "nonce" r db1 db1 d mia) as (w & db3 & Hw & _ & Hq).
  - reflexivity.
  - exact definitions_reach.
  - exact Ed.
  - vm_compute. reflexivity.
  - reflexivity.
  - exact E.
  - apply rtc_refl.
  - reflexivity.
  - rewrite Hs. intros H. discriminate H.
  - exists w, db3. split; [exact Hw|]. apply Hq; [rewrite Hs; reflexivity | by split_and! | by eexists].
Defined.
