(* ===== verification/PortalPolicy.v ===== *)
(** * Portal governance and action policy ([app/portals/policies.py], [validation.py],
      [snapshots.py], [discrepancies.py], [app/browser/security.py], [actions.py])

    When a portal's approval and an operator's authorization are current, which actions
    assistance may take, which locator contracts and URLs are accepted, and how fields
    are compared.  Host names are resolved by the network: [getaddrinfo] gives the
    addresses, [public_address] what [ipaddress] says of one. *)
From Stdlib Require Import Ascii.
From stdpp Require Import pretty.
From S2P Require Import Prelude Terms PyDate PyJson Scoping PyUrl Regex.
Open Scope Z_scope.

Notation uuid := string.

(** ** Vocabulary *)

Definition AUTOMATION_LEVEL_RANK : list (string * Z) :=
  [(value AutomationLevel.PREPARE_ONLY, 0); (value AutomationLevel.NAVIGATION_ASSIST, 1);
   (value AutomationLevel.ASSISTED_ENTRY, 2); (value AutomationLevel.UPLOAD_ASSIST, 3);
   (value AutomationLevel.PRE_SUBMISSION_ASSIST, 4); (value AutomationLevel.API_ASSISTED, 5)].

Definition APPROVED_PORTAL_STATUSES : list string :=
  value <$> [PortalApprovalStatus.APPROVED_PREPARE_ONLY; PortalApprovalStatus.APPROVED_ASSISTED;
             PortalApprovalStatus.APPROVED_API].

Definition ACTIVE_BROWSER_SESSION_STATUSES : list string :=
  value <$> [BrowserSessionStatus.REQUESTED; BrowserSessionStatus.STARTING; BrowserSessionStatus.ACTIVE_AUTOMATION;
             BrowserSessionStatus.ACTIVE_HUMAN_CONTROL; BrowserSessionStatus.PAUSED].

Definition ABSOLUTELY_PROHIBITED_ACTIONS : list string :=
  ["ACCEPT_TERMS"; "ENTER_MFA"; "SOLVE_CAPTCHA"; "ATTEST"; "SIGN"; "ENTER_PAYMENT_CREDENTIALS"; "AUTHORIZE_PAYMENT";
   "FINAL_SUBMIT"].

Definition ACTION_MINIMUM_LEVEL : list (string * AutomationLevel.AutomationLevel) :=
  [("NAVIGATE", AutomationLevel.NAVIGATION_ASSIST); ("ENTER_FIELD", AutomationLevel.ASSISTED_ENTRY);
   ("UPLOAD_DOCUMENT", AutomationLevel.UPLOAD_ASSIST); ("SAVE_DRAFT", AutomationLevel.ASSISTED_ENTRY);
   ("VALIDATE", AutomationLevel.PRE_SUBMISSION_ASSIST);
   ("CAPTURE_PRE_SUBMISSION", AutomationLevel.PRE_SUBMISSION_ASSIST)].

(** ** Decisions *)

Record PolicyDecision := { pd_allowed : bool; pd_reason : string }.
Definition deny (r : string) : PolicyDecision := {| pd_allowed := false; pd_reason := r |}.
Definition permit (r : string) : PolicyDecision := {| pd_allowed := true; pd_reason := r |}.

(** A time that is set and not after [now]. *)
Definition reached (t : option instant) (now : instant) : bool := match t with Some t => t <=? now | None => false end.

Definition approval_is_current (portal_status review_status : string) (valid_from valid_to terms_expires_at : option instant)
    (now : instant) : PolicyDecision :=
  if negb (bool_decide (portal_status ∈ APPROVED_PORTAL_STATUSES)) then
    deny ("Portal status " +:+ portal_status +:+ " does not permit assistance.")
  else if negb (bool_decide (review_status = value PortalReviewStatus.APPROVED)) then deny "Portal review is not approved."
  else if match valid_from with Some f => now <? f | None => false end then deny "Portal review is not yet valid."
  else if reached valid_to now then deny "Portal review has expired."
  else if reached terms_expires_at now then deny "Portal terms review has expired."
  else permit "Portal approval and review are current.".

(** An empty list restricts nothing. *)
Definition restricted {A} `{EqDecision A} (x : A) (l : list A) : bool :=
  negb (bool_decide (l = [])) && negb (bool_decide (x ∈ l)).

Definition authorization_is_current (status : string) (expires_at : option instant) (filing_type legal_entity_id : string)
    (authorized_filing_types authorized_entity_ids : list string) (now : instant) : PolicyDecision :=
  if negb (bool_decide (status = value AuthorizationStatus.ACTIVE)) then deny "Operator authorization is not active."
  else if reached expires_at now then deny "Operator authorization has expired."
  else if restricted filing_type authorized_filing_types then deny "Operator is not authorized for this filing type."
  else if restricted legal_entity_id authorized_entity_ids then deny "Operator is not authorized for this legal entity."
  else permit "Operator authorization is current.".

(** [bool(d.get(k))]. *)
Definition flag (k : string) (d : list (string * json)) : bool := match dget k d with Some v => truthy v | None => false end.

Definition rank (level : string) : Z := default (-1) (dget level AUTOMATION_LEVEL_RANK).

Definition action_is_allowed (action run_level portal_level : string) (allowed_actions prohibited_actions : list (string * json))
    (human_only : bool) : PolicyDecision :=
  let a := str_upper action in
  if bool_decide (a ∈ ABSOLUTELY_PROHIBITED_ACTIONS) then deny (a +:+ " is always human-only.")
  else if human_only then deny "The field or action is marked human-only."
  else if flag a prohibited_actions then deny ("Portal review prohibits " +:+ a +:+ ".")
  else if negb (bool_decide (allowed_actions = [])) && negb (flag a allowed_actions) then
    deny ("Portal review does not explicitly allow " +:+ a +:+ ".")
  else if match dget a ACTION_MINIMUM_LEVEL with
          | Some l => Z.min (rank run_level) (rank portal_level) <? rank (value l)
          | None => false
          end then deny (a +:+ " exceeds the approved automation level.")
  else permit (a +:+ " is within the approved assistance boundary.").

Definition portal_can_activate (status : string) : bool :=
  bool_decide (status ∉ value <$> [PortalApprovalStatus.AUTOMATION_PROHIBITED; PortalApprovalStatus.TEMPORARILY_SUSPENDED;
                                    PortalApprovalStatus.EXPIRED; PortalApprovalStatus.RETIRED]).

(** ** Fields *)

(** An entry of a discrepancy report; every one is blocking. *)
Inductive Discrepancy :=
| FieldDiscrepancy (code field_key : string)
| DocumentMissing (document_id : string)
| PortalError (message : string).

Definition compare_field (field_key : string) (approved entered : option string) (required : bool) : option Discrepancy :=
  if required && negb (truthy_str entered) then
    Some (FieldDiscrepancy (value DiscrepancyCode.FIELD_MISSING) field_key)
  else if truthy_str approved && negb (bool_decide (entered = approved)) then
    Some (FieldDiscrepancy (value DiscrepancyCode.VALUE_MISMATCH) field_key)
  else None.

(** What is shown of an entered value. *)
Definition redact_display (text : string) (sensitive : bool) : string :=
  if negb sensitive then str_take 500 text
  else if (String.length text <=? 4)%nat then "••••"
  else "••••" +:+ String.substring (String.length text - 4) 4 text.

(** ** Text of a portal *)

Definition email_local (c : ascii) : bool :=
  is_alpha c || bool_decide (c ∈ ["0"; "1"; "2"; "3"; "4"; "5"; "6"; "7"; "8"; "9"; "."; "_"; "%"; "+"; "-"]%char).
Definition email_domain (c : ascii) : bool :=
  is_alpha c || bool_decide (c ∈ ["0"; "1"; "2"; "3"; "4"; "5"; "6"; "7"; "8"; "9"; "."; "-"]%char).
Definition _EMAIL : re :=
  seqs [WordB; Plus (Cls email_local); ch "@"; Plus (Cls email_domain); ch "."; times 2 (Cls is_alpha);
        Star (Cls is_alpha); WordB].

Definition is_digit (c : ascii) : bool := let n := N_of_ascii c in ((48 <=? n) && (n <=? 57))%N.
Definition number_char (c : ascii) : bool := is_digit c || is_space c || bool_decide (c ∈ ["("; ")"; "."; "-"]%char).
Definition _LONG_NUMBER : re :=
  seqs [NotAfterWord; Cls is_digit; times 2 (Cls number_char); Star (Cls number_char); Cls is_digit; NotBeforeWord].

Definition sanitize_portal_message (text : string) : string :=
  str_take 1000 (re_sub _LONG_NUMBER "[REDACTED_NUMBER]" (re_sub _EMAIL "[REDACTED_EMAIL]" text)).

(** ** Locator contracts *)

Section Contracts.
Context (py_str : json -> string).

Definition _FORBIDDEN_LOCATOR_FRAGMENTS : list string := ["nth-child"; "nth-of-type"; "xpath="; ">>"].

Definition safe_name_char (c : ascii) : bool :=
  is_alpha c || is_digit c || bool_decide (c ∈ ["_"; "."; ":"; "-"]%char).
Definition _SAFE_NAME : re := seqs [Bol; Cls is_alpha; upto 127 (Cls safe_name_char); Eol].

Definition _LOCATOR_KEYS : list string :=
  ["fingerprint"; "locator"; "validation_locator"; "uploaded_file_locator"; "confirmation_locator"; "currency_locator";
   "fee_amount_locator"; "attestation_text_locator"].
Definition _LOCATOR_MAP_KEYS : list string := ["locators"; "upload_locators"].

Fixpoint count_char (c : ascii) (s : string) : nat :=
  match s with "" => O | String x s => (if bool_decide (x = c) then 1 else 0) + count_char c s end%nat.

(** [str(d.get(k, ""))]. *)
Definition get_text (k : string) (d : list (string * json)) : string :=
  match dget k d with Some v => text_of py_str v | None => "" end.

(** Every refusal is a [StateConflictError]. *)
Definition locator_ok (locator : json) : bool :=
  match locator with
  | JDict d =>
      let strategy := get_text "strategy" d in
      let v := get_text "value" d in
      bool_decide (strategy ∈ ["role"; "test_id"; "name"; "label"; "css"]) &&
      negb (bool_decide (v = "")) &&
      negb (existsb (fun f => is_infix f (str_lower v)) _FORBIDDEN_LOCATOR_FRAGMENTS) &&
      (negb (bool_decide (strategy = "name")) || fullmatch _SAFE_NAME v) &&
      (negb (bool_decide (strategy = "css")) || ((count_char ">" v <=? 2) && (String.length v <=? 160))%nat)
  | _ => false
  end.

Fixpoint nested_ok (v : json) : bool :=
  match v with
  | JDict d =>
      (fix go (d : list (string * json)) := match d with
         | [] => true
         | (k, x) :: d =>
             (if bool_decide (k ∈ _LOCATOR_KEYS) then locator_ok x
              else if bool_decide (k ∈ _LOCATOR_MAP_KEYS) then
                match x with JDict m => forallb (fun kv => locator_ok kv.2) m | _ => false end
              else match x with JDict _ => nested_ok x | _ => true end) && go d
         end) d
  | _ => true
  end.

Definition page_ok (page : json) : bool :=
  match page with
  | JDict p =>
      match dget "fingerprint" p, default (JDict []) (dget "locators" p) with
      | Some (JDict _), JDict locators => forallb (fun kv => locator_ok kv.2) locators && nested_ok page
      | _, _ => false
      end
  | _ => false
  end.

Definition validate_locator_contract (contract : list (string * json)) : result exn unit :=
  raise_unless (negb (bool_decide (contract = [])) && forallb (fun kv => page_ok kv.2) contract) StateConflictError.

(** ** Observations *)

Definition sensitive_words : list re :=
  [liti "password"; liti "passwd"; liti "otp"; liti "mfa"; liti "cookie"; liti "authorization";
   seqs [liti "access"; Opt dot; liti "token"]; liti "localstorage"; liti "sessionstorage"; liti "card";
   seqs [liti "bank"; Opt dot; liti "account"]].
Definition _SENSITIVE_KEY : re := alts sensitive_words.

(** [depth] is six less the depth; a dict comprehension keeps the last value of a key. *)
Fixpoint sanitize_observation (depth : nat) (v : json) : json :=
  match depth with
  | O => JStr "[TRUNCATED]"
  | S depth =>
      match v with
      | JDict d =>
          JDict (foldl (fun acc kv => dset (str_take 80 kv.1)
                   (if search _SENSITIVE_KEY kv.1 then JStr "[REDACTED]" else sanitize_observation depth kv.2) acc)
                 [] (take 100 d))
      | JList l => JList (sanitize_observation depth <$> take 100 l)
      | JStr s => JStr (str_take 1000 s)
      | _ => v
      end
  end.
End Contracts.

(** ** URLs *)

Section Urls.
Context (bracketed_ok : string -> bool).
(** The addresses of a host, or none when it does not resolve; what is public. *)
Context (getaddrinfo : string -> option (list string)) (public_address : string -> bool).

Definition local_hosts : list string := ["localhost"; "127.0.0.1"; "::1"].
Definition host_text (h : string) : string := rstrip_char "." (str_lower h).

Definition resolves_public (h : string) : result exn unit :=
  match getaddrinfo h with
  | None => Err StateConflictError
  | Some l => raise_unless (forallb public_address l) StateConflictError
  end.

Definition validate_portal_url (base_url : string) (allowed_hosts : list string) (resolve_public : bool)
    : result exn (string * string) :=
  u ← urlparse bracketed_ok base_url;
  let local_test := bool_decide (scheme u = "http") &&
    match hostname u with Some h => bool_decide (h ∈ local_hosts) | None => false end &&
    existsb (fun h => bool_decide (h ∈ local_hosts)) allowed_hosts in
  match hostname u with
  | None => Err StateConflictError
  | Some h =>
      _ ← raise_unless (bool_decide (scheme u = "https") || local_test) StateConflictError;
      let h := host_text h in
      _ ← raise_unless (bool_decide (allowed_hosts = []) || bool_decide (h ∈ host_text <$> allowed_hosts)) StateConflictError;
      _ ← (if resolve_public then resolves_public h else Ok tt);
      Ok (rstrip_char "/" (geturl u), h)
  end.

Definition assert_navigation_target (url approved_hostname : string) (allow_local_test : bool) : result exn unit :=
  u ← urlparse bracketed_ok url;
  let h := host_text (default "" (hostname u)) in
  let local := allow_local_test && bool_decide (h ∈ local_hosts) in
  _ ← raise_unless ((bool_decide (scheme u = "https") || (local && bool_decide (scheme u = "http"))) &&
                    bool_decide (h = host_text approved_hostname)) StateConflictError;
  if local then Ok tt else resolves_public h.
End Urls.

(** [assert_non_sensitive_action]. *)
Definition _PROHIBITED_KEYWORDS : list string :=
  ["submit"; "attest"; "signature"; "payment"; "captcha"; "mfa"; "otp"; "terms"].
Definition assert_non_sensitive_action (action_key : string) : result exn unit :=
  raise_unless (negb (existsb (fun k => is_infix k (str_lower action_key)) _PROHIBITED_KEYWORDS)) StateConflictError.

(** ** What the policy guarantees *)

(** No decision allows an action that is reserved to people. *)
Lemma prohibited_denied action run portal allowed prohibited h :
  str_upper action ∈ ABSOLUTELY_PROHIBITED_ACTIONS ->
  pd_allowed (action_is_allowed action run portal allowed prohibited h) = false.
Proof. intros H. unfold action_is_allowed. by rewrite bool_decide_eq_true_2. Qed.

Lemma action_allowed_inv action run portal allowed prohibited h :
  pd_allowed (action_is_allowed action run portal allowed prohibited h) = true ->
  str_upper action ∉ ABSOLUTELY_PROHIBITED_ACTIONS /\ h = false /\ flag (str_upper action) prohibited = false /\
  (allowed = [] \/ flag (str_upper action) allowed = true) /\
  (forall l, dget (str_upper action) ACTION_MINIMUM_LEVEL = Some l ->
     rank (value l) <= rank run /\ rank (value l) <= rank portal).
Proof.
  unfold action_is_allowed. set (a := str_upper action). intros H.
  destruct (bool_decide (a ∈ ABSOLUTELY_PROHIBITED_ACTIONS)) eqn:Ea; [done|]. apply bool_decide_eq_false in Ea.
  destruct h; [done|]. destruct (flag a prohibited); [done|]. split_and!; try done.
  - destruct (decide (allowed = [])) as [->|Hn]; [by left|]. rewrite (bool_decide_eq_false_2 (allowed = [])) in H by done.
    destruct (flag a allowed); [by right | done].
  - intros l El. rewrite El in H. destruct (negb _ && negb _); [done|].
    destruct (Z.ltb_spec (rank run `min` rank portal) (rank (value l))); [done | lia].
Qed.

Lemma compare_field_None k approved entered required :
  compare_field k approved entered required = None <->
  (required = true -> truthy_str entered = true) /\ (truthy_str approved = true -> entered = approved).
Proof.
  unfold compare_field. destruct required, (truthy_str entered) eqn:Ee, (truthy_str approved) eqn:Ea; cbn;
    rewrite ?andb_false_r; try (case_bool_decide; cbn); split; intuition congruence.
Qed.
