(* ===== verification/PortalStore.v ===== *)
(** * Tables of portal assistance ([app/models/portal.py]) and its job queue
      ([app/repositories/portal_jobs.py])

    The rows the portal services keep, as maps by primary key (steps, jobs and evidence
    as lists in order of insertion), with the rows of other services they read.  New
    rows get the next identifier of [uuid4].  The compliance cases are the database of
    [CaseService]. *)
From Stdlib Require Import Ascii.
From stdpp Require Import pretty.
From S2P Require Import CaseService InfoRegistry PacketService.
From S2P Require Import Prelude Terms PyDate PyJson LicensingLog Roles PortalPolicy.
Open Scope Z_scope.

(** ** Governance *)

Record PortalDefinition := {
  pt_id : uuid;
  pt_key : string;
  pt_name : string;
  pt_type : string;
  pt_base_url : string;
  pt_hostname : string;
  pt_filing_types : list string;
  pt_level : string;
  pt_status : string;
  pt_mfa_model : option string;
  pt_captcha_expected : bool;
  pt_terms_required : bool;
  pt_terms_expires_at : option instant;
  pt_verified_at : option instant
}.
Instance eta_portal : Eta PortalDefinition := fun p =>
  {| pt_id := pt_id p; pt_key := pt_key p; pt_name := pt_name p; pt_type := pt_type p; pt_base_url := pt_base_url p; pt_hostname := pt_hostname p;
     pt_filing_types := pt_filing_types p; pt_level := pt_level p; pt_status := pt_status p; pt_mfa_model := pt_mfa_model p;
     pt_captcha_expected := pt_captcha_expected p; pt_terms_required := pt_terms_required p;
     pt_terms_expires_at := pt_terms_expires_at p; pt_verified_at := pt_verified_at p |}.

Record PortalReviewVersion := {
  rv_id : uuid;
  rv_portal : uuid;
  rv_version : Z;
  rv_status : string;
  rv_terms_reference : option string;
  rv_terms_sha256 : option string;
  rv_allowed : list (string * json);
  rv_prohibited : list (string * json);
  rv_filing_types : list string;
  rv_entities : list uuid;
  rv_findings : list (list (string * json));
  rv_compliance : option string;
  rv_security : option string;
  rv_approved_by : option string;
  rv_valid_from : option instant;
  rv_valid_to : option instant
}.
Instance eta_review : Eta PortalReviewVersion := fun r =>
  {| rv_id := rv_id r; rv_portal := rv_portal r; rv_version := rv_version r; rv_status := rv_status r;
     rv_terms_reference := rv_terms_reference r; rv_terms_sha256 := rv_terms_sha256 r; rv_allowed := rv_allowed r;
     rv_prohibited := rv_prohibited r; rv_filing_types := rv_filing_types r; rv_entities := rv_entities r;
     rv_findings := rv_findings r; rv_compliance := rv_compliance r; rv_security := rv_security r;
     rv_approved_by := rv_approved_by r; rv_valid_from := rv_valid_from r; rv_valid_to := rv_valid_to r |}.

Record PortalUserAuthorization := {
  ua_id : uuid;
  ua_portal : uuid;
  ua_user : uuid;
  ua_reference : option string;
  ua_role : option string;
  ua_status : string;
  ua_filing_types : list string;
  ua_entities : list uuid;
  ua_authorized_at : option instant;
  ua_expires_at : option instant;
  ua_verified_at : option instant
}.
Instance eta_authorization : Eta PortalUserAuthorization := fun a =>
  {| ua_id := ua_id a; ua_portal := ua_portal a; ua_user := ua_user a; ua_reference := ua_reference a; ua_role := ua_role a;
     ua_status := ua_status a; ua_filing_types := ua_filing_types a; ua_entities := ua_entities a;
     ua_authorized_at := ua_authorized_at a; ua_expires_at := ua_expires_at a; ua_verified_at := ua_verified_at a |}.

Record PortalAdapterVersion := {
  ad_id : uuid;
  ad_portal : uuid;
  ad_key : string;
  ad_version : Z;
  ad_status : string;
  ad_routes : list (string * json);
  ad_contract : list (string * json);
  ad_approved_by : option string;
  ad_activated_at : option instant
}.
Instance eta_adapter : Eta PortalAdapterVersion := fun a =>
  {| ad_id := ad_id a; ad_portal := ad_portal a; ad_key := ad_key a; ad_version := ad_version a; ad_status := ad_status a;
     ad_routes := ad_routes a; ad_contract := ad_contract a; ad_approved_by := ad_approved_by a;
     ad_activated_at := ad_activated_at a |}.

Record PortalFieldMapping := {
  fm_id : uuid;
  fm_adapter : uuid;
  fm_filing_type : string;
  fm_key : string;
  fm_label : option string;
  fm_source_type : string;
  fm_source_key : option string;
  fm_transformation : option string;
  fm_required : bool;
  fm_sensitivity : string;
  fm_human_only : bool;
  fm_allowed_values : option json;
  fm_rules : list (string * json);
  fm_sort_order : Z
}.

(** ** Runs *)

Record PortalRun := {
  pr_id : uuid;
  pr_portal : uuid;
  pr_review : uuid;
  pr_adapter : option uuid;
  pr_case : uuid;
  pr_entity : uuid;
  pr_license : option uuid;
  pr_form : option uuid;
  pr_packet : option uuid;
  pr_filing_type : string;
  pr_level : string;
  pr_status : string;
  pr_stage : string;
  pr_operator : option uuid;
  pr_signatory : option uuid;
  pr_payment_approver : option uuid;
  pr_earliest_start_at : option instant;
  pr_deadline_at : option instant;
  pr_started_at : option instant;
  pr_submitted_at : option instant;
  pr_completed_at : option instant;
  pr_error_code : option string;
  pr_error_message : option string;
  pr_created_by : string
}.
Instance eta_run : Eta PortalRun := fun r =>
  {| pr_id := pr_id r; pr_portal := pr_portal r; pr_review := pr_review r; pr_adapter := pr_adapter r; pr_case := pr_case r;
     pr_entity := pr_entity r; pr_license := pr_license r; pr_form := pr_form r; pr_packet := pr_packet r;
     pr_filing_type := pr_filing_type r; pr_level := pr_level r; pr_status := pr_status r; pr_stage := pr_stage r;
     pr_operator := pr_operator r; pr_signatory := pr_signatory r; pr_payment_approver := pr_payment_approver r;
     pr_earliest_start_at := pr_earliest_start_at r; pr_deadline_at := pr_deadline_at r; pr_started_at := pr_started_at r;
     pr_submitted_at := pr_submitted_at r; pr_completed_at := pr_completed_at r; pr_error_code := pr_error_code r;
     pr_error_message := pr_error_message r; pr_created_by := pr_created_by r |}.

Record BrowserSession := {
  bs_id : uuid;
  bs_run : uuid;
  bs_operator : uuid;
  bs_worker : string;
  bs_status : string;
  bs_started_at : instant;
  bs_activity_at : instant;
  bs_expires_at : instant;
  bs_closed_at : option instant;
  bs_close_reason : option string
}.
Instance eta_session : Eta BrowserSession := fun b =>
  {| bs_id := bs_id b; bs_run := bs_run b; bs_operator := bs_operator b; bs_worker := bs_worker b; bs_status := bs_status b;
     bs_started_at := bs_started_at b; bs_activity_at := bs_activity_at b; bs_expires_at := bs_expires_at b;
     bs_closed_at := bs_closed_at b; bs_close_reason := bs_close_reason b |}.

(** A validation message as [capture_validation] stores it. *)
Record PortalMessage := {
  pm_code : string;
  pm_category : string;
  pm_text : string;
  pm_blocking : bool;
  pm_field : option string
}.

Record PortalRunStep := {
  st_run : uuid;
  st_key : string;
  st_sequence : Z;
  st_type : string;
  st_status : string;
  st_mode : string;
  st_page : option string;
  st_messages : option (list PortalMessage);
  st_summary : option string;
  st_completed_at : option instant
}.

Record PortalRunField := {
  rf_id : uuid;
  rf_run : uuid;
  rf_mapping : option uuid;
  rf_key : string;
  rf_label : option string;
  rf_source_type : string;
  rf_source_id : option uuid;
  rf_approved : option string;
  rf_entered : option string;
  rf_display : option string;
  rf_status : string;
  rf_entered_by : option string;
  rf_entered_at : option instant;
  rf_verified_by : option string;
  rf_verified_at : option instant;
  rf_code : option string;
  rf_blocking : bool
}.
Instance eta_field : Eta PortalRunField := fun f =>
  {| rf_id := rf_id f; rf_run := rf_run f; rf_mapping := rf_mapping f; rf_key := rf_key f; rf_label := rf_label f;
     rf_source_type := rf_source_type f; rf_source_id := rf_source_id f; rf_approved := rf_approved f;
     rf_entered := rf_entered f; rf_display := rf_display f; rf_status := rf_status f; rf_entered_by := rf_entered_by f;
     rf_entered_at := rf_entered_at f; rf_verified_by := rf_verified_by f; rf_verified_at := rf_verified_at f;
     rf_code := rf_code f; rf_blocking := rf_blocking f |}.

Record PortalRunDocument := {
  rd_id : uuid;
  rd_run : uuid;
  rd_document : uuid;
  rd_version : uuid;
  rd_filename : string;
  rd_sha256 : string;
  rd_category : string;
  rd_status : string;
  rd_reference : option string;
  rd_display : option string;
  rd_size : option Z;
  rd_selected_by : string;
  rd_uploaded_by : option string;
  rd_uploaded_at : option instant;
  rd_verified_at : option instant;
  rd_mismatch : bool
}.
Instance eta_document : Eta PortalRunDocument := fun d =>
  {| rd_id := rd_id d; rd_run := rd_run d; rd_document := rd_document d; rd_version := rd_version d;
     rd_filename := rd_filename d; rd_sha256 := rd_sha256 d; rd_category := rd_category d; rd_status := rd_status d;
     rd_reference := rd_reference d; rd_display := rd_display d; rd_size := rd_size d; rd_selected_by := rd_selected_by d;
     rd_uploaded_by := rd_uploaded_by d; rd_uploaded_at := rd_uploaded_at d; rd_verified_at := rd_verified_at d;
     rd_mismatch := rd_mismatch d |}.

Record HumanHandoff := {
  hh_id : uuid;
  hh_run : uuid;
  hh_session : option uuid;
  hh_type : string;
  hh_status : string;
  hh_user : option uuid;
  hh_requested_at : instant;
  hh_accepted_at : option instant;
  hh_completed_at : option instant;
  hh_result : option string;
  hh_confirmation : option string;
  hh_evidence : option string;
  hh_expires_at : option instant
}.
Instance eta_handoff : Eta HumanHandoff := fun h =>
  {| hh_id := hh_id h; hh_run := hh_run h; hh_session := hh_session h; hh_type := hh_type h; hh_status := hh_status h;
     hh_user := hh_user h; hh_requested_at := hh_requested_at h; hh_accepted_at := hh_accepted_at h;
     hh_completed_at := hh_completed_at h; hh_result := hh_result h; hh_confirmation := hh_confirmation h;
     hh_evidence := hh_evidence h; hh_expires_at := hh_expires_at h |}.

(** ** Snapshots *)

Record FieldEntry := {
  fe_key : string;
  fe_source_type : string;
  fe_source_id : option uuid;
  fe_approved : option string;
  fe_entered : option string;
  fe_status : string;
  fe_human_only : bool
}.
Record DocumentEntry := {
  de_document : uuid;
  de_version : uuid;
  de_sha256 : string;
  de_filename : string;
  de_display : option string;
  de_size : option Z;
  de_status : string
}.

Record PreSubmissionSnapshot := {
  ps_id : uuid;
  ps_run : uuid;
  ps_version : Z;
  ps_form_version : option Z;
  ps_fields : list FieldEntry;
  ps_documents : list DocumentEntry;
  ps_messages : list PortalMessage;
  ps_report : list Discrepancy;
  ps_sha256 : string;
  ps_status : string;
  ps_created_by : string;
  ps_reviewed_by : option string;
  ps_reviewed_at : option instant
}.
Instance eta_snapshot : Eta PreSubmissionSnapshot := fun p =>
  {| ps_id := ps_id p; ps_run := ps_run p; ps_version := ps_version p; ps_form_version := ps_form_version p;
     ps_fields := ps_fields p; ps_documents := ps_documents p; ps_messages := ps_messages p; ps_report := ps_report p;
     ps_sha256 := ps_sha256 p; ps_status := ps_status p; ps_created_by := ps_created_by p;
     ps_reviewed_by := ps_reviewed_by p; ps_reviewed_at := ps_reviewed_at p |}.

(** ** Final actions *)

Record PortalAttestationRecord := {
  ar_id : uuid;
  ar_run : uuid;
  ar_type : string;
  ar_required_actor : option uuid;
  ar_status : string;
  ar_fingerprint : option string;
  ar_reference : option string;
  ar_completed_by : option string;
  ar_completed_at : option instant;
  ar_evidence : option string
}.
Instance eta_attestation : Eta PortalAttestationRecord := fun a =>
  {| ar_id := ar_id a; ar_run := ar_run a; ar_type := ar_type a; ar_required_actor := ar_required_actor a;
     ar_status := ar_status a; ar_fingerprint := ar_fingerprint a; ar_reference := ar_reference a;
     ar_completed_by := ar_completed_by a; ar_completed_at := ar_completed_at a; ar_evidence := ar_evidence a |}.

Record PortalPaymentRecord := {
  pp_id : uuid;
  pp_run : uuid;
  pp_status : string;
  pp_fee : option json;
  pp_currency : option string;
  pp_summary : option json;
  pp_approved_by : option string;
  pp_approved_at : option instant;
  pp_paid_by : option string;
  pp_paid_at : option instant;
  pp_reference : option string;
  pp_receipt : option uuid
}.
Instance eta_payment : Eta PortalPaymentRecord := fun p =>
  {| pp_id := pp_id p; pp_run := pp_run p; pp_status := pp_status p; pp_fee := pp_fee p; pp_currency := pp_currency p;
     pp_summary := pp_summary p; pp_approved_by := pp_approved_by p; pp_approved_at := pp_approved_at p;
     pp_paid_by := pp_paid_by p; pp_paid_at := pp_paid_at p; pp_reference := pp_reference p; pp_receipt := pp_receipt p |}.

Record SubmissionEvidence := {
  ev_id : uuid;
  ev_run : uuid;
  ev_type : string;
  ev_confirmation : option string;
  ev_filing_reference : option string;
  ev_submission_status : option string;
  ev_submitted_by : string;
  ev_submitted_at : option instant;
  ev_document : option uuid;
  ev_screenshot_uri : option string;
  ev_receipt_uri : option string;
  ev_sha256 : option string;
  ev_verified_by : string;
  ev_verified_at : instant
}.

Record PortalJob := {
  pj_id : uuid;
  pj_type : string;
  pj_run : option uuid;
  pj_session : option uuid;
  pj_status : string;
  pj_priority : Z;
  pj_key : string;
  pj_payload : list (string * json);
  pj_attempts : Z;
  pj_max_attempts : Z;
  pj_available_at : instant;
  pj_created_at : instant;
  pj_lease_owner : option string;
  pj_lease_expires_at : option instant;
  pj_started_at : option instant;
  pj_completed_at : option instant;
  pj_error_code : option string;
  pj_error_message : option string
}.
Instance eta_job : Eta PortalJob := fun j =>
  {| pj_id := pj_id j; pj_type := pj_type j; pj_run := pj_run j; pj_session := pj_session j; pj_status := pj_status j;
     pj_priority := pj_priority j; pj_key := pj_key j; pj_payload := pj_payload j; pj_attempts := pj_attempts j;
     pj_max_attempts := pj_max_attempts j; pj_available_at := pj_available_at j; pj_created_at := pj_created_at j;
     pj_lease_owner := pj_lease_owner j; pj_lease_expires_at := pj_lease_expires_at j; pj_started_at := pj_started_at j;
     pj_completed_at := pj_completed_at j; pj_error_code := pj_error_code j; pj_error_message := pj_error_message j |}.

(** ** Rows of other services *)

Record UserPrincipal := { up_tenant : string; up_object : string }.
Record FormInstance := {
  fo_case : uuid;
  fo_status : string;
  fo_signature_required : bool;
  fo_signed_document : option uuid;
  fo_version : Z
}.
Record FormFieldValue := {
  fv_id : uuid;
  fv_form : uuid;
  fv_key : string;
  fv_status : string;
  fv_plain : option string;
  fv_encrypted : option string
}.
Record GovernedDocument := {
  gd_id : uuid;
  gd_approval : string;
  gd_lifecycle : string;
  gd_current_version : option uuid;
  gd_sha256 : string;
  gd_expiry : option date
}.
Record GovernedVersion := { gv_id : uuid; gv_storage : string; gv_sha256 : string; gv_filename : string; gv_size : Z; gv_mime : string }.

(** An attribute of a source row as [getattr] returns it. *)
Inductive attr := ANone | AText (s : string) | ADate (d : date) | AJson (j : json).

Record LicenceSource := { ls_entity : uuid; ls_attrs : list (string * attr) }.

Record PortalDb := {
  portals : gmap uuid PortalDefinition;
  reviews : gmap uuid PortalReviewVersion;
  authorizations : gmap uuid PortalUserAuthorization;
  adapters : gmap uuid PortalAdapterVersion;
  mappings : gmap uuid PortalFieldMapping;
  runs : gmap uuid PortalRun;
  sessions : gmap uuid BrowserSession;
  steps : list PortalRunStep;
  fields : gmap uuid PortalRunField;
  run_documents : gmap uuid PortalRunDocument;
  handoffs : gmap uuid HumanHandoff;
  snapshots : gmap uuid PreSubmissionSnapshot;
  attestations : gmap uuid PortalAttestationRecord;
  payments : gmap uuid PortalPaymentRecord;
  evidence : list SubmissionEvidence;
  jobs : list PortalJob;
  follow_ups : list (string * uuid * instant);
  principals : gmap uuid UserPrincipal;
  legal_entities : gmap uuid (list (string * attr));
  licence_sources : gmap uuid LicenceSource;
  case_keys : gmap uuid string;
  organizations : gset uuid;
  jurisdictions : gset uuid;
  form_instances : gmap uuid FormInstance;
  form_values : list FormFieldValue;
  packets : gmap uuid PacketService.DocumentPacket;
  packet_items : list PacketService.PacketItem;
  documents : gmap uuid GovernedDocument;
  document_versions : gmap uuid GovernedVersion;
  document_links : list (uuid * uuid);
  information : InfoRegistry.InfoDb;
  case_db : CaseService.CaseDb;
  log : Log;
  next_id : nat
}.
Instance eta_portal_db : Eta PortalDb := fun db =>
  {| portals := portals db; reviews := reviews db; authorizations := authorizations db; adapters := adapters db;
     mappings := mappings db; runs := runs db; sessions := sessions db; steps := steps db; fields := fields db;
     run_documents := run_documents db; handoffs := handoffs db; snapshots := snapshots db;
     attestations := attestations db; payments := payments db; evidence := evidence db; jobs := jobs db;
     follow_ups := follow_ups db; principals := principals db; legal_entities := legal_entities db;
     licence_sources := licence_sources db; case_keys := case_keys db; organizations := organizations db;
     jurisdictions := jurisdictions db; form_instances := form_instances db; form_values := form_values db;
     packets := packets db; packet_items := packet_items db; documents := documents db;
     document_versions := document_versions db; document_links := document_links db; information := information db;
     case_db := case_db db; log := log db; next_id := next_id db |}.

(** ** Writing rows *)

Definition put_portal (p : PortalDefinition) (db : PortalDb) : PortalDb := db <| portals := <[pt_id p := p]> (portals db) |>.
Definition put_review (r : PortalReviewVersion) (db : PortalDb) : PortalDb := db <| reviews := <[rv_id r := r]> (reviews db) |>.
Definition put_authorization (a : PortalUserAuthorization) (db : PortalDb) : PortalDb :=
  db <| authorizations := <[ua_id a := a]> (authorizations db) |>.
Definition put_adapter (a : PortalAdapterVersion) (db : PortalDb) : PortalDb := db <| adapters := <[ad_id a := a]> (adapters db) |>.
Definition put_mapping (m : PortalFieldMapping) (db : PortalDb) : PortalDb := db <| mappings := <[fm_id m := m]> (mappings db) |>.
Definition put_run (r : PortalRun) (db : PortalDb) : PortalDb := db <| runs := <[pr_id r := r]> (runs db) |>.
Definition put_session (b : BrowserSession) (db : PortalDb) : PortalDb := db <| sessions := <[bs_id b := b]> (sessions db) |>.
Definition put_field (f : PortalRunField) (db : PortalDb) : PortalDb := db <| fields := <[rf_id f := f]> (fields db) |>.
Definition put_document (d : PortalRunDocument) (db : PortalDb) : PortalDb :=
  db <| run_documents := <[rd_id d := d]> (run_documents db) |>.
Definition put_handoff (h : HumanHandoff) (db : PortalDb) : PortalDb := db <| handoffs := <[hh_id h := h]> (handoffs db) |>.
Definition put_snapshot (p : PreSubmissionSnapshot) (db : PortalDb) : PortalDb :=
  db <| snapshots := <[ps_id p := p]> (snapshots db) |>.
Definition put_attestation (a : PortalAttestationRecord) (db : PortalDb) : PortalDb :=
  db <| attestations := <[ar_id a := a]> (attestations db) |>.
Definition put_payment (p : PortalPaymentRecord) (db : PortalDb) : PortalDb := db <| payments := <[pp_id p := p]> (payments db) |>.
Definition add_evidence_row (e : SubmissionEvidence) (db : PortalDb) : PortalDb := db <| evidence := evidence db ++ [e] |>.
Definition set_jobs (l : list PortalJob) (db : PortalDb) : PortalDb := db <| jobs := l |>.
Definition add_step (s : PortalRunStep) (db : PortalDb) : PortalDb := db <| steps := steps db ++ [s] |>.
Definition drawn (db : PortalDb) : PortalDb := db <| next_id := S (next_id db) |>.

Definition audit (entity i act : string) (who : option string) (db : PortalDb) : PortalDb :=
  db <| log := add_audit entity i act who (log db) |>.

(** The rows that satisfy [p]. *)
Definition where_ {A} (p : A -> bool) (t : gmap uuid A) : list A := filter (fun x => p x = true) (rows t).

(** [scalar(select(...).order_by(key.desc()))]: the first row of greatest key. *)
Definition latest {A} (key : A -> Z) (l : list A) : option A :=
  match l with [] => None | x :: l => Some (py_max_by key x l) end.

(** A principal who calls ([tenant_id], [object_id] of [CurrentActor]). *)
Record Caller := { who :> CurrentActor; tenant_id : string; object_id : string }.

Definition principal_of (c : Caller) (db : PortalDb) : option uuid :=
  head (fst <$> filter (fun kv => up_tenant kv.2 = tenant_id c /\ up_object kv.2 = object_id c) (map_to_list (principals db))).

Definition owns (c : Caller) (expected : uuid) (db : PortalDb) : bool := bool_decide (principal_of c db = Some expected).

Definition get {A} (t : gmap uuid A) (i : uuid) : result exn A :=
  match t !! i with Some x => Ok x | None => Err NotFoundError end.

(** ** The job queue *)

(** [uuid.hex]. *)
Fixpoint hex_of (s : string) : string :=
  match s with "" => "" | String c s => if bool_decide (c = "-"%char) then hex_of s else String c (hex_of s) end.

Section Jobs.
Context (uuid4 : nat -> uuid).

Record NewJob := {
  nj_type : PortalJobType.PortalJobType;
  nj_key : string;
  nj_run : option uuid;
  nj_session : option uuid;
  nj_payload : list (string * json);
  nj_max_attempts : Z
}.

Definition pending_job (i : uuid) (n : NewJob) (now : instant) : PortalJob :=
  {| pj_id := i; pj_type := value (nj_type n); pj_run := nj_run n; pj_session := nj_session n;
     pj_status := value PortalJobStatus.PENDING; pj_priority := 100; pj_key := nj_key n; pj_payload := nj_payload n;
     pj_attempts := 0; pj_max_attempts := nj_max_attempts n; pj_available_at := now; pj_created_at := now;
     pj_lease_owner := None; pj_lease_expires_at := None; pj_started_at := None; pj_completed_at := None;
     pj_error_code := None; pj_error_message := None |}.

(** One job per idempotency key, whatever its state. *)
Definition enqueue (n : NewJob) (now : instant) (db : PortalDb) : PortalDb :=
  if bool_decide (nj_key n ∈ pj_key <$> jobs db) then db
  else drawn (set_jobs (jobs db ++ [pending_job (uuid4 (next_id db)) n now]) db).

Definition job_leb (a b : PortalJob) : bool :=
  if pj_priority a =? pj_priority b then
    if pj_available_at a =? pj_available_at b then pj_created_at a <=? pj_created_at b
    else pj_available_at a <=? pj_available_at b
  else pj_priority a <=? pj_priority b.

Definition claimable (now : instant) (locked : gset uuid) (j : PortalJob) : bool :=
  bool_decide (pj_status j ∈ value <$> [PortalJobStatus.PENDING; PortalJobStatus.FAILED_RETRYABLE]) &&
  (pj_available_at j <=? now) && negb (bool_decide (pj_id j ∈ locked)).

Definition replace_job (j : PortalJob) (l : list PortalJob) : list PortalJob :=
  (fun k => if bool_decide (pj_id k = pj_id j) then j else k) <$> l.

Definition claimed (worker : string) (lease_seconds : Z) (now : instant) (j : PortalJob) : PortalJob :=
  j <| pj_status := value PortalJobStatus.RUNNING |> <| pj_lease_owner := Some worker |>
    <| pj_lease_expires_at := Some (now + lease_seconds * 1000000) |>
    <| pj_started_at := Some (default now (pj_started_at j)) |> <| pj_attempts := pj_attempts j + 1 |>.

(** Rows another worker has locked are skipped. *)
Definition claim_next (worker : string) (lease_seconds : Z) (locked : gset uuid) (now : instant) (l : list PortalJob)
    : option PortalJob * list PortalJob :=
  match head (py_sorted job_leb (filter (fun j => claimable now locked j = true) l)) with
  | None => (None, l)
  | Some j => let j := claimed worker lease_seconds now j in (Some j, replace_job j l)
  end.

Definition released (s : PortalJobStatus.PortalJobStatus) (j : PortalJob) : PortalJob :=
  j <| pj_status := value s |> <| pj_lease_owner := None |> <| pj_lease_expires_at := None |>.

Definition mark_completed (j : PortalJob) (now : instant) : PortalJob :=
  released PortalJobStatus.COMPLETED j <| pj_completed_at := Some now |>.
Definition mark_waiting_human (j : PortalJob) : PortalJob := released PortalJobStatus.WAITING_HUMAN j.

(** [min(300, 5 * 2 ** min(attempts, 6))] seconds. *)
Definition retry_seconds (attempts : Z) : Z := Z.min 300 (5 * 2 ^ Z.min attempts 6).

Definition record_failure (j : PortalJob) (code message : string) (retryable : bool) (now : instant) : PortalJob :=
  let j := j <| pj_error_code := Some (str_take 120 code) |> <| pj_error_message := Some (str_take 500 message) |> in
  if retryable && (pj_attempts j <? pj_max_attempts j) then
    released PortalJobStatus.FAILED_RETRYABLE j <| pj_available_at := now + retry_seconds (pj_attempts j) * 1000000 |>
  else released PortalJobStatus.FAILED_REVIEW j.

Definition lease_lapsed (now : instant) (j : PortalJob) : bool :=
  bool_decide (pj_status j = value PortalJobStatus.RUNNING) &&
  match pj_lease_expires_at j with Some t => t <? now | None => false end.

Definition recover_expired_leases (now : instant) (l : list PortalJob) : list PortalJob :=
  (fun j => if lease_lapsed now j then released PortalJobStatus.FAILED_RETRYABLE j <| pj_available_at := now |> else j) <$> l.

Definition cancel_pending_for_run (run : uuid) (l : list PortalJob) : list PortalJob :=
  (fun j => if bool_decide (pj_run j = Some run) &&
               bool_decide (pj_status j ∈ value <$> [PortalJobStatus.PENDING; PortalJobStatus.FAILED_RETRYABLE;
                                                      PortalJobStatus.WAITING_HUMAN])
            then j <| pj_status := value PortalJobStatus.CANCELLED |> else j) <$> l.
End Jobs.
