(* ===== verification/PortalGovernance.v ===== *)
(** * Portal governance ([app/services/portal_governance_service.py],
      [app/portals/registry.py])

    Registration and review of portals, adapters and their field mappings, and the
    authorization of operators.  One flush writes every changed row of a table;
    [written_first i j] says that it writes row [i] before row [j], which matters where
    a unique index allows one active row. *)
From Stdlib Require Import Ascii.
From stdpp Require Import pretty.
From S2P Require Import Prelude Terms PyDate PyJson Regex Roles PortalPolicy PortalStore.
Open Scope Z_scope.

Record PortalSettings := {
  portal_allowed_hosts : list string;
  portal_default_automation_level : string;
  portal_automation_enabled : bool;
  browser_automation_enabled : bool;
  portal_terms_review_max_age_days : Z;
  browser_session_max_minutes : Z;
  browser_inactivity_timeout_minutes : Z;
  portal_upload_max_files : Z;
  portal_upload_max_total_bytes : Z;
  portal_upload_allowed_mime_types : list string;
  app_env : string
}.

(** [(scalar(select(func.max(version)).where(...)) or 0) + 1]. *)
Definition next_version (l : list Z) : Z := foldr Z.max 0 l + 1.

Definition _SECRET_PATTERN : re :=
  seqs [alts [liti "password"; liti "passwd"; liti "secret"; liti "otp"; liti "mfa"; liti "cookie"; liti "bearer";
              seqs [liti "access"; Opt dot; liti "token"]];
        Star space; Cls (fun c => bool_decide (c ∈ [":"; "="]%char))].

Definition _HUMAN_ONLY_SOURCE_TYPES : list string :=
  value <$> [PortalFieldSourceType.ATTESTATION; PortalFieldSourceType.SIGNATURE; PortalFieldSourceType.PAYMENT;
             PortalFieldSourceType.MANUAL_OPERATOR_INPUT].

(** The keys of [_ADAPTERS]; constructing an adapter raises nothing. *)
Definition _ADAPTERS : list string :=
  ["generic-assisted"; "nmls-assisted"; "state-portal-assisted"; "vendor-portal-assisted"].
Definition build_adapter (key : string) : result exn unit := raise_unless (bool_decide (key ∈ _ADAPTERS)) StateConflictError.

Definition _validate_official_api_routes (routes : list (string * json)) : result exn unit :=
  let keys := String.concat " " (str_lower <$> routes.*1) in
  _ ← raise_unless (negb (bool_decide (routes = []))) StateConflictError;
  raise_unless (negb (existsb (fun w => is_infix w keys)
    ["submit"; "attest"; "payment"; "signature"; "terms"; "captcha"; "mfa"])) StateConflictError.

Definition is_active_review (portal : uuid) (r : PortalReviewVersion) : bool :=
  bool_decide (rv_portal r = portal) && bool_decide (rv_status r = value PortalReviewStatus.APPROVED).
Definition active_review (portal : uuid) (db : PortalDb) : option PortalReviewVersion :=
  head (where_ (is_active_review portal) (reviews db)).

Section Governance.
Context (uuid4 : nat -> uuid) (py_str : json -> string) (written_first : uuid -> uuid -> bool).
Context (bracketed_ok : string -> bool).
Context (getaddrinfo : string -> option (list string)) (public_address : string -> bool).
Context (settings : PortalSettings).

Definition audited (entity i act : string) (c : Caller) (db : PortalDb) : PortalDb := audit entity i act (Some (actor_id c)) db.

(** ** Portals *)

Record NewPortal := {
  np_key : string;
  np_type : string;
  np_base_url : string;
  np_organization : option uuid;
  np_jurisdiction : option uuid;
  np_level : string;
  np_credential_model : string
}.

Definition known (s : gset uuid) (o : option uuid) : bool :=
  match o with Some i => bool_decide (i ∈ s) | None => true end.

(** [fields] still holds [base_url] when it is unpacked beside [base_url=base_url]:
    Python refuses the call. *)
Definition create_portal (n : NewPortal) (db : PortalDb) : result exn (PortalDefinition * PortalDb) :=
  _ ← validate_portal_url bracketed_ok getaddrinfo public_address (np_base_url n) (portal_allowed_hosts settings) false;
  _ ← raise_unless (is_value (A := PortalType.PortalType) (np_type n) &&
                    is_value (A := AutomationLevel.AutomationLevel) (np_level n) &&
                    is_value (A := CredentialModel.CredentialModel) (np_credential_model n)) StateConflictError;
  _ ← raise_unless (negb (existsb (fun p => bool_decide (pt_key p = np_key n)) (rows (portals db)))) StateConflictError;
  _ ← raise_unless (known (organizations db) (np_organization n)) NotFoundError;
  _ ← raise_unless (known (jurisdictions db) (np_jurisdiction n)) NotFoundError;
  Err TypeError.

(** A field left out, or given (perhaps as null). *)
Record PortalChanges := {
  pc_name : option (option string);
  pc_filing_types : option (option (list string));
  pc_level : option (option string);
  pc_status : option (option string);
  pc_mfa_model : option (option string);
  pc_captcha_expected : option (option bool);
  pc_terms_required : option (option bool);
  pc_terms_expires_at : option (option instant)
}.

(** [setattr] for a column that is not nullable: a null fails at the flush. *)
Definition assigned {A} (old : A) (change : option (option A)) : result exn A :=
  match change with None => Ok old | Some (Some x) => Ok x | Some None => Err IntegrityError end.

Definition valid_change {A} `{StrEnum A} (change : option (option string)) : bool :=
  match change with None => true | Some (Some s) => is_value (A := A) s | Some None => false end.

Definition enables (change : option (option string)) : bool :=
  match change with
  | Some (Some s) => bool_decide (s ∈ value <$> [PortalApprovalStatus.APPROVED_ASSISTED; PortalApprovalStatus.APPROVED_API])
  | _ => false
  end.

Definition update_portal (i : uuid) (c : Caller) (ch : PortalChanges) (db : PortalDb) : result exn (PortalDefinition * PortalDb) :=
  p ← get (portals db) i;
  _ ← raise_unless (valid_change (A := AutomationLevel.AutomationLevel) (pc_level ch)) StateConflictError;
  _ ← raise_unless (valid_change (A := PortalApprovalStatus.PortalApprovalStatus) (pc_status ch)) StateConflictError;
  _ ← raise_unless (negb (enables (pc_status ch)) || truthy_opt (active_review i db)) StateConflictError;
  name ← assigned (pt_name p) (pc_name ch);
  filing_types ← assigned (pt_filing_types p) (pc_filing_types ch);
  level ← assigned (pt_level p) (pc_level ch);
  status ← assigned (pt_status p) (pc_status ch);
  captcha ← assigned (pt_captcha_expected p) (pc_captcha_expected ch);
  required ← assigned (pt_terms_required p) (pc_terms_required ch);
  let p := p <| pt_name := name |> <| pt_filing_types := filing_types |> <| pt_level := level |> <| pt_status := status |>
             <| pt_captcha_expected := captcha |> <| pt_terms_required := required |>
             <| pt_mfa_model := default (pt_mfa_model p) (pc_mfa_model ch) |>
             <| pt_terms_expires_at := default (pt_terms_expires_at p) (pc_terms_expires_at ch) |> in
  Ok (p, audited "portal_definition" i "portal_updated" c (put_portal p db)).

(** ** Reviews *)

Record NewReview := {
  nr_terms_reference : option string;
  nr_terms_sha256 : option string;
  nr_allowed : list (string * json);
  nr_prohibited : list (string * json);
  nr_filing_types : list string;
  nr_entities : list uuid;
  nr_findings : list (list (string * json));
  nr_valid_from : option instant;
  nr_valid_to : option instant
}.

Definition create_review (i : uuid) (c : Caller) (n : NewReview) (now : instant) (db : PortalDb)
    : result exn (PortalReviewVersion * PortalDb) :=
  p ← get (portals db) i;
  let valid_to := default (now + portal_terms_review_max_age_days settings * 86400000000) (nr_valid_to n) in
  _ ← raise_unless (match nr_valid_from n with Some f => f <? valid_to | None => true end) StateConflictError;
  let r := {| rv_id := uuid4 (next_id db); rv_portal := i;
              rv_version := next_version (rv_version <$> where_ (fun r => bool_decide (rv_portal r = i)) (reviews db));
              rv_status := value PortalReviewStatus.DRAFT; rv_terms_reference := nr_terms_reference n;
              rv_terms_sha256 := nr_terms_sha256 n; rv_allowed := nr_allowed n; rv_prohibited := nr_prohibited n;
              rv_filing_types := nr_filing_types n; rv_entities := nr_entities n; rv_findings := nr_findings n;
              rv_compliance := None; rv_security := None; rv_approved_by := None; rv_valid_from := nr_valid_from n;
              rv_valid_to := Some valid_to |} in
  let p := p <| pt_status := value PortalApprovalStatus.REVIEW_PENDING |> in
  Ok (r, audited "portal_review_version" (rv_id r) "portal_review_created" c (put_portal p (put_review r (drawn db)))).

Definition record_review_signoff (i : uuid) (c : Caller) (review_domain : string) (db : PortalDb)
    : result exn (PortalReviewVersion * PortalDb) :=
  r ← get (reviews db) i;
  _ ← raise_unless (bool_decide (rv_status r = value PortalReviewStatus.DRAFT)) StateConflictError;
  r ← (if bool_decide (review_domain = "compliance") then Ok (r <| rv_compliance := Some (actor_id c) |>)
       else if bool_decide (review_domain = "security") then Ok (r <| rv_security := Some (actor_id c) |>)
       else Err StateConflictError);
  Ok (r, audited "portal_review_version" i ("portal_review_" +:+ review_domain +:+ "_signed_off") c (put_review r db)).

Definition unresolved (f : list (string * json)) : bool :=
  negb (bool_decide (str_upper (match dget "status" f with Some v => text_of py_str v | None => "OPEN" end)
                     ∈ ["RESOLVED"; "ACCEPTED"])).

(** What approval asks of a draft. *)
Definition review_ready (p : PortalDefinition) (r : PortalReviewVersion) : bool :=
  (negb (pt_terms_required p) || (truthy_str (rv_terms_reference r) && truthy_str (rv_terms_sha256 r))) &&
  truthy_str (rv_compliance r) && truthy_str (rv_security r) &&
  negb (existsb unresolved (rv_findings r)) &&
  forallb (fun a => flag a (rv_prohibited r)) ABSOLUTELY_PROHIBITED_ACTIONS &&
  negb (existsb (fun a => flag a (rv_allowed r)) ABSOLUTELY_PROHIBITED_ACTIONS).

Definition approved_status (level : string) : string :=
  if bool_decide (level = value AutomationLevel.PREPARE_ONLY) then value PortalApprovalStatus.APPROVED_PREPARE_ONLY
  else if bool_decide (level = value AutomationLevel.API_ASSISTED) then value PortalApprovalStatus.APPROVED_API
  else value PortalApprovalStatus.APPROVED_ASSISTED.

(** The flush breaks [uq_portal_review_active] or [uq_portal_adapter_active] when it
    writes the newly active row before the one that gives way. *)
Definition swap_ok (current : option uuid) (i : uuid) : bool :=
  match current with Some j => bool_decide (j = i) || written_first j i | None => true end.

Definition approve_review (i : uuid) (c : Caller) (now : instant) (db : PortalDb) : result exn (PortalReviewVersion * PortalDb) :=
  r ← get (reviews db) i;
  _ ← raise_unless (bool_decide (rv_status r = value PortalReviewStatus.DRAFT)) StateConflictError;
  p ← get (portals db) (rv_portal r);
  _ ← raise_unless (review_ready p r) StateConflictError;
  let current := active_review (pt_id p) db in
  _ ← raise_unless (swap_ok (rv_id <$> current) i) IntegrityError;
  let db := match current with
            | Some k => if bool_decide (rv_id k = i) then db
                        else put_review (k <| rv_status := value PortalReviewStatus.SUPERSEDED |>) db
            | None => db end in
  let r := r <| rv_status := value PortalReviewStatus.APPROVED |> <| rv_approved_by := Some (actor_id c) |>
             <| rv_valid_from := Some (default now (rv_valid_from r)) |> in
  let p := p <| pt_terms_expires_at := rv_valid_to r |> <| pt_verified_at := Some now |>
             <| pt_status := approved_status (pt_level p) |> in
  Ok (r, audited "portal_review_version" i "portal_review_approved" c (put_portal p (put_review r db))).

Definition suspend_review (i : uuid) (c : Caller) (db : PortalDb) : result exn (PortalReviewVersion * PortalDb) :=
  r ← get (reviews db) i;
  _ ← raise_unless (bool_decide (rv_status r = value PortalReviewStatus.APPROVED)) StateConflictError;
  p ← get (portals db) (rv_portal r);
  let r := r <| rv_status := value PortalReviewStatus.SUSPENDED |> in
  let p := p <| pt_status := value PortalApprovalStatus.TEMPORARILY_SUSPENDED |> in
  Ok (r, audited "portal_review_version" i "portal_review_suspended" c (put_portal p (put_review r db))).

(** ** Adapters *)

Definition adapter_contract_ok (key : string) (routes contract : list (string * json)) : result exn unit :=
  if bool_decide (key = "official-api-assisted") then _validate_official_api_routes routes
  else _ ← validate_locator_contract py_str contract; build_adapter key.

Definition create_adapter (portal : uuid) (c : Caller) (key : string) (routes contract : list (string * json)) (db : PortalDb)
    : result exn (PortalAdapterVersion * PortalDb) :=
  _ ← get (portals db) portal;
  _ ← adapter_contract_ok key routes contract;
  let a := {| ad_id := uuid4 (next_id db); ad_portal := portal; ad_key := key;
              ad_version := next_version (ad_version <$>
                where_ (fun a => bool_decide (ad_portal a = portal) && bool_decide (ad_key a = key)) (adapters db));
              ad_status := value AdapterStatus.DRAFT; ad_routes := routes; ad_contract := contract; ad_approved_by := None;
              ad_activated_at := None |} in
  Ok (a, audited "portal_adapter_version" (ad_id a) "portal_adapter_created" c (put_adapter a (drawn db))).

Definition active_adapter_of (portal : uuid) (key : string) (a : PortalAdapterVersion) : bool :=
  bool_decide (ad_portal a = portal) && bool_decide (ad_key a = key) && bool_decide (ad_status a = value AdapterStatus.ACTIVE).

Definition activate_adapter (i : uuid) (c : Caller) (now : instant) (db : PortalDb) : result exn (PortalAdapterVersion * PortalDb) :=
  a ← get (adapters db) i;
  p ← get (portals db) (ad_portal a);
  _ ← raise_unless (portal_can_activate (pt_status p) && truthy_opt (active_review (pt_id p) db)) StateConflictError;
  _ ← adapter_contract_ok (ad_key a) (ad_routes a) (ad_contract a);
  let current := head (where_ (active_adapter_of (pt_id p) (ad_key a)) (adapters db)) in
  _ ← raise_unless (swap_ok (ad_id <$> current) i) IntegrityError;
  let db := match current with
            | Some k => if bool_decide (ad_id k = i) then db
                        else put_adapter (k <| ad_status := value AdapterStatus.SUSPENDED |>) db
            | None => db end in
  let a := a <| ad_status := value AdapterStatus.ACTIVE |> <| ad_approved_by := Some (actor_id c) |>
             <| ad_activated_at := Some now |> in
  Ok (a, audited "portal_adapter_version" i "portal_adapter_activated" c (put_adapter a db)).

Record NewMapping := {
  nm_filing_type : string;
  nm_key : string;
  nm_label : option string;
  nm_source_type : string;
  nm_source_key : option string;
  nm_transformation : option string;
  nm_required : bool;
  nm_sensitivity : string;
  nm_human_only : bool;
  nm_allowed_values : option json;
  nm_rules : list (string * json);
  nm_sort_order : Z
}.

Definition mapping_of (i adapter : uuid) (n : NewMapping) : PortalFieldMapping :=
  {| fm_id := i; fm_adapter := adapter; fm_filing_type := nm_filing_type n; fm_key := nm_key n; fm_label := nm_label n;
     fm_source_type := nm_source_type n; fm_source_key := nm_source_key n; fm_transformation := nm_transformation n;
     fm_required := nm_required n; fm_sensitivity := nm_sensitivity n;
     fm_human_only := bool_decide (nm_source_type n ∈ _HUMAN_ONLY_SOURCE_TYPES) || nm_human_only n;
     fm_allowed_values := nm_allowed_values n; fm_rules := nm_rules n; fm_sort_order := nm_sort_order n |}.

(** [uq_portal_field_mapping]. *)
Definition same_mapping (adapter : uuid) (n : NewMapping) (m : PortalFieldMapping) : bool :=
  bool_decide (fm_adapter m = adapter) && bool_decide (fm_filing_type m = nm_filing_type n) && bool_decide (fm_key m = nm_key n).

Definition add_field_mapping (i : uuid) (c : Caller) (n : NewMapping) (db : PortalDb) : result exn (PortalFieldMapping * PortalDb) :=
  a ← get (adapters db) i;
  _ ← raise_unless (negb (bool_decide (ad_status a = value AdapterStatus.ACTIVE))) StateConflictError;
  _ ← raise_unless (is_value (A := PortalFieldSourceType.PortalFieldSourceType) (nm_source_type n)) StateConflictError;
  _ ← raise_unless (negb (existsb (same_mapping i n) (rows (mappings db)))) IntegrityError;
  let m := mapping_of (uuid4 (next_id db)) i n in
  Ok (m, audited "portal_field_mapping" (fm_id m) "portal_field_mapping_created" c (put_mapping m (drawn db))).

(** ** Authorizations *)

(** The request as sent; what is null is left out of the update. *)
Record AuthorizationFields := {
  af_user : uuid;
  af_reference : option string;
  af_role : option string;
  af_status : string;
  af_filing_types : list string;
  af_entities : list uuid;
  af_expires_at : option instant
}.

Definition authorization_for (portal user : uuid) (a : PortalUserAuthorization) : bool :=
  bool_decide (ua_portal a = portal) && bool_decide (ua_user a = user).
Definition find_authorization (portal user : uuid) (db : PortalDb) : option PortalUserAuthorization :=
  head (where_ (authorization_for portal user) (authorizations db)).

Definition or_else {A} (x old : option A) : option A := match x with Some _ => x | None => old end.

Definition updated_authorization (f : AuthorizationFields) (a : PortalUserAuthorization) : PortalUserAuthorization :=
  a <| ua_reference := or_else (af_reference f) (ua_reference a) |> <| ua_role := or_else (af_role f) (ua_role a) |>
    <| ua_status := af_status f |> <| ua_filing_types := af_filing_types f |> <| ua_entities := af_entities f |>
    <| ua_expires_at := or_else (af_expires_at f) (ua_expires_at a) |>.

Definition new_authorization (i portal : uuid) (f : AuthorizationFields) : PortalUserAuthorization :=
  {| ua_id := i; ua_portal := portal; ua_user := af_user f; ua_reference := af_reference f; ua_role := af_role f;
     ua_status := af_status f; ua_filing_types := af_filing_types f; ua_entities := af_entities f; ua_authorized_at := None;
     ua_expires_at := af_expires_at f; ua_verified_at := None |}.

Definition stamped (now : instant) (a : PortalUserAuthorization) : PortalUserAuthorization :=
  a <| ua_authorized_at := if bool_decide (ua_status a = value AuthorizationStatus.ACTIVE) then Some now else ua_authorized_at a |>
    <| ua_verified_at := Some now |>.

Definition upsert_authorization (portal : uuid) (c : Caller) (f : AuthorizationFields) (now : instant) (db : PortalDb)
    : result exn (PortalUserAuthorization * PortalDb) :=
  _ ← get (portals db) portal;
  _ ← get (principals db) (af_user f);
  _ ← raise_unless (is_value (A := AuthorizationStatus.AuthorizationStatus) (af_status f)) StateConflictError;
  _ ← raise_unless (negb (truthy_str (af_reference f)) || negb (search _SECRET_PATTERN (default "" (af_reference f)))) StateConflictError;
  _ ← raise_unless (forallb (fun e => truthy_opt (legal_entities db !! e)) (af_entities f)) NotFoundError;
  match find_authorization portal (af_user f) db with
  | None =>
      let a := stamped now (new_authorization (uuid4 (next_id db)) portal f) in
      Ok (a, audited "portal_user_authorization" (ua_id a) "portal_user_authorization_created" c (put_authorization a (drawn db)))
  | Some a =>
      let a := stamped now (updated_authorization f a) in
      Ok (a, audited "portal_user_authorization" (ua_id a) "portal_user_authorization_updated" c (put_authorization a db))
  end.
End Governance.

(** No portal is registered: every call that gets past the checks ends in a
    [TypeError]. *)
Lemma create_portal_raises bracketed_ok getaddrinfo public_address settings n db :
  exists e, create_portal bracketed_ok getaddrinfo public_address settings n db = Err e.
Proof.
  unfold create_portal. destruct (validate_portal_url _ _ _ _ _ _) as [u|e]; [|by exists e]. msimpl.
  repeat match goal with |- context [raise_unless ?b ?e] => destruct b; [msimpl; cbn [raise_unless] | by exists e] end.
  by exists TypeError.
Qed.
