(* ===== verification/PortalRuns.v ===== *)
(** * Portal runs ([app/services/portal_run_service.py])

    A run is created for a case that is ready to submit, with its governed form, packet
    and adapter; it is started, paused, resumed and cancelled by its operator; browser
    work is queued for it; and before submission a snapshot of what the portal holds is
    compared, stored and approved by somebody else.  Every [utcnow()] of one call reads
    the same instant; text is printable ASCII, where the hashed JSON needs no escapes
    beyond those of [CanonJson]. *)
From Stdlib Require Import Ascii.
From stdpp Require Import pretty.
From S2P Require Import Prelude Terms PyDate PyJson CanonJson Roles PortalPolicy PortalStore PortalGovernance.
Open Scope Z_scope.

Definition _READY_FORM_STATUSES : list string :=
  value <$> [FormInstanceStatus.APPROVED_FOR_SIGNATURE; FormInstanceStatus.SIGNATURE_PENDING; FormInstanceStatus.SIGNED;
             FormInstanceStatus.READY_FOR_SUBMISSION].
Definition _SIGNED_FORM_STATUSES : list string := value <$> [FormInstanceStatus.SIGNED; FormInstanceStatus.READY_FOR_SUBMISSION].
Definition _TERMINAL_RUN_STATUSES : list string :=
  value <$> [PortalRunStatus.COMPLETED; PortalRunStatus.CANCELLED; PortalRunStatus.SUBMITTED].
Definition _HUMAN_ONLY_SOURCES : list string :=
  value <$> [PortalFieldSourceType.MANUAL_OPERATOR_INPUT; PortalFieldSourceType.ATTESTATION; PortalFieldSourceType.SIGNATURE;
             PortalFieldSourceType.PAYMENT].
Definition INCLUDABLE_ITEM_STATUSES : list string := value <$> [PacketItemStatus.MATCHED; PacketItemStatus.INCLUDED].

(** [run.status = s; run.current_stage = s]. *)
Definition set_status (s : PortalRunStatus.PortalRunStatus) (r : PortalRun) : PortalRun :=
  r <| pr_status := value s |> <| pr_stage := value s |>.
Definition set_error (code message : option string) (r : PortalRun) : PortalRun :=
  r <| pr_error_code := code |> <| pr_error_message := message |>.

Definition session_active (b : BrowserSession) : bool := bool_decide (bs_status b ∈ ACTIVE_BROWSER_SESSION_STATUSES).
Definition run_sessions (run : uuid) (db : PortalDb) : list BrowserSession :=
  where_ (fun b => bool_decide (bs_run b = run) && session_active b) (sessions db).
Definition operator_sessions (run operator : uuid) (db : PortalDb) : list BrowserSession :=
  where_ (fun b => bool_decide (bs_run b = run) && bool_decide (bs_operator b = operator) && session_active b) (sessions db).

Definition run_fields (run : uuid) (db : PortalDb) : list PortalRunField :=
  py_sorted (fun a b => str_leb (rf_key a) (rf_key b)) (where_ (fun f => bool_decide (rf_run f = run)) (fields db)).
Definition documents_of (run : uuid) (db : PortalDb) : list PortalRunDocument :=
  where_ (fun d => bool_decide (rd_run d = run)) (run_documents db).
Definition run_docs (run : uuid) (db : PortalDb) : list PortalRunDocument :=
  py_sorted (fun a b => str_leb (rd_filename a) (rd_filename b)) (documents_of run db).
Definition snapshots_of (run : uuid) (db : PortalDb) : list PreSubmissionSnapshot :=
  where_ (fun p => bool_decide (ps_run p = run)) (snapshots db).
Definition approved_snapshot (run : uuid) (db : PortalDb) : option PreSubmissionSnapshot :=
  head (filter (fun p => ps_status p = value SnapshotStatus.APPROVED) (snapshots_of run db)).

Section Runs.
Context (uuid4 : nat -> uuid) (py_str : json -> string) (sha256 : string -> string).
Context (settings : PortalSettings).

(** ** Readiness *)

Definition permitted (d : PolicyDecision) : result exn unit := raise_unless (pd_allowed d) StateConflictError.

Definition _current_review (portal : uuid) (db : PortalDb) : result exn PortalReviewVersion :=
  match active_review portal db with Some r => Ok r | None => Err StateConflictError end.

Definition _assert_review_scope (p : PortalDefinition) (r : PortalReviewVersion) (filing_type legal_entity_id : string) (now : instant)
    : result exn unit :=
  _ ← permitted (approval_is_current (pt_status p) (rv_status r) (rv_valid_from r) (rv_valid_to r) (pt_terms_expires_at p) now);
  _ ← raise_unless (bool_decide (filing_type ∈ pt_filing_types p)) StateConflictError;
  _ ← raise_unless (bool_decide (filing_type ∈ rv_filing_types r)) StateConflictError;
  raise_unless (negb (restricted legal_entity_id (rv_entities r))) StateConflictError.

Definition _validate_form (case_id : uuid) (form : option uuid) (db : PortalDb) : result exn unit :=
  match form with
  | None => Ok tt
  | Some i =>
      f ← get (form_instances db) i;
      _ ← raise_unless (bool_decide (fo_case f = case_id) && bool_decide (fo_status f ∈ _READY_FORM_STATUSES)) StateConflictError;
      raise_unless (negb (fo_signature_required f) || bool_decide (fo_status f ∈ _SIGNED_FORM_STATUSES)) StateConflictError
  end.

Definition _validate_packet (case_id : uuid) (packet : option uuid) (db : PortalDb) : result exn unit :=
  match packet with
  | None => Ok tt
  | Some i =>
      p ← get (packets db) i;
      _ ← raise_unless (bool_decide (PacketService.pk_case_id p = case_id) &&
                        bool_decide (PacketService.pk_status p = value PacketStatus.APPROVED)) StateConflictError;
      raise_unless (match PacketService.missing_items p, PacketService.validation_results p with [], [] => true | _, _ => false end)
        StateConflictError
  end.

Definition _active_adapter (portal : uuid) (required : bool) (db : PortalDb) : result exn (option PortalAdapterVersion) :=
  let a := head (where_ (fun a => bool_decide (ad_portal a = portal) && bool_decide (ad_status a = value AdapterStatus.ACTIVE))
                        (adapters db)) in
  _ ← raise_unless (negb required || truthy_opt a) StateConflictError; Ok a.

Definition _assert_user_authorized (portal user : uuid) (filing_type legal_entity_id : string) (now : instant) (db : PortalDb)
    : result exn unit :=
  match find_authorization portal user db with
  | None => Err StateConflictError
  | Some a => permitted (authorization_is_current (ua_status a) (ua_expires_at a) filing_type legal_entity_id
                           (ua_filing_types a) (ua_entities a) now)
  end.

Definition _assert_actor_is_user (c : Caller) (user : uuid) (db : PortalDb) : result exn unit :=
  raise_unless (owns c user db) StateConflictError.

(** A run that fails here is marked only in the rolled back session. *)
Definition revalidate_governance (r : PortalRun) (now : instant) (db : PortalDb)
    : result exn (PortalDefinition * PortalReviewVersion) :=
  p ← get (portals db) (pr_portal r);
  match reviews db !! pr_review r with
  | None => Err StateConflictError
  | Some v =>
      _ ← permitted (approval_is_current (pt_status p) (rv_status v) (rv_valid_from v) (rv_valid_to v) (pt_terms_expires_at p) now);
      _ ← raise_unless (bool_decide (pr_filing_type r ∈ rv_filing_types v)) StateConflictError;
      _ ← raise_unless (negb (restricted (pr_entity r) (rv_entities v))) StateConflictError;
      _ ← raise_unless (match pr_adapter r with
            | None => true
            | Some i => match adapters db !! i with
                        | Some a => bool_decide (ad_status a = value AdapterStatus.ACTIVE) | None => false end
            end) StateConflictError;
      Ok (p, v)
  end.

(** ** Steps *)

Definition new_step (r : PortalRun) (t : PortalStepType.PortalStepType) (st : PortalStepStatus.PortalStepStatus)
    (page : option string) (messages : option (list PortalMessage)) (summary : string) (now : instant) (db : PortalDb)
    : PortalRunStep :=
  let n := next_version (st_sequence <$> filter (fun s => st_run s = pr_id r) (steps db)) in
  {| st_run := pr_id r; st_key := str_lower (value t) +:+ "-" +:+ pretty n; st_sequence := n; st_type := value t;
     st_status := value st; st_mode := pr_level r; st_page := page; st_messages := messages; st_summary := Some summary;
     st_completed_at := if bool_decide (st = PortalStepStatus.COMPLETED) then Some now else None |}.

Definition _add_step (r : PortalRun) (t : PortalStepType.PortalStepType) (st : PortalStepStatus.PortalStepStatus)
    (page : option string) (messages : option (list PortalMessage)) (summary : string) (now : instant) (db : PortalDb) : PortalDb :=
  add_step (new_step r t st page messages summary now db) db.

(** ** Creating *)

Record NewRun := {
  rn_portal : uuid;
  rn_filing_type : string;
  rn_level : option string;
  rn_operator : option uuid;
  rn_signatory : option uuid;
  rn_payment_approver : option uuid;
  rn_license : option uuid;
  rn_form : option uuid;
  rn_packet : option uuid;
  rn_earliest_start_at : option instant;
  rn_deadline_at : option instant
}.

Definition field_of (i : uuid) (r : PortalRun) (m : PortalFieldMapping) : PortalRunField :=
  {| rf_id := i; rf_run := pr_id r; rf_mapping := Some (fm_id m); rf_key := fm_key m; rf_label := fm_label m;
     rf_source_type := fm_source_type m; rf_source_id := None; rf_approved := None; rf_entered := None; rf_display := None;
     rf_status := if fm_human_only m || bool_decide (fm_source_type m ∈ _HUMAN_ONLY_SOURCES)
                  then value PortalFieldStatus.HUMAN_ONLY else value PortalFieldStatus.PENDING;
     rf_entered_by := None; rf_entered_at := None; rf_verified_by := None; rf_verified_at := None; rf_code := None;
     rf_blocking := false |}.

Definition run_mappings (adapter : uuid) (filing_type : string) (db : PortalDb) : list PortalFieldMapping :=
  py_sorted (fun a b => fm_sort_order a <=? fm_sort_order b)
    (where_ (fun m => bool_decide (fm_adapter m = adapter) && bool_decide (fm_filing_type m = filing_type)) (mappings db)).

Definition _initialize_fields (r : PortalRun) (a : option PortalAdapterVersion) (db : PortalDb) : PortalDb :=
  match a with
  | None => db
  | Some a => foldl (fun db m => drawn (put_field (field_of (uuid4 (next_id db)) r m) db)) db (run_mappings (ad_id a) (pr_filing_type r) db)
  end.

(** The document and the version are what the packet approved. *)
Definition governed (d : GovernedDocument) (v : GovernedVersion) (sha : option string) (today : date) : bool :=
  bool_decide (gd_approval d = value ApprovalStatus.APPROVED) && bool_decide (gd_lifecycle d = value LifecycleStatus.ACTIVE) &&
  bool_decide (gd_current_version d = Some (gv_id v)) && bool_decide (gv_storage v = value StorageStatus.AVAILABLE) &&
  bool_decide (Some (gv_sha256 v) = sha) && bool_decide (Some (gd_sha256 d) = sha) &&
  match gd_expiry d with Some e => negb (e <? today) | None => true end.

Definition document_of (i : uuid) (r : PortalRun) (c : Caller) (item : PacketService.PacketItem) (d : GovernedDocument)
    (v : GovernedVersion) : PortalRunDocument :=
  {| rd_id := i; rd_run := pr_id r; rd_document := gd_id d; rd_version := gv_id v;
     rd_filename := if truthy_str (PacketService.pi_filename item) then default "" (PacketService.pi_filename item) else gv_filename v;
     rd_sha256 := gv_sha256 v; rd_category := PacketService.pi_type item; rd_status := value PortalDocumentStatus.VALIDATED;
     rd_reference := None; rd_display := None; rd_size := None; rd_selected_by := actor_id c; rd_uploaded_by := None;
     rd_uploaded_at := None; rd_verified_at := None; rd_mismatch := false |}.

(** The flush refuses a version twice ([uq_portal_run_document_version]). *)
Definition add_document (r : PortalRun) (c : Caller) (today : date) (db : PortalDb) (item : PacketService.PacketItem)
    : result exn PortalDb :=
  match PacketService.pi_document_id item, PacketService.pi_version_id item with
  | Some di, Some vi =>
      match documents db !! di, document_versions db !! vi with
      | Some d, Some v =>
          _ ← raise_unless (governed d v (PacketService.pi_sha256 item) today) StateConflictError;
          _ ← raise_unless (negb (existsb (fun x => bool_decide (rd_version x = gv_id v)) (documents_of (pr_id r) db))) IntegrityError;
          Ok (drawn (put_document (document_of (uuid4 (next_id db)) r c item d v) db))
      | _, _ => Err StateConflictError
      end
  | _, _ => Err StateConflictError
  end.

Fixpoint foldR {S A} (f : S -> A -> result exn S) (s : S) (l : list A) : result exn S :=
  match l with [] => Ok s | x :: l => s ← f s x; foldR f s l end.

Definition included_items (packet : uuid) (db : PortalDb) : list PacketService.PacketItem :=
  py_sorted (fun a b => PacketService.pi_sort_order a <=? PacketService.pi_sort_order b)
    (filter (fun i => PacketService.pi_packet_id i = packet /\ PacketService.pi_status i ∈ INCLUDABLE_ITEM_STATUSES) (packet_items db)).

Definition _initialize_documents (r : PortalRun) (packet : option uuid) (c : Caller) (today : date) (db : PortalDb) : result exn PortalDb :=
  match packet with
  | None => Ok db
  | Some p => foldR (add_document r c today) db (included_items p db)
  end.

Definition or_else_text (x : option string) (d : string) : string := if truthy_str x then default d x else d.

Definition new_run (i : uuid) (n : NewRun) (level : string) (p : PortalDefinition) (v : PortalReviewVersion)
    (a : option PortalAdapterVersion) (k : CaseService.ComplianceCase) (c : Caller) : PortalRun :=
  {| pr_id := i; pr_portal := pt_id p; pr_review := rv_id v; pr_adapter := ad_id <$> a; pr_case := CaseService.case_id k;
     pr_entity := CaseService.case_legal_entity_id k; pr_license := or_else (rn_license n) (CaseService.case_license_id k);
     pr_form := rn_form n; pr_packet := rn_packet n; pr_filing_type := rn_filing_type n; pr_level := level;
     pr_status := value PortalRunStatus.READY; pr_stage := value PortalRunStatus.READY; pr_operator := rn_operator n;
     pr_signatory := rn_signatory n; pr_payment_approver := rn_payment_approver n;
     pr_earliest_start_at := rn_earliest_start_at n; pr_deadline_at := rn_deadline_at n; pr_started_at := None;
     pr_submitted_at := None; pr_completed_at := None; pr_error_code := None; pr_error_message := None;
     pr_created_by := actor_id c |}.

Definition principal_exists (o : option uuid) (db : PortalDb) : bool :=
  match o with Some i => truthy_opt (principals db !! i) | None => true end.

Definition create_run (case_id : uuid) (c : Caller) (n : NewRun) (now : instant) (today : date) (db : PortalDb)
    : result exn (PortalRun * PortalDb) :=
  match CaseService.find_case case_id (case_db db) with
  | None => Err NotFoundError
  | Some k =>
      let entity := CaseService.case_legal_entity_id k in
      _ ← raise_unless (bool_decide (CaseService.current_stage k = value Vocabulary.CaseStage.SUBMISSION_PENDING)) StateConflictError;
      p ← get (portals db) (rn_portal n);
      v ← _current_review (pt_id p) db;
      _ ← _assert_review_scope p v (rn_filing_type n) entity now;
      let level := or_else_text (rn_level n) (portal_default_automation_level settings) in
      _ ← raise_unless (bool_decide (level ∈ AUTOMATION_LEVEL_RANK.*1)) StateConflictError;
      _ ← raise_unless (rank level <=? rank (pt_level p)) StateConflictError;
      _ ← raise_unless (match rn_license n with
            | Some l => bool_decide (Some l = CaseService.case_license_id k) | None => true end) StateConflictError;
      _ ← raise_unless (match rn_license n ≫= fun l => licence_sources db !! l with
            | Some l => bool_decide (ls_entity l = entity) | None => true end) StateConflictError;
      _ ← _validate_form case_id (rn_form n) db;
      _ ← _validate_packet case_id (rn_packet n) db;
      a ← _active_adapter (pt_id p) (negb (bool_decide (level = "PREPARE_ONLY"))) db;
      _ ← match rn_operator n with
          | Some u => _assert_user_authorized (pt_id p) u (rn_filing_type n) entity now db
          | None => Ok tt
          end;
      _ ← raise_unless (principal_exists (rn_signatory n) db && principal_exists (rn_payment_approver n) db) NotFoundError;
      let r := new_run (uuid4 (next_id db)) n level p v a k c in
      let db := _initialize_fields r a (put_run r (drawn db)) in
      db ← _initialize_documents r (rn_packet n) c today db;
      let db := _add_step r PortalStepType.NAVIGATE PortalStepStatus.PENDING None None
                  "Portal run created after governed-input readiness checks." now db in
      Ok (r, audit "portal_run" (pr_id r) "portal_run_created" (Some (actor_id c)) db)
  end.

(** ** Changes of a run *)

Definition invalidated (r : PortalRun) (p : PreSubmissionSnapshot) (db : PortalDb) : PortalRun * PortalDb :=
  (set_status PortalRunStatus.DISCREPANCIES_FOUND r,
   put_snapshot (p <| ps_status := value SnapshotStatus.SUPERSEDED |>) db).

(** The run as it is to be stored, and the snapshots. *)
Definition _invalidate_snapshot (r : PortalRun) (c : Caller) (db : PortalDb) : PortalRun * PortalDb :=
  match approved_snapshot (pr_id r) db with
  | Some p =>
      let '(r, db) := invalidated r p db in
      (r, audit "pre_submission_snapshot" (ps_id p) "pre_submission_snapshot_invalidated" (Some (actor_id c)) db)
  | None => (r, db)
  end.

Record RunChanges := {
  rc_operator : option (option uuid);
  rc_signatory : option (option uuid);
  rc_payment_approver : option (option uuid);
  rc_deadline_at : option (option instant)
}.

(** Unknown principals break the foreign keys at the flush. *)
Definition update_run (i : uuid) (c : Caller) (ch : RunChanges) (now : instant) (db : PortalDb) : result exn (PortalRun * PortalDb) :=
  r ← get (runs db) i;
  _ ← raise_unless (negb (bool_decide (pr_status r ∈ _TERMINAL_RUN_STATUSES))) StateConflictError;
  p ← get (portals db) (pr_portal r);
  _ ← match rc_operator ch with
      | Some (Some u) =>
          _ ← _assert_user_authorized (pt_id p) u (pr_filing_type r) (pr_entity r) now db;
          raise_unless (bool_decide (run_sessions (pr_id r) db = []) || bool_decide (Some u = pr_operator r)) StateConflictError
      | _ => Ok tt
      end;
  let signatory := default (pr_signatory r) (rc_signatory ch) in
  let approver := default (pr_payment_approver r) (rc_payment_approver ch) in
  _ ← raise_unless (principal_exists (mjoin (rc_signatory ch)) db && principal_exists (mjoin (rc_payment_approver ch)) db) IntegrityError;
  let r := r <| pr_operator := default (pr_operator r) (rc_operator ch) |> <| pr_signatory := signatory |>
             <| pr_payment_approver := approver |> <| pr_deadline_at := default (pr_deadline_at r) (rc_deadline_at ch) |> in
  let '(r, db) := _invalidate_snapshot r c db in
  Ok (r, audit "portal_run" i "portal_run_updated" (Some (actor_id c)) (put_run r db)).

Definition start (i : uuid) (c : Caller) (now : instant) (db : PortalDb) : result exn (PortalRun * PortalDb) :=
  r ← get (runs db) i;
  _ ← raise_unless (bool_decide (pr_status r ∈ value <$> [PortalRunStatus.READY; PortalRunStatus.WAITING_OPERATOR])) StateConflictError;
  '(p, _) ← revalidate_governance r now db;
  let waiting := set_status PortalRunStatus.WAITING_OPERATOR r in
  if bool_decide (pr_level r = value AutomationLevel.PREPARE_ONLY) then Ok (waiting, put_run waiting db)
  else
    _ ← raise_unless (portal_automation_enabled settings && browser_automation_enabled settings) StateConflictError;
    match pr_operator r with
    | None => Ok (waiting, put_run waiting db)
    | Some u =>
        _ ← _assert_actor_is_user c u db;
        _ ← _assert_user_authorized (pt_id p) u (pr_filing_type r) (pr_entity r) now db;
        let r := waiting <| pr_started_at := Some (default now (pr_started_at r)) |> in
        Ok (r, audit "portal_run" i "portal_run_started" (Some (actor_id c)) (put_run r db))
    end.

Definition pause (i : uuid) (c : Caller) (db : PortalDb) : result exn (PortalRun * PortalDb) :=
  r ← get (runs db) i;
  _ ← raise_unless (negb (bool_decide (pr_status r ∈ _TERMINAL_RUN_STATUSES))) StateConflictError;
  let r := set_error (Some "operator_paused") (Some "Paused by an authorized operator.") (set_status PortalRunStatus.BLOCKED r) in
  Ok (r, audit "portal_run" i "portal_run_paused" (Some (actor_id c)) (put_run r db)).

Definition newest (l : list BrowserSession) : option BrowserSession := latest bs_started_at l.

Definition active_browser_session (r : PortalRun) (c : Caller) (db : PortalDb) : result exn BrowserSession :=
  match pr_operator r with
  | None => Err StateConflictError
  | Some u =>
      _ ← _assert_actor_is_user c u db;
      match newest (operator_sessions (pr_id r) u db) with Some b => Ok b | None => Err StateConflictError end
  end.

(** Governance and the action policy, as every queueing operation asks. *)
Definition may_act (action : string) (r : PortalRun) (now : instant) (db : PortalDb) : result exn unit :=
  '(p, v) ← revalidate_governance r now db;
  permitted (action_is_allowed action (pr_level r) (pt_level p) (rv_allowed v) (rv_prohibited v) false).

Definition route_of (r : PortalRun) (route_key : string) (db : PortalDb) : result exn json :=
  match pr_adapter r with
  | None => Err StateConflictError
  | Some i =>
      match (adapters db !! i) ≫= fun a => dget route_key (ad_routes a) with
      | Some (JDict d) => match dget "url" d with Some (JStr _) => Ok (JDict d) | _ => Err StateConflictError end
      | _ => Err StateConflictError
      end
  end.

Definition queue_navigation (i : uuid) (c : Caller) (route_key request_id : string) (now : instant) (db : PortalDb)
    : result exn (PortalRun * PortalDb) :=
  r ← get (runs db) i;
  '(p, v) ← revalidate_governance r now db;
  _ ← match pr_operator r with Some u => _assert_actor_is_user c u db | None => Err StateConflictError end;
  _ ← permitted (action_is_allowed "NAVIGATE" (pr_level r) (pt_level p) (rv_allowed v) (rv_prohibited v) false);
  route ← route_of r route_key db;
  b ← active_browser_session r c db;
  Ok (r, enqueue uuid4 {| nj_type := PortalJobType.NAVIGATE_PORTAL;
     nj_key := "portal-navigate:" +:+ i +:+ ":" +:+ bs_id b +:+ ":" +:+ route_key +:+ ":" +:+ request_id;
     nj_run := Some i; nj_session := Some (bs_id b); nj_payload := [("route_key", JStr route_key); ("route", route)];
     nj_max_attempts := 2 |} now db).

(** A key that ends with fresh random digits. *)
Definition fresh_key (prefix i : string) (db : PortalDb) : string := prefix +:+ i +:+ ":" +:+ hex_of (uuid4 (next_id db)).

Definition enqueue_fresh (t : PortalJobType.PortalJobType) (prefix i : string) (session : uuid) (payload : list (string * json))
    (attempts : Z) (run : uuid) (now : instant) (db : PortalDb) : PortalDb :=
  enqueue uuid4 {| nj_type := t; nj_key := fresh_key prefix i db; nj_run := Some run; nj_session := Some session;
                   nj_payload := payload; nj_max_attempts := attempts |} now (drawn db).

Definition queue_validation (i : uuid) (c : Caller) (now : instant) (db : PortalDb) : result exn (PortalRun * PortalDb) :=
  r ← get (runs db) i;
  _ ← may_act "VALIDATE" r now db;
  b ← active_browser_session r c db;
  Ok (r, enqueue_fresh PortalJobType.RUN_PORTAL_VALIDATION "portal-validation:" i (bs_id b) [] 2 i now db).

Definition resume (i : uuid) (c : Caller) (now : instant) (db : PortalDb) : result exn (PortalRun * PortalDb) :=
  r ← get (runs db) i;
  _ ← raise_unless (bool_decide (pr_status r = value PortalRunStatus.BLOCKED)) StateConflictError;
  _ ← revalidate_governance r now db;
  _ ← match pr_operator r with Some u => _assert_actor_is_user c u db | None => Ok tt end;
  match newest (run_sessions (pr_id r) db) with
  | None =>
      let r := set_error None None (set_status PortalRunStatus.WAITING_OPERATOR r) in Ok (r, put_run r db)
  | Some b =>
      let r := set_error None None (set_status PortalRunStatus.SESSION_ACTIVE r) in
      Ok (r, enqueue_fresh PortalJobType.RECONCILE_SESSION "portal-resume:" i (bs_id b) [] 1 i now (put_run r db))
  end.

Definition close_job (i : uuid) (b : BrowserSession) (payload : list (string * json)) (key : string) (attempts : Z) : NewJob :=
  {| nj_type := PortalJobType.CLOSE_BROWSER_SESSION; nj_key := key +:+ bs_id b; nj_run := Some i; nj_session := Some (bs_id b);
     nj_payload := payload; nj_max_attempts := attempts |}.

Definition cancel (i : uuid) (c : Caller) (now : instant) (db : PortalDb) : result exn (PortalRun * PortalDb) :=
  r ← get (runs db) i;
  _ ← raise_unless (negb (bool_decide (pr_status r = value PortalRunStatus.SUBMITTED))) StateConflictError;
  let r := set_status PortalRunStatus.CANCELLED r <| pr_completed_at := Some now |> in
  let db := set_jobs (cancel_pending_for_run i (jobs db)) (put_run r db) in
  let db := foldl (fun db b => enqueue uuid4 (close_job i b [] "portal-close:" 3) now db) db (run_sessions i db) in
  Ok (r, audit "portal_run" i "portal_run_cancelled" (Some (actor_id c)) db).

(** ** Validation messages *)

Definition safe_message (m : list (string * json)) : PortalMessage :=
  let text k d := match dget k m with Some v => text_of py_str v | None => d end in
  {| pm_code := str_take 120 (text "code" "PORTAL_VALIDATION"); pm_category := str_take 120 (text "category" "GENERAL");
     pm_text := sanitize_portal_message (text "message" "");
     pm_blocking := match dget "blocking" m with Some v => truthy v | None => true end;
     pm_field := match dget "field_key" m with
                 | Some v => if truthy v then Some (str_take 120 (text_of py_str v)) else None
                 | None => None end |}.

Definition review_status (blocked : bool) : PortalRunStatus.PortalRunStatus :=
  if blocked then PortalRunStatus.DISCREPANCIES_FOUND else PortalRunStatus.READY_FOR_PRE_SUBMISSION_REVIEW.

Definition capture_validation (i : uuid) (c : Caller) (messages : list (list (string * json))) (page : string) (now : instant)
    (db : PortalDb) : result exn (PortalRun * PortalDb) :=
  r ← get (runs db) i;
  let '(r, db) := _invalidate_snapshot r c db in
  let safe := safe_message <$> take 200 messages in
  let db := _add_step r PortalStepType.VALIDATION PortalStepStatus.COMPLETED (Some page) (Some safe)
              ("Captured " +:+ pretty (Z.of_nat (length safe)) +:+ " portal validation messages.") now db in
  let r := set_status (review_status (existsb pm_blocking safe)) r in
  Ok (r, put_run r db).

Definition _latest_validation_messages (run : uuid) (db : PortalDb) : list PortalMessage :=
  match latest st_sequence (filter (fun s => st_run s = run /\ st_type s = value PortalStepType.VALIDATION) (steps db)) with
  | Some s => default [] (st_messages s)
  | None => []
  end.

(** ** Snapshots *)

Definition mapping_for (f : PortalRunField) (db : PortalDb) : option PortalFieldMapping := rf_mapping f ≫= fun i => mappings db !! i.
Definition mapped (p : PortalFieldMapping -> bool) (f : PortalRunField) (db : PortalDb) : bool :=
  match mapping_for f db with Some m => p m | None => false end.

Definition field_report (db : PortalDb) (f : PortalRunField) : list Discrepancy :=
  (if bool_decide (rf_status f = value PortalFieldStatus.DISCREPANCY)
   then [FieldDiscrepancy (or_else_text (rf_code f) "VALUE_MISMATCH") (rf_key f)] else []) ++
  option_list (compare_field (rf_key f) (rf_approved f) (rf_entered f)
    (mapped (fun m => fm_required m && negb (fm_human_only m)) f db)).

Definition field_entry (db : PortalDb) (f : PortalRunField) : FieldEntry :=
  {| fe_key := rf_key f; fe_source_type := rf_source_type f; fe_source_id := rf_source_id f; fe_approved := rf_approved f;
     fe_entered := rf_entered f; fe_status := rf_status f; fe_human_only := mapped fm_human_only f db |}.

Definition document_report (d : PortalRunDocument) : list Discrepancy :=
  if bool_decide (rd_status d = value PortalDocumentStatus.VERIFIED) then [] else [DocumentMissing (rd_document d)].

Definition document_entry (d : PortalRunDocument) : DocumentEntry :=
  {| de_document := rd_document d; de_version := rd_version d; de_sha256 := rd_sha256 d; de_filename := rd_filename d;
     de_display := rd_display d; de_size := rd_size d; de_status := rd_status d |}.

Definition message_report (m : PortalMessage) : list Discrepancy := if pm_blocking m then [PortalError (pm_text m)] else [].

Definition discrepancies (run : uuid) (db : PortalDb) : list Discrepancy :=
  (run_fields run db ≫= field_report db) ++ (run_docs run db ≫= document_report) ++
  (_latest_validation_messages run db ≫= message_report).

(** The payload as canonical JSON. *)
Definition opt_text (o : option string) : canon := match o with Some s => CStr s | None => CNull end.
Definition opt_num (o : option Z) : canon := match o with Some n => CInt n | None => CNull end.

Definition field_canon (e : FieldEntry) : canon :=
  CDict [("approved_fingerprint", opt_text (fe_approved e)); ("entered_fingerprint", opt_text (fe_entered e));
         ("field_key", CStr (fe_key e)); ("human_only", CBool (fe_human_only e));
         ("source_record_id", opt_text (fe_source_id e)); ("source_type", CStr (fe_source_type e)); ("status", CStr (fe_status e))].
Definition doc_canon (e : DocumentEntry) : canon :=
  CDict [("document_id", CStr (de_document e)); ("document_version_id", CStr (de_version e));
         ("expected_filename", CStr (de_filename e)); ("expected_sha256", CStr (de_sha256 e));
         ("portal_display_name", opt_text (de_display e)); ("portal_size_bytes", opt_num (de_size e)); ("status", CStr (de_status e))].
Definition message_canon (m : PortalMessage) : canon :=
  CDict [("blocking", CBool (pm_blocking m)); ("category", CStr (pm_category m)); ("code", CStr (pm_code m));
         ("field_key", opt_text (pm_field m)); ("message", CStr (pm_text m))].
Definition discrepancy_canon (d : Discrepancy) : canon :=
  match d with
  | FieldDiscrepancy code k => CDict [("blocking", CBool true); ("code", CStr code); ("field_key", CStr k)]
  | DocumentMissing i => CDict [("blocking", CBool true); ("code", CStr "DOCUMENT_MISSING"); ("document_id", CStr i)]
  | PortalError t => CDict [("blocking", CBool true); ("code", CStr "PORTAL_VALIDATION_ERROR"); ("message", CStr t)]
  end.

Definition snapshot_payload (r : PortalRun) (form_version : option Z) (fs : list FieldEntry) (ds : list DocumentEntry)
    (ms : list PortalMessage) (report : list Discrepancy) : canon :=
  CDict [("compliance_case_id", CStr (pr_case r)); ("discrepancy_report", CList (discrepancy_canon <$> report));
         ("document_manifest", CList (doc_canon <$> ds)); ("field_manifest", CList (field_canon <$> fs));
         ("filing_type", CStr (pr_filing_type r)); ("form_instance_version", opt_num form_version);
         ("legal_entity_id", CStr (pr_entity r)); ("portal_adapter_version_id", opt_text (pr_adapter r));
         ("portal_definition_id", CStr (pr_portal r)); ("portal_review_version_id", CStr (pr_review r));
         ("portal_validation_messages", CList (message_canon <$> ms))].

Definition canonical_snapshot_hash (v : canon) : string := canonical_sha256 sha256 v.

Definition expected_hash (r : PortalRun) (p : PreSubmissionSnapshot) : string :=
  canonical_snapshot_hash (snapshot_payload r (ps_form_version p) (ps_fields p) (ps_documents p) (ps_messages p) (ps_report p)).

Definition captured (i : uuid) (r : PortalRun) (c : Caller) (db : PortalDb) : PreSubmissionSnapshot :=
  let report := discrepancies (pr_id r) db in
  let fs := field_entry db <$> run_fields (pr_id r) db in
  let ds := document_entry <$> run_docs (pr_id r) db in
  let ms := _latest_validation_messages (pr_id r) db in
  let form_version := fo_version <$> (pr_form r ≫= fun f => form_instances db !! f) in
  {| ps_id := i; ps_run := pr_id r; ps_version := next_version (ps_version <$> snapshots_of (pr_id r) db);
     ps_form_version := form_version; ps_fields := fs; ps_documents := ds; ps_messages := ms; ps_report := report;
     ps_sha256 := canonical_snapshot_hash (snapshot_payload r form_version fs ds ms report);
     ps_status := if bool_decide (length report = 0%nat) then value SnapshotStatus.READY_FOR_REVIEW
                  else value SnapshotStatus.DISCREPANCIES_FOUND;
     ps_created_by := actor_id c; ps_reviewed_by := None; ps_reviewed_at := None |}.

Definition create_snapshot (i : uuid) (c : Caller) (now : instant) (db : PortalDb) : result exn (PreSubmissionSnapshot * PortalDb) :=
  r ← get (runs db) i;
  _ ← revalidate_governance r now db;
  let p := captured (uuid4 (next_id db)) r c db in
  let blockers := length (ps_report p) in
  let r := set_status (review_status (negb (bool_decide (blockers = 0%nat)))) r in
  let db := put_run r (put_snapshot p (drawn db)) in
  let db := _add_step r PortalStepType.PRE_SUBMISSION_CAPTURE PortalStepStatus.COMPLETED None None
              ("Snapshot v" +:+ pretty (ps_version p) +:+ " captured with " +:+ pretty (Z.of_nat blockers) +:+ " blockers.") now db in
  Ok (p, audit "pre_submission_snapshot" (ps_id p) "pre_submission_snapshot_created" (Some (actor_id c)) db).

Definition is_latest (p : PreSubmissionSnapshot) (db : PortalDb) : bool :=
  bool_decide (ps_id <$> latest ps_version (snapshots_of (ps_run p) db) = Some (ps_id p)).

(** The index [uq_pre_submission_snapshot_approved] refuses a second approved snapshot. *)
Definition approve_snapshot (i : uuid) (c : Caller) (now : instant) (db : PortalDb) : result exn (PreSubmissionSnapshot * PortalDb) :=
  p ← get (snapshots db) i;
  _ ← raise_unless (bool_decide (ps_status p = value SnapshotStatus.READY_FOR_REVIEW)) StateConflictError;
  _ ← raise_unless (negb (bool_decide (ps_created_by p = actor_id c))) StateConflictError;
  r ← get (runs db) (ps_run p);
  _ ← revalidate_governance r now db;
  _ ← raise_unless (is_latest p db) StateConflictError;
  _ ← raise_unless (bool_decide (expected_hash r p = ps_sha256 p)) StateConflictError;
  _ ← raise_unless (negb (truthy_opt (approved_snapshot (ps_run p) db))) IntegrityError;
  let p := p <| ps_status := value SnapshotStatus.APPROVED |> <| ps_reviewed_by := Some (actor_id c) |>
             <| ps_reviewed_at := Some now |> in
  Ok (p, audit "pre_submission_snapshot" i "pre_submission_snapshot_approved" (Some (actor_id c))
           (put_run (set_status PortalRunStatus.PRE_SUBMISSION_APPROVED r) (put_snapshot p db))).

Definition reject_snapshot (i : uuid) (c : Caller) (now : instant) (db : PortalDb) : result exn (PreSubmissionSnapshot * PortalDb) :=
  p ← get (snapshots db) i;
  _ ← raise_unless (bool_decide (ps_status p ∈ value <$> [SnapshotStatus.READY_FOR_REVIEW; SnapshotStatus.DISCREPANCIES_FOUND]))
        StateConflictError;
  r ← get (runs db) (ps_run p);
  let p := p <| ps_status := value SnapshotStatus.REJECTED |> <| ps_reviewed_by := Some (actor_id c) |>
             <| ps_reviewed_at := Some now |> in
  Ok (p, audit "pre_submission_snapshot" i "pre_submission_snapshot_rejected" (Some (actor_id c))
           (put_run (set_status PortalRunStatus.DISCREPANCIES_FOUND r) (put_snapshot p db))).
End Runs.
