(* ===== verification/PortalSessions.v ===== *)
(** * Browser sessions and human handoffs ([app/services/portal_session_service.py])

    A browser session belongs to the operator of its run; what only a person may do is
    handed to that person and taken back after the page was checked.  Calls that store a
    change and then raise, and calls that change a loaded row and return without a
    commit, are told apart: a function that can store before it raises returns its
    database beside its result, and [create_handoff] says whether it committed. *)
From Stdlib Require Import Ascii.
From S2P Require Import Prelude Terms PyDate PyJson Roles PortalPolicy PortalStore PortalGovernance PortalRuns.
Open Scope Z_scope.

Definition _RUN_STATUS_FOR_HANDOFF (t : HandoffType.HandoffType) : PortalRunStatus.PortalRunStatus :=
  match t with
  | HandoffType.LOGIN => PortalRunStatus.WAITING_LOGIN
  | HandoffType.TERMS_ACCEPTANCE => PortalRunStatus.WAITING_TERMS_ACCEPTANCE
  | HandoffType.MFA => PortalRunStatus.WAITING_MFA
  | HandoffType.CAPTCHA => PortalRunStatus.WAITING_CAPTCHA
  | HandoffType.ATTESTATION => PortalRunStatus.WAITING_ATTESTATION
  | HandoffType.SIGNATURE => PortalRunStatus.WAITING_SIGNATURE
  | HandoffType.PAYMENT => PortalRunStatus.WAITING_PAYMENT
  | HandoffType.FINAL_SUBMIT => PortalRunStatus.WAITING_FINAL_SUBMIT
  | HandoffType.UNEXPECTED_PAGE => PortalRunStatus.FAILED_REVIEW
  | HandoffType.PORTAL_ERROR => PortalRunStatus.BLOCKED
  | HandoffType.SENSITIVE_FIELD => PortalRunStatus.BLOCKED
  end.

Definition OPEN_HANDOFF_STATUSES : list string :=
  value <$> [HandoffStatus.REQUESTED; HandoffStatus.ACCEPTED; HandoffStatus.ACTIVE].
Definition handoff_open (h : HumanHandoff) : bool := bool_decide (hh_status h ∈ OPEN_HANDOFF_STATUSES).

(** [uq_browser_sessions_active_run], when [b] is written. *)
Definition session_slot_free (b : BrowserSession) (db : PortalDb) : bool :=
  negb (session_active b) || negb (existsb (fun x => negb (bool_decide (bs_id x = bs_id b))) (run_sessions (bs_run b) db)).

Definition store_session (b : BrowserSession) (db : PortalDb) : result exn PortalDb :=
  _ ← raise_unless (session_slot_free b db) IntegrityError; Ok (put_session b db).

Section Sessions.
Context (uuid4 : nat -> uuid) (settings : PortalSettings).

Definition _assert_authorization (r : PortalRun) (now : instant) (db : PortalDb) : result exn unit :=
  match pr_operator r with
  | Some u => _assert_user_authorized (pr_portal r) u (pr_filing_type r) (pr_entity r) now db
  | None => Err StateConflictError
  end.

Definition new_session (i : uuid) (r : PortalRun) (operator : uuid) (worker : string) (st : BrowserSessionStatus.BrowserSessionStatus)
    (now : instant) : BrowserSession :=
  {| bs_id := i; bs_run := pr_id r; bs_operator := operator; bs_worker := worker; bs_status := value st; bs_started_at := now;
     bs_activity_at := now; bs_expires_at := now + browser_session_max_minutes settings * 60000000; bs_closed_at := None;
     bs_close_reason := None |}.

Definition request_session (i : uuid) (c : Caller) (now : instant) (db : PortalDb) : result exn (BrowserSession * PortalDb) :=
  r ← get (runs db) i;
  _ ← revalidate_governance r now db;
  _ ← raise_unless (portal_automation_enabled settings && browser_automation_enabled settings) StateConflictError;
  _ ← raise_unless (bool_decide (pr_status r = value PortalRunStatus.WAITING_OPERATOR)) StateConflictError;
  match pr_operator r with
  | None => Err StateConflictError
  | Some u =>
      _ ← raise_unless (owns c u db) StateConflictError;
      _ ← _assert_authorization r now db;
      match operator_sessions (pr_id r) u db with
      | b :: _ => Ok (b, db)
      | [] =>
          let b := new_session (uuid4 (next_id db)) r u "pending" BrowserSessionStatus.REQUESTED now in
          db ← store_session b (drawn db);
          let db := enqueue uuid4 {| nj_type := PortalJobType.START_BROWSER_SESSION;
                      nj_key := "portal-session-start:" +:+ bs_id b; nj_run := Some i; nj_session := Some (bs_id b);
                      nj_payload := []; nj_max_attempts := 3 |} now db in
          Ok (b, audit "browser_session" (bs_id b) "browser_session_requested" (Some (actor_id c)) db)
      end
  end.

(** An expired session raises: its new state is rolled back. *)
Definition take_control (i : uuid) (c : Caller) (now : instant) (db : PortalDb) : result exn (BrowserSession * PortalDb) :=
  b ← get (sessions db) i;
  _ ← raise_unless (owns c (bs_operator b) db) StateConflictError;
  _ ← raise_unless (bool_decide (bs_status b = value BrowserSessionStatus.ACTIVE_AUTOMATION)) StateConflictError;
  _ ← raise_unless (now <? bs_expires_at b) StateConflictError;
  let b := b <| bs_status := value BrowserSessionStatus.ACTIVE_HUMAN_CONTROL |> <| bs_activity_at := now |> in
  Ok (b, audit "browser_session" i "browser_control_taken" (Some (actor_id c)) (put_session b db)).

Definition return_control (i : uuid) (c : Caller) (now : instant) (db : PortalDb) : result exn (BrowserSession * PortalDb) :=
  b ← get (sessions db) i;
  _ ← raise_unless (owns c (bs_operator b) db) StateConflictError;
  _ ← raise_unless (bool_decide (bs_status b = value BrowserSessionStatus.ACTIVE_HUMAN_CONTROL)) StateConflictError;
  _ ← raise_unless (negb (existsb (fun h => bool_decide (hh_session h = Some i) && handoff_open h) (rows (handoffs db)))) StateConflictError;
  let b := b <| bs_status := value BrowserSessionStatus.ACTIVE_AUTOMATION |> <| bs_activity_at := now |> in
  Ok (b, put_session b db).

Definition close (i : uuid) (c : Caller) (reason : string) (now : instant) (db : PortalDb) : result exn (BrowserSession * PortalDb) :=
  b ← get (sessions db) i;
  _ ← raise_unless (owns c (bs_operator b) db) StateConflictError;
  let db := enqueue uuid4 (close_job (bs_run b) b [("reason", JStr (str_take 200 reason))] "portal-close:" 3) now db in
  let b := b <| bs_status := value BrowserSessionStatus.PAUSED |> in
  r ← get (runs db) (bs_run b);
  let r := if bool_decide (pr_status r ∈ value <$> [PortalRunStatus.SUBMITTED; PortalRunStatus.COMPLETED; PortalRunStatus.CANCELLED])
           then r else set_status PortalRunStatus.WAITING_OPERATOR r in
  db ← store_session b db;
  Ok (b, put_run r db).

(** ** Handoffs *)

Definition _default_handoff_user (r : PortalRun) (t : HandoffType.HandoffType) : option uuid :=
  match t with
  | HandoffType.ATTESTATION | HandoffType.SIGNATURE => pr_signatory r
  | HandoffType.PAYMENT => pr_payment_approver r
  | _ => pr_operator r
  end.

Definition open_handoff (run : uuid) (t : HandoffType.HandoffType) (db : PortalDb) : option HumanHandoff :=
  head (where_ (fun h => bool_decide (hh_run h = run) && bool_decide (hh_type h = value t) && handoff_open h) (handoffs db)).

(** A session of somebody else is paused and closed, never handed on. *)
Definition handoff_session (r : PortalRun) (target : uuid) (given : option uuid) (now : instant) (db : PortalDb)
    : result exn (option uuid * PortalDb) :=
  match or_else given (bs_id <$> head (run_sessions (pr_id r) db)) with
  | None => Ok (None, db)
  | Some s =>
      match sessions db !! s with
      | None => Err StateConflictError
      | Some b =>
          _ ← raise_unless (bool_decide (bs_run b = pr_id r)) StateConflictError;
          if bool_decide (bs_operator b = target) then Ok (Some s, db)
          else
            db ← store_session (b <| bs_status := value BrowserSessionStatus.PAUSED |>) db;
            Ok (None, enqueue uuid4 (close_job (pr_id r) b
                 [("reason", JStr "Human action assigned to a different authorized user.")] "portal-handoff-owner-change:" 1) now db)
      end
  end.

Definition new_handoff (i : uuid) (r : PortalRun) (session : option uuid) (t : HandoffType.HandoffType) (target : uuid)
    (expires_at : option instant) (now : instant) : HumanHandoff :=
  {| hh_id := i; hh_run := pr_id r; hh_session := session; hh_type := value t; hh_status := value HandoffStatus.REQUESTED;
     hh_user := Some target; hh_requested_at := now; hh_accepted_at := None; hh_completed_at := None; hh_result := None;
     hh_confirmation := None; hh_evidence := None; hh_expires_at := expires_at |}.

(** The handoff, the session's database, and whether it was committed. *)
Definition create_handoff (i : uuid) (c : option Caller) (handoff_type : string) (requested_from : option uuid)
    (expires_at : option instant) (session : option uuid) (now : instant) (db : PortalDb)
    : result exn (HumanHandoff * PortalDb * bool) :=
  match of_value handoff_type with
  | None => Err StateConflictError
  | Some t =>
      r ← get (runs db) i;
      _ ← revalidate_governance r now db;
      match or_else requested_from (_default_handoff_user r t) with
      | None => Err StateConflictError
      | Some target =>
          _ ← get (principals db) target;
          '(session, db) ← handoff_session r target session now db;
          match open_handoff (pr_id r) t db with
          | Some h => Ok (h, db, false)
          | None =>
              let h := new_handoff (uuid4 (next_id db)) r session t target expires_at now in
              let r := set_status (_RUN_STATUS_FOR_HANDOFF t) r in
              Ok (h, audit "human_handoff" (hh_id h) "portal_handoff_requested" ((fun c : Caller => actor_id c) <$> c)
                       (put_run r (put_handoff h (drawn db))), true)
          end
      end
  end.

Definition accepted (h : HumanHandoff) (c : Caller) (now : instant) (db : PortalDb) : result exn (HumanHandoff * PortalDb) :=
  match hh_user h with
  | None => Err StateConflictError
  | Some u =>
      _ ← raise_unless (owns c u db) StateConflictError;
      db ← match hh_session h with
           | None => Ok db
           | Some s =>
               b ← get (sessions db) s;
               _ ← raise_unless (bool_decide (bs_operator b = u)) StateConflictError;
               store_session (b <| bs_status := value BrowserSessionStatus.ACTIVE_HUMAN_CONTROL |> <| bs_activity_at := now |>) db
           end;
      let h := h <| hh_status := value HandoffStatus.ACTIVE |> <| hh_accepted_at := Some now |> in
      Ok (h, audit "human_handoff" (hh_id h) "portal_handoff_accepted" (Some (actor_id c)) (put_handoff h db))
  end.

(** An expired handoff is stored as such before the exception. *)
Definition accept_handoff (i : uuid) (c : Caller) (now : instant) (db : PortalDb) : result exn HumanHandoff * PortalDb :=
  match handoffs db !! i with
  | None => (Err NotFoundError, db)
  | Some h =>
      if negb (bool_decide (hh_status h = value HandoffStatus.REQUESTED)) then (Err StateConflictError, db)
      else if reached (hh_expires_at h) now then
        (Err StateConflictError, put_handoff (h <| hh_status := value HandoffStatus.EXPIRED |>) db)
      else match accepted h c now db with
           | Ok (h, db') => (Ok h, db')
           | Err e => (Err e, db)
           end
  end.

Definition DEDICATED_HANDOFFS : list string :=
  value <$> [HandoffType.ATTESTATION; HandoffType.SIGNATURE; HandoffType.PAYMENT; HandoffType.FINAL_SUBMIT].

(** [s[:n] or None]. *)
Definition text_or_none (n : nat) (s : option string) : option string :=
  let t := str_take n (default "" s) in if bool_decide (t = "") then None else Some t.

Definition request_handoff_completion (i : uuid) (c : Caller) (res : string) (confirmation evidence page : option string)
    (now : instant) (db : PortalDb) : result exn (HumanHandoff * PortalDb) :=
  h ← get (handoffs db) i;
  _ ← raise_unless (bool_decide (hh_status h = value HandoffStatus.ACTIVE)) StateConflictError;
  match hh_user h with
  | None => Err StateConflictError
  | Some u =>
      _ ← raise_unless (owns c u db) StateConflictError;
      _ ← raise_unless (negb (bool_decide (hh_type h ∈ DEDICATED_HANDOFFS))) StateConflictError;
      match hh_session h with
      | None => Err StateConflictError
      | Some s =>
          let h := h <| hh_result := Some (str_take 120 res) |> <| hh_confirmation := text_or_none 1000 confirmation |>
                     <| hh_evidence := text_or_none 1000 evidence |> in
          let db := enqueue_fresh uuid4 PortalJobType.RECONCILE_SESSION "portal-handoff-verify:" i s
                      [("handoff_id", JStr i); ("expected_page_category", match page with Some p => JStr p | None => JNull end)]
                      1 (hh_run h) now (put_handoff h db) in
          Ok (h, audit "human_handoff" i "portal_handoff_completion_requested" (Some (actor_id c)) db)
      end
  end.

Definition decline_handoff (i : uuid) (c : Caller) (reason : string) (now : instant) (db : PortalDb)
    : result exn (HumanHandoff * PortalDb) :=
  h ← get (handoffs db) i;
  _ ← raise_unless (bool_decide (hh_status h ∈ value <$> [HandoffStatus.REQUESTED; HandoffStatus.ACTIVE])) StateConflictError;
  _ ← raise_unless (match hh_user h with Some u => owns c u db | None => true end) StateConflictError;
  let h := h <| hh_status := value HandoffStatus.DECLINED |> <| hh_result := Some (str_take 120 reason) |>
             <| hh_completed_at := Some now |> in
  r ← get (runs db) (hh_run h);
  let r := set_error (Some "human_handoff_declined") (Some (str_take 500 reason)) (set_status PortalRunStatus.BLOCKED r) in
  Ok (h, put_run r (put_handoff h db)).
End Sessions.
