(* ===== verification/SubmissionEvidence.v ===== *)
(** * Human final actions and submission evidence
      ([app/services/submission_evidence_service.py])

    Attestation, signature and payment are recorded by the person they are assigned to;
    the final submission is handed to the operator behind every gate, and its confirmed
    result is stored with evidence and moves the compliance case. *)
From Stdlib Require Import Ascii.
From stdpp Require Import pretty.
From S2P Require Import Prelude Terms PyDate PyJson Roles PortalPolicy PortalStore PortalGovernance PortalRuns PortalSessions.
Open Scope Z_scope.

(** [_validate_evidence_document]. *)
Definition evidence_document_ok (i : uuid) (r : PortalRun) (db : PortalDb) : result exn unit :=
  d ← get (documents db) i;
  _ ← raise_unless (bool_decide (gd_approval d = value ApprovalStatus.APPROVED) &&
                    bool_decide (gd_lifecycle d = value LifecycleStatus.ACTIVE) && truthy_opt (gd_current_version d)) StateConflictError;
  raise_unless (bool_decide ((i, pr_entity r) ∈ document_links db)) StateConflictError.

(** The most recently requested handoff. *)
Definition latest_handoff (run : uuid) (t : HandoffType.HandoffType) (among : list string) (db : PortalDb) : option HumanHandoff :=
  latest hh_requested_at (where_ (fun h => bool_decide (hh_run h = run) && bool_decide (hh_type h = value t) &&
                                            bool_decide (hh_status h ∈ among)) (handoffs db)).
Definition AWAITED : list string := value <$> [HandoffStatus.REQUESTED; HandoffStatus.ACTIVE].

Definition completed_handoff (now : instant) (res : string) (h : HumanHandoff) : HumanHandoff :=
  h <| hh_status := value HandoffStatus.COMPLETED |> <| hh_completed_at := Some now |> <| hh_result := Some res |>.

(** Without a browser session to reconcile, the run waits for its operator again. *)
Definition after_handoff (h : HumanHandoff) (r : PortalRun) : PortalRun :=
  match hh_session h with None => set_status PortalRunStatus.WAITING_OPERATOR r | Some _ => r end.

Section Evidence.
Context (uuid4 : nat -> uuid).

(** ** Attestation and signature *)

(** A text that changed raises: what it marks is rolled back with the rest. *)
Definition ensure_attestation (run : uuid) (attestation_type : string) (required_actor : uuid)
    (text_fingerprint reference : option string) (db : PortalDb) : result exn (PortalAttestationRecord * PortalDb) :=
  r ← get (runs db) run;
  _ ← raise_unless (bool_decide (pr_signatory r = Some required_actor)) StateConflictError;
  match head (where_ (fun a => bool_decide (ar_run a = run) && bool_decide (ar_type a = attestation_type)) (attestations db)) with
  | Some a =>
      _ ← raise_unless (negb (truthy_str (ar_fingerprint a) && truthy_str text_fingerprint &&
                              negb (bool_decide (ar_fingerprint a = text_fingerprint)))) StateConflictError;
      Ok (a, db)
  | None =>
      let a := {| ar_id := uuid4 (next_id db); ar_run := run; ar_type := attestation_type; ar_required_actor := Some required_actor;
                  ar_status := value AttestationStatus.WAITING; ar_fingerprint := text_fingerprint; ar_reference := reference;
                  ar_completed_by := None; ar_completed_at := None; ar_evidence := None |} in
      Ok (a, put_attestation a (drawn db))
  end.

Definition finish_handoff (t : HandoffType.HandoffType) (run : uuid) (res : string) (evidence : option string) (now : instant)
    (db : PortalDb) : result exn PortalDb :=
  match latest_handoff run t AWAITED db with
  | None => Ok db
  | Some h =>
      r ← get (runs db) run;
      let h := completed_handoff now res h <| hh_evidence := or_else evidence (hh_evidence h) |> in
      Ok (put_run (after_handoff h r) (put_handoff h db))
  end.

Definition record_attestation_completion (i : uuid) (c : Caller) (page : string) (evidence : option string) (now : instant)
    (db : PortalDb) : result exn (PortalAttestationRecord * PortalDb) :=
  a ← get (attestations db) i;
  _ ← raise_unless (bool_decide (ar_status a = value AttestationStatus.WAITING)) StateConflictError;
  match ar_required_actor a with
  | None => Err StateConflictError
  | Some u =>
      _ ← raise_unless (owns c u db) StateConflictError;
      _ ← raise_unless (negb (bool_decide (page ∈ ["attestation"; "final_submit"]))) StateConflictError;
      _ ← raise_unless (truthy_str evidence) StateConflictError;
      let proof := str_take 1000 <$> evidence in
      let a := a <| ar_status := value AttestationStatus.COMPLETED_BY_HUMAN |> <| ar_completed_by := Some (actor_id c) |>
                 <| ar_completed_at := Some now |> <| ar_evidence := proof |> in
      db ← finish_handoff HandoffType.ATTESTATION (ar_run a) "COMPLETED_BY_HUMAN" proof now (put_attestation a db);
      Ok (a, audit "portal_attestation_record" i "portal_attestation_human_completion_recorded" (Some (actor_id c)) db)
  end.

Definition record_signature_completion (i : uuid) (c : Caller) (evidence : option string) (now : instant) (db : PortalDb)
    : result exn (HumanHandoff * PortalDb) :=
  match handoffs db !! i with
  | None => Err StateConflictError
  | Some h =>
      _ ← raise_unless (bool_decide (hh_type h = value HandoffType.SIGNATURE) &&
                        bool_decide (hh_status h = value HandoffStatus.ACTIVE)) StateConflictError;
      match hh_user h with
      | None => Err StateConflictError
      | Some u =>
          _ ← raise_unless (owns c u db) StateConflictError;
          r ← get (runs db) (hh_run h);
          match pr_form r with
          | None => Err StateConflictError
          | Some fi =>
              match form_instances db !! fi with
              | None => Err StateConflictError
              | Some f =>
                  _ ← raise_unless (fo_signature_required f && bool_decide (fo_status f ∈ _SIGNED_FORM_STATUSES)) StateConflictError;
                  match fo_signed_document f with
                  | None => Err StateConflictError
                  | Some d =>
                      _ ← evidence_document_ok d r db;
                      let h := completed_handoff now "SIGNED_BY_AUTHORIZED_PERSON" h
                        <| hh_evidence := Some (if truthy_str evidence then str_take 1000 (default "" evidence) else "document:" +:+ d) |> in
                      Ok (h, audit "human_handoff" i "portal_signature_human_completion_recorded" (Some (actor_id c))
                               (put_run (after_handoff h r) (put_handoff h db)))
                  end
              end
          end
      end
  end.

(** ** Payment *)

Definition same_payment (p : PortalPaymentRecord) (fee : option json) (currency : option string) (summary : option json) : bool :=
  let eq a b := match a, b with Some a, Some b => py_eq a b | None, None => true | _, _ => false end in
  eq (pp_fee p) fee && bool_decide (pp_currency p = currency) && eq (pp_summary p) summary.

Definition run_payment (run : uuid) (db : PortalDb) : option PortalPaymentRecord :=
  head (where_ (fun p => bool_decide (pp_run p = run)) (payments db)).

Definition ensure_payment (run : uuid) (fee : option json) (currency : option string) (summary : option json) (db : PortalDb)
    : result exn (PortalPaymentRecord * PortalDb) :=
  r ← get (runs db) run;
  match run_payment run db with
  | None =>
      let p := {| pp_id := uuid4 (next_id db); pp_run := run; pp_status := value PaymentStatus.REVIEW_REQUIRED; pp_fee := fee;
                  pp_currency := currency; pp_summary := summary; pp_approved_by := None; pp_approved_at := None;
                  pp_paid_by := None; pp_paid_at := None; pp_reference := None; pp_receipt := None |} in
      Ok (p, put_payment p (drawn db))
  | Some p =>
      if bool_decide (pp_status p = value PaymentStatus.APPROVED) && negb (same_payment p fee currency summary) then
        let p := p <| pp_status := value PaymentStatus.REVIEW_REQUIRED |> in
        Ok (p, put_run (set_status PortalRunStatus.DISCREPANCIES_FOUND r) (put_payment p db))
      else Ok (p, db)
  end.

(** The payment and its run, for the assigned approver only. *)
Definition payment_for (i : uuid) (c : Caller) (db : PortalDb) : result exn (PortalPaymentRecord * PortalRun) :=
  p ← get (payments db) i;
  r ← get (runs db) (pp_run p);
  match pr_payment_approver r with
  | None => Err StateConflictError
  | Some u => _ ← raise_unless (owns c u db) StateConflictError; Ok (p, r)
  end.

Definition approve_payment (i : uuid) (c : Caller) (now : instant) (db : PortalDb) : result exn (PortalPaymentRecord * PortalDb) :=
  '(p, _) ← payment_for i c db;
  _ ← raise_unless (bool_decide (pp_status p = value PaymentStatus.REVIEW_REQUIRED)) StateConflictError;
  let p := p <| pp_status := value PaymentStatus.APPROVED |> <| pp_approved_by := Some (actor_id c) |> <| pp_approved_at := Some now |> in
  Ok (p, put_payment p db).

Definition record_external_payment (i : uuid) (c : Caller) (reference : option string) (receipt : option uuid) (now : instant)
    (db : PortalDb) : result exn (PortalPaymentRecord * PortalDb) :=
  '(p, r) ← payment_for i c db;
  _ ← raise_unless (bool_decide (pp_status p = value PaymentStatus.APPROVED)) StateConflictError;
  _ ← match receipt with Some d => evidence_document_ok d r db | None => Ok tt end;
  let p := p <| pp_status := value PaymentStatus.PAID_EXTERNALLY |> <| pp_paid_by := Some (actor_id c) |> <| pp_paid_at := Some now |>
             <| pp_reference := reference |> <| pp_receipt := receipt |> in
  db ← finish_handoff HandoffType.PAYMENT (pr_id r) "PAID_EXTERNALLY" None now (put_payment p db);
  Ok (p, audit "portal_payment_record" i "external_payment_recorded" (Some (actor_id c)) db).

(** ** The final submission *)

Definition attestation_done (a : PortalAttestationRecord) : bool :=
  bool_decide (ar_status a ∈ value <$> [AttestationStatus.NOT_REQUIRED; AttestationStatus.COMPLETED_BY_HUMAN]).
Definition attestations_done (run : uuid) (db : PortalDb) : bool :=
  forallb attestation_done (where_ (fun a => bool_decide (ar_run a = run)) (attestations db)).
Definition form_signed (r : PortalRun) (db : PortalDb) : bool :=
  match pr_form r ≫= fun f => form_instances db !! f with
  | Some f => negb (fo_signature_required f) || bool_decide (fo_status f ∈ _SIGNED_FORM_STATUSES)
  | None => true
  end.
Definition payment_done (run : uuid) (db : PortalDb) : bool :=
  match run_payment run db with
  | Some p => bool_decide (pp_status p ∈ value <$> [PaymentStatus.NOT_REQUIRED; PaymentStatus.PAID_EXTERNALLY])
  | None => true
  end.

Definition request_final_submit_handoff (i : uuid) (c : Caller) (now : instant) (db : PortalDb)
    : result exn (HumanHandoff * PortalDb * bool) :=
  r ← get (runs db) i;
  _ ← revalidate_governance r now db;
  _ ← raise_unless (truthy_opt (approved_snapshot i db)) StateConflictError;
  _ ← raise_unless (attestations_done i db) StateConflictError;
  _ ← raise_unless (form_signed r db) StateConflictError;
  _ ← raise_unless (payment_done i db) StateConflictError;
  match pr_operator r with
  | None => Err StateConflictError
  | Some u =>
      match newest (operator_sessions i u db) with
      | None => Err StateConflictError
      | Some b => create_handoff uuid4 i (Some c) (value HandoffType.FINAL_SUBMIT) (Some u) None (Some (bs_id b)) now db
      end
  end.

Definition any_status : list string := value <$> HandoffStatus.all.
Definition final_handoff (run : uuid) (db : PortalDb) : option HumanHandoff := latest_handoff run HandoffType.FINAL_SUBMIT any_status db.

Definition request_submission_reconciliation (i : uuid) (c : Caller) (outcome page : string) (ambiguous : bool) (now : instant)
    (db : PortalDb) : result exn (PortalRun * PortalDb) :=
  r ← get (runs db) i;
  match final_handoff i db with
  | None => Err StateConflictError
  | Some h =>
      _ ← raise_unless (bool_decide (hh_status h = value HandoffStatus.ACTIVE)) StateConflictError;
      match hh_user h, hh_session h with
      | Some u, Some s =>
          _ ← raise_unless (owns c u db) StateConflictError;
          _ ← raise_unless (negb (bool_decide (pr_status r = value PortalRunStatus.SUBMITTED))) StateConflictError;
          let h := h <| hh_result := Some "HUMAN_ACTION_REPORTED" |>
                     <| hh_confirmation := Some ("outcome=" +:+ str_take 40 outcome +:+ "; page=" +:+ str_take 80 page +:+
                                                 "; ambiguous=" +:+ (if ambiguous then "True" else "False")) |> in
          let r := set_status PortalRunStatus.SUBMISSION_RESULT_PENDING r in
          Ok (r, enqueue uuid4 {| nj_type := PortalJobType.CAPTURE_SUBMISSION_RESULT;
                   nj_key := "portal-submission-capture:" +:+ hh_id h; nj_run := Some i; nj_session := Some s;
                   nj_payload := [("handoff_id", JStr (hh_id h)); ("reported_by_actor", JStr (actor_id c));
                                  ("reported_outcome", JStr (str_take 40 outcome)); ("reported_ambiguous", JBool ambiguous)];
                   nj_max_attempts := 1 |} now (put_run r (put_handoff h db)))
      | _, _ => Err StateConflictError
      end
  end.

(** The case moves to its regulator or vendor, and a follow-up deadline is added. *)
Definition _advance_case (r : PortalRun) (ev : uuid) (c : Caller) (now : instant) (db : PortalDb) : result exn PortalDb :=
  match CaseService.find_case (pr_case r) (case_db db) with
  | None => Err NotFoundError
  | Some k =>
      _ ← raise_unless (bool_decide (CaseService.current_stage k = value Vocabulary.CaseStage.SUBMISSION_PENDING)) StateConflictError;
      let vendor := match portals db !! pr_portal r with
                    | Some p => bool_decide (pt_type p ∈ ["LICENSING_VENDOR"; "BOND_PROVIDER"]) | None => false end in
      let to_stage := if vendor then value Vocabulary.CaseStage.SUBMITTED_TO_VENDOR
                      else value Vocabulary.CaseStage.SUBMITTED_TO_REGULATOR in
      '(_, cdb) ← CaseService.transition (pr_case r) to_stage (actor_id c) (Some "Human portal submission verified.")
                    [("submission_reference", JStr ev); ("portal_run_id", JStr (pr_id r))] None now (case_db db);
      let key := "portal-follow-up:" +:+ pr_id r in
      let rows := follow_ups db in
      Ok (db <| case_db := cdb |>
             <| follow_ups := if bool_decide (key ∈ (fun f => f.1.1) <$> rows) then rows
                              else rows ++ [(key, pr_case r, now + 7 * 86400000000)] |>)
  end.

Definition new_confirmation (i : uuid) (r : PortalRun) (c : Caller) (confirmation reference : option string) (document : option uuid)
    (now : instant) : SubmissionEvidence :=
  {| ev_id := i; ev_run := pr_id r; ev_type := value SubmissionEvidenceType.PORTAL_CONFIRMATION; ev_confirmation := confirmation;
     ev_filing_reference := reference; ev_submission_status := Some "SUBMITTED"; ev_submitted_by := actor_id c;
     ev_submitted_at := Some now; ev_document := document; ev_screenshot_uri := None; ev_receipt_uri := None; ev_sha256 := None;
     ev_verified_by := actor_id c; ev_verified_at := now |}.

Record SubmissionResult := {
  sr_outcome : string;
  sr_page : string;
  sr_ambiguous : bool;
  sr_confirmation : option string;
  sr_reference : option string;
  sr_document : option uuid
}.

Definition capture_submission_result (i : uuid) (c : Caller) (s : SubmissionResult) (now : instant) (db : PortalDb)
    : result exn (PortalRun * PortalDb) :=
  r ← get (runs db) i;
  match final_handoff i db with
  | None => Err StateConflictError
  | Some h =>
      _ ← raise_unless (bool_decide (hh_status h ∈ value <$> [HandoffStatus.ACTIVE; HandoffStatus.COMPLETED])) StateConflictError;
      _ ← raise_unless (match hh_user h with Some u => owns c u db | None => true end) StateConflictError;
      _ ← raise_unless (negb (bool_decide (pr_status r = value PortalRunStatus.SUBMITTED))) StateConflictError;
      let outcome := str_upper (sr_outcome s) in
      if sr_ambiguous s || negb (bool_decide (outcome ∈ ["CONFIRMED"; "FAILED"])) then
        let r := set_error (Some "ambiguous_submission_result")
                   (Some "Final action outcome is ambiguous. Reconcile evidence; never retry submission.")
                   (set_status PortalRunStatus.SUBMISSION_RESULT_PENDING r) in
        Ok (r, put_run r db)
      else if bool_decide (outcome = "FAILED") then
        let r := set_status PortalRunStatus.SUBMISSION_FAILED r in
        let h := h <| hh_status := value HandoffStatus.COMPLETED |> <| hh_completed_at := Some now |> in
        Ok (r, put_run r (put_handoff h db))
      else
        _ ← raise_unless (bool_decide (sr_page s = "confirmation")) StateConflictError;
        _ ← raise_unless (truthy_str (sr_confirmation s) || truthy_str (sr_reference s) || truthy_opt (sr_document s)) StateConflictError;
        _ ← match sr_document s with Some d => evidence_document_ok d r db | None => Ok tt end;
        let ev := new_confirmation (uuid4 (next_id db)) r c (sr_confirmation s) (sr_reference s) (sr_document s) now in
        let h := completed_handoff now "CONFIRMED" h in
        let r := set_error None None (set_status PortalRunStatus.SUBMITTED r) <| pr_submitted_at := Some now |> in
        db ← _advance_case r (ev_id ev) c now (put_run r (put_handoff h (add_evidence_row ev (drawn db))));
        Ok (r, audit "portal_run" i "human_submission_evidence_verified" (Some (actor_id c)) db)
  end.

(** ** Other evidence *)

Record NewEvidence := {
  ne_type : string;
  ne_confirmation : option string;
  ne_reference : option string;
  ne_status : option string;
  ne_document : option uuid;
  ne_screenshot_uri : option string;
  ne_receipt_uri : option string;
  ne_sha256 : option string;
  ne_submitted_at : option instant
}.

Definition governed_uri (u : option string) : bool := negb (truthy_str u) || is_prefix "sharepoint://" (default "" u).

Definition add_evidence (i : uuid) (c : Caller) (n : NewEvidence) (now : instant) (db : PortalDb)
    : result exn (SubmissionEvidence * PortalDb) :=
  r ← get (runs db) i;
  _ ← raise_unless (is_value (A := SubmissionEvidenceType.SubmissionEvidenceType) (ne_type n)) StateConflictError;
  _ ← match ne_document n with Some d => evidence_document_ok d r db | None => Ok tt end;
  _ ← raise_unless (governed_uri (ne_screenshot_uri n) && governed_uri (ne_receipt_uri n)) StateConflictError;
  _ ← raise_unless (truthy_str (ne_confirmation n) || truthy_str (ne_reference n) || truthy_opt (ne_document n) ||
                    truthy_str (ne_sha256 n)) StateConflictError;
  let ev := {| ev_id := uuid4 (next_id db); ev_run := i; ev_type := ne_type n; ev_confirmation := ne_confirmation n;
               ev_filing_reference := ne_reference n; ev_submission_status := ne_status n; ev_submitted_by := actor_id c;
               ev_submitted_at := ne_submitted_at n; ev_document := ne_document n; ev_screenshot_uri := ne_screenshot_uri n;
               ev_receipt_uri := ne_receipt_uri n; ev_sha256 := ne_sha256 n; ev_verified_by := actor_id c; ev_verified_at := now |} in
  Ok (ev, audit "submission_evidence" (ev_id ev) "submission_evidence_recorded" (Some (actor_id c)) (add_evidence_row ev (drawn db))).
End Evidence.
