(* ===== verification/PortalEntry.v ===== *)
(** * Field entry and document upload ([app/services/portal_entry_service.py])

    Which value a mapped field gets and from where, what is recorded when it was entered
    or observed, and the upload of the packet's documents.  [py_str] is [str] of a JSON
    value that is not a string; the keyring is the environment's, when there is one. *)
From Stdlib Require Import Ascii SpecFloat.
From stdpp Require Import pretty.
From S2P Require Import Prelude Terms PyDate PyJson Crypto Roles PortalPolicy PortalStore PortalGovernance PortalRuns PortalSessions.
Open Scope Z_scope.

Definition _ALLOWED_ENTITY_FIELDS : list string :=
  ["legal_name"; "display_name"; "formation_jurisdiction"; "formation_date"; "nmls_id"; "primary_business_address"; "mailing_address"].
Definition _ALLOWED_LICENSE_FIELDS : list string :=
  ["license_number"; "nmls_license_id"; "filing_channel"; "issue_date"; "effective_date"; "expiration_date"; "renewal_due_date"].
Definition _ALLOWED_CASE_FIELDS : list string := ["case_key"; "case_type"; "statutory_due_date"; "internal_target_date"].

Record ResolvedPortalField := { rp_field : uuid; rp_key : string; rp_value : string; rp_fingerprint : string; rp_sensitive : bool }.

Definition allowed_key (k : option string) (l : list string) : result exn string :=
  match k with Some s => _ ← raise_unless (bool_decide (s ∈ l)) StateConflictError; Ok s | None => Err StateConflictError end.

Section Entry.
Context (uuid4 : nat -> uuid) (py_str : json -> string).
Context (float_text : json -> string) (not_finite : spec_float -> json).
Context (sha256 : string -> string) (hmac : string -> string -> string).
Context (aes_decrypt : string -> string -> string -> string -> option string).
Context (settings : PortalSettings) (keyring : option Keyring).

(** ** Values *)

(** [str(v)] and [bool(v)] of an attribute. *)
Definition attr_text (v : attr) : string :=
  match v with ANone => "None" | AText s => s | ADate d => isoformat d | AJson j => text_of py_str j end.
Definition attr_truthy (v : attr) : bool :=
  match v with ANone => false | AText s => negb (bool_decide (s = "")) | ADate _ => true | AJson j => truthy j end.

(** The result of a transformation of [_TRANSFORMS]; none for an unknown key. *)
Definition _TRANSFORMS (key : option string) (v : attr) : option attr :=
  match key with
  | None => Some v
  | Some k =>
      if bool_decide (k = "UPPERCASE") then Some (AText (str_upper (attr_text v)))
      else if bool_decide (k = "LOWERCASE") then Some (AText (str_lower (attr_text v)))
      else if bool_decide (k = "TRIM") then Some (AText (strip (attr_text v)))
      else if bool_decide (k = "DATE_MMDDYYYY") then
        Some (match v with ADate d => AText (month_day_year d) | _ => AText (attr_text v) end)
      else if bool_decide (k = "BOOLEAN_YES_NO") then Some (AText (if attr_truthy v then "Yes" else "No"))
      else None
  end.

Definition attr_eq (v : attr) (j : json) : bool :=
  match v with ANone => py_eq JNull j | AText s => py_eq (JStr s) j | ADate _ => false | AJson x => py_eq x j end.

(** A list of allowed values, or the keys of a dict of them. *)
Definition allowed_list (j : json) : list json :=
  match j with JList l => l | JDict d => JStr <$> d.*1 | _ => [] end.
Definition value_allowed (v : attr) (allowed : option json) : bool :=
  match allowed with
  | None => true
  | Some j => existsb (attr_eq v) (allowed_list j) ||
              bool_decide (attr_text v ∈ text_of py_str <$> allowed_list j)
  end.

Definition cipher : result exn Keyring := match keyring with Some k => Ok k | None => Err EncryptionUnavailableError end.

(** Plain hashes stand in for keyed ones in local and test environments. *)
Definition _fingerprint (t : string) : result exn string :=
  match keyring with
  | Some k => fingerprint float_text sha256 hmac k (JStr t)
  | None => if bool_decide (app_env settings ∈ ["local"; "test"]) then Ok (content_sha256 float_text sha256 (JStr t))
            else Err EncryptionUnavailableError
  end.

Definition _read_form_value (f : FormFieldValue) : result exn string :=
  match fv_plain f, fv_encrypted f with
  | Some t, _ => Ok t
  | None, Some e =>
      _ ← raise_unless (negb (bool_decide (e = ""))) StateConflictError;
      k ← cipher; decrypt aes_decrypt k e "form_field_value" (fv_id f)
  | None, None => Err StateConflictError
  end.

Definition _read_information_value (v : InfoRegistry.InformationValue) : result exn attr :=
  match InfoRegistry.iv_plain v, InfoRegistry.iv_encrypted v with
  | Some j, _ => Ok (AJson j)
  | None, Some e =>
      _ ← raise_unless (negb (bool_decide (e = ""))) StateConflictError;
      k ← cipher; AJson <$> decrypt_json aes_decrypt not_finite k e "information_value" (InfoRegistry.iv_id v)
  | None, None => Err StateConflictError
  end.

(** An approved value of the definition for the legal entity. *)
Definition registry_value (key : string) (entity : uuid) (db : PortalDb) : option InfoRegistry.InformationValue :=
  head (filter (fun v => InfoRegistry.iv_status v = "APPROVED" /\ InfoRules.vs_entity (InfoRegistry.iv_scope v) = Some entity /\
                         Exists (fun d => InfoRegistry.df_key d = key /\ InfoRegistry.df_id d = InfoRegistry.iv_definition v)
                           (rows (InfoRegistry.definitions (information db))))
               (rows (InfoRegistry.values (information db)))).

(** [getattr(case, key)] for an allowed key. *)
Definition case_attribute (k : string) (c : CaseService.ComplianceCase) (db : PortalDb) : attr :=
  let of_date d := match d with Some d => ADate d | None => ANone end in
  if bool_decide (k = "case_type") then AText (CaseService.case_type c)
  else if bool_decide (k = "statutory_due_date") then of_date (CaseService.case_statutory_due_date c)
  else if bool_decide (k = "internal_target_date") then of_date (CaseService.internal_target_date c)
  else AText (default "" (case_keys db !! CaseService.case_id c)).

Definition attribute (k : string) (attrs : list (string * attr)) : attr := default ANone (dget k attrs).

Definition _resolve_value (r : PortalRun) (m : PortalFieldMapping) (today : date) (db : PortalDb) : result exn (attr * option uuid) :=
  match of_value (fm_source_type m) with
  | Some PortalFieldSourceType.FORM_INSTANCE_FIELD =>
      match pr_form r, fm_source_key m with
      | Some fi, Some k =>
          _ ← raise_unless (negb (bool_decide (k = ""))) StateConflictError;
          match head (filter (fun f => fv_form f = fi /\ fv_key f = k) (form_values db)) with
          | None => Err StateConflictError
          | Some f =>
              _ ← raise_unless (bool_decide (fv_status f = value FormFieldValueStatus.APPROVED)) StateConflictError;
              t ← _read_form_value f; Ok (AText t, Some (fv_id f))
          end
      | _, _ => Err StateConflictError
      end
  | Some PortalFieldSourceType.INFORMATION_REGISTRY =>
      match fm_source_key m with
      | None => Err StateConflictError
      | Some k =>
          _ ← raise_unless (negb (bool_decide (k = ""))) StateConflictError;
          match registry_value k (pr_entity r) db with
          | None => Err StateConflictError
          | Some v =>
              _ ← raise_unless (match InfoRegistry.iv_valid_to v with Some t => negb (t <? today) | None => true end) StateConflictError;
              x ← _read_information_value v; Ok (x, Some (InfoRegistry.iv_id v))
          end
      end
  | Some PortalFieldSourceType.LEGAL_ENTITY =>
      k ← allowed_key (fm_source_key m) _ALLOWED_ENTITY_FIELDS;
      attrs ← get (legal_entities db) (pr_entity r);
      Ok (attribute k attrs, Some (pr_entity r))
  | Some PortalFieldSourceType.LICENSE_INVENTORY =>
      k ← allowed_key (fm_source_key m) _ALLOWED_LICENSE_FIELDS;
      match pr_license r with
      | None => Err StateConflictError
      | Some l =>
          match licence_sources db !! l with
          | None => Err StateConflictError
          | Some s =>
              _ ← raise_unless (bool_decide (ls_entity s = pr_entity r)) StateConflictError;
              Ok (attribute k (ls_attrs s), Some l)
          end
      end
  | Some PortalFieldSourceType.COMPLIANCE_CASE =>
      k ← allowed_key (fm_source_key m) _ALLOWED_CASE_FIELDS;
      match CaseService.find_case (pr_case r) (case_db db) with
      | None => Err StateConflictError
      | Some c =>
          _ ← raise_unless (bool_decide (CaseService.case_legal_entity_id c = pr_entity r)) StateConflictError;
          Ok (case_attribute k c db, Some (pr_case r))
      end
  | _ => Err StateConflictError
  end.

Definition sensitive (m : PortalFieldMapping) : bool := negb (bool_decide (str_upper (fm_sensitivity m) ∈ ["PUBLIC"; "INTERNAL"])).

(** The text to enter. *)
Definition entry_text (m : PortalFieldMapping) (v : attr) : result exn string :=
  match _TRANSFORMS (fm_transformation m) v with
  | None => Err StateConflictError
  | Some v =>
      _ ← raise_unless (value_allowed v (fm_allowed_values m)) StateConflictError;
      let t := attr_text v in
      _ ← match dget "max_length" (fm_rules m) with
          | None | Some JNull => Ok tt
          | Some x => n ← py_int x; raise_unless (Z.of_nat (String.length t) <=? n) StateConflictError
          end;
      Ok t
  end.

(** The fields the worker may enter, in the order of their mappings. *)
Definition enterable (run : uuid) (db : PortalDb) : list (PortalRunField * PortalFieldMapping) :=
  py_sorted (fun a b => fm_sort_order a.2 <=? fm_sort_order b.2)
    (omap (fun f => match mapping_for f db with
                    | Some m => if bool_decide (rf_status f ∈ value <$> [PortalFieldStatus.PENDING; PortalFieldStatus.DISCREPANCY]) &&
                                   negb (fm_human_only m)
                                then Some (f, m) else None
                    | None => None end)
          (where_ (fun f => bool_decide (rf_run f = run)) (fields db))).

Definition resolve_one (r : PortalRun) (today : date) (s : list ResolvedPortalField * PortalDb) (row : PortalRunField * PortalFieldMapping)
    : result exn (list ResolvedPortalField * PortalDb) :=
  let '(f, m) := row in
  '(v, source) ← _resolve_value r m today s.2;
  t ← entry_text m v;
  h ← _fingerprint t;
  Ok (s.1 ++ [{| rp_field := rf_id f; rp_key := rf_key f; rp_value := t; rp_fingerprint := h; rp_sensitive := sensitive m |}],
      put_field (f <| rf_source_id := source |> <| rf_approved := Some h |>) s.2).

Definition resolve_fields_for_worker (i : uuid) (now : instant) (today : date) (db : PortalDb)
    : result exn (list ResolvedPortalField * PortalDb) :=
  r ← get (runs db) i;
  _ ← revalidate_governance r now db;
  foldR (resolve_one r today) ([], db) (enterable i db).

(** ** Entering *)

Definition queue_field_entry (i : uuid) (c : Caller) (now : instant) (db : PortalDb) : result exn (PortalRun * PortalDb) :=
  r ← get (runs db) i;
  _ ← may_act "ENTER_FIELD" r now db;
  b ← active_browser_session r c db;
  let r := set_status PortalRunStatus.ENTRY_IN_PROGRESS r in
  Ok (r, audit "portal_run" i "portal_field_entry_queued" (Some (actor_id c))
           (enqueue_fresh uuid4 PortalJobType.ENTER_FIELDS "portal-enter-fields:" i (bs_id b) [] 2 i now (put_run r db))).

(** [_invalidate_snapshot] of this service records the reason on the run. *)
Definition _invalidate_snapshot (run : uuid) (reason : string) (db : PortalDb) : result exn PortalDb :=
  match approved_snapshot run db with
  | None => Ok db
  | Some p =>
      r ← get (runs db) run;
      let '(r, db) := invalidated r p db in
      Ok (put_run (set_error (Some "snapshot_invalidated") (Some (str_take 500 reason)) r) db)
  end.

Definition verified_field (who : string) (now : instant) (f : PortalRunField) : PortalRunField :=
  f <| rf_status := value PortalFieldStatus.VERIFIED |> <| rf_code := None |> <| rf_blocking := false |>
    <| rf_verified_by := Some who |> <| rf_verified_at := Some now |>.
Definition mismatched_field (f : PortalRunField) : PortalRunField :=
  f <| rf_status := value PortalFieldStatus.DISCREPANCY |> <| rf_code := Some "VALUE_MISMATCH" |> <| rf_blocking := true |>.

Definition record_worker_field_result (i : uuid) (entered displayed : string) (worker : string) (now : instant) (db : PortalDb)
    : result exn (PortalRunField * PortalDb) :=
  f ← get (fields db) i;
  match mapping_for f db with
  | None => Err StateConflictError
  | Some m =>
      _ ← raise_unless (negb (fm_human_only m)) StateConflictError;
      he ← _fingerprint entered;
      hd ← _fingerprint displayed;
      let f := f <| rf_entered := Some he |> <| rf_display := Some (redact_display displayed (sensitive m)) |>
                 <| rf_entered_by := Some worker |> <| rf_entered_at := Some now |> in
      let f := if bool_decide (Some he = rf_approved f) && bool_decide (Some hd = rf_approved f)
               then verified_field worker now f else mismatched_field f in
      db ← _invalidate_snapshot (rf_run f) "Portal field changed." db;
      Ok (f, put_field f db)
  end.

Definition record_human_field_observation (i : uuid) (c : Caller) (displayed expected : string) (is_sensitive : bool) (now : instant)
    (db : PortalDb) : result exn (PortalRunField * PortalDb) :=
  f ← get (fields db) i;
  _ ← raise_unless (bool_decide (rf_approved f = Some expected)) StateConflictError;
  hd ← _fingerprint displayed;
  let f := f <| rf_entered := Some hd |> <| rf_display := Some (redact_display displayed is_sensitive) |>
             <| rf_entered_by := Some (actor_id c) |> <| rf_entered_at := Some now |> <| rf_verified_by := Some (actor_id c) |>
             <| rf_verified_at := Some now |> in
  let f := if bool_decide (Some hd = rf_approved f) then verified_field (actor_id c) now f else mismatched_field f in
  db ← _invalidate_snapshot (rf_run f) "Human portal field changed." db;
  Ok (f, audit "portal_run_field" i "portal_field_human_observation" (Some (actor_id c)) (put_field f db)).

(** ** Documents *)

Definition _validate_document (d : PortalRunDocument) (today : date) (db : PortalDb) : result exn GovernedVersion :=
  r ← get (runs db) (rd_run d);
  match documents db !! rd_document d, document_versions db !! rd_version d with
  | Some g, Some v =>
      _ ← raise_unless (governed g v (Some (rd_sha256 d)) today) StateConflictError;
      _ ← raise_unless (truthy_opt (pr_packet r)) StateConflictError;
      Ok v
  | _, _ => Err StateConflictError
  end.

Definition pending_upload (today : date) (s : Z * PortalDb) (d : PortalRunDocument) : result exn (Z * PortalDb) :=
  v ← _validate_document d today s.2;
  _ ← raise_unless (bool_decide (gv_mime v ∈ portal_upload_allowed_mime_types settings)) StateConflictError;
  Ok (s.1 + gv_size v, put_document (d <| rd_status := value PortalDocumentStatus.UPLOAD_PENDING |>) s.2).

Definition queue_document_upload (i : uuid) (c : Caller) (now : instant) (today : date) (db : PortalDb) : result exn (PortalRun * PortalDb) :=
  r ← get (runs db) i;
  _ ← may_act "UPLOAD_DOCUMENT" r now db;
  b ← active_browser_session r c db;
  let ds := documents_of i db in
  _ ← raise_unless (negb (bool_decide (length ds = 0%nat))) StateConflictError;
  _ ← raise_unless (Z.of_nat (length ds) <=? portal_upload_max_files settings) StateConflictError;
  '(total, db) ← foldR (pending_upload today) (0, db) ds;
  _ ← raise_unless (total <=? portal_upload_max_total_bytes settings) StateConflictError;
  let r := set_status PortalRunStatus.UPLOAD_IN_PROGRESS r in
  Ok (r, audit "portal_run" i "portal_document_upload_queued" (Some (actor_id c))
           (enqueue_fresh uuid4 PortalJobType.UPLOAD_DOCUMENTS "portal-upload:" i (bs_id b) [] 2 i now (put_run r db))).

Definition record_document_observation (i : uuid) (actor display : string) (size : Z) (reference : option string) (now : instant)
    (today : date) (db : PortalDb) : result exn (PortalRunDocument * PortalDb) :=
  d ← get (run_documents db) i;
  v ← _validate_document d today db;
  let d := d <| rd_display := Some (str_take 500 display) |> <| rd_size := Some size |>
             <| rd_reference := if truthy_str reference then str_take 500 <$> reference else None |>
             <| rd_uploaded_by := Some actor |> <| rd_uploaded_at := Some (default now (rd_uploaded_at d)) |> in
  let d := if bool_decide (display = rd_filename d) && (size =? gv_size v)
           then d <| rd_status := value PortalDocumentStatus.VERIFIED |> <| rd_verified_at := Some now |> <| rd_mismatch := false |>
           else d <| rd_status := value PortalDocumentStatus.FAILED_REVIEW |> <| rd_mismatch := true |> in
  db ← _invalidate_snapshot (rd_run d) "Portal document state changed." db;
  Ok (d, put_document d db).
End Entry.
