(* ===== verification/PortalAdapters.v ===== *)
(** * Contract-driven portal adapters ([app/portals/adapters/generic_assisted.py],
      [app/browser/locators.py], [app/browser/actions.py])

    What an adapter reads from a page and does to it.  The page is Playwright's: a
    [Page] answers the queries of a locator, and what the adapter does is the list of
    [PageAction]s it issues. *)
From Stdlib Require Import Ascii.
From stdpp Require Import pretty.
From S2P Require Import Prelude PyJson Scoping PortalPolicy.
Open Scope Z_scope.

(** ** The browser's side *)

Inductive Locator :=
| ByRole (role name : json)
| ByTestId (v : json)
| ByLabel (v : json)
| ByCss (selector : json).

Record Page := {
  pg_count : Locator -> Z;
  pg_texts : Locator -> list string;
  pg_text : Locator -> string;
  pg_input : Locator -> string;
  pg_path : string
}.

Inductive PageAction :=
| Goto (url : string)
| Fill (l : Locator) (v : string)
| Upload (l : Locator) (document : uuid)
| Click (l : Locator).

Record PageIdentity := { pi_category : string; pi_fingerprint : string; pi_url_path : string }.

Section Adapter.
Context (py_str : json -> string) (sha256_text : string -> string).
Context (contract : list (string * json)).

Definition or_null (o : option json) : json := default JNull o.

(** The name selector holds the text of the value. *)
Definition resolve_locator (c : list (string * json)) : result exn Locator :=
  let v := or_null (dget "value" c) in
  match dget "strategy" c with
  | Some (JStr s) =>
      if bool_decide (s = "role") then Ok (ByRole v (or_null (dget "name" c)))
      else if bool_decide (s = "test_id") then Ok (ByTestId v)
      else if bool_decide (s = "name") then
        Ok (ByCss (JStr (String "[" ("name=" +:+ String (ascii_of_nat 34) (text_of py_str v +:+ String (ascii_of_nat 34) "]")))))
      else if bool_decide (s = "label") then Ok (ByLabel v)
      else if bool_decide (s = "css") then Ok (ByCss v)
      else Err StateConflictError
  | _ => Err StateConflictError
  end.

Definition require_unique (p : Page) (l : Locator) : result exn Locator :=
  _ ← raise_unless (pg_count p l =? 1) StateConflictError; Ok l.

Definition dict_of (o : option json) : option (list (string * json)) := match o with Some (JDict d) => Some d | _ => None end.

Definition _page_contract (category : string) : result exn (list (string * json)) :=
  match dict_of (dget category contract) with Some d => Ok d | None => Err StateConflictError end.

(** ** Which page this is *)

(** The pages of the contract whose fingerprint is there exactly once. *)
Fixpoint matching_pages (p : Page) (pages : list (string * json)) : result exn (list PageIdentity) :=
  match pages with
  | [] => Ok []
  | (category, c) :: pages =>
      match dict_of (Some c) with
      | None => matching_pages p pages
      | Some d =>
          match dict_of (dget "fingerprint" d) with
          | None => matching_pages p pages
          | Some f =>
              l ← resolve_locator f;
              rest ← matching_pages p pages;
              Ok (if pg_count p l =? 1 then
                    {| pi_category := category;
                       pi_fingerprint := match dget "page_fingerprint" d with Some v => text_of py_str v | None => category end;
                       pi_url_path := str_take 500 (pg_path p) |} :: rest
                  else rest)
          end
      end
  end.

Definition identify_current_page (p : Page) : result exn (option PageIdentity) :=
  l ← matching_pages p contract; Ok (match l with [i] => Some i | _ => None end).

Definition known_page (p : Page) : result exn PageIdentity :=
  i ← identify_current_page p; match i with Some i => Ok i | None => Err StateConflictError end.

Definition detect_login_state (p : Page) : result exn string :=
  i ← identify_current_page p;
  Ok (match i with
      | None => "UNKNOWN"
      | Some i => if bool_decide (pi_category i = "login") then "LOGIN_REQUIRED" else "AUTHENTICATED"
      end).

(** ** Locators of a page *)

(** [contract.get(map, {}).get(key)] as a locator contract; a value of [map] that is not
    a dict has no [get]. *)
Definition locator_in (page : list (string * json)) (map k : string) : result exn (list (string * json)) :=
  match default (JDict []) (dget map page) with
  | JDict m => match dict_of (dget k m) with Some d => Ok d | None => Err StateConflictError end
  | _ => Err AttributeError
  end.

Definition field_locator (p : Page) (field_key : string) : result exn (list (string * json)) :=
  i ← known_page p; c ← _page_contract (pi_category i); locator_in c "locators" field_key.

Definition enter_field (p : Page) (field_key v : string) : result exn (list PageAction) :=
  c ← field_locator p field_key;
  _ ← assert_non_sensitive_action ("field:" +:+ field_key);
  l ← resolve_locator c;
  l ← require_unique p l;
  Ok [Fill l v].

Definition read_field (p : Page) (field_key : string) : result exn string :=
  c ← field_locator p field_key;
  l ← resolve_locator c;
  l ← require_unique p l;
  Ok (pg_input p l).

Definition upload_document (p : Page) (category : string) (document : uuid) : result exn (list PageAction) :=
  i ← known_page p;
  c ← _page_contract (pi_category i);
  c ← locator_in c "upload_locators" category;
  _ ← assert_non_sensitive_action ("upload:" +:+ category);
  l ← resolve_locator c;
  l ← require_unique p l;
  Ok [Upload l document].

Definition list_validation_messages (p : Page) : result exn (list (list (string * json))) :=
  i ← known_page p;
  c ← _page_contract (pi_category i);
  match dict_of (dget "validation_locator" c) with
  | None => Ok []
  | Some d =>
      l ← resolve_locator d;
      Ok ((fun t => [("category", JStr (pi_category i)); ("message", JStr (str_take 1000 t))]) <$> pg_texts p l)
  end.

Definition verify_uploaded_document (p : Page) (filename : string) (size_bytes : Z) : result exn bool :=
  i ← identify_current_page p;
  match i with
  | None => Ok false
  | Some i =>
      c ← _page_contract (pi_category i);
      match dict_of (dget "uploaded_file_locator" c) with
      | None => Ok false
      | Some d =>
          l ← resolve_locator d;
          Ok (existsb (fun t => is_infix filename t && is_infix (pretty size_bytes) t) (pg_texts p l))
      end
  end.

(** [begin_login_handoff], [navigate_to_filing] and [save_draft]. *)
Definition begin_login_handoff (p : Page) : result exn PageIdentity :=
  i ← known_page p; _ ← raise_unless (bool_decide (pi_category i = "login")) StateConflictError; Ok i.

Definition navigate_to_filing (route : list (string * json)) : result exn (list PageAction) :=
  match dget "url" route with Some (JStr u) => Ok [Goto u] | _ => Err StateConflictError end.

Definition save_draft (p : Page) : result exn (list PageAction) :=
  c ← field_locator p "save_draft";
  l ← resolve_locator c;
  l ← require_unique p l;
  Ok [Click l].

(** ** Human-only pages *)

Definition on_page (p : Page) (category : string) : result exn (list (string * json)) :=
  i ← known_page p;
  _ ← raise_unless (bool_decide (pi_category i = category)) StateConflictError;
  _page_contract category.

(** [text.split()] joined by one space. *)
Fixpoint squeeze (pending : bool) (s : string) : string :=
  match s with
  | "" => ""
  | String c s => if is_space c then squeeze true s else if pending then String " " (String c (squeeze false s)) else String c (squeeze false s)
  end.
Definition joined_words (s : string) : string := squeeze false (lstrip s).

Definition read_attestation_fingerprint (p : Page) : result exn (option string) :=
  c ← on_page p "attestation";
  match dict_of (dget "attestation_text_locator" c) with
  | None => Ok None
  | Some d =>
      l ← resolve_locator d;
      l ← require_unique p l;
      Ok (Some (sha256_text (joined_words (pg_text p l))))
  end.

Definition summary_entry (p : Page) (c : list (string * json)) (s : list (string * json)) (keys : string * string)
    : result exn (list (string * json)) :=
  match dict_of (dget keys.2 c) with
  | None => Ok s
  | Some d => l ← resolve_locator d; l ← require_unique p l; Ok (dset keys.1 (JStr (str_take 120 (pg_text p l))) s)
  end.

Definition read_payment_summary (p : Page) : result exn (list (string * json)) :=
  c ← on_page p "payment";
  s ← summary_entry p c [] ("displayed_fee", "fee_amount_locator");
  summary_entry p c s ("currency", "currency_locator").

Record PageResult := { pr_outcome : string; pr_page : string; pr_ambiguous : bool }.

Definition detect_submission_result (p : Page) : result exn PageResult :=
  i ← identify_current_page p;
  Ok (match i with
      | None => {| pr_outcome := "UNKNOWN"; pr_page := "UNKNOWN"; pr_ambiguous := true |}
      | Some i =>
          if bool_decide (pi_category i = "confirmation") then {| pr_outcome := "CONFIRMED"; pr_page := pi_category i; pr_ambiguous := false |}
          else if bool_decide (pi_category i = "submission_error") then
            {| pr_outcome := "FAILED"; pr_page := pi_category i; pr_ambiguous := false |}
          else {| pr_outcome := "PENDING"; pr_page := pi_category i; pr_ambiguous := true |}
      end).

Definition capture_confirmation (p : Page) : result exn string :=
  c ← on_page p "confirmation";
  match dict_of (dget "confirmation_locator" c) with
  | None => Err StateConflictError
  | Some d => l ← resolve_locator d; l ← require_unique p l; Ok (str_take 500 (pg_text p l))
  end.
End Adapter.
