(* ===== verification/PortalWorker.v ===== *)
(** * The browser worker ([app/workers/portal_jobs.py]) and the expiry of portal records
      ([app/workers/scheduling.py])

    A worker claims a job and carries it out on the pages of a live browser session.  It
    works in a world that holds the stored tables, the tables as its database session
    has changed them, the live sessions of its process and what was done in each; a job
    that raises loses the changes it has not committed, and nothing of what it did to
    the portal.  [portal s h] is the page session [s] shows after the actions [h], or
    the browser's failure. *)
From Stdlib Require Import Ascii SpecFloat.
From stdpp Require Import pretty.
From S2P Require Import Prelude Terms Vocabulary PyDate PyJson Crypto Roles PortalPolicy PortalStore PortalGovernance PortalRuns PortalSessions PortalEntry PortalAdapters SubmissionEvidence.
Open Scope Z_scope.

Record World := {
  committed : PortalDb;
  pending : PortalDb;
  live : gmap uuid uuid;
  acts : gmap uuid (list PageAction)
}.
Instance eta_world : Eta World := fun w =>
  {| committed := committed w; pending := pending w; live := live w; acts := acts w |}.

(** ** Computations that read and change the world, and may raise *)

Definition M (A : Type) : Type := World -> result exn A * World.
#[export] Instance m_ret : MRet M := fun A a w => (Ok a, w).
#[export] Instance m_bind : MBind M := fun A B f m w => match m w with (Ok a, w) => f a w | (Err e, w) => (Err e, w) end.

Definition raise {A} (e : exn) : M A := fun w => (Err e, w).
Definition of_result {A} (r : result exn A) : M A := fun w => (r, w).
Definition db : M PortalDb := fun w => (Ok (pending w), w).
Definition change (f : PortalDb -> PortalDb) : M unit := fun w => (Ok tt, w <| pending := f (pending w) |>).
Definition commit : M unit := fun w => (Ok tt, w <| committed := pending w |>).
(** A call of a service: its changes stay in the session. *)
Definition call {A} (f : PortalDb -> result exn (A * PortalDb)) : M A := fun w =>
  match f (pending w) with Ok (a, d) => (Ok a, w <| pending := d |>) | Err e => (Err e, w) end.
Definition ensure (b : bool) (e : exn) : M unit := of_result (raise_unless b e).
Definition rolled_back (w : World) : World := w <| pending := committed w |>.

Definition _handoff_for_category (category : string) : option HandoffType.HandoffType :=
  dget category [("login", HandoffType.LOGIN); ("terms", HandoffType.TERMS_ACCEPTANCE); ("mfa", HandoffType.MFA);
    ("captcha", HandoffType.CAPTCHA); ("attestation", HandoffType.ATTESTATION); ("signature", HandoffType.SIGNATURE);
    ("payment", HandoffType.PAYMENT); ("final_submit", HandoffType.FINAL_SUBMIT)].

Definition _category_for_handoff (t : string) : option string :=
  dget t [(value HandoffType.LOGIN, "login"); (value HandoffType.TERMS_ACCEPTANCE, "terms"); (value HandoffType.MFA, "mfa");
    (value HandoffType.CAPTCHA, "captcha"); (value HandoffType.ATTESTATION, "attestation");
    (value HandoffType.SIGNATURE, "signature"); (value HandoffType.PAYMENT, "payment");
    (value HandoffType.FINAL_SUBMIT, "final_submit")].

Definition HUMAN_ONLY_PAGES : list string := ["login"; "terms"; "mfa"; "captcha"; "attestation"; "payment"; "final_submit"].

Definition _system_actor : Caller :=
  {| who := {| actor_id := "portal-browser-worker"; roles := [] |}; tenant_id := "system"; object_id := "portal-browser-worker" |}.
Definition _user_actor (p : UserPrincipal) (actor : string) : Caller :=
  {| who := {| actor_id := actor; roles := [] |}; tenant_id := up_tenant p; object_id := up_object p |}.

(** [d.get(k, {}).get(k')] of a payload. *)
Definition payload_get (k : string) (j : PortalJob) : option json :=
  match dget k (pj_payload j) with Some JNull => None | o => o end.

Section Worker.
Context (uuid4 : nat -> uuid) (py_str : json -> string).
Context (float_text : json -> string) (not_finite : spec_float -> json).
Context (sha256 : string -> string) (hmac : string -> string -> string).
Context (aes_decrypt : string -> string -> string -> string -> option string).
Context (bracketed_ok : string -> bool).
Context (getaddrinfo : string -> option (list string)) (public_address : string -> bool).
Context (settings : PortalSettings) (keyring : option Keyring).
Context (worker_id : string) (portal : uuid -> list PageAction -> result exn Page).
(** The hash of a document as downloaded from its store, or why it was not. *)
Context (downloaded : uuid -> result exn string).
(** The text of an exception, kept with a failed job. *)
Context (message_of name_of : exn -> string).

Notation plain_hash := (fun t => content_sha256 float_text sha256 (JStr t)).

(** ** Pages *)

Definition history (s : uuid) (w : World) : list PageAction := default [] (acts w !! s).
Definition page_of (s : uuid) : M Page := fun w => (portal s (history s w), w).
Definition perform (s : uuid) (l : list PageAction) : M unit := fun w =>
  (Ok tt, w <| acts := <[s := history s w ++ l]> (acts w) |>).
(** Ask the adapter about the page now shown. *)
Definition ask {A} (s : uuid) (f : Page -> result exn A) : M A := p ← page_of s; of_result (f p).
(** Let the adapter act on it. *)
Definition act (s : uuid) (f : Page -> result exn (list PageAction)) : M unit := l ← ask s f; perform s l.

Definition navigate (url host : string) : M unit :=
  of_result (assert_navigation_target bracketed_ok getaddrinfo public_address url host (bool_decide (app_env settings = "test"))).

(** ** The context of a job *)

Definition _run (i : uuid) : M PortalRun :=
  d ← db; match runs d !! i with Some r => mret r | None => raise StateConflictError end.

(** The locator contract of the pinned adapter. *)
Definition _adapter (r : PortalRun) : M (list (string * json)) :=
  match pr_adapter r with
  | None => raise StateConflictError
  | Some i =>
      d ← db;
      match adapters d !! i with
      | None => raise StateConflictError
      | Some a => _ ← of_result (build_adapter (ad_key a)); mret (ad_contract a)
      end
  end.

Definition registry_get (s operator : uuid) : M unit := fun w =>
  (raise_unless (bool_decide (live w !! s = Some operator)) StateConflictError, w).

Definition _active_context (j : PortalJob) (now : instant) : M (PortalRun * BrowserSession * list (string * json)) :=
  match pj_run j, pj_session j with
  | Some i, Some s =>
      r ← _run i;
      d ← db;
      _ ← of_result (revalidate_governance r now d);
      match sessions d !! s with
      | None => raise StateConflictError
      | Some b =>
          _ ← ensure (bool_decide (bs_run b = i)) StateConflictError;
          _ ← ensure (now <? bs_expires_at b) StateConflictError;
          _ ← registry_get s (bs_operator b);
          a ← _adapter r;
          mret (r, b, a)
      end
  | _, _ => raise StateConflictError
  end.

(** The service commits, unless it found an open handoff. *)
Definition hand_off (run : uuid) (t : HandoffType.HandoffType) (target session : option uuid) (now : instant) : M unit :=
  stored ← call (fun d => match create_handoff uuid4 run None (value t) target None session now d with
                          | Ok (h, d, stored) => Ok (stored, d) | Err e => Err e end);
  if stored : bool then commit else mret tt.

Definition _unexpected_page (r : PortalRun) (b : BrowserSession) (now : instant) : M unit :=
  _ ← change (put_run (set_error (Some "unexpected_portal_page") (Some "Portal page did not match the reviewed adapter contract.")
                        (set_status PortalRunStatus.FAILED_REVIEW r)));
  hand_off (pr_id r) HandoffType.UNEXPECTED_PAGE (pr_operator r) (Some (bs_id b)) now.

(** The run is read again where a service may have changed it. *)
Definition set_run_status (i : uuid) (s : PortalRunStatus.PortalRunStatus) : M unit :=
  r ← _run i; change (put_run (set_status s r)).

(** ** Reconciliation with the page shown *)

Definition finish_reconciled (j : PortalJob) (i : uuid) (b : BrowserSession) (category : string) (hid : string) (now : instant) : M unit :=
  d ← db;
  match handoffs d !! hid with
  | None => raise StateConflictError
  | Some h =>
      _ ← ensure (bool_decide (hh_run h = i)) StateConflictError;
      _ ← ensure (match payload_get "expected_page_category" j with
                  | Some (JStr e) => bool_decide (e = "") || bool_decide (category = e)
                  | Some v => negb (truthy v)
                  | None => true end) StateConflictError;
      _ ← ensure (negb (bool_decide (category ∈ HUMAN_ONLY_PAGES) &&
                        bool_decide (Some category = _category_for_handoff (hh_type h)))) StateConflictError;
      let h := h <| hh_status := value HandoffStatus.COMPLETED |> <| hh_completed_at := Some now |> in
      let b := b <| bs_status := value BrowserSessionStatus.ACTIVE_AUTOMATION |> <| bs_activity_at := now |> in
      _ ← call (fun d => d ← store_session b (put_handoff h d); Ok (tt, d));
      _ ← set_run_status i PortalRunStatus.SESSION_ACTIVE;
      commit
  end.

Definition handoff_target (r : PortalRun) (t : HandoffType.HandoffType) : option uuid :=
  match t with
  | HandoffType.ATTESTATION | HandoffType.SIGNATURE => pr_signatory r
  | HandoffType.PAYMENT => pr_payment_approver r
  | _ => pr_operator r
  end.

(** What a page that is for people needs before it is handed on. *)
Definition prepare_handoff (r : PortalRun) (s : uuid) (contract : list (string * json)) (t : HandoffType.HandoffType) : M unit :=
  match t with
  | HandoffType.ATTESTATION =>
      match pr_signatory r with
      | None => raise StateConflictError
      | Some u =>
          f ← ask s (read_attestation_fingerprint py_str plain_hash contract);
          _ ← call (ensure_attestation uuid4 (pr_id r) "PORTAL_LEGAL_ATTESTATION" u f
                      (if truthy_str f then Some "reviewed-portal-attestation-fingerprint" else None));
          mret tt
      end
  | HandoffType.PAYMENT =>
      fees ← ask s (read_payment_summary py_str contract);
      _ ← call (ensure_payment uuid4 (pr_id r) None None (Some (JDict (("requires_human_review", JBool true) :: fees))));
      mret tt
  | _ => mret tt
  end.

Definition _reconcile (j : PortalJob) (r : PortalRun) (b : BrowserSession) (contract : list (string * json)) (now : instant) : M bool :=
  i ← ask (bs_id b) (identify_current_page py_str contract);
  match i with
  | None => _ ← _unexpected_page r b now; mret true
  | Some i =>
      _ ← match payload_get "handoff_id" j with
          | Some (JStr h) => if bool_decide (h = "") then mret tt else finish_reconciled j (pr_id r) b (pi_category i) h now
          | _ => mret tt
          end;
      match _handoff_for_category (pi_category i) with
      | None => mret false
      | Some t =>
          r ← _run (pr_id r);
          _ ← prepare_handoff r (bs_id b) contract t;
          _ ← hand_off (pr_id r) t (handoff_target r t) (Some (bs_id b)) now;
          mret true
      end
  end.

(** ** Jobs *)

Definition enter_one (s : uuid) (contract : list (string * json)) (now : instant) (f : ResolvedPortalField) : M unit :=
  _ ← act s (fun p => enter_field py_str contract p (rp_key f) (rp_value f));
  shown ← ask s (fun p => read_field py_str contract p (rp_key f));
  _ ← call (record_worker_field_result float_text sha256 hmac settings keyring (rp_field f) (rp_value f) shown worker_id now);
  mret tt.

Fixpoint each {A} (f : A -> M unit) (l : list A) : M unit :=
  match l with [] => mret tt | x :: l => _ ← f x; each f l end.

Definition enter_fields (r : PortalRun) (s : uuid) (contract : list (string * json)) (now : instant) (today : date) : M bool :=
  fs ← call (resolve_fields_for_worker py_str float_text not_finite sha256 hmac aes_decrypt settings keyring (pr_id r) now today);
  _ ← each (enter_one s contract now) fs;
  _ ← set_run_status (pr_id r) PortalRunStatus.VALIDATION_REQUIRED;
  _ ← commit;
  mret false.

Definition uploadable (run : uuid) (d : PortalDb) : list PortalRunDocument :=
  filter (fun x => rd_status x ∈ value <$> [PortalDocumentStatus.UPLOAD_PENDING; PortalDocumentStatus.FAILED_RETRYABLE])
    (documents_of run d).

(** A document the portal does not show raises, and its new state is rolled back. *)
Definition upload_one (s : uuid) (contract : list (string * json)) (now : instant) (today : date) (x : PortalRunDocument) : M unit :=
  d ← db;
  match document_versions d !! rd_version x with
  | None => raise StateConflictError
  | Some v =>
      h ← of_result (downloaded (rd_version x));
      _ ← ensure (bool_decide (str_lower h = str_lower (rd_sha256 x))) StateConflictError;
      _ ← change (put_document (x <| rd_status := value PortalDocumentStatus.UPLOADING |>));
      _ ← act s (fun p => upload_document py_str contract p
                   (if bool_decide (rd_category x = "") then "default" else rd_category x) (rd_document x));
      seen ← ask s (fun p => verify_uploaded_document py_str contract p (rd_filename x) (gv_size v));
      _ ← ensure seen StateConflictError;
      _ ← call (record_document_observation (rd_id x) worker_id (rd_filename x) (gv_size v) None now today);
      mret tt
  end.

Definition upload_documents (r : PortalRun) (s : uuid) (contract : list (string * json)) (now : instant) (today : date) : M bool :=
  d ← db;
  _ ← each (upload_one s contract now today) (uploadable (pr_id r) d);
  _ ← set_run_status (pr_id r) PortalRunStatus.VALIDATION_REQUIRED;
  _ ← commit;
  mret false.

(** Every message of the page blocks. *)
Definition page_message (m : list (string * json)) : list (string * json) :=
  m ++ [("blocking", JBool true); ("code", JStr "PORTAL_VALIDATION")].

Definition run_validation (r : PortalRun) (b : BrowserSession) (contract : list (string * json)) (now : instant) : M bool :=
  i ← ask (bs_id b) (identify_current_page py_str contract);
  match i with
  | None => _ ← _unexpected_page r b now; mret true
  | Some i =>
      ms ← ask (bs_id b) (list_validation_messages py_str contract);
      _ ← call (capture_validation py_str (pr_id r) _system_actor (page_message <$> ms) (pi_category i) now);
      _ ← commit;
      mret false
  end.

Definition capture_result (j : PortalJob) (r : PortalRun) (s : uuid) (contract : list (string * json)) (now : instant) : M bool :=
  res ← ask s (detect_submission_result py_str contract);
  if pr_ambiguous res then
    _ ← change (put_run (set_error (Some "ambiguous_submission_result")
          (Some "Portal result is ambiguous. Reconcile evidence; never retry submission.")
          (set_status PortalRunStatus.SUBMISSION_RESULT_PENDING r)));
    _ ← commit;
    mret true
  else
    d ← db;
    match (match payload_get "handoff_id" j with Some (JStr h) => handoffs d !! h | _ => None end) ≫= hh_user with
    | None => raise StateConflictError
    | Some u =>
        match principals d !! u with
        | None => raise StateConflictError
        | Some p =>
            confirmation ← (if bool_decide (pr_outcome res = "CONFIRMED") then ask s (capture_confirmation py_str contract) else mret "");
            let c := _user_actor p (match dget "reported_by_actor" (pj_payload j) with Some v => text_of py_str v | None => u end) in
            _ ← call (capture_submission_result uuid4 (pr_id r) c
                  {| sr_outcome := pr_outcome res; sr_page := pr_page res; sr_ambiguous := false;
                     sr_confirmation := if bool_decide (confirmation = "") then None else Some (str_take 300 confirmation);
                     sr_reference := None; sr_document := None |} now);
            _ ← commit;
            mret false
        end
    end.

Definition navigation (j : PortalJob) (r : PortalRun) (b : BrowserSession) (contract : list (string * json)) (now : instant) : M bool :=
  d ← db;
  match portals d !! pr_portal r, payload_get "route" j with
  | Some p, Some (JDict route) =>
      match dget "url" route with
      | Some (JStr url) =>
          _ ← navigate url (pt_hostname p);
          _ ← act (bs_id b) (fun _ => navigate_to_filing route);
          _ ← ask (bs_id b) (known_page py_str contract);
          _ ← commit;
          _reconcile j r b contract now
      | _ => raise StateConflictError
      end
  | _, _ => raise StateConflictError
  end.

(** ** Sessions *)

Definition put_job (j : PortalJob) (d : PortalDb) : PortalDb := set_jobs (replace_job j (jobs d)) d.

(** The session of the job, or a new one of the operator. *)
Definition session_for (j : PortalJob) (r : PortalRun) (operator : uuid) (now : instant) : M BrowserSession :=
  d ← db;
  match pj_session j ≫= fun s => sessions d !! s with
  | Some b => mret b
  | None =>
      let b := new_session settings (uuid4 (next_id d)) r operator worker_id BrowserSessionStatus.STARTING now in
      _ ← call (fun d => d ← store_session b (drawn d); Ok (tt, put_job (j <| pj_session := Some (bs_id b) |>) d));
      mret b
  end.

Definition registry_start (s operator : uuid) : M unit := fun w =>
  if truthy_opt (live w !! s) then (Err StateConflictError, w) else (Ok tt, w <| live := <[s := operator]> (live w) |>).

Definition _start_session (j : PortalJob) (now : instant) : M bool :=
  match pj_run j with
  | None => raise StateConflictError
  | Some i =>
      r ← _run i;
      d ← db;
      g ← of_result (revalidate_governance r now d);
      match pr_operator r with
      | None => raise StateConflictError
      | Some u =>
          b ← session_for j r u now;
          _ ← ensure (bool_decide (bs_operator b = u)) StateConflictError;
          let b := b <| bs_worker := worker_id |> <| bs_status := value BrowserSessionStatus.STARTING |> in
          _ ← call (fun d => d ← store_session b d; Ok (tt, d));
          _ ← commit;
          _ ← registry_start (bs_id b) u;
          _ ← navigate (pt_base_url (fst g)) (pt_hostname (fst g));
          _ ← perform (bs_id b) [Goto (pt_base_url (fst g))];
          contract ← _adapter r;
          page ← ask (bs_id b) (identify_current_page py_str contract);
          match page with
          | None => _ ← _unexpected_page r b now; mret true
          | Some _ =>
              let b := b <| bs_status := value BrowserSessionStatus.ACTIVE_AUTOMATION |> <| bs_activity_at := now |> in
              _ ← call (fun d => d ← store_session b d; Ok (tt, d));
              _ ← set_run_status i PortalRunStatus.SESSION_ACTIVE;
              _ ← commit;
              login ← ask (bs_id b) (detect_login_state py_str contract);
              if bool_decide (login = "LOGIN_REQUIRED") then
                _ ← hand_off i HandoffType.LOGIN (pr_operator r) (Some (bs_id b)) now; mret true
              else mret false
          end
      end
  end.

Definition closed_session (st : BrowserSessionStatus.BrowserSessionStatus) (reason : string) (now : instant) (b : BrowserSession)
    : BrowserSession :=
  b <| bs_status := value st |> <| bs_closed_at := Some now |> <| bs_close_reason := Some reason |>.

Definition _close_session (j : PortalJob) (now : instant) : M unit :=
  match pj_session j with
  | None => mret tt
  | Some s =>
      _ ← (fun w => (Ok tt, w <| live := delete s (live w) |>) : result exn unit * World);
      d ← db;
      match sessions d !! s with
      | None => mret tt
      | Some b =>
          let reason := match dget "reason" (pj_payload j) with Some v => text_of py_str v | None => "Closed" end in
          _ ← change (put_session (closed_session BrowserSessionStatus.CLOSED (str_take 500 reason) now b));
          commit
      end
  end.

(** ** One cycle *)

Definition _handle (j : PortalJob) (now : instant) (today : date) : M bool :=
  match of_value (pj_type j) with
  | None => raise ValueError
  | Some PortalJobType.START_BROWSER_SESSION => _start_session j now
  | Some PortalJobType.CLOSE_BROWSER_SESSION => _ ← _close_session j now; mret false
  | Some t =>
      ctx ← _active_context j now;
      let '(r, b, contract) := ctx : PortalRun * BrowserSession * list (string * json) in
      match t with
      | PortalJobType.NAVIGATE_PORTAL => navigation j r b contract now
      | PortalJobType.ENTER_FIELDS => enter_fields r (bs_id b) contract now today
      | PortalJobType.UPLOAD_DOCUMENTS => upload_documents r (bs_id b) contract now today
      | PortalJobType.RUN_PORTAL_VALIDATION => run_validation r b contract now
      | PortalJobType.CAPTURE_PRE_SUBMISSION =>
          _ ← call (create_snapshot uuid4 sha256 (pr_id r) _system_actor now); _ ← commit; mret false
      | PortalJobType.RECONCILE_SESSION => _reconcile j r b contract now
      | PortalJobType.CAPTURE_SUBMISSION_RESULT => capture_result j r (bs_id b) contract now
      | _ => raise StateConflictError
      end
  end.

(** Only failures of the browser are tried again, and never those of a reconciliation. *)
Definition retryable (e : exn) (j : PortalJob) : bool :=
  bool_decide (e = BrowserError) &&
  negb (bool_decide (pj_type j ∈ value <$> [PortalJobType.CAPTURE_SUBMISSION_RESULT; PortalJobType.RECONCILE_SESSION])).

Definition _fail_run_review (j : PortalJob) (e : exn) (d : PortalDb) : PortalDb :=
  match pj_run j ≫= fun i => runs d !! i with
  | Some r =>
      if bool_decide (e = StateConflictError) then
        put_run (set_error (Some "state_conflict") (Some (str_take 500 (message_of e))) (set_status PortalRunStatus.FAILED_REVIEW r)) d
      else d
  | None => d
  end.

Definition stored_job (j : PortalJob) (d : PortalDb) : PortalJob :=
  default j (head (filter (fun x => pj_id x = pj_id j) (jobs d))).

(** A rollback expires what the session has loaded, and an asynchronous session raises when
    an expired attribute is read.  [expired] says whether that happens, which depends on
    whether the job had begun a transaction: then the failure of a browser is not recorded,
    since whether to try again needs the type of the job, and no run is marked.  The error
    leaves the worker's loop. *)
Definition after_job (expired : bool) (j : PortalJob) (res : result exn bool) (now : instant) (w : World) : World :=
  match res with
  | Ok waiting =>
      let j := stored_job j (pending w) in
      let d := put_job (if waiting : bool then mark_waiting_human j else mark_completed j now) (pending w) in
      w <| pending := d |> <| committed := d |>
  | Err e =>
      let w := rolled_back w in
      let j := stored_job j (committed w) in
      if expired && bool_decide (e = BrowserError) then w
      else
        let d := put_job (record_failure j (name_of e) (message_of e) (retryable e j) now) (committed w) in
        let d := if expired then d else _fail_run_review j e d in
        w <| pending := d |> <| committed := d |>
  end.

Definition run_one_cycle (lease_seconds : Z) (locked : gset uuid) (expired : bool) (now : instant) (today : date) (w : World) : bool * World :=
  match claim_next worker_id lease_seconds locked now (jobs (committed w)) with
  | (None, _) => (false, rolled_back w)
  | (Some j, l) =>
      let d := set_jobs l (committed w) in
      let '(res, w) := _handle j now today (w <| pending := d |> <| committed := d |>) in
      (true, after_job expired j res now w)
  end.

(** ** Expiry *)

Definition lapsed_here (now : instant) (b : BrowserSession) : bool :=
  bool_decide (bs_worker b = worker_id) &&
  bool_decide (bs_status b ∈ value <$> [BrowserSessionStatus.ACTIVE_AUTOMATION; BrowserSessionStatus.ACTIVE_HUMAN_CONTROL;
                                         BrowserSessionStatus.PAUSED]) &&
  ((bs_expires_at b <=? now) || (browser_inactivity_timeout_minutes settings * 60 * 1000000 <=? now - bs_activity_at b)).

Definition blocked_run (r : PortalRun) : PortalRun :=
  set_status PortalRunStatus.BLOCKED r <| pr_error_code := Some "browser_session_expired" |>.

Definition expire_here (now : instant) (d : PortalDb) (b : BrowserSession) : PortalDb :=
  let d := put_session (closed_session BrowserSessionStatus.EXPIRED "Session lifetime or inactivity timeout expired." now b) d in
  match runs d !! bs_run b with
  | Some r => if bool_decide (pr_status r = value PortalRunStatus.SUBMITTED) then d else put_run (blocked_run r) d
  | None => d
  end.

Definition _expire_sessions (now : instant) (w : World) : World :=
  let gone := where_ (lapsed_here now) (sessions (committed w)) in
  let d := foldl (expire_here now) (committed w) gone in
  w <| pending := d |> <| committed := d |> <| live := foldl (fun l b => delete (bs_id b) l) (live w) gone |>.

(** The scheduler's part for portals. *)
Definition lapsed (now : instant) (t : option instant) : bool := reached t now.

Definition expire_review (d : PortalDb) (v : PortalReviewVersion) : PortalDb :=
  let d := put_review (v <| rv_status := value PortalReviewStatus.EXPIRED |>) d in
  let d := match portals d !! rv_portal v with
           | Some p => put_portal (p <| pt_status := value PortalApprovalStatus.EXPIRED |>) d | None => d end in
  foldl (fun d r => put_run (set_status PortalRunStatus.FAILED_REVIEW r <| pr_error_code := Some "portal_review_expired" |>) d) d
    (where_ (fun r => bool_decide (pr_review r = rv_id v) && negb (bool_decide (pr_status r ∈ _TERMINAL_RUN_STATUSES))) (runs d)).

Definition expire_session (now : instant) (d : PortalDb) (b : BrowserSession) : PortalDb :=
  enqueue uuid4 (close_job (bs_run b) b [("reason", JStr "Scheduled expiry")] "portal-close:" 3) now
    (put_session (b <| bs_status := value BrowserSessionStatus.EXPIRED |>) d).

Definition expire_portal_records (now : instant) (d : PortalDb) : PortalDb :=
  let d := foldl expire_review d
    (where_ (fun v => bool_decide (rv_status v = value PortalReviewStatus.APPROVED) && lapsed now (rv_valid_to v)) (reviews d)) in
  let d := foldl (fun d a => put_authorization (a <| ua_status := value AuthorizationStatus.EXPIRED |>) d) d
    (where_ (fun a => bool_decide (ua_status a = value AuthorizationStatus.ACTIVE) && lapsed now (ua_expires_at a)) (authorizations d)) in
  let d := foldl (expire_session now) d (where_ (fun b => session_active b && (bs_expires_at b <=? now)) (sessions d)) in
  set_jobs (recover_expired_leases now (jobs d)) d.
End Worker.
