(* ===== verification/PortalWrites.v ===== *)
(** * What portal assistance writes

    Every call of the portal services, and every job of the browser worker, changes the
    tables by a sequence of [write]s: a row at a time, under the condition the code
    checks before it.  An invariant is shown once for the writes. *)
From Stdlib Require Import Ascii Relations.
From S2P Require Import Prelude Terms PyDate PyJson Crypto Roles PortalPolicy PortalStore PortalGovernance PortalRuns PortalSessions.
Open Scope Z_scope.

(** What no call changes of a run. *)
Definition identity (r : PortalRun) : uuid * uuid * uuid * option uuid * uuid * uuid * string :=
  (pr_id r, pr_portal r, pr_review r, pr_adapter r, pr_case r, pr_entity r, pr_filing_type r).

Definition is_status (s : string) (x : SnapshotStatus.SnapshotStatus) : Prop := s = value x.

(** The final action of a run was confirmed: a completed handoff to a person, and
    evidence that names it. *)
Definition confirmed (e : SubmissionEvidence) : Prop :=
  ev_type e = value SubmissionEvidenceType.PORTAL_CONFIRMATION /\
  (truthy_str (ev_confirmation e) || truthy_str (ev_filing_reference e) || truthy_opt (ev_document e) = true) /\
  ev_verified_by e = ev_submitted_by e.
Definition final_completed (run : uuid) (h : HumanHandoff) : Prop :=
  hh_run h = run /\ hh_type h = value HandoffType.FINAL_SUBMIT /\ hh_status h = value HandoffStatus.COMPLETED.
Definition submitted_proof (run : uuid) (db : PortalDb) : Prop :=
  (exists e, e ∈ evidence db /\ ev_run e = run /\ confirmed e) /\ (exists i h, handoffs db !! i = Some h /\ final_completed run h).

(** A run's status is one of the statuses there are, and its stage repeats it. *)
Definition run_typed (r : PortalRun) : Prop :=
  is_value (A := PortalRunStatus.PortalRunStatus) (pr_status r) = true /\ pr_stage r = pr_status r.

Definition field_ok (f : PortalRunField) : Prop :=
  rf_status f = value PortalFieldStatus.VERIFIED -> is_Some (rf_approved f) /\ rf_entered f = rf_approved f.

Definition review_approved (v : PortalReviewVersion) : Prop := rv_status v = value PortalReviewStatus.APPROVED.
Definition adapter_active (a : PortalAdapterVersion) : Prop := ad_status a = value AdapterStatus.ACTIVE.

(** What an approved review says: both sign-offs, no open finding, and every action
    reserved to people prohibited and not allowed. *)
Definition review_sound (py_str : json -> string) (v : PortalReviewVersion) : Prop :=
  truthy_str (rv_compliance v) = true /\ truthy_str (rv_security v) = true /\ existsb (unresolved py_str) (rv_findings v) = false /\
  Forall (fun a => flag a (rv_prohibited v) = true /\ flag a (rv_allowed v) = false) ABSOLUTELY_PROHIBITED_ACTIONS.

(** The rest of the tables. *)
Definition core (db : PortalDb) :=
  (runs db, sessions db, snapshots db, fields db, steps db, handoffs db, evidence db, reviews db, adapters db, jobs db, next_id db).

(** Drawn identifiers do not repeat. *)
Class Distinct (uuid4 : nat -> uuid) := uuid4_inj : forall m n, uuid4 m = uuid4 n -> m = n.

Section Writes.
Context (uuid4 : nat -> uuid) (py_str : json -> string) (sha256 : string -> string).

Inductive write (db : PortalDb) : PortalDb -> Prop :=
| w_run r0 r :
    runs db !! pr_id r = Some r0 -> identity r = identity r0 ->
    run_typed r \/ pr_status r = pr_status r0 /\ pr_stage r = pr_stage r0 ->
    (pr_status r = value PortalRunStatus.SUBMITTED ->
       pr_status r0 = value PortalRunStatus.SUBMITTED \/ submitted_proof (pr_id r) db) ->
    write db (put_run r db)
| w_run_new r :
    pr_id r = uuid4 (next_id db) -> run_typed r -> pr_status r <> value PortalRunStatus.SUBMITTED -> write db (put_run r (drawn db))
| w_session b : session_slot_free b db = true -> write db (put_session b db)
| w_snapshot_new p r :
    ps_id p = uuid4 (next_id db) ->
    runs db !! ps_run p = Some r -> ps_sha256 p = expected_hash sha256 r p -> ps_status p <> value SnapshotStatus.APPROVED ->
    (ps_status p = value SnapshotStatus.READY_FOR_REVIEW -> ps_report p = []) ->
    (forall j q, snapshots db !! j = Some q -> ps_run q = ps_run p -> ps_version q < ps_version p) ->
    write db (put_snapshot p (drawn db))
| w_snapshot p q :
    snapshots db !! ps_id q = Some p ->
    q = p <| ps_status := ps_status q |> <| ps_reviewed_by := ps_reviewed_by q |> <| ps_reviewed_at := ps_reviewed_at q |> ->
    ps_status q <> value SnapshotStatus.READY_FOR_REVIEW ->
    (ps_status q = value SnapshotStatus.APPROVED ->
       ps_status p = value SnapshotStatus.READY_FOR_REVIEW /\
       (exists a, ps_reviewed_by q = Some a /\ a <> ps_created_by p) /\
       (forall j x, snapshots db !! j = Some x -> ps_run x = ps_run p -> ps_status x <> value SnapshotStatus.APPROVED)) ->
    write db (put_snapshot q db)
| w_field f : field_ok f -> write db (put_field f db)
| w_step s :
    (forall t, t ∈ steps db -> st_run t = st_run s -> st_sequence t < st_sequence s) -> write db (add_step s db)
| w_handoff h0 h :
    handoffs db !! hh_id h = Some h0 -> hh_run h = hh_run h0 -> hh_type h = hh_type h0 ->
    (hh_status h0 = value HandoffStatus.COMPLETED -> hh_status h = value HandoffStatus.COMPLETED) -> write db (put_handoff h db)
| w_handoff_new h : hh_id h = uuid4 (next_id db) -> write db (put_handoff h (drawn db))
| w_evidence e : write db (add_evidence_row e db)
| w_review v :
    (review_approved v -> review_sound py_str v /\
       forall j x, reviews db !! j = Some x -> j <> rv_id v -> rv_portal x = rv_portal v -> ~ review_approved x) ->
    write db (put_review v db)
| w_adapter a :
    (adapter_active a -> adapter_contract_ok py_str (ad_key a) (ad_routes a) (ad_contract a) = Ok tt /\
       forall j x, adapters db !! j = Some x -> j <> ad_id a -> ad_portal x = ad_portal a -> ad_key x = ad_key a -> ~ adapter_active x) ->
    write db (put_adapter a db)
| w_jobs l : pj_id <$> l = pj_id <$> jobs db -> pj_key <$> l = pj_key <$> jobs db -> write db (set_jobs l db)
| w_job_new j :
    pj_id j = uuid4 (next_id db) -> pj_key j ∉ pj_key <$> jobs db -> write db (drawn (set_jobs (jobs db ++ [j]) db))
| w_drawn : write db (drawn db)
| w_portal p0 p : portals db !! pt_id p = Some p0 -> pt_hostname p = pt_hostname p0 -> write db (put_portal p db)
| w_other db' : core db' = core db -> portals db' = portals db -> write db db'.

Definition writes : PortalDb -> PortalDb -> Prop := rtc write.

(** ** The invariant *)

Definition snapshot_ok (db : PortalDb) (p : PreSubmissionSnapshot) : Prop :=
  (exists r, runs db !! ps_run p = Some r /\ ps_sha256 p = expected_hash sha256 r p) /\
  (ps_status p = value SnapshotStatus.READY_FOR_REVIEW \/ ps_status p = value SnapshotStatus.APPROVED -> ps_report p = []) /\
  (ps_status p = value SnapshotStatus.APPROVED -> exists a, ps_reviewed_by p = Some a /\ a <> ps_created_by p).

Record portal_ok (db : PortalDb) : Prop := {
  ok_runs : forall i r, runs db !! i = Some r -> pr_id r = i;
  ok_typed : forall i r, runs db !! i = Some r -> run_typed r;
  ok_submitted : forall i r, runs db !! i = Some r -> pr_status r = value PortalRunStatus.SUBMITTED -> submitted_proof i db;
  ok_fresh : forall n, (next_id db <= n)%nat -> runs db !! uuid4 n = None /\ handoffs db !! uuid4 n = None /\ uuid4 n ∉ pj_id <$> jobs db /\
    snapshots db !! uuid4 n = None;
  ok_snapshot_ids : forall i p, snapshots db !! i = Some p -> ps_id p = i;
  ok_snapshots : forall i p, snapshots db !! i = Some p -> snapshot_ok db p;
  ok_approved : forall i j p q, snapshots db !! i = Some p -> snapshots db !! j = Some q -> ps_run p = ps_run q ->
    ps_status p = value SnapshotStatus.APPROVED -> ps_status q = value SnapshotStatus.APPROVED -> i = j;
  ok_versions : forall i j p q, snapshots db !! i = Some p -> snapshots db !! j = Some q -> ps_run p = ps_run q ->
    ps_version p = ps_version q -> i = j;
  ok_fields : forall i f, fields db !! i = Some f -> field_ok f;
  ok_steps : NoDup ((fun s => (st_run s, st_sequence s)) <$> steps db);
  ok_session_ids : forall i b, sessions db !! i = Some b -> bs_id b = i;
  ok_sessions : forall i j b c, sessions db !! i = Some b -> sessions db !! j = Some c -> bs_run b = bs_run c ->
    session_active b = true -> session_active c = true -> i = j;
  ok_handoffs : forall i h, handoffs db !! i = Some h -> hh_id h = i;
  ok_portals : forall i p, portals db !! i = Some p -> pt_id p = i;
  ok_review_ids : forall i v, reviews db !! i = Some v -> rv_id v = i;
  ok_reviews : forall i v, reviews db !! i = Some v -> review_approved v -> review_sound py_str v;
  ok_one_review : forall i j v x, reviews db !! i = Some v -> reviews db !! j = Some x -> rv_portal v = rv_portal x ->
    review_approved v -> review_approved x -> i = j;
  ok_adapter_ids : forall i a, adapters db !! i = Some a -> ad_id a = i;
  ok_adapters : forall i a, adapters db !! i = Some a -> adapter_active a ->
    adapter_contract_ok py_str (ad_key a) (ad_routes a) (ad_contract a) = Ok tt;
  ok_one_adapter : forall i j a x, adapters db !! i = Some a -> adapters db !! j = Some x -> ad_portal a = ad_portal x ->
    ad_key a = ad_key x -> adapter_active a -> adapter_active x -> i = j;
  ok_job_ids : NoDup (pj_id <$> jobs db);
  ok_jobs : NoDup (pj_key <$> jobs db)
}.

Context `{!Distinct uuid4}.

(** What a lookup after an insertion finds. *)
Lemma put_lookup {A} (t : gmap uuid A) k (x : A) i y :
  <[k := x]> t !! i = Some y -> i = k /\ y = x \/ i <> k /\ t !! i = Some y.
Proof. rewrite lookup_insert_Some. intros [[<- <-]|[? ?]]; [by left | by right]. Qed.

Lemma proof_mono db db' i :
  (forall e, e ∈ evidence db -> e ∈ evidence db') ->
  (forall k h, handoffs db !! k = Some h -> exists h', handoffs db' !! k = Some h' /\ hh_run h' = hh_run h /\ hh_type h' = hh_type h /\
     (hh_status h = value HandoffStatus.COMPLETED -> hh_status h' = value HandoffStatus.COMPLETED)) ->
  submitted_proof i db -> submitted_proof i db'.
Proof.
  intros He Hh [(e & Hin & Hr & Hc) (k & h & Hk & Hrun & Ht & Hs)]. split; [exists e; auto|].
  destruct (Hh k h Hk) as (h' & Hk' & Er & Et & Es). exists k, h'. split; [done|]. split_and!; [congruence.. | auto].
Qed.

Lemma proof_same db db' i : evidence db' = evidence db -> handoffs db' = handoffs db -> submitted_proof i db -> submitted_proof i db'.
Proof. intros He Hh. apply proof_mono; rewrite ?He, ?Hh; [done|]. intros k h Hk. by exists h. Qed.

Lemma snapshot_ok_runs db db' p :
  (forall i r, runs db !! i = Some r -> exists r', runs db' !! i = Some r' /\ identity r' = identity r) ->
  snapshot_ok db p -> snapshot_ok db' p.
Proof.
  intros Hr [(r & Hi & Hs) Hrest]. split; [|done]. destruct (Hr _ _ Hi) as (r' & Hi' & E). exists r'. split; [done|]. rewrite Hs.
  unfold identity in E. injection E as _ E1 E2 E3 E4 E5 E6. unfold expected_hash, snapshot_payload. by rewrite E1, E2, E3, E4, E5, E6.
Qed.

(** The invariant after a write: the parts whose tables it does not touch. *)
Ltac parts Hdb :=
  destruct Hdb as [Hrun Htyped Hsub Hfresh Hsid Hsnap Happ Hver Hfield Hstep Hseid Hses Hhand Hport Hrvid Hrev Hrev1 Hadid Had Had1 Hjid Hjob];
  split; cbn; try assumption;
  try (intros; eapply snapshot_ok_runs; [|eapply Hsnap; eassumption]; intros ? ? ?; eexists; split; [eassumption | reflexivity]);
  try (intros; eapply proof_same; [| |eapply Hsub; eassumption]; reflexivity).

Lemma drawn_ok db : portal_ok db -> portal_ok (drawn db).
Proof. intros Hdb. parts Hdb. intros n Hn. apply Hfresh. lia. Qed.

Lemma run_ok db r0 r :
  portal_ok db -> runs db !! pr_id r = Some r0 -> identity r = identity r0 ->
  run_typed r \/ pr_status r = pr_status r0 /\ pr_stage r = pr_stage r0 ->
  (pr_status r = value PortalRunStatus.SUBMITTED -> pr_status r0 = value PortalRunStatus.SUBMITTED \/ submitted_proof (pr_id r) db) ->
  portal_ok (put_run r db).
Proof.
  intros Hdb Hin Hid Hty Hst. parts Hdb.
  - intros i x [[-> ->]|[_ Hi]]%put_lookup; [done | by apply Hrun].
  - intros i x [[-> ->]|[_ Hi]]%put_lookup; [|by eapply Htyped]. destruct Hty as [?|[E1 E2]]; [done|].
    unfold run_typed. rewrite E1, E2. by eapply Htyped.
  - intros i x [[-> ->]|[_ Hi]]%put_lookup Hx; eapply proof_same; try reflexivity; [|by eapply Hsub].
    destruct (Hst Hx); [by eapply Hsub | done].
  - intros n Hn. destruct (Hfresh n Hn) as (Hn1 & Hn2 & Hn3). split; [|done].
    rewrite lookup_insert_ne; [done|]. intros E. rewrite <-E, Hin in Hn1. done.
  - intros i p Hi. eapply snapshot_ok_runs; [|by eapply Hsnap]. intros j x Hj. cbn.
    destruct (decide (j = pr_id r)) as [->|Hne].
    + exists r. rewrite lookup_insert_eq. split; [done|]. rewrite Hin in Hj. by injection Hj as <-.
    + exists x. by rewrite lookup_insert_ne.
Qed.

Lemma fresh_free db :
  portal_ok db -> runs db !! uuid4 (next_id db) = None /\ handoffs db !! uuid4 (next_id db) = None /\
    uuid4 (next_id db) ∉ pj_id <$> jobs db /\ snapshots db !! uuid4 (next_id db) = None.
Proof. intros Hdb. apply (ok_fresh _ Hdb). lia. Qed.

Lemma run_new_ok db r :
  portal_ok db -> pr_id r = uuid4 (next_id db) -> run_typed r -> pr_status r <> value PortalRunStatus.SUBMITTED -> portal_ok (put_run r (drawn db)).
Proof.
  intros Hdb Hid Hty Hst. destruct (fresh_free db Hdb) as (Hf & _ & _). rewrite <-Hid in Hf. parts Hdb.
  - intros i x [[-> ->]|[_ Hi]]%put_lookup; [done | by apply Hrun].
  - intros i x [[-> ->]|[_ Hi]]%put_lookup; [done | by eapply Htyped].
  - intros i x [[-> ->]|[_ Hi]]%put_lookup Hx; [done|]. eapply proof_same; try reflexivity. by eapply Hsub.
  - intros n Hn. destruct (Hfresh n) as (Hn1 & Hn2 & Hn3); [lia|]. split; [|done].
    rewrite lookup_insert_ne; [done|]. rewrite Hid. intros E%uuid4_inj. lia.
  - intros i p Hi. eapply snapshot_ok_runs; [|by eapply Hsnap]. intros j x Hj. exists x. split; [|done]. cbn.
    rewrite lookup_insert_ne; [done|]. intros <-. by rewrite Hf in Hj.
Qed.

Lemma other_session b x i db :
  (forall j y, sessions db !! j = Some y -> bs_id y = j) -> session_slot_free b db = true -> session_active b = true ->
  sessions db !! i = Some x -> i <> bs_id b -> bs_run x = bs_run b -> session_active x = true -> False.
Proof.
  intros Hk Hfree Hb Hi Hne Hrun Hx. unfold session_slot_free in Hfree. rewrite Hb in Hfree. cbn in Hfree.
  apply negb_true_iff in Hfree.
  assert (existsb (fun y => negb (bool_decide (bs_id y = bs_id b))) (run_sessions (bs_run b) db) = true) as Hex; [|by rewrite Hex in Hfree].
  apply existsb_exists. exists x. split.
  - apply list_elem_of_In, list_elem_of_filter. rewrite bool_decide_eq_true_2 by done. rewrite Hx. split; [done|].
    apply elem_of_rows. by exists i.
  - rewrite bool_decide_eq_false_2; [done|]. by rewrite (Hk i x Hi).
Qed.

Lemma session_ok db b : portal_ok db -> session_slot_free b db = true -> portal_ok (put_session b db).
Proof.
  intros Hdb Hfree. parts Hdb.
  - intros i x [[-> ->]|[_ Hi]]%put_lookup; [done | by apply Hseid].
  - intros i j x y [[-> ->]|[Hi Hx]]%put_lookup [[-> ->]|[Hj Hy]]%put_lookup E Ax Ay; try done.
    + exfalso. by eapply (other_session b y j).
    + exfalso. by eapply (other_session b x i).
    + by eapply Hses.
Qed.

Lemma snapshot_new_ok db p r :
  portal_ok db -> ps_id p = uuid4 (next_id db) -> runs db !! ps_run p = Some r -> ps_sha256 p = expected_hash sha256 r p -> ps_status p <> value SnapshotStatus.APPROVED ->
  (ps_status p = value SnapshotStatus.READY_FOR_REVIEW -> ps_report p = []) ->
  (forall j q, snapshots db !! j = Some q -> ps_run q = ps_run p -> ps_version q < ps_version p) ->
  portal_ok (put_snapshot p (drawn db)).
Proof.
  intros Hdb Hid Hr Hh Hst Hrep Hlast. parts Hdb.
  - intros n Hn. destruct (Hfresh n) as (Hn1 & Hn2 & Hn3 & Hn4); [lia|]. split_and!; [done..|].
    rewrite lookup_insert_ne; [done|]. rewrite Hid. intros E%uuid4_inj. lia.
  - intros i x [[-> ->]|[_ Hi]]%put_lookup; [done | by apply Hsid].
  - intros i x [[-> ->]|[_ Hi]]%put_lookup; [|by eapply Hsnap].
    split_and!; [by exists r | |done]. intros [?|?]; [auto | done].
  - intros i j x y [[-> ->]|[Hi Hx]]%put_lookup [[-> ->]|[Hj Hy]]%put_lookup E Ax Ay; try done. by eapply Happ.
  - intros i j x y [[-> ->]|[Hi Hx]]%put_lookup [[-> ->]|[Hj Hy]]%put_lookup E Ev; try done.
    + pose proof (Hlast _ _ Hy (eq_sym E)). lia.
    + pose proof (Hlast _ _ Hx E). lia.
    + by eapply Hver.
Qed.

Lemma snapshot_change_ok db p q :
  portal_ok db -> snapshots db !! ps_id q = Some p ->
  q = p <| ps_status := ps_status q |> <| ps_reviewed_by := ps_reviewed_by q |> <| ps_reviewed_at := ps_reviewed_at q |> ->
  ps_status q <> value SnapshotStatus.READY_FOR_REVIEW ->
  (ps_status q = value SnapshotStatus.APPROVED ->
     ps_status p = value SnapshotStatus.READY_FOR_REVIEW /\
     (exists a, ps_reviewed_by q = Some a /\ a <> ps_created_by p) /\
     (forall j x, snapshots db !! j = Some x -> ps_run x = ps_run p -> ps_status x <> value SnapshotStatus.APPROVED)) ->
  portal_ok (put_snapshot q db).
Proof.
  intros Hdb Hin E Hready Happroved.
  assert (ps_id q = ps_id p /\ ps_run q = ps_run p /\ ps_version q = ps_version p /\ ps_created_by q = ps_created_by p /\
          ps_report q = ps_report p /\ ps_sha256 q = ps_sha256 p /\ forall r, expected_hash sha256 r q = expected_hash sha256 r p)
    as (Eid & Erun & Ever & Ecr & Erep & Esha & Eh) by (rewrite E; done).
  clear E. parts Hdb.
  - intros n Hn. destruct (Hfresh n Hn) as (Hn1 & Hn2 & Hn3 & Hn4). split_and!; [done..|].
    rewrite lookup_insert_ne; [done|]. intros E. by rewrite <-E, Hin in Hn4.
  - intros i x [[-> ->]|[_ Hi]]%put_lookup; [done | by apply Hsid].
  - intros i x [[-> ->]|[_ Hi]]%put_lookup; [|by eapply Hsnap].
    destruct (Hsnap _ _ Hin) as ((r & Hr & Hsha) & Hrep & _). split_and!.
    + exists r. rewrite Erun, Esha, Eh. done.
    + rewrite Erep. intros [?|Ha]; [done|]. destruct (Happroved Ha) as (? & _). auto.
    + intros Ha. rewrite Ecr. by destruct (Happroved Ha) as (_ & ? & _).
  - intros i j x y [[-> ->]|[Hi Hx]]%put_lookup [[-> ->]|[Hj Hy]]%put_lookup Er Ax Ay; try done.
    + destruct (Happroved Ax) as (_ & _ & Hno). edestruct Hno; [exact Hy | congruence | done].
    + destruct (Happroved Ay) as (_ & _ & Hno). edestruct Hno; [exact Hx | congruence | done].
    + by eapply Happ.
  - intros i j x y [[-> ->]|[Hi Hx]]%put_lookup [[-> ->]|[Hj Hy]]%put_lookup Er Ev; try done.
    + eapply Hver; [exact Hin | exact Hy | congruence..].
    + eapply Hver; [exact Hx | exact Hin | congruence..].
    + by eapply Hver.
Qed.

Lemma field_write_ok db f : portal_ok db -> field_ok f -> portal_ok (put_field f db).
Proof. intros Hdb Hf. parts Hdb. intros i x [[-> ->]|[_ Hi]]%put_lookup; [done | by eapply Hfield]. Qed.

Lemma step_row_ok db s :
  portal_ok db -> (forall t, t ∈ steps db -> st_run t = st_run s -> st_sequence t < st_sequence s) -> portal_ok (add_step s db).
Proof.
  intros Hdb Hs. parts Hdb. rewrite fmap_app. apply NoDup_app. split_and!; [done | | apply NoDup_singleton].
  intros x (t & -> & Ht)%list_elem_of_fmap Hx. apply list_elem_of_singleton in Hx as [= Er Es].
  pose proof (Hs t Ht Er). lia.
Qed.

Lemma handoff_ok db h0 h :
  portal_ok db -> handoffs db !! hh_id h = Some h0 -> hh_run h = hh_run h0 -> hh_type h = hh_type h0 ->
  (hh_status h0 = value HandoffStatus.COMPLETED -> hh_status h = value HandoffStatus.COMPLETED) -> portal_ok (put_handoff h db).
Proof.
  intros Hdb Hin Er Et Hst. parts Hdb.
  - intros i x Hi Hx. eapply proof_mono; [| |by eapply Hsub]; [done|]. cbn. intros k y Hk.
    destruct (decide (k = hh_id h)) as [->|Hne].
    + exists h. rewrite lookup_insert_eq. rewrite Hin in Hk. injection Hk as <-. done.
    + exists y. by rewrite lookup_insert_ne.
  - intros n Hn. destruct (Hfresh n Hn) as (Hn1 & Hn2 & Hn3). split; [done|]. split; [|done].
    rewrite lookup_insert_ne; [done|]. intros E. rewrite <-E, Hin in Hn2. done.
  - intros i x [[-> ->]|[_ Hi]]%put_lookup; [done | by apply Hhand].
Qed.

Lemma handoff_new_ok db h : portal_ok db -> hh_id h = uuid4 (next_id db) -> portal_ok (put_handoff h (drawn db)).
Proof.
  intros Hdb Hid. destruct (fresh_free db Hdb) as (_ & Hf & _). rewrite <-Hid in Hf. parts Hdb.
  - intros i x Hi Hx. eapply proof_mono; [| |by eapply Hsub]; [done|]. cbn. intros k y Hk.
    exists y. rewrite lookup_insert_ne; [done|]. intros <-. by rewrite Hf in Hk.
  - intros n Hn. destruct (Hfresh n) as (Hn1 & Hn2 & Hn3); [lia|]. split; [done|]. split; [|done].
    rewrite lookup_insert_ne; [done|]. rewrite Hid. intros E%uuid4_inj. lia.
  - intros i x [[-> ->]|[_ Hi]]%put_lookup; [done | by apply Hhand].
Qed.

Lemma evidence_ok db e : portal_ok db -> portal_ok (add_evidence_row e db).
Proof.
  intros Hdb. parts Hdb. intros i x Hi Hx. eapply proof_mono; [| |by eapply Hsub].
  - intros y Hy. cbn. apply elem_of_app. by left.
  - intros k h Hk. by exists h.
Qed.

Lemma review_ok db v :
  portal_ok db ->
  (review_approved v -> review_sound py_str v /\
     forall j x, reviews db !! j = Some x -> j <> rv_id v -> rv_portal x = rv_portal v -> ~ review_approved x) ->
  portal_ok (put_review v db).
Proof.
  intros Hdb Hv. parts Hdb.
  - intros i x [[-> ->]|[_ Hi]]%put_lookup; [done | by apply Hrvid].
  - intros i x [[-> ->]|[_ Hi]]%put_lookup Ha; [by apply Hv | by eapply Hrev].
  - intros i j x y [[-> ->]|[Hi Hx]]%put_lookup [[-> ->]|[Hj Hy]]%put_lookup E Ax Ay; try done.
    + exfalso. by eapply (proj2 (Hv Ax)).
    + exfalso. by eapply (proj2 (Hv Ay)).
    + by eapply Hrev1.
Qed.

Lemma adapter_ok db a :
  portal_ok db ->
  (adapter_active a -> adapter_contract_ok py_str (ad_key a) (ad_routes a) (ad_contract a) = Ok tt /\
     forall j x, adapters db !! j = Some x -> j <> ad_id a -> ad_portal x = ad_portal a -> ad_key x = ad_key a -> ~ adapter_active x) ->
  portal_ok (put_adapter a db).
Proof.
  intros Hdb Ha. parts Hdb.
  - intros i x [[-> ->]|[_ Hi]]%put_lookup; [done | by apply Hadid].
  - intros i x [[-> ->]|[_ Hi]]%put_lookup Hx; [by apply Ha | by eapply Had].
  - intros i j x y [[-> ->]|[Hi Hx]]%put_lookup [[-> ->]|[Hj Hy]]%put_lookup E Ek Ax Ay; try done.
    + exfalso. by eapply (proj2 (Ha Ax)).
    + exfalso. by eapply (proj2 (Ha Ay)).
    + by eapply Had1.
Qed.

Lemma jobs_ok db l :
  portal_ok db -> pj_id <$> l = pj_id <$> jobs db -> pj_key <$> l = pj_key <$> jobs db -> portal_ok (set_jobs l db).
Proof. intros Hdb E1 E2. parts Hdb; by rewrite ?E1, ?E2. Qed.

Lemma job_new_ok db j :
  portal_ok db -> pj_id j = uuid4 (next_id db) -> pj_key j ∉ pj_key <$> jobs db -> portal_ok (drawn (set_jobs (jobs db ++ [j]) db)).
Proof.
  intros Hdb Hid Hkey. destruct (fresh_free db Hdb) as (_ & _ & Hf & _). rewrite <-Hid in Hf. parts Hdb.
  - intros n Hn. destruct (Hfresh n) as (Hn1 & Hn2 & Hn3 & Hn4); [lia|]. split_and!; [done | done| |done].
    rewrite fmap_app. intros [?|E%list_elem_of_singleton]%elem_of_app; [done|]. cbn in E. rewrite Hid in E.
    apply uuid4_inj in E. lia.
  - rewrite fmap_app. apply NoDup_app. split_and!; [done | | apply NoDup_singleton].
    intros x Hx ->%list_elem_of_singleton. done.
  - rewrite fmap_app. apply NoDup_app. split_and!; [done | | apply NoDup_singleton].
    intros x Hx ->%list_elem_of_singleton. done.
Qed.

Lemma portal_write_ok db p : portal_ok db -> portal_ok (put_portal p db).
Proof. intros Hdb. parts Hdb. intros i x [[-> ->]|[_ Hi]]%put_lookup; [done | by apply Hport]. Qed.

Lemma other_ok db db' :
  portal_ok db -> core db' = core db -> portals db' = portals db -> portal_ok db'.
Proof.
  intros Hdb E Hp. unfold core in E. injection E as E1 E2 E3 E4 E5 E6 E7 E8 E9 E10 E11.
  destruct Hdb as [Hrun Htyped Hsub Hfresh Hsid Hsnap Happ Hver Hfield Hstep Hseid Hses Hhand Hport Hrvid Hrev Hrev1 Hadid Had Had1 Hjid Hjob].
  split; rewrite ?E1, ?E2, ?E3, ?E4, ?E5, ?E6, ?E8, ?E9, ?E10, ?E11, ?Hp; try assumption.
  - intros i r Hi Hr. eapply proof_same; [done | done|]. by eapply Hsub.
  - intros i p Hi. eapply snapshot_ok_runs; [|by eapply Hsnap]. intros j r Hj. exists r. by rewrite E1.
Qed.

Lemma write_ok db db' : write db db' -> portal_ok db -> portal_ok db'.
Proof.
  destruct 1; intros Hdb.
  - by eapply run_ok.
  - by apply run_new_ok.
  - by apply session_ok.
  - by eapply snapshot_new_ok.
  - by eapply snapshot_change_ok.
  - by apply field_write_ok.
  - by apply step_row_ok.
  - by eapply handoff_ok.
  - by apply handoff_new_ok.
  - by apply evidence_ok.
  - by apply review_ok.
  - by apply adapter_ok.
  - by apply jobs_ok.
  - by apply job_new_ok.
  - by apply drawn_ok.
  - by apply portal_write_ok.
  - by eapply other_ok.
Qed.

Lemma writes_ok db db' : writes db db' -> portal_ok db -> portal_ok db'.
Proof. induction 1; [done|]. intros Hdb. eauto using write_ok. Qed.
End Writes.
