(* ===== verification/PortalCalls.v ===== *)
(** * The calls of the portal services as writes

    Every call that returns changes the tables by [write]s only; the part of a call that
    several share (a step, a job, a withdrawn snapshot) has a lemma of its own, and the
    tactic [grow] puts them together. *)
From Stdlib Require Import Ascii SpecFloat Relations.
From S2P Require Import CaseService.
From S2P Require Import Prelude Terms PyDate PyJson Crypto Roles PortalPolicy PortalStore PortalGovernance PortalRuns PortalSessions SubmissionEvidence PortalEntry PortalWrites.
Open Scope Z_scope.

(** A stored run with the identity of [r]. *)
Definition run_known (r : PortalRun) (db : PortalDb) : Prop := exists r0, runs db !! pr_id r = Some r0 /\ identity r = identity r0.
Definition not_submitted (r : PortalRun) : Prop := pr_status r <> value PortalRunStatus.SUBMITTED /\ run_typed r.

Lemma get_Ok {A} (t : gmap uuid A) i x : get t i = Ok x -> t !! i = Some x.
Proof. unfold get. destruct (t !! i); congruence. Qed.

Lemma next_version_gt l x : x ∈ l -> x < next_version l.
Proof.
  unfold next_version. induction l as [|y l IH]; [by intros ?%elem_of_nil|]. cbn. intros [->|Hx]%elem_of_cons; [lia|].
  specialize (IH Hx). lia.
Qed.

Lemma elem_of_where {A} (p : A -> bool) (t : gmap uuid A) x : x ∈ where_ p t <-> p x = true /\ exists i, t !! i = Some x.
Proof. unfold where_. by rewrite list_elem_of_filter, elem_of_rows. Qed.

Lemma head_elem {A} (l : list A) x : head l = Some x -> x ∈ l.
Proof. destruct l; [done|]. intros [= ->]. apply elem_of_cons. by left. Qed.

Lemma head_none {A} (l : list A) : head l = None -> l = [].
Proof. by destruct l. Qed.

Lemma latest_elem {A} (key : A -> Z) l x : latest key l = Some x -> x ∈ l.
Proof. destruct l as [|y l]; [done|]. intros [= <-]. apply py_max_by_in. Qed.

(** Take a computation that returned apart. *)
Ltac walk :=
  repeat (inv_ok; match goal with
  | H : get _ _ = Ok _ |- _ => apply get_Ok in H
  | H : (_, _) = (_, _) |- _ => injection H as H; subst
  | H : (let '(_, _) := ?x in _) = Ok _ |- _ => destruct x
  | H : match ?x with _ => _ end = Ok _ |- _ => destruct x eqn:?; try discriminate H
  | H : _ /\ _ |- _ => destruct H
  | H : _ = ?x |- _ => is_var x; subst x
  end).

Section Calls.
Context (uuid4 : nat -> uuid) (py_str : json -> string) (sha256 : string -> string).
Context `{!Distinct uuid4}.

Notation write := (write uuid4 py_str sha256).
Notation writes := (writes uuid4 py_str sha256).
Notation portal_ok := (portal_ok uuid4 py_str sha256).

Definition reach (db db' : PortalDb) : Prop := writes db db' /\ portal_ok db'.

Lemma reach_refl db : portal_ok db -> reach db db.
Proof. by split; [apply rtc_refl|]. Qed.

Lemma reach_write a b c : reach a b -> write b c -> reach a c.
Proof. intros [H Hb] Hw. split; [by eapply rtc_r | by eapply write_ok]. Qed.

Lemma reach_trans a b c : reach a b -> reach b c -> reach a c.
Proof. intros [H _] [H' Hc]. split; [by etrans | done]. Qed.

Lemma reach_ok a b : reach a b -> portal_ok b.
Proof. by intros [_ H]. Qed.

(** ** What stays known *)

Lemma write_run a b i r : write a b -> portal_ok a -> runs a !! i = Some r -> exists r', runs b !! i = Some r' /\ identity r' = identity r.
Proof.
  intros Hw Hok Hi. assert (forall d, runs d = runs a -> exists r', runs d !! i = Some r' /\ identity r' = identity r) as Hsame
    by (intros d ->; by exists r).
  destruct Hw as [r0 x Hx Hid _|x Hx _| | | | | | | | | | | | | | |db' E _]; try (by apply Hsame).
  - cbn. destruct (decide (i = pr_id x)) as [->|Hne]; [|exists r; by rewrite lookup_insert_ne].
    exists x. rewrite lookup_insert_eq. split; [done|]. rewrite Hx in Hi. by injection Hi as <-.
  - cbn. exists r. rewrite lookup_insert_ne; [done|]. intros <-. rewrite Hx in Hi.
    by rewrite (proj1 (fresh_free _ _ _ _ Hok)) in Hi.
  - apply Hsame. by injection E.
Qed.

Lemma known_write a b r : portal_ok a -> write a b -> run_known r a -> run_known r b.
Proof.
  intros Hok Hw (r0 & Hi & E). destruct (write_run a b _ r0 Hw Hok Hi) as (r1 & H1 & E1). exists r1. by rewrite E1.
Qed.

Lemma writes_known a b r : portal_ok a -> writes a b -> run_known r a -> run_known r b.
Proof. intros Hok Hw. induction Hw as [|a b c Hab _ IH]; [done|]. intros H. apply IH; [by eapply write_ok | by eapply known_write]. Qed.

Lemma known_at db i r0 r : portal_ok db -> runs db !! i = Some r0 -> identity r = identity r0 -> run_known r db.
Proof.
  intros Hok Hi E. exists r0. split; [|done]. assert (pr_id r = pr_id r0) as -> by (unfold identity in E; congruence).
  by rewrite (ok_runs _ _ _ _ Hok i r0 Hi).
Qed.

Lemma known_reach a b r : portal_ok a -> reach a b -> run_known r a -> run_known r b.
Proof. intros Hok [Hw _]. by apply writes_known. Qed.

(** ** The writes the calls share *)

Section Growing.
Context (db : PortalDb) (Hdb : portal_ok db).

Lemma grow_same d d' : reach db d -> core d' = core d -> portals d' = portals d -> reach db d'.
Proof. intros H E Hp. eapply reach_write; [exact H|]. by constructor. Qed.

Lemma grow_audit d e i a w : reach db d -> reach db (audit e i a w d).
Proof. intros H. by eapply grow_same. Qed.

Lemma grow_drawn d : reach db d -> reach db (drawn d).
Proof. intros H. eapply reach_write; [exact H|]. apply w_drawn. Qed.

Lemma grow_portal d i p0 p :
  reach db d -> portals d !! i = Some p0 -> pt_id p = pt_id p0 -> pt_hostname p = pt_hostname p0 -> reach db (put_portal p d).
Proof.
  intros H Hi Eid Eh. eapply reach_write; [exact H|]. eapply w_portal; [|exact Eh].
  by rewrite Eid, (ok_portals _ _ _ _ (reach_ok _ _ H) i p0 Hi).
Qed.

Lemma grow_run d r : reach db d -> run_known r d -> not_submitted r -> reach db (put_run r d).
Proof.
  intros H (r0 & Hi & E) [Hs Ht]. eapply reach_write; [exact H|]. eapply w_run; [exact Hi | done | by left|]. intros Hx. by destruct (Hs Hx).
Qed.

(** A run read at the start of the call and changed. *)
Lemma grow_run_of d i r0 r : reach db d -> runs db !! i = Some r0 -> identity r = identity r0 -> not_submitted r -> reach db (put_run r d).
Proof. intros H Hi E Hs. apply grow_run; [done | | done]. eapply known_reach; [done..|]. by eapply known_at. Qed.

Lemma grow_session d b : reach db d -> session_slot_free b d = true -> reach db (put_session b d).
Proof. intros H Hs. eapply reach_write; [exact H|]. by apply w_session. Qed.

Lemma grow_stored d b d' : reach db d -> store_session b d = Ok d' -> reach db d'.
Proof. intros H. unfold store_session. intros Hs. inv_ok. subst. by apply grow_session. Qed.

Lemma grow_step d r t st page ms txt now : reach db d -> reach db (_add_step r t st page ms txt now d).
Proof.
  intros H. eapply reach_write; [exact H|]. apply w_step. intros s Hs E. cbn in *. apply next_version_gt, list_elem_of_fmap.
  exists s. split; [done|]. apply list_elem_of_filter. done.
Qed.

Lemma grow_field d f : reach db d -> field_ok f -> reach db (put_field f d).
Proof. intros H Hf. eapply reach_write; [exact H|]. by apply w_field. Qed.

Lemma grow_jobs d l : reach db d -> pj_id <$> l = pj_id <$> jobs d -> pj_key <$> l = pj_key <$> jobs d -> reach db (set_jobs l d).
Proof. intros H E1 E2. eapply reach_write; [exact H|]. by apply w_jobs. Qed.

Lemma grow_enqueue d n now : reach db d -> reach db (enqueue uuid4 n now d).
Proof.
  intros H. unfold enqueue. case_bool_decide; [done|]. eapply reach_write; [exact H|]. by apply w_job_new.
Qed.

Lemma grow_enqueue_fresh d t p i s payload n run now : reach db d -> reach db (enqueue_fresh uuid4 t p i s payload n run now d).
Proof. intros H. apply grow_enqueue, grow_drawn, H. Qed.

Lemma grow_fold {A} (f : PortalDb -> A -> PortalDb) l d :
  (forall d x, reach db d -> reach db (f d x)) -> reach db d -> reach db (foldl f d l).
Proof. intros Hf. revert d. induction l as [|x l IH]; [done|]. intros d H. apply IH, Hf, H. Qed.

Lemma grow_foldR {S A} (view : S -> PortalDb) (f : S -> A -> result exn S) l s s' :
  (forall s x s', reach db (view s) -> f s x = Ok s' -> reach db (view s')) -> reach db (view s) -> foldR f s l = Ok s' ->
  reach db (view s').
Proof.
  intros Hf. revert s. induction l as [|x l IH]; intros s H; cbn.
  - by intros [= <-].
  - intros E. inv_ok. eapply IH; [|done]. by eapply Hf.
Qed.

Lemma grow_handoff d i h0 h :
  reach db d -> handoffs d !! i = Some h0 -> hh_id h = hh_id h0 -> hh_run h = hh_run h0 -> hh_type h = hh_type h0 ->
  (hh_status h0 = value HandoffStatus.COMPLETED -> hh_status h = value HandoffStatus.COMPLETED) -> reach db (put_handoff h d).
Proof.
  intros H Hi Eid Er Et Hs. eapply reach_write; [exact H|]. eapply w_handoff; [|done..].
  by rewrite Eid, (ok_handoffs _ _ _ _ (reach_ok _ _ H) i h0 Hi).
Qed.

Lemma grow_handoff_new d h : reach db d -> hh_id h = uuid4 (next_id d) -> reach db (put_handoff h (drawn d)).
Proof. intros H E. eapply reach_write; [exact H|]. by apply w_handoff_new. Qed.

Lemma grow_evidence d e : reach db d -> reach db (add_evidence_row e d).
Proof. intros H. eapply reach_write; [exact H|]. apply w_evidence. Qed.

(** A review or an adapter that is not the one in force. *)
Lemma grow_review d v : reach db d -> ~ review_approved v -> reach db (put_review v d).
Proof. intros H Hv. eapply reach_write; [exact H|]. apply w_review. intros Ha. by destruct (Hv Ha). Qed.

Lemma grow_adapter d a : reach db d -> ~ adapter_active a -> reach db (put_adapter a d).
Proof. intros H Hv. eapply reach_write; [exact H|]. apply w_adapter. intros Ha. by destruct (Hv Ha). Qed.

(** A snapshot that gives way or is refused. *)
Lemma grow_snapshot d i p q :
  reach db d -> snapshots d !! i = Some p ->
  q = p <| ps_status := ps_status q |> <| ps_reviewed_by := ps_reviewed_by q |> <| ps_reviewed_at := ps_reviewed_at q |> ->
  ps_status q <> value SnapshotStatus.READY_FOR_REVIEW -> ps_status q <> value SnapshotStatus.APPROVED -> reach db (put_snapshot q d).
Proof.
  intros H Hi E Hr Ha. eapply reach_write; [exact H|]. eapply (w_snapshot _ _ _ _ p); [| done | done | by intros ?].
  assert (ps_id q = ps_id p) as -> by (rewrite E; done).
  by rewrite (ok_snapshot_ids _ _ _ _ (reach_ok _ _ H) i p Hi).
Qed.

Lemma approved_snapshot_Some run d p :
  portal_ok d -> approved_snapshot run d = Some p ->
  snapshots d !! ps_id p = Some p /\ ps_run p = run /\ ps_status p = value SnapshotStatus.APPROVED.
Proof.
  intros Hd H%head_elem. apply list_elem_of_filter in H as [Hs H]. apply elem_of_where in H as [Hr [i Hi]].
  apply bool_decide_eq_true in Hr. by rewrite (ok_snapshot_ids _ _ _ _ Hd i p Hi).
Qed.

Lemma approved_snapshot_None run d j x :
  approved_snapshot run d = None -> snapshots d !! j = Some x -> ps_run x = run -> ps_status x <> value SnapshotStatus.APPROVED.
Proof.
  intros H%head_none Hj Hr Hs. assert (x ∈ filter (fun p => ps_status p = value SnapshotStatus.APPROVED) (snapshots_of run d)) as Hin.
  { apply list_elem_of_filter. split; [done|]. apply elem_of_where. split; [by apply bool_decide_eq_true | by exists j]. }
  rewrite H in Hin. by apply elem_of_nil in Hin.
Qed.

Lemma grow_superseded d run p :
  reach db d -> approved_snapshot run d = Some p -> reach db (put_snapshot (p <| ps_status := value SnapshotStatus.SUPERSEDED |>) d).
Proof.
  intros H Hp. destruct (approved_snapshot_Some run d p (reach_ok _ _ H) Hp) as (Hi & _ & _).
  by eapply grow_snapshot.
Qed.
End Growing.
End Calls.

(* implicit: Calls *)
Arguments reach_write {_ _ _ _}.
Arguments writes_known {_ _ _ _}.
Arguments known_reach {_ _ _ _}.
Arguments grow_same {_ _ _ _}.
Arguments grow_audit {_ _ _ _}.
Arguments grow_drawn {_ _ _ _}.
Arguments grow_portal {_ _ _ _}.
Arguments grow_run {_ _ _ _}.
Arguments grow_run_of {_ _ _ _}.
Arguments grow_session {_ _ _ _}.
Arguments grow_stored {_ _ _ _}.
Arguments grow_step {_ _ _ _}.
Arguments grow_field {_ _ _ _}.
Arguments grow_jobs {_ _ _ _}.
Arguments grow_enqueue {_ _ _ _}.
Arguments grow_enqueue_fresh {_ _ _ _}.
Arguments grow_handoff {_ _ _ _}.
Arguments grow_handoff_new {_ _ _ _}.
Arguments grow_evidence {_ _ _ _}.
Arguments grow_review {_ _ _ _}.
Arguments grow_adapter {_ _ _ _}.
Arguments grow_snapshot {_ _ _ _}.
Arguments grow_superseded {_ _ _ _}.


Ltac not_final := by (let E := fresh in intros E; vm_compute in E).
Ltac run_open := split; [not_final | split; [vm_compute; reflexivity | reflexivity]].
Ltac grow :=
  repeat lazymatch goal with
  | H : reach _ _ _ ?a ?b |- reach _ _ _ ?a ?b => exact H
  | |- reach _ _ _ ?db ?db => apply reach_refl; assumption
  | |- reach _ _ _ _ (audit _ _ _ _ _) => apply grow_audit
  | |- reach _ _ _ _ (audited _ _ _ _ _) => apply grow_audit
  | |- reach _ _ _ _ (drawn _) => apply grow_drawn
  | |- reach _ _ _ _ (put_portal _ _) => eapply grow_portal; [| eassumption | reflexivity | reflexivity]
  | |- reach _ _ _ ?o (put_authorization _ ?d) => apply (grow_same o d); [|reflexivity..]
  | |- reach _ _ _ ?o (put_mapping _ ?d) => apply (grow_same o d); [|reflexivity..]
  | |- reach _ _ _ ?o (put_document _ ?d) => apply (grow_same o d); [|reflexivity..]
  | |- reach _ _ _ ?o (put_attestation _ ?d) => apply (grow_same o d); [|reflexivity..]
  | |- reach _ _ _ ?o (put_payment _ ?d) => apply (grow_same o d); [|reflexivity..]
  | |- reach _ _ _ _ (add_evidence_row _ _) => apply grow_evidence
  | |- reach _ _ _ _ (put_run _ _) => eapply grow_run_of; [assumption | | eassumption | reflexivity | run_open]
  | |- reach _ _ _ _ (_add_step _ _ _ _ _ _ _ _) => apply grow_step
  | |- reach _ _ _ _ (enqueue _ _ _ _) => apply grow_enqueue
  | |- reach _ _ _ _ (enqueue_fresh _ _ _ _ _ _ _ _ _ _) => apply grow_enqueue_fresh
  | |- reach _ _ _ _ (put_adapter _ _) => apply grow_adapter; [|not_final]
  | |- reach _ _ _ _ (put_review _ _) => apply grow_review; [|try not_final]
  | |- reach _ _ _ _ (put_handoff _ (drawn _)) => apply grow_handoff_new; [|reflexivity]
  | |- reach _ _ _ _ (put_handoff _ _) => eapply grow_handoff; [| eassumption | reflexivity | reflexivity | reflexivity |]
  | |- reach _ _ _ _ (put_snapshot _ _) => eapply grow_snapshot; [| eassumption | reflexivity | not_final | not_final]
  end.

Section ServiceCalls.
Context (uuid4 : nat -> uuid) (py_str : json -> string) (sha256 : string -> string).
Context `{!Distinct uuid4}.

Notation write := (write uuid4 py_str sha256).
Notation writes := (writes uuid4 py_str sha256).
Notation portal_ok := (portal_ok uuid4 py_str sha256).
Notation reach := (reach uuid4 py_str sha256).

(** ** Governance *)

Lemma review_ready_sound p v v' :
  review_ready py_str p v = true -> rv_compliance v' = rv_compliance v -> rv_security v' = rv_security v ->
  rv_findings v' = rv_findings v -> rv_prohibited v' = rv_prohibited v -> rv_allowed v' = rv_allowed v -> review_sound py_str v'.
Proof.
  unfold review_ready, review_sound. rewrite !andb_true_iff. intros [[[[[_ Hc] Hs] Hf] Hp] Ha] -> -> -> -> ->.
  apply negb_true_iff in Hf, Ha. split_and!; [done..|]. apply List.Forall_forall. intros x Hx. rewrite forallb_forall in Hp.
  split; [by apply Hp|]. destruct (flag x (rv_allowed v)) eqn:E; [|done]. exfalso.
  assert (existsb (fun a => flag a (rv_allowed v)) ABSOLUTELY_PROHIBITED_ACTIONS = true) as Ht; [|by rewrite Ht in Ha].
  apply existsb_exists. by exists x.
Qed.

Lemma active_review_Some p db k :
  portal_ok db -> active_review p db = Some k -> reviews db !! rv_id k = Some k /\ rv_portal k = p /\ review_approved k.
Proof.
  intros Hdb H%head_elem%elem_of_where. destruct H as [H [i Hi]]. unfold is_active_review in H.
  rewrite andb_true_iff, !bool_decide_eq_true in H. by rewrite (ok_review_ids _ _ _ _ Hdb i k Hi).
Qed.

Lemma active_review_None p db j x :
  active_review p db = None -> reviews db !! j = Some x -> rv_portal x = p -> ~ review_approved x.
Proof.
  intros H%head_none Hj Hp Ha. assert (x ∈ where_ (is_active_review p) (reviews db)) as Hin.
  { apply elem_of_where. unfold is_active_review. rewrite andb_true_iff, !bool_decide_eq_true. split; [done | by exists j]. }
  rewrite H in Hin. by apply elem_of_nil in Hin.
Qed.

Lemma active_adapter_Some p key db k :
  portal_ok db -> head (where_ (active_adapter_of p key) (adapters db)) = Some k ->
  adapters db !! ad_id k = Some k /\ ad_portal k = p /\ ad_key k = key /\ adapter_active k.
Proof.
  intros Hdb H%head_elem%elem_of_where. destruct H as [H [i Hi]]. unfold active_adapter_of in H.
  rewrite !andb_true_iff, !bool_decide_eq_true in H. rewrite (ok_adapter_ids _ _ _ _ Hdb i k Hi). by destruct H as [[? ?] ?].
Qed.

Lemma active_adapter_None p key db j x :
  head (where_ (active_adapter_of p key) (adapters db)) = None -> adapters db !! j = Some x -> ad_portal x = p -> ad_key x = key ->
  ~ adapter_active x.
Proof.
  intros H%head_none Hj Hp Hk Ha. assert (x ∈ where_ (active_adapter_of p key) (adapters db)) as Hin.
  { apply elem_of_where. unfold active_adapter_of. rewrite !andb_true_iff, !bool_decide_eq_true. split; [done | by exists j]. }
  rewrite H in Hin. by apply elem_of_nil in Hin.
Qed.

Section GovernanceCalls.
Context (written_first : uuid -> uuid -> bool) (settings : PortalSettings).

Lemma update_portal_reach i c ch db p db' : portal_ok db -> update_portal i c ch db = Ok (p, db') -> reach db db'.
Proof. intros Hdb. unfold update_portal. intros H. walk. grow. Qed.

Lemma create_review_reach i c n now db v db' : portal_ok db -> create_review uuid4 settings i c n now db = Ok (v, db') -> reach db db'.
Proof. intros Hdb. unfold create_review. intros H. walk. grow. Qed.

Lemma record_review_signoff_reach i c d db v db' : portal_ok db -> record_review_signoff i c d db = Ok (v, db') -> reach db db'.
Proof.
  intros Hdb. unfold record_review_signoff. intros H. walk; grow; unfold review_approved; cbn; apply bool_decide_eq_true in H1;
    by rewrite H1.
Qed.

Lemma suspend_review_reach i c db v db' : portal_ok db -> suspend_review i c db = Ok (v, db') -> reach db db'.
Proof. intros Hdb. unfold suspend_review. intros H. walk. grow. Qed.

Lemma create_adapter_reach i c k routes contract db a db' :
  portal_ok db -> create_adapter uuid4 py_str i c k routes contract db = Ok (a, db') -> reach db db'.
Proof. intros Hdb. unfold create_adapter. intros H. walk. grow. Qed.

Lemma add_field_mapping_reach i c n db m db' : portal_ok db -> add_field_mapping uuid4 i c n db = Ok (m, db') -> reach db db'.
Proof. intros Hdb. unfold add_field_mapping. intros H. walk. grow. Qed.

Lemma upsert_authorization_reach i c f now db a db' :
  portal_ok db -> upsert_authorization uuid4 i c f now db = Ok (a, db') -> reach db db'.
Proof. intros Hdb. unfold upsert_authorization. intros H. walk; grow. Qed.

Lemma approve_review_reach i c now db v db' :
  portal_ok db -> approve_review py_str written_first i c now db = Ok (v, db') -> reach db db'.
Proof.
  intros Hdb. unfold approve_review. intros H. walk. apply grow_audit. pose proof (ok_portals _ _ _ _ Hdb _ _ H2) as Hp. rewrite Hp in *.
  set (d := match active_review _ db with Some k => _ | None => db end).
  assert (reach db d /\ portals d = portals db) as [Hd Hpd].
  { unfold d. destruct (active_review _ _) as [k|]; [destruct (bool_decide (rv_id k = i))|]; split; try done; grow. }
  eapply (grow_portal _ _ (rv_portal a) a1); [| change (portals d !! rv_portal a = Some a1); by rewrite Hpd | done | done].
  eapply reach_write; [exact Hd|]. apply w_review. intros _. split; [by eapply review_ready_sound|].
  intros j x Hj Hne Hpt Hx. cbn in *. rewrite (ok_review_ids _ _ _ _ Hdb i a) in Hne by done.
  revert Hj. unfold d.
  destruct (active_review (rv_portal a) db) as [k|] eqn:Ek.
  - destruct (active_review_Some _ _ _ Hdb Ek) as (Hk & Hkp & Hka). destruct (bool_decide_reflect (rv_id k = i)) as [Hi|Hi].
    + intros Hj. apply Hne. rewrite <-Hi. apply (ok_one_review _ _ _ _ Hdb j (rv_id k) x k); [exact Hj | exact Hk | congruence | exact Hx | exact Hka].
    + intros [[-> ->]|[Hn Hj]]%put_lookup; [done|].
      apply Hn. apply (ok_one_review _ _ _ _ Hdb j (rv_id k) x k); [exact Hj | exact Hk | congruence | exact Hx | exact Hka].
  - intros Hj. by eapply active_review_None.
Qed.

Lemma activate_adapter_reach i c now db a db' :
  portal_ok db -> activate_adapter py_str written_first i c now db = Ok (a, db') -> reach db db'.
Proof.
  intros Hdb. unfold activate_adapter. intros H. walk. apply grow_audit. pose proof (ok_portals _ _ _ _ Hdb _ _ H1) as Hp. rewrite Hp in *.
  set (l := head (where_ _ _)). set (d := match l with Some k => _ | None => db end).
  assert (reach db d) as Hd.
  { unfold d. destruct l as [k|]; [destruct (bool_decide (ad_id k = i))|]; grow. }
  eapply reach_write; [exact Hd|]. apply w_adapter. intros _. split; [by destruct a3|].
  intros j x Hj Hne Hpt Hkey Hx. cbn in *. rewrite (ok_adapter_ids _ _ _ _ Hdb i a0) in Hne by done.
  revert Hj. unfold d.
  destruct l as [k|] eqn:Ek.
  - destruct (active_adapter_Some _ _ _ _ Hdb Ek) as (Hk & Hkp & Hkk & Hka). destruct (bool_decide_reflect (ad_id k = i)) as [Hi|Hi].
    + intros Hj. apply Hne. rewrite <-Hi. apply (ok_one_adapter _ _ _ _ Hdb j (ad_id k) x k); [exact Hj | exact Hk | congruence | congruence | exact Hx | exact Hka].
    + intros [[-> ->]|[Hn Hj]]%put_lookup; [done|].
      apply Hn. apply (ok_one_adapter _ _ _ _ Hdb j (ad_id k) x k); [exact Hj | exact Hk | congruence | congruence | exact Hx | exact Hka].
  - intros Hj. by eapply active_adapter_None.
Qed.
End GovernanceCalls.

(** ** Runs *)

Section RunCalls.
Context (settings : PortalSettings).

Lemma fields_reach db d r a : reach db d -> reach db (_initialize_fields uuid4 r a d).
Proof.
  intros H. destruct a as [a|]; [|done]. cbn [_initialize_fields]. apply grow_fold; [|done]. intros d' m Hd. apply grow_drawn, grow_field; [done|].
  unfold field_ok, field_of. cbn. by destruct (_ || _).
Qed.

Lemma documents_reach db d r p c today d' : reach db d -> _initialize_documents uuid4 r p c today d = Ok d' -> reach db d'.
Proof.
  intros H. unfold _initialize_documents. destruct p as [p|]; [|by intros [= <-]].
  apply (grow_foldR _ _ _ db (fun d => d)); [|done]. intros d0 x d1 Hd E. unfold add_document in E. walk. grow.
Qed.

Lemma create_run_reach i c n now today db r db' :
  portal_ok db -> create_run uuid4 settings i c n now today db = Ok (r, db') -> reach db db'.
Proof.
  intros Hdb. unfold create_run. intros H. walk; grow; (eapply documents_reach; [|eassumption]); apply fields_reach;
    (eapply reach_write; [by apply reach_refl | by apply w_run_new]).
Qed.

(** A withdrawn approval changes the snapshot, and the status of the run it returns. *)
Lemma invalidate_reach db d r c r' d' :
  reach db d -> PortalRuns._invalidate_snapshot r c d = (r', d') ->
  reach db d' /\ identity r' = identity r /\ (r' = r \/ not_submitted r') /\ runs d' = runs d.
Proof.
  intros H. unfold PortalRuns._invalidate_snapshot. destruct (approved_snapshot (pr_id r) d) as [p|] eqn:E.
  - unfold invalidated. intros [= <- <-]. split_and!; [| done | right; run_open | done]. grow. by eapply grow_superseded.
  - intros [= <- <-]. auto.
Qed.

(** A run written back as it was, or with a status that is not the final one. *)
Lemma grow_run_kept db d i r0 r :
  portal_ok db -> reach db d -> runs db !! i = Some r0 -> runs d = runs db ->
  identity r = identity r0 -> (pr_status r = pr_status r0 /\ pr_stage r = pr_stage r0) \/ not_submitted r ->
  reach db (put_run r d).
Proof.
  intros Hdb H Hi E Er [[Es Et]|Hs]; [|by eapply grow_run_of]. eapply reach_write; [exact H|].
  assert (pr_id r = pr_id r0) as Eid by (unfold identity in Er; congruence).
  eapply w_run; [by rewrite E, Eid, (ok_runs _ _ _ _ Hdb i r0 Hi) | done | by right|]. rewrite Es. by left.
Qed.

Lemma update_run_reach i c ch now db r db' : portal_ok db -> update_run i c ch now db = Ok (r, db') -> reach db db'.
Proof.
  intros Hdb. unfold update_run. intros (r0 & Hr%get_Ok & H)%bind_Ok_inv.
  apply bind_Ok_inv in H as (u & Hst%raise_unless_Ok%negb_true_iff & H). apply bool_decide_eq_false in Hst.
  apply bind_Ok_inv in H as (p & _ & H). apply bind_Ok_inv in H as (u1 & _ & H). cbv zeta in H.
  apply bind_Ok_inv in H as (u2 & _ & H). destruct (PortalRuns._invalidate_snapshot _ c db) as [r' d'] eqn:E.
  apply Ok_pair_inj in H as [_ <-]. apply (invalidate_reach db) in E as (Hd & Hid & Hs & Hrun); [|by apply reach_refl].
  apply grow_audit. eapply grow_run_kept; [done | done | exact Hr | | by rewrite Hid | destruct Hs as [->|Hs]; [by left | by right]].
  by rewrite Hrun.
Qed.

Lemma start_reach i c now db r db' : portal_ok db -> start settings i c now db = Ok (r, db') -> reach db db'.
Proof. intros Hdb. unfold start. intros H. walk; grow. Qed.

Lemma pause_reach i c db r db' : portal_ok db -> pause i c db = Ok (r, db') -> reach db db'.
Proof. intros Hdb. unfold pause. intros H. walk; grow. Qed.

Lemma resume_reach i c now db r db' : portal_ok db -> resume uuid4 i c now db = Ok (r, db') -> reach db db'.
Proof. intros Hdb. unfold resume. intros H. walk; grow. Qed.

Lemma cancelled_jobs i l :
  pj_id <$> cancel_pending_for_run i l = pj_id <$> l /\ pj_key <$> cancel_pending_for_run i l = pj_key <$> l.
Proof.
  unfold cancel_pending_for_run. rewrite <-!list_fmap_compose.
  split; apply list_fmap_ext; intros k j _; cbn; by destruct (_ && _).
Qed.

Lemma cancel_reach i c now db r db' : portal_ok db -> cancel uuid4 i c now db = Ok (r, db') -> reach db db'.
Proof.
  intros Hdb. unfold cancel. intros H. walk. apply grow_audit, grow_fold; [intros d b Hd; by apply grow_enqueue|].
  destruct (cancelled_jobs i (jobs db)). apply grow_jobs; [grow | done..].
Qed.

Lemma queue_navigation_reach i c k q now db r db' : portal_ok db -> queue_navigation uuid4 i c k q now db = Ok (r, db') -> reach db db'.
Proof. intros Hdb. unfold queue_navigation. intros H. walk; grow. Qed.

Lemma queue_validation_reach i c now db r db' : portal_ok db -> queue_validation uuid4 i c now db = Ok (r, db') -> reach db db'.
Proof. intros Hdb. unfold queue_validation. intros H. walk; grow. Qed.

Lemma capture_validation_reach i c ms page now db r db' :
  portal_ok db -> capture_validation py_str i c ms page now db = Ok (r, db') -> reach db db'.
Proof.
  intros Hdb. unfold capture_validation. intros (r0 & Hr%get_Ok & H)%bind_Ok_inv.
  destruct (PortalRuns._invalidate_snapshot r0 c db) as [r' d'] eqn:E. apply Ok_pair_inj in H as [_ <-].
  apply (invalidate_reach db) in E as (Hd & Hid & _); [|by apply reach_refl].
  eapply grow_run_of; [done | by apply grow_step | exact Hr | by rewrite <-Hid|].
  unfold set_status, review_status. destruct (existsb _ _); run_open.
Qed.

Lemma create_snapshot_reach i c now db p db' :
  portal_ok db -> create_snapshot uuid4 sha256 i c now db = Ok (p, db') -> reach db db'.
Proof.
  intros Hdb. unfold create_snapshot. intros (r & Hr%get_Ok & H)%bind_Ok_inv. apply bind_Ok_inv in H as (g & _ & H).
  apply Ok_pair_inj in H as [_ <-]. apply grow_audit, grow_step.
  eapply grow_run_of; [done | | exact Hr | done | unfold set_status, review_status; destruct (negb _); run_open].
  eapply reach_write; [by apply reach_refl|]. pose proof (ok_runs _ _ _ _ Hdb i r Hr) as Hi. subst i.
  apply (w_snapshot_new _ _ _ _ _ r); [reflexivity | exact Hr | reflexivity | | |].
  - cbn. by case_bool_decide.
  - cbn. case_bool_decide as E; [|done]. intros _. by apply nil_length_inv.
  - intros j q Hj Hq. cbn in *. apply next_version_gt, list_elem_of_fmap. exists q. split; [done|].
    apply elem_of_where. split; [by apply bool_decide_eq_true | by exists j].
Qed.

Lemma approve_snapshot_reach i c now db p db' :
  portal_ok db -> approve_snapshot sha256 i c now db = Ok (p, db') -> reach db db'.
Proof.
  intros Hdb. unfold approve_snapshot. intros H. walk. apply grow_audit.
  eapply grow_run_of; [done | | eassumption | done | run_open].
  eapply reach_write; [by apply reach_refl|].
  match goal with Hp : snapshots db !! i = Some ?q |- _ =>
    pose proof (ok_snapshot_ids _ _ _ _ Hdb i q Hp) as Hi; subst i; apply (w_snapshot _ _ _ _ q); [exact Hp | done | done|] end.
  intros _. split_and!.
  - by apply bool_decide_eq_true in H1.
  - exists (actor_id c). split; [done|]. intros E. by rewrite bool_decide_eq_true_2 in H2.
  - match goal with Hn : negb (truthy_opt (approved_snapshot _ _)) = true |- _ => apply negb_true_iff in Hn as Hno end.
    destruct (approved_snapshot _ db) as [q|] eqn:Eq; [done|]. intros j x Hj Hx. by eapply approved_snapshot_None.
Qed.

Lemma reject_snapshot_reach i c now db p db' : portal_ok db -> reject_snapshot i c now db = Ok (p, db') -> reach db db'.
Proof. intros Hdb. unfold reject_snapshot. intros H. walk. grow. Qed.
End RunCalls.

(** ** Sessions and handoffs *)

Section SessionCalls.
Context (settings : PortalSettings).

(** A session that is active keeps the slot of its run. *)
Lemma slot_kept db i b b' :
  portal_ok db -> sessions db !! i = Some b -> session_active b = true -> bs_id b' = bs_id b -> bs_run b' = bs_run b ->
  session_slot_free b' db = true.
Proof.
  intros Hdb Hi Ha Eid Er. unfold session_slot_free. apply orb_true_iff. right. apply negb_true_iff.
  destruct (existsb _ _) eqn:E; [|done]. exfalso. apply existsb_exists in E as (x & Hx%list_elem_of_In & Hne%negb_true_iff).
  apply bool_decide_eq_false in Hne. apply elem_of_where in Hx as [Hx [j Hj]].
  rewrite andb_true_iff, bool_decide_eq_true in Hx. destruct Hx as [Hrun Hact]. apply Hne.
  rewrite Eid, (ok_session_ids _ _ _ _ Hdb i b Hi), (ok_session_ids _ _ _ _ Hdb j x Hj).
  apply (ok_sessions _ _ _ _ Hdb j i x b); [done | done | congruence | done..].
Qed.

Lemma active_status b (s : BrowserSessionStatus.BrowserSessionStatus) :
  bs_status b = value s -> bool_decide (value s ∈ ACTIVE_BROWSER_SESSION_STATUSES) = true -> session_active b = true.
Proof. unfold session_active. by intros ->. Qed.

Lemma request_session_reach i c now db b db' :
  portal_ok db -> request_session uuid4 settings i c now db = Ok (b, db') -> reach db db'.
Proof.
  intros Hdb. unfold request_session. intros H. walk; grow. eapply grow_stored; [|eassumption]. grow.
Qed.

Lemma take_control_reach i c now db b db' : portal_ok db -> take_control i c now db = Ok (b, db') -> reach db db'.
Proof.
  intros Hdb. unfold take_control. intros H. walk. apply grow_audit, grow_session; [grow|].
  apply bool_decide_eq_true in H2. eapply slot_kept; [done | done | by eapply active_status; [eassumption|] | done..].
Qed.

Lemma return_control_reach i c now db b db' : portal_ok db -> return_control i c now db = Ok (b, db') -> reach db db'.
Proof.
  intros Hdb. unfold return_control. intros H. walk. apply grow_session; [grow|].
  apply bool_decide_eq_true in H2. eapply slot_kept; [done | done | by eapply active_status; [eassumption|] | done..].
Qed.

Lemma enqueue_runs n now d : runs (enqueue uuid4 n now d) = runs d.
Proof. unfold enqueue. by case_bool_decide. Qed.

Lemma enqueue_handoffs n now d : handoffs (enqueue uuid4 n now d) = handoffs d.
Proof. unfold enqueue. by case_bool_decide. Qed.

Lemma close_reach i c reason now db b db' : portal_ok db -> close uuid4 i c reason now db = Ok (b, db') -> reach db db'.
Proof.
  intros Hdb. unfold close. intros H. walk. unfold store_session in *. walk.
  match goal with Hr : runs _ !! _ = Some ?r |- _ => rewrite enqueue_runs in Hr; eapply grow_run_kept; [done | | exact Hr | | |] end.
  - apply grow_session; [grow | done].
  - cbn. apply enqueue_runs.
  - by destruct (bool_decide _).
  - destruct (bool_decide _); [by left | right; run_open].
Qed.

Lemma handoff_session_reach db d r t g now s d' :
  reach db d -> handoff_session uuid4 r t g now d = Ok (s, d') -> reach db d' /\ runs d' = runs d /\ handoffs d' = handoffs d.
Proof.
  intros H. unfold handoff_session. intros E. walk; [done| |done].
  unfold store_session in *. walk. rewrite enqueue_runs. split_and!; [|done|].
  - apply grow_enqueue, grow_session; [done | done].
  - by rewrite enqueue_handoffs.
Qed.

Lemma create_handoff_reach i c t q e s now db h db' b :
  portal_ok db -> create_handoff uuid4 i c t q e s now db = Ok (h, db', b) -> reach db db'.
Proof.
  intros Hdb. unfold create_handoff. destruct (of_value t) as [ht|]; [|done]. intros H. walk.
  all: match goal with Hs : handoff_session _ _ _ _ _ _ = Ok _ |- _ =>
    apply (handoff_session_reach db) in Hs as (Hd & Hr & Hh); [|by apply reach_refl] end.
  1: done.
  apply grow_audit. eapply grow_run_of; [done | by apply grow_handoff_new | eassumption | done|].
  unfold set_status, _RUN_STATUS_FOR_HANDOFF. destruct ht; run_open.
Qed.

Lemma accept_handoff_reach i c now db : portal_ok db -> reach db (accept_handoff i c now db).2.
Proof.
  intros Hdb. unfold accept_handoff. destruct (handoffs db !! i) as [h|] eqn:Hi; [|by apply reach_refl].
  case_bool_decide as Hs; cbn [negb]; [|by apply reach_refl]. destruct (reached _ now).
  { cbn [snd]. eapply grow_handoff; [by apply reach_refl | exact Hi | done..|]. rewrite Hs. done. }
  destruct (accepted h c now db) as [[h' db']|] eqn:E; [|by apply reach_refl]. cbn [snd]. unfold accepted in E. walk.
  - apply grow_audit. unfold store_session in *. walk.
    eapply grow_handoff; [by apply grow_session; [by apply reach_refl|] | exact Hi | done..|]. rewrite Hs. done.
  - apply grow_audit. eapply grow_handoff; [by apply reach_refl | exact Hi | done..|]. rewrite Hs. done.
Qed.

Lemma request_handoff_completion_reach i c res cf ev page now db h db' :
  portal_ok db -> request_handoff_completion uuid4 i c res cf ev page now db = Ok (h, db') -> reach db db'.
Proof. intros Hdb. unfold request_handoff_completion. intros H. walk. grow. done. Qed.

Lemma decline_handoff_reach i c reason now db h db' : portal_ok db -> decline_handoff i c reason now db = Ok (h, db') -> reach db db'.
Proof.
  intros Hdb. unfold decline_handoff. intros H. walk. grow. intros Hc. rewrite Hc in H1. by vm_compute in H1.
Qed.
End SessionCalls.
End ServiceCalls.

(* implicit: ServiceCalls *)
Arguments update_portal_reach {_ _ _ _}.
Arguments create_review_reach {_ _ _ _}.
Arguments record_review_signoff_reach {_ _ _ _}.
Arguments suspend_review_reach {_ _ _ _}.
Arguments create_adapter_reach {_ _ _ _}.
Arguments add_field_mapping_reach {_ _ _ _}.
Arguments upsert_authorization_reach {_ _ _ _}.
Arguments approve_review_reach {_ _ _ _}.
Arguments activate_adapter_reach {_ _ _ _}.
Arguments fields_reach {_ _ _ _}.
Arguments documents_reach {_ _ _ _}.
Arguments create_run_reach {_ _ _ _}.
Arguments invalidate_reach {_ _ _ _}.
Arguments grow_run_kept {_ _ _ _}.
Arguments update_run_reach {_ _ _ _}.
Arguments start_reach {_ _ _ _}.
Arguments pause_reach {_ _ _ _}.
Arguments resume_reach {_ _ _ _}.
Arguments cancel_reach {_ _ _ _}.
Arguments queue_navigation_reach {_ _ _ _}.
Arguments queue_validation_reach {_ _ _ _}.
Arguments capture_validation_reach {_ _ _ _}.
Arguments create_snapshot_reach {_ _ _ _}.
Arguments approve_snapshot_reach {_ _ _ _}.
Arguments reject_snapshot_reach {_ _ _ _}.
Arguments request_session_reach {_ _ _ _}.
Arguments take_control_reach {_ _ _ _}.
Arguments return_control_reach {_ _ _ _}.
Arguments close_reach {_ _ _ _}.
Arguments handoff_session_reach {_ _ _ _}.
Arguments create_handoff_reach {_ _ _ _}.
Arguments accept_handoff_reach {_ _ _ _}.
Arguments decline_handoff_reach {_ _ _ _}.


