(* ===== verification/PortalJobs.v ===== *)
(** * Human final actions and the jobs of the browser worker as writes

    The calls of [SubmissionEvidence] and [PortalEntry] change the tables by [write]s
    only; among them is the one that confirms a submission.  Then the worker:
    [spec F m G] says that where the worker's tables satisfy [F], the computation [m]
    changes them, and what it commits, by [write]s only, and a value it returns satisfies
    [G].  A whole cycle of a worker, its expiry of sessions and the scheduler's part lead
    from consistent tables to consistent tables, rolled back or not. *)
From Stdlib Require Import Ascii SpecFloat Relations.
From S2P Require Import CaseService.
From S2P Require Import Prelude Terms PyDate PyJson Crypto Roles PortalPolicy PortalStore PortalGovernance PortalRuns PortalSessions SubmissionEvidence PortalEntry PortalAdapters PortalWorker PortalWrites PortalCalls.
Open Scope Z_scope.


Section ActionCalls.
Context (uuid4 : nat -> uuid) (py_str : json -> string) (sha256 : string -> string).
Context `{!Distinct uuid4}.

Notation write := (write uuid4 py_str sha256).
Notation writes := (writes uuid4 py_str sha256).
Notation portal_ok := (portal_ok uuid4 py_str sha256).
Notation reach := (reach uuid4 py_str sha256).

(** ** Evidence *)

Lemma latest_handoff_at db run t among h :
  portal_ok db -> latest_handoff run t among db = Some h ->
  handoffs db !! hh_id h = Some h /\ hh_run h = run /\ hh_type h = value t /\ hh_status h ∈ among.
Proof.
  intros Hdb H%latest_elem%elem_of_where. destruct H as [H [i Hi]]. rewrite !andb_true_iff, !bool_decide_eq_true in H.
  rewrite (ok_handoffs _ _ _ _ Hdb i h Hi). by destruct H as [[? ?] ?].
Qed.

Lemma ensure_attestation_reach i t u f ref db a db' :
  portal_ok db -> ensure_attestation uuid4 i t u f ref db = Ok (a, db') -> reach db db'.
Proof. intros Hdb. unfold ensure_attestation. intros H. walk; grow. Qed.

Lemma after_handoff_ok h r : identity (after_handoff h r) = identity r /\ ((pr_status (after_handoff h r) = pr_status r /\ pr_stage (after_handoff h r) = pr_stage r) \/ not_submitted (after_handoff h r)).
Proof. unfold after_handoff. destruct (hh_session h); [by split; [|left] | split; [done | right; run_open]]. Qed.

Lemma finish_handoff_reach db d t run res ev now d' :
  reach db d -> finish_handoff t run res ev now d = Ok d' -> reach db d'.
Proof.
  intros H. unfold finish_handoff. destruct (latest_handoff run t AWAITED d) as [h|] eqn:E; [|by intros [= <-]].
  intros Hf. walk. pose proof (reach_ok _ _ _ _ _ H) as Hd. destruct (latest_handoff_at _ _ _ _ _ Hd E) as (Hi & _ & _ & Hs).
  eapply reach_trans; [exact H|].
  match goal with |- reach d (put_run (after_handoff ?h ?r) _) => destruct (after_handoff_ok h r) as [E1 E2] end.
  eapply grow_run_kept; [done | | eassumption | done | exact E1 | exact E2].
  eapply grow_handoff; [by apply reach_refl | exact Hi | done..].
Qed.

Lemma record_attestation_completion_reach i c page ev now db a db' :
  portal_ok db -> record_attestation_completion i c page ev now db = Ok (a, db') -> reach db db'.
Proof. intros Hdb. unfold record_attestation_completion. intros H. walk; grow. eapply finish_handoff_reach; [|eassumption]. grow. Qed.

Lemma record_signature_completion_reach i c ev now db h db' :
  portal_ok db -> record_signature_completion i c ev now db = Ok (h, db') -> reach db db'.
Proof.
  intros Hdb. unfold record_signature_completion. intros H. walk. apply grow_audit.
  match goal with |- reach db (put_run (after_handoff ?h ?r) _) => destruct (after_handoff_ok h r) as [E1 E2] end.
  eapply grow_run_kept; [done | | eassumption | done | exact E1 | exact E2].
  eapply grow_handoff; [by apply reach_refl | eassumption | done..].
Qed.

Lemma ensure_payment_reach i fee cur sum db p db' : portal_ok db -> ensure_payment uuid4 i fee cur sum db = Ok (p, db') -> reach db db'.
Proof. intros Hdb. unfold ensure_payment. intros H. walk; grow. Qed.

Lemma approve_payment_reach i c now db p db' : portal_ok db -> approve_payment i c now db = Ok (p, db') -> reach db db'.
Proof. intros Hdb. unfold approve_payment. intros H. walk; grow. Qed.

Lemma record_external_payment_reach i c ref receipt now db p db' :
  portal_ok db -> record_external_payment i c ref receipt now db = Ok (p, db') -> reach db db'.
Proof.
  intros Hdb. unfold record_external_payment, payment_for. intros H.
  walk; grow; (eapply finish_handoff_reach; [|eassumption]); grow.
Qed.

Lemma request_final_submit_handoff_reach i c now db h db' b :
  portal_ok db -> request_final_submit_handoff uuid4 i c now db = Ok (h, db', b) -> reach db db'.
Proof. intros Hdb. unfold request_final_submit_handoff. intros H. walk. by eapply create_handoff_reach. Qed.

Lemma request_submission_reconciliation_reach i c o page amb now db r db' :
  portal_ok db -> request_submission_reconciliation uuid4 i c o page amb now db = Ok (r, db') -> reach db db'.
Proof.
  intros Hdb. unfold request_submission_reconciliation. destruct (final_handoff i db) as [h|] eqn:Eh; intros H; walk.
  apply (latest_handoff_at _ _ _ _ _ Hdb) in Eh as (Hi & _). grow. done.
Qed.

Lemma advance_case_core r ev c now d d' : _advance_case r ev c now d = Ok d' -> core d' = core d /\ portals d' = portals d.
Proof. unfold _advance_case. intros H. walk. done. Qed.

(** The confirmed result: evidence, the completed handoff and the case, together. *)
Lemma capture_submission_result_reach i c s now db r db' :
  portal_ok db -> capture_submission_result uuid4 i c s now db = Ok (r, db') -> reach db db'.
Proof.
  intros Hdb. unfold capture_submission_result. intros (r0 & Hr%get_Ok & H)%bind_Ok_inv.
  destruct (final_handoff i db) as [h|] eqn:Eh; [|done]. apply (latest_handoff_at _ _ _ _ _ Hdb) in Eh as (Hi & Hrun & Ht & _).
  apply bind_Ok_inv in H as (u & _ & H). apply bind_Ok_inv in H as (u1 & _ & H). apply bind_Ok_inv in H as (u2 & _ & H).
  cbv zeta in H. destruct (sr_ambiguous s || _); [apply Ok_pair_inj in H as [_ <-]; grow|].
  destruct (bool_decide (str_upper (sr_outcome s) = "FAILED")); [apply Ok_pair_inj in H as [_ <-]; grow; done|].
  apply bind_Ok_inv in H as (u3 & _ & H). apply bind_Ok_inv in H as (u4 & Hproof%raise_unless_Ok & H).
  apply bind_Ok_inv in H as (u5 & _ & H). apply bind_Ok_inv in H as (d & Hadv%advance_case_core & H).
  apply Ok_pair_inj in H as [_ <-]. destruct Hadv as [Hcore Hpt]. apply grow_audit. eapply grow_same; [|exact Hcore | exact Hpt].
  pose proof (ok_runs _ _ _ _ Hdb i r0 Hr) as Hid.
  set (ev := new_confirmation _ _ _ _ _ _ _). set (d1 := put_handoff _ _).
  assert (reach db d1) as H1. { unfold d1. grow. done. }
  eapply reach_write; [exact H1|]. eapply (w_run _ _ _ _ r0); [cbn; by rewrite Hid | done | by left; split; [vm_compute|]|].
  intros _. right. split.
  - exists ev. split; [apply elem_of_app; right; by apply list_elem_of_singleton|]. by split_and!.
  - exists (hh_id h). eexists. split; [apply lookup_insert_eq|]. split_and!; cbn; [by rewrite Hid | done..].
Qed.

Lemma add_evidence_reach i c n now db e db' : portal_ok db -> add_evidence uuid4 i c n now db = Ok (e, db') -> reach db db'.
Proof. intros Hdb. unfold add_evidence. intros H. walk; grow. Qed.

(** ** Entry and uploads *)

Section EntryCalls.
Context (float_text : json -> string) (not_finite : spec_float -> json) (hmac : string -> string -> string).
Context (aes_decrypt : string -> string -> string -> string -> option string).
Context (settings : PortalSettings) (keyring : option Keyring).

Lemma resolve_fields_reach i now today db fs db' :
  portal_ok db ->
  resolve_fields_for_worker py_str float_text not_finite sha256 hmac aes_decrypt settings keyring i now today db = Ok (fs, db') ->
  reach db db'.
Proof.
  intros Hdb. unfold resolve_fields_for_worker. intros H. apply bind_Ok_inv in H as (r & _ & H). apply bind_Ok_inv in H as (g & _ & H).
  assert (Forall (fun row => rf_status row.1 <> value PortalFieldStatus.VERIFIED) (enterable i db)) as Hl.
  { unfold enterable. rewrite py_sorted_perm. apply List.Forall_forall. intros x Hx%list_elem_of_In.
    apply list_elem_of_omap in Hx as (f & _ & Hf). destruct (mapping_for f db); [|done].
    destruct (bool_decide (rf_status f ∈ _)) eqn:E; [|done]. destruct (negb _); [|done]. injection Hf as <-. cbn.
    intros Hv. rewrite Hv in E. by vm_compute in E. }
  assert (forall s s', reach db s.2 -> foldR (resolve_one py_str float_text not_finite sha256 hmac aes_decrypt settings keyring r today)
    s (enterable i db) = Ok s' -> reach db s'.2) as Hall; [|exact (Hall ([], db) (fs, db') (reach_refl _ _ _ _ Hdb) H)].
  clear H. induction Hl as [|[f m] l Hf _ IH]; intros s s' Hs; cbn; [by intros [= <-]|].
  intros H. apply bind_Ok_inv in H as (s1 & H1 & H). eapply IH; [|exact H]. unfold resolve_one in H1. walk. cbn in *.
  apply grow_field; [done|]. intros Hv. by destruct (Hf Hv).
Qed.

Lemma invalidate_entry_reach db d i reason d' : reach db d -> PortalEntry._invalidate_snapshot i reason d = Ok d' -> reach db d'.
Proof.
  intros H. unfold PortalEntry._invalidate_snapshot. destruct (approved_snapshot i d) as [p|] eqn:E; [|by intros [= <-]].
  intros Hi. apply bind_Ok_inv in Hi as (r & Hr%get_Ok & Hi). cbn [invalidated] in Hi. injection Hi as <-.
  pose proof (reach_ok _ _ _ _ _ H) as Hd. eapply reach_trans; [exact H|].
  eapply grow_run_of; [done | | exact Hr | done | run_open]. by eapply grow_superseded; [apply reach_refl|].
Qed.

Lemma record_worker_field_result_reach i e shown w now db f db' :
  portal_ok db -> record_worker_field_result float_text sha256 hmac settings keyring i e shown w now db = Ok (f, db') -> reach db db'.
Proof.
  intros Hdb. unfold record_worker_field_result. intros H. walk.
  apply grow_field; [eapply invalidate_entry_reach; [by apply reach_refl | eassumption]|].
  destruct (_ && _) eqn:E; [|done]. apply andb_true_iff in E as [E _]. apply bool_decide_eq_true in E. cbn in *.
  intros _. cbn. by rewrite <-E.
Qed.

Lemma record_human_field_observation_reach i c shown exp sens now db f db' :
  portal_ok db -> record_human_field_observation float_text sha256 hmac settings keyring i c shown exp sens now db = Ok (f, db') ->
  reach db db'.
Proof.
  intros Hdb. unfold record_human_field_observation. intros H. walk. apply grow_audit.
  apply grow_field; [eapply invalidate_entry_reach; [by apply reach_refl | eassumption]|].
  match goal with |- field_ok (if ?b then _ else _) => destruct b eqn:E end; [|done]. apply bool_decide_eq_true in E. cbn in *. intros _. cbn. by rewrite <-E.
Qed.

Lemma queue_field_entry_reach i c now db r db' : portal_ok db -> queue_field_entry uuid4 i c now db = Ok (r, db') -> reach db db'.
Proof. intros Hdb. unfold queue_field_entry. intros H. walk; grow. Qed.

Lemma pending_uploads_runs today l s s' : foldR (pending_upload settings today) s l = Ok s' -> runs s'.2 = runs s.2.
Proof.
  revert s. induction l as [|d l IH]; intros s; cbn; [by intros [= <-]|]. intros H. apply bind_Ok_inv in H as (s1 & H1 & H).
  rewrite (IH _ H). unfold pending_upload in H1. walk. done.
Qed.

Lemma queue_document_upload_reach i c now today db r db' :
  portal_ok db -> queue_document_upload uuid4 settings i c now today db = Ok (r, db') -> reach db db'.
Proof.
  intros Hdb. unfold queue_document_upload. intros H. walk. grow.
  match goal with Hf : foldR (pending_upload _ _) _ _ = Ok (?n, ?d) |- reach db ?d =>
    change d with ((n, d).2); eapply (grow_foldR _ _ _ db snd); [| |exact Hf] end; [|by apply reach_refl].
  intros s d s' Hs E. unfold pending_upload in E. walk. cbn in *. grow.
Qed.

Lemma record_document_observation_reach i a disp size ref now today db d db' :
  portal_ok db -> record_document_observation i a disp size ref now today db = Ok (d, db') -> reach db db'.
Proof.
  intros Hdb. unfold record_document_observation. intros H. walk. grow.
  eapply invalidate_entry_reach; [by apply reach_refl | eassumption].
Qed.
End EntryCalls.
End ActionCalls.

(* implicit: ActionCalls *)
Arguments ensure_attestation_reach {_ _ _ _}.
Arguments finish_handoff_reach {_ _ _ _}.
Arguments ensure_payment_reach {_ _ _ _}.
Arguments approve_payment_reach {_ _ _ _}.
Arguments record_external_payment_reach {_ _ _ _}.
Arguments add_evidence_reach {_ _ _ _}.
Arguments resolve_fields_reach {_ _ _ _}.
Arguments invalidate_entry_reach {_ _ _ _}.
Arguments queue_field_entry_reach {_ _ _ _}.
Arguments queue_document_upload_reach {_ _ _ _}.

(** ** The worker *)


(** Stored rows with the identity of [h] and of [j]. *)
Definition hand_known (h : HumanHandoff) (d : PortalDb) : Prop :=
  exists h0, handoffs d !! hh_id h = Some h0 /\ hh_run h = hh_run h0 /\ hh_type h = hh_type h0.
Definition job_known (j : PortalJob) (d : PortalDb) : Prop :=
  exists n k, jobs d !! n = Some k /\ pj_id k = pj_id j /\ pj_key k = pj_key j.

Section Specs.
Context (uuid4 : nat -> uuid) (py_str : json -> string) (sha256 : string -> string).
Context `{!Distinct uuid4}.

Notation write := (write uuid4 py_str sha256).
Notation writes := (writes uuid4 py_str sha256).
Notation portal_ok := (portal_ok uuid4 py_str sha256).
Notation reach := (reach uuid4 py_str sha256).

(** ** What a write keeps *)

Class Stable (F : PortalDb -> Prop) : Prop := stable : forall d d', portal_ok d -> reach d d' -> F d -> F d'.

Lemma stable_write F : (forall d d', portal_ok d -> write d d' -> F d -> F d') -> Stable F.
Proof.
  intros H d d' Hd [Hw _]. induction Hw as [|a b c Hab _ IH]; [done|]. intros Ha. apply IH; [by eapply write_ok | by eapply H].
Qed.

#[export] Instance stable_true : Stable (fun _ => True).
Proof. done. Qed.
#[export] Instance stable_and F G : Stable F -> Stable G -> Stable (fun d => F d /\ G d).
Proof. intros HF HG d d' Hd Hr [? ?]. split; [by eapply HF | by eapply HG]. Qed.
#[export] Instance stable_known r : Stable (run_known r).
Proof. intros d d' Hd Hr. by eapply known_reach. Qed.
#[export] Instance stable_from d0 : Stable (fun d => portal_ok d0 /\ reach d0 d).
Proof. intros d d' Hd Hr [? ?]. split; [done | by eapply reach_trans]. Qed.

#[export] Instance stable_hand h : Stable (hand_known h).
Proof.
  apply stable_write. intros d d' Hd Hw (h0 & Hi & Er & Et). unfold hand_known.
  assert (forall x, handoffs x = handoffs d -> exists h1, handoffs x !! hh_id h = Some h1 /\ hh_run h = hh_run h1 /\ hh_type h = hh_type h1)
    as Hsame by (intros x ->; by exists h0).
  destruct Hw as [| | | | | | |h1 x Hx Hrun Ht _|x Hx| | | | | | | |x E _]; try (by apply Hsame).
  - cbn. destruct (decide (hh_id x = hh_id h)) as [E|Hne]; [|exists h0; by rewrite lookup_insert_ne].
    exists x. rewrite E, lookup_insert_eq. split; [done|]. rewrite E, Hi in Hx. injection Hx as <-. split; congruence.
  - cbn. exists h0. rewrite lookup_insert_ne; [done|]. rewrite Hx. intros E.
    destruct (fresh_free _ _ _ _ Hd) as (_ & Hn & _). by rewrite E, Hi in Hn.
  - apply Hsame. by injection E.
Qed.

#[export] Instance stable_job j : Stable (job_known j).
Proof.
  apply stable_write. intros d d' Hd Hw (n & k & Hn & Ei & Ek).
  assert (forall x, jobs x = jobs d -> job_known j x) as Hsame by (intros x E; exists n, k; by rewrite E).
  destruct Hw as [| | | | | | | | | | | |l E1 E2|x Hx _| | |x E _]; try (by apply Hsame).
  - assert ((pj_id <$> l) !! n = Some (pj_id k)) as H1 by (rewrite E1, list_lookup_fmap, Hn; done).
    assert ((pj_key <$> l) !! n = Some (pj_key k)) as H2 by (rewrite E2, list_lookup_fmap, Hn; done).
    rewrite list_lookup_fmap in H1, H2. destruct (l !! n) as [k'|] eqn:El; [|done]. injection H1 as H1. injection H2 as H2.
    exists n, k'. split_and!; [done | congruence..].
  - exists n, k. split; [|done]. cbn. by apply lookup_app_l_Some.
  - apply Hsame. by injection E.
Qed.

(** ** Computations *)

Definition evolves (w w' : World) : Prop :=
  reach (pending w) (pending w') /\ (committed w' = committed w \/ reach (pending w) (committed w')).

Definition spec {A} (F : PortalDb -> Prop) (m : M A) (G : A -> PortalDb -> Prop) : Prop :=
  forall w, portal_ok (pending w) -> F (pending w) ->
    evolves w (m w).2 /\ (forall a, (m w).1 = Ok a -> G a (pending (m w).2)).
Notation safe F m := (spec F m (fun _ _ => True)).

Lemma evolves_trans a b c : evolves a b -> evolves b c -> evolves a c.
Proof.
  intros [H1 H2] [H3 H4]. split; [by eapply reach_trans|]. destruct H4 as [->|H4]; [done|]. right. by eapply reach_trans.
Qed.

Lemma spec_bind {A B} F (m : M A) (f : A -> M B) G H :
  Stable F -> spec F m G -> (forall a, spec (fun d => F d /\ G a d) (f a) H) -> spec F (m ≫= f) H.
Proof.
  intros HF Hm Hf w Hw HFw. destruct (Hm w Hw HFw) as [Hev Hg]. unfold mbind, m_bind.
  destruct (m w) as [[a|e] w1]; cbn in *; [|done].
  destruct (Hf a w1) as [Hev' Hh].
  - apply (reach_ok _ _ _ _ _ (proj1 Hev)).
  - split; [|by apply Hg]. eapply HF; [exact Hw | apply Hev | done].
  - split; [by eapply evolves_trans | done].
Qed.

Lemma spec_weaken {A} (F F' : PortalDb -> Prop) (m : M A) G G' :
  spec F m G -> (forall d, F' d -> F d) -> (forall a d, G a d -> G' a d) -> spec F' m G'.
Proof. intros Hm HF HG w Hw HFw. destruct (Hm w Hw (HF _ HFw)) as [? ?]. split; [done | auto]. Qed.

(** A computation that leaves the tables alone. *)
Lemma spec_pure {A} F (m : M A) : (forall w, pending (m w).2 = pending w /\ committed (m w).2 = committed w) -> safe F m.
Proof.
  intros H w Hw _. destruct (H w) as [E1 E2]. split; [|done]. split; [rewrite E1; by apply reach_refl | by left].
Qed.

Lemma spec_ret {A} F (a : A) : safe F (mret a).
Proof. by apply spec_pure. Qed.
Lemma spec_raise {A} F e G : spec F (raise e : M A) G.
Proof. intros w Hw _. split; [split; [by apply reach_refl | by left]|]. done. Qed.
Lemma spec_result {A} F (r : result exn A) : safe F (of_result r).
Proof. by apply spec_pure. Qed.
Lemma spec_ensure F b e : safe F (ensure b e).
Proof. by apply spec_pure. Qed.
Lemma spec_db F : spec F PortalWorker.db (fun a d => portal_ok a /\ reach a d).
Proof.
  intros w Hw HF. split; [split; [by apply reach_refl | by left]|]. cbn. intros a [= <-].
  split; [done | by apply reach_refl].
Qed.
Lemma spec_commit F : safe F commit.
Proof. intros w Hw _. split; [|done]. split; [by apply reach_refl|]. right. by apply reach_refl. Qed.
Lemma spec_change (F : PortalDb -> Prop) f : (forall d, portal_ok d -> F d -> reach d (f d)) -> safe F (change f).
Proof. intros H w Hw HF. split; [|done]. split; [by apply H | by left]. Qed.
Lemma spec_call {A} (F : PortalDb -> Prop) (f : PortalDb -> result exn (A * PortalDb)) :
  (forall d a d', portal_ok d -> F d -> f d = Ok (a, d') -> reach d d') -> safe F (call f).
Proof.
  intros H w Hw HF. unfold call. destruct (f (pending w)) as [[a d]|e] eqn:E; cbn; [|by apply (spec_raise F e (fun _ _ => True))].
  split; [|done]. split; [by eapply H | by left].
Qed.

(** A stored job written again. *)
Lemma job_unique d j k : portal_ok d -> job_known j d -> k ∈ jobs d -> pj_id k = pj_id j -> pj_key k = pj_key j.
Proof.
  intros Hd (n & x & Hn & Ei & Ek) Hk E. apply list_elem_of_lookup in Hk as [m Hm].
  assert (m = n) as ->.
  { eapply (NoDup_lookup (pj_id <$> jobs d)); [apply (ok_job_ids _ _ _ _ Hd)| |]; rewrite list_lookup_fmap.
    - by rewrite Hm.
    - rewrite Hn. cbn. by rewrite Ei, E. }
  congruence.
Qed.

Lemma put_job_reach d0 d j : reach d0 d -> job_known j d -> reach d0 (put_job j d).
Proof.
  intros H Hj. pose proof (reach_ok _ _ _ _ _ H) as Hd. unfold put_job. apply grow_jobs; [done|..]; unfold replace_job;
    rewrite <-list_fmap_compose; apply list_fmap_ext; intros n k Hk; cbn; case_bool_decide as E; try done.
  symmetry. eapply job_unique; [done | done | by eapply list_elem_of_lookup_2 | done].
Qed.

(** ** The worker's handlers *)

Section Handlers.
Context (float_text : json -> string) (not_finite : spec_float -> json) (hmac : string -> string -> string).
Context (aes_decrypt : string -> string -> string -> string -> option string).
Context (bracketed_ok : string -> bool).
Context (getaddrinfo : string -> option (list string)) (public_address : string -> bool).
Context (settings : PortalSettings) (keyring : option Keyring).
Context (worker_id : string) (portal : uuid -> list PageAction -> result exn Page).
Context (downloaded : uuid -> result exn string).
Context (message_of name_of : exn -> string).

Lemma spec_ask {A} F s (f : Page -> result exn A) : safe F (ask portal s f).
Proof. apply spec_pure. intros w. unfold ask, mbind, m_bind, page_of. by destruct (portal s (history s w)). Qed.
Lemma spec_perform F s l : safe F (perform s l).
Proof. by apply spec_pure. Qed.
Lemma spec_act F s f : safe F (act portal s f).
Proof.
  apply spec_pure. intros w. unfold act, ask, mbind, m_bind, page_of. destruct (portal s (history s w)) as [p|]; [|done].
  unfold of_result. by destruct (f p).
Qed.
Lemma spec_navigate F u h : safe F (navigate bracketed_ok getaddrinfo public_address settings u h).
Proof. by apply spec_pure. Qed.
Lemma spec_registry_get F s u : safe F (registry_get s u).
Proof. by apply spec_pure. Qed.
Lemma spec_registry_start F s u : safe F (registry_start s u).
Proof. apply spec_pure. intros w. unfold registry_start. by destruct (truthy_opt _). Qed.

Lemma spec_run F i : spec F (_run i) (fun r d => run_known r d).
Proof.
  intros w Hw HF. unfold _run, mbind, m_bind, PortalWorker.db. destruct (runs (pending w) !! i) as [r|] eqn:Ei.
  - split; [split; [by apply reach_refl | by left]|]. intros a [= <-]. by eapply known_at.
  - by apply (spec_raise F StateConflictError).
Qed.

(** One step of a computation whose result does not matter, but for the rows read. *)
Ltac step :=
  lazymatch goal with
  | |- spec _ (PortalWorker.db ≫= _) _ => eapply spec_bind; [typeclasses eauto | apply spec_db | intros ?; cbv beta]
  | |- spec _ (_run _ ≫= _) _ => eapply spec_bind; [typeclasses eauto | apply spec_run | intros ?; cbv beta]
  | |- spec _ (_ ≫= _) _ => apply (spec_bind _ _ _ (fun _ _ => True)); [typeclasses eauto | | intros ?; cbv beta]
  | |- spec _ (mret _) _ => apply spec_ret
  | |- spec _ (raise _) _ => apply spec_raise
  | |- spec _ (of_result _) _ => apply spec_result
  | |- spec _ (ensure _ _) _ => apply spec_ensure
  | |- spec _ commit _ => apply spec_commit
  | |- spec _ (ask _ _ _) _ => apply spec_ask
  | |- spec _ (act _ _ _) _ => apply spec_act
  | |- spec _ (perform _ _) _ => apply spec_perform
  | |- spec _ (navigate _ _ _ _ _ _) _ => apply spec_navigate
  | |- spec _ (registry_get _ _) _ => apply spec_registry_get
  | |- spec _ (registry_start _ _) _ => apply spec_registry_start
  | |- spec _ (call _) _ => apply spec_call; intros ? ? ? ? ? ?
  | |- spec _ (change _) _ => apply spec_change; intros ? ? ?
  | |- spec _ (match ?x with _ => _ end) _ => destruct x eqn:?
  | |- spec _ (let '(_, _) := ?x in _) _ => destruct x
  end.

Lemma spec_set_status F i s : Stable F -> value s <> value PortalRunStatus.SUBMITTED -> safe F (set_run_status i s).
Proof.
  intros HF Hs. unfold set_run_status. step. step. apply grow_run; [by apply reach_refl | by destruct H0 as [_ H0]|].
  split; [exact Hs|]. split; [|done]. by destruct s; vm_compute.
Qed.

Lemma spec_hand_off F run t u s now : Stable F -> safe F (hand_off uuid4 run t u s now).
Proof.
  intros HF. unfold hand_off. step; [|repeat step]. step.
  destruct (create_handoff _ _ _ _ _ _ _ _ d) as [[[h d1] b]|] eqn:E; [|done]. injection H1 as <- <-. by eapply create_handoff_reach.
Qed.

Lemma spec_unexpected F r b now : Stable F -> (forall d, F d -> run_known r d) -> safe F (_unexpected_page uuid4 r b now).
Proof.
  intros HF Hr. unfold _unexpected_page. step; [|by apply spec_hand_off; typeclasses eauto].
  step. apply grow_run; [by apply reach_refl | by apply Hr | run_open].
Qed.

Lemma spec_finish F j i b cat hid now : Stable F -> safe F (finish_reconciled j i b cat hid now).
Proof.
  intros HF. unfold finish_reconciled. step. step; [|step]. do 3 (step; [step|]).
  step; [|step; [by apply spec_set_status; [typeclasses eauto|] | step]].
  step. destruct H0 as [[[[_ [Ha Hr]] _] _] _]. inv_ok. unfold store_session in *. inv_ok. subst.
  assert (hand_known h d) as (h0 & Hi & Er & Et).
  { eapply stable_hand; [exact Ha | exact Hr|]. exists h. by rewrite (ok_handoffs _ _ _ _ Ha hid h Heqo). }
  apply grow_session; [|done]. eapply (grow_handoff _ _ _ h0); [by apply reach_refl | exact Hi | | exact Er | exact Et | done].
  symmetry. by apply (ok_handoffs _ _ _ _ H _ _ Hi).
Qed.

Lemma spec_prepare F r s contract t : Stable F -> safe F (prepare_handoff uuid4 py_str float_text sha256 portal r s contract t).
Proof.
  intros HF. unfold prepare_handoff. repeat step; [by eapply ensure_attestation_reach | by eapply ensure_payment_reach].
Qed.

Lemma spec_reconcile F j r b contract now :
  Stable F -> (forall d, F d -> run_known r d) -> safe F (_reconcile uuid4 py_str float_text sha256 portal j r b contract now).
Proof.
  intros HF Hr. unfold _reconcile. step; [step|]. step.
  - step.
    { repeat step. by apply spec_finish; typeclasses eauto. }
    step; [|step]. step. step; [by apply spec_prepare; typeclasses eauto|].
    step; [by apply spec_hand_off; typeclasses eauto | step].
  - step; [|step]. apply spec_unexpected; [typeclasses eauto|]. intros d [Hd _]. by apply Hr.
Qed.

Lemma spec_each {A} F (f : A -> M unit) l : Stable F -> (forall x, safe F (f x)) -> safe F (each f l).
Proof.
  intros HF Hf. induction l as [|x l IH]; cbn; [step|]. step; [by apply Hf|]. eapply spec_weaken; [exact IH | by intros d [H _] | done].
Qed.

Lemma spec_enter F r s contract now today :
  Stable F ->
  safe F (enter_fields py_str float_text not_finite sha256 hmac aes_decrypt settings keyring worker_id portal r s contract now today).
Proof.
  intros HF. unfold enter_fields. step; [step; by eapply resolve_fields_reach|].
  step; [|step; [by apply spec_set_status; [typeclasses eauto|] | repeat step]].
  apply spec_each; [typeclasses eauto|]. intros f. unfold enter_one. repeat step. by eapply record_worker_field_result_reach.
Qed.

Lemma spec_upload F r s contract now today :
  Stable F -> safe F (upload_documents py_str worker_id portal downloaded r s contract now today).
Proof.
  intros HF. unfold upload_documents. step. step; [|step; [by apply spec_set_status; [typeclasses eauto|] | repeat step]].
  apply spec_each; [typeclasses eauto|]. intros x. unfold upload_one. repeat step.
  - grow.
  - by eapply record_document_observation_reach.
Qed.

Lemma spec_validation F r b contract now :
  Stable F -> (forall d, F d -> run_known r d) -> safe F (run_validation uuid4 py_str portal r b contract now).
Proof.
  intros HF Hr. unfold run_validation. step; [step|]. step.
  - repeat step. by eapply capture_validation_reach.
  - step; [|step]. apply spec_unexpected; [typeclasses eauto|]. intros d [Hd _]. by apply Hr.
Qed.

Lemma spec_capture F j r s contract now :
  Stable F -> (forall d, F d -> run_known r d) -> safe F (capture_result uuid4 py_str portal j r s contract now).
Proof.
  intros HF Hr. unfold capture_result. step; [step|]. step.
  - step; [|repeat step]. step. apply grow_run; [by apply reach_refl | apply Hr; by destruct H0 | run_open].
  - repeat step. by eapply capture_submission_result_reach.
Qed.

Lemma spec_navigation F j r b contract now :
  Stable F -> (forall d, F d -> run_known r d) ->
  safe F (navigation uuid4 py_str float_text sha256 bracketed_ok getaddrinfo public_address settings portal j r b contract now).
Proof.
  intros HF Hr. unfold navigation. do 6 (step; try apply spec_raise). step; [step|]. step; [step|]. step; [step|]. step; [step|].
  apply spec_reconcile; [typeclasses eauto|]. intros ? Hd. apply Hr. by destruct_and!.
Qed.

Lemma spec_session F j r u now :
  Stable F -> (forall d, F d -> job_known j d) -> safe F (session_for uuid4 settings worker_id j r u now).
Proof.
  intros HF Hj. unfold session_for. step. step; [step|]. step; [|step]. step. inv_ok. subst.
  destruct H0 as [HFd _]. unfold store_session in *. inv_ok. subst.
  eapply put_job_reach; [apply grow_session; [apply grow_drawn, reach_refl, H | done]|].
  eapply (stable_job j); [exact H | apply grow_session; [apply grow_drawn, reach_refl, H | done] | by apply Hj].
Qed.

Lemma grow_closed d0 d b : reach d0 d -> session_active b = false -> reach d0 (put_session b d).
Proof. intros H Hb. apply grow_session; [done|]. unfold session_slot_free. by rewrite Hb. Qed.

Lemma spec_start F j now :
  Stable F -> (forall d, F d -> job_known j d) ->
  safe F (_start_session uuid4 py_str bracketed_ok getaddrinfo public_address settings worker_id portal j now).
Proof.
  intros HF Hj. unfold _start_session. step; [|step]. step. step. step; [step|]. step; [|step].
  step; [apply spec_session; [typeclasses eauto|]; intros ? Hd; apply Hj; by destruct_and!|].
  step; [step|]. step; [step; inv_ok; subst; by eapply grow_stored; [apply reach_refl|]|].
  do 6 (step; [first [step | by unfold _adapter; repeat step]|]). step.
  - step; [step; inv_ok; subst; by eapply grow_stored; [apply reach_refl|]|].
    step; [by apply spec_set_status; [typeclasses eauto|]|]. step; [step|]. step; [step|]. step; [|step].
    step; [by apply spec_hand_off; typeclasses eauto | step].
  - step; [|step]. apply spec_unexpected; [typeclasses eauto|]. intros ? Hd. by destruct_and!.
Qed.

Lemma spec_close F j now : Stable F -> safe F (_close_session py_str j now).
Proof.
  intros HF. unfold _close_session. step; [|step]. step; [by apply spec_pure|]. step. step; [|step]. step; [|step].
  step. apply grow_closed; [by apply reach_refl | done].
Qed.

Lemma spec_context F j now : Stable F -> spec F (_active_context j now) (fun c d => run_known c.1.1 d).
Proof.
  intros HF. unfold _active_context. destruct (pj_run j) as [i|]; [|step]. destruct (pj_session j) as [s|]; [|step].
  step. step. step; [step|]. step; [|step]. do 3 (step; [step|]).
  eapply (spec_bind _ _ _ (fun _ _ => True)); [typeclasses eauto | unfold _adapter; repeat step | intros contract].
  intros w Hw HFw. split; [split; [by apply reach_refl | by left]|]. intros x [= <-]. cbn. by destruct_and!.
Qed.

Lemma spec_handle F j now today :
  Stable F -> (forall d, F d -> job_known j d) ->
  safe F (_handle uuid4 py_str float_text not_finite sha256 hmac aes_decrypt bracketed_ok getaddrinfo public_address settings keyring
            worker_id portal downloaded j now today).
Proof.
  intros HF Hj. unfold _handle. destruct (of_value (pj_type j)) as [t|]; [|step].
  assert (forall (f : PortalRun * BrowserSession * list (string * json) -> M bool),
    (forall c, spec (fun d => F d /\ run_known c.1.1 d) (f c) (fun _ _ => True)) -> safe F (_active_context j now ≫= f)) as Hctx.
  { intros f Hf. eapply spec_bind; [done | by apply spec_context | exact Hf]. }
  assert (forall r, Stable (fun d => F d /\ run_known r d)) as Hst by (intros r; typeclasses eauto).
  destruct t; try (by apply spec_start); try (by step; [apply spec_close | step]); apply Hctx; intros [[r b] contract]; cbn [fst];
    try step.
  - apply spec_navigation; [typeclasses eauto | by intros d [_ ?]].
  - apply spec_enter; typeclasses eauto.
  - apply spec_upload; typeclasses eauto.
  - apply spec_validation; [typeclasses eauto | by intros d [_ ?]].
  - step. by eapply create_snapshot_reach.
  - step; step.
  - apply spec_reconcile; [typeclasses eauto | by intros d [_ ?]].
  - apply spec_capture; [typeclasses eauto | by intros d [_ ?]].
Qed.
End Handlers.
End Specs.

(* implicit: Specs *)
Arguments stable_write {_ _ _ _}.
Arguments put_job_reach {_ _ _ _}.
Arguments spec_set_status {_ _ _ _}.
Arguments spec_hand_off {_ _ _ _}.
Arguments spec_unexpected {_ _ _ _}.
Arguments spec_finish {_ _ _ _}.
Arguments spec_prepare {_ _ _ _}.
Arguments spec_reconcile {_ _ _ _}.
Arguments spec_enter {_ _ _ _}.
Arguments spec_upload {_ _ _ _}.
Arguments spec_validation {_ _ _ _}.
Arguments spec_capture {_ _ _ _}.
Arguments spec_navigation {_ _ _ _}.
Arguments spec_session {_ _ _ _}.
Arguments grow_closed {_ _ _ _}.
Arguments spec_start {_ _ _ _}.
Arguments spec_close {_ _ _ _}.
Arguments spec_context {_ _ _ _}.
Arguments spec_handle {_ _ _ _}.

