(* ===== verification/PortalSafety.v ===== *)
(** * Portal assistance as a whole

    The stored tables change by calls of the services, by cycles of the browser workers,
    by their expiry of sessions, by the scheduler, and by other services that write
    tables of their own.  Everything reachable satisfies [portal_ok]. *)
From Stdlib Require Import Ascii SpecFloat Relations.
From S2P Require Import CaseService.
From S2P Require Import Prelude Terms PyDate PyJson Crypto Roles PortalPolicy PortalStore PortalGovernance PortalRuns PortalSessions SubmissionEvidence PortalEntry PortalAdapters PortalWorker PortalWrites PortalCalls PortalJobs.
Open Scope Z_scope.

Section Safety.
Context (uuid4 : nat -> uuid) (py_str : json -> string) (sha256 : string -> string).
Context (float_text : json -> string) (not_finite : spec_float -> json) (hmac : string -> string -> string).
Context (aes_decrypt : string -> string -> string -> string -> option string).
Context (bracketed_ok : string -> bool).
Context (getaddrinfo : string -> option (list string)) (public_address : string -> bool).
Context (settings : PortalSettings) (message_of name_of : exn -> string).

Notation portal_ok := (portal_ok uuid4 py_str sha256).
Notation reach := (reach uuid4 py_str sha256).

(** ** Calls of the services

    What a request leaves stored: of one that raises, nothing, but for an expired handoff.
    The services' operations that only a worker calls are part of its jobs. *)

Inductive call (db db' : PortalDb) : Prop :=
(* governance *)
| call_create_portal n p : create_portal bracketed_ok getaddrinfo public_address settings n db = Ok (p, db') -> call db db'
| call_update_portal i c ch p : update_portal i c ch db = Ok (p, db') -> call db db'
| call_create_review i c n now v : create_review uuid4 settings i c n now db = Ok (v, db') -> call db db'
| call_signoff i c d v : record_review_signoff i c d db = Ok (v, db') -> call db db'
| call_approve_review first i c now v : approve_review py_str first i c now db = Ok (v, db') -> call db db'
| call_suspend_review i c v : suspend_review i c db = Ok (v, db') -> call db db'
| call_create_adapter i c k routes contract a : create_adapter uuid4 py_str i c k routes contract db = Ok (a, db') -> call db db'
| call_activate_adapter first i c now a : activate_adapter py_str first i c now db = Ok (a, db') -> call db db'
| call_mapping i c n m : add_field_mapping uuid4 i c n db = Ok (m, db') -> call db db'
| call_authorization i c f now a : upsert_authorization uuid4 i c f now db = Ok (a, db') -> call db db'
(* runs *)
| call_create_run i c n now today r : create_run uuid4 settings i c n now today db = Ok (r, db') -> call db db'
| call_update_run i c ch now r : update_run i c ch now db = Ok (r, db') -> call db db'
| call_start i c now r : start settings i c now db = Ok (r, db') -> call db db'
| call_pause i c r : pause i c db = Ok (r, db') -> call db db'
| call_resume i c now r : resume uuid4 i c now db = Ok (r, db') -> call db db'
| call_cancel i c now r : cancel uuid4 i c now db = Ok (r, db') -> call db db'
| call_navigation i c k q now r : queue_navigation uuid4 i c k q now db = Ok (r, db') -> call db db'
| call_validation i c now r : queue_validation uuid4 i c now db = Ok (r, db') -> call db db'
| call_snapshot i c now p : create_snapshot uuid4 sha256 i c now db = Ok (p, db') -> call db db'
| call_approve_snapshot i c now p : approve_snapshot sha256 i c now db = Ok (p, db') -> call db db'
| call_reject_snapshot i c now p : reject_snapshot i c now db = Ok (p, db') -> call db db'
(* sessions and handoffs *)
| call_session i c now b : request_session uuid4 settings i c now db = Ok (b, db') -> call db db'
| call_take i c now b : take_control i c now db = Ok (b, db') -> call db db'
| call_return i c now b : return_control i c now db = Ok (b, db') -> call db db'
| call_close i c reason now b : close uuid4 i c reason now db = Ok (b, db') -> call db db'
| call_accept i c now : (accept_handoff i c now db).2 = db' -> call db db'
| call_completion i c res cf ev page now h : request_handoff_completion uuid4 i c res cf ev page now db = Ok (h, db') -> call db db'
| call_decline i c reason now h : decline_handoff i c reason now db = Ok (h, db') -> call db db'
(* final actions *)
| call_attestation i c page ev now a : record_attestation_completion i c page ev now db = Ok (a, db') -> call db db'
| call_signature i c ev now h : record_signature_completion i c ev now db = Ok (h, db') -> call db db'
| call_payment i c now p : approve_payment i c now db = Ok (p, db') -> call db db'
| call_paid i c ref receipt now p : record_external_payment i c ref receipt now db = Ok (p, db') -> call db db'
| call_final i c now h d b : request_final_submit_handoff uuid4 i c now db = Ok (h, d, b) -> (if b : bool then d else db) = db' -> call db db'
| call_reconciliation i c o page amb now r : request_submission_reconciliation uuid4 i c o page amb now db = Ok (r, db') -> call db db'
| call_evidence i c n now e : add_evidence uuid4 i c n now db = Ok (e, db') -> call db db'
(* entry *)
| call_observe keyring i c shown exp sens now f :
    record_human_field_observation float_text sha256 hmac settings keyring i c shown exp sens now db = Ok (f, db') -> call db db'
| call_entry i c now r : queue_field_entry uuid4 i c now db = Ok (r, db') -> call db db'
| call_upload i c now today r : queue_document_upload uuid4 settings i c now today db = Ok (r, db') -> call db db'
| call_document i a disp size ref now today d : record_document_observation i a disp size ref now today db = Ok (d, db') -> call db db'.

(** ** The whole system

    The tables as stored, and what each worker process keeps: its live sessions and what
    it did in them.  The pages a portal shows, the documents a store delivers and the
    keyring may differ from event to event. *)

Record Process := { pr_live : gmap uuid uuid; pr_acts : gmap uuid (list PageAction) }.
Record System := { stored : PortalDb; processes : gmap string Process }.

Definition process_of (worker : string) (s : System) : Process :=
  default {| pr_live := ∅; pr_acts := ∅ |} (processes s !! worker).
Definition world_of (worker : string) (s : System) : World :=
  {| committed := stored s; pending := stored s; live := pr_live (process_of worker s); acts := pr_acts (process_of worker s) |}.
Definition system_of (worker : string) (w : World) (s : System) : System :=
  {| stored := committed w; processes := <[worker := {| pr_live := live w; pr_acts := acts w |}]> (processes s) |}.
Definition with_stored (db : PortalDb) (s : System) : System := {| stored := db; processes := processes s |}.

Notation cycle keyring worker portal downloaded lease locked expired now today :=
  (run_one_cycle uuid4 py_str float_text not_finite sha256 hmac aes_decrypt bracketed_ok getaddrinfo public_address settings keyring
     worker portal downloaded message_of name_of lease locked expired now today).

Inductive event (s : System) : System -> Prop :=
| ev_call db : call (stored s) db -> event s (with_stored db s)
| ev_cycle worker keyring portal downloaded lease locked expired now today :
    event s (system_of worker (cycle keyring worker portal downloaded lease locked expired now today (world_of worker s)).2 s)
| ev_lapse worker now : event s (system_of worker (_expire_sessions settings worker now (world_of worker s)) s)
| ev_schedule now : event s (with_stored (expire_portal_records uuid4 now (stored s)) s)
| ev_elsewhere db : core db = core (stored s) -> portals db = portals (stored s) -> event s (with_stored db s).

Definition events : System -> System -> Prop := rtc event.

Context `{!Distinct uuid4}.

Lemma call_ok db db' : portal_ok db -> call db db' -> reach db db'.
Proof.
  intros Hdb. destruct 1; try first
    [ by eapply update_portal_reach | by eapply create_review_reach | by eapply record_review_signoff_reach
    | by eapply approve_review_reach | by eapply suspend_review_reach | by eapply create_adapter_reach
    | by eapply activate_adapter_reach | by eapply add_field_mapping_reach | by eapply upsert_authorization_reach
    | by eapply create_run_reach | by eapply update_run_reach | by eapply start_reach | by eapply pause_reach | by eapply resume_reach
    | by eapply cancel_reach | by eapply queue_navigation_reach | by eapply queue_validation_reach
    | by eapply create_snapshot_reach | by eapply approve_snapshot_reach | by eapply reject_snapshot_reach
    | by eapply request_session_reach | by eapply take_control_reach | by eapply return_control_reach | by eapply close_reach
    | by eapply request_handoff_completion_reach | by eapply decline_handoff_reach
    | by eapply record_attestation_completion_reach | by eapply record_signature_completion_reach | by eapply approve_payment_reach
    | by eapply record_external_payment_reach | by eapply request_submission_reconciliation_reach
    | by eapply add_evidence_reach | by eapply record_human_field_observation_reach
    | by eapply queue_field_entry_reach | by eapply queue_document_upload_reach | by eapply record_document_observation_reach ].
  - destruct (create_portal_raises bracketed_ok getaddrinfo public_address settings n db) as [e E]. congruence.
  - subst. by apply accept_handoff_reach.
  - subst. destruct b; [by eapply request_final_submit_handoff_reach | by apply reach_refl].
Qed.

(** ** A cycle of a worker *)

Lemma claimed_jobs worker lease locked now l j l' :
  claim_next worker lease locked now l = (Some j, l') ->
  exists k, k ∈ l /\ pj_id j = pj_id k /\ pj_key j = pj_key k /\ l' = replace_job j l.
Proof.
  unfold claim_next. destruct (head _) as [k|] eqn:E; [|done]. intros [= <- <-]. exists k. split_and!; [|done..].
  apply head_elem in E. rewrite py_sorted_perm in E. by apply list_elem_of_filter in E as [_ E].
Qed.

Lemma job_known_of j k d : k ∈ jobs d -> pj_id k = pj_id j -> pj_key k = pj_key j -> job_known j d.
Proof. intros [n Hn]%list_elem_of_lookup Hi Hk. by exists n, k. Qed.

Lemma stored_known j d : job_known j d -> job_known (stored_job j d) d.
Proof.
  intros Hj. unfold stored_job. destruct (head _) as [k|] eqn:E; [|done]. apply head_elem, list_elem_of_filter in E as [_ Hk].
  by eapply job_known_of.
Qed.

Lemma released_known j d k : job_known j d -> pj_id k = pj_id j -> pj_key k = pj_key j -> job_known k d.
Proof. intros (n & x & Hn & Ei & Ek) E1 E2. exists n, x. rewrite E1, E2. done. Qed.

Lemma failure_known j code text again now : pj_id (record_failure j code text again now) = pj_id j /\ pj_key (record_failure j code text again now) = pj_key j.
Proof. unfold record_failure. by destruct (_ && _). Qed.

Lemma fail_review_reach d0 d j e : reach d0 d -> reach d0 (_fail_run_review message_of j e d).
Proof.
  intros H. unfold _fail_run_review. destruct (pj_run j ≫= _) as [r|] eqn:E; [|done]. case_bool_decide; [|done].
  apply bind_Some in E as (i & _ & Hi). pose proof (reach_ok _ _ _ _ _ H) as Hd. eapply reach_trans; [exact H|]. grow.
Qed.

Lemma after_job_reach d0 expired j res now w :
  portal_ok d0 -> job_known j d0 -> reach d0 (committed w) -> reach d0 (pending w) ->
  reach d0 (committed (after_job message_of name_of expired j res now w)).
Proof.
  intros Hd Hj Hc Hp. unfold after_job. destruct res as [waiting|e]; cbn.
  - pose proof (stable_job uuid4 py_str sha256 j _ _ Hd Hp Hj) as Hk%stored_known.
    destruct waiting; apply put_job_reach; try done; by eapply released_known.
  - pose proof (stable_job uuid4 py_str sha256 j _ _ Hd Hc Hj) as Hk%stored_known.
    destruct (expired && bool_decide (e = BrowserError)); [exact Hc|]. cbn [committed].
    assert (forall d, reach d0 d -> reach d0 (if expired then d else _fail_run_review message_of (stored_job j (committed w)) e d)) as Hrun
      by (intros d Hr; destruct expired; [done | by apply fail_review_reach]).
    apply Hrun, put_job_reach; [done|]. destruct (failure_known (stored_job j (committed w)) (name_of e) (message_of e)
      (retryable e (stored_job j (committed w))) now). by eapply released_known.
Qed.

Lemma cycle_ok keyring worker portal downloaded lease locked expired now today s :
  portal_ok (stored s) -> reach (stored s) (committed (cycle keyring worker portal downloaded lease locked expired now today (world_of worker s)).2).
Proof.
  intros Hs. unfold run_one_cycle. cbn [committed world_of].
  destruct (claim_next worker lease locked now (jobs (stored s))) as [[j|] l] eqn:Ec; [|by apply reach_refl].
  apply claimed_jobs in Ec as (k & Hk & Ei & Ek & ->). cbv zeta.
  match goal with |- context [let '(_, _) := ?x in _] => destruct x as [res w'] eqn:Eh end. cbn [snd].
  match type of Eh with _ ?x = _ => set (w := x) in Eh end.
  assert (job_known j (stored s)) as Hj by (by eapply job_known_of).
  assert (reach (stored s) (pending w)) as Hw.
  { change (pending w) with (put_job j (stored s)). apply put_job_reach; [by apply reach_refl | done]. }
  assert (job_known j (pending w)) as Hjw by (eapply (stable_job uuid4 py_str sha256 j); [exact Hs | exact Hw | exact Hj]).
  destruct (spec_handle float_text not_finite hmac aes_decrypt bracketed_ok getaddrinfo public_address settings keyring worker portal
    downloaded (job_known j) j now today (stable_job uuid4 py_str sha256 j) (fun _ H => H) w (reach_ok _ _ _ _ _ Hw) Hjw) as [[Hp Hc] _].
  rewrite Eh in Hp, Hc. cbn [snd] in Hp, Hc.
  assert (reach (stored s) (committed w')) as Hc'.
  { destruct Hc as [->|Hc]; [exact Hw | exact (reach_trans _ _ _ _ _ _ Hw Hc)]. }
  pose proof (reach_trans _ _ _ _ _ _ Hw Hp) as Hp'.
  by apply after_job_reach.
Qed.

(** ** Expiry *)

Lemma grow_blocked d0 d i r f :
  reach d0 d -> runs d !! i = Some r -> identity (f r) = identity r -> not_submitted (f r) -> reach d0 (put_run (f r) d).
Proof.
  intros H Hi Eid Hs. pose proof (reach_ok _ _ _ _ _ H) as Hd. eapply reach_trans; [exact H|].
  eapply grow_run_of; [exact Hd | by apply reach_refl | exact Hi | done..].
Qed.

Lemma lapse_ok worker now s :
  portal_ok (stored s) -> reach (stored s) (committed (_expire_sessions settings worker now (world_of worker s))).
Proof.
  intros Hs. unfold _expire_sessions. cbn. apply grow_fold; [|by apply reach_refl]. intros d b Hd. unfold expire_here.
  assert (forall d', reach (stored s) d' -> reach (stored s) (match runs d' !! bs_run b with
    | Some r => if bool_decide (pr_status r = value PortalRunStatus.SUBMITTED) then d' else put_run (blocked_run r) d'
    | None => d' end)) as H.
  { intros d' Hd'. destruct (runs d' !! bs_run b) as [r|] eqn:E; [|done]. case_bool_decide; [done|].
    eapply grow_blocked; [done | done | done | run_open]. }
  apply H. by apply grow_closed.
Qed.

Lemma expire_review_reach d0 d v : reach d0 d -> reach d0 (expire_review d v).
Proof.
  intros H. unfold expire_review. set (d1 := put_review _ d). assert (reach d0 d1) as H1 by (unfold d1; by grow).
  set (d2 := match portals d1 !! rv_portal v with Some p => _ | None => d1 end).
  assert (reach d0 d2) as H2 by (unfold d2; destruct (portals d1 !! rv_portal v) eqn:E; [by eapply grow_portal | done]).
  set (l := where_ _ _). assert (Forall (fun r => run_known r d2) l) as Hl.
  { apply List.Forall_forall. intros r Hr%list_elem_of_In. apply elem_of_where in Hr as [_ [i Hi]].
    eapply known_at; [exact (reach_ok _ _ _ _ _ H2) | exact Hi | done]. }
  clearbody l. revert H2 Hl. generalize d2. clear -Distinct0. induction l as [|r l IH]; intros d Hd Hl; cbn; [done|].
  apply Forall_cons in Hl as [Hr Hl]. apply IH.
  - apply grow_run; [done | exact Hr | run_open].
  - eapply Forall_impl; [exact Hl|]. intros x Hx. eapply known_reach; [exact (reach_ok _ _ _ _ _ Hd) | | exact Hx].
    apply grow_run; [apply reach_refl, (reach_ok _ _ _ _ _ Hd) | exact Hr | run_open].
Qed.

Lemma recovered_jobs now l : pj_id <$> recover_expired_leases now l = pj_id <$> l /\ pj_key <$> recover_expired_leases now l = pj_key <$> l.
Proof.
  unfold recover_expired_leases. rewrite <-!list_fmap_compose.
  split; apply list_fmap_ext; intros k j _; cbn; by destruct (lease_lapsed now j).
Qed.

Lemma schedule_ok now db : portal_ok db -> reach db (expire_portal_records uuid4 now db).
Proof.
  intros Hdb. unfold expire_portal_records. cbv zeta. set (d3 := foldl (expire_session _ _) _ _). assert (reach db d3) as H3.
  - apply grow_fold.
    { intros d b Hd. unfold expire_session. apply grow_enqueue. by apply grow_closed. }
    apply grow_fold; [intros d a Hd; by grow|]. apply grow_fold; [intros d v Hd; by apply expire_review_reach|]. by apply reach_refl.
  - destruct (recovered_jobs now (jobs d3)). by apply grow_jobs.
Qed.

(** ** Everything reachable *)

Lemma event_ok s s' : portal_ok (stored s) -> event s s' -> reach (stored s) (stored s').
Proof.
  intros Hs. destruct 1; cbn.
  - by apply call_ok.
  - by apply cycle_ok.
  - by apply lapse_ok.
  - by apply schedule_ok.
  - by apply (grow_same (stored s) (stored s)); [apply reach_refl|..].
Qed.

Lemma events_ok s s' : portal_ok (stored s) -> events s s' -> reach (stored s) (stored s').
Proof.
  intros Hs H. induction H as [s|s t u Hst _ IH]; [by apply reach_refl|].
  pose proof (event_ok s t Hs Hst) as Ht. exact (reach_trans _ _ _ _ _ _ Ht (IH (reach_ok _ _ _ _ _ Ht))).
Qed.

(** ** What does not change *)

(** A snapshot without its review. *)
Definition content (p : PreSubmissionSnapshot) : PreSubmissionSnapshot :=
  p <| ps_status := "" |> <| ps_reviewed_by := None |> <| ps_reviewed_at := None |>.

Record kept (db db' : PortalDb) : Prop := {
  kept_portals : pt_hostname <$> portals db' = pt_hostname <$> portals db;
  kept_runs : forall i r, runs db !! i = Some r -> exists r', runs db' !! i = Some r' /\ identity r' = identity r;
  kept_snapshots : forall i p, snapshots db !! i = Some p ->
    exists q, snapshots db' !! i = Some q /\ content q = content p /\
      (ps_status q = value SnapshotStatus.READY_FOR_REVIEW -> ps_status p = value SnapshotStatus.READY_FOR_REVIEW);
  kept_evidence : forall e, e ∈ evidence db -> e ∈ evidence db'
}.

#[export] Instance kept_refl : Reflexive kept.
Proof. intros db. split; eauto. Qed.

#[export] Instance kept_trans : Transitive kept.
Proof.
  intros a b c [Hp Hr Hs He] [Hp' Hr' Hs' He']. split; [congruence | | |auto].
  - intros i r Hi. destruct (Hr i r Hi) as (r1 & H1 & E1). destruct (Hr' i r1 H1) as (r2 & H2 & E2). exists r2. split; [done | congruence].
  - intros i p Hi. destruct (Hs i p Hi) as (p1 & H1 & E1 & S1). destruct (Hs' i p1 H1) as (p2 & H2 & E2 & S2).
    exists p2. split_and!; [done | congruence | auto].
Qed.

Lemma write_snapshots a b i p :
  write uuid4 py_str sha256 a b -> portal_ok a -> snapshots a !! i = Some p ->
  exists q, snapshots b !! i = Some q /\ content q = content p /\
    (ps_status q = value SnapshotStatus.READY_FOR_REVIEW -> ps_status p = value SnapshotStatus.READY_FOR_REVIEW).
Proof.
  intros Hw Ha Hi. assert (forall d, snapshots d = snapshots a -> exists q, snapshots d !! i = Some q /\ content q = content p /\
    (ps_status q = value SnapshotStatus.READY_FOR_REVIEW -> ps_status p = value SnapshotStatus.READY_FOR_REVIEW)) as Hsame
    by (intros d ->; by exists p).
  destruct Hw as [| | |x r Hx _ _ _ _ _|x q Hx Eq Hq _| | | | | | | | | | | |d E _]; try (by apply Hsame).
  - cbn. exists p. rewrite lookup_insert_ne; [done|]. rewrite Hx. intros <-.
    destruct (fresh_free _ _ _ _ Ha) as (_ & _ & _ & Hn). by rewrite Hn in Hi.
  - cbn. destruct (decide (ps_id q = i)) as [<-|Hne]; [|exists p; by rewrite lookup_insert_ne].
    exists q. rewrite lookup_insert_eq. rewrite Hx in Hi. injection Hi as ->. split_and!; [done | | by intros ?].
    by rewrite Eq.
  - apply Hsame. by injection E.
Qed.

Lemma write_kept a b : write uuid4 py_str sha256 a b -> portal_ok a -> kept a b.
Proof.
  intros Hw Ha. split.
  - destruct Hw as [| | | | | | | | | | | | | | |p0 p Hp Eh|d _ E]; try done; [|by rewrite E].
    cbn. rewrite fmap_insert, Eh. apply insert_id. by rewrite lookup_fmap, Hp.
  - intros i r. by eapply write_run.
  - intros i p. by apply write_snapshots.
  - intros e He. destruct Hw as [| | | | | | | | | | | | | | | |d E _]; try done; [apply elem_of_app; by left|].
    injection E as _ _ _ _ _ _ E _ _ _ _. by rewrite E.
Qed.

Lemma writes_kept a b : writes uuid4 py_str sha256 a b -> portal_ok a -> kept a b.
Proof.
  induction 1 as [|a b c Hab _ IH]; [done|]. intros Ha. etrans; [by apply write_kept|]. apply IH. by eapply write_ok.
Qed.

(** ** Where it starts *)

(** Tables in which no work was begun: the registered portals, under their keys, and
    whatever the other services stored. *)
Definition unused (db : PortalDb) : Prop :=
  runs db = ∅ /\ sessions db = ∅ /\ snapshots db = ∅ /\ fields db = ∅ /\ steps db = [] /\ handoffs db = ∅ /\
  reviews db = ∅ /\ adapters db = ∅ /\ jobs db = [] /\ forall i p, portals db !! i = Some p -> pt_id p = i.

Lemma unused_ok db : unused db -> portal_ok db.
Proof.
  intros (E1 & E2 & E3 & E4 & E5 & E6 & E7 & E8 & E9 & Hp).
  split; rewrite ?E1, ?E2, ?E3, ?E4, ?E5, ?E6, ?E7, ?E8, ?E9; try (by intros *; rewrite lookup_empty); try (by constructor); [|done].
  intros n _. rewrite !lookup_empty. split_and!; [done..| apply not_elem_of_nil | done].
Qed.
End Safety.
