(* ===== verification/PortalActs.v ===== *)
(** * What the browser worker does to a portal

    [quiet m]: the computation issues no action.  [acting P m]: every action it issues
    satisfies [P].  Most of the worker is quiet; the rest fills reviewed fields, uploads
    governed documents and opens reviewed addresses, and nothing of it clicks. *)
From Stdlib Require Import Ascii SpecFloat.
From S2P Require Import Prelude Terms PyDate PyJson Crypto PortalPolicy PortalStore PortalGovernance PortalRuns PortalAdapters PortalWorker.
Open Scope Z_scope.

Definition quiet {A} (m : M A) : Prop := forall w, acts (m w).2 = acts w.
Definition acting_at {A} (P : PageAction -> Prop) (m : M A) (w : World) : Prop :=
  forall s, exists l, history s (m w).2 = history s w ++ l /\ Forall P l.
Definition acting {A} (P : PageAction -> Prop) (m : M A) : Prop := forall w, acting_at P m w.

Definition is_fill (a : PageAction) : Prop := match a with Fill _ _ => True | _ => False end.
Definition is_upload (a : PageAction) : Prop := match a with Upload _ _ => True | _ => False end.

Lemma quiet_bind {A B} (m : M A) (f : A -> M B) : quiet m -> (forall a, quiet (f a)) -> quiet (m ≫= f).
Proof.
  intros Hm Hf w. unfold mbind, m_bind. specialize (Hm w). destruct (m w) as [[a|e] w1]; [|done]. cbn in Hm. by rewrite Hf, Hm.
Qed.

Lemma acting_quiet {A} P (m : M A) : quiet m -> acting P m.
Proof. intros Hm w s. exists []. unfold history. by rewrite Hm, app_nil_r. Qed.

Lemma acting_bind {A B} P (m : M A) (f : A -> M B) : acting P m -> (forall a, acting P (f a)) -> acting P (m ≫= f).
Proof.
  intros Hm Hf w s. destruct (Hm w s) as (l & E & Hl). unfold mbind, m_bind. destruct (m w) as [[a|e] w1]; cbn in *; [|by exists l].
  destruct (Hf a w1 s) as (l' & E' & Hl'). exists (l ++ l'). rewrite E', E, app_assoc. split; [done | by apply Forall_app].
Qed.

Lemma acting_at_bind {A B} P (m : M A) (f : A -> M B) w :
  quiet m -> (forall a, (m w).1 = Ok a -> acting_at P (f a) (m w).2) -> acting_at P (m ≫= f) w.
Proof.
  intros Hm Hf s. specialize (Hm w). unfold mbind, m_bind. destruct (m w) as [[a|e] w1]; cbn in *.
  - destruct (Hf a eq_refl s) as (l & E & Hl). exists l. split; [|done]. rewrite E. unfold history. by rewrite Hm.
  - exists []. unfold history. by rewrite Hm, app_nil_r.
Qed.

Lemma acting_perform (P : PageAction -> Prop) s l : Forall P l -> acting P (perform s l).
Proof.
  intros Hl w s'. unfold perform, history. cbn. destruct (decide (s' = s)) as [->|Hne].
  - exists l. by rewrite lookup_insert_eq.
  - exists []. by rewrite lookup_insert_ne, app_nil_r.
Qed.

Lemma quiet_result {A} (r : result exn A) : quiet (of_result r).
Proof. done. Qed.
Lemma quiet_call {A} (f : PortalDb -> result exn (A * PortalDb)) : quiet (call f).
Proof. intros w. unfold call. by destruct (f (pending w)) as [[? ?]|]. Qed.

Section Acts.
Context (uuid4 : nat -> uuid) (py_str : json -> string).
Context (float_text : json -> string) (not_finite : spec_float -> json).
Context (sha256 : string -> string) (hmac : string -> string -> string).
Context (aes_decrypt : string -> string -> string -> string -> option string).
Context (bracketed_ok : string -> bool).
Context (getaddrinfo : string -> option (list string)) (public_address : string -> bool).
Context (settings : PortalSettings) (keyring : option Keyring).
Context (worker_id : string) (portal : uuid -> list PageAction -> result exn Page).
Context (downloaded : uuid -> result exn string).

Lemma quiet_ask {A} s (f : Page -> result exn A) : quiet (ask portal s f).
Proof. apply quiet_bind; [done|]. intros p. apply quiet_result. Qed.

Lemma quiet_navigate u h : quiet (navigate bracketed_ok getaddrinfo public_address settings u h).
Proof. apply quiet_result. Qed.

Lemma quiet_start s u : quiet (registry_start s u).
Proof. intros w. unfold registry_start. by destruct (truthy_opt _). Qed.

Ltac hush :=
  repeat lazymatch goal with
  | |- quiet (_ ≫= _) => apply quiet_bind; [|intros ?; cbv beta zeta]
  | |- quiet (ask _ _ _) => apply quiet_ask
  | |- quiet (call _) => apply quiet_call
  | |- quiet (registry_start _ _) => apply quiet_start
  | |- quiet (match ?x with _ => _ end) => destruct x
  | |- quiet (let '(_, _) := ?x in _) => destruct x
  | |- quiet _ => first [assumption | intros ?; reflexivity]
  end.

Lemma quiet_run i : quiet (_run i).
Proof. unfold _run. hush. Qed.
Lemma quiet_adapter r : quiet (_adapter r).
Proof. unfold _adapter. hush. Qed.
Lemma quiet_context j now : quiet (_active_context j now).
Proof. unfold _active_context. hush; [apply quiet_run | apply quiet_adapter]. Qed.
Lemma quiet_status i s : quiet (set_run_status i s).
Proof. unfold set_run_status. hush. apply quiet_run. Qed.
Lemma quiet_hand_off run t u s now : quiet (hand_off uuid4 run t u s now).
Proof. unfold hand_off. hush. Qed.
Lemma quiet_unexpected r b now : quiet (_unexpected_page uuid4 r b now).
Proof. unfold _unexpected_page. hush. apply quiet_hand_off. Qed.
Lemma quiet_finish j i b cat hid now : quiet (finish_reconciled j i b cat hid now).
Proof. unfold finish_reconciled. hush. apply quiet_status. Qed.
Lemma quiet_prepare r s contract t : quiet (prepare_handoff uuid4 py_str float_text sha256 portal r s contract t).
Proof. unfold prepare_handoff. hush. Qed.

Lemma quiet_reconcile j r b contract now : quiet (_reconcile uuid4 py_str float_text sha256 portal j r b contract now).
Proof.
  unfold _reconcile. hush; auto using quiet_finish, quiet_run, quiet_prepare, quiet_hand_off, quiet_unexpected.
Qed.
Lemma quiet_validation r b contract now : quiet (run_validation uuid4 py_str portal r b contract now).
Proof. unfold run_validation. hush. apply quiet_unexpected. Qed.
Lemma quiet_capture j r s contract now : quiet (capture_result uuid4 py_str portal j r s contract now).
Proof. unfold capture_result. hush. Qed.
Lemma quiet_close j now : quiet (_close_session py_str j now).
Proof. unfold _close_session. hush. Qed.
Lemma quiet_session j r u now : quiet (session_for uuid4 settings worker_id j r u now).
Proof. unfold session_for. hush. Qed.

(** ** Entry and uploads *)

Lemma acting_act (P : PageAction -> Prop) s f : (forall p l, f p = Ok l -> Forall P l) -> acting P (act portal s f).
Proof.
  intros Hf w s'. unfold act, ask, mbind, m_bind, page_of. destruct (portal s (history s w)) as [p|e]; cbn.
  - destruct (f p) as [l|e] eqn:E; cbn; [|exists []; by rewrite app_nil_r]. apply (acting_perform P s l (Hf _ _ E)).
  - exists []. by rewrite app_nil_r.
Qed.

Lemma acting_each {A} P (f : A -> M unit) l : (forall x, acting P (f x)) -> acting P (each f l).
Proof. intros Hf. induction l; cbn; [by apply acting_quiet|]. by apply acting_bind. Qed.

Lemma enter_field_acts contract p k v l : enter_field py_str contract p k v = Ok l -> Forall is_fill l.
Proof. unfold enter_field. intros H. inv_ok. subst. by repeat constructor. Qed.
Lemma upload_document_acts contract p cat d l : upload_document py_str contract p cat d = Ok l -> Forall is_upload l.
Proof. unfold upload_document. intros H. inv_ok. subst. by repeat constructor. Qed.

Ltac act_ :=
  repeat lazymatch goal with
  | |- acting _ (act _ _ _) => apply acting_act; intros ? ? ?
  | |- acting _ (each _ _) => apply acting_each; intros ?
  | |- acting _ (_ ≫= _) => apply acting_bind; [|intros ?; cbv beta zeta]
  | |- acting _ (match ?x with _ => _ end) => destruct x
  | |- acting _ _ => apply acting_quiet; hush
  end.

Lemma acting_enter r s contract now today :
  acting is_fill
    (enter_fields py_str float_text not_finite sha256 hmac aes_decrypt settings keyring worker_id portal r s contract now today).
Proof. unfold enter_fields, enter_one. act_; [by eapply enter_field_acts | apply quiet_status]. Qed.

Lemma acting_upload r s contract now today :
  acting is_upload (upload_documents py_str worker_id portal downloaded r s contract now today).
Proof. unfold upload_documents, upload_one. act_; [by eapply upload_document_acts | apply quiet_status]. Qed.

(** ** Opening an address *)

(** The address is on the host of the portal of the job's run. *)
Definition reviewed_target (d : PortalDb) (j : PortalJob) (u : string) : Prop :=
  exists i r p, pj_run j = Some i /\ runs d !! i = Some r /\ portals d !! pr_portal r = Some p /\
    assert_navigation_target bracketed_ok getaddrinfo public_address u (pt_hostname p) (bool_decide (app_env settings = "test")) = Ok tt.

Definition opens (d : PortalDb) (j : PortalJob) (a : PageAction) : Prop :=
  match a with Goto u => reviewed_target d j u | _ => False end.

Lemma context_reads j now w c :
  (_active_context j now w).1 = Ok c ->
  pending (_active_context j now w).2 = pending w /\ exists i, pj_run j = Some i /\ runs (pending w) !! i = Some c.1.1.
Proof.
  unfold _active_context, _run, _adapter. destruct (pj_run j) as [i|]; [|done]. destruct (pj_session j) as [s|]; [|done].
  unfold mbind, m_bind, PortalWorker.db. destruct (runs (pending w) !! i) as [r|] eqn:Er; [|done]. cbn.
  unfold of_result, ensure. destruct (revalidate_governance r now (pending w)); [|done].
  destruct (sessions (pending w) !! s) as [b|]; [|done]. cbn. unfold of_result.
  repeat (match goal with |- context [raise_unless ?x ?e] => destruct x; cbn [raise_unless]; [|done] end).
  destruct (pr_adapter r) as [ad|]; [|done].
  destruct (adapters (pending w) !! ad) as [v|]; [|done]. cbn. destruct (build_adapter (ad_key v)); [|done]. cbn. intros [= <-].
  split; [done|]. by exists i.
Qed.

Lemma acting_navigate {B} P u h (f : unit -> M B) w :
  (assert_navigation_target bracketed_ok getaddrinfo public_address u h (bool_decide (app_env settings = "test")) = Ok tt ->
     acting P (f tt)) ->
  acting_at P (navigate bracketed_ok getaddrinfo public_address settings u h ≫= f) w.
Proof.
  intros Hf. apply acting_at_bind; [apply quiet_navigate|]. intros [] E. apply Hf. exact E.
Qed.

Lemma acting_navigation j r b contract now w i :
  pj_run j = Some i -> runs (pending w) !! i = Some r ->
  acting_at (opens (pending w) j)
    (navigation uuid4 py_str float_text sha256 bracketed_ok getaddrinfo public_address settings portal j r b contract now) w.
Proof.
  intros Hj Hr. unfold navigation. apply acting_at_bind; [done|]. intros d [= <-]. cbn [snd PortalWorker.db].
  destruct (portals (pending w) !! pr_portal r) as [p|] eqn:Ep; [|by apply acting_quiet].
  destruct (payload_get "route" j) as [[| | | | | |route]|]; try by apply acting_quiet.
  destruct (dget "url" route) as [[| | | |u| |]|] eqn:Eu; try by apply acting_quiet.
  apply acting_navigate. intros Hu. apply acting_bind; [|intros ?; apply acting_quiet; hush; apply quiet_reconcile].
  apply acting_act. intros pg l. unfold navigate_to_filing. rewrite Eu. intros [= <-]. repeat constructor. by exists i, r, p.
Qed.

Lemma acting_start j now w :
  acting_at (opens (pending w) j)
    (_start_session uuid4 py_str bracketed_ok getaddrinfo public_address settings worker_id portal j now) w.
Proof.
  unfold _start_session. destruct (pj_run j) as [i|] eqn:Ej; [|by apply acting_quiet].
  apply acting_at_bind; [apply quiet_run|]. intros r Hr. assert (runs (pending w) !! i = Some r /\ (_run i w).2 = w) as [Er ->].
  { revert Hr. unfold _run, mbind, m_bind, PortalWorker.db. destruct (runs (pending w) !! i); [|done]. by intros [= <-]. }
  apply acting_at_bind; [done|]. intros d [= <-]. cbn [snd PortalWorker.db].
  apply acting_at_bind; [done|]. intros [p v] Hg. cbn [snd fst of_result] in *.
  assert (portals (pending w) !! pr_portal r = Some p) as Hp.
  { unfold revalidate_governance in Hg. apply bind_Ok_inv in Hg as (p' & Hp & Hg). unfold get in Hp.
    destruct (portals (pending w) !! pr_portal r) as [q|]; [|done]. injection Hp as ->.
    destruct (reviews (pending w) !! pr_review r); [|done]. inv_ok. congruence. }
  destruct (pr_operator r) as [u|]; [|by apply acting_quiet].
  match goal with |- acting_at ?P ?m _ => refine ((_ : acting P m) w) end.
  do 5 (apply acting_bind; [apply acting_quiet; hush; apply quiet_session | intros ?; cbv beta zeta]).
  intros w'. apply acting_navigate. intros Hu.
  apply acting_bind; [apply acting_perform; repeat constructor; by exists i, r, p | intros ?].
  apply acting_quiet. hush; auto using quiet_adapter, quiet_status, quiet_hand_off, quiet_unexpected.
Qed.

(** ** A job *)

(** What a job of this kind may do, given the tables it starts from. *)
Definition job_may (d : PortalDb) (j : PortalJob) (a : PageAction) : Prop :=
  match a with
  | Goto u => pj_type j ∈ value <$> [PortalJobType.START_BROWSER_SESSION; PortalJobType.NAVIGATE_PORTAL] /\ reviewed_target d j u
  | Fill _ _ => pj_type j = value PortalJobType.ENTER_FIELDS
  | Upload _ _ => pj_type j = value PortalJobType.UPLOAD_DOCUMENTS
  | Click _ => False
  end.

Lemma acting_at_impl {A} (P Q : PageAction -> Prop) (m : M A) w : (forall a, P a -> Q a) -> acting_at P m w -> acting_at Q m w.
Proof. intros H Hm s. destruct (Hm s) as (l & E & Hl). exists l. split; [done|]. by eapply Forall_impl. Qed.

Lemma acting_handle j now today w :
  acting_at (job_may (pending w) j)
    (_handle uuid4 py_str float_text not_finite sha256 hmac aes_decrypt bracketed_ok getaddrinfo public_address settings keyring
       worker_id portal downloaded j now today) w.
Proof.
  unfold _handle. destruct (of_value (pj_type j)) as [t|] eqn:Et; [|by apply acting_quiet]. apply of_value_Some in Et.
  assert (forall (f : PortalRun * BrowserSession * list (string * json) -> M bool),
    (forall c w', pending w' = pending w -> (exists i, pj_run j = Some i /\ runs (pending w) !! i = Some c.1.1) ->
       acting_at (job_may (pending w) j) (f c) w') -> acting_at (job_may (pending w) j) (_active_context j now ≫= f) w) as Hctx.
  { intros f Hf. apply acting_at_bind; [apply quiet_context|]. intros c Hc. destruct (context_reads j now w c Hc) as [E Hi].
    by apply Hf. }
  destruct t; try (by apply acting_quiet; hush; apply quiet_close).
  - eapply acting_at_impl; [|apply acting_start]. intros [] Ha; try done. split; [rewrite Et; by left | done].
  - apply Hctx. intros [[r b] contract] w' E (i & Hi & Hr). cbn in Hr. rewrite <-E in Hr |- *.
    eapply acting_at_impl; [|by eapply acting_navigation]. intros [] Ha; try done. split; [rewrite Et; by right; left | done].
  - apply Hctx. intros [[r b] contract] w' _ _. eapply acting_at_impl; [|apply acting_enter]. by intros [].
  - apply Hctx. intros [[r b] contract] w' _ _. eapply acting_at_impl; [|apply acting_upload]. by intros [].
  - apply Hctx. intros [[r b] contract] w' _ _. apply acting_quiet, quiet_validation.
  - apply Hctx. intros [[r b] contract] w' _ _. apply acting_quiet. hush.
  - apply Hctx. intros [[r b] contract] w' _ _. apply acting_quiet, quiet_reconcile.
  - apply Hctx. intros [[r b] contract] w' _ _. apply acting_quiet, quiet_capture.
Qed.
End Acts.
