(* ===== verification/PortalScenario.v ===== *)
(** * A portal run from its review to its submission

    Concrete tables and a sequence of requests and worker cycles: a portal is reviewed,
    a run is created and started, its document verified, its snapshot approved, and the
    final action taken by its operator and confirmed by the portal.  Every state is
    shown reachable; the properties are applied to them. *)
From Stdlib Require Import Ascii SpecFloat Relations.
From stdpp Require Import pretty.
From S2P Require Import CaseService InfoRegistry PacketService.
From S2P Require Import Prelude Terms Vocabulary PyDate PyJson Crypto Roles LicensingLog PortalPolicy PortalStore PortalGovernance PortalRuns PortalSessions SubmissionEvidence PortalEntry PortalAdapters PortalWorker PortalWrites PortalCalls PortalJobs PortalSafety.
Open Scope Z_scope.

(** ** The world outside *)

Definition ids (n : nat) : uuid := "id-" +:+ pretty n.
Instance ids_distinct : Distinct ids.
Proof. intros a b E. apply (inj (String.append "id-")) in E. by apply (inj pretty) in E. Qed.

Definition no_text (_ : json) : string := "".
Definition same (s : string) : string := s.
Definition no_float (_ : spec_float) : json := JNull.
Definition no_aes (_ _ _ _ : string) : option string := None.
Definition all_ok (_ : string) : bool := true.
Definition resolved (_ : string) : option (list string) := Some ["203.0.113.7"].
Definition error_text (_ : exn) : string := "error".

Definition options : PortalSettings :=
  {| portal_allowed_hosts := ["portal.example"]; portal_default_automation_level := "PRE_SUBMISSION_ASSIST";
     portal_automation_enabled := true; browser_automation_enabled := true; portal_terms_review_max_age_days := 365;
     browser_session_max_minutes := 60; browser_inactivity_timeout_minutes := 15; portal_upload_max_files := 10;
     portal_upload_max_total_bytes := 1000000; portal_upload_allowed_mime_types := ["application/pdf"]; app_env := "test" |}.

Definition caller (i : string) : Caller := {| who := {| actor_id := i; roles := [] |}; tenant_id := "t"; object_id := i |}.
Definition operator : Caller := caller "olga".
Definition reviewer : Caller := caller "rita".

(** ** The tables at the start *)

Definition the_portal : PortalDefinition :=
  {| pt_id := "portal"; pt_key := "state"; pt_name := "State portal"; pt_type := "STATE_REGULATOR";
     pt_base_url := "https://portal.example"; pt_hostname := "portal.example"; pt_filing_types := ["RENEWAL"];
     pt_level := "PRE_SUBMISSION_ASSIST"; pt_status := "REVIEW_PENDING"; pt_mfa_model := None; pt_captcha_expected := false;
     pt_terms_required := false; pt_terms_expires_at := None; pt_verified_at := None |}.

Definition the_case : CaseService.ComplianceCase :=
  {| CaseService.case_id := "case"; CaseService.case_obligation_id := "ob"; CaseService.case_legal_entity_id := "le";
     CaseService.case_license_id := None; CaseService.case_bond_id := None; CaseService.case_type := "LICENSE_RENEWAL";
     CaseService.current_stage := value CaseStage.SUBMISSION_PENDING; CaseService.case_status := "IN_PROGRESS";
     CaseService.case_priority := "NORMAL"; CaseService.case_statutory_due_date := None; CaseService.internal_target_date := None;
     CaseService.case_assigned_owner := None; CaseService.case_vendor_organization_id := None;
     CaseService.case_regulator_organization_id := None; CaseService.primary_conversation_id := None;
     CaseService.case_close_reason := None; CaseService.blocked_reason := None; CaseService.stage_entered_at := None;
     CaseService.case_created_at := 0; CaseService.case_completed_at := None |}.

Definition the_cases : CaseService.CaseDb :=
  {| CaseService.legal_entities := {["le"]}; CaseService.licenses := ∅; CaseService.bonds := ∅; CaseService.jurisdictions := ∅;
     CaseService.organizations := ∅; CaseService.obligations := ∅; CaseService.cases := [the_case]; CaseService.case_events := [];
     CaseService.forms := []; CaseService.packets := []; CaseService.requests := ∅; CaseService.notified := [];
     CaseService.audits := []; CaseService.next_id := 0 |}.

Definition the_packet : PacketService.DocumentPacket :=
  {| PacketService.pk_id := "packet"; PacketService.pk_key := "p"; PacketService.pk_case_id := "case"; PacketService.pk_template_id := None;
     PacketService.pk_version := 1; PacketService.pk_status := value PacketStatus.APPROVED; PacketService.pk_manifest := None;
     PacketService.pk_manifest_sha256 := None; PacketService.archive_storage_uri := None; PacketService.archive_sha256 := None;
     PacketService.archive_size_bytes := None; PacketService.missing_items := []; PacketService.validation_results := [];
     PacketService.pk_created_by := None; PacketService.reviewed_by_actor := None; PacketService.approved_at := None;
     PacketService.built_at := None; PacketService.superseded_by := None; PacketService.rejection_reason := None |}.

Definition the_item : PacketService.PacketItem :=
  {| PacketService.pi_id := "item"; PacketService.pi_packet_id := "packet"; PacketService.pi_key := "bond"; PacketService.pi_type := "BOND";
     PacketService.pi_document_id := Some "doc"; PacketService.pi_version_id := Some "doc-1";
     PacketService.pi_status := value PacketItemStatus.INCLUDED; PacketService.pi_reason := None; PacketService.pi_sha256 := Some "h";
     PacketService.pi_filename := Some "bond.pdf"; PacketService.pi_required := true; PacketService.pi_override_by := None;
     PacketService.pi_sort_order := 0 |}.

Definition start_db : PortalDb :=
  {| portals := {["portal" := the_portal]}; reviews := ∅; authorizations := ∅; adapters := ∅; mappings := ∅; runs := ∅;
     sessions := ∅; steps := []; fields := ∅; run_documents := ∅; handoffs := ∅; snapshots := ∅; attestations := ∅; payments := ∅;
     evidence := []; jobs := []; follow_ups := []; principals := {["op" := {| up_tenant := "t"; up_object := "olga" |}]};
     legal_entities := {["le" := []]}; licence_sources := ∅; case_keys := ∅; organizations := ∅; jurisdictions := ∅;
     form_instances := ∅; form_values := []; packets := {["packet" := the_packet]}; packet_items := [the_item];
     documents := {["doc" := {| gd_id := "doc"; gd_approval := value ApprovalStatus.APPROVED;
                                gd_lifecycle := value LifecycleStatus.ACTIVE; gd_current_version := Some "doc-1"; gd_sha256 := "h";
                                gd_expiry := None |}]};
     document_versions := {["doc-1" := {| gv_id := "doc-1"; gv_storage := value StorageStatus.AVAILABLE; gv_sha256 := "h";
                                          gv_filename := "bond.pdf"; gv_size := 1000; gv_mime := "application/pdf" |}]};
     document_links := []; information := {| InfoRegistry.definitions := ∅; InfoRegistry.values := ∅; InfoRegistry.usages := [];
                                             InfoRegistry.owners := []; InfoRegistry.log := {| audits := []; notices := [] |} |};
     case_db := the_cases; log := {| audits := []; notices := [] |}; next_id := 0 |}.

(** ** The portal's pages *)

Definition by_id (i : string) : json := JDict [("strategy", JStr "test_id"); ("value", JStr i)].
Definition contract : list (string * json) :=
  [("home", JDict [("fingerprint", by_id "home")]);
   ("confirmation", JDict [("fingerprint", by_id "done"); ("confirmation_locator", by_id "reference")])].

(** A page that shows the elements [l], each once. *)
Definition shows (l : list string) (_ : uuid) (_ : list PageAction) : result exn Page :=
  Ok {| pg_count := fun x => match x with ByTestId (JStr i) => if bool_decide (i ∈ l) then 1 else 0 | _ => 0 end;
        pg_texts := fun _ => []; pg_text := fun _ => "ACK-1"; pg_input := fun _ => ""; pg_path := "/" |}.

(** ** Requests *)

Definition after {A} (m : result exn (A * PortalDb)) (d : PortalDb) : PortalDb := match m with Ok (_, d) => d | Err _ => d end.
Definition is_ok {A} (m : result exn A) : bool := match m with Ok _ => true | Err _ => false end.

Lemma outcome_ok {A} (m : result exn (A * PortalDb)) d : is_ok m = true -> exists a, m = Ok (a, after m d).
Proof. destruct m as [[a d']|]; [by exists a | done]. Qed.

Definition worker_cycle (shown : list string) (now : instant) (s : System) : System :=
  system_of "w" (run_one_cycle ids no_text no_text no_float same (fun _ => same) no_aes all_ok resolved all_ok options None "w"
    (shows shown) (fun _ => Ok "h") error_text error_text 120 ∅ true now 0 (world_of "w" s)).2 s.

Notation events := (events ids no_text same no_text no_float (fun _ => same) no_aes all_ok resolved all_ok options error_text error_text).
Notation call := (call ids no_text same no_text (fun _ => same) all_ok resolved all_ok options).

Definition initial : System := {| stored := start_db; processes := ∅ |}.

Definition the_review : NewReview :=
  {| nr_terms_reference := None; nr_terms_sha256 := None; nr_allowed := [];
     nr_prohibited := (fun a => (a, JBool true)) <$> ABSOLUTELY_PROHIBITED_ACTIONS; nr_filing_types := ["RENEWAL"]; nr_entities := [];
     nr_findings := []; nr_valid_from := None; nr_valid_to := None |}.
Definition the_authorization : AuthorizationFields :=
  {| af_user := "op"; af_reference := None; af_role := None; af_status := value AuthorizationStatus.ACTIVE;
     af_filing_types := ["RENEWAL"]; af_entities := ["le"]; af_expires_at := None |}.
Definition the_run : NewRun :=
  {| rn_portal := "portal"; rn_filing_type := "RENEWAL"; rn_level := None; rn_operator := Some "op"; rn_signatory := None;
     rn_payment_approver := None; rn_license := None; rn_form := None; rn_packet := Some "packet"; rn_earliest_start_at := None;
     rn_deadline_at := None |}.

Definition d_review := after (create_review ids options "portal" reviewer the_review 0 start_db) start_db.
Definition d_compliance := after (record_review_signoff (ids 0) reviewer "compliance" d_review) d_review.
Definition d_security := after (record_review_signoff (ids 0) reviewer "security" d_compliance) d_compliance.
Definition d_approved := after (approve_review no_text (fun _ _ => true) (ids 0) reviewer 0 d_security) d_security.
Definition d_adapter := after (create_adapter ids no_text "portal" reviewer "generic-assisted" [] contract d_approved) d_approved.
Definition d_active := after (activate_adapter no_text (fun _ _ => true) (ids 1) reviewer 0 d_adapter) d_adapter.
Definition d_authorized := after (upsert_authorization ids "portal" reviewer the_authorization 0 d_active) d_active.
Definition d_run := after (create_run ids options "case" operator the_run 0 0 d_authorized) d_authorized.
Definition d_started := after (start options (ids 3) operator 1 d_run) d_run.
Definition d_session := after (request_session ids options (ids 3) operator 2 d_started) d_started.
Definition s_session : System := worker_cycle ["home"] 3 (with_stored d_session initial).
Definition d_verified :=
  after (record_document_observation (ids 4) "olga" "bond.pdf" 1000 None 4 0 (stored s_session)) (stored s_session).
Definition d_snapshot := after (create_snapshot ids same (ids 3) operator 5 d_verified) d_verified.
Definition d_reviewed := after (approve_snapshot same (ids 7) reviewer 6 d_snapshot) d_snapshot.

(** The final action, taken and confirmed. *)
Definition granted (m : result exn (HumanHandoff * PortalDb * bool)) (d : PortalDb) : PortalDb :=
  match m with Ok (_, d', b) => if b then d' else d | Err _ => d end.
Definition d_final := granted (request_final_submit_handoff ids (ids 3) operator 7 d_reviewed) d_reviewed.
Definition d_accepted := (accept_handoff (ids 8) operator 8 d_final).2.
Definition d_reported :=
  after (request_submission_reconciliation ids (ids 3) operator "CONFIRMED" "confirmation" false 9 d_accepted) d_accepted.
Definition s_submitted : System := worker_cycle ["done"; "reference"] 10 (with_stored d_reported s_session).

(** Afterwards the page is validated once more. *)
Definition d_validated := after (queue_validation ids (ids 3) operator 11 (stored s_submitted)) (stored s_submitted).
Definition s_reopened : System := worker_cycle ["home"] 12 (with_stored d_validated s_submitted).

(** The document is uploaded again after the approval, a second snapshot finds it
    missing, and the final action is handed over all the same. *)
Definition d_again := after (queue_document_upload ids options (ids 3) operator 7 0 d_reviewed) d_reviewed.
Definition d_second := after (create_snapshot ids same (ids 3) operator 8 d_again) d_again.
Definition d_stale := granted (request_final_submit_handoff ids (ids 3) operator 9 d_second) d_second.

(** ** Everything here is reachable *)

Lemma call_after {A} (m : result exn (A * PortalDb)) d :
  is_ok m = true -> (forall a d', m = Ok (a, d') -> call d d') -> call d (after m d).
Proof. intros Hm Hc. destruct (outcome_ok m d Hm) as [a E]. by eapply Hc. Qed.

Lemma next_call s t d d' : call d d' -> events t (with_stored d s) -> events t (with_stored d' s).
Proof. intros Hc Hs. eapply rtc_r; [exact Hs|]. by apply (ev_call _ _ _ _ _ _ _ _ _ _ _ _ _ (with_stored d s)). Qed.

Lemma next_cycle shown now s t : events t s -> events t (worker_cycle shown now s).
Proof. intros Hs. eapply rtc_r; [exact Hs|]. apply ev_cycle. Qed.

Ltac request c := eapply next_call; [apply call_after; [vm_compute; reflexivity | intros ? ? E; eapply c; exact E]|].

Lemma active_reachable : events initial (with_stored d_active initial).
Proof.
  request call_activate_adapter. request call_create_adapter. request call_approve_review. request call_signoff.
  request call_signoff. request call_create_review. apply rtc_refl.
Qed.

Lemma session_reachable : events initial s_session.
Proof.
  apply next_cycle. request call_session. request call_start. request call_create_run. request call_authorization.
  exact active_reachable.
Qed.

Lemma reviewed_reachable : events initial (with_stored d_reviewed s_session).
Proof.
  request call_approve_snapshot. request call_snapshot. request call_document. exact session_reachable.
Qed.

Lemma granted_call i c now d :
  is_ok (request_final_submit_handoff ids i c now d) = true -> call d (granted (request_final_submit_handoff ids i c now d) d).
Proof.
  intros Hm. destruct (request_final_submit_handoff ids i c now d) as [[[h d'] b]|] eqn:E; [|done]. by eapply call_final.
Qed.

Lemma submitted_reachable : events initial s_submitted.
Proof.
  apply next_cycle. request call_reconciliation. eapply next_call; [by eapply call_accept|].
  eapply next_call; [apply granted_call; vm_compute; reflexivity|]. exact reviewed_reachable.
Qed.

Lemma reopened_reachable : events s_submitted s_reopened.
Proof. apply next_cycle. request call_validation. apply rtc_refl. Qed.

Lemma stale_reachable : events initial (with_stored d_stale s_session).
Proof.
  eapply next_call; [apply granted_call; vm_compute; reflexivity|]. request call_snapshot. request call_upload.
  exact reviewed_reachable.
Qed.

Lemma initial_unused : unused (stored initial).
Proof.
  split_and!; [done..|]. intros i p. cbn. intros [<- <-]%lookup_singleton_Some. done.
Qed.
