(* ===== verification/PortalGuarantees.v ===== *)
(** * What portal assistance guarantees

    The properties of runs, snapshots, submissions and of the worker, each with a
    concrete state it applies to. *)
From Stdlib Require Import Ascii SpecFloat Relations.
From stdpp Require Import pretty.
From S2P Require Import CaseService.
From S2P Require Import Prelude Terms Vocabulary PyDate PyJson Crypto Roles PortalPolicy PortalStore PortalGovernance PortalRuns PortalSessions SubmissionEvidence PortalEntry PortalAdapters PortalWorker PortalWrites PortalCalls PortalJobs PortalSafety PortalActs PortalScenario.
Open Scope Z_scope.

Section Guarantees.
Context (uuid4 : nat -> uuid) (py_str : json -> string) (sha256 : string -> string).
Context (float_text : json -> string) (not_finite : spec_float -> json) (hmac : string -> string -> string).
Context (aes_decrypt : string -> string -> string -> string -> option string).
Context (bracketed_ok : string -> bool).
Context (getaddrinfo : string -> option (list string)) (public_address : string -> bool).
Context (settings : PortalSettings) (message_of name_of : exn -> string).

Notation events := (PortalSafety.events uuid4 py_str sha256 float_text not_finite hmac aes_decrypt bracketed_ok getaddrinfo
  public_address settings message_of name_of).

(** C5. Whatever requests, worker cycles and expiries happen to tables in which no portal
    work was begun, and in whatever order, the tables stay consistent: runs have one of
    the known statuses; a run has at most one active browser session and at most one
    approved snapshot, whose versions are distinct; a snapshot waiting for review or
    approved has an empty discrepancy report and the hash of its run's data; a verified
    field holds what was approved; a portal has at most one approved review, with both
    sign-offs, no open finding and every reserved action prohibited, and at most one
    active adapter per key, whose contract is valid; steps are numbered without
    repetition, and no two jobs share an identifier or an idempotency key. *)
Theorem portal_consistent (Huuid : Distinct uuid4) s s' :
  unused (stored s) -> events s s' -> portal_ok uuid4 py_str sha256 (stored s').
Proof. intros Hs He. by apply (events_ok _ _ _ _ _ _ _ _ _ _ _ _ _ s s' (unused_ok _ _ _ _ Hs)) in He as [_ H]. Qed.

(** C3. A run is SUBMITTED only if the final action was handed over to a person and that
    handoff completed, and there is evidence of the portal's confirmation: a
    confirmation number, a filing reference or a document, verified by the person who
    submitted. *)
Theorem submission_confirmed (Huuid : Distinct uuid4) s s' i r :
  unused (stored s) -> events s s' -> runs (stored s') !! i = Some r -> pr_status r = value PortalRunStatus.SUBMITTED ->
  (exists k h, handoffs (stored s') !! k = Some h /\ hh_run h = i /\ hh_type h = value HandoffType.FINAL_SUBMIT /\
     hh_status h = value HandoffStatus.COMPLETED) /\
  (exists e, e ∈ evidence (stored s') /\ ev_run e = i /\ ev_type e = value SubmissionEvidenceType.PORTAL_CONFIRMATION /\
     (truthy_str (ev_confirmation e) || truthy_str (ev_filing_reference e) || truthy_opt (ev_document e) = true) /\
     ev_verified_by e = ev_submitted_by e).
Proof.
  intros Hs He Hi Hr. apply (events_ok _ _ _ _ _ _ _ _ _ _ _ _ _ s s' (unused_ok _ _ _ _ Hs)) in He as [_ Hok].
  destruct (ok_submitted _ _ _ _ Hok i r Hi Hr) as [(e & Hin & Hrun & Ht & Hp & Hv) (k & h & Hk & Hh & Hty & Hst)].
  split; [by exists k, h | by exists e].
Qed.

(** Records are permanent: no run loses its identity (portal, review, adapter, case,
    entity, filing type), no stored snapshot its contents, and none that left
    READY_FOR_REVIEW returns to it; evidence is only added; and no call registers a
    portal or changes the host name of one. *)
Theorem records_permanent (Huuid : Distinct uuid4) s s' :
  portal_ok uuid4 py_str sha256 (stored s) -> events s s' ->
  (forall i r, runs (stored s) !! i = Some r -> exists r', runs (stored s') !! i = Some r' /\ identity r' = identity r) /\
  (forall i p, snapshots (stored s) !! i = Some p ->
     exists q, snapshots (stored s') !! i = Some q /\ content q = content p /\
       (ps_status q = value SnapshotStatus.READY_FOR_REVIEW -> ps_status p = value SnapshotStatus.READY_FOR_REVIEW)) /\
  (forall e, e ∈ evidence (stored s) -> e ∈ evidence (stored s')) /\
  pt_hostname <$> portals (stored s') = pt_hostname <$> portals (stored s).
Proof.
  intros Hs He. apply (events_ok _ _ _ _ _ _ _ _ _ _ _ _ _ s s' Hs) in He as [Hw _].
  destruct (writes_kept _ _ _ _ _ Hw Hs). by split_and!.
Qed.

(** C4. What a cycle of the worker does to a portal is within the job it claimed: it opens
    only addresses on the approved host of the run's portal, and only to start a session
    or to navigate; it fills fields only for a job to enter fields, uploads only for a
    job to upload, and it never clicks.  Validation, reconciliation and the capture of a
    submission's result do nothing to the portal. *)
Theorem worker_actions keyring worker portal downloaded lease locked expired now today w s :
  let w' := (run_one_cycle uuid4 py_str float_text not_finite sha256 hmac aes_decrypt bracketed_ok getaddrinfo public_address settings
               keyring worker portal downloaded message_of name_of lease locked expired now today w).2 in
  exists l, history s w' = history s w ++ l /\
    Forall (fun a => exists j, (claim_next worker lease locked now (jobs (committed w))).1 = Some j /\
      match a with
      | Goto u => pj_type j ∈ value <$> [PortalJobType.START_BROWSER_SESSION; PortalJobType.NAVIGATE_PORTAL] /\
          exists i r p, pj_run j = Some i /\ runs (committed w) !! i = Some r /\ portals (committed w) !! pr_portal r = Some p /\
            assert_navigation_target bracketed_ok getaddrinfo public_address u (pt_hostname p) (bool_decide (app_env settings = "test")) = Ok tt
      | Fill _ _ => pj_type j = value PortalJobType.ENTER_FIELDS
      | Upload _ _ => pj_type j = value PortalJobType.UPLOAD_DOCUMENTS
      | Click _ => False
      end) l.
Proof.
  cbv zeta. unfold run_one_cycle. destruct (claim_next worker lease locked now (jobs (committed w))) as [[j|] l0] eqn:Ec.
  - match goal with |- context [let '(_, _) := ?x in _] => destruct x as [res w'] eqn:Eh end. cbn [snd].
    match type of Eh with _ ?x = _ => set (w0 := x) in Eh end.
    pose proof (acting_handle uuid4 py_str float_text not_finite sha256 hmac aes_decrypt bracketed_ok getaddrinfo public_address settings
      keyring worker portal downloaded j now today w0 s) as (l & El & Hl). rewrite Eh in El. cbn [snd] in El.
    exists l. split.
    + transitivity (history s w'); [|exact El]. unfold after_job. destruct res; [done|]. by destruct (_ && _).
    + eapply Forall_impl; [exact Hl|]. intros a Ha. exists j. split; [done|]. by destruct a.
  - exists []. rewrite app_nil_r. by split; [|constructor].
Qed.
End Guarantees.

Lemma portal_consistent_witness : portal_ok ids no_text same (stored s_submitted).
Proof. apply (portal_consistent _ _ _ _ _ _ _ _ _ _ _ _ _ ids_distinct initial s_submitted initial_unused submitted_reachable). Defined.

Lemma submission_confirmed_witness :
  exists k h, handoffs (stored s_submitted) !! k = Some h /\ hh_run h = ids 3 /\ hh_type h = value HandoffType.FINAL_SUBMIT /\
     hh_status h = value HandoffStatus.COMPLETED.
Proof.
  destruct (runs (stored s_submitted) !! ids 3) as [r|] eqn:E; [|vm_compute in E; discriminate E].
  refine (proj1 (submission_confirmed _ _ _ _ _ _ _ _ _ _ _ _ _ ids_distinct initial s_submitted (ids 3) r initial_unused
    submitted_reachable E _)). vm_compute in E. injection E as <-. reflexivity.
Defined.

Lemma records_permanent_witness : pt_hostname <$> portals (stored s_submitted) = pt_hostname <$> portals (stored initial).
Proof.
  refine (proj2 (proj2 (proj2 (records_permanent _ _ _ _ _ _ _ _ _ _ _ _ _ ids_distinct initial s_submitted _ submitted_reachable)))).
  apply unused_ok, initial_unused.
Defined.

Section Snapshots.
Context (uuid4 : nat -> uuid) (py_str : json -> string) (sha256 : string -> string).

Lemma elem_of_fields i db f : f ∈ run_fields i db <-> rf_run f = i /\ exists k, fields db !! k = Some f.
Proof. unfold run_fields. by rewrite py_sorted_perm, elem_of_where, bool_decide_eq_true. Qed.
Lemma elem_of_docs i db d : d ∈ run_docs i db <-> rd_run d = i /\ exists k, run_documents db !! k = Some d.
Proof. unfold run_docs, documents_of. by rewrite py_sorted_perm, elem_of_where, bool_decide_eq_true. Qed.

Lemma run_fields_perm i db : run_fields i db ≡ₚ filter (fun f => rf_run f = i) (map_to_list (fields db)).*2.
Proof.
  unfold run_fields. rewrite py_sorted_perm. unfold where_, rows. by rewrite (list_filter_iff _ (fun f => rf_run f = i) _ (fun f => bool_decide_eq_true _)).
Qed.
Lemma run_docs_perm i db : run_docs i db ≡ₚ filter (fun d => rd_run d = i) (map_to_list (run_documents db)).*2.
Proof.
  unfold run_docs, documents_of. rewrite py_sorted_perm. unfold where_, rows. by rewrite (list_filter_iff _ (fun d => rd_run d = i) _ (fun d => bool_decide_eq_true _)).
Qed.
Lemma by_text_sorted {A} (key : A -> string) l :
  StronglySorted (fun a b => str_leb (key a) (key b) = true) (py_sorted (fun a b => str_leb (key a) (key b)) l).
Proof. apply py_sorted_sorted; intros; [apply str_leb_total | by eapply str_leb_trans]. Qed.

Lemma bind_nil {A B} (f : A -> list B) l : l ≫= f = [] <-> forall x, x ∈ l -> f x = [].
Proof.
  induction l as [|y l IH]; cbn; [split; [by intros _ x ?%elem_of_nil | done]|]. rewrite app_nil, IH. split.
  - intros [Hy Hl] x [->|Hx]%elem_of_cons; auto.
  - intros H. split; [apply H, elem_of_cons; by left | intros x Hx; apply H, elem_of_cons; by right].
Qed.

Lemma field_report_nil db f :
  field_report db f = [] <->
  rf_status f <> value PortalFieldStatus.DISCREPANCY /\
  (mapped (fun m => fm_required m && negb (fm_human_only m)) f db = true -> truthy_str (rf_entered f) = true) /\
  (truthy_str (rf_approved f) = true -> rf_entered f = rf_approved f).
Proof.
  unfold field_report. rewrite app_nil, <-(compare_field_None (rf_key f)). case_bool_decide as E; [by split; [intros [? _] | intros [? _]]|].
  destruct (compare_field _ _ _ _); cbn; split; intuition congruence.
Qed.

(** C7. A snapshot of a run is READY_FOR_REVIEW exactly when no field of the run is marked as
    a discrepancy, every required field that is not reserved to people was entered, every
    field with an approved value holds it, every document is verified, and the last
    validation left no blocking message; otherwise it is DISCREPANCIES_FOUND.  (A required
    field reserved to people need not be entered: [human_only_unresolved_approved].)  It
    lists the fields of the run by key and its documents by filename, all of them and
    nothing else, the messages of the last validation and the discrepancies found; it is
    by its caller, unreviewed, its version is above those before it, and its hash is that
    of the run's data. *)
Theorem create_snapshot_spec i c now db r p db' :
  runs db !! i = Some r -> pr_id r = i -> create_snapshot uuid4 sha256 i c now db = Ok (p, db') ->
  (ps_status p = value SnapshotStatus.READY_FOR_REVIEW <->
     (forall k f, fields db !! k = Some f -> rf_run f = i ->
        rf_status f <> value PortalFieldStatus.DISCREPANCY /\
        (mapped (fun m => fm_required m && negb (fm_human_only m)) f db = true -> truthy_str (rf_entered f) = true) /\
        (truthy_str (rf_approved f) = true -> rf_entered f = rf_approved f)) /\
     (forall k d, run_documents db !! k = Some d -> rd_run d = i -> rd_status d = value PortalDocumentStatus.VERIFIED) /\
     (forall m, m ∈ _latest_validation_messages i db -> pm_blocking m = false)) /\
  (ps_status p = value SnapshotStatus.READY_FOR_REVIEW \/ ps_status p = value SnapshotStatus.DISCREPANCIES_FOUND) /\
  (exists fs, ps_fields p = field_entry db <$> fs /\ StronglySorted (fun a b => str_leb (rf_key a) (rf_key b) = true) fs /\
     fs ≡ₚ filter (fun f => rf_run f = i) (map_to_list (fields db)).*2) /\
  (exists ds, ps_documents p = document_entry <$> ds /\ StronglySorted (fun a b => str_leb (rd_filename a) (rd_filename b) = true) ds /\
     ds ≡ₚ filter (fun d => rd_run d = i) (map_to_list (run_documents db)).*2) /\
  ps_messages p = _latest_validation_messages i db /\ ps_report p = discrepancies i db /\
  ps_run p = i /\ ps_created_by p = actor_id c /\ ps_reviewed_by p = None /\
  (forall k q, snapshots db !! k = Some q -> ps_run q = i -> ps_version q < ps_version p) /\
  ps_sha256 p = expected_hash sha256 r p /\ snapshots db' !! ps_id p = Some p.
Proof.
  intros Hr Hid. unfold create_snapshot, get. rewrite Hr. cbn [mbind result_bind].
  intros (g & _ & H)%bind_Ok_inv. apply Ok_pair_inj in H as [<- <-]. subst i. split; [|split_and!].
  - transitivity (discrepancies (pr_id r) db = []).
    { cbn. case_bool_decide as E; [apply nil_length_inv in E; by rewrite E|]. split; [done|]. intros E'. by rewrite E' in E. }
    unfold discrepancies. rewrite !app_nil, !bind_nil. split.
    + intros (Hf & Hd & Hm). split_and!.
      * intros k f Hk Hrun. apply field_report_nil, Hf, elem_of_fields. eauto.
      * intros k d Hk Hrun. specialize (Hd d). unfold document_report in Hd. case_bool_decide; [done|].
        exfalso. assert (d ∈ run_docs (pr_id r) db) as Hin by (apply elem_of_docs; eauto). by apply Hd in Hin.
      * intros m Hin. specialize (Hm m Hin). unfold message_report in Hm. by destruct (pm_blocking m).
    + intros (Hf & Hd & Hm). split_and!.
      * intros f [Hrun [k Hk]]%elem_of_fields. apply field_report_nil. by eapply Hf.
      * intros d [Hrun [k Hk]]%elem_of_docs. unfold document_report. by rewrite bool_decide_eq_true_2 by by eapply Hd.
      * intros m Hin. unfold message_report. by rewrite Hm.
  - cbn. case_bool_decide; [by left | by right].
  - exists (run_fields (pr_id r) db). split_and!; [done | apply by_text_sorted | apply run_fields_perm].
  - exists (run_docs (pr_id r) db). split_and!; [done | apply by_text_sorted | apply run_docs_perm].
  - done.
  - done.
  - done.
  - done.
  - done.
  - intros k q Hk Hrun. cbn. apply next_version_gt, list_elem_of_fmap. exists q. split; [done|].
    apply elem_of_where. split; [by apply bool_decide_eq_true | by exists k].
  - done.
  - cbn. apply lookup_insert_eq.
Qed.
End Snapshots.

Lemma create_snapshot_spec_witness :
  exists p, create_snapshot ids same (ids 3) operator 8 d_again = Ok (p, d_second) /\ ps_status p = value SnapshotStatus.DISCREPANCIES_FOUND.
Proof.
  destruct (runs d_again !! ids 3) as [r|] eqn:Er; [|vm_compute in Er; discriminate Er].
  destruct (outcome_ok (create_snapshot ids same (ids 3) operator 8 d_again) d_again) as [p E]; [vm_compute; reflexivity|].
  exists p. split; [exact E|].
  assert (pr_id r = ids 3) as Hid by (vm_compute in Er; injection Er as <-; reflexivity).
  destruct (create_snapshot_spec ids same (ids 3) operator 8 d_again r p d_second Er Hid E) as (Hiff & [Hs|Hs] & _); [|exact Hs].
  exfalso. apply Hiff in Hs as (_ & Hd & _). destruct (run_documents d_again !! ids 4) as [d|] eqn:Ed; [|vm_compute in Ed; discriminate Ed].
  assert (rd_run d = ids 3) as Hrun by (vm_compute in Ed; injection Ed as <-; reflexivity).
  specialize (Hd _ d Ed Hrun). vm_compute in Ed. injection Ed as <-. vm_compute in Hd. discriminate Hd.
Defined.

(** The hash does not depend on which licence, form or packet the run is for, except for
    the version of the form. *)
Lemma hash_omits_identifiers sha256 r p l f k :
  expected_hash sha256 (r <| pr_license := l |> <| pr_form := f |> <| pr_packet := k |>) p = expected_hash sha256 r p.
Proof. done. Qed.

(** The operator's run with one more field, which the portal requires and only a person
    may enter, and which nobody entered: the snapshot is ready for review and approved. *)
Definition unresolved_field : PortalRunField :=
  {| rf_id := "human"; rf_run := ids 3; rf_mapping := Some "oath"; rf_key := "oath"; rf_label := None; rf_source_type := "HUMAN";
     rf_source_id := None; rf_approved := None; rf_entered := None; rf_display := None; rf_status := value PortalFieldStatus.HUMAN_ONLY;
     rf_entered_by := None; rf_entered_at := None; rf_verified_by := None; rf_verified_at := None; rf_code := None; rf_blocking := false |}.
Definition the_oath : PortalFieldMapping :=
  {| fm_id := "oath"; fm_adapter := ids 1; fm_filing_type := "RENEWAL"; fm_key := "oath"; fm_label := None; fm_source_type := "HUMAN";
     fm_source_key := None; fm_transformation := None; fm_required := true; fm_sensitivity := "INTERNAL"; fm_human_only := true;
     fm_allowed_values := None; fm_rules := []; fm_sort_order := 0 |}.
Definition d_unresolved : PortalDb :=
  d_verified <| fields := <["human" := unresolved_field]> (fields d_verified) |> <| mappings := <["oath" := the_oath]> (mappings d_verified) |>.

Example human_only_unresolved_approved :
  let d := after (create_snapshot ids same (ids 3) operator 5 d_unresolved) d_unresolved in
  mapped fm_required unresolved_field d_unresolved = true /\
  (ps_status <$> rows (snapshots d)) = [value SnapshotStatus.READY_FOR_REVIEW] /\
  is_ok (approve_snapshot same (ids 7) reviewer 6 d) = true.
Proof. vm_compute. done. Qed.

Section Results.
Context (uuid4 : nat -> uuid).

(** C6. A run is recorded as submitted only by the person the final action was handed to,
    for an unambiguous result the portal confirms on its confirmation page with a
    reference or a document, while its compliance case waits for the submission; and
    then, in one transaction, the evidence is stored, the handoff completed, and the
    case moved to its regulator or vendor by the stage machine with that evidence. *)
Theorem submission_recorded i c s now db r db' :
  capture_submission_result uuid4 i c s now db = Ok (r, db') -> pr_status r = value PortalRunStatus.SUBMITTED ->
  sr_ambiguous s = false /\ str_upper (sr_outcome s) = "CONFIRMED" /\ sr_page s = "confirmation" /\
  (truthy_str (sr_confirmation s) || truthy_str (sr_reference s) || truthy_opt (sr_document s) = true) /\
  exists r0 h k k' ev to_stage,
    runs db !! i = Some r0 /\ pr_status r0 <> value PortalRunStatus.SUBMITTED /\
    final_handoff i db = Some h /\ hh_status h ∈ value <$> [HandoffStatus.ACTIVE; HandoffStatus.COMPLETED] /\
    (forall u, hh_user h = Some u -> owns c u db = true) /\
    evidence db' = evidence db ++ [ev] /\ ev_run ev = pr_id r0 /\ ev_verified_by ev = actor_id c /\
    CaseService.find_case (pr_case r0) (case_db db) = Some k /\
    CaseService.current_stage k = value CaseStage.SUBMISSION_PENDING /\
    to_stage ∈ value <$> [CaseStage.SUBMITTED_TO_VENDOR; CaseStage.SUBMITTED_TO_REGULATOR] /\
    CaseService.transition (pr_case r0) to_stage (actor_id c) (Some "Human portal submission verified.")
      [("submission_reference", JStr (ev_id ev)); ("portal_run_id", JStr (pr_id r0))] None now (case_db db) = Ok (k', case_db db') /\
    handoffs db' !! hh_id h = Some (completed_handoff now "CONFIRMED" h) /\ runs db' !! pr_id r0 = Some r.
Proof.
  unfold capture_submission_result, get. destruct (runs db !! i) as [r0|] eqn:Hi; [|done]. cbn [mbind result_bind].
  destruct (final_handoff i db) as [h|] eqn:Eh; [|done].
  intros (u1 & Hh%raise_unless_Ok%bool_decide_eq_true & H)%bind_Ok_inv.
  apply bind_Ok_inv in H as (u2 & Hu%raise_unless_Ok & H).
  apply bind_Ok_inv in H as (u3 & Hs%raise_unless_Ok%negb_true_iff%bool_decide_eq_false & H). cbv zeta in H.
  destruct (sr_ambiguous s || _) eqn:Ea; [apply Ok_pair_inj in H as [<- _]; done|].
  apply orb_false_iff in Ea as [Ea Ho%negb_false_iff]. apply bool_decide_eq_true in Ho.
  destruct (bool_decide (str_upper (sr_outcome s) = "FAILED")) eqn:Ef; [apply Ok_pair_inj in H as [<- _]; done|].
  apply bool_decide_eq_false in Ef.
  apply bind_Ok_inv in H as (u4 & Hp%raise_unless_Ok%bool_decide_eq_true & H).
  apply bind_Ok_inv in H as (u5 & Hproof%raise_unless_Ok & H). apply bind_Ok_inv in H as (u6 & _ & H).
  apply bind_Ok_inv in H as (d & Hadv & H). apply Ok_pair_inj in H as [<- <-]. intros _.
  assert (str_upper (sr_outcome s) = "CONFIRMED") as Hout.
  { apply elem_of_cons in Ho as [?|Ho]; [done|]. by apply list_elem_of_singleton in Ho. }
  split_and!; [done..|]. unfold _advance_case in Hadv. cbn [case_db put_run put_handoff add_evidence_row drawn] in Hadv.
  destruct (CaseService.find_case _ _) as [k|] eqn:Ek; [|done].
  apply bind_Ok_inv in Hadv as (u7 & Hst%raise_unless_Ok%bool_decide_eq_true & Hadv). cbv zeta in Hadv.
  apply bind_Ok_inv in Hadv as ([k' cdb] & Ht & Hadv). injection Hadv as <-.
  eexists r0, h, k, k', _, _. split_and!; try done; try reflexivity; try exact Ek; try exact Ht; try exact Hst.
  - intros u E. by rewrite E in Hu.
  - destruct (portals _ !! _); [|right; by left]. case_match; [by left | right; by left].
  - cbn. by rewrite lookup_insert_eq.
  - cbn. by rewrite lookup_insert_eq.
Qed.
End Results.

Definition the_result : SubmissionResult :=
  {| sr_outcome := "CONFIRMED"; sr_page := "confirmation"; sr_ambiguous := false; sr_confirmation := Some "ACK-1";
     sr_reference := None; sr_document := None |}.

Lemma submission_recorded_witness :
  exists r db', capture_submission_result ids (ids 3) operator the_result 10 d_reported = Ok (r, db') /\
    exists k k' to_stage ev, CaseService.find_case "case" (case_db d_reported) = Some k /\
      CaseService.transition "case" to_stage "olga" (Some "Human portal submission verified.") ev None 10 (case_db d_reported) =
        Ok (k', case_db db').
Proof.
  destruct (outcome_ok (capture_submission_result ids (ids 3) operator the_result 10 d_reported) d_reported) as [r E];
    [vm_compute; reflexivity|].
  exists r, (after (capture_submission_result ids (ids 3) operator the_result 10 d_reported) d_reported). split; [exact E|].
  assert (pr_status r = value PortalRunStatus.SUBMITTED) as Hs by (vm_compute in E; injection E as <-; reflexivity).
  destruct (submission_recorded ids (ids 3) operator the_result 10 d_reported r _ E Hs)
    as (_ & _ & _ & _ & r0 & h & k & k' & ev & t & Hr0 & _ & _ & _ & _ & _ & _ & _ & Hk & _ & _ & Ht & _).
  assert (pr_case r0 = "case") as Hc by (vm_compute in Hr0; injection Hr0 as <-; reflexivity). rewrite Hc in Hk, Ht.
  eexists k, k', t, _. split; [exact Hk | exact Ht].
Defined.

(** A submitted run does not stay submitted.  Operations queued for it afterwards are
    not refused: here its operator queues a validation, and the worker's capture of the
    page's messages makes the run READY_FOR_PRE_SUBMISSION_REVIEW and withdraws the
    approval of the snapshot it was submitted with. *)
Theorem submitted_run_reopened :
  events initial s_submitted /\ events s_submitted s_reopened /\
  pr_status <$> runs (stored s_submitted) !! ids 3 = Some (value PortalRunStatus.SUBMITTED) /\
  ps_status <$> snapshots (stored s_submitted) !! ids 7 = Some (value SnapshotStatus.APPROVED) /\
  pr_status <$> runs (stored s_reopened) !! ids 3 = Some (value PortalRunStatus.READY_FOR_PRE_SUBMISSION_REVIEW) /\
  ps_status <$> snapshots (stored s_reopened) !! ids 7 = Some (value SnapshotStatus.SUPERSEDED).
Proof.
  split; [exact submitted_reachable|]. split; [exact reopened_reachable|]. vm_compute. split_and!; reflexivity.
Qed.

(** The final action can be handed over on an approval that no longer describes the
    portal: the document of an approved snapshot is queued for another upload, which
    does not withdraw the approval; a second snapshot then finds the document missing,
    and does not supersede the first; and the final handoff is still granted. *)
Theorem final_submit_stale :
  events initial (with_stored d_stale s_session) /\
  ps_status <$> snapshots d_stale !! ids 7 = Some (value SnapshotStatus.APPROVED) /\
  ps_version <$> snapshots d_stale !! ids 7 = Some 1 /\
  ps_version <$> snapshots d_stale !! ids 10 = Some 2 /\
  ps_status <$> snapshots d_stale !! ids 10 = Some (value SnapshotStatus.DISCREPANCIES_FOUND) /\
  ps_report <$> snapshots d_stale !! ids 10 = Some [DocumentMissing "doc"] /\
  hh_type <$> handoffs d_stale !! ids 11 = Some (value HandoffType.FINAL_SUBMIT) /\
  hh_status <$> handoffs d_stale !! ids 11 = Some (value HandoffStatus.REQUESTED).
Proof. split; [exact stale_reachable|]. vm_compute. split_and!; reflexivity. Qed.

Section Entries.
Context (py_str : json -> string) (not_finite : spec_float -> json).
Context (aes_decrypt : string -> string -> string -> string -> option string) (keyring : option Keyring).

(** An attribute of the legal entity that is not recorded is typed into the portal as
    the text None: nothing between the column and the field tells a missing value from
    a text. *)
Theorem missing_attribute_typed r m (today : date) db attrs k :
  fm_source_type m = value PortalFieldSourceType.LEGAL_ENTITY -> fm_source_key m = Some k -> k ∈ _ALLOWED_ENTITY_FIELDS ->
  legal_entities db !! pr_entity r = Some attrs -> attribute k attrs = ANone ->
  fm_transformation m = None -> fm_allowed_values m = None -> dget "max_length" (fm_rules m) = None ->
  exists v, _resolve_value not_finite aes_decrypt keyring r m today db = Ok (v, Some (pr_entity r)) /\
    entry_text py_str m v = Ok "None".
Proof.
  intros Ht Hk Hin Hattrs Hv Htr Hal Hlen. exists ANone. split.
  - unfold _resolve_value. rewrite Ht. change (of_value (value PortalFieldSourceType.LEGAL_ENTITY)) with
      (Some PortalFieldSourceType.LEGAL_ENTITY). cbv match beta. rewrite Hk. unfold allowed_key.
    rewrite bool_decide_eq_true_2 by done. unfold get. cbn. by rewrite Hattrs; cbn; rewrite Hv.
  - unfold entry_text, _TRANSFORMS, value_allowed. by rewrite Htr, Hal, Hlen.
Qed.
End Entries.

Definition trade_name : PortalFieldMapping :=
  {| fm_id := "m"; fm_adapter := "a"; fm_filing_type := "RENEWAL"; fm_key := "name"; fm_label := None;
     fm_source_type := value PortalFieldSourceType.LEGAL_ENTITY; fm_source_key := Some "nmls_id"; fm_transformation := None;
     fm_required := true; fm_sensitivity := "PUBLIC"; fm_human_only := false; fm_allowed_values := None; fm_rules := [];
     fm_sort_order := 0 |}.

Lemma missing_attribute_typed_witness :
  exists r v, runs d_run !! ids 3 = Some r /\
    _resolve_value no_float no_aes None r trade_name 0 d_run = Ok (v, Some "le") /\ entry_text no_text trade_name v = Ok "None".
Proof.
  destruct (runs d_run !! ids 3) as [r|] eqn:Er; [|vm_compute in Er; discriminate Er].
  assert (pr_entity r = "le") as He by (vm_compute in Er; injection Er as <-; reflexivity).
  destruct (missing_attribute_typed no_text no_float no_aes None r trade_name 0 d_run [] "nmls_id") as (v & Hv & Ht); try reflexivity.
  - apply (bool_decide_unpack _). vm_compute. exact I.
  - rewrite He. vm_compute. reflexivity.
  - exists r, v. rewrite He in Hv. split; [reflexivity|]. split; [exact Hv | exact Ht].
Defined.
