(* ===== verification/FormFields.v ===== *)
(** * From governed values to the text of a form field ([app/forms/mappings.py])

    The whitelisted transformations, the classification of a field without a mapping,
    the check against a field's options and what a list may show of a value.  A value
    comes from a column or from the registry; [str] of a JSON value that is not text and
    of an instant are arguments. *)
From Stdlib Require Import Ascii SpecFloat.
From stdpp Require Import pretty.
From S2P Require Import Prelude Vocabulary Terms PyDate PyJson PyFloat JsonText Crypto.
Open Scope Z_scope.

(** ** Transformations *)

Module Transformation.
Inductive Transformation : Set :=
  | NONE | UPPERCASE | LOWERCASE | TITLE_CASE | TRIM | DIGITS_ONLY | PHONE_E164_US | PHONE_DASHED_US
  | DATE_MMDDYYYY | DATE_YYYYMMDD | DATE_LONG | CURRENCY_USD | CURRENCY_PLAIN | YES_NO | CHECKBOX_X
  | ADDRESS_SINGLE_LINE | ADDRESS_MULTI_LINE.
#[global] Instance eq_dec : EqDecision Transformation.
Proof. solve_decision. Defined.
Definition str (x : Transformation) : string :=
  match x with
  | NONE => "NONE" | UPPERCASE => "UPPERCASE" | LOWERCASE => "LOWERCASE" | TITLE_CASE => "TITLE_CASE"
  | TRIM => "TRIM" | DIGITS_ONLY => "DIGITS_ONLY" | PHONE_E164_US => "PHONE_E164_US"
  | PHONE_DASHED_US => "PHONE_DASHED_US" | DATE_MMDDYYYY => "DATE_MMDDYYYY"
  | DATE_YYYYMMDD => "DATE_YYYYMMDD" | DATE_LONG => "DATE_LONG" | CURRENCY_USD => "CURRENCY_USD"
  | CURRENCY_PLAIN => "CURRENCY_PLAIN" | YES_NO => "YES_NO" | CHECKBOX_X => "CHECKBOX_X"
  | ADDRESS_SINGLE_LINE => "ADDRESS_SINGLE_LINE" | ADDRESS_MULTI_LINE => "ADDRESS_MULTI_LINE"
  end.
Definition all : list Transformation := [NONE; UPPERCASE; LOWERCASE; TITLE_CASE; TRIM; DIGITS_ONLY;
  PHONE_E164_US; PHONE_DASHED_US; DATE_MMDDYYYY; DATE_YYYYMMDD; DATE_LONG; CURRENCY_USD; CURRENCY_PLAIN;
  YES_NO; CHECKBOX_X; ADDRESS_SINGLE_LINE; ADDRESS_MULTI_LINE].
#[global] Instance enum : StrEnum Transformation.
Proof. refine {| value := str; members := all |}; [solve_members | solve_values]. Defined.
End Transformation.

(** A value on its way into a field. *)
Inductive raw := RNone | RText (s : string) | RDate (d : date) | RInstant (t : instant) | RJson (j : json).

Section Transform.
Context (py_str : json -> string) (instant_text : instant -> string).

Definition raw_text (v : raw) : string :=
  match v with
  | RNone => "None" | RText s => s | RDate d => isoformat d | RInstant t => instant_text t | RJson j => text_of py_str j
  end.

Definition raw_truthy (v : raw) : bool :=
  match v with RNone => false | RText s => negb (bool_decide (s = "")) | RJson j => truthy j | _ => true end.

(** [value is None or value == ""]. *)
Definition no_value (v : raw) : bool :=
  match v with RNone | RText "" | RJson JNull | RJson (JStr "") => true | _ => false end.

Definition is_text (v : raw) : bool := match v with RText _ | RJson (JStr _) => true | _ => false end.

Definition _as_date (v : raw) : option date :=
  match v with
  | RInstant t => Some (instant_date t)
  | RDate d => Some d
  | RText s | RJson (JStr s) => match fromisoformat (strip s) with Ok d => Some d | Err _ => None end
  | _ => None
  end.

Fixpoint str_filter (p : ascii -> bool) (s : string) : string :=
  match s with "" => "" | String c s => if p c then String c (str_filter p s) else str_filter p s end.

Definition ascii_digit (c : ascii) : bool := truthy_opt (digit c).

Definition _digits (v : raw) : string := str_filter ascii_digit (if raw_truthy v then raw_text v else "").

(** *** Addresses *)

(** [str(value.get(key) or "").strip()]. *)
Definition part (d : list (string * json)) (k : string) : string :=
  match dget k d with Some j => if truthy j then strip (text_of py_str j) else "" | None => "" end.

Definition present (l : list string) : list string := filter (fun s => s <> "") l.

Definition _address_parts (v : raw) : list string :=
  match v with
  | RJson (JDict d) =>
      let city_line := String.concat ", " (present [part d "city"; String.concat " " (present [part d "region"; part d "postal_code"])]) in
      let country := part d "country" in
      let parts := present [part d "line1"; part d "line2"; city_line] ++
        (if negb (bool_decide (country = "")) && negb (bool_decide (str_upper country ∈ ["US"; "USA"; "UNITED STATES"]))
         then [country] else []) in
      if bool_decide (parts = []) then present (part d <$> ["line1"; "line2"; "city"; "region"; "postal_code"; "country"])
      else parts
  | _ => if raw_truthy v then [raw_text v] else []
  end.

(** *** Text *)

Definition is_letter (c : ascii) : bool :=
  let n := N_of_ascii c in ((65 <=? n) && (n <=? 90) || (97 <=? n) && (n <=? 122))%N.

(** [s.title()]. *)
Fixpoint title_from (inside : bool) (s : string) : string :=
  match s with
  | "" => ""
  | String c s =>
      if is_letter c then String (if inside then lower_char c else upper_char c) (title_from true s)
      else String c (title_from false s)
  end.
Definition str_title : string -> string := title_from false.

(** *** Numbers *)

(** A finite float in hundredths, ties to even; the digits of [format(x, ".2f")]. *)
Definition hundredths (m : positive) (e : Z) : Z :=
  if 0 <=? e then Z.pos m * 100 * 2 ^ e
  else let d := 2 ^ (- e) in
       let q := Z.pos m * 100 / d in let r := 2 * (Z.pos m * 100 mod d) in
       if r <? d then q else if d <? r then q + 1 else if Z.even q then q else q + 1.

(** A comma before every third digit from the right. *)
Fixpoint grouped (s : string) : string :=
  match s with
  | "" => ""
  | String c t => String c (if (0 <? String.length t)%nat && (String.length t mod 3 =? 0)%nat then "," +:+ grouped t else grouped t)
  end.

(** [f"{x:.2f}"], or [f"{x:,.2f}"]. *)
Definition two_places (commas : bool) (x : spec_float) : string :=
  match x with
  | S754_nan => "nan"
  | S754_infinity s => if s then "-inf" else "inf"
  | S754_zero s => if s then "-0.00" else "0.00"
  | S754_finite s m e =>
      let n := hundredths m e in
      let whole := pretty (n / 100) in
      (if s then "-" else "") +:+ (if commas then grouped whole else whole) +:+ "." +:+ pad_digits 2 (n mod 100) ""
  end.

Definition without (c : ascii) (s : string) : string := str_filter (fun x => negb (bool_decide (x = c))) s.

Definition currency (usd : bool) (text : string) : string :=
  match py_float_text (strip (without "$" (without "," text))) with
  | None => text
  | Some x => if usd then "$" +:+ two_places true x else two_places false x
  end.

(** *** Dates *)

Definition month_names : list string :=
  ["January"; "February"; "March"; "April"; "May"; "June"; "July"; "August"; "September"; "October"; "November"; "December"].

(** [d.strftime("%B %d, %Y")]. *)
Definition long_date (d : date) : string :=
  default "" (month_names !! Z.to_nat (month d - 1)) +:+ " " +:+ pad_digits 2 (day d) (", " +:+ pad_digits 4 (year d) "").

(** [text[a:b]]. *)
Definition slice (a n : nat) (s : string) : string := String.substring a n s.

(** The ten digits of a US number. *)
Definition us_digits (d : string) : string :=
  if (String.length d =? 11)%nat && is_prefix "1" d then String.substring 1 10 d else d.

Definition dashed (d : string) : string := slice 0 3 d +:+ "-" +:+ slice 3 3 d +:+ "-" +:+ slice 6 4 d.

Definition said_yes (v : raw) (words : list string) : bool :=
  match v with RJson (JBool b) => b | _ => bool_decide (str_lower (strip (raw_text v)) ∈ words) end.

Import Transformation.
Definition apply_transformation (v : raw) (transformation : option string) : result exn string :=
  let name := str_upper (if truthy_str transformation then default "" transformation else "NONE") in
  match of_value name with
  | None => Err MappingError
  | Some t =>
      Ok (match v with
          | RNone | RJson JNull => ""
          | _ =>
              match t with
              | NONE => if is_text v then strip (raw_text v) else raw_text v
              | TRIM => strip (raw_text v)
              | UPPERCASE => str_upper (raw_text v)
              | LOWERCASE => str_lower (raw_text v)
              | TITLE_CASE => str_title (raw_text v)
              | DIGITS_ONLY => _digits v
              | PHONE_E164_US | PHONE_DASHED_US =>
                  let d := us_digits (_digits v) in
                  if (String.length d =? 10)%nat
                  then if bool_decide (t = PHONE_E164_US) then "+1" +:+ d else dashed d
                  else strip (raw_text v)
              | DATE_MMDDYYYY => match _as_date v with Some d => month_day_year d | None => raw_text v end
              | DATE_YYYYMMDD => match _as_date v with Some d => isoformat d | None => raw_text v end
              | DATE_LONG => match _as_date v with Some d => long_date d | None => raw_text v end
              | CURRENCY_USD => currency true (raw_text v)
              | CURRENCY_PLAIN => currency false (raw_text v)
              | YES_NO => if said_yes v ["true"; "yes"; "y"; "1"] then "Yes" else "No"
              | CHECKBOX_X => if said_yes v ["true"; "yes"; "y"; "1"; "x"] then "X" else ""
              | ADDRESS_SINGLE_LINE => String.concat ", " (_address_parts v)
              | ADDRESS_MULTI_LINE => String.concat (String "010" "") (_address_parts v)
              end
          end)
  end.

(** [str.casefold] is the lower case of ASCII text. *)
Definition validate_against_allowed (v : string) (allowed : option (list json)) : bool :=
  match allowed with
  | None | Some [] => true
  | Some l => bool_decide (str_lower (strip v) ∈ (fun o => str_lower (strip (text_of py_str o))) <$> l)
  end.
End Transform.

(** What lists, worksheets and audit rows may show. *)
Definition mask_for_display (spaced : json -> string) (v sensitivity : string) : string :=
  if bool_decide (sensitivity = value Sensitivity.INTERNAL) then str_take 200 v else redact spaced (JStr v) 0.

(** ** Mappings *)

Definition HUMAN_EXECUTION_FIELD_TYPES : list string :=
  value <$> [FormFieldType.SIGNATURE; FormFieldType.INITIALS; FormFieldType.ATTESTATION].

Definition human_execution (t : string) : bool := bool_decide (t ∈ HUMAN_EXECUTION_FIELD_TYPES).

Record MappingSpec := {
  ms_source_type : string;
  ms_source_key : option string;
  ms_transformation : option string;
  ms_status : string;
  ms_requires_review : bool;
  ms_default : option string
}.

Definition is_usable (m : MappingSpec) : bool :=
  bool_decide (ms_status m = value MappingStatus.APPROVED) && negb (ms_requires_review m).

(** The status, the source and the validation code of a field that no mapping fills. *)
Definition classify_unmapped (field_type : string) (required : bool) : string * string * option FormValidationCode.FormValidationCode :=
  if human_execution field_type
  then (value FormFieldValueStatus.SIGNATURE_REQUIRED, value FieldSourceType.SIGNATURE_REQUIRED, None)
  else (value (if required then FormFieldValueStatus.NEEDS_REVIEW else FormFieldValueStatus.MANUAL_ONLY),
        value FieldSourceType.MANUAL_INPUT, Some FormValidationCode.UNMAPPED_FIELD).

Section Samples.
Let apply v t := apply_transformation (fun _ => "?") (fun _ => "?") v (Some t).
Example transformed :
  (apply (RText " Astra llc") "title_case", apply (RText "(415) 555-0100") "PHONE_DASHED_US",
   apply (RText "1 415 555 0100") "PHONE_E164_US", apply (RText "x123") "PHONE_E164_US",
   apply (RText "2026-03-05") "DATE_LONG", apply (RText "$1234567.5") "CURRENCY_USD", apply (RText "0.125") "CURRENCY_PLAIN") =
  (Ok " Astra Llc", Ok "415-555-0100", Ok "+14155550100", Ok "x123", Ok "March 05, 2026", Ok "$1,234,567.50", Ok "0.12").
Proof. vm_compute. reflexivity. Qed.

Example addresses :
  (apply (RJson (JDict [("line1", JStr "1 Main St"); ("city", JStr "Reno"); ("region", JStr "NV"); ("postal_code", JStr "89501");
                        ("country", JStr "us")])) "ADDRESS_SINGLE_LINE",
   apply (RJson (JDict [("country", JStr "USA")])) "ADDRESS_SINGLE_LINE") = (Ok "1 Main St, Reno, NV 89501", Ok "USA").
Proof. vm_compute. reflexivity. Qed.
End Samples.
