(* ===== verification/FormInspection.v ===== *)
(** * The fields of a template ([app/forms/inspection.py])

    What the inspection of a template declares as its fields, and how each is classified
    from its name.  Opening a PDF, DOCX or XLSX file is the work of a library: what it
    reads of one is an argument, or [None] where it cannot.  The notes of a result are
    left out.

    The search for an unused key is a loop; it runs with fuel, and without fuel left
    there is no answer. *)
From Stdlib Require Import Ascii.
From stdpp Require Import pretty.
From S2P Require Import Prelude Vocabulary Terms PyDate PyJson Regex InfoRules FormFields.
Open Scope Z_scope.

(** ** Placeholders *)

Definition alnum (c : ascii) : bool := is_letter c || ascii_digit c.
Definition token_char (c : ascii) : bool := alnum c || bool_decide (c ∈ ["_"%char; "."%char; "-"%char]).

(** A maximal run of [p] at the front, and the rest. *)
Fixpoint span (p : ascii -> bool) (s : string) : string * string :=
  match s with
  | "" => ("", "")
  | String c t => if p c then let '(a, b) := span p t in (String c a, b) else ("", s)
  end.

(** [PLACEHOLDER_PATTERN] at the front of a text: its token and what follows.  The classes
    are disjoint, so the greedy match is the only one. *)
Definition placeholder (s : string) : option (string * string) :=
  match s with
  | String "{" (String "{" s) =>
      let '(tok, s) := span token_char (span is_space s).2 in
      if (1 <=? String.length tok)%nat && (String.length tok <=? 80)%nat then
        match (span is_space s).2 with String "}" (String "}" s) => Some (tok, s) | _ => None end
      else None
  | _ => None
  end.

(** [PLACEHOLDER_PATTERN.sub(f, text)]; the fuel is the length of the text. *)
Fixpoint sub_tokens (fuel : nat) (f : string -> string -> string) (s : string) : string :=
  match fuel with
  | O => s
  | S fuel =>
      match placeholder s with
      | Some (tok, rest) =>
          f tok (String.substring 0 (String.length s - String.length rest) s) +:+ sub_tokens fuel f rest
      | None => match s with "" => "" | String c t => String c (sub_tokens fuel f t) end
      end
  end.

(** The tokens of [PLACEHOLDER_PATTERN.finditer(text)]. *)
Fixpoint tokens_of (fuel : nat) (s : string) : list string :=
  match fuel with
  | O => []
  | S fuel =>
      match placeholder s with
      | Some (tok, rest) => tok :: tokens_of fuel rest
      | None => match s with "" => [] | String _ t => tokens_of fuel t end
      end
  end.
Definition tokens (s : string) : list string := tokens_of (String.length s) s.

Example placeholders :
  (tokens "Dear {{ name }}, {{{x}} {{a b}} {{y-1.z}}", tokens "{{ }} {{x}") = (["name"; "x"; "y-1.z"], []).
Proof. vm_compute. reflexivity. Qed.

(** ** Names *)

Definition _SIGNATURE_HINTS : list string := ["signature"; "sign here"; "signed by"; "/sig"; "esign"].
Definition _INITIALS_HINTS : list string := ["initial"].
Definition _ATTESTATION_HINTS : list string := ["attest"; "certif"; "under penalty"; "declare"; "affirm"].
Definition _HIGHLY_RESTRICTED_HINTS : list string :=
  ["ssn"; "social security"; "ein"; "tax id"; "taxpayer"; "account number"; "routing"; "passport"; "driver"].
Definition _SENSITIVE_HINTS : list string := ["date of birth"; "dob"; "license number of individual"].

Definition any_hint (hints : list string) (s : string) : bool := existsb (fun h => is_infix h s) hints.

(** [re.sub(p+, "_" or " ", s)] for a class [p]. *)
Definition squash (p : ascii -> bool) (repl s : string) : string := re_sub (Plus (Cls p)) repl s.

Definition strip_by (p : ascii -> bool) (s : string) : string :=
  let lstrip s := (span p s).2 in String.rev (lstrip (String.rev (lstrip s))).

Definition underscore (c : ascii) : bool := bool_decide (c = "_"%char).

Definition cleaned_key (name : string) : string :=
  let c := str_lower (strip_by underscore (squash (fun c => negb (alnum c)) "_" name)) in
  let c := squash underscore "_" c in
  let c := if bool_decide (c = "") then "field" else c in
  let c := match c with String d _ => if ascii_digit d then "f_" +:+ c else c | "" => c end in
  str_take 80 c.

Definition numbered (cleaned : string) (index : Z) : string := str_take 80 (cleaned +:+ "_" +:+ pretty index).

(** [while candidate in used]. *)
Fixpoint unused (fuel : nat) (cleaned : string) (used : list string) (candidate : string) (index : Z) : option string :=
  match fuel with
  | O => None
  | S fuel =>
      if bool_decide (candidate ∈ used) then unused fuel cleaned used (numbered cleaned index) (index + 1) else Some candidate
  end.

Definition normalise_field_key (fuel : nat) (name : string) (used : list string) : option (string * list string) :=
  k ← unused fuel (cleaned_key name) used (cleaned_key name) 2; Some (k, k :: used).

Definition separator (c : ascii) : bool := bool_decide (c ∈ ["_"%char; "-"%char; "."%char]).
Definition lower_letter (c : ascii) : bool := is_letter c && bool_decide (lower_char c = c).
Definition upper_letter (c : ascii) : bool := is_letter c && bool_decide (upper_char c = c).

(** [re.sub(r"(?<=[a-z])(?=[A-Z])", " ", s)]. *)
Fixpoint split_camel (before : option ascii) (s : string) : string :=
  match s with
  | "" => ""
  | String c t =>
      (if match before with Some b => lower_letter b | None => false end && upper_letter c then " " else "")
      +:+ String c (split_camel (Some c) t)
  end.

Definition capitalize (s : string) : string :=
  match s with "" => "" | String c t => String (upper_char c) (str_lower t) end.

Definition humanise_label (name : string) : string :=
  let spaced := split_camel None (strip (squash separator " " name)) in
  let label := capitalize (strip (squash is_space " " spaced)) in
  if bool_decide (label = "") then name else label.

Definition native_types : list (string * string) :=
  [("/Btn", value FormFieldType.CHECKBOX); ("/Ch", value FormFieldType.CHOICE); ("/Sig", value FormFieldType.SIGNATURE);
   ("/Tx", value FormFieldType.TEXT)].

Definition classify_field_type (name : string) (native_type : option string) : string :=
  let lowered := str_lower name in
  if any_hint _SIGNATURE_HINTS lowered then value FormFieldType.SIGNATURE
  else if any_hint _INITIALS_HINTS lowered then value FormFieldType.INITIALS
  else if any_hint _ATTESTATION_HINTS lowered then value FormFieldType.ATTESTATION
  else
    match native_type ≫= fun t => dget t native_types with
    | Some t => t
    | None =>
        value (if is_infix "date" lowered then FormFieldType.DATE
               else if any_hint ["amount"; "fee"; "total"; "$"] lowered then FormFieldType.CURRENCY
               else if any_hint ["count"; "number of"; "quantity"] lowered then FormFieldType.NUMBER
               else FormFieldType.TEXT)
    end.

Definition infer_sensitivity (name label : string) : string :=
  let haystack := squash separator " " (str_lower (name +:+ " " +:+ label)) in
  value (if any_hint _HIGHLY_RESTRICTED_HINTS haystack then Sensitivity.HIGHLY_RESTRICTED
         else if any_hint _SENSITIVE_HINTS haystack then Sensitivity.RESTRICTED
         else if any_hint ["officer"; "owner"; "control person"; "address"] haystack then Sensitivity.CONFIDENTIAL
         else Sensitivity.INTERNAL).

Example names :
  (cleaned_key "1. Applicant's Name ", humanise_label "applicantName_full", classify_field_type "eSign box" None,
   infer_sensitivity "tax-id" "", infer_sensitivity "company_name" "") =
  ("f_1_applicant_s_name", "Applicant name full", "SIGNATURE", "HIGHLY_RESTRICTED", "INTERNAL").
Proof. vm_compute. reflexivity. Qed.

(** ** Inspection *)

Record DetectedField := {
  de_key : string;
  de_label : string;
  de_type : string;
  de_native : option string;
  de_required : bool;
  de_allowed : option (list json);
  de_page : option Z;
  de_max_length : option Z;
  de_sensitivity : string;
  de_sort_order : Z
}.

Record InspectionResult := {
  ir_status : string;
  ir_format : string;
  ir_fields : list DetectedField;
  ir_pages : option Z;
  ir_worksheet : bool
}.

Definition without_fields (s : FieldDetectionStatus.FieldDetectionStatus) (f : FormFormat.FormFormat) (pages : option Z)
    : InspectionResult :=
  {| ir_status := value s; ir_format := value f; ir_fields := []; ir_pages := pages; ir_worksheet := true |}.

(** What pypdf says of a document: whether the empty password opens it, the native name
    of each widget of a page with that of its parent, and the field dictionary. *)
Record PdfField := { pf_type : json; pf_states : json; pf_opt : json; pf_max_len : json; pf_flags : json }.
Record PdfDocument := {
  pdf_locked : bool;
  pdf_widgets : list (list (option string * option string));
  pdf_fields : list (string * PdfField)
}.

Section Inspect.
Context (py_str : json -> string).
Context (read_pdf : string -> option PdfDocument) (read_docx : string -> option (list string))
  (read_xlsx : string -> option (list (string * string * json))).
Context (fuel : nat).

(** The first page a native name appears on. *)
Definition page_of (d : PdfDocument) (name : string) : option Z :=
  fst <$> head (filter (fun x => x.2 = Some name)
    (concat (imap (fun n ws => ws ≫= fun w => [(Z.of_nat n + 1, w.1); (Z.of_nat n + 1, w.2)]) (pdf_widgets d)))).

(** What a loop over a value goes through; a number raises. *)
Fixpoint characters (s : string) : list json := match s with "" => [] | String c s => JStr (String c "") :: characters s end.
Definition items (v : json) : result exn (list json) :=
  match v with JList l => Ok l | JDict d => Ok (JStr <$> d.*1) | JStr s => Ok (characters s) | _ => Err TypeError end.

(** The options of a field; where reading them raises, the rest is not read either. *)
Definition pdf_options (f : PdfField) : result exn (option (list json)) :=
  let o := if truthy (pf_states f) then pf_states f else pf_opt f in
  if truthy o then l ← items o; Ok (Some (map (fun x => JStr (text_of py_str x)) l)) else Ok None.

Definition pdf_required (f : PdfField) : result exn bool :=
  n ← (if truthy (pf_flags f) then py_int (pf_flags f) else Ok 0); Ok (Z.testbit n 1).

Definition pdf_field (d : PdfDocument) (order : Z) (name : string) (f : PdfField) (used : list string)
    : option (result exn (DetectedField * list string)) :=
  let label := humanise_label name in
  let options := match pdf_options f with Ok o => o | Err _ => None end in
  let max_length := if is_ok (pdf_options f) then pf_max_len f else JNull in
  let required := if is_ok (pdf_options f) then match pdf_required f with Ok b => b | Err _ => false end else false in
  ku ← normalise_field_key fuel name used;
  Some (n ← (if truthy max_length then Some <$> py_int max_length else Ok None);
        Ok ({| de_key := ku.1; de_label := label;
               de_type := classify_field_type name (if truthy (pf_type f) then Some (text_of py_str (pf_type f)) else None);
               de_native := Some name; de_required := required; de_allowed := options; de_page := page_of d name;
               de_max_length := n; de_sensitivity := infer_sensitivity name label; de_sort_order := order * 10 |}, ku.2)).

Fixpoint pdf_all (d : PdfDocument) (order : Z) (l : list (string * PdfField)) (used : list string)
    : option (result exn (list DetectedField)) :=
  match l with
  | [] => Some (Ok [])
  | (name, f) :: l =>
      match pdf_field d order name f used with
      | None => None
      | Some (Err e) => Some (Err e)
      | Some (Ok (x, used)) => r ← pdf_all d (order + 1) l used; Some (xs ← r; Ok (x :: xs))
      end
  end.

Definition inspect_pdf (content : string) : option (result exn InspectionResult) :=
  match read_pdf content with
  | None => Some (Err InspectionError)
  | Some d =>
      if pdf_locked d then Some (Err InspectionError)
      else
        let pages := Some (Z.of_nat (length (pdf_widgets d))) in
        match pdf_fields d with
        | [] => Some (Ok (without_fields FieldDetectionStatus.NO_FIELDS_FOUND FormFormat.FLAT_PDF pages))
        | l =>
            r ← pdf_all d 1 l [];
            Some (fs ← r; Ok {| ir_status := value FieldDetectionStatus.INSPECTED; ir_format := value FormFormat.PDF_ACROFORM;
                                ir_fields := fs; ir_pages := pages; ir_worksheet := false |})
        end
  end.

(** The field of a placeholder. *)
Definition token_field (order : Z) (tok native : string) (used : list string) : option (DetectedField * list string) :=
  let label := humanise_label tok in
  ku ← normalise_field_key fuel tok used;
  Some ({| de_key := ku.1; de_label := label; de_type := classify_field_type tok None; de_native := Some native;
           de_required := false; de_allowed := None; de_page := None; de_max_length := None;
           de_sensitivity := infer_sensitivity tok label; de_sort_order := order * 10 |}, ku.2).

Fixpoint token_fields (order : Z) (l : list (string * string)) (used : list string) : option (list DetectedField) :=
  match l with
  | [] => Some []
  | (tok, native) :: l => x ← token_field order tok native used; cons x.1 <$> token_fields (order + 1) l x.2
  end.

Definition inspect_docx (content : string) : option (result exn InspectionResult) :=
  match read_docx content with
  | None => Some (Err InspectionError)
  | Some texts =>
      let toks := distinct (texts ≫= tokens) in
      fs ← token_fields 1 ((fun t => (t, t)) <$> toks) [];
      Some (Ok match fs with
               | [] => without_fields FieldDetectionStatus.MANUAL_MAPPING_REQUIRED FormFormat.DOCX None
               | _ => {| ir_status := value FieldDetectionStatus.INSPECTED; ir_format := value FormFormat.DOCX; ir_fields := fs;
                         ir_pages := None; ir_worksheet := false |}
               end)
  end.

(** The text cells of the sheets, as sheet, coordinate and value. *)
Definition inspect_xlsx (content : string) : option (result exn InspectionResult) :=
  match read_xlsx content with
  | None => Some (Err InspectionError)
  | Some cells =>
      let found := cells ≫= fun '(sheet, at_, v) =>
        match v with JStr s => (fun t => (t, sheet +:+ "!" +:+ at_)) <$> tokens s | _ => [] end in
      fs ← token_fields 1 found [];
      Some (Ok {| ir_status := value (match fs with [] => FieldDetectionStatus.MANUAL_MAPPING_REQUIRED
                                                   | _ => FieldDetectionStatus.INSPECTED end);
                  ir_format := value FormFormat.XLSX; ir_fields := fs; ir_pages := None;
                  ir_worksheet := bool_decide (fs = []) |})
  end.

Definition ends_with (suffix s : string) : bool := is_prefix (String.rev suffix) (String.rev s).

Definition effective_format (filename : string) (declared : option string) : option string :=
  let any l := existsb (fun e => ends_with e filename) l in
  if bool_decide (declared = None) || bool_decide (declared = Some (value FormFormat.UNKNOWN)) then
    if any [".pdf"] then Some (value FormFormat.PDF_ACROFORM)
    else if any [".docx"; ".dotx"] then Some (value FormFormat.DOCX)
    else if any [".xlsx"; ".xltx"] then Some (value FormFormat.XLSX)
    else declared
  else declared.

Definition inspect_template (content filename : string) (declared : option string) : option (result exn InspectionResult) :=
  let lowered := str_lower filename in
  if existsb (fun e => ends_with e lowered) [".docm"; ".dotm"; ".xlsm"; ".xltm"] then Some (Err InspectionError)
  else
    match effective_format lowered declared ≫= of_value with
    | Some FormFormat.PDF_ACROFORM | Some FormFormat.FLAT_PDF => inspect_pdf content
    | Some FormFormat.DOCX => inspect_docx content
    | Some FormFormat.XLSX => inspect_xlsx content
    | Some FormFormat.WEB_WORKSHEET =>
        Some (Ok (without_fields FieldDetectionStatus.MANUAL_MAPPING_REQUIRED FormFormat.WEB_WORKSHEET None))
    | _ => Some (Err InspectionError)
    end.
End Inspect.

(** ** The search for an unused key *)

(** The candidates the loop goes through. *)
Definition candidate (cleaned : string) (n : nat) : string :=
  match n with O => cleaned | S n => numbered cleaned (Z.of_nat n + 2) end.

Lemma unused_candidates fuel cleaned used n :
  match unused fuel cleaned used (candidate cleaned n) (Z.of_nat n + 2) with
  | Some k => k ∉ used /\ exists i, (n <= i)%nat /\ k = candidate cleaned i
  | None => forall i, (i < fuel)%nat -> candidate cleaned (n + i) ∈ used
  end.
Proof.
  revert n. induction fuel as [|fuel IH]; intros n; cbn [unused]; [intros i Hi; lia|].
  case_bool_decide as E; [|split; [done | by exists n]].
  specialize (IH (S n)). change (candidate cleaned (S n)) with (numbered cleaned (Z.of_nat n + 2)) in IH.
  replace (Z.of_nat (S n) + 2) with (Z.of_nat n + 2 + 1) in IH by lia.
  destruct (unused _ _ _ _ _) as [k|].
  - destruct IH as (Hk & i & Hi & ->). split; [done|]. exists i. split; [lia | done].
  - intros [|i] Hi; [by rewrite Nat.add_0_r|]. replace (n + S i)%nat with (S n + i)%nat by lia. apply IH. lia.
Qed.

Lemma pretty_N_go_length k n s : (n < 10 ^ N.of_nat k)%N -> (String.length (pretty.pretty_N_go n s) <= k + String.length s)%nat.
Proof.
  revert n s. induction k as [|k IH]; intros n s Hn.
  - assert (n = 0%N) as -> by (cbn in Hn; lia). rewrite pretty.pretty_N_go_0. lia.
  - destruct (N.eq_dec n 0%N) as [->|Hz]; [rewrite pretty.pretty_N_go_0; lia|].
    rewrite pretty.pretty_N_go_step by lia. etransitivity; [apply IH|cbn [String.length]; lia].
    apply N.Div0.div_lt_upper_bound. by rewrite Nat2N.inj_succ, N.pow_succ_r' in Hn.
Qed.

Lemma pretty_length k n : 0 < n < 10 ^ Z.of_nat k -> (String.length (pretty n) <= k)%nat.
Proof.
  intros [H0 Hk]. destruct n as [|p|]; [lia| |lia].
  change (pretty (Z.pos p)) with (pretty (N.pos p)). unfold pretty, pretty.pretty_N. rewrite decide_False by done.
  etransitivity; [apply (pretty_N_go_length k)|cbn; lia]. apply N2Z.inj_lt. by rewrite N2Z.inj_pow, nat_N_Z.
Qed.

Lemma str_append_inj (a b c : string) : a +:+ b = a +:+ c -> b = c.
Proof. induction a as [|x a IH]; [done|]. intros [= H]. auto. Qed.

Lemma numbered_short cleaned k n :
  (String.length cleaned + 1 + k <= 80)%nat -> 0 < n < 10 ^ Z.of_nat k -> numbered cleaned n = cleaned +:+ "_" +:+ pretty n.
Proof.
  intros Hl Hn. unfold numbered. apply str_take_id. rewrite !length_app_str. pose proof (pretty_length k n Hn). cbn. lia.
Qed.

Lemma candidates_distinct cleaned k m :
  (String.length cleaned + 1 + k <= 80)%nat -> Z.of_nat m < 10 ^ Z.of_nat k -> NoDup (candidate cleaned <$> seq 0 m).
Proof.
  intros Hl Hm. apply NoDup_fmap_2_strong; [|apply NoDup_seq].
  intros i j Hi%elem_of_seq Hj%elem_of_seq E.
  assert (forall n, (n < m)%nat -> candidate cleaned n =
    match n with O => cleaned | S p => cleaned +:+ "_" +:+ pretty (Z.of_nat p + 2) end) as Hc.
  { intros [|p] Hp; [done|]. cbn [candidate]. rewrite (numbered_short cleaned k) by lia. done. }
  rewrite !Hc in E by lia. destruct i as [|i], j as [|j]; [done| | |].
  - apply (f_equal String.length) in E. rewrite !length_app_str in E. cbn in E. lia.
  - apply (f_equal String.length) in E. rewrite !length_app_str in E. cbn in E. lia.
  - apply str_append_inj, (str_append_inj "_"), (inj pretty) in E. lia.
Qed.

Lemma str_take_app n a b : String.length a = n -> str_take n (a +:+ b) = a.
Proof.
  revert n. induction a as [|c a IH]; intros n <-; [by destruct b|].
  change (String c (str_take (String.length a) (a +:+ b)) = String c a). by rewrite IH.
Qed.

Lemma candidate_full cleaned n : String.length cleaned = 80%nat -> candidate cleaned n = cleaned.
Proof. intros H. destruct n as [|n]; [done|]. by apply str_take_app. Qed.

Lemma candidate_length name n : (String.length (candidate (cleaned_key name) n) <= 80)%nat.
Proof. destruct n as [|n]; apply str_take_length. Qed.

(** C39. The search for a key that is not in use ends, with a new key of at most 80
    characters, where the cleaned name leaves room for the number of a key; but a cleaned
    name of 80 characters leaves none, and if it is in use the loop never ends. *)
Theorem normalise_field_key_ends name used :
  (forall k, (String.length (cleaned_key name) + 1 + k <= 80)%nat -> Z.of_nat (length used) + 1 < 10 ^ Z.of_nat k ->
     exists key, normalise_field_key (S (length used)) name used = Some (key, key :: used) /\
       key ∉ used /\ (String.length key <= 80)%nat) /\
  (String.length (cleaned_key name) = 80%nat -> cleaned_key name ∈ used ->
     forall fuel, normalise_field_key fuel name used = None).
Proof.
  unfold normalise_field_key. split.
  - intros k Hl Hn. pose proof (unused_candidates (S (length used)) (cleaned_key name) used 0) as H.
    change (candidate (cleaned_key name) 0) with (cleaned_key name) in H. change (Z.of_nat 0 + 2) with 2 in H.
    destruct (unused _ _ _ _ _) as [key|].
    + destruct H as (Hk & i & _ & ->). exists (candidate (cleaned_key name) i).
      split; [done|]. split; [done | apply candidate_length].
    + exfalso. assert (length (candidate (cleaned_key name) <$> seq 0 (S (length used))) <= length used)%nat as Hle.
      { apply submseteq_length, NoDup_submseteq; [apply (candidates_distinct _ k); lia|].
        intros x (i & -> & Hi%elem_of_seq)%list_elem_of_fmap. apply (H i). lia. }
      rewrite length_fmap, length_seq in Hle. lia.
  - intros Hl Hin fuel. pose proof (unused_candidates fuel (cleaned_key name) used 0) as H.
    change (candidate (cleaned_key name) 0) with (cleaned_key name) in H. change (Z.of_nat 0 + 2) with 2 in H.
    destruct (unused _ _ _ _ _) as [key|]; [|done]. destruct H as (Hk & i & _ & ->). by rewrite candidate_full in Hk.
Qed.

Lemma normalise_field_key_ends_witness :
  (exists key, normalise_field_key 2 "Name" ["name"] = Some (key, [key; "name"]) /\ key ∉ ["name"] /\ (String.length key <= 80)%nat) /\
  forall fuel, normalise_field_key fuel (Crypto.str_repeat 90 "x") [Crypto.str_repeat 80 "x"] = None.
Proof.
  split.
  - exact (proj1 (normalise_field_key_ends "Name" ["name"]) 1%nat ltac:(vm_compute; lia) ltac:(vm_compute; reflexivity)).
  - refine (proj2 (normalise_field_key_ends _ _) _ _); [vm_compute; reflexivity|]. apply (bool_decide_unpack _). vm_compute. exact I.
Defined.

Lemma normalise_first fuel name : normalise_field_key (S fuel) name [] = Some (cleaned_key name, [cleaned_key name]).
Proof. unfold normalise_field_key. cbn [unused]. by rewrite bool_decide_eq_false_2 by apply not_elem_of_nil. Qed.

(** Two names with one cleaned key of 80 characters hang the inspection of a DOCX file. *)
Lemma long_placeholders_hang read_docx content fuel a b texts :
  read_docx content = Some texts -> distinct (texts ≫= tokens) = [a; b] ->
  cleaned_key a = cleaned_key b -> String.length (cleaned_key b) = 80%nat ->
  inspect_docx read_docx fuel content = None.
Proof.
  intros Hr Ht E Hl. unfold inspect_docx. rewrite Hr, Ht. cbn [fmap list_fmap token_fields]. unfold token_field.
  destruct fuel as [|fuel]; [done|]. rewrite normalise_first. cbn [mbind option_bind fst snd]. rewrite E. unfold normalise_field_key.
  pose proof (unused_candidates (S fuel) (cleaned_key b) [cleaned_key b] 0) as H.
  change (candidate ?c 0) with c in H. change (Z.of_nat 0 + 2) with 2 in H.
  destruct (unused _ _ _ _ _) as [key|]; [|done]. destruct H as (Hk & i & _ & ->). exfalso. apply Hk.
  rewrite candidate_full by done. by apply list_elem_of_singleton.
Qed.

Example long_placeholders : let x := Crypto.str_repeat 80 "x" in let y := Crypto.str_repeat 80 "X" in
  distinct (tokens ("{{" +:+ x +:+ "}} {{" +:+ y +:+ "}}")) = [x; y] /\ cleaned_key x = cleaned_key y.
Proof. vm_compute. done. Qed.
