(* ===== verification/FormFilling.v ===== *)
(** * Filling a template ([app/forms/filling.py])

    Which values are written into a copy of the template, the hash of the field set, and
    the check of a signed copy.  The PDF and DOCX libraries are arguments: the names of a
    PDF's fields and the copy with some of them written, and the texts of a document's
    runs and the copy with other texts.  The notes of a result are left out. *)
From Stdlib Require Import Ascii.
From S2P Require Import Prelude Vocabulary Terms PyJson CanonJson FormFields FormInspection.
Open Scope Z_scope.

Record FieldValue := {
  fv_key : string;
  fv_native : option string;
  fv_type : string;
  fv_value : option string;
  fv_human : bool
}.

(** A value that counts: neither missing nor empty. *)
Definition filled_text (v : option string) : option string := if truthy_str v then v else None.

Section Hash.
Context (sha256 : string -> string).

Definition snapshot_item (v : FieldValue) : canon :=
  CDict [("field_key", CStr (fv_key v)); ("human_execution_required", CBool (fv_human v));
         ("value_sha256", match filled_text (fv_value v) with Some t => CStr (sha256 t) | None => CNull end)].

Definition field_key_leb (a b : FieldValue) : bool := str_leb (fv_key a) (fv_key b).

Definition field_snapshot_hash (l : list FieldValue) : string :=
  canonical_sha256 sha256 (CList (snapshot_item <$> py_sorted field_key_leb l)).
End Hash.

Definition is_human (v : FieldValue) : bool := fv_human v || human_execution (fv_type v).

(** The values to write, and the fields left to a person. *)
Definition _partition (l : list FieldValue) : list FieldValue * list FieldValue :=
  (filter (fun v => negb (is_human v) && truthy_str (fv_value v) = true) l, filter (fun v => is_human v = true) l).

Record FillResult := {
  fr_content : string;
  fr_sha256 : string;
  fr_snapshot : string;
  fr_filled : list string;
  fr_skipped : list string;
  fr_unmatched : list string;
  fr_flattened : bool
}.

Section Fill.
Context (sha256 : string -> string).
Context (pdf_names : string -> option (list string)) (pdf_write : string -> list (string * string) -> bool -> result exn string).
Context (docx_runs : string -> option (list (list string))) (docx_write : string -> list (list string) -> string).

(** *** PDF *)

Definition pdf_text (v : FieldValue) : string :=
  let t := default "" (fv_value v) in
  if bool_decide (fv_type v = value FormFieldType.CHECKBOX)
  then if bool_decide (str_lower (strip t) ∈ ["true"; "yes"; "y"; "1"; "x"]) then "/Yes" else "/Off"
  else t.

Definition native_in (available : list string) (v : FieldValue) : option string :=
  match fv_native v with
  | Some n => if negb (bool_decide (n = "")) && bool_decide (n ∈ available) then Some n else None
  | None => None
  end.

Definition fill_pdf_acroform (template : string) (l : list FieldValue) (flatten allow_flatten : bool) : result exn FillResult :=
  _ ← raise_unless (negb (flatten && negb allow_flatten)) FillingError;
  match pdf_names template with
  | None => Err FillingError
  | Some available =>
      let '(writable, human) := _partition l in
      let matched := filter (fun v => is_Some (native_in available v)) writable in
      content ← pdf_write template (omap (fun v => (fun n => (n, pdf_text v)) <$> native_in available v) writable) flatten;
      Ok {| fr_content := content; fr_sha256 := sha256 content; fr_snapshot := field_snapshot_hash sha256 l;
            fr_filled := fv_key <$> matched; fr_skipped := fv_key <$> human;
            fr_unmatched := fv_key <$> filter (fun v => native_in available v = None) writable; fr_flattened := flatten |}
  end.

(** *** DOCX *)

(** [item.native_field_name or item.field_key]. *)
Definition token_of (v : FieldValue) : string := if truthy_str (fv_native v) then default "" (fv_native v) else fv_key v.

Definition setdefault (m : gmap string string) (k v : string) : gmap string string := match m !! k with Some _ => m | None => <[k := v]> m end.

Definition replacements (writable human : list FieldValue) : gmap string string :=
  foldl (fun m v => setdefault m (token_of v) "")
    (foldl (fun m v => <[token_of v := default "" (fv_value v)]> m) ∅ writable) human.

Definition key_by_token (l : list FieldValue) : gmap string string := foldl (fun m v => <[token_of v := fv_key v]> m) ∅ l.

Definition substitute (r : gmap string string) (text : string) : string :=
  sub_tokens (String.length text) (fun tok whole => default whole (r !! tok)) text.

(** The tokens of a text that a substitution replaces. *)
Definition replaced (r : gmap string string) (text : string) : list string := filter (fun tok => is_Some (r !! tok)) (tokens text).

Definition has_braces (s : string) : bool := is_infix "{{" s.

(** Run by run first, then the paragraph as a whole where a token is split across runs;
    with the tokens that were replaced. *)
Definition process_paragraph (r : gmap string string) (runs : list string) : list string * list string :=
  let runs1 := (fun t => if has_braces t then substitute r t else t) <$> runs in
  let hits1 := filter (fun t => has_braces t = true) runs ≫= replaced r in
  let text := String.concat "" runs1 in
  if has_braces text then
    let merged := substitute r text in
    (if bool_decide (merged = text) then runs1
     else match runs1 with [] => [] | _ :: rest => merged :: ((fun _ => "") <$> rest) end,
     hits1 ++ match runs1 with [] => [] | _ => replaced r text end)
  else (runs1, hits1).

Definition fill_docx (template : string) (l : list FieldValue) : result exn FillResult :=
  match docx_runs template with
  | None => Err FillingError
  | Some paragraphs =>
      let '(writable, human) := _partition l in
      let r := replacements writable human in
      let done := process_paragraph r <$> paragraphs in
      let filled := omap (fun tok => key_by_token l !! tok) (done.*2 ≫= id) in
      let content := docx_write template done.*1 in
      Ok {| fr_content := content; fr_sha256 := sha256 content; fr_snapshot := field_snapshot_hash sha256 l;
            fr_filled := py_sorted str_leb (remove_dups filled); fr_skipped := fv_key <$> human;
            fr_unmatched := fv_key <$> filter (fun v => fv_key v ∉ filled) writable; fr_flattened := false |}
  end.

Definition fill_template (template : string) (l : list FieldValue) (form_format : string) (flatten allow_flatten : bool)
    : result exn FillResult :=
  match of_value form_format with
  | Some FormFormat.PDF_ACROFORM => fill_pdf_acroform template l flatten allow_flatten
  | Some FormFormat.DOCX => fill_docx template l
  | _ => Err FillingError
  end.
End Fill.

Definition verify_signed_document (approved : option string) (signed : string) (pages : option Z) : bool :=
  truthy_str approved && negb (bool_decide (approved = Some signed)) &&
  match pages with Some n => negb (n <=? 0) | None => true end.

(** ** What a draft depends on *)

(** Values that differ, if at all, in what is recorded for fields left to a person. *)
Record same_but_human (v w : FieldValue) : Prop := {
  sb_key : fv_key v = fv_key w;
  sb_native : fv_native v = fv_native w;
  sb_type : fv_type v = fv_type w;
  sb_flag : fv_human v = fv_human w;
  sb_value : is_human v = false -> fv_value v = fv_value w
}.

Lemma same_is_human v w : same_but_human v w -> is_human v = is_human w.
Proof. intros [_ _ Ht Hf _]. unfold is_human. by rewrite Ht, Hf. Qed.

Lemma same_token v w : same_but_human v w -> token_of v = token_of w.
Proof. intros [Hk Hn _ _ _]. unfold token_of. by rewrite Hk, Hn. Qed.

Lemma same_eq v w : same_but_human v w -> is_human v = false -> v = w.
Proof. intros [H1 H2 H3 H4 H5] Hv. specialize (H5 Hv). destruct v, w; cbn in *; congruence. Qed.

Lemma partition_same l l' :
  Forall2 same_but_human l l' ->
  (_partition l).1 = (_partition l').1 /\ Forall2 same_but_human (_partition l).2 (_partition l').2.
Proof.
  unfold _partition. cbn [fst snd]. induction 1 as [|v w l l' Hv Hl IH]; [split; [done | constructor]|].
  destruct IH as [IH1 IH2]. rewrite !filter_cons. pose proof (same_is_human v w Hv) as E. split.
  - destruct (is_human v) eqn:Ev.
    + rewrite <-E. cbn [negb andb]. by rewrite !decide_False by done.
    + rewrite <-(same_eq v w Hv Ev), Ev. destruct (decide _); [by f_equal | done].
  - rewrite <-E. destruct (decide _); [by constructor | done].
Qed.

Lemma foldl_same {A B} (R : A -> A -> Prop) (f : B -> A -> B) l l' b :
  (forall b x y, R x y -> f b x = f b y) -> Forall2 R l l' -> foldl f b l = foldl f b l'.
Proof. intros Hf Hl. revert b. induction Hl as [|x y l l' Hx Hl IH]; intros b; [done|]. cbn. by rewrite (Hf b x y Hx). Qed.

Lemma fmap_same {A B} (R : A -> A -> Prop) (f : A -> B) l l' : (forall x y, R x y -> f x = f y) -> Forall2 R l l' -> f <$> l = f <$> l'.
Proof. intros Hf. induction 1 as [|x y l l' Hx Hl IH]; [done|]. cbn. by rewrite (Hf x y Hx), IH. Qed.

Definition outcome_of (r : FillResult) : string * list string * list string * list string :=
  (fr_content r, fr_filled r, fr_skipped r, fr_unmatched r).

(** C37. A signature, initials or an attestation is never written: whatever values are recorded
    for the fields a person must execute, the draft and the report on it are the same. *)
Theorem human_fields_left_blank sha256 pdf_names pdf_write docx_runs docx_write template l l' form_format flatten allow_flatten :
  Forall2 same_but_human l l' ->
  outcome_of <$> fill_template sha256 pdf_names pdf_write docx_runs docx_write template l form_format flatten allow_flatten =
  outcome_of <$> fill_template sha256 pdf_names pdf_write docx_runs docx_write template l' form_format flatten allow_flatten.
Proof.
  intros Hl. destruct (partition_same l l' Hl) as [Hw Hh]. unfold fill_template.
  destruct (of_value form_format) as [[]|]; try done.
  - unfold fill_pdf_acroform. destruct (raise_unless _ _); [|done]. msimpl. destruct (pdf_names template); [|done].
    destruct (_partition l) as [w h], (_partition l') as [w' h']. cbn [fst snd] in Hw, Hh. subst w'.
    destruct (pdf_write _ _ _); [|done]. cbn. unfold outcome_of. cbn. by rewrite (fmap_same _ fv_key h h' sb_key Hh).
  - unfold fill_docx. destruct (docx_runs template); [|done].
    destruct (_partition l) as [w h], (_partition l') as [w' h']. cbn [fst snd] in Hw, Hh. subst w'.
    assert (replacements w h = replacements w h') as Er.
    { apply (foldl_same same_but_human); [|done]. intros m x y Hx. by rewrite (same_token x y Hx). }
    assert (key_by_token l = key_by_token l') as Ek.
    { apply (foldl_same same_but_human); [|done]. intros m x y Hx. by rewrite (same_token x y Hx), (sb_key x y Hx). }
    cbn. unfold outcome_of. cbn. by rewrite Er, Ek, (fmap_same _ fv_key h h' sb_key Hh).
Qed.

Section Sample.
Let value_of (k t : string) (v : option string) : FieldValue :=
  {| fv_key := k; fv_native := None; fv_type := t; fv_value := v; fv_human := false |}.
Let runs (_ : string) : option (list (list string)) := Some [["Name: {{ na"; "me }}"]; ["Signed: {{sign}} {{other}}"]].
Let write (_ : string) (l : list (list string)) : string := String.concat "|" (String.concat "" <$> l).
Definition sample_values (signature : option string) : list FieldValue :=
  [value_of "name" "TEXT" (Some "Astra"); value_of "sign" "SIGNATURE" signature].
Definition sample_fill (signature : option string) : result exn FillResult :=
  fill_template id (fun _ => None) (fun _ _ _ => Err FillingError) runs write "t" (sample_values signature) "DOCX" false false.

Lemma human_fields_left_blank_witness :
  outcome_of <$> sample_fill (Some "J. Doe") = outcome_of <$> sample_fill None /\
  outcome_of <$> sample_fill None = Ok ("Name: Astra|Signed:  {{other}}", ["name"; "sign"], ["sign"], []).
Proof.
  split; [|vm_compute; reflexivity].
  apply (human_fields_left_blank id (fun _ => None) (fun _ _ _ => Err FillingError) runs write "t"
    (sample_values (Some "J. Doe")) (sample_values None) "DOCX" false false).
  repeat constructor; done.
Defined.
End Sample.

(** ** What a draft writes *)

(** The value of a field nobody has to execute in person is among those to write. *)
Lemma writable_elem v l : v ∈ l -> is_human v = false -> truthy_str (fv_value v) = true -> v ∈ (_partition l).1.
Proof. intros Hl Hh Ht. apply list_elem_of_filter. by rewrite Hh, Ht. Qed.

Lemma writable_in v l : v ∈ (_partition l).1 -> v ∈ l.
Proof. by intros [_ ?]%list_elem_of_filter. Qed.

Lemma setdefaults_kept (h : list FieldValue) m tok t : m !! tok = Some t -> foldl (fun m v => setdefault m (token_of v) "") m h !! tok = Some t.
Proof.
  revert m. induction h as [|x h IH]; intros m Hm; [done|]. cbn. apply IH. unfold setdefault.
  destruct (m !! token_of x) eqn:Ex; [done|]. rewrite lookup_insert_ne; [done|]. intros E. by rewrite E, Hm in Ex.
Qed.

(** The text that replaces a token, where the values written under it agree. *)
Lemma replacements_written w h v :
  v ∈ w -> (forall x, x ∈ w -> token_of x = token_of v -> fv_value x = fv_value v) ->
  replacements w h !! token_of v = Some (default "" (fv_value v)).
Proof.
  intros Hv Hone. apply setdefaults_kept. generalize (∅ : gmap string string).
  induction w as [|x w IH] using rev_ind; intros m; [by apply not_elem_of_nil in Hv|]. rewrite foldl_app. cbn.
  destruct (decide (token_of x = token_of v)) as [E|E].
  - rewrite E, lookup_insert_eq, (Hone x); [done | set_solver | done].
  - rewrite lookup_insert_ne by done. apply IH; [|intros y Hy; apply Hone; set_solver].
    apply elem_of_app in Hv as [Hv|Hv]; [done|]. apply list_elem_of_singleton in Hv. by subst x.
Qed.

(** A value with a field of its own in a PDF is what is written to that field. *)
Lemma pdf_value_written sha256 pdf_names pdf_write content l flatten allow res v n available :
  fill_pdf_acroform sha256 pdf_names pdf_write content l flatten allow = Ok res -> pdf_names content = Some available ->
  v ∈ l -> is_human v = false -> truthy_str (fv_value v) = true -> native_in available v = Some n ->
  (forall x, x ∈ l -> fv_native x = Some n -> x = v) ->
  fv_key v ∈ fr_filled res /\
  exists writes, pdf_write content writes flatten = Ok (fr_content res) /\ forall t, (n, t) ∈ writes <-> t = pdf_text v.
Proof.
  intros H Ha Hl Hh Ht Hn Hone. unfold fill_pdf_acroform in H. apply bind_Ok_inv in H as (u & _ & H). rewrite Ha in H.
  pose proof (writable_elem v l Hl Hh Ht) as Hw. pose proof (fun x => writable_in x l) as Hin.
  destruct (_partition l) as [w h]. cbn [fst] in Hw, Hin. apply bind_Ok_inv in H as (c & Hc & H). injection H as <-. cbn [fr_filled fr_content].
  split.
  - apply list_elem_of_fmap. exists v. split; [done|]. apply list_elem_of_filter. split; [by rewrite Hn | done].
  - eexists. split; [exact Hc|]. intros t. rewrite list_elem_of_omap. split.
    + intros (x & Hx & Ex). destruct (native_in available x) as [m|] eqn:Em; [|done]. injection Ex as -> <-.
      rewrite (Hone x); [done | by apply Hin|]. unfold native_in in Em. destruct (fv_native x); [|done].
      destruct (negb _ && _); [|done]. by injection Em as ->.
    + intros ->. exists v. by rewrite Hn.
Qed.

(** A value with a token of its own in a document is what the token is replaced with. *)
Lemma docx_value_written sha256 docx_runs docx_write content l res v :
  fill_docx sha256 docx_runs docx_write content l = Ok res -> v ∈ l -> is_human v = false -> truthy_str (fv_value v) = true ->
  (forall x, x ∈ l -> token_of x = token_of v -> x = v) ->
  exists paragraphs r, docx_runs content = Some paragraphs /\ r !! token_of v = fv_value v /\
    fr_content res = docx_write content ((fun p => (process_paragraph r p).1) <$> paragraphs).
Proof.
  intros H Hl Hh Ht Hone. unfold fill_docx in H. destruct (docx_runs content) as [ps|]; [|done].
  pose proof (writable_elem v l Hl Hh Ht) as Hw. pose proof (fun x => writable_in x l) as Hin.
  destruct (_partition l) as [w h]. cbn [fst] in Hw, Hin. injection H as <-. exists ps, (replacements w h). split; [done|]. split.
  - rewrite (replacements_written w h v Hw); [by destruct (fv_value v)|]. intros x Hx E. by rewrite (Hone x (Hin x Hx) E).
  - cbn. by rewrite <-list_fmap_compose.
Qed.

(** A value that itself spells a token is replaced again when its paragraph is gone through
    as a whole: the name of the company becomes the text of another field. *)
Example typed_token_expanded :
  let v k t := {| fv_key := k; fv_native := None; fv_type := "TEXT"; fv_value := Some t; fv_human := false |} in
  fr_content <$> fill_docx id (fun _ => Some [["Name: {{name}}"]]) (fun _ l => String.concat "|" (String.concat "" <$> l)) "t"
    [v "name" "{{tax_id}}"; v "tax_id" "12-3456789"] = Ok "Name: 12-3456789".
Proof. vm_compute. reflexivity. Qed.

(** What the hash of a field set is of: keys, who executes them, and the texts. *)
Definition hashed (v : FieldValue) : string * bool * option string := (fv_key v, fv_human v, filled_text (fv_value v)).

Lemma snapshot_items_inj sha256 (l l' : list FieldValue) :
  snapshot_item sha256 <$> l = snapshot_item sha256 <$> l' -> hashed <$> l = hashed <$> l' \/ collision sha256.
Proof.
  revert l'. induction l as [|v l IH]; intros [|w l'] E; try done; [by left|].
  cbn in E. injection E as Ek Eh Ev El. destruct (IH l' El) as [IH'|]; [|by right].
  assert (filled_text (fv_value v) = filled_text (fv_value w) \/ collision sha256) as [Et|]; [|left|by right].
  - destruct (filled_text (fv_value v)) as [a|], (filled_text (fv_value w)) as [b|]; try done; [|by left].
    injection Ev as Ev. destruct (decide (a = b)) as [->|Hab]; [by left | right; by exists a, b].
  - cbn. unfold hashed at 1 3. by rewrite Ek, Eh, Et, IH'.
Qed.

(** Two field sets with one hash hold, in the order of their keys, the same keys, texts and
    marks of personal execution, or SHA-256 collides. *)
Theorem field_snapshot_binds sha256 l l' :
  field_snapshot_hash sha256 l = field_snapshot_hash sha256 l' ->
  hashed <$> py_sorted field_key_leb l = hashed <$> py_sorted field_key_leb l' \/ collision sha256.
Proof.
  intros [E|?]%canonical_inj; [|by right]. injection E as E. by apply snapshot_items_inj in E as [E|E]; [left | right].
Qed.

Lemma field_snapshot_binds_witness :
  field_snapshot_hash id (sample_values None) = field_snapshot_hash id (rev (sample_values None)) /\
  (hashed <$> py_sorted field_key_leb (sample_values None) = hashed <$> py_sorted field_key_leb (rev (sample_values None)) \/ collision id).
Proof.
  assert (field_snapshot_hash id (sample_values None) = field_snapshot_hash id (rev (sample_values None))) as E by (vm_compute; reflexivity).
  split; [exact E | exact (field_snapshot_binds id _ _ E)].
Defined.
