(* ===== verification/FormService.v ===== *)
(** * Preparation of forms ([app/services/form_preparation_service.py])

    Templates with their fields and mappings, the instances prepared for a case, the
    values of their fields, and the approval, signature and submission that are recorded
    of them; with the worker's part of drafting ([app/workers/licensing_jobs.py]).  The
    registry of information is that of [InfoRegistry]; documents, cases, entities and
    licences are rows other services keep, with the attributes [getattr] finds.  New rows
    take the next identifier of [uuid4], encryptions the next [nonce].

    The session does not flush on its own: a query sees the rows as they are stored, and
    an object what was set on it.  Reasons and instructions for people are left out. *)
From Stdlib Require Import Ascii SpecFloat.
From stdpp Require Import pretty.
From S2P Require Import InfoRegistry.
From S2P Require Import Prelude Vocabulary Terms PyDate PyJson Crypto Roles LicensingLog InfoRules FormFields FormInspection FormFilling.
Open Scope Z_scope.

(** ** Tables *)

Record FormTemplate := {
  ft_id : uuid;
  ft_key : string;
  ft_family : string;
  ft_version : Z;
  ft_document : uuid;
  ft_format : string;
  ft_detection : string;
  ft_status : string;
  ft_from : option date;
  ft_to : option date;
  ft_field_count : option Z;
  ft_sha256 : option string;
  ft_reviewed_by : option string;
  ft_reviewed_at : option instant
}.
Instance eta_template : Eta FormTemplate := fun t =>
  {| ft_id := ft_id t; ft_key := ft_key t; ft_family := ft_family t; ft_version := ft_version t; ft_document := ft_document t;
     ft_format := ft_format t; ft_detection := ft_detection t; ft_status := ft_status t; ft_from := ft_from t; ft_to := ft_to t;
     ft_field_count := ft_field_count t; ft_sha256 := ft_sha256 t; ft_reviewed_by := ft_reviewed_by t;
     ft_reviewed_at := ft_reviewed_at t |}.

Record FormTemplateField := {
  tf_id : uuid;
  tf_template : uuid;
  tf_key : string;
  tf_native : option string;
  tf_label : string;
  tf_type : string;
  tf_required : bool;
  tf_allowed : option (list json);
  tf_page : option Z;
  tf_sensitivity : string;
  tf_max_length : option Z;
  tf_sort_order : Z
}.
Instance eta_field : Eta FormTemplateField := fun f =>
  {| tf_id := tf_id f; tf_template := tf_template f; tf_key := tf_key f; tf_native := tf_native f; tf_label := tf_label f;
     tf_type := tf_type f; tf_required := tf_required f; tf_allowed := tf_allowed f; tf_page := tf_page f;
     tf_sensitivity := tf_sensitivity f; tf_max_length := tf_max_length f; tf_sort_order := tf_sort_order f |}.

Record FormFieldMapping := {
  fp_id : uuid;
  fp_field : uuid;
  fp_source_type : string;
  fp_source_key : option string;
  fp_transformation : option string;
  fp_status : string;
  fp_requires_review : bool;
  fp_default : option string;
  fp_approved_by : option string;
  fp_approved_at : option instant
}.
Instance eta_mapping : Eta FormFieldMapping := fun m =>
  {| fp_id := fp_id m; fp_field := fp_field m; fp_source_type := fp_source_type m; fp_source_key := fp_source_key m;
     fp_transformation := fp_transformation m; fp_status := fp_status m; fp_requires_review := fp_requires_review m;
     fp_default := fp_default m; fp_approved_by := fp_approved_by m; fp_approved_at := fp_approved_at m |}.

Record Missing := { mi_key : string; mi_label : string }.

Record FormInstance := {
  fi_id : uuid;
  fi_key : string;
  fi_case : uuid;
  fi_template : uuid;
  fi_version : Z;
  fi_status : string;
  fi_generated : option uuid;
  fi_worksheet : option uuid;
  fi_snapshot_sha256 : option string;
  fi_approved_sha256 : option string;
  fi_missing : list Missing;
  fi_validations : list (string * string);
  fi_prepared_by : option string;
  fi_reviewed_by : option string;
  fi_reviewed_at : option instant;
  fi_signature_required : bool;
  fi_signature_status : string;
  fi_signatory : option string;
  fi_signatory_title : option string;
  fi_signed : option uuid;
  fi_signed_by : option string;
  fi_signed_at : option instant;
  fi_submission : option string;
  fi_submission_by : option string;
  fi_submission_at : option instant;
  fi_size : option Z
}.
Instance eta_instance : Eta FormInstance := fun i =>
  {| fi_id := fi_id i; fi_key := fi_key i; fi_case := fi_case i; fi_template := fi_template i; fi_version := fi_version i;
     fi_status := fi_status i; fi_generated := fi_generated i; fi_worksheet := fi_worksheet i;
     fi_snapshot_sha256 := fi_snapshot_sha256 i; fi_approved_sha256 := fi_approved_sha256 i; fi_missing := fi_missing i;
     fi_validations := fi_validations i; fi_prepared_by := fi_prepared_by i; fi_reviewed_by := fi_reviewed_by i;
     fi_reviewed_at := fi_reviewed_at i; fi_signature_required := fi_signature_required i;
     fi_signature_status := fi_signature_status i; fi_signatory := fi_signatory i; fi_signatory_title := fi_signatory_title i;
     fi_signed := fi_signed i; fi_signed_by := fi_signed_by i; fi_signed_at := fi_signed_at i; fi_submission := fi_submission i;
     fi_submission_by := fi_submission_by i; fi_submission_at := fi_submission_at i; fi_size := fi_size i |}.

Record FormFieldValue := {
  vl_id : uuid;
  vl_instance : uuid;
  vl_field : uuid;
  vl_encrypted : option string;
  vl_plain : option string;
  vl_display : option string;
  vl_source_type : string;
  vl_record : option uuid;
  vl_version : option Z;
  vl_status : string;
  vl_reviewed_by : option string;
  vl_reviewed_at : option instant
}.
Instance eta_row : Eta FormFieldValue := fun r =>
  {| vl_id := vl_id r; vl_instance := vl_instance r; vl_field := vl_field r; vl_encrypted := vl_encrypted r;
     vl_plain := vl_plain r; vl_display := vl_display r; vl_source_type := vl_source_type r; vl_record := vl_record r;
     vl_version := vl_version r; vl_status := vl_status r; vl_reviewed_by := vl_reviewed_by r; vl_reviewed_at := vl_reviewed_at r |}.

(** Rows of other services. *)
Record CaseSource := {
  cz_id : uuid;
  cz_key : string;
  cz_entity : uuid;
  cz_license : option uuid;
  cz_vendor : option uuid;
  cz_owner : option string;
  cz_attrs : list (string * raw)
}.
Record EntitySource := { ez_key : string; ez_name : string; ez_attrs : list (string * raw) }.
Record LicenceSource := { lz_jurisdiction : uuid; lz_attrs : list (string * raw) }.
Record GovernedDocument := {
  gd_current : option uuid;
  gd_lifecycle : string;
  gd_approval : string;
  gd_sha256 : string;
  gd_entity : option string
}.
Record GovernedVersion := { gx_storage : string; gx_sha256 : string }.

Record FormDb := {
  templates : gmap uuid FormTemplate;
  template_fields : gmap uuid FormTemplateField;
  field_mappings : gmap uuid FormFieldMapping;
  form_instances : gmap uuid FormInstance;
  field_values : gmap uuid FormFieldValue;
  cases : gmap uuid CaseSource;
  entities : gmap uuid EntitySource;
  licences : gmap uuid LicenceSource;
  documents : gmap uuid GovernedDocument;
  document_versions : gmap uuid GovernedVersion;
  registry : InfoDb;
  next_id : nat
}.
Instance eta_forms : Eta FormDb := fun db =>
  {| templates := templates db; template_fields := template_fields db; field_mappings := field_mappings db;
     form_instances := form_instances db; field_values := field_values db; cases := cases db; entities := entities db;
     licences := licences db; documents := documents db; document_versions := document_versions db; registry := registry db;
     next_id := next_id db |}.

Record FormSettings := {
  form_preparation_enabled : bool;
  form_max_template_bytes : Z;
  form_pdf_filling_enabled : bool;
  form_docx_filling_enabled : bool;
  form_signature_automation_enabled : bool;
  form_flatten_after_approval_enabled : bool
}.

Definition drawn (db : FormDb) : FormDb := db <| next_id := S (next_id db) |>.
Definition put_template (t : FormTemplate) (db : FormDb) : FormDb := db <| templates := <[ft_id t := t]> (templates db) |>.
Definition put_field (f : FormTemplateField) (db : FormDb) : FormDb :=
  db <| template_fields := <[tf_id f := f]> (template_fields db) |>.
Definition put_mapping (m : FormFieldMapping) (db : FormDb) : FormDb :=
  db <| field_mappings := <[fp_id m := m]> (field_mappings db) |>.
Definition put_instance (i : FormInstance) (db : FormDb) : FormDb :=
  db <| form_instances := <[fi_id i := i]> (form_instances db) |>.
Definition put_row (v : FormFieldValue) (db : FormDb) : FormDb := db <| field_values := <[vl_id v := v]> (field_values db) |>.
Definition log_audit (entity i act : string) (who : CurrentActor) (db : FormDb) : FormDb :=
  db <| registry := InfoRegistry.audit entity i act who (registry db) |>.

(** [session.get], or [NotFoundError]. *)
Definition find {A} (t : gmap uuid A) (i : uuid) : result exn A := match t !! i with Some x => Ok x | None => Err NotFoundError end.

Definition current_version (d : GovernedDocument) (db : FormDb) : option GovernedVersion :=
  gd_current d ≫= fun v => document_versions db !! v.

(** An approved, active document whose current version is available. *)
Definition governed (d : option GovernedDocument) (db : FormDb) : option (GovernedDocument * GovernedVersion) :=
  d ← d; v ← current_version d db;
  if bool_decide (gd_lifecycle d = value LifecycleStatus.ACTIVE) && bool_decide (gd_approval d = value ApprovalStatus.APPROVED) &&
     bool_decide (gx_storage v = value StorageStatus.AVAILABLE)
  then Some (d, v) else None.

(** The rows of an instance. *)
Definition rows_of (i : uuid) (db : FormDb) : list FormFieldValue := filter (fun v => vl_instance v = i) (rows (field_values db)).

Definition OUTSTANDING_FIELD_STATUSES : list string := value <$> [FormFieldValueStatus.NEEDS_INFORMATION; FormFieldValueStatus.NEEDS_REVIEW].
Definition outstanding (v : FormFieldValue) : bool := bool_decide (vl_status v ∈ OUTSTANDING_FIELD_STATUSES).
Definition outstanding_rows (i : uuid) (db : FormDb) : list FormFieldValue := filter (fun v => outstanding v = true) (rows_of i db).

Definition FROZEN_INSTANCE_STATUSES : list string :=
  value <$> [FormInstanceStatus.APPROVED_FOR_SIGNATURE; FormInstanceStatus.SIGNATURE_PENDING; FormInstanceStatus.SIGNED;
             FormInstanceStatus.READY_FOR_SUBMISSION; FormInstanceStatus.SUBMITTED_EXTERNALLY; FormInstanceStatus.SUPERSEDED].
Definition frozen (i : FormInstance) : bool := bool_decide (fi_status i ∈ FROZEN_INSTANCE_STATUSES).

Definition FILLABLE_FORMATS : list string := value <$> [FormFormat.PDF_ACROFORM; FormFormat.DOCX].

Section Service.
Context (uuid4 nonce : nat -> string) (py_str : json -> string) (instant_text : instant -> string) (spaced : json -> string).
Context (float_text : json -> string) (not_finite : spec_float -> json) (sha256 : string -> string).
Context (aes_encrypt : string -> string -> string -> string -> string)
  (aes_decrypt : string -> string -> string -> string -> option string).
Context (read_pdf : string -> option PdfDocument) (read_docx : string -> option (list string))
  (read_xlsx : string -> option (list (string * string * json))).
Context (pdf_names : string -> option (list string)) (pdf_write : string -> list (string * string) -> bool -> result exn string).
Context (docx_runs : string -> option (list (list string))) (docx_write : string -> list (list string) -> string).
(** The keyring of the environment, when there is one. *)
Context (settings : FormSettings) (keyring : option Keyring).

(** ** Templates *)

Record NewTemplate := {
  nt_key : string;
  nt_family : string;
  nt_document : uuid;
  nt_version : option Z;
  nt_format : option string;
  nt_from : option date;
  nt_to : option date;
  nt_sha256 : option string
}.

(** The checks of the table. *)
Definition template_row_ok (t : FormTemplate) : bool :=
  (1 <=? ft_version t) && match ft_from t, ft_to t with Some f, Some e => f <=? e | _, _ => true end &&
  is_value (A := FormFamily.FormFamily) (ft_family t) && is_value (A := FormFormat.FormFormat) (ft_format t).

Definition new_template (i : uuid) (n : NewTemplate) (v : GovernedVersion) : FormTemplate :=
  {| ft_id := i; ft_key := nt_key n; ft_family := nt_family n; ft_version := or_int (nt_version n) 1;
     ft_document := nt_document n; ft_format := or_text (nt_format n) (value FormFormat.UNKNOWN);
     ft_detection := value FieldDetectionStatus.NOT_INSPECTED; ft_status := value FormTemplateStatus.DRAFT;
     ft_from := nt_from n; ft_to := nt_to n; ft_field_count := None; ft_sha256 := Some (str_lower (gx_sha256 v));
     ft_reviewed_by := None; ft_reviewed_at := None |}.

Definition register_template (n : NewTemplate) (who : CurrentActor) (db : FormDb) : result exn (FormTemplate * FormDb) :=
  _ ← raise_unless (negb (existsb (fun t => bool_decide (ft_key t = nt_key n)) (rows (templates db)))) StateConflictError;
  d ← find (documents db) (nt_document n);
  match governed (Some d) db with
  | None => Err StateConflictError
  | Some (_, v) =>
      _ ← raise_unless (negb (truthy_str (nt_sha256 n)) ||
                        bool_decide (str_lower (default "" (nt_sha256 n)) = str_lower (gx_sha256 v))) StateConflictError;
      let t := new_template (uuid4 (next_id db)) n v in
      _ ← raise_unless (template_row_ok t) IntegrityError;
      Ok (t, log_audit "form_template" (ft_id t) "form_template_registered" who (put_template t (drawn db)))
  end.

(** The bytes are those of the governed document. *)
Definition _verify_template_content (t : FormTemplate) (content : string) : result exn unit :=
  let expected := str_lower (default "" (ft_sha256 t)) in
  raise_unless (negb (bool_decide (expected = "")) && bool_decide (sha256 content = expected)) StateConflictError.

Definition new_field (i : uuid) (template : uuid) (d : DetectedField) : FormTemplateField :=
  {| tf_id := i; tf_template := template; tf_key := de_key d; tf_native := de_native d; tf_label := de_label d;
     tf_type := de_type d; tf_required := de_required d; tf_allowed := de_allowed d; tf_page := de_page d;
     tf_sensitivity := de_sensitivity d; tf_max_length := de_max_length d; tf_sort_order := de_sort_order d |}.

Definition redetected (d : DetectedField) (f : FormTemplateField) : FormTemplateField :=
  f <| tf_native := de_native d |> <| tf_label := de_label d |> <| tf_type := de_type d |> <| tf_required := de_required d |>
    <| tf_allowed := de_allowed d |> <| tf_page := de_page d |> <| tf_sort_order := de_sort_order d |>.

Definition field_with_key (template : uuid) (k : string) (db : FormDb) : option FormTemplateField :=
  head (filter (fun f => tf_template f = template /\ tf_key f = k) (rows (template_fields db))).

(** The fields stored before the inspection are looked up by key. *)
Definition store_detected (before : FormDb) (template : uuid) (db : FormDb) (d : DetectedField) : FormDb :=
  match field_with_key template (de_key d) before with
  | None => put_field (new_field (uuid4 (next_id db)) template d) (drawn db)
  | Some f => put_field (redetected d f) db
  end.

Definition inspected (r : InspectionResult) (t : FormTemplate) : FormTemplate :=
  t <| ft_format := ir_format r |> <| ft_detection := ir_status r |>
    <| ft_field_count := Some (Z.of_nat (length (ir_fields r))) |> <| ft_status := value FormTemplateStatus.PENDING_REVIEW |>.

(** [None]: the inspection does not end within the fuel. *)
Definition inspect (fuel : nat) (i : uuid) (content filename : string) (who : CurrentActor) (db : FormDb)
    : option (result exn (InspectionResult * FormDb)) :=
  match
    t ← find (templates db) i;
    _ ← raise_unless (Z.of_nat (String.length content) <=? form_max_template_bytes settings) StateConflictError;
    _ ← _verify_template_content t content;
    Ok t
  with
  | Err e => Some (Err e)
  | Ok t =>
      r ← inspect_template py_str read_pdf read_docx read_xlsx fuel content filename (Some (ft_format t));
      Some (r ← r;
            Ok (r, log_audit "form_template" i "form_template_inspected" who
                     (foldl (store_detected db i) (put_template (inspected r t) db) (ir_fields r))))
  end.

Definition activate_template (i : uuid) (who : CurrentActor) (now : instant) (db : FormDb) : result exn (FormTemplate * FormDb) :=
  t ← find (templates db) i;
  _ ← raise_unless (negb (bool_decide (ft_status t = value FormTemplateStatus.RETIRED))) StateConflictError;
  _ ← raise_unless (negb (bool_decide (ft_detection t ∈ value <$> [FieldDetectionStatus.NOT_INSPECTED;
                                                                   FieldDetectionStatus.INSPECTION_FAILED]))) StateConflictError;
  _ ← raise_unless (truthy_str (ft_sha256 t)) StateConflictError;
  let t := t <| ft_status := value FormTemplateStatus.ACTIVE |> <| ft_reviewed_by := Some (actor_id who) |>
             <| ft_reviewed_at := Some now |> in
  Ok (t, log_audit "form_template" i "form_template_activated" who (put_template t db)).

(** ** Mappings *)

Definition active_mapping (m : FormFieldMapping) : bool :=
  bool_decide (fp_status m ∈ value <$> [MappingStatus.PROPOSED; MappingStatus.APPROVED]).
Definition approved_mapping (m : FormFieldMapping) : bool := bool_decide (fp_status m = value MappingStatus.APPROVED).

Definition mapping_for (field : uuid) (db : FormDb) : option FormFieldMapping :=
  head (filter (fun m => (bool_decide (fp_field m = field) && active_mapping m) = true) (rows (field_mappings db))).

Definition new_mapping (i field : uuid) : FormFieldMapping :=
  {| fp_id := i; fp_field := field; fp_source_type := ""; fp_source_key := None; fp_transformation := None;
     fp_status := value MappingStatus.PROPOSED; fp_requires_review := true; fp_default := None; fp_approved_by := None;
     fp_approved_at := None |}.

Definition upsert_mapping (field : uuid) (source_type : string) (source_key transformation : option string) (approve : bool)
    (who : CurrentActor) (now : instant) (db : FormDb) : result exn (FormFieldMapping * FormDb) :=
  f ← find (template_fields db) field;
  _ ← raise_unless (negb (human_execution (tf_type f)) || bool_decide (source_type = value FieldSourceType.SIGNATURE_REQUIRED))
        StateConflictError;
  let '(m, db) := match mapping_for field db with
                  | Some m => (m, db)
                  | None => (new_mapping (uuid4 (next_id db)) field, drawn db)
                  end in
  let m := m <| fp_source_type := source_type |> <| fp_source_key := source_key |> <| fp_transformation := transformation |> in
  let m := if approve : bool then
             m <| fp_status := value MappingStatus.APPROVED |> <| fp_requires_review := false |>
               <| fp_approved_by := Some (actor_id who) |> <| fp_approved_at := Some now |>
           else m in
  _ ← raise_unless (is_value (A := FieldSourceType.FieldSourceType) source_type) IntegrityError;
  _ ← raise_unless (negb (approved_mapping m &&
                          existsb (fun x => negb (bool_decide (fp_id x = fp_id m)) && bool_decide (fp_field x = field) && approved_mapping x)
                            (rows (field_mappings db)))) IntegrityError;
  Ok (m, log_audit "form_field_mapping" (fp_id m) "form_field_mapping_saved" who (put_mapping m db)).

(** ** Instances *)

Definition highest_instance (case template : uuid) (db : FormDb) : Z :=
  foldr Z.max 0 (fi_version <$> filter (fun i => fi_case i = case /\ fi_template i = template) (rows (form_instances db))).

Definition new_instance (i : uuid) (c : CaseSource) (t : FormTemplate) (case template : uuid) (n : Z) (who : CurrentActor) : FormInstance :=
  {| fi_id := i; fi_key := cz_key c +:+ "-" +:+ ft_key t +:+ "-" +:+ pretty n; fi_case := case; fi_template := template;
     fi_version := n; fi_status := value FormInstanceStatus.DRAFT; fi_generated := None; fi_worksheet := None;
     fi_snapshot_sha256 := None; fi_approved_sha256 := None; fi_missing := []; fi_validations := [];
     fi_prepared_by := Some (actor_id who); fi_reviewed_by := None; fi_reviewed_at := None; fi_signature_required := false;
     fi_signature_status := value SignatureRequirementStatus.NOT_REQUIRED; fi_signatory := None; fi_signatory_title := None;
     fi_signed := None; fi_signed_by := None; fi_signed_at := None; fi_submission := None; fi_submission_by := None;
     fi_submission_at := None; fi_size := None |}.

Definition create_instance (case template : uuid) (who : CurrentActor) (db : FormDb) : result exn (FormInstance * FormDb) :=
  c ← find (cases db) case;
  t ← find (templates db) template;
  _ ← raise_unless (form_preparation_enabled settings) StateConflictError;
  _ ← raise_unless (bool_decide (ft_status t = value FormTemplateStatus.ACTIVE)) StateConflictError;
  let i := new_instance (uuid4 (next_id db)) c t case template (highest_instance case template db + 1) who in
  _ ← raise_unless (negb (existsb (fun j => bool_decide (fi_key j = fi_key i)) (rows (form_instances db)))) IntegrityError;
  Ok (i, log_audit "form_instance" (fi_id i) "form_instance_created" who (put_instance i (drawn db))).

(** ** Field values *)

Definition _ENTITY_TYPE : string := "form_field_value".

Definition blank_row (i : uuid) (inst : uuid) (f : FormTemplateField) (status source : string) (record : option uuid)
    (version : option Z) : FormFieldValue :=
  {| vl_id := i; vl_instance := inst; vl_field := tf_id f; vl_encrypted := None; vl_plain := None; vl_display := None;
     vl_source_type := source; vl_record := record; vl_version := version; vl_status := status; vl_reviewed_by := None;
     vl_reviewed_at := None |}.

(** A sensitive value is encrypted, or dropped where there is no key. *)
Definition with_value (n : string) (f : FormTemplateField) (v : string) (r : FormFieldValue) : result exn FormFieldValue :=
  r ← (if requires_encryption (tf_sensitivity f) then
         match keyring with
         | None => Ok (r <| vl_status := value FormFieldValueStatus.NEEDS_INFORMATION |>)
         | Some k => ct ← encrypt float_text aes_encrypt k n (JStr v) _ENTITY_TYPE (vl_id r); Ok (r <| vl_encrypted := Some ct |>)
         end
       else Ok (r <| vl_plain := Some (str_take 4000 v) |>));
  Ok (if bool_decide (vl_status r = value FormFieldValueStatus.NEEDS_INFORMATION) then r
      else r <| vl_display := Some (mask_for_display spaced v (tf_sensitivity f)) |>).

Definition _add_field_value (inst : uuid) (f : FormTemplateField) (status source : string) (v : option string)
    (record : option uuid) (version : option Z) (db : FormDb) : result exn FormDb :=
  let r := blank_row (uuid4 (next_id db)) inst f status source record version in
  r ← match v with None => Ok r | Some t => with_value (nonce (next_id db)) f t r end;
  Ok (put_row r (drawn db)).

(** What the registry holds, decrypted where it is an envelope. *)
Definition _read_value (v : InformationValue) : result exn raw :=
  match iv_plain v with
  | Some (JDict ((_ :: _) as d)) => Ok (RJson (default JNull (dget "value" d)))
  | _ =>
      match keyring with
      | Some k =>
          if truthy_str (iv_encrypted v) then
            p ← decrypt_json aes_decrypt not_finite k (default "" (iv_encrypted v)) InfoRegistry._ENTITY_TYPE (iv_id v);
            Ok (RJson (unwrap p))
          else Ok RNone
      | None => Ok RNone
      end
  end.

(** The validation code of a refusal. *)
Definition refusal_code (r : Resolution) : option FormValidationCode.FormValidationCode :=
  match r with
  | Rejected STALE _ => Some FormValidationCode.STALE_INFORMATION_VALUE
  | Rejected EXPIRED _ => Some FormValidationCode.EXPIRED_INFORMATION_VALUE
  | Rejected NOT_APPROVED _ => Some FormValidationCode.UNAPPROVED_INFORMATION_VALUE
  | Rejected WRONG_ENTITY _ => Some FormValidationCode.WRONG_ENTITY_INFORMATION_VALUE
  | _ => None
  end.

Definition attribute (k : option string) (attrs : list (string * raw)) : raw := default RNone (dget (default "" k) attrs).

(** What a mapping yields: the value, where it is from, and the code of a refusal. *)
Record Sourced := {
  so_value : raw;
  so_record : option uuid;
  so_version : option Z;
  so_code : option FormValidationCode.FormValidationCode
}.
Definition unsourced : Sourced := {| so_value := RNone; so_record := None; so_version := None; so_code := None |}.

Record Source := { sc_case : CaseSource; sc_entity : option EntitySource; sc_licence : option LicenceSource }.

Definition usage_context (s : Source) : UsageContext :=
  {| uc_entity := cz_entity (sc_case s); uc_jurisdiction := lz_jurisdiction <$> sc_licence s; uc_license := cz_license (sc_case s);
     uc_vendor := cz_vendor (sc_case s); uc_case := Some (cz_id (sc_case s)); max_sensitivity := value Sensitivity.HIGHLY_RESTRICTED |}.

Definition from_registry (k : string) (s : Source) (inst : uuid) (who : CurrentActor) (today : date) (now : instant) (db : FormDb)
    : result exn (Sourced * FormDb) :=
  let found := resolve_for_use k (usage_context s) false today now (registry db) in
  match found with
  | Found v _ =>
      x ← _read_value v;
      info ← record_usage (iv_id v) (value UsagePurpose.FORM_PREFILL) (Some who) (Some (cz_id (sc_case s))) (Some inst) None now (registry db);
      Ok ({| so_value := x; so_record := Some (iv_id v); so_version := Some (iv_version v); so_code := None |}, db <| registry := info |>)
  | _ => Ok ({| so_value := RNone; so_record := None; so_version := None; so_code := refusal_code found |}, db)
  end.

Definition from_source (m : MappingSpec) (s : Source) (inst : uuid) (who : CurrentActor) (today : date) (now : instant) (db : FormDb)
    : result exn (Sourced * FormDb) :=
  let at_ v r := {| so_value := v; so_record := r; so_version := None; so_code := None |} in
  let k := ms_source_key m in
  match of_value (ms_source_type m), sc_entity s, sc_licence s with
  | Some FieldSourceType.INFORMATION_REGISTRY, _, _ =>
      if truthy_str k then from_registry (default "" k) s inst who today now db else Ok (unsourced, db)
  | Some FieldSourceType.LEGAL_ENTITY, Some e, _ => Ok (at_ (attribute k (ez_attrs e)) (Some (cz_entity (sc_case s))), db)
  | Some FieldSourceType.LICENSE_INVENTORY, _, Some l => Ok (at_ (attribute k (lz_attrs l)) (cz_license (sc_case s)), db)
  | Some FieldSourceType.COMPLIANCE_CASE, _, _ => Ok (at_ (attribute k (cz_attrs (sc_case s))) (Some (cz_id (sc_case s))), db)
  | Some FieldSourceType.CALCULATED, _, _ =>
      Ok (at_ (if bool_decide (default "" k = "today") then RText (isoformat (instant_date now)) else RNone) None, db)
  | Some FieldSourceType.MANUAL_INPUT, _, _ => Ok (at_ (match ms_default m with Some d => RText d | None => RNone end) None, db)
  | _, _, _ => Ok (unsourced, db)
  end.

Definition spec_of (m : FormFieldMapping) : MappingSpec :=
  {| ms_source_type := fp_source_type m; ms_source_key := fp_source_key m; ms_transformation := fp_transformation m;
     ms_status := fp_status m; ms_requires_review := fp_requires_review m; ms_default := fp_default m |}.

(** The approved mapping of a field. *)
Definition approved_for (field : uuid) (db : FormDb) : option FormFieldMapping :=
  last (filter (fun m => fp_field m = field /\ fp_status m = value MappingStatus.APPROVED) (rows (field_mappings db))).

(** What one field adds: to the list of what is missing and to the validation results. *)
Definition Notes : Type := list Missing * list (string * string).
Definition missing_if (b : bool) (f : FormTemplateField) : list Missing := if b then [{| mi_key := tf_key f; mi_label := tf_label f |}] else [].
Definition noted (f : FormTemplateField) (c : option FormValidationCode.FormValidationCode) : list (string * string) :=
  match c with Some c => [(tf_key f, value c)] | None => [] end.

Definition prefill_field (s : Source) (inst : uuid) (who : CurrentActor) (today : date) (now : instant) (f : FormTemplateField)
    (db : FormDb) : result exn (Notes * FormDb) :=
  let add status source v r n db := _add_field_value inst f (value status) source v r n db in
  if human_execution (tf_type f) then
    db ← add FormFieldValueStatus.SIGNATURE_REQUIRED (value FieldSourceType.SIGNATURE_REQUIRED) None None None db;
    Ok (([], []), db)
  else
    match (m ← approved_for (tf_id f) db; if is_usable (spec_of m) then Some (spec_of m) else None) with
    | None =>
        let '(status, source, code) := classify_unmapped (tf_type f) (tf_required f) in
        db ← _add_field_value inst f status source None None None db;
        Ok ((missing_if (tf_required f) f, noted f code), db)
    | Some m =>
        xd ← from_source m s inst who today now db;
        let '(x, db) := xd in
        if no_value (so_value x) then
          db ← add FormFieldValueStatus.NEEDS_INFORMATION (ms_source_type m) None (so_record x) None db;
          Ok ((missing_if (tf_required f) f, noted f (so_code x)), db)
        else
          text ← apply_transformation py_str instant_text (so_value x) (ms_transformation m);
          let ok := validate_against_allowed py_str text (tf_allowed f) in
          db ← add (if ok then FormFieldValueStatus.AUTO_FILLED else FormFieldValueStatus.NEEDS_REVIEW) (ms_source_type m)
                 (Some text) (so_record x) (so_version x) db;
          Ok (([], if ok then [] else [(tf_key f, value FormValidationCode.VALUE_NOT_IN_ALLOWED_SET)]), db)
    end.

Fixpoint prefill_fields (s : Source) (inst : uuid) (who : CurrentActor) (today : date) (now : instant) (l : list FormTemplateField)
    (db : FormDb) : result exn (Notes * FormDb) :=
  match l with
  | [] => Ok (([], []), db)
  | f :: l =>
      '(n, db) ← prefill_field s inst who today now f db;
      '(ns, db) ← prefill_fields s inst who today now l db;
      Ok ((n.1 ++ ns.1, n.2 ++ ns.2), db)
  end.

(** Outstanding rows whose field is not known to be missing; the key that becomes known
    is that of the last field of the template. *)
Fixpoint add_outstanding (field_of : uuid -> option FormTemplateField) (last_key : string) (l : list FormFieldValue)
    (known : list string) : list Missing :=
  match l with
  | [] => []
  | v :: l =>
      match field_of (vl_field v) with
      | Some f =>
          if bool_decide (tf_key f ∈ known) then add_outstanding field_of last_key l known
          else missing_if true f ++ add_outstanding field_of last_key l (last_key :: known)
      | None => add_outstanding field_of last_key l known
      end
  end.

Definition fields_of (template : uuid) (db : FormDb) : list FormTemplateField :=
  py_sorted (fun a b => tf_sort_order a <=? tf_sort_order b) (filter (fun f => tf_template f = template) (rows (template_fields db))).

Definition without_rows (i : uuid) (db : FormDb) : FormDb :=
  db <| field_values := filter (fun kv => vl_instance kv.2 <> i) (field_values db) |>.

Definition field_among (l : list FormTemplateField) (k : uuid) : option FormTemplateField := head (filter (fun f => tf_id f = k) l).

Definition prefilled (missing : list Missing) (issues : list (string * string)) (signature : bool) (i : FormInstance) : FormInstance :=
  i <| fi_missing := missing |> <| fi_validations := issues |> <| fi_signature_required := signature |>
    <| fi_signature_status := value (if signature then SignatureRequirementStatus.IDENTIFIED else SignatureRequirementStatus.NOT_REQUIRED) |>
    <| fi_status := value (match missing with [] => FormInstanceStatus.PREFILLED | _ => FormInstanceStatus.MISSING_INFORMATION end) |>.

Definition prefill (i : uuid) (who : CurrentActor) (today : date) (now : instant) (db : FormDb) : result exn (FormInstance * FormDb) :=
  inst ← find (form_instances db) i;
  _ ← raise_unless (negb (frozen inst)) StateConflictError;
  c ← find (cases db) (fi_case inst);
  t ← find (templates db) (fi_template inst);
  let s := {| sc_case := c; sc_entity := entities db !! cz_entity c; sc_licence := cz_license c ≫= fun l => licences db !! l |} in
  let fields := fields_of (fi_template inst) db in
  '(n, db) ← prefill_fields s i who today now fields (without_rows i db);
  let last_key := default "" (tf_key <$> last fields) in
  let missing := n.1 ++ add_outstanding (field_among fields) last_key (outstanding_rows i db) (mi_key <$> n.1) in
  let inst := prefilled missing n.2 (existsb (fun f => human_execution (tf_type f)) fields) inst in
  Ok (inst, log_audit "form_instance" i "form_instance_prefilled" who (put_instance inst db)).

(** ** Setting fields by hand *)

Definition row_of (i field : uuid) (db : FormDb) : option FormFieldValue :=
  head (filter (fun v => vl_instance v = i /\ vl_field v = field) (rows (field_values db))).

Definition typed (f : FormTemplateField) (v : option string) (n : string) (r : FormFieldValue) : result exn FormFieldValue :=
  match v with
  | None => Ok r
  | Some t =>
      r ← (if requires_encryption (tf_sensitivity f) then
             match keyring with
             | None => Err StateConflictError
             | Some k => ct ← encrypt float_text aes_encrypt k n (JStr t) _ENTITY_TYPE (vl_id r);
                         Ok (r <| vl_encrypted := Some ct |> <| vl_plain := None |>)
             end
           else Ok (r <| vl_plain := Some (str_take 4000 t) |>));
      Ok (r <| vl_display := Some (mask_for_display spaced t (tf_sensitivity f)) |>)
  end.

(** Whether a field is outstanding is asked of the rows as they are [stored], which the
    change has not reached. *)
Definition set_field_value (stored : FormDb) (i : uuid) (field_key : string) (v status : option string) (who : CurrentActor)
    (now : instant) (db : FormDb) : result exn (FormFieldValue * FormDb) :=
  inst ← find (form_instances db) i;
  _ ← raise_unless (negb (frozen inst)) StateConflictError;
  match field_with_key (fi_template inst) field_key db with
  | None => Err NotFoundError
  | Some f =>
      _ ← raise_unless (negb (human_execution (tf_type f) && truthy_str v)) StateConflictError;
      match row_of i (tf_id f) db with
      | None => Err NotFoundError
      | Some r =>
          _ ← raise_unless (match v with Some t => validate_against_allowed py_str t (tf_allowed f) | None => true end) StateConflictError;
          r ← typed f v (nonce (next_id db)) r;
          let r := r <| vl_status := or_text status (value FormFieldValueStatus.MANUALLY_FILLED) |>
                     <| vl_source_type := value FieldSourceType.MANUAL_INPUT |> <| vl_reviewed_by := Some (actor_id who) |>
                     <| vl_reviewed_at := Some now |> in
          _ ← raise_unless (is_value (A := FormFieldValueStatus.FormFieldValueStatus) (vl_status r)) IntegrityError;
          let inst := inst <| fi_missing := filter (fun m => mi_key m <> field_key) (fi_missing inst) |> in
          let inst := if bool_decide (outstanding_rows i stored = []) &&
                         bool_decide (fi_status inst = value FormInstanceStatus.MISSING_INFORMATION)
                      then inst <| fi_status := value FormInstanceStatus.PREFILLED |> else inst in
          Ok (r, put_instance inst (put_row r (drawn db)))
      end
  end.

Definition set_field (i : uuid) (field_key : string) (v status : option string) (who : CurrentActor) (now : instant) (db : FormDb)
    : result exn (FormFieldValue * FormDb) := set_field_value db i field_key v status who now db.

(** [PATCH /form-instances/{id}/fields]: several fields, one commit. *)
Fixpoint set_fields (stored : FormDb) (i : uuid) (l : list (string * option string * option string)) (who : CurrentActor) (now : instant)
    (db : FormDb) : result exn FormDb :=
  match l with
  | [] => Ok db
  | (k, v, s) :: l => x ← set_field_value stored i k v s who now db; set_fields stored i l who now x.2
  end.

(** ** Drafts *)

(** A value that cannot be decrypted counts as missing. *)
Definition fill_text (r : FormFieldValue) : option string :=
  match vl_plain r, keyring with
  | Some t, _ => Some t
  | None, Some k =>
      if truthy_str (vl_encrypted r)
      then match decrypt aes_decrypt k (default "" (vl_encrypted r)) _ENTITY_TYPE (vl_id r) with Ok t => Some t | Err _ => None end
      else None
  | None, None => None
  end.

Definition fill_value (rf : FormFieldValue * FormTemplateField) : FieldValue :=
  {| fv_key := tf_key rf.2; fv_native := tf_native rf.2; fv_type := tf_type rf.2; fv_value := fill_text rf.1;
     fv_human := bool_decide (vl_status rf.1 = value FormFieldValueStatus.SIGNATURE_REQUIRED) |}.

(** The rows of an instance with their fields, in the order of the form. *)
Definition joined (i : uuid) (db : FormDb) : list (FormFieldValue * FormTemplateField) :=
  py_sorted (fun a b => tf_sort_order a.2 <=? tf_sort_order b.2)
    (omap (fun v => (fun f => (v, f)) <$> template_fields db !! vl_field v) (rows_of i db)).

Definition _field_values_for_fill (i : uuid) (db : FormDb) : list FieldValue := fill_value <$> joined i db.

Definition drafted (r : FillResult) (ready : bool) (i : FormInstance) : FormInstance :=
  let i := i <| fi_snapshot_sha256 := Some (fr_snapshot r) |> <| fi_size := Some (Z.of_nat (String.length (fr_content r))) |> in
  if ready && bool_decide (fi_status i ∈ value <$> [FormInstanceStatus.PREFILLED; FormInstanceStatus.DRAFT])
  then i <| fi_status := value FormInstanceStatus.READY_FOR_REVIEW |> else i.

Definition generate_draft (i : uuid) (template_content : string) (flatten : bool) (who : CurrentActor) (db : FormDb)
    : result exn (FillResult * FormDb) :=
  inst ← find (form_instances db) i;
  t ← find (templates db) (fi_template inst);
  _ ← _verify_template_content t template_content;
  _ ← raise_unless (bool_decide (ft_format t ∈ FILLABLE_FORMATS)) StateConflictError;
  _ ← raise_unless (negb (bool_decide (ft_format t = value FormFormat.PDF_ACROFORM) && negb (form_pdf_filling_enabled settings))) StateConflictError;
  _ ← raise_unless (negb (bool_decide (ft_format t = value FormFormat.DOCX) && negb (form_docx_filling_enabled settings))) StateConflictError;
  _ ← raise_unless (bool_decide (outstanding_rows i db = [])) StateConflictError;
  r ← fill_template sha256 pdf_names pdf_write docx_runs docx_write template_content (_field_values_for_fill i db) (ft_format t) flatten
        (form_flatten_after_approval_enabled settings && bool_decide (fi_status inst = value FormInstanceStatus.APPROVED_FOR_SIGNATURE));
  let inst := drafted r (bool_decide (outstanding_rows i db = [])) inst in
  Ok (r, log_audit "form_instance" i "form_draft_generated" who (put_instance inst db)).

(** The worker's job: a draft is generated once, uploaded as a document and bound to its
    instance.  [upload] is the document the upload service stores. *)
Definition prepare_form (i : uuid) (template_content : string) (flatten : bool) (upload : string -> result exn uuid)
    (who : CurrentActor) (db : FormDb) : result exn FormDb :=
  inst ← match form_instances db !! i with Some x => Ok x | None => Err ValueError end;
  if truthy_opt (fi_generated inst) then Ok db
  else
    _ ← match templates db !! fi_template inst with Some _ => Ok tt | None => Err ValueError end;
    '(r, db) ← generate_draft i template_content flatten who db;
    inst ← match form_instances db !! i with Some x => Ok x | None => Err ValueError end;
    _ ← raise_unless (truthy_opt (c ← cases db !! fi_case inst; entities db !! cz_entity c)) ValueError;
    d ← upload (fr_content r);
    Ok (put_instance (inst <| fi_generated := Some d |>) db).

(** The worksheet of an instance, stored as a document. *)
Definition store_worksheet (i : uuid) (d : uuid) (db : FormDb) : result exn FormDb :=
  inst ← match form_instances db !! i with Some x => Ok x | None => Err ValueError end;
  _ ← raise_unless (truthy_opt (c ← cases db !! fi_case inst; entities db !! cz_entity c)) ValueError;
  Ok (put_instance (inst <| fi_worksheet := Some d |>) db).

(** ** Approval, signature, submission *)

Definition reviewed (who : CurrentActor) (now : instant) (h : string) (signatory title : option string) (i : FormInstance) : FormInstance :=
  let i := i <| fi_approved_sha256 := Some h |> <| fi_reviewed_by := Some (actor_id who) |> <| fi_reviewed_at := Some now |>
             <| fi_signatory := signatory |> <| fi_signatory_title := title |> in
  if fi_signature_required i
  then i <| fi_status := value FormInstanceStatus.SIGNATURE_PENDING |>
         <| fi_signature_status := value SignatureRequirementStatus.APPROVED_FOR_SIGNATURE |>
  else i <| fi_status := value FormInstanceStatus.READY_FOR_SUBMISSION |>.

Definition signature_pending_alert (i recipient : string) : Notice :=
  {| no_type := "SIGNATURE_PENDING"; no_severity := "IMPORTANT"; no_recipient := recipient; no_entity := "form_instance";
     no_entity_id := i; no_key := build_idempotency_key sha256 [Some "signature-pending"; Some i] |}.

(** The signatory is told, or else the owner of the case. *)
Definition tell_signatory (i : FormInstance) (signatory : option string) (db : FormDb) : FormDb :=
  match cases db !! fi_case i with
  | Some c =>
      let recipient := if truthy_str signatory then signatory else cz_owner c in
      if fi_signature_required i && truthy_str recipient
      then db <| registry := registry db <| log := (record_notification (signature_pending_alert (fi_id i) (default "" recipient)) (log (registry db))).2 |> |>
      else db
  | None => db
  end.

Definition approve_for_signature (i : uuid) (approved_draft_sha256 : string) (signatory title : option string) (who : CurrentActor)
    (now : instant) (db : FormDb) : result exn (FormInstance * FormDb) :=
  inst ← find (form_instances db) i;
  _ ← raise_unless (bool_decide (fi_status inst ∈ value <$> [FormInstanceStatus.READY_FOR_REVIEW; FormInstanceStatus.PREFILLED])) StateConflictError;
  _ ← raise_unless (bool_decide (outstanding_rows i db = [])) StateConflictError;
  match governed (fi_generated inst ≫= fun d => documents db !! d) db with
  | None => Err StateConflictError
  | Some (d, v) =>
      let expected := str_lower (gx_sha256 v) in
      _ ← raise_unless (bool_decide (str_lower approved_draft_sha256 = expected) && bool_decide (str_lower (gd_sha256 d) = expected)) StateConflictError;
      let inst := reviewed who now approved_draft_sha256 signatory title inst in
      Ok (inst, log_audit "form_instance" i "form_approved_for_signature" who (tell_signatory inst signatory (put_instance inst db)))
  end.

Definition signed_by (who : CurrentActor) (now : instant) (d : uuid) (i : FormInstance) : FormInstance :=
  i <| fi_signed := Some d |> <| fi_signed_by := Some (actor_id who) |> <| fi_signed_at := Some now |>
    <| fi_status := value FormInstanceStatus.SIGNED |>
    <| fi_signature_status := value SignatureRequirementStatus.SIGNED_EVIDENCE_RECORDED |>.

Definition record_signed_document (i signed_document : uuid) (signed_sha256 : string) (pages : option Z) (who : CurrentActor)
    (now : instant) (db : FormDb) : result exn (FormInstance * FormDb) :=
  inst ← find (form_instances db) i;
  _ ← raise_unless (negb (form_signature_automation_enabled settings)) StateConflictError;
  _ ← raise_unless (bool_decide (fi_status inst ∈ value <$> [FormInstanceStatus.SIGNATURE_PENDING; FormInstanceStatus.APPROVED_FOR_SIGNATURE]))
        StateConflictError;
  match governed (documents db !! signed_document) db with
  | None => Err StateConflictError
  | Some (d, v) =>
      let expected := str_lower (gx_sha256 v) in
      _ ← raise_unless (bool_decide (str_lower signed_sha256 = expected) && bool_decide (str_lower (gd_sha256 d) = expected)) StateConflictError;
      _ ← raise_unless (match (c ← cases db !! fi_case inst; entities db !! cz_entity c) with
                        | Some e => bool_decide (gd_entity d ∈ [Some (ez_key e); Some (ez_name e)])
                        | None => true
                        end) StateConflictError;
      _ ← raise_unless (verify_signed_document (fi_approved_sha256 inst) signed_sha256 pages) StateConflictError;
      let inst := signed_by who now signed_document inst in
      Ok (inst, log_audit "form_instance" i "form_signed_document_recorded" who (put_instance inst db))
  end.

Definition submitted (who : CurrentActor) (now : instant) (reference : string) (i : FormInstance) : FormInstance :=
  i <| fi_status := value FormInstanceStatus.SUBMITTED_EXTERNALLY |> <| fi_submission := Some (str_take 300 reference) |>
    <| fi_submission_by := Some (actor_id who) |> <| fi_submission_at := Some now |>.

Definition record_external_submission (i : uuid) (reference : string) (who : CurrentActor) (now : instant) (db : FormDb)
    : result exn (FormInstance * FormDb) :=
  inst ← find (form_instances db) i;
  _ ← raise_unless (negb (fi_signature_required inst && negb (truthy_opt (fi_signed inst)))) StateConflictError;
  _ ← raise_unless (bool_decide (fi_status inst ∈ value <$> [FormInstanceStatus.SIGNED; FormInstanceStatus.READY_FOR_SUBMISSION])) StateConflictError;
  let inst := submitted who now reference inst in
  Ok (inst, log_audit "form_instance" i "form_external_submission_recorded" who (put_instance inst db)).
End Service.
