(* ===== verification/FormSafety.v ===== *)
(** * What holds of forms

    Every call of [FormService] changes the tables by a sequence of [write]s, a row at a
    time, under the condition the code checks before it.  The invariant of the tables and
    what is frozen once a form is approved are shown for the writes. *)
From Stdlib Require Import Ascii SpecFloat Relations.
From S2P Require Import InfoRegistry.
From S2P Require Import Prelude Vocabulary Terms PyDate PyJson Crypto Roles LicensingLog InfoRules FormFields FormInspection FormFilling FormService.
Open Scope Z_scope.

(** Close a decidable goal by computing it. *)
Ltac decided := apply (bool_decide_unpack _); vm_compute; exact I.

(** A hypothesis that computes to something false. *)
Ltac refuted H := exfalso; apply (bool_decide_eq_true_2 _) in H; vm_compute in H; discriminate H.

Lemma list_within (l l' : list string) s : forallb (fun x => bool_decide (x ∈ l')) l = true -> s ∈ l -> s ∈ l'.
Proof. intros H Hs. apply (bool_decide_eq_true_1 (s ∈ l')). rewrite forallb_forall in H. by apply (H s), list_elem_of_In. Qed.

(** ** The life of a form *)

Definition OPEN_STATUSES : list string :=
  value <$> [FormInstanceStatus.DRAFT; FormInstanceStatus.PREFILLED; FormInstanceStatus.MISSING_INFORMATION; FormInstanceStatus.READY_FOR_REVIEW].
Definition is_open (i : FormInstance) : Prop := fi_status i ∈ OPEN_STATUSES.

(** What each status stands for. *)
Inductive stage_ok (i : FormInstance) : Prop :=
| st_open : is_open i -> fi_signed i = None -> stage_ok i
| st_pending :
    fi_status i = value FormInstanceStatus.SIGNATURE_PENDING -> fi_signature_required i = true -> is_Some (fi_approved_sha256 i) ->
    is_Some (fi_reviewed_by i) -> fi_signed i = None -> stage_ok i
| st_signed :
    fi_status i = value FormInstanceStatus.SIGNED -> fi_signature_required i = true -> is_Some (fi_approved_sha256 i) ->
    is_Some (fi_reviewed_by i) -> is_Some (fi_signed i) -> is_Some (fi_signed_by i) -> stage_ok i
| st_ready :
    fi_status i = value FormInstanceStatus.READY_FOR_SUBMISSION -> fi_signature_required i = false -> is_Some (fi_approved_sha256 i) ->
    is_Some (fi_reviewed_by i) -> stage_ok i
| st_submitted :
    fi_status i = value FormInstanceStatus.SUBMITTED_EXTERNALLY -> is_Some (fi_approved_sha256 i) -> is_Some (fi_reviewed_by i) ->
    (fi_signature_required i = true -> is_Some (fi_signed i) /\ is_Some (fi_signed_by i)) -> is_Some (fi_submission_by i) -> stage_ok i.

Definition origin (i : FormInstance) : uuid * string * uuid * uuid * Z := (fi_id i, fi_key i, fi_case i, fi_template i, fi_version i).

(** What an approval settled. *)
Definition settled (i : FormInstance) : bool * option string * option string := (fi_signature_required i, fi_approved_sha256 i, fi_reviewed_by i).

Record advances (i j : FormInstance) : Prop := {
  av_origin : origin j = origin i;
  av_frozen : frozen i = true -> frozen j = true /\ settled j = settled i;
  av_signed : is_Some (fi_signed i) -> fi_signed j = fi_signed i;
  av_final : fi_status i = value FormInstanceStatus.SUBMITTED_EXTERNALLY -> fi_status j = fi_status i
}.

#[export] Instance advances_refl : Reflexive advances.
Proof. intros i. by split. Qed.
#[export] Instance advances_trans : Transitive advances.
Proof.
  intros i j k [O1 F1 S1 E1] [O2 F2 S2 E2]. split; [congruence| | |].
  - intros H. destruct (F1 H) as [H1 ->%eq_sym], (F2 (proj1 (F1 H))) as [H2 E]. split; [done | congruence].
  - intros H. rewrite <-(S1 H). apply S2. by rewrite (S1 H).
  - intros H. rewrite <-(E1 H). apply E2. by rewrite (E1 H).
Qed.

Lemma open_not_frozen i : is_open i -> frozen i = false.
Proof.
  unfold is_open, frozen. intros H. apply bool_decide_eq_false. revert H. generalize (fi_status i). intros s H.
  repeat (apply elem_of_cons in H as [->|H]; [decided|]). by apply elem_of_nil in H.
Qed.

(** The columns the stages are about. *)
Definition standing (i : FormInstance) :=
  (fi_status i, fi_signature_required i, fi_approved_sha256 i, fi_reviewed_by i, fi_signed i, fi_signed_by i, fi_submission_by i).

Lemma stage_ok_standing i j : standing j = standing i -> stage_ok i -> stage_ok j.
Proof.
  unfold standing. intros [= E1 E2 E3 E4 E5 E6 E7] [H|H|H|H|H]; unfold is_open in *; rewrite <-?E1, <-?E2, <-?E3, <-?E4, <-?E5, <-?E6, <-?E7 in *.
  - by apply st_open.
  - by apply st_pending.
  - by apply st_signed.
  - by apply st_ready.
  - by apply st_submitted.
Qed.

Lemma advances_standing i j : origin j = origin i -> standing j = standing i -> advances i j.
Proof.
  unfold standing. intros Ho [= E1 E2 E3 E4 E5 E6 E7]. split; try done. intros Hf. split.
  - unfold frozen in *. by rewrite E1.
  - unfold settled. congruence.
Qed.

Lemma stage_unfrozen i : stage_ok i -> frozen i = false -> is_open i /\ fi_signed i = None.
Proof.
  unfold frozen. intros [H ?|H|H|H|H] Hf; [done|..]; exfalso; apply bool_decide_eq_false in Hf; apply Hf; rewrite H;
    decided.
Qed.

(** A form that is not frozen may change as long as it stays open. *)
Lemma advance_open i j :
  stage_ok i -> frozen i = false -> origin j = origin i -> is_open j -> fi_signed j = fi_signed i -> advances i j /\ stage_ok j.
Proof.
  intros Hi Hf Ho Hj Hs. destruct (stage_unfrozen i Hi Hf) as [Hoi Hsi]. split; [split|].
  - done.
  - by rewrite Hf.
  - done.
  - intros E. exfalso. unfold frozen in Hf. rewrite E in Hf. apply bool_decide_eq_false in Hf. apply Hf. decided.
  - apply st_open; [done | congruence].
Qed.

(** ** Writes *)

Definition unfrozen (i : uuid) (db : FormDb) : Prop := exists x, form_instances db !! i = Some x /\ frozen x = false.

Definition row_ok (db : FormDb) (r : FormFieldValue) : Prop :=
  exists f, template_fields db !! vl_field r = Some f /\ (requires_encryption (tf_sensitivity f) = true -> vl_plain r = None).

Definition mapping_sound (m : FormFieldMapping) : Prop :=
  approved_mapping m = true -> fp_requires_review m = false /\ is_Some (fp_approved_by m).

(** The tables of this service, but for the templates. *)
Definition core (db : FormDb) := (template_fields db, field_mappings db, form_instances db, field_values db).

Section Writes.
Context (uuid4 : nat -> uuid).

Inductive write (db : FormDb) : FormDb -> Prop :=
| w_elsewhere db' : core db' = core db -> (next_id db <= next_id db')%nat -> write db db'
| w_field_new f : tf_id f = uuid4 (next_id db) -> write db (put_field f (drawn db))
| w_field f0 f :
    template_fields db !! tf_id f = Some f0 -> tf_template f = tf_template f0 -> tf_key f = tf_key f0 ->
    tf_sensitivity f = tf_sensitivity f0 -> write db (put_field f db)
| w_mapping_new m :
    fp_id m = uuid4 (next_id db) -> mapping_sound m ->
    (forall k x, field_mappings db !! k = Some x -> fp_field x = fp_field m -> active_mapping x = false) ->
    write db (put_mapping m (drawn db))
| w_mapping m0 m :
    field_mappings db !! fp_id m = Some m0 -> active_mapping m0 = true -> fp_field m = fp_field m0 -> mapping_sound m ->
    write db (put_mapping m db)
| w_instance_new i :
    fi_id i = uuid4 (next_id db) -> is_open i -> fi_signed i = None ->
    (forall k x, form_instances db !! k = Some x -> fi_case x = fi_case i -> fi_template x = fi_template i -> fi_version x < fi_version i) ->
    write db (put_instance i (drawn db))
| w_instance i0 i :
    form_instances db !! fi_id i = Some i0 -> advances i0 i -> (stage_ok i0 -> stage_ok i) -> write db (put_instance i db)
| w_row_new r :
    vl_id r = uuid4 (next_id db) -> unfrozen (vl_instance r) db -> row_ok db r ->
    (forall k x, field_values db !! k = Some x -> vl_instance x = vl_instance r -> vl_field x <> vl_field r) ->
    write db (put_row r (drawn db))
| w_row r0 r :
    field_values db !! vl_id r = Some r0 -> vl_instance r = vl_instance r0 -> vl_field r = vl_field r0 ->
    unfrozen (vl_instance r) db -> row_ok db r -> write db (put_row r db)
| w_rows_removed i : unfrozen i db -> write db (without_rows i db).

Definition writes : FormDb -> FormDb -> Prop := rtc write.

(** ** The invariant *)

Record forms_ok (db : FormDb) : Prop := {
  fo_fresh : forall n, (next_id db <= n)%nat -> template_fields db !! uuid4 n = None /\ field_mappings db !! uuid4 n = None /\
    form_instances db !! uuid4 n = None /\ field_values db !! uuid4 n = None;
  fo_fields : forall k f, template_fields db !! k = Some f -> tf_id f = k;
  fo_mappings : forall k m, field_mappings db !! k = Some m -> fp_id m = k /\ mapping_sound m;
  fo_one_mapping : forall k l m n, field_mappings db !! k = Some m -> field_mappings db !! l = Some n -> fp_field m = fp_field n ->
    active_mapping m = true -> active_mapping n = true -> k = l;
  fo_instances : forall k i, form_instances db !! k = Some i -> fi_id i = k /\ stage_ok i;
  fo_versions : forall k l i j, form_instances db !! k = Some i -> form_instances db !! l = Some j -> fi_case i = fi_case j ->
    fi_template i = fi_template j -> fi_version i = fi_version j -> k = l;
  fo_rows : forall k r, field_values db !! k = Some r -> vl_id r = k /\ row_ok db r;
  fo_one_row : forall k l r x, field_values db !! k = Some r -> field_values db !! l = Some x -> vl_instance r = vl_instance x ->
    vl_field r = vl_field x -> k = l
}.

Context `{!Inj (=) (=) uuid4}.

Lemma lookup_put {A} (t : gmap uuid A) k x j y : <[k := x]> t !! j = Some y -> j = k /\ y = x \/ j <> k /\ t !! j = Some y.
Proof. rewrite lookup_insert_Some. intros [[<- <-]|[? ?]]; [by left | by right]. Qed.

(** Fields keep what their rows depend on. *)
Definition fields_kept (db db' : FormDb) : Prop :=
  forall k f, template_fields db !! k = Some f -> exists f', template_fields db' !! k = Some f' /\ tf_sensitivity f' = tf_sensitivity f.

Lemma row_ok_kept db db' r : fields_kept db db' -> row_ok db r -> row_ok db' r.
Proof. intros Hf (f & Hk & H). destruct (Hf _ _ Hk) as (f' & Hk' & E). exists f'. by rewrite E. Qed.

Lemma fresh_put {A} (t : gmap uuid A) k x (db : FormDb) n :
  t !! uuid4 n = None -> uuid4 n <> k -> <[k := x]> t !! uuid4 n = None.
Proof. intros H Hk. by rewrite lookup_insert_ne. Qed.

Lemma fresh_known {A} (t : gmap uuid A) k x n : t !! k = Some x -> t !! uuid4 n = None -> uuid4 n <> k.
Proof. intros H H' E. by rewrite E, H in H'. Qed.

Lemma fresh_later n m : (S n <= m)%nat -> uuid4 m <> uuid4 n.
Proof. intros H E%(inj uuid4). lia. Qed.

Lemma forms_write_ok db db' : write db db' -> forms_ok db -> forms_ok db'.
Proof.
  intros Hw [Hfresh Hf Hm Hm1 Hi Hv Hr Hr1].
  destruct Hw as [db' E Hn|f Hid|f0 f H0 Ht Hk Hs|m Hid Hsound Hfree|m0 m H0 Ha Hfield Hsound|i Hid Ho Hsg Hver|i0 i H0 Hadv Hst
    |r Hid Hun Hrow Hfree|r0 r H0 Hinst Hfield Hun Hrow|i Hun].
  - unfold core in E. injection E as E1 E2 E3 E4. split; rewrite ?E1, ?E2, ?E3, ?E4; try done.
    + intros n Hle. apply Hfresh. lia.
    + intros k r Hk. destruct (Hr k r Hk) as [? (f & ? & ?)]. split; [done|]. exists f. by rewrite E1.
  - assert (fields_kept db (put_field f (drawn db))) as Hkept.
    { intros k g Hk. exists g. split; [|done]. cbn. rewrite lookup_insert_ne; [done|]. intros <-. rewrite Hid in Hk.
      by rewrite (proj1 (Hfresh _ (le_n _))) in Hk. }
    split; try done.
    + intros n Hle. cbn in Hle |- *. destruct (Hfresh n ltac:(lia)) as (? & ? & ? & ?). split_and!; try done.
      apply (fresh_put _ _ _ db); [done|]. rewrite Hid. by apply fresh_later.
    + intros k g [[-> ->]|[_ H]]%lookup_put; [done | by apply Hf].
    + intros k r Hk. destruct (Hr k r Hk). split; [done|]. by eapply row_ok_kept.
  - assert (fields_kept db (put_field f db)) as Hkept.
    { intros k g Hg. cbn. destruct (decide (k = tf_id f)) as [->|Hne]; [|exists g; by rewrite lookup_insert_ne].
      exists f. rewrite lookup_insert_eq. split; [done|]. rewrite H0 in Hg. by injection Hg as <-. }
    split; try done.
    + intros n Hle. destruct (Hfresh n Hle) as (Hn & ? & ? & ?). split_and!; try done.
      apply (fresh_put _ _ _ db); [done|]. by eapply fresh_known.
    + intros k g [[-> ->]|[_ H]]%lookup_put; [done | by apply Hf].
    + intros k r Hr'. destruct (Hr k r Hr'). split; [done|]. by eapply row_ok_kept.
  - split; try done.
    + intros n Hle. cbn in Hle |- *. destruct (Hfresh n ltac:(lia)) as (? & ? & ? & ?). split_and!; try done.
      apply (fresh_put _ _ _ db); [done|]. rewrite Hid. by apply fresh_later.
    + intros k x [[-> ->]|[_ H]]%lookup_put; [done | by apply Hm].
    + intros k l x y [[-> ->]|[Hk Hx]]%lookup_put [[-> ->]|[Hl Hy]]%lookup_put E Ax Ay; try done.
      * by rewrite (Hfree l y Hy (eq_sym E)) in Ay.
      * by rewrite (Hfree k x Hx E) in Ax.
      * by eapply Hm1.
  - split; try done.
    + intros n Hle. destruct (Hfresh n Hle) as (? & Hn & ? & ?). split_and!; try done.
      apply (fresh_put _ _ _ db); [done|]. by eapply fresh_known.
    + intros k x [[-> ->]|[_ H]]%lookup_put; [done | by apply Hm].
    + intros k l x y [[-> ->]|[Hk Hx]]%lookup_put [[-> ->]|[Hl Hy]]%lookup_put E Ax Ay; try done.
      * eapply Hm1; [exact H0 | exact Hy | congruence | done..].
      * eapply Hm1; [exact Hx | exact H0 | congruence | done..].
      * by eapply Hm1.
  - split; try done.
    + intros n Hle. cbn in Hle |- *. destruct (Hfresh n ltac:(lia)) as (? & ? & ? & ?). split_and!; try done.
      apply (fresh_put _ _ _ db); [done|]. rewrite Hid. by apply fresh_later.
    + intros k x [[-> ->]|[_ H]]%lookup_put; [|by apply Hi]. split; [done | by apply st_open].
    + intros k l x y [[-> ->]|[Hk Hx]]%lookup_put [[-> ->]|[Hl Hy]]%lookup_put Ec Et Ev; try done.
      * specialize (Hver l y Hy (eq_sym Ec) (eq_sym Et)). lia.
      * specialize (Hver k x Hx Ec Et). lia.
      * by eapply Hv.
  - destruct Hadv as [Horigin _ _ _]. unfold origin in Horigin. injection Horigin as _ _ Hc Ht Hver. split; try done.
    + intros n Hle. destruct (Hfresh n Hle) as (? & ? & Hn & ?). split_and!; try done.
      apply (fresh_put _ _ _ db); [done|]. by eapply fresh_known.
    + intros k x [[-> ->]|[_ H]]%lookup_put; [|by apply Hi]. split; [done|]. by apply Hst, (Hi _ _ H0).
    + intros k l x y [[-> ->]|[Hk Hx]]%lookup_put [[-> ->]|[Hl Hy]]%lookup_put Ec Et Ev; try done.
      * eapply Hv; [exact H0 | exact Hy | congruence..].
      * eapply Hv; [exact Hx | exact H0 | congruence..].
      * by eapply Hv.
  - split; try done.
    + intros n Hle. cbn in Hle |- *. destruct (Hfresh n ltac:(lia)) as (? & ? & ? & ?). split_and!; try done.
      apply (fresh_put _ _ _ db); [done|]. rewrite Hid. by apply fresh_later.
    + intros k x [[-> ->]|[_ H]]%lookup_put; [done | by apply Hr].
    + intros k l x y [[-> ->]|[Hk Hx]]%lookup_put [[-> ->]|[Hl Hy]]%lookup_put Ei Ef; try done.
      * by destruct (Hfree l y Hy (eq_sym Ei)).
      * by destruct (Hfree k x Hx Ei).
      * by eapply Hr1.
  - split; try done.
    + intros n Hle. destruct (Hfresh n Hle) as (? & ? & ? & Hn). split_and!; try done.
      apply (fresh_put _ _ _ db); [done|]. by eapply fresh_known.
    + intros k x [[-> ->]|[_ H]]%lookup_put; [done | by apply Hr].
    + intros k l x y [[-> ->]|[Hk Hx]]%lookup_put [[-> ->]|[Hl Hy]]%lookup_put Ei Ef; try done.
      * eapply Hr1; [exact H0 | exact Hy | congruence..].
      * eapply Hr1; [exact Hx | exact H0 | congruence..].
      * by eapply Hr1.
  - assert (forall k r, field_values (without_rows i db) !! k = Some r -> field_values db !! k = Some r) as Hsub
      by (intros k r [H _]%map_lookup_filter_Some; exact H).
    split; try done.
    + intros n Hle. destruct (Hfresh n Hle) as (? & ? & ? & Hn). split_and!; try done.
      apply map_lookup_filter_None. by left.
    + intros k r Hk%Hsub. by apply Hr.
    + intros k l r x Hk%Hsub Hl%Hsub. by apply Hr1.
Qed.
(** ** What is frozen *)

(** An instance goes on from where it was, and a frozen one keeps its rows. *)
Definition carried (db db' : FormDb) : Prop :=
  forall i x, form_instances db !! i = Some x -> exists x', form_instances db' !! i = Some x' /\ advances x x' /\
    (frozen x = true -> forall k r, vl_instance r = i -> field_values db' !! k = Some r <-> field_values db !! k = Some r).

#[global] Instance carried_refl : Reflexive carried.
Proof. intros db i x Hi. by exists x. Qed.

#[global] Instance carried_trans : Transitive carried.
Proof.
  intros a b c Hab Hbc i x Hi. destruct (Hab i x Hi) as (y & Hy & Axy & Rab). destruct (Hbc i y Hy) as (z & Hz & Ayz & Rbc).
  exists z. split; [done|]. split; [by etrans|]. intros Hf k r Hr. rewrite <-(Rab Hf k r Hr). apply Rbc; [|done].
  by apply (av_frozen _ _ Axy).
Qed.

Lemma unfrozen_not i x db : unfrozen i db -> form_instances db !! i = Some x -> frozen x = false.
Proof. intros (y & Hy & Hf) Hi. rewrite Hi in Hy. by injection Hy as ->. Qed.

Lemma write_carried db db' : write db db' -> forms_ok db -> carried db db'.
Proof.
  intros Hw Hok i x Hi.
  assert (forall d, form_instances d = form_instances db -> field_values d = field_values db ->
    exists x', form_instances d !! i = Some x' /\ advances x x' /\
      (frozen x = true -> forall k r, vl_instance r = i -> field_values d !! k = Some r <-> field_values db !! k = Some r)) as Hsame.
  { intros d Ei Ev. exists x. by rewrite Ei, Ev. }
  destruct Hw as [db' E Hn|f Hid|f0 f H0 Ht Hk Hs|m Hid Hsound Hfree|m0 m H0 Ha Hfield Hsound|j Hid Ho Hsg Hver|i0 j H0 Hadv Hst
    |r Hid Hun Hrow Hfree|r0 r H0 Hinst Hfield Hun Hrow|j Hun]; try (by apply Hsame).
  - unfold core in E. injection E as _ _ E3 E4. by apply Hsame.
  - exists x. cbn. rewrite lookup_insert_ne; [done|]. intros <-. rewrite Hid in Hi.
    by rewrite (proj1 (proj2 (proj2 (fo_fresh _ Hok _ (le_n _))))) in Hi.
  - cbn. destruct (decide (i = fi_id j)) as [->|Hne]; [|exists x; by rewrite lookup_insert_ne].
    exists j. rewrite lookup_insert_eq. rewrite H0 in Hi. injection Hi as ->. done.
  - exists x. split; [done|]. split; [done|]. intros Hf k y Hy. cbn. destruct (decide (k = vl_id r)) as [->|Hne].
    + rewrite lookup_insert_eq. split; [|intros E; exfalso].
      * intros [= ->]. rewrite Hy in Hun. by rewrite (unfrozen_not _ _ _ Hun Hi) in Hf.
      * rewrite Hid in E. by rewrite (proj2 (proj2 (proj2 (fo_fresh _ Hok _ (le_n _))))) in E.
    + by rewrite lookup_insert_ne.
  - exists x. split; [done|]. split; [done|]. intros Hf k y Hy. cbn. destruct (decide (k = vl_id r)) as [->|Hne].
    + rewrite lookup_insert_eq. split; intros E; exfalso.
      * injection E as ->. rewrite Hy in Hun. by rewrite (unfrozen_not _ _ _ Hun Hi) in Hf.
      * rewrite H0 in E. injection E as ->. rewrite Hinst, Hy in Hun. by rewrite (unfrozen_not _ _ _ Hun Hi) in Hf.
    + by rewrite lookup_insert_ne.
  - exists x. split; [done|]. split; [done|]. intros Hf k y Hy. cbn. rewrite map_lookup_filter_Some. cbn. split; [by intros [? _]|].
    intros E. split; [done|]. intros Ej. rewrite <-Ej, Hy in Hun. by rewrite (unfrozen_not _ _ _ Hun Hi) in Hf.
Qed.

(** ** Several writes *)

(** From consistent tables to consistent tables. *)
Definition reach (db db' : FormDb) : Prop := writes db db' /\ forms_ok db' /\ carried db db'.

Lemma forms_reach_refl db : forms_ok db -> reach db db.
Proof. by split; [apply rtc_refl|]. Qed.
Lemma forms_reach_write a b c : reach a b -> write b c -> reach a c.
Proof.
  intros (H & Hb & Hc) Hw. split; [by eapply rtc_r|]. split; [by eapply forms_write_ok|]. etrans; [exact Hc|]. by apply write_carried.
Qed.
Lemma forms_reach_trans a b c : reach a b -> reach b c -> reach a c.
Proof. intros (H & _ & Hc) (H' & Hok & Hc'). split; [by etrans|]. split; [done|]. by etrans. Qed.
Lemma forms_reach_ok a b : reach a b -> forms_ok b.
Proof. by intros (_ & H & _). Qed.
Lemma reach_elsewhere a b c : reach a b -> core c = core b -> (next_id b <= next_id c)%nat -> reach a c.
Proof. intros H E Hn. by eapply forms_reach_write; [|apply w_elsewhere]. Qed.
Lemma reach_one a b : forms_ok a -> write a b -> reach a b.
Proof. intros Ha Hw. eapply forms_reach_write; [by apply forms_reach_refl | done]. Qed.
End Writes.

(** ** The calls as writes *)

Lemma find_Ok {A} (t : gmap uuid A) i x : find t i = Ok x -> t !! i = Some x.
Proof. unfold find. destruct (t !! i); congruence. Qed.

Lemma field_with_key_Some t k db f :
  field_with_key t k db = Some f -> tf_template f = t /\ tf_key f = k /\ exists j, template_fields db !! j = Some f.
Proof. by intros [Hin%elem_of_rows [? ?]]%head_filter_Some. Qed.

Lemma row_of_Some i k db r : row_of i k db = Some r -> vl_instance r = i /\ vl_field r = k /\ exists j, field_values db !! j = Some r.
Proof. by intros [Hin%elem_of_rows [? ?]]%head_filter_Some. Qed.

(** Take a computation that returned apart. *)
Ltac walk :=
  repeat (inv_ok; match goal with
  | H : find _ _ = Ok _ |- _ => apply find_Ok in H
  | H : (_, _) = (_, _) |- _ => injection H as H; subst
  | H : (let '(_, _) := ?x in _) = Ok _ |- _ => destruct x
  | H : match ?x with _ => _ end = Ok _ |- _ => destruct x eqn:?; try discriminate H
  | H : _ = ?x |- _ => is_var x; subst x
  end).

Section Calls.
Context (uuid4 nonce : nat -> string) (py_str : json -> string) (instant_text : instant -> string) (spaced : json -> string).
Context (float_text : json -> string) (not_finite : spec_float -> json) (sha256 : string -> string).
Context (aes_encrypt : string -> string -> string -> string -> string)
  (aes_decrypt : string -> string -> string -> string -> option string).
Context (read_pdf : string -> option PdfDocument) (read_docx : string -> option (list string))
  (read_xlsx : string -> option (list (string * string * json))).
Context (pdf_names : string -> option (list string)) (pdf_write : string -> list (string * string) -> bool -> result exn string).
Context (docx_runs : string -> option (list (list string))) (docx_write : string -> list (list string) -> string).
Context (settings : FormSettings) (keyring : option Keyring).
Context `{!Inj (=) (=) uuid4}.

Notation forms_ok := (forms_ok uuid4).
Notation reach := (reach uuid4).

Lemma register_reach n who db t db' : forms_ok db -> register_template uuid4 n who db = Ok (t, db') -> reach db db'.
Proof.
  intros Hok H. unfold register_template in H. walk. eapply (reach_elsewhere _ db); [by apply forms_reach_refl | done | cbn; lia].
Qed.

Lemma activate_reach i who now db t db' : forms_ok db -> activate_template i who now db = Ok (t, db') -> reach db db'.
Proof.
  intros Hok H. unfold activate_template in H. walk. eapply (reach_elsewhere _ db); [by apply forms_reach_refl | done | cbn; lia].
Qed.

(** The fields found before an inspection are still there. *)
Definition same_fields (before db : FormDb) : Prop :=
  forall k f, template_fields before !! k = Some f -> exists f', template_fields db !! k = Some f' /\
    tf_template f' = tf_template f /\ tf_key f' = tf_key f /\ tf_sensitivity f' = tf_sensitivity f.

Lemma store_detected_reach before t db d :
  forms_ok before -> forms_ok db -> same_fields before db ->
  reach db (store_detected uuid4 before t db d) /\ same_fields before (store_detected uuid4 before t db d).
Proof.
  intros Hb Hok Hsame. unfold store_detected. destruct (field_with_key t (de_key d) before) as [f|] eqn:E.
  - apply field_with_key_Some in E as (Ht & Hk & j & Hj). pose proof (fo_fields _ _ Hb _ _ Hj) as <-.
    destruct (Hsame _ _ Hj) as (f' & Hf' & E1 & E2 & E3). split.
    + apply reach_one; [done..|]. eapply (w_field _ _ f'); [exact Hf' | by cbn..].
    + intros k g Hg. cbn. destruct (decide (k = tf_id f)) as [->|Hne]; [|rewrite lookup_insert_ne by done; by apply Hsame].
      rewrite lookup_insert_eq. rewrite Hj in Hg. injection Hg as <-. by eexists.
  - split.
    + apply reach_one; [done..|]. by apply w_field_new.
    + intros k g Hg. destruct (Hsame _ _ Hg) as (g' & Hg' & ?). exists g'. split; [|done]. cbn. rewrite lookup_insert_ne; [done|].
      intros <-. by rewrite (proj1 (fo_fresh _ _ Hok _ (le_n _))) in Hg'.
Qed.

Lemma store_all_reach before t l db :
  forms_ok before -> forms_ok db -> same_fields before db -> reach db (foldl (store_detected uuid4 before t) db l).
Proof.
  intros Hb. revert db. induction l as [|d l IH]; intros db Hok Hsame; [by apply forms_reach_refl|].
  destruct (store_detected_reach before t db d Hb Hok Hsame) as [Hr Hs]. cbn.
  eapply forms_reach_trans; [exact Hr|]. apply IH; [by eapply forms_reach_ok | done].
Qed.

Lemma inspect_reach fuel i content filename who db r db' :
  forms_ok db -> inspect uuid4 py_str sha256 read_pdf read_docx read_xlsx settings fuel i content filename who db = Some (Ok (r, db')) ->
  reach db db'.
Proof.
  intros Hok H. unfold inspect in H.
  match type of H with match ?x with _ => _ end = _ => destruct x as [t|] eqn:Et; [|discriminate H] end.
  destruct (inspect_template _ _ _ _ _ _ _ _) as [[x|]|]; [|discriminate H..]. cbn in H. injection H as <- <-.
  eapply (reach_elsewhere _ _ (foldl _ _ _)); [|done..].
  assert (reach db (put_template (inspected x t) db)) as Hput
    by (eapply (reach_elsewhere _ db); [by apply forms_reach_refl | done | cbn; lia]).
  eapply forms_reach_trans; [exact Hput|]. apply store_all_reach; [done | by eapply forms_reach_ok|].
  intros k f Hk. by exists f.
Qed.

Lemma upsert_reach field st sk tr approve who now db m db' :
  forms_ok db -> upsert_mapping uuid4 field st sk tr approve who now db = Ok (m, db') -> reach db db'.
Proof.
  intros Hok H. unfold upsert_mapping in H. apply bind_Ok_inv in H as (f & _ & H). apply bind_Ok_inv in H as (u & _ & H).
  destruct (mapping_for field db) as [m0|] eqn:Em; apply bind_Ok_inv in H as (u1 & _ & H); apply bind_Ok_inv in H as (u2 & _ & H);
    apply Ok_pair_inj in H as [<- <-]; (eapply (reach_elsewhere _ _ (put_mapping _ _)); [|done..]); (apply reach_one; [done..|]).
  - apply head_filter_Some in Em as [[k Hk]%elem_of_rows [Hf Ha]%andb_true_iff]. apply bool_decide_eq_true in Hf.
    destruct (fo_mappings _ _ Hok _ _ Hk) as [Hid Hs]. rewrite <-Hid in Hk.
    destruct approve; (eapply w_mapping; [exact Hk | done | done|]); intros Hap; [by cbn; eauto | by apply Hs].
  - apply w_mapping_new; [by destruct approve | | ].
    + destruct approve; intros Hap; [by cbn; eauto | done].
    + intros k x Hk E. destruct (active_mapping x) eqn:Ea; [|done]. exfalso. unfold mapping_for in Em.
      assert (x ∈ filter (fun m => (bool_decide (fp_field m = field) && active_mapping m) = true) (rows (field_mappings db))) as Hin.
      { apply list_elem_of_filter. split; [|apply elem_of_rows; by exists k]. rewrite Ea, andb_true_r. apply bool_decide_eq_true.
        by destruct approve. }
      destruct (filter _ _); [by apply not_elem_of_nil in Hin | done].
Qed.

Lemma highest_instance_ge c t db k x :
  form_instances db !! k = Some x -> fi_case x = c -> fi_template x = t -> fi_version x < highest_instance c t db + 1.
Proof.
  intros Hk Hc Ht. unfold highest_instance.
  assert (fi_version x ∈ fi_version <$> filter (fun i => fi_case i = c /\ fi_template i = t) (rows (form_instances db))) as Hin.
  { apply list_elem_of_fmap_2, list_elem_of_filter. split; [done | apply elem_of_rows; by exists k]. }
  revert Hin. induction (fi_version <$> _) as [|y l IH]; [by intros ?%not_elem_of_nil|]. intros [->|H]%elem_of_cons; cbn; [lia|].
  specialize (IH H). lia.
Qed.

Lemma create_reach case t who db i db' :
  forms_ok db -> create_instance uuid4 settings case t who db = Ok (i, db') -> reach db db'.
Proof.
  intros Hok H. unfold create_instance in H. walk. eapply (reach_elsewhere _ _ (put_instance _ _)); [|done..].
  apply reach_one; [done..|]. apply w_instance_new; [done | apply (bool_decide_unpack _); exact I | done|].
  intros k x Hk Hc Ht. by eapply highest_instance_ge.
Qed.
(** A form that is not frozen is written again. *)
Lemma put_open i x y db :
  forms_ok db -> form_instances db !! i = Some x -> frozen x = false -> origin y = origin x -> is_open y -> fi_signed y = fi_signed x ->
  write uuid4 db (put_instance y db).
Proof.
  intros Hok Hx Hf Ho Hy Hs. destruct (fo_instances _ _ Hok _ _ Hx) as [Hid Hst].
  destruct (advance_open x y) as [Ha Hsy]; [done..|]. eapply (w_instance _ _ x); [|exact Ha | done].
  unfold origin in Ho. injection Ho as -> _. by rewrite Hid.
Qed.

(** *** Prefilling *)

Lemma with_value_row n f v r r' :
  with_value spaced float_text aes_encrypt keyring n f v r = Ok r' ->
  vl_id r' = vl_id r /\ vl_instance r' = vl_instance r /\ vl_field r' = vl_field r /\
  (requires_encryption (tf_sensitivity f) = true -> vl_plain r' = vl_plain r).
Proof.
  unfold with_value. intros H. apply bind_Ok_inv in H as (r1 & H1 & H). injection H as <-.
  assert (vl_id r1 = vl_id r /\ vl_instance r1 = vl_instance r /\ vl_field r1 = vl_field r /\
    (requires_encryption (tf_sensitivity f) = true -> vl_plain r1 = vl_plain r)) as H1'.
  { destruct (requires_encryption _) eqn:Es; [destruct keyring as [k|]|]; inv_ok; subst; by split_and!. }
  by case_bool_decide.
Qed.

(** What is used of the fields that remain to be filled. *)
Definition to_fill (inst : uuid) (x : FormInstance) (l : list FormTemplateField) (db : FormDb) : Prop :=
  forms_ok db /\ (form_instances db !! inst = Some x /\ frozen x = false) /\ NoDup (tf_id <$> l) /\
  forall f, f ∈ l -> template_fields db !! tf_id f = Some f /\
    forall k x, field_values db !! k = Some x -> vl_instance x = inst -> vl_field x <> tf_id f.

Lemma to_fill_elsewhere inst x0 l a b :
  to_fill inst x0 l a -> core b = core a -> (next_id a <= next_id b)%nat -> to_fill inst x0 l b.
Proof.
  intros (Hok & Hun & Hnd & Hf) E Hn. split; [eapply (forms_write_ok uuid4); [by apply w_elsewhere | done]|].
  unfold core in E. injection E as E1 E2 E3 E4. split; [by rewrite E3|]. split; [done|].
  intros f Hin. rewrite E1, E4. by apply Hf.
Qed.

Lemma add_value_reach inst x0 f status source v r n db db' l :
  to_fill inst x0 (f :: l) db ->
  _add_field_value uuid4 nonce spaced float_text aes_encrypt keyring inst f status source v r n db = Ok db' ->
  reach db db' /\ to_fill inst x0 l db'.
Proof.
  intros (Hok & Hun & Hnd & Hf) H. unfold _add_field_value in H. apply bind_Ok_inv in H as (x & Hx & H). injection H as <-.
  assert (vl_id x = uuid4 (next_id db) /\ vl_instance x = inst /\ vl_field x = tf_id f /\
    (requires_encryption (tf_sensitivity f) = true -> vl_plain x = None)) as (Hid & Hi & Hfd & Hp).
  { destruct v as [t|]; [by apply with_value_row in Hx as (-> & -> & -> & ?) | by injection Hx as <-]. }
  assert (write uuid4 db (put_row x (drawn db))) as Hw.
  { apply w_row_new; [done | rewrite Hi; by exists x0 | |].
    - exists f. rewrite Hfd. split; [apply Hf; left | done].
    - intros k y Hk Ey. rewrite Hfd. rewrite Hi in Ey. by apply (proj2 (Hf f ltac:(left)) k y). }
  split; [by apply (reach_one uuid4)|]. split; [by eapply (forms_write_ok uuid4)|]. split; [done|].
  cbn in Hnd. apply NoDup_cons in Hnd as [Hni Hnd]. split; [done|].
  intros g Hg. destruct (Hf g ltac:(by right)) as [Hlk Hrows]. split; [done|].
  intros k y [[-> ->]|[_ Hk]]%lookup_put Ey; [|by eapply Hrows]. rewrite Hfd. intros E. apply Hni. rewrite E.
  by apply list_elem_of_fmap_2.
Qed.

Lemma from_source_elsewhere m s inst who today now db x db' :
  from_source not_finite aes_decrypt keyring m s inst who today now db = Ok (x, db') -> core db' = core db /\ next_id db' = next_id db.
Proof.
  unfold from_source. intros H. repeat case_match; try (injection H as <- <-; done); try done.
  unfold from_registry in H. destruct (resolve_for_use _ _ _ _ _ _); [|injection H as <- <-; done..].
  apply bind_Ok_inv in H as (y & _ & H). apply bind_Ok_inv in H as (z & _ & H). injection H as <- <-. done.
Qed.

Notation prefill_field := (prefill_field uuid4 nonce py_str instant_text spaced float_text not_finite aes_encrypt aes_decrypt keyring).
Notation prefill_fields := (prefill_fields uuid4 nonce py_str instant_text spaced float_text not_finite aes_encrypt aes_decrypt keyring).

Lemma prefill_field_reach s inst x0 who today now f l db n db' :
  to_fill inst x0 (f :: l) db -> prefill_field s inst who today now f db = Ok (n, db') -> reach db db' /\ to_fill inst x0 l db'.
Proof.
  intros Hfill H. unfold FormService.prefill_field in H. destruct (human_execution (tf_type f)).
  { apply bind_Ok_inv in H as (d & Hd & H). injection H as _ <-. by eapply add_value_reach. }
  destruct (approved_for (tf_id f) db ≫= _) as [m|].
  - apply bind_Ok_inv in H as ([x d] & Hx & H). apply from_source_elsewhere in Hx as [Ec En].
    assert (to_fill inst x0 (f :: l) d) as Hfill' by (eapply to_fill_elsewhere; [done | done | by rewrite En]).
    assert (reach db d) as Hr by (eapply (reach_elsewhere uuid4); [apply forms_reach_refl; apply Hfill | done | by rewrite En]).
    assert (exists d', reach d d' /\ to_fill inst x0 l d' /\ d' = db') as (d' & Hr' & Ht & ->).
    { destruct (no_value (so_value x)).
      - apply bind_Ok_inv in H as (d' & Hd & H). injection H as _ <-. exists d'. by eapply add_value_reach in Hd as [? ?].
      - apply bind_Ok_inv in H as (t & _ & H). apply bind_Ok_inv in H as (d' & Hd & H). injection H as _ <-.
        exists d'. by eapply add_value_reach in Hd as [? ?]. }
    split; [by eapply forms_reach_trans | done].
  - destruct (classify_unmapped _ _) as [[status source] code]. apply bind_Ok_inv in H as (d & Hd & H). injection H as _ <-.
    by eapply add_value_reach.
Qed.

Lemma prefill_fields_reach s inst x0 who today now l db n db' :
  to_fill inst x0 l db -> prefill_fields s inst who today now l db = Ok (n, db') -> reach db db' /\ to_fill inst x0 [] db'.
Proof.
  revert db n. induction l as [|f l IH]; intros db n Hfill H; [injection H as _ <-; split; [apply forms_reach_refl; apply Hfill | done]|].
  cbn in H. apply bind_Ok_inv in H as ([m d] & H1 & H). apply bind_Ok_inv in H as ([ns d2] & H2 & H). injection H as _ <-.
  apply (prefill_field_reach _ _ x0 _ _ _ _ l) in H1 as [Hr Hf]; [|done]. destruct (IH _ _ Hf H2) as [Hr' Hf'].
  split; [by eapply forms_reach_trans | done].
Qed.

Lemma fields_of_elem t db f : f ∈ fields_of t db <-> tf_template f = t /\ exists k, template_fields db !! k = Some f.
Proof. unfold fields_of. by rewrite py_sorted_perm, list_elem_of_filter, elem_of_rows. Qed.

Lemma rows_ids_nodup {A} (key : A -> uuid) (t : gmap uuid A) : (forall k x, t !! k = Some x -> key x = k) -> NoDup (key <$> rows t).
Proof.
  intros Hk. unfold rows. rewrite <-list_fmap_compose.
  rewrite (list_fmap_ext _ fst (map_to_list t)); [apply NoDup_fst_map_to_list|].
  intros n [k x] Hn. cbn. apply Hk, elem_of_map_to_list. by eapply list_elem_of_lookup_2.
Qed.

Lemma fields_of_nodup t db : forms_ok db -> NoDup (tf_id <$> fields_of t db).
Proof.
  intros Hok. unfold fields_of. rewrite py_sorted_perm.
  eapply sublist_NoDup; [apply (rows_ids_nodup tf_id (template_fields db)), (fo_fields _ _ Hok)|].
  apply fmap_sublist, sublist_filter.
Qed.

Lemma rows_removed_reach i x db :
  forms_ok db -> form_instances db !! i = Some x -> frozen x = false -> reach db (without_rows i db).
Proof. intros Hok Hx Hf. apply (reach_one uuid4); [done|]. apply w_rows_removed. by exists x. Qed.

Lemma to_fill_start i x db :
  forms_ok db -> form_instances db !! i = Some x -> frozen x = false ->
  to_fill i x (fields_of (fi_template x) db) (without_rows i db).
Proof.
  intros Hok Hx Hf. split; [by eapply (forms_reach_ok uuid4), rows_removed_reach|]. split; [done|]. split; [by apply fields_of_nodup|].
  intros f [_ [k Hk]]%fields_of_elem. split; [cbn; by rewrite (fo_fields _ _ Hok _ _ Hk)|].
  intros j y [_ Hne]%map_lookup_filter_Some. done.
Qed.

Lemma prefill_reach i who today now db x db' :
  forms_ok db ->
  prefill uuid4 nonce py_str instant_text spaced float_text not_finite aes_encrypt aes_decrypt keyring i who today now db = Ok (x, db') ->
  reach db db'.
Proof.
  intros Hok H. unfold prefill in H. apply bind_Ok_inv in H as (x0 & Hx%find_Ok & H).
  apply bind_Ok_inv in H as (u & Hf%raise_unless_Ok%negb_true_iff & H). apply bind_Ok_inv in H as (c & _ & H).
  apply bind_Ok_inv in H as (t & _ & H). cbv zeta in H. apply bind_Ok_inv in H as ([n d] & Hd & H). apply Ok_pair_inj in H as [_ <-].
  pose proof (rows_removed_reach _ _ _ Hok Hx Hf) as Hr0.
  apply (prefill_fields_reach _ _ x0) in Hd as [Hr (Hokd & [Hxd _] & _)]; [|by apply to_fill_start].
  eapply (reach_elsewhere _ _ (put_instance _ _)); [|done..]. eapply (forms_reach_write uuid4); [by eapply forms_reach_trans|].
  eapply (put_open i x0); [done..| |done]. unfold is_open. cbn. destruct (n.1 ++ _); decided.
Qed.

(** *** Fields, drafts, approval, signature, submission *)

Lemma typed_row f v n r r' :
  typed spaced float_text aes_encrypt keyring f v n r = Ok r' ->
  vl_id r' = vl_id r /\ vl_instance r' = vl_instance r /\ vl_field r' = vl_field r /\
  (requires_encryption (tf_sensitivity f) = true -> vl_plain r = None -> vl_plain r' = None).
Proof.
  unfold typed. destruct v as [t|]; [|by intros [= <-]]. intros H. apply bind_Ok_inv in H as (r1 & H1 & H). injection H as <-.
  destruct (requires_encryption _); [destruct keyring as [k|]; [|done]|]; inv_ok; subst; by split_and!.
Qed.

Lemma set_field_value_reach stored i k v st who now db r db' :
  forms_ok db -> set_field_value nonce py_str spaced float_text aes_encrypt keyring stored i k v st who now db = Ok (r, db') -> reach db db'.
Proof.
  intros Hok H. unfold set_field_value in H. apply bind_Ok_inv in H as (x0 & Hx%find_Ok & H).
  apply bind_Ok_inv in H as (u & Hf%raise_unless_Ok%negb_true_iff & H).
  destruct (field_with_key _ _ _) as [f|] eqn:Ef; [|done]. apply bind_Ok_inv in H as (u1 & _ & H).
  destruct (row_of i (tf_id f) db) as [r0|] eqn:Er; [|done]. apply bind_Ok_inv in H as (u2 & _ & H).
  apply bind_Ok_inv in H as (r1 & H1 & H). apply bind_Ok_inv in H as (u3 & _ & H). apply Ok_pair_inj in H as [_ <-].
  apply typed_row in H1 as (E1 & E2 & E3 & Hp). apply row_of_Some in Er as (Ei & Efd & j & Hj).
  apply field_with_key_Some in Ef as (_ & _ & jf & Hjf). pose proof (fo_fields _ _ Hok _ _ Hjf) as <-.
  destruct (fo_rows _ _ Hok _ _ Hj) as [Hid (f' & Hf' & Hpl)]. rewrite Efd, Hjf in Hf'. injection Hf' as <-.
  destruct (fo_instances _ _ Hok _ _ Hx) as [Hxid Hst].
  assert (reach db (drawn db)) as Hr0 by (eapply (reach_elsewhere _ _ db); [by apply forms_reach_refl | done | cbn; lia]).
  match goal with |- reach db (put_instance ?x (put_row ?r _)) =>
    eapply (forms_reach_write uuid4 _ (put_row r (drawn db))); [apply (forms_reach_write uuid4 _ (drawn db)); [exact Hr0|]|] end.
  - eapply (w_row _ _ r0); cbn; [by rewrite E1, Hid | done | done | rewrite E2, Ei; by exists x0|].
    exists f. cbn. rewrite E3, Efd. split; [done|]. intros Hs. apply Hp; [done | by apply Hpl].
  - match goal with |- write _ ?d _ => assert (forms_ok d) as Hokd end.
    { eapply (forms_write_ok uuid4 (drawn db)); [|by eapply forms_reach_ok]. eapply (w_row _ _ r0); cbn;
        [by rewrite E1, Hid | done | done | rewrite E2, Ei; by exists x0|].
      exists f. cbn. rewrite E3, Efd. split; [done|]. intros Hs. apply Hp; [done | by apply Hpl]. }
    destruct (stage_unfrozen _ Hst Hf) as [Ho _]. eapply (put_open i x0); [exact Hokd | exact Hx | exact Hf | | |];
      (destruct (_ && _); [first [done | decided] | done]).
Qed.

Lemma set_fields_reach stored i l who now db db' :
  forms_ok db -> set_fields nonce py_str spaced float_text aes_encrypt keyring stored i l who now db = Ok db' -> reach db db'.
Proof.
  revert db. induction l as [|[[k v] st] l IH]; intros db Hok H; [injection H as <-; by apply forms_reach_refl|].
  cbn in H. apply bind_Ok_inv in H as ([r d] & H1 & H). apply set_field_value_reach in H1; [|done].
  eapply forms_reach_trans; [exact H1|]. apply IH; [by eapply forms_reach_ok | done].
Qed.

Notation generate_draft := (generate_draft sha256 aes_decrypt pdf_names pdf_write docx_runs docx_write settings keyring).

Lemma put_standing i x y db :
  forms_ok db -> form_instances db !! i = Some x -> origin y = origin x -> standing y = standing x -> reach db (put_instance y db).
Proof.
  intros Hok Hx Ho Hs. destruct (fo_instances _ _ Hok _ _ Hx) as [Hid Hst]. apply (reach_one uuid4); [done|].
  eapply (w_instance _ _ x); [|by apply advances_standing | intros _; by eapply stage_ok_standing].
  unfold origin in Ho. injection Ho as -> _. by rewrite Hid.
Qed.

Lemma draft_reach i content flatten who db r db' :
  forms_ok db -> generate_draft i content flatten who db = Ok (r, db') -> reach db db'.
Proof.
  intros Hok H. unfold FormService.generate_draft in H. apply bind_Ok_inv in H as (x & Hx%find_Ok & H).
  do 6 (apply bind_Ok_inv in H as (? & _ & H)). apply bind_Ok_inv in H as (f & _ & H). apply Ok_pair_inj in H as [_ <-].
  eapply (reach_elsewhere _ _ (put_instance _ _)); [|done..].
  destruct (fo_instances _ _ Hok _ _ Hx) as [Hid Hst]. unfold drafted. destruct (_ && _) eqn:E.
  - apply andb_true_iff in E as [_ E%bool_decide_eq_true].
    assert (frozen x = false) as Hf by (apply open_not_frozen; by eapply list_within, E).
    apply (reach_one uuid4); [done|]. eapply (put_open i x); [done..|decided | done].
  - by eapply put_standing.
Qed.

Lemma prepare_reach i content flatten upload who db db' :
  forms_ok db -> prepare_form sha256 aes_decrypt pdf_names pdf_write docx_runs docx_write settings keyring i content flatten upload who db = Ok db' ->
  reach db db'.
Proof.
  intros Hok H. unfold prepare_form in H. apply bind_Ok_inv in H as (x & Hx & H). destruct (truthy_opt _); [injection H as <-; by apply forms_reach_refl|].
  apply bind_Ok_inv in H as (u & _ & H). apply bind_Ok_inv in H as ([r d] & Hd & H). apply draft_reach in Hd; [|done].
  apply bind_Ok_inv in H as (y & Hy & H). apply bind_Ok_inv in H as (u1 & _ & H). apply bind_Ok_inv in H as (doc & _ & H). injection H as <-.
  eapply forms_reach_trans; [exact Hd|]. destruct (form_instances d !! i) as [z|] eqn:Ez; [|done]. injection Hy as ->.
  eapply put_standing; [by eapply forms_reach_ok | exact Ez | done | done].
Qed.

Lemma worksheet_reach i doc db db' : forms_ok db -> store_worksheet i doc db = Ok db' -> reach db db'.
Proof.
  intros Hok H. unfold store_worksheet in H. apply bind_Ok_inv in H as (x & Hx & H). apply bind_Ok_inv in H as (u & _ & H). injection H as <-.
  destruct (form_instances db !! i) as [z|] eqn:Ez; [|done]. injection Hx as ->. by eapply put_standing.
Qed.

Lemma tell_signatory_core x s db : core (tell_signatory sha256 x s db) = core db /\ next_id (tell_signatory sha256 x s db) = next_id db.
Proof. unfold tell_signatory. repeat case_match; done. Qed.

Lemma approve_reach i h s title who now db x db' :
  forms_ok db -> approve_for_signature sha256 i h s title who now db = Ok (x, db') -> reach db db'.
Proof.
  intros Hok H. unfold approve_for_signature in H. apply bind_Ok_inv in H as (x0 & Hx%find_Ok & H).
  apply bind_Ok_inv in H as (u & Hs%raise_unless_Ok%bool_decide_eq_true & H). apply bind_Ok_inv in H as (u1 & _ & H).
  destruct (governed _ _) as [[d v]|]; [|done]. apply bind_Ok_inv in H as (u2 & _ & H). cbv zeta in H. apply Ok_pair_inj in H as [_ <-].
  destruct (tell_signatory_core (reviewed who now h s title x0) s (put_instance (reviewed who now h s title x0) db)) as [Ec En].
  eapply (reach_elsewhere _ _ (put_instance (reviewed who now h s title x0) db)); [|done | cbn; by rewrite En].
  destruct (fo_instances _ _ Hok _ _ Hx) as [Hid Hst]. apply (reach_one uuid4); [done|].
  assert (frozen x0 = false) as Hf by (apply open_not_frozen; by eapply list_within, Hs).
  destruct (stage_unfrozen _ Hst Hf) as [Ho Hsg]. eapply (w_instance _ _ x0).
  - unfold reviewed. destruct (fi_signature_required _); cbn; by rewrite Hid.
  - split; [unfold reviewed; by destruct (fi_signature_required _) | by rewrite Hf | by rewrite Hsg; intros [? ?] |].
    intros E. unfold frozen in Hf. rewrite E in Hf. by vm_compute in Hf.
  - intros _. unfold reviewed. cbn. destruct (fi_signature_required x0) eqn:Er; [apply st_pending | apply st_ready]; cbn; try done; by eexists.
Qed.

Lemma signed_reach i doc h pages who now db x db' :
  forms_ok db -> record_signed_document settings i doc h pages who now db = Ok (x, db') -> reach db db'.
Proof.
  intros Hok H. unfold record_signed_document in H. apply bind_Ok_inv in H as (x0 & Hx%find_Ok & H).
  apply bind_Ok_inv in H as (u & _ & H). apply bind_Ok_inv in H as (u1 & Hs%raise_unless_Ok%bool_decide_eq_true & H).
  destruct (governed _ _) as [[d v]|]; [|done]. do 3 (apply bind_Ok_inv in H as (? & _ & H)). cbv zeta in H. apply Ok_pair_inj in H as [_ <-].
  eapply (reach_elsewhere _ _ (put_instance _ _)); [|done..]. destruct (fo_instances _ _ Hok _ _ Hx) as [Hid Hst].
  apply (reach_one uuid4); [done|].
  assert (frozen x0 = true) as Hf by (apply bool_decide_eq_true; by eapply list_within, Hs).
  destruct Hst as [Ho _|Est Er Ea Ev Esg|Est|Est|Est]; [by rewrite (open_not_frozen _ Ho) in Hf | |rewrite Est in Hs; refuted Hs..].
  eapply (w_instance _ _ x0); [cbn; by rewrite Hid | |].
  - split; [done | done | by rewrite Esg; intros [? ?] | by rewrite Est].
  - intros _. apply st_signed; cbn; try done; by eexists.
Qed.

Lemma submission_reach i reference who now db x db' :
  forms_ok db -> record_external_submission i reference who now db = Ok (x, db') -> reach db db'.
Proof.
  intros Hok H. unfold record_external_submission in H. apply bind_Ok_inv in H as (x0 & Hx%find_Ok & H).
  apply bind_Ok_inv in H as (u & Hsg%raise_unless_Ok & H). apply bind_Ok_inv in H as (u1 & Hs%raise_unless_Ok%bool_decide_eq_true & H).
  cbv zeta in H. apply Ok_pair_inj in H as [_ <-].
  eapply (reach_elsewhere _ _ (put_instance _ _)); [|done..]. destruct (fo_instances _ _ Hok _ _ Hx) as [Hid Hst].
  apply (reach_one uuid4); [done|].
  assert (frozen x0 = true) as Hf by (apply bool_decide_eq_true; by eapply list_within, Hs).
  eapply (w_instance _ _ x0); [cbn; by rewrite Hid | |].
  - split; [done | done | done |]. intros E. rewrite E in Hs. refuted Hs.
  - intros _. destruct Hst as [Ho _|Est|Est Er Ea Ev Hd Hb|Est Er Ea Ev|Est];
      [by rewrite (open_not_frozen _ Ho) in Hf | rewrite Est in Hs; refuted Hs | | | rewrite Est in Hs; refuted Hs];
      (apply st_submitted; cbn; [done..| |by eexists]); [done | by rewrite Er].
Qed.
End Calls.

(** ** The forms of the program *)

Section Process.
Context (uuid4 nonce : nat -> string) (py_str : json -> string) (instant_text : instant -> string) (spaced : json -> string).
Context (float_text : json -> string) (not_finite : spec_float -> json) (sha256 : string -> string).
Context (aes_encrypt : string -> string -> string -> string -> string)
  (aes_decrypt : string -> string -> string -> string -> option string).
Context (read_pdf : string -> option PdfDocument) (read_docx : string -> option (list string))
  (read_xlsx : string -> option (list (string * string * json))).
Context (pdf_names : string -> option (list string)) (pdf_write : string -> list (string * string) -> bool -> result exn string).
Context (docx_runs : string -> option (list (list string))) (docx_write : string -> list (list string) -> string).
Context (settings : FormSettings) (keyring : option Keyring).

(** A call of the service, a job of the worker, or what other services do to their own
    rows: cases, entities, licences, documents and the registry of information. *)
Inductive form_step (db : FormDb) : FormDb -> Prop :=
| s_register n who t db' : register_template uuid4 n who db = Ok (t, db') -> form_step db db'
| s_inspect fuel i content filename who r db' :
    inspect uuid4 py_str sha256 read_pdf read_docx read_xlsx settings fuel i content filename who db = Some (Ok (r, db')) -> form_step db db'
| s_activate i who now t db' : activate_template i who now db = Ok (t, db') -> form_step db db'
| s_mapping field st sk tr approve who now m db' : upsert_mapping uuid4 field st sk tr approve who now db = Ok (m, db') -> form_step db db'
| s_create case t who i db' : create_instance uuid4 settings case t who db = Ok (i, db') -> form_step db db'
| s_prefill i who today now x db' :
    prefill uuid4 nonce py_str instant_text spaced float_text not_finite aes_encrypt aes_decrypt keyring i who today now db = Ok (x, db') ->
    form_step db db'
| s_fields i l who now db' : set_fields nonce py_str spaced float_text aes_encrypt keyring db i l who now db = Ok db' -> form_step db db'
| s_prepare i content flatten upload who db' :
    prepare_form sha256 aes_decrypt pdf_names pdf_write docx_runs docx_write settings keyring i content flatten upload who db = Ok db' ->
    form_step db db'
| s_worksheet i d db' : store_worksheet i d db = Ok db' -> form_step db db'
| s_approve i h s title who now x db' : approve_for_signature sha256 i h s title who now db = Ok (x, db') -> form_step db db'
| s_signed i d h pages who now x db' : record_signed_document settings i d h pages who now db = Ok (x, db') -> form_step db db'
| s_submitted i reference who now x db' : record_external_submission i reference who now db = Ok (x, db') -> form_step db db'
| s_elsewhere db' : core db' = core db -> templates db' = templates db -> (next_id db <= next_id db')%nat -> form_step db db'.

Definition form_steps : FormDb -> FormDb -> Prop := rtc form_step.

Context `{!Inj (=) (=) uuid4}.

Lemma step_reach db db' : form_step db db' -> forms_ok uuid4 db -> reach uuid4 db db'.
Proof.
  intros Hs Hok. destruct Hs.
  - by eapply register_reach.
  - by eapply inspect_reach.
  - by eapply activate_reach.
  - by eapply upsert_reach.
  - by eapply create_reach.
  - by eapply prefill_reach.
  - by eapply set_fields_reach.
  - by eapply prepare_reach.
  - by eapply worksheet_reach.
  - by eapply approve_reach.
  - by eapply signed_reach.
  - by eapply submission_reach.
  - eapply (reach_elsewhere uuid4 _ db); [by apply forms_reach_refl | done..].
Qed.

Lemma steps_reach db db' : form_steps db db' -> forms_ok uuid4 db -> reach uuid4 db db'.
Proof.
  induction 1 as [db|a b c Hs _ IH]; intros Hok; [by apply forms_reach_refl|].
  apply step_reach in Hs; [|done]. eapply forms_reach_trans; [exact Hs|]. apply IH. by eapply forms_reach_ok.
Qed.

(** Tables in which no form was begun. *)
Definition no_forms (db : FormDb) : Prop := core db = (∅, ∅, ∅, ∅).

Lemma no_forms_ok db : no_forms db -> forms_ok uuid4 db.
Proof.
  unfold no_forms, core. intros [= E1 E2 E3 E4]. split; rewrite ?E1, ?E2, ?E3, ?E4; try (intros *; rewrite ?lookup_empty; done).
Qed.
End Process.
