(* ===== verification/FormScenario.v ===== *)
(** * A form from its template to its submission

    Concrete tables and a sequence of calls: a template is registered, inspected,
    activated and mapped, a form of it prefilled and completed by hand, its draft
    generated, approved, signed and submitted.  Every state is shown reachable; the
    properties are applied to them. *)
From Stdlib Require Import Ascii SpecFloat Relations.
From stdpp Require Import pretty.
From S2P Require Import InfoRegistry.
From S2P Require Import Prelude Vocabulary Terms PyDate PyJson Crypto Roles LicensingLog InfoRules FormFields FormInspection FormFilling FormService FormSafety.
Open Scope Z_scope.

(** ** The world outside *)

Definition form_ids (n : nat) : uuid := "form-" +:+ pretty n.
Instance form_ids_inj : Inj (=) (=) form_ids.
Proof. intros a b E. apply (inj (String.append "form-")) in E. by apply (inj pretty) in E. Qed.

Definition one_nonce (_ : nat) : string := "n".
Definition json_text (_ : json) : string := "".
Definition time_text (_ : instant) : string := "".
Definition infinite (_ : spec_float) : json := JNull.
(** A digest in lower case, as those the documents carry. *)
Definition digest (s : string) : string := str_lower s.
Definition seal_text (_ _ p _ : string) : string := p.
Definition open_text (_ _ c _ : string) : option string := Some c.
Definition no_pdf (_ : string) : option PdfDocument := None.
Definition no_xlsx (_ : string) : option (list (string * string * json)) := None.
Definition template_text : list string := ["Company {{company_name}}, {{ tax-id }}"; "Signed: {{signature}}"].
Definition open_docx (c : string) : option (list string) := if bool_decide (c = "template") then Some template_text else None.
Definition no_names (_ : string) : option (list string) := None.
Definition no_pdf_copy (_ : string) (_ : list (string * string)) (_ : bool) : result exn string := Err FillingError.
Definition open_runs (c : string) : option (list (list string)) := if bool_decide (c = "template") then Some ((fun t => [t]) <$> template_text) else None.
Definition joined_runs (_ : string) (l : list (list string)) : string := String.concat "|" (String.concat "" <$> l).
Definition form_options : FormSettings :=
  {| form_preparation_enabled := true; form_max_template_bytes := 1000; form_pdf_filling_enabled := true;
     form_docx_filling_enabled := true; form_signature_automation_enabled := false; form_flatten_after_approval_enabled := false |}.
Definition form_keys : option Keyring := Some {| kr_keys := [("k1", str_repeat 32 "x")]; active_key_id := "k1" |}.

Definition fay : CurrentActor := {| actor_id := "fay"; roles := [] |}.
Definition gus : CurrentActor := {| actor_id := "gus"; roles := [] |}.

Notation a_form_step := (form_step form_ids one_nonce json_text time_text json_text json_text infinite digest seal_text open_text
  no_pdf open_docx no_xlsx no_names no_pdf_copy open_runs joined_runs form_options form_keys).
Notation some_form_steps := (form_steps form_ids one_nonce json_text time_text json_text json_text infinite digest seal_text open_text
  no_pdf open_docx no_xlsx no_names no_pdf_copy open_runs joined_runs form_options form_keys).

(** ** The tables at the start *)

Definition document (version sha : string) (entity : option string) : GovernedDocument :=
  {| gd_current := Some version; gd_lifecycle := value LifecycleStatus.ACTIVE; gd_approval := value ApprovalStatus.APPROVED;
     gd_sha256 := sha; gd_entity := entity |}.
Definition version (sha : string) : GovernedVersion := {| gx_storage := value StorageStatus.AVAILABLE; gx_sha256 := sha |}.

Definition blank_forms : FormDb :=
  {| templates := ∅; template_fields := ∅; field_mappings := ∅; form_instances := ∅; field_values := ∅;
     cases := {["case" := {| cz_id := "case"; cz_key := "C-1"; cz_entity := "le"; cz_license := None; cz_vendor := None;
                             cz_owner := Some "olga"; cz_attrs := [("title", RText "Astra")] |}]};
     entities := {["le" := {| ez_key := "astra"; ez_name := "Astra LLC"; ez_attrs := [] |}]}; licences := ∅;
     documents := {["doc" := document "doc-1" "template" None; "draft" := document "draft-1" "ab12" (Some "astra");
                    "signed" := document "signed-1" "cd34" (Some "astra")]};
     document_versions := {["doc-1" := version "template"; "draft-1" := version "ab12"; "signed-1" := version "cd34"]};
     registry := {| definitions := ∅; values := ∅; usages := []; owners := []; log := {| audits := []; notices := [] |} |};
     next_id := 0 |}.

Lemma blank_forms_ok : forms_ok form_ids blank_forms.
Proof. by apply no_forms_ok. Qed.

(** ** The calls *)

Definition and_then {A} (r : result exn (A * FormDb)) (db : FormDb) : FormDb := match r with Ok (_, db') => db' | Err _ => db end.
Definition and_done (r : result exn FormDb) (db : FormDb) : FormDb := match r with Ok db' => db' | Err _ => db end.

Definition the_template : NewTemplate :=
  {| nt_key := "renewal"; nt_family := "STATE_RENEWAL"; nt_document := "doc"; nt_version := None; nt_format := Some "DOCX";
     nt_from := None; nt_to := None; nt_sha256 := None |}.

Definition do_register := register_template form_ids the_template fay.
Definition do_inspect := inspect form_ids json_text digest no_pdf open_docx no_xlsx form_options 9 (form_ids 0) "template" "renewal.docx" fay.
Definition do_activate := activate_template (form_ids 0) gus 5.
Definition do_map (n : nat) (k : string) (approve : bool) := upsert_mapping form_ids (form_ids n) "COMPLIANCE_CASE" (Some k) None approve gus 5.
Definition do_create := create_instance form_ids form_options "case" (form_ids 0) fay.
Definition the_form : uuid := form_ids 6.
Definition do_prefill := prefill form_ids one_nonce json_text time_text json_text json_text infinite seal_text open_text form_keys the_form fay 0 5.
Definition tax_number : list (string * option string * option string) := [("tax_id", Some "12-3456789", None)].
Definition other_tax_number : list (string * option string * option string) := [("tax_id", Some "98-7654321", None)].
Definition do_set l db := set_fields one_nonce json_text json_text json_text seal_text form_keys db the_form l fay 6 db.
Definition do_prepare := prepare_form digest open_text no_names no_pdf_copy open_runs joined_runs form_options form_keys the_form "template" false
  (fun _ => Ok "draft") fay.
Definition do_approve (h : string) := approve_for_signature digest the_form h (Some "dan") (Some "CEO") gus 7.
Definition do_sign (d h : string) := record_signed_document form_options the_form d h (Some 2) gus 8.
Definition do_submit := record_external_submission the_form "R-1" gus 9.

Definition registered_db := and_then (do_register blank_forms) blank_forms.
Definition inspected_db := match do_inspect registered_db with Some r => and_then r registered_db | None => registered_db end.
Definition activated_db := and_then (do_activate inspected_db) inspected_db.
Definition half_mapped_db := and_then (do_map 1 "title" true activated_db) activated_db.
Definition mapped_db := and_then (do_map 2 "absent" true half_mapped_db) half_mapped_db.
Definition created_db := and_then (do_create mapped_db) mapped_db.
Definition prefilled_db := and_then (do_prefill created_db) created_db.
Definition answered_db := and_done (do_set tax_number prefilled_db) prefilled_db.
Definition complete_db := and_done (do_set tax_number answered_db) answered_db.
Definition drafted_db := and_done (do_prepare complete_db) complete_db.
Definition corrected_db := and_done (do_set other_tax_number drafted_db) drafted_db.
Definition approved_db := and_then (do_approve "ab12" drafted_db) drafted_db.
Definition signed_db := and_then (do_sign "signed" "cd34" approved_db) approved_db.
Definition submitted_db := and_then (do_submit signed_db) signed_db.

Definition status_of (db : FormDb) : option string := fi_status <$> form_instances db !! the_form.
Example statuses :
  status_of <$> [mapped_db; created_db; prefilled_db; answered_db; complete_db; drafted_db; corrected_db; approved_db; signed_db; submitted_db] =
  [None; Some "DRAFT"; Some "MISSING_INFORMATION"; Some "MISSING_INFORMATION"; Some "PREFILLED"; Some "READY_FOR_REVIEW";
   Some "READY_FOR_REVIEW"; Some "SIGNATURE_PENDING"; Some "SIGNED"; Some "SUBMITTED_EXTERNALLY"].
Proof. vm_compute. reflexivity. Qed.

(** ** Every state is reached *)

Lemma and_then_ok {A} (r : result exn (A * FormDb)) db : is_ok r = true -> exists x, r = Ok (x, and_then r db).
Proof. destruct r as [[x d]|]; [by exists x | done]. Qed.
Lemma and_done_ok (r : result exn FormDb) db : is_ok r = true -> r = Ok (and_done r db).
Proof. by destruct r. Qed.

Ltac called r db d := destruct (and_then_ok r db) as [? ?]; [vm_compute; reflexivity|]; change (and_then r db) with d in *.

Lemma registered_step : a_form_step blank_forms registered_db.
Proof. called (do_register blank_forms) blank_forms registered_db. eapply s_register. eassumption. Qed.

Lemma inspected_step : a_form_step registered_db inspected_db.
Proof.
  destruct (do_inspect registered_db) as [r|] eqn:E; [|by vm_compute in E].
  assert (is_ok r = true) as Hr by (assert (is_ok <$> do_inspect registered_db = Some true) as H by (vm_compute; reflexivity); rewrite E in H; by injection H).
  destruct (and_then_ok r registered_db Hr) as [x Ex]. unfold inspected_db. rewrite E. rewrite Ex in E. eapply s_inspect. eassumption.
Qed.

Lemma activated_step : a_form_step inspected_db activated_db.
Proof. called (do_activate inspected_db) inspected_db activated_db. eapply s_activate. eassumption. Qed.

Lemma half_mapped_step : a_form_step activated_db half_mapped_db.
Proof. called (do_map 1 "title" true activated_db) activated_db half_mapped_db. eapply s_mapping. eassumption. Qed.

Lemma mapped_step : a_form_step half_mapped_db mapped_db.
Proof. called (do_map 2 "absent" true half_mapped_db) half_mapped_db mapped_db. eapply s_mapping. eassumption. Qed.

Lemma form_created_step : a_form_step mapped_db created_db.
Proof. called (do_create mapped_db) mapped_db created_db. eapply s_create. eassumption. Qed.

Lemma prefilled_step : a_form_step created_db prefilled_db.
Proof. called (do_prefill created_db) created_db prefilled_db. eapply s_prefill. eassumption. Qed.

Lemma set_step l a b : is_ok (do_set l a) = true -> and_done (do_set l a) a = b -> a_form_step a b.
Proof. intros H%(and_done_ok _ a) <-. eapply s_fields. exact H. Qed.

Lemma answered_step : a_form_step prefilled_db answered_db.
Proof. apply (set_step tax_number); [vm_compute; reflexivity | reflexivity]. Qed.

Lemma complete_step : a_form_step answered_db complete_db.
Proof. apply (set_step tax_number); [vm_compute; reflexivity | reflexivity]. Qed.

Lemma prepare_step a b : is_ok (do_prepare a) = true -> and_done (do_prepare a) a = b -> a_form_step a b.
Proof. intros H%(and_done_ok _ a) <-. eapply s_prepare. exact H. Qed.

Lemma drafted_step : a_form_step complete_db drafted_db.
Proof. apply prepare_step; [vm_compute; reflexivity | reflexivity]. Qed.

Lemma form_approved_step : a_form_step drafted_db approved_db.
Proof. called (do_approve "ab12" drafted_db) drafted_db approved_db. eapply s_approve. eassumption. Qed.

Lemma signed_step : a_form_step approved_db signed_db.
Proof. called (do_sign "signed" "cd34" approved_db) approved_db signed_db. eapply s_signed. eassumption. Qed.

Lemma submitted_step : a_form_step signed_db submitted_db.
Proof. called (do_submit signed_db) signed_db submitted_db. eapply s_submitted. eassumption. Qed.

Lemma then_steps a b c : some_form_steps a b -> some_form_steps b c -> some_form_steps a c.
Proof. unfold form_steps. apply transitivity. Qed.

Lemma created_steps : some_form_steps blank_forms created_db.
Proof.
  eapply rtc_l; [exact registered_step|]. eapply rtc_l; [exact inspected_step|]. eapply rtc_l; [exact activated_step|].
  eapply rtc_l; [exact half_mapped_step|]. eapply rtc_l; [exact mapped_step|]. exact (rtc_once _ _ form_created_step).
Qed.

Lemma drafted_steps : some_form_steps created_db drafted_db.
Proof.
  eapply rtc_l; [exact prefilled_step|]. eapply rtc_l; [exact answered_step|]. eapply rtc_l; [exact complete_step|].
  exact (rtc_once _ _ drafted_step).
Qed.

Lemma approved_steps : some_form_steps blank_forms approved_db.
Proof. eapply then_steps; [exact created_steps|]. eapply rtc_r; [exact drafted_steps | exact form_approved_step]. Qed.

Lemma submitted_steps : some_form_steps approved_db submitted_db.
Proof. eapply rtc_l; [exact signed_step|]. exact (rtc_once _ _ submitted_step). Qed.

Lemma reached_forms_ok db : some_form_steps blank_forms db -> forms_ok form_ids db.
Proof. intros H. eapply forms_reach_ok, steps_reach; [exact _ | exact H | apply blank_forms_ok]. Qed.

Lemma blank : no_forms blank_forms.
Proof. done. Qed.
Lemma created_ok : forms_ok form_ids created_db.
Proof. exact (reached_forms_ok _ created_steps). Qed.
Lemma drafted_reached : some_form_steps blank_forms drafted_db.
Proof. exact (then_steps _ _ _ created_steps drafted_steps). Qed.
Lemma prefilled_reached : some_form_steps blank_forms prefilled_db.
Proof. exact (then_steps _ _ _ created_steps (rtc_once _ _ prefilled_step)). Qed.
Lemma mapped_reached : some_form_steps blank_forms mapped_db.
Proof.
  eapply rtc_l; [exact registered_step|]. eapply rtc_l; [exact inspected_step|]. eapply rtc_l; [exact activated_step|].
  eapply rtc_l; [exact half_mapped_step|]. exact (rtc_once _ _ mapped_step).
Qed.

(** The form in a state. *)
Definition form_in (db : FormDb) : FormInstance := default (new_instance "" {| cz_id := ""; cz_key := ""; cz_entity := ""; cz_license := None;
  cz_vendor := None; cz_owner := None; cz_attrs := [] |} {| ft_id := ""; ft_key := ""; ft_family := ""; ft_version := 0; ft_document := "";
  ft_format := ""; ft_detection := ""; ft_status := ""; ft_from := None; ft_to := None; ft_field_count := None; ft_sha256 := None;
  ft_reviewed_by := None; ft_reviewed_at := None |} "" "" 0 fay) (form_instances db !! the_form).

(** A form that was never prefilled is drafted and approved without the signature its
    template has a field for. *)
Lemma never_prefilled :
  status_of (let db := and_done (do_prepare created_db) created_db in and_then (do_approve "ab12" db) db) = Some "READY_FOR_SUBMISSION".
Proof. vm_compute. reflexivity. Qed.
