(* ===== verification/FormPrefill.v ===== *)
(** * What prefilling a form does

    Every field of the template gets one row, decided by its type and its approved mapping;
    the status of the form and its list of missing fields follow from the rows. *)
From Stdlib Require Import Ascii SpecFloat Relations.
From S2P Require Import InfoRegistry.
From S2P Require Import Prelude Vocabulary Terms PyDate PyJson Crypto Roles LicensingLog InfoRules FormFields FormInspection FormFilling FormService FormSafety FormScenario.
Open Scope Z_scope.

(** What a row says of its field: who executes it, and by which mapping it was filled. *)
Definition answers (db : FormDb) (f : FormTemplateField) (r : FormFieldValue) : Prop :=
  (human_execution (tf_type f) = true ->
     vl_status r = value FormFieldValueStatus.SIGNATURE_REQUIRED /\ vl_plain r = None /\ vl_encrypted r = None) /\
  (vl_status r = value FormFieldValueStatus.AUTO_FILLED ->
     human_execution (tf_type f) = false /\ (vl_plain r <> None \/ vl_encrypted r <> None) /\
     exists m, approved_for (tf_id f) db = Some m /\ fp_requires_review m = false /\ vl_source_type r = fp_source_type m).

Lemma Forall2_elem_l {A B} (P : A -> B -> Prop) l k x : Forall2 P l k -> x ∈ l -> exists y, y ∈ k /\ P x y.
Proof.
  intros H [n Hn]%list_elem_of_lookup. destruct (Forall2_lookup_l _ _ _ _ _ H Hn) as (y & Hy & ?). exists y.
  split; [by eapply list_elem_of_lookup_2 | done].
Qed.

Lemma Forall2_elem_r {A B} (P : A -> B -> Prop) l k y : Forall2 P l k -> y ∈ k -> exists x, x ∈ l /\ P x y.
Proof. intros H%Forall2_flip Hy. by apply (Forall2_elem_l _ _ _ _ H) in Hy. Qed.

Section Prefill.
Context (uuid4 nonce : nat -> string) (py_str : json -> string) (instant_text : instant -> string) (spaced : json -> string).
Context (float_text : json -> string) (not_finite : spec_float -> json).
Context (aes_encrypt : string -> string -> string -> string -> string)
  (aes_decrypt : string -> string -> string -> string -> option string).
Context (keyring : option Keyring).
Context `{!Inj (=) (=) uuid4}.

Notation prefill_field := (prefill_field uuid4 nonce py_str instant_text spaced float_text not_finite aes_encrypt aes_decrypt keyring).
Notation prefill_fields := (prefill_fields uuid4 nonce py_str instant_text spaced float_text not_finite aes_encrypt aes_decrypt keyring).
Notation prefill := (prefill uuid4 nonce py_str instant_text spaced float_text not_finite aes_encrypt aes_decrypt keyring).
Notation add_value := (_add_field_value uuid4 nonce spaced float_text aes_encrypt keyring).

(** One more row, and nothing else of the forms. *)
Definition row_added (inst : uuid) (f : FormTemplateField) (r : FormFieldValue) (db db' : FormDb) : Prop :=
  field_values db' = <[vl_id r := r]> (field_values db) /\ field_values db !! vl_id r = None /\
  template_fields db' = template_fields db /\ field_mappings db' = field_mappings db /\
  vl_instance r = inst /\ vl_field r = tf_id f.

Lemma with_value_fields n f v r r' :
  with_value spaced float_text aes_encrypt keyring n f v r = Ok r' ->
  vl_source_type r' = vl_source_type r /\
  (vl_status r' = value FormFieldValueStatus.NEEDS_INFORMATION \/
   vl_status r' = vl_status r /\ (vl_plain r' <> None \/ vl_encrypted r' <> None)).
Proof.
  unfold with_value. intros H. apply bind_Ok_inv in H as (r1 & H1 & H). injection H as <-.
  assert (vl_source_type r1 = vl_source_type r /\ (vl_status r1 = value FormFieldValueStatus.NEEDS_INFORMATION \/
    vl_status r1 = vl_status r /\ (vl_plain r1 <> None \/ vl_encrypted r1 <> None))) as H1'.
  { destruct (requires_encryption _); [destruct keyring as [k|]|]; inv_ok; subst; split; auto; right; split; auto. }
  by case_bool_decide.
Qed.

Lemma added inst x0 f l status source v rc n db db' :
  to_fill uuid4 inst x0 (f :: l) db -> add_value inst f status source v rc n db = Ok db' ->
  exists r, row_added inst f r db db' /\ vl_source_type r = source /\
    match v with
    | None => vl_status r = status /\ vl_plain r = None /\ vl_encrypted r = None
    | Some _ => vl_status r = value FormFieldValueStatus.NEEDS_INFORMATION \/ vl_status r = status /\ (vl_plain r <> None \/ vl_encrypted r <> None)
    end.
Proof.
  intros (Hok & _) H. unfold _add_field_value in H. apply bind_Ok_inv in H as (r & Hr & H). injection H as <-. exists r.
  assert (field_values db !! uuid4 (next_id db) = None) as Hf by apply (fo_fresh _ _ Hok _ (le_n _)).
  destruct v as [t|]; [|injection Hr as <-; by split_and!].
  pose proof (with_value_fields _ _ _ _ _ Hr) as [Es Hst]. apply with_value_row in Hr as (Hid & Hi & Hfd & _).
  cbn in Hid, Hi, Hfd, Es, Hst. unfold row_added. cbn. rewrite Hid. by split_and!.
Qed.

Lemma row_added_core inst f r a b c : core b = core a -> row_added inst f r b c -> row_added inst f r a c.
Proof. unfold core, row_added. intros [= E1 E2 E3 E4]. by rewrite E1, E2, E4. Qed.

Lemma core_approved a b f : core b = core a -> approved_for f b = approved_for f a.
Proof. unfold core, approved_for. by intros [= _ -> _ _]. Qed.

Lemma outstanding_value r s : s ∈ [FormFieldValueStatus.NEEDS_INFORMATION; FormFieldValueStatus.NEEDS_REVIEW] -> vl_status r = value s -> outstanding r = true.
Proof. unfold outstanding. intros Hs ->. apply bool_decide_eq_true. by apply list_elem_of_fmap_2. Qed.

Ltac off := intros E; exfalso; congruence.

Lemma prefill_field_row s inst x0 who today now f l db n db' :
  to_fill uuid4 inst x0 (f :: l) db -> prefill_field s inst who today now f db = Ok (n, db') ->
  exists r, row_added inst f r db db' /\ answers db f r /\ (n.1 <> [] -> outstanding r = true).
Proof.
  intros Hfill H. unfold FormService.prefill_field in H. destruct (human_execution (tf_type f)) eqn:Eh.
  { apply bind_Ok_inv in H as (d & Hd & H). injection H as <- <-. eapply added in Hd as (r & Hr & Es & Hst & Hp & He); [|done].
    exists r. split; [done|]. split; [|done]. split; [by intros _; split_and!|]. rewrite Hst. intros E. by vm_compute in E. }
  destruct (approved_for (tf_id f) db) as [m|] eqn:Em; cbn [mbind option_bind] in H.
  2: { rewrite (surjective_pairing (classify_unmapped _ _)) in H. unfold classify_unmapped in H. rewrite Eh in H. cbn [fst snd] in H.
    apply bind_Ok_inv in H as (d & Hd & H). injection H as <- <-. eapply added in Hd as (r & Hr & Es & Hst & Hp & He); [|done].
    exists r. split; [done|]. split.
    - split; [by rewrite Eh|]. rewrite Hst. intros E. exfalso. destruct (tf_required f); by vm_compute in E.
    - cbn. destruct (tf_required f); [|done]. intros _. eapply outstanding_value; [|exact Hst]. right. left. }
  destruct (is_usable (spec_of m)) eqn:Eu.
  2: { unfold classify_unmapped in H. rewrite Eh in H.
    apply bind_Ok_inv in H as (d & Hd & H). injection H as <- <-. eapply added in Hd as (r & Hr & Es & Hst & Hp & He); [|done].
    exists r. split; [done|]. split.
    - split; [by rewrite Eh|]. rewrite Hst. intros E. exfalso. destruct (tf_required f); by vm_compute in E.
    - cbn. destruct (tf_required f); [|done]. intros _. eapply outstanding_value; [|exact Hst]. right. left. }
  apply bind_Ok_inv in H as ([x d] & Hx & H). apply from_source_elsewhere in Hx as [Ec En].
  assert (to_fill uuid4 inst x0 (f :: l) d) as Hfill' by (eapply to_fill_elsewhere; [done.. | by rewrite En]).
  destruct (no_value (so_value x)).
  - apply bind_Ok_inv in H as (d' & Hd & H). injection H as <- <-. eapply added in Hd as (r & Hr & Es & Hst & Hp & He); [|done].
    exists r. split; [by eapply row_added_core|]. split.
    + split; [by rewrite Eh|]. rewrite Hst. intros E. by vm_compute in E.
    + intros _. eapply outstanding_value; [|exact Hst]. left.
  - apply bind_Ok_inv in H as (t & _ & H). apply bind_Ok_inv in H as (d' & Hd & H). injection H as <- <-.
    eapply added in Hd as (r & Hr & Es & Hst); [|done]. exists r. split; [by eapply row_added_core|]. split; [|done].
    split; [by rewrite Eh|]. intros E. split; [done|]. destruct Hst as [Hst|[Hst Hv]]; [rewrite Hst in E; by vm_compute in E|].
    split; [done|]. exists m.
    apply andb_true_iff in Eu as [_ Eu%negb_true_iff]. by split_and!.
Qed.

(** The rows a list of fields gets. *)
Lemma prefill_fields_rows s inst x0 who today now l db n db' :
  to_fill uuid4 inst x0 l db -> prefill_fields s inst who today now l db = Ok (n, db') ->
  exists rs, Forall2 (fun f r => vl_instance r = inst /\ vl_field r = tf_id f /\ answers db f r) l rs /\
    (forall k v, field_values db' !! k = Some v <-> field_values db !! k = Some v \/ v ∈ rs /\ vl_id v = k) /\
    (n.1 <> [] -> exists r, r ∈ rs /\ outstanding r = true).
Proof.
  revert db n. induction l as [|f l IH]; intros db n Hfill H.
  { injection H as <- <-. exists []. split; [constructor|]. split; [|done]. intros k v. rewrite elem_of_nil. intuition. }
  cbn in H. apply bind_Ok_inv in H as ([m d] & H1 & H). apply bind_Ok_inv in H as ([ns d2] & H2 & H). injection H as <- <-.
  destruct (prefill_field_row _ _ x0 _ _ _ _ l _ _ _ Hfill H1) as (r & (Ev & Hnew & Et & Em & Hi & Hf) & Ha & Hm).
  apply (prefill_field_reach _ _ _ _ _ _ _ _ _ _ _ _ x0 _ _ _ _ l) in H1 as [_ Hfill']; [|done].
  destruct (IH _ _ Hfill' H2) as (rs & Hall & Hrows & Hns). exists (r :: rs). split_and!.
  - constructor; [done|]. eapply Forall2_impl; [exact Hall|]. intros g x (Hgi & Hgf & Hg). split_and!; [done..|].
    unfold answers, approved_for in *. by rewrite Em in Hg.
  - intros k v. rewrite Hrows, Ev, lookup_insert_Some, elem_of_cons. split.
    + intros [[[<- <-]|[_ H]]|[H <-]]; auto.
    + intros [H|[[->|H] <-]]; auto. left. right. split; [|done]. intros <-. by rewrite Hnew in H.
  - cbn. intros Hne. destruct m.1 as [|y ys] eqn:E1; cbn in *.
    + destruct Hns as (z & Hz & Hoz); [by destruct ns.1|]. exists z. split; [by right | done].
    + exists r. split; [left | by apply Hm].
Qed.

Lemma add_outstanding_nil field_of key l :
  (forall v, v ∈ l -> is_Some (field_of (vl_field v))) -> add_outstanding field_of key l [] = [] <-> l = [].
Proof.
  intros Hf. destruct l as [|v l]; [done|]. cbn. destruct (Hf v ltac:(left)) as [f ->].
  rewrite bool_decide_eq_false_2 by apply not_elem_of_nil. by split.
Qed.

Lemma rows_of_elem i db r : r ∈ rows_of i db <-> vl_instance r = i /\ exists k, field_values db !! k = Some r.
Proof. unfold rows_of. by rewrite list_elem_of_filter, elem_of_rows. Qed.

Lemma one_row i db r r' : forms_ok uuid4 db -> r ∈ rows_of i db -> r' ∈ rows_of i db -> vl_field r' = vl_field r -> r' = r.
Proof.
  intros Hok [Hi [k Hk]]%rows_of_elem [Hi' [k' Hk']]%rows_of_elem E.
  assert (k' = k) as -> by (apply (fo_one_row _ _ Hok _ _ _ _ Hk' Hk); congruence). rewrite Hk in Hk'. by injection Hk'.
Qed.

(** The rows of a form after its fields were filled anew. *)
Lemma rows_refilled i db d l rs :
  Forall2 (fun f r => vl_instance r = i /\ vl_field r = tf_id f /\ answers db f r) l rs ->
  (forall k v, field_values d !! k = Some v <-> field_values (without_rows i db) !! k = Some v \/ v ∈ rs /\ vl_id v = k) ->
  forall r, r ∈ rows_of i d <-> r ∈ rs.
Proof.
  intros Hall Hrows r. rewrite rows_of_elem. split.
  - intros [Hi [k [H|[H _]]%Hrows]]; [|done]. apply map_lookup_filter_Some in H as [_ H]. done.
  - intros H. destruct (Forall2_elem_r _ _ _ _ Hall H) as (f & _ & Hi & _). split; [done|]. exists (vl_id r). apply Hrows. by right.
Qed.

(** Nothing is missing exactly when nothing is outstanding. *)
Lemma missing_nil i d fields key (n : Notes) :
  (forall r, r ∈ rows_of i d -> exists f, f ∈ fields /\ vl_field r = tf_id f) ->
  (n.1 <> [] -> exists r, r ∈ rows_of i d /\ outstanding r = true) ->
  n.1 ++ add_outstanding (field_among fields) key (outstanding_rows i d) (mi_key <$> n.1) = [] <->
  forall r, r ∈ rows_of i d -> outstanding r = false.
Proof.
  intros Hof Hn. assert (n.1 ++ add_outstanding (field_among fields) key (outstanding_rows i d) (mi_key <$> n.1) = [] <-> outstanding_rows i d = []) as ->.
  { destruct n.1 as [|y ys]; cbn [app fmap list_fmap].
    - apply add_outstanding_nil. intros v [_ Hv]%list_elem_of_filter. destruct (Hof v Hv) as (f & Hf & E).
      unfold field_among. destruct (filter (fun g => tf_id g = vl_field v) fields) as [|g gs] eqn:Ef; [|by eexists].
      exfalso. apply (filter_nil_not_elem_of _ _ f Ef); [done | done].
    - split; [done|]. intros E. destruct (Hn ltac:(done)) as (r & Hr & Ho). exfalso. by apply (filter_nil_not_elem_of _ _ r E Ho). }
  unfold outstanding_rows. split.
  - intros E r Hr. apply not_true_iff_false. intros Ho. by apply (filter_nil_not_elem_of _ _ r E Ho).
  - intros H. destruct (filter _ _) as [|r l] eqn:E; [done|]. exfalso.
    assert (r ∈ filter (fun v => outstanding v = true) (rows_of i d)) as [Ho Hr]%list_elem_of_filter by (rewrite E; left).
    by rewrite (H r Hr) in Ho.
Qed.

(** C36. Prefilling a form that is not frozen replaces its rows by one for each field of its
    template.  A field reserved to a person is marked as such and holds nothing; a field
    is filled automatically only by an approved mapping that needs no review; and the
    form is PREFILLED exactly when no field is outstanding, MISSING_INFORMATION
    otherwise.  A signature is required exactly when some field is reserved to a
    person. *)
Theorem prefill_spec i who today now db x db' :
  forms_ok uuid4 db -> prefill i who today now db = Ok (x, db') ->
  exists x0, form_instances db !! i = Some x0 /\ frozen x0 = false /\ form_instances db' !! i = Some x /\
    let fields := fields_of (fi_template x0) db in
    (forall f, f ∈ fields -> exists r, r ∈ rows_of i db' /\ vl_field r = tf_id f /\ answers db f r /\
       forall r', r' ∈ rows_of i db' -> vl_field r' = tf_id f -> r' = r) /\
    (forall r, r ∈ rows_of i db' -> exists f, f ∈ fields /\ vl_field r = tf_id f) /\
    (fi_signature_required x = true <-> exists f, f ∈ fields /\ human_execution (tf_type f) = true) /\
    (fi_status x = value FormInstanceStatus.PREFILLED <-> forall r, r ∈ rows_of i db' -> outstanding r = false) /\
    fi_status x ∈ value <$> [FormInstanceStatus.PREFILLED; FormInstanceStatus.MISSING_INFORMATION].
Proof.
  intros Hok H. unfold FormService.prefill in H. apply bind_Ok_inv in H as (x0 & Hx%find_Ok & H).
  apply bind_Ok_inv in H as (u & Hf%raise_unless_Ok%negb_true_iff & H). apply bind_Ok_inv in H as (c & _ & H).
  apply bind_Ok_inv in H as (t & _ & H). cbv zeta in H. apply bind_Ok_inv in H as ([n d] & Hd & H). apply Ok_pair_inj in H as [<- <-].
  pose proof (to_fill_start uuid4 _ _ _ Hok Hx Hf) as Hfill.
  pose proof (prefill_fields_rows _ _ x0 _ _ _ _ _ _ _ Hfill Hd) as (rs & Hall & Hrows & Hn).
  apply (prefill_fields_reach _ _ _ _ _ _ _ _ _ _ _ _ x0) in Hd as [_ (Hokd & _)]; [|done].
  pose proof (rows_refilled i db d _ _ Hall Hrows) as Hrs.
  assert (forall r, r ∈ rows_of i d -> exists f, f ∈ fields_of (fi_template x0) db /\ vl_field r = tf_id f /\ answers db f r) as Hof.
  { intros r (f & Hin & _ & ? & ?)%Hrs%(Forall2_elem_r _ _ _ _ Hall). by exists f. }
  exists x0. split; [done|]. split; [done|]. split; [cbn; destruct (fo_instances _ _ Hok _ _ Hx) as [<- _]; apply lookup_insert_eq|].
  split; [|split; [|split; [|split]]].
  - intros f (r & Hr & Hi & Hfd & Ha)%(Forall2_elem_l _ _ _ _ Hall). apply Hrs in Hr. exists r. split_and!; [done..|].
    intros r' Hr' E. apply (one_row i d r r' Hokd Hr Hr'). congruence.
  - intros r (f & ? & ? & _)%Hof. by exists f.
  - cbn. rewrite existsb_exists. setoid_rewrite list_elem_of_In. done.
  - rewrite <-(missing_nil i d (fields_of (fi_template x0) db) (default "" (tf_key <$> last (fields_of (fi_template x0) db))) n).
    + cbn. destruct (n.1 ++ _); by split.
    + intros r (f & ? & ? & _)%Hof. by exists f.
    + intros (r & Hr & Ho)%Hn. exists r. by rewrite Hrs.
  - cbn. destruct (n.1 ++ _); apply (bool_decide_unpack _); vm_compute; exact I.
Qed.

End Prefill.

Lemma prefill_spec_witness :
  exists x, do_prefill created_db = Ok (x, prefilled_db) /\ fi_status x = "MISSING_INFORMATION" /\
    fi_signature_required x = true /\
    forall f, f ∈ fields_of (form_ids 0) created_db -> exists r, r ∈ rows_of the_form prefilled_db /\ vl_field r = tf_id f /\ answers created_db f r.
Proof.
  assert (is_ok (do_prefill created_db) = true) as Hok by (vm_compute; reflexivity).
  destruct (and_then_ok _ created_db Hok) as [x Hx]. exists x. split; [exact Hx|].
  destruct (prefill_spec form_ids one_nonce json_text time_text json_text json_text infinite seal_text open_text form_keys
    the_form fay 0 5 created_db x prefilled_db created_ok Hx) as (x0 & Hx0 & _ & Hx' & Hf & _ & _ & _ & _).
  assert (fi_status <$> form_instances prefilled_db !! the_form = Some "MISSING_INFORMATION") as Hst by (vm_compute; reflexivity).
  assert (fi_signature_required <$> form_instances prefilled_db !! the_form = Some true) as Hsg by (vm_compute; reflexivity).
  assert (fi_template <$> form_instances created_db !! the_form = Some (form_ids 0)) as Ht by (vm_compute; reflexivity).
  rewrite Hx' in Hst, Hsg. rewrite Hx0 in Ht. injection Hst as Hst. injection Hsg as Hsg. injection Ht as Ht.
  split; [exact Hst|]. split; [exact Hsg|]. rewrite <-Ht. intros f Hin. destruct (Hf f Hin) as (r & Hr & E & Ha & _). exists r. split_and!; done.
Defined.

(** Two optional fields without a value are outstanding, and the last field of the
    template is not listed as missing. *)
Lemma last_field_not_listed f g :
  tf_id f <> tf_id g -> tf_key f <> tf_key g ->
  forall v w, vl_field v = tf_id f -> vl_field w = tf_id g ->
  mi_key <$> add_outstanding (field_among [f; g]) (tf_key g) [v; w] [] = [tf_key f].
Proof.
  intros Hid Hkey v w Hv Hw.
  assert (field_among [f; g] (tf_id f) = Some f) as Ef by (unfold field_among; rewrite filter_cons_True; done).
  assert (field_among [f; g] (tf_id g) = Some g) as Eg
    by (unfold field_among; rewrite filter_cons_False by done; rewrite filter_cons_True; done).
  cbn [add_outstanding]. rewrite Hv, Hw, Ef, Eg. rewrite bool_decide_eq_false_2 by apply not_elem_of_nil.
  rewrite bool_decide_eq_true_2 by left. done.
Qed.
