(* ===== verification/FormGuarantees.v ===== *)
(** * What the preparation of forms guarantees

    The properties of forms, each with a run of the scenario: what every state agrees
    with, what an approval freezes, that a typed value is what a draft
    made from it writes; and where the approval, the mappings and the completion of a form fail to
    hold what they promise. *)
From Stdlib Require Import Ascii SpecFloat Relations.
From S2P Require Import InfoRegistry.
From S2P Require Import Prelude Vocabulary Terms PyDate PyJson Crypto Roles LicensingLog InfoRules FormFields FormInspection FormFilling FormService FormSafety FormPrefill FormScenario.
Open Scope Z_scope.

Section Guarantees.
Context (uuid4 nonce : nat -> string) (py_str : json -> string) (instant_text : instant -> string) (spaced : json -> string).
Context (float_text : json -> string) (not_finite : spec_float -> json) (sha256 : string -> string).
Context (aes_encrypt : string -> string -> string -> string -> string)
  (aes_decrypt : string -> string -> string -> string -> option string).
Context (read_pdf : string -> option PdfDocument) (read_docx : string -> option (list string))
  (read_xlsx : string -> option (list (string * string * json))).
Context (pdf_names : string -> option (list string)) (pdf_write : string -> list (string * string) -> bool -> result exn string).
Context (docx_runs : string -> option (list (list string))) (docx_write : string -> list (list string) -> string).
Context (settings : FormSettings) (keyring : option Keyring).
Context `{!Inj (=) (=) uuid4}.

Notation form_steps := (form_steps uuid4 nonce py_str instant_text spaced float_text not_finite sha256 aes_encrypt aes_decrypt
  read_pdf read_docx read_xlsx pdf_names pdf_write docx_runs docx_write settings keyring).
Notation forms_ok := (forms_ok uuid4).

Lemma forms_reached db0 db : no_forms db0 -> form_steps db0 db -> forms_ok db.
Proof. intros H0 Hs. eapply forms_reach_ok, steps_reach; [exact _ | exact Hs | by apply no_forms_ok]. Qed.

(** C34. Prepared forms stay in order.  In every state the calls can make, in any order: a row
    belongs to a field, the row of a sensitive field holds nothing in clear, and a form
    has one row for a field; a field has one active mapping, and an approved mapping
    needs no review and names who approved it; and a form that is submitted was reviewed
    by someone, has the hash of the approved draft and, where it needs a signature, a
    signed document with the name of who recorded it. *)
Theorem forms_consistent db0 db :
  no_forms db0 -> form_steps db0 db ->
  (forall k r, field_values db !! k = Some r -> exists f, template_fields db !! vl_field r = Some f /\
     (requires_encryption (tf_sensitivity f) = true -> vl_plain r = None)) /\
  (forall k l r s, field_values db !! k = Some r -> field_values db !! l = Some s -> vl_instance r = vl_instance s ->
     vl_field r = vl_field s -> k = l) /\
  (forall k l m n, field_mappings db !! k = Some m -> field_mappings db !! l = Some n -> fp_field m = fp_field n ->
     active_mapping m = true -> active_mapping n = true -> k = l) /\
  (forall k m, field_mappings db !! k = Some m -> approved_mapping m = true -> fp_requires_review m = false /\ is_Some (fp_approved_by m)) /\
  (forall k i, form_instances db !! k = Some i -> fi_status i = value FormInstanceStatus.SUBMITTED_EXTERNALLY ->
     is_Some (fi_approved_sha256 i) /\ is_Some (fi_reviewed_by i) /\ is_Some (fi_submission_by i) /\
     (fi_signature_required i = true -> is_Some (fi_signed i) /\ is_Some (fi_signed_by i))).
Proof.
  intros H0 Hs. pose proof (forms_reached _ _ H0 Hs) as [Hfresh Hf Hm Hm1 Hi Hv Hr Hr1]. split_and!.
  - intros k r Hk. by destruct (Hr k r Hk) as [_ ?].
  - exact Hr1.
  - exact Hm1.
  - intros k m Hk. by destruct (Hm k m Hk) as [_ ?].
  - intros k i Hk E. destruct (Hi k i Hk) as [_ [Ho _|E'|E'|E'|_ Ha Hv' Hs' Hb]]; [|rewrite E in E'; by vm_compute in E'..|by split_and!].
    exfalso. unfold is_open in Ho. rewrite E in Ho. refuted Ho.
Qed.

(** C35. What an approval freezes.  Once a form is approved, no call and no job changes its
    rows, whether it needs a signature, the hash that was approved and who reviewed it,
    and it does not open again; a signed document recorded for it is not replaced, and
    a submitted form stays submitted. *)
Theorem approved_form_kept db0 db db' i x :
  no_forms db0 -> form_steps db0 db -> form_steps db db' -> form_instances db !! i = Some x -> frozen x = true ->
  (forall k r, vl_instance r = i -> field_values db' !! k = Some r <-> field_values db !! k = Some r) /\
  exists x', form_instances db' !! i = Some x' /\ frozen x' = true /\
    fi_signature_required x' = fi_signature_required x /\ fi_approved_sha256 x' = fi_approved_sha256 x /\ fi_reviewed_by x' = fi_reviewed_by x /\
    (is_Some (fi_signed x) -> fi_signed x' = fi_signed x) /\
    (fi_status x = value FormInstanceStatus.SUBMITTED_EXTERNALLY -> fi_status x' = fi_status x).
Proof.
  intros H0 Hs Hs' Hi Hf. apply steps_reach in Hs' as (_ & _ & Hc); [|exact _|by eapply forms_reached].
  destruct (Hc i x Hi) as (x' & Hx' & [Ho Hfr Hsg He] & Hrows). split; [by apply Hrows|]. exists x'.
  destruct (Hfr Hf) as [Hf' E]. unfold settled in E. injection E as E1 E2 E3. by split_and!.
Qed.

(** ** Values typed by hand *)

Notation set_field := (set_field nonce py_str spaced float_text aes_encrypt keyring).
Notation set_field_value := (set_field_value nonce py_str spaced float_text aes_encrypt keyring).
Notation set_fields := (set_fields nonce py_str spaced float_text aes_encrypt keyring).
Notation generate_draft := (generate_draft sha256 aes_decrypt pdf_names pdf_write docx_runs docx_write settings keyring).
Notation fill_value := (fill_value aes_decrypt keyring).
Notation _field_values_for_fill := (_field_values_for_fill aes_decrypt keyring).

Lemma fill_text_sealed k ct r :
  vl_plain r = None -> vl_encrypted r = Some ct -> ct <> "" ->
  fill_text aes_decrypt (Some k) r = match decrypt aes_decrypt k ct _ENTITY_TYPE (vl_id r) with Ok t => Some t | Err _ => None end.
Proof. unfold fill_text. intros -> -> Hct. by destruct ct. Qed.

(** What a typed value leaves in its row. *)
Lemma typed_filled f t n r r' :
  (forall m n p a, aes_decrypt m n (aes_encrypt m n p a) a = Some p) -> (forall k, keyring = Some k -> keyring_ok k = true) ->
  typed spaced float_text aes_encrypt keyring f (Some t) n r = Ok r' ->
  fill_text aes_decrypt keyring r' = Some (if requires_encryption (tf_sensitivity f) then t else str_take 4000 t).
Proof.
  intros Haes Hkey H. unfold typed in H. apply bind_Ok_inv in H as (r1 & H1 & H). injection H as <-.
  destruct (requires_encryption _); [|by injection H1 as <-].
  destruct keyring as [k|] eqn:Ek; [|done]. apply bind_Ok_inv in H1 as (ct & Hct & H1). injection H1 as <-.
  erewrite (fill_text_sealed k ct); [|done..|].
  - change (vl_id _) with (vl_id r). by rewrite (decrypt_encrypt float_text aes_encrypt aes_decrypt Haes k k n (JStr t) _ _ ct (Hkey k eq_refl) eq_refl Hct).
  - unfold encrypt in Hct. apply bind_Ok_inv in Hct as (u & _ & Hct). apply bind_Ok_inv in Hct as (m & _ & Hct). by injection Hct as <-.
Qed.

(** A typed value is the value of the only row the form has for its field: whole where the
    field is sensitive, where it is read back through its encryption, and its first 4000
    characters otherwise. *)
Lemma typed_value_row i k t st who now db r db' :
  (forall m n p a, aes_decrypt m n (aes_encrypt m n p a) a = Some p) -> (forall k, keyring = Some k -> keyring_ok k = true) ->
  forms_ok db -> set_field i k (Some t) st who now db = Ok (r, db') ->
  exists f, template_fields db' !! vl_field r = Some f /\ tf_key f = k /\ (t <> "" -> human_execution (tf_type f) = false) /\ r ∈ rows_of i db' /\
    (forall r', r' ∈ rows_of i db' -> vl_field r' = vl_field r -> r' = r) /\
    fill_text aes_decrypt keyring r = Some (if requires_encryption (tf_sensitivity f) then t else str_take 4000 t).
Proof.
  intros Haes Hkey Hok H. assert (forms_ok db') as Hok' by (eapply (forms_reach_ok uuid4 db), set_field_value_reach; done).
  unfold FormService.set_field, FormService.set_field_value in H. apply bind_Ok_inv in H as (x & Hx & H).
  apply bind_Ok_inv in H as (u & _ & H). destruct (field_with_key _ _ _) as [f|] eqn:Ef; [|done].
  apply bind_Ok_inv in H as (u1 & Hu1 & H). destruct (row_of i (tf_id f) db) as [r0|] eqn:Er; [|done].
  apply bind_Ok_inv in H as (u2 & _ & H). apply bind_Ok_inv in H as (r1 & H1 & H). apply bind_Ok_inv in H as (u3 & _ & H).
  pose proof (typed_row _ _ _ _ _ _ _ _ _ H1) as (E1 & E2 & E3 & _). apply typed_filled in H1; [|done..].
  apply Ok_pair_inj in H as [<- <-]. apply row_of_Some in Er as (Ei & Efd & j & Hj).
  apply field_with_key_Some in Ef as (_ & Ek & jf & Hjf). pose proof (fo_fields _ _ Hok _ _ Hjf) as Hjid. subst jf.
  exists f. split_and!.
  - cbn. by rewrite E3, Efd.
  - done.
  - intros Ht. apply raise_unless_Ok in Hu1. destruct (human_execution _); [|done]. by destruct t.
  - apply rows_of_elem. split; [cbn; by rewrite E2|]. exists (vl_id r1). apply lookup_insert_eq.
  - intros r' Hr'. apply (one_row uuid4 i _ _ _ Hok'); [|exact Hr']. apply rows_of_elem. split; [cbn; by rewrite E2|].
    exists (vl_id r1). apply lookup_insert_eq.
  - exact H1.
Qed.

(** C38. A value typed into a field is what the draft made from it writes.  After a value
    that is not empty is typed into a field whose row is not set to wait for a signature,
    a draft that is generated is the PDF with that value in the field's native name, where
    the PDF has such a name and no other value goes to it, or the document in which the
    field's token stands for that value, where no other value has that token.  The value
    is the whole of what was typed where the field is sensitive, through its encryption,
    and its first 4000 characters otherwise; a checkbox of a PDF is on or off.  In a
    document the text put in is gone through once more, so a value that spells a token is
    replaced itself ([FormFilling.typed_token_expanded]). *)
Theorem typed_value_drafted i k t st who now db r db' content flatten who' res db'' :
  (forall m n p a, aes_decrypt m n (aes_encrypt m n p a) a = Some p) -> (forall k, keyring = Some k -> keyring_ok k = true) ->
  forms_ok db -> set_field i k (Some t) st who now db = Ok (r, db') -> t <> "" ->
  vl_status r <> value FormFieldValueStatus.SIGNATURE_REQUIRED -> generate_draft i content flatten who' db' = Ok (res, db'') ->
  exists x tp f, form_instances db' !! i = Some x /\ templates db' !! fi_template x = Some tp /\
    template_fields db' !! vl_field r = Some f /\ tf_key f = k /\
    let v := fill_value (r, f) in
    fv_value v = Some (if requires_encryption (tf_sensitivity f) then t else str_take 4000 t) /\
    (ft_format tp = value FormFormat.PDF_ACROFORM /\
       (forall available n, pdf_names content = Some available -> native_in available v = Some n ->
          (forall w, w ∈ _field_values_for_fill i db' -> fv_native w = Some n -> w = v) ->
          k ∈ fr_filled res /\
          exists writes, pdf_write content writes flatten = Ok (fr_content res) /\ forall s, (n, s) ∈ writes <-> s = pdf_text v) \/
     ft_format tp = value FormFormat.DOCX /\
       ((forall w, w ∈ _field_values_for_fill i db' -> token_of w = token_of v -> w = v) ->
          exists paragraphs repl, docx_runs content = Some paragraphs /\ repl !! token_of v = fv_value v /\
            fr_content res = docx_write content ((fun p => (process_paragraph repl p).1) <$> paragraphs))).
Proof.
  intros Haes Hkey Hok Hset Ht Hst Hgen. destruct (typed_value_row _ _ _ _ _ _ _ _ _ Haes Hkey Hok Hset) as (f & Hf & Hk & Hh & Hr & _ & Hv).
  specialize (Hh Ht). unfold FormService.generate_draft in Hgen. apply bind_Ok_inv in Hgen as (x & Hx%find_Ok & H).
  apply bind_Ok_inv in H as (tp & Htp%find_Ok & H). exists x, tp, f. do 4 (split; [done|]). cbn zeta. split; [exact Hv|].
  assert (fill_value (r, f) ∈ _field_values_for_fill i db') as Hin.
  { apply list_elem_of_fmap. exists (r, f). split; [done|]. unfold joined. rewrite elem_of_py_sorted, list_elem_of_omap. exists r. by rewrite Hf. }
  assert (is_human (fill_value (r, f)) = false) as Hhum.
  { unfold is_human. cbn. rewrite Hh, orb_false_r. by apply bool_decide_eq_false. }
  assert (truthy_str (fv_value (fill_value (r, f))) = true) as Htr by (cbn [fv_value fill_value fst]; rewrite Hv; by destruct (requires_encryption _), t).
  do 5 (apply bind_Ok_inv in H as (? & _ & H)). apply bind_Ok_inv in H as (res' & Hres & H). apply Ok_pair_inj in H as [<- _].
  unfold fill_template in Hres. destruct (of_value (ft_format tp)) as [fmt|] eqn:Efmt; [|done]. apply of_value_Some in Efmt.
  destruct fmt; try done; [left|right]; (split; [exact Efmt|]).
  - intros available n Ha Hn Hone. rewrite <-Hk. by eapply (pdf_value_written _ _ _ _ _ _ _ _ (fill_value (r, f))).
  - intros Hone. by eapply docx_value_written.
Qed.

(** One typed field: the instance keeps all but its list of what is missing and, where
    nothing stored is outstanding, its status. *)
Lemma set_field_value_instance stored i k v st who now db r db' x :
  forms_ok db -> form_instances db !! i = Some x -> set_field_value stored i k v st who now db = Ok (r, db') ->
  exists m, form_instances db' !! i = Some ((if bool_decide (outstanding_rows i stored = []) && bool_decide (fi_status x = value FormInstanceStatus.MISSING_INFORMATION)
     then x <| fi_missing := m |> <| fi_status := value FormInstanceStatus.PREFILLED |> else x <| fi_missing := m |>)) /\
    templates db' = templates db /\ documents db' = documents db /\ document_versions db' = document_versions db /\ cases db' = cases db.
Proof.
  intros Hok Hx H. unfold FormService.set_field_value in H. apply bind_Ok_inv in H as (y & Hy%find_Ok & H).
  rewrite Hx in Hy. injection Hy as <-. apply bind_Ok_inv in H as (u & _ & H). destruct (field_with_key _ _ _) as [f|]; [|done].
  apply bind_Ok_inv in H as (u1 & _ & H). destruct (row_of _ _ _) as [r0|]; [|done]. apply bind_Ok_inv in H as (u2 & _ & H).
  apply bind_Ok_inv in H as (r1 & _ & H). apply bind_Ok_inv in H as (u3 & _ & H). apply Ok_pair_inj in H as [_ <-].
  destruct (fo_instances _ _ Hok _ _ Hx) as [Hid _]. eexists. split; [|done].
  destruct (_ && _) eqn:E; cbn; rewrite ?Hid; apply lookup_insert_eq.
Qed.

(** C40. A form at MISSING_INFORMATION whose last answers arrive together stays there: the
    fields are compared with the rows stored before the request, so if any was outstanding
    then, no request completes the form, whatever it answers, and the form cannot be
    approved after it.  It is the status that keeps such a form from approval: one that is
    already READY_FOR_REVIEW when a row becomes outstanding again is approved once the row
    is answered, with the draft made before ([stale_draft_approved]). *)
Theorem patch_never_completes i l who now db db' x :
  forms_ok db -> form_instances db !! i = Some x -> fi_status x = value FormInstanceStatus.MISSING_INFORMATION ->
  outstanding_rows i db <> [] -> set_fields db i l who now db = Ok db' ->
  (exists x', form_instances db' !! i = Some x' /\ fi_status x' = value FormInstanceStatus.MISSING_INFORMATION) /\
  forall h s title reviewer at_, approve_for_signature sha256 i h s title reviewer at_ db' = Err StateConflictError.
Proof.
  intros Hok Hx Hst Hout H.
  assert (forall stored l db x, outstanding_rows i stored <> [] -> forms_ok db -> form_instances db !! i = Some x ->
    fi_status x = value FormInstanceStatus.MISSING_INFORMATION -> set_fields stored i l who now db = Ok db' ->
    exists x', form_instances db' !! i = Some x' /\ fi_status x' = value FormInstanceStatus.MISSING_INFORMATION) as Hgen.
  { clear - Inj0. intros stored l. induction l as [|[[k v] st] l IH]; intros db x Hout Hok Hx Hst H; [injection H as <-; by exists x|].
    cbn in H. apply bind_Ok_inv in H as ([r d] & H1 & H). pose proof (set_field_value_instance _ _ _ _ _ _ _ _ _ _ _ Hok Hx H1) as (m & Hd & _).
    rewrite (bool_decide_eq_false_2 _ Hout) in Hd. eapply (IH d); [done | | exact Hd | exact Hst | exact H].
    eapply (forms_reach_ok uuid4 db), set_field_value_reach; done. }
  destruct (Hgen db l db x Hout Hok Hx Hst H) as (x' & Hx' & Hst'). split; [by exists x'|]. intros *.
  unfold approve_for_signature, find. rewrite Hx'. msimpl. by rewrite Hst'.
Qed.

(** A draft that no longer shows the values of its form is approved.  When fields of a
    form under review are typed again, its draft is not generated anew, since the job
    returns at once for a form that has one; and an approval that names the hash of the
    old draft still succeeds. *)
Theorem stale_draft_approved i l who now db db' x d gd gv :
  forms_ok db -> form_instances db !! i = Some x -> fi_status x = value FormInstanceStatus.READY_FOR_REVIEW -> fi_generated x = Some d ->
  governed (documents db !! d) db = Some (gd, gv) -> str_lower (gd_sha256 gd) = str_lower (gx_sha256 gv) ->
  set_fields db i l who now db = Ok db' -> outstanding_rows i db' = [] ->
  (forall content flatten upload worker,
     prepare_form sha256 aes_decrypt pdf_names pdf_write docx_runs docx_write settings keyring i content flatten upload worker db' = Ok db') /\
  forall h s title reviewer at_, str_lower h = str_lower (gx_sha256 gv) -> exists y db2,
    approve_for_signature sha256 i h s title reviewer at_ db' = Ok (y, db2) /\
    fi_generated y = Some d /\ fi_snapshot_sha256 y = fi_snapshot_sha256 x.
Proof.
  intros Hok Hx Hst Hd Hg Hh H Hout.
  assert (forall stored l db x, forms_ok db -> form_instances db !! i = Some x -> fi_status x = value FormInstanceStatus.READY_FOR_REVIEW ->
    set_fields stored i l who now db = Ok db' -> exists x', form_instances db' !! i = Some x' /\
      fi_status x' = fi_status x /\ fi_generated x' = fi_generated x /\ fi_snapshot_sha256 x' = fi_snapshot_sha256 x /\
      documents db' = documents db /\ document_versions db' = document_versions db) as Hgen.
  { clear - Inj0. intros stored l. induction l as [|[[k v] st] l IH]; intros db x Hok Hx Hst H; [injection H as <-; by exists x|].
    cbn in H. apply bind_Ok_inv in H as ([r e] & H1 & H). pose proof (set_field_value_instance _ _ _ _ _ _ _ _ _ _ _ Hok Hx H1) as (m & He & _ & E1 & E2 & _).
    rewrite Hst, (bool_decide_eq_false_2 (value FormInstanceStatus.READY_FOR_REVIEW = _)), andb_false_r in He by (by vm_compute).
    edestruct (IH e) as (x' & ? & ? & ? & ? & ? & ?); [|exact He | exact Hst | exact H|].
    - eapply (forms_reach_ok uuid4 db), set_field_value_reach; done.
    - exists x'. split_and!; [done..|congruence|congruence]. }
  destruct (Hgen db l db x Hok Hx Hst H) as (x' & Hx' & Hst' & Hd' & Hs' & E1 & E2). split.
  - intros *. unfold prepare_form. rewrite Hx'. msimpl. by rewrite Hd', Hd.
  - intros * Hhash. eexists _, _. unfold approve_for_signature, find. rewrite Hx'. msimpl. rewrite Hst', Hst.
    rewrite Hout, Hd', Hd. cbn [mbind option_bind]. rewrite E1.
    replace (governed (documents db !! d) db') with (Some (gd, gv)) by (rewrite <-Hg; unfold governed, current_version; by rewrite E2).
    rewrite Hhash, Hh, !bool_decide_eq_true_2 by (done || decided). split; [reflexivity|].
    unfold reviewed. destruct (fi_signature_required _); (split; [exact (eq_trans Hd' Hd) | exact Hs']).
Qed.

(** What other services keep. *)
Definition governance (db : FormDb) := (documents db, document_versions db, cases db, entities db).

Lemma governed_elsewhere a b o : governance b = governance a -> governed o b = governed o a.
Proof. unfold governance, governed, current_version. intros [= _ E _ _]. by rewrite E. Qed.

(** What an approval leaves. *)
Lemma approve_instance i h s title reviewer at_ db x db' :
  forms_ok db -> approve_for_signature sha256 i h s title reviewer at_ db = Ok (x, db') ->
  form_instances db' !! i = Some x /\ fi_approved_sha256 x = Some h /\
  (fi_signature_required x = true -> fi_status x = value FormInstanceStatus.SIGNATURE_PENDING) /\ governance db' = governance db /\
  exists gd gv, governed (fi_generated x ≫= fun d => documents db !! d) db = Some (gd, gv) /\
    str_lower h = str_lower (gx_sha256 gv) /\ str_lower (gd_sha256 gd) = str_lower (gx_sha256 gv).
Proof.
  intros Hok H. unfold approve_for_signature in H. apply bind_Ok_inv in H as (x0 & Hx%find_Ok & H).
  apply bind_Ok_inv in H as (u & _ & H). apply bind_Ok_inv in H as (u1 & _ & H).
  destruct (governed _ db) as [[gd gv]|] eqn:Hg; [|done].
  apply bind_Ok_inv in H as (u2 & [Hh%bool_decide_eq_true Hs%bool_decide_eq_true]%raise_unless_Ok%andb_true_iff & H).
  cbv zeta in H. apply Ok_pair_inj in H as [<- <-]. destruct (fo_instances _ _ Hok _ _ Hx) as [Hid _].
  destruct (tell_signatory_core sha256 (reviewed reviewer at_ h s title x0) s (put_instance (reviewed reviewer at_ h s title x0) db)) as [Ec _].
  unfold core in Ec. injection Ec as _ _ Ei _. split; [|split; [|split; [|split]]].
  - cbn. rewrite Ei. cbn. unfold reviewed. destruct (fi_signature_required _); cbn; rewrite Hid; apply lookup_insert_eq.
  - unfold reviewed. by destruct (fi_signature_required _).
  - unfold reviewed. cbn. destruct (fi_signature_required x0) eqn:E; [done|]. cbn. intros H. congruence.
  - unfold tell_signatory. repeat case_match; done.
  - exists gd, gv. split; [|done]. rewrite <-Hg. unfold reviewed. by destruct (fi_signature_required _).
Qed.

(** The unsigned draft passes as its signed copy.  An approval may spell the hash of the
    draft in capitals, and it is kept as spelled; the check that a signed copy differs
    from the draft compares it with the hash of the copy as the caller spells that, so
    the draft itself is recorded as the signed document. *)
Theorem unsigned_draft_signed i h s title reviewer at_ db x db' d gd gv who now :
  forms_ok db -> form_signature_automation_enabled settings = false ->
  approve_for_signature sha256 i h s title reviewer at_ db = Ok (x, db') -> fi_signature_required x = true ->
  fi_generated x = Some d -> governed (documents db !! d) db = Some (gd, gv) ->
  (forall c e, cases db !! fi_case x = Some c -> entities db !! cz_entity c = Some e -> gd_entity gd ∈ [Some (ez_key e); Some (ez_name e)]) ->
  h <> gx_sha256 gv -> h <> "" ->
  exists y db2, record_signed_document settings i d (gx_sha256 gv) None who now db' = Ok (y, db2) /\
    fi_status y = value FormInstanceStatus.SIGNED /\ fi_signed y = fi_generated y.
Proof.
  intros Hok Hset H Hreq Hd Hg Hent Hne Hh0. apply approve_instance in H as (Hx & Ha & Hst & Eg & gd' & gv' & Hg' & Hh & Hs); [|done].
  rewrite Hd in Hg'. cbn [mbind option_bind] in Hg'. rewrite Hg in Hg'. injection Hg' as <- <-.
  eexists _, _. unfold record_signed_document, find. rewrite Hx. msimpl. rewrite Hset, (Hst Hreq).
  pose proof (governed_elsewhere _ _ (documents db' !! d) Eg) as Hg2. unfold governance in Eg. injection Eg as E1 E2 E3 E4.
  rewrite Hg2, E1, Hg, Ha, E3, E4. cbv zeta. rewrite Hs, !(bool_decide_eq_true_2 (str_lower _ = _)) by done.
  replace (match cases db !! fi_case x ≫= (fun c => entities db !! cz_entity c) with
           | Some e => bool_decide (gd_entity gd ∈ [Some (ez_key e); Some (ez_name e)]) | None => true end) with true.
  2: { destruct (cases db !! fi_case x) as [c|] eqn:Ec; [|done]. cbn [mbind option_bind]. destruct (entities db !! cz_entity c) as [e|] eqn:Ee; [|done].
       symmetry. apply bool_decide_eq_true. by eapply Hent. }
  replace (verify_signed_document (Some h) (gx_sha256 gv) None) with true.
  2: { unfold verify_signed_document. rewrite bool_decide_eq_false_2 by (by intros [= ?]). by destruct h. }
  split; [reflexivity|]. split; [done|]. symmetry. exact Hd.
Qed.

Lemma approved_active m : approved_mapping m = true -> active_mapping m = true.
Proof. unfold approved_mapping, active_mapping. intros ->%bool_decide_eq_true. decided. Qed.

(** The mapping of a field is the only one that is active. *)
Lemma only_active db k m n :
  forms_ok db -> field_mappings db !! k = Some m -> active_mapping m = true -> n ∈ rows (field_mappings db) -> active_mapping n = true ->
  fp_field n = fp_field m -> n = m.
Proof.
  intros Hok Hk Ha [l Hl]%elem_of_rows Hn E. assert (l = k) as -> by (by apply (fo_one_mapping _ _ Hok _ _ _ _ Hl Hk)).
  rewrite Hk in Hl. by injection Hl.
Qed.

Lemma mapping_for_active db k m :
  forms_ok db -> field_mappings db !! k = Some m -> active_mapping m = true -> mapping_for (fp_field m) db = Some m.
Proof.
  intros Hok Hk Ha. unfold mapping_for. destruct (filter _ _) as [|n l] eqn:E.
  - exfalso. eapply (filter_nil_not_elem_of _ _ m E); [|apply elem_of_rows; by exists k]. by rewrite bool_decide_eq_true_2, Ha.
  - cbn. f_equal. assert (n ∈ filter (fun x => (bool_decide (fp_field x = fp_field m) && active_mapping x) = true) (rows (field_mappings db))) as Hn
      by (rewrite E; left).
    apply list_elem_of_filter in Hn as [[Hf%bool_decide_eq_true Hn]%andb_true_iff Hin]. by eapply only_active.
Qed.

Lemma approved_for_only db k m :
  forms_ok db -> field_mappings db !! k = Some m -> approved_mapping m = true -> approved_for (fp_field m) db = Some m.
Proof.
  intros Hok Hk Ha. unfold approved_for. destruct (last _) as [n|] eqn:E.
  - f_equal. apply last_Some_elem_of, list_elem_of_filter in E as [[Hf Hn] Hin]. eapply only_active; [done..|by apply approved_active|done| |done].
    apply approved_active. by apply bool_decide_eq_true.
  - exfalso. apply last_None in E. eapply (filter_nil_not_elem_of _ _ m E); [|apply elem_of_rows; by exists k].
    split; [done|]. by apply bool_decide_eq_true in Ha.
Qed.

(** An approved mapping is changed without approval.  Saving a mapping of a field that has
    an approved one, without approving it, replaces the source of the approved mapping;
    it stays approved, by the name of who approved the other source, and the next
    prefilling uses it. *)
Theorem approved_mapping_changed field st sk tr who now db f k m :
  forms_ok db -> template_fields db !! field = Some f -> human_execution (tf_type f) = false ->
  field_mappings db !! k = Some m -> fp_field m = field -> approved_mapping m = true ->
  is_value (A := FieldSourceType.FieldSourceType) st = true ->
  exists m' db', upsert_mapping uuid4 field st sk tr false who now db = Ok (m', db') /\
    approved_for field db' = Some m' /\ is_usable (spec_of m') = true /\
    fp_approved_by m' = fp_approved_by m /\ fp_approved_at m' = fp_approved_at m /\
    (fp_source_type m', fp_source_key m', fp_transformation m') = (st, sk, tr).
Proof.
  intros Hok Hf Hhuman Hk <- Hap Hst. pose proof (approved_active _ Hap) as Hact.
  destruct (fo_mappings _ _ Hok _ _ Hk) as [Hid Hsound]. pose proof (mapping_for_active _ _ _ Hok Hk Hact) as Hm.
  set (m' := m <| fp_source_type := st |> <| fp_source_key := sk |> <| fp_transformation := tr |>).
  assert (upsert_mapping uuid4 (fp_field m) st sk tr false who now db =
    Ok (m', log_audit "form_field_mapping" (fp_id m') "form_field_mapping_saved" who (put_mapping m' db))) as E.
  { unfold upsert_mapping, find. rewrite Hf. msimpl. rewrite Hhuman, Hm, Hst. cbn [negb orb].
    replace (existsb _ _) with false; [by rewrite andb_false_r|]. symmetry. apply not_true_iff_false. intros (y & Hy & Hc)%existsb_exists.
    apply list_elem_of_In in Hy. apply andb_true_iff in Hc as [[Hne Hfy%bool_decide_eq_true]%andb_true_iff Hay%approved_active].
    by rewrite (only_active _ _ _ _ Hok Hk Hact Hy Hay Hfy), bool_decide_eq_true_2 in Hne. }
  exists m', (log_audit "form_field_mapping" (fp_id m') "form_field_mapping_saved" who (put_mapping m' db)). split; [exact E|].
  destruct (Hsound Hap) as [Hrev _]. split.
  - refine (approved_for_only _ (fp_id m) m' _ _ Hap); [|apply lookup_insert_eq].
    eapply (forms_reach_ok uuid4 db), upsert_reach; [exact _ | exact Hok | exact E].
  - split_and!; try done. unfold is_usable, spec_of. cbn. rewrite Hrev, andb_true_r. exact Hap.
Qed.
End Guarantees.

(** ** The properties at work *)

Lemma form_there db : is_Some (form_instances db !! the_form) -> form_instances db !! the_form = Some (form_in db).
Proof. unfold form_in. by intros [x ->]. Qed.

Ltac computed := vm_compute; reflexivity.
Ltac there := apply form_there; vm_compute; by eexists.

Lemma forms_consistent_witness :
  fi_status (form_in submitted_db) = "SUBMITTED_EXTERNALLY" /\ fi_signature_required (form_in submitted_db) = true /\
  is_Some (fi_signed (form_in submitted_db)) /\ is_Some (fi_reviewed_by (form_in submitted_db)).
Proof.
  assert (fi_status (form_in submitted_db) = "SUBMITTED_EXTERNALLY") as Hst by computed.
  assert (fi_signature_required (form_in submitted_db) = true) as Hr by computed.
  assert (form_instances submitted_db !! the_form = Some (form_in submitted_db)) as Hx by there.
  split; [exact Hst|]. split; [exact Hr|].
  pose proof (forms_consistent form_ids one_nonce json_text time_text json_text json_text infinite digest seal_text open_text
    no_pdf open_docx no_xlsx no_names no_pdf_copy open_runs joined_runs form_options form_keys blank_forms submitted_db blank
    (then_steps _ _ _ approved_steps submitted_steps)) as (_ & _ & _ & _ & H).
  destruct (H _ _ Hx Hst) as (_ & Hv & _ & Hs). split; [exact (proj1 (Hs Hr)) | exact Hv].
Defined.

Lemma approved_form_kept_witness :
  frozen (form_in approved_db) = true /\ fi_approved_sha256 (form_in approved_db) = Some "ab12" /\
  (forall k r, vl_instance r = the_form -> field_values submitted_db !! k = Some r <-> field_values approved_db !! k = Some r).
Proof.
  assert (frozen (form_in approved_db) = true) as Hf by computed.
  split; [exact Hf|]. split; [computed|].
  assert (form_instances approved_db !! the_form = Some (form_in approved_db)) as Hx by there.
  exact (proj1 (approved_form_kept form_ids one_nonce json_text time_text json_text json_text infinite digest seal_text open_text
    no_pdf open_docx no_xlsx no_names no_pdf_copy open_runs joined_runs form_options form_keys blank_forms approved_db submitted_db
    the_form _ blank approved_steps submitted_steps Hx Hf)).
Defined.

Lemma patch_never_completes_witness :
  outstanding_rows the_form prefilled_db <> [] /\ outstanding_rows the_form answered_db = [] /\
  do_approve "ab12" answered_db = Err StateConflictError.
Proof.
  assert (outstanding_rows the_form prefilled_db <> []) as Ho by (vm_compute; discriminate).
  split; [exact Ho|]. split; [computed|].
  assert (form_instances prefilled_db !! the_form = Some (form_in prefilled_db)) as Hx by there.
  assert (do_set tax_number prefilled_db = Ok answered_db) as Hs by (apply (and_done_ok _ prefilled_db); computed).
  assert (fi_status (form_in prefilled_db) = value FormInstanceStatus.MISSING_INFORMATION) as Hst by computed.
  exact (proj2 (patch_never_completes form_ids one_nonce json_text json_text json_text digest seal_text form_keys the_form tax_number fay 6
    prefilled_db answered_db _ (reached_forms_ok _ prefilled_reached) Hx Hst Ho Hs) "ab12" (Some "dan") (Some "CEO") gus 7).
Defined.

Lemma stale_draft_approved_witness :
  fill_text open_text form_keys <$> row_of the_form (form_ids 2) drafted_db = Some (Some "12-3456789") /\
  fill_text open_text form_keys <$> row_of the_form (form_ids 2) corrected_db = Some (Some "98-7654321") /\
  do_prepare corrected_db = Ok corrected_db /\
  exists y db2, do_approve "AB12" corrected_db = Ok (y, db2) /\ fi_generated y = Some "draft" /\
    fi_snapshot_sha256 y = fi_snapshot_sha256 (form_in drafted_db).
Proof.
  split; [computed|]. split; [computed|].
  assert (form_instances drafted_db !! the_form = Some (form_in drafted_db)) as Hx by there.
  assert (do_set other_tax_number drafted_db = Ok corrected_db) as Hs by (apply (and_done_ok _ drafted_db); computed).
  assert (fi_status (form_in drafted_db) = value FormInstanceStatus.READY_FOR_REVIEW) as Hst by computed.
  assert (fi_generated (form_in drafted_db) = Some "draft") as Hd by computed.
  assert (outstanding_rows the_form corrected_db = []) as Ho by computed.
  assert (governed (documents drafted_db !! "draft") drafted_db = Some (document "draft-1" "ab12" (Some "astra"), version "ab12")) as Hg by computed.
  destruct (stale_draft_approved form_ids one_nonce json_text json_text json_text digest seal_text open_text no_names no_pdf_copy open_runs
    joined_runs form_options form_keys the_form other_tax_number fay 6 drafted_db corrected_db _ "draft" _ _
    (reached_forms_ok _ drafted_reached) Hx Hst Hd Hg eq_refl Hs Ho) as [Hp Ha].
  split; [exact (Hp "template" false (fun _ => Ok "draft") fay)|].
  exact (Ha "AB12" (Some "dan") (Some "CEO") gus 7 eq_refl).
Defined.

Lemma unsigned_draft_signed_witness :
  exists y db2, record_signed_document form_options the_form "draft" "ab12" None gus 8 (and_then (do_approve "AB12" drafted_db) drafted_db) = Ok (y, db2) /\
    fi_status y = value FormInstanceStatus.SIGNED /\ fi_signed y = fi_generated y.
Proof.
  assert (is_ok (do_approve "AB12" drafted_db) = true) as Hok by computed.
  destruct (and_then_ok _ drafted_db Hok) as [x Hx].
  assert ((fun r => match r with Ok (x, _) => (fi_signature_required x, fi_generated x, fi_case x) | Err _ => (false, None, "") end)
    (do_approve "AB12" drafted_db) = (true, Some "draft", "case")) as Hv by computed.
  rewrite Hx in Hv. injection Hv as Hr Hd Hc.
  eapply (unsigned_draft_signed form_ids digest form_options the_form "AB12" (Some "dan") (Some "CEO") gus 7 drafted_db x
    _ "draft" (document "draft-1" "ab12" (Some "astra")) (version "ab12")).
  - exact (reached_forms_ok _ drafted_reached).
  - reflexivity.
  - exact Hx.
  - exact Hr.
  - exact Hd.
  - computed.
  - rewrite Hc. intros c e. assert (cases drafted_db = cases blank_forms /\ entities drafted_db = entities blank_forms) as [-> ->] by (split; computed).
    intros [= <-] [= <-]. left.
  - discriminate.
  - discriminate.
Defined.

Lemma approved_mapping_changed_witness :
  exists m' db', upsert_mapping form_ids (form_ids 1) "CALCULATED" (Some "today") None false fay 9 mapped_db = Ok (m', db') /\
    approved_for (form_ids 1) db' = Some m' /\ fp_approved_by m' = Some "gus" /\ fp_source_type m' = "CALCULATED".
Proof.
  assert (exists f, template_fields mapped_db !! form_ids 1 = Some f /\ human_execution (tf_type f) = false) as (f & Hf & Hh)
    by (vm_compute; eexists; split; reflexivity).
  assert (exists m, field_mappings mapped_db !! form_ids 4 = Some m /\ fp_field m = form_ids 1 /\ approved_mapping m = true /\ fp_approved_by m = Some "gus")
    as (m & Em & Hfd & Hap & Hby) by (vm_compute; eexists; repeat split; reflexivity).
  destruct (approved_mapping_changed form_ids (form_ids 1) "CALCULATED" (Some "today") None fay 9 mapped_db f (form_ids 4) m
    (reached_forms_ok _ mapped_reached) Hf Hh Em Hfd Hap eq_refl) as (m' & db' & E & Ha & _ & Eb & _ & Es).
  exists m', db'. injection Es as Es _ _. split; [exact E|]. split; [exact Ha|]. split; [exact (eq_trans Eb Hby) | exact Es].
Defined.

Definition typed_number := set_field one_nonce json_text json_text json_text seal_text form_keys the_form "tax_id" (Some "12-3456789") None fay 6 prefilled_db.
Definition typed_number_db := and_then typed_number prefilled_db.
Definition draft_of (db : FormDb) :=
  generate_draft digest open_text no_names no_pdf_copy open_runs joined_runs form_options form_keys the_form "template" false fay db.

Definition text_value (k n t : string) (v : option string) (human : bool) : FieldValue :=
  {| fv_key := k; fv_native := Some n; fv_type := t; fv_value := v; fv_human := human |}.
Definition tax_value := text_value "tax_id" "tax-id" "TEXT" (Some "12-3456789") false.
Definition all_values := [text_value "company_name" "company_name" "TEXT" (Some "Astra") false; tax_value;
  text_value "signature" "signature" "SIGNATURE" None true].

Lemma typed_value_drafted_witness :
  exists r res repl, typed_number = Ok (r, typed_number_db) /\ vl_plain r = None /\ is_ok (draft_of typed_number_db) = true /\
    fst <$> draft_of typed_number_db = Ok res /\ repl !! "tax-id" = Some "12-3456789" /\
    fr_content res = joined_runs "template" ((fun p => (process_paragraph repl p).1) <$> ((fun t => [t]) <$> template_text)) /\
    fr_content res = "Company Astra, 12-3456789|Signed: ".
Proof.
  destruct (and_then_ok typed_number prefilled_db ltac:(computed)) as [r Hr]. change (and_then typed_number prefilled_db) with typed_number_db in Hr.
  assert (is_ok (draft_of typed_number_db) = true) as Hd by computed.
  destruct (and_then_ok (draft_of typed_number_db) typed_number_db Hd) as [res Hres].
  assert (match typed_number with Ok (r, _) => vl_plain r | Err _ => Some "" end = None) as Hp by computed.
  assert (match typed_number with Ok (r, _) => vl_status r | Err _ => "" end = "MANUALLY_FILLED") as Hst by computed.
  assert (match typed_number with Ok (r, db) => fill_value open_text form_keys ∘ pair r <$> template_fields db !! vl_field r | Err _ => None end =
    Some tax_value) as Hv by computed.
  assert ((x ← form_instances typed_number_db !! the_form; ft_format <$> templates typed_number_db !! fi_template x) = Some "DOCX") as Hfmt by computed.
  rewrite Hr in Hp, Hst, Hv. cbv beta iota in Hp, Hst, Hv.
  destruct (typed_value_drafted form_ids one_nonce json_text json_text json_text digest seal_text open_text no_names no_pdf_copy open_runs joined_runs
    form_options form_keys the_form "tax_id" "12-3456789" None fay 6 prefilled_db r typed_number_db "template" false fay res _
    (fun m n p a => eq_refl) ltac:(intros k [= <-]; reflexivity) (reached_forms_ok _ prefilled_reached) Hr ltac:(done)
    ltac:(rewrite Hst; done) Hres) as (x & tp & f & Hx & Htp & Hf & _ & _ & Hdraft).
  rewrite Hf in Hv. apply (inj Some) in Hv. unfold compose in Hv. rewrite Hv in Hdraft. rewrite Hx in Hfmt. change (ft_format <$> templates typed_number_db !! fi_template x = Some "DOCX") in Hfmt.
  rewrite Htp in Hfmt. apply (inj Some) in Hfmt.
  destruct Hdraft as [[E _]|[_ Hdraft]]; [rewrite Hfmt in E; discriminate|].
  destruct Hdraft as (ps & repl & Hps & Hrepl & Hc).
  - assert (_field_values_for_fill open_text form_keys the_form typed_number_db = all_values) as -> by computed.
    intros w Hw E. repeat (apply elem_of_cons in Hw as [->|Hw]; [first [reflexivity | discriminate E]|]). inversion Hw.
  - injection Hps as <-. exists r, res, repl. split_and!; [exact Hr | exact Hp | exact Hd | by rewrite Hres | exact Hrepl | exact Hc|].
    assert (fr_content ∘ fst <$> draft_of typed_number_db = Ok "Company Astra, 12-3456789|Signed: ") as Ec by computed.
    rewrite Hres in Ec. by injection Ec.
Defined.
