(* ===== verification/RuleGovernance.v ===== *)
(** * Governance of requirement rules

    The sources a rule may cite, their snapshots and their review
    ([app/services/requirement_source_service.py]), and the rule sets and deadline rules
    that cite them ([app/api/v1/licensing_admin.py]).  The network and the evidence store
    are arguments.  New rows take the next identifier of [uuid4]; the session writes rows
    in the order of their keys, [written_first].  Titles, notes and summaries are left
    out. *)
From Stdlib Require Import Ascii.
From S2P Require Import Prelude Vocabulary Terms PyDate PyJson PyUrl Roles LicensingLog Scoping Conditions DeadlineRules Requirements.
Open Scope Z_scope.

(** ** Tables *)

Record RequirementSource := {
  rq_id : uuid;
  rq_key : string;
  rq_type : string;
  rq_authority : string;
  rq_title : string;
  rq_url : option string;
  rq_access : string;
  rq_effective : option date;
  rq_expiry : option date;
  rq_verified : option instant;
  rq_verification : string;
  rq_current : option uuid;
  rq_owner : option string;
  rq_freshness : option Z
}.
Instance eta_source : Eta RequirementSource := fun r =>
  {| rq_id := rq_id r; rq_key := rq_key r; rq_type := rq_type r; rq_authority := rq_authority r; rq_title := rq_title r;
     rq_url := rq_url r; rq_access := rq_access r; rq_effective := rq_effective r; rq_expiry := rq_expiry r;
     rq_verified := rq_verified r; rq_verification := rq_verification r; rq_current := rq_current r; rq_owner := rq_owner r;
     rq_freshness := rq_freshness r |}.

Record RequirementSourceSnapshot := {
  sn_id : uuid;
  sn_source : uuid;
  sn_version : Z;
  sn_uri : option string;
  sn_sha256 : string;
  sn_text_uri : option string;
  sn_retrieved : instant;
  sn_effective : option date;
  sn_previous : option uuid;
  sn_status : string;
  sn_reviewed_by : option string;
  sn_reviewed_at : option instant;
  sn_affects : option bool
}.
Instance eta_snapshot : Eta RequirementSourceSnapshot := fun s =>
  {| sn_id := sn_id s; sn_source := sn_source s; sn_version := sn_version s; sn_uri := sn_uri s; sn_sha256 := sn_sha256 s;
     sn_text_uri := sn_text_uri s; sn_retrieved := sn_retrieved s; sn_effective := sn_effective s; sn_previous := sn_previous s;
     sn_status := sn_status s; sn_reviewed_by := sn_reviewed_by s; sn_reviewed_at := sn_reviewed_at s; sn_affects := sn_affects s |}.

Record RequirementRuleSet := {
  st_id : uuid;
  st_name : string;
  st_version : Z;
  st_status : string;
  st_derived : option uuid;
  st_approved_by : option string;
  st_activated : option instant;
  st_retired : option instant
}.
Instance eta_set : Eta RequirementRuleSet := fun s =>
  {| st_id := st_id s; st_name := st_name s; st_version := st_version s; st_status := st_status s; st_derived := st_derived s;
     st_approved_by := st_approved_by s; st_activated := st_activated s; st_retired := st_retired s |}.

(** The columns of a rule are those of [Rule], without citations. *)
Record RequirementRule := { rw_set : uuid; rw_rule : Rule }.
Record RequirementRuleSource := { lk_rule : uuid; lk_snapshot : uuid; lk_detail : option string; lk_primary : bool }.

Record DeadlineRule := {
  dl_id : uuid;
  dl_key : string;
  dl_obligation : string;
  dl_recurrence : string;
  dl_config : list (string * json);
  dl_lead_days : option Z;
  dl_adjustment : string;
  dl_escalation : list (string * json);
  dl_offsets : list (string * json);
  dl_from : option date;
  dl_to : option date;
  dl_sources : list uuid;
  dl_status : string
}.
Instance eta_deadline_rule : Eta DeadlineRule := fun d =>
  {| dl_id := dl_id d; dl_key := dl_key d; dl_obligation := dl_obligation d; dl_recurrence := dl_recurrence d;
     dl_config := dl_config d; dl_lead_days := dl_lead_days d; dl_adjustment := dl_adjustment d; dl_escalation := dl_escalation d;
     dl_offsets := dl_offsets d; dl_from := dl_from d; dl_to := dl_to d; dl_sources := dl_sources d; dl_status := dl_status d |}.

Record RuleDb := {
  sources : gmap uuid RequirementSource;
  snapshots : gmap uuid RequirementSourceSnapshot;
  rule_sets : gmap uuid RequirementRuleSet;
  requirement_rules : gmap uuid RequirementRule;
  rule_sources : list RequirementRuleSource;
  deadline_rules : gmap uuid DeadlineRule;
  log : Log;
  next_id : nat
}.
Instance eta_rules : Eta RuleDb := fun db =>
  {| sources := sources db; snapshots := snapshots db; rule_sets := rule_sets db; requirement_rules := requirement_rules db;
     rule_sources := rule_sources db; deadline_rules := deadline_rules db; log := log db; next_id := next_id db |}.

Record SourceSettings := {
  requirement_source_fetch_enabled : bool;
  requirement_source_allowed_hosts : list string;
  requirement_source_max_bytes : Z;
  requirement_source_freshness_days : option Z
}.

Definition drawn (db : RuleDb) : RuleDb := db <| next_id := S (next_id db) |>.
Definition put_source (s : RequirementSource) (db : RuleDb) : RuleDb := db <| sources := <[rq_id s := s]> (sources db) |>.
Definition put_snapshot (s : RequirementSourceSnapshot) (db : RuleDb) : RuleDb := db <| snapshots := <[sn_id s := s]> (snapshots db) |>.
Definition put_set (s : RequirementRuleSet) (db : RuleDb) : RuleDb := db <| rule_sets := <[st_id s := s]> (rule_sets db) |>.
Definition put_rule (r : RequirementRule) (db : RuleDb) : RuleDb :=
  db <| requirement_rules := <[rule_id (rw_rule r) := r]> (requirement_rules db) |>.
Definition put_deadline_rule (d : DeadlineRule) (db : RuleDb) : RuleDb := db <| deadline_rules := <[dl_id d := d]> (deadline_rules db) |>.
Definition audited (entity i act : string) (who : CurrentActor) (db : RuleDb) : RuleDb :=
  db <| log := add_audit entity i act (Some (actor_id who)) (log db) |>.
Definition notified (n : Notice) (db : RuleDb) : RuleDb := db <| log := (record_notification n (log db)).2 |>.

Definition get {A} (t : gmap uuid A) (i : uuid) : result exn A := match t !! i with Some x => Ok x | None => Err NotFoundError end.

Section Governance.
Context (uuid4 : nat -> uuid) (written_first : uuid -> uuid -> bool) (sha256 : string -> string) (re_compiles : string -> bool).
Context (bracketed_ok : string -> bool) (getaddrinfo : string -> option (list string)) (public_address : string -> bool).
(** A response: status, content type and body; the text of a body that is decoded and
    encoded again; where the store keeps what it is given. *)
Context (http_get : string -> result exn (Z * string * string)) (recoded : string -> string)
  (put_bytes : string -> string -> result exn string).
Context (settings : SourceSettings).

(** ** Sources *)

Definition blocked_fragments : list string := ["login"; "signin"; "auth"; "account"; "portal.secure"].

(** The host as the text up to the first slash and the first colon. *)
Definition url_host (url : string) : string := str_lower (before ":" (before "/" (String.substring 8 (String.length url) url))).

Definition _assert_url_permitted (url : string) (fetching : bool) : result exn unit :=
  _ ← raise_unless (is_prefix "https://" url) SourceFetchNotAllowedError;
  _ ← raise_unless (negb (existsb (fun f => is_infix f (str_lower url)) blocked_fragments)) SourceFetchNotAllowedError;
  if fetching then
    _ ← raise_unless (requirement_source_fetch_enabled settings) SourceFetchNotAllowedError;
    raise_unless (bool_decide (url_host url ∈ (fun h => str_lower (strip h)) <$> requirement_source_allowed_hosts settings)) SourceFetchNotAllowedError
  else Ok tt.

Definition _assert_public_resolution (url : string) : result exn unit :=
  u ← urlparse bracketed_ok url;
  match hostname u with
  | Some h =>
      if bool_decide (h = "") then Err SourceFetchNotAllowedError
      else match getaddrinfo h with
           | None => Err SourceFetchNotAllowedError
           | Some l => raise_unless (forallb public_address l) SourceFetchNotAllowedError
           end
  | None => Err SourceFetchNotAllowedError
  end.

Record NewSource := {
  ns_key : string;
  ns_type : string;
  ns_authority : string;
  ns_title : string;
  ns_url : option string;
  ns_access : option string;
  ns_effective : option date;
  ns_expiry : option date;
  ns_owner : option string;
  ns_freshness : option Z
}.

Definition new_source (i : uuid) (n : NewSource) (who : CurrentActor) : RequirementSource :=
  {| rq_id := i; rq_key := ns_key n; rq_type := ns_type n; rq_authority := ns_authority n; rq_title := ns_title n; rq_url := ns_url n;
     rq_access := or_text (ns_access n) (value SourceAccessMethod.MANUAL_URL_REGISTRATION); rq_effective := ns_effective n;
     rq_expiry := ns_expiry n; rq_verified := None; rq_verification := value SourceVerificationStatus.UNVERIFIED; rq_current := None;
     rq_owner := Some (or_text (ns_owner n) (actor_id who)); rq_freshness := ns_freshness n |}.

Definition source_row_ok (s : RequirementSource) : bool :=
  is_value (A := SourceType.SourceType) (rq_type s) && is_value (A := AuthorityLevel.AuthorityLevel) (rq_authority s) &&
  is_value (A := SourceAccessMethod.SourceAccessMethod) (rq_access s).

Definition register_source (n : NewSource) (who : CurrentActor) (db : RuleDb) : result exn (RequirementSource * RuleDb) :=
  _ ← raise_unless (negb (existsb (fun s => bool_decide (rq_key s = ns_key n)) (rows (sources db)))) StateConflictError;
  _ ← (if truthy_str (ns_url n) then _assert_url_permitted (default "" (ns_url n)) false else Ok tt);
  let s := new_source (uuid4 (next_id db)) n who in
  _ ← raise_unless (source_row_ok s) IntegrityError;
  Ok (s, audited "requirement_source" (rq_id s) "requirement_source_registered" who (put_source s (drawn db))).

(** ** Snapshots *)

Definition current_snapshot (s : RequirementSource) (db : RuleDb) : option RequirementSourceSnapshot :=
  rq_current s ≫= fun i => snapshots db !! i.

Definition highest_snapshot (source : uuid) (db : RuleDb) : Z :=
  foldr Z.max 0 (sn_version <$> filter (fun s => sn_source s = source) (rows (snapshots db))).

Record NewSnapshot := {
  nn_content : option string;
  nn_sha256 : option string;
  nn_uri : option string;
  nn_text_uri : option string;
  nn_effective : option date
}.

Definition digest_of (n : NewSnapshot) : option string :=
  if truthy_str (nn_sha256 n) then nn_sha256 n else sha256 <$> nn_content n.

Definition new_snapshot (i : uuid) (source : uuid) (version : Z) (digest : string) (n : NewSnapshot) (previous : option uuid) (now : instant)
    : RequirementSourceSnapshot :=
  {| sn_id := i; sn_source := source; sn_version := version; sn_uri := nn_uri n; sn_sha256 := digest; sn_text_uri := nn_text_uri n;
     sn_retrieved := now; sn_effective := nn_effective n; sn_previous := previous; sn_status := value SnapshotReviewStatus.PENDING_REVIEW;
     sn_reviewed_by := None; sn_reviewed_at := None; sn_affects := None |}.

Definition source_change_alert (snapshot recipient : string) : Notice :=
  {| no_type := "SOURCE_CHANGE_REVIEW"; no_severity := "IMPORTANT"; no_recipient := recipient; no_entity := "requirement_source_snapshot";
     no_entity_id := snapshot; no_key := build_idempotency_key sha256 [Some "source-change"; Some snapshot] |}.

Definition tell_owner (s : RequirementSource) (alert : string -> Notice) (db : RuleDb) : RuleDb :=
  if truthy_str (rq_owner s) then notified (alert (default "" (rq_owner s))) db else db.

Definition add_snapshot (source : uuid) (n : NewSnapshot) (who : CurrentActor) (now : instant) (db : RuleDb)
    : result exn (RequirementSourceSnapshot * bool * RuleDb) :=
  s ← get (sources db) source;
  let digest := default "" (digest_of n) in
  _ ← raise_unless (negb (bool_decide (digest = ""))) StateConflictError;
  let current := current_snapshot s db in
  let unchanged := match current with Some c => bool_decide (sn_sha256 c = digest) | None => false end in
  match current with
  | Some c =>
      if unchanged then
        let s := s <| rq_verified := Some now |> <| rq_verification := value SourceVerificationStatus.VERIFIED |> in
        Ok (c, false, audited "requirement_source" source "requirement_source_verified_unchanged" who (put_source s db))
      else
        let x := new_snapshot (uuid4 (next_id db)) source (highest_snapshot source db + 1) digest n (Some (sn_id c)) now in
        let s := s <| rq_verification := value SourceVerificationStatus.CHANGED_PENDING_REVIEW |> <| rq_verified := Some now |> in
        Ok (x, true, audited "requirement_source_snapshot" (sn_id x) "requirement_source_snapshot_created" who
                       (tell_owner s (source_change_alert (sn_id x)) (put_source s (put_snapshot x (drawn db)))))
  | None =>
      let x := new_snapshot (uuid4 (next_id db)) source (highest_snapshot source db + 1) digest n None now in
      let s := s <| rq_verified := Some now |> in
      Ok (x, true, audited "requirement_source_snapshot" (sn_id x) "requirement_source_snapshot_created" who
                     (tell_owner s (source_change_alert (sn_id x)) (put_source s (put_snapshot x (drawn db)))))
  end.

Definition text_types : list string := ["text/html"; "text/plain"; "application/json"].

(** What is fetched of an allowed address, without following a redirect. *)
Definition fetch_public_snapshot (source : uuid) (who : CurrentActor) (now : instant) (db : RuleDb)
    : result exn (RequirementSourceSnapshot * bool * RuleDb) :=
  s ← get (sources db) source;
  _ ← raise_unless (truthy_str (rq_url s)) StateConflictError;
  let url := default "" (rq_url s) in
  _ ← _assert_url_permitted url true;
  _ ← _assert_public_resolution url;
  '(status, content_type, content) ← http_get url;
  _ ← raise_unless (negb ((300 <=? status) && (status <? 400))) SourceFetchNotAllowedError;
  _ ← raise_unless ((200 <=? status) && (status <? 300)) HTTPStatusError;
  let content_type := before ";" content_type in
  _ ← raise_unless (Z.of_nat (String.length content) <=? requirement_source_max_bytes settings) StateConflictError;
  let digest := sha256 content in
  let storage_key := "requirement-sources/" +:+ source +:+ "/" +:+ digest in
  stored ← put_bytes storage_key content;
  extracted ← (if bool_decide (content_type ∈ text_types)
               then Some <$> put_bytes (storage_key +:+ ".extracted.txt") (recoded content) else Ok None);
  add_snapshot source {| nn_content := None; nn_sha256 := Some digest; nn_uri := Some stored; nn_text_uri := extracted; nn_effective := None |}
    who now db.

Definition superseded (db : RuleDb) (i : uuid) : RuleDb :=
  match snapshots db !! i with
  | Some p => put_snapshot (p <| sn_status := value SnapshotReviewStatus.SUPERSEDED |>) db
  | None => db
  end.

Definition review_snapshot (i : uuid) (approve : bool) (affects : option bool) (who : CurrentActor) (now : instant) (db : RuleDb)
    : result exn (RequirementSourceSnapshot * RuleDb) :=
  x ← get (snapshots db) i;
  _ ← raise_unless (bool_decide (sn_status x = value SnapshotReviewStatus.PENDING_REVIEW)) StateConflictError;
  s ← get (sources db) (sn_source x);
  let x := x <| sn_reviewed_by := Some (actor_id who) |> <| sn_reviewed_at := Some now |> <| sn_affects := affects |> in
  let '(x, s, db) :=
    if approve then
      (x <| sn_status := value SnapshotReviewStatus.APPROVED |>,
       s <| rq_current := Some i |> <| rq_verification := value SourceVerificationStatus.VERIFIED |> <| rq_verified := Some now |>
         <| rq_effective := match sn_effective x with Some d => Some d | None => rq_effective s end |>,
       match rq_current s with Some p => if bool_decide (p = i) then db else superseded db p | None => db end)
    else
      (x <| sn_status := value SnapshotReviewStatus.REJECTED |>,
       s <| rq_verification := value (if truthy_opt (rq_current s) then SourceVerificationStatus.VERIFIED
                                      else SourceVerificationStatus.UNVERIFIED) |>, db) in
  Ok (x, audited "requirement_source_snapshot" i "requirement_source_snapshot_reviewed" who (put_source s (put_snapshot x db))).

(** ** Freshness *)

Definition source_freshness (s : RequirementSource) (now : instant) : FreshnessAssessment :=
  assess_source (rq_type s) (rq_authority s) (rq_verified s) None (rq_freshness s) (requirement_source_freshness_days settings) now.

Definition stale_source_alert (source status recipient : string) : Notice :=
  {| no_type := "STALE_SOURCE"; no_severity := "IMPORTANT"; no_recipient := recipient; no_entity := "requirement_source";
     no_entity_id := source; no_key := build_idempotency_key sha256 [Some "stale-source"; Some source; Some status] |}.

Definition report_one (notify : bool) (now : instant) (db : RuleDb) (s : RequirementSource) : RuleDb :=
  let a := source_freshness s now in
  if is_stale a then
    let db := put_source (s <| rq_verification := value SourceVerificationStatus.STALE |>) db in
    if notify then tell_owner s (stale_source_alert (rq_id s) (fa_status a)) db else db
  else db.

Definition freshness_report (notify : bool) (now : instant) (db : RuleDb) : list (uuid * FreshnessAssessment) * RuleDb :=
  ((fun s => (rq_id s, source_freshness s now)) <$> rows (sources db), foldl (report_one notify now) db (rows (sources db))).

(** ** Rule sets *)

Definition CITABLE : list string := value <$> [SnapshotReviewStatus.APPROVED; SnapshotReviewStatus.SUPERSEDED].
Definition citable (i : uuid) (db : RuleDb) : bool :=
  match snapshots db !! i with Some s => bool_decide (sn_status s ∈ CITABLE) | None => false end.

Definition _approved_snapshots (l : list uuid) (db : RuleDb) : result exn unit := raise_unless (forallb (fun i => citable i db) l) StateConflictError.

Definition highest_set (name : string) (db : RuleDb) : Z :=
  foldr Z.max 0 (st_version <$> filter (fun s => st_name s = name) (rows (rule_sets db))).

Definition create_rule_set (name : string) (derived : option uuid) (db : RuleDb) : RequirementRuleSet * RuleDb :=
  let s := {| st_id := uuid4 (next_id db); st_name := name; st_version := highest_set name db + 1; st_status := value RuleSetStatus.DRAFT;
              st_derived := derived; st_approved_by := None; st_activated := None; st_retired := None |} in
  (s, put_set s (drawn db)).

(** A rule as the request has it, with the snapshots it cites, at least one. *)
Record NewRule := { nu_rule : Rule; nu_first : uuid; nu_others : list uuid }.
Definition cited (n : NewRule) : list uuid := nu_first n :: nu_others n.

Definition stored_rule (i : uuid) (r : Rule) : Rule :=
  {| rule_id := i; rule_key := rule_key r; outcome := outcome r; explanation_template := explanation_template r;
     rule_conditions := rule_conditions r; priority := priority r; jurisdiction_id := jurisdiction_id r; license_type_id := license_type_id r;
     filing_channels := filing_channels r; required_facts := required_facts r; effective_from := effective_from r;
     effective_to := effective_to r; requires_counsel_review := requires_counsel_review r; enabled := enabled r; citations := [] |}.

Definition rules_of (set : uuid) (db : RuleDb) : list RequirementRule := filter (fun r => rw_set r = set) (rows (requirement_rules db)).

Definition rule_row_ok (set : uuid) (r : Rule) (db : RuleDb) : bool :=
  negb (existsb (fun x => bool_decide (rule_key (rw_rule x) = rule_key r)) (rules_of set db)) &&
  match effective_from r, effective_to r with Some f, Some t => f <=? t | _, _ => true end.

Definition rule_links (i : uuid) (n : NewRule) : list RequirementRuleSource :=
  imap (fun k s => {| lk_rule := i; lk_snapshot := s; lk_detail := None; lk_primary := bool_decide (k = 0%nat) |}) (cited n).

Definition create_requirement_rule (set : uuid) (n : NewRule) (db : RuleDb) : result exn (RequirementRule * RuleDb) :=
  s ← get (rule_sets db) set;
  _ ← raise_unless (bool_decide (st_status s = value RuleSetStatus.DRAFT)) StateConflictError;
  _ ← _approved_snapshots (cited n) db;
  _ ← validate re_compiles (nu_rule n);
  let r := {| rw_set := set; rw_rule := stored_rule (uuid4 (next_id db)) (nu_rule n) |} in
  _ ← raise_unless (rule_row_ok set (rw_rule r) db) IntegrityError;
  _ ← raise_unless (bool_decide (NoDup (cited n))) IntegrityError;
  Ok (r, put_rule r (drawn db) <| rule_sources := rule_sources db ++ rule_links (rule_id (rw_rule r)) n |>).

Definition links_of (rule : uuid) (db : RuleDb) : list RequirementRuleSource := filter (fun l => lk_rule l = rule) (rule_sources db).

(** Rules with their provenance. *)
Fixpoint check_provenance (l : list RequirementRule) (db : RuleDb) : result exn unit :=
  match l with
  | [] => Ok tt
  | r :: l =>
      let links := links_of (rule_id (rw_rule r)) db in
      _ ← raise_unless (negb (bool_decide (length links = 0%nat))) StateConflictError;
      _ ← _approved_snapshots (lk_snapshot <$> links) db;
      check_provenance l db
  end.

Definition active_set (s : RequirementRuleSet) : bool := bool_decide (st_status s = value RuleSetStatus.ACTIVE).

Definition retired (now : instant) (s : RequirementRuleSet) : RequirementRuleSet :=
  s <| st_status := value RuleSetStatus.RETIRED |> <| st_retired := Some now |>.

Definition activate_rule_set (set : uuid) (who : CurrentActor) (now : instant) (db : RuleDb) : result exn (RequirementRuleSet * RuleDb) :=
  s ← get (rule_sets db) set;
  let rules := filter (fun r => enabled (rw_rule r) = true) (rules_of set db) in
  _ ← raise_unless (negb (bool_decide (length rules = 0%nat))) StateConflictError;
  _ ← check_provenance rules db;
  let previous := filter (fun x => (bool_decide (st_name x = st_name s) && active_set x && negb (bool_decide (st_id x = set))) = true)
                    (rows (rule_sets db)) in
  _ ← raise_unless (active_set s || forallb (fun x => written_first (st_id x) set) previous) IntegrityError;
  let s := s <| st_status := value RuleSetStatus.ACTIVE |> <| st_approved_by := Some (actor_id who) |> <| st_activated := Some now |> in
  Ok (s, audited "requirement_rule_set" set "requirement_rule_set_activated" who
           (put_set s (foldl (fun db x => put_set (retired now x) db) db previous))).

(** ** Deadline rules *)

Definition ladder_ok (escalation : list (string * json)) : bool :=
  match default (JDict []) (dget "ladder" escalation) with
  | JDict d => forallb (fun kv => match kv.2 with JStr s => is_value (A := EscalationLevel.EscalationLevel) s | _ => false end) d
  | _ => false
  end.

Definition deadline_row_ok (d : DeadlineRule) (db : RuleDb) : bool :=
  negb (existsb (fun x => bool_decide (dl_key x = dl_key d)) (rows (deadline_rules db))) &&
  match dl_from d, dl_to d with Some f, Some t => f <=? t | _, _ => true end.

(** The payload is a row without its identifier and its status. *)
Definition create_deadline_rule (d : DeadlineRule) (db : RuleDb) : result exn (DeadlineRule * RuleDb) :=
  _ ← _approved_snapshots (dl_sources d) db;
  _ ← validate_recurrence_config (dl_recurrence d) (dl_config d);
  _ ← validate_milestone_offsets (dl_offsets d);
  _ ← raise_unless (is_value (A := ObligationType.ObligationType) (dl_obligation d)) StateConflictError;
  _ ← raise_unless (is_value (A := AdjustmentPolicy.AdjustmentPolicy) (dl_adjustment d)) StateConflictError;
  _ ← raise_unless (ladder_ok (dl_escalation d)) StateConflictError;
  let d := d <| dl_id := uuid4 (next_id db) |> <| dl_status := "DRAFT" |> in
  _ ← raise_unless (deadline_row_ok d db) IntegrityError;
  Ok (d, put_deadline_rule d (drawn db)).

Definition activate_deadline_rule (i : uuid) (who : CurrentActor) (db : RuleDb) : result exn (DeadlineRule * RuleDb) :=
  d ← get (deadline_rules db) i;
  _ ← _approved_snapshots (dl_sources d) db;
  let d := d <| dl_status := "ACTIVE" |> in
  Ok (d, audited "deadline_rule" i "deadline_rule_activated" who (put_deadline_rule d db)).
End Governance.
