(* ===== verification/Assessments.v ===== *)
(** * Requirement assessments ([app/services/requirement_assessment_service.py])

    Assessments over the active rule set: their creation, evaluation and storage, the
    review of each result, overrides and counsel review, the approval, and the outcome
    that governs.  Rules and sources are those of [RuleGovernance], the answer of one
    jurisdiction that of [Evaluator].  Notes for people are left out. *)
From Stdlib Require Import Ascii.
From S2P Require Import Prelude Vocabulary Terms PyDate PyJson Crypto Roles LicensingLog Scoping Conditions Requirements Explanations Evaluator RuleGovernance.
Open Scope Z_scope.

(** ** Tables *)

Record RequirementAssessment := {
  as_id : uuid;
  as_key : string;
  as_entity : uuid;
  as_profile : uuid;
  as_type : string;
  as_status : string;
  as_jurisdictions : list uuid;
  as_facts : list (string * json);
  as_fingerprint : string;
  as_rule_set : uuid;
  as_effective : date;
  as_created_by : string;
  as_reviewed_by : option string;
  as_reviewed_at : option instant;
  as_evaluated_at : option instant
}.
Instance eta_assessment : Eta RequirementAssessment := fun a =>
  {| as_id := as_id a; as_key := as_key a; as_entity := as_entity a; as_profile := as_profile a; as_type := as_type a;
     as_status := as_status a; as_jurisdictions := as_jurisdictions a; as_facts := as_facts a; as_fingerprint := as_fingerprint a;
     as_rule_set := as_rule_set a; as_effective := as_effective a; as_created_by := as_created_by a;
     as_reviewed_by := as_reviewed_by a; as_reviewed_at := as_reviewed_at a; as_evaluated_at := as_evaluated_at a |}.

(** The computed columns of a result are those of the evaluator's answer. *)
Record RequirementAssessmentResult := {
  re_id : uuid;
  re_assessment : uuid;
  re_answer : JurisdictionResult;
  re_counsel : bool;
  re_reviewed_outcome : option string;
  re_reviewed_by : option string;
  re_reviewed_at : option instant
}.
Instance eta_result : Eta RequirementAssessmentResult := fun r =>
  {| re_id := re_id r; re_assessment := re_assessment r; re_answer := re_answer r; re_counsel := re_counsel r;
     re_reviewed_outcome := re_reviewed_outcome r; re_reviewed_by := re_reviewed_by r; re_reviewed_at := re_reviewed_at r |}.

Record AssessmentOverride := {
  ov_id : uuid;
  ov_result : uuid;
  ov_original : string;
  ov_outcome : string;
  ov_reason : string;
  ov_authority : string;
  ov_by : string;
  ov_reference : option string;
  ov_from : date;
  ov_to : option date;
  ov_created : instant
}.

(** Rows of other services. *)
Record AssessedEntity := { ae_key : string; ae_in_scope : bool }.
Record OperatingProfile := { op_entity : uuid; op_version : Z; op_status : string; op_facts : list (string * json) }.

Record AssessmentDb := {
  governance : RuleDb;
  entities : gmap uuid AssessedEntity;
  profiles : gmap uuid OperatingProfile;
  jurisdictions : gmap uuid string;
  assessments : gmap uuid RequirementAssessment;
  results : gmap uuid RequirementAssessmentResult;
  overrides : list AssessmentOverride;
  next_row : nat
}.
Instance eta_assessments : Eta AssessmentDb := fun db =>
  {| governance := governance db; entities := entities db; profiles := profiles db; jurisdictions := jurisdictions db;
     assessments := assessments db; results := results db; overrides := overrides db; next_row := next_row db |}.

Record AssessmentSettings := {
  licensing_require_human_review : bool;
  licensing_require_counsel_for_not_required : bool
}.

Definition fresh (db : AssessmentDb) : AssessmentDb := db <| next_row := S (next_row db) |>.
Definition put_assessment (a : RequirementAssessment) (db : AssessmentDb) : AssessmentDb := db <| assessments := <[as_id a := a]> (assessments db) |>.
Definition put_result (r : RequirementAssessmentResult) (db : AssessmentDb) : AssessmentDb := db <| results := <[re_id r := r]> (results db) |>.
Definition logged (entity i act : string) (who : option CurrentActor) (db : AssessmentDb) : AssessmentDb :=
  db <| governance := governance db <| log := add_audit entity i act (actor_id <$> who) (log (governance db)) |> |>.

Definition results_of (i : uuid) (db : AssessmentDb) : list RequirementAssessmentResult :=
  filter (fun r => re_assessment r = i) (rows (results db)).

Section Assessments.
Context (uuid4 : nat -> uuid) (sha256 : string -> string) (float_text : json -> string).
Context (re_search : string -> string -> bool -> result exn bool) (py_str : json -> string).
Context (source_settings : SourceSettings) (settings : AssessmentSettings).

(** ** Rules *)

Definition set_leb (a b : RequirementRuleSet) : bool := st_version b <=? st_version a.

Definition _load_active_rule_set (name : option string) (db : RuleDb) : result exn RequirementRuleSet :=
  let l := filter (fun s => (active_set s && (negb (truthy_str name) || bool_decide (Some (st_name s) = name))) = true) (rows (rule_sets db)) in
  match head (py_sorted set_leb l) with Some s => Ok s | None => Err StateConflictError end.

(** A citation of a link whose snapshot was approved. *)
Definition citation (now : instant) (db : RuleDb) (l : RequirementRuleSource) : option SourceCitation :=
  n ← snapshots db !! lk_snapshot l;
  s ← sources db !! sn_source n;
  if bool_decide (sn_status n ∈ CITABLE) then
    Some {| source_id := Some (rq_id s); snapshot_id := Some (sn_id n); title := rq_title s; authority_level := rq_authority s;
            source_type := rq_type s; official_url := rq_url s; snapshot_version := Some (sn_version n);
            last_verified_at := (fun v => isoformat (instant_date v)) <$> rq_verified s; cited_effective_date := isoformat <$> rq_effective s;
            citation_detail := lk_detail l; freshness_status := Some (fa_status (source_freshness source_settings s now)) |}
  else None.

Definition with_citations (now : instant) (db : RuleDb) (r : Rule) : Rule :=
  {| rule_id := rule_id r; rule_key := rule_key r; outcome := outcome r; explanation_template := explanation_template r;
     rule_conditions := rule_conditions r; priority := priority r; jurisdiction_id := jurisdiction_id r; license_type_id := license_type_id r;
     filing_channels := filing_channels r; required_facts := required_facts r; effective_from := effective_from r;
     effective_to := effective_to r; requires_counsel_review := requires_counsel_review r; enabled := enabled r;
     citations := omap (citation now db) (links_of (rule_id r) db) |}.

Definition _load_rules (set : uuid) (now : instant) (db : RuleDb) : list Rule :=
  (fun r => with_citations now db (rw_rule r)) <$> filter (fun r => enabled (rw_rule r) = true) (rules_of set db).

(** ** Creation *)

Record NewAssessment := {
  na_entity : uuid;
  na_profile : uuid;
  na_jurisdictions : list uuid;
  na_type : option string;
  na_facts : list (string * json);
  na_effective : option date;
  na_rule_set : option string
}.

Definition updated (base extra : list (string * json)) : list (string * json) := foldl (fun d kv => dset kv.1 kv.2 d) base extra.

Definition set_label (s : RequirementRuleSet) : string := st_name s +:+ ":" +:+ pretty.pretty (st_version s).

Definition fingerprint (n : NewAssessment) (p : OperatingProfile) (facts : list (string * json)) (s : RequirementRuleSet) (when : date) : string :=
  content_sha256 float_text sha256
    (JDict [("profile", JStr (na_profile n)); ("profile_version", JInt (op_version p)); ("facts", JDict facts);
            ("rule_set", JStr (set_label s)); ("jurisdictions", JList (JStr <$> py_sorted str_leb (na_jurisdictions n)));
            ("effective_date", JStr (isoformat when))]).

(** [suffix] is the random end of the key. *)
Definition create_assessment (n : NewAssessment) (suffix : string) (who : CurrentActor) (now : instant) (db : AssessmentDb)
    : result exn (RequirementAssessment * AssessmentDb) :=
  match entities db !! na_entity n, profiles db !! na_profile n with
  | Some e, Some p =>
      _ ← raise_unless (bool_decide (op_entity p = na_entity n)) StateConflictError;
      _ ← raise_unless (bool_decide (op_status p = "ACTIVE")) StateConflictError;
      _ ← raise_unless (negb (bool_decide (na_jurisdictions n = []))) StateConflictError;
      s ← _load_active_rule_set (na_rule_set n) (governance db);
      let facts := updated (op_facts p) (na_facts n) in
      let when := default (instant_date now) (na_effective n) in
      let a := {| as_id := uuid4 (next_row db);
                  as_key := ae_key e +:+ "-" +:+ pad_digits 4 (year (instant_date now)) (pad_digits 2 (month (instant_date now))
                              (pad_digits 2 (day (instant_date now)) ("-" +:+ suffix)));
                  as_entity := na_entity n; as_profile := na_profile n;
                  as_type := or_text (na_type n) (value AssessmentType.PERIODIC_REVIEW); as_status := value AssessmentStatus.DRAFT;
                  as_jurisdictions := na_jurisdictions n; as_facts := facts; as_fingerprint := fingerprint n p facts s when;
                  as_rule_set := st_id s; as_effective := when; as_created_by := actor_id who; as_reviewed_by := None;
                  as_reviewed_at := None; as_evaluated_at := None |} in
      _ ← raise_unless (is_value (A := AssessmentType.AssessmentType) (as_type a) &&
                        negb (existsb (fun x => bool_decide (as_key x = as_key a)) (rows (assessments db)))) IntegrityError;
      Ok (a, logged "requirement_assessment" (as_id a) "assessment_created" (Some who) (put_assessment a (fresh db)))
  | _, _ => Err NotFoundError
  end.

(** ** Evaluation *)

Definition policy : EvaluationSettings :=
  {| require_human_review := licensing_require_human_review settings;
     require_counsel_for_not_required := licensing_require_counsel_for_not_required settings;
     escalate_non_authoritative_sources := true |}.

(** The answers of the jurisdictions that are known. *)
Fixpoint answers (a : RequirementAssessment) (rules : list Rule) (in_scope : bool) (l : list uuid) (db : AssessmentDb)
    : result exn (list JurisdictionResult) :=
  match l with
  | [] => Ok []
  | j :: l =>
      match jurisdictions db !! j with
      | None => answers a rules in_scope l db
      | Some name =>
          r ← evaluate_jurisdiction re_search py_str j name None (as_facts a) rules (as_effective a) ∅ policy in_scope;
          rs ← answers a rules in_scope l db;
          Ok (r :: rs)
      end
  end.

Definition new_result (i : uuid) (a : uuid) (r : JurisdictionResult) : RequirementAssessmentResult :=
  {| re_id := i; re_assessment := a; re_answer := r; re_counsel := res_requires_counsel_review r; re_reviewed_outcome := None;
     re_reviewed_by := None; re_reviewed_at := None |}.

Definition store_answer (a : uuid) (db : AssessmentDb) (r : JurisdictionResult) : AssessmentDb :=
  put_result (new_result (uuid4 (next_row db)) a r) (fresh db).

(** The results of an assessment are deleted with their overrides. *)
Definition without_results (a : uuid) (db : AssessmentDb) : AssessmentDb :=
  let gone := re_id <$> results_of a db in
  db <| results := filter (fun kv => re_assessment kv.2 <> a) (results db) |>
     <| overrides := filter (fun o => ov_result o ∉ gone) (overrides db) |>.

Definition evaluated (counsel : bool) (now : instant) (a : RequirementAssessment) : RequirementAssessment :=
  a <| as_status := value (if counsel then AssessmentStatus.COUNSEL_REVIEW else AssessmentStatus.EVALUATED) |>
    <| as_evaluated_at := Some now |>.

Definition immutable (a : RequirementAssessment) : bool :=
  bool_decide (as_status a ∈ value <$> [AssessmentStatus.APPROVED; AssessmentStatus.SUPERSEDED]).

Definition evaluate (i : uuid) (who : option CurrentActor) (now : instant) (db : AssessmentDb)
    : result exn (list JurisdictionResult * AssessmentDb) :=
  a ← get (assessments db) i;
  _ ← raise_unless (negb (immutable a)) StateConflictError;
  let in_scope := match entities db !! as_entity a with Some e => ae_in_scope e | None => false end in
  rs ← answers a (_load_rules (as_rule_set a) now (governance db)) in_scope (as_jurisdictions a) db;
  _ ← raise_unless (bool_decide (NoDup (res_jurisdiction_id <$> rs))) IntegrityError;
  let db := foldl (store_answer i) (without_results i db) rs in
  let a := evaluated (existsb res_requires_counsel_review rs) now a in
  Ok (rs, logged "requirement_assessment" i "assessment_evaluated" who (put_assessment a db)).

(** ** Review *)

Definition review_result (i : uuid) (reviewed_outcome : option string) (counsel_decision : bool) (who : CurrentActor) (now : instant)
    (db : AssessmentDb) : result exn (RequirementAssessmentResult * AssessmentDb) :=
  r ← get (results db) i;
  _ ← raise_unless (negb (re_counsel r && negb counsel_decision)) StateConflictError;
  _ ← raise_unless (match reviewed_outcome with Some o => is_value (A := RequirementOutcome.RequirementOutcome) o | None => true end)
        StateConflictError;
  let r := r <| re_reviewed_outcome := reviewed_outcome |> <| re_reviewed_by := Some (actor_id who) |> <| re_reviewed_at := Some now |> in
  Ok (r, logged "requirement_assessment_result" i
           (if counsel_decision then "assessment_result_counsel_reviewed" else "assessment_result_reviewed") (Some who) (put_result r db)).

Definition request_counsel_review (i : uuid) (who : CurrentActor) (db : AssessmentDb) : result exn (RequirementAssessmentResult * AssessmentDb) :=
  r ← get (results db) i;
  let r := r <| re_counsel := true |> <| re_reviewed_outcome := None |> <| re_reviewed_by := None |> <| re_reviewed_at := None |> in
  let db := match assessments db !! re_assessment r with
            | Some a => if bool_decide (as_status a = value AssessmentStatus.APPROVED) then db
                        else put_assessment (a <| as_status := value AssessmentStatus.COUNSEL_REVIEW |>) db
            | None => db
            end in
  Ok (r, logged "requirement_assessment_result" i "counsel_review_requested" (Some who) (put_result r db)).

Record NewOverride := {
  nv_outcome : string;
  nv_reason : string;
  nv_authority : string;
  nv_reference : option string;
  nv_from : option date;
  nv_to : option date
}.

Definition new_override (i : uuid) (r : RequirementAssessmentResult) (n : NewOverride) (who : CurrentActor) (now : instant) : AssessmentOverride :=
  {| ov_id := i; ov_result := re_id r; ov_original := res_outcome (re_answer r); ov_outcome := nv_outcome n;
     ov_reason := str_take 2000 (strip (nv_reason n)); ov_authority := nv_authority n; ov_by := actor_id who; ov_reference := nv_reference n;
     ov_from := default (instant_date now) (nv_from n); ov_to := nv_to n; ov_created := now |}.

Definition override_result (i : uuid) (n : NewOverride) (who : CurrentActor) (now : instant) (db : AssessmentDb)
    : result exn (AssessmentOverride * AssessmentDb) :=
  r ← get (results db) i;
  _ ← raise_unless (is_value (A := RequirementOutcome.RequirementOutcome) (nv_outcome n)) StateConflictError;
  _ ← raise_unless (is_value (A := OverrideAuthority.OverrideAuthority) (nv_authority n)) StateConflictError;
  _ ← raise_unless (10 <=? Z.of_nat (String.length (strip (nv_reason n)))) StateConflictError;
  let not_required := bool_decide (nv_outcome n = value RequirementOutcome.LIKELY_NOT_REQUIRED) in
  _ ← raise_unless (negb (not_required && bool_decide (nv_authority n = value OverrideAuthority.COMPLIANCE_MANAGER))) StateConflictError;
  _ ← raise_unless (negb (not_required && bool_decide (strip (default "" (nv_reference n)) = ""))) StateConflictError;
  let o := new_override (uuid4 (next_row db)) r n who now in
  _ ← raise_unless (match ov_to o with Some t => ov_from o <=? t | None => true end) IntegrityError;
  let r := r <| re_reviewed_outcome := Some (nv_outcome n) |> <| re_reviewed_by := Some (actor_id who) |> <| re_reviewed_at := Some now |> in
  let db := put_result r (fresh db) in
  Ok (o, logged "assessment_override" (ov_id o) "assessment_result_overridden" (Some who) (db <| overrides := overrides db ++ [o] |>)).

(** ** Approval *)

Definition APPROVABLE : list string := value <$> [AssessmentStatus.EVALUATED; AssessmentStatus.PENDING_REVIEW; AssessmentStatus.COUNSEL_REVIEW].

Definition approve (i : uuid) (who : CurrentActor) (now : instant) (db : AssessmentDb) : result exn (RequirementAssessment * AssessmentDb) :=
  a ← get (assessments db) i;
  _ ← raise_unless (bool_decide (as_status a ∈ APPROVABLE)) StateConflictError;
  let rs := results_of i db in
  _ ← raise_unless (negb (bool_decide (length rs = 0%nat))) StateConflictError;
  _ ← raise_unless (forallb (fun r => bool_decide (is_Some (re_reviewed_by r))) rs) StateConflictError;
  _ ← raise_unless (forallb (fun r => negb (re_counsel r && bool_decide (re_reviewed_at r = None))) rs) StateConflictError;
  let a := a <| as_status := value AssessmentStatus.APPROVED |> <| as_reviewed_by := Some (actor_id who) |> <| as_reviewed_at := Some now |> in
  Ok (a, logged "requirement_assessment" i "assessment_approved" (Some who) (put_assessment a db)).

(** ** The outcome that governs *)

Definition newer (a b : AssessmentOverride) : bool := ov_created b <=? ov_created a.
Definition overrides_of (i : uuid) (db : AssessmentDb) : list AssessmentOverride :=
  py_sorted newer (filter (fun o => ov_result o = i) (overrides db)).
Definition in_validity (today : date) (o : AssessmentOverride) : bool :=
  (ov_from o <=? today) && match ov_to o with Some t => today <=? t | None => true end.

Record EffectiveOutcome := { eo_outcome : string; eo_override_active : bool; eo_expired : nat }.

Definition effective_outcome (i : uuid) (today : date) (db : AssessmentDb) : result exn EffectiveOutcome :=
  r ← get (results db) i;
  let l := overrides_of i db in
  let active := head (filter (fun o => in_validity today o = true) l) in
  Ok {| eo_outcome := match active with Some o => ov_outcome o | None => or_text (re_reviewed_outcome r) (res_outcome (re_answer r)) end;
        eo_override_active := truthy_opt active;
        eo_expired := length (filter (fun o => match ov_to o with Some t => t <? today | None => false end = true) l) |}.
End Assessments.
