(* ===== verification/RequirementSafety.v ===== *)
(** * What holds of governed requirements

    The invariant of sources, snapshots and rule sets, for every call of
    [RuleGovernance]: a rule cites snapshots that were approved, a source has one
    approved snapshot, and a name one active rule set.  Snapshots keep their contents and
    stay citable once approved.  Then that of [Assessments] over them: what a stored
    answer cites was approved by a reviewer, a confident one is backed, and the answers
    of an approved assessment stay as they were approved. *)
From Stdlib Require Import Ascii Relations.
From S2P Require Import Prelude Vocabulary Terms PyDate PyJson PyUrl Crypto Roles LicensingLog Scoping Conditions DeadlineRules Requirements Explanations Evaluator RuleGovernance Assessments.
Open Scope Z_scope.

(** ** Sources, snapshots and rules *)


Definition approved_snapshot (x : RequirementSourceSnapshot) : Prop := sn_status x = value SnapshotReviewStatus.APPROVED.
Definition was_approved (x : RequirementSourceSnapshot) : Prop := sn_status x ∈ CITABLE.

Lemma approved_citable x : approved_snapshot x -> was_approved x.
Proof. unfold approved_snapshot, was_approved. intros ->. left. Qed.

Lemma pending_not_citable x : sn_status x = value SnapshotReviewStatus.PENDING_REVIEW -> ~ was_approved x.
Proof. unfold was_approved. intros ->. apply (bool_decide_unpack _). vm_compute. exact I. Qed.

Lemma citable_spec i db : citable i db = true <-> exists x, snapshots db !! i = Some x /\ was_approved x.
Proof.
  unfold citable. destruct (snapshots db !! i) as [x|]; [|by split; [|intros (? & ? & _)]].
  rewrite bool_decide_eq_true. split; [intros H; by exists x | by intros (y & [= <-] & H)].
Qed.

(** Snapshots keep what they are of; one that may be cited stays so. *)
Definition kept (db db' : RuleDb) : Prop :=
  forall i x, snapshots db !! i = Some x -> exists x', snapshots db' !! i = Some x' /\
    (sn_id x', sn_source x', sn_version x', sn_sha256 x', sn_uri x') = (sn_id x, sn_source x, sn_version x, sn_sha256 x, sn_uri x) /\
    (was_approved x -> was_approved x' /\ sn_reviewed_by x' = sn_reviewed_by x).

#[global] Instance kept_refl : Reflexive kept.
Proof. intros db i x H. by exists x. Qed.
#[global] Instance kept_trans : Transitive kept.
Proof.
  intros a b c Hab Hbc i x Hx. destruct (Hab i x Hx) as (y & Hy & E1 & K1). destruct (Hbc i y Hy) as (z & Hz & E2 & K2).
  exists z. split; [done|]. split; [congruence|]. intros H. destruct (K1 H) as [H1 <-]. by apply K2.
Qed.

Lemma kept_citable db db' i : kept db db' -> citable i db = true -> citable i db' = true.
Proof.
  rewrite !citable_spec. intros Hk (x & Hx & Ha). destruct (Hk i x Hx) as (y & Hy & _ & H). exists y. split; [done | by apply H].
Qed.

Section Rules.
Context (uuid4 : nat -> uuid).

Record rules_ok (db : RuleDb) : Prop := {
  ro_fresh : forall n, (next_id db <= n)%nat -> sources db !! uuid4 n = None /\ snapshots db !! uuid4 n = None /\
    rule_sets db !! uuid4 n = None /\ requirement_rules db !! uuid4 n = None /\ links_of (uuid4 n) db = [];
  ro_sources : forall k s, sources db !! k = Some s -> rq_id s = k;
  ro_snapshots : forall k x, snapshots db !! k = Some x -> sn_id x = k /\ (was_approved x -> is_Some (sn_reviewed_by x));
  ro_current : forall k s i, sources db !! k = Some s -> rq_current s = Some i ->
    exists x, snapshots db !! i = Some x /\ sn_source x = k /\ approved_snapshot x;
  ro_approved : forall i x, snapshots db !! i = Some x -> approved_snapshot x ->
    exists s, sources db !! sn_source x = Some s /\ rq_current s = Some i;
  ro_sets : forall k s, rule_sets db !! k = Some s -> st_id s = k;
  ro_active : forall k l s t, rule_sets db !! k = Some s -> rule_sets db !! l = Some t -> st_name s = st_name t ->
    active_set s = true -> active_set t = true -> k = l;
  ro_rules : forall k r, requirement_rules db !! k = Some r -> rule_id (rw_rule r) = k /\ links_of k db <> [] /\
    forall l, l ∈ links_of k db -> citable (lk_snapshot l) db = true
}.

Context `{!Inj (=) (=) uuid4}.

Definition holds (db db' : RuleDb) : Prop := rules_ok db' /\ kept db db'.

(** *** Changes of one table *)

Lemma later n m : (S n <= m)%nat -> uuid4 m <> uuid4 n.
Proof. intros H E%(inj uuid4). lia. Qed.

(** Nothing of sources, snapshots and rules changes. *)
Definition tables (db : RuleDb) := (sources db, snapshots db, rule_sets db, requirement_rules db, rule_sources db).

Lemma holds_elsewhere db db' : rules_ok db -> tables db' = tables db -> (next_id db <= next_id db')%nat -> holds db db'.
Proof.
  unfold tables. intros [Hf Hs Hn Hc Ha Ht Hu Hr] [= E1 E2 E3 E4 E5] Hle.
  assert (forall k, links_of k db' = links_of k db) as El by (intros k; unfold links_of; by rewrite E5).
  split; [|intros i x; rewrite E2; by exists x]. split; rewrite ?E1, ?E2, ?E3, ?E4; try done.
  - intros n H. rewrite El. apply Hf. lia.
  - intros k r Hk. rewrite El. destruct (Hr k r Hk) as (? & ? & H). split_and!; [done..|]. intros l Hl. unfold citable. rewrite E2. by apply H.
Qed.

Lemma holds_trans a b c : holds a b -> (rules_ok b -> holds b c) -> holds a c.
Proof. intros [Hb Hk] H. destruct (H Hb) as [Hc Hk']. split; [done | by etrans]. Qed.

(** A source is written with its snapshot as it was. *)
Lemma holds_source s0 s db :
  rules_ok db -> sources db !! rq_id s = Some s0 -> rq_current s = rq_current s0 -> holds db (put_source s db).
Proof.
  intros [Hf Hs Hn Hc Ha Ht Hu Hr] H0 E. split; [|intros i x Hx; by exists x]. split; try done.
  - intros n Hle. destruct (Hf n Hle) as (Hn1 & ?). split; [|done]. cbn. rewrite lookup_insert_ne; [done|]. intros Eq. by rewrite Eq, Hn1 in H0.
  - intros k t. cbn. rewrite lookup_insert_Some. intros [[<- <-]|[_ H]]; [done | by apply Hs].
  - intros k t i. cbn. rewrite lookup_insert_Some. intros [[<- <-]|[_ H]]; [rewrite E; by apply Hc | by apply Hc].
  - intros i x Hx Hax. destruct (Ha i x Hx Hax) as (t & Ht' & Et). cbn. destruct (decide (rq_id s = sn_source x)) as [Eq|Hne].
    + exists s. rewrite Eq, lookup_insert_eq, E. split; [done|]. rewrite Eq, Ht' in H0. by injection H0 as ->.
    + exists t. by rewrite lookup_insert_ne.
Qed.

Lemma holds_new_source s db :
  rules_ok db -> rq_id s = uuid4 (next_id db) -> rq_current s = None -> holds db (put_source s (drawn db)).
Proof.
  intros [Hf Hs Hn Hc Ha Ht Hu Hr] Hid E. split; [|intros i x Hx; by exists x]. split; try done.
  - intros n Hle. cbn in Hle |- *. destruct (Hf n ltac:(lia)) as (? & ?). split; [|done]. rewrite lookup_insert_ne; [done|].
    rewrite Hid. intros Eq. symmetry in Eq. revert Eq. by apply later.
  - intros k t. cbn. rewrite lookup_insert_Some. intros [[<- <-]|[_ H]]; [done | by apply Hs].
  - intros k t i. cbn. rewrite lookup_insert_Some. intros [[<- <-]|[_ H]]; [by rewrite E | by apply Hc].
  - intros i x Hx Hax. destruct (Ha i x Hx Hax) as (t & Ht' & Et). exists t. cbn. rewrite lookup_insert_ne; [done|].
    rewrite Hid. intros Eq. rewrite <-Eq in Ht'. by rewrite (proj1 (Hf _ (le_n _))) in Ht'.
Qed.

(** A new snapshot awaits its review. *)
Lemma holds_new_snapshot x db :
  rules_ok db -> sn_id x = uuid4 (next_id db) -> sn_status x = value SnapshotReviewStatus.PENDING_REVIEW -> holds db (put_snapshot x (drawn db)).
Proof.
  intros [Hf Hs Hn Hc Ha Ht Hu Hr] Hid Est. pose proof (proj1 (proj2 (Hf _ (le_n _)))) as Hnew. rewrite <-Hid in Hnew.
  assert (forall i y, snapshots db !! i = Some y -> <[sn_id x := x]> (snapshots db) !! i = Some y) as Hold.
  { intros i y Hy. rewrite lookup_insert_ne; [done|]. intros <-. by rewrite Hnew in Hy. }
  split; [|intros i y Hy; exists y; split; [by apply Hold | done]]. split; try done.
  - intros n Hle. cbn in Hle |- *. destruct (Hf n ltac:(lia)) as (? & ? & ?). split; [done|]. split; [|done]. rewrite lookup_insert_ne; [done|].
    rewrite Hid. intros Eq. symmetry in Eq. revert Eq. by apply later.
  - intros k y. cbn. rewrite lookup_insert_Some. intros [[<- <-]|[_ H]]; [|by apply Hn]. split; [done|]. by intros ?%pending_not_citable.
  - intros k s i Hk Hi. destruct (Hc k s i Hk Hi) as (y & Hy & ?). exists y. split; [by apply Hold | done].
  - intros i y. cbn. rewrite lookup_insert_Some. intros [[<- <-]|[_ H]]; [|by apply Ha].
    intros Hap. exfalso. by apply (pending_not_citable x Est), approved_citable.
  - intros k r Hk. destruct (Hr k r Hk) as (? & ? & H). split_and!; [done..|]. intros l Hl. apply citable_spec.
    apply H, citable_spec in Hl as (y & Hy & ?). exists y. split; [by apply Hold | done].
Qed.

(** A snapshot is rejected. *)
Lemma holds_rejected x0 x db :
  rules_ok db -> snapshots db !! sn_id x = Some x0 -> ~ was_approved x0 -> ~ was_approved x ->
  (sn_id x, sn_source x, sn_version x, sn_sha256 x, sn_uri x) = (sn_id x0, sn_source x0, sn_version x0, sn_sha256 x0, sn_uri x0) ->
  holds db (put_snapshot x db).
Proof.
  intros [Hf Hs Hn Hc Ha Ht Hu Hr] H0 Hna0 Hna E.
  assert (forall i y, snapshots db !! i = Some y -> was_approved y -> <[sn_id x := x]> (snapshots db) !! i = Some y) as Hold.
  { intros i y Hy Hay. rewrite lookup_insert_ne; [done|]. intros <-. rewrite H0 in Hy. by injection Hy as ->. }
  split.
  - split; try done.
    + intros n Hle. destruct (Hf n Hle) as (? & Hn1 & ?). split; [done|]. split; [|done]. cbn. rewrite lookup_insert_ne; [done|].
      intros Eq. by rewrite Eq, Hn1 in H0.
    + intros k y. cbn. rewrite lookup_insert_Some. intros [[<- <-]|[_ H]]; [done | by apply Hn].
    + intros k s i Hk Hi. destruct (Hc k s i Hk Hi) as (y & Hy & ? & Hay). exists y. split; [|done]. apply Hold; [done | by apply approved_citable].
    + intros i y. cbn. rewrite lookup_insert_Some. intros [[<- <-]|[_ H]]; [|by apply Ha]. intros Hay. exfalso. by apply Hna, approved_citable.
    + intros k r Hk. destruct (Hr k r Hk) as (? & ? & H). split_and!; [done..|]. intros l Hl. apply citable_spec.
      apply H, citable_spec in Hl as (y & Hy & ?). exists y. split; [by apply Hold | done].
  - intros i y Hy. cbn. destruct (decide (sn_id x = i)) as [<-|Hne]; [|exists y; by rewrite lookup_insert_ne].
    exists x. rewrite lookup_insert_eq. rewrite H0 in Hy. injection Hy as <-. by split_and!.
Qed.

(** A snapshot gives way to the next one. *)
Lemma superseded_spec db p y0 :
  rules_ok db -> snapshots db !! p = Some y0 ->
  superseded db p = put_snapshot (y0 <| sn_status := value SnapshotReviewStatus.SUPERSEDED |>) db /\ sn_id y0 = p.
Proof. intros Hok Hp. unfold superseded. rewrite Hp. split; [done|]. by apply (ro_snapshots _ Hok). Qed.

Lemma holds_approved x0 x s0 s db :
  rules_ok db -> snapshots db !! sn_id x = Some x0 -> ~ was_approved x0 -> approved_snapshot x -> is_Some (sn_reviewed_by x) ->
  (sn_id x, sn_source x, sn_version x, sn_sha256 x, sn_uri x) = (sn_id x0, sn_source x0, sn_version x0, sn_sha256 x0, sn_uri x0) ->
  sources db !! rq_id s = Some s0 -> rq_id s = sn_source x0 -> rq_current s = Some (sn_id x) ->
  holds db (put_source s (put_snapshot x (match rq_current s0 with
                                          | Some p => if bool_decide (p = sn_id x) then db else superseded db p
                                          | None => db end))).
Proof.
  intros Hok H0 Hna0 Hax Hby E Hs0 Hsid Hcur. pose proof Hok as [Hf Hs Hn Hc Ha Ht Hu Hr].
  assert (sn_source x = sn_source x0) as Esrc by congruence.
  assert (forall db1, sources db1 = sources db -> tables db1 = (sources db, snapshots db1, rule_sets db, requirement_rules db, rule_sources db) ->
    next_id db1 = next_id db ->
    (forall j y, snapshots db1 !! j = Some y -> exists y0, snapshots db !! j = Some y0 /\ sn_id y = sn_id y0 /\ sn_source y = sn_source y0 /\
       (was_approved y -> was_approved y0 /\ sn_reviewed_by y = sn_reviewed_by y0)) ->
    (forall j y, snapshots db1 !! j = Some y -> approved_snapshot y -> j <> sn_id x -> snapshots db !! j = Some y /\ rq_current s0 <> Some j) ->
    (forall j y, snapshots db !! j = Some y -> sn_source y <> rq_id s -> snapshots db1 !! j = Some y) ->
    kept db db1 -> holds db (put_source s (put_snapshot x db1))) as Hgen.
  { intros db1 E1 Etab En Hback Happ Hother Hkept. unfold tables in Etab. injection Etab as _ E3 E4 E5.
    assert (forall k, links_of k db1 = links_of k db) as El by (intros k; unfold links_of; by rewrite E5).
    assert (kept db (put_source s (put_snapshot x db1))) as Hk.
    { intros j y Hy. cbn. destruct (decide (sn_id x = j)) as [<-|Hne].
      - exists x. rewrite lookup_insert_eq. rewrite H0 in Hy. injection Hy as <-. by split_and!.
      - destruct (Hkept j y Hy) as (y' & Hy' & ?). exists y'. by rewrite lookup_insert_ne. }
    split; [|exact Hk]. split; cbn; rewrite ?E1, ?E3, ?E4, ?En; try done.
    - intros n Hle. destruct (Hf n Hle) as (F1 & F2 & F3 & F4 & F5). unfold links_of in F5 |- *. cbn. rewrite E5. split_and!; [| |done..].
      + rewrite lookup_insert_ne; [done|]. intros Eq. by rewrite Eq, F1 in Hs0.
      + rewrite lookup_insert_ne; [|intros Eq; by rewrite Eq, F2 in H0]. destruct (snapshots db1 !! uuid4 n) as [y|] eqn:Ey; [|done].
        destruct (Hback _ _ Ey) as (y0 & Hy0 & _). by rewrite F2 in Hy0.
    - intros k t. rewrite lookup_insert_Some. intros [[<- <-]|[_ H]]; [done | by apply Hs].
    - intros k y. rewrite lookup_insert_Some. intros [[<- <-]|[_ H]]; [done|]. destruct (Hback _ _ H) as (y0 & Hy0 & Eid & _ & Hap).
      destruct (Hn _ _ Hy0) as [<- Hr0]. split; [done|]. intros [H1 ->]%Hap. by apply Hr0.
    - intros k t i. rewrite lookup_insert_Some. intros [[<- <-]|[Hne H]] Hi.
      + rewrite Hcur in Hi. injection Hi as <-. exists x. rewrite lookup_insert_eq. split_and!; [done | congruence | done].
      + destruct (Hc k t i H Hi) as (y & Hy & Ey & Hay). exists y. split; [|done]. rewrite lookup_insert_ne.
        * apply Hother; [done | congruence].
        * intros Eq. rewrite Eq, Hy in H0. injection H0 as ->. by apply Hna0, approved_citable.
    - intros i y. rewrite lookup_insert_Some. intros [[<- <-]|[Hne H]] Hay.
      + exists s. rewrite Esrc, <-Hsid, lookup_insert_eq. done.
      + destruct (Happ _ _ H Hay) as [H' Hnc]; [congruence|]. destruct (Ha _ _ H' Hay) as (t & Ht' & Et). exists t. rewrite lookup_insert_ne; [done|].
        intros Eq. rewrite <-Eq, Hs0 in Ht'. injection Ht' as ->. done.
    - intros k r Hkr. destruct (Hr k r Hkr) as (? & Hl0 & H). unfold links_of in *. cbn. rewrite E5. split_and!; [done..|]. intros l Hl.
      eapply kept_citable; [exact Hk|]. by apply H. }
  destruct (rq_current s0) as [p|] eqn:Ecur.
  - destruct (Hc _ _ _ Hs0 Ecur) as (y0 & Hp & Ey0 & Hay0). rewrite bool_decide_eq_false_2.
    2: { intros ->. rewrite H0 in Hp. injection Hp as <-. by apply Hna0, approved_citable. }
    destruct (superseded_spec _ _ _ Hok Hp) as [-> Hid0].
    assert (exists y1, y1 = y0 <| sn_status := value SnapshotReviewStatus.SUPERSEDED |> /\ sn_id y1 = p /\ was_approved y1 /\ ~ approved_snapshot y1 /\
      (sn_id y1, sn_source y1, sn_version y1, sn_sha256 y1, sn_uri y1) = (sn_id y0, sn_source y0, sn_version y0, sn_sha256 y0, sn_uri y0) /\
      sn_reviewed_by y1 = sn_reviewed_by y0) as (y1 & <- & Hid1 & Hw1 & Hn1 & E1 & Er1).
    { eexists. split; [reflexivity|]. split; [exact Hid0|]. split; [right; left|]. done. }
    injection E1 as _ Es1 Ev1 Eh1 Eu1. apply Hgen; try done.
    + intros j y. cbn. rewrite Hid1, lookup_insert_Some. intros [[<- <-]|[_ H]]; [|by exists y].
      exists y0. split; [done|]. split; [congruence|]. split; [done|]. intros _. split; [by apply approved_citable | done].
    + intros j y. cbn. rewrite Hid1, lookup_insert_Some. intros [[<- <-]|[Hne H]] Hay Hj; [done|]. split; [done | congruence].
    + intros j y Hy Hne. cbn. rewrite Hid1, lookup_insert_ne; [done|]. intros <-. rewrite Hp in Hy. injection Hy as <-. congruence.
    + intros j y Hy. cbn. rewrite Hid1. destruct (decide (p = j)) as [<-|Hne]; [|exists y; by rewrite lookup_insert_ne].
      rewrite Hp in Hy. injection Hy as <-. exists y1. rewrite lookup_insert_eq. split; [done|]. split; [congruence|]. done.
  - apply Hgen; try done.
    intros j y Hy. by exists y.
Qed.

(** *** Rule sets and their rules *)

Lemma holds_new_set s db : rules_ok db -> st_id s = uuid4 (next_id db) -> active_set s = false -> holds db (put_set s (drawn db)).
Proof.
  intros [Hf Hs Hn Hc Ha Ht Hu Hr] Hid Hd. split; [|intros i x Hx; by exists x]. split; try done.
  - intros n Hle. cbn in Hle |- *. destruct (Hf n ltac:(lia)) as (F1 & F2 & F3 & F4). do 2 (split; [done|]). split; [|exact F4].
    rewrite lookup_insert_ne; [done|]. rewrite Hid. intros Eq. symmetry in Eq. revert Eq. by apply later.
  - intros k t. cbn. rewrite lookup_insert_Some. intros [[<- <-]|[_ H]]; [done | by apply Ht].
  - intros k l a b. cbn. rewrite !lookup_insert_Some. intros [[<- <-]|[_ Hk]] [[<- <-]|[_ Hl]] E Hka Hlb; [done|congruence..|].
    by eapply Hu.
Qed.

(** A set becomes the active one of its name, or ceases to be. *)
Lemma holds_set s0 s db :
  rules_ok db -> rule_sets db !! st_id s = Some s0 -> st_name s = st_name s0 ->
  (active_set s = true -> forall k t, rule_sets db !! k = Some t -> st_name t = st_name s -> active_set t = true -> k = st_id s) ->
  holds db (put_set s db).
Proof.
  intros [Hf Hs Hn Hc Ha Ht Hu Hr] H0 En Hact. split; [|intros i x Hx; by exists x]. split; try done.
  - intros n Hle. cbn. destruct (Hf n Hle) as (F1 & F2 & Hn1 & F4). do 2 (split; [done|]). split; [|exact F4].
    rewrite lookup_insert_ne; [done|]. intros Eq. by rewrite Eq, Hn1 in H0.
  - intros k t. cbn. rewrite lookup_insert_Some. intros [[<- <-]|[_ H]]; [done | by apply Ht].
  - intros k l a b. cbn. rewrite !lookup_insert_Some. intros [[<- <-]|[_ Hk]] [[<- <-]|[_ Hl]] E Hka Hlb; [done| | |by eapply Hu].
    + symmetry. by eapply Hact.
    + by eapply Hact.
Qed.

Lemma active_retired now s : active_set (retired now s) = false.
Proof. reflexivity. Qed.

(** The sets retired are those listed. *)
Lemma retire_spec now l : forall db,
  rules_ok db -> (forall x, x ∈ l -> exists x0, rule_sets db !! st_id x = Some x0 /\ st_name x = st_name x0) ->
  let db' := foldl (fun db x => put_set (retired now x) db) db l in
  holds db db' /\ log db' = log db /\ (forall k, k ∉ st_id <$> l -> rule_sets db' !! k = rule_sets db !! k) /\
  (forall k t, rule_sets db' !! k = Some t -> k ∈ st_id <$> l -> active_set t = false).
Proof.
  induction l as [|x l IH]; intros db Hok Hl; cbn.
  { split; [split; [done | reflexivity]|]. split_and!; [done..|]. by intros ? ? _ ?%not_elem_of_nil. }
  destruct (Hl x) as (x0 & Hx0 & Ex0); [left|].
  assert (holds db (put_set (retired now x) db)) as H1 by (by eapply holds_set).
  destruct (IH (put_set (retired now x) db)) as (H2 & Elog & Helse & Hret).
  { apply H1. }
  { intros y Hy. destruct (Hl y) as (y0 & Hy0 & Ey); [by right|]. cbn. destruct (decide (st_id x = st_id y)) as [E|Hne].
    - exists (retired now x). rewrite E, lookup_insert_eq. split; [done|]. cbn. rewrite Ex0, Ey. rewrite E, Hy0 in Hx0. by injection Hx0 as ->.
    - exists y0. by rewrite lookup_insert_ne. }
  split_and!; [by eapply holds_trans | done | |].
  - intros k Hk. rewrite Helse; [|set_solver]. cbn. apply lookup_insert_ne. set_solver.
  - intros k t Hk Hin. destruct (decide (k ∈ st_id <$> l)) as [Hin'|Hni]; [by eapply Hret|]. rewrite Helse in Hk by done. cbn in Hk.
    assert (k = st_id x) as -> by set_solver. rewrite lookup_insert_eq in Hk. by injection Hk as <-.
Qed.

Lemma links_of_app k db r ls :
  links_of k (put_rule r (drawn db) <| rule_sources := rule_sources db ++ ls |>) = links_of k db ++ filter (fun l => lk_rule l = k) ls.
Proof. unfold links_of. cbn. apply filter_app. Qed.

Lemma rule_links_of i n : forall l, l ∈ rule_links i n -> lk_rule l = i /\ lk_snapshot l ∈ cited n.
Proof. unfold rule_links. intros l (k & x & -> & H)%elem_of_lookup_imap_1. cbn. split; [done|]. by eapply list_elem_of_lookup_2. Qed.

Lemma rule_links_own i n : filter (fun l => lk_rule l = i) (rule_links i n) = rule_links i n.
Proof.
  pose proof (rule_links_of i n) as H. induction (rule_links i n) as [|l ls IH]; [done|]. rewrite filter_cons_True by (apply H; left).
  f_equal. apply IH. intros x Hx. apply H. by right.
Qed.

Lemma rule_links_other i k n : k <> i -> filter (fun l => lk_rule l = k) (rule_links i n) = [].
Proof.
  intros Hne. apply filter_none. intros l H%rule_links_of. destruct H as [-> _]. congruence.
Qed.

(** A rule with snapshots that may be cited. *)
Lemma holds_new_rule set n db :
  rules_ok db -> forallb (fun i => citable i db) (cited n) = true ->
  let r := {| rw_set := set; rw_rule := stored_rule (uuid4 (next_id db)) (nu_rule n) |} in
  holds db (put_rule r (drawn db) <| rule_sources := rule_sources db ++ rule_links (rule_id (rw_rule r)) n |>).
Proof.
  intros [Hf Hs Hn Hc Ha Ht Hu Hr] Hcit. cbn zeta. change (rule_id _) with (uuid4 (next_id db)). split; [|intros i x Hx; by exists x].
  destruct (Hf _ (le_n _)) as (_ & _ & _ & Hr0 & Hl0). split; try done.
  - intros m Hle. cbn in Hle. destruct (Hf m ltac:(lia)) as (F1 & F2 & F3 & F4 & F5). do 3 (split; [done|]).
    assert (uuid4 m <> uuid4 (next_id db)) as Hne by (by apply later). split; [by cbn; rewrite lookup_insert_ne|].
    by rewrite links_of_app, F5, rule_links_other.
  - intros k r Hk. rewrite links_of_app.
    change (<[uuid4 (next_id db) := {| rw_set := set; rw_rule := stored_rule (uuid4 (next_id db)) (nu_rule n) |}]> (requirement_rules db) !! k = Some r) in Hk.
    apply lookup_insert_Some in Hk as [[<- <-]|[Hne H]].
    + split; [done|]. rewrite Hl0, rule_links_own. split; [done|]. intros l [_ Hl]%rule_links_of.
      rewrite forallb_forall in Hcit. apply Hcit. by apply list_elem_of_In.
    + rewrite rule_links_other, app_nil_r by done. by apply Hr.
Qed.

(** *** Calls *)

Section Calls.
Context (written_first : uuid -> uuid -> bool) (sha256 : string -> string) (re_compiles : string -> bool).
Context (bracketed_ok : string -> bool) (getaddrinfo : string -> option (list string)) (public_address : string -> bool).
Context (http_get : string -> result exn (Z * string * string)) (recoded : string -> string)
  (put_bytes : string -> string -> result exn string).
Context (settings : SourceSettings).

Lemma holds_refl db : rules_ok db -> holds db db.
Proof. intros H. split; [exact H | reflexivity]. Qed.

Lemma holds_audited e i act who db : rules_ok db -> holds db (audited e i act who db).
Proof. intros H. by apply holds_elsewhere. Qed.

Lemma holds_told s a db : rules_ok db -> holds db (tell_owner s a db).
Proof. intros H. unfold tell_owner. case_match; [by apply holds_elsewhere | by apply holds_refl]. Qed.

Lemma row_found {A} (t : gmap uuid A) i x : get t i = Ok x -> t !! i = Some x.
Proof. unfold get. destruct (t !! i); [by intros [= ->] | done]. Qed.

Lemma register_holds n who db s db' : rules_ok db -> register_source uuid4 settings n who db = Ok (s, db') -> holds db db'.
Proof.
  intros Hok H. unfold register_source in H. inv_ok. subst. eapply holds_trans; [|intros; by apply holds_audited].
  by apply holds_new_source.
Qed.

Lemma sources_put_snapshot x db : sources (put_snapshot x (drawn db)) = sources db.
Proof. reflexivity. Qed.

(** A new snapshot and the note on its source. *)
Lemma holds_added s0 s x a e act who db :
  rules_ok db -> sources db !! rq_id s = Some s0 -> rq_current s = rq_current s0 -> sn_id x = uuid4 (next_id db) ->
  sn_status x = value SnapshotReviewStatus.PENDING_REVIEW ->
  holds db (audited e (sn_id x) act who (tell_owner s a (put_source s (put_snapshot x (drawn db))))).
Proof.
  intros Hok H0 E Hid Est. eapply holds_trans; [|intros; by apply holds_audited]. eapply holds_trans; [|intros; by apply holds_told].
  eapply holds_trans; [by apply holds_new_snapshot|]. intros Hok1. by eapply (holds_source s0).
Qed.

Lemma add_holds source n who now db r db' : rules_ok db -> add_snapshot uuid4 sha256 source n who now db = Ok (r, db') -> holds db db'.
Proof.
  intros Hok H. unfold add_snapshot in H. inv_ok. rename a into s. apply row_found in H0. pose proof (ro_sources _ Hok _ _ H0) as Eid.
  destruct (current_snapshot s db) as [c|]; [case_bool_decide|]; inv_ok; subst.
  - eapply holds_trans; [|intros; by apply holds_audited]. by eapply (holds_source s).
  - by eapply (holds_added s).
  - by eapply (holds_added s).
Qed.

Lemma fetch_holds source who now db r db' :
  rules_ok db -> fetch_public_snapshot uuid4 sha256 bracketed_ok getaddrinfo public_address http_get recoded put_bytes settings source who now db = Ok (r, db') ->
  holds db db'.
Proof.
  intros Hok H. unfold fetch_public_snapshot in H. inv_ok. repeat (case_match; inv_ok); by eapply add_holds.
Qed.

Lemma rejected_not_citable x : sn_status x = value SnapshotReviewStatus.REJECTED -> ~ was_approved x.
Proof. unfold was_approved. intros ->. apply (bool_decide_unpack _). vm_compute. exact I. Qed.

Lemma review_holds i ap aff who now db x db' : rules_ok db -> review_snapshot i ap aff who now db = Ok (x, db') -> holds db db'.
Proof.
  intros Hok H. unfold review_snapshot in H. inv_ok. rename a into x0. apply row_found in H0. apply bool_decide_eq_true in H1. apply row_found in H2.
  rename a1 into s0. destruct (ro_snapshots _ Hok _ _ H0) as [Eid _]. pose proof (ro_sources _ Hok _ _ H2) as Es.
  destruct ap; inv_ok; subst; (eapply holds_trans; [|intros; by apply holds_audited]).
  - match goal with |- holds _ (put_source ?s (put_snapshot ?x _)) => apply (holds_approved x0 x s0 s) end;
      [exact Hok | exact H0 | by apply pending_not_citable | reflexivity | by eexists | reflexivity | cbn; by rewrite Es | exact Es | reflexivity].
  - match goal with |- holds _ (put_source ?s (put_snapshot ?x _)) => set (x1 := x); set (s1 := s) end.
    eapply holds_trans; [apply (holds_rejected x0 x1); [exact Hok | exact H0 | by apply pending_not_citable | by apply rejected_not_citable | reflexivity]|].
    intros Hok1. apply (holds_source s0); [exact Hok1 | cbn; by rewrite Es | reflexivity].
Qed.

(** The report writes sources it read, with their snapshots. *)
Lemma report_fold_holds notify now l : forall db,
  rules_ok db -> (forall x, x ∈ l -> exists x0, sources db !! rq_id x = Some x0 /\ rq_current x = rq_current x0) ->
  holds db (foldl (report_one sha256 settings notify now) db l).
Proof.
  induction l as [|x l IH]; intros db Hok Hl; cbn; [by apply holds_refl|]. destruct (Hl x) as (x0 & Hx0 & Ex0); [left|].
  assert (holds db (report_one sha256 settings notify now db x) /\
    (forall k y, sources db !! k = Some y -> exists y', sources (report_one sha256 settings notify now db x) !! k = Some y' /\ rq_current y' = rq_current y))
    as [H1 H2].
  { unfold report_one. cbn zeta. destruct (is_stale _); [|split; [by apply holds_refl | intros k y Hk; by exists y]].
    set (y := x <| rq_verification := _ |>). assert (holds db (put_source y db)) as Hp by (by eapply (holds_source x0)).
    assert (forall k z, sources db !! k = Some z -> exists z', sources (put_source y db) !! k = Some z' /\ rq_current z' = rq_current z) as Hq.
    { intros k z Hz. cbn. destruct (decide (rq_id x = k)) as [<-|Hne]; [|exists z; by rewrite lookup_insert_ne].
      exists y. rewrite lookup_insert_eq. rewrite Hx0 in Hz. injection Hz as <-. done. }
    destruct notify; [|done]. split; [eapply holds_trans; [exact Hp | intros; by apply holds_told]|]. unfold tell_owner. by case_match. }
  eapply holds_trans; [exact H1|]. intros Hok1. apply IH; [done|]. intros z Hz. destruct (Hl z) as (z0 & Hz0 & Ez); [by right|].
  destruct (H2 _ _ Hz0) as (z' & Hz' & Ez'). exists z'. split; [done | congruence].
Qed.

Lemma report_holds notify now db : rules_ok db -> holds db (freshness_report sha256 settings notify now db).2.
Proof.
  intros Hok. cbn. apply report_fold_holds; [done|]. intros x [k Hk]%elem_of_rows. exists x. split; [|done]. by rewrite (ro_sources _ Hok _ _ Hk).
Qed.

Lemma new_set_holds name derived db : rules_ok db -> holds db (create_rule_set uuid4 name derived db).2.
Proof. intros Hok. cbn. by apply holds_new_set. Qed.

Lemma new_rule_holds set n db r db' : rules_ok db -> create_requirement_rule uuid4 re_compiles set n db = Ok (r, db') -> holds db db'.
Proof. intros Hok H. unfold create_requirement_rule, _approved_snapshots in H. inv_ok. subst. by apply holds_new_rule. Qed.

Lemma activate_holds set who now db s db' : rules_ok db -> activate_rule_set written_first set who now db = Ok (s, db') -> holds db db'.
Proof.
  intros Hok H. unfold activate_rule_set in H. inv_ok. subst. apply row_found in H0. rename a into s0. pose proof (ro_sets _ Hok _ _ H0) as Eid.
  eapply holds_trans; [|intros; by apply holds_audited].
  match goal with |- context [foldl _ _ ?l] => set (prev := l) end.
  destruct (retire_spec now prev db Hok) as (Hret & Elog & Helse & Hout).
  { intros x Hx. apply list_elem_of_filter in Hx as [_ [k Hk]%elem_of_rows]. exists x. by rewrite (ro_sets _ Hok _ _ Hk). }
  assert (set ∉ st_id <$> prev) as Hni.
  { intros (x & -> & Hx)%list_elem_of_fmap. apply list_elem_of_filter in Hx as [Hx _].
    apply andb_true_iff in Hx as [_ Hx%negb_true_iff%bool_decide_eq_false]. done. }
  eapply holds_trans; [exact Hret|]. intros Hok1. eapply (holds_set s0); try done.
  - cbn. rewrite Eid. by rewrite Helse.
  - cbn [st_id]. intros _ k t Hk En Ht. cbn in En. destruct (decide (k ∈ st_id <$> prev)) as [Hin|Hnin]; [by rewrite (Hout _ _ Hk Hin) in Ht|].
    rewrite Helse in Hk by done. destruct (decide (k = set)) as [->|Hne]; [by cbn|]. exfalso. apply Hnin. pose proof (ro_sets _ Hok _ _ Hk) as Et.
    rewrite <-Et. apply list_elem_of_fmap_2. apply list_elem_of_filter. split; [|apply elem_of_rows; by exists k].
    rewrite Ht, Et, (bool_decide_eq_true_2 _ En). by rewrite bool_decide_eq_false_2.
Qed.

Lemma new_deadline_holds d db r db' : rules_ok db -> create_deadline_rule uuid4 d db = Ok (r, db') -> holds db db'.
Proof. intros Hok H. unfold create_deadline_rule in H. inv_ok. subst. apply holds_elsewhere; [done..|]. cbn. lia. Qed.

Lemma activate_deadline_holds i who db d db' : rules_ok db -> activate_deadline_rule i who db = Ok (d, db') -> holds db db'.
Proof. intros Hok H. unfold activate_deadline_rule in H. inv_ok. subst. by apply holds_elsewhere. Qed.

(** *** Histories *)

Inductive rule_step (db : RuleDb) : RuleDb -> Prop :=
| s_register n who s db' : register_source uuid4 settings n who db = Ok (s, db') -> rule_step db db'
| s_add source n who now r db' : add_snapshot uuid4 sha256 source n who now db = Ok (r, db') -> rule_step db db'
| s_fetch source who now r db' :
    fetch_public_snapshot uuid4 sha256 bracketed_ok getaddrinfo public_address http_get recoded put_bytes settings source who now db = Ok (r, db') ->
    rule_step db db'
| s_review i approve affects who now x db' : review_snapshot i approve affects who now db = Ok (x, db') -> rule_step db db'
| s_report notify now : rule_step db (freshness_report sha256 settings notify now db).2
| s_new_set name derived : rule_step db (create_rule_set uuid4 name derived db).2
| s_new_rule set n r db' : create_requirement_rule uuid4 re_compiles set n db = Ok (r, db') -> rule_step db db'
| s_activate set who now s db' : activate_rule_set written_first set who now db = Ok (s, db') -> rule_step db db'
| s_new_deadline d r db' : create_deadline_rule uuid4 d db = Ok (r, db') -> rule_step db db'
| s_activate_deadline i who d db' : activate_deadline_rule i who db = Ok (d, db') -> rule_step db db'
| s_elsewhere db' : tables db' = tables db -> (next_id db <= next_id db')%nat -> rule_step db db'.

Definition rule_steps : RuleDb -> RuleDb -> Prop := rtc rule_step.

Lemma rule_step_holds db db' : rule_step db db' -> rules_ok db -> holds db db'.
Proof.
  intros [] Hok; [by eapply register_holds | by eapply add_holds | by eapply fetch_holds | by eapply review_holds | by apply report_holds
    | by apply new_set_holds | by eapply new_rule_holds | by eapply activate_holds | by eapply new_deadline_holds
    | by eapply activate_deadline_holds | by apply holds_elsewhere].
Qed.

Lemma rule_steps_hold db db' : rule_steps db db' -> rules_ok db -> holds db db'.
Proof.
  induction 1 as [db|db b c H _ IH]; intros Hok; [by apply holds_refl|]. eapply holds_trans; [by apply rule_step_holds | exact IH].
Qed.
End Calls.
End Rules.

(** ** Assessments *)


Definition approved (a : RequirementAssessment) : Prop := as_status a = value AssessmentStatus.APPROVED.

(** A citation of a snapshot a reviewer approved. *)
Definition cited_ok (g : RuleDb) (c : SourceCitation) : Prop :=
  exists x, snapshot_id c = Some (sn_id x) /\ source_id c = Some (sn_source x) /\ snapshots g !! sn_id x = Some x /\
    was_approved x /\ is_Some (sn_reviewed_by x).

Definition answer_backed (g : RuleDb) (r : JurisdictionResult) : Prop :=
  (forall c, c ∈ source_citations r -> cited_ok g c) /\
  (confident (res_outcome r) = true ->
     (source_freshness_status r ∉ value <$> [SourceFreshnessStatus.STALE; SourceFreshnessStatus.NO_SOURCE]) /\
     (forall c, c ∈ source_citations r -> exists s, freshness_status c = Some s /\ ~ outdated s) /\
     exists c, c ∈ source_citations r /\ authority_level c ∈ AUTHORITATIVE_LEVELS).

(** What an assessment holds under a result's identifier. *)
Definition held (i a : uuid) (db : AssessmentDb) : option JurisdictionResult :=
  match results db !! i with Some r => if bool_decide (re_assessment r = a) then Some (re_answer r) else None | None => None end.

(** An approved assessment and its answers. *)
Definition frozen (db db' : AssessmentDb) : Prop :=
  forall k a, assessments db !! k = Some a -> approved a -> assessments db' !! k = Some a /\ forall i, held i k db' = held i k db.

#[global] Instance frozen_refl : Reflexive frozen.
Proof. by intros db k a H _. Qed.
#[global] Instance frozen_trans : Transitive frozen.
Proof.
  intros x y z Hxy Hyz k a H Ha. destruct (Hxy k a H Ha) as [H1 E1]. destruct (Hyz k a H1 Ha) as [H2 E2]. split; [done|].
  intros i. by rewrite E2.
Qed.

Lemma kept_cited g g' c : kept g g' -> cited_ok g c -> cited_ok g' c.
Proof.
  intros Hk (x & E1 & E2 & Hx & Hw & Hb). destruct (Hk _ _ Hx) as (y & Hy & [= Ei Es Ev Eh Eu] & Hwy). destruct (Hwy Hw) as [Hwy1 Er].
  exists y. by rewrite Ei, Es, Er.
Qed.

Lemma kept_backed g g' r : kept g g' -> answer_backed g r -> answer_backed g' r.
Proof. intros Hk [H1 H2]. split; [|done]. intros c Hc. eapply kept_cited; [done|]. by apply H1. Qed.

Section Answers.
Context (uuid4 : nat -> uuid) `{!Inj (=) (=) uuid4}.

Record assessed_ok (db : AssessmentDb) : Prop := {
  ao_rules : rules_ok uuid4 (governance db);
  ao_fresh : forall n, (next_row db <= n)%nat -> assessments db !! uuid4 n = None /\ results db !! uuid4 n = None;
  ao_assessments : forall k a, assessments db !! k = Some a -> as_id a = k;
  ao_results : forall k r, results db !! k = Some r -> re_id r = k /\ answer_backed (governance db) (re_answer r)
}.

Definition sound (db db' : AssessmentDb) : Prop := assessed_ok db' /\ frozen db db'.

Lemma sound_refl db : assessed_ok db -> sound db db.
Proof. intros H. split; [exact H | reflexivity]. Qed.
Lemma sound_trans a b c : sound a b -> (assessed_ok b -> sound b c) -> sound a c.
Proof. intros [Hb Hk] H. destruct (H Hb) as [Hc Hk']. split; [done | by etrans]. Qed.

(** *** Changes of one table *)

Lemma sound_elsewhere db db' :
  assessed_ok db -> holds uuid4 (governance db) (governance db') -> assessments db' = assessments db -> results db' = results db ->
  (next_row db <= next_row db')%nat -> sound db db'.
Proof.
  intros [Hg Hf Ha Hr] [Hg' Hk] E1 E2 Hle. split.
  - split; rewrite ?E1, ?E2; [done | | done |].
    + intros n Hn. apply Hf. lia.
    + intros k r H. destruct (Hr k r H) as [Hi Hb]. split; [done|]. by eapply kept_backed.
  - intros k a H _. unfold held. by rewrite E1, E2.
Qed.

Lemma sound_logged e i act who db : assessed_ok db -> sound db (logged e i act who db).
Proof. intros H. apply sound_elsewhere; [done | | done..]. destruct H as [Hg _ _ _]. cbn. by apply holds_elsewhere. Qed.

Lemma sound_overrides f db : assessed_ok db -> sound db (db <| overrides := f |>).
Proof. intros H. apply sound_elsewhere; [done | | done..]. apply holds_refl, H. Qed.

Lemma sound_new_assessment a db : assessed_ok db -> as_id a = uuid4 (next_row db) -> sound db (put_assessment a (fresh db)).
Proof.
  intros [Hg Hf Ha Hr] Hid. split.
  - split; cbn; [done | | | done].
    + intros n Hn. destruct (Hf n ltac:(lia)) as [? ?]. split; [|done]. rewrite lookup_insert_ne; [done|]. rewrite Hid. intros E%(inj uuid4). lia.
    + intros k b. rewrite lookup_insert_Some. intros [[<- <-]|[_ H]]; [done | by apply Ha].
  - intros k b H _. cbn. split; [|done]. rewrite lookup_insert_ne; [done|]. intros <-. rewrite Hid in H. by rewrite (proj1 (Hf _ (le_n _))) in H.
Qed.

(** An assessment that is not approved is written. *)
Lemma sound_assessment a0 a db :
  assessed_ok db -> assessments db !! as_id a = Some a0 -> ~ approved a0 -> sound db (put_assessment a db).
Proof.
  intros [Hg Hf Ha Hr] H0 Hna. split.
  - split; cbn; [done | | | done].
    + intros n Hn. destruct (Hf n Hn) as [Hn1 ?]. split; [|done]. rewrite lookup_insert_ne; [done|]. intros E. by rewrite E, Hn1 in H0.
    + intros k b. rewrite lookup_insert_Some. intros [[<- <-]|[_ H]]; [done | by apply Ha].
  - intros k b H Hb. cbn. split; [|done]. rewrite lookup_insert_ne; [done|]. intros <-. rewrite H0 in H. by injection H as ->.
Qed.

(** A result keeps its answer. *)
Lemma sound_result r0 r db :
  assessed_ok db -> results db !! re_id r = Some r0 -> re_assessment r = re_assessment r0 -> re_answer r = re_answer r0 -> sound db (put_result r db).
Proof.
  intros [Hg Hf Ha Hr] H0 E1 E2. split.
  - split; cbn; [done | | done |].
    + intros n Hn. destruct (Hf n Hn) as [? Hn1]. split; [done|]. rewrite lookup_insert_ne; [done|]. intros E. by rewrite E, Hn1 in H0.
    + intros k x. rewrite lookup_insert_Some. intros [[<- <-]|[_ H]]; [|by apply Hr]. split; [done|]. rewrite E2. by apply (Hr _ _ H0).
  - intros k b H Hb. cbn. split; [done|]. intros i. unfold held. cbn. destruct (decide (re_id r = i)) as [<-|Hne]; [|by rewrite lookup_insert_ne].
    rewrite lookup_insert_eq, H0. by rewrite E1, E2.
Qed.

(** Answers of an assessment that is not approved are stored. *)
Lemma sound_stored a r db :
  assessed_ok db -> answer_backed (governance db) r -> (forall x, assessments db !! a = Some x -> ~ approved x) -> sound db (store_answer uuid4 a db r).
Proof.
  intros [Hg Hf Ha Hr] Hb Hna. split.
  - split; cbn; [done | | done |].
    + intros n Hn. destruct (Hf n ltac:(lia)) as [? ?]. split; [done|]. rewrite lookup_insert_ne; [done|]. intros E%(inj uuid4). lia.
    + intros k x. rewrite lookup_insert_Some. intros [[<- <-]|[_ H]]; [done | by apply Hr].
  - intros k b H Hap. cbn. split; [done|]. intros i. unfold held. cbn.
    destruct (decide (uuid4 (next_row db) = i)) as [<-|Hne]; [|by rewrite lookup_insert_ne].
    rewrite lookup_insert_eq, (proj2 (Hf _ (le_n _))). cbn. rewrite bool_decide_eq_false_2; [done|]. intros <-. by eapply Hna.
Qed.

Lemma sound_answers a l : forall db,
  assessed_ok db -> (forall r, r ∈ l -> answer_backed (governance db) r) -> (forall x, assessments db !! a = Some x -> ~ approved x) ->
  sound db (foldl (store_answer uuid4 a) db l).
Proof.
  induction l as [|r l IH]; intros db Hok Hb Hna; cbn; [by apply sound_refl|].
  eapply sound_trans; [apply sound_stored; [done | apply Hb; left | done]|]. intros Hok1. apply IH; [done | | done].
  intros x Hx. apply Hb. by right.
Qed.

Lemma sound_without a db : assessed_ok db -> (forall x, assessments db !! a = Some x -> ~ approved x) -> sound db (without_results a db).
Proof.
  intros [Hg Hf Ha Hr] Hna. split.
  - split; cbn; [done | | done |].
    + intros n Hn. destruct (Hf n Hn) as [? ?]. split; [done|]. by apply map_lookup_filter_None_2; left.
    + intros k r [H _]%map_lookup_filter_Some. by apply Hr.
  - intros k b H Hb. split; [done|]. intros i. unfold held. cbn. rewrite map_lookup_filter. destruct (results db !! i) as [r|]; [|done]. cbn.
    case_guard as Hg1; cbn; [done|]. rewrite bool_decide_eq_false_2; [done|]. intros Ek. rewrite <-Ek in H. rewrite Hg1 in H. by eapply Hna.
Qed.

(** *** Calls *)

Section Calls.
Context (sha256 : string -> string) (float_text : json -> string).
Context (re_search : string -> string -> bool -> result exn bool) (py_str : json -> string).
Context (source_settings : SourceSettings) (settings : AssessmentSettings).
Notation policy := (policy settings).
Notation _load_rules := (_load_rules source_settings).
Notation answers := (answers re_search py_str settings).

Lemma citation_ok now g l c : rules_ok uuid4 g -> citation source_settings now g l = Some c -> cited_ok g c.
Proof.
  intros Hg. unfold citation. destruct (snapshots g !! lk_snapshot l) as [x|] eqn:Hx; [|done]. cbn.
  destruct (sources g !! sn_source x) as [s|] eqn:Hs; [|done]. cbn. case_bool_decide as Hc; [|done]. intros [= <-].
  destruct (ro_snapshots _ _ Hg _ _ Hx) as [Ei Hb]. exists x. cbn. rewrite Ei, (ro_sources _ _ Hg _ _ Hs). split_and!; [done..|]. by apply Hb.
Qed.

Lemma answer_is_backed j name facts set now when g in_scope r :
  rules_ok uuid4 g -> evaluate_jurisdiction re_search py_str j name None facts (_load_rules set now g) when ∅ policy in_scope = Ok r -> answer_backed g r.
Proof.
  intros Hg H. split.
  - intros c Hc. destruct (cited_of_rules _ _ _ _ _ _ _ _ _ _ _ _ _ H Hc) as (q & c0 & Hq & Hc0 & ->).
    apply list_elem_of_fmap in Hq as (w & -> & _). cbn in Hc0. apply list_elem_of_omap in Hc0 as (l & _ & Hl).
    destruct (citation_ok _ _ _ _ Hg Hl) as (x & Hx). by exists x.
  - intros Hc. destruct in_scope; [|injection H as <-; discriminate].
    destruct (confident_sources _ _ _ _ _ _ _ _ _ _ _ H Hc) as (_ & Hf & Ha & Hs). split; [exact Hf | split; [exact Hs | by apply Ha]].
Qed.

Lemma answers_backed a set now in_scope l db : forall rs,
  rules_ok uuid4 (governance db) -> answers a (_load_rules set now (governance db)) in_scope l db = Ok rs ->
  forall r, r ∈ rs -> answer_backed (governance db) r.
Proof.
  induction l as [|j l IH]; intros rs Hg H; cbn in H; [injection H as <-; by intros r ?%not_elem_of_nil|].
  destruct (jurisdictions db !! j) as [name|]; [|by apply IH]. inv_ok. subst. intros r [->|Hr]%elem_of_cons.
  - by eapply answer_is_backed.
  - by eapply IH.
Qed.

Lemma create_sound n suffix who now db a db' :
  assessed_ok db -> create_assessment uuid4 sha256 float_text n suffix who now db = Ok (a, db') -> sound db db'.
Proof.
  intros Hok H. unfold create_assessment in H. repeat (case_match; [|done]). inv_ok. subst.
  eapply sound_trans; [|intros; by apply sound_logged]. by apply sound_new_assessment.
Qed.

Lemma not_immutable a : negb (immutable a) = true -> ~ approved a.
Proof. unfold immutable, approved. intros H%negb_true_iff%bool_decide_eq_false E. apply H. rewrite E. left. Qed.

Lemma answers_kept l a : forall db, assessments (foldl (store_answer uuid4 a) db l) = assessments db.
Proof. induction l as [|r l IH]; intros db; [done|]. cbn. by rewrite IH. Qed.

Lemma evaluate_sound i who now db rs db' :
  assessed_ok db -> Assessments.evaluate uuid4 re_search py_str source_settings settings i who now db = Ok (rs, db') -> sound db db'.
Proof.
  intros Hok H. unfold Assessments.evaluate in H. inv_ok. subst. apply row_found in H0. apply not_immutable in H1. rename a into x.
  pose proof (ao_assessments _ Hok _ _ H0) as Ei. assert (forall y, assessments db !! i = Some y -> ~ approved y) as Hna.
  { intros y Hy. rewrite H0 in Hy. by injection Hy as <-. }
  eapply sound_trans; [|intros; by apply sound_logged]. eapply sound_trans; [by apply (sound_without i)|]. intros Hok1.
  eapply sound_trans; [apply (sound_answers i rs); [done | | done]|].
  { intros r. cbn. eapply answers_backed; [apply Hok | done]. }
  intros Hok2. apply (sound_assessment x); [done | | done]. cbn. rewrite answers_kept. cbn. by rewrite Ei.
Qed.

Lemma review_sound i o b who now db r db' : assessed_ok db -> review_result i o b who now db = Ok (r, db') -> sound db db'.
Proof.
  intros Hok H. unfold review_result in H. inv_ok. subst. apply row_found in H0. destruct (ao_results _ Hok _ _ H0) as [Ei _].
  eapply sound_trans; [|intros; by apply sound_logged]. by apply (sound_result a); cbn; rewrite ?Ei.
Qed.

Lemma request_sound i who db r db' : assessed_ok db -> request_counsel_review i who db = Ok (r, db') -> sound db db'.
Proof.
  intros Hok H. unfold request_counsel_review in H. inv_ok. subst. apply row_found in H0. destruct (ao_results _ Hok _ _ H0) as [Ei _].
  eapply sound_trans; [|intros; by apply sound_logged]. cbn [re_assessment].
  destruct (assessments db !! re_assessment a) as [x|] eqn:Hx; [case_bool_decide|]; try (by apply (sound_result a); cbn; rewrite ?Ei).
  eapply sound_trans; [|intros Hok1; apply (sound_result a); [done | by cbn; rewrite Ei | done..]].
  apply (sound_assessment x); [done | | done]. cbn. by rewrite (ao_assessments _ Hok _ _ Hx).
Qed.

Lemma override_sound i n who now db o db' : assessed_ok db -> override_result uuid4 i n who now db = Ok (o, db') -> sound db db'.
Proof.
  intros Hok H. unfold override_result in H. inv_ok. subst. apply row_found in H0. destruct (ao_results _ Hok _ _ H0) as [Ei _].
  set (r := a <| re_reviewed_outcome := Some (nv_outcome n) |> <| re_reviewed_by := Some (actor_id who) |> <| re_reviewed_at := Some now |>).
  eapply sound_trans; [|intros; by apply sound_logged].
  eapply sound_trans; [|intros Hok1; exact (sound_overrides (overrides db ++ _) (put_result r (fresh db)) Hok1)].
  eapply sound_trans; [|intros Hok1; apply (sound_result a); [done | by cbn; rewrite Ei | done..]].
  apply sound_elsewhere; [done | by apply holds_refl, Hok | done..|cbn; lia].
Qed.

Lemma approvable_not a : as_status a ∈ APPROVABLE -> ~ approved a.
Proof. unfold approved. intros H E. rewrite E in H. revert H. apply (bool_decide_unpack _). vm_compute. exact I. Qed.

Lemma approve_sound i who now db a db' : assessed_ok db -> approve i who now db = Ok (a, db') -> sound db db'.
Proof.
  intros Hok H. unfold approve in H. inv_ok. subst. apply row_found in H0. apply bool_decide_eq_true in H1. rename a0 into x.
  eapply sound_trans; [|intros; by apply sound_logged]. apply (sound_assessment x); [done | | by apply approvable_not].
  cbn. by rewrite (ao_assessments _ Hok _ _ H0).
Qed.
End Calls.
End Answers.
