(* ===== verification/RequirementGuarantees.v ===== *)
(** * What governed requirements guarantee

    The properties of rules, sources and assessments, each with a run: a source is
    registered and its snapshot reviewed, a rule set that cites it activated, an
    assessment evaluated, reviewed and approved, and its answer overridden. *)
From Stdlib Require Import Ascii Relations.
From stdpp Require Import pretty.
From S2P Require Import Prelude Vocabulary Terms PyDate PyJson PyUrl Crypto Roles LicensingLog Scoping Conditions Requirements Explanations Evaluator RuleGovernance Assessments RequirementSafety.
Open Scope Z_scope.

Section Guarantees.
Context (uuid4 : nat -> uuid) (written_first : uuid -> uuid -> bool) (sha256 : string -> string) (re_compiles : string -> bool).
Context (bracketed_ok : string -> bool) (getaddrinfo : string -> option (list string)) (public_address : string -> bool).
Context (http_get : string -> result exn (Z * string * string)) (recoded : string -> string)
  (put_bytes : string -> string -> result exn string).
Context (source_settings : SourceSettings) (settings : AssessmentSettings).
Context (float_text : json -> string) (re_search : string -> string -> bool -> result exn bool) (py_str : json -> string).

Notation rule_steps := (rule_steps uuid4 written_first sha256 re_compiles bracketed_ok getaddrinfo public_address http_get recoded put_bytes source_settings).

(** The calls on assessments, and those that change the rules and sources under them. *)
Inductive assessment_step (db : AssessmentDb) : AssessmentDb -> Prop :=
| t_create n suffix who now a db' : create_assessment uuid4 sha256 float_text n suffix who now db = Ok (a, db') -> assessment_step db db'
| t_evaluate i who now rs db' :
    Assessments.evaluate uuid4 re_search py_str source_settings settings i who now db = Ok (rs, db') -> assessment_step db db'
| t_review i o counsel who now r db' : review_result i o counsel who now db = Ok (r, db') -> assessment_step db db'
| t_counsel i who r db' : request_counsel_review i who db = Ok (r, db') -> assessment_step db db'
| t_override i n who now o db' : override_result uuid4 i n who now db = Ok (o, db') -> assessment_step db db'
| t_approve i who now a db' : approve i who now db = Ok (a, db') -> assessment_step db db'
| t_rules g : rule_steps (governance db) g -> assessment_step db (db <| governance := g |>)
| t_elsewhere es ps js : assessment_step db (db <| entities := es |> <| profiles := ps |> <| jurisdictions := js |>).

Definition assessment_steps : AssessmentDb -> AssessmentDb -> Prop := rtc assessment_step.

Definition no_rules (db : RuleDb) : Prop :=
  sources db = ∅ /\ snapshots db = ∅ /\ rule_sets db = ∅ /\ requirement_rules db = ∅ /\ rule_sources db = [].
Definition no_assessments (db : AssessmentDb) : Prop := no_rules (governance db) /\ assessments db = ∅ /\ results db = ∅.

Lemma no_rules_ok db : no_rules db -> rules_ok uuid4 db.
Proof. intros (E1 & E2 & E3 & E4 & E5). split; unfold links_of; rewrite ?E1, ?E2, ?E3, ?E4, ?E5; by intros. Qed.

Lemma no_assessments_ok db : no_assessments db -> assessed_ok uuid4 db.
Proof. intros (H & E1 & E2). split; rewrite ?E1, ?E2; [by apply no_rules_ok | by intros..]. Qed.

Context `{!Inj (=) (=) uuid4}.

Lemma step_sound db db' : assessment_step db db' -> assessed_ok uuid4 db -> sound uuid4 db db'.
Proof.
  intros [] Hok; [by eapply create_sound | by eapply evaluate_sound | by eapply review_sound | by eapply request_sound
    | by eapply override_sound | by eapply approve_sound | | ].
  - apply sound_elsewhere; [done | eapply rule_steps_hold; [exact _ | eassumption | apply Hok] | done..].
  - apply sound_elsewhere; [done | apply holds_refl, Hok | done..].
Qed.

Lemma steps_sound db db' : assessment_steps db db' -> assessed_ok uuid4 db -> sound uuid4 db db'.
Proof. induction 1 as [db|db b c H _ IH]; intros Hok; [by apply sound_refl|]. eapply sound_trans; [by apply step_sound | exact IH]. Qed.

(** C22. Rules are governed.  In every state the calls can make, in any order: a rule
    cites at least one snapshot, and every one it cites was approved by someone; a source
    has at most one snapshot that is approved, its current one; and at most one set of a
    name is active.  Whatever happens later, a snapshot keeps its source, its version, its
    hash and where its bytes are, and one that was approved stays citable under the name
    of who approved it. *)
Theorem rules_governed db0 db db' :
  no_rules db0 -> rule_steps db0 db -> rule_steps db db' ->
  (forall k r, requirement_rules db !! k = Some r -> links_of k db <> [] /\
     forall l, l ∈ links_of k db -> exists x, snapshots db !! lk_snapshot l = Some x /\ (sn_status x ∈ CITABLE) /\ is_Some (sn_reviewed_by x)) /\
  (forall i j x y, snapshots db !! i = Some x -> snapshots db !! j = Some y -> sn_source x = sn_source y ->
     sn_status x = value SnapshotReviewStatus.APPROVED -> sn_status y = value SnapshotReviewStatus.APPROVED -> i = j) /\
  (forall k l s t, rule_sets db !! k = Some s -> rule_sets db !! l = Some t -> st_name s = st_name t ->
     active_set s = true -> active_set t = true -> k = l) /\
  (forall i x, snapshots db !! i = Some x -> exists x', snapshots db' !! i = Some x' /\
     (sn_source x', sn_version x', sn_sha256 x', sn_uri x') = (sn_source x, sn_version x, sn_sha256 x, sn_uri x) /\
     ((sn_status x ∈ CITABLE) -> (sn_status x' ∈ CITABLE) /\ sn_reviewed_by x' = sn_reviewed_by x)).
Proof.
  intros H0 Hs Hs'. destruct (rule_steps_hold _ _ _ _ _ _ _ _ _ _ _ _ _ Hs (no_rules_ok _ H0)) as [Hok _].
  destruct (rule_steps_hold _ _ _ _ _ _ _ _ _ _ _ _ _ Hs' Hok) as [_ Hk]. destruct Hok as [Hf Hsrc Hn Hc Ha Ht Hu Hr]. split_and!; [| | exact Hu |].
  - intros k r Hkr. destruct (Hr k r Hkr) as (_ & Hl & H). split; [exact Hl|]. intros l Hll.
    apply H, citable_spec in Hll as (x & Hx & Hw). exists x. split_and!; [exact Hx | exact Hw | by apply (Hn _ _ Hx)].
  - intros i j x y Hx Hy E Hax Hay. destruct (Ha _ _ Hx Hax) as (s & Hs1 & Es). destruct (Ha _ _ Hy Hay) as (t & Ht1 & Et). congruence.
  - intros i x Hx. destruct (Hk i x Hx) as (y & Hy & [= _ E1 E2 E3 E4] & H). exists y. by rewrite E1, E2, E3, E4.
Qed.

(** C21. What a stored answer cites.  In every state the calls can make, whoever makes
    them and in whatever order, every citation of a stored answer is of a snapshot of the
    source it names that a reviewer approved; and in an answer that says likely required or
    likely not required every citation carries the status its source had when the answer
    was made, which is neither STALE nor NO_SOURCE, as is the worst of them, and one
    citation is authoritative.  The status looks at the last verification only: a source
    that has expired ([expiry_ignored]), one whose text has changed
    ([changed_source_fresh]) and one that was never verified, whose status is UNKNOWN, are
    let through. *)
Theorem stored_answers_backed db0 db i r :
  no_assessments db0 -> assessment_steps db0 db -> results db !! i = Some r ->
  (forall c, c ∈ source_citations (re_answer r) -> exists x, snapshot_id c = Some (sn_id x) /\ source_id c = Some (sn_source x) /\
     snapshots (governance db) !! sn_id x = Some x /\ (sn_status x ∈ CITABLE) /\ is_Some (sn_reviewed_by x)) /\
  (confident (res_outcome (re_answer r)) = true ->
     (source_freshness_status (re_answer r) ∉ value <$> [SourceFreshnessStatus.STALE; SourceFreshnessStatus.NO_SOURCE]) /\
     (forall c, c ∈ source_citations (re_answer r) -> exists s, freshness_status c = Some s /\ ~ outdated s) /\
     exists c, c ∈ source_citations (re_answer r) /\ authority_level c ∈ AUTHORITATIVE_LEVELS).
Proof.
  intros H0 Hs Hr. destruct (steps_sound _ _ Hs (no_assessments_ok _ H0)) as [Hok _]. by apply (ao_results _ _ Hok) in Hr as [_ Hr].
Qed.

(** C23. What an approval freezes.  Once an assessment is approved, no call changes its
    row, the facts, jurisdictions and rule set it was made of, or the answers it holds. *)
Theorem approved_answers_kept db0 db db' k a :
  no_assessments db0 -> assessment_steps db0 db -> assessment_steps db db' -> assessments db !! k = Some a ->
  as_status a = value AssessmentStatus.APPROVED ->
  assessments db' !! k = Some a /\ forall i, held i k db' = held i k db.
Proof.
  intros H0 Hs Hs' Hk Ha. destruct (steps_sound _ _ Hs (no_assessments_ok _ H0)) as [Hok _].
  destruct (steps_sound _ _ Hs' Hok) as [_ Hf]. by apply Hf.
Qed.

Lemma newest_first o l :
  (forall p, p ∈ l -> ov_created p < ov_created o) -> exists t, py_sorted newer (l ++ [o]) = o :: t.
Proof.
  intros Hl. destruct (py_sorted newer (l ++ [o])) as [|q t] eqn:E.
  - exfalso. assert (o ∈ py_sorted newer (l ++ [o])) as H by (apply elem_of_py_sorted, elem_of_app; right; left). rewrite E in H.
    by apply not_elem_of_nil in H.
  - exists t. f_equal. assert (q ∈ py_sorted newer (l ++ [o])) as H by (rewrite E; left). apply elem_of_py_sorted, elem_of_app in H as [Hq|Hq].
    + exfalso. assert (newer q o = true) as Hle.
      { apply (py_sorted_head_le newer) with (l := l ++ [o]); [unfold newer; intros; lia..|by rewrite E|]. apply elem_of_app. right. left. }
      unfold newer in Hle. apply Hl in Hq. lia.
    + by apply list_elem_of_singleton in Hq.
Qed.

(** What an override does.  Only counsel, a regulator or an executive with a reference
    overrides to not required.  While the newest override of a result is in its validity
    it governs; and when no override of the result is in its validity any longer, the
    outcome it gave governs all the same, as what was reviewed. *)
Theorem override_outlives_validity db0 db i n who now o db' :
  no_assessments db0 -> assessment_steps db0 db -> override_result uuid4 i n who now db = Ok (o, db') ->
  (forall p, p ∈ overrides db -> ov_result p = i -> ov_created p < now) ->
  (nv_outcome n = value RequirementOutcome.LIKELY_NOT_REQUIRED ->
     nv_authority n <> value OverrideAuthority.COMPLIANCE_MANAGER /\ strip (default "" (nv_reference n)) <> "") /\
  (forall today, in_validity today o = true ->
     exists e, effective_outcome i today db' = Ok e /\ eo_outcome e = nv_outcome n /\ eo_override_active e = true) /\
  (forall today, (forall p, p ∈ overrides db' -> ov_result p = i -> in_validity today p = false) ->
     exists e, effective_outcome i today db' = Ok e /\ eo_outcome e = nv_outcome n /\ eo_override_active e = false).
Proof.
  intros H0 Hs H Hold. destruct (steps_sound _ _ Hs (no_assessments_ok _ H0)) as [Hok _]. unfold override_result in H. inv_ok. subst.
  rename H1 into Hr, a into r. apply row_found in Hr. destruct (ao_results _ _ Hok _ _ Hr) as [Ei _].
  match goal with |- context [effective_outcome i _ ?d] => set (db' := d) end.
  set (o := new_override (uuid4 (next_row db)) r n who now) in *.
  assert (results db' !! i = Some (r <| re_reviewed_outcome := Some (nv_outcome n) |> <| re_reviewed_by := Some (actor_id who) |> <| re_reviewed_at := Some now |>)) as Hr'.
  { cbn. rewrite Ei. apply lookup_insert_eq. }
  assert (overrides_of i db' = py_sorted newer (filter (fun p => ov_result p = i) (overrides db) ++ [o])) as El.
  { unfold overrides_of. change (overrides db') with (overrides db ++ [o]). rewrite filter_app. do 2 f_equal.
    rewrite filter_cons_True; [done | exact Ei]. }
  split_and!.
  - intros E. rewrite (bool_decide_eq_true_2 _ E) in *. cbn in *. split; intros E'; rewrite (bool_decide_eq_true_2 _ E') in *; done.
  - intros today Hv. destruct (newest_first o (filter (fun p => ov_result p = i) (overrides db))) as [t Et].
    { intros p [Hp1 Hp2]%list_elem_of_filter. by apply Hold. }
    unfold effective_outcome, get. rewrite Hr', El, Et. msimpl. rewrite filter_cons_True by done. by eexists.
  - intros today Hno. unfold effective_outcome, get. rewrite Hr'. msimpl.
    assert (filter (fun p => in_validity today p = true) (overrides_of i db') = []) as ->.
    { apply filter_none. intros p Hp. unfold overrides_of in Hp. apply elem_of_py_sorted, list_elem_of_filter in Hp as [Hp1 Hp2]. by rewrite Hno. }
    eexists. split; [reflexivity|]. split; [|reflexivity]. cbn. unfold or_text, truthy_str. rewrite bool_decide_eq_false_2; [done|].
    intros E. match goal with Hv : is_value (nv_outcome n) = true |- _ => rewrite E in Hv; by vm_compute in Hv end.
Qed.
End Guarantees.

(** ** A run *)

Definition req_ids (n : nat) : uuid := "row-" +:+ pretty n.
Instance req_ids_inj : Inj (=) (=) req_ids.
Proof. intros a b E. apply (inj (String.append "row-")) in E. by apply (inj pretty) in E. Qed.

Definition keys_first (_ _ : uuid) : bool := true.
Definition short_digest (s : string) : string := str_take 8 s.
Definition compiles (_ : string) : bool := true.
Definition bracketed (_ : string) : bool := true.
Definition resolves (_ : string) : option (list string) := Some ["203.0.113.7"].
Definition public (_ : string) : bool := true.
Definition page (_ : string) : result exn (Z * string * string) := Ok (200, "text/html; charset=utf-8", "new statute").
Definition as_text (s : string) : string := s.
Definition kept_at (key _ : string) : result exn string := Ok key.
Definition no_search (_ _ : string) (_ : bool) : result exn bool := Ok false.
Definition no_json (_ : json) : string := "".
Definition fetching_on : SourceSettings :=
  {| requirement_source_fetch_enabled := true; requirement_source_allowed_hosts := [" NMLS.example "];
     requirement_source_max_bytes := 100; requirement_source_freshness_days := None |}.
Definition reviewed_by_people : AssessmentSettings :=
  {| licensing_require_human_review := true; licensing_require_counsel_for_not_required := true |}.

Definition ruth : CurrentActor := {| actor_id := "ruth"; roles := [] |}.
Definition sam : CurrentActor := {| actor_id := "sam"; roles := [] |}.
Definition at_day (d : Z) : instant := combine_utc (ymd2ord 2026 2 d) 9.

Notation some_rule_step := (rule_step req_ids keys_first short_digest compiles bracketed resolves public page as_text kept_at fetching_on).
Notation some_rule_steps := (rule_steps req_ids keys_first short_digest compiles bracketed resolves public page as_text kept_at fetching_on).
Notation some_steps := (assessment_steps req_ids keys_first short_digest compiles bracketed resolves public page as_text kept_at fetching_on
  reviewed_by_people no_json no_search no_json).
Notation some_step := (assessment_step req_ids keys_first short_digest compiles bracketed resolves public page as_text kept_at fetching_on
  reviewed_by_people no_json no_search no_json).

Definition at_first : RuleDb :=
  {| sources := ∅; snapshots := ∅; rule_sets := ∅; requirement_rules := ∅; rule_sources := []; deadline_rules := ∅;
     log := {| audits := []; notices := [] |}; next_id := 0 |}.

Definition the_source : NewSource :=
  {| ns_key := "tx-statute"; ns_type := value SourceType.STATUTE; ns_authority := value AuthorityLevel.OFFICIAL_PRIMARY; ns_title := "Statute";
     ns_url := Some "https://nmls.example/tx"; ns_access := None; ns_effective := None; ns_expiry := None; ns_owner := None; ns_freshness := None |}.
Definition the_text : NewSnapshot := {| nn_content := Some "statute"; nn_sha256 := None; nn_uri := None; nn_text_uri := None; nn_effective := None |}.
Definition the_new_rule : NewRule := {| nu_rule := rule_required; nu_first := req_ids 1; nu_others := [] |}.

Definition rules_after {A} (r : result exn (A * RuleDb)) (db : RuleDb) : RuleDb := match r with Ok (_, db') => db' | Err _ => db end.
Definition r1 := rules_after (register_source req_ids fetching_on the_source ruth at_first) at_first.
Definition r2 := rules_after (add_snapshot req_ids short_digest (req_ids 0) the_text ruth (at_day 1) r1) r1.
Definition r3 := rules_after (review_snapshot (req_ids 1) true (Some true) sam (at_day 2) r2) r2.
Definition r4 := (create_rule_set req_ids "core" None r3).2.
Definition r5 := rules_after (create_requirement_rule req_ids compiles (req_ids 2) the_new_rule r4) r4.
Definition r6 := rules_after (activate_rule_set keys_first (req_ids 2) ruth (at_day 3) r5) r5.
Definition r7 := rules_after (fetch_public_snapshot req_ids short_digest bracketed resolves public page as_text kept_at fetching_on (req_ids 0) ruth (at_day 20) r6) r6.

Definition ok_rules {A} (r : result exn (A * RuleDb)) : bool := match r with Ok _ => true | Err _ => false end.

Lemma rules_after_Ok {A} (r : result exn (A * RuleDb)) db : ok_rules r = true -> exists x, r = Ok (x, rules_after r db).
Proof. destruct r as [[x d]|]; [by exists x | done]. Qed.

Lemma first_rules : some_rule_steps at_first r6.
Proof.
  apply (rtc_l _ _ r1). { destruct (rules_after_Ok (register_source req_ids fetching_on the_source ruth at_first) at_first) as [x H]; [vm_compute; reflexivity|]. exact (s_register _ _ _ _ _ _ _ _ _ _ _ _ _ _ _ _ H). }
  apply (rtc_l _ _ r2). { destruct (rules_after_Ok (add_snapshot req_ids short_digest (req_ids 0) the_text ruth (at_day 1) r1) r1) as [x H]; [vm_compute; reflexivity|]. exact (s_add _ _ _ _ _ _ _ _ _ _ _ _ _ _ _ _ _ _ H). }
  apply (rtc_l _ _ r3). { destruct (rules_after_Ok (review_snapshot (req_ids 1) true (Some true) sam (at_day 2) r2) r2) as [x H]; [vm_compute; reflexivity|]. exact (s_review _ _ _ _ _ _ _ _ _ _ _ _ _ _ _ _ _ _ _ H). }
  apply (rtc_l _ _ r4). { apply s_new_set. }
  apply (rtc_l _ _ r5). { destruct (rules_after_Ok (create_requirement_rule req_ids compiles (req_ids 2) the_new_rule r4) r4) as [x H]; [vm_compute; reflexivity|]. exact (s_new_rule _ _ _ _ _ _ _ _ _ _ _ _ _ _ _ _ H). }
  apply rtc_once. { destruct (rules_after_Ok (activate_rule_set keys_first (req_ids 2) ruth (at_day 3) r5) r5) as [x H]; [vm_compute; reflexivity|]. exact (s_activate _ _ _ _ _ _ _ _ _ _ _ _ _ _ _ _ _ H). }
Qed.

Lemma then_fetched : some_rule_steps r6 r7.
Proof.
  apply rtc_once. destruct (rules_after_Ok (fetch_public_snapshot req_ids short_digest bracketed resolves public page as_text kept_at fetching_on (req_ids 0) ruth (at_day 20) r6) r6) as [x H]; [vm_compute; reflexivity|].
  exact (s_fetch _ _ _ _ _ _ _ _ _ _ _ _ _ _ _ _ _ H).
Qed.

Lemma nothing_first : no_rules at_first.
Proof. by split_and!. Qed.

Lemma rules_governed_witness :
  (forall k r, requirement_rules r6 !! k = Some r -> links_of k r6 <> [] /\
     forall l, l ∈ links_of k r6 -> exists x, snapshots r6 !! lk_snapshot l = Some x /\ (sn_status x ∈ CITABLE) /\ is_Some (sn_reviewed_by x)) /\
  (forall i j x y, snapshots r6 !! i = Some x -> snapshots r6 !! j = Some y -> sn_source x = sn_source y ->
     sn_status x = value SnapshotReviewStatus.APPROVED -> sn_status y = value SnapshotReviewStatus.APPROVED -> i = j) /\
  (forall k l s t, rule_sets r6 !! k = Some s -> rule_sets r6 !! l = Some t -> st_name s = st_name t ->
     active_set s = true -> active_set t = true -> k = l) /\
  (forall i x, snapshots r6 !! i = Some x -> exists x', snapshots r7 !! i = Some x' /\
     (sn_source x', sn_version x', sn_sha256 x', sn_uri x') = (sn_source x, sn_version x, sn_sha256 x, sn_uri x) /\
     ((sn_status x ∈ CITABLE) -> (sn_status x' ∈ CITABLE) /\ sn_reviewed_by x' = sn_reviewed_by x)).
Proof.
  exact (rules_governed req_ids keys_first short_digest compiles bracketed resolves public page as_text kept_at fetching_on
           at_first r6 r7 nothing_first first_rules then_fetched).
Defined.

(** The fetched page differs, awaits its review, and the source counts as verified at
    that moment. *)
Example changed_source_fresh :
  (fun s => (rq_verification s, rq_verified s, fa_status (source_freshness fetching_on s (at_day 20)))) <$> sources r7 !! req_ids 0 =
    Some (value SourceVerificationStatus.CHANGED_PENDING_REVIEW, Some (at_day 20), value SourceFreshnessStatus.FRESH).
Proof. vm_compute. reflexivity. Qed.

(** An address whose user name looks like an allowed host is fetched from another. *)
Example allow_list_bypassed :
  let url := "https://nmls.example:x@evil.example/tx" in
  _assert_url_permitted fetching_on url true = Ok tt /\ hostname <$> urlparse bracketed url = Ok (Some "evil.example").
Proof. vm_compute. done. Qed.

(** A source past its expiry date is not stale. *)
Lemma expiry_ignored s d now : source_freshness fetching_on (s <| rq_expiry := d |>) now = source_freshness fetching_on s now.
Proof. reflexivity. Qed.

Definition before_rules : AssessmentDb :=
  {| governance := at_first; entities := {["le" := {| ae_key := "astra"; ae_in_scope := true |}]};
     profiles := {["profile" := {| op_entity := "le"; op_version := 1; op_status := "ACTIVE"; op_facts := [("collects", JBool true)] |}]};
     jurisdictions := {["TX" := "Texas"]}; assessments := ∅; results := ∅; overrides := []; next_row := 0 |}.

Definition assessed_at_first : AssessmentDb := before_rules <| governance := r6 |>.

Definition the_assessment : NewAssessment :=
  {| na_entity := "le"; na_profile := "profile"; na_jurisdictions := ["TX"]; na_type := None; na_facts := []; na_effective := None; na_rule_set := None |}.
Definition not_needed (authority : string) : NewOverride :=
  {| nv_outcome := value RequirementOutcome.LIKELY_NOT_REQUIRED; nv_reason := "Counsel memo of January"; nv_authority := authority;
     nv_reference := Some "memo-7"; nv_from := None; nv_to := Some (ymd2ord 2026 2 10) |}.
Definition by_manager : NewOverride :=
  {| nv_outcome := value RequirementOutcome.OUT_OF_SCOPE; nv_reason := "Not in our footprint"; nv_authority := value OverrideAuthority.COMPLIANCE_MANAGER;
     nv_reference := None; nv_from := None; nv_to := None |}.

Definition then_ {A} (r : result exn (A * AssessmentDb)) (db : AssessmentDb) : AssessmentDb := match r with Ok (_, db') => db' | Err _ => db end.
Definition ok_call {A} (r : result exn (A * AssessmentDb)) : bool := match r with Ok _ => true | Err _ => false end.
Lemma then_Ok {A} (r : result exn (A * AssessmentDb)) db : ok_call r = true -> exists x, r = Ok (x, then_ r db).
Proof. destruct r as [[x d]|]; [by exists x | done]. Qed.

#[local] Notation do_create := (create_assessment req_ids short_digest no_json the_assessment "ab12" ruth (at_day 4)).
#[local] Notation do_evaluate := (Assessments.evaluate req_ids no_search no_json fetching_on reviewed_by_people (req_ids 0) (Some ruth) (at_day 5)).
#[local] Notation do_review := (review_result (req_ids 1) None false sam (at_day 6)).
#[local] Notation do_approve := (approve (req_ids 0) sam (at_day 7)).
#[local] Notation do_override := (override_result req_ids (req_ids 1) (not_needed (value OverrideAuthority.EXTERNAL_COUNSEL)) sam (at_day 8)).
Definition a1 := then_ (do_create assessed_at_first) assessed_at_first.
Definition a2 := then_ (do_evaluate a1) a1.
Definition a3 := then_ (do_review a2) a2.
Definition a4 := then_ (do_approve a3) a3.
Definition a5 := then_ (do_override a4) a4.
Definition the_override : AssessmentOverride :=
  match do_override a4 with
  | Ok (o, _) => o
  | Err _ => {| ov_id := ""; ov_result := ""; ov_original := ""; ov_outcome := ""; ov_reason := ""; ov_authority := ""; ov_by := "";
                ov_reference := None; ov_from := 0; ov_to := None; ov_created := 0 |}
  end.

Lemma nothing_assessed : no_assessments before_rules.
Proof. by split_and!. Qed.

Lemma run_to_approval : some_steps before_rules a4.
Proof.
  apply (rtc_l _ _ assessed_at_first). { unfold assessed_at_first. apply t_rules. exact first_rules. }
  apply (rtc_l _ _ a1). { destruct (then_Ok (do_create assessed_at_first) assessed_at_first) as [x H]; [vm_compute; reflexivity|]. exact (t_create _ _ _ _ _ _ _ _ _ _ _ _ _ _ _ _ _ _ _ _ _ _ H). }
  apply (rtc_l _ _ a2). { destruct (then_Ok (do_evaluate a1) a1) as [x H]; [vm_compute; reflexivity|]. exact (t_evaluate _ _ _ _ _ _ _ _ _ _ _ _ _ _ _ _ _ _ _ _ _ H). }
  apply (rtc_l _ _ a3). { destruct (then_Ok (do_review a2) a2) as [x H]; [vm_compute; reflexivity|]. exact (t_review _ _ _ _ _ _ _ _ _ _ _ _ _ _ _ _ _ _ _ _ _ _ _ H). }
  apply rtc_once. destruct (then_Ok (do_approve a3) a3) as [x H]; [vm_compute; reflexivity|]. exact (t_approve _ _ _ _ _ _ _ _ _ _ _ _ _ _ _ _ _ _ _ _ _ H).
Qed.

Lemma overridden_after : do_override a4 = Ok (the_override, a5).
Proof. unfold a5, the_override, then_. destruct (do_override a4) as [[o d]|] eqn:E; [done | by vm_compute in E]. Qed.

Lemma run_on : some_steps a4 a5.
Proof. apply rtc_once. exact (t_override _ _ _ _ _ _ _ _ _ _ _ _ _ _ _ _ _ _ _ _ _ _ overridden_after). Qed.

Definition the_result : RequirementAssessmentResult :=
  default {| re_id := ""; re_assessment := ""; re_answer := out_of_scope_result no_json "" "" None (policy reviewed_by_people);
             re_counsel := false; re_reviewed_outcome := None; re_reviewed_by := None; re_reviewed_at := None |} (results a4 !! req_ids 1).

(** The run gives a confident answer with a citation. *)
Lemma result_held : results a4 !! req_ids 1 = Some the_result.
Proof. vm_compute. reflexivity. Qed.
Lemma result_confident : confident (res_outcome (re_answer the_result)) = true /\ length (source_citations (re_answer the_result)) = 1%nat.
Proof. vm_compute. done. Qed.

Lemma stored_answers_backed_witness :
  (forall c, c ∈ source_citations (re_answer the_result) -> exists x, snapshot_id c = Some (sn_id x) /\ source_id c = Some (sn_source x) /\
     snapshots (governance a4) !! sn_id x = Some x /\ (sn_status x ∈ CITABLE) /\ is_Some (sn_reviewed_by x)) /\
  (confident (res_outcome (re_answer the_result)) = true ->
     (source_freshness_status (re_answer the_result) ∉ value <$> [SourceFreshnessStatus.STALE; SourceFreshnessStatus.NO_SOURCE]) /\
     (forall c, c ∈ source_citations (re_answer the_result) -> exists s, freshness_status c = Some s /\ ~ outdated s) /\
     exists c, c ∈ source_citations (re_answer the_result) /\ authority_level c ∈ AUTHORITATIVE_LEVELS).
Proof.
  exact (stored_answers_backed req_ids keys_first short_digest compiles bracketed resolves public page as_text kept_at fetching_on
           reviewed_by_people no_json no_search no_json before_rules a4 (req_ids 1) the_result nothing_assessed run_to_approval result_held).
Defined.

Definition the_approved : RequirementAssessment :=
  match approve (req_ids 0) sam (at_day 7) a3 with
  | Ok (a, _) => a
  | Err _ => {| as_id := ""; as_key := ""; as_entity := ""; as_profile := ""; as_type := ""; as_status := ""; as_jurisdictions := [];
                as_facts := []; as_fingerprint := ""; as_rule_set := ""; as_effective := 0; as_created_by := ""; as_reviewed_by := None;
                as_reviewed_at := None; as_evaluated_at := None |}
  end.
Lemma approved_held : assessments a4 !! req_ids 0 = Some the_approved.
Proof. vm_compute. reflexivity. Qed.
Lemma approved_status : as_status the_approved = value AssessmentStatus.APPROVED.
Proof. vm_compute. reflexivity. Qed.

Lemma approved_answers_kept_witness :
  assessments a5 !! req_ids 0 = Some the_approved /\ forall i, held i (req_ids 0) a5 = held i (req_ids 0) a4.
Proof.
  exact (approved_answers_kept req_ids keys_first short_digest compiles bracketed resolves public page as_text kept_at fetching_on
           reviewed_by_people no_json no_search no_json before_rules a4 a5 (req_ids 0) the_approved nothing_assessed run_to_approval run_on
           approved_held approved_status).
Defined.

Lemma first_override : forall p, p ∈ overrides a4 -> ov_result p = req_ids 1 -> ov_created p < at_day 8.
Proof. assert (overrides a4 = []) as -> by (vm_compute; reflexivity). by intros p ?%not_elem_of_nil. Qed.

Lemma override_outlives_validity_witness :
  (forall today, in_validity today the_override = true ->
     exists e, effective_outcome (req_ids 1) today a5 = Ok e /\ eo_outcome e = value RequirementOutcome.LIKELY_NOT_REQUIRED /\ eo_override_active e = true) /\
  (forall today, (forall p, p ∈ overrides a5 -> ov_result p = req_ids 1 -> in_validity today p = false) ->
     exists e, effective_outcome (req_ids 1) today a5 = Ok e /\ eo_outcome e = value RequirementOutcome.LIKELY_NOT_REQUIRED /\ eo_override_active e = false).
Proof.
  exact (proj2 (override_outlives_validity req_ids keys_first short_digest compiles bracketed resolves public page as_text kept_at fetching_on
           reviewed_by_people no_json no_search no_json before_rules a4 (req_ids 1) (not_needed (value OverrideAuthority.EXTERNAL_COUNSEL)) sam
           (at_day 8) the_override a5 nothing_assessed run_to_approval overridden_after first_override)).
Defined.

(** The override ends on the tenth; on the eleventh its outcome still governs. *)
Example not_required_after_expiry :
  effective_outcome (req_ids 1) (ymd2ord 2026 2 11) a5 =
    Ok {| eo_outcome := value RequirementOutcome.LIKELY_NOT_REQUIRED; eo_override_active := false; eo_expired := 1 |}.
Proof. vm_compute. reflexivity. Qed.

(** A result that needs counsel is finalized by a manager's override, and approved. *)
Example counsel_bypassed :
  let flagged := then_ (request_counsel_review (req_ids 1) ruth a2) a2 in
  review_result (req_ids 1) None false sam (at_day 6) flagged = Err StateConflictError /\
  approve (req_ids 0) sam (at_day 7) flagged = Err StateConflictError /\
  ok_call (approve (req_ids 0) sam (at_day 7) (then_ (override_result req_ids (req_ids 1) by_manager sam (at_day 6) flagged) flagged)) = true.
Proof. vm_compute. done. Qed.

(** An approved assessment keeps its status when counsel is asked about a result. *)
Example approved_while_unreviewed :
  let db := then_ (request_counsel_review (req_ids 1) ruth a4) a4 in
  (as_status <$> assessments db !! req_ids 0) = Some (value AssessmentStatus.APPROVED) /\
  ((fun r => (re_counsel r, re_reviewed_by r)) <$> results db !! req_ids 1) = Some (true, None).
Proof. vm_compute. done. Qed.

(** An assessment that names a jurisdiction twice is created, and cannot be evaluated. *)
Example jurisdiction_twice :
  let n := {| na_entity := "le"; na_profile := "profile"; na_jurisdictions := ["TX"; "TX"]; na_type := None; na_facts := []; na_effective := None;
              na_rule_set := None |} in
  let db := then_ (create_assessment req_ids short_digest no_json n "ab12" ruth (at_day 4) assessed_at_first) assessed_at_first in
  (as_status <$> assessments db !! req_ids 0) = Some (value AssessmentStatus.DRAFT) /\
  ok_call (Assessments.evaluate req_ids no_search no_json fetching_on reviewed_by_people (req_ids 0) None (at_day 5) db) = false.
Proof. vm_compute. done. Qed.
